(* ===== verification/_CoqProject ===== *)
-Q . S2P
Prelude.v
State.v
Spinlock.v
Core.v
SpinRefine.v
Sem.v
Bio.v
Memide.v
Ring.v
Cache.v
Log.v
LogSpec.v
Str.v
Printf.v
Kalloc.v
Pipe.v
Fs.v
FsLayout.v
Console.v
Vm.v
File.v
Proc.v
Syscall.v
Exec.v
Sysfile.v
Kbd.v
Trap.v
Ports.v
Apic.v
ApicSpec.v
Ide.v
IdeSpec.v
Mp.v
MpSpec.v
Uart.v
Boot.v
BootSpec.v
Seg.v
Asm.v
Sched.v
AsmSpec.v
AsmBoot.v
Main.v
ProcSpec.v
ConsoleOut.v
VmSpec.v
VmUser.v
VmProc.v
VmTheorem.v
ProcMem.v
ForkSpec.v
WaitSpec.v
History.v
Editor.v
ConsoleRead.v
SyscallSpec.v
FsTx.v
FsCommit.v
FsAlloc.v
FsFile.v
FsIo.v
FsSpec.v
DirSpec.v
FileSpec.v
User.v
Utils.v
Grep.v
Sh.v
ShSpec.v
ShParse.v
ShRun.v
UtFile.v
Umalloc.v
UtProc.v
UtRun.v
UmallocSpec.v
Mkfs.v
MkfsSpec.v
MkfsImage.v
MkfsTheorem.v
