(* ===== verification/Prelude.v ===== *)
(** * xv6-core: a verification development (root file)

    The program is xv6-core (under src/xv6-core): a small Unix for x86, its boot loader,
    its user programs and the program that makes its disk image, with the additions of a
    lab: console editing, history and completion, semaphores with the dining philosophers,
    the system calls flpf and get_parent_pid, and user programs for them.  The development
    is a shallow embedding: each routine of the source is a Rocq function on an explicit
    state, and the theorems are about these functions.

    ** The parts and how they interact

    A program calls the kernel through [trap] and [syscall], which dispatch to the calls of
    sysproc.c and sysfile.c.  File calls go through open files (file.c) to pipes, devices or
    inodes (fs.c); inodes are changed inside transactions of the log (log.c), which writes
    blocks through the buffer cache (bio.c) and a disk driver (ide.c or memide.c).  Process
    calls use the process table (proc.c), page tables (vm.c) and the page allocator
    (kalloc.c).  All of them use spinlocks, sleep and wakeup.  The console takes characters
    from the keyboard and the serial port.  bootasm.S and bootmain.c load the kernel, entry.S
    enters it and main.c starts it on the processors that mp.c finds, which entryother.S
    brings up.  An interrupt or a system call (usys.S) reaches [trap] through the entry points
    of vectors.pl and trapasm.S, and swtch.S changes from one process to another.  User
    programs run on the system calls; mkfs.c makes the file system that the kernel mounts.

    ** Conventions

    The kernel's global variables are one record, [State.kstate]: the process table, pages
    of memory by address, buffers, disk, log, inodes, files, pipes, console and the locks
    held.  A routine is a [KM A] ([M] below): it returns, panics, or is put to sleep, and
    then the model stops in the state in which [sched] is entered; what follows the sleep is
    a routine of its own ([sleep_return], [acquiresleep_loop], [ide_rw_return] and so on).
    [wp m Q s] is total correctness: [m] returns from [s] and [Q] holds.  Integers are [Z]
    with their wrap-around written out ([u8], [u16], [u32], [i32]); memory, disk blocks and
    structures laid over them are lists of bytes, read and written with [rd] and [wr].  An
    access outside an array panics with "undefined behaviour".  Drivers run over
    [Ports.machine], which adds their variables and the devices to the kernel's state.  A
    user program is a tree of system calls ([User.user]).  Assembly is a list of
    instructions; [Asm.step] executes the one at the instruction pointer on the registers
    and the memory of a processor ([Asm.cpu]), with the delivery of interrupts and [iret] as
    the processor's manual has them.

    What is not in the source is a parameter: disk drivers as the class [Bio.DiskDriver]
    that the buffer cache is proved against and that Memide implements; ports and device
    registers ([Ports], [Mmio]) with the documented behaviour of the device as laws
    ([IdeSpec.IdeDisk], [BootSpec.PolledDisk], [ApicSpec.Clock], [ApicSpec.IoRegs],
    [Uart.UartDev]); addresses that the linker chooses ([Kalloc.Linker], [Proc.Symbols],
    [Seg.Tables], [Main.Entry]), and where the code is in memory ([Asm.Image]).  Each class has an instance in the file that uses it.

    ** Files

    - State: the structs and constants of the headers and the global variables.
    - Spinlock: spinlock.c on all CPUs with interrupts, step by step.  Core: the locks as one
      CPU sees them, sleep, wakeup, sched, yield and sleeplock.c.  SpinRefine: Core's locks
      are what Spinlock does.  Sched: scheduler of proc.c.
    - Sem: the semaphores of proc.c and the programs philosopher(s).c.
    - Bio, Ring, Cache: bio.c, its list and its contract.  Memide: memide.c.  Ide, IdeSpec:
      ide.c and the order in which it serves requests.
    - Log, LogSpec: log.c and recovery.  Fs: fs.c.  FsLayout: encodings and path names.
      FsTx, FsCommit, FsAlloc, FsFile, FsIo, FsSpec: transactions, the free map and the
      contents of files.  DirSpec: directories.  File, FileSpec: file.c.  Pipe: pipe.c.
    - Kalloc: kalloc.c.  Vm: vm.c and mmu.h.  VmSpec, VmUser, VmProc, VmTheorem: page
      directories as finite maps, and user memory byte by byte.  Seg: descriptors, gates,
      seginit, switchuvm, tvinit.  Proc, ProcSpec, ProcMem: proc.c and growproc.  ForkSpec:
      fork, and the first run of the child.  WaitSpec: wait.
    - Asm: the processor and the code of swtch.S, trapasm.S, vectors.pl, usys.S, initcode.S,
      entry.S, bootasm.S and entryother.S.  AsmSpec: what the switch, the trap path and the
      system call stubs do.  AsmBoot: the code that runs before C.
    - Syscall, SyscallSpec: syscall.c and sysproc.c.  Sysfile: sysfile.c.  Exec: exec.c.
      Trap: trap.c.
    - Console, ConsoleOut, Editor, History, ConsoleRead: console.c.  Kbd: kbd.c.  Uart: uart.c.
    - Ports, Apic, ApicSpec: lapic.c, ioapic.c, picirq.c.  Mp, MpSpec: mp.c.  Boot, BootSpec:
      bootmain.c.  Main: main.c.
    - Str, Printf: string.c, ulib.c, printf.c.  User: system calls, printf and the library
      over them.  Utils: the small programs.  Grep: grep.c.  Sh, ShSpec, ShParse, ShRun:
      sh.c.  Umalloc, UmallocSpec: umalloc.c.  UtFile, UtProc, UtRun: usertests.c.
    - Mkfs, MkfsSpec, MkfsImage, MkfsTheorem: mkfs.c.

    ** What the theorems show

    - Crash safety: a transaction is all on the disk or not at all after a crash at any write
      and any number of interrupted recoveries (LogSpec); a write to a file is safe in the
      same sense and each of its transactions fits the reservation (FileSpec); the blocks of
      the free map and of files never overlap, and reading returns what was written (FsSpec,
      FsLayout); a directory finds the names that were linked and no others (DirSpec).  The
      queue of ide.c serves each request once, in order (IdeSpec), and mkfs makes a file system
      with these invariants (MkfsTheorem).
    - Concurrency: mutual exclusion and interrupts off under spinlocks, and their
      refinement (Spinlock, SpinRefine); no deadlock of the philosophers (Sem); no starvation
      by the scheduler (Sched); pipes are first-in first-out whatever the interleaving (Pipe).
    - Memory: pages are handed out to one owner (Kalloc); address spaces are built, copied,
      resized and freed without losing or sharing a page (VmUser, VmTheorem, ProcMem);
      pointers from user programs are checked (SyscallSpec); blocks of malloc never overlap
      (UmallocSpec).
    - Processes: a child is a copy of its parent, byte for byte ([ForkSpec.fork_copies]); its
      first switch, in assembly, ends in user mode with the parent's registers and 0 as the
      result ([ForkSpec.child_returns_zero]); [wait] gives back what [fork] took (WaitSpec).  A
      context switch is undone by the switch back, an interrupt is invisible to the code it
      interrupts, and a system call stub returns what [trap] stored (AsmSpec).
    - Console: the editor refines an editor of two lists (Editor), the screen shows what is
      printed (ConsoleOut), a line is read as it was edited (ConsoleRead), completion and
      history (History).
    - Start: the boot sector reaches [bootmain], the kernel's entry [main], and another
      processor [mpenter], in the mode and with the tables and stacks these need (AsmBoot);
      the boot loader loads every segment (BootSpec), the processors of the MP table
      are found (MpSpec), interrupts are routed and the clock is read without tearing
      (ApicSpec), gates and segments protect the kernel (Seg).
    - User programs: the shell's parser against its grammar (ShParse); what the processes of a
      line do, whichever calls the system refuses (ShRun); grep (Grep), and the file tests of usertests.c on a reference system
      (UtRun).

    Several theorems state where the code does not do what it means to: the log is smaller
    than the reservations that begin_op admits ([LogSpec.reservation_exceeds_log]), a
    completed command is shown but not entered ([Editor.completion_not_entered]), sbrk to
    zero leaves the size, and fork then panics ([ForkSpec.sbrk_to_zero_keeps_size]), kill of pid 0 dooms a process
    that does not exist yet ([WaitSpec.kill_zero_dooms_next]), an unknown MP entry hangs
    [mpinit] ([MpSpec.unknown_entry_hangs]), and lemmas on smaller matters.

    ** Bounds and fuel

    A loop that is not structurally recursive takes fuel, and the theorems give a bound that
    is always enough: the walks over bytes and pages take the length of what they walk; the
    list of the buffer cache its number of buffers; the MP table 65536 (its length has 16
    bits); [cmostime] 180 passes; a sector loop the number of sectors.  The polls of a device
    are bounded by [patience], and the device's laws say that it answers within it.  The
    loops of user programs that only a system call ends take a fuel that the theorems
    quantify over or bound by the input.

    ** Not modelled

    - The C compiler: a C routine is a function on the state, and assembly meets it at its
      entry and its return ([AsmSpec.trap_returned] states what a routine leaves alone).
      Addresses in the assembly are linear: the segments are flat, and translation by the
      page table is the subject of Vm.
    - The encoding of instructions: [Asm.Image] says which instruction is at an address.
    - The processor: the caches and the memory order of the processors (spinlock.c's barriers
      make its accesses sequential, which Spinlock takes for granted), and the timing of
      devices beyond what the laws state.
    - A run of a routine across its sleeps is a sequence of its parts; interleavings of whole
      routines are modelled for locks, semaphores, pipes, the disk queue and transactions,
      and not for all of the kernel at once.
    - The flags register in [sched] (its check that interrupts are off, and [intena]); [sti] in
      [scheduler]; the message printed by [iinit].
    - The counts of references to inodes and files are not wrapped at 32 bits.
    - The scripts sign.pl and pr.pl, the linker script and the Makefile, and declarations that
      only repeat signatures (defs.h, types.h, user.h beyond the calls). *)

From stdpp Require Import base gmap list strings.
From Stdlib Require Import ZArith Lia.

Local Open Scope Z_scope.

(** ** C integers at their width *)

Definition u8 (z : Z) : Z := z mod 256.
Definition u16 (z : Z) : Z := z mod 65536.
Definition u32 (z : Z) : Z := z mod 4294967296.
Definition i16 (z : Z) : Z := (z + 32768) mod 65536 - 32768.
Definition i32 (z : Z) : Z := (z + 2147483648) mod 4294967296 - 2147483648.

Lemma u32_range z : 0 <= u32 z < 4294967296.
Proof. unfold u32. apply Z.mod_pos_bound. lia. Qed.

Lemma u32_small z : 0 <= z < 4294967296 -> u32 z = z.
Proof. intros. unfold u32. apply Z.mod_small. lia. Qed.

Lemma i32_small z : -2147483648 <= z < 2147483648 -> i32 z = z.
Proof. intros. unfold i32. rewrite Z.mod_small; lia. Qed.

Lemma i32_range z : -2147483648 <= i32 z < 2147483648.
Proof.
  unfold i32. pose proof (Z.mod_pos_bound (z + 2147483648) 4294967296). lia.
Qed.

(** Bits that do not overlap. *)
Lemma lor_add k x f : 0 <= k -> x mod 2 ^ k = 0 -> 0 <= f < 2 ^ k -> Z.lor x f = x + f.
Proof.
  intros Hk Hx Hf. assert (Z.land x f = 0) as Hd.
  { apply Z.bits_inj'. intros i Hi. rewrite Z.land_spec, Z.bits_0. destruct (Z.ltb_spec i k).
    - rewrite <- (Z.mod_pow2_bits_low x k) by lia. by rewrite Hx, Z.bits_0.
    - destruct (decide (f = 0)) as [->|]; [by rewrite Z.bits_0, andb_false_r|]. rewrite (Z.bits_above_log2 f i); [by rewrite andb_false_r|lia|].
      apply Z.log2_lt_pow2; [lia|]. pose proof (Z.pow_le_mono_r 2 k i). lia. }
  by rewrite Z.add_nocarry_lxor, Z.lxor_lor by done.
Qed.

(** ** Little-endian byte strings

    Disk blocks, physical pages and C structs laid over them are lists of
    bytes, each byte a [Z] in [0, 256). *)

Fixpoint le_bytes (n : nat) (v : Z) : list Z :=
  match n with
  | O => []
  | S n' => (v mod 256) :: le_bytes n' (v / 256)
  end.

Fixpoint le_val (bs : list Z) : Z :=
  match bs with
  | [] => 0
  | b :: bs' => b + 256 * le_val bs'
  end.

(** [splice o xs bs] overwrites [bs] with [xs] from offset [o] on. *)
Definition splice {A} (o : nat) (xs bs : list A) : list A :=
  take o bs ++ xs ++ drop (o + length xs) bs.

(** [sub o n bs]: the [n] bytes of [bs] from offset [o]. *)
Definition sub {A} (o n : nat) (bs : list A) : list A := take n (drop o bs).

Definition rd (n o : nat) (bs : list Z) : Z := le_val (sub o n bs).
Definition wr (n o : nat) (v : Z) (bs : list Z) : list Z := splice o (le_bytes n v) bs.

Definition is_byte (b : Z) : Prop := 0 <= b < 256.

Lemma length_le_bytes n v : length (le_bytes n v) = n.
Proof. revert v. induction n; intros; simpl; [done|]. by rewrite IHn. Qed.

Lemma le_bytes_byte n v : Forall is_byte (le_bytes n v).
Proof.
  revert v. induction n; intros; simpl; constructor; [|done].
  apply Z.mod_pos_bound. lia.
Qed.

Lemma le_val_bytes n v : 0 <= v < 256 ^ Z.of_nat n -> le_val (le_bytes n v) = v.
Proof.
  revert v. induction n as [|n IH]; intros v Hv; cbn [le_bytes le_val].
  - change (256 ^ Z.of_nat 0) with 1 in Hv. lia.
  - rewrite Nat2Z.inj_succ, Z.pow_succ_r in Hv by lia.
    rewrite IH.
    + pose proof (Z.div_mod v 256). lia.
    + split; [apply Z.div_pos; lia|]. apply Z.div_lt_upper_bound; lia.
Qed.

Lemma le_val_range bs :
  Forall is_byte bs -> 0 <= le_val bs < 256 ^ Z.of_nat (length bs).
Proof.
  induction 1 as [|b bs Hb _ IH]; cbn [le_val length]; [simpl; lia|].
  rewrite Nat2Z.inj_succ, Z.pow_succ_r by lia. unfold is_byte in Hb. lia.
Qed.

Lemma le_bytes_val bs : Forall is_byte bs -> le_bytes (length bs) (le_val bs) = bs.
Proof.
  induction 1 as [|b bs Hb _ IH]; cbn [le_val length le_bytes]; [done|].
  unfold is_byte in Hb. f_equal.
  - rewrite (Z.mul_comm 256), Z.mod_add, Z.mod_small by lia. done.
  - rewrite (Z.mul_comm 256), Z.div_add, Z.div_small, Z.add_0_l by lia. done.
Qed.

Section splice.
Context {A : Type}.
Implicit Types xs bs : list A.

Lemma length_splice o xs bs :
  (o + length xs <= length bs)%nat -> length (splice o xs bs) = length bs.
Proof.
  intros. unfold splice. rewrite !length_app, length_take, length_drop. lia.
Qed.

Lemma length_sub o n bs : (o + n <= length bs)%nat -> length (sub o n bs) = n.
Proof. intros. unfold sub. rewrite length_take, length_drop. lia. Qed.

Lemma lookup_sub o n bs i :
  (i < n)%nat -> sub o n bs !! i = bs !! (o + i)%nat.
Proof. intros. unfold sub. by rewrite lookup_take_lt, lookup_drop. Qed.

Lemma lookup_splice_in o xs bs i :
  (o <= length bs)%nat -> (o <= i < o + length xs)%nat ->
  splice o xs bs !! i = xs !! (i - o)%nat.
Proof.
  intros. unfold splice.
  rewrite lookup_app_r by (rewrite length_take; lia).
  rewrite length_take, Nat.min_l by lia.
  by rewrite lookup_app_l by lia.
Qed.

Lemma lookup_splice_out o xs bs i :
  (o <= length bs)%nat -> (i < o \/ o + length xs <= i)%nat ->
  splice o xs bs !! i = bs !! i.
Proof.
  intros Ho [Hi|Hi]; unfold splice.
  - rewrite lookup_app_l by (rewrite length_take; lia).
    by rewrite lookup_take_lt.
  - rewrite lookup_app_r by (rewrite length_take; lia).
    rewrite length_take, Nat.min_l by lia.
    rewrite lookup_app_r by lia.
    rewrite lookup_drop. f_equal. lia.
Qed.

Lemma sub_splice_eq o xs bs :
  (o + length xs <= length bs)%nat -> sub o (length xs) (splice o xs bs) = xs.
Proof.
  intros. unfold sub, splice.
  rewrite drop_app_length' by (rewrite length_take; lia).
  by rewrite take_app_length.
Qed.

Lemma sub_splice_ne o xs bs o' n :
  (o + length xs <= length bs)%nat -> (o' + n <= o \/ o + length xs <= o')%nat ->
  sub o' n (splice o xs bs) = sub o' n bs.
Proof.
  intros. apply list_eq. intros i.
  destruct (decide (i < n)%nat).
  - rewrite !lookup_sub by lia. apply lookup_splice_out; lia.
  - unfold sub. by rewrite !lookup_take_ge by lia.
Qed.
End splice.

Lemma length_wr n o v bs : (o + n <= length bs)%nat -> length (wr n o v bs) = length bs.
Proof. intros. unfold wr. apply length_splice. by rewrite length_le_bytes. Qed.

Lemma rd_wr_eq n o v bs :
  (o + n <= length bs)%nat -> 0 <= v < 256 ^ Z.of_nat n -> rd n o (wr n o v bs) = v.
Proof.
  intros. unfold rd, wr.
  rewrite <- (length_le_bytes n v) at 1.
  rewrite sub_splice_eq by (rewrite length_le_bytes; lia).
  by apply le_val_bytes.
Qed.

Lemma rd_wr_ne n o v bs n' o' :
  (o + n <= length bs)%nat -> (o' + n' <= o \/ o + n <= o')%nat ->
  rd n' o' (wr n o v bs) = rd n' o' bs.
Proof.
  intros. unfold rd, wr. by rewrite sub_splice_ne by (rewrite length_le_bytes; lia).
Qed.

(** ** Outcomes and the kernel monad

    A kernel routine run by one thread either returns, panics, or puts the
    thread to sleep on a channel.  [Slept c s] is the state in which [sched]
    is entered: what follows depends on other threads. *)

Section monad.
Context {C S : Type}.

Inductive outcome (A : Type) : Type :=
| Ret (a : A) (s : S)
| Panic (msg : string)
| Slept (c : C) (s : S).
Arguments Ret {A} a s.
Arguments Panic {A} msg.
Arguments Slept {A} c s.

Definition M (A : Type) : Type := S -> outcome A.

Definition ret {A} (a : A) : M A := fun s => Ret a s.
Definition panic {A} (msg : string) : M A := fun _ => Panic msg.
Definition bind {A B} (m : M A) (k : A -> M B) : M B := fun s =>
  match m s with
  | Ret a s' => k a s'
  | Panic msg => Panic msg
  | Slept c s' => Slept c s'
  end.
Definition get {A} (f : S -> A) : M A := fun s => Ret (f s) s.
Definition modify (f : S -> S) : M unit := fun s => Ret tt (f s).

(** [for x in l { f x }] *)
Fixpoint for_each {A} (l : list A) (f : A -> M unit) : M unit :=
  match l with
  | [] => ret tt
  | x :: l' => bind (f x) (fun _ => for_each l' f)
  end.

(** a loop over [l] whose body may leave it early with a value *)
Fixpoint loop_until {A B} (l : list A) (f : A -> M (option B)) : M (option B) :=
  match l with
  | [] => ret None
  | x :: l' =>
      bind (f x) (fun r => match r with
                           | Some b => ret (Some b)
                           | None => loop_until l' f
                           end)
  end.

Lemma bind_eq {A B} (m : M A) (k : A -> M B) s a s' : m s = Ret a s' -> bind m k s = k a s'.
Proof. unfold bind. by intros ->. Qed.

(** Total correctness: [m] returns from [s], in a state satisfying [Q]. *)
Definition wp {A} (m : M A) (Q : A -> S -> Prop) (s : S) : Prop :=
  match m s with Ret a s' => Q a s' | _ => False end.

Lemma wp_ret {A} (a : A) (Q : A -> S -> Prop) s : Q a s -> wp (ret a) Q s.
Proof. done. Qed.

Lemma wp_get {A} (f : S -> A) (Q : A -> S -> Prop) s : Q (f s) s -> wp (get f) Q s.
Proof. done. Qed.

Lemma wp_modify f (Q : unit -> S -> Prop) s : Q tt (f s) -> wp (modify f) Q s.
Proof. done. Qed.

Lemma wp_bind {A B} (m : M A) (k : A -> M B) Q s :
  wp m (fun a s' => wp (k a) Q s') s -> wp (bind m k) Q s.
Proof. unfold wp, bind. by destruct (m s). Qed.

Lemma wp_mono {A} (m : M A) (Q R : A -> S -> Prop) s :
  wp m Q s -> (forall a s', Q a s' -> R a s') -> wp m R s.
Proof. unfold wp. destruct (m s); naive_solver. Qed.

Lemma wp_inv {A} (m : M A) Q s : wp m Q s -> exists a s', m s = Ret a s' /\ Q a s'.
Proof. unfold wp. destruct (m s); naive_solver. Qed.

Lemma wp_intro {A} (m : M A) (Q : A -> S -> Prop) s a s' :
  m s = Ret a s' -> Q a s' -> wp m Q s.
Proof. unfold wp. by intros ->. Qed.

Lemma wp_step {A B} (m : M A) (k : A -> M B) Q s a s' :
  m s = Ret a s' -> wp (k a) Q s' -> wp (bind m k) Q s.
Proof. unfold wp, bind. by intros ->. Qed.

Lemma wp_chain {A B} (m : M A) (k : A -> M B) P Q s :
  wp m P s -> (forall a s', P a s' -> wp (k a) Q s') -> wp (bind m k) Q s.
Proof. intros Hm Hk. apply wp_bind. by eapply wp_mono. Qed.

(** Loop rule: [I done s], with [done] the elements already visited. *)
Lemma wp_for_each {A} (I : list A -> S -> Prop) (f : A -> M unit) pre l Q s :
  I pre s ->
  (forall dn x tl s', pre ++ l = dn ++ x :: tl -> I dn s' ->
     wp (f x) (fun _ s'' => I (dn ++ [x]) s'') s') ->
  (forall s', I (pre ++ l) s' -> Q tt s') ->
  wp (for_each l f) Q s.
Proof.
  revert pre s. induction l as [|x l IH]; intros pre s HI Hstep HQ; simpl.
  - apply wp_ret, HQ. by rewrite app_nil_r.
  - apply wp_bind. eapply wp_mono; [by eapply Hstep|].
    intros [] s' HI'. eapply IH; [exact HI'| |].
    + intros. eapply Hstep; [|done]. by rewrite <- app_assoc in H.
    + intros. apply HQ. by rewrite <- app_assoc in H.
Qed.

(** The same for [for(i = 0; i < n; i++)]. *)
Lemma wp_for_seq (I : nat -> S -> Prop) (f : nat -> M unit) n Q s :
  I O s ->
  (forall i s', (i < n)%nat -> I i s' -> wp (f i) (fun _ s'' => I (Datatypes.S i) s'') s') ->
  (forall s', I n s' -> Q tt s') ->
  wp (for_each (seq 0 n) f) Q s.
Proof.
  intros H0 Hstep HQ. apply (wp_for_each (fun dn s => I (length dn) s) f []); [done| |].
  - intros dn x tl s' Heq HI. simpl in Heq. assert (x = length dn) as ->.
    { assert (seq 0 n !! length dn = Some x) as Hx by (by rewrite Heq, list_lookup_middle).
      apply lookup_seq in Hx. lia. }
    assert (length dn < n)%nat.
    { rewrite <- (length_seq n 0), Heq, length_app. simpl. lia. }
    eapply wp_mono; [by apply Hstep|]. intros [] s''. rewrite length_app, Nat.add_1_r. done.
  - intros s' HI. simpl in HI. rewrite length_seq in HI. by apply HQ.
Qed.

(** The same for a search: [I j s] while nothing has been found. *)
Lemma wp_loop_until {B} (I : nat -> S -> Prop) (f : nat -> M (option B)) n Q s :
  I O s ->
  (forall j s', (j < n)%nat -> I j s' ->
     wp (f j) (fun r s'' => match r with Some b => Q (Some b) s'' | None => I (Datatypes.S j) s'' end) s') ->
  (forall s', I n s' -> Q None s') ->
  wp (loop_until (seq 0 n) f) Q s.
Proof.
  intros H0 Hstep HQ. assert (forall m j s, (j + m = n)%nat -> I j s -> wp (loop_until (seq j m) f) Q s) as Hloop.
  { intros m. induction m as [|m IH]; intros j s1 Hj HI; simpl.
    - apply wp_ret, HQ. by rewrite <- Hj, Nat.add_0_r.
    - eapply wp_chain; [apply Hstep; [lia|done]|]. intros [b|] s2 Hr; [by apply wp_ret|]. apply IH; [lia|done]. }
  by apply (Hloop n 0%nat).
Qed.
End monad.

Arguments outcome C S A : clear implicits.
Arguments M C S A : clear implicits.
Arguments Ret {C S A} a s.
Arguments Panic {C S A} msg.
Arguments Slept {C S A} c s.

Declare Scope kernel_scope.
Delimit Scope kernel_scope with kernel.
Notation "x <- m ;; k" := (bind m (fun x => k))
  (at level 100, m at next level, right associativity) : kernel_scope.
Notation "m ;;; k" := (bind m (fun _ => k))
  (at level 100, right associativity) : kernel_scope.
Notation "'when' b 'do' m" := (if b then m else ret tt)
  (at level 99, b at level 0, m at level 99) : kernel_scope.

(** ** Lists *)

Lemma alter_as_insert {A} (f : A -> A) (i : nat) (l : list A) (x : A) :
  l !! i = Some x -> alter f i l = <[i := f x]> l.
Proof.
  intros H. apply list_eq. intros j. rewrite list_lookup_alter, list_lookup_insert.
  pose proof (lookup_lt_Some _ _ _ H). case_decide as E; [|by rewrite decide_False by naive_solver].
  subst. by rewrite decide_True, H by done.
Qed.

Lemma filter_ne_all {A} `{EqDecision A} (x : A) (l : list A) :
  x ∉ l -> filter (.≠ x) l = l.
Proof.
  induction l as [|a l IH]; [done|]. intros Hn. rewrite filter_cons.
  rewrite decide_True by set_solver. f_equal. apply IH. set_solver.
Qed.

Lemma prefix_app_cases {A} (l l1 l2 : list A) :
  l `prefix_of` l1 ++ l2 -> l `prefix_of` l1 \/ exists l', l = l1 ++ l' /\ l' `prefix_of` l2.
Proof.
  intros [k Hk]. apply app_eq_inv in Hk as [(m & -> & ->)|(m & -> & ->)].
  - left. by exists m.
  - right. exists m. split; [done|]. by exists k.
Qed.

Lemma prefix_singleton {A} (l : list A) (x : A) : l `prefix_of` [x] -> l = [] \/ l = [x].
Proof.
  intros [k Hk]. destruct l as [|a l]; [by left|]. right. simpl in Hk. injection Hk as <- Hk.
  symmetry in Hk. by apply app_eq_nil in Hk as [-> _].
Qed.

(** The first index of [m, m + n) with [f]. *)
Lemma find_seq f m n :
  match List.find f (seq m n) with
  | Some i => (m <= i < m + n)%nat /\ f i = true /\ forall j, (m <= j < i)%nat -> f j = false
  | None => forall j, (m <= j < m + n)%nat -> f j = false
  end.
Proof.
  revert m. induction n as [|n IH]; intros m; simpl; [lia|]. destruct (f m) eqn:E; [split; [lia|split; [done|lia]]|].
  specialize (IH (S m)). destruct (List.find f (seq (S m) n)) as [i|].
  - destruct IH as (Hi & Hf & Hj). split; [lia|]. split; [done|]. intros j ?. destruct (decide (j = m)) as [->|]; [done|].
    apply Hj. lia.
  - intros j ?. destruct (decide (j = m)) as [->|]; [done|]. apply IH. lia.
Qed.

Lemma find_seq_first f m n i :
  (m <= i < m + n)%nat -> f i = true -> (forall j, (m <= j < i)%nat -> f j = false) ->
  List.find f (seq m n) = Some i.
Proof.
  intros Hi Hf Hj. pose proof (find_seq f m n) as Hs. destruct (List.find f (seq m n)) as [i'|].
  - destruct Hs as (Hi' & Hf' & Hj'). f_equal. destruct (decide (i' < i)%nat); [rewrite Hj in Hf'; [done|lia]|].
    destruct (decide (i < i')%nat); [rewrite Hj' in Hf; [done|lia]|lia].
  - rewrite Hs in Hf; [done|lia].
Qed.

Lemma find_seq_none f m n :
  (forall j, (m <= j < m + n)%nat -> f j = false) -> List.find f (seq m n) = None.
Proof.
  intros Hj. pose proof (find_seq f m n) as Hs. destruct (List.find f (seq m n)) as [i'|]; [|done].
  destruct Hs as (Hi' & Hf' & _). rewrite Hj in Hf'; [done|lia].
Qed.

(** One element less passes the filter. *)
Lemma filter_remove {A} `{EqDecision A} (P Q : A -> Prop) `{!forall x, Decision (P x), !forall x, Decision (Q x)} x l :
  NoDup l -> x ∈ l -> P x -> (forall y, y ∈ l -> Q y <-> P y /\ y <> x) ->
  length (filter P l) = S (length (filter Q l)).
Proof.
  intros Hnd Hx HP HQ. assert (filter P l ≡ₚ x :: filter Q l) as ->; [|done].
  apply NoDup_Permutation.
  - by apply NoDup_filter.
  - apply NoDup_cons. split; [|by apply NoDup_filter]. rewrite list_elem_of_filter. intros [HQx _]. by apply HQ in HQx as [_ ?].
  - intros y. rewrite elem_of_cons, !list_elem_of_filter. split.
    + intros [Hy Hin]. destruct (decide (y = x)) as [->|]; [by left|]. right. split; [|done]. by apply HQ.
    + intros [->|[Hy Hin]]; [done|]. by apply HQ in Hy as [??].
Qed.

Lemma filter_ext_in {A} (P Q : A -> Prop) `{!forall x, Decision (P x), !forall x, Decision (Q x)} (l : list A) :
  (forall x, x ∈ l -> P x <-> Q x) -> filter P l = filter Q l.
Proof.
  induction l as [|x l IH]; intros HPQ; [done|]. rewrite !filter_cons. rewrite IH by (intros; apply HPQ; by right).
  pose proof (HPQ x ltac:(by left)). repeat case_decide; naive_solver.
Qed.
