(* ===== verification/State.v ===== *)
(** * State: the kernel's data

    The constants of param.h, fs.h, buf.h, mmu.h and memlayout.h, the structs of
    proc.h, buf.h, file.h, fs.h, log.c, pipe.c and proc.c, and the record
    [kstate] of the kernel's global variables.

    Pointers into a table (ptable.proc, icache.inode, ftable.file, bcache.buf)
    are indices of that table; the null pointer is [None].  A pointer to a page
    (kstack, pgdir, struct pipe) is the page's address, 0 for null.  Spinlocks,
    sleep-locks and sleep channels, which the C code names by their address, are
    constructors of an inductive type, one per object. *)

From stdpp Require Import base gmap list strings.
From Stdlib Require Import ZArith Lia.
From S2P Require Import Prelude.

Local Open Scope Z_scope.

(** ** Constants *)

Definition NPROC : nat := 64.
Definition KSTACKSIZE : Z := 4096.
Definition NCPU : nat := 8.
Definition NOFILE : nat := 16.
Definition NFILE : nat := 100.
Definition NINODE : nat := 50.
Definition NDEV : Z := 10.
Definition ROOTDEV : Z := 1.
Definition MAXARG : nat := 32.
Definition MAXOPBLOCKS : Z := 10.
Definition LOGSIZE : Z := MAXOPBLOCKS * 3.
Definition NBUF : nat := 30.
Definition FSSIZE : Z := 1000.

Definition ROOTINO : Z := 1.
Definition BSIZE : Z := 512.
Definition NDIRECT : Z := 12.
Definition NINDIRECT : Z := BSIZE / 4.
Definition MAXFILE : Z := NDIRECT + NINDIRECT.
Definition IPB : Z := BSIZE / 64.
Definition BPB : Z := BSIZE * 8.
Definition DIRSIZ : Z := 14.

Definition T_DIR : Z := 1.
Definition T_FILE : Z := 2.
Definition T_DEV : Z := 3.

Definition B_VALID : Z := 2.
Definition B_DIRTY : Z := 4.

Definition PGSIZE : Z := 4096.
Definition EXTMEM : Z := 1048576.
Definition PHYSTOP : Z := 234881024.
Definition DEVSPACE : Z := 4261412864.
Definition KERNBASE : Z := 2147483648.
Definition KERNLINK : Z := KERNBASE + EXTMEM.
Definition V2P (a : Z) : Z := u32 (a - KERNBASE).
Definition P2V (a : Z) : Z := u32 (a + KERNBASE).

Definition PIPESIZE : Z := 512.

(** ** Locks and sleep channels *)

Inductive sleepid := SL_buf (i : nat) | SL_inode (i : nat).

Inductive lockid :=
| L_ptable | L_kmem | L_ftable | L_icache | L_bcache | L_log | L_ide
| L_cons | L_tickslock | L_spoon (i : nat) | L_pipe (p : Z) | L_sleep (l : sleepid).

Inductive chan :=
| Ch_proc (i : nat) | Ch_ticks | Ch_log | Ch_buf (i : nat) | Ch_sleeplock (l : sleepid)
| Ch_nread (p : Z) | Ch_nwrite (p : Z) | Ch_input | Ch_spoon (i : nat).

#[export] Instance sleepid_eq_dec : EqDecision sleepid.
Proof. solve_decision. Defined.
#[export] Instance lockid_eq_dec : EqDecision lockid.
Proof. solve_decision. Defined.
#[export] Instance chan_eq_dec : EqDecision chan.
Proof. solve_decision. Defined.

(** ** Structs *)

Inductive procstate := UNUSED | EMBRYO | SLEEPING | RUNNABLE | RUNNING | ZOMBIE.

#[export] Instance procstate_eq_dec : EqDecision procstate.
Proof. solve_decision. Defined.

Record proc := mkProc {
  p_sz : Z;
  p_pgdir : Z;
  p_kstack : Z;
  p_state : procstate;
  p_pid : Z;
  p_parent : option nat;
  p_tf : Z;
  p_context : Z;
  p_chan : option chan;
  p_killed : bool;
  p_ofile : list (option nat);
  p_cwd : option nat;
  p_name : list Z
}.

Record sleeplock := mkSleeplock {
  sl_locked : bool;
  sl_pid : Z
}.

Record buf := mkBuf {
  b_flags : Z;
  b_dev : Z;
  b_blockno : Z;
  b_lock : sleeplock;
  b_refcnt : Z;
  b_prev : nat;
  b_next : nat;
  b_data : list Z
}.

Record logstate := mkLog {
  l_start : Z;
  l_size : Z;
  l_outstanding : Z;
  l_committing : bool;
  l_dev : Z;
  lh_n : Z;
  lh_block : list Z
}.

Record superblock := mkSb {
  sb_size : Z;
  sb_nblocks : Z;
  sb_ninodes : Z;
  sb_nlog : Z;
  sb_logstart : Z;
  sb_inodestart : Z;
  sb_bmapstart : Z
}.

(** [i_ref] here and [f_ref] of a file count the references from process table, open files and
    running calls, far fewer than an [int] can count; they are not wrapped. *)
Record inode := mkInode {
  i_dev : Z;
  i_inum : Z;
  i_ref : Z;
  i_lock : sleeplock;
  i_valid : bool;
  i_type : Z;
  i_major : Z;
  i_minor : Z;
  i_nlink : Z;
  i_size : Z;
  i_addrs : list Z
}.

Inductive filetype := FD_NONE | FD_PIPE | FD_INODE.

#[export] Instance filetype_eq_dec : EqDecision filetype.
Proof. solve_decision. Defined.

Record file := mkFile {
  f_type : filetype;
  f_ref : Z;
  f_readable : bool;
  f_writable : bool;
  f_pipe : Z;
  f_ip : nat;
  f_off : Z
}.

Record pipe := mkPipe {
  pi_data : list Z;
  nread : Z;
  nwrite : Z;
  readopen : bool;
  writeopen : bool
}.

Record semaphore := mkSem {
  sem_val : Z;
  sem_owner : Z;
  sem_locked : Z
}.

(** The console: [cons], [panicked], the CGA memory and cursor register, the bytes
    sent to the serial port, [input], [cmd_history] and [complete_result]. *)
Record consstate := mkCons {
  cons_locking : bool;
  panicked : bool;
  crt : list Z;
  crt_pos : Z;
  uart_out : list Z;
  in_buf : list Z;
  in_r : Z;
  in_w : Z;
  in_e : Z;
  cmd_history : list (list Z);
  complete_result : list Z
}.

(** Field updates. *)
Definition set_p_sz (v : Z) (x : proc) : proc :=
  mkProc v (p_pgdir x) (p_kstack x) (p_state x) (p_pid x) (p_parent x) (p_tf x) (p_context x) (p_chan x) (p_killed x) (p_ofile x) (p_cwd x) (p_name x).
Definition set_p_pgdir (v : Z) (x : proc) : proc :=
  mkProc (p_sz x) v (p_kstack x) (p_state x) (p_pid x) (p_parent x) (p_tf x) (p_context x) (p_chan x) (p_killed x) (p_ofile x) (p_cwd x) (p_name x).
Definition set_p_kstack (v : Z) (x : proc) : proc :=
  mkProc (p_sz x) (p_pgdir x) v (p_state x) (p_pid x) (p_parent x) (p_tf x) (p_context x) (p_chan x) (p_killed x) (p_ofile x) (p_cwd x) (p_name x).
Definition set_p_state (v : procstate) (x : proc) : proc :=
  mkProc (p_sz x) (p_pgdir x) (p_kstack x) v (p_pid x) (p_parent x) (p_tf x) (p_context x) (p_chan x) (p_killed x) (p_ofile x) (p_cwd x) (p_name x).
Definition set_p_pid (v : Z) (x : proc) : proc :=
  mkProc (p_sz x) (p_pgdir x) (p_kstack x) (p_state x) v (p_parent x) (p_tf x) (p_context x) (p_chan x) (p_killed x) (p_ofile x) (p_cwd x) (p_name x).
Definition set_p_parent (v : option nat) (x : proc) : proc :=
  mkProc (p_sz x) (p_pgdir x) (p_kstack x) (p_state x) (p_pid x) v (p_tf x) (p_context x) (p_chan x) (p_killed x) (p_ofile x) (p_cwd x) (p_name x).
Definition set_p_tf (v : Z) (x : proc) : proc :=
  mkProc (p_sz x) (p_pgdir x) (p_kstack x) (p_state x) (p_pid x) (p_parent x) v (p_context x) (p_chan x) (p_killed x) (p_ofile x) (p_cwd x) (p_name x).
Definition set_p_context (v : Z) (x : proc) : proc :=
  mkProc (p_sz x) (p_pgdir x) (p_kstack x) (p_state x) (p_pid x) (p_parent x) (p_tf x) v (p_chan x) (p_killed x) (p_ofile x) (p_cwd x) (p_name x).
Definition set_p_chan (v : option chan) (x : proc) : proc :=
  mkProc (p_sz x) (p_pgdir x) (p_kstack x) (p_state x) (p_pid x) (p_parent x) (p_tf x) (p_context x) v (p_killed x) (p_ofile x) (p_cwd x) (p_name x).
Definition set_p_killed (v : bool) (x : proc) : proc :=
  mkProc (p_sz x) (p_pgdir x) (p_kstack x) (p_state x) (p_pid x) (p_parent x) (p_tf x) (p_context x) (p_chan x) v (p_ofile x) (p_cwd x) (p_name x).
Definition set_p_ofile (v : list (option nat)) (x : proc) : proc :=
  mkProc (p_sz x) (p_pgdir x) (p_kstack x) (p_state x) (p_pid x) (p_parent x) (p_tf x) (p_context x) (p_chan x) (p_killed x) v (p_cwd x) (p_name x).
Definition set_p_cwd (v : option nat) (x : proc) : proc :=
  mkProc (p_sz x) (p_pgdir x) (p_kstack x) (p_state x) (p_pid x) (p_parent x) (p_tf x) (p_context x) (p_chan x) (p_killed x) (p_ofile x) v (p_name x).
Definition set_p_name (v : list Z) (x : proc) : proc :=
  mkProc (p_sz x) (p_pgdir x) (p_kstack x) (p_state x) (p_pid x) (p_parent x) (p_tf x) (p_context x) (p_chan x) (p_killed x) (p_ofile x) (p_cwd x) v.
Definition set_sl_locked (v : bool) (x : sleeplock) : sleeplock :=
  mkSleeplock v (sl_pid x).
Definition set_sl_pid (v : Z) (x : sleeplock) : sleeplock :=
  mkSleeplock (sl_locked x) v.
Definition set_b_flags (v : Z) (x : buf) : buf :=
  mkBuf v (b_dev x) (b_blockno x) (b_lock x) (b_refcnt x) (b_prev x) (b_next x) (b_data x).
Definition set_b_dev (v : Z) (x : buf) : buf :=
  mkBuf (b_flags x) v (b_blockno x) (b_lock x) (b_refcnt x) (b_prev x) (b_next x) (b_data x).
Definition set_b_blockno (v : Z) (x : buf) : buf :=
  mkBuf (b_flags x) (b_dev x) v (b_lock x) (b_refcnt x) (b_prev x) (b_next x) (b_data x).
Definition set_b_lock (v : sleeplock) (x : buf) : buf :=
  mkBuf (b_flags x) (b_dev x) (b_blockno x) v (b_refcnt x) (b_prev x) (b_next x) (b_data x).
Definition set_b_refcnt (v : Z) (x : buf) : buf :=
  mkBuf (b_flags x) (b_dev x) (b_blockno x) (b_lock x) v (b_prev x) (b_next x) (b_data x).
Definition set_b_prev (v : nat) (x : buf) : buf :=
  mkBuf (b_flags x) (b_dev x) (b_blockno x) (b_lock x) (b_refcnt x) v (b_next x) (b_data x).
Definition set_b_next (v : nat) (x : buf) : buf :=
  mkBuf (b_flags x) (b_dev x) (b_blockno x) (b_lock x) (b_refcnt x) (b_prev x) v (b_data x).
Definition set_b_data (v : list Z) (x : buf) : buf :=
  mkBuf (b_flags x) (b_dev x) (b_blockno x) (b_lock x) (b_refcnt x) (b_prev x) (b_next x) v.
Definition set_l_start (v : Z) (x : logstate) : logstate :=
  mkLog v (l_size x) (l_outstanding x) (l_committing x) (l_dev x) (lh_n x) (lh_block x).
Definition set_l_size (v : Z) (x : logstate) : logstate :=
  mkLog (l_start x) v (l_outstanding x) (l_committing x) (l_dev x) (lh_n x) (lh_block x).
Definition set_l_outstanding (v : Z) (x : logstate) : logstate :=
  mkLog (l_start x) (l_size x) v (l_committing x) (l_dev x) (lh_n x) (lh_block x).
Definition set_l_committing (v : bool) (x : logstate) : logstate :=
  mkLog (l_start x) (l_size x) (l_outstanding x) v (l_dev x) (lh_n x) (lh_block x).
Definition set_l_dev (v : Z) (x : logstate) : logstate :=
  mkLog (l_start x) (l_size x) (l_outstanding x) (l_committing x) v (lh_n x) (lh_block x).
Definition set_lh_n (v : Z) (x : logstate) : logstate :=
  mkLog (l_start x) (l_size x) (l_outstanding x) (l_committing x) (l_dev x) v (lh_block x).
Definition set_lh_block (v : list Z) (x : logstate) : logstate :=
  mkLog (l_start x) (l_size x) (l_outstanding x) (l_committing x) (l_dev x) (lh_n x) v.
Definition set_i_dev (v : Z) (x : inode) : inode :=
  mkInode v (i_inum x) (i_ref x) (i_lock x) (i_valid x) (i_type x) (i_major x) (i_minor x) (i_nlink x) (i_size x) (i_addrs x).
Definition set_i_inum (v : Z) (x : inode) : inode :=
  mkInode (i_dev x) v (i_ref x) (i_lock x) (i_valid x) (i_type x) (i_major x) (i_minor x) (i_nlink x) (i_size x) (i_addrs x).
Definition set_i_ref (v : Z) (x : inode) : inode :=
  mkInode (i_dev x) (i_inum x) v (i_lock x) (i_valid x) (i_type x) (i_major x) (i_minor x) (i_nlink x) (i_size x) (i_addrs x).
Definition set_i_lock (v : sleeplock) (x : inode) : inode :=
  mkInode (i_dev x) (i_inum x) (i_ref x) v (i_valid x) (i_type x) (i_major x) (i_minor x) (i_nlink x) (i_size x) (i_addrs x).
Definition set_i_valid (v : bool) (x : inode) : inode :=
  mkInode (i_dev x) (i_inum x) (i_ref x) (i_lock x) v (i_type x) (i_major x) (i_minor x) (i_nlink x) (i_size x) (i_addrs x).
Definition set_i_type (v : Z) (x : inode) : inode :=
  mkInode (i_dev x) (i_inum x) (i_ref x) (i_lock x) (i_valid x) v (i_major x) (i_minor x) (i_nlink x) (i_size x) (i_addrs x).
Definition set_i_major (v : Z) (x : inode) : inode :=
  mkInode (i_dev x) (i_inum x) (i_ref x) (i_lock x) (i_valid x) (i_type x) v (i_minor x) (i_nlink x) (i_size x) (i_addrs x).
Definition set_i_minor (v : Z) (x : inode) : inode :=
  mkInode (i_dev x) (i_inum x) (i_ref x) (i_lock x) (i_valid x) (i_type x) (i_major x) v (i_nlink x) (i_size x) (i_addrs x).
Definition set_i_nlink (v : Z) (x : inode) : inode :=
  mkInode (i_dev x) (i_inum x) (i_ref x) (i_lock x) (i_valid x) (i_type x) (i_major x) (i_minor x) v (i_size x) (i_addrs x).
Definition set_i_size (v : Z) (x : inode) : inode :=
  mkInode (i_dev x) (i_inum x) (i_ref x) (i_lock x) (i_valid x) (i_type x) (i_major x) (i_minor x) (i_nlink x) v (i_addrs x).
Definition set_i_addrs (v : list Z) (x : inode) : inode :=
  mkInode (i_dev x) (i_inum x) (i_ref x) (i_lock x) (i_valid x) (i_type x) (i_major x) (i_minor x) (i_nlink x) (i_size x) v.
Definition set_f_type (v : filetype) (x : file) : file :=
  mkFile v (f_ref x) (f_readable x) (f_writable x) (f_pipe x) (f_ip x) (f_off x).
Definition set_f_ref (v : Z) (x : file) : file :=
  mkFile (f_type x) v (f_readable x) (f_writable x) (f_pipe x) (f_ip x) (f_off x).
Definition set_f_readable (v : bool) (x : file) : file :=
  mkFile (f_type x) (f_ref x) v (f_writable x) (f_pipe x) (f_ip x) (f_off x).
Definition set_f_writable (v : bool) (x : file) : file :=
  mkFile (f_type x) (f_ref x) (f_readable x) v (f_pipe x) (f_ip x) (f_off x).
Definition set_f_pipe (v : Z) (x : file) : file :=
  mkFile (f_type x) (f_ref x) (f_readable x) (f_writable x) v (f_ip x) (f_off x).
Definition set_f_ip (v : nat) (x : file) : file :=
  mkFile (f_type x) (f_ref x) (f_readable x) (f_writable x) (f_pipe x) v (f_off x).
Definition set_f_off (v : Z) (x : file) : file :=
  mkFile (f_type x) (f_ref x) (f_readable x) (f_writable x) (f_pipe x) (f_ip x) v.
Definition set_pi_data (v : list Z) (x : pipe) : pipe :=
  mkPipe v (nread x) (nwrite x) (readopen x) (writeopen x).
Definition set_nread (v : Z) (x : pipe) : pipe :=
  mkPipe (pi_data x) v (nwrite x) (readopen x) (writeopen x).
Definition set_nwrite (v : Z) (x : pipe) : pipe :=
  mkPipe (pi_data x) (nread x) v (readopen x) (writeopen x).
Definition set_readopen (v : bool) (x : pipe) : pipe :=
  mkPipe (pi_data x) (nread x) (nwrite x) v (writeopen x).
Definition set_writeopen (v : bool) (x : pipe) : pipe :=
  mkPipe (pi_data x) (nread x) (nwrite x) (readopen x) v.
Definition set_sem_val (v : Z) (x : semaphore) : semaphore :=
  mkSem v (sem_owner x) (sem_locked x).
Definition set_sem_owner (v : Z) (x : semaphore) : semaphore :=
  mkSem (sem_val x) v (sem_locked x).
Definition set_sem_locked (v : Z) (x : semaphore) : semaphore :=
  mkSem (sem_val x) (sem_owner x) v.
Definition set_cons_locking (v : bool) (x : consstate) : consstate :=
  mkCons v (panicked x) (crt x) (crt_pos x) (uart_out x) (in_buf x) (in_r x) (in_w x) (in_e x) (cmd_history x) (complete_result x).
Definition set_panicked (v : bool) (x : consstate) : consstate :=
  mkCons (cons_locking x) v (crt x) (crt_pos x) (uart_out x) (in_buf x) (in_r x) (in_w x) (in_e x) (cmd_history x) (complete_result x).
Definition set_crt (v : list Z) (x : consstate) : consstate :=
  mkCons (cons_locking x) (panicked x) v (crt_pos x) (uart_out x) (in_buf x) (in_r x) (in_w x) (in_e x) (cmd_history x) (complete_result x).
Definition set_crt_pos (v : Z) (x : consstate) : consstate :=
  mkCons (cons_locking x) (panicked x) (crt x) v (uart_out x) (in_buf x) (in_r x) (in_w x) (in_e x) (cmd_history x) (complete_result x).
Definition set_uart_out (v : list Z) (x : consstate) : consstate :=
  mkCons (cons_locking x) (panicked x) (crt x) (crt_pos x) v (in_buf x) (in_r x) (in_w x) (in_e x) (cmd_history x) (complete_result x).
Definition set_in_buf (v : list Z) (x : consstate) : consstate :=
  mkCons (cons_locking x) (panicked x) (crt x) (crt_pos x) (uart_out x) v (in_r x) (in_w x) (in_e x) (cmd_history x) (complete_result x).
Definition set_in_r (v : Z) (x : consstate) : consstate :=
  mkCons (cons_locking x) (panicked x) (crt x) (crt_pos x) (uart_out x) (in_buf x) v (in_w x) (in_e x) (cmd_history x) (complete_result x).
Definition set_in_w (v : Z) (x : consstate) : consstate :=
  mkCons (cons_locking x) (panicked x) (crt x) (crt_pos x) (uart_out x) (in_buf x) (in_r x) v (in_e x) (cmd_history x) (complete_result x).
Definition set_in_e (v : Z) (x : consstate) : consstate :=
  mkCons (cons_locking x) (panicked x) (crt x) (crt_pos x) (uart_out x) (in_buf x) (in_r x) (in_w x) v (cmd_history x) (complete_result x).
Definition set_cmd_history (v : list (list Z)) (x : consstate) : consstate :=
  mkCons (cons_locking x) (panicked x) (crt x) (crt_pos x) (uart_out x) (in_buf x) (in_r x) (in_w x) (in_e x) v (complete_result x).
Definition set_complete_result (v : list Z) (x : consstate) : consstate :=
  mkCons (cons_locking x) (panicked x) (crt x) (crt_pos x) (uart_out x) (in_buf x) (in_r x) (in_w x) (in_e x) (cmd_history x) v.

(** ** The kernel's global variables *)

Record kstate := mkK {
  held : list lockid;
  procs : list proc;
  cur : option nat;
  nextpid : Z;
  initproc : option nat;
  mem : gmap Z (list Z);
  freelist : Z;
  use_lock : bool;
  bufs : list buf;
  disk : gmap (Z * Z) (list Z);
  writes : list (Z * Z * list Z);
  log : logstate;
  sb : superblock;
  icache : list inode;
  ftable : list file;
  pipes : gmap Z pipe;
  spoons : list semaphore;
  ticks : Z;
  console : consstate;
  kpgdir : Z
}.

Definition set_held (v : list lockid) (s : kstate) : kstate :=
  mkK v (s.(procs)) (s.(cur)) (s.(nextpid)) (s.(initproc)) (s.(mem)) (s.(freelist)) (s.(use_lock)) (s.(bufs)) (s.(disk)) (s.(writes)) (s.(log)) (s.(sb)) (s.(icache)) (s.(ftable)) (s.(pipes)) (s.(spoons)) (s.(ticks)) (s.(console)) (s.(kpgdir)).
Definition set_procs (v : list proc) (s : kstate) : kstate :=
  mkK (s.(held)) v (s.(cur)) (s.(nextpid)) (s.(initproc)) (s.(mem)) (s.(freelist)) (s.(use_lock)) (s.(bufs)) (s.(disk)) (s.(writes)) (s.(log)) (s.(sb)) (s.(icache)) (s.(ftable)) (s.(pipes)) (s.(spoons)) (s.(ticks)) (s.(console)) (s.(kpgdir)).
Definition set_cur (v : option nat) (s : kstate) : kstate :=
  mkK (s.(held)) (s.(procs)) v (s.(nextpid)) (s.(initproc)) (s.(mem)) (s.(freelist)) (s.(use_lock)) (s.(bufs)) (s.(disk)) (s.(writes)) (s.(log)) (s.(sb)) (s.(icache)) (s.(ftable)) (s.(pipes)) (s.(spoons)) (s.(ticks)) (s.(console)) (s.(kpgdir)).
Definition set_nextpid (v : Z) (s : kstate) : kstate :=
  mkK (s.(held)) (s.(procs)) (s.(cur)) v (s.(initproc)) (s.(mem)) (s.(freelist)) (s.(use_lock)) (s.(bufs)) (s.(disk)) (s.(writes)) (s.(log)) (s.(sb)) (s.(icache)) (s.(ftable)) (s.(pipes)) (s.(spoons)) (s.(ticks)) (s.(console)) (s.(kpgdir)).
Definition set_initproc (v : option nat) (s : kstate) : kstate :=
  mkK (s.(held)) (s.(procs)) (s.(cur)) (s.(nextpid)) v (s.(mem)) (s.(freelist)) (s.(use_lock)) (s.(bufs)) (s.(disk)) (s.(writes)) (s.(log)) (s.(sb)) (s.(icache)) (s.(ftable)) (s.(pipes)) (s.(spoons)) (s.(ticks)) (s.(console)) (s.(kpgdir)).
Definition set_mem (v : gmap Z (list Z)) (s : kstate) : kstate :=
  mkK (s.(held)) (s.(procs)) (s.(cur)) (s.(nextpid)) (s.(initproc)) v (s.(freelist)) (s.(use_lock)) (s.(bufs)) (s.(disk)) (s.(writes)) (s.(log)) (s.(sb)) (s.(icache)) (s.(ftable)) (s.(pipes)) (s.(spoons)) (s.(ticks)) (s.(console)) (s.(kpgdir)).
Definition set_freelist (v : Z) (s : kstate) : kstate :=
  mkK (s.(held)) (s.(procs)) (s.(cur)) (s.(nextpid)) (s.(initproc)) (s.(mem)) v (s.(use_lock)) (s.(bufs)) (s.(disk)) (s.(writes)) (s.(log)) (s.(sb)) (s.(icache)) (s.(ftable)) (s.(pipes)) (s.(spoons)) (s.(ticks)) (s.(console)) (s.(kpgdir)).
Definition set_use_lock (v : bool) (s : kstate) : kstate :=
  mkK (s.(held)) (s.(procs)) (s.(cur)) (s.(nextpid)) (s.(initproc)) (s.(mem)) (s.(freelist)) v (s.(bufs)) (s.(disk)) (s.(writes)) (s.(log)) (s.(sb)) (s.(icache)) (s.(ftable)) (s.(pipes)) (s.(spoons)) (s.(ticks)) (s.(console)) (s.(kpgdir)).
Definition set_bufs (v : list buf) (s : kstate) : kstate :=
  mkK (s.(held)) (s.(procs)) (s.(cur)) (s.(nextpid)) (s.(initproc)) (s.(mem)) (s.(freelist)) (s.(use_lock)) v (s.(disk)) (s.(writes)) (s.(log)) (s.(sb)) (s.(icache)) (s.(ftable)) (s.(pipes)) (s.(spoons)) (s.(ticks)) (s.(console)) (s.(kpgdir)).
Definition set_disk (v : gmap (Z * Z) (list Z)) (s : kstate) : kstate :=
  mkK (s.(held)) (s.(procs)) (s.(cur)) (s.(nextpid)) (s.(initproc)) (s.(mem)) (s.(freelist)) (s.(use_lock)) (s.(bufs)) v (s.(writes)) (s.(log)) (s.(sb)) (s.(icache)) (s.(ftable)) (s.(pipes)) (s.(spoons)) (s.(ticks)) (s.(console)) (s.(kpgdir)).
Definition set_writes (v : list (Z * Z * list Z)) (s : kstate) : kstate :=
  mkK (s.(held)) (s.(procs)) (s.(cur)) (s.(nextpid)) (s.(initproc)) (s.(mem)) (s.(freelist)) (s.(use_lock)) (s.(bufs)) (s.(disk)) v (s.(log)) (s.(sb)) (s.(icache)) (s.(ftable)) (s.(pipes)) (s.(spoons)) (s.(ticks)) (s.(console)) (s.(kpgdir)).
Definition set_log (v : logstate) (s : kstate) : kstate :=
  mkK (s.(held)) (s.(procs)) (s.(cur)) (s.(nextpid)) (s.(initproc)) (s.(mem)) (s.(freelist)) (s.(use_lock)) (s.(bufs)) (s.(disk)) (s.(writes)) v (s.(sb)) (s.(icache)) (s.(ftable)) (s.(pipes)) (s.(spoons)) (s.(ticks)) (s.(console)) (s.(kpgdir)).
Definition set_sb (v : superblock) (s : kstate) : kstate :=
  mkK (s.(held)) (s.(procs)) (s.(cur)) (s.(nextpid)) (s.(initproc)) (s.(mem)) (s.(freelist)) (s.(use_lock)) (s.(bufs)) (s.(disk)) (s.(writes)) (s.(log)) v (s.(icache)) (s.(ftable)) (s.(pipes)) (s.(spoons)) (s.(ticks)) (s.(console)) (s.(kpgdir)).
Definition set_icache (v : list inode) (s : kstate) : kstate :=
  mkK (s.(held)) (s.(procs)) (s.(cur)) (s.(nextpid)) (s.(initproc)) (s.(mem)) (s.(freelist)) (s.(use_lock)) (s.(bufs)) (s.(disk)) (s.(writes)) (s.(log)) (s.(sb)) v (s.(ftable)) (s.(pipes)) (s.(spoons)) (s.(ticks)) (s.(console)) (s.(kpgdir)).
Definition set_ftable (v : list file) (s : kstate) : kstate :=
  mkK (s.(held)) (s.(procs)) (s.(cur)) (s.(nextpid)) (s.(initproc)) (s.(mem)) (s.(freelist)) (s.(use_lock)) (s.(bufs)) (s.(disk)) (s.(writes)) (s.(log)) (s.(sb)) (s.(icache)) v (s.(pipes)) (s.(spoons)) (s.(ticks)) (s.(console)) (s.(kpgdir)).
Definition set_pipes (v : gmap Z pipe) (s : kstate) : kstate :=
  mkK (s.(held)) (s.(procs)) (s.(cur)) (s.(nextpid)) (s.(initproc)) (s.(mem)) (s.(freelist)) (s.(use_lock)) (s.(bufs)) (s.(disk)) (s.(writes)) (s.(log)) (s.(sb)) (s.(icache)) (s.(ftable)) v (s.(spoons)) (s.(ticks)) (s.(console)) (s.(kpgdir)).
Definition set_spoons (v : list semaphore) (s : kstate) : kstate :=
  mkK (s.(held)) (s.(procs)) (s.(cur)) (s.(nextpid)) (s.(initproc)) (s.(mem)) (s.(freelist)) (s.(use_lock)) (s.(bufs)) (s.(disk)) (s.(writes)) (s.(log)) (s.(sb)) (s.(icache)) (s.(ftable)) (s.(pipes)) v (s.(ticks)) (s.(console)) (s.(kpgdir)).
Definition set_ticks (v : Z) (s : kstate) : kstate :=
  mkK (s.(held)) (s.(procs)) (s.(cur)) (s.(nextpid)) (s.(initproc)) (s.(mem)) (s.(freelist)) (s.(use_lock)) (s.(bufs)) (s.(disk)) (s.(writes)) (s.(log)) (s.(sb)) (s.(icache)) (s.(ftable)) (s.(pipes)) (s.(spoons)) v (s.(console)) (s.(kpgdir)).
Definition set_console (v : consstate) (s : kstate) : kstate :=
  mkK (s.(held)) (s.(procs)) (s.(cur)) (s.(nextpid)) (s.(initproc)) (s.(mem)) (s.(freelist)) (s.(use_lock)) (s.(bufs)) (s.(disk)) (s.(writes)) (s.(log)) (s.(sb)) (s.(icache)) (s.(ftable)) (s.(pipes)) (s.(spoons)) (s.(ticks)) v (s.(kpgdir)).
Definition set_kpgdir (v : Z) (s : kstate) : kstate :=
  mkK (s.(held)) (s.(procs)) (s.(cur)) (s.(nextpid)) (s.(initproc)) (s.(mem)) (s.(freelist)) (s.(use_lock)) (s.(bufs)) (s.(disk)) (s.(writes)) (s.(log)) (s.(sb)) (s.(icache)) (s.(ftable)) (s.(pipes)) (s.(spoons)) (s.(ticks)) (s.(console)) v.

(** The console at power-on: C's zero-initialised static data. *)
Definition null_console : consstate :=
  mkCons false false (replicate 2000 0) 0 [] (replicate 128 0) 0 0 0 (replicate 15 (replicate 128 0)) (replicate 128 0).

(** Kernel routines.  A routine that enters [sched] ends in [Slept c s], with [c]
    the channel it sleeps on, [None] when it yields or exits. *)
Abbreviation KM := (M (option chan) kstate).
