(* ===== verification/Spinlock.v ===== *)
(** * Spinlock: spinlock.c on a multiprocessor

    [smp] is the state of the CPUs ([struct cpu], with the interrupt flag of the
    hardware CPU) and of every spinlock.  The routines are run by a CPU number
    [c]; [acquire] splits at the atomic exchange, [release] at the store that
    frees the lock, so that other CPUs can run in between.  The debugging fields
    of a lock (its name and the call stack [pcs]) are left out.

    The steps of the CPUs interleave in [sstep].  The theorems: an invariant of
    every interleaving, mutual exclusion, interrupts are off while a CPU owns a
    lock, and the calls that panic are exactly the misuses. *)

From stdpp Require Import base gmap list strings functions.
From Stdlib Require Import ZArith Lia.
From S2P Require Import Prelude State.

Local Open Scope Z_scope.
Local Open Scope kernel_scope.

(** ** Data *)

Record cpu := mkCpu {
  apicid : Z;
  ncli : Z;
  intena : bool;
  IF : bool            (* FL_IF in the CPU's eflags *)
}.

Record spinlock := mkSpinlock {
  locked : bool;
  lcpu : option nat
}.

Record smp := mkSmp {
  cpus : list cpu;
  locks : lockid -> spinlock
}.

(** [Slept l s]: the CPU still spins on lock [l]. *)
Abbreviation SM := (M lockid smp).

Definition no_cpu : cpu := mkCpu 0 0 false false.
Definition cpu_at (s : smp) (c : nat) : cpu := default no_cpu (cpus s !! c).
Definition set_cpu (c : nat) (v : cpu) : SM unit :=
  modify (fun s => mkSmp (<[c := v]> (cpus s)) (locks s)).
Definition set_lock (l : lockid) (v : spinlock) : SM unit :=
  modify (fun s => mkSmp (cpus s) (<[l := v]> (locks s))).

Section machine.
(** the LAPIC id the hardware of CPU [c] reports *)
Variable lapicid : nat -> Z.

Definition readeflags (c : nat) : SM bool := get (fun s => IF (cpu_at s c)).
Definition cli (c : nat) : SM unit :=
  v <- get (fun s => cpu_at s c) ;;
  set_cpu c (mkCpu (apicid v) (ncli v) (intena v) false).
Definition sti (c : nat) : SM unit :=
  v <- get (fun s => cpu_at s c) ;;
  set_cpu c (mkCpu (apicid v) (ncli v) (intena v) true).

Definition mycpu (c : nat) : SM nat :=
  f <- readeflags c ;;
  if (f : bool) then panic "mycpu called with interrupts enabled\n"
  else
    r <- get (fun s => list_find (fun v => apicid v = lapicid c) (cpus s)) ;;
    match r with
    | Some (i, _) => ret i
    | None => panic "unknown apicid\n"
    end.

Definition pushcli (c : nat) : SM unit :=
  eflags <- readeflags c ;;
  cli c ;;;
  i <- mycpu c ;;
  v <- get (fun s => cpu_at s i) ;;
  (if decide (ncli v = 0)
   then set_cpu i (mkCpu (apicid v) (ncli v) eflags (IF v)) else ret tt) ;;;
  v <- get (fun s => cpu_at s i) ;;
  set_cpu i (mkCpu (apicid v) (ncli v + 1) (intena v) (IF v)).

Definition popcli (c : nat) : SM unit :=
  f <- readeflags c ;;
  if (f : bool) then panic "popcli - interruptible"
  else
    i <- mycpu c ;;
    v <- get (fun s => cpu_at s i) ;;
    set_cpu i (mkCpu (apicid v) (ncli v - 1) (intena v) (IF v)) ;;;
    if decide (ncli v - 1 < 0) then panic "popcli"
    else if decide (ncli v - 1 = 0) then (if intena v then sti c else ret tt)
    else ret tt.

Definition holding (c : nat) (l : lockid) : SM bool :=
  pushcli c ;;;
  i <- mycpu c ;;
  lk <- get (fun s => locks s l) ;;
  popcli c ;;;
  ret (locked lk && bool_decide (lcpu lk = Some i)).

Definition initlock (l : lockid) : SM unit := set_lock l (mkSpinlock false None).

(** [xchg(&lk->locked, 1)] *)
Definition xchg (l : lockid) : SM bool :=
  lk <- get (fun s => locks s l) ;;
  set_lock l (mkSpinlock true (lcpu lk)) ;;;
  ret (locked lk).

Definition acquire_enter (c : nat) (l : lockid) : SM unit :=
  pushcli c ;;;
  h <- holding c l ;;
  if (h : bool) then panic "acquire" else ret tt.

Definition acquire_own (c : nat) (l : lockid) : SM unit :=
  i <- mycpu c ;;
  lk <- get (fun s => locks s l) ;;
  set_lock l (mkSpinlock (locked lk) (Some i)).

Definition acquire (c : nat) (l : lockid) : SM unit :=
  acquire_enter c l ;;;
  busy <- xchg l ;;
  if (busy : bool) then (fun s => Slept l s) else acquire_own c l.

Definition release_clear (c : nat) (l : lockid) : SM unit :=
  h <- holding c l ;;
  if (h : bool)
  then lk <- get (fun s => locks s l) ;; set_lock l (mkSpinlock (locked lk) None)
  else panic "release".

Definition release_free (c : nat) (l : lockid) : SM unit :=
  lk <- get (fun s => locks s l) ;;
  set_lock l (mkSpinlock false (lcpu lk)) ;;;
  popcli c.

Definition release (c : nat) (l : lockid) : SM unit :=
  release_clear c l ;;; release_free c l.
End machine.

(** ** What each routine does to the state *)

Section routines.
Variable lapicid : nat -> Z.
Hypothesis lapicid_inj : forall c d, lapicid c = lapicid d -> c = d.

(** the CPUs are numbered as their LAPIC ids are *)
Definition apic_ok (cs : list cpu) : Prop :=
  forall c v, cs !! c = Some v -> apicid v = lapicid c.

Lemma apic_ok_insert cs c v :
  apic_ok cs -> (forall w, cs !! c = Some w -> apicid w = apicid v) ->
  apic_ok (<[c := v]> cs).
Proof using.
  intros Hok Hc d w. rewrite list_lookup_insert_Some.
  intros [(-> & -> & Hd)|[_ Hw]]; [|by eapply Hok].
  apply lookup_lt_is_Some_2 in Hd as [u Hu]. rewrite <- (Hc u Hu). by apply Hok.
Qed.

Lemma cpu_at_lookup s c v : cpus s !! c = Some v -> cpu_at s c = v.
Proof using. unfold cpu_at. by intros ->. Qed.

Lemma mycpu_eq s c v :
  apic_ok (cpus s) -> cpus s !! c = Some v -> IF v = false ->
  mycpu lapicid c s = Ret c s.
Proof using lapicid_inj.
  intros Hok Hc HIF. unfold mycpu, bind, readeflags, get.
  rewrite (cpu_at_lookup _ _ _ Hc), HIF.
  assert (list_find (fun w => apicid w = lapicid c) (cpus s) = Some (c, v)) as ->; [|done].
  apply list_find_Some. split_and!; [done|by apply Hok|].
  intros d w Hd Hlt Heq. rewrite (Hok _ _ Hd) in Heq. apply lapicid_inj in Heq. lia.
Qed.

(** The CPU after [pushcli] and after a matching [popcli]. *)
Definition pushed_cpu (v : cpu) : cpu :=
  mkCpu (apicid v) (ncli v + 1) (if decide (ncli v = 0) then IF v else intena v) false.
Definition popped_cpu (v : cpu) : cpu :=
  mkCpu (apicid v) (ncli v - 1) (intena v)
        (if decide (ncli v = 1) then intena v else false).

Lemma pushcli_eq s c v :
  apic_ok (cpus s) -> cpus s !! c = Some v ->
  pushcli lapicid c s = Ret tt (mkSmp (<[c := pushed_cpu v]> (cpus s)) (locks s)).
Proof using lapicid_inj.
  intros Hok Hc. pose proof (lookup_lt_Some _ _ _ Hc) as Hlt.
  unfold pushcli, bind at 1, readeflags, get. rewrite (cpu_at_lookup _ _ _ Hc).
  unfold bind at 1, cli, bind at 1, get. rewrite (cpu_at_lookup _ _ _ Hc).
  unfold set_cpu, modify; cbn [cpus locks].
  set (v1 := mkCpu (apicid v) (ncli v) (intena v) false).
  set (s1 := mkSmp _ _).
  assert (cpus s1 !! c = Some v1) as Hc1 by (by apply list_lookup_insert_eq).
  unfold bind at 1. rewrite (mycpu_eq s1 c v1); [|by apply apic_ok_insert; [|naive_solver]|done|done].
  unfold bind, get; simpl. rewrite (cpu_at_lookup _ _ _ Hc1). subst v1. simpl.
  unfold pushed_cpu. case_decide; simpl.
  - unfold modify, cpu_at. cbn [cpus locks]. subst s1. cbn [cpus locks].
    rewrite list_lookup_insert_eq by (by rewrite length_insert). simpl.
    by rewrite !list_insert_insert_eq.
  - unfold ret, modify. rewrite (cpu_at_lookup _ _ _ Hc1). subst s1. simpl.
    by rewrite !list_insert_insert_eq.
Qed.

Lemma popcli_eq s c v :
  apic_ok (cpus s) -> cpus s !! c = Some v -> IF v = false -> 1 <= ncli v ->
  popcli lapicid c s = Ret tt (mkSmp (<[c := popped_cpu v]> (cpus s)) (locks s)).
Proof using lapicid_inj.
  intros Hok Hc HIF Hn. pose proof (lookup_lt_Some _ _ _ Hc) as Hlt.
  unfold popcli, bind at 1, readeflags, get. rewrite (cpu_at_lookup _ _ _ Hc), HIF.
  unfold bind at 1. rewrite (mycpu_eq s c v) by done.
  unfold bind, get; simpl. rewrite (cpu_at_lookup _ _ _ Hc).
  unfold set_cpu, modify, popped_cpu; cbn [cpus locks]. rewrite HIF.
  rewrite decide_False by lia.
  destruct (decide (ncli v = 1)) as [E|E].
  - rewrite decide_True by lia. destruct (intena v) eqn:Ei; [|done].
    unfold sti, bind, get, set_cpu, modify, cpu_at. cbn [cpus locks].
    rewrite list_lookup_insert_eq by done. simpl. by rewrite list_insert_insert_eq.
  - by rewrite decide_False by lia.
Qed.

Lemma popped_pushed v : IF v = false -> 1 <= ncli v -> popped_cpu (pushed_cpu v) = v.
Proof using.
  intros HIF Hn. unfold popped_cpu, pushed_cpu. simpl.
  rewrite !decide_False by lia. destruct v; simpl in *. f_equal; [lia|done].
Qed.

Lemma holding_gen s c v l :
  apic_ok (cpus s) -> cpus s !! c = Some v -> 0 <= ncli v ->
  holding lapicid c l s
    = Ret (locked (locks s l) && bool_decide (lcpu (locks s l) = Some c))
          (mkSmp (<[c := popped_cpu (pushed_cpu v)]> (cpus s)) (locks s)).
Proof using lapicid_inj.
  intros Hok Hc Hn. pose proof (lookup_lt_Some _ _ _ Hc) as Hlt.
  unfold holding, bind at 1. rewrite (pushcli_eq s c v) by done.
  set (s1 := mkSmp _ _).
  assert (cpus s1 !! c = Some (pushed_cpu v)) as Hc1 by (by apply list_lookup_insert_eq).
  assert (apic_ok (cpus s1)) as Hok1 by (apply apic_ok_insert; [done|naive_solver]).
  unfold bind at 1. rewrite (mycpu_eq s1 c (pushed_cpu v)) by done.
  unfold bind at 1, get. unfold bind at 1.
  rewrite (popcli_eq s1 c (pushed_cpu v)) by (done || simpl; lia).
  subst s1. cbn [cpus locks]. by rewrite list_insert_insert_eq.
Qed.

(** With interrupts already off, [holding] only looks. *)
Lemma holding_eq s c v l :
  apic_ok (cpus s) -> cpus s !! c = Some v -> IF v = false -> 1 <= ncli v ->
  holding lapicid c l s
    = Ret (locked (locks s l) && bool_decide (lcpu (locks s l) = Some c)) s.
Proof using lapicid_inj.
  intros Hok Hc HIF Hn. rewrite (holding_gen s c v) by (done || lia).
  rewrite popped_pushed, list_insert_id by done. by destruct s.
Qed.

(** [acquire] up to the exchange. *)
Lemma acquire_enter_eq s c v l :
  apic_ok (cpus s) -> cpus s !! c = Some v -> 0 <= ncli v ->
  acquire_enter lapicid c l s =
    if locked (locks s l) && bool_decide (lcpu (locks s l) = Some c)
    then Panic "acquire"
    else Ret tt (mkSmp (<[c := pushed_cpu v]> (cpus s)) (locks s)).
Proof using lapicid_inj.
  intros Hok Hc Hn. pose proof (lookup_lt_Some _ _ _ Hc) as Hlt.
  unfold acquire_enter, bind at 1. rewrite (pushcli_eq s c v) by done.
  set (s1 := mkSmp _ _).
  unfold bind at 1. rewrite (holding_eq s1 c (pushed_cpu v) l).
  - subst s1. cbn [locks]. by case_match.
  - apply apic_ok_insert; [done|naive_solver].
  - by apply list_lookup_insert_eq.
  - done.
  - simpl. lia.
Qed.

Lemma release_clear_eq s c v l :
  apic_ok (cpus s) -> cpus s !! c = Some v -> IF v = false -> 1 <= ncli v ->
  locked (locks s l) = true -> lcpu (locks s l) = Some c ->
  release_clear lapicid c l s
    = Ret tt (mkSmp (cpus s) (<[l := mkSpinlock true None]> (locks s))).
Proof using lapicid_inj.
  intros Hok Hc HIF Hn Hl Ho. unfold release_clear, bind at 1.
  rewrite (holding_eq s c v) by done. rewrite Hl, Ho, bool_decide_true by done. simpl.
  unfold bind, get. by rewrite Hl.
Qed.

Lemma release_clear_panic s c v l :
  apic_ok (cpus s) -> cpus s !! c = Some v -> 0 <= ncli v ->
  lcpu (locks s l) <> Some c -> release_clear lapicid c l s = Panic "release".
Proof using lapicid_inj.
  intros Hok Hc Hn Ho. unfold release_clear, bind at 1.
  rewrite (holding_gen s c v) by done.
  by rewrite bool_decide_false, andb_false_r by done.
Qed.

Lemma release_free_eq s c v l :
  apic_ok (cpus s) -> cpus s !! c = Some v -> IF v = false -> 1 <= ncli v ->
  release_free lapicid c l s
    = Ret tt (mkSmp (<[c := popped_cpu v]> (cpus s))
                    (<[l := mkSpinlock false (lcpu (locks s l))]> (locks s))).
Proof using lapicid_inj.
  intros Hok Hc HIF Hn. unfold release_free, bind at 1, get, bind at 1, set_lock, modify.
  by rewrite (popcli_eq _ c v) by done.
Qed.

Lemma acquire_own_eq s c v l :
  apic_ok (cpus s) -> cpus s !! c = Some v -> IF v = false ->
  acquire_own lapicid c l s
    = Ret tt (mkSmp (cpus s) (<[l := mkSpinlock (locked (locks s l)) (Some c)]> (locks s))).
Proof using lapicid_inj.
  intros Hok Hc HIF. unfold acquire_own, bind at 1. by rewrite (mycpu_eq s c v) by done.
Qed.
End routines.

(** ** CPUs running side by side *)

(** Where a CPU is: in its own code, in the loop on the exchange, between the
    exchange and the store of [lk->cpu], or between the two stores of [release]. *)
Inductive pc := Run | Spin (l : lockid) | Got (l : lockid) | Freeing (l : lockid).

(** [owned c]: the locks CPU [c] has acquired and not released, a history
    variable; [pushed c]: its open calls of [pushcli] outside of the locks. *)
Record sys := mkSys {
  mach : smp;
  at_pc : nat -> pc;
  owned : nat -> list lockid;
  pushed : nat -> Z
}.

Section interleaving.
Variable lapicid : nat -> Z.
Hypothesis lapicid_inj : forall c d, lapicid c = lapicid d -> c = d.

(** One step of CPU [c].  [popcli] closes a [pushcli] of the same CPU; interrupts
    come on by [sti] in the scheduler and by [iret], and an interrupt turns them
    off, when the CPU is in no lock routine and, for [sti], between locks. *)
Inductive sstep : sys -> sys -> Prop :=
| S_pushcli c m m' pcs ow pu :
    (c < length (cpus m))%nat -> pcs c = Run -> pushcli lapicid c m = Ret tt m' ->
    sstep (mkSys m pcs ow pu) (mkSys m' pcs ow (<[c := pu c + 1]> pu))
| S_popcli c m m' pcs ow pu :
    (c < length (cpus m))%nat -> pcs c = Run -> 0 < pu c -> popcli lapicid c m = Ret tt m' ->
    sstep (mkSys m pcs ow pu) (mkSys m' pcs ow (<[c := pu c - 1]> pu))
| S_enter c l m m' pcs ow pu :
    (c < length (cpus m))%nat -> pcs c = Run -> acquire_enter lapicid c l m = Ret tt m' ->
    sstep (mkSys m pcs ow pu) (mkSys m' (<[c := Spin l]> pcs) ow pu)
| S_xchg c l m m' b pcs ow pu :
    (c < length (cpus m))%nat -> pcs c = Spin l -> xchg l m = Ret b m' ->
    sstep (mkSys m pcs ow pu) (mkSys m' (<[c := if b then Spin l else Got l]> pcs) ow pu)
| S_own c l m m' pcs ow pu :
    (c < length (cpus m))%nat -> pcs c = Got l -> acquire_own lapicid c l m = Ret tt m' ->
    sstep (mkSys m pcs ow pu) (mkSys m' (<[c := Run]> pcs) (<[c := l :: ow c]> ow) pu)
| S_clear c l m m' pcs ow pu :
    (c < length (cpus m))%nat -> pcs c = Run -> release_clear lapicid c l m = Ret tt m' ->
    sstep (mkSys m pcs ow pu)
          (mkSys m' (<[c := Freeing l]> pcs) (<[c := filter (.≠ l) (ow c)]> ow) pu)
| S_free c l m m' pcs ow pu :
    (c < length (cpus m))%nat -> pcs c = Freeing l -> release_free lapicid c l m = Ret tt m' ->
    sstep (mkSys m pcs ow pu) (mkSys m' (<[c := Run]> pcs) ow pu)
| S_sti c m m' pcs ow pu :
    (c < length (cpus m))%nat -> pcs c = Run -> ow c = [] -> pu c = 0 -> sti c m = Ret tt m' ->
    sstep (mkSys m pcs ow pu) (mkSys m' pcs ow pu)
| S_intr c m m' pcs ow pu :
    (c < length (cpus m))%nat -> pcs c = Run -> cli c m = Ret tt m' ->
    sstep (mkSys m pcs ow pu) (mkSys m' pcs ow pu).

(** At boot every CPU runs with interrupts off and no lock is held. *)
Definition boot (n : nat) : sys :=
  mkSys (mkSmp ((fun c => mkCpu (lapicid c) 0 false false) <$> seq 0 n)
               (fun _ => mkSpinlock false None))
        (fun _ => Run) (fun _ => []) (fun _ => 0).

Definition reachable (n : nat) : sys -> Prop := rtc sstep (boot n).

(** CPU [c] has lock [l]: from the exchange that took it to the store that frees it. *)
Definition has (pcs : nat -> pc) (ow : nat -> list lockid) (c : nat) (l : lockid) : Prop :=
  l ∈ ow c \/ pcs c = Got l \/ pcs c = Freeing l.
Definition owns (s : sys) : nat -> lockid -> Prop := has (at_pc s) (owned s).

(** the nesting depth the locks and the open [pushcli] calls of [c] account for *)
Definition depth_of (pcs : nat -> pc) (ow : nat -> list lockid) (pu : nat -> Z) (c : nat) : Z :=
  Z.of_nat (length (ow c)) + pu c + match pcs c with Run => 0 | _ => 1 end.

Record cpu_inv (cs : list cpu) (dep pu : nat -> Z) : Prop := {
  ci_apic : apic_ok lapicid cs;
  ci_ncli c v : cs !! c = Some v -> ncli v = dep c;
  ci_if c v : cs !! c = Some v -> IF v = true -> dep c = 0;
  ci_pushed c : 0 <= pu c
}.

Record lock_inv (n : nat) (lk : lockid -> spinlock) (pcs : nat -> pc)
    (ow : nat -> list lockid) : Prop := {
  li_range c l : has pcs ow c l -> (c < n)%nat;
  li_free c l : locked (lk l) = false -> ~ has pcs ow c l;
  li_taken l : locked (lk l) = true -> exists c, has pcs ow c l;
  li_excl c d l : has pcs ow c l -> has pcs ow d l -> c = d;
  li_lcpu c l : lcpu (lk l) = Some c <-> l ∈ ow c;
  li_nodup c : NoDup (ow c);
  li_pc c l : l ∈ ow c -> pcs c <> Got l /\ pcs c <> Freeing l
}.

Record inv (s : sys) : Prop := {
  inv_cpus : cpu_inv (cpus (mach s)) (depth_of (at_pc s) (owned s) (pushed s)) (pushed s);
  inv_locks : lock_inv (length (cpus (mach s))) (locks (mach s)) (at_pc s) (owned s)
}.

Lemma cpu_inv_update cs dep pu c v w dep' pu' :
  cpu_inv cs dep pu -> cs !! c = Some v -> apicid w = apicid v ->
  ncli w = dep' c -> (IF w = true -> dep' c = 0) -> 0 <= pu' c ->
  (forall d, d <> c -> dep' d = dep d /\ pu' d = pu d) ->
  cpu_inv (<[c := w]> cs) dep' pu'.
Proof using.
  intros [Ha Hn Hi Hp] Hc Hap Hncli HIF Hpu Hd. split.
  - apply apic_ok_insert; [done|]. intros u Hu. congruence.
  - intros d u. rewrite list_lookup_insert_Some.
    intros [(-> & -> & _)|[Hne Hu]]; [done|]. rewrite (proj1 (Hd d ltac:(done))). by apply Hn.
  - intros d u. rewrite list_lookup_insert_Some.
    intros [(-> & -> & _)|[Hne Hu]]; [done|]. rewrite (proj1 (Hd d ltac:(done))). by apply Hi.
  - intros d. destruct (decide (d = c)) as [->|Hne]; [done|].
    rewrite (proj2 (Hd d Hne)). apply Hp.
Qed.
End interleaving.

(** Case analysis on updated functions. *)
Ltac fn_cases :=
  repeat first
  [ rewrite fn_lookup_insert
  | rewrite fn_lookup_insert_ne by done
  | match goal with
    | |- context [(<[?a := _]> _) ?b] => destruct (decide (a = b)); [subst|]
    end ].

Section lock_steps.
Variable n : nat.
Implicit Types (lk : lockid -> spinlock) (pcs : nat -> pc) (ow : nat -> list lockid).

Lemma lock_inv_ext lk lk' pcs ow :
  (forall l, lk' l = lk l) -> lock_inv n lk pcs ow -> lock_inv n lk' pcs ow.
Proof. intros Heq [Hr Hf Ht He Hl Hnd Hpc]. split; try setoid_rewrite Heq; done. Qed.

(** A CPU that moves between [Run] and [Spin] changes no ownership. *)
Lemma lock_inv_spin lk pcs ow c p :
  lock_inv n lk pcs ow ->
  (pcs c = Run \/ exists l, pcs c = Spin l) -> (p = Run \/ exists l, p = Spin l) ->
  lock_inv n lk (<[c := p]> pcs) ow.
Proof.
  intros Hinv Hc Hp.
  assert (forall d l, has (<[c := p]> pcs) ow d l <-> has pcs ow d l) as Heq.
  { intros d l. unfold has. fn_cases; [|done].
    destruct Hc as [->|[? ->]], Hp as [->|[? ->]]; naive_solver. }
  destruct Hinv as [Hr Hf Ht He Hl Hnd Hpc]. split; try setoid_rewrite Heq; try done.
  intros d l Hin. fn_cases; [|by apply Hpc]. destruct Hp as [->|[? ->]]; done.
Qed.

Lemma lock_inv_taken lk pcs ow c l :
  lock_inv n lk pcs ow -> (c < n)%nat -> pcs c = Spin l -> locked (lk l) = false ->
  lock_inv n (<[l := mkSpinlock true (lcpu (lk l))]> lk) (<[c := Got l]> pcs) ow.
Proof.
  intros [Hr Hf Ht He Hl Hnd Hpc] Hcn Hc Hlk.
  assert (forall d l', has (<[c := Got l]> pcs) ow d l' <-> has pcs ow d l' \/ (d = c /\ l' = l)) as Heq.
  { intros d l'. unfold has. fn_cases; [rewrite Hc|]; intuition congruence. }
  split; try setoid_rewrite Heq.
  - intros d l' [H|[-> _]]; eauto.
  - intros d l'. fn_cases; [done|]. intros H1 [H2|[_ ->]]; [by eapply Hf|done].
  - intros l'. fn_cases; [eauto|]. intros [d Hd]%Ht. eauto.
  - intros d1 d2 l' [H1|[-> ->]] [H2|[-> H2]]; eauto; subst; exfalso; eapply Hf; eauto.
  - intros d l'. fn_cases; simpl; apply Hl.
  - done.
  - intros d l' Hin. fn_cases; [|by apply Hpc]. split; [|done].
    intros [= ->]. destruct (Hf d l' Hlk). by left.
Qed.

Lemma lock_inv_own lk pcs ow c l :
  lock_inv n lk pcs ow -> (c < n)%nat -> pcs c = Got l ->
  lock_inv n (<[l := mkSpinlock (locked (lk l)) (Some c)]> lk)
           (<[c := Run]> pcs) (<[c := l :: ow c]> ow).
Proof.
  intros [Hr Hf Ht He Hl Hnd Hpc] Hcn Hc.
  assert (forall d l', has (<[c := Run]> pcs) (<[c := l :: ow c]> ow) d l' <-> has pcs ow d l') as Heq.
  { intros d l'. unfold has. fn_cases; [rewrite Hc, elem_of_cons|done]. intuition congruence. }
  assert (has pcs ow c l) as Hhas by (by right; left).
  assert (l ∉ ow c) as Hnin by (intros Hin; by destruct (Hpc c l Hin)).
  split; try setoid_rewrite Heq.
  - done.
  - intros d l'. fn_cases; simpl; eauto.
  - intros l'. fn_cases; simpl; eauto.
  - done.
  - intros d l'. fn_cases; simpl; rewrite ?elem_of_cons.
    + tauto.
    + split; [intros [= ->]; done|]. intros Hin. destruct (He c d l'); [done|by left|done].
    + rewrite Hl. intuition congruence.
    + apply Hl.
  - intros d. fn_cases; [|done]. by constructor.
  - intros d l'. fn_cases; [done|apply Hpc].
Qed.

Lemma lock_inv_clear lk pcs ow c l :
  lock_inv n lk pcs ow -> (c < n)%nat -> pcs c = Run -> l ∈ ow c ->
  lock_inv n (<[l := mkSpinlock (locked (lk l)) None]> lk)
           (<[c := Freeing l]> pcs) (<[c := filter (.≠ l) (ow c)]> ow).
Proof.
  intros [Hr Hf Ht He Hl Hnd Hpc] Hcn Hc Hin.
  assert (forall d l', has (<[c := Freeing l]> pcs) (<[c := filter (.≠ l) (ow c)]> ow) d l'
                       <-> has pcs ow d l') as Heq.
  { intros d l'. unfold has. fn_cases; [rewrite Hc, list_elem_of_filter|done].
    destruct (decide (l' = l)) as [->|]; intuition congruence. }
  split; try setoid_rewrite Heq.
  - done.
  - intros d l'. fn_cases; simpl; eauto.
  - intros l'. fn_cases; simpl; eauto.
  - done.
  - intros d l'. fn_cases; simpl; rewrite ?list_elem_of_filter.
    + intuition congruence.
    + split; [done|]. intros Hin'. destruct (He c d l'); [by left|by left|done].
    + rewrite Hl. intuition congruence.
    + apply Hl.
  - intros d. fn_cases; [by apply list.NoDup_filter|done].
  - intros d l'. fn_cases; rewrite ?list_elem_of_filter; [|by apply Hpc].
    intros [Hne _]. split; congruence.
Qed.

Lemma lock_inv_free lk pcs ow c l :
  lock_inv n lk pcs ow -> pcs c = Freeing l ->
  lock_inv n (<[l := mkSpinlock false (lcpu (lk l))]> lk) (<[c := Run]> pcs) ow.
Proof.
  intros [Hr Hf Ht He Hl Hnd Hpc] Hc.
  assert (has pcs ow c l) as Hhas by (by right; right).
  assert (l ∉ ow c) as Hnin by (intros Hin; by destruct (Hpc c l Hin)).
  assert (forall d l', has (<[c := Run]> pcs) ow d l' <-> has pcs ow d l' /\ l' <> l) as Heq.
  { intros d l'. unfold has. fn_cases.
    - rewrite Hc. destruct (decide (l' = l)) as [->|]; intuition congruence.
    - split; [|tauto]. intros Hd. split; [done|]. intros ->.
      destruct (He c d l Hhas Hd). done. }
  split; try setoid_rewrite Heq.
  - intros d l' [Hd _]. by eapply Hr.
  - intros d l'. fn_cases; simpl; [tauto|]. intros H1 [H2 _]. by eapply Hf.
  - intros l'. fn_cases; simpl; [done|]. intros [d Hd]%Ht. eauto.
  - intros d1 d2 l' [H1 _] [H2 _]. by eapply He.
  - intros d l'. fn_cases; simpl; apply Hl.
  - done.
  - intros d l'. fn_cases; [done|apply Hpc].
Qed.
End lock_steps.

Lemma filter_ne_length (l : lockid) (ls : list lockid) :
  NoDup ls -> l ∈ ls -> S (length (filter (.≠ l) ls)) = length ls.
Proof.
  induction 1 as [|a ls Ha Hnd IH]; [by intros ?%elem_of_nil|].
  rewrite elem_of_cons, filter_cons. intros [->|Hin].
  - rewrite decide_False by tauto. simpl. f_equal. f_equal.
    by rewrite filter_ne_all.
  - rewrite decide_True by (by intros ->). simpl. by rewrite IH.
Qed.

Section invariant.
Variable lapicid : nat -> Z.
Hypothesis lapicid_inj : forall c d, lapicid c = lapicid d -> c = d.

Lemma boot_inv n : inv lapicid (boot lapicid n).
Proof using.
  split; simpl.
  - split.
    + intros c v Hc. rewrite list_lookup_fmap, fmap_Some in Hc.
      destruct Hc as (d & Hd & ->). apply lookup_seq in Hd as [-> _]. done.
    + intros c v Hc. rewrite list_lookup_fmap, fmap_Some in Hc.
      destruct Hc as (d & Hd & ->). done.
    + intros c v Hc. rewrite list_lookup_fmap, fmap_Some in Hc.
      destruct Hc as (d & Hd & ->). done.
    + done.
  - unfold has. split; simpl; try done.
    + intros c l [H|[H|H]]; [by apply elem_of_nil in H|done|done].
    + intros c l _ [H|[H|H]]; [by apply elem_of_nil in H|done|done].
    + intros c d l [H|[H|H]]; [by apply elem_of_nil in H|done|done].
    + intros c l. split; [done|]. by intros ?%elem_of_nil.
    + intros c. constructor.
Qed.

(** A CPU at [Run] with interrupts off may have depth 0; in a lock routine, or
    owning a lock, its depth is positive and its interrupts are off. *)
Lemma cpu_inv_off cs dep pu c v :
  cpu_inv lapicid cs dep pu -> cs !! c = Some v -> 0 < dep c ->
  IF v = false /\ ncli v = dep c.
Proof using.
  intros Hci Hc Hd. split; [|by eapply ci_ncli].
  destruct (IF v) eqn:HIF; [|done]. pose proof (ci_if _ _ _ _ Hci c v Hc HIF). lia.
Qed.

Lemma depth_nonneg pcs ow pu c : (forall d, 0 <= pu d) -> 0 <= depth_of pcs ow pu c.
Proof using. intros H. specialize (H c). unfold depth_of. destruct (pcs c); lia. Qed.

Section steps.
Variables (m : smp) (pcs : nat -> pc) (ow : nat -> list lockid) (pu : nat -> Z) (c : nat).
Hypothesis Hinv : inv lapicid (mkSys m pcs ow pu).
Hypothesis Hlt : (c < length (cpus m))%nat.

Lemma step_cpu :
  exists v, cpus m !! c = Some v /\ ncli v = depth_of pcs ow pu c /\ 0 <= ncli v
    /\ (0 < depth_of pcs ow pu c -> IF v = false)
    /\ (IF v = true -> depth_of pcs ow pu c = 0)
    /\ apic_ok lapicid (cpus m) /\ 0 <= pu c.
Proof using Hinv Hlt.
  destruct Hinv as [Hci _]. simpl in Hci.
  apply lookup_lt_is_Some_2 in Hlt as [v Hv].
  exists v. pose proof (ci_ncli _ _ _ _ Hci c v Hv) as Hn.
  pose proof (depth_nonneg pcs ow pu c (ci_pushed _ _ _ _ Hci)).
  split_and!; [done|done|lia|by intros; eapply cpu_inv_off|by eapply ci_if
              |by eapply ci_apic|by eapply ci_pushed].
Qed.

Ltac start v := destruct Hinv as [Hci Hli]; simpl in Hci, Hli;
  destruct step_cpu as (v & Hv & Hn & Hn0 & Hoff & Hon & Hap & Hpuc).
Ltac finish := eapply cpu_inv_update; [done|done|done|..];
  unfold depth_of in *; simpl; fn_cases; try lia;
  try (intros d Hne; by fn_cases); try done.

Lemma pushcli_inv m' :
  pcs c = Run -> pushcli lapicid c m = Ret tt m' ->
  inv lapicid (mkSys m' pcs ow (<[c := pu c + 1]> pu)).
Proof using Hinv Hlt lapicid_inj.
  intros Hpc Hrun. start v.
  rewrite (pushcli_eq _ lapicid_inj m c v) in Hrun by done. injection Hrun as <-.
  split; simpl; [|by rewrite length_insert]. finish.
Qed.

Lemma popcli_inv m' :
  pcs c = Run -> 0 < pu c -> popcli lapicid c m = Ret tt m' ->
  inv lapicid (mkSys m' pcs ow (<[c := pu c - 1]> pu)).
Proof using Hinv Hlt lapicid_inj.
  intros Hpc Hpu Hrun. start v.
  assert (0 < depth_of pcs ow pu c) as Hd by (unfold depth_of in *; destruct (pcs c); lia).
  rewrite (popcli_eq _ lapicid_inj m c v) in Hrun by (try done; try lia; by apply Hoff).
  injection Hrun as <-.
  split; simpl; [|by rewrite length_insert]. finish.
  case_decide; [lia|done].
Qed.

Lemma enter_inv m' l :
  pcs c = Run -> acquire_enter lapicid c l m = Ret tt m' ->
  inv lapicid (mkSys m' (<[c := Spin l]> pcs) ow pu).
Proof using Hinv Hlt lapicid_inj.
  intros Hpc Hrun. start v.
  rewrite (acquire_enter_eq _ lapicid_inj m c v) in Hrun by done.
  case_match; [done|]. injection Hrun as <-.
  split; simpl; [|rewrite length_insert; apply lock_inv_spin; eauto]. finish.
  rewrite Hpc in *. lia.
Qed.

Lemma xchg_inv m' l b :
  pcs c = Spin l -> xchg l m = Ret b m' ->
  inv lapicid (mkSys m' (<[c := if b then Spin l else Got l]> pcs) ow pu).
Proof using Hinv Hlt.
  intros Hpc Hrun. start v.
  unfold xchg, bind, get, set_lock, modify, ret in Hrun. injection Hrun as <- <-.
  assert (forall d, depth_of (<[c := if locked (locks m l) then Spin l else Got l]> pcs) ow pu d
    = depth_of pcs ow pu d) as Hdep.
  { intros d. unfold depth_of. fn_cases; [|done]. rewrite Hpc. by destruct (locked (locks m l)). }
  split; simpl.
  { destruct Hci. split; try setoid_rewrite Hdep; done. }
  destruct (locked (locks m l)) eqn:Hlk; [|by apply lock_inv_taken].
  assert (lock_inv (length (cpus m)) (locks m) (<[c:=Spin l]> pcs) ow) as Hli'
    by (apply lock_inv_spin; eauto).
  eapply lock_inv_ext; [|exact Hli'].
  intros l'. fn_cases; [|done]. rewrite <- Hlk. by destruct (locks m l').
Qed.

Lemma own_inv m' l :
  pcs c = Got l -> acquire_own lapicid c l m = Ret tt m' ->
  inv lapicid (mkSys m' (<[c := Run]> pcs) (<[c := l :: ow c]> ow) pu).
Proof using Hinv Hlt lapicid_inj.
  intros Hpc Hrun. start v.
  assert (0 < depth_of pcs ow pu c) as Hd by (unfold depth_of in *; rewrite Hpc in *; lia).
  rewrite (acquire_own_eq _ lapicid_inj m c v) in Hrun by (try done; by apply Hoff).
  injection Hrun as <-.
  split; simpl; [|by apply lock_inv_own].
  rewrite <- (list_insert_id (cpus m) c v) by done. finish.
  - rewrite Hpc in *. simpl. lia.
  - intros HIF. rewrite (Hoff Hd) in HIF. done.
Qed.

Lemma clear_inv m' l :
  pcs c = Run -> release_clear lapicid c l m = Ret tt m' ->
  inv lapicid (mkSys m' (<[c := Freeing l]> pcs) (<[c := filter (.≠ l) (ow c)]> ow) pu).
Proof using Hinv Hlt lapicid_inj.
  intros Hpc Hrun. start v.
  destruct (decide (lcpu (locks m l) = Some c)) as [Ho|Ho];
    [|by rewrite (release_clear_panic _ lapicid_inj m c v) in Hrun].
  pose proof (proj1 (li_lcpu _ _ _ _ Hli c l) Ho) as Hin.
  pose proof (filter_ne_length l (ow c) (li_nodup _ _ _ _ Hli c) Hin) as Hlen.
  assert (0 < depth_of pcs ow pu c) as Hd by (unfold depth_of; rewrite Hpc; lia).
  assert (locked (locks m l) = true) as Hlk.
  { destruct (locked (locks m l)) eqn:E; [done|]. destruct (li_free _ _ _ _ Hli c l E). by left. }
  rewrite (release_clear_eq _ lapicid_inj m c v) in Hrun by (try done; try lia; by apply Hoff).
  injection Hrun as <-. rewrite <- Hlk.
  split; simpl; [|by apply lock_inv_clear].
  rewrite <- (list_insert_id (cpus m) c v) by done. finish.
  - rewrite Hpc in *. lia.
  - intros HIF. rewrite (Hoff Hd) in HIF. done.
Qed.

Lemma free_inv m' l :
  pcs c = Freeing l -> release_free lapicid c l m = Ret tt m' ->
  inv lapicid (mkSys m' (<[c := Run]> pcs) ow pu).
Proof using Hinv Hlt lapicid_inj.
  intros Hpc Hrun. start v.
  assert (0 < depth_of pcs ow pu c) as Hd by (unfold depth_of in *; rewrite Hpc in *; lia).
  rewrite (release_free_eq _ lapicid_inj m c v) in Hrun by (try done; try lia; by apply Hoff).
  injection Hrun as <-.
  split; simpl; [|rewrite length_insert; by apply lock_inv_free].
  finish; rewrite Hpc in *; [lia|]. case_decide; [lia|done].
Qed.

Lemma sti_inv m' :
  pcs c = Run -> ow c = [] -> pu c = 0 -> sti c m = Ret tt m' ->
  inv lapicid (mkSys m' pcs ow pu).
Proof using Hinv Hlt.
  intros Hpc Ho Hp Hrun. start v.
  unfold sti, bind, get, set_cpu, modify in Hrun.
  rewrite (cpu_at_lookup _ _ _ Hv) in Hrun. injection Hrun as <-.
  split; simpl; [|by rewrite length_insert].
  assert (depth_of pcs ow pu c = 0) as Hd by (unfold depth_of; rewrite Ho, Hp, Hpc; simpl; lia).
  by eapply cpu_inv_update.
Qed.

Lemma cli_inv m' : cli c m = Ret tt m' -> inv lapicid (mkSys m' pcs ow pu).
Proof using Hinv Hlt.
  intros Hrun. start v.
  unfold cli, bind, get, set_cpu, modify in Hrun.
  rewrite (cpu_at_lookup _ _ _ Hv) in Hrun. injection Hrun as <-.
  split; simpl; [|by rewrite length_insert]. by eapply cpu_inv_update.
Qed.
End steps.

Lemma sstep_inv s s' : inv lapicid s -> sstep lapicid s s' -> inv lapicid s'.
Proof using lapicid_inj.
  intros Hinv Hstep. inversion Hstep; subst;
    eauto using pushcli_inv, popcli_inv, enter_inv, xchg_inv, own_inv, clear_inv,
      free_inv, sti_inv, cli_inv.
Qed.

Lemma reachable_inv n s : reachable lapicid n s -> inv lapicid s.
Proof using lapicid_inj.
  unfold reachable. intros H. pose proof (boot_inv n) as Hb.
  remember (boot lapicid n) as b. clear Heqb. induction H; eauto using sstep_inv.
Qed.
End invariant.

(** ** The theorems *)

(** C23: mutual exclusion.  However the CPUs interleave, at most one of them has
    a given lock, from the exchange that takes it to the store that frees it;
    the lock word is 1 exactly when some CPU has the lock, and [lk->cpu] names
    the CPU whose [acquire] has completed. *)
Theorem spinlock_mutual_exclusion (lapicid : nat -> Z) (n : nat) (s : sys) (l : lockid) :
  (forall c d, lapicid c = lapicid d -> c = d) ->
  reachable lapicid n s ->
  (forall c d, owns s c l -> owns s d l -> c = d)
  /\ (locked (locks (mach s) l) = true <-> exists c, owns s c l)
  /\ (forall c, lcpu (locks (mach s) l) = Some c <-> l ∈ owned s c).
Proof.
  intros Hinj Hr. destruct (reachable_inv _ Hinj _ _ Hr) as [_ Hli].
  split_and!.
  - intros c d. apply (li_excl _ _ _ _ Hli).
  - split; [apply (li_taken _ _ _ _ Hli)|]. intros [c Hc].
    destruct (locked (locks (mach s) l)) eqn:E; [done|].
    by destruct (li_free _ _ _ _ Hli c l E).
  - intros c. apply (li_lcpu _ _ _ _ Hli).
Qed.

(** C32: a CPU that has a lock, or is inside [acquire] or [release], runs with
    interrupts off, so no handler on that CPU can wait for a lock the CPU itself
    has; its [ncli] is the number of locks and open [pushcli] calls. *)
Theorem interrupts_off_while_locked (lapicid : nat -> Z) (n : nat) (s : sys) (c : nat) (v : cpu) :
  (forall c d, lapicid c = lapicid d -> c = d) ->
  reachable lapicid n s -> cpus (mach s) !! c = Some v ->
  ncli v = depth_of (at_pc s) (owned s) (pushed s) c
  /\ (IF v = true -> owned s c = [] /\ at_pc s c = Run /\ pushed s c = 0).
Proof.
  intros Hinj Hr Hc. destruct (reachable_inv _ Hinj _ _ Hr) as [Hci _].
  split; [by eapply ci_ncli|]. intros HIF.
  pose proof (ci_if _ _ _ _ Hci c v Hc HIF) as Hd. pose proof (ci_pushed _ _ _ _ Hci c).
  unfold depth_of in Hd. destruct (at_pc s c), (owned s c); simpl in Hd; try lia.
  split_and!; [done|done|lia].
Qed.

(** the lock routines panic on misuse and only then: [acquire] when this CPU
    already has the lock, [release] when it does not. *)
Theorem lock_misuse_panics (lapicid : nat -> Z) (n : nat) (s : sys) (c : nat) (l : lockid) :
  (forall c d, lapicid c = lapicid d -> c = d) ->
  reachable lapicid n s -> (c < length (cpus (mach s)))%nat ->
  (acquire_enter lapicid c l (mach s) = Panic "acquire" <-> l ∈ owned s c)
  /\ (release_clear lapicid c l (mach s) = Panic "release" <-> l ∉ owned s c).
Proof.
  intros Hinj Hr Hlt. pose proof (reachable_inv _ Hinj _ _ Hr) as Hinv.
  destruct s as [m pcs ow pu]. simpl in *.
  destruct (step_cpu _ _ _ _ _ _ Hinv Hlt) as (v & Hv & Hn & Hn0 & Hoff & Hon & Hap & Hpu).
  destruct Hinv as [_ Hli]. simpl in Hli.
  assert (l ∈ ow c -> locked (locks m l) = true) as Hlk.
  { intros Hin. destruct (locked (locks m l)) eqn:E; [done|].
    destruct (li_free _ _ _ _ Hli c l E). by left. }
  rewrite (acquire_enter_eq _ Hinj m c v) by done.
  rewrite <- (li_lcpu _ _ _ _ Hli c l) in *. split.
  - destruct (decide (lcpu (locks m l) = Some c)) as [E|E].
    + rewrite (Hlk E), bool_decide_true by done. done.
    + rewrite bool_decide_false, andb_false_r by done. split; [done|]. by intros.
  - split; [|by intros; apply (release_clear_panic _ Hinj m c v)].
    intros Hrun E.
    assert (0 < depth_of pcs ow pu c) as Hd.
    { apply (li_lcpu _ _ _ _ Hli) in E. unfold depth_of.
      destruct (ow c); [by apply elem_of_nil in E|]. simpl. destruct (pcs c); lia. }
    by rewrite (release_clear_eq _ Hinj m c v) in Hrun by (auto; lia).
Qed.

(** Two CPUs; CPU 0 takes the process-table lock while CPU 1 spins on it. *)
Definition two_cpus (n0 n1 : Z) (lk : spinlock) (f : lockid -> spinlock) : smp :=
  mkSmp [mkCpu 0 n0 false false; mkCpu 1 n1 false false] (<[L_ptable := lk]> f).

Lemma contention :
  exists s, reachable Z.of_nat 2 s /\ owned s 0%nat = [L_ptable] /\ owned s 1%nat = []
    /\ at_pc s 1%nat = Spin L_ptable /\ length (cpus (mach s)) = 2%nat
    /\ (exists v, cpus (mach s) !! 0%nat = Some v /\ IF v = false /\ ncli v = 1).
Proof.
  pose (f0 := fun _ : lockid => mkSpinlock false None).
  pose (m1 := mkSmp [mkCpu 0 1 false false; mkCpu 1 0 false false] f0).
  pose (m2 := mkSmp [mkCpu 0 1 false false; mkCpu 1 1 false false] f0).
  pose (m3 := two_cpus 1 1 (mkSpinlock true None) f0).
  pose (m4 := two_cpus 1 1 (mkSpinlock true None) (locks m3)).
  pose (m5 := two_cpus 1 1 (mkSpinlock true (Some 0%nat)) (locks m4)).
  eexists. split.
  - eapply rtc_l; [apply (S_enter Z.of_nat 0 L_ptable _ m1); [simpl; lia|done|vm_compute; reflexivity]|].
    eapply rtc_l; [apply (S_enter Z.of_nat 1 L_ptable _ m2); [simpl; lia|done|vm_compute; reflexivity]|].
    eapply rtc_l; [apply (S_xchg Z.of_nat 0 L_ptable _ m3 false); [simpl; lia|done|vm_compute; reflexivity]|].
    eapply rtc_l; [apply (S_xchg Z.of_nat 1 L_ptable _ m4 true); [simpl; lia|done|vm_compute; reflexivity]|].
    eapply rtc_l; [apply (S_own Z.of_nat 0 L_ptable _ m5); [simpl; lia|done|vm_compute; reflexivity]|].
    apply rtc_refl.
  - do 4 (split; [reflexivity|]). eexists. split; [reflexivity|]. split; reflexivity.
Defined.

Lemma spinlock_mutual_exclusion_witness :
  exists s, reachable Z.of_nat 2 s /\ owns s 0%nat L_ptable
    /\ (forall d, owns s d L_ptable -> 0%nat = d).
Proof.
  destruct contention as (s & Hr & Ho & _). exists s.
  assert (owns s 0%nat L_ptable) as H0 by (left; rewrite Ho; by left).
  split; [done|]. split; [done|]. intros d.
  apply (proj1 (spinlock_mutual_exclusion Z.of_nat 2 s L_ptable ltac:(intros; lia) Hr)). done.
Defined.

Lemma interrupts_off_while_locked_witness :
  exists s v, reachable Z.of_nat 2 s /\ cpus (mach s) !! 0%nat = Some v /\
    ncli v = depth_of (at_pc s) (owned s) (pushed s) 0%nat /\ ncli v = 1.
Proof.
  destruct contention as (s & Hr & Ho & _ & _ & _ & v & Hv & _ & Hn). exists s, v.
  split; [done|]. split; [done|]. split; [|done].
  apply (proj1 (interrupts_off_while_locked Z.of_nat 2 s 0%nat v ltac:(intros; lia) Hr Hv)).
Defined.

Lemma lock_misuse_panics_witness :
  exists s, reachable Z.of_nat 2 s /\
    acquire_enter Z.of_nat 0%nat L_ptable (mach s) = Panic "acquire" /\
    release_clear Z.of_nat 1%nat L_ptable (mach s) = Panic "release".
Proof.
  destruct contention as (s & Hr & H0 & H1 & _ & Hlen & _). exists s. split; [done|].
  assert (forall c d, Z.of_nat c = Z.of_nat d -> c = d) as Hinj by (intros; lia).
  split.
  - apply (proj1 (lock_misuse_panics Z.of_nat 2 s 0%nat L_ptable Hinj Hr ltac:(lia))).
    rewrite H0. by left.
  - apply (proj2 (lock_misuse_panics Z.of_nat 2 s 1%nat L_ptable Hinj Hr ltac:(lia))).
    rewrite H1. apply not_elem_of_nil.
Defined.
