(* ===== verification/Core.v ===== *)
(** * Core: locks, sleep and wakeup as the kernel uses them

    One CPU's view of the spinlocks ([held]), and the scheduling primitives of
    proc.c (sched, sleep, wakeup) with the sleep-locks of sleeplock.c, over
    [kstate].  SpinRefine relates [held] to the multiprocessor state of Spinlock.

    [mycpu]'s interrupt state is not part of [kstate]: spinlock.c keeps it, and
    [sched]'s tests on it are tests on [held]. *)

From stdpp Require Import base gmap list strings.
From Stdlib Require Import ZArith Lia.
From S2P Require Import Prelude State.

Local Open Scope Z_scope.
Local Open Scope kernel_scope.

(** An access outside an array or through a dangling pointer is undefined in C; the model stops. *)
Definition in_bounds {A} (o : option A) : KM A :=
  match o with Some a => ret a | None => panic "undefined behaviour" end.

(** ** Spinlocks *)

Definition holding (l : lockid) : KM bool := get (fun s => bool_decide (l ∈ held s)).

Definition acquire (l : lockid) : KM unit :=
  h <- holding l ;;
  if (h : bool) then panic "acquire"
  else modify (fun s => set_held (l :: held s) s).

Definition release (l : lockid) : KM unit :=
  h <- holding l ;;
  if (h : bool) then modify (fun s => set_held (filter (.≠ l) (held s)) s)
  else panic "release".

(** ** Processes *)

Definition null_proc : proc :=
  mkProc 0 0 0 UNUSED 0 None 0 0 None false (replicate NOFILE None) None (replicate 16 0).
Definition proc_at (s : kstate) (i : nat) : proc := default null_proc (procs s !! i).
Definition upd_proc (i : nat) (f : proc -> proc) : KM unit :=
  modify (fun s => set_procs (alter f i (procs s)) s).

Definition myproc : KM (option nat) := get cur.

(** [myproc()->x]; with no process running the null pointer faults. *)
Definition curproc : KM nat :=
  p <- myproc ;;
  match p with Some i => ret i | None => panic "trap" end.

(** ** sched, sleep, wakeup *)

(** The checks of [sched], then the switch to the scheduler. *)
Definition sched (c : option chan) : KM unit :=
  i <- curproc ;;
  h <- holding L_ptable ;;
  if negb h then panic "sched ptable.lock"
  else
    n <- get (fun s => length (held s)) ;;
    if negb (bool_decide (n = 1%nat)) then panic "sched locks"
    else
      st <- get (fun s => p_state (proc_at s i)) ;;
      if bool_decide (st = RUNNING) then panic "sched running"
      else (fun s => Slept c s).

(** [sleep] up to the switch. *)
Definition sleep (c : chan) (lk : option lockid) : KM unit :=
  p <- myproc ;;
  match p with
  | None => panic "sleep"
  | Some i =>
      match lk with
      | None => panic "sleep without lk"
      | Some l =>
          (if decide (l = L_ptable) then ret tt else (acquire L_ptable ;;; release l)) ;;;
          upd_proc i (fun p => set_p_state SLEEPING (set_p_chan (Some c) p)) ;;;
          sched (Some c)
      end
  end.

(** [sleep] from the switch back to its return. *)
Definition sleep_return (l : lockid) : KM unit :=
  i <- curproc ;;
  upd_proc i (set_p_chan None) ;;;
  if decide (l = L_ptable) then ret tt else (release L_ptable ;;; acquire l).

Definition wake (c : chan) (p : proc) : proc :=
  if bool_decide (p_state p = SLEEPING) && bool_decide (p_chan p = Some c)
  then set_p_state RUNNABLE p else p.

Definition wakeup1 (c : chan) : KM unit :=
  modify (fun s => set_procs (wake c <$> procs s) s).

Definition wakeup (c : chan) : KM unit :=
  acquire L_ptable ;;; wakeup1 c ;;; release L_ptable.

Definition yield : KM unit :=
  acquire L_ptable ;;;
  i <- curproc ;;
  upd_proc i (set_p_state RUNNABLE) ;;;
  sched None.

(** ** Sleep-locks *)

Definition null_buf : buf := mkBuf 0 0 0 (mkSleeplock false 0) 0 0 0 [].
Definition null_inode : inode := mkInode 0 0 0 (mkSleeplock false 0) false 0 0 0 0 0 [].
Definition buf_at (s : kstate) (i : nat) : buf := default null_buf (bufs s !! i).
Definition inode_at (s : kstate) (i : nat) : inode := default null_inode (icache s !! i).
Definition upd_buf (i : nat) (f : buf -> buf) : KM unit :=
  modify (fun s => set_bufs (alter f i (bufs s)) s).
Definition upd_inode (i : nat) (f : inode -> inode) : KM unit :=
  modify (fun s => set_icache (alter f i (icache s)) s).

Definition sleeplock_at (s : kstate) (l : sleepid) : sleeplock :=
  match l with
  | SL_buf i => b_lock (buf_at s i)
  | SL_inode i => i_lock (inode_at s i)
  end.
Definition put_sleeplock (l : sleepid) (v : sleeplock) (s : kstate) : kstate :=
  match l with
  | SL_buf i => set_bufs (alter (set_b_lock v) i (bufs s)) s
  | SL_inode i => set_icache (alter (set_i_lock v) i (icache s)) s
  end.
Definition set_sleeplock (l : sleepid) (v : sleeplock) : KM unit := modify (put_sleeplock l v).

Definition initsleeplock (l : sleepid) : KM unit := set_sleeplock l (mkSleeplock false 0).

(** The loop of [acquiresleep], entered with [lk->lk] held, on the first call and
    again after [sleep_return (L_sleep l)]. *)
Definition acquiresleep_loop (l : sleepid) : KM unit :=
  lk <- get (fun s => sleeplock_at s l) ;;
  if sl_locked lk then sleep (Ch_sleeplock l) (Some (L_sleep l))
  else
    i <- curproc ;;
    pid <- get (fun s => p_pid (proc_at s i)) ;;
    set_sleeplock l (mkSleeplock true pid) ;;;
    release (L_sleep l).

Definition acquiresleep (l : sleepid) : KM unit :=
  acquire (L_sleep l) ;;; acquiresleep_loop l.

Definition releasesleep (l : sleepid) : KM unit :=
  acquire (L_sleep l) ;;;
  set_sleeplock l (mkSleeplock false 0) ;;;
  wakeup (Ch_sleeplock l) ;;;
  release (L_sleep l).

Definition holdingsleep (l : sleepid) : KM bool :=
  acquire (L_sleep l) ;;;
  lk <- get (fun s => sleeplock_at s l) ;;
  r <- (if sl_locked lk
        then i <- curproc ;;
             pid <- get (fun s => p_pid (proc_at s i)) ;;
             ret (bool_decide (sl_pid lk = pid))
        else ret false) ;;
  release (L_sleep l) ;;;
  ret r.

(** ** What the primitives do *)

Create HintDb kernel.

Lemma set_held_same s : set_held (held s) s = s.
Proof. by destruct s. Qed.

Lemma curproc_eq s p : cur s = Some p -> curproc s = Ret p s.
Proof. intros Hc. unfold curproc, bind, myproc, get. by rewrite Hc. Qed.

Lemma acquire_eq l s : l ∉ held s -> acquire l s = Ret tt (set_held (l :: held s) s).
Proof. intros H. unfold acquire, bind, holding, get. by rewrite bool_decide_false. Qed.

Lemma acquire_panic l s : l ∈ held s -> acquire l s = Panic "acquire".
Proof. intros H. unfold acquire, bind, holding, get. by rewrite bool_decide_true. Qed.

Lemma release_eq l s :
  l ∈ held s -> release l s = Ret tt (set_held (filter (.≠ l) (held s)) s).
Proof. intros H. unfold release, bind, holding, get. by rewrite bool_decide_true. Qed.

(** The usual case: the lock taken last is released. *)
Lemma release_top l h s :
  held s = l :: h -> l ∉ h -> release l s = Ret tt (set_held h s).
Proof.
  intros Hh Hl. rewrite release_eq by (rewrite Hh; by left).
  rewrite Hh, filter_cons, decide_False, filter_ne_all by tauto. done.
Qed.

Lemma wakeup_eq c s :
  L_ptable ∉ held s -> wakeup c s = Ret tt (set_procs (wake c <$> procs s) s).
Proof.
  intros H. unfold wakeup. unfold bind at 1. rewrite acquire_eq by done.
  unfold bind, wakeup1, modify. by rewrite (release_top _ (held s)).
Qed.

Lemma acquiresleep_eq l s i :
  L_sleep l ∉ held s -> cur s = Some i -> sl_locked (sleeplock_at s l) = false ->
  acquiresleep l s = Ret tt (put_sleeplock l (mkSleeplock true (p_pid (proc_at s i))) s).
Proof.
  intros Hh Hc Hl. unfold acquiresleep. unfold bind at 1. rewrite acquire_eq by done.
  unfold acquiresleep_loop, bind, get.
  replace (sleeplock_at (set_held _ s) l) with (sleeplock_at s l) by (by destruct l).
  rewrite Hl. unfold curproc, bind, myproc, get. cbn [cur set_held]. rewrite Hc.
  unfold ret, set_sleeplock, modify.
  rewrite (release_top _ (held s)); [|by destruct l|done].
  f_equal. destruct l, s; reflexivity.
Qed.

(** [sleep] with exactly the lock [l] held: the process sleeps on [c], [l] is free
    and the process-table lock is handed to the scheduler. *)
Definition slept (c : chan) (p : proc) : proc := set_p_state SLEEPING (set_p_chan (Some c) p).

Lemma sched_eq c s i :
  cur s = Some i -> held s = [L_ptable] -> p_state (proc_at s i) <> RUNNING ->
  sched c s = Slept c s.
Proof.
  intros Hc Hh Hs. unfold sched, curproc, myproc, holding, bind, get, ret.
  rewrite Hc, Hh. rewrite (bool_decide_true (L_ptable ∈ _)) by set_solver.
  simpl. rewrite Hh. simpl. by rewrite (bool_decide_false (_ = RUNNING)).
Qed.

Lemma proc_at_alter s i f j :
  proc_at (set_procs (alter f i (procs s)) s) j =
    if decide (i = j) then (if decide (i < length (procs s))%nat then f (proc_at s i) else null_proc)
    else proc_at s j.
Proof.
  unfold proc_at. simpl. rewrite list_lookup_alter. case_decide; [|done].
  case_decide as Hlt; [apply lookup_lt_is_Some_2 in Hlt as [p ->]; done|].
  by rewrite lookup_ge_None_2 by lia.
Qed.

Lemma sleep_eq c l s i :
  cur s = Some i -> held s = [l] ->
  sleep c (Some l) s =
    Slept (Some c) (set_held [L_ptable] (set_procs (alter (slept c) i (procs s)) s)).
Proof.
  intros Hc Hh. unfold sleep, bind at 1, myproc, get. rewrite Hc.
  assert (forall s', procs s' = procs s -> cur s' = Some i -> held s' = [L_ptable] ->
    (upd_proc i (fun p => set_p_state SLEEPING (set_p_chan (Some c) p)) ;;; sched (Some c)) s'
    = Slept (Some c) (set_procs (alter (slept c) i (procs s)) s')) as Hrest.
  { intros s' Hp' Hc' Hh'. unfold bind, upd_proc, modify. rewrite Hp'.
    apply (sched_eq _ _ i); [done|done|]. rewrite <- Hp', proc_at_alter, decide_True by done.
    by case_decide. }
  case_decide as Hl.
  - subst l. unfold bind at 1, ret. rewrite Hrest by done. by destruct s; simpl in *; subst.
  - unfold bind at 1, bind at 1. rewrite acquire_eq by (rewrite Hh; set_solver).
    rewrite release_eq by (simpl; rewrite Hh; set_solver). cbn [held set_held]. rewrite Hh.
    rewrite !filter_cons, decide_True, decide_False, filter_nil by (done || tauto).
    by rewrite Hrest.
Qed.

Lemma acquiresleep_busy l s i :
  held s = [] -> cur s = Some i -> sl_locked (sleeplock_at s l) = true ->
  acquiresleep l s =
    Slept (Some (Ch_sleeplock l))
      (set_held [L_ptable] (set_procs (alter (slept (Ch_sleeplock l)) i (procs s)) s)).
Proof.
  intros Hh Hc Hl. unfold acquiresleep. unfold bind at 1.
  rewrite acquire_eq by (rewrite Hh; set_solver). rewrite Hh.
  unfold acquiresleep_loop, bind at 1, get.
  replace (sleeplock_at (set_held _ s) l) with (sleeplock_at s l) by (by destruct l).
  rewrite Hl. by rewrite (sleep_eq _ _ _ i).
Qed.

Lemma releasesleep_eq l s :
  L_sleep l ∉ held s -> L_ptable ∉ held s ->
  releasesleep l s =
    Ret tt (set_procs (wake (Ch_sleeplock l) <$> procs s) (put_sleeplock l (mkSleeplock false 0) s)).
Proof.
  intros Hh Hp. unfold releasesleep. unfold bind at 1. rewrite acquire_eq by done.
  unfold bind at 1, set_sleeplock, modify.
  unfold bind at 1. rewrite wakeup_eq by (destruct l; simpl; set_solver).
  rewrite (release_top _ (held s)); [|by destruct l|done].
  f_equal. destruct l, s; reflexivity.
Qed.

Lemma holdingsleep_eq l s i :
  L_sleep l ∉ held s -> cur s = Some i ->
  holdingsleep l s = Ret (sl_locked (sleeplock_at s l)
    && bool_decide (sl_pid (sleeplock_at s l) = p_pid (proc_at s i))) s.
Proof.
  intros Hh Hc. unfold holdingsleep. unfold bind at 1. rewrite acquire_eq by done.
  unfold bind, get.
  replace (sleeplock_at (set_held _ s) l) with (sleeplock_at s l) by (by destruct l).
  destruct (sl_locked (sleeplock_at s l)); unfold curproc, bind, myproc, get, ret; simpl.
  - rewrite Hc. rewrite (release_top _ (held s)) by done. f_equal. by destruct s.
  - rewrite (release_top _ (held s)) by done. f_equal. by destruct s.
Qed.
