(* ===== verification/SpinRefine.v ===== *)
(** * SpinRefine: the kernel's view of its locks is what spinlock.c does

    Core keeps the list [held] of this CPU's locks.  [sim] relates it to the
    multiprocessor state of Spinlock; [acquire] and [release] of spinlock.c
    simulate those of Core, result by result. *)

From stdpp Require Import base gmap list strings functions.
From Stdlib Require Import ZArith Lia.
From S2P Require Import Prelude State Core Spinlock.

Local Open Scope Z_scope.

Section refinement.
Variable lapicid : nat -> Z.
Hypothesis lapicid_inj : forall c d, lapicid c = lapicid d -> c = d.

(** CPU [c] of [m] has exactly the locks [h], with interrupts off if any. *)
Record sim (c : nat) (m : smp) (h : list lockid) : Prop := {
  sim_apic : apic_ok lapicid (cpus m);
  sim_cpu : exists v, cpus m !! c = Some v /\ ncli v = Z.of_nat (length h)
                      /\ (IF v = true -> h = []);
  sim_own l : l ∈ h <-> lcpu (locks m l) = Some c;
  sim_locked l : l ∈ h -> locked (locks m l) = true;
  sim_nodup : NoDup h
}.

Lemma sim_acquire c m h l :
  sim c m h -> l ∉ h -> locked (locks m l) = false ->
  exists m', Spinlock.acquire lapicid c l m = Ret tt m' /\ sim c m' (l :: h).
Proof using lapicid_inj.
  intros [Ha (v & Hv & Hn & Hif) Ho Hl Hnd] Hnin Hfree.
  pose proof (lookup_lt_Some _ _ _ Hv) as Hlt.
  unfold Spinlock.acquire. unfold bind at 1.
  rewrite (acquire_enter_eq _ lapicid_inj m c v) by (done || lia).
  rewrite Hfree. simpl. unfold bind at 1, xchg, bind, get, set_lock, modify, ret. simpl.
  rewrite Hfree.
  rewrite (acquire_own_eq _ lapicid_inj _ c (pushed_cpu v)); [|..]; simpl.
  - eexists. split; [done|]. split; simpl.
    + apply apic_ok_insert; [done|]. intros w Hw. by simplify_eq.
    + eexists. split; [by apply list_lookup_insert_eq|]. simpl. split; [lia|done].
    + intros l'. rewrite elem_of_cons. destruct (decide (l' = l)) as [->|Hne].
      * rewrite fn_lookup_insert. simpl. naive_solver.
      * rewrite !fn_lookup_insert_ne by done. rewrite <- Ho. naive_solver.
    + intros l' [->|Hin]%elem_of_cons; [by rewrite !fn_lookup_insert|].
      destruct (decide (l = l')) as [->|Hne]; [by rewrite !fn_lookup_insert|].
      rewrite !fn_lookup_insert_ne by done. by apply Hl.
    + by constructor.
  - apply apic_ok_insert; [done|]. intros w Hw. by simplify_eq.
  - by apply list_lookup_insert_eq.
  - done.
Qed.

Lemma sim_acquire_panic c m h l :
  sim c m h -> l ∈ h -> Spinlock.acquire lapicid c l m = Panic "acquire".
Proof using lapicid_inj.
  intros [Ha (v & Hv & Hn & Hif) Ho Hl Hnd] Hin.
  unfold Spinlock.acquire. unfold bind at 1.
  rewrite (acquire_enter_eq _ lapicid_inj m c v) by (done || lia).
  by rewrite (Hl l Hin), bool_decide_true by (by apply Ho).
Qed.

Lemma sim_release c m h l :
  sim c m h -> l ∈ h ->
  exists m', Spinlock.release lapicid c l m = Ret tt m' /\ sim c m' (filter (.≠ l) h).
Proof using lapicid_inj.
  intros [Ha (v & Hv & Hn & Hif) Ho Hl Hnd] Hin.
  pose proof (lookup_lt_Some _ _ _ Hv) as Hlt.
  pose proof (filter_ne_length l h Hnd Hin) as Hlen.
  assert (IF v = false) as HIF.
  { destruct (IF v); [|done]. rewrite Hif in Hin by done. by apply elem_of_nil in Hin. }
  unfold Spinlock.release. unfold bind at 1.
  rewrite (release_clear_eq _ lapicid_inj m c v) by (auto; try lia; by apply Ho).
  rewrite (release_free_eq _ lapicid_inj _ c v) by (simpl; auto; lia).
  eexists. split; [done|]. split; simpl.
  - apply apic_ok_insert; [done|]. intros w Hw. by simplify_eq.
  - eexists. split; [by apply list_lookup_insert_eq|]. simpl. split; [lia|].
    case_decide; [|done]. intros _. apply nil_length_inv. lia.
  - intros l'. rewrite list_elem_of_filter. destruct (decide (l = l')) as [->|Hne].
    + rewrite !fn_lookup_insert. simpl. naive_solver.
    + rewrite !fn_lookup_insert_ne by done. rewrite <- Ho. naive_solver.
  - intros l' [Hne Hl']%list_elem_of_filter.
    rewrite !fn_lookup_insert_ne by done. by apply Hl.
  - by apply list.NoDup_filter.
Qed.

Lemma sim_release_panic c m h l :
  sim c m h -> l ∉ h -> Spinlock.release lapicid c l m = Panic "release".
Proof using lapicid_inj.
  intros [Ha (v & Hv & Hn & Hif) Ho Hl Hnd] Hin.
  unfold Spinlock.release. unfold bind at 1.
  rewrite (release_clear_panic _ lapicid_inj m c v); [done..|lia|]. by rewrite <- Ho.
Qed.
End refinement.

(** C33: the lock operations of the kernel model are refined by spinlock.c: on a CPU
    whose locks are [held s], with [l] not taken by another CPU, [acquire] and
    [release] of spinlock.c return or panic as those of the model do, and lead to
    states that are related again. *)
Theorem locks_refine_spinlock (lapicid : nat -> Z) (c : nat) (m : smp) (s : kstate) (l : lockid) :
  (forall c d, lapicid c = lapicid d -> c = d) ->
  sim lapicid c m (held s) ->
  (l ∉ held s -> locked (locks m l) = false) ->
  match Core.acquire l s with
  | Ret _ s' => exists m', Spinlock.acquire lapicid c l m = Ret tt m' /\ sim lapicid c m' (held s')
  | Panic msg => Spinlock.acquire lapicid c l m = Panic msg
  | Slept _ _ => False
  end /\
  match Core.release l s with
  | Ret _ s' => exists m', Spinlock.release lapicid c l m = Ret tt m' /\ sim lapicid c m' (held s')
  | Panic msg => Spinlock.release lapicid c l m = Panic msg
  | Slept _ _ => False
  end.
Proof.
  intros Hinj Hsim Hfree. unfold Core.acquire, Core.release, Core.holding, bind, get.
  destruct (decide (l ∈ held s)) as [Hin|Hin].
  - rewrite bool_decide_true by done. split.
    + by eapply sim_acquire_panic.
    + by apply sim_release.
  - rewrite bool_decide_false by done. split.
    + apply sim_acquire; auto.
    + by eapply sim_release_panic.
Qed.

(** CPU 1 of two takes the bcache lock, holding the log lock. *)
Lemma locks_refine_spinlock_witness :
  exists m, let m0 := mkSmp [mkCpu 0 0 false true; mkCpu 1 1 true false]
                            (<[L_log := mkSpinlock true (Some 1%nat)]> (fun _ => mkSpinlock false None)) in
    Spinlock.acquire Z.of_nat 1 L_bcache m0 = Ret tt m /\ sim Z.of_nat 1 m [L_bcache; L_log].
Proof.
  set (m0 := mkSmp _ _).
  set (s := mkK [L_log] [] None 1 None ∅ 0 false [] ∅ [] (mkLog 0 0 0 false 0 0 [])
              (mkSb 0 0 0 0 0 0 0) [] [] ∅ [] 0 null_console 0).
  assert (sim Z.of_nat 1 m0 (held s)) as Hsim.
  { split.
    - intros [|[|d]] v; simpl; intros; by simplify_eq/=.
    - eexists. done.
    - intros l. simpl. rewrite list_elem_of_singleton. destruct (decide (l = L_log)) as [->|Hne].
      + by rewrite fn_lookup_insert.
      + by rewrite fn_lookup_insert_ne by done.
    - intros l. simpl. rewrite list_elem_of_singleton. intros ->. by rewrite fn_lookup_insert.
    - apply NoDup_singleton. }
  pose proof (locks_refine_spinlock Z.of_nat 1 m0 s L_bcache ltac:(intros; lia) Hsim
    (fun _ => eq_refl)) as [H _].
  destruct H as (m & Hm & Hs). exists m. by split.
Defined.
