(* ===== verification/Sem.v ===== *)
(** * Sem: the counting semaphores of proc.c and the dining philosophers

    [sem_init], [sem_acquire], [sem_release] over [kstate], then a system of
    processes that run these system calls under the scheduler, and the program
    philosopher.c as an instance.

    A process runs from one entry of [sched] to the next: the scheduler takes
    the process-table lock and switches to a RUNNABLE process, which returns
    from [yield] or [sleep], runs one system call and yields, or sleeps.  Each
    system call here is one critical section under its semaphore's lock, so
    executions on several CPUs interleave at these steps too. *)

From stdpp Require Import base gmap list strings.
From Stdlib Require Import ZArith Lia.
From S2P Require Import Prelude State Core.

Local Open Scope Z_scope.
Local Open Scope kernel_scope.

(** ** The system calls *)

Definition null_sem : semaphore := mkSem 0 0 0.
Definition sem_at (s : kstate) (i : nat) : semaphore := default null_sem (spoons s !! i).
Definition upd_sem (i : nat) (f : semaphore -> semaphore) : KM unit :=
  modify (fun s => set_spoons (alter f i (spoons s)) s).

Definition sem_init (i : nat) (v : Z) : KM Z :=
  acquire (L_spoon i) ;;;
  l <- get (fun s => sem_locked (sem_at s i)) ;;
  if negb (l =? 0) then release (L_spoon i) ;;; ret (-1)
  else
    upd_sem i (fun x => mkSem v (-1) 1) ;;;
    release (L_spoon i) ;;;
    ret 0.

(** [spoons[i].owner = i; spoons[i].val -= 1] *)
Definition sem_take (i : nat) : KM unit :=
  upd_sem i (fun x => mkSem (i32 (sem_val x - 1)) (Z.of_nat i) (sem_locked x)).

(** The [while] loop of [sem_acquire], entered with the lock held, the first
    time and again after [sleep_return (L_spoon i)]. *)
Definition sem_acquire_loop (i : nat) : KM Z :=
  v <- get (fun s => sem_val (sem_at s i)) ;;
  if v <? 1 then sleep (Ch_spoon i) (Some (L_spoon i)) ;;; ret 0
  else
    sem_take i ;;;
    release (L_spoon i) ;;;
    ret 0.

Definition sem_acquire (i : nat) : KM Z :=
  acquire (L_spoon i) ;;;
  v <- get (fun s => sem_val (sem_at s i)) ;;
  if 0 <? v then
    sem_take i ;;;
    release (L_spoon i) ;;;
    ret 0
  else sem_acquire_loop i.

Definition sem_release (i : nat) : KM Z :=
  acquire (L_spoon i) ;;;
  upd_sem i (fun x => mkSem (i32 (sem_val x + 1)) (-1) (sem_locked x)) ;;;
  wakeup (Ch_spoon i) ;;;
  release (L_spoon i) ;;;
  ret 0.

(** ** Processes under the scheduler *)

(** [switchuvm(p)]: its checks; the loads of TSS and CR3 have no state here. *)
Definition switchuvm (i : nat) : KM unit :=
  p <- get (fun s => proc_at s i) ;;
  if p_kstack p =? 0 then panic "switchuvm: no kstack"
  else if p_pgdir p =? 0 then panic "switchuvm: no pgdir"
  else ret tt.

(** The scheduler's choice of process [i], up to the switch. *)
Definition scheduler_enter (i : nat) : KM bool :=
  acquire L_ptable ;;;
  st <- get (fun s => p_state (proc_at s i)) ;;
  if bool_decide (st = RUNNABLE) then
    modify (set_cur (Some i)) ;;;
    switchuvm i ;;;
    upd_proc i (set_p_state RUNNING) ;;;
    ret true
  else ret false.

(** The scheduler after the switch back. *)
Definition scheduler_exit : KM unit :=
  modify (set_cur None) ;;; release L_ptable.

(** What a process does between two entries of [sched]. *)
Inductive uop := UAcquire (i : nat) | URelease (i : nat) | UPause.

Inductive thread :=
| Ready (pc : nat)                  (* in yield, its next system call at [pc] *)
| Waiting (i : nat) (pc : nat).     (* in sem_acquire at [pc], asleep on spoon [i] *)

Definition exec (o : uop) : KM Z :=
  match o with
  | UAcquire i => sem_acquire i
  | URelease i => sem_release i
  | UPause => ret 0
  end.

Section system.
(** process [p] performs [prog p pc], then goes on at [next p pc] *)
Variable prog : nat -> nat -> uop.
Variable next : nat -> nat -> nat.

Definition resume (p : nat) (t : thread) : KM Z :=
  match t with
  | Ready pc => release L_ptable ;;; exec (prog p pc)
  | Waiting i _ => sleep_return (L_spoon i) ;;; sem_acquire_loop i
  end.

(** One turn of process [p]: [Some (s', true)] when the call completed. *)
Definition turn (p : nat) (t : thread) (s : kstate) : option (kstate * bool) :=
  match (b <- scheduler_enter p ;;
         if (b : bool) then resume p t ;;; yield else scheduler_exit) s with
  | Slept c s1 =>
      match scheduler_exit s1 with
      | Ret _ s2 => Some (s2, bool_decide (c = None))
      | _ => None
      end
  | _ => None
  end.

Definition advance (p : nat) (t : thread) (completed : bool) : thread :=
  let pc := match t with Ready pc => pc | Waiting _ pc => pc end in
  if completed then Ready (next p pc)
  else match prog p pc with UAcquire i => Waiting i pc | _ => t end.

Definition config : Type := kstate * list thread.

Inductive tstep : config -> config -> Prop :=
| T_turn p t s s' ths b :
    ths !! p = Some t -> turn p t s = Some (s', b) ->
    tstep (s, ths) (s', <[p := advance p t b]> ths).
End system.

(** ** The program philosopher.c *)

(** The system calls of philosopher [k]'s [main], by position; the calls of
    [printf] and [sleep] are pauses. *)
Definition philosopher (k pc : nat) : uop :=
  let right := ((k + 1) mod 5)%nat in
  match pc with
  | 0 => UAcquire 5 | 1 => UPause | 2 => URelease 5
  | 3 => UAcquire (if Nat.even k then k else right)
  | 4 => UAcquire (if Nat.even k then right else k)
  | 5 => UPause
  | 6 => UAcquire 5 | 7 => UPause | 8 => URelease 5
  | 9 => URelease right | 10 => URelease k
  | 11 => UPause
  | 12 => UAcquire 5 | 13 => UPause | _ => URelease 5
  end%nat.

Definition philosopher_next (k pc : nat) : nat := if (pc <? 14)%nat then S pc else 3%nat.

(** ** What a turn does *)

Definition taken (i : nat) (x : semaphore) : semaphore :=
  mkSem (sem_val x - 1) (Z.of_nat i) (sem_locked x).
Definition given (x : semaphore) : semaphore :=
  mkSem (sem_val x + 1) (-1) (sem_locked x).

Lemma upd_sem_at s i f : spoons s !! i = Some (sem_at s i) ->
  alter f i (spoons s) = <[i := f (sem_at s i)]> (spoons s).
Proof. apply alter_as_insert. Qed.

Lemma sem_acquire_loop_ok i s :
  held s = [L_spoon i] -> 1 <= sem_val (sem_at s i) < 2147483648 ->
  sem_acquire_loop i s = Ret 0 (set_held [] (set_spoons (alter (taken i) i (spoons s)) s)).
Proof.
  intros Hh Hv. unfold sem_acquire_loop, bind, get.
  rewrite (proj2 (Z.ltb_ge _ _)) by lia.
  unfold sem_take, upd_sem, modify, bind, ret.
  rewrite (release_top _ []) by (done || set_solver).
  f_equal. unfold sem_at in Hv.
  destruct (spoons s !! i) as [x|] eqn:E; [|simpl in Hv; lia]. simpl in Hv.
  rewrite !(alter_as_insert _ i (spoons s) x) by done.
  unfold taken. by rewrite i32_small by lia.
Qed.

Lemma sem_acquire_loop_sleep i s p :
  cur s = Some p -> held s = [L_spoon i] -> sem_val (sem_at s i) < 1 ->
  sem_acquire_loop i s =
    Slept (Some (Ch_spoon i))
      (set_held [L_ptable] (set_procs (alter (slept (Ch_spoon i)) p (procs s)) s)).
Proof.
  intros Hc Hh Hv. unfold sem_acquire_loop, bind, get.
  rewrite (proj2 (Z.ltb_lt _ _)) by lia. by rewrite (sleep_eq _ _ _ p).
Qed.

(** The two branches of [sem_acquire] do what its loop does. *)
Lemma sem_acquire_as_loop i s :
  held s = [] -> sem_acquire i s = sem_acquire_loop i (set_held [L_spoon i] s).
Proof.
  intros Hh. unfold sem_acquire. unfold bind at 1.
  rewrite acquire_eq by (rewrite Hh; set_solver). rewrite Hh.
  unfold sem_acquire_loop, bind, get.
  destruct (Z.ltb_spec 0 (sem_val (sem_at (set_held [L_spoon i] s) i))) as [H|H];
    [by rewrite (proj2 (Z.ltb_ge _ _)) by lia|done].
Qed.

Lemma sem_release_eq i s :
  held s = [] -> -2147483648 <= sem_val (sem_at s i) + 1 < 2147483648 ->
  sem_release i s =
    Ret 0 (set_procs (wake (Ch_spoon i) <$> procs s) (set_spoons (alter given i (spoons s)) s)).
Proof.
  intros Hh Hv. unfold sem_release. unfold bind at 1.
  rewrite acquire_eq by (rewrite Hh; set_solver). rewrite Hh.
  unfold bind at 1, upd_sem, modify. unfold bind at 1.
  rewrite wakeup_eq by (simpl; set_solver).
  unfold bind, ret. rewrite (release_top _ []) by (done || set_solver).
  f_equal. unfold sem_at in Hv. destruct s as [h ps cu np ip me fl ul bs di wr lg sbk ic ft pi sp ti].
  simpl in *. subst h. unfold set_procs, set_spoons, set_held; simpl. f_equal.
  destruct (sp !! i) as [x|] eqn:E.
  - rewrite !(alter_as_insert _ i sp x) by done. simpl in Hv. unfold given.
    by rewrite i32_small by lia.
  - apply list_eq. intros j. rewrite !list_lookup_alter. by rewrite E.
Qed.

Record can_run (s : kstate) (p : nat) (q : proc) : Prop := {
  cr_held : held s = [];
  cr_cur : cur s = None;
  cr_proc : procs s !! p = Some q;
  cr_state : p_state q = RUNNABLE;
  cr_kstack : p_kstack q <> 0;
  cr_pgdir : p_pgdir q <> 0
}.

(** The state in which the scheduler has just switched to [p]. *)
Definition entered (p : nat) (q : proc) (s : kstate) : kstate :=
  set_held [L_ptable] (set_cur (Some p)
    (set_procs (<[p := set_p_state RUNNING q]> (procs s)) s)).

Lemma scheduler_enter_eq s p q :
  can_run s p q -> scheduler_enter p s = Ret true (entered p q s).
Proof.
  intros [Hh Hc Hp Hs Hk Hg]. unfold scheduler_enter. unfold bind at 1.
  rewrite acquire_eq by (rewrite Hh; set_solver). rewrite Hh.
  unfold bind at 1, get. unfold proc_at. cbn [procs set_held]. rewrite Hp. simpl.
  rewrite bool_decide_true by done.
  unfold bind, modify, switchuvm, bind, get, proc_at. cbn [procs set_held set_cur].
  rewrite Hp. simpl. rewrite (proj2 (Z.eqb_neq _ _)), (proj2 (Z.eqb_neq _ _)) by done.
  unfold ret, upd_proc, modify. cbn [procs set_held set_cur].
  by rewrite (alter_as_insert _ _ _ q).
Qed.

Lemma yield_eq s p :
  held s = [] -> cur s = Some p ->
  yield s = Slept None (set_held [L_ptable]
              (set_procs (alter (set_p_state RUNNABLE) p (procs s)) s)).
Proof.
  intros Hh Hc. unfold yield. unfold bind at 1.
  rewrite acquire_eq by (rewrite Hh; set_solver). rewrite Hh.
  unfold bind at 1, curproc, bind at 1, myproc, get. cbn [cur set_held]. rewrite Hc.
  unfold ret, bind, upd_proc, modify. cbn [procs set_held].
  rewrite (sched_eq _ _ p); [done|done|done|].
  rewrite (proc_at_alter (set_held [L_ptable] s) p), decide_True by done. by case_decide.
Qed.

Section turns.
Variable prog : nat -> nat -> uop.

(** A completed call ends in [yield], an incomplete one in [sleep]. *)
Lemma turn_ret s p q t v s1 :
  can_run s p q -> resume prog p t (entered p q s) = Ret v s1 ->
  held s1 = [] -> cur s1 = Some p ->
  turn prog p t s =
    Some (set_cur None (set_held [] (set_procs (alter (set_p_state RUNNABLE) p (procs s1)) s1)), true).
Proof.
  intros Hcr Hr Hh Hc. unfold turn. unfold bind at 1.
  rewrite (scheduler_enter_eq s p q) by done. unfold bind. rewrite Hr.
  rewrite (yield_eq s1 p) by done.
  unfold scheduler_exit, bind, modify. by rewrite (release_top _ []) by (done || set_solver).
Qed.

Lemma turn_slept s p q t c s1 :
  can_run s p q -> resume prog p t (entered p q s) = Slept (Some c) s1 ->
  held s1 = [L_ptable] ->
  turn prog p t s = Some (set_cur None (set_held [] s1), false).
Proof.
  intros Hcr Hr Hh. unfold turn. unfold bind at 1.
  rewrite (scheduler_enter_eq s p q) by done. unfold bind. rewrite Hr.
  unfold scheduler_exit, bind, modify. by rewrite (release_top _ []) by (done || set_solver).
Qed.

(** The switch to [p] and its [yield] leave the table as it was. *)
Lemma procs_back s p q :
  can_run s p q ->
  alter (set_p_state RUNNABLE) p (<[p := set_p_state RUNNING q]> (procs s)) = procs s.
Proof.
  intros [Hh Hc Hp Hs _ _]. pose proof (lookup_lt_Some _ _ _ Hp).
  rewrite (alter_as_insert _ p _ (set_p_state RUNNING q)) by (by apply list_lookup_insert_eq).
  rewrite list_insert_insert_eq. apply list_insert_id.
  rewrite Hp. f_equal. destruct q; simpl in *. by subst.
Qed.

Lemma resume_ready s p q pc :
  resume prog p (Ready pc) (entered p q s) = exec (prog p pc) (set_held [] (entered p q s)).
Proof. unfold resume. unfold bind. by rewrite (release_top _ []) by (done || set_solver). Qed.

Lemma turn_pause s p q pc :
  can_run s p q -> prog p pc = UPause -> turn prog p (Ready pc) s = Some (s, true).
Proof.
  intros Hcr Hop. erewrite (turn_ret s p q); [|done|..].
  2: { rewrite resume_ready, Hop. done. }
  2, 3: done.
  f_equal. f_equal. simpl. rewrite procs_back by done.
  destruct Hcr as [Hh Hc _ _ _ _]. by destruct s; simpl in *; subst.
Qed.

Lemma turn_acquire s p q pc i :
  can_run s p q -> prog p pc = UAcquire i -> 1 <= sem_val (sem_at s i) < 2147483648 ->
  turn prog p (Ready pc) s = Some (set_spoons (alter (taken i) i (spoons s)) s, true).
Proof.
  intros Hcr Hop Hv. erewrite (turn_ret s p q); [|done|..].
  2: { rewrite resume_ready, Hop. unfold exec. rewrite sem_acquire_as_loop by done.
       by rewrite sem_acquire_loop_ok. }
  2, 3: done.
  f_equal. f_equal. simpl. rewrite procs_back by done.
  destruct Hcr as [Hh Hc _ _ _ _]. by destruct s; simpl in *; subst.
Qed.

Lemma turn_acquire_sleep s p q pc i :
  can_run s p q -> prog p pc = UAcquire i -> sem_val (sem_at s i) < 1 ->
  turn prog p (Ready pc) s = Some (set_procs (<[p := slept (Ch_spoon i) q]> (procs s)) s, false).
Proof.
  intros Hcr Hop Hv. pose proof (lookup_lt_Some _ _ _ (cr_proc _ _ _ Hcr)).
  erewrite (turn_slept s p q); [|done|..].
  2: { rewrite resume_ready, Hop. unfold exec. rewrite sem_acquire_as_loop by done.
       by rewrite (sem_acquire_loop_sleep _ _ p). }
  2: done.
  f_equal. f_equal. simpl.
  rewrite (alter_as_insert _ p _ (set_p_state RUNNING q)) by (by apply list_lookup_insert_eq).
  rewrite list_insert_insert_eq. destruct Hcr as [Hh Hc _ _ _ _]. by destruct s; simpl in *; subst.
Qed.

Lemma turn_release s p q pc i :
  can_run s p q -> prog p pc = URelease i ->
  -2147483648 <= sem_val (sem_at s i) + 1 < 2147483648 ->
  turn prog p (Ready pc) s =
    Some (set_procs (wake (Ch_spoon i) <$> procs s) (set_spoons (alter given i (spoons s)) s), true).
Proof.
  intros Hcr Hop Hv. pose proof (lookup_lt_Some _ _ _ (cr_proc _ _ _ Hcr)).
  destruct Hcr as [Hh Hc Hp Hs Hk Hg] eqn:E.
  erewrite (turn_ret s p q); [|done|..].
  2: { rewrite resume_ready, Hop. unfold exec. by rewrite sem_release_eq. }
  2, 3: done.
  f_equal. f_equal. simpl.
  rewrite list_fmap_insert, (alter_as_insert _ p _ (wake (Ch_spoon i) (set_p_state RUNNING q)))
    by (apply list_lookup_insert_eq; by rewrite length_fmap).
  rewrite list_insert_insert_eq, list_insert_id.
  - by destruct s; simpl in *; subst.
  - rewrite list_lookup_fmap, Hp. simpl. f_equal. unfold wake. rewrite Hs. simpl.
    destruct q; simpl in *. by subst.
Qed.

(** A process woken in [sem_acquire] tries again. *)
Lemma resume_waiting s p q i pc :
  can_run s p q ->
  resume prog p (Waiting i pc) (entered p q s) =
    sem_acquire_loop i (set_held [L_spoon i] (set_cur (Some p)
      (set_procs (<[p := set_p_state RUNNING (set_p_chan None q)]> (procs s)) s))).
Proof.
  intros [Hh Hc Hp Hs Hk Hg]. pose proof (lookup_lt_Some _ _ _ Hp).
  unfold resume, sleep_return. unfold bind at 1, bind at 1, curproc, bind at 1, myproc, get.
  cbn [cur set_held entered set_cur]. unfold ret, bind at 1, upd_proc, modify.
  cbn [procs set_held set_cur set_procs entered].
  rewrite (alter_as_insert _ p _ (set_p_state RUNNING q)) by (by apply list_lookup_insert_eq).
  rewrite list_insert_insert_eq, decide_False by done. unfold bind.
  rewrite (release_top _ []) by (done || set_solver).
  by rewrite acquire_eq by (simpl; set_solver).
Qed.

Lemma turn_waiting_ok s p q i pc :
  can_run s p q -> 1 <= sem_val (sem_at s i) < 2147483648 ->
  turn prog p (Waiting i pc) s =
    Some (set_procs (<[p := set_p_chan None q]> (procs s))
            (set_spoons (alter (taken i) i (spoons s)) s), true).
Proof.
  intros Hcr Hv. pose proof (lookup_lt_Some _ _ _ (cr_proc _ _ _ Hcr)).
  erewrite (turn_ret s p q); [|done|..].
  2: { rewrite resume_waiting by done. by rewrite sem_acquire_loop_ok. }
  2, 3: done.
  f_equal. f_equal. simpl.
  erewrite (alter_as_insert _ p) by (by apply list_lookup_insert_eq).
  rewrite list_insert_insert_eq. destruct Hcr as [Hh Hc _ Hs _ _].
  replace (set_p_state RUNNABLE (set_p_state RUNNING (set_p_chan None q))) with (set_p_chan None q)
    by (destruct q; simpl in *; by subst).
  by destruct s; simpl in *; subst.
Qed.

Lemma turn_waiting_sleep s p q i pc :
  can_run s p q -> sem_val (sem_at s i) < 1 ->
  turn prog p (Waiting i pc) s =
    Some (set_procs (<[p := slept (Ch_spoon i) q]> (procs s)) s, false).
Proof.
  intros Hcr Hv. pose proof (lookup_lt_Some _ _ _ (cr_proc _ _ _ Hcr)).
  erewrite (turn_slept s p q); [|done|..].
  2: { rewrite resume_waiting by done. by rewrite (sem_acquire_loop_sleep _ _ p). }
  2: done.
  f_equal. f_equal. simpl.
  erewrite (alter_as_insert _ p) by (by apply list_lookup_insert_eq).
  rewrite list_insert_insert_eq. destruct Hcr as [Hh Hc _ _ _ _]. by destruct s; simpl in *; subst.
Qed.
(** A process that is not RUNNABLE gets no turn. *)
Lemma turn_asleep s p t q :
  held s = [] -> procs s !! p = Some q -> p_state q <> RUNNABLE -> turn prog p t s = None.
Proof.
  intros Hh Hq Hs. unfold turn. unfold bind at 1, scheduler_enter. unfold bind at 1.
  rewrite acquire_eq by (rewrite Hh; set_solver).
  unfold bind at 1, get, proc_at. cbn [procs set_held]. rewrite Hq. simpl.
  rewrite bool_decide_false by done. unfold ret, scheduler_exit, bind, modify.
  by rewrite (release_top _ []) by (simpl; rewrite ?Hh; (done || set_solver)).
Qed.
End turns.

(** ** Invariants of a system of processes *)

Definition pc_of (t : thread) : nat := match t with Ready pc => pc | Waiting _ pc => pc end.

Section accounting.
(** [hold p pc i]: how many units of semaphore [i] process [p] has at [pc] *)
Variable hold : nat -> nat -> nat -> Z.

Fixpoint total_from (k : nat) (ths : list thread) (i : nat) : Z :=
  match ths with
  | [] => 0
  | t :: ths' => hold k (pc_of t) i + total_from (S k) ths' i
  end.
Definition total (ths : list thread) (i : nat) : Z := total_from 0 ths i.

Lemma total_from_insert k ths p t t' i :
  ths !! p = Some t ->
  total_from k (<[p := t']> ths) i =
    total_from k ths i - hold (k + p) (pc_of t) i + hold (k + p) (pc_of t') i.
Proof.
  revert k p. induction ths as [|t0 ths IH]; intros k p; [done|].
  destruct p as [|p]; simpl; intros H.
  - injection H as ->. rewrite Nat.add_0_r. lia.
  - rewrite (IH (S k) p H). rewrite <- Nat.add_succ_comm. lia.
Qed.

Lemma total_insert ths p t t' i :
  ths !! p = Some t ->
  total (<[p := t']> ths) i = total ths i - hold p (pc_of t) i + hold p (pc_of t') i.
Proof. apply (total_from_insert 0). Qed.

Lemma total_from_pos k ths i :
  0 < total_from k ths i -> exists p t, ths !! p = Some t /\ 0 < hold (k + p) (pc_of t) i.
Proof.
  revert k. induction ths as [|t ths IH]; intros k; simpl; [lia|]. intros H.
  destruct (decide (0 < hold k (pc_of t) i)) as [Hh|Hh].
  - exists 0%nat, t. by rewrite Nat.add_0_r.
  - destruct (IH (S k)) as (p & t' & Hp & Hpos); [lia|].
    exists (S p), t'. by rewrite <- Nat.add_succ_comm.
Qed.

Lemma total_pos ths i :
  0 < total ths i -> exists p t, ths !! p = Some t /\ 0 < hold p (pc_of t) i.
Proof. apply (total_from_pos 0). Qed.

Lemma total_from_nonneg k ths i :
  (forall p pc j, 0 <= hold p pc j) -> 0 <= total_from k ths i.
Proof.
  intros Hh. revert k. induction ths as [|t ths IH]; intros k; simpl; [lia|].
  specialize (IH (S k)). specialize (Hh k (pc_of t) i). lia.
Qed.

Lemma total_ge ths p t i :
  (forall p pc j, 0 <= hold p pc j) -> ths !! p = Some t -> hold p (pc_of t) i <= total ths i.
Proof.
  intros Hh Hp. unfold total. change p with (0 + p)%nat at 1. generalize 0%nat as k.
  revert p Hp. induction ths as [|t0 ths IH]; intros p Hp k; [done|].
  pose proof (Hh k (pc_of t0) i). destruct p as [|p]; simpl in *.
  - injection Hp as ->. rewrite Nat.add_0_r. pose proof (total_from_nonneg (S k) ths i Hh). lia.
  - specialize (IH p Hp (S k)). rewrite <- Nat.add_succ_comm. lia.
Qed.
End accounting.

Definition spoon_of (o : uop) : option nat :=
  match o with UAcquire i => Some i | URelease i => Some i | UPause => None end.

Section safety.
Variable prog : nat -> nat -> uop.
Variable next : nat -> nat -> nat.
Variable hold : nat -> nat -> nat -> Z.
(** the number of processes, the number of semaphores and the value each of
    them was initialised with *)
Variables np nsem : nat.
Variable init : nat -> Z.

Definition delta (o : uop) (i : nat) : Z :=
  match o with
  | UAcquire j => if decide (i = j) then 1 else 0
  | URelease j => if decide (i = j) then -1 else 0
  | UPause => 0
  end.

Hypothesis init_range : forall i, 0 <= init i < 2147483648.
Hypothesis prog_range : forall p pc i,
  (p < np)%nat -> spoon_of (prog p pc) = Some i -> (i < nsem)%nat.
Hypothesis hold_nonneg : forall p pc i, 0 <= hold p pc i.
Hypothesis hold_next : forall p pc i, hold p (next p pc) i = hold p pc i + delta (prog p pc) i.

(** How the table's entry of a process agrees with where its thread is: asleep
    only in [sem_acquire], and then on a semaphore with no unit left. *)
Definition agrees (s : kstate) (p : nat) (t : thread) (q : proc) : Prop :=
  p_kstack q <> 0 /\ p_pgdir q <> 0 /\
  match t with
  | Ready _ => p_state q = RUNNABLE
  | Waiting i pc => prog p pc = UAcquire i /\
      (p_state q = RUNNABLE \/
       (p_state q = SLEEPING /\ p_chan q = Some (Ch_spoon i) /\ sem_val (sem_at s i) < 1))
  end.

Record sem_inv (c : config) : Prop := {
  si_held : held c.1 = [];
  si_cur : cur c.1 = None;
  si_threads p t : c.2 !! p = Some t -> exists q, procs c.1 !! p = Some q /\ agrees c.1 p t q;
  si_nthreads : length c.2 = np;
  si_len : length (spoons c.1) = nsem;
  si_val i : (i < nsem)%nat -> sem_val (sem_at c.1 i) = init i - total hold c.2 i;
  si_nonneg i : (i < nsem)%nat -> 0 <= sem_val (sem_at c.1 i)
}.

Lemma sem_val_range c i :
  sem_inv c -> (i < nsem)%nat -> 0 <= sem_val (sem_at c.1 i) < 2147483648.
Proof using init_range hold_nonneg.
  intros Hi Hlt. split; [by apply si_nonneg|]. rewrite (si_val _ Hi i Hlt).
  pose proof (total_from_nonneg hold 0 c.2 i hold_nonneg). pose proof (init_range i).
  unfold total. lia.
Qed.

Lemma thread_range s ths p t : sem_inv (s, ths) -> ths !! p = Some t -> (p < np)%nat.
Proof using.
  intros Hi Ht. pose proof (si_nthreads _ Hi) as H. simpl in H. rewrite <- H.
  by eapply lookup_lt_Some.
Qed.

Lemma si_can_run s ths p t q :
  sem_inv (s, ths) -> ths !! p = Some t -> procs s !! p = Some q -> agrees s p t q ->
  p_state q = RUNNABLE -> can_run s p q.
Proof using.
  intros Hi Ht Hq (Hk & Hg & _) Hs. split; [apply (si_held _ Hi)|apply (si_cur _ Hi)|done..].
Qed.

Lemma sem_at_alter s s' i f j :
  spoons s' = alter f i (spoons s) -> (i < length (spoons s))%nat ->
  sem_at s' j = if decide (i = j) then f (sem_at s i) else sem_at s j.
Proof using.
  intros Hs Hlt. unfold sem_at. rewrite Hs, list_lookup_alter. case_decide; [|done].
  subst. apply lookup_lt_is_Some_2 in Hlt as [x ->]. done.
Qed.

(** One thread moves from [t] to [t'], changing the semaphores by [d]. *)
Lemma sem_inv_move s ths p t s' t' (d : nat -> Z) :
  sem_inv (s, ths) -> ths !! p = Some t ->
  held s' = [] -> cur s' = None -> length (spoons s') = nsem ->
  (forall i, (i < nsem)%nat -> sem_val (sem_at s' i) = sem_val (sem_at s i) - d i
                               /\ 0 <= sem_val (sem_at s' i)) ->
  (forall i, hold p (pc_of t') i = hold p (pc_of t) i + d i) ->
  (exists q, procs s' !! p = Some q /\ agrees s' p t' q) ->
  (forall r tr q, r <> p -> procs s !! r = Some q -> agrees s r tr q ->
     exists q', procs s' !! r = Some q' /\ agrees s' r tr q') ->
  sem_inv (s', <[p := t']> ths).
Proof using.
  intros Hi Ht Hh Hc Hlen Hv Hd Hp Hr.
  pose proof (si_nthreads _ Hi). split; simpl; try done.
  - intros r tr. rewrite list_lookup_insert_Some.
    intros [(<- & <- & _)|[Hne Htr]]; [done|].
    destruct (si_threads _ Hi r tr Htr) as (q & Hq & Ha). by eapply Hr.
  - by rewrite length_insert.
  - intros i Hlt. rewrite (proj1 (Hv i Hlt)). pose proof (si_val _ Hi i Hlt) as Hvi.
    simpl in Hvi. rewrite Hvi, (total_insert hold ths p t t' i Ht), Hd. lia.
  - intros i Hlt. by apply Hv.
Qed.

Lemma agrees_same s s' r tr q :
  (forall i, sem_val (sem_at s' i) <= sem_val (sem_at s i)) -> agrees s r tr q -> agrees s' r tr q.
Proof using.
  intros Hle (Hk & Hg & Ht). split_and!; [done|done|]. destruct tr as [|i pc]; [done|].
  destruct Ht as [Hop [Hr|(H1 & H2 & H3)]]; (split; [done|]); [by left|right].
  split_and!; [done|done|]. specialize (Hle i). lia.
Qed.

(** [sem_acquire] with a unit left, called or retried. *)
Lemma step_taken s ths p t q q' i :
  sem_inv (s, ths) -> ths !! p = Some t -> procs s !! p = Some q -> can_run s p q ->
  prog p (pc_of t) = UAcquire i -> 1 <= sem_val (sem_at s i) ->
  p_kstack q' = p_kstack q -> p_pgdir q' = p_pgdir q -> p_state q' = RUNNABLE ->
  sem_inv (set_procs (<[p := q']> (procs s)) (set_spoons (alter (taken i) i (spoons s)) s),
           <[p := Ready (next p (pc_of t))]> ths).
Proof using hold_next prog_range.
  intros Hi Ht Hq Hcr Hop Hv Hk Hg Hs.
  assert (i < nsem)%nat as Hlt
    by (apply (prog_range p (pc_of t)); [by eapply thread_range|by rewrite Hop]).
  pose proof (si_len _ Hi) as Hlen. simpl in Hlen.
  set (s' := set_procs _ _).
  assert (forall j, sem_at s' j = if decide (i = j) then taken i (sem_at s i) else sem_at s j) as Hat.
  { intros j. apply (sem_at_alter s); [done|lia]. }
  eapply (sem_inv_move s ths p t _ _ (delta (UAcquire i))); try done.
  - apply (si_held _ Hi).
  - apply (si_cur _ Hi).
  - simpl. by rewrite length_alter.
  - intros j Hj. rewrite Hat. pose proof (si_nonneg _ Hi j Hj). simpl in *.
    destruct (decide (j = i)) as [->|Hne];
      [rewrite decide_True by done; simpl; lia|rewrite decide_False by done; lia].
  - intros j. simpl. by rewrite hold_next, Hop.
  - exists q'. simpl. rewrite list_lookup_insert_eq by (by eapply lookup_lt_Some).
    destruct Hcr. split; [done|]. split_and!; congruence.
  - intros r tr q0 Hne Hq0 Ha. exists q0. simpl. rewrite list_lookup_insert_ne by done.
    split; [done|]. eapply agrees_same; [|done]. intros j. rewrite Hat.
    case_decide; [subst; simpl; lia|done].
Qed.

Lemma step_slept s ths p t q i :
  sem_inv (s, ths) -> ths !! p = Some t -> procs s !! p = Some q -> can_run s p q ->
  prog p (pc_of t) = UAcquire i -> sem_val (sem_at s i) < 1 ->
  sem_inv (set_procs (<[p := slept (Ch_spoon i) q]> (procs s)) s,
           <[p := Waiting i (pc_of t)]> ths).
Proof using.
  intros Hi Ht Hq Hcr Hop Hv.
  eapply (sem_inv_move s ths p t _ _ (fun _ => 0)); try done.
  - apply (si_held _ Hi).
  - apply (si_cur _ Hi).
  - apply (si_len _ Hi).
  - intros j Hj. pose proof (si_nonneg _ Hi j Hj). simpl in *. unfold sem_at in *. simpl. lia.
  - intros j. simpl. lia.
  - eexists. simpl. rewrite list_lookup_insert_eq by (by eapply lookup_lt_Some).
    split; [done|]. destruct Hcr. split_and!; [done|done|done|]. right. by split_and!.
  - intros r tr q0 Hne Hq0 Ha. exists q0. simpl. by rewrite list_lookup_insert_ne by done.
Qed.

Lemma step_given s ths p pc q i :
  sem_inv (s, ths) -> ths !! p = Some (Ready pc) -> procs s !! p = Some q -> can_run s p q ->
  prog p pc = URelease i ->
  sem_inv (set_procs (wake (Ch_spoon i) <$> procs s) (set_spoons (alter given i (spoons s)) s),
           <[p := Ready (next p pc)]> ths).
Proof using hold_next prog_range.
  intros Hi Ht Hq Hcr Hop.
  assert (i < nsem)%nat as Hlt
    by (apply (prog_range p pc); [by eapply thread_range|by rewrite Hop]).
  pose proof (si_len _ Hi) as Hlen. simpl in Hlen.
  set (s' := set_procs _ _).
  assert (forall j, sem_at s' j = if decide (i = j) then given (sem_at s i) else sem_at s j) as Hat.
  { intros j. apply (sem_at_alter s); [done|lia]. }
  eapply (sem_inv_move s ths p (Ready pc) _ _ (delta (URelease i))); try done.
  - apply (si_held _ Hi).
  - apply (si_cur _ Hi).
  - simpl. by rewrite length_alter.
  - intros j Hj. rewrite Hat. pose proof (si_nonneg _ Hi j Hj). simpl in *.
    destruct (decide (j = i)) as [->|Hne];
      [rewrite decide_True by done; simpl; lia|rewrite decide_False by done; lia].
  - intros j. simpl. by rewrite hold_next, Hop.
  - exists q. simpl. rewrite list_lookup_fmap, Hq. simpl. destruct Hcr. split; [|done].
    unfold wake. by rewrite (bool_decide_false (_ = SLEEPING)) by congruence.
  - intros r tr q0 Hne Hq0 (Hk & Hg & Ha). exists (wake (Ch_spoon i) q0). simpl.
    rewrite list_lookup_fmap, Hq0. split; [done|]. unfold wake.
    destruct tr as [pc'|i' pc'].
    { rewrite (bool_decide_false (_ = SLEEPING)) by congruence. done. }
    destruct Ha as [Hop' [Ha|(Ha1 & Ha2 & Ha3)]].
    { rewrite (bool_decide_false (_ = SLEEPING)) by congruence.
      split_and!; [done|done|done|]. by left. }
    rewrite (bool_decide_true (_ = SLEEPING)) by done. simpl.
    case_bool_decide as Hch; simpl.
    + split_and!; [done|done|done|]. by left.
    + split_and!; [done|done|done|]. right. split_and!; [done|done|].
      rewrite Hat, decide_False; [done|]. intros ->. congruence.
Qed.
Lemma set_procs_same s p q : procs s !! p = Some q -> set_procs (<[p := q]> (procs s)) s = s.
Proof using. intros H. rewrite list_insert_id by done. by destruct s. Qed.

(** A turn of a RUNNABLE process, in full: the result state and thread. *)
Lemma turn_runs s ths p t q :
  sem_inv (s, ths) -> ths !! p = Some t -> procs s !! p = Some q -> agrees s p t q ->
  p_state q = RUNNABLE ->
  exists s' b, turn prog p t s = Some (s', b)
    /\ sem_inv (s', <[p := advance prog next p t b]> ths)
    /\ (b = false -> exists i, prog p (pc_of t) = UAcquire i /\ sem_val (sem_at s i) < 1).
Proof using init_range hold_nonneg hold_next prog_range.
  intros Hi Ht Hq Ha Hs.
  pose proof (si_can_run s ths p t q Hi Ht Hq Ha Hs) as Hcr.
  assert (forall i, spoon_of (prog p (pc_of t)) = Some i -> 0 <= sem_val (sem_at s i) < 2147483647 + 1)
    as Hrange by (intros i Hsp; apply (sem_val_range (s, ths)); eauto using thread_range).
  destruct t as [pc|i pc]; simpl in *.
  - destruct (prog p pc) as [i|i|] eqn:Hop; simpl in Hrange.
    + specialize (Hrange i eq_refl). destruct (decide (sem_val (sem_at s i) < 1)) as [Hv|Hv].
      * exists (set_procs (<[p := slept (Ch_spoon i) q]> (procs s)) s), false.
        rewrite (turn_acquire_sleep prog s p q pc i) by done. split; [done|].
        unfold advance. rewrite Hop. split; [by apply (step_slept s ths p (Ready pc))|eauto].
      * exists (set_spoons (alter (taken i) i (spoons s)) s), true.
        rewrite (turn_acquire prog s p q pc i) by (done || lia). split; [done|]. split; [|done].
        rewrite <- (set_procs_same (set_spoons _ s) p q) by done.
        eapply (step_taken s ths p (Ready pc)); eauto; lia.
    + assert (sem_val (sem_at s i) + 1 <= init i).
      { pose proof (si_val _ Hi i ltac:(apply (prog_range p pc); [by eapply thread_range|by rewrite Hop])).
        simpl in *.
        pose proof (total_ge hold ths p (Ready pc) i hold_nonneg Ht). simpl in *.
        pose proof (hold_next p pc i) as Hn. rewrite Hop in Hn. simpl in Hn.
        rewrite decide_True in Hn by done. pose proof (hold_nonneg p (next p pc) i). lia. }
      specialize (Hrange i eq_refl). pose proof (init_range i).
      eexists _, true. rewrite (turn_release prog s p q pc i) by (done || lia).
      split; [done|]. split; [|done]. by eapply (step_given s ths p pc).
    + exists s, true. rewrite (turn_pause prog s p q pc) by done. split; [done|]. split; [|done].
      eapply (sem_inv_move s ths p (Ready pc) _ _ (fun _ => 0)); eauto; try apply Hi.
      * intros i Hlt. pose proof (si_nonneg _ Hi i Hlt). simpl in *. lia.
      * intros i. simpl. by rewrite hold_next, Hop.
  - destruct Ha as (Hk & Hg & Hop & _). rewrite Hop in Hrange. simpl in Hrange.
    specialize (Hrange i eq_refl). destruct (decide (sem_val (sem_at s i) < 1)) as [Hv|Hv].
    + eexists _, false. rewrite (turn_waiting_sleep prog s p q i pc) by done. split; [done|].
      unfold advance. rewrite Hop. split; [by apply (step_slept s ths p (Waiting i pc))|eauto].
    + eexists _, true. rewrite (turn_waiting_ok prog s p q i pc) by (done || lia). split; [done|].
      split; [|done]. eapply (step_taken s ths p (Waiting i pc)); eauto; lia.
Qed.

Lemma tstep_inv c c' : sem_inv c -> tstep prog next c c' -> sem_inv c'.
Proof using init_range hold_nonneg hold_next prog_range.
  intros Hi Hstep. inversion Hstep as [p t s s' ths b Ht Hturn]; subst.
  destruct (si_threads _ Hi p t Ht) as (q & Hq & Ha). simpl in Hq, Ha.
  destruct (decide (p_state q = RUNNABLE)) as [Hs|Hs].
  - destruct (turn_runs s ths p t q Hi Ht Hq Ha Hs) as (s1 & b1 & Hturn1 & Hi1 & _).
    by simplify_eq.
  - rewrite (turn_asleep prog s p t q) in Hturn; [done|apply (si_held _ Hi)|done|done].
Qed.

Lemma rtc_sem_inv c c' : sem_inv c -> rtc (tstep prog next) c c' -> sem_inv c'.
Proof using init_range hold_nonneg hold_next prog_range.
  induction 2; eauto using tstep_inv.
Qed.

(** ** Progress under an order on the semaphores *)

Section progress.
Variable rank : nat -> nat.
Variable top : nat.
Hypothesis init_pos : forall i, (i < nsem)%nat -> 1 <= init i.
Hypothesis rank_top : forall i, (rank i <= top)%nat.
Hypothesis ordered : forall p pc i j, (p < np)%nat ->
  prog p pc = UAcquire i -> 0 < hold p pc j -> (rank j < rank i)%nat.

Definition completes (s : kstate) (ths : list thread) (p : nat) : Prop :=
  match ths !! p with
  | Some t => match turn prog p t s with Some (_, true) => True | _ => False end
  | None => False
  end.
#[local] Instance completes_dec s ths p : Decision (completes s ths p).
Proof using.
  unfold completes. destruct (ths !! p) as [t|]; [|apply _].
  destruct (turn prog p t s) as [[? []]|]; apply _.
Defined.

(** A thread that cannot complete waits for a semaphore with no unit left. *)
Lemma stuck_wants s ths p t :
  sem_inv (s, ths) -> ths !! p = Some t -> ~ completes s ths p ->
  exists i, prog p (pc_of t) = UAcquire i /\ sem_val (sem_at s i) < 1.
Proof using init_range hold_nonneg hold_next prog_range.
  intros Hi Ht Hn. destruct (si_threads _ Hi p t Ht) as (q & Hq & Ha). simpl in Hq, Ha.
  destruct (decide (p_state q = RUNNABLE)) as [Hs|Hs].
  - destruct (turn_runs s ths p t q Hi Ht Hq Ha Hs) as (s1 & b1 & Hturn & _ & Hb).
    unfold completes in Hn. rewrite Ht, Hturn in Hn. destruct b1; [by destruct Hn|auto].
  - destruct Ha as (_ & _ & Ha). destruct t as [pc|i pc]; [done|].
    destruct Ha as [Hop [Ha|(_ & _ & Hv)]]; [done|]. simpl. eauto.
Qed.

Lemma no_deadlock s ths :
  sem_inv (s, ths) -> ths <> [] -> exists p, completes s ths p.
Proof using init_range hold_nonneg hold_next prog_range init_pos rank_top ordered.
  intros Hi Hne.
  destruct (decide (Exists (completes s ths) (seq 0 (length ths)))) as [He|He].
  { apply Exists_exists in He as (p & _ & Hp). eauto. }
  assert (forall p, ~ completes s ths p) as Hstuck.
  { intros p Hp. apply He, Exists_exists. exists p. split; [|done].
    apply elem_of_seq. unfold completes in Hp.
    destruct (ths !! p) eqn:E; [|done]. apply lookup_lt_Some in E. lia. }
  assert (forall n p t i, (top - rank i < n)%nat -> ths !! p = Some t ->
    prog p (pc_of t) = UAcquire i -> sem_val (sem_at s i) < 1 -> False) as Hchain.
  { induction n as [|n IH]; intros p t i Hn Ht Hop Hv; [lia|].
    assert (i < nsem)%nat as Hlt
      by (apply (prog_range p (pc_of t)); [by eapply thread_range|by rewrite Hop]).
    pose proof (si_val _ Hi i Hlt) as Hvi. simpl in Hvi. pose proof (init_pos i Hlt).
    destruct (total_pos hold ths i) as (r & tr & Htr & Hhold); [lia|].
    destruct (stuck_wants s ths r tr Hi Htr (Hstuck r)) as (j & Hj & Hvj).
    pose proof (ordered r (pc_of tr) j i (thread_range _ _ _ _ Hi Htr) Hj Hhold). pose proof (rank_top j).
    apply (IH r tr j); [lia|done..]. }
  destruct ths as [|t ths]; [done|].
  destruct (stuck_wants s (t :: ths) 0 t Hi eq_refl (Hstuck 0%nat)) as (i & Hop & Hv).
  destruct (Hchain (S (top - rank i)) 0%nat t i); [lia|done..].
Qed.
End progress.
End safety.

(** ** The philosophers *)

(** What philosopher [k] has taken when at [pc]. *)
Definition phil_holds (k pc : nat) : list nat :=
  let right := ((k + 1) mod 5)%nat in
  match pc with
  | 0 | 3 | 11 | 12 => []
  | 1 | 2 | 13 => [5]
  | 4 => [if Nat.even k then k else right]
  | 5 | 6 => [k; right]
  | 7 | 8 => [5; k; right]
  | 9 => [k; right]
  | 10 => [k]
  | _ => [5]
  end%nat.

Definition phil_hold (k pc i : nat) : Z :=
  foldr (fun x n => (if decide (i = x) then 1 else 0) + n) 0 (phil_holds k pc).

(** Spoons 2 and 4 are taken first, then 0, then 1 and 3, then the print lock 5. *)
Definition phil_rank (i : nat) : nat :=
  match i with 2 | 4 => 0 | 0 => 1 | 1 | 3 => 2 | _ => 3 end%nat.

Lemma phil_hold_nonneg k pc i : 0 <= phil_hold k pc i.
Proof.
  unfold phil_hold. induction (phil_holds k pc); simpl; [lia|]. case_decide; lia.
Qed.

Lemma phil_hold_next k pc i :
  phil_hold k (philosopher_next k pc) i = phil_hold k pc i + delta (philosopher k pc) i.
Proof.
  unfold phil_hold.
  do 15 (destruct pc as [|pc]; [cbn [philosopher_next Nat.ltb Nat.leb phil_holds philosopher
    delta foldr]; destruct (Nat.even k); repeat case_decide; lia|]).
  cbn. repeat case_decide; lia.
Qed.

Lemma phil_range k pc i :
  (k < 5)%nat -> spoon_of (philosopher k pc) = Some i -> (i < 6)%nat.
Proof.
  intros Hk. assert ((k + 1) mod 5 < 5)%nat by (apply Nat.mod_upper_bound; lia).
  do 15 (destruct pc as [|pc]; [cbn; intros H'; (try destruct (Nat.even k)); simplify_eq; lia|]).
  cbn. intros H'. simplify_eq. lia.
Qed.

Lemma phil_ordered k pc i j :
  (k < 5)%nat -> philosopher k pc = UAcquire i -> 0 < phil_hold k pc j ->
  (phil_rank j < phil_rank i)%nat.
Proof.
  intros Hk Hop Hh.
  do 5 (destruct k as [|k];
    [do 14 (destruct pc as [|pc]; [cbn in *; simplify_eq; repeat case_decide; subst; cbn; lia|]);
     done|]).
  lia.
Qed.

(** The state philosophers.c leaves to the five processes it starts: semaphores 0
    to 5 initialised to 1, the processes RUNNABLE in the first slots. *)
Record dinner (s : kstate) : Prop := {
  di_held : held s = [];
  di_cur : cur s = None;
  di_procs p : (p < 5)%nat -> exists q, procs s !! p = Some q /\ p_state q = RUNNABLE
                                        /\ p_kstack q <> 0 /\ p_pgdir q <> 0;
  di_spoons : spoons s = replicate 6 (mkSem 1 (-1) 1)
}.

Definition seated : list thread := replicate 5 (Ready 0).
Definition served (s0 : kstate) : config -> Prop :=
  rtc (tstep philosopher philosopher_next) (s0, seated).

Lemma dinner_inv s :
  dinner s -> sem_inv philosopher phil_hold 5 6 (fun _ => 1) (s, seated).
Proof.
  intros [Hh Hc Hp Hs]. split; simpl; try done.
  - intros p t Ht. apply lookup_replicate in Ht as [-> Hlt].
    destruct (Hp p Hlt) as (q & Hq & Hst & Hk & Hg). exists q. by split.
  - by rewrite Hs.
  - intros i Hi. unfold sem_at. rewrite Hs, lookup_replicate_2 by lia. done.
  - intros i Hi. unfold sem_at. rewrite Hs, lookup_replicate_2 by lia. simpl. lia.
Qed.

Lemma served_inv s0 c :
  dinner s0 -> served s0 c -> sem_inv philosopher phil_hold 5 6 (fun _ => 1) c.
Proof.
  intros Hd Hs. eapply rtc_sem_inv; [..|exact Hs].
  - lia.
  - apply phil_range.
  - apply phil_hold_nonneg.
  - apply phil_hold_next.
  - by apply dinner_inv.
Qed.

Lemma phil_hold_in k pc i : i ∈ phil_holds k pc <-> 0 < phil_hold k pc i.
Proof.
  unfold phil_hold. induction (phil_holds k pc) as [|x l IH]; simpl.
  - rewrite elem_of_nil. lia.
  - assert (0 <= foldr (fun x n => (if decide (i = x) then 1 else 0) + n) 0 l).
    { clear IH. induction l; simpl; [lia|]. case_decide; lia. }
    rewrite elem_of_cons, IH. case_decide; split; try lia; naive_solver.
Qed.

(** C25: the dining philosophers never deadlock: in every state they can reach, some
    philosopher's pending system call completes when it is given the CPU. *)
Theorem philosophers_never_deadlock (s0 s : kstate) (ths : list thread) :
  dinner s0 -> served s0 (s, ths) ->
  exists p t s', ths !! p = Some t /\ turn philosopher p t s = Some (s', true).
Proof.
  intros Hd Hs. pose proof (served_inv _ _ Hd Hs) as Hi.
  destruct (no_deadlock philosopher philosopher_next phil_hold 5 6 (fun _ => 1)
    ltac:(lia) phil_range phil_hold_nonneg phil_hold_next phil_rank 3) with (s := s) (ths := ths)
    as [p Hp]; try done.
  - intros i. destruct i as [|[|[|[|[|i]]]]]; simpl; lia.
  - apply phil_ordered.
  - pose proof (si_nthreads _ _ _ _ _ _ Hi) as Hl. simpl in Hl. by intros ->.
  - unfold completes in Hp. destruct (ths !! p) as [t|] eqn:Ht; [|done].
    destruct (turn philosopher p t s) as [[s' []]|] eqn:E; try done. by exists p, t, s'.
Qed.

(** each spoon, and the print lock, is used by at most one philosopher at a time,
    and the semaphore's value is 1 exactly when nobody has it, 0 otherwise. *)
Theorem spoons_exclusive (s0 s : kstate) (ths : list thread) (i : nat) :
  dinner s0 -> served s0 (s, ths) -> (i < 6)%nat ->
  (forall p q t u, ths !! p = Some t -> ths !! q = Some u ->
     i ∈ phil_holds p (pc_of t) -> i ∈ phil_holds q (pc_of u) -> p = q)
  /\ (sem_val (sem_at s i) = 1 /\ (forall p t, ths !! p = Some t -> i ∉ phil_holds p (pc_of t))
      \/ sem_val (sem_at s i) = 0 /\ (exists p t, ths !! p = Some t /\ i ∈ phil_holds p (pc_of t))).
Proof.
  intros Hd Hs Hlt. pose proof (served_inv _ _ Hd Hs) as Hi.
  pose proof (si_val _ _ _ _ _ _ Hi i Hlt) as Hv. pose proof (si_nonneg _ _ _ _ _ _ Hi i Hlt) as H0.
  pose proof (total_from_nonneg phil_hold 0 ths i phil_hold_nonneg) as Ht0. simpl in Hv, H0. split.
  - intros p q t u Hp Hq Hip Hiq. destruct (decide (p = q)) as [|Hne]; [done|]. exfalso.
    apply phil_hold_in in Hip, Hiq.
    pose proof (total_insert phil_hold ths p t (Ready 0) i Hp) as Hins.
    pose proof (total_ge phil_hold (<[p := Ready 0]> ths) q u i phil_hold_nonneg
      ltac:(by rewrite list_lookup_insert_ne)) as Hge.
    change (phil_hold p (pc_of (Ready 0)) i) with 0 in Hins. lia.
  - destruct (decide (0 < total phil_hold ths i)) as [Hpos|Hz].
    + right. split; [unfold total in *; lia|].
      destruct (total_pos phil_hold ths i Hpos) as (p & t & Hp & Hh).
      exists p, t. by rewrite phil_hold_in.
    + left. split; [unfold total in *; lia|]. intros p t Hp Hin. apply phil_hold_in in Hin.
      pose proof (total_ge phil_hold ths p t i phil_hold_nonneg Hp). lia.
Qed.

(** C34: no wakeup is lost: a philosopher asleep waits for a spoon that another one
    has, so the release that frees it is still to come. *)
Theorem sleeper_waits_for_a_holder (s0 s : kstate) (ths : list thread) (p : nat) (t : thread) (q : proc) :
  dinner s0 -> served s0 (s, ths) ->
  ths !! p = Some t -> procs s !! p = Some q -> p_state q <> RUNNABLE ->
  exists i, p_state q = SLEEPING /\ p_chan q = Some (Ch_spoon i)
    /\ philosopher p (pc_of t) = UAcquire i
    /\ exists r u, r <> p /\ ths !! r = Some u /\ i ∈ phil_holds r (pc_of u).
Proof.
  intros Hd Hs Ht Hq Hst. pose proof (served_inv _ _ Hd Hs) as Hi.
  destruct (si_threads _ _ _ _ _ _ Hi p t Ht) as (q' & Hq' & Ha). simpl in Hq', Ha.
  rewrite Hq in Hq'. injection Hq' as <-. destruct Ha as (_ & _ & Ha).
  destruct t as [pc|i pc]; [done|]. destruct Ha as [Hop [Ha|(H1 & H2 & H3)]]; [done|].
  exists i. split_and!; [done|done|done|].
  assert (i < 6)%nat as Hlt.
  { apply (phil_range p pc); [by eapply thread_range|by rewrite Hop]. }
  pose proof (si_val _ _ _ _ _ _ Hi i Hlt) as Hv. simpl in Hv.
  destruct (total_pos phil_hold ths i) as (r & u & Hr & Hh); [lia|].
  exists r, u. rewrite phil_hold_in. split_and!; [|done|done].
  intros ->. rewrite Ht in Hr. injection Hr as <-. simpl in Hh.
  pose proof (phil_ordered p pc i i (thread_range _ _ _ _ _ _ _ _ _ Hi Ht) Hop Hh). lia.
Qed.

(** Turns in a given order, for the witnesses. *)
Fixpoint run_turns (ps : list nat) (c : config) : option config :=
  match ps with
  | [] => Some c
  | p :: ps' =>
      match c.2 !! p with
      | Some t => match turn philosopher p t c.1 with
                  | Some (s', b) => run_turns ps' (s', <[p := advance philosopher philosopher_next p t b]> c.2)
                  | None => None
                  end
      | None => None
      end
  end.

Lemma run_turns_served s0 c ps c' :
  served s0 c -> run_turns ps c = Some c' -> served s0 c'.
Proof.
  revert c. induction ps as [|p ps IH]; intros c Hc; simpl; [by intros [= <-]|].
  destruct (c.2 !! p) as [t|] eqn:Ht; [|done].
  destruct (turn philosopher p t c.1) as [[s' b]|] eqn:E; [|done].
  apply IH. destruct c as [s ths]. eapply rtc_r; [exact Hc|]. by apply T_turn.
Qed.

Definition phil_proc : proc :=
  mkProc 4096 2151677952 2151673856 RUNNABLE 7 None 0 0 None false (replicate NOFILE None) None [].
Definition table_set : kstate :=
  mkK [] (replicate 5 phil_proc) None 12 None ∅ 0 true [] ∅ [] (mkLog 0 0 0 false 0 0 [])
    (mkSb 0 0 0 0 0 0 0) [] [] ∅ (replicate 6 (mkSem 1 (-1) 1)) 0 null_console 0.

Lemma table_set_dinner : dinner table_set.
Proof.
  split; try done. intros p Hp. exists phil_proc.
  change (procs table_set) with (replicate 5 phil_proc).
  rewrite lookup_replicate_2 by done. split_and!; done.
Qed.

(** Everybody passes the print lock; 1 takes spoon 2, 2 goes to sleep on it. *)
Definition first_course : list nat :=
  [0; 0; 0; 1; 1; 1; 2; 2; 2; 3; 3; 3; 4; 4; 4; 1; 2; 0; 3; 4]%nat.

Lemma first_course_served :
  exists s ths, served table_set (s, ths) /\ ths !! 2%nat = Some (Waiting 2 3)
    /\ (exists q, procs s !! 2%nat = Some q /\ p_state q = SLEEPING)
    /\ ths !! 1%nat = Some (Ready 4).
Proof.
  destruct (run_turns first_course (table_set, seated)) as [[s ths]|] eqn:E;
    [|vm_compute in E; discriminate].
  exists s, ths. split; [by apply (run_turns_served _ _ _ _ (rtc_refl _ _) E)|].
  vm_compute in E. injection E as <- <-. split; [done|]. split; [|done]. by eexists.
Defined.

Lemma philosophers_never_deadlock_witness :
  exists s ths, served table_set (s, ths) /\ ths !! 2%nat = Some (Waiting 2 3)
    /\ exists p t s', ths !! p = Some t /\ turn philosopher p t s = Some (s', true).
Proof.
  destruct first_course_served as (s & ths & Hs & Ht & _). exists s, ths.
  split; [done|]. split; [done|].
  exact (philosophers_never_deadlock table_set s ths table_set_dinner Hs).
Defined.

Lemma spoons_exclusive_witness :
  exists s ths, served table_set (s, ths) /\ sem_val (sem_at s 2) = 0.
Proof.
  destruct first_course_served as (s & ths & Hs & _ & _ & Ht). exists s, ths. split; [done|].
  destruct (spoons_exclusive table_set s ths 2 table_set_dinner Hs ltac:(lia)) as [_ [[_ H]|[H _]]].
  - destruct (H 1%nat _ Ht). simpl. by left.
  - done.
Defined.

Lemma sleeper_waits_for_a_holder_witness :
  exists s ths r u, served table_set (s, ths) /\ r <> 2%nat /\ ths !! r = Some u
    /\ 2%nat ∈ phil_holds r (pc_of u).
Proof.
  destruct first_course_served as (s & ths & Hs & Ht & (q & Hq & Hst) & _).
  destruct (sleeper_waits_for_a_holder table_set s ths 2 _ q table_set_dinner Hs Ht Hq
    ltac:(rewrite Hst; done)) as (i & _ & _ & Hop & r & u & Hne & Hu & Hin).
  exists s, ths, r, u. simpl in Hop. injection Hop as <-. done.
Defined.
