(* ===== verification/Bio.v ===== *)
(** * Bio: the disk drivers' contract and the buffer cache (bio.c)

    The class [DiskDriver] is what bio.c asks of [iderw]: a dirty buffer is
    written, an invalid one is read.  memide.c is an instance (Memide).  The
    cache keeps its LRU list in [b_prev]/[b_next], buffer [HEAD] being
    [bcache.head]; [ring] ties the two directions to one list.  [cache] is the
    invariant, [view] the contents of a block as the kernel sees it, and the
    routines are specified by their effect on the two. *)

From stdpp Require Import base gmap list strings.
From Stdlib Require Import ZArith Lia.
From S2P Require Import Prelude State Core.

Local Open Scope Z_scope.
Local Open Scope kernel_scope.

(** ** Disks *)

Definition zero_block : list Z := replicate 512 0.
Definition disk_get (d : gmap (Z * Z) (list Z)) (dev bn : Z) : list Z :=
  default zero_block (d !! (dev, bn)).

Definition is_valid (b : buf) : bool := negb (Z.land (b_flags b) B_VALID =? 0).
Definition is_dirty (b : buf) : bool := negb (Z.land (b_flags b) B_DIRTY =? 0).

(** [procs_le]: what happens to the process table in the background of a call,
    processes asleep may be made RUNNABLE. *)
Definition woken (p p' : proc) : Prop :=
  p' = p \/ (p_state p = SLEEPING /\ p' = set_p_state RUNNABLE p).
Definition procs_le (ps ps' : list proc) : Prop := Forall2 woken ps ps'.

(** The buffer after a transfer. *)
Definition synced (d : gmap (Z * Z) (list Z)) (b : buf) : buf :=
  if is_dirty b then set_b_flags B_VALID b
  else set_b_flags B_VALID (set_b_data (disk_get d (b_dev b) (b_blockno b)) b).
Definition transfer (b : buf) (s : kstate) : kstate :=
  if is_dirty b then
    set_disk (<[(b_dev b, b_blockno b) := b_data b]> (disk s))
      (set_writes (writes s ++ [(b_dev b, b_blockno b, b_data b)]) s)
  else s.

Class DiskDriver := {
  iderw : nat -> KM unit;
  (** the blocks the driver accepts *)
  on_disk : Z -> Z -> Prop;
  iderw_spec s i b p :
    bufs s !! i = Some b -> held s = [] -> cur s = Some p ->
    b_lock b = mkSleeplock true (p_pid (proc_at s p)) ->
    (b_flags b = 0 \/ b_flags b = 4 \/ b_flags b = 6) ->
    on_disk (b_dev b) (b_blockno b) ->
    exists ps, procs_le (procs s) ps /\
      iderw i s = Ret tt (set_procs ps (set_bufs (<[i := synced (disk s) b]> (bufs s)) (transfer b s)))
}.

(** ** bio.c *)

Definition HEAD : nat := NBUF.

(** [for(b = start; b != &bcache.head; b = b->next) if(P(b)) ...] *)
Fixpoint find_fwd (fuel : nat) (bs : list buf) (i : nat) (P : buf -> bool) : option nat :=
  match fuel with
  | O => None
  | S fuel' =>
      if decide (i = HEAD) then None
      else let b := default null_buf (bs !! i) in
           if P b then Some i else find_fwd fuel' bs (b_next b) P
  end.
Fixpoint find_bwd (fuel : nat) (bs : list buf) (i : nat) (P : buf -> bool) : option nat :=
  match fuel with
  | O => None
  | S fuel' =>
      if decide (i = HEAD) then None
      else let b := default null_buf (bs !! i) in
           if P b then Some i else find_bwd fuel' bs (b_prev b) P
  end.

(** The stores that put buffer [i] after [bcache.head]. *)
Definition push_front (i : nat) (bs : list buf) : list buf :=
  let first := b_next (default null_buf (bs !! HEAD)) in
  let bs := alter (set_b_next first) i bs in
  let bs := alter (set_b_prev HEAD) i bs in
  let bs := alter (set_b_prev i) (b_next (default null_buf (bs !! HEAD))) bs in
  alter (set_b_next i) HEAD bs.

(** The stores that take buffer [i] out of the list. *)
Definition unlink (i : nat) (bs : list buf) : list buf :=
  let b := default null_buf (bs !! i) in
  let bs := alter (set_b_prev (b_prev b)) (b_next b) bs in
  let b := default null_buf (bs !! i) in
  alter (set_b_next (b_next b)) (b_prev b) bs.

Definition binit : KM unit :=
  modify (fun s => set_bufs (alter (set_b_prev HEAD) HEAD (bufs s)) s) ;;;
  modify (fun s => set_bufs (alter (set_b_next HEAD) HEAD (bufs s)) s) ;;;
  for_each (seq 0 NBUF) (fun i =>
    modify (fun s => set_bufs (alter (set_b_next (b_next (buf_at s HEAD))) i (bufs s)) s) ;;;
    modify (fun s => set_bufs (alter (set_b_prev HEAD) i (bufs s)) s) ;;;
    initsleeplock (SL_buf i) ;;;
    modify (fun s => set_bufs (alter (set_b_prev i) (b_next (buf_at s HEAD)) (bufs s)) s) ;;;
    modify (fun s => set_bufs (alter (set_b_next i) HEAD (bufs s)) s)).

Definition bget (dev blockno : Z) : KM nat :=
  acquire L_bcache ;;;
  bs <- get bufs ;;
  match find_fwd (S NBUF) bs (b_next (default null_buf (bs !! HEAD)))
          (fun b => (b_dev b =? dev) && (b_blockno b =? blockno)) with
  | Some i =>
      upd_buf i (fun b => set_b_refcnt (u32 (b_refcnt b + 1)) b) ;;;
      release L_bcache ;;;
      acquiresleep (SL_buf i) ;;;
      ret i
  | None =>
      match find_bwd (S NBUF) bs (b_prev (default null_buf (bs !! HEAD)))
              (fun b => (b_refcnt b =? 0) && (Z.land (b_flags b) B_DIRTY =? 0)) with
      | Some i =>
          upd_buf i (fun b => set_b_refcnt 1 (set_b_flags 0 (set_b_blockno blockno (set_b_dev dev b)))) ;;;
          release L_bcache ;;;
          acquiresleep (SL_buf i) ;;;
          ret i
      | None => panic "bget: no buffers"
      end
  end.

Section bio.
Context `{DiskDriver}.

Definition bread (dev blockno : Z) : KM nat :=
  i <- bget dev blockno ;;
  b <- get (fun s => buf_at s i) ;;
  (if Z.land (b_flags b) B_VALID =? 0 then iderw i else ret tt) ;;;
  ret i.

Definition bwrite (i : nat) : KM unit :=
  h <- holdingsleep (SL_buf i) ;;
  if negb h then panic "bwrite"
  else
    upd_buf i (fun b => set_b_flags (Z.lor (b_flags b) B_DIRTY) b) ;;;
    iderw i.

Definition brelse (i : nat) : KM unit :=
  h <- holdingsleep (SL_buf i) ;;
  if negb h then panic "brelse"
  else
    releasesleep (SL_buf i) ;;;
    acquire L_bcache ;;;
    upd_buf i (fun b => set_b_refcnt (u32 (b_refcnt b - 1)) b) ;;;
    r <- get (fun s => b_refcnt (buf_at s i)) ;;
    (if r =? 0 then modify (fun s => set_bufs (push_front i (unlink i (bufs s))) s) else ret tt) ;;;
    release L_bcache.
End bio.
