(* ===== verification/Memide.v ===== *)
(** * Memide: the in-memory disk driver (memide.c)

    The disk is the file-system image linked into the kernel.  Its size in blocks
    is set at link time ([_binary_fs_img_size]) and is a parameter here.
    [memide_driver] shows that the routine does what the buffer cache relies on. *)

From stdpp Require Import base gmap list strings.
From Stdlib Require Import ZArith Lia.
From S2P Require Import Prelude State Core Bio.

Local Open Scope Z_scope.
Local Open Scope kernel_scope.

Section memide.
(** [(uint)_binary_fs_img_size] *)
Variable fs_img_size : Z.

Definition disksize : Z := i32 (u32 fs_img_size / BSIZE).

(** [memdisk] is [disk]; block [n] is the bytes from [n*BSIZE]. *)
Definition memide_rw (i : nat) : KM unit :=
  h <- holdingsleep (SL_buf i) ;;
  if negb h then panic "iderw: buf not locked" else
  b <- get (fun s => buf_at s i) ;;
  if Z.land (b_flags b) (Z.lor B_VALID B_DIRTY) =? B_VALID then panic "iderw: nothing to do" else
  if negb (b_dev b =? 1) then panic "iderw: request not for disk 1" else
  if u32 disksize <=? b_blockno b then panic "iderw: block out of range" else
  (if negb (Z.land (b_flags b) B_DIRTY =? 0) then
     upd_buf i (set_b_flags (Z.land (b_flags b) (Z.lnot B_DIRTY))) ;;;
     modify (fun s => set_disk (<[(b_dev b, b_blockno b) := b_data b]> (disk s))
                        (set_writes (writes s ++ [(b_dev b, b_blockno b, b_data b)]) s))
   else
     modify (fun s => set_bufs (alter (set_b_data (disk_get (disk s) (b_dev b) (b_blockno b))) i (bufs s)) s)) ;;;
  upd_buf i (fun b => set_b_flags (Z.lor (b_flags b) B_VALID) b).

Lemma memide_rw_eq s i b p :
  bufs s !! i = Some b -> held s = [] -> cur s = Some p ->
  b_lock b = mkSleeplock true (p_pid (proc_at s p)) ->
  (b_flags b = 0 \/ b_flags b = 4 \/ b_flags b = 6) ->
  (b_dev b = 1 /\ b_blockno b < u32 disksize) ->
  memide_rw i s = Ret tt (set_bufs (<[i := synced (disk s) b]> (bufs s)) (transfer b s)).
Proof using Type.
  intros Hb Hh Hp Hl Hf [Hd Hbn]. unfold memide_rw. unfold bind at 1.
  rewrite (holdingsleep_eq _ _ p); [|rewrite Hh; set_solver|done].
  assert (buf_at s i = b) as Hba by (unfold buf_at; by rewrite Hb).
  unfold sleeplock_at. rewrite Hba, Hl. simpl. rewrite bool_decide_true by done. simpl.
  unfold bind at 1, get. rewrite Hba, Hd. simpl.
  destruct (Z.leb_spec (u32 disksize) (b_blockno b)); [lia|].
  unfold synced, transfer, is_dirty, upd_buf, modify, bind.
  pose proof (lookup_lt_Some _ _ _ Hb) as Hlt.
  destruct Hf as [E|[E|E]]; rewrite E; simpl; rewrite (alter_as_insert _ _ (bufs s) b) by done;
    erewrite alter_as_insert by (by apply list_lookup_insert_eq);
    rewrite list_insert_insert_eq; simpl; rewrite Hd; destruct b; simpl in *; subst; done.
Qed.

#[export] Instance memide_driver : DiskDriver.
Proof using fs_img_size.
  refine {| iderw := memide_rw; on_disk := fun d n => d = 1 /\ n < u32 disksize |}.
  intros s i b p Hb Hh Hp Hl Hf Hon. exists (procs s). split.
  - apply Forall_Forall2_diag, Forall_forall. by left.
  - rewrite (memide_rw_eq s i b p) by done. f_equal. unfold transfer. destruct s. by destruct (is_dirty b).
Defined.
End memide.
