(* ===== verification/Ring.v ===== *)
(** * Ring: the doubly linked LRU list of the buffer cache

    [chain nx pv x l y]: following [nx] from [x] visits [l] and arrives at [y],
    and [pv] goes the same way back.  The pointer updates of bio.c ([unlink],
    [push_front]) are list operations on [l]; the scans of [bget] are [find] on
    [l] and on its reverse. *)

From stdpp Require Import base gmap list strings.
From Stdlib Require Import ZArith Lia.
From S2P Require Import Prelude State Core Bio.

Section chain.
Implicit Types (nx pv : nat -> nat) (l : list nat).

Fixpoint chain nx pv (x : nat) l (y : nat) : Prop :=
  match l with
  | [] => nx x = y /\ pv y = x
  | a :: l' => nx x = a /\ pv a = x /\ chain nx pv a l' y
  end.

Lemma chain_frame nx pv nx' pv' x l y :
  (forall k, k ∈ x :: l -> nx' k = nx k) -> (forall k, k ∈ l ++ [y] -> pv' k = pv k) ->
  chain nx pv x l y -> chain nx' pv' x l y.
Proof.
  revert x. induction l as [|a l IH]; intros x Hn Hp; simpl.
  - intros [H1 H2]. rewrite Hn, Hp by set_solver. done.
  - intros (H1 & H2 & H3). rewrite Hn, Hp by set_solver. split_and!; [done|done|].
    apply IH; [set_solver|set_solver|done].
Qed.

Lemma chain_pv_in nx pv x l1 i l2 y :
  chain nx pv x (l1 ++ i :: l2) y -> pv i ∈ x :: l1.
Proof.
  revert x. induction l1 as [|b l1 IH]; intros x; simpl.
  - intros (_ & -> & _). by left.
  - intros (_ & _ & H). right. by apply IH.
Qed.

Lemma chain_nx_in nx pv x l1 i l2 y :
  chain nx pv x (l1 ++ i :: l2) y -> nx i ∈ l2 ++ [y].
Proof.
  revert x. induction l1 as [|b l1 IH]; intros x; simpl.
  - intros (_ & _ & H). destruct l2; simpl in *; [destruct H as [-> _]|destruct H as [-> _]];
      set_solver.
  - intros (_ & _ & H). by eapply IH.
Qed.

Lemma chain_unlink nx pv nx' pv' x l1 i l2 y :
  NoDup (x :: l1 ++ i :: l2) -> y ∉ l1 ++ i :: l2 ->
  chain nx pv x (l1 ++ i :: l2) y ->
  (forall k, nx' k = if decide (k = pv i) then nx i else nx k) ->
  (forall k, pv' k = if decide (k = nx i) then pv i else pv k) ->
  chain nx' pv' x (l1 ++ l2) y.
Proof.
  intros Hnd Hy Hc Hn Hp. revert x Hnd Hy Hc.
  induction l1 as [|b l1 IH]; intros x Hnd Hy Hc; simpl in *.
  - destruct Hc as (H1 & H2 & H3). destruct l2 as [|c l2]; simpl in *.
    + destruct H3 as [H3 H4]. rewrite Hn, Hp, H2, H3, !decide_True by done. done.
    + destruct H3 as (H3 & H4 & H5). rewrite Hn, Hp, H2, H3, !decide_True by done.
      split_and!; [done|done|].
      rewrite !NoDup_cons in Hnd. destruct Hnd as (Hx & Hi & Hc & Hnd).
      eapply chain_frame; [..|exact H5].
      * intros k Hk. rewrite Hn, decide_False; [done|]. clear -Hk Hx H2. set_solver.
      * intros k Hk. rewrite Hp, decide_False; [done|]. clear -Hk Hc Hy H3. set_solver.
  - destruct Hc as (H1 & H2 & H3).
    pose proof (chain_pv_in _ _ _ _ _ _ _ H3) as Hpi.
    pose proof (chain_nx_in _ _ _ _ _ _ _ H3) as Hni.
    rewrite NoDup_cons in Hnd. destruct Hnd as [Hx Hnd].
    assert (b ∉ l1 ++ i :: l2) as Hb by (by apply NoDup_cons in Hnd as [? _]).
    rewrite Hn, Hp, !decide_False by (clear -Hb Hx Hy Hpi Hni; set_solver).
    split_and!; [done|done|].
    apply IH; [done|clear -Hy; set_solver|done].
Qed.

Lemma chain_push nx pv nx' pv' h i l :
  i ∉ h :: l -> h ∉ l -> NoDup l -> chain nx pv h l h ->
  (forall k, nx' k = if decide (k = h) then i else if decide (k = i) then nx h else nx k) ->
  (forall k, pv' k = if decide (k = nx h) then i else if decide (k = i) then h else pv k) ->
  chain nx' pv' h (i :: l) h.
Proof.
  intros Hi Hh Hnd Hc Hn Hp. simpl.
  rewrite (Hn h), decide_True by done. split; [done|].
  assert (nx h ∈ l ++ [h]) as Hnh by (destruct l; simpl in *; destruct Hc as [-> _]; clear; set_solver).
  rewrite (Hp i), decide_False, decide_True by (clear -Hi Hnh; set_solver). split; [done|].
  destruct l as [|c l]; simpl in *.
  - destruct Hc as [H1 H2]. rewrite Hn, decide_False, decide_True by (clear -Hi; set_solver).
    split; [done|]. rewrite Hp, decide_True by done. done.
  - destruct Hc as (H1 & H2 & H3).
    rewrite Hn, decide_False, decide_True by (clear -Hi; set_solver).
    split; [done|]. rewrite Hp, decide_True by done. split; [done|].
    apply NoDup_cons in Hnd as [Hc Hnd].
    eapply chain_frame; [..|exact H3].
    + intros k Hk. by rewrite Hn, !decide_False by (clear -Hk Hh Hi; set_solver).
    + intros k Hk. by rewrite Hp, H1, !decide_False by (clear -Hk Hh Hi Hc; set_solver).
Qed.
End chain.

(** ** The buffer array as a ring *)

Definition nx (bs : list buf) (i : nat) : nat := b_next (default null_buf (bs !! i)).
Definition pv (bs : list buf) (i : nat) : nat := b_prev (default null_buf (bs !! i)).

Record ring (bs : list buf) (l : list nat) : Prop := {
  ring_len : length bs = S NBUF;
  ring_chain : chain (nx bs) (pv bs) HEAD l HEAD;
  ring_perm : l ≡ₚ seq 0 NBUF
}.

Lemma ring_elem bs l i : ring bs l -> i ∈ l <-> (i < NBUF)%nat.
Proof. intros [_ _ Hp]. rewrite Hp, elem_of_seq. lia. Qed.

Lemma ring_nodup bs l : ring bs l -> NoDup (HEAD :: l).
Proof.
  intros Hr. constructor.
  - rewrite (ring_elem _ _ _ Hr). unfold HEAD. lia.
  - destruct Hr as [_ _ Hp]. rewrite Hp. apply NoDup_seq.
Qed.

(** Updates of other fields keep the ring. *)
Lemma ring_frame bs bs' l :
  length bs' = length bs -> (forall i, nx bs' i = nx bs i /\ pv bs' i = pv bs i) ->
  ring bs l -> ring bs' l.
Proof.
  intros Hlen Hf [Hl Hc Hp]. split; [by rewrite Hlen| |done].
  eapply chain_frame; [..|exact Hc]; intros; apply Hf.
Qed.

Lemma nx_alter f i bs k :
  (i < length bs)%nat ->
  nx (alter f i bs) k = if decide (k = i) then b_next (f (default null_buf (bs !! i))) else nx bs k.
Proof.
  intros Hlt. unfold nx. rewrite list_lookup_alter.
  apply lookup_lt_is_Some_2 in Hlt as [b Hb].
  destruct (decide (k = i)) as [->|]; [by rewrite decide_True, Hb|by rewrite decide_False by done].
Qed.

Lemma pv_alter f i bs k :
  (i < length bs)%nat ->
  pv (alter f i bs) k = if decide (k = i) then b_prev (f (default null_buf (bs !! i))) else pv bs k.
Proof.
  intros Hlt. unfold pv. rewrite list_lookup_alter.
  apply lookup_lt_is_Some_2 in Hlt as [b Hb].
  destruct (decide (k = i)) as [->|]; [by rewrite decide_True, Hb|by rewrite decide_False by done].
Qed.

Lemma ring_range bs l i :
  ring bs l -> (i <= NBUF)%nat -> (nx bs i < length bs)%nat /\ (pv bs i < length bs)%nat.
Proof.
  intros Hr Hi. rewrite (ring_len _ _ Hr).
  assert (forall k, k ∈ HEAD :: l -> (k < S NBUF)%nat) as Hk.
  { intros k [->|Hk]%elem_of_cons; [unfold HEAD; lia|]. apply (ring_elem _ _ _ Hr) in Hk. lia. }
  destruct (decide (i = HEAD)) as [->|Hne].
  - pose proof (ring_chain _ _ Hr) as Hc. split; apply Hk.
    + destruct l; simpl in Hc; destruct Hc as [-> _]; set_solver.
    + destruct l as [|a l _] using rev_ind; [by destruct Hc as [_ ->]; left|].
      assert (forall x, chain (nx bs) (pv bs) x (l ++ [a]) HEAD -> pv bs HEAD = a) as Hlast.
      { clear. induction l as [|b l IH]; intros x; simpl; [tauto|]. intros (_ & _ & H). by eapply IH. }
      rewrite (Hlast _ Hc). set_solver.
  - assert (i ∈ l) as Hin by (apply (ring_elem _ _ _ Hr); unfold HEAD in Hne; lia).
    apply list_elem_of_split in Hin as (l1 & l2 & ->).
    pose proof (ring_chain _ _ Hr) as Hc.
    apply chain_nx_in in Hc as Hn. apply chain_pv_in in Hc as Hp. split; apply Hk; set_solver.
Qed.

(** [bs'] differs from [bs] in the links only. *)
Definition relinked (b b' : buf) : Prop := b' = set_b_prev (b_prev b') (set_b_next (b_next b') b).
Definition links (bs bs' : list buf) : Prop := Forall2 relinked bs bs'.

#[export] Instance relinked_preorder : PreOrder relinked.
Proof.
  split.
  - by intros [].
  - intros b1 b2 b3 -> ->. by destruct b1, b3.
Qed.
#[export] Instance links_preorder : PreOrder links.
Proof. change (PreOrder (Forall2 relinked)). apply _. Qed.

Lemma links_alter f i bs :
  (forall b, relinked b (f b)) -> links bs (alter f i bs).
Proof.
  intros Hf. apply Forall2_same_length_lookup. split; [by rewrite length_alter|].
  intros k b b' Hb Hb'. rewrite list_lookup_alter in Hb'. case_decide.
  - subst. rewrite Hb in Hb'. by injection Hb' as <-.
  - rewrite Hb in Hb'. by injection Hb' as <-.
Qed.

Lemma links_length bs bs' : links bs bs' -> length bs' = length bs.
Proof. intros H. symmetry. by eapply Forall2_length. Qed.

Lemma links_unlink i bs : links bs (unlink i bs).
Proof. unfold unlink. etrans; apply links_alter; by intros []. Qed.

Lemma links_push_front i bs : links bs (push_front i bs).
Proof.
  unfold push_front. etrans; [|apply links_alter; by intros []].
  etrans; [|apply links_alter; by intros []].
  etrans; [|apply links_alter; by intros []]. apply links_alter. by intros [].
Qed.

Lemma nx_set_next v i bs k :
  (i < length bs)%nat -> nx (alter (set_b_next v) i bs) k = if decide (k = i) then v else nx bs k.
Proof. intros. by rewrite nx_alter. Qed.
Lemma pv_set_prev v i bs k :
  (i < length bs)%nat -> pv (alter (set_b_prev v) i bs) k = if decide (k = i) then v else pv bs k.
Proof. intros. by rewrite pv_alter. Qed.
Lemma nx_set_prev v i bs k : nx (alter (set_b_prev v) i bs) k = nx bs k.
Proof. unfold nx. rewrite list_lookup_alter. case_decide; [|done]. subst. by destruct (bs !! k). Qed.
Lemma pv_set_next v i bs k : pv (alter (set_b_next v) i bs) k = pv bs k.
Proof. unfold pv. rewrite list_lookup_alter. case_decide; [|done]. subst. by destruct (bs !! k). Qed.

(** [unlink] and [push_front] in terms of [nx] and [pv]. *)
Lemma unlink_eq i bs :
  unlink i bs =
    let bs1 := alter (set_b_prev (pv bs i)) (nx bs i) bs in
    alter (set_b_next (nx bs1 i)) (pv bs1 i) bs1.
Proof. reflexivity. Qed.
Lemma push_front_eq i bs :
  push_front i bs =
    let bs1 := alter (set_b_next (nx bs HEAD)) i bs in
    let bs2 := alter (set_b_prev HEAD) i bs1 in
    alter (set_b_next i) HEAD (alter (set_b_prev i) (nx bs2 HEAD) bs2).
Proof. reflexivity. Qed.

Lemma unlink_chain bs l1 i l2 :
  ring bs (l1 ++ i :: l2) ->
  chain (nx (unlink i bs)) (pv (unlink i bs)) HEAD (l1 ++ l2) HEAD.
Proof.
  intros Hr. pose proof (ring_nodup _ _ Hr) as Hnd.
  assert (i ∈ l1 ++ i :: l2) as Hin by set_solver. apply (ring_elem _ _ _ Hr) in Hin.
  destruct (ring_range _ _ i Hr ltac:(lia)) as [Hn Hp].
  rewrite unlink_eq. cbv zeta. rewrite nx_set_prev, pv_set_prev by done.
  assert ((if decide (i = nx bs i) then pv bs i else pv bs i) = pv bs i) as -> by (by case_decide).
  eapply (chain_unlink (nx bs) (pv bs)); [done|by apply NoDup_cons in Hnd as [? _]|apply Hr|..];
    intros k.
  - by rewrite nx_set_next, nx_set_prev by (by rewrite length_alter).
  - by rewrite pv_set_next, pv_set_prev.
Qed.

Lemma push_front_chain bs i l :
  length bs = S NBUF -> i ∉ HEAD :: l -> (i < NBUF)%nat -> NoDup (HEAD :: l) ->
  (nx bs HEAD < length bs)%nat ->
  chain (nx bs) (pv bs) HEAD l HEAD ->
  chain (nx (push_front i bs)) (pv (push_front i bs)) HEAD (i :: l) HEAD.
Proof.
  intros Hlen Hi Hlt Hnd Hnh Hc. apply NoDup_cons in Hnd as [Hh Hnd].
  assert (HEAD <> i) as Hne by set_solver.
  rewrite push_front_eq. cbv zeta.
  rewrite nx_set_prev, nx_set_next, decide_False by (done || lia).
  eapply (chain_push (nx bs) (pv bs)); try done; intros k.
  - rewrite nx_set_next by (rewrite !length_alter; unfold HEAD; lia).
    by rewrite !nx_set_prev, nx_set_next by lia.
  - rewrite pv_set_next, pv_set_prev by (rewrite !length_alter; lia).
    rewrite pv_set_prev by (rewrite length_alter; lia). by rewrite pv_set_next.
Qed.

(** [brelse] moves a buffer to the front. *)
Lemma ring_move_front bs l1 i l2 :
  ring bs (l1 ++ i :: l2) -> ring (push_front i (unlink i bs)) (i :: l1 ++ l2).
Proof.
  intros Hr. pose proof (ring_nodup _ _ Hr) as Hnd.
  pose proof (links_length _ _ (links_unlink i bs)) as Hlu.
  pose proof (links_length _ _ (links_push_front i (unlink i bs))) as Hlp.
  pose proof (ring_len _ _ Hr) as Hlen.
  assert (i < NBUF)%nat as Hi by (apply (ring_elem _ _ _ Hr); set_solver).
  pose proof (unlink_chain _ _ _ _ Hr) as Hc.
  assert (NoDup (HEAD :: l1 ++ l2) /\ i ∉ HEAD :: l1 ++ l2) as [Hnd' Hi'].
  { assert (HEAD :: l1 ++ i :: l2 ≡ₚ i :: HEAD :: l1 ++ l2) as Hperm by (clear; solve_Permutation).
    rewrite Hperm in Hnd. by apply NoDup_cons in Hnd as [? ?]. }
  split.
  - lia.
  - apply push_front_chain; [lia|done|done|done| |done].
    assert (nx (unlink i bs) HEAD ∈ HEAD :: l1 ++ l2) as Hin.
    { destruct (l1 ++ l2); simpl in Hc; destruct Hc as [-> _]; set_solver. }
    apply elem_of_cons in Hin as [->|Hin]; [unfold HEAD; lia|].
    assert (nx (unlink i bs) HEAD < NBUF)%nat; [|lia].
    apply (ring_elem _ _ _ Hr). clear -Hin. set_solver.
  - rewrite <- (ring_perm _ _ Hr). clear. solve_Permutation.
Qed.

(** The scans of [bget] visit the buffers in the order of the ring. *)
Lemma find_fwd_chain bs P x l fuel :
  chain (nx bs) (pv bs) x l HEAD -> HEAD ∉ l -> (length l < fuel)%nat ->
  find_fwd fuel bs (nx bs x) P = List.find (fun i => P (default null_buf (bs !! i))) l.
Proof.
  revert x fuel. induction l as [|a l IH]; intros x fuel Hc Hh Hf; destruct fuel as [|fuel];
    simpl in *; try lia.
  - destruct Hc as [-> _]. by rewrite decide_True.
  - destruct Hc as (-> & _ & Hc). rewrite decide_False by set_solver.
    case_match; [done|]. apply IH; [done|set_solver|lia].
Qed.

Lemma find_bwd_chain bs P y l fuel :
  chain (nx bs) (pv bs) HEAD l y -> HEAD ∉ l -> (length l < fuel)%nat ->
  find_bwd fuel bs (pv bs y) P = List.find (fun i => P (default null_buf (bs !! i))) (rev l).
Proof.
  revert y fuel. induction l as [|a l IH] using rev_ind; intros y fuel Hc Hh Hf;
    destruct fuel as [|fuel]; rewrite ?length_app in Hf; simpl in *; try lia.
  - destruct Hc as [_ ->]. by rewrite decide_True.
  - assert (forall x, chain (nx bs) (pv bs) x (l ++ [a]) y ->
      pv bs y = a /\ chain (nx bs) (pv bs) x l a) as Hsplit.
    { clear. induction l as [|b l IH]; intros x; simpl; [tauto|].
      intros (H1 & H2 & H3). destruct (IH b H3). tauto. }
    destruct (Hsplit _ Hc) as [-> Hc']. rewrite decide_False by set_solver.
    rewrite rev_app_distr. simpl. case_match; [done|]. apply IH; [done|set_solver|lia].
Qed.
