(* ===== verification/Cache.v ===== *)
(** * Cache: what the buffer cache of bio.c promises

    [cache H V D s]: in [s] the running process holds the buffers [H] (block to
    buffer index), no other buffer is in use, [V] gives the contents of every
    block as the kernel sees it, and [D] are the blocks whose buffer is dirty and
    pinned.  A block that is neither pinned nor held is on the disk as [V] has it.
    [bread], [bwrite], [brelse] and the two changes a client may make to a buffer
    it holds are specified by their effect on [H], [V], [D] and on the disk writes;
    [bstep] is what they leave alone. *)

From stdpp Require Import functions base gmap list strings.
From Stdlib Require Import ZArith Lia.
From S2P Require Import Prelude State Core Bio Ring.

Local Open Scope Z_scope.
Local Open Scope kernel_scope.

(** ** Blocks and writes *)

Definition block_ok (l : list Z) : Prop := length l = 512%nat /\ Forall is_byte l.
Definition bkey (b : buf) : Z * Z := (b_dev b, b_blockno b).
Definition on_block (d : gmap (Z * Z) (list Z)) (k : Z * Z) : list Z := disk_get d k.1 k.2.

(** The disk after a sequence of block writes. *)
Definition apply_writes (ws : list (Z * Z * list Z)) (d : gmap (Z * Z) (list Z)) :
    gmap (Z * Z) (list Z) :=
  foldl (fun d w => <[w.1 := w.2]> d) d ws.

Lemma apply_writes_app ws1 ws2 d :
  apply_writes (ws1 ++ ws2) d = apply_writes ws2 (apply_writes ws1 d).
Proof. apply foldl_app. Qed.

Lemma on_block_insert d k k' v :
  on_block (<[k := v]> d) k' = if decide (k = k') then v else on_block d k'.
Proof.
  unfold on_block, disk_get. rewrite <- surjective_pairing, lookup_insert. by case_decide.
Qed.

(** ** The frame of the buffer operations *)

Definition did_write (ws : list (Z * Z * list Z)) (s : kstate) : kstate :=
  set_disk (apply_writes ws (disk s)) (set_writes (writes s ++ ws) s).

Definition bstep (ws : list (Z * Z * list Z)) (s s' : kstate) : Prop :=
  exists ps bs, procs_le (procs s) ps /\ s' = set_procs ps (set_bufs bs (did_write ws s)).

#[export] Instance woken_preorder : PreOrder woken.
Proof.
  split; [by left|]. intros p p' p'' [->|[Hp ->]] [->|[Hp' ->]]; unfold woken; auto.
Qed.
#[export] Instance procs_le_preorder : PreOrder procs_le.
Proof. change (PreOrder (Forall2 woken)). apply _. Qed.

Lemma procs_le_wake c ps : procs_le ps (wake c <$> ps).
Proof.
  apply Forall2_fmap_r, Forall_Forall2_diag, Forall_forall. intros p _. simpl. unfold woken, wake.
  destruct (bool_decide (p_state p = SLEEPING)) eqn:E; [|by left]. apply bool_decide_eq_true in E.
  destruct (bool_decide _); [by right|by left].
Qed.

Definition mypid (s : kstate) : Z :=
  match cur s with Some p => p_pid (proc_at s p) | None => 0 end.

Lemma procs_le_pid s s' p :
  procs_le (procs s) (procs s') -> p_pid (proc_at s' p) = p_pid (proc_at s p).
Proof.
  intros Hle. unfold proc_at. destruct (procs s !! p) as [q|] eqn:E.
  - destruct (Forall2_lookup_l _ _ _ _ _ Hle E) as (q' & -> & [->|[_ ->]]); done.
  - apply lookup_ge_None in E. rewrite lookup_ge_None_2; [done|].
    by rewrite <- (Forall2_length _ _ _ Hle).
Qed.

Lemma bstep_intro s ps bs :
  procs_le (procs s) ps -> bstep [] s (set_procs ps (set_bufs bs s)).
Proof.
  intros Hp. exists ps, bs. split; [done|]. destruct s. unfold did_write. simpl. by rewrite app_nil_r.
Qed.

Lemma bstep_bufs s bs : bstep [] s (set_bufs bs s).
Proof. pose proof (bstep_intro s (procs s) bs) as Hq. destruct s. by apply Hq. Qed.

Lemma bstep_refl s : bstep [] s s.
Proof. pose proof (bstep_bufs s (bufs s)) as Hq. destruct s. by apply Hq. Qed.

Lemma bstep_trans ws ws' s s' s'' :
  bstep ws s s' -> bstep ws' s' s'' -> bstep (ws ++ ws') s s''.
Proof.
  intros (ps & bs & Hp & ->) (ps' & bs' & Hp' & ->). exists ps', bs'. split.
  - etrans; [exact Hp|exact Hp'].
  - destruct s. unfold did_write. simpl. by rewrite apply_writes_app, app_assoc.
Qed.

Lemma bstep_quiet s s' s'' : bstep [] s s' -> bstep [] s' s'' -> bstep [] s s''.
Proof. apply bstep_trans. Qed.

Lemma bstep_same ws s s' :
  bstep ws s s' ->
  held s' = held s /\ cur s' = cur s /\ mypid s' = mypid s /\ log s' = log s /\ sb s' = sb s
  /\ icache s' = icache s /\ disk s' = apply_writes ws (disk s) /\ writes s' = writes s ++ ws.
Proof.
  intros (ps & bs & Hp & ->). split_and!; try done. unfold mypid. simpl. destruct (cur s); [|done].
  by rewrite (procs_le_pid s).
Qed.

(** ** The invariant *)

Section invariant.
Implicit Types (H : gmap (Z * Z) nat) (V : Z * Z -> list Z) (D : gset (Z * Z)).

Definition buf_ok H V D (pid : Z) (i : nat) (b : buf) : Prop :=
  (if decide (H !! bkey b = Some i)
   then b_refcnt b = 1 /\ b_lock b = mkSleeplock true pid /\ b_dev b <> 0
   else b_refcnt b = 0 /\ sl_locked (b_lock b) = false) /\
  (if decide (b_dev b = 0) then b_flags b = 0
   else b_flags b = (if decide (bkey b ∈ D) then 6 else 2) /\ b_data b = V (bkey b)).

Record cache H V D (s : kstate) : Prop := {
  c_held : held s = [];
  c_cur : is_Some (cur s);
  c_ring : exists l, ring (bufs s) l;
  c_buf i b : (i < NBUF)%nat -> bufs s !! i = Some b -> buf_ok H V D (mypid s) i b;
  c_uniq i j b c : (i < NBUF)%nat -> (j < NBUF)%nat -> bufs s !! i = Some b ->
    bufs s !! j = Some c -> bkey b = bkey c -> b_dev b <> 0 -> i = j;
  c_locked k i : H !! k = Some i ->
    (i < NBUF)%nat /\ exists b, bufs s !! i = Some b /\ bkey b = k;
  c_dirty k : k ∈ D ->
    exists i b, (i < NBUF)%nat /\ bufs s !! i = Some b /\ bkey b = k /\ b_dev b <> 0;
  c_disk k : k ∈ D \/ is_Some (H !! k) \/ on_block (disk s) k = V k;
  c_blocks k : block_ok (V k)
}.

(** Buffer [i] becomes [b']; everything that is said about other blocks stays. *)
Lemma cache_put H V D H' V' D' s s' i b b' :
  cache H V D s -> (i < NBUF)%nat -> bufs s !! i = Some b ->
  bufs s' = <[i := b']> (bufs s) -> b_prev b' = b_prev b -> b_next b' = b_next b ->
  held s' = [] -> cur s' = cur s -> mypid s' = mypid s ->
  (forall k, k <> bkey b' -> H' !! k = H !! k /\ V' k = V k /\ (k ∈ D' <-> k ∈ D) /\
    on_block (disk s') k = on_block (disk s) k) ->
  b_dev b' <> 0 -> buf_ok H' V' D' (mypid s) i b' ->
  (bkey b = bkey b' \/
    (forall j c, (j < NBUF)%nat -> bufs s !! j = Some c -> bkey c <> bkey b')
    /\ H !! bkey b <> Some i /\ bkey b ∉ D) ->
  (forall j, H' !! bkey b' = Some j -> j = i) ->
  (bkey b' ∈ D' \/ is_Some (H' !! bkey b') \/ on_block (disk s') (bkey b') = V' (bkey b')) ->
  block_ok (V' (bkey b')) ->
  cache H' V' D' s'.
Proof.
  intros Hc Hi Hb Hs' Hpv Hnx Hh Hcur Hpid Hag Hdev Hok Hold Hlk Hdk Hbl.
  destruct Hc as [C1 C2 C3 C4 C5 C6 C7 C8 C9].
  assert (length (bufs s) > i)%nat as Hlen by (by apply lookup_lt_Some in Hb).
  assert (forall j c, bufs s' !! j = Some c -> (j = i /\ c = b') \/ (j <> i /\ bufs s !! j = Some c)) as Hget.
  { intros j c. destruct (decide (j = i)) as [->|Hne].
    - rewrite Hs', list_lookup_insert_eq by done. intros [= <-]. auto.
    - rewrite Hs', list_lookup_insert_ne by done. auto. }
  assert (forall j c, (j < NBUF)%nat -> j <> i -> bufs s !! j = Some c -> bkey c <> bkey b') as Hfresh.
  { intros j c Hj Hne Hjc Hk. destruct Hold as [Ho|(Ho & _)]; [|by eapply Ho].
    apply Hne. symmetry. eapply (C5 i j); [done..|congruence|].
    unfold bkey in Ho. congruence. }
  split; [done|by rewrite Hcur| | | | | | |].
  - destruct C3 as [l Hr]. exists l. eapply ring_frame; [| |exact Hr].
    + by rewrite Hs', length_insert.
    + intros j. unfold nx, pv. destruct (decide (j = i)) as [->|Hne].
      * by rewrite Hs', list_lookup_insert_eq, Hb.
      * by rewrite Hs', list_lookup_insert_ne.
  - intros j c Hj Hjc. rewrite Hpid. destruct (Hget _ _ Hjc) as [[-> ->]|[Hne Hjc']]; [done|].
    specialize (C4 j c Hj Hjc'). destruct (Hag _ (Hfresh j c Hj Hne Hjc')) as (A1 & A2 & A3 & _).
    unfold buf_ok in *. rewrite A1, A2, (decide_ext _ _ _ _ A3). done.
  - intros j j' c c' Hj Hj' Hjc Hjc' Hk Hd.
    destruct (Hget _ _ Hjc) as [[-> ->]|[Hne Hjc2]], (Hget _ _ Hjc') as [[-> ->]|[Hne' Hjc2']].
    + done.
    + by destruct (Hfresh j' c' Hj' Hne' Hjc2').
    + by destruct (Hfresh j c Hj Hne Hjc2).
    + by eapply C5.
  - intros k j Hk. rewrite Hs'. destruct (decide (k = bkey b')) as [->|Hne].
    + rewrite (Hlk _ Hk), list_lookup_insert_eq by done. eauto.
    + destruct (Hag _ Hne) as (A1 & _). rewrite A1 in Hk. destruct (C6 _ _ Hk) as (Hj & c & Hjc & Hkc).
      split; [done|]. exists c. split; [|done]. rewrite list_lookup_insert_ne; [done|].
      intros ->. simplify_eq. destruct Hold as [Ho|(_ & Ho & _)]; congruence.
  - intros k Hk. rewrite Hs'. destruct (decide (k = bkey b')) as [->|Hne].
    + exists i, b'. by rewrite list_lookup_insert_eq.
    + destruct (Hag _ Hne) as (_ & _ & A3 & _). destruct (C7 k) as (j & c & Hj & Hjc & Hkc & Hd); [tauto|].
      exists j, c. split_and!; [done| |done|done]. rewrite list_lookup_insert_ne; [done|].
      intros ->. simplify_eq. destruct Hold as [Ho|(_ & _ & Ho)]; [congruence|tauto].
  - intros k. destruct (decide (k = bkey b')) as [->|Hne]; [done|].
    destruct (Hag _ Hne) as (-> & -> & -> & ->). apply C8.
  - intros k. destruct (decide (k = bkey b')) as [->|Hne]; [done|].
    destruct (Hag _ Hne) as (_ & -> & _). apply C9.
Qed.
End invariant.

(** ** The scans *)

Lemma find_forward bs l P :
  ring bs l -> find_fwd (S NBUF) bs (b_next (default null_buf (bs !! HEAD))) P
    = List.find (fun i => P (default null_buf (bs !! i))) l.
Proof.
  intros Hr. pose proof (ring_nodup _ _ Hr) as Hnd. apply NoDup_cons in Hnd as [Hh _].
  apply (find_fwd_chain bs P HEAD); [apply Hr|done|].
  rewrite (Permutation_length (ring_perm _ _ Hr)), length_seq. lia.
Qed.

Lemma find_backward bs l P :
  ring bs l -> find_bwd (S NBUF) bs (b_prev (default null_buf (bs !! HEAD))) P
    = List.find (fun i => P (default null_buf (bs !! i))) (rev l).
Proof.
  intros Hr. pose proof (ring_nodup _ _ Hr) as Hnd. apply NoDup_cons in Hnd as [Hh _].
  apply (find_bwd_chain bs P HEAD); [apply Hr|done|].
  rewrite (Permutation_length (ring_perm _ _ Hr)), length_seq. lia.
Qed.

Lemma find_buf bs l l' P i :
  ring bs l -> l' ≡ₚ l -> List.find (fun i => P (default null_buf (bs !! i))) l' = Some i ->
  (i < NBUF)%nat /\ exists b, bs !! i = Some b /\ P b = true.
Proof.
  intros Hr Hp Hf. apply List.find_some in Hf as [Hin HP].
  assert (i < NBUF)%nat as Hi.
  { apply (ring_elem _ _ _ Hr). rewrite <- Hp. by apply list_elem_of_In. }
  split; [done|]. destruct (lookup_lt_is_Some_2 bs i) as [b Hb]; [rewrite (ring_len _ _ Hr); lia|].
  exists b. by rewrite Hb in HP.
Qed.

Lemma find_no_buf bs l l' P j b :
  ring bs l -> l' ≡ₚ l -> List.find (fun i => P (default null_buf (bs !! i))) l' = None ->
  (j < NBUF)%nat -> bs !! j = Some b -> P b = false.
Proof.
  intros Hr Hp Hf Hj Hb. eapply List.find_none with (x := j) in Hf; [by rewrite Hb in Hf|].
  apply list_elem_of_In. rewrite Hp. by apply (ring_elem _ _ _ Hr).
Qed.

(** ** Counting: with fewer than NBUF blocks held or pinned, a buffer can be recycled *)

Lemma free_buffer H V D s :
  cache H V D s -> (size H + size D < NBUF)%nat ->
  exists j b, (j < NBUF)%nat /\ bufs s !! j = Some b /\ b_refcnt b = 0 /\ Z.land (b_flags b) B_DIRTY = 0.
Proof.
  intros Hc Hsz. destruct (c_ring _ _ _ _ Hc) as [l Hr].
  set (f := fun i => bkey (default null_buf (bufs s !! i))).
  assert (forall j, (j < NBUF)%nat -> exists b, bufs s !! j = Some b /\ f j = bkey b) as Hbuf.
  { intros j Hj. destruct (lookup_lt_is_Some_2 (bufs s) j) as [b Hb]; [rewrite (ring_len _ _ Hr); lia|].
    exists b. unfold f. by rewrite Hb. }
  destruct (decide (Forall (fun j => H !! f j = Some j \/ f j ∈ D) (seq 0 NBUF))) as [Hall|Hno].
  - exfalso. rewrite Forall_seq in Hall.
    assert (NoDup (f <$> seq 0 NBUF)) as Hnd.
    { apply NoDup_fmap_2_strong; [|apply NoDup_seq].
      intros i j Hi%elem_of_seq Hj%elem_of_seq Hij.
      destruct (Hbuf i) as (b & Hb & Hfi), (Hbuf j) as (c & Hcj & Hfj); [lia..|].
      eapply (c_uniq _ _ _ _ Hc i j b c); [lia|lia|done|done|congruence|].
      pose proof (c_buf _ _ _ _ Hc i b ltac:(lia) Hb) as [Hok _]. rewrite Hfi in *.
      destruct (Hall i ltac:(lia)) as [Hh|Hd]; rewrite Hfi in *.
      - rewrite decide_True in Hok by done. tauto.
      - destruct (c_dirty _ _ _ _ Hc _ Hd) as (i' & b' & _ & _ & Hk & Hdev).
        unfold bkey in Hk. congruence. }
    assert (size (list_to_set (f <$> seq 0 NBUF) : gset (Z * Z)) <= size (dom H ∪ D))%nat as Hle.
    { apply subseteq_size. intros k. rewrite elem_of_list_to_set, list_elem_of_fmap.
      intros (j & -> & Hj%elem_of_seq). apply elem_of_union.
      destruct (Hall j ltac:(lia)) as [Hh|Hd]; [left|by right]. by apply elem_of_dom. }
    rewrite size_list_to_set in Hle by done. rewrite length_fmap, length_seq in Hle.
    pose proof (size_union_alt (dom H) D) as Hu. rewrite Hu, size_dom in Hle.
    pose proof (subseteq_size (D ∖ dom H) D ltac:(set_solver)). lia.
  - apply not_Forall_Exists, Exists_exists in Hno; [|intros j; apply _].
    destruct Hno as (j & Hj%elem_of_seq & Hn). destruct (Hbuf j) as (b & Hb & Hfj); [lia|].
    simpl in Hn. rewrite Hfj in Hn. exists j, b. split_and!; [lia|done|..];
      pose proof (c_buf _ _ _ _ Hc j b ltac:(lia) Hb) as [H1 H2].
    + rewrite decide_False in H1 by tauto. tauto.
    + case_decide; [by rewrite H2|]. rewrite decide_False in H2 by tauto. by destruct H2 as [-> _].
Qed.

(** ** bread *)

Section specs.
Context `{DD : DiskDriver}.
Implicit Types (H : gmap (Z * Z) nat) (V : Z * Z -> list Z) (D : gset (Z * Z)).

Definition of_block (d bn : Z) (b : buf) : bool := (b_dev b =? d) && (b_blockno b =? bn).
Definition recyclable (b : buf) : bool := (b_refcnt b =? 0) && (Z.land (b_flags b) B_DIRTY =? 0).

Lemma bkey_test b d bn : of_block d bn b = true <-> bkey b = (d, bn).
Proof. unfold of_block, bkey. rewrite andb_true_iff, !Z.eqb_eq. intuition congruence. Qed.

(** What [bget] does, on the two branches. *)
Lemma bget_take f i s :
  held s = [] -> is_Some (cur s) -> sl_locked (b_lock (f (buf_at s i))) = false ->
  is_Some (bufs s !! i) ->
  (upd_buf i f ;;; release L_bcache ;;; acquiresleep (SL_buf i) ;;; ret i)
    (set_held [L_bcache] s)
  = Ret i (set_bufs (<[i := set_b_lock (mkSleeplock true (mypid s)) (f (buf_at s i))]> (bufs s)) s).
Proof.
  intros Hh [p Hp] Hl [b Hb]. unfold upd_buf, modify. unfold bind at 1. simpl.
  unfold bind at 1. rewrite (release_top _ []) by (done || set_solver).
  unfold bind. unfold buf_at in *. rewrite Hb in *. simpl in *.
  rewrite (acquiresleep_eq _ _ p); [|set_solver|done|].
  - unfold ret. f_equal. unfold mypid. rewrite Hp. destruct s; simpl in *. subst.
    unfold set_bufs, proc_at. simpl. f_equal.
    rewrite (alter_as_insert f i _ b) by done.
    rewrite (alter_as_insert _ _ _ (f b)); [by rewrite list_insert_insert_eq|].
    apply list_lookup_insert_eq. by apply lookup_lt_Some in Hb.
  - simpl. unfold buf_at. simpl. by rewrite list_lookup_alter_eq, Hb.
Qed.

Lemma bread_hit H V D s d bn i b :
  cache H V D s -> d <> 0 -> H !! (d, bn) = None ->
  (i < NBUF)%nat -> bufs s !! i = Some b -> bkey b = (d, bn) ->
  let s' := set_bufs (<[i := set_b_lock (mkSleeplock true (mypid s)) (set_b_refcnt 1 b)]> (bufs s)) s in
  cache (<[(d, bn) := i]> H) V D s' /\ Z.land (b_flags b) B_VALID <> 0.
Proof.
  intros Hc Hd HH Hi Hb Hk. simpl. pose proof (c_buf _ _ _ _ Hc i b Hi Hb) as [_ H2].
  assert (b_dev b = d) as Hdev by (unfold bkey in Hk; congruence).
  rewrite decide_False in H2 by congruence. destruct H2 as [H2 H3]. split.
  - set (b' := set_b_lock _ _). assert (bkey b' = (d, bn)) as Hk' by exact Hk.
    eapply (cache_put H V D); [done|done|exact Hb|reflexivity|done|done|apply Hc|done|done|..];
      rewrite ?Hk'.
    + intros k Hne. by rewrite lookup_insert_ne by done.
    + simpl. congruence.
    + unfold buf_ok. rewrite Hk', lookup_insert_eq, decide_True by done. simpl.
      rewrite decide_False, <- Hk by congruence. split_and!; [done|done|congruence|done|done].
    + by left.
    + intros j. rewrite lookup_insert_eq. congruence.
    + right. left. by rewrite lookup_insert_eq.
    + apply Hc.
  - rewrite H2. by case_decide.
Qed.

Lemma bread_miss H V D s d bn i b ps :
  cache H V D s -> d <> 0 -> H !! (d, bn) = None -> procs_le (procs s) ps ->
  (forall j c, (j < NBUF)%nat -> bufs s !! j = Some c -> bkey c <> (d, bn)) ->
  (i < NBUF)%nat -> bufs s !! i = Some b -> b_refcnt b = 0 -> Z.land (b_flags b) B_DIRTY = 0 ->
  cache (<[(d, bn) := i]> H) V D (set_procs ps (set_bufs (<[i :=
    set_b_flags B_VALID (set_b_data (disk_get (disk s) d bn)
      (set_b_lock (mkSleeplock true (mypid s))
        (set_b_refcnt 1 (set_b_flags 0 (set_b_blockno bn (set_b_dev d b))))))]> (bufs s)) s)).
Proof.
  intros Hc Hd HH Hps Hno Hi Hb Hr Hf.
  assert ((d, bn) ∉ D) as HD.
  { intros HD. destruct (c_dirty _ _ _ _ Hc _ HD) as (j & c & Hj & Hjc & Hk & _). by eapply Hno. }
  assert (disk_get (disk s) d bn = V (d, bn)) as Hdisk.
  { destruct (c_disk _ _ _ _ Hc (d, bn)) as [?|[[? ?]|?]]; [done|congruence|done]. }
  pose proof (c_buf _ _ _ _ Hc i b Hi Hb) as [H1 H2].
  set (b' := set_b_flags B_VALID _). assert (bkey b' = (d, bn)) as Hk' by done.
  eapply (cache_put H V D); [done|done|exact Hb|reflexivity|done|done|apply Hc|done|..];
    rewrite ?Hk'.
  - unfold mypid. simpl. destruct (cur s); [|done]. by rewrite (procs_le_pid s).
  - intros k Hne. by rewrite lookup_insert_ne by done.
  - done.
  - unfold buf_ok. rewrite Hk', lookup_insert_eq, decide_True by done. simpl.
    rewrite decide_False, decide_False by done. done.
  - right. split; [done|]. split.
    + intros E. rewrite decide_True in H1 by done. lia.
    + intros HDb. rewrite decide_False, decide_True in H2; [by destruct H2 as [E _]; rewrite E in Hf|done|].
      destruct (c_dirty _ _ _ _ Hc _ HDb) as (j & c & _ & _ & Hk & Hdev). unfold bkey in Hk. congruence.
  - intros j. rewrite lookup_insert_eq. congruence.
  - right. left. by rewrite lookup_insert_eq.
  - apply Hc.
Qed.

Lemma bread_spec H V D s d bn :
  cache H V D s -> d <> 0 -> on_disk d bn -> H !! (d, bn) = None ->
  ((d, bn) ∈ D \/ size H + size D < NBUF)%nat ->
  wp (bread d bn) (fun i s' => cache (<[(d, bn) := i]> H) V D s' /\ bstep [] s s') s.
Proof.
  intros Hc Hd Hon HH Hsz. destruct (c_ring _ _ _ _ Hc) as [l Hr].
  unfold bread. apply wp_bind. unfold bget. eapply wp_step.
  { apply acquire_eq. rewrite (c_held _ _ _ _ Hc). set_solver. }
  rewrite (c_held _ _ _ _ Hc). eapply wp_step; [reflexivity|].
  change (bufs (set_held _ s)) with (bufs s). rewrite (find_forward _ l (of_block d bn)) by done.
  destruct (List.find _ l) as [i|] eqn:Hfind.
  - destruct (find_buf _ _ _ (of_block d bn) _ Hr (Permutation_refl _) Hfind) as (Hi & b & Hb & Hk%bkey_test).
    destruct (bread_hit H V D s d bn i b) as [Hc' Hv]; [done..|].
    pose proof (c_buf _ _ _ _ Hc i b Hi Hb) as [H1 _]. rewrite Hk, HH, decide_False in H1 by done.
    eapply wp_intro.
    { apply bget_take; [apply Hc|apply Hc| |by eexists]. unfold buf_at. rewrite Hb. apply H1. }
    unfold buf_at. rewrite Hb. simpl. destruct H1 as [-> _]. change (u32 (0 + 1)) with 1.
    eapply wp_step; [reflexivity|]. unfold buf_at. simpl.
    rewrite list_lookup_insert_eq by (by apply lookup_lt_Some in Hb). simpl.
    apply Z.eqb_neq in Hv as ->. split; [done|]. apply bstep_bufs.
  - rewrite (find_backward _ l recyclable) by done.
    assert (forall j c, (j < NBUF)%nat -> bufs s !! j = Some c -> bkey c <> (d, bn)) as Hno.
    { intros j c Hj Hjc Hk%bkey_test.
      by rewrite (find_no_buf _ _ _ (of_block d bn) _ _ Hr (Permutation_refl _) Hfind Hj Hjc) in Hk. }
    destruct (List.find _ (rev l)) as [i|] eqn:Hfree.
    + destruct (find_buf _ _ _ recyclable _ Hr (symmetry (Permutation_rev l)) Hfree) as (Hi & b & Hb & Hfb).
      apply andb_true_iff in Hfb as [Hrc%Z.eqb_eq Hfl%Z.eqb_eq].
      pose proof (c_buf _ _ _ _ Hc i b Hi Hb) as [H1 _].
      assert (sl_locked (b_lock b) = false) as Hul by (case_decide; destruct_and!; [lia|done]).
      eapply wp_intro.
      { apply bget_take; [apply Hc|apply Hc| |by eexists]. unfold buf_at. by rewrite Hb. }
      unfold buf_at. rewrite Hb. eapply wp_step; [reflexivity|]. unfold buf_at. simpl.
      rewrite list_lookup_insert_eq by (by apply lookup_lt_Some in Hb). simpl.
      destruct (c_cur _ _ _ _ Hc) as [p Hp].
      set (b1 := set_b_lock _ _). set (s1 := set_bufs _ s).
      destruct (iderw_spec s1 i b1 p) as (ps & Hps & Heq); [|apply Hc|done| |by left|done|].
      * apply list_lookup_insert_eq. by apply lookup_lt_Some in Hb.
      * unfold b1, mypid. by rewrite Hp.
      * eapply wp_step; [exact Heq|]. simpl. rewrite list_insert_insert_eq. split.
        { by apply (bread_miss H V D s d bn i b ps). }
        exact (bstep_intro s ps _ Hps).
    + exfalso. destruct Hsz as [HD|Hsz].
      { destruct (c_dirty _ _ _ _ Hc _ HD) as (j & c & Hj & Hjc & Hk & _). by eapply Hno. }
      destruct (free_buffer _ _ _ _ Hc Hsz) as (j & b & Hj & Hb & Hr0 & Hf0).
      pose proof (find_no_buf _ _ _ recyclable _ _ Hr (symmetry (Permutation_rev l)) Hfree Hj Hb) as Hn.
      unfold recyclable in Hn. by rewrite Hr0, Hf0 in Hn.
Qed.

(** ** Buffers that are held *)

Lemma cache_held H V D s k i :
  cache H V D s -> H !! k = Some i ->
  exists b, bufs s !! i = Some b /\ (i < NBUF)%nat /\ bkey b = k /\ b_refcnt b = 1
    /\ b_lock b = mkSleeplock true (mypid s) /\ b_dev b <> 0
    /\ b_flags b = (if decide (k ∈ D) then 6 else 2) /\ b_data b = V k.
Proof.
  intros Hc Hk. destruct (c_locked _ _ _ _ Hc k i Hk) as (Hi & b & Hb & Hbk).
  pose proof (c_buf _ _ _ _ Hc i b Hi Hb) as [H1 H2]. rewrite Hbk, decide_True in H1 by done.
  rewrite decide_False in H2 by tauto. rewrite Hbk in H2. exists b. tauto.
Qed.

Lemma cache_data H V D s k i :
  cache H V D s -> H !! k = Some i -> b_data (buf_at s i) = V k.
Proof.
  intros Hc Hk. destruct (cache_held _ _ _ _ _ _ Hc Hk) as (b & Hb & _ & _ & _ & _ & _ & _ & Hd).
  unfold buf_at. by rewrite Hb.
Qed.

(** A held buffer is replaced by [b'], same block and still held; the block's
    contents, whether it is pinned and its copy on the disk may change. *)
Lemma cache_rewrite H V D V' D' s s' k i b b' :
  cache H V D s -> H !! k = Some i -> bufs s !! i = Some b ->
  bufs s' = <[i := b']> (bufs s) ->
  b' = set_b_flags (if decide (k ∈ D') then 6 else 2) (set_b_data (V' k) b) ->
  held s' = [] -> cur s' = cur s -> mypid s' = mypid s ->
  (forall k', k' <> k -> V' k' = V k' /\ (k' ∈ D' <-> k' ∈ D) /\
    on_block (disk s') k' = on_block (disk s) k') ->
  block_ok (V' k) -> cache H V' D' s'.
Proof.
  intros Hc Hk Hb Hs' Hb' Hh Hcur Hpid Hag Hbl.
  destruct (cache_held _ _ _ _ _ _ Hc Hk) as (b0 & Hb0 & Hi & Hbk & Hr & Hl & Hd & _).
  rewrite Hb in Hb0. injection Hb0 as <-. subst k. assert (bkey b' = bkey b) as Hk' by (by subst b').
  eapply (cache_put H V D); [done|done|exact Hb|exact Hs'|by subst b'|by subst b'|done|done|done|..];
    rewrite ?Hk'.
  - intros k' Hne. split; [done|]. by apply Hag.
  - by subst b'.
  - unfold buf_ok. rewrite Hk', Hk, decide_True by done. subst b'. simpl.
    by rewrite (decide_False (P := b_dev b = 0)).
  - by left.
  - intros j Hj. congruence.
  - right. left. by eexists.
  - done.
Qed.

Lemma cache_write H V D s k i f dat :
  cache H V D s -> H !! k = Some i -> block_ok dat ->
  f (buf_at s i) = set_b_data dat (buf_at s i) ->
  cache H (<[k := dat]> V) D (set_bufs (alter f i (bufs s)) s).
Proof.
  intros Hc Hk Hok Hf. destruct (cache_held _ _ _ _ _ _ Hc Hk) as (b & Hb & _ & _ & _ & _ & _ & Hfl & _).
  unfold buf_at in Hf. rewrite Hb in Hf. simpl in Hf.
  eapply cache_rewrite; [exact Hc|exact Hk|exact Hb|by apply alter_as_insert| |apply Hc|done|done|..].
  - rewrite Hf, fn_lookup_insert, <- Hfl. by destruct b.
  - intros k' Hne. by rewrite fn_lookup_insert_ne.
  - by rewrite fn_lookup_insert.
Qed.

(** [log_write]'s pin. *)
Lemma cache_pin H V D s k i :
  cache H V D s -> H !! k = Some i ->
  cache H V ({[k]} ∪ D)
    (set_bufs (alter (fun b => set_b_flags (Z.lor (b_flags b) B_DIRTY) b) i (bufs s)) s).
Proof.
  intros Hc Hk. destruct (cache_held _ _ _ _ _ _ Hc Hk) as (b & Hb & _ & _ & _ & _ & _ & Hfl & Hd).
  eapply cache_rewrite; [exact Hc|exact Hk|exact Hb|by apply alter_as_insert| |apply Hc|done|done|..].
  - rewrite (decide_True (P := k ∈ _)) by set_solver. rewrite <- Hd, Hfl.
    destruct b; simpl. by case_decide.
  - intros k' Hne. split_and!; [done|set_solver|done].
  - apply Hc.
Qed.

Lemma holding_held H V D s k i :
  cache H V D s -> H !! k = Some i -> holdingsleep (SL_buf i) s = Ret true s.
Proof.
  intros Hc Hk. destruct (cache_held _ _ _ _ _ _ Hc Hk) as (b & Hb & _ & _ & _ & Hl & _).
  destruct (c_cur _ _ _ _ Hc) as [p Hp].
  rewrite (holdingsleep_eq _ _ p); [|rewrite (c_held _ _ _ _ Hc); set_solver|done].
  unfold sleeplock_at, buf_at, mypid in *. rewrite Hb, Hp in *. simpl. rewrite Hl. simpl.
  by rewrite bool_decide_true.
Qed.

Lemma bwrite_spec H V D s k i :
  cache H V D s -> H !! k = Some i -> on_disk k.1 k.2 ->
  wp (bwrite i) (fun _ s' => cache H V (D ∖ {[k]}) s' /\ bstep [(k, V k)] s s') s.
Proof.
  intros Hc Hk Hon. unfold bwrite.
  eapply wp_step; [by eapply holding_held|]. simpl. eapply wp_step; [reflexivity|].
  pose proof (cache_pin _ _ _ _ _ _ Hc Hk) as Hc1.
  set (s1 := set_bufs _ s) in *.
  destruct (cache_held _ _ _ _ _ _ Hc1 Hk) as (b & Hb & Hi & Hbk & Hr & Hl & Hdev & Hfl & Hd).
  rewrite decide_True in Hfl by set_solver. destruct (c_cur _ _ _ _ Hc1) as [p Hp].
  destruct (iderw_spec s1 i b p) as (ps & Hps & Heq); [done|apply Hc1|done| |tauto|by subst k|].
  { unfold mypid in Hl. by rewrite Hp in Hl. }
  eapply wp_intro; [exact Heq|]. unfold synced, transfer, is_dirty. rewrite Hfl. simpl.
  change (b_dev b, b_blockno b) with (bkey b). rewrite Hbk, Hd. split.
  - eapply cache_rewrite; [exact Hc1|exact Hk|exact Hb|done| |apply Hc1|done|..].
    + rewrite decide_False, <- Hd by set_solver. by destruct b.
    + unfold mypid. simpl. destruct (cur s); [|done]. by rewrite (procs_le_pid s1).
    + intros k' Hne. split_and!; [done|set_solver|]. simpl.
      by rewrite on_block_insert, decide_False.
    + apply Hc.
  - exists ps. eexists. split; [exact Hps|]. done.
Qed.

Lemma cache_relink H V D s bs l :
  cache H V D s -> links (bufs s) bs -> ring bs l -> cache H V D (set_bufs bs s).
Proof.
  intros [C1 C2 C3 C4 C5 C6 C7 C8 C9] Hl Hr.
  assert (forall i b', bs !! i = Some b' -> exists b, bufs s !! i = Some b /\ relinked b b') as Hbw.
  { intros i b' Hb. destruct (Forall2_lookup_r _ _ _ _ _ Hl Hb) as (b & ? & ?). eauto. }
  assert (forall i b, bufs s !! i = Some b -> exists b', bs !! i = Some b' /\ relinked b b') as Hfw.
  { intros i b Hb. destruct (Forall2_lookup_l _ _ _ _ _ Hl Hb) as (b' & ? & ?). eauto. }
  assert (forall b b', relinked b b' -> bkey b' = bkey b /\ b_dev b' = b_dev b) as Hkey
    by (by intros b b' ->).
  split; [done|done|by exists l| | | | |done|done]; simpl.
  - intros i b' Hi Hb'. destruct (Hbw _ _ Hb') as (b & Hb & Hre). rewrite Hre. exact (C4 i b Hi Hb).
  - intros i j b c Hi Hj Hb Hc. destruct (Hbw _ _ Hb) as (b0 & Hb0 & [-> ->]%Hkey).
    destruct (Hbw _ _ Hc) as (c0 & Hc0 & [-> _]%Hkey). by apply C5.
  - intros k i Hk. destruct (C6 k i Hk) as (Hi & b & Hb & <-). split; [done|].
    destruct (Hfw _ _ Hb) as (b' & Hb' & [<- _]%Hkey). eauto.
  - intros k Hk. destruct (C7 k Hk) as (i & b & Hi & Hb & <- & Hd).
    destruct (Hfw _ _ Hb) as (b' & Hb' & [E1 E2]%Hkey). exists i, b'. by rewrite E2.
Qed.

Lemma brelse_spec H V D s k i :
  cache H V D s -> H !! k = Some i -> (k ∈ D \/ on_block (disk s) k = V k) ->
  wp (brelse i) (fun _ s' => cache (delete k H) V D s' /\ bstep [] s s') s.
Proof.
  intros Hc Hk Hclean. unfold brelse. pose proof (c_held _ _ _ _ Hc) as Hh.
  destruct (cache_held _ _ _ _ _ _ Hc Hk) as (b & Hb & Hi & Hbk & Hr & Hl & Hdev & Hfl & Hd).
  eapply wp_step; [by eapply holding_held|]. simpl.
  eapply wp_step; [apply releasesleep_eq; rewrite Hh; set_solver|].
  eapply wp_step; [apply acquire_eq; simpl; rewrite Hh; set_solver|]. simpl. rewrite Hh.
  eapply wp_step; [reflexivity|]. eapply wp_step; [reflexivity|]. simpl.
  rewrite (alter_as_insert (set_b_lock _) _ _ b) by done.
  rewrite (alter_as_insert _ _ _ (set_b_lock (mkSleeplock false 0) b))
    by (apply list_lookup_insert_eq; by apply lookup_lt_Some in Hb).
  rewrite list_insert_insert_eq. simpl. rewrite Hr. change (u32 (1 - 1)) with 0.
  set (b' := set_b_refcnt 0 _). unfold buf_at. simpl.
  rewrite list_lookup_insert_eq by (by apply lookup_lt_Some in Hb). simpl.
  eapply wp_step; [reflexivity|]. simpl.
  eapply wp_intro; [apply (release_top _ []); [done|set_solver]|].
  set (ps := wake _ <$> procs s).
  assert (procs_le (procs s) ps) as Hps by apply procs_le_wake.
  assert (cache (delete k H) V D (set_procs ps (set_bufs (<[i := b']> (bufs s)) s))) as Hc'.
  { assert (bkey b' = k) as Hk' by done.
    eapply (cache_put H V D); [done|done|exact Hb|reflexivity|done|done|done|done|..]; rewrite ?Hk'.
    - unfold mypid. simpl. destruct (cur s); [|done]. by rewrite (procs_le_pid s).
    - intros k' Hne. by rewrite lookup_delete_ne by done.
    - done.
    - unfold buf_ok. rewrite Hk', lookup_delete_eq, decide_False by done.
      rewrite decide_False by done. split; [done|]. done.
    - left. by rewrite Hbk.
    - intros j. by rewrite lookup_delete_eq.
    - destruct Hclean; auto.
    - apply Hc. }
  destruct (c_ring _ _ _ _ Hc') as [l Hr'].
  assert (i ∈ l) as Hil by (by apply (ring_elem _ _ _ Hr')).
  apply list_elem_of_split in Hil as (l1 & l2 & ->). apply ring_move_front in Hr'.
  rewrite <- Hh. split.
  - refine (cache_relink _ _ _ _ _ _ Hc' _ Hr'). etrans; [apply links_unlink|apply links_push_front].
  - exact (bstep_intro s ps (push_front i (unlink i (<[i := b']> (bufs s)))) Hps).
Qed.
End specs.

(** ** binit *)

(** The buffers of a kernel that has just been loaded. *)
Definition boot_bufs : list buf := replicate (S NBUF) (mkBuf 0 0 0 (mkSleeplock false 0) 0 0 0 zero_block).

Definition binit_bufs : list buf :=
  imap (fun i _ => mkBuf 0 0 0 (mkSleeplock false 0) 0
    (if decide (i = HEAD) then O else S i) (match i with O => HEAD | S j => j end) zero_block)
    boot_bufs.

Lemma binit_eq s : bufs s = boot_bufs -> binit s = Ret tt (set_bufs binit_bufs s).
Proof. intros Hb. destruct s. simpl in Hb. subst. vm_compute. reflexivity. Qed.

Lemma binit_ring : ring binit_bufs (rev (seq 0 NBUF)).
Proof.
  split; [reflexivity| |symmetry; apply Permutation_rev].
  vm_compute. repeat (split; [reflexivity|]). reflexivity.
Qed.

(** The cache after [binit]: nothing held, nothing pinned, every block as on disk. *)
Lemma binit_spec s :
  bufs s = boot_bufs -> held s = [] -> is_Some (cur s) ->
  (forall k, block_ok (on_block (disk s) k)) ->
  wp binit (fun _ s' => cache ∅ (on_block (disk s)) ∅ s' /\ bstep [] s s') s.
Proof.
  intros Hb Hh Hcur Hok. eapply wp_intro; [by apply binit_eq|]. split; [|apply bstep_bufs].
  assert (forall i b, binit_bufs !! i = Some b -> b_dev b = 0 /\ b_flags b = 0 /\ b_refcnt b = 0
    /\ sl_locked (b_lock b) = false) as Hz.
  { intros i b. unfold binit_bufs. rewrite list_lookup_imap. destruct (boot_bufs !! i); [|done].
    by intros [= <-]. }
  split; [done|done|eexists; apply binit_ring| | | | |auto|done]; simpl.
  - intros i b _ Hi. destruct (Hz i b Hi) as (H1 & H2 & H3 & H4). unfold buf_ok.
    by rewrite decide_False, decide_True by done.
  - intros i j b c _ _ Hi _ _ Hd. by destruct (Hz i b Hi).
  - intros k i. by rewrite lookup_empty.
  - intros k. set_solver.
Qed.

Lemma cache_ext H V V' D s : (forall k, V k = V' k) -> cache H V D s -> cache H V' D s.
Proof.
  intros Hv [C1 C2 C3 C4 C5 C6 C7 C8 C9]. split; try done.
  - intros i b Hi Hb. specialize (C4 i b Hi Hb). unfold buf_ok in *. by rewrite <- Hv.
  - intros k. by rewrite <- Hv.
  - intros k. by rewrite <- Hv.
Qed.
