(* ===== verification/Log.v ===== *)
(** * Log: the write-ahead log (log.c) *)

From stdpp Require Import base gmap list strings.
From Stdlib Require Import ZArith Lia.
From S2P Require Import Prelude State Core Bio.

Local Open Scope Z_scope.
Local Open Scope kernel_scope.

Definition upd_log (f : logstate -> logstate) : KM unit := modify (fun s => set_log (f (log s)) s).

(** [log.lh.block[i] = v] *)
Definition put_block (i : nat) (v : Z) : KM unit :=
  _ <- (lg <- get log ;; in_bounds (lh_block lg !! i)) ;;
  upd_log (fun lg => set_lh_block (<[i := v]> (lh_block lg)) lg).

(** [struct superblock] and [struct logheader] in a block *)
Definition decode_sb (d : list Z) : superblock :=
  mkSb (rd 4 0 d) (rd 4 4 d) (rd 4 8 d) (rd 4 12 d) (rd 4 16 d) (rd 4 20 d) (rd 4 24 d).
Definition head_n (d : list Z) : Z := i32 (rd 4 0 d).
Definition head_block (d : list Z) (i : nat) : Z := i32 (rd 4 (4 + 4 * i) d).

Section log.
Context `{DiskDriver}.

(** fs.c *)
Definition readsb (dev : Z) : KM superblock :=
  bp <- bread dev 1 ;;
  d <- get (fun s => b_data (buf_at s bp)) ;;
  brelse bp ;;;
  ret (decode_sb d).

(** The body of the loop of [install_trans]. *)
Definition install_one (tail : nat) : KM unit :=
  lg <- get log ;;
  lbuf <- bread (u32 (l_dev lg)) (u32 (l_start lg + Z.of_nat tail + 1)) ;;
  bn <- in_bounds (lh_block lg !! tail) ;;
  dbuf <- bread (u32 (l_dev lg)) (u32 bn) ;;
  modify (fun s => set_bufs (alter (set_b_data (b_data (buf_at s lbuf))) dbuf (bufs s)) s) ;;;
  bwrite dbuf ;;;
  brelse lbuf ;;;
  brelse dbuf.

Definition install_trans : KM unit :=
  n <- get (fun s => lh_n (log s)) ;;
  for_each (seq 0 (Z.to_nat n)) install_one.

Definition read_head : KM unit :=
  lg <- get log ;;
  b <- bread (u32 (l_dev lg)) (u32 (l_start lg)) ;;
  d <- get (fun s => b_data (buf_at s b)) ;;
  upd_log (set_lh_n (head_n d)) ;;;
  for_each (seq 0 (Z.to_nat (head_n d))) (fun i => put_block i (head_block d i)) ;;;
  brelse b.

Definition write_head : KM unit :=
  lg <- get log ;;
  b <- bread (u32 (l_dev lg)) (u32 (l_start lg)) ;;
  upd_buf b (fun b => set_b_data (wr 4 0 (u32 (lh_n lg)) (b_data b)) b) ;;;
  for_each (seq 0 (Z.to_nat (lh_n lg))) (fun i =>
    bn <- in_bounds (lh_block lg !! i) ;;
    upd_buf b (fun b => set_b_data (wr 4 (4 + 4 * i) (u32 bn) (b_data b)) b)) ;;;
  bwrite b ;;;
  brelse b.

Definition recover_from_log : KM unit :=
  read_head ;;;
  install_trans ;;;
  upd_log (set_lh_n 0) ;;;
  write_head.

(** [sizeof(struct logheader)] *)
Definition initlog (dev : Z) : KM unit :=
  if BSIZE <=? 4 + 4 * LOGSIZE then panic "initlog: too big logheader" else
  sb <- readsb dev ;;
  upd_log (set_l_start (i32 (sb_logstart sb))) ;;;
  upd_log (set_l_size (i32 (sb_nlog sb))) ;;;
  upd_log (set_l_dev dev) ;;;
  recover_from_log.

(** The loop of [begin_op]: entered with the log's lock, and again after
    [sleep_return L_log]. *)
Definition begin_op_loop : KM unit :=
  lg <- get log ;;
  if l_committing lg then sleep Ch_log (Some L_log)
  else if LOGSIZE <? lh_n lg + (l_outstanding lg + 1) * MAXOPBLOCKS then sleep Ch_log (Some L_log)
  else
    upd_log (set_l_outstanding (l_outstanding lg + 1)) ;;;
    release L_log.

Definition begin_op : KM unit := acquire L_log ;;; begin_op_loop.

(** The body of the loop of [write_log]. *)
Definition write_log_one (tail : nat) : KM unit :=
  lg <- get log ;;
  to <- bread (u32 (l_dev lg)) (u32 (l_start lg + Z.of_nat tail + 1)) ;;
  bn <- in_bounds (lh_block lg !! tail) ;;
  from <- bread (u32 (l_dev lg)) (u32 bn) ;;
  modify (fun s => set_bufs (alter (set_b_data (b_data (buf_at s from))) to (bufs s)) s) ;;;
  bwrite to ;;;
  brelse from ;;;
  brelse to.

Definition write_log : KM unit :=
  n <- get (fun s => lh_n (log s)) ;;
  for_each (seq 0 (Z.to_nat n)) write_log_one.

Definition commit : KM unit :=
  n <- get (fun s => lh_n (log s)) ;;
  if 0 <? n then
    write_log ;;;
    write_head ;;;
    install_trans ;;;
    upd_log (set_lh_n 0) ;;;
    write_head
  else ret tt.

Definition end_op : KM unit :=
  acquire L_log ;;;
  upd_log (fun lg => set_l_outstanding (l_outstanding lg - 1) lg) ;;;
  lg <- get log ;;
  if l_committing lg then panic "log.committing" else
  let do_commit := l_outstanding lg =? 0 in
  (if do_commit then upd_log (set_l_committing true) else wakeup Ch_log) ;;;
  release L_log ;;;
  if do_commit then
    commit ;;;
    acquire L_log ;;;
    upd_log (set_l_committing false) ;;;
    wakeup Ch_log ;;;
    release L_log
  else ret tt.

(** [for(i = 0; i < n; i++) if(block[i] == blockno) break;] *)
Definition absorb (lg : logstate) (blockno : Z) : nat :=
  match list_find (fun b => u32 b = blockno) (take (Z.to_nat (lh_n lg)) (lh_block lg)) with
  | Some (i, _) => i
  | None => Z.to_nat (lh_n lg)
  end.

Definition log_write (b : nat) : KM unit :=
  lg <- get log ;;
  if (LOGSIZE <=? lh_n lg) || (l_size lg - 1 <=? lh_n lg) then panic "too big a transaction" else
  if l_outstanding lg <? 1 then panic "log_write outside of trans" else
  acquire L_log ;;;
  lg <- get log ;;
  blockno <- get (fun s => b_blockno (buf_at s b)) ;;
  let i := absorb lg blockno in
  put_block i (i32 blockno) ;;;
  (if Z.of_nat i =? lh_n lg then upd_log (set_lh_n (lh_n lg + 1)) else ret tt) ;;;
  upd_buf b (fun b => set_b_flags (Z.lor (b_flags b) B_DIRTY) b) ;;;
  release L_log.
End log.
