(* ===== verification/LogSpec.v ===== *)
(** * LogSpec: transactions are atomic across crashes

    [logical d] is the disk as recovery will leave it: a block named by the log
    header has the contents of its log block.  Every prefix of the writes of
    [commit] has as its logical disk either the old one or the new one, every
    prefix of the writes of [recover_from_log] keeps it, and recovery makes the
    disk equal to it. *)

From stdpp Require Import functions base gmap list strings.
From Stdlib Require Import ZArith Lia.
From S2P Require Import Prelude State Core Bio Ring Memide Cache Log.

Local Open Scope Z_scope.
Local Open Scope kernel_scope.

(** ** Frames with the in-memory log *)

Definition lstep (ws : list (Z * Z * list Z)) (s s' : kstate) : Prop := bstep ws (set_log (log s') s) s'.

Lemma lstep_bstep ws s s' : bstep ws s s' -> lstep ws s s'.
Proof.
  intros Hb. unfold lstep. destruct (bstep_same _ _ _ Hb) as (_ & _ & _ & -> & _). by destruct s.
Qed.

Lemma lstep_log lg s : lstep [] s (set_log lg s).
Proof. apply bstep_refl. Qed.

Lemma bstep_set_log ws s s' lg : bstep ws s s' -> bstep ws (set_log lg s) (set_log lg s').
Proof. intros (ps & bs & Hp & ->). exists ps, bs. by split. Qed.

Lemma lstep_trans ws ws' s s' s'' : lstep ws s s' -> lstep ws' s' s'' -> lstep (ws ++ ws') s s''.
Proof.
  unfold lstep. intros H1 H2. eapply bstep_trans; [|exact H2]. exact (bstep_set_log _ _ _ (log s'') H1).
Qed.

Lemma lstep_quiet s s' s'' ws : lstep [] s s' -> lstep ws s' s'' -> lstep ws s s''.
Proof. apply lstep_trans. Qed.

Lemma cache_log H V D lg s : cache H V D s -> cache H V D (set_log lg s).
Proof. intros [C1 C2 C3 C4 C5 C6 C7 C8 C9]. by split. Qed.

Lemma block_ok_wr n o v d : block_ok d -> (o + n <= 512)%nat -> block_ok (wr n o v d).
Proof.
  intros [Hl Hb] Ho. split; [by rewrite length_wr by lia|].
  unfold wr, splice. rewrite !Forall_app. split_and!.
  - by apply Forall_take.
  - apply le_bytes_byte.
  - by apply Forall_drop.
Qed.

(** The end of [end_op]. *)
Lemma finish_commit_eq s :
  held s = [] ->
  (acquire L_log ;;; upd_log (set_l_committing false) ;;; wakeup Ch_log ;;; release L_log) s
  = Ret tt (set_procs (wake Ch_log <$> procs s) (set_log (set_l_committing false (log s)) s)).
Proof.
  intros Hh. unfold bind at 1. rewrite acquire_eq by (rewrite Hh; set_solver). rewrite Hh.
  unfold bind at 1, upd_log, modify. unfold bind at 1.
  rewrite wakeup_eq by (simpl; set_solver). rewrite (release_top _ []); [|done|set_solver].
  f_equal. destruct s; simpl in *. by subst.
Qed.

Lemma cache_procs H V D ps s :
  procs_le (procs s) ps -> cache H V D s -> cache H V D (set_procs ps s).
Proof.
  intros Hps [C1 C2 C3 C4 C5 C6 C7 C8 C9].
  assert (mypid (set_procs ps s) = mypid s) as E.
  { unfold mypid. simpl. destruct (cur s); [|done]. by rewrite (procs_le_pid s). }
  split; try done. intros i b Hi Hb. rewrite E. by apply C4.
Qed.

Lemma put_block_eq i v s :
  is_Some (lh_block (log s) !! i) ->
  put_block i v s = Ret tt (set_log (set_lh_block (<[i := v]> (lh_block (log s))) (log s)) s).
Proof. intros [b Hb]. unfold put_block, in_bounds, bind, get. by rewrite Hb. Qed.

Section log_spec.
Context `{DD : DiskDriver}.
Variables dev start size_ : Z.
Hypothesis Hdev : 0 < dev < 2 ^ 31.
Hypothesis Hstart : 1 < start.
Hypothesis Hsize : 1 <= size_ <= 30.
Hypothesis Hend : start + size_ < 2 ^ 31.
Hypothesis Hlogdisk : forall j, 0 <= j < size_ -> on_disk dev (start + j).
Hypothesis Hsbdisk : on_disk dev 1.

Implicit Types (H : gmap (Z * Z) nat) (V : Z * Z -> list Z) (D : gset (Z * Z)) (bs : list Z).

(** The log's blocks, and the blocks it may hold (not the superblock). *)
Definition in_log (k : Z * Z) : Prop := k.1 = dev /\ start <= k.2 < start + size_.
Definition home (b : Z) : Prop :=
  (0 <= b < 2 ^ 31 /\ b <> 1) /\ ~ in_log (dev, b) /\ on_disk dev b.
Definition logblock (t : nat) : Z * Z := (dev, start + Z.of_nat t + 1).

(** The in-memory header holds the blocks [bs]. *)
Record header bs (lg : logstate) : Prop := {
  h_dev : l_dev lg = dev;
  h_start : l_start lg = start;
  h_size : l_size lg = size_;
  h_n : lh_n lg = Z.of_nat (length bs);
  h_blocks : take (length bs) (lh_block lg) = bs;
  h_len : length (lh_block lg) = 30%nat;
  h_fits : Z.of_nat (length bs) < size_;
  h_nodup : NoDup bs;
  h_home : Forall home bs
}.

Definition keys bs : gset (Z * Z) := list_to_set ((fun b => (dev, b)) <$> bs).

Lemma elem_of_keys k bs : k ∈ keys bs <-> k.1 = dev /\ k.2 ∈ bs.
Proof.
  unfold keys. rewrite elem_of_list_to_set, list_elem_of_fmap. split.
  - by intros (b & -> & Hb).
  - intros [<- Hb]. exists k.2. by destruct k.
Qed.

Lemma size_keys bs : NoDup bs -> size (keys bs) = length bs.
Proof.
  intros Hnd. unfold keys. rewrite size_list_to_set, length_fmap; [done|].
  apply NoDup_fmap_2; [by intros x y [= ->]|done].
Qed.

Lemma keys_home bs k : Forall home bs -> k ∈ keys bs -> ~ in_log k /\ on_disk k.1 k.2.
Proof.
  rewrite elem_of_keys, Forall_forall. intros Hh [E Hb]. destruct k as [d b]. simpl in *. subst.
  destruct (Hh b Hb) as (_ & ? & ?). done.
Qed.

Lemma logblock_in t : Z.of_nat t + 1 < size_ -> in_log (logblock t) /\ on_disk dev (start + Z.of_nat t + 1).
Proof.
  intros Ht. split; [split; simpl; [done|lia]|].
  replace (start + Z.of_nat t + 1) with (start + (Z.of_nat t + 1)) by lia. apply Hlogdisk. lia.
Qed.

(** ** One block copied *)

Lemma copy_spec H V D s src dst i j :
  cache H V D s -> H !! src = Some i -> H !! dst = Some j -> src <> dst ->
  on_disk dst.1 dst.2 -> (src ∈ D \/ on_block (disk s) src = V src) ->
  wp (modify (fun s => set_bufs (alter (set_b_data (b_data (buf_at s i))) j (bufs s)) s) ;;;
      bwrite j ;;; brelse i ;;; brelse j)
    (fun _ s' => cache (delete dst (delete src H)) (<[dst := V src]> V) (D ∖ {[dst]}) s'
      /\ bstep [(dst, V src)] s s') s.
Proof.
  intros Hc Hi Hj Hne Hon Hsrc. eapply wp_step; [reflexivity|].
  rewrite (cache_data _ _ _ _ _ _ Hc Hi).
  assert (cache H (<[dst := V src]> V) D (set_bufs (alter (set_b_data (V src)) j (bufs s)) s)) as Hc1.
  { apply (cache_write _ _ _ _ _ _ _ _ Hc Hj); [apply Hc|done]. }
  apply wp_bind. eapply wp_mono; [by eapply bwrite_spec|]. intros [] s2 [Hc2 Hs2].
  rewrite fn_lookup_insert in Hs2.
  pose proof (bstep_trans _ _ _ _ _ (bstep_bufs s _) Hs2) as Hs2'.
  destruct (bstep_same _ _ _ Hs2') as (_ & _ & _ & _ & _ & _ & Hd2 & _).
  apply wp_bind. eapply wp_mono; [eapply (brelse_spec _ _ _ _ src); [exact Hc2|done|]|].
  { rewrite Hd2. simpl. rewrite on_block_insert, decide_False, fn_lookup_insert_ne by done.
    destruct Hsrc; [left; set_solver|by right]. }
  intros [] s3 [Hc3 Hs3].
  destruct (bstep_same _ _ _ Hs3) as (_ & _ & _ & _ & _ & _ & Hd3 & _).
  eapply wp_mono; [eapply (brelse_spec _ _ _ _ dst); [exact Hc3|by rewrite lookup_delete_ne|]|].
  { right. rewrite Hd3, Hd2. simpl. by rewrite on_block_insert, decide_True, fn_lookup_insert. }
  intros [] s4 [Hc4 Hs4]. split; [done|].
  exact (bstep_trans _ _ _ _ _ Hs2' (bstep_trans _ _ _ _ _ Hs3 Hs4)).
Qed.

(** ** install_trans and write_log *)

Definition installed V bs (k : Z * Z) : list Z :=
  match list_find (fun b => (dev, b) = k) bs with
  | Some (t, _) => V (logblock t)
  | None => V k
  end.

Lemma installed_in V bs t b :
  NoDup bs -> bs !! t = Some b -> installed V bs (dev, b) = V (logblock t).
Proof.
  intros Hnd Ht. unfold installed.
  assert (list_find (fun b' => (dev, b') = (dev, b)) bs = Some (t, b)) as ->; [|done].
  apply list_find_Some. split_and!; [done|done|]. intros j c Hj Hlt [= ->].
  pose proof (NoDup_lookup _ _ _ _ Hnd Ht Hj). lia.
Qed.

Lemma installed_out V bs k : k ∉ keys bs -> installed V bs k = V k.
Proof.
  intros Hk. unfold installed. destruct (list_find _ bs) as [[t b]|] eqn:E; [|done].
  apply list_find_Some in E as (Hb & <- & _). destruct Hk. apply elem_of_keys.
  split; [done|]. by eapply list_elem_of_lookup_2.
Qed.

Lemma installed_step V bs t b k :
  NoDup bs -> bs !! t = Some b ->
  installed V (take (S t) bs) k
  = if decide (k = (dev, b)) then V (logblock t) else installed V (take t bs) k.
Proof.
  intros Hnd Ht. assert (forall n, NoDup (take n bs)) as Hnd' by (intros n; eapply sublist_NoDup; [exact Hnd|apply sublist_take]).
  assert (take (S t) bs !! t = Some b) as Ht' by (rewrite lookup_take_lt; [done|lia]).
  case_decide as Hk; [subst; by apply installed_in|].
  destruct (decide (k ∈ keys (take t bs))) as [Hin|Hout].
  - apply elem_of_keys in Hin as [Hd Hin]. destruct k as [d c]. simpl in *. subst d.
    apply list_elem_of_lookup in Hin as [j Hj]. rewrite (installed_in _ (take t bs) j) by done.
    apply installed_in; [done|]. apply lookup_take_Some in Hj as [Hj ?].
    rewrite lookup_take_lt; [done|lia].
  - rewrite !installed_out; [done|done|]. rewrite (take_S_r _ _ b) by done.
    rewrite elem_of_keys in *. destruct k as [d c]. simpl in *. set_solver.
Qed.

Definition iwrites V bs : list (Z * Z * list Z) :=
  imap (fun t b => ((dev, b), V (logblock t))) bs.

Definition lwrites V bs : list (Z * Z * list Z) :=
  imap (fun t b => (logblock t, V (dev, b))) bs.

(** The contents after [write_log] has copied [bs]. *)
Definition logged V bs (k : Z * Z) : list Z :=
  if decide (k.1 = dev) then
    match bs !! Z.to_nat (k.2 - start - 1) with
    | Some b => if decide (start < k.2) then V (dev, b) else V k
    | None => V k
    end
  else V k.

Lemma logged_in V bs t b : bs !! t = Some b -> logged V bs (logblock t) = V (dev, b).
Proof.
  intros Ht. unfold logged, logblock. simpl. rewrite decide_True by done.
  replace (Z.to_nat (start + Z.of_nat t + 1 - start - 1)) with t by lia.
  by rewrite Ht, decide_True by lia.
Qed.

Lemma logged_out V bs k : (forall t, (t < length bs)%nat -> k <> logblock t) -> logged V bs k = V k.
Proof.
  intros Hk. unfold logged. case_decide as Hd; [|done].
  destruct (bs !! _) eqn:E; [|done]. case_decide; [|done]. exfalso.
  apply lookup_lt_Some in E. eapply Hk; [exact E|]. unfold logblock. destruct k; simpl in *. subst.
  f_equal. lia.
Qed.

Lemma logged_step V bs t b k :
  bs !! t = Some b ->
  logged V (take (S t) bs) k = if decide (k = logblock t) then V (dev, b) else logged V (take t bs) k.
Proof.
  intros Ht. pose proof (lookup_lt_Some _ _ _ Ht) as Hlt.
  case_decide as Hk; [subst; apply logged_in; rewrite lookup_take_lt; [done|lia]|].
  destruct (decide (Exists (fun j => k = logblock j) (seq 0 t))) as [Hin|Hout].
  - apply Exists_exists in Hin as (j & Hj%elem_of_seq & ->).
    destruct (lookup_lt_is_Some_2 bs j) as [c Hc]; [lia|].
    rewrite !(logged_in _ _ j c); rewrite ?lookup_take_lt; (done || lia).
  - rewrite !logged_out; [done| |]; intros j; rewrite length_take; intros Hj ->.
    + destruct Hout. apply Exists_exists. exists j. split; [apply elem_of_seq; lia|done].
    + destruct (decide (j = t)) as [->|]; [done|].
      destruct Hout. apply Exists_exists. exists j. split; [apply elem_of_seq; lia|done].
Qed.

(** ** The header block *)

Definition hkey : Z * Z := (dev, start).

Record encodes (hd : list Z) bs : Prop := {
  e_block : block_ok hd;
  e_n : head_n hd = Z.of_nat (length bs);
  e_blocks i b : bs !! i = Some b -> head_block hd i = b
}.

Lemma hkey_in : in_log hkey /\ on_disk dev start.
Proof.
  split; [split; simpl; [done|lia]|]. rewrite <- (Z.add_0_r start). apply Hlogdisk. lia.
Qed.

Lemma u32_dev : u32 dev = dev.
Proof. apply u32_small. lia. Qed.

Lemma not_in_log_keys bs D k : Forall home bs -> D ⊆ keys bs -> in_log k -> k ∉ D.
Proof. intros Hh HD Hk Hin. by destruct (keys_home bs k Hh (HD _ Hin)). Qed.

Lemma head_n_wr n d :
  block_ok d -> (n <= 30)%nat -> head_n (wr 4 0 (u32 (Z.of_nat n)) d) = Z.of_nat n.
Proof.
  intros [Hl _] Hn. unfold head_n. rewrite rd_wr_eq; [|lia|apply u32_range].
  rewrite u32_small by lia. apply i32_small. lia.
Qed.

Lemma head_block_wr t b d :
  block_ok d -> (t < 30)%nat -> 0 <= b < 2 ^ 31 -> head_block (wr 4 (4 + 4 * t) (u32 b) d) t = b.
Proof.
  intros [Hl _] Ht Hb. unfold head_block. rewrite rd_wr_eq; [|lia|apply u32_range].
  rewrite u32_small by lia. apply i32_small. lia.
Qed.

Lemma header_lookup bs lg t b : header bs lg -> bs !! t = Some b -> lh_block lg !! t = Some b.
Proof.
  intros Hh Hb. rewrite <- (h_blocks _ _ Hh) in Hb. by apply lookup_take_Some in Hb as [? _].
Qed.

Lemma write_head_spec bs V D s :
  header bs (log s) -> cache ∅ V D s -> hkey ∉ D -> (size D < NBUF)%nat ->
  wp write_head (fun _ s' => exists hd, encodes hd bs /\
    cache ∅ (<[hkey := hd]> V) D s' /\ bstep [(hkey, hd)] s s') s.
Proof.
  intros Hh Hc HD Hsz. destruct hkey_in as [_ Hon]. unfold write_head.
  eapply wp_step; [reflexivity|]. rewrite (h_dev _ _ Hh), (h_start _ _ Hh), u32_dev.
  rewrite (u32_small start) by lia. fold hkey.
  apply wp_bind. eapply wp_mono.
  { apply (bread_spec ∅ V D); [done|lia|done|done|]. right. by rewrite map_size_empty. }
  intros i s1 [Hc1 Hs1]. fold hkey in Hc1. rewrite insert_empty in Hc1.
  assert (block_ok (V hkey)) as Hbl by apply Hc.
  eapply wp_step; [reflexivity|]. apply wp_bind.
  rewrite (h_n _ _ Hh), Nat2Z.id.
  eapply (wp_for_seq (fun t s' => exists hd, block_ok hd /\ head_n hd = Z.of_nat (length bs) /\
    (forall j b, (j < t)%nat -> bs !! j = Some b -> head_block hd j = b) /\
    cache {[hkey := i]} (<[hkey := hd]> V) D s' /\ bstep [] s s')).
  - exists (wr 4 0 (u32 (Z.of_nat (length bs))) (V hkey)). split_and!.
    + apply block_ok_wr; [done|lia].
    + apply head_n_wr; [done|]. pose proof (h_fits _ _ Hh). lia.
    + lia.
    + apply (cache_write _ _ _ _ hkey); [done|by rewrite lookup_singleton_eq|by apply block_ok_wr; [|lia]|].
      by rewrite (cache_data _ _ _ _ _ _ Hc1 (lookup_singleton_eq _ _)).
    + apply (bstep_quiet _ _ _ Hs1), bstep_bufs.
  - intros t s2 Ht (hd & Hhd & Hn & Hbs & Hc2 & Hs2).
    destruct (lookup_lt_is_Some_2 bs t Ht) as [b Hb].
    rewrite (header_lookup _ _ _ _ Hh Hb). eapply wp_step; [reflexivity|].
    apply wp_modify. exists (wr 4 (4 + 4 * t) (u32 b) hd).
    assert (t < 30)%nat by (pose proof (h_fits _ _ Hh); lia).
    assert (home b) as Hhb by (by eapply (Forall_lookup_1 _ _ _ _ (h_home _ _ Hh))).
    split_and!.
    + apply block_ok_wr; [done|lia].
    + unfold head_n. destruct Hhd. rewrite rd_wr_ne by lia. done.
    + intros j c Hj Hjc. destruct (decide (j = t)) as [->|Hne].
      * simplify_eq. apply head_block_wr; [done|lia|apply Hhb].
      * unfold head_block. destruct Hhd. rewrite rd_wr_ne by lia. apply Hbs; [lia|done].
    + eapply cache_ext; [|eapply (cache_write _ _ _ _ hkey); [exact Hc2|by rewrite lookup_singleton_eq
        |by apply (block_ok_wr 4 (4 + 4 * t) (u32 b) hd Hhd); lia|]].
      * intros k. unfold insert, fn_insert. by case_decide.
      * rewrite (cache_data _ _ _ _ _ _ Hc2 (lookup_singleton_eq _ _)). by rewrite fn_lookup_insert.
    + apply (bstep_quiet _ _ _ Hs2), bstep_bufs.
  - intros s2 (hd & Hhd & Hn & Hbs & Hc2 & Hs2).
    assert (encodes hd bs) as Henc.
    { split; [done|done|]. intros j b Hj. apply Hbs; [by eapply lookup_lt_Some|done]. }
    apply wp_bind. eapply wp_mono; [by eapply (bwrite_spec _ _ _ _ hkey); [exact Hc2|apply lookup_singleton_eq|]|].
    intros [] s3 [Hc3 Hs3]. rewrite fn_lookup_insert in Hs3.
    destruct (bstep_same _ _ _ Hs3) as (_ & _ & _ & _ & _ & _ & Hd3 & _).
    eapply wp_mono; [eapply (brelse_spec _ _ _ _ hkey); [exact Hc3|apply lookup_singleton_eq|]|].
    { right. rewrite Hd3. simpl. by rewrite on_block_insert, decide_True, fn_lookup_insert. }
    intros [] s4 [Hc4 Hs4]. exists hd. rewrite delete_singleton_eq in Hc4.
    replace (D ∖ {[hkey]}) with D in Hc4 by (clear -HD; set_solver). split_and!; [done|done|].
    exact (bstep_trans _ _ _ _ _ Hs2 (bstep_trans _ _ _ _ _ Hs3 Hs4)).
Qed.

(** ** One iteration of the loops *)

(** The two reads that open both loop bodies. *)
Lemma two_reads bs V D s t b (k : nat -> nat -> KM unit) Q :
  header bs (log s) -> bs !! t = Some b -> cache ∅ V D s -> D ⊆ keys bs ->
  ((dev, b) ∈ D \/ D = ∅) ->
  (forall i j s', cache (<[(dev, b) := j]> {[logblock t := i]}) V D s' -> bstep [] s s' ->
    on_block (disk s') (logblock t) = V (logblock t) -> wp (k i j) Q s') ->
  wp (lg <- get log ;;
      i <- bread (u32 (l_dev lg)) (u32 (l_start lg + Z.of_nat t + 1)) ;;
      bn <- in_bounds (lh_block lg !! t) ;;
      j <- bread (u32 (l_dev lg)) (u32 bn) ;; k i j) Q s.
Proof.
  intros Hh Hb Hc HD Hin Hk. pose proof (lookup_lt_Some _ _ _ Hb) as Hlt.
  pose proof (h_fits _ _ Hh) as Hfit.
  assert (home b) as (Hb1 & Hb2 & Hb3) by (by eapply (Forall_lookup_1 _ _ _ _ (h_home _ _ Hh))).
  destruct (logblock_in t ltac:(lia)) as [Hl1 Hl2].
  assert (logblock t ∉ D) as HlD by (eapply not_in_log_keys; [apply Hh|done|done]).
  assert (size D < NBUF)%nat as Hsz.
  { pose proof (subseteq_size D (keys bs) HD) as Hsz. rewrite (size_keys _ (h_nodup _ _ Hh)) in Hsz.
    unfold NBUF. lia. }
  eapply wp_step; [reflexivity|]. rewrite (h_dev _ _ Hh), (h_start _ _ Hh), u32_dev.
  rewrite (u32_small (_ + _)) by lia. apply wp_bind.
  eapply wp_mono; [eapply (bread_spec ∅ V D); [done|lia|done|done|right; by rewrite map_size_empty]|].
  intros i s1 [Hc1 Hs1]. fold (logblock t) in Hc1. rewrite insert_empty in Hc1.
  rewrite (header_lookup _ _ _ _ Hh Hb). eapply wp_step; [reflexivity|].
  rewrite (u32_small b) by lia.
  assert ((dev, b) <> logblock t) as Hne by (by intros E; rewrite E in Hb2).
  apply wp_bind. eapply wp_mono.
  { apply (bread_spec {[logblock t := i]} V D); [exact Hc1|lia|done|by rewrite lookup_singleton_ne|].
    destruct Hin as [?| ->]; [by left|right]. rewrite map_size_singleton, size_empty. unfold NBUF. lia. }
  intros j s2 [Hc2 Hs2]. apply Hk; [done|by eapply bstep_quiet|].
  destruct (bstep_same _ _ _ (bstep_quiet _ _ _ Hs1 Hs2)) as (_ & _ & _ & _ & _ & _ & -> & _).
  destruct (c_disk _ _ _ _ Hc (logblock t)) as [?|[[? ?]|?]]; [done|by simplify_map_eq|done].
Qed.

Lemma install_one_spec bs V D s t b :
  header bs (log s) -> bs !! t = Some b -> cache ∅ V D s -> D ⊆ keys bs ->
  ((dev, b) ∈ D \/ D = ∅) ->
  wp (install_one t) (fun _ s' =>
    cache ∅ (<[(dev, b) := V (logblock t)]> V) (D ∖ {[(dev, b)]}) s'
    /\ bstep [((dev, b), V (logblock t))] s s') s.
Proof.
  intros Hh Hb Hc HD Hin. unfold install_one. eapply two_reads; [done..|].
  intros i j s1 Hc1 Hs1 Hdisk.
  assert (home b) as (Hb1 & Hb2 & Hb3) by (by eapply (Forall_lookup_1 _ _ _ _ (h_home _ _ Hh))).
  pose proof (lookup_lt_Some _ _ _ Hb). pose proof (h_fits _ _ Hh).
  destruct (logblock_in t ltac:(lia)) as [Hl1 _].
  assert (logblock t <> (dev, b)) as Hne by (by intros E; rewrite E in Hl1).
  eapply wp_mono; [eapply (copy_spec _ _ _ _ (logblock t) (dev, b)); [exact Hc1|..]|].
  - by rewrite lookup_insert_ne, lookup_singleton_eq.
  - apply lookup_insert_eq.
  - done.
  - done.
  - by right.
  - intros [] s2 [Hc2 Hs2]. split; [|by eapply (bstep_trans [])].
    rewrite delete_insert_ne, delete_singleton_eq, delete_insert_eq, delete_empty in Hc2 by done. done.
Qed.

Lemma write_log_one_spec bs V s t b :
  header bs (log s) -> bs !! t = Some b -> cache ∅ V (keys bs) s ->
  wp (write_log_one t) (fun _ s' =>
    cache ∅ (<[logblock t := V (dev, b)]> V) (keys bs) s'
    /\ bstep [(logblock t, V (dev, b))] s s') s.
Proof.
  intros Hh Hb Hc. pose proof (lookup_lt_Some _ _ _ Hb). pose proof (h_fits _ _ Hh).
  assert ((dev, b) ∈ keys bs) as Hin by (apply elem_of_keys; split; [done|by eapply list_elem_of_lookup_2]).
  unfold write_log_one. eapply two_reads; [done..|by left|].
  intros i j s1 Hc1 Hs1 Hdisk.
  assert (home b) as (Hb1 & Hb2 & Hb3) by (by eapply (Forall_lookup_1 _ _ _ _ (h_home _ _ Hh))).
  destruct (logblock_in t ltac:(lia)) as [Hl1 Hl2].
  assert (logblock t <> (dev, b)) as Hne by (by intros E; rewrite E in Hl1).
  assert (logblock t ∉ keys bs) as Hnk by (eapply not_in_log_keys; [apply Hh|done|done]).
  eapply wp_mono; [eapply (copy_spec _ _ _ _ (dev, b) (logblock t)); [exact Hc1|..]|].
  - apply lookup_insert_eq.
  - by rewrite lookup_insert_ne, lookup_singleton_eq.
  - done.
  - done.
  - by left.
  - intros [] s2 [Hc2 Hs2]. split; [|by eapply (bstep_trans [])].
    rewrite delete_insert_eq, delete_singleton_ne, delete_singleton_eq in Hc2 by done.
    replace (keys bs ∖ {[logblock t]}) with (keys bs) in Hc2 by (clear -Hnk; set_solver). done.
Qed.

(** ** The loops *)

Lemma keys_take_S bs t b : bs !! t = Some b -> keys (take (S t) bs) = keys (take t bs) ∪ {[(dev, b)]}.
Proof.
  intros Hb. apply set_eq. intros k. rewrite (take_S_r _ _ b) by done.
  rewrite elem_of_union, elem_of_singleton, !elem_of_keys, elem_of_app, list_elem_of_singleton.
  destruct k as [d c]. simpl. intuition congruence.
Qed.

Lemma imap_take_S {B} (f : nat -> Z -> B) bs t b :
  bs !! t = Some b -> imap f (take (S t) bs) = imap f (take t bs) ++ [f t b].
Proof.
  intros Hb. rewrite (take_S_r _ _ b) by done. rewrite imap_app. simpl.
  rewrite length_take_le, Nat.add_0_r; [done|]. apply lookup_lt_Some in Hb. lia.
Qed.

Lemma take_in bs t b : NoDup bs -> bs !! t = Some b -> b ∉ take t bs.
Proof.
  intros Hnd Hb Hin. apply list_elem_of_lookup in Hin as [j Hj].
  apply lookup_take_Some in Hj as [Hj Hlt]. pose proof (NoDup_lookup _ _ _ _ Hnd Hb Hj). lia.
Qed.

Lemma install_trans_spec bs V D s :
  header bs (log s) -> cache ∅ V D s -> (D = keys bs \/ D = ∅) ->
  wp install_trans (fun _ s' =>
    cache ∅ (installed V bs) ∅ s' /\ bstep (iwrites V bs) s s') s.
Proof.
  intros Hh Hc HD. unfold install_trans. eapply wp_step; [reflexivity|].
  rewrite (h_n _ _ Hh), Nat2Z.id. pose proof (h_nodup _ _ Hh) as Hnd.
  eapply (wp_for_seq (fun t s' => cache ∅ (installed V (take t bs)) (D ∖ keys (take t bs)) s'
    /\ bstep (iwrites V (take t bs)) s s')).
  - rewrite take_0. split; [|apply bstep_refl].
    replace (D ∖ keys []) with D by (unfold keys; simpl; set_solver). done.
  - intros t s1 Ht [Hc1 Hs1]. destruct (lookup_lt_is_Some_2 bs t Ht) as [b Hb].
    pose proof (take_in _ _ _ Hnd Hb) as Hnin.
    assert ((dev, b) ∈ keys bs) as Hin.
    { apply elem_of_keys. split; [done|]. by eapply list_elem_of_lookup_2. }
    destruct (bstep_same _ _ _ Hs1) as (_ & _ & _ & Hlg & _).
    eapply wp_mono; [eapply (install_one_spec bs); [by rewrite Hlg|exact Hb|exact Hc1| |]|].
    + clear -HD. destruct HD as [->| ->]; set_solver.
    + destruct HD as [->| ->]; [left|right; set_solver]. apply elem_of_difference.
      split; [done|]. rewrite elem_of_keys. naive_solver.
    + intros [] s2 [Hc2 Hs2].
      assert (installed V (take t bs) (logblock t) = V (logblock t)) as Elog.
      { apply installed_out. eapply (not_in_log_keys (take t bs)); [|done|].
        - apply Forall_take, Hh.
        - apply logblock_in. pose proof (h_fits _ _ Hh). lia. }
      rewrite Elog in *. split.
      * replace (D ∖ keys (take (S t) bs)) with (D ∖ keys (take t bs) ∖ {[(dev, b)]})
          by (rewrite (keys_take_S _ _ _ Hb); clear; set_solver).
        eapply cache_ext; [|exact Hc2]. intros k. rewrite (installed_step _ _ _ b) by done.
        unfold insert, fn_insert. by repeat case_decide.
      * unfold iwrites. rewrite (imap_take_S _ _ _ b) by done. by eapply bstep_trans.
  - intros s' [Hc' Hs']. rewrite take_ge in * by done. split; [|done].
    replace (D ∖ keys bs) with (∅ : gset (Z * Z)) in Hc' by (destruct HD as [->| ->]; clear; set_solver).
    done.
Qed.

Lemma write_log_spec bs V s :
  header bs (log s) -> cache ∅ V (keys bs) s ->
  wp write_log (fun _ s' => cache ∅ (logged V bs) (keys bs) s' /\ bstep (lwrites V bs) s s') s.
Proof.
  intros Hh Hc. unfold write_log. eapply wp_step; [reflexivity|].
  rewrite (h_n _ _ Hh), Nat2Z.id.
  eapply (wp_for_seq (fun t s' => cache ∅ (logged V (take t bs)) (keys bs) s'
    /\ bstep (lwrites V (take t bs)) s s')).
  - rewrite take_0. split; [|apply bstep_refl].
    eapply cache_ext; [|exact Hc]. intros k. symmetry. apply logged_out. simpl. lia.
  - intros t s1 Ht [Hc1 Hs1]. destruct (lookup_lt_is_Some_2 bs t Ht) as [b Hb].
    destruct (bstep_same _ _ _ Hs1) as (_ & _ & _ & Hlg & _).
    eapply wp_mono; [eapply (write_log_one_spec bs); [by rewrite Hlg|exact Hb|exact Hc1]|].
    intros [] s2 [Hc2 Hs2].
    assert (logged V (take t bs) (dev, b) = V (dev, b)) as Ehome.
    { apply logged_out. intros j Hj E. rewrite length_take in Hj.
      destruct (logblock_in j) as [Hl _]; [pose proof (h_fits _ _ Hh); lia|]. rewrite <- E in Hl.
      by destruct (Forall_lookup_1 _ _ _ _ (h_home _ _ Hh) Hb) as (_ & ? & _). }
    rewrite Ehome in *. split.
    + eapply cache_ext; [|exact Hc2]. intros k. rewrite (logged_step _ _ _ b) by done.
      unfold insert, fn_insert. by repeat case_decide.
    + unfold lwrites. rewrite (imap_take_S _ _ _ b) by done. by eapply bstep_trans.
  - intros s' [Hc' Hs']. by rewrite take_ge in * by done.
Qed.

(** The log's fields that only [begin_op] and [end_op] change. *)
Definition same_ops (lg lg' : logstate) : Prop :=
  l_outstanding lg' = l_outstanding lg /\ l_committing lg' = l_committing lg.

(** ** read_head *)

Record log_at (lg : logstate) : Prop := {
  la_dev : l_dev lg = dev;
  la_start : l_start lg = start;
  la_size : l_size lg = size_;
  la_len : length (lh_block lg) = 30%nat
}.

(** Blocks the header may list. *)
Record loggable bs : Prop := {
  lb_fits : Z.of_nat (length bs) < size_;
  lb_nodup : NoDup bs;
  lb_home : Forall home bs
}.

Lemma header_alt bs lg :
  header bs lg <-> log_at lg /\ loggable bs /\ lh_n lg = Z.of_nat (length bs)
    /\ take (length bs) (lh_block lg) = bs.
Proof. split; [intros []|intros ([] & [] & ? & ?)]; by repeat split. Qed.

Lemma read_head_spec bs V s :
  log_at (log s) -> loggable bs -> encodes (V hkey) bs -> cache ∅ V ∅ s ->
  wp read_head (fun _ s' => header bs (log s') /\ cache ∅ V ∅ s' /\ same_ops (log s) (log s')
    /\ lstep [] s s') s.
Proof.
  intros [L1 L2 L3 L4] Hbs Henc Hc. destruct hkey_in as [_ Hon]. unfold read_head.
  eapply wp_step; [reflexivity|]. rewrite L1, L2, u32_dev, (u32_small start) by lia.
  apply wp_bind. eapply wp_mono.
  { apply (bread_spec ∅ V ∅); [done|lia|done|done|]. right. rewrite map_size_empty, size_empty.
    unfold NBUF. lia. }
  intros i s1 [Hc1 Hs1]. fold hkey in Hc1. rewrite insert_empty in Hc1.
  destruct (bstep_same _ _ _ Hs1) as (_ & _ & _ & Hlg & _ & _ & Hd1 & _).
  eapply wp_step; [reflexivity|]. rewrite (cache_data _ _ _ _ _ _ Hc1 (lookup_singleton_eq _ _)).
  eapply wp_step; [reflexivity|]. rewrite (e_n _ _ Henc), Nat2Z.id. apply wp_bind.
  eapply (wp_for_seq (fun t s' => exists lg, s' = set_log lg s1 /\ log_at lg
    /\ same_ops (log s) lg /\ lh_n lg = Z.of_nat (length bs) /\ take t (lh_block lg) = take t bs)).
  - eexists. split; [reflexivity|]. rewrite Hlg. done.
  - intros t s2 Ht (lg & -> & [A1 A2 A3 A4] & Hso & Hn & Hbl). pose proof (lb_fits _ Hbs).
    destruct (lookup_lt_is_Some_2 bs t Ht) as [b Hb]. rewrite (e_blocks _ _ Henc _ _ Hb).
    destruct (lookup_lt_is_Some_2 (lh_block lg) t) as [o Ho]; [lia|].
    eapply wp_intro; [by apply put_block_eq|]. eexists. split; [reflexivity|]. simpl. split_and!; [|done|done|].
    + split; simpl; [done..|by rewrite length_insert].
    + rewrite !(take_S_r _ _ b); [|done|apply list_lookup_insert_eq; lia].
      rewrite take_insert_ge by lia. by rewrite Hbl.
  - intros s2 (lg & -> & Hla & Hso & Hn & Hbl).
    eapply wp_mono; [eapply (brelse_spec _ _ _ _ hkey); [by apply cache_log|apply lookup_singleton_eq|]|].
    { right. simpl. rewrite Hd1. destruct (c_disk _ _ _ _ Hc hkey) as [?|[[? ?]|?]];
        [by set_solver|by simplify_map_eq|done]. }
    intros [] s3 [Hc3 Hs3]. rewrite delete_singleton_eq in Hc3.
    destruct (bstep_same _ _ _ Hs3) as (_ & _ & _ & Hlg3 & _).
    simpl in Hlg3. split_and!; [|done|by rewrite Hlg3|].
    + rewrite Hlg3. apply header_alt. split_and!; [done|done|done|]. rewrite Hbl. by apply take_ge.
    + eapply lstep_quiet; [apply lstep_bstep, Hs1|]. eapply lstep_quiet; [apply lstep_log|].
      by apply lstep_bstep.
Qed.

(** ** recover_from_log *)

Lemma header_nil bs lg : header bs lg -> header [] (set_lh_n 0 lg).
Proof.
  rewrite !header_alt. intros ([] & [] & _ & _).
  split; [by split|]. split; [|done]. split; [simpl; lia|constructor|constructor].
Qed.

Lemma recover_spec bs V s :
  log_at (log s) -> loggable bs -> encodes (V hkey) bs -> cache ∅ V ∅ s ->
  wp recover_from_log (fun _ s' => exists hd0, encodes hd0 [] /\ header [] (log s') /\
    cache ∅ (<[hkey := hd0]> (installed V bs)) ∅ s' /\ same_ops (log s) (log s') /\ lstep (iwrites V bs ++ [(hkey, hd0)]) s s') s.
Proof.
  intros Hla Hbs Henc Hc. unfold recover_from_log.
  apply wp_bind. eapply wp_mono; [by apply read_head_spec|]. intros [] s1 (Hh1 & Hc1 & Hso & Hs1).
  apply wp_bind. eapply wp_mono; [eapply install_trans_spec; [done|done|by right]|].
  intros [] s2 [Hc2 Hs2]. destruct (bstep_same _ _ _ Hs2) as (_ & _ & _ & Hlg2 & _).
  eapply wp_step; [reflexivity|].
  eapply wp_mono; [eapply write_head_spec|].
  - simpl. rewrite Hlg2. by eapply header_nil.
  - apply cache_log, Hc2.
  - set_solver.
  - rewrite size_empty. unfold NBUF. lia.
  - intros [] s3 (hd0 & Henc0 & Hc3 & Hs3). exists hd0.
    destruct (bstep_same _ _ _ Hs3) as (_ & _ & _ & Hlg3 & _). split_and!; [done| |done| |].
    + rewrite Hlg3. simpl. rewrite Hlg2. by eapply header_nil.
    + rewrite Hlg3. simpl. by rewrite Hlg2.
    + eapply (lstep_quiet _ _ _ _ Hs1), lstep_trans; [by apply lstep_bstep|].
      eapply lstep_quiet; [apply lstep_log|by apply lstep_bstep].
Qed.

(** ** commit *)

Definition hwrites V bs : list (Z * Z * list Z) := (fun b => ((dev, b), V (dev, b))) <$> bs.

Definition commit_writes V bs (hd hd0 : list Z) : list (Z * Z * list Z) :=
  lwrites V bs ++ [(hkey, hd)] ++ hwrites V bs ++ [(hkey, hd0)].

Lemma logblock_hkey t : logblock t <> hkey.
Proof. unfold logblock, hkey. intros [= ?]. lia. Qed.

Lemma iwrites_logged V bs hd : iwrites (<[hkey := hd]> (logged V bs)) bs = hwrites V bs.
Proof.
  unfold iwrites, hwrites. apply list_eq. intros t. rewrite list_lookup_imap, list_lookup_fmap.
  destruct (bs !! t) as [b|] eqn:Hb; [|done]. simpl.
  rewrite fn_lookup_insert_ne by (apply not_eq_sym, logblock_hkey). by rewrite (logged_in _ _ _ b).
Qed.

Lemma commit_view V bs hd hd0 k :
  loggable bs -> ~ in_log k ->
  <[hkey := hd0]> (installed (<[hkey := hd]> (logged V bs)) bs) k = V k.
Proof.
  intros [Hfit Hnd Hho] Hk. assert (hkey <> k) as Hhk by (intros <-; by destruct hkey_in).
  rewrite fn_lookup_insert_ne by done.
  destruct (decide (k ∈ keys bs)) as [Hin|Hout].
  - apply elem_of_keys in Hin as [Hd Hin]. destruct k as [d b]. simpl in *. subst d.
    apply list_elem_of_lookup in Hin as [t Ht]. rewrite (installed_in _ _ t) by done.
    rewrite fn_lookup_insert_ne by (apply not_eq_sym, logblock_hkey). by rewrite (logged_in _ _ _ b).
  - rewrite installed_out, fn_lookup_insert_ne by done. apply logged_out.
    intros t Ht ->. destruct Hk. apply logblock_in. lia.
Qed.

Lemma commit_spec bs V s :
  header bs (log s) -> cache ∅ V (keys bs) s -> bs <> [] ->
  wp commit (fun _ s' => exists hd hd0 V', encodes hd bs /\ encodes hd0 [] /\ header [] (log s') /\
    cache ∅ V' ∅ s' /\ (forall k, ~ in_log k -> V' k = V k) /\ same_ops (log s) (log s') /\
    lstep (commit_writes V bs hd hd0) s s') s.
Proof.
  intros Hh Hc Hne. unfold commit. eapply wp_step; [reflexivity|]. rewrite (h_n _ _ Hh).
  destruct (Z.ltb_spec 0 (Z.of_nat (length bs))) as [_|Hle]; [|destruct bs; simpl in *; [done|lia]].
  apply wp_bind. eapply wp_mono; [by apply write_log_spec|]. intros [] s1 [Hc1 Hs1].
  destruct (bstep_same _ _ _ Hs1) as (_ & _ & _ & Hlg1 & _). rewrite <- Hlg1 in Hh.
  apply wp_bind. eapply wp_mono; [eapply write_head_spec; [exact Hh|exact Hc1|..]|].
  - eapply not_in_log_keys; [apply Hh|done|apply hkey_in].
  - rewrite size_keys by apply Hh. pose proof (h_fits _ _ Hh). unfold NBUF. lia.
  - intros [] s2 (hd & Henc & Hc2 & Hs2).
    destruct (bstep_same _ _ _ Hs2) as (_ & _ & _ & Hlg2 & _). rewrite <- Hlg2 in Hh.
    apply wp_bind. eapply wp_mono; [eapply install_trans_spec; [exact Hh|exact Hc2|by left]|].
    intros [] s3 [Hc3 Hs3]. rewrite iwrites_logged in Hs3.
    destruct (bstep_same _ _ _ Hs3) as (_ & _ & _ & Hlg3 & _). rewrite <- Hlg3 in Hh.
    eapply wp_step; [reflexivity|]. eapply wp_mono; [eapply write_head_spec|].
    + simpl. by eapply header_nil.
    + apply cache_log, Hc3.
    + set_solver.
    + rewrite size_empty. unfold NBUF. lia.
    + intros [] s4 (hd0 & Henc0 & Hc4 & Hs4). exists hd, hd0. eexists.
      destruct (bstep_same _ _ _ Hs4) as (_ & _ & _ & Hlg4 & _).
      split_and!; [done|done| |exact Hc4| | |].
      * rewrite Hlg4. simpl. by eapply header_nil.
      * intros k Hk. apply commit_view; [by apply header_alt in Hh as (_ & ? & _)|done].
      * rewrite Hlg4. simpl. by rewrite Hlg3, Hlg2, Hlg1.
      * unfold commit_writes. eapply lstep_trans; [by apply lstep_bstep|].
        eapply lstep_trans; [by apply lstep_bstep|]. eapply lstep_trans; [by apply lstep_bstep|].
        eapply lstep_quiet; [apply lstep_log|by apply lstep_bstep].
Qed.

(** ** Crashes *)

Definition head_blocks (hd : list Z) : list Z := head_block hd <$> seq 0 (Z.to_nat (head_n hd)).

Lemma encodes_blocks hd bs : encodes hd bs -> head_blocks hd = bs.
Proof.
  intros [_ Hn Hb]. unfold head_blocks. rewrite Hn, Nat2Z.id. apply list_eq. intros t.
  rewrite list_lookup_fmap. destruct (bs !! t) as [b|] eqn:E.
  - rewrite lookup_seq_lt by (by eapply lookup_lt_Some). simpl. f_equal. by apply Hb.
  - rewrite lookup_seq_ge; [done|]. by apply lookup_ge_None.
Qed.

(** The disk as recovery sees it. *)
Definition logical (d : gmap (Z * Z) (list Z)) : Z * Z -> list Z :=
  installed (on_block d) (head_blocks (on_block d hkey)).

(** A disk with a well-formed log. *)
Definition sound (d : gmap (Z * Z) (list Z)) : Prop :=
  exists bs, loggable bs /\ encodes (on_block d hkey) bs.

Lemma on_writes_out ws d k : k ∉ ws.*1 -> on_block (apply_writes ws d) k = on_block d k.
Proof.
  revert d. induction ws as [|w ws IH]; intros d Hk; [done|]. simpl in *.
  rewrite not_elem_of_cons in Hk. destruct Hk as [Hk1 Hk2]. etrans; [by apply IH|].
  by rewrite on_block_insert, decide_False.
Qed.

Lemma on_writes_in ws d k v :
  k ∈ ws.*1 -> (forall w, w ∈ ws -> w.1 = k -> w.2 = v) -> on_block (apply_writes ws d) k = v.
Proof.
  induction ws as [|w ws IH] using rev_ind; intros Hk Hv; [by apply not_elem_of_nil in Hk|].
  rewrite apply_writes_app. simpl. rewrite on_block_insert. case_decide as E.
  - apply Hv; [set_solver|done].
  - apply IH; [|intros; apply Hv; set_solver]. rewrite fmap_app in Hk. set_solver.
Qed.

(** Writing home blocks that the log holds does not change the logical disk. *)
Lemma logical_install bs d ws :
  loggable bs -> encodes (on_block d hkey) bs ->
  (forall w, w ∈ ws -> exists t b, bs !! t = Some b /\ w.1 = (dev, b)) ->
  encodes (on_block (apply_writes ws d) hkey) bs /\
  (forall k, logical (apply_writes ws d) k = logical d k).
Proof.
  intros [Hfit Hnd Hho] Henc Hws.
  assert (forall k, k ∉ keys bs -> on_block (apply_writes ws d) k = on_block d k) as Hout.
  { intros k Hk. apply on_writes_out. intros (w & -> & Hw)%list_elem_of_fmap.
    destruct (Hws w Hw) as (t & b & Hb & E). apply Hk. rewrite E. apply elem_of_keys.
    split; [done|]. by eapply list_elem_of_lookup_2. }
  assert (forall k, in_log k -> k ∉ keys bs) as Hlog.
  { intros k Hk. by eapply not_in_log_keys. }
  assert (on_block (apply_writes ws d) hkey = on_block d hkey) as Ehd by (apply Hout, Hlog, hkey_in).
  split; [by rewrite Ehd|]. intros k. unfold logical. rewrite Ehd, (encodes_blocks _ _ Henc).
  destruct (decide (k ∈ keys bs)) as [Hin|Hk].
  - apply elem_of_keys in Hin as [Hd Hin]. destruct k as [d' b]. simpl in *. subst d'.
    apply list_elem_of_lookup in Hin as [t Ht]. rewrite !(installed_in _ _ t) by done.
    apply Hout, Hlog, logblock_in. apply lookup_lt_Some in Ht. lia.
  - rewrite !installed_out by done. by apply Hout.
Qed.

Lemma nil_loggable : loggable [].
Proof. split; [simpl; lia|constructor|constructor]. Qed.

Lemma logical_nil d k : encodes (on_block d hkey) [] -> logical d k = on_block d k.
Proof. intros He. unfold logical. by rewrite (encodes_blocks _ _ He). Qed.

Lemma lwrites_key V bs w :
  loggable bs -> w ∈ lwrites V bs ->
  exists t b, bs !! t = Some b /\ w = (logblock t, V (dev, b)) /\ in_log (logblock t).
Proof.
  intros [Hfit _ _] Hw. unfold lwrites in Hw. apply elem_of_lookup_imap in Hw as (t & b & -> & Hb).
  exists t, b. split_and!; [done|done|]. apply logblock_in. apply lookup_lt_Some in Hb. lia.
Qed.

Lemma hwrites_key V bs w :
  w ∈ hwrites V bs -> exists t b, bs !! t = Some b /\ w = ((dev, b), V (dev, b)).
Proof.
  intros (b & -> & Hb)%list_elem_of_fmap. apply list_elem_of_lookup in Hb as [t Hb]. eauto.
Qed.

Lemma prefix_elem {A} (l k : list A) x : l `prefix_of` k -> x ∈ l -> x ∈ k.
Proof. intros [m ->]. set_solver. Qed.

(** Before the header is written the transaction has not happened. *)
Lemma commit_before V bs d ws :
  loggable bs -> encodes (on_block d hkey) [] -> ws `prefix_of` lwrites V bs ->
  encodes (on_block (apply_writes ws d) hkey) [] /\
  (forall k, ~ in_log k -> logical (apply_writes ws d) k = on_block d k).
Proof.
  intros Hbs He Hp.
  assert (forall k, (~ in_log k \/ k = hkey) -> on_block (apply_writes ws d) k = on_block d k) as Hout.
  { intros k Hk. apply on_writes_out. intros (w & -> & Hw)%list_elem_of_fmap.
    eapply prefix_elem in Hw; [|exact Hp].
    destruct (lwrites_key _ _ _ Hbs Hw) as (t & b & _ & -> & Hl). simpl in Hk.
    destruct Hk as [?|?]; [done|]. by eapply logblock_hkey. }
  assert (encodes (on_block (apply_writes ws d) hkey) []) as He' by (by rewrite Hout by auto).
  split; [done|]. intros k Hk. rewrite logical_nil by done. auto.
Qed.

(** From the header write on it has. *)
Lemma commit_after V bs d hd :
  loggable bs -> encodes hd bs -> (forall k, k ∉ keys bs -> ~ in_log k -> on_block d k = V k) ->
  let d1 := apply_writes (lwrites V bs ++ [(hkey, hd)]) d in
  encodes (on_block d1 hkey) bs /\ (forall k, ~ in_log k -> logical d1 k = V k).
Proof.
  intros Hbs He Hd. simpl.
  assert (on_block (apply_writes (lwrites V bs ++ [(hkey, hd)]) d) hkey = hd) as Ehd.
  { rewrite apply_writes_app. simpl. by rewrite on_block_insert, decide_True. }
  split; [by rewrite Ehd|]. intros k Hk. unfold logical. rewrite Ehd, (encodes_blocks _ _ He).
  rewrite apply_writes_app. simpl.
  destruct (decide (k ∈ keys bs)) as [Hin|Hnk].
  - apply elem_of_keys in Hin as [Hd' Hin]. destruct k as [d' b]. simpl in *. subst d'.
    apply list_elem_of_lookup in Hin as [t Ht]. rewrite (installed_in _ _ t) by (done || apply Hbs).
    rewrite on_block_insert, decide_False by (apply not_eq_sym, logblock_hkey).
    apply on_writes_in.
    + apply list_elem_of_fmap. exists (logblock t, V (dev, b)). split; [done|].
      apply elem_of_lookup_imap. eauto.
    + intros w Hw E. destruct (lwrites_key _ _ _ Hbs Hw) as (t' & b' & Ht' & -> & _). simpl in *.
      unfold logblock in E. injection E as E. assert (t' = t) as -> by lia. congruence.
  - rewrite installed_out by done.
    rewrite on_block_insert, decide_False by (intros <-; apply Hk, hkey_in).
    rewrite on_writes_out; [by apply Hd|]. intros (w & -> & Hw)%list_elem_of_fmap.
    destruct (lwrites_key _ _ _ Hbs Hw) as (t & b & _ & -> & ?). done.
Qed.

Lemma commit_prefix V bs hd hd0 d ws :
  loggable bs -> encodes hd bs -> encodes hd0 [] -> encodes (on_block d hkey) [] ->
  (forall k, k ∉ keys bs -> ~ in_log k -> on_block d k = V k) ->
  ws `prefix_of` commit_writes V bs hd hd0 ->
  let d1 := apply_writes ws d in
  sound d1 /\
  ((forall k, ~ in_log k -> logical d1 k = on_block d k) \/ (forall k, ~ in_log k -> logical d1 k = V k)).
Proof.
  intros Hbs He He0 Hd Hk. unfold commit_writes. rewrite app_assoc.
  destruct (commit_after V bs d hd) as [Ha1 Ha2]; [done..|].
  intros [Hp|(ws' & -> & Hp)]%prefix_app_cases.
  { apply prefix_app_cases in Hp as [Hp|(ws' & -> & [->| ->]%prefix_singleton)].
    - destruct (commit_before V bs d ws) as [? ?]; [done..|]. split; [|by left].
      exists []. split; [apply nil_loggable|done].
    - rewrite app_nil_r. destruct (commit_before V bs d (lwrites V bs)) as [? ?]; [done..|].
      split; [|by left]. exists []. split; [apply nil_loggable|done].
    - split; [by exists bs|by right]. }
  rewrite apply_writes_app. set (d1 := apply_writes (_ ++ _) d) in *. simpl.
  assert (forall ws, ws `prefix_of` hwrites V bs -> encodes (on_block (apply_writes ws d1) hkey) bs /\
    (forall k, logical (apply_writes ws d1) k = logical d1 k)) as Hinst.
  { intros ws Hws. apply logical_install; [done|done|]. intros w Hw.
    destruct (hwrites_key V bs w) as (t & b & Hb & ->); [by eapply prefix_elem|eauto]. }
  apply prefix_app_cases in Hp as [Hp|(ws2 & -> & [->| ->]%prefix_singleton)].
  - destruct (Hinst ws' Hp) as [H1 H2]. split; [by exists bs|]. right. intros k Hnk. rewrite H2. auto.
  - rewrite app_nil_r. destruct (Hinst (hwrites V bs)) as [H1 H2]; [done|]. split; [by exists bs|].
    right. intros k Hnk. rewrite H2. auto.
  - rewrite apply_writes_app. set (d2 := apply_writes (hwrites V bs) d1). simpl.
    assert (encodes (on_block (<[hkey := hd0]> d2) hkey) []) as He2
      by (by rewrite on_block_insert, decide_True).
    split; [exists []; split; [apply nil_loggable|done]|]. right. intros k Hnk.
    rewrite logical_nil by done. rewrite on_block_insert, decide_False by (intros <-; apply Hnk, hkey_in).
    destruct (decide (k ∈ keys bs)) as [Hin|Hnin].
    + apply on_writes_in.
      * apply elem_of_keys in Hin as [E Hin]. apply list_elem_of_fmap. exists (k, V k).
        split; [done|]. apply list_elem_of_fmap. exists k.2. destruct k; simpl in *. by subst.
      * intros w Hw <-. by destruct (hwrites_key V bs w Hw) as (t & b & _ & ->).
    + unfold d2. rewrite on_writes_out; [|].
      * rewrite <- Ha2 by done. unfold logical. rewrite (encodes_blocks _ _ Ha1). by rewrite installed_out.
      * intros (w & -> & Hw)%list_elem_of_fmap. destruct (hwrites_key V bs w Hw) as (t & b & Hb & ->).
        apply Hnin, elem_of_keys. split; [done|]. by eapply list_elem_of_lookup_2.
Qed.

(** ** Transactions *)

Definition absorbed bs (b : Z) : list Z := if decide (b ∈ bs) then bs else bs ++ [b].

Lemma keys_absorbed bs b : keys (absorbed bs b) = {[(dev, b)]} ∪ keys bs.
Proof.
  apply set_eq. intros [d c]. unfold absorbed. rewrite elem_of_union, elem_of_singleton, !elem_of_keys.
  simpl. case_decide; rewrite ?elem_of_app, ?list_elem_of_singleton; intuition congruence.
Qed.

Lemma loggable_absorbed bs b :
  loggable bs -> home b -> Z.of_nat (length bs) + 1 < size_ -> loggable (absorbed bs b).
Proof.
  intros [Hf Hn Hh] Hb Hlt. unfold absorbed. case_decide; [done|]. split.
  - rewrite length_app. simpl. lia.
  - apply NoDup_app. split_and!; [done|set_solver|apply NoDup_singleton].
  - by apply Forall_app_2; [|apply Forall_singleton].
Qed.

(** The scan of [log_write]: the block's place, or the end. *)
Lemma absorb_spec bs lg b :
  header bs lg -> home b ->
  let i := absorb lg b in
  (i < 30)%nat -> take (length (absorbed bs b)) (<[i := b]> (lh_block lg)) = absorbed bs b /\
  (if Z.of_nat i =? lh_n lg then lh_n lg + 1 else lh_n lg) = Z.of_nat (length (absorbed bs b)).
Proof.
  intros Hh [[Hb _] _]. unfold absorb, absorbed. rewrite (h_n _ _ Hh), Nat2Z.id, (h_blocks _ _ Hh).
  destruct (list_find _ bs) as [[i c]|] eqn:E; intros Hi.
  - apply list_find_Some in E as (Hc & Hcb & _).
    assert (home c) as [[Hc' _] _] by (by eapply (Forall_lookup_1 _ _ _ _ (h_home _ _ Hh))).
    rewrite u32_small in Hcb by lia. subst c.
    rewrite decide_True by (by eapply list_elem_of_lookup_2).
    rewrite list_insert_id by (by eapply header_lookup). split; [apply Hh|].
    apply lookup_lt_Some in Hc. destruct (Z.eqb_spec (Z.of_nat i) (Z.of_nat (length bs))); lia.
  - apply list_find_None in E. rewrite decide_False.
    + rewrite length_app, Nat.add_1_r, Z.eqb_refl. split; [|lia].
      rewrite (take_S_r _ _ b) by (apply list_lookup_insert_eq; rewrite (h_len _ _ Hh); lia).
      rewrite take_insert_ge by lia. by rewrite (h_blocks _ _ Hh).
    + intros Hin. rewrite Forall_forall in E. apply (E b Hin). apply u32_small. lia.
Qed.

Lemma log_write_spec bs H V s b i :
  header bs (log s) -> 1 <= l_outstanding (log s) -> cache H V (keys bs) s ->
  H !! (dev, b) = Some i -> home b -> Z.of_nat (length bs) + 1 < size_ ->
  wp (log_write i) (fun _ s' => header (absorbed bs b) (log s') /\ same_ops (log s) (log s') /\
    cache H V (keys (absorbed bs b)) s' /\ lstep [] s s') s.
Proof.
  intros Hh Hout Hc Hi Hb Hlt. unfold log_write. eapply wp_step; [reflexivity|].
  rewrite (h_n _ _ Hh), (h_size _ _ Hh). unfold LOGSIZE, MAXOPBLOCKS.
  destruct (Z.leb_spec (10 * 3) (Z.of_nat (length bs))); [lia|].
  destruct (Z.leb_spec (size_ - 1) (Z.of_nat (length bs))); [lia|]. simpl.
  destruct (Z.ltb_spec (l_outstanding (log s)) 1); [lia|].
  pose proof (c_held _ _ _ _ Hc) as Hheld.
  eapply wp_step; [apply acquire_eq; rewrite Hheld; set_solver|]. rewrite Hheld.
  eapply wp_step; [reflexivity|]. eapply wp_step; [reflexivity|].
  destruct (cache_held _ _ _ _ _ _ Hc Hi) as (bf & Hbf & _ & Hkey & _).
  assert (b_blockno (buf_at (set_held [L_log] s) i) = b) as ->.
  { unfold buf_at. simpl. rewrite Hbf. simpl. unfold bkey in Hkey. congruence. }
  change (log (set_held [L_log] s)) with (log s).
  assert (i32 b = b) as -> by (apply i32_small; destruct Hb; lia).
  assert (absorb (log s) b < 30)%nat as Habs.
  { unfold absorb. rewrite (h_n _ _ Hh), Nat2Z.id, (h_blocks _ _ Hh).
    destruct (list_find _ bs) as [[j c]|] eqn:E; [|lia].
    apply list_find_Some in E as (Hc' & _). apply lookup_lt_Some in Hc'. lia. }
  destruct (absorb_spec bs (log s) b Hh Hb Habs) as [Ht Hn].
  eapply wp_step.
  { apply put_block_eq. apply lookup_lt_is_Some_2. simpl. by rewrite (h_len _ _ Hh). }
  set (lg1 := set_lh_block _ _). set (s1 := set_log lg1 _).
  set (lg2 := set_lh_n (Z.of_nat (length (absorbed bs b))) lg1).
  assert ((if Z.of_nat (absorb (log s) b) =? lh_n (log s)
           then upd_log (set_lh_n (lh_n (log s) + 1)) else ret tt) s1 = Ret tt (set_log lg2 s1)) as Hn'.
  { unfold lg2. rewrite <- Hn. destruct (_ =? _); [done|]. unfold s1, lg1. by destruct s as [????????????[]]. }
  eapply wp_step; [exact Hn'|]. eapply wp_step; [reflexivity|].
  eapply wp_intro; [apply (release_top _ []); [done|set_solver]|].
  rewrite keys_absorbed. split_and!.
  - apply header_alt. apply header_alt in Hh as Hh'. destruct Hh' as ([A1 A2 A3 A4] & Hlb & _).
    split_and!; [|by apply loggable_absorbed|done|done].
    split; simpl; [done..|by rewrite length_insert].
  - done.
  - rewrite <- Hheld. exact (cache_log _ _ _ lg2 _ (cache_pin _ _ _ _ _ _ Hc Hi)).
  - rewrite <- Hheld. eapply lstep_quiet; [apply (lstep_log lg2)|]. apply lstep_bstep.
    exact (bstep_bufs (set_log lg2 s)
      (alter (fun b => set_b_flags (Z.lor (b_flags b) B_DIRTY) b) i (bufs s))).
Qed.

(** [begin_op] when nothing is in progress. *)
Lemma begin_op_spec bs H V D s :
  header bs (log s) -> cache H V D s -> l_committing (log s) = false ->
  Z.of_nat (length bs) + (l_outstanding (log s) + 1) * MAXOPBLOCKS <= LOGSIZE ->
  wp begin_op (fun _ s' => s' = set_log (set_l_outstanding (l_outstanding (log s) + 1) (log s)) s) s.
Proof.
  intros Hh Hc Hcm Hres. pose proof (c_held _ _ _ _ Hc) as Hheld. unfold begin_op, begin_op_loop.
  eapply wp_step; [apply acquire_eq; rewrite Hheld; set_solver|]. rewrite Hheld.
  eapply wp_step; [reflexivity|]. simpl. rewrite Hcm, (h_n _ _ Hh).
  destruct (Z.ltb_spec LOGSIZE (Z.of_nat (length bs) + (l_outstanding (log s) + 1) * MAXOPBLOCKS)); [lia|].
  eapply wp_step; [reflexivity|].
  eapply wp_intro; [apply (release_top _ []); [done|set_solver]|]. rewrite <- Hheld. by destruct s.
Qed.

Lemma commit_nil s : header [] (log s) -> commit s = Ret tt s.
Proof. intros Hh. unfold commit, bind, get. by rewrite (h_n _ _ Hh). Qed.

(** [s'] is [s] with the transaction on [bs] committed, contents [V]. *)
Definition committed bs V s s' : Prop :=
  exists ws V', header [] (log s') /\ cache ∅ V' ∅ s' /\ (forall k, ~ in_log k -> V' k = V k) /\
    lstep ws s s' /\
    (ws = [] /\ bs = [] \/ exists hd hd0, encodes hd bs /\ encodes hd0 [] /\
       ws = commit_writes V bs hd hd0).

(** [end_op] of the last operation in progress. *)
Lemma end_op_spec bs V s :
  header bs (log s) -> cache ∅ V (keys bs) s -> l_committing (log s) = false ->
  l_outstanding (log s) = 1 ->
  wp end_op (fun _ s' => committed bs V s s' /\ l_committing (log s') = false /\
    l_outstanding (log s') = 0) s.
Proof.
  intros Hh Hc Hcm Hout. pose proof (c_held _ _ _ _ Hc) as Hheld. unfold end_op.
  eapply wp_step; [apply acquire_eq; rewrite Hheld; set_solver|]. rewrite Hheld.
  eapply wp_step; [reflexivity|]. eapply wp_step; [reflexivity|]. simpl. rewrite Hcm, Hout. simpl.
  eapply wp_step; [reflexivity|]. eapply wp_step; [apply (release_top _ []); [done|set_solver]|].
  rewrite <- Hheld. set (lg1 := set_l_committing true _). set (s1 := set_held _ _).
  assert (s1 = set_log lg1 s) as -> by (by destruct s).
  assert (header bs lg1) as Hh1 by (destruct Hh; by split).
  assert (forall s2, committed bs V s s2 -> same_ops lg1 (log s2) ->
    wp (acquire L_log ;;; upd_log (set_l_committing false) ;;; wakeup Ch_log ;;; release L_log)
      (fun _ s' => committed bs V s s' /\ l_committing (log s') = false /\
        l_outstanding (log s') = 0) s2) as Htail.
  { intros s2 (ws & V' & H1 & H2 & H3 & H4 & H5) [H6 _].
    eapply wp_intro; [apply finish_commit_eq; apply H2|]. split_and!; [|done|done].
    exists ws, V'. split_and!; [simpl; destruct H1; by split| |done| |done].
    - apply (cache_procs _ _ _ _ (set_log _ s2)); [apply procs_le_wake|by apply cache_log].
    - rewrite <- (app_nil_r ws). eapply lstep_trans; [exact H4|].
      eapply lstep_quiet; [apply lstep_log|]. apply lstep_bstep.
      pose proof (bstep_intro (set_log (set_l_committing false (log s2)) s2) _ (bufs s2)
        (procs_le_wake Ch_log (procs s2))) as Hb. destruct s2. exact Hb. }
  apply wp_bind. destruct (decide (bs = [])) as [->|Hne].
  - eapply wp_intro; [by apply commit_nil|].
    apply Htail; [|done]. exists [], V. split_and!; [done|by apply cache_log|done|apply lstep_log|by left].
  - eapply wp_mono; [eapply (commit_spec bs V); [done|by apply cache_log|done]|].
    intros [] s2 (hd & hd0 & V' & E1 & E2 & H1 & H2 & H3 & H4 & H5).
    apply Htail; [|done]. eexists _, V'. split_and!; [done|done|done| |right; by exists hd, hd0].
    eapply lstep_quiet; [apply lstep_log|exact H5].
Qed.

(** A client: the use of the log that log.c describes, for whole blocks. *)
Definition update (u : Z * list Z) : KM unit :=
  i <- bread dev u.1 ;;
  upd_buf i (set_b_data u.2) ;;;
  log_write i ;;;
  brelse i.
Definition transaction (us : list (Z * list Z)) : KM unit :=
  begin_op ;;; for_each us update ;;; end_op.

Definition updated V (us : list (Z * list Z)) : Z * Z -> list Z :=
  foldl (fun V u => <[(dev, u.1) := u.2]> V) V us.
Definition logs bs (us : list (Z * list Z)) : list Z := foldl (fun bs u => absorbed bs u.1) bs us.

Lemma length_logs bs us : (length (logs bs us) <= length bs + length us)%nat.
Proof.
  revert bs. induction us as [|u us IH]; intros bs; simpl; [lia|].
  etrans; [apply IH|]. unfold absorbed. case_decide; rewrite ?length_app; simpl; lia.
Qed.

Lemma updated_out V us k :
  k ∉ keys (logs [] us) -> updated V us k = V k.
Proof.
  induction us as [|u us IH] using rev_ind; [done|]. unfold updated, logs in *. rewrite !foldl_app. simpl.
  rewrite keys_absorbed, not_elem_of_union, not_elem_of_singleton. intros [H1 H2].
  rewrite fn_lookup_insert_ne by done. auto.
Qed.

Lemma lstep_same ws s s' :
  lstep ws s s' -> disk s' = apply_writes ws (disk s) /\ writes s' = writes s ++ ws.
Proof. intros Hl. by destruct (bstep_same _ _ _ Hl) as (_ & _ & _ & _ & _ & _ & ? & ?). Qed.

Lemma update_spec bs V s u :
  header bs (log s) -> 1 <= l_outstanding (log s) -> cache ∅ V (keys bs) s -> home u.1 ->
  block_ok u.2 -> Z.of_nat (length bs) + 1 < size_ ->
  wp (update u) (fun _ s' => header (absorbed bs u.1) (log s') /\ same_ops (log s) (log s') /\
    cache ∅ (<[(dev, u.1) := u.2]> V) (keys (absorbed bs u.1)) s' /\ lstep [] s s') s.
Proof.
  intros Hh Ho Hc Hb Hok Hlt. unfold update. apply wp_bind. eapply wp_mono.
  { apply (bread_spec ∅ V (keys bs)); [done|lia|apply Hb|done|]. right.
    rewrite map_size_empty, size_keys by apply Hh. unfold NBUF. lia. }
  intros i s1 [Hc1 Hs1]. rewrite insert_empty in Hc1. eapply wp_step; [reflexivity|].
  destruct (bstep_same _ _ _ Hs1) as (_ & _ & _ & Hlg & _).
  assert (cache {[(dev, u.1) := i]} (<[(dev, u.1) := u.2]> V) (keys bs)
    (set_bufs (alter (set_b_data u.2) i (bufs s1)) s1)) as Hc2.
  { apply (cache_write _ _ _ _ _ _ _ _ Hc1 (lookup_singleton_eq _ _)); done. }
  apply wp_bind. eapply wp_mono.
  { eapply (log_write_spec bs); [simpl; by rewrite Hlg|simpl; by rewrite Hlg|exact Hc2
      |apply lookup_singleton_eq|done|done]. }
  intros [] s2 (Hh2 & Hso & Hc3 & Hs2). simpl in Hso. rewrite Hlg in Hso.
  eapply wp_mono; [eapply (brelse_spec _ _ _ _ (dev, u.1)); [exact Hc3|apply lookup_singleton_eq|]|].
  { left. rewrite keys_absorbed. set_solver. }
  intros [] s3 [Hc4 Hs3]. rewrite delete_singleton_eq in Hc4.
  destruct (bstep_same _ _ _ Hs3) as (_ & _ & _ & Hlg3 & _). rewrite Hlg3. split_and!; [done|done|done|].
  eapply lstep_quiet; [apply lstep_bstep, Hs1|].
  eapply lstep_quiet; [apply lstep_bstep, bstep_bufs|].
  eapply lstep_quiet; [exact Hs2|by apply lstep_bstep].
Qed.

Lemma transaction_spec V s us :
  header [] (log s) -> cache ∅ V ∅ s -> l_committing (log s) = false -> l_outstanding (log s) = 0 ->
  10 < size_ -> (length us <= 10)%nat -> Forall (fun u => home u.1 /\ block_ok u.2) us ->
  wp (transaction us) (fun _ s' => committed (logs [] us) (updated V us) s s') s.
Proof.
  intros Hh Hc Hcm Hout Hsz Hlen Hus. unfold transaction.
  apply wp_bind. eapply wp_mono; [eapply begin_op_spec; [done|done|done|]|].
  { rewrite Hout. unfold MAXOPBLOCKS, LOGSIZE, MAXOPBLOCKS. simpl. lia. }
  intros [] s1 ->. rewrite Hout. apply wp_bind. set (s1 := set_log _ s).
  eapply (wp_for_each (fun dn s' => header (logs [] dn) (log s') /\ same_ops (log s1) (log s') /\
    cache ∅ (updated V dn) (keys (logs [] dn)) s' /\ lstep [] s s') update [] us).
  - split_and!; [destruct Hh; by split|done|by apply cache_log|apply lstep_log].
  - intros dn u tl s2 Heq (Hh2 & [Ho2 Hm2] & Hc2 & Hs2). simpl in Heq. subst us.
    apply Forall_app in Hus as [_ Hus]. apply Forall_cons in Hus as [[Hu1 Hu2] _].
    rewrite length_app in Hlen. simpl in Hlen. pose proof (length_logs [] dn). simpl in *.
    eapply wp_mono; [apply (update_spec (logs [] dn) (updated V dn)); [done| |done|done|done|lia]|].
    { rewrite Ho2. simpl. lia. }
    intros [] s3 (Hh3 & [Ho3 Hm3] & Hc3 & Hs3). unfold logs, updated. rewrite !foldl_app.
    split_and!; [done| |done|by eapply lstep_quiet]. split; [by rewrite Ho3, Ho2|by rewrite Hm3, Hm2].
  - intros s2 (Hh2 & [Ho2 Hm2] & Hc2 & Hs2). simpl in *.
    eapply wp_mono; [eapply end_op_spec; [done|done|by rewrite Hm2|by rewrite Ho2]|].
    intros [] s3 [(ws & V' & H1 & H2 & H3 & H4 & H5) _]. exists ws, V'.
    split_and!; [done|done|done|by eapply lstep_quiet|done].
Qed.

(** ** Booting *)

(** A machine that has just been switched on with disk [d], running its first process. *)
Record booted (d : gmap (Z * Z) (list Z)) (s : kstate) : Prop := {
  bt_bufs : bufs s = boot_bufs;
  bt_held : held s = [];
  bt_cur : is_Some (cur s);
  bt_disk : disk s = d;
  bt_log : length (lh_block (log s)) = 30%nat;
  bt_idle : l_committing (log s) = false /\ l_outstanding (log s) = 0
}.

(** main.c and [forkret]. *)
Definition boot_fs : KM unit := binit ;;; initlog dev.

(** A file-system disk. *)
Record good (d : gmap (Z * Z) (list Z)) : Prop := {
  g_start : sb_logstart (decode_sb (on_block d (dev, 1))) = start;
  g_size : sb_nlog (decode_sb (on_block d (dev, 1))) = size_;
  g_sound : sound d;
  g_blocks k : block_ok (on_block d k)
}.

Lemma readsb_spec V s :
  cache ∅ V ∅ s ->
  wp (readsb dev) (fun sb s' => sb = decode_sb (V (dev, 1)) /\ cache ∅ V ∅ s' /\ bstep [] s s') s.
Proof.
  intros Hc. unfold readsb. apply wp_bind. eapply wp_mono.
  { apply (bread_spec ∅ V ∅); [done|lia|done|done|]. right. rewrite map_size_empty, size_empty.
    unfold NBUF. lia. }
  intros i s1 [Hc1 Hs1]. rewrite insert_empty in Hc1. eapply wp_step; [reflexivity|].
  rewrite (cache_data _ _ _ _ _ _ Hc1 (lookup_singleton_eq _ _)).
  destruct (bstep_same _ _ _ Hs1) as (_ & _ & _ & _ & _ & _ & Hd1 & _).
  apply wp_bind. eapply wp_mono; [eapply (brelse_spec _ _ _ _ (dev, 1)); [done|apply lookup_singleton_eq|]|].
  { right. rewrite Hd1. destruct (c_disk _ _ _ _ Hc (dev, 1)) as [?|[[? ?]|?]];
      [set_solver|by simplify_map_eq|done]. }
  intros [] s2 [Hc2 Hs2]. rewrite delete_singleton_eq in Hc2.
  apply wp_ret. split_and!; [done|done|by eapply bstep_quiet].
Qed.

Lemma boot_spec d s :
  good d -> booted d s ->
  wp boot_fs (fun _ s' => exists bs hd0, loggable bs /\ encodes (on_block d hkey) bs /\
    encodes hd0 [] /\ header [] (log s') /\ same_ops (log s) (log s') /\
    cache ∅ (<[hkey := hd0]> (installed (on_block d) bs)) ∅ s' /\
    lstep (iwrites (on_block d) bs ++ [(hkey, hd0)]) s s') s.
Proof.
  intros [G1 G2 (bs & Hbs & Henc) G4] [B1 B2 B3 B4 B5 B6]. unfold boot_fs.
  apply wp_bind. eapply wp_mono; [apply binit_spec; [done|done|done|by rewrite B4]|].
  rewrite B4. intros [] s1 [Hc1 Hs1]. unfold initlog. simpl.
  destruct (bstep_same _ _ _ Hs1) as (_ & _ & _ & Hlg1 & _).
  apply wp_bind. eapply wp_mono; [by apply readsb_spec|]. intros sb s2 (-> & Hc2 & Hs2).
  destruct (bstep_same _ _ _ Hs2) as (_ & _ & _ & Hlg2 & _).
  rewrite G1, G2. rewrite !i32_small by lia.
  do 3 (eapply wp_step; [reflexivity|]). simpl.
  eapply wp_mono; [eapply (recover_spec bs); [|done|exact Henc|apply cache_log, cache_log, cache_log, Hc2]|].
  { split; simpl; [done..|]. by rewrite Hlg2, Hlg1. }
  intros [] s3 (hd0 & He0 & Hh & Hc3 & Hso & Hs3). exists bs, hd0. split_and!; try done.
  - simpl in Hso. rewrite Hlg2, Hlg1 in Hso. done.
  - eapply lstep_quiet; [apply lstep_bstep, (bstep_quiet _ _ _ Hs1 Hs2)|].
    eapply lstep_quiet; [apply lstep_log|]. exact Hs3.
Qed.

(** Writes that leave the superblock and the block size alone. *)
Definition benign (ws : list (Z * Z * list Z)) : Prop :=
  Forall (fun w => w.1 <> (dev, 1) /\ block_ok w.2) ws.

Lemma benign_good ws d :
  benign ws -> good d -> sound (apply_writes ws d) -> good (apply_writes ws d).
Proof.
  intros Hw [G1 G2 _ G4] Hs. unfold benign in Hw. rewrite Forall_forall in Hw.
  assert (on_block (apply_writes ws d) (dev, 1) = on_block d (dev, 1)) as E.
  { apply on_writes_out. intros (w & Ew & Hin)%list_elem_of_fmap. by destruct (Hw w Hin). }
  split; [by rewrite E|by rewrite E|done|].
  clear -Hw G4. revert d G4. induction ws as [|w ws IH]; intros d G4 k; [done|]. simpl.
  apply IH; [intros; apply Hw; by right|]. intros k'. rewrite on_block_insert. case_decide; [|done].
  apply Hw. by left.
Qed.

Lemma benign_iwrites V bs : loggable bs -> (forall k, block_ok (V k)) -> benign (iwrites V bs).
Proof.
  intros [_ _ Hh] Hv. apply Forall_forall. intros w (t & b & -> & Hb)%elem_of_lookup_imap.
  split; [|apply Hv]. simpl. intros [= ->].
  by destruct (Forall_lookup_1 _ _ _ _ Hh Hb) as ([_ ?] & _).
Qed.

Lemma benign_head hd bs : encodes hd bs -> benign [(hkey, hd)].
Proof. intros [Hb _ _]. apply Forall_singleton. split; [|done]. unfold hkey. simpl. intros [= ?]. lia. Qed.

Lemma benign_commit V bs hd hd0 :
  loggable bs -> encodes hd bs -> encodes hd0 [] -> (forall k, block_ok (V k)) ->
  benign (commit_writes V bs hd hd0).
Proof.
  intros Hbs He He0 Hv. unfold commit_writes. apply Forall_app_2.
  { apply Forall_forall. intros w Hw. destruct (lwrites_key _ _ _ Hbs Hw) as (t & b & _ & -> & _).
    split; [|apply Hv]. unfold logblock. simpl. intros [= ?]. lia. }
  apply Forall_app_2; [by eapply benign_head|]. apply Forall_app_2; [|by eapply benign_head].
  apply Forall_forall. intros w (t & b & Hb & ->)%hwrites_key. split; [|apply Hv]. simpl. intros [= ->].
  by destruct (Forall_lookup_1 _ _ _ _ (lb_home _ Hbs) Hb) as ([_ ?] & _).
Qed.

Lemma benign_prefix ws ws' : ws `prefix_of` ws' -> benign ws' -> benign ws.
Proof. intros [k ->]. unfold benign. rewrite Forall_app. tauto. Qed.

(** Every prefix of what recovery writes keeps the logical disk. *)
Lemma recovery_prefix bs d hd0 ws :
  good d -> loggable bs -> encodes (on_block d hkey) bs -> encodes hd0 [] ->
  ws `prefix_of` iwrites (on_block d) bs ++ [(hkey, hd0)] ->
  good (apply_writes ws d) /\ (forall k, ~ in_log k -> logical (apply_writes ws d) k = logical d k).
Proof.
  intros Hg Hbs He He0 Hp.
  assert (benign ws) as Hbn.
  { eapply benign_prefix; [exact Hp|]. apply Forall_app_2; [|by eapply benign_head].
    apply benign_iwrites; [done|apply Hg]. }
  assert (forall ws, ws `prefix_of` iwrites (on_block d) bs ->
    encodes (on_block (apply_writes ws d) hkey) bs /\
    (forall k, logical (apply_writes ws d) k = logical d k)) as Hinst.
  { intros ws' Hws'. apply logical_install; [done|done|]. intros w Hw.
    eapply prefix_elem in Hw; [|exact Hws'].
    apply elem_of_lookup_imap in Hw as (t & b & -> & Hb). eauto. }
  apply prefix_app_cases in Hp as [Hp|(ws' & -> & [->| ->]%prefix_singleton)].
  - destruct (Hinst ws Hp) as [H1 H2]. split; [|by intros; apply H2]. apply benign_good; [done|done|by exists bs].
  - rewrite app_nil_r in *. destruct (Hinst (iwrites (on_block d) bs)) as [H1 H2]; [done|].
    split; [|by intros; apply H2]. apply benign_good; [done|done|by exists bs].
  - assert (encodes (on_block (apply_writes (iwrites (on_block d) bs ++ [(hkey, hd0)]) d) hkey) []) as E.
    { rewrite apply_writes_app. simpl. by rewrite on_block_insert, decide_True. }
    split; [apply benign_good; [done|done|]; exists []; split; [apply nil_loggable|done]|].
    intros k Hk. rewrite logical_nil by done. rewrite apply_writes_app. simpl.
    rewrite on_block_insert, decide_False by (intros <-; apply Hk, hkey_in).
    unfold logical. rewrite (encodes_blocks _ _ He).
    destruct (decide (k ∈ keys bs)) as [Hin|Hout].
    + apply elem_of_keys in Hin as [E1 Hin]. destruct k as [d' b]. simpl in *. subst d'.
      apply list_elem_of_lookup in Hin as [t Ht]. rewrite (installed_in _ _ t) by (done || apply Hbs).
      apply on_writes_in.
      * apply list_elem_of_fmap. exists ((dev, b), on_block d (logblock t)). split; [done|].
        apply elem_of_lookup_imap. eauto.
      * intros w (t' & b' & -> & Hb')%elem_of_lookup_imap [= ->]. simpl.
        by rewrite (NoDup_lookup _ _ _ _ (lb_nodup _ Hbs) Ht Hb').
    + rewrite installed_out by done. apply on_writes_out.
      intros (w & -> & Hw)%list_elem_of_fmap. apply elem_of_lookup_imap in Hw as (t & b & -> & Hb).
      apply Hout, elem_of_keys. split; [done|]. by eapply list_elem_of_lookup_2.
Qed.

(** ** Crashes, repeated crashes, and what is on the disk afterwards *)

(** [interrupted d d']: from [d] the machine was booted any number of times and
    lost power during each recovery, after some of the writes. *)
Inductive interrupted (d : gmap (Z * Z) (list Z)) : gmap (Z * Z) (list Z) -> Prop :=
| no_boot : interrupted d d
| one_more d1 s s' ws ws1 :
    interrupted d d1 -> booted d1 s -> boot_fs s = Ret tt s' -> writes s' = writes s ++ ws ->
    ws1 `prefix_of` ws -> interrupted d (apply_writes ws1 d1).

Lemma interrupted_logical d d' :
  good d -> interrupted d d' ->
  good d' /\ (forall k, ~ in_log k -> logical d' k = logical d k).
Proof.
  intros Hg Hint. induction Hint as [|d1 s s' ws ws1 _ [Hg1 IH] Hb Hrun Hws Hp]; [done|].
  destruct (wp_inv _ _ _ (boot_spec d1 s Hg1 Hb)) as ([] & s2 & Hrun2 & bs & hd0 & H1 & H2 & H3 & _ & _ & _ & Hl).
  rewrite Hrun in Hrun2. injection Hrun2 as <-. destruct (lstep_same _ _ _ Hl) as [_ Hw].
  rewrite Hws in Hw. apply app_inv_head in Hw as ->.
  destruct (recovery_prefix bs d1 hd0 ws1) as [Hg2 Hl2]; [done..|]. split; [done|].
  intros k Hk. by rewrite Hl2, IH.
Qed.

Lemma boot_recovers d s :
  good d -> booted d s ->
  wp boot_fs (fun _ s' => (forall k, ~ in_log k -> on_block (disk s') k = logical d k) /\
    header [] (log s') /\ same_ops (log s) (log s') /\
    exists V ws, (forall k, ~ in_log k -> V k = logical d k) /\ cache ∅ V ∅ s' /\ lstep ws s s' /\
      good (disk s') /\ encodes (on_block (disk s') hkey) [] /\
      forall ws1, ws1 `prefix_of` ws -> good (apply_writes ws1 d) /\
        (forall k, ~ in_log k -> logical (apply_writes ws1 d) k = logical d k)) s.
Proof.
  intros Hg Hb. eapply wp_mono; [by apply boot_spec|].
  intros [] s' (bs & hd0 & H1 & H2 & H3 & H4 & H5 & H6 & H7).
  destruct (lstep_same _ _ _ H7) as [Hd _]. rewrite (bt_disk _ _ Hb) in Hd.
  assert (forall k, ~ in_log k -> <[hkey := hd0]> (installed (on_block d) bs) k = logical d k) as Hv.
  { intros k Hk. rewrite fn_lookup_insert_ne by (intros <-; apply Hk, hkey_in).
    unfold logical. by rewrite (encodes_blocks _ _ H2). }
  assert (forall k, on_block (disk s') k = <[hkey := hd0]> (installed (on_block d) bs) k) as Hdv.
  { intros k. destruct (c_disk _ _ _ _ H6 k) as [?|[[? ?]|?]]; [set_solver|by simplify_map_eq|done]. }
  split_and!; [|done|done|].
  - intros k Hk. rewrite Hdv. auto.
  - eexists _, _. split_and!; [exact Hv|exact H6|exact H7| | |].
    + rewrite Hd. by apply (recovery_prefix bs d hd0).
    + by rewrite Hdv, fn_lookup_insert.
    + intros ws1 Hp. by apply (recovery_prefix bs d hd0).
Qed.

(** The disk that a crash after the writes [ws1] leaves has the old contents or the new. *)
Lemma transaction_prefix d s us :
  good d -> booted d s -> 10 < size_ -> (length us <= 10)%nat ->
  Forall (fun u => home u.1 /\ block_ok u.2) us ->
  wp (boot_fs ;;; transaction us) (fun _ s' =>
    (forall k, ~ in_log k -> on_block (disk s') k = updated (logical d) us k) /\
    exists ws, writes s' = writes s ++ ws /\ forall ws1, ws1 `prefix_of` ws ->
      good (apply_writes ws1 d) /\
      ((forall k, ~ in_log k -> logical (apply_writes ws1 d) k = logical d k) \/
       (forall k, ~ in_log k -> logical (apply_writes ws1 d) k = updated (logical d) us k))) s.
Proof.
  intros Hg Hb Hsz Hlen Hus. apply wp_bind. eapply wp_mono; [by apply boot_recovers|].
  intros [] s1 (Hd1 & Hh1 & [Ho1 Hm1] & V & ws0 & HV & Hc1 & Hs1 & Hg1 & He1 & Hpre).
  destruct (bt_idle _ _ Hb) as [Hi1 Hi2]. destruct (lstep_same _ _ _ Hs1) as [Edisk Ew1].
  rewrite (bt_disk _ _ Hb) in Edisk.
  eapply wp_mono; [eapply (transaction_spec V); [done|done|congruence|congruence|done|done|done]|].
  intros [] s2 (ws & V' & Hh2 & Hc2 & HV' & Hs2 & Hws). destruct (lstep_same _ _ _ Hs2) as [Ed2 Ew2].
  assert (forall k, ~ in_log k -> updated V us k = updated (logical d) us k) as HVu.
  { clear -HV. intros k Hk. unfold updated. induction us as [|u us IH] using rev_ind; [by apply HV|].
    rewrite !foldl_app. simpl. unfold insert, fn_insert. by case_decide. }
  split.
  { intros k Hk. rewrite <- HVu, <- HV' by done.
    destruct (c_disk _ _ _ _ Hc2 k) as [?|[[? ?]|?]]; [set_solver|by simplify_map_eq|done]. }
  exists (ws0 ++ ws). split; [by rewrite app_assoc, <- Ew1|].
  intros ws1 [Hp|(ws' & -> & Hp)]%prefix_app_cases.
  { destruct (Hpre ws1 Hp) as [? ?]. split; [done|by left]. }
  rewrite apply_writes_app, <- Edisk.
  destruct Hws as [[-> _]|(hd & hd0 & E1 & E2 & ->)].
  { apply prefix_nil_inv in Hp as ->. split; [done|]. left. intros k Hk.
    rewrite logical_nil by done. auto. }
  assert (loggable (logs [] us)) as Hlb.
  { clear -Hus Hlen Hsz Hdev Hstart Hsize Hend Hlogdisk Hsbdisk. 
    induction us as [|u us IH] using rev_ind; [apply nil_loggable|]. unfold logs. rewrite foldl_app.
    apply Forall_app in Hus as [Hus Hu]. apply Forall_singleton in Hu as [Hu _].
    rewrite length_app in Hlen. simpl in *. pose proof (length_logs [] us). simpl in *.
    apply loggable_absorbed; [apply IH; [lia|done]|done|]. unfold logs in *. lia. }
  destruct (commit_prefix (updated V us) (logs [] us) hd hd0 (disk s1) ws') as [Hs Hon]; [done..| |done|].
  { intros k Hk Hnl. rewrite Hd1, updated_out by done. symmetry. auto. }
  split.
  - apply benign_good; [|done|done]. eapply benign_prefix; [exact Hp|].
    apply benign_commit; [done..|]. intros k. clear -Hus Hc1. unfold updated.
    induction us as [|u us IH] using rev_ind; [apply Hc1|]. rewrite foldl_app. simpl.
    apply Forall_app in Hus as [Hus Hu]. apply Forall_singleton in Hu as [_ Hu].
    unfold insert, fn_insert. case_decide; auto.
  - destruct Hon as [Hon|Hon]; [left|right]; intros k Hk; rewrite Hon by done; auto.
Qed.
End log_spec.

(** ** The theorems *)

(** Where the log is on the disk. *)
Record geometry `{DiskDriver} (dev start size_ : Z) : Prop := {
  geo_dev : 0 < dev < 2 ^ 31;
  geo_start : 1 < start;
  geo_size : 10 < size_ <= 30;
  geo_end : start + size_ < 2 ^ 31;
  geo_log j : 0 <= j < size_ -> on_disk dev (start + j);
  geo_sb : on_disk dev 1
}.

(** C1: transactions are atomic across crashes.  Boot a disk whose log is well
    formed, then update up to MAXOPBLOCKS blocks between [begin_op] and [end_op].
    The calls return, and the blocks are then on the disk.  If instead the power
    fails after any number of the block writes, and fails again during any number
    of recoveries, the recovery that completes leaves either every block as it was
    before the transaction or every block as the transaction wrote it. *)
Theorem transaction_crash_atomic `{DD : DiskDriver} dev start size_ d s us :
  geometry dev start size_ -> good dev start size_ d -> booted d s -> (length us <= 10)%nat ->
  Forall (fun u => home dev start size_ u.1 /\ block_ok u.2) us ->
  let old := logical dev start d in
  let new := updated dev old us in
  wp (boot_fs dev ;;; transaction dev us) (fun _ s' =>
    (forall k, ~ in_log dev start size_ k -> on_block (disk s') k = new k) /\
    forall ws ws1 d1 s1, writes s' = writes s ++ ws -> ws1 `prefix_of` ws ->
      interrupted dev (apply_writes ws1 d) d1 -> booted d1 s1 ->
      wp (boot_fs dev) (fun _ s2 =>
        (forall k, ~ in_log dev start size_ k -> on_block (disk s2) k = old k) \/
        (forall k, ~ in_log dev start size_ k -> on_block (disk s2) k = new k)) s1) s.
Proof.
  intros [G1 G2 G3 G4 G5 G6] Hg Hb Hlen Hus old new.
  eapply wp_mono; [eapply (transaction_prefix dev start size_); (done || lia)|].
  intros [] s' [Hnew (ws & Hw & Hpre)]. split; [done|].
  intros ws' ws1 d1 s1 Hw' Hp Hint Hb1. rewrite Hw in Hw'. apply app_inv_head in Hw' as <-.
  destruct (Hpre ws1 Hp) as [Hg1 Hon].
  destruct (interrupted_logical dev start size_) with (d := apply_writes ws1 d) (d' := d1)
    as [Hg2 Hl2]; try (done || lia).
  eapply wp_mono; [eapply (boot_recovers dev start size_); (done || lia)|].
  intros [] s2 (Hd2 & _). destruct Hon as [Hon|Hon]; [left|right]; intros k Hk;
    rewrite Hd2, Hl2, Hon by done; done.
Qed.

(** C2: recovery is idempotent.  However often the power fails during recovery, a
    recovery that completes gives the same disk outside the log as one that is
    never interrupted. *)
Theorem recovery_idempotent `{DD : DiskDriver} dev start size_ d d1 s s1 :
  geometry dev start size_ -> good dev start size_ d -> booted d s ->
  interrupted dev d d1 -> booted d1 s1 ->
  exists s' s1', boot_fs dev s = Ret tt s' /\ boot_fs dev s1 = Ret tt s1' /\
    forall k, ~ in_log dev start size_ k -> on_block (disk s1') k = on_block (disk s') k.
Proof.
  intros [G1 G2 G3 G4 G5 G6] Hg Hb Hint Hb1.
  destruct (interrupted_logical dev start size_) with (d := d) (d' := d1) as [Hg1 Hl1]; try (done || lia).
  assert (forall d s, good dev start size_ d -> booted d s -> exists s', boot_fs dev s = Ret tt s' /\
    forall k, ~ in_log dev start size_ k -> on_block (disk s') k = logical dev start d k) as Hboot.
  { intros d0 s0 Hg0 Hb0. eapply (boot_recovers dev start size_), wp_inv in Hb0 as ([] & s' & Hr & Hd & _);
      (done || lia || eauto). }
  destruct (Hboot d s Hg Hb) as (s' & Hr & Hd), (Hboot d1 s1 Hg1 Hb1) as (s1' & Hr1 & Hd1).
  exists s', s1'. split_and!; [done|done|]. intros k Hk. by rewrite Hd, Hd1, Hl1.
Qed.

(** ** A concrete disk: FSSIZE blocks in memory, the log in blocks 2 to 31 *)

Definition demo_sb : list Z :=
  le_bytes 4 1000 ++ le_bytes 4 941 ++ le_bytes 4 200 ++ le_bytes 4 30 ++ le_bytes 4 2 ++
  le_bytes 4 32 ++ le_bytes 4 58 ++ replicate 484 0.
Definition demo_disk : gmap (Z * Z) (list Z) := {[(1, 1) := demo_sb]}.
Definition fresh (d : gmap (Z * Z) (list Z)) : kstate :=
  mkK [] [null_proc] (Some O) 1 (Some O) ∅ 0 true boot_bufs d [] (mkLog 0 0 0 false 0 0 (replicate 30 0))
    (mkSb 0 0 0 0 0 0 0) [] [] ∅ [] 0 null_console 0.

Lemma demo_geometry : geometry (H := memide_driver 512000) 1 2 30.
Proof.
  split; [lia|lia|lia|lia|intros j Hj; split; [done|]|split; [done|]];
    change (u32 (disksize 512000)) with 1000; lia.
Qed.

Lemma demo_block k : on_block demo_disk k = if decide (k = (1, 1)) then demo_sb else zero_block.
Proof.
  unfold on_block, demo_disk, disk_get. rewrite <- surjective_pairing. case_decide as E.
  - subst. by rewrite lookup_singleton_eq.
  - by rewrite lookup_singleton_ne.
Qed.

Lemma demo_good : good (DD := memide_driver 512000) 1 2 30 demo_disk.
Proof.
  assert (block_ok zero_block) as Hz by (split; [done|]; by apply Forall_replicate).
  assert (block_ok demo_sb) as Hs by (split; [done|]; by apply (bool_decide_unpack _)).
  split; [done|done| |].
  - exists []. split; [by apply nil_loggable|]. split; [done|done|done].
  - intros k. rewrite demo_block. by case_decide.
Qed.

Lemma fresh_booted d : booted d (fresh d).
Proof. by split. Qed.

Definition sevens : list Z := replicate 512 7.

Lemma demo_home b : 31 < b < 1000 -> home (DD := memide_driver 512000) 1 2 30 b.
Proof.
  intros Hb. split; [lia|]. split; [intros [_ ?]; simpl in *; lia|]. split; [done|].
  change (u32 (disksize 512000)) with 1000. lia.
Qed.

Lemma sevens_ok : block_ok sevens.
Proof. split; [done|]. by apply Forall_replicate. Qed.

Lemma demo_updates :
  Forall (fun u => home (DD := memide_driver 512000) 1 2 30 u.1 /\ block_ok u.2) [(100, sevens); (101, sevens)].
Proof. apply Forall_cons_2; [|apply Forall_singleton]; (split; [by apply demo_home|exact sevens_ok]). Qed.

Lemma transaction_crash_atomic_witness :
  exists s', (boot_fs (DD := memide_driver 512000) 1 ;;;
              transaction (DD := memide_driver 512000) 1 [(100, sevens); (101, sevens)])
               (fresh demo_disk) = Ret tt s'
    /\ on_block (disk s') (1, 100) = sevens /\ on_block (disk s') (1, 101) = sevens
    /\ on_block (disk s') (1, 102) = zero_block.
Proof.
  destruct (wp_inv _ _ _ (transaction_crash_atomic (DD := memide_driver 512000) 1 2 30 demo_disk
    (fresh demo_disk) [(100, sevens); (101, sevens)] demo_geometry demo_good (fresh_booted _)
    ltac:(simpl; lia) demo_updates)) as ([] & s' & Hr & Hd & _).
  exists s'. split; [exact Hr|].
  split_and!; rewrite Hd by (intros [_ ?]; simpl in *; lia); vm_compute; reflexivity.
Defined.

(** A disk on which a transaction was committed and not yet installed. *)
Definition demo_head : list Z := le_bytes 4 1 ++ le_bytes 4 100 ++ replicate 504 0.
Definition demo_disk1 : gmap (Z * Z) (list Z) := <[(1, 2) := demo_head]> (<[(1, 3) := sevens]> demo_disk).

Lemma demo_good1 : good (DD := memide_driver 512000) 1 2 30 demo_disk1.
Proof.
  assert (block_ok demo_head) as Hs by (split; [done|]; by apply (bool_decide_unpack _)).
  split; [by vm_compute|by vm_compute| |].
  - exists [100]. split.
    + split; [done|apply NoDup_singleton|apply Forall_singleton, demo_home; lia].
    + unfold demo_disk1, hkey. rewrite on_block_insert, decide_True by done. split; [done|done|].
      intros i b Hi. apply list_lookup_singleton_Some in Hi as [-> <-]. by vm_compute.
  - intros k. unfold demo_disk1. rewrite on_block_insert. case_decide; [done|].
    rewrite on_block_insert. case_decide; [apply sevens_ok|]. apply demo_good.
Qed.

Lemma demo_boots :
  exists s', boot_fs (DD := memide_driver 512000) 1 (fresh demo_disk1) = Ret tt s'.
Proof.
  destruct demo_geometry as [G1 G2 G3 G4 G5 G6].
  destruct (wp_inv _ _ _ (boot_recovers (DD := memide_driver 512000) 1 2 30 G1 G2 ltac:(lia) G4 G5 G6
    _ _ demo_good1 (fresh_booted _))) as ([] & s' & Hr & _). by exists s'.
Qed.

Lemma recovery_idempotent_witness :
  exists after_crash s' s1',
    boot_fs (DD := memide_driver 512000) 1 (fresh demo_disk1) = Ret tt s' /\
    after_crash = apply_writes (take 1 (writes s')) demo_disk1 /\
    boot_fs (DD := memide_driver 512000) 1 (fresh after_crash) = Ret tt s1' /\
    on_block (disk s1') (1, 100) = on_block (disk s') (1, 100).
Proof.
  destruct demo_boots as [s' Hr].
  destruct (recovery_idempotent (DD := memide_driver 512000) 1 2 30 demo_disk1
    (apply_writes (take 1 (writes s')) demo_disk1) (fresh demo_disk1)
    (fresh (apply_writes (take 1 (writes s')) demo_disk1))) as (s'' & s1' & H1 & H2 & H3).
  - exact demo_geometry.
  - exact demo_good1.
  - apply fresh_booted.
  - exact (one_more 1 demo_disk1 demo_disk1 (fresh demo_disk1) s' (writes s') (take 1 (writes s'))
      (no_boot _ _) (fresh_booted _) Hr eq_refl (prefix_take _ _)).
  - apply fresh_booted.
  - rewrite Hr in H1. injection H1 as <-. eexists _, s', s1'.
    split_and!; [exact Hr|reflexivity|exact H2|]. apply H3. intros [_ ?]. simpl in *. lia.
Defined.

(** ** A full log *)

(** The process that runs changes. *)
Definition as_proc {A} (p : nat) (m : KM A) : KM A := modify (set_cur (Some p)) ;;; m.

Lemma cache_as_proc V D s p : cache ∅ V D s -> cache ∅ V D (set_cur (Some p) s).
Proof.
  intros [C1 C2 C3 C4 C5 C6 C7 C8 C9]. split; try done.
Qed.

Section full.
Context `{DD : DiskDriver} (dev start size_ : Z) (G : geometry dev start size_).
Notation header := (header dev start size_).
Notation home := (home dev start size_).
Notation keys := (keys dev).

(** The process [u.1] updates a block. *)
Definition update_by (u : nat * (Z * list Z)) : KM unit := as_proc u.1 (update dev u.2).
(** Blocks outside the log. *)
Definition homes (us : list (nat * (Z * list Z))) : Prop := Forall (fun u => home u.2.1 /\ block_ok u.2.2) us.

(** [us] have been logged. *)
Record all_logged (us : list (nat * (Z * list Z))) (s : kstate) : Prop := {
  lg_header : header us.*2.*1 (log s);
  lg_cache : exists V, cache ∅ V (keys us.*2.*1) s;
  lg_open : 1 <= l_outstanding (log s)
}.

Lemma update_logs us u s : all_logged us s -> home u.2.1 -> block_ok u.2.2 -> u.2.1 ∉ us.*2.*1 -> Z.of_nat (length us) + 1 < size_ ->
  wp (update_by u) (fun _ => all_logged (us ++ [u])) s.
Proof.
  intros [Hh [V Hc] Ho] Hb Hok Hn Hlt. pose proof G as []. unfold update_by, as_proc. eapply wp_step; [reflexivity|].
  eapply wp_mono; [eapply (update_spec dev start size_) with (bs := us.*2.*1) (V := V); try (done || lia)|].
  - by apply cache_as_proc.
  - by rewrite !length_fmap.
  - intros [] s' (Hh' & [Ho' _] & Hc' & _). unfold absorbed in *. rewrite decide_False in Hh', Hc' by done.
    split; rewrite ?fmap_app; [done|by eexists|by rewrite Ho'].
Qed.

Lemma updates_logged us : forall dn s, all_logged dn s -> homes us -> NoDup (dn ++ us).*2.*1 -> Z.of_nat (length (dn ++ us)) < size_ ->
  wp (for_each us update_by) (fun _ => all_logged (dn ++ us)) s.
Proof.
  induction us as [|u us IH]; intros dn s Hl Hh Hnd Hlt; cbn [for_each]; [apply wp_ret; by rewrite app_nil_r|].
  apply Forall_cons in Hh as [[Hb Hok] Hh]. replace (dn ++ u :: us) with ((dn ++ [u]) ++ us) in * by (by rewrite <- app_assoc).
  eapply wp_chain; [apply (update_logs dn u s Hl Hb Hok)|intros [] s' Hl'; by apply IH].
  - rewrite !fmap_app in Hnd. apply NoDup_app in Hnd as [[_ [Hd _]]%NoDup_app _]. intros Hin. apply (Hd _ Hin). by left.
  - rewrite !length_app in Hlt. cbn in Hlt. lia.
Qed.

(** With all but one of its blocks in use the log takes no other. *)
Lemma update_full us u s : all_logged us s -> home u.2.1 -> Z.of_nat (length us) = size_ - 1 -> update_by u s = Panic "too big a transaction".
Proof.
  intros [Hh [V Hc] Ho] Hb Hlen. pose proof G as []. apply (cache_as_proc _ _ _ u.1) in Hc.
  destruct (wp_inv _ _ _ (bread_spec ∅ V (keys us.*2.*1) (set_cur (Some u.1) s) dev u.2.1 Hc ltac:(lia) ltac:(apply Hb) ltac:(done)
    ltac:(right; rewrite map_size_empty, (size_keys dev) by apply Hh; rewrite !length_fmap; unfold NBUF; lia))) as (i & s1 & Hr & _ & Hs1).
  destruct (bstep_same _ _ _ Hs1) as (_ & _ & _ & Hlg & _). change (log (set_cur (Some u.1) s)) with (log s) in Hlg.
  unfold update_by, as_proc, update. etrans; [eapply bind_eq; reflexivity|]. etrans; [eapply bind_eq; exact Hr|]. etrans; [eapply bind_eq; reflexivity|].
  unfold bind at 1, log_write, bind at 1, get. cbn [log set_bufs]. rewrite Hlg, (h_n _ _ _ _ _ Hh), (h_size _ _ _ _ _ Hh), !length_fmap.
  rewrite (proj2 (Z.leb_le (size_ - 1) _)) by lia. by rewrite orb_true_r.
Qed.

Lemma for_each_app {A} (l1 l2 : list A) (f : A -> KM unit) s s' : for_each l1 f s = Ret tt s' -> for_each (l1 ++ l2) f s = for_each l2 f s'.
Proof.
  revert s. induction l1 as [|x l1 IH]; intros s; cbn [for_each app]; [by intros [= ->]|]. unfold bind. destruct (f x s) as [[] s1|msg|c s1]; [apply IH|done..].
Qed.

(** An operation begins; [n] have begun before it. *)
Lemma begin_another V s p n : header [] (log s) -> cache ∅ V ∅ s -> l_committing (log s) = false -> l_outstanding (log s) = n -> n <= 2 ->
  wp (as_proc p begin_op) (fun _ s' => header [] (log s') /\ cache ∅ V ∅ s' /\ l_committing (log s') = false /\ l_outstanding (log s') = n + 1) s.
Proof.
  intros Hh Hc Hcm Ho Hn. unfold as_proc. eapply wp_step; [reflexivity|]. apply (cache_as_proc _ _ _ p) in Hc.
  pose proof G as []. eapply wp_mono; [eapply (begin_op_spec dev start size_) with (bs := []) (V := V); try (done || lia)|].
  - change (log (set_cur (Some p) s)) with (log s). rewrite Ho. unfold LOGSIZE, MAXOPBLOCKS. cbn [length]. lia.
  - intros [] s' ->. change (log (set_cur (Some p) s)) with (log s). rewrite Ho. split_and!; [destruct Hh; by split|by apply cache_log|done|done].
Qed.
End full.

(** C39: [begin_op] reserves more than the log holds.  With nothing in the log it admits three operations, which may write MAXOPBLOCKS blocks
    each, LOGSIZE blocks together and never fewer than the blocks of the log.  But one of those is the header: whatever different blocks the
    operations then write, in whatever order, all but one of the log's number are taken, one after the other, and the next panics. *)
Theorem reservation_exceeds_log `{DD : DiskDriver} dev start size_ V s (p q r : nat) (us : list (nat * (Z * list Z))) :
  geometry dev start size_ -> header dev start size_ [] (log s) -> cache ∅ V ∅ s -> l_committing (log s) = false -> l_outstanding (log s) = 0 ->
  homes dev start size_ us -> NoDup us.*2.*1 -> Z.of_nat (length us) = size_ ->
  size_ <= 3 * MAXOPBLOCKS /\
  wp (for_each [p; q; r] (fun p => as_proc p begin_op)) (fun _ s1 => l_outstanding (log s1) = 3 /\
    (forall j, (j < length us)%nat -> wp (for_each (take j us) (update_by dev)) (fun _ s' => header dev start size_ (take j us).*2.*1 (log s')) s1) /\
    for_each us (update_by dev) s1 = Panic "too big a transaction") s.
Proof.
  intros G Hh Hc Hcm Ho Hus Hnd Hlen. split; [destruct G; unfold MAXOPBLOCKS; lia|]. cbn [for_each].
  eapply wp_chain; [by apply (begin_another dev start size_ G V s p 0)|]. intros [] s1 (H1 & C1 & M1 & O1).
  eapply wp_chain; [by apply (begin_another dev start size_ G V s1 q 1)|]. intros [] s2 (H2 & C2 & M2 & O2).
  eapply wp_chain; [by apply (begin_another dev start size_ G V s2 r 2)|]. intros [] s3 (H3 & C3 & M3 & O3). apply wp_ret. split; [done|].
  assert (all_logged dev start size_ [] s3) as Hl by (split; [done|by exists V|lia]).
  assert (forall j, (j < length us)%nat -> wp (for_each (take j us) (update_by dev)) (fun _ => all_logged dev start size_ (take j us)) s3) as Hj.
  { intros j Hj. apply (updates_logged dev start size_ G (take j us) [] s3 Hl); [by apply Forall_take|cbn [app]|rewrite length_app, length_take; cbn; lia].
    rewrite !fmap_take. eapply sublist_NoDup; [exact Hnd|apply sublist_take]. }
  split; [intros j Hlt; eapply wp_mono; [by apply Hj|]; by intros [] s' []|].
  destruct us as [|u us _] using rev_ind; [cbn in Hlen; destruct G; lia|]. rewrite length_app in Hlen, Hj. cbn in Hlen, Hj.
  specialize (Hj (length us) ltac:(lia)). rewrite take_app_length in Hj. apply wp_inv in Hj as ([] & s' & Hr & Hl').
  rewrite (for_each_app _ _ _ _ _ Hr). apply Forall_app in Hus as [_ [[Hb _] _]%Forall_cons]. cbn [for_each]. unfold bind.
  by rewrite (update_full dev start size_ G us u s' Hl' Hb) by lia.
Qed.

(** Three processes, ten blocks each. *)
Definition thirty_updates : list (nat * (Z * list Z)) := (fun i => ((i / 10)%nat, (100 + Z.of_nat i, sevens))) <$> seq 0 30.

Lemma reservation_exceeds_log_witness : exists s s1,
  for_each [0; 1; 2]%nat (fun p => as_proc p begin_op) s = Ret tt s1 /\
  for_each thirty_updates (update_by (DD := memide_driver 512000) 1) s1 = Panic "too big a transaction".
Proof.
  destruct demo_geometry as [G1 G2 G3 G4 G5 G6].
  destruct (wp_inv _ _ _ (boot_recovers (DD := memide_driver 512000) 1 2 30 G1 G2 ltac:(lia) G4 G5 G6
    _ _ demo_good (fresh_booted _))) as ([] & s & _ & _ & Hh & [Ho Hcm] & V & ws & _ & Hc & _).
  destruct (reservation_exceeds_log (DD := memide_driver 512000) 1 2 30 V s 0 1 2 thirty_updates demo_geometry Hh Hc Hcm Ho) as [_ Hw].
  - apply Forall_fmap, Forall_forall. intros i Hi%elem_of_seq. cbn. split; [apply demo_home; lia|exact sevens_ok].
  - apply (bool_decide_unpack _). by vm_compute.
  - done.
  - apply wp_inv in Hw as ([] & s1 & Hb & _ & _ & Hp). exists s, s1. split; [exact Hb|exact Hp].
Defined.
