(* ===== verification/Str.v ===== *)
(** * Str: the byte-string routines of the kernel (string.c) and of user programs (ulib.c)

    Memory is a function from addresses to bytes.  A loop that ends at a NUL byte
    takes fuel; [cstr m p l] says that [l] and a NUL are at [p], and the routines
    are specified for every fuel larger than the string. *)

From stdpp Require Import functions base gmap list strings.
From Stdlib Require Import ZArith Lia.
From S2P Require Import Prelude.

Local Open Scope Z_scope.

Definition memory := Z -> Z.

(** [char] is signed. *)
Definition schar (b : Z) : Z := if b <? 128 then b else b - 256.

(** ** x86.h: rep stosb, rep stosl *)

Fixpoint stosb (m : memory) (a : Z) (data : Z) (cnt : nat) : memory :=
  match cnt with
  | O => m
  | S cnt' => stosb (<[a := u8 data]> m) (a + 1) data cnt'
  end.

Fixpoint store_bytes (m : memory) (a : Z) (bs : list Z) : memory :=
  match bs with
  | [] => m
  | b :: bs' => store_bytes (<[a := b]> m) (a + 1) bs'
  end.

Fixpoint stosl (m : memory) (a : Z) (data : Z) (cnt : nat) : memory :=
  match cnt with
  | O => m
  | S cnt' => stosl (store_bytes m a (le_bytes 4 (u32 data))) (a + 4) data cnt'
  end.

(** ** string.c *)

Definition memset (m : memory) (dst c n : Z) : memory :=
  if (Z.rem (i32 dst) 4 =? 0) && (n mod 4 =? 0) then
    let c := Z.land c 255 in
    stosl m dst (Z.lor (Z.lor (Z.lor (Z.shiftl c 24) (Z.shiftl c 16)) (Z.shiftl c 8)) c)
      (Z.to_nat (n / 4))
  else stosb m dst c (Z.to_nat n).

Fixpoint memcmp (m : memory) (s1 s2 : Z) (n : nat) : Z :=
  match n with
  | O => 0
  | S n' => if m s1 =? m s2 then memcmp m (s1 + 1) (s2 + 1) n' else m s1 - m s2
  end.

(** [while(n-- > 0) *--d = *--s;] and [while(n-- > 0) *d++ = *s++;] *)
Fixpoint copy_down (m : memory) (d s : Z) (n : nat) : memory :=
  match n with
  | O => m
  | S n' => copy_down (<[d - 1 := m (s - 1)]> m) (d - 1) (s - 1) n'
  end.
Fixpoint copy_up (m : memory) (d s : Z) (n : nat) : memory :=
  match n with
  | O => m
  | S n' => copy_up (<[d := m s]> m) (d + 1) (s + 1) n'
  end.

Definition memmove (m : memory) (dst src : Z) (n : nat) : memory :=
  if (src <? dst) && (dst <? src + Z.of_nat n)
  then copy_down m (dst + Z.of_nat n) (src + Z.of_nat n) n
  else copy_up m dst src n.

Definition memcpy (m : memory) (dst src : Z) (n : nat) : memory := memmove m dst src n.

Fixpoint strncmp (m : memory) (p q : Z) (n : nat) : Z :=
  match n with
  | O => 0
  | S n' =>
      if negb (m p =? 0) && (m p =? m q) then strncmp m (p + 1) (q + 1) n'
      else m p - m q
  end.

(** The second loop of [strncpy]. *)
Fixpoint zero_fill (m : memory) (s : Z) (n : nat) : memory :=
  match n with
  | O => m
  | S n' => zero_fill (<[s := 0]> m) (s + 1) n'
  end.

Fixpoint strncpy_loop (m : memory) (s t : Z) (n : nat) : memory :=
  match n with
  | O => m
  | S n' =>
      let m' := <[s := m t]> m in
      if m t =? 0 then zero_fill m' (s + 1) n' else strncpy_loop m' (s + 1) (t + 1) n'
  end.
Definition strncpy (m : memory) (s t n : Z) : memory := strncpy_loop m s t (Z.to_nat n).

(** [while(--n > 0 && ( *s++ = *t++) != 0) ;] with [n] the value after the decrement,
    then [*s = 0]. *)
Fixpoint safestrcpy_loop (m : memory) (s t : Z) (n : nat) : memory :=
  match n with
  | O => <[s := 0]> m
  | S n' =>
      let m' := <[s := m t]> m in
      if m t =? 0 then <[s + 1 := 0]> m' else safestrcpy_loop m' (s + 1) (t + 1) n'
  end.
Definition safestrcpy (m : memory) (s t n : Z) : memory :=
  if n <=? 0 then m else safestrcpy_loop m s t (Z.to_nat (n - 1)).

Fixpoint strlen_from (fuel : nat) (m : memory) (s n : Z) : option Z :=
  match fuel with
  | O => None
  | S fuel' => if m (s + n) =? 0 then Some n else strlen_from fuel' m s (n + 1)
  end.
Definition strlen (fuel : nat) (m : memory) (s : Z) : option Z := strlen_from fuel m s 0.

(** ** ulib.c *)

Fixpoint strcpy (fuel : nat) (m : memory) (s t : Z) : option memory :=
  match fuel with
  | O => None
  | S fuel' =>
      let m' := <[s := m t]> m in
      if m t =? 0 then Some m' else strcpy fuel' m' (s + 1) (t + 1)
  end.

Fixpoint strcmp (fuel : nat) (m : memory) (p q : Z) : option Z :=
  match fuel with
  | O => None
  | S fuel' =>
      if negb (m p =? 0) && (m p =? m q) then strcmp fuel' m (p + 1) (q + 1)
      else Some (m p - m q)
  end.

Definition ulib_memset (m : memory) (dst c n : Z) : memory := stosb m dst c (Z.to_nat n).

(** [0] is the null pointer. *)
Fixpoint strchr (fuel : nat) (m : memory) (s c : Z) : option Z :=
  match fuel with
  | O => None
  | S fuel' =>
      if m s =? 0 then Some 0
      else if schar (m s) =? schar c then Some s
      else strchr fuel' m (s + 1) c
  end.

(** The bytes [read(0, &c, 1)] delivers are a list; the rest is returned. *)
Fixpoint gets_loop (m : memory) (buf i : Z) (n : nat) (input : list Z) : memory * Z * list Z :=
  match n with
  | O => (m, i, input)
  | S n' =>
      match input with
      | [] => (m, i, [])
      | c :: input' =>
          let m' := <[buf + i := c]> m in
          if (c =? 10) || (c =? 13) then (m', i + 1, input')
          else gets_loop m' buf (i + 1) n' input'
      end
  end.
Definition gets (m : memory) (buf max : Z) (input : list Z) : memory * list Z :=
  let '(m, i, input) := gets_loop m buf 0 (Z.to_nat (max - 1)) input in
  (<[buf + i := 0]> m, input).

Fixpoint atoi_loop (fuel : nat) (m : memory) (s n : Z) : option Z :=
  match fuel with
  | O => None
  | S fuel' =>
      if (48 <=? schar (m s)) && (schar (m s) <=? 57)
      then atoi_loop fuel' m (s + 1) (i32 (n * 10 + schar (m s) - 48))
      else Some n
  end.
Definition atoi (fuel : nat) (m : memory) (s : Z) : option Z := atoi_loop fuel m s 0.

Definition ulib_memmove (m : memory) (vdst vsrc : Z) (n : Z) : memory :=
  copy_up m vdst vsrc (Z.to_nat n).

(** ** Copying and filling *)

(** Compare the two sides at each address. *)
Ltac bytewise :=
  unfold insert, fn_insert; repeat case_decide; subst; (done || lia || (f_equal; lia) || idtac).

Lemma store_bytes_spec m a l x :
  store_bytes m a l x = if decide (a <= x < a + Z.of_nat (length l)) then default 0 (l !! Z.to_nat (x - a)) else m x.
Proof.
  revert m a. induction l as [|b l IH]; intros m a; cbn [store_bytes length]; [case_decide; [lia|done]|]. rewrite IH.
  destruct (decide (a + 1 <= x < a + 1 + Z.of_nat (length l))).
  - rewrite decide_True by lia. replace (Z.to_nat (x - a)) with (S (Z.to_nat (x - (a + 1)))) by lia. done.
  - destruct (decide (x = a)) as [->|Hn].
    + rewrite (decide_True (P := a <= a < _)) by lia. rewrite Z.sub_diag. by bytewise.
    + rewrite (decide_False (P := a <= x < _)) by lia. by bytewise.
Qed.

Lemma copy_up_spec m d s n a :
  (d <= s \/ s + Z.of_nat n <= d) ->
  copy_up m d s n a = if decide (d <= a < d + Z.of_nat n) then m (s + (a - d)) else m a.
Proof.
  revert m d s. induction n as [|n IH]; intros m d s Hov; [case_decide; [lia|done]|].
  rewrite Nat2Z.inj_succ in *. simpl. rewrite IH by lia. bytewise.
Qed.

Lemma copy_down_spec m d s n a :
  s <= d ->
  copy_down m d s n a = if decide (d - Z.of_nat n <= a < d) then m (s - (d - a)) else m a.
Proof.
  revert m d s. induction n as [|n IH]; intros m d s Hov; [case_decide; [lia|done]|].
  rewrite Nat2Z.inj_succ in *. simpl. rewrite IH by lia. bytewise.
Qed.

Lemma stosb_spec m a c n x :
  stosb m a c n x = if decide (a <= x < a + Z.of_nat n) then u8 c else m x.
Proof.
  revert m a. induction n as [|n IH]; intros m a; [case_decide; [lia|done]|].
  rewrite Nat2Z.inj_succ. simpl. rewrite IH. bytewise.
Qed.

Lemma stosl_spec m a data b n x :
  le_bytes 4 (u32 data) = [b; b; b; b] ->
  stosl m a data n x = if decide (a <= x < a + 4 * Z.of_nat n) then b else m x.
Proof.
  intros Hb. revert m a. induction n as [|n IH]; intros m a; [case_decide; [lia|done]|].
  rewrite Nat2Z.inj_succ. cbn [stosl]. rewrite IH, Hb. cbn [store_bytes].
  bytewise.
Qed.

(** The four bytes of the word [memset] stores. *)
Lemma memset_word c :
  0 <= c < 256 ->
  le_bytes 4 (u32 (Z.lor (Z.lor (Z.lor (Z.shiftl c 24) (Z.shiftl c 16)) (Z.shiftl c 8)) c)) = [c; c; c; c].
Proof.
  intros Hc.
  assert (forallb (fun c => bool_decide (le_bytes 4 (u32 (Z.lor (Z.lor (Z.lor (Z.shiftl c 24)
    (Z.shiftl c 16)) (Z.shiftl c 8)) c)) = [c; c; c; c])) (seqZ 0 256) = true) as Hall by (by vm_compute).
  rewrite forallb_forall in Hall. specialize (Hall c). rewrite bool_decide_eq_true in Hall.
  apply Hall, list_elem_of_In, elem_of_seqZ. lia.
Qed.

Lemma memset_spec m dst c n x :
  0 <= n -> memset m dst c n x = if decide (dst <= x < dst + n) then u8 c else m x.
Proof.
  intros Hn. unfold memset. destruct (_ && _) eqn:E.
  - apply andb_true_iff in E as [_ E%Z.eqb_eq].
    assert (Z.land c 255 = u8 c) as -> by (unfold u8; apply (Z.land_ones c 8); lia).
    assert (0 <= u8 c < 256) by (unfold u8; apply Z.mod_pos_bound; lia).
    rewrite (stosl_spec _ _ _ (u8 c)) by (by apply memset_word).
    rewrite Z2Nat.id by (apply Z.div_pos; lia).
    replace (4 * (n / 4)) with n by (rewrite (Z.div_mod n 4) at 1; lia). done.
  - rewrite stosb_spec, Z2Nat.id by lia. done.
Qed.

Lemma memmove_spec m dst src n a :
  memmove m dst src n a
  = if decide (dst <= a < dst + Z.of_nat n) then m (src + (a - dst)) else m a.
Proof.
  unfold memmove. destruct (_ && _) eqn:E.
  - apply andb_true_iff in E as [E1%Z.ltb_lt E2%Z.ltb_lt]. rewrite copy_down_spec by lia. bytewise.
  - apply andb_false_iff in E as [E%Z.ltb_ge|E%Z.ltb_ge]; rewrite copy_up_spec by lia; done.
Qed.

(** The kernel's block operations do what their names say, for every alignment
    and every overlap: after [memset] the bytes from [dst] are [c] and the others are
    as before; after [memmove] each destination byte is the byte the source had
    before the call, and no other byte changes. *)
Theorem memset_memmove_correct (m : memory) (dst src c : Z) (n : nat) (a : Z) :
  memset m dst c (Z.of_nat n) a = (if decide (dst <= a < dst + Z.of_nat n) then u8 c else m a) /\
  memmove m dst src n a = (if decide (dst <= a < dst + Z.of_nat n) then m (src + (a - dst)) else m a).
Proof. split; [apply memset_spec; lia|apply memmove_spec]. Qed.

(** The [memmove] of ulib.c copies upwards only: it does what the kernel's does
    unless the destination starts inside the source, and then it need not (moving
    the three bytes 1 2 3 up by one address gives 1 1 1). *)
Theorem ulib_memmove_overlap (m : memory) (dst src n : Z) :
  (0 <= n -> ~ (src < dst < src + n) ->
     forall a, ulib_memmove m dst src n a = memmove m dst src (Z.to_nat n) a) /\
  (exists m' a, ulib_memmove m' 101 100 3 a <> memmove m' 101 100 3 a).
Proof.
  split.
  - intros Hn Hov a. rewrite memmove_spec. unfold ulib_memmove. by rewrite copy_up_spec by lia.
  - exists (fun a => a - 99), 103. by vm_compute.
Qed.

(** ** NUL-terminated strings *)

Definition nonzero_byte (b : Z) : Prop := 0 < b < 256.

(** The string [l] and its NUL are at [p]. *)
Record cstr (m : memory) (p : Z) (l : list Z) : Prop := {
  cs_bytes : Forall nonzero_byte l;
  cs_at i b : l !! i = Some b -> m (p + Z.of_nat i) = b;
  cs_nul : m (p + Z.of_nat (length l)) = 0
}.

Lemma cstr_nil m p : cstr m p [] -> m p = 0.
Proof. intros [_ _ H]. simpl in H. by rewrite Z.add_0_r in H. Qed.

Lemma cstr_cons m p b l :
  cstr m p (b :: l) <-> m p = b /\ nonzero_byte b /\ cstr m (p + 1) l.
Proof.
  split.
  - intros [Hb Ha Hn]. apply Forall_cons in Hb as [Hb Hl]. split_and!; [|done|split; [done| |]].
    + specialize (Ha O b eq_refl). simpl in Ha. by rewrite Z.add_0_r in Ha.
    + intros i c Hc. specialize (Ha (S i) c Hc). rewrite <- Ha. f_equal. lia.
    + rewrite <- Hn. f_equal. simpl. lia.
  - intros (H1 & H2 & [Hb Ha Hn]). split; [by constructor| |].
    + intros [|i] c; simpl; intros Hc; [injection Hc as <-; rewrite <- H1; f_equal; lia|].
      rewrite <- (Ha i c Hc). f_equal. lia.
    + rewrite <- Hn. f_equal. simpl. lia.
Qed.

Lemma cstr_frame m m' p l :
  (forall a, p <= a <= p + Z.of_nat (length l) -> m' a = m a) -> cstr m p l -> cstr m' p l.
Proof.
  intros Hf [Hb Ha Hn]. split; [done| |].
  - intros i b Hi. rewrite Hf; [by apply Ha|]. apply lookup_lt_Some in Hi. lia.
  - rewrite Hf; [done|lia].
Qed.

Lemma cstr_head_eqb m p b l : cstr m p (b :: l) -> (m p =? 0) = false /\ m p = b /\ cstr m (p + 1) l.
Proof.
  intros (Hm & Hb & Hl)%cstr_cons. split_and!; [|done|done].
  apply Z.eqb_neq. unfold nonzero_byte in Hb. lia.
Qed.

Lemma strlen_from_spec m s n l fuel :
  cstr m (s + n) l -> (length l < fuel)%nat ->
  strlen_from fuel m s n = Some (n + Z.of_nat (length l)).
Proof.
  revert n fuel. induction l as [|b l IH]; intros n [|fuel] Hc Hf; simpl in *; try lia.
  - rewrite (cstr_nil _ _ Hc). simpl. f_equal. lia.
  - destruct (cstr_head_eqb _ _ _ _ Hc) as (-> & _ & Hc').
    rewrite IH; [f_equal; lia| |lia]. by rewrite Z.add_assoc.
Qed.

(** The order [strcmp] and [strncmp] compute. *)
Fixpoint compare_bytes (l k : list Z) : Z :=
  match l, k with
  | [], [] => 0
  | [], b :: _ => - b
  | a :: _, [] => a
  | a :: l', b :: k' => if a =? b then compare_bytes l' k' else a - b
  end.

Lemma compare_bytes_eq l k :
  Forall nonzero_byte l -> Forall nonzero_byte k -> compare_bytes l k = 0 <-> l = k.
Proof.
  revert k. induction l as [|a l IH]; intros [|b k]; simpl; rewrite ?Forall_cons; unfold nonzero_byte.
  - done.
  - intros _ [Hb _]. split; [lia|done].
  - intros [Ha _] _. split; [lia|done].
  - intros [Ha Hl] [Hb Hk]. destruct (Z.eqb_spec a b) as [->|Hne].
    + rewrite IH by done. split; congruence.
    + split; [lia|congruence].
Qed.

Lemma strcmp_spec m p q l k fuel :
  cstr m p l -> cstr m q k -> (length l < fuel)%nat ->
  strcmp fuel m p q = Some (compare_bytes l k).
Proof.
  revert p q k fuel. induction l as [|a l IH]; intros p q k [|fuel] Hp Hq Hf; simpl in *; try lia.
  - rewrite (cstr_nil _ _ Hp). simpl. destruct k as [|b k].
    + by rewrite (cstr_nil _ _ Hq).
    + by destruct (cstr_head_eqb _ _ _ _ Hq) as (_ & -> & _).
  - destruct (cstr_head_eqb _ _ _ _ Hp) as (-> & -> & Hp'). simpl.
    destruct k as [|b k].
    + rewrite (cstr_nil _ _ Hq), Z.sub_0_r. apply cstr_cons in Hp as (_ & Ha & _).
      destruct (Z.eqb_spec a 0); [unfold nonzero_byte in Ha; lia|done].
    + destruct (cstr_head_eqb _ _ _ _ Hq) as (_ & -> & Hq').
      destruct (a =? b); [apply IH; [done|done|lia]|done].
Qed.

Lemma strncmp_spec m p q l k n :
  cstr m p l -> cstr m q k ->
  strncmp m p q n = compare_bytes (take n l) (take n k).
Proof.
  revert p q k n. induction l as [|a l IH]; intros p q k [|n] Hp Hq; simpl; try done.
  - rewrite (cstr_nil _ _ Hp). simpl. destruct k as [|b k]; simpl.
    + by rewrite (cstr_nil _ _ Hq).
    + by destruct (cstr_head_eqb _ _ _ _ Hq) as (_ & -> & _).
  - destruct (cstr_head_eqb _ _ _ _ Hp) as (-> & -> & Hp'). simpl.
    destruct k as [|b k]; simpl.
    + rewrite (cstr_nil _ _ Hq), Z.sub_0_r. apply cstr_cons in Hp as (_ & Ha & _).
      destruct (Z.eqb_spec a 0); [unfold nonzero_byte in Ha; lia|done].
    + destruct (cstr_head_eqb _ _ _ _ Hq) as (_ & -> & Hq'). by destruct (a =? b); [apply IH|].
Qed.

Lemma safestrcpy_loop_spec m s t l n :
  cstr m t l -> (t + Z.of_nat (length l) < s \/ s + Z.of_nat n < t) ->
  let m' := safestrcpy_loop m s t n in
  cstr m' s (take n l) /\ (forall a, ~ (s <= a <= s + Z.of_nat n) -> m' a = m a).
Proof.
  revert m s t l. induction n as [|n IH]; intros m s t l Hc Hd; cbn [safestrcpy_loop].
  - split; [split|intros a Ha; bytewise].
    + constructor.
    + done.
    + simpl. bytewise.
  - rewrite Nat2Z.inj_succ in *. destruct l as [|b l].
    + rewrite (cstr_nil _ _ Hc). simpl. split; [split|].
      * constructor.
      * done.
      * simpl. bytewise.
      * intros a Ha. bytewise.
    + destruct (cstr_head_eqb _ _ _ _ Hc) as (-> & Hb & Hc'). rewrite Hb.
      simpl length in Hd. destruct (IH (<[s := b]> m) (s + 1) (t + 1) l) as [I1 I2].
      * eapply cstr_frame; [|exact Hc']. intros a Ha. bytewise.
      * lia.
      * split.
        { simpl. apply cstr_cons. split_and!; [|by apply cstr_cons in Hc as (_ & ? & _)|done].
          rewrite I2 by lia. bytewise. }
        intros a Ha. rewrite I2 by lia. bytewise.
Qed.

(** [safestrcpy] always leaves a NUL-terminated string: with room for [n] bytes it
    copies as much of the source as fits in [n - 1], terminates it, and writes
    nothing outside the [n] bytes. *)
Theorem safestrcpy_correct (m : memory) (s t n : Z) (l : list Z) :
  0 < n -> cstr m t l -> (t + Z.of_nat (length l) < s \/ s + n <= t) ->
  cstr (safestrcpy m s t n) s (take (Z.to_nat (n - 1)) l) /\
  (forall a, ~ (s <= a < s + n) -> safestrcpy m s t n a = m a).
Proof.
  intros Hn Hc Hd. unfold safestrcpy. destruct (Z.leb_spec n 0); [lia|].
  destruct (safestrcpy_loop_spec m s t l (Z.to_nat (n - 1)) Hc) as [H1 H2]; [lia|].
  split; [done|]. intros a Ha. apply H2. lia.
Qed.

Definition word_mem : memory := store_bytes (fun _ => 0) 100 [104; 101; 108; 108; 111].

Lemma safestrcpy_correct_witness :
  cstr (safestrcpy word_mem 200 100 4) 200 [104; 101; 108].
Proof.
  assert (cstr word_mem 100 [104; 101; 108; 108; 111]) as Hc.
  { repeat (apply cstr_cons; split_and!; [reflexivity|split; lia|]). split; [constructor|done|reflexivity]. }
  exact (proj1 (safestrcpy_correct word_mem 200 100 4 _ ltac:(lia) Hc ltac:(left; simpl; lia))).
Defined.
