(* ===== verification/Printf.v ===== *)
(** * Printf: formatted output of user programs (printf.c)

    A call of [printf] is a function from memory, the format string's address and
    the words that follow it on the stack to the bytes written.  [None] stands for
    undefined behaviour (an overrun of [buf], a missing argument) or for a string
    longer than the fuel. *)

From stdpp Require Import functions base gmap list strings.
From Stdlib Require Import ZArith Lia.
From S2P Require Import Prelude Str.

Local Open Scope Z_scope.

(** [digits[k]], upper case here and lower case in console.c *)
Definition digit (upper : bool) (k : Z) : Z :=
  if k <? 10 then 48 + k else if upper then 55 + k else 87 + k.

(** [do buf[i++] = digits[x % base]; while((x /= base) != 0);] with [n] bytes left in [buf] *)
Fixpoint put_digits (upper : bool) (n : nat) (x base : Z) : option (list Z) :=
  match n with
  | O => None
  | S n' =>
      let c := digit upper (x mod base) in
      if x / base =? 0 then Some [c]
      else rest ← put_digits upper n' (x / base) base; Some (c :: rest)
  end.

(** What [printint] puts, in the order of the [putc] calls. *)
Definition printint (upper : bool) (xx base : Z) (sgn : bool) : option (list Z) :=
  let neg := sgn && (xx <? 0) in
  let x := u32 (if neg then - xx else xx) in
  buf ← put_digits upper 16 x base;
  if neg then if decide (length buf < 16)%nat then Some (rev (buf ++ [45])) else None
  else Some (rev buf).

(** [while( *s != 0) putc(fd, *s++);] *)
Fixpoint put_string (fuel : nat) (m : memory) (s : Z) : option (list Z) :=
  match fuel with
  | O => None
  | S fuel' => if m s =? 0 then Some [] else rest ← put_string fuel' m (s + 1); Some (m s :: rest)
  end.

Definition null_string : list Z := [40; 110; 117; 108; 108; 41].

(** One character [c] of the format in state '%': the bytes put and the arguments left. *)
Definition printf_arg (fuel : nat) (m : memory) (c : Z) (ap : list Z) : option (list Z * list Z) :=
  if c =? 100 then
    match ap with
    | a :: ap' => o ← printint true (i32 a) 10 true; Some (o, ap')
    | [] => None
    end
  else if (c =? 120) || (c =? 112) then
    match ap with
    | a :: ap' => o ← printint true (i32 a) 16 false; Some (o, ap')
    | [] => None
    end
  else if c =? 115 then
    match ap with
    | a :: ap' =>
        if a =? 0 then Some (null_string, ap')
        else o ← put_string fuel m a; Some (o, ap')
    | [] => None
    end
  else if c =? 99 then
    match ap with a :: ap' => Some ([u8 a], ap') | [] => None end
  else if c =? 37 then Some ([37], ap)
  else Some ([37; c], ap).

Fixpoint printf_loop (fuel : nat) (m : memory) (fmt : Z) (percent : bool) (ap : list Z) : option (list Z) :=
  match fuel with
  | O => None
  | S fuel' =>
      let c := m fmt in
      if c =? 0 then Some []
      else if negb percent then
        if c =? 37 then printf_loop fuel' m (fmt + 1) true ap
        else o ← printf_loop fuel' m (fmt + 1) false ap; Some (c :: o)
      else
        r ← printf_arg fuel' m c ap;
        o ← printf_loop fuel' m (fmt + 1) false r.2;
        Some (r.1 ++ o)
  end.
Definition printf (fuel : nat) (m : memory) (fmt : Z) (ap : list Z) : option (list Z) :=
  printf_loop fuel m fmt false ap.

(** ** printint prints the number *)

(** The number a list of digits denotes, least significant first. *)
Definition digit_value (c : Z) : Z :=
  if c <? 58 then c - 48 else if c <? 71 then c - 55 else c - 87.
Fixpoint value (base : Z) (l : list Z) : Z :=
  match l with [] => 0 | c :: l' => digit_value c + base * value base l' end.

Lemma digit_value_digit upper k : 0 <= k < 16 -> digit_value (digit upper k) = k.
Proof.
  intros Hk. unfold digit, digit_value.
  destruct (Z.ltb_spec k 10); [destruct (Z.ltb_spec (48 + k) 58); lia|].
  destruct upper; repeat case_match; lia.
Qed.

Lemma put_digits_spec upper base n x :
  1 < base <= 16 -> 0 <= x < base ^ Z.of_nat n -> (0 < n)%nat ->
  exists l, put_digits upper n x base = Some l /\ value base l = x /\ l <> [] /\ (length l <= n)%nat /\
    Forall (fun c => exists k, 0 <= k < base /\ c = digit upper k) l.
Proof.
  intros Hb. revert x. induction n as [|n IH]; intros x Hx Hn; [lia|]. simpl.
  assert (0 <= x mod base < base) as Hm by (apply Z.mod_pos_bound; lia).
  rewrite Nat2Z.inj_succ, Z.pow_succ_r in Hx by lia.
  destruct (Z.eqb_spec (x / base) 0) as [E|E].
  - exists [digit upper (x mod base)]. split_and!; [done| |done|simpl; lia|].
    + simpl. rewrite digit_value_digit by lia. rewrite (Z.div_mod x base) at 2 by lia. rewrite E. lia.
    + constructor; [eauto|constructor].
  - assert (0 < n)%nat.
    { destruct n; [|lia]. exfalso. apply E. apply Z.div_small. simpl in Hx. lia. }
    destruct (IH (x / base)) as (l & -> & Hv & Hne & Hlen & Hall); [|done|].
    { split; [apply Z.div_pos; lia|]. apply Z.div_lt_upper_bound; lia. }
    exists (digit upper (x mod base) :: l). split_and!; [done| |done|simpl; lia|constructor; eauto].
    simpl. rewrite digit_value_digit, Hv by lia. rewrite (Z.div_mod x base) at 3 by lia. lia.
Qed.

Lemma put_digits_more upper n k x base l :
  put_digits upper n x base = Some l -> put_digits upper (n + k) x base = Some l.
Proof.
  revert x l. induction n as [|n IH]; intros x l; [done|]. simpl. destruct (_ =? 0); [done|].
  destruct (put_digits upper n _ base) eqn:E; [|done]. by rewrite (IH _ _ E).
Qed.

(** [printint] prints the number it is given: for every [int] (the most negative
    one included) and base 10 or 16 its digits fit in [buf] and denote the number,
    preceded by '-' exactly when it is negative and printed as signed. *)
Theorem printint_correct (upper : bool) (xx base : Z) (sgn : bool) :
  - 2 ^ 31 <= xx < 2 ^ 31 -> base = 10 \/ base = 16 ->
  exists ds, ds <> [] /\ Forall (fun c => exists k, 0 <= k < base /\ c = digit upper k) ds /\
    printint upper xx base sgn = Some ((if sgn && (xx <? 0) then [45] else []) ++ rev ds) /\
    value base ds = if sgn then Z.abs xx else u32 xx.
Proof.
  intros Hx Hb. unfold printint. set (neg := sgn && (xx <? 0)).
  set (x := u32 (if neg then - xx else xx)).
  assert (0 <= x < 2 ^ 32) as Hr by (apply u32_range).
  destruct (put_digits_spec upper base 11 x) as (l & Hp & Hv & Hne & Hlen & Hall);
    [lia| |lia|].
  { destruct Hb as [->| ->]; (split; [lia|]); eapply Z.lt_le_trans; try apply Hr; by vm_compute. }
  apply (put_digits_more upper 11 5) in Hp. simpl Nat.add in Hp. rewrite Hp.
  exists l. split_and!; [done|done| |].
  - simpl. destruct neg; [|done]. rewrite decide_True by lia. by rewrite rev_app_distr.
  - rewrite Hv. subst x neg. destruct sgn; simpl; [|done]. destruct (Z.ltb_spec xx 0).
    + rewrite u32_small by lia. lia.
    + rewrite u32_small by lia. lia.
Qed.

Lemma printint_correct_witness :
  exists ds, printint true (- 2 ^ 31) 10 true = Some (45 :: rev ds) /\ value 10 ds = 2147483648.
Proof.
  destruct (printint_correct true (- 2 ^ 31) 10 true ltac:(lia) ltac:(by left)) as (ds & _ & _ & H1 & H2).
  exists ds. split; [exact H1|exact H2].
Defined.

(** ** atoi reads back what printint prints *)

Lemma value_bound ds :
  Forall (fun c => exists k, 0 <= k < 10 /\ c = digit true k) ds -> 0 <= value 10 ds.
Proof.
  induction 1 as [|c ds (k & Hk & ->) _ IH]; simpl; [lia|]. rewrite digit_value_digit by lia. lia.
Qed.

Lemma digit_byte k : 0 <= k < 10 -> digit true k = 48 + k /\ schar (48 + k) = 48 + k.
Proof.
  intros Hk. unfold digit, schar. destruct (Z.ltb_spec k 10), (Z.ltb_spec (48 + k) 128); lia.
Qed.

Lemma atoi_loop_digits m s ds n fuel :
  Forall (fun c => exists k, 0 <= k < 10 /\ c = digit true k) ds ->
  cstr m s (rev ds) -> 0 <= n -> n * 10 ^ Z.of_nat (length ds) + value 10 ds < 2 ^ 31 ->
  (length ds < fuel)%nat ->
  atoi_loop fuel m s n = Some (n * 10 ^ Z.of_nat (length ds) + value 10 ds).
Proof.
  revert s n fuel. induction ds as [|c ds IH] using rev_ind; intros s n [|fuel] Hall Hc Hn Hlt Hf;
    rewrite ?length_app in *; simpl in *; try lia.
  - rewrite (cstr_nil _ _ Hc). simpl. f_equal. lia.
  - rewrite rev_app_distr in Hc. simpl in Hc.
    apply cstr_head_eqb in Hc as (_ & Hc & Hc'). apply Forall_app in Hall as [Hall Hd].
    apply Forall_singleton in Hd as (k & Hk & ->). destruct (digit_byte k Hk) as [E1 E2].
    rewrite Hc. rewrite E1 in *. rewrite E2. rewrite (proj2 (Z.leb_le 48 _)), (proj2 (Z.leb_le _ 57)) by lia. simpl.
    assert (value 10 (ds ++ [48 + k]) = value 10 ds + k * 10 ^ Z.of_nat (length ds)) as Hv.
    { clear -E1 Hk. induction ds as [|c ds IHd]; [simpl; rewrite <- E1, digit_value_digit; lia|].
      cbn [app value length]. rewrite IHd, Nat2Z.inj_succ, Z.pow_succ_r by lia. lia. }
    pose proof (value_bound ds Hall). rewrite Hv in *.
    rewrite Nat2Z.inj_add, Z.pow_add_r in * by lia. change (10 ^ Z.of_nat 1) with 10 in *.
    assert (0 < 10 ^ Z.of_nat (length ds)) by lia.
    assert (n * 10 + (48 + k) - 48 <= (n * 10 + k) * 10 ^ Z.of_nat (length ds)) by nia.
    rewrite i32_small by nia.
    rewrite IH; [f_equal; ring|done|done|lia|nia|lia].
Qed.

(** [atoi] inverts decimal printing: a non-negative [int] printed by [printint] and
    stored as a string is read back by [atoi]. *)
Theorem atoi_printint (m : memory) (s xx : Z) (out : list Z) (fuel : nat) :
  0 <= xx < 2 ^ 31 -> printint true xx 10 true = Some out -> cstr m s out -> (16 < fuel)%nat ->
  atoi fuel m s = Some xx.
Proof.
  intros Hx Hp Hc Hf. unfold printint in Hp. destruct (Z.ltb_spec xx 0); [lia|]. cbv zeta in Hp. cbn [andb] in Hp.
  rewrite u32_small in Hp by lia.
  destruct (put_digits_spec true 10 16 xx) as (l & Hl & Hv & Hne & Hlen & Hall); [lia| |lia|].
  { split; [lia|]. eapply Z.lt_le_trans; [apply Hx|]. by vm_compute. }
  rewrite Hl in Hp. simpl in Hp. injection Hp as <-. unfold atoi.
  rewrite (atoi_loop_digits m s l 0); [f_equal; lia|done|done|lia|lia|lia].
Qed.

Lemma atoi_printint_witness : atoi 20 (store_bytes (fun _ => 0) 100 [49; 51; 56]) 100 = Some 138.
Proof.
  apply (atoi_printint _ 100 138 [49; 51; 56] 20); [lia|reflexivity| |lia].
  repeat (apply cstr_cons; split_and!; [reflexivity|split; lia|]). split; [constructor|done|reflexivity].
Defined.
