(* ===== verification/Kalloc.v ===== *)
(** * Kalloc: the physical page allocator (kalloc.c)

    The free list runs through the free pages: the first word of a free page is the
    address of the next one.  [free_list m a l]: from [a] the list visits the pages
    [l].  [kinv A s]: the pages in use are [A], the pages on the list are the other
    ones, and none is on it twice.

    [kfree] rejects addresses below [end], which the linker sets, as it sets [data],
    the start of the kernel's data: the class [Linker]. *)

From stdpp Require Import functions base gmap list strings relations.
From Stdlib Require Import ZArith Lia.
From S2P Require Import Prelude State Core.

Local Open Scope Z_scope.
Local Open Scope kernel_scope.

Class Linker := { kend : Z; kdata : Z }.

Definition PGROUNDUP (sz : Z) : Z := Z.land (sz + PGSIZE - 1) (Z.lnot (PGSIZE - 1)).
Definition PGROUNDDOWN (a : Z) : Z := Z.land a (Z.lnot (PGSIZE - 1)).

(** [memset(v, 1, PGSIZE)] *)
Definition junk : list Z := replicate 4096 1.

(** ** Kernel memory *)

(** The word at a kernel address. *)
Definition mem_word (s : kstate) (a : Z) : option Z :=
  pg ← mem s !! (a - a mod PGSIZE);
  if a mod PGSIZE <=? PGSIZE - 4 then Some (rd 4 (Z.to_nat (a mod PGSIZE)) pg) else None.

Definition mem_rd (a : Z) : KM Z := w <- get (fun s => mem_word s a) ;; in_bounds w.

(** Storing bytes inside one page, and a word. *)
Definition mem_store (a : Z) (l : list Z) : KM unit :=
  pg <- get (fun s => mem s !! (a - a mod PGSIZE)) ;;
  _ <- in_bounds pg ;;
  if a mod PGSIZE + Z.of_nat (length l) <=? PGSIZE
  then modify (fun s => set_mem (alter (splice (Z.to_nat (a mod PGSIZE)) l) (a - a mod PGSIZE) (mem s)) s)
  else panic "undefined behaviour".
Definition mem_wr (a v : Z) : KM unit := mem_store a (le_bytes 4 v).

(** The page at [a]. *)
Definition mem_page (a : Z) : KM (list Z) := pg <- get (fun s => mem s !! a) ;; in_bounds pg.

Section kalloc.
Context `{Linker}.

Definition locked_kmem {A} (m : KM A) : KM A :=
  u <- get use_lock ;;
  (if u then acquire L_kmem else ret tt) ;;;
  r <- m ;;
  u <- get use_lock ;;
  (if u then release L_kmem else ret tt) ;;;
  ret r.

Definition kfree (v : Z) : KM unit :=
  if negb (v mod PGSIZE =? 0) || (v <? kend) || (PHYSTOP <=? V2P v) then panic "kfree" else
  modify (fun s => set_mem (<[v := junk]> (mem s)) s) ;;;
  locked_kmem (
    modify (fun s => set_mem (alter (wr 4 0 (freelist s)) v (mem s)) s) ;;;
    modify (set_freelist v)).

(** A page of the list that is not in memory cannot be followed. *)
Definition kalloc : KM Z :=
  locked_kmem (
    r <- get freelist ;;
    (if r =? 0 then ret tt else
       pg <- get (fun s => mem s !! r) ;;
       match pg with
       | Some pg => modify (set_freelist (rd 4 0 pg))
       | None => panic "undefined behaviour"
       end) ;;;
    ret r).

(** [for(; p + PGSIZE <= vend; p += PGSIZE) kfree(p);] *)
Definition freerange (vstart vend : Z) : KM unit :=
  let p := PGROUNDUP vstart in
  for_each (seq 0 (Z.to_nat ((vend - p) / PGSIZE))) (fun i => kfree (p + PGSIZE * Z.of_nat i)).

Definition kinit1 (vstart vend : Z) : KM unit :=
  modify (set_use_lock false) ;;;
  freerange vstart vend.

Definition kinit2 (vstart vend : Z) : KM unit :=
  freerange vstart vend ;;;
  modify (set_use_lock true).

(** ** The free list *)

Definition page_ok (v : Z) : Prop :=
  v mod PGSIZE = 0 /\ kend <= v /\ V2P v < PHYSTOP /\ 0 < v < 2 ^ 32.

Fixpoint free_list (m : gmap Z (list Z)) (a : Z) (l : list Z) : Prop :=
  match l with
  | [] => a = 0
  | v :: l' => a = v /\ page_ok v /\
      exists pg, m !! v = Some pg /\ length pg = 4096%nat /\ free_list m (rd 4 0 pg) l'
  end.

(** [kmem] is not held by this CPU, and the free list is [l]. *)
Record kmem_ok (l : list Z) (s : kstate) : Prop := {
  km_lock : L_kmem ∉ held s;
  km_list : free_list (mem s) (freelist s) l;
  km_nodup : NoDup l
}.

Lemma free_list_frame m m' a l :
  (forall v, v ∈ l -> m' !! v = m !! v) -> free_list m a l -> free_list m' a l.
Proof.
  revert a. induction l as [|v l IH]; intros a Hm; simpl; [done|].
  intros (Ha & Hv & pg & Hpg & Hlen & Hl). split_and!; [done|done|]. exists pg.
  rewrite Hm by set_solver. split_and!; [done|done|]. apply IH; [set_solver|done].
Qed.

Lemma free_list_range m a l : free_list m a l -> 0 <= a < 2 ^ 32.
Proof. destruct l; simpl; [intros ->; lia|]. intros (-> & Hv & _). destruct Hv as (_ & _ & _ & ?). lia. Qed.

Lemma locked_kmem_eq {A} (m : KM A) s a s' :
  L_kmem ∉ held s -> use_lock s' = use_lock s -> held s' = (if use_lock s then L_kmem :: held s else held s) ->
  m (if use_lock s then set_held (L_kmem :: held s) s else s) = Ret a s' ->
  locked_kmem m s = Ret a (set_held (held s) s').
Proof.
  intros Hh Hu Hheld Hm. unfold locked_kmem, bind, get. destruct (use_lock s) eqn:E.
  - rewrite acquire_eq by done. rewrite Hm. simpl. rewrite Hu. by rewrite (release_top _ (held s)).
  - unfold ret at 1. rewrite Hm, Hu. unfold ret. rewrite <- Hheld. by rewrite set_held_same.
Qed.

Lemma kalloc_eq l s :
  kmem_ok l s ->
  kalloc s = match l with
             | [] => Ret 0 s
             | v :: l' => Ret v (set_freelist (default 0 (head l')) s)
             end.
Proof.
  intros [Hlk Hfl Hnd]. unfold kalloc. destruct l as [|v l]; simpl in Hfl.
  - rewrite (locked_kmem_eq _ s 0 (if use_lock s then set_held (L_kmem :: held s) s else s)); [|done|..].
    + destruct s as [h p c n i m f [] b d w l' sb ic ft pi sp t]; done.
    + by destruct (use_lock s) eqn:E.
    + by destruct (use_lock s) eqn:E.
    + unfold bind, get, ret. by destruct (use_lock s); simpl; rewrite Hfl.
  - destruct Hfl as (Hf & Hv & pg & Hpg & Hlen & Hl).
    assert (rd 4 0 pg = default 0 (head l)) as Hrd.
    { destruct l; simpl in *; [done|]. by destruct Hl as [-> _]. }
    assert (freelist s =? 0 = false) as Hne.
    { apply Z.eqb_neq. destruct Hv as (_ & _ & _ & ?). lia. }
    set (s1 := if use_lock s then set_held (L_kmem :: held s) s else s).
    rewrite (locked_kmem_eq _ s v (set_freelist (default 0 (head l)) s1)); [|done|..].
    + unfold s1. destruct s as [h p c n i m f [] b d w l' sb ic ft pi sp t]; done.
    + unfold s1. by destruct (use_lock s) eqn:E.
    + unfold s1. by destruct (use_lock s) eqn:E.
    + unfold bind, get, ret, modify. unfold s1.
      destruct (use_lock s); simpl; rewrite Hne, Hf; simpl; rewrite Hpg; simpl; rewrite Hrd; done.
Qed.

Lemma kfree_eq l s v :
  kmem_ok l s -> page_ok v ->
  kfree v s = Ret tt (set_freelist v
    (set_mem (<[v := wr 4 0 (freelist s) (junk)]> (mem s)) s)).
Proof.
  intros [Hlk Hfl Hnd] (H1 & H2 & H3 & H4). unfold kfree.
  rewrite H1. destruct (Z.ltb_spec v kend); [lia|]. destruct (Z.leb_spec PHYSTOP (V2P v)); [lia|].
  cbn [Z.eqb negb orb]. unfold bind at 1, modify at 1.
  set (s0 := set_mem (<[v := junk]> (mem s)) s).
  set (s1 := if use_lock s then set_held (L_kmem :: held s) s0 else s0).
  rewrite (locked_kmem_eq _ s0 tt
    (set_freelist v (set_mem (<[v := wr 4 0 (freelist s) (junk)]> (mem s)) s1))); [|done|..].
  - unfold s1, s0. destruct s as [h p c n i m f [] b d w l' sb ic ft pi sp t]; done.
  - unfold s1. change (use_lock s0) with (use_lock s). by destruct (use_lock s) eqn:E.
  - unfold s1. change (use_lock s0) with (use_lock s). by destruct (use_lock s) eqn:E.
  - unfold bind, modify, s1, s0. change (use_lock (set_mem _ s)) with (use_lock s).
    destruct (use_lock s); simpl; rewrite alter_insert_eq; done.
Qed.

Lemma length_junk : length junk = 4096%nat.
Proof. apply length_replicate. Qed.

Lemma kalloc_ok l s :
  kmem_ok l s ->
  exists v s', kalloc s = Ret v s' /\ mem s' = mem s /\ held s' = held s /\
    match l with [] => v = 0 /\ kmem_ok [] s' | w :: l' => v = w /\ kmem_ok l' s' end.
Proof.
  intros Hk. rewrite (kalloc_eq l s Hk). destruct Hk as [Hlk Hfl Hnd]. destruct l as [|v l].
  - exists 0, s. split_and!; done.
  - eexists _, _. split; [done|]. split_and!; [done|done|done|].
    simpl in Hfl. destruct Hfl as (_ & _ & pg & _ & _ & Hl). apply NoDup_cons in Hnd as [_ Hnd].
    split; [done| |done]. simpl. destruct l as [|w l]; [done|]. simpl in *. by destruct Hl as (_ & ? & ?).
Qed.

Lemma kfree_ok l s v :
  kmem_ok l s -> page_ok v -> v ∉ l ->
  exists s', kfree v s = Ret tt s' /\ kmem_ok (v :: l) s' /\ held s' = held s /\
    (forall w, w <> v -> mem s' !! w = mem s !! w).
Proof.
  intros Hk Hv Hnin. rewrite (kfree_eq l s v Hk Hv). destruct Hk as [Hlk Hfl Hnd].
  eexists. split_and!; [done| |done|].
  - split; [done| |by constructor]. simpl. split_and!; [done|done|].
    eexists. split; [apply lookup_insert_eq|]. split.
    + rewrite length_wr; [apply length_junk|]. rewrite length_junk. lia.
    + rewrite rd_wr_eq; [|rewrite length_junk; lia|by eapply free_list_range].
      eapply free_list_frame; [|exact Hfl]. intros w Hw. rewrite lookup_insert_ne; [done|set_solver].
  - intros w Hw. simpl. by rewrite lookup_insert_ne.
Qed.

(** What [freerange] puts on the list, the last page first. *)
Definition range_pages (p : Z) (n : nat) : list Z :=
  reverse ((fun i => p + PGSIZE * Z.of_nat i) <$> seq 0 n).

Lemma freerange_spec l s vstart vend :
  let p := PGROUNDUP vstart in
  let n := Z.to_nat ((vend - p) / PGSIZE) in
  kmem_ok l s -> Forall page_ok (range_pages p n) -> Forall (fun v => v ∉ range_pages p n) l ->
  wp (freerange vstart vend) (fun _ s' => kmem_ok (range_pages p n ++ l) s') s.
Proof.
  intros p n Hk Hp Hl. unfold freerange. fold p n.
  rewrite Forall_forall in Hp, Hl.
  apply (wp_for_seq (fun i s' => kmem_ok (range_pages p i ++ l) s')); [done| |done].
  intros i s' Hi Hk'.
  assert (range_pages p (S i) = p + PGSIZE * Z.of_nat i :: range_pages p i) as Hr.
  { unfold range_pages. by rewrite seq_S, fmap_app, reverse_app. }
  assert (forall j, (j < n)%nat -> p + PGSIZE * Z.of_nat j ∈ range_pages p n) as Hin.
  { intros j Hj. unfold range_pages. rewrite elem_of_reverse. apply list_elem_of_fmap.
    exists j. split; [done|]. apply elem_of_seq. lia. }
  destruct (kfree_ok (range_pages p i ++ l) s' (p + PGSIZE * Z.of_nat i)) as (s'' & Heq & Hok & _);
    [done|by apply Hp, Hin| |].
  - rewrite elem_of_app. intros [Hc|Hc]; [|by eapply Hl; [exact Hc|apply Hin]].
    unfold range_pages in Hc. rewrite elem_of_reverse in Hc.
    apply list_elem_of_fmap in Hc as (j & Hj & Hj'%elem_of_seq). unfold PGSIZE in Hj. lia.
  - eapply wp_intro; [exact Heq|]. by rewrite Hr.
Qed.

(** ** Pages in use *)

(** Anyone allocates; a page in use is written or freed by its user. *)
Inductive kstep : kstate * gset Z -> kstate * gset Z -> Prop :=
| ks_alloc s A v s' :
    kalloc s = Ret v s' -> kstep (s, A) (s', if decide (v = 0) then A else {[v]} ∪ A)
| ks_write s A v pg :
    v ∈ A -> length pg = 4096%nat -> kstep (s, A) (set_mem (<[v := pg]> (mem s)) s, A)
| ks_free s A v s' :
    v ∈ A -> kfree v s = Ret tt s' -> kstep (s, A) (s', A ∖ {[v]}).

Definition kinv (l0 : list Z) (c : kstate * gset Z) : Prop :=
  exists l, kmem_ok l c.1 /\ (forall v, v ∈ l -> v ∉ c.2) /\
    (forall v, v ∈ l0 <-> v ∈ l \/ v ∈ c.2) /\ Forall page_ok l0.

Lemma kstep_inv l0 c c' : kinv l0 c -> kstep c c' -> kinv l0 c'.
Proof.
  intros (l & Hk & Hd & Hall & Hp) Hs. destruct Hs as [s A v s' Ha|s A v pg Hv Hlen|s A v s' Hv Hf]; simpl in *.
  - destruct (kalloc_ok l s Hk) as (v' & s'' & Ha' & _ & _ & Hl). rewrite Ha in Ha'. injection Ha' as <- <-.
    destruct l as [|w l]; destruct Hl as [-> Hk'].
    + exists []. by rewrite decide_True.
    + assert (page_ok w) as (_ & _ & _ & Hw).
      { rewrite Forall_forall in Hp. apply Hp, Hall. left. by left. }
      rewrite decide_False by lia. exists l. destruct Hk as [_ _ Hnd]. apply NoDup_cons in Hnd as [Hnd _].
      split_and!; [done| | |done]; simpl.
      * intros u Hu. rewrite not_elem_of_union, not_elem_of_singleton.
        split; [by intros ->|apply Hd; by right].
      * intros u. rewrite Hall, elem_of_cons, elem_of_union, elem_of_singleton. tauto.
  - exists l. split_and!; [|done|done|done]. destruct Hk as [H1 H2 H3]. split; [done| |done]. simpl.
    eapply free_list_frame; [|exact H2]. intros u Hu. rewrite lookup_insert_ne; [done|].
    intros ->. by apply (Hd u).
  - assert (page_ok v) as Hpv by (rewrite Forall_forall in Hp; apply Hp, Hall; by right).
    destruct (kfree_ok l s v Hk Hpv) as (s'' & Hf' & Hk' & _); [intros Hin; by apply (Hd v)|].
    rewrite Hf in Hf'. injection Hf' as <-. exists (v :: l). split_and!; [done| | |done]; simpl.
    + intros u [->|Hu]%elem_of_cons; rewrite elem_of_difference, elem_of_singleton; [tauto|].
      intros [? _]. by apply (Hd u).
    + intros u. rewrite Hall, elem_of_cons, elem_of_difference, elem_of_singleton.
      destruct (decide (u = v)) as [->|]; tauto.
Qed.

Lemma kinv_start l0 s : kmem_ok l0 s -> Forall page_ok l0 -> kinv l0 (s, ∅).
Proof. intros Hk Hp. exists l0. split_and!; [done|set_solver|set_solver|done]. Qed.
End kalloc.

(** C30: the allocator never gives a page away twice.  Start with the pages [l0] free,
    and let the kernel allocate, write and free pages in any order: [kalloc] then
    returns one of those pages that is not in use, or 0 exactly when all are in use;
    it leaves the contents of the pages in use alone, and freeing any page in use
    succeeds. *)
Theorem kalloc_exclusive `{Linker} (l0 : list Z) (s0 s : kstate) (A : gset Z) :
  kmem_ok l0 s0 -> Forall page_ok l0 -> rtc kstep (s0, ∅) (s, A) ->
  (exists v s', kalloc s = Ret v s' /\ v ∉ A /\ mem s' = mem s /\
     (v = 0 /\ (forall p, p ∈ l0 -> p ∈ A) \/ v <> 0 /\ v ∈ l0)) /\
  (forall p, p ∈ A -> exists s', kfree p s = Ret tt s').
Proof.
  intros Hk Hp Hr.
  assert (kinv l0 (s, A)) as (l & Hk' & Hd & Hall & _).
  { eapply (rtc_ind_r (kinv l0)); [by apply kinv_start| |exact Hr]. intros c c' _ Hs Hi. by eapply kstep_inv. }
  simpl in *. rewrite Forall_forall in Hp. split.
  - destruct (kalloc_ok l s Hk') as (v & s' & Ha & Hm & _ & Hl). exists v, s'.
    destruct l as [|w l]; destruct Hl as [-> _]; split_and!; try done.
    + intros H0. assert (page_ok 0) as (_ & _ & _ & ?) by (apply Hp, Hall; by right). lia.
    + left. split; [done|]. intros p Hin. apply Hall in Hin as [Hin|?]; [by apply not_elem_of_nil in Hin|done].
    + apply Hd. by left.
    + right. assert (w ∈ l0) as Hw by (apply Hall; left; by left). split; [|done].
      destruct (Hp w Hw) as (_ & _ & _ & ?). lia.
  - intros p Hin. destruct (kfree_ok l s p Hk') as (s' & Hf & _).
    + apply Hp, Hall. by right.
    + intros Hc. by apply (Hd p).
    + by exists s'.
Qed.

(** Three pages above an [end] of 0x80100000. *)
Definition demo_linker : Linker := {| kend := 2148532224; kdata := 2148499456 |}.
Definition demo_mem : kstate :=
  mkK [] [] None 1 None ∅ 0 false [] ∅ [] (mkLog 0 0 0 false 0 0 []) (mkSb 0 0 0 0 0 0 0) [] [] ∅ [] 0 null_console 0.
Definition three_pages : kstate :=
  match freerange (H := demo_linker) 2148532230 2148548608 demo_mem with Ret _ s => s | _ => demo_mem end.

Lemma three_pages_ok : kmem_ok (H := demo_linker) [2148544512; 2148540416; 2148536320] three_pages.
Proof.
  pose proof (freerange_spec (H := demo_linker) [] demo_mem 2148532230 2148548608) as Hw.
  cbv zeta in Hw. change (PGROUNDUP 2148532230) with 2148536320 in Hw.
  change (Z.to_nat ((2148548608 - 2148536320) / PGSIZE)) with 3%nat in Hw.
  destruct (wp_inv _ _ _ (Hw ltac:(by split; [set_solver|done|constructor])
    ltac:(repeat constructor; by vm_compute) ltac:(constructor))) as ([] & s & Hr & Hk).
  unfold three_pages. by rewrite Hr.
Qed.

Lemma kalloc_exclusive_witness :
  exists v s', kalloc three_pages = Ret v s' /\ v ∉ (∅ : gset Z) /\
    v ∈ [2148544512; 2148540416; 2148536320].
Proof.
  destruct (kalloc_exclusive (H := demo_linker) _ three_pages three_pages ∅ three_pages_ok
    ltac:(repeat constructor; by vm_compute) (rtc_refl _ _)) as [(v & s' & Ha & Hn & _ & Hv) _].
  exists v, s'. split; [exact Ha|]. split; [exact Hn|].
  destruct Hv as [[-> Hall]|[_ ?]]; [|done].
  exfalso. apply (not_elem_of_empty (C := gset Z) 2148544512). apply Hall. set_solver.
Defined.
