(* ===== verification/Pipe.v ===== *)
(** * Pipe: pipes (pipe.c)

    A pipe is a ring of PIPESIZE bytes with two counters that only grow, modulo
    2^32.  [contents] is the queue it implements. *)

From stdpp Require Import base gmap list strings relations.
From Stdlib Require Import ZArith Lia.
From S2P Require Import Prelude State Core Kalloc.

Local Open Scope Z_scope.
Local Open Scope kernel_scope.

(** The pipe at [p]; its page may have been freed. *)
Definition pipe_at (p : Z) : KM pipe := x <- get (fun s => pipes s !! p) ;; in_bounds x.
Definition upd_pipe (p : Z) (f : pipe -> pipe) : KM unit :=
  modify (fun s => set_pipes (alter f p (pipes s)) s).

(** [myproc()->killed] *)
Definition killed : KM bool := i <- curproc ;; get (fun s => p_killed (proc_at s i)).

Section pipe.
Context `{Linker}.

Definition pipeclose (p : Z) (writable : bool) : KM unit :=
  acquire (L_pipe p) ;;;
  (if writable then
     upd_pipe p (set_writeopen false) ;;;
     wakeup (Ch_nread p)
   else
     upd_pipe p (set_readopen false) ;;;
     wakeup (Ch_nwrite p)) ;;;
  pi <- pipe_at p ;;
  if negb (readopen pi) && negb (writeopen pi) then
    release (L_pipe p) ;;;
    modify (fun s => set_pipes (delete p (pipes s)) s) ;;;
    kfree p
  else release (L_pipe p).
End pipe.

(** The loop of [pipewrite] with the bytes [l] of [n] still to be written: [-1] or [n]. *)
Fixpoint pipewrite_loop (p n : Z) (l : list Z) : KM Z :=
  match l with
  | [] =>
      wakeup (Ch_nread p) ;;;
      release (L_pipe p) ;;;
      ret n
  | b :: l' =>
      pi <- pipe_at p ;;
      if nwrite pi =? u32 (nread pi + PIPESIZE) then
        k <- (if negb (readopen pi) then ret true else killed) ;;
        if k : bool then
          release (L_pipe p) ;;;
          ret (-1)
        else
          wakeup (Ch_nread p) ;;;
          sleep (Ch_nwrite p) (Some (L_pipe p)) ;;;
          ret n
      else
        upd_pipe p (fun pi => set_nwrite (u32 (nwrite pi + 1))
          (set_pi_data (<[Z.to_nat (nwrite pi mod PIPESIZE) := b]> (pi_data pi)) pi)) ;;;
        pipewrite_loop p n l'
  end.

(** [addr] is the list of bytes at it. *)
Definition pipewrite (p : Z) (addr : list Z) : KM Z :=
  acquire (L_pipe p) ;;; pipewrite_loop p (Z.of_nat (length addr)) addr.
(** After the [sleep] of [pipewrite] with the bytes [l] to go. *)
Definition pipewrite_return (p n : Z) (l : list Z) : KM Z :=
  sleep_return (L_pipe p) ;;; pipewrite_loop p n l.

(** [for(i = 0; i < n; i++) ...]: the bytes stored at [addr]. *)
Fixpoint piperead_copy (p : Z) (n : nat) : KM (list Z) :=
  match n with
  | O => ret []
  | S n' =>
      pi <- pipe_at p ;;
      if nread pi =? nwrite pi then ret []
      else
        b <- in_bounds (pi_data pi !! Z.to_nat (nread pi mod PIPESIZE)) ;;
        upd_pipe p (fun pi => set_nread (u32 (nread pi + 1)) pi) ;;;
        l <- piperead_copy p n' ;;
        ret (b :: l)
  end.

(** The result of [piperead] is its value and the bytes it stored. *)
Definition piperead_loop (p : Z) (n : nat) : KM (Z * list Z) :=
  pi <- pipe_at p ;;
  if (nread pi =? nwrite pi) && writeopen pi then
    k <- killed ;;
    if k : bool then
      release (L_pipe p) ;;;
      ret (-1, [])
    else
      sleep (Ch_nread p) (Some (L_pipe p)) ;;;
      ret (0, [])
  else
    l <- piperead_copy p n ;;
    wakeup (Ch_nwrite p) ;;;
    release (L_pipe p) ;;;
    ret (Z.of_nat (length l), l).

Definition piperead (p : Z) (n : nat) : KM (Z * list Z) :=
  acquire (L_pipe p) ;;; piperead_loop p n.
Definition piperead_return (p : Z) (n : nat) : KM (Z * list Z) :=
  sleep_return (L_pipe p) ;;; piperead_loop p n.

(** ** The queue *)

Definition pipe_len (pi : pipe) : Z := u32 (nwrite pi - nread pi).
Definition slot (pi : pipe) (i : nat) : nat := Z.to_nat ((nread pi + Z.of_nat i) mod PIPESIZE).
Definition contents (pi : pipe) : list Z :=
  (fun i => default 0 (pi_data pi !! slot pi i)) <$> seq 0 (Z.to_nat (pipe_len pi)).

Record pipe_ok (pi : pipe) : Prop := {
  po_data : length (pi_data pi) = 512%nat;
  po_nread : 0 <= nread pi < 2 ^ 32;
  po_nwrite : 0 <= nwrite pi < 2 ^ 32;
  po_len : pipe_len pi <= 512
}.

Lemma length_contents pi : length (contents pi) = Z.to_nat (pipe_len pi).
Proof. unfold contents. by rewrite length_fmap, length_seq. Qed.

Lemma pipe_len_range pi : 0 <= pipe_len pi < 2 ^ 32.
Proof. apply u32_range. Qed.

Lemma nwrite_eq pi : pipe_ok pi -> nwrite pi = u32 (nread pi + pipe_len pi).
Proof.
  intros [_ Hr Hw _]. unfold pipe_len, u32 in *. rewrite Z.add_mod_idemp_r by lia.
  replace (nread pi + (nwrite pi - nread pi)) with (nwrite pi) by lia. rewrite Z.mod_small; lia.
Qed.

Lemma nwrite_slot pi : pipe_ok pi -> Z.to_nat (nwrite pi mod PIPESIZE) = slot pi (length (contents pi)).
Proof.
  intros Hok. unfold slot. rewrite length_contents, Z2Nat.id by apply pipe_len_range.
  rewrite (nwrite_eq pi Hok) at 1. unfold u32, PIPESIZE. f_equal.
  change 4294967296 with (512 * 8388608). rewrite Z.rem_mul_r by lia.
  rewrite Z.mul_comm, Z.mod_add by lia. by rewrite Z.mod_mod.
Qed.

Lemma slot_lt pi i : (slot pi i < 512)%nat.
Proof. unfold slot, PIPESIZE. pose proof (Z.mod_pos_bound (nread pi + Z.of_nat i) 512). lia. Qed.

Lemma slot_inj pi i j : (i < 512)%nat -> (j < 512)%nat -> slot pi i = slot pi j -> i = j.
Proof.
  unfold slot, PIPESIZE. intros Hi Hj E.
  pose proof (Z.mod_pos_bound (nread pi + Z.of_nat i) 512 ltac:(lia)).
  pose proof (Z.mod_pos_bound (nread pi + Z.of_nat j) 512 ltac:(lia)).
  apply Z2Nat.inj in E; [|lia|lia].
  pose proof (Z.div_mod (nread pi + Z.of_nat i) 512 ltac:(lia)).
  pose proof (Z.div_mod (nread pi + Z.of_nat j) 512 ltac:(lia)). nia.
Qed.

Lemma contents_lookup pi i b :
  contents pi !! i = Some b -> (i < length (contents pi))%nat /\ b = default 0 (pi_data pi !! slot pi i).
Proof.
  intros Hi. pose proof (lookup_lt_Some _ _ _ Hi) as Hlt. split; [done|].
  unfold contents in Hi. rewrite list_lookup_fmap, lookup_seq_lt in Hi by (by rewrite length_contents in Hlt).
  simpl in Hi. congruence.
Qed.

Lemma full_iff pi :
  pipe_ok pi -> nwrite pi =? u32 (nread pi + PIPESIZE) = bool_decide (length (contents pi) = 512%nat).
Proof.
  intros Hok. pose proof (nwrite_eq pi Hok) as Hw. pose proof (pipe_len_range pi) as Hr.
  destruct Hok as [_ Hn _ Hl]. rewrite length_contents. unfold PIPESIZE.
  case_bool_decide as E.
  - apply Z.eqb_eq. rewrite Hw. f_equal. lia.
  - apply Z.eqb_neq. intros E'. apply E. rewrite E' in Hw. unfold u32 in Hw.
    pose proof (Z.div_mod (nread pi + 512) 4294967296 ltac:(lia)).
    pose proof (Z.div_mod (nread pi + pipe_len pi) 4294967296 ltac:(lia)).
    assert (pipe_len pi = 512) as -> by nia. done.
Qed.

Lemma empty_iff pi : pipe_ok pi -> nread pi =? nwrite pi = bool_decide (contents pi = []).
Proof.
  intros Hok. pose proof (nwrite_eq pi Hok) as Hw. pose proof (pipe_len_range pi) as Hr.
  destruct Hok as [_ Hn _ Hl]. case_bool_decide as E.
  - apply Z.eqb_eq. assert (pipe_len pi = 0) as E0.
    { apply (f_equal length) in E. rewrite length_contents in E. simpl in E. lia. }
    rewrite E0, Z.add_0_r, u32_small in Hw by lia. done.
  - apply Z.eqb_neq. intros E'. apply E. apply nil_length_inv. rewrite length_contents.
    unfold pipe_len. rewrite E', Z.sub_diag. done.
Qed.

(** One byte in. *)
Definition push_byte (b : Z) (pi : pipe) : pipe :=
  set_nwrite (u32 (nwrite pi + 1)) (set_pi_data (<[Z.to_nat (nwrite pi mod PIPESIZE) := b]> (pi_data pi)) pi).
Definition pop_byte (pi : pipe) : pipe := set_nread (u32 (nread pi + 1)) pi.

Lemma push_spec b pi :
  pipe_ok pi -> (length (contents pi) < 512)%nat ->
  pipe_ok (push_byte b pi) /\ contents (push_byte b pi) = contents pi ++ [b].
Proof.
  intros Hok Hlt. pose proof (pipe_len_range pi) as Hr. pose proof (nwrite_eq pi Hok) as Hw.
  rewrite length_contents in Hlt.
  assert (pipe_len (push_byte b pi) = pipe_len pi + 1) as Hlen.
  { unfold pipe_len at 1. simpl. unfold u32 at 2. rewrite Hw. unfold u32.
    rewrite Z.add_mod_idemp_l, Zminus_mod_idemp_l by lia.
    replace (nread pi + pipe_len pi + 1 - nread pi) with (pipe_len pi + 1) by lia.
    rewrite Z.mod_small; lia. }
  split.
  - pose proof (u32_range (nwrite pi + 1)). destruct Hok as [H1 H2 H3 H4].
    split; [simpl; by rewrite length_insert|done|simpl; lia|lia].
  - unfold contents at 1. rewrite Hlen, Z2Nat.inj_add, Nat.add_1_r, seq_S, fmap_app by lia. f_equal.
    + apply list_eq. intros i. unfold contents. rewrite !list_lookup_fmap.
      destruct (decide (i < Z.to_nat (pipe_len pi))%nat) as [Hi|Hi].
      * rewrite lookup_seq_lt by done. simpl. f_equal. change (slot (push_byte b pi)) with (slot pi).
        rewrite (nwrite_slot pi Hok). rewrite list_lookup_insert_ne; [done|].
        rewrite length_contents. intros E. apply slot_inj in E; [lia|lia|lia].
      * by rewrite !lookup_seq_ge by lia.
    + simpl. change (slot (push_byte b pi)) with (slot pi). rewrite (nwrite_slot pi Hok), length_contents.
      rewrite list_lookup_insert_eq; [done|]. rewrite (po_data _ Hok). apply slot_lt.
Qed.

Lemma pop_spec b q pi :
  pipe_ok pi -> contents pi = b :: q ->
  pi_data pi !! Z.to_nat (nread pi mod PIPESIZE) = Some b /\ pipe_ok (pop_byte pi) /\ contents (pop_byte pi) = q.
Proof.
  intros Hok Hq. pose proof (pipe_len_range pi) as Hr.
  assert (1 <= pipe_len pi) as H1.
  { apply (f_equal length) in Hq. rewrite length_contents in Hq. simpl in Hq. lia. }
  assert (pipe_len (pop_byte pi) = pipe_len pi - 1) as Hlen.
  { pose proof (nwrite_eq pi Hok) as Hw. unfold pipe_len at 1. simpl. rewrite Hw. unfold u32.
    rewrite <- Zminus_mod. replace (nread pi + pipe_len pi - (nread pi + 1)) with (pipe_len pi - 1) by lia.
    rewrite Z.mod_small; lia. }
  assert (forall i, slot (pop_byte pi) i = slot pi (S i)) as Hslot.
  { intros i. unfold slot. simpl. unfold u32, PIPESIZE. f_equal.
    rewrite <- (Z.add_mod_idemp_l _ _ 512) by lia.
    change 4294967296 with (512 * 8388608). rewrite Z.rem_mul_r by lia.
    rewrite (Z.mul_comm 512), Z.mod_add by lia. rewrite Z.mod_mod, Z.add_mod_idemp_l by lia. f_equal. lia. }
  unfold contents in Hq. replace (Z.to_nat (pipe_len pi)) with (S (Z.to_nat (pipe_len pi - 1))) in Hq by lia.
  simpl in Hq. injection Hq as Hb Hq. split_and!.
  - unfold slot in Hb. rewrite Z.add_0_r in Hb.
    destruct (lookup_lt_is_Some_2 (pi_data pi) (Z.to_nat (nread pi mod PIPESIZE))) as [c Hc].
    { rewrite (po_data _ Hok). unfold PIPESIZE. pose proof (Z.mod_pos_bound (nread pi) 512). lia. }
    rewrite Hc in *. simpl in Hb. by subst.
  - pose proof (u32_range (nread pi + 1)). destruct Hok as [P1 P2 P3 P4]. split; [done|simpl; lia|done|lia].
  - rewrite <- Hq. unfold contents. rewrite Hlen, <- fmap_S_seq, <- list_fmap_compose.
    apply list_fmap_ext. intros i j _. simpl. by rewrite Hslot.
Qed.

(** ** The calls *)

(** A process runs with only the pipe's lock. *)
Definition in_pipe (p : Z) (pi : pipe) (s : kstate) : Prop :=
  held s = [L_pipe p] /\ is_Some (cur s) /\ pipes s !! p = Some pi.

(** The state a call ends or sleeps in. *)
Definition state_after {A} (o : outcome (option chan) kstate A) : option kstate :=
  match o with Ret _ s => Some s | Slept _ s => Some s | Panic _ => None end.

Lemma killed_eq s : is_Some (cur s) -> exists b, killed s = Ret b s.
Proof. intros [i Hi]. unfold killed, curproc, bind, myproc, get. rewrite Hi. by eexists. Qed.

Lemma upd_pipe_eq p f pi s :
  pipes s !! p = Some pi -> upd_pipe p f s = Ret tt (set_pipes (<[p := f pi]> (pipes s)) s).
Proof.
  intros Hp. unfold upd_pipe, modify. do 2 f_equal. apply map_eq. intros q.
  destruct (decide (q = p)) as [->|].
  - by rewrite lookup_alter_eq, lookup_insert_eq, Hp.
  - by rewrite lookup_alter_ne, lookup_insert_ne.
Qed.

Lemma pipe_at_eq p pi s : pipes s !! p = Some pi -> pipe_at p s = Ret pi s.
Proof. intros Hp. unfold pipe_at, bind, get. by rewrite Hp. Qed.

(** [pipewrite] accepts the first [k] bytes, [k] as large as the room allows. *)
Lemma pipewrite_loop_spec p n l pi s :
  in_pipe p pi s -> pipe_ok pi ->
  exists o k pi' s', pipewrite_loop p n l s = o /\
    (o = Ret n s' /\ k = length l \/
     (o = Ret (-1) s' \/ o = Slept (Some (Ch_nwrite p)) s') /\ length (contents pi') = 512%nat) /\
    (k <= length l)%nat /\ pipe_ok pi' /\ nread pi' = nread pi /\
    contents pi' = contents pi ++ take k l /\ pipes s' !! p = Some pi'.
Proof.
  revert pi s. induction l as [|b l IH]; intros pi s (Hh & Hc & Hp) Hok; cbn [pipewrite_loop].
  - eexists _, O, pi, _. split.
    { unfold bind. rewrite wakeup_eq by (rewrite Hh; set_solver).
      rewrite (release_top _ []); [|done|set_solver]. reflexivity. }
    split; [by left|]. split_and!; [simpl; lia|done|done|by rewrite app_nil_r|done].
  - unfold bind at 1. rewrite (pipe_at_eq p pi) by done. rewrite (full_iff pi Hok).
    destruct (bool_decide _) eqn:Efull; [apply bool_decide_eq_true in Efull|apply bool_decide_eq_false in Efull].
    + assert (exists k, (if negb (readopen pi) then ret true else killed) s = Ret k s) as [k Hk].
      { destruct (readopen pi); [by apply killed_eq|by eexists]. }
      unfold bind at 1. rewrite Hk. destruct k.
      * eexists _, O, pi, _. split.
        { unfold bind. rewrite (release_top _ []); [|done|set_solver]. reflexivity. }
        split; [right; split; [by left|done]|]. split_and!; [lia|done|done|by rewrite app_nil_r|done].
      * destruct Hc as [i Hi]. eexists _, O, pi, _. split.
        { unfold bind at 1. rewrite wakeup_eq by (rewrite Hh; set_solver).
          unfold bind. rewrite (sleep_eq _ _ _ i) by done. reflexivity. }
        split; [right; split; [by right|done]|]. split_and!; [lia|done|done|by rewrite app_nil_r|done].
    + unfold bind at 1. rewrite (upd_pipe_eq p _ pi) by done.
      destruct (push_spec b pi Hok) as [Hok' Hcon].
      { pose proof (po_len _ Hok). pose proof (pipe_len_range pi). rewrite length_contents in *. lia. }
      destruct (IH (push_byte b pi) (set_pipes (<[p := push_byte b pi]> (pipes s)) s))
        as (o & k & pi' & s' & Ho & Hres & Hk & Hok2 & Hnr & Hco & Hpi); [|done|].
      { split_and!; [done|done|]. simpl. apply lookup_insert_eq. }
      exists o, (S k), pi', s'. split; [exact Ho|]. split.
      { destruct Hres as [[-> ->]|[Hres Hfull]]; [by left|by right]. }
      split_and!; [simpl; lia|done|done| |done]. rewrite Hco, Hcon, <- app_assoc. done.
Qed.

Lemma piperead_copy_spec p n pi s :
  in_pipe p pi s -> pipe_ok pi ->
  exists l pi' s', piperead_copy p n s = Ret l s' /\ in_pipe p pi' s' /\ pipe_ok pi' /\
    nwrite pi' = nwrite pi /\ contents pi = l ++ contents pi' /\ l = take n (contents pi).
Proof.
  revert pi s. induction n as [|n IH]; intros pi s (Hh & Hc & Hp) Hok; cbn [piperead_copy].
  - exists [], pi, s. by rewrite take_0.
  - unfold bind at 1. rewrite (pipe_at_eq p pi) by done. rewrite (empty_iff pi Hok).
    destruct (contents pi) as [|b q] eqn:Hq; simpl.
    + exists [], pi, s. by rewrite Hq.
    + destruct (pop_spec b q pi Hok Hq) as (Hb & Hok' & Hq'). unfold bind at 1. rewrite Hb. unfold in_bounds, ret.
      unfold bind at 1. rewrite (upd_pipe_eq p _ pi) by done.
      destruct (IH (pop_byte pi) (set_pipes (<[p := pop_byte pi]> (pipes s)) s))
        as (l & pi' & s' & He & Hin & Ho & Hnw & Hco & Hl); [|done|].
      { split_and!; [done|done|]. simpl. apply lookup_insert_eq. }
      exists (b :: l), pi', s'. unfold bind. change (set_nread (u32 (nread pi + 1)) pi) with (pop_byte pi).
      rewrite He. split_and!; try done.
      * simpl. by rewrite <- Hco, Hq'.
      * simpl. by rewrite Hl, Hq'.
Qed.

(** [piperead] takes the first [n] bytes, or what there is. *)
Lemma piperead_loop_spec p n pi s :
  in_pipe p pi s -> pipe_ok pi ->
  exists o v l pi' s', piperead_loop p n s = o /\
    (o = Ret (v, l) s' \/ o = Slept (Some (Ch_nread p)) s' /\ l = []) /\
    pipe_ok pi' /\ nwrite pi' = nwrite pi /\ contents pi = l ++ contents pi' /\ pipes s' !! p = Some pi'.
Proof.
  intros (Hh & Hc & Hp) Hok. unfold piperead_loop. unfold bind at 1. rewrite (pipe_at_eq p pi) by done.
  destruct (_ && _).
  - destruct (killed_eq s Hc) as [k Hk]. unfold bind at 1. rewrite Hk. destruct k.
    + eexists _, (-1), [], pi, _. split.
      { unfold bind. rewrite (release_top _ []); [|done|set_solver]. reflexivity. }
      split; [by left|]. split_and!; done.
    + destruct Hc as [i Hi]. eexists _, 0, [], pi, _. split.
      { unfold bind. rewrite (sleep_eq _ _ _ i) by done. reflexivity. }
      split; [by right|]. split_and!; done.
  - destruct (piperead_copy_spec p n pi s) as (l & pi' & s' & He & (Hh' & Hc' & Hp') & Ho & Hnw & Hco & _); [done..|].
    eexists _, (Z.of_nat (length l)), l, pi', _. split.
    { unfold bind at 1. rewrite He. unfold bind. rewrite wakeup_eq by (rewrite Hh'; set_solver).
      rewrite (release_top _ []); [|done|set_solver]. reflexivity. }
    split; [by left|]. split_and!; done.
Qed.

(** ** The byte stream *)

Definition pipe_of (p : Z) (s : kstate) : pipe := default (mkPipe [] 0 0 false false) (pipes s !! p).

(** [runs s]: a process is about to make a call; [resumes s]: a process comes back from
    the switch in [sleep]. *)
Definition runs (s : kstate) : Prop := held s = [] /\ is_Some (cur s).
Definition resumes (s : kstate) : Prop := held s = [L_ptable] /\ is_Some (cur s).

(** The bytes of [l] a call that went from [s] to [s'] has put in the pipe. *)
Definition accepted (p : Z) (l : list Z) (s s' : kstate) : list Z :=
  take (Z.to_nat (u32 (nwrite (pipe_of p s') - nwrite (pipe_of p s)))) l.

(** [(s, w, r)]: the bytes [w] have been written to the pipe and [r] read from it. *)
Inductive pstep (p : Z) : kstate * list Z * list Z -> kstate * list Z * list Z -> Prop :=
| ps_write s w r l s' :
    runs s -> state_after (pipewrite p l s) = Some s' ->
    pstep p (s, w, r) (s', w ++ accepted p l s s', r)
| ps_write_more s w r n l s' :
    resumes s -> state_after (pipewrite_return p n l s) = Some s' ->
    pstep p (s, w, r) (s', w ++ accepted p l s s', r)
| ps_read s w r n v l s' :
    runs s -> piperead p n s = Ret (v, l) s' -> pstep p (s, w, r) (s', w, r ++ l)
| ps_read_sleep s w r n c s' :
    runs s -> piperead p n s = Slept c s' -> pstep p (s, w, r) (s', w, r)
| ps_read_more s w r n v l s' :
    resumes s -> piperead_return p n s = Ret (v, l) s' -> pstep p (s, w, r) (s', w, r ++ l)
| ps_read_again s w r n c s' :
    resumes s -> piperead_return p n s = Slept c s' -> pstep p (s, w, r) (s', w, r)
| ps_other s w r s' :
    pipes s' !! p = pipes s !! p -> pstep p (s, w, r) (s', w, r).

Definition stream (p : Z) (c : kstate * list Z * list Z) : Prop :=
  exists pi, pipes c.1.1 !! p = Some pi /\ pipe_ok pi /\ c.1.2 = c.2 ++ contents pi.

Lemma enter_call {A} p pi s (m : KM A) :
  runs s -> pipes s !! p = Some pi ->
  exists s1, in_pipe p pi s1 /\ (acquire (L_pipe p) ;;; m) s = m s1.
Proof.
  intros [Hh Hc] Hp. exists (set_held [L_pipe p] s). split; [by split|].
  unfold bind. rewrite acquire_eq by (rewrite Hh; set_solver). by rewrite Hh.
Qed.

Lemma enter_return {A} p pi s (m : KM A) :
  resumes s -> pipes s !! p = Some pi ->
  exists s1, in_pipe p pi s1 /\ (sleep_return (L_pipe p) ;;; m) s = m s1.
Proof.
  intros [Hh [i Hi]] Hp.
  exists (set_held [L_pipe p] (set_procs (alter (set_p_chan None) i (procs s)) s)).
  split; [split; [done|split; [by exists i|done]]|].
  unfold bind at 1, sleep_return. unfold curproc, myproc, get, bind at 1, bind at 1. rewrite Hi.
  unfold ret, bind at 1, upd_proc, modify. rewrite decide_False by done. unfold bind at 1.
  rewrite (release_top _ []); [|done|set_solver]. rewrite acquire_eq by (simpl; set_solver). done.
Qed.

Lemma accepted_eq p l k pi pi' s s' :
  pipes s !! p = Some pi -> pipes s' !! p = Some pi' -> pipe_ok pi -> pipe_ok pi' ->
  nread pi' = nread pi -> contents pi' = contents pi ++ take k l -> (k <= length l)%nat ->
  accepted p l s s' = take k l.
Proof.
  intros Hp Hp' Hok Hok' Hnr Hco Hk. unfold accepted, pipe_of. rewrite Hp, Hp'. simpl. f_equal.
  apply (f_equal length) in Hco. rewrite length_app, !length_contents, length_take in Hco.
  rewrite (nwrite_eq pi Hok), (nwrite_eq pi' Hok'), Hnr. unfold u32. rewrite <- Zminus_mod.
  replace (nread pi + pipe_len pi' - (nread pi + pipe_len pi)) with (pipe_len pi' - pipe_len pi) by lia.
  pose proof (pipe_len_range pi). pose proof (pipe_len_range pi'). rewrite Z.mod_small by lia. lia.
Qed.

Lemma write_stream p n l pi s s1 s' :
  in_pipe p pi s1 -> pipes s !! p = Some pi -> pipe_ok pi ->
  state_after (pipewrite_loop p n l s1) = Some s' ->
  exists pi', pipes s' !! p = Some pi' /\ pipe_ok pi' /\ contents pi' = contents pi ++ accepted p l s s'.
Proof.
  intros Hin Hp Hok Hs.
  destruct (pipewrite_loop_spec p n l pi s1 Hin Hok) as (o & k & pi' & s2 & Ho & Hres & Hk & Hok' & Hnr & Hco & Hp').
  rewrite Ho in Hs. assert (s' = s2) as ->.
  { destruct Hres as [[-> _]|[[-> | ->] _]]; simpl in Hs; congruence. }
  exists pi'. split_and!; [done|done|]. by rewrite (accepted_eq p l k pi pi').
Qed.

Lemma read_stream p n pi s1 :
  in_pipe p pi s1 -> pipe_ok pi ->
  (forall v l s', piperead_loop p n s1 = Ret (v, l) s' ->
     exists pi', pipes s' !! p = Some pi' /\ pipe_ok pi' /\ contents pi = l ++ contents pi') /\
  (forall c s', piperead_loop p n s1 = Slept c s' ->
     exists pi', pipes s' !! p = Some pi' /\ pipe_ok pi' /\ contents pi = contents pi').
Proof.
  intros Hin Hok.
  destruct (piperead_loop_spec p n pi s1 Hin Hok) as (o & v & l & pi' & s2 & Ho & Hres & H1 & _ & H2 & H3).
  rewrite Ho. split.
  - intros v' l' s' ->. destruct Hres as [[= -> -> ->]|[[=] _]]. by exists pi'.
  - intros c s' ->. destruct Hres as [[=]|[[= _ ->] ->]]. by exists pi'.
Qed.

Lemma pstep_stream p c c' : stream p c -> pstep p c c' -> stream p c'.
Proof.
  intros (pi & Hp & Hok & Hst) Hs.
  assert (forall n l s s1 s', pipes s !! p = Some pi -> in_pipe p pi s1 ->
    state_after (pipewrite_loop p n l s1) = Some s' -> forall w r, w = r ++ contents pi ->
    stream p (s', w ++ accepted p l s s', r)) as Hwrite.
  { intros n l s s1 s' Hps Hin Hw w r ->. destruct (write_stream p n l pi s s1 s') as (pi' & H1 & H2 & H3); [done..|].
    exists pi'. split_and!; [done|done|]. simpl. by rewrite H3, app_assoc. }
  assert (forall n s1 v l s', in_pipe p pi s1 -> piperead_loop p n s1 = Ret (v, l) s' ->
    forall w r, w = r ++ contents pi -> stream p (s', w, r ++ l)) as Hread.
  { intros n s1 v l s' Hin Hd w r ->. destruct (proj1 (read_stream p n pi s1 Hin Hok) _ _ _ Hd) as (pi' & H1 & H2 & H3).
    exists pi'. split_and!; [done|done|]. simpl. by rewrite H3, app_assoc. }
  assert (forall n s1 c s', in_pipe p pi s1 -> piperead_loop p n s1 = Slept c s' ->
    forall w r, w = r ++ contents pi -> stream p (s', w, r)) as Hsleep.
  { intros n s1 c0 s' Hin Hd w r ->. destruct (proj2 (read_stream p n pi s1 Hin Hok) _ _ Hd) as (pi' & H1 & H2 & H3).
    exists pi'. split_and!; [done|done|]. simpl. by rewrite H3. }
  destruct Hs as [s w r l s' Hr Hw|s w r n l s' Hr Hw|s w r n v l s' Hr Hd|s w r n c s' Hr Hd
    |s w r n v l s' Hr Hd|s w r n c s' Hr Hd|s w r s' He]; simpl in Hp, Hst.
  - destruct (enter_call p pi s (pipewrite_loop p (Z.of_nat (length l)) l) Hr Hp) as (s1 & Hin & E).
    unfold pipewrite in Hw. rewrite E in Hw. by eapply Hwrite.
  - destruct (enter_return p pi s (pipewrite_loop p n l) Hr Hp) as (s1 & Hin & E).
    unfold pipewrite_return in Hw. rewrite E in Hw. by eapply Hwrite.
  - destruct (enter_call p pi s (piperead_loop p n) Hr Hp) as (s1 & Hin & E).
    unfold piperead in Hd. rewrite E in Hd. by eapply Hread.
  - destruct (enter_call p pi s (piperead_loop p n) Hr Hp) as (s1 & Hin & E).
    unfold piperead in Hd. rewrite E in Hd. by eapply Hsleep.
  - destruct (enter_return p pi s (piperead_loop p n) Hr Hp) as (s1 & Hin & E).
    unfold piperead_return in Hd. rewrite E in Hd. by eapply Hread.
  - destruct (enter_return p pi s (piperead_loop p n) Hr Hp) as (s1 & Hin & E).
    unfold piperead_return in Hd. rewrite E in Hd. by eapply Hsleep.
  - exists pi. split_and!; [simpl; congruence|done|done].
Qed.

(** C31: a pipe is a FIFO byte stream.  Let any processes read and write a new pipe, in
    calls of any size that may sleep and be resumed, with other kernel activity in
    between: the bytes read so far followed by the bytes in the ring are exactly the
    bytes written so far, in order, even when the 32-bit counters wrap around; at
    most PIPESIZE bytes are in the ring. *)
Theorem pipe_is_fifo (p : Z) (s0 s : kstate) (pi0 : pipe) (w r : list Z) :
  pipes s0 !! p = Some pi0 -> length (pi_data pi0) = 512%nat -> nread pi0 = nwrite pi0 ->
  0 <= nread pi0 < 2 ^ 32 ->
  rtc (pstep p) (s0, [], []) (s, w, r) ->
  exists pi, pipes s !! p = Some pi /\ w = r ++ contents pi /\ (length (contents pi) <= 512)%nat.
Proof.
  intros Hp Hd He Hn Hr.
  assert (pipe_len pi0 = 0) as Hlen by (unfold pipe_len; by rewrite He, Z.sub_diag).
  assert (stream p (s, w, r)) as (pi & H1 & H2 & H3).
  { eapply (rtc_ind_r (stream p)); [|intros c c' _ Hs Hi; by eapply pstep_stream|exact Hr].
    exists pi0. split_and!; [done| |].
    - split; [done|done|lia|lia].
    - simpl. symmetry. apply nil_length_inv. by rewrite length_contents, Hlen. }
  exists pi. split_and!; [done|done|]. pose proof (po_len _ H2). rewrite length_contents. lia.
Qed.

(** A pipe whose counters are about to wrap around. *)
Definition late_pipe : pipe := mkPipe (replicate 512 0) 4294967294 4294967294 true true.
Definition pipe_kernel : kstate :=
  mkK [] [null_proc] (Some O) 1 None ∅ 0 false [] ∅ [] (mkLog 0 0 0 false 0 0 []) (mkSb 0 0 0 0 0 0 0)
    [] [] {[4096 := late_pipe]} [] 0 null_console 0.
Definition after_write : kstate :=
  default pipe_kernel (state_after (pipewrite 4096 [104; 101; 108; 108; 111] pipe_kernel)).

Lemma pipe_is_fifo_witness :
  exists pi, pipes after_write !! 4096 = Some pi /\ [104; 101; 108; 108; 111] = [] ++ contents pi /\
    (length (contents pi) <= 512)%nat.
Proof.
  apply (pipe_is_fifo 4096 pipe_kernel after_write late_pipe [104; 101; 108; 108; 111] []);
    [reflexivity|reflexivity|reflexivity|simpl; lia|].
  apply rtc_once. change ([104; 101; 108; 108; 111])
    with ([] ++ accepted 4096 [104; 101; 108; 108; 111] pipe_kernel after_write).
  apply ps_write; [by split; [|eexists]|]. vm_compute. reflexivity.
Defined.
