(* ===== verification/Fs.v ===== *)
(** * Fs: blocks, inodes, directories and path names (fs.c)

    The layers of the file system over the log: the free-block bitmap, the inode
    table and its cache, the contents of an inode, directories, path names.  Device
    files are read and written through [devsw]: the class [Devices].  A [char *]
    that is read is the list of bytes at it (a C string: up to its NUL), one that is
    written is part of the result. *)

From stdpp Require Import base gmap list strings.
From Stdlib Require Import ZArith Lia.
From S2P Require Import Prelude State Core Bio Log.

Local Open Scope Z_scope.
Local Open Scope kernel_scope.

(** [devsw[major].read] and [.write] *)
Class Devices := {
  dev_read : Z -> option (nat -> Z -> KM (Z * list Z));
  dev_write : Z -> option (nat -> list Z -> KM Z)
}.

(** ** Layout of the disk structures *)

(** [IBLOCK(i, sb)], [BBLOCK(b, sb)] *)
Definition IBLOCK (i : Z) (sb : superblock) : Z := u32 (i / IPB + sb_inodestart sb).
Definition BBLOCK (b : Z) (sb : superblock) : Z := u32 (b / BPB + sb_bmapstart sb).

(** [bp->data[bi/8] & (1 << (bi % 8))] *)
Definition bit_mask (bi : Z) : Z := Z.shiftl 1 (bi mod 8).
Definition bit_set (d : list Z) (bi : Z) : bool :=
  negb (Z.land (default 0 (d !! Z.to_nat (bi / 8))) (bit_mask bi) =? 0).
Definition set_bit (bi : Z) (d : list Z) : list Z :=
  alter (fun x => Z.lor x (bit_mask bi)) (Z.to_nat (bi / 8)) d.
Definition clear_bit (bi : Z) (d : list Z) : list Z :=
  alter (fun x => Z.land x (Z.lnot (bit_mask bi))) (Z.to_nat (bi / 8)) d.

(** The fields of the [struct dinode] at offset [o] of a block. *)
Definition dinode_at (inum : Z) : nat := Z.to_nat (64 * (inum mod IPB)).
Definition di_type (o : nat) (d : list Z) : Z := i16 (rd 2 o d).
Definition di_major (o : nat) (d : list Z) : Z := i16 (rd 2 (o + 2) d).
Definition di_minor (o : nat) (d : list Z) : Z := i16 (rd 2 (o + 4) d).
Definition di_nlink (o : nat) (d : list Z) : Z := i16 (rd 2 (o + 6) d).
Definition di_size (o : nat) (d : list Z) : Z := rd 4 (o + 8) d.
Definition di_addrs (o : nat) (d : list Z) : list Z := (fun i => rd 4 (o + 12 + 4 * i) d) <$> seq 0 13.

Definition wr_addrs (o : nat) (l : list Z) (d : list Z) : list Z :=
  foldl (fun d i => wr 4 (o + 12 + 4 * i) (default 0 (l !! i)) d) d (seq 0 13).

(** [dip->type = ip->type; ... memmove(dip->addrs, ip->addrs, ...)] *)
Definition put_dinode (o : nat) (ip : inode) (d : list Z) : list Z :=
  wr_addrs o (i_addrs ip) (wr 4 (o + 8) (i_size ip) (wr 2 (o + 6) (u16 (i_nlink ip))
    (wr 2 (o + 4) (u16 (i_minor ip)) (wr 2 (o + 2) (u16 (i_major ip)) (wr 2 o (u16 (i_type ip)) d))))).

Definition get_dinode (o : nat) (d : list Z) (ip : inode) : inode :=
  set_i_addrs (di_addrs o d) (set_i_size (di_size o d) (set_i_nlink (di_nlink o d)
    (set_i_minor (di_minor o d) (set_i_major (di_major o d) (set_i_type (di_type o d) ip))))).

(** [struct dirent] *)
Definition de_inum (de : list Z) : Z := rd 2 0 de.
Definition de_name (de : list Z) : list Z := sub 2 14 de.

(** ** Strings *)

(** [strncmp] on C strings given as lists: past the end of a list is the NUL. *)
Fixpoint strncmp (n : nat) (p q : list Z) : Z :=
  match n with
  | O => 0
  | S n' =>
      let a := default 0 (head p) in
      let b := default 0 (head q) in
      if negb (a =? 0) && (a =? b) then strncmp n' (tail p) (tail q) else a - b
  end.
Definition namecmp (s t : list Z) : Z := strncmp 14 s t.

(** What [strncpy(dst, t, n)] stores. *)
Definition strncpy (n : nat) (t : list Z) : list Z := take n (t ++ replicate n 0).

(** [while(c is not a stop) path++] *)
Fixpoint skip_while (P : Z -> bool) (path : list Z) : list Z :=
  match path with
  | [] => []
  | c :: path' => if P c then skip_while P path' else path
  end.
Fixpoint take_while (P : Z -> bool) (path : list Z) : list Z :=
  match path with
  | [] => []
  | c :: path' => if P c then c :: take_while P path' else []
  end.

(** The rest of the path and the element copied to [name]; ['/'] is 47. *)
Definition skipelem (path : list Z) : option (list Z * list Z) :=
  match skip_while (fun c => c =? 47) path with
  | [] => None
  | s =>
      let elem := take_while (fun c => negb (c =? 47)) s in
      let rest := skip_while (fun c => negb (c =? 47)) s in
      Some (skip_while (fun c => c =? 47) rest, take 14 elem)
  end.

Section fs.
Context `{DiskDriver} `{Devices}.

(** ** Blocks *)

Definition bdata (bp : nat) : KM (list Z) := get (fun s => b_data (buf_at s bp)).
Definition upd_data (bp : nat) (f : list Z -> list Z) : KM unit :=
  upd_buf bp (fun b => set_b_data (f (b_data b)) b).

Definition bzero (dev bno : Z) : KM unit :=
  bp <- bread dev bno ;;
  upd_data bp (fun _ => zero_block) ;;;
  log_write bp ;;;
  brelse bp.

(** The first clear bit [bi] with [b + bi < size]. *)
Definition free_bit (d : list Z) (b size : Z) : option nat :=
  List.find (fun bi => negb (bit_set d (Z.of_nat bi)))
    (seq 0 (Z.to_nat (Z.min BPB (size - b)))).

Definition balloc (dev : Z) : KM Z :=
  size <- get (fun s => sb_size (sb s)) ;;
  r <- loop_until (seq 0 (Z.to_nat ((size + BPB - 1) / BPB))) (fun j =>
    let b := BPB * Z.of_nat j in
    sb <- get sb ;;
    bp <- bread dev (BBLOCK b sb) ;;
    d <- bdata bp ;;
    match free_bit d b size with
    | Some bi =>
        upd_data bp (set_bit (Z.of_nat bi)) ;;;
        log_write bp ;;;
        brelse bp ;;;
        bzero dev (b + Z.of_nat bi) ;;;
        ret (Some (b + Z.of_nat bi))
    | None =>
        brelse bp ;;;
        ret None
    end) ;;
  match r with
  | Some b => ret b
  | None => panic "balloc: out of blocks"
  end.

Definition bfree (dev b : Z) : KM unit :=
  sb <- get sb ;;
  bp <- bread dev (BBLOCK b sb) ;;
  d <- bdata bp ;;
  let bi := b mod BPB in
  if negb (bit_set d bi) then panic "freeing free block" else
  upd_data bp (clear_bit bi) ;;;
  log_write bp ;;;
  brelse bp.

(** ** Inodes *)

(** The message with the numbers of the superblock is left out. *)
Definition iinit (dev : Z) : KM unit :=
  for_each (seq 0 NINODE) (fun i => initsleeplock (SL_inode i)) ;;;
  b <- readsb dev ;;
  modify (set_sb b).

Definition iget (dev inum : Z) : KM nat :=
  acquire L_icache ;;;
  ic <- get icache ;;
  match list_find (fun ip => 0 < i_ref ip /\ i_dev ip = dev /\ i_inum ip = inum) (take NINODE ic) with
  | Some (i, ip) =>
      upd_inode i (set_i_ref (i_ref ip + 1)) ;;;
      release L_icache ;;;
      ret i
  | None =>
      match list_find (fun ip => i_ref ip = 0) (take NINODE ic) with
      | None => panic "iget: no inodes"
      | Some (i, _) =>
          upd_inode i (fun ip => set_i_valid false (set_i_ref 1 (set_i_inum inum (set_i_dev dev ip)))) ;;;
          release L_icache ;;;
          ret i
      end
  end.

Definition ialloc (dev type : Z) : KM nat :=
  n <- get (fun s => sb_ninodes (sb s)) ;;
  r <- loop_until (seq 1 (Z.to_nat (n - 1))) (fun k =>
    let inum := Z.of_nat k in
    sb <- get sb ;;
    bp <- bread dev (IBLOCK inum sb) ;;
    d <- bdata bp ;;
    let o := dinode_at inum in
    if di_type o d =? 0 then
      upd_data bp (fun d => wr 2 o (u16 type) (splice o (replicate 64 0) d)) ;;;
      log_write bp ;;;
      brelse bp ;;;
      i <- iget dev inum ;;
      ret (Some i)
    else
      brelse bp ;;;
      ret None) ;;
  match r with
  | Some i => ret i
  | None => panic "ialloc: no inodes"
  end.

Definition iupdate (i : nat) : KM unit :=
  ip <- get (fun s => inode_at s i) ;;
  sb <- get sb ;;
  bp <- bread (i_dev ip) (IBLOCK (i_inum ip) sb) ;;
  upd_data bp (put_dinode (dinode_at (i_inum ip)) ip) ;;;
  log_write bp ;;;
  brelse bp.

Definition idup (i : nat) : KM nat :=
  acquire L_icache ;;;
  upd_inode i (fun ip => set_i_ref (i_ref ip + 1) ip) ;;;
  release L_icache ;;;
  ret i.

(** [ilock] once it has the lock. *)
Definition ilock_fill (i : nat) : KM unit :=
  ip <- get (fun s => inode_at s i) ;;
  if i_valid ip then ret tt
  else
    sb <- get sb ;;
    bp <- bread (i_dev ip) (IBLOCK (i_inum ip) sb) ;;
    d <- bdata bp ;;
    upd_inode i (get_dinode (dinode_at (i_inum ip)) d) ;;;
    brelse bp ;;;
    upd_inode i (set_i_valid true) ;;;
    t <- get (fun s => i_type (inode_at s i)) ;;
    if t =? 0 then panic "ilock: no type" else ret tt.

Definition ilock (i : nat) : KM unit :=
  r <- get (fun s => i_ref (inode_at s i)) ;;
  if r <? 1 then panic "ilock" else
  acquiresleep (SL_inode i) ;;;
  ilock_fill i.

Definition iunlock (i : nat) : KM unit :=
  h <- holdingsleep (SL_inode i) ;;
  r <- get (fun s => i_ref (inode_at s i)) ;;
  if negb h || (r <? 1) then panic "iunlock"
  else releasesleep (SL_inode i).

(** ** Inode contents *)

(** [ip->addrs[k]] *)
Definition addr_at (i k : nat) : KM Z :=
  a <- get (fun s => i_addrs (inode_at s i) !! k) ;; in_bounds a.
Definition set_addr (i k : nat) (a : Z) : KM unit :=
  upd_inode i (fun ip => set_i_addrs (<[k := a]> (i_addrs ip)) ip).

Definition bmap (i : nat) (bn : Z) : KM Z :=
  dev <- get (fun s => i_dev (inode_at s i)) ;;
  if bn <? NDIRECT then
    addr <- addr_at i (Z.to_nat bn) ;;
    if addr =? 0 then
      a <- balloc dev ;;
      set_addr i (Z.to_nat bn) a ;;;
      ret a
    else ret addr
  else
    let bn := bn - NDIRECT in
    if bn <? NINDIRECT then
      addr <- addr_at i (Z.to_nat NDIRECT) ;;
      addr <- (if addr =? 0 then
                 a <- balloc dev ;;
                 set_addr i (Z.to_nat NDIRECT) a ;;;
                 ret a
               else ret addr) ;;
      bp <- bread dev addr ;;
      d <- bdata bp ;;
      let o := Z.to_nat (4 * bn) in
      let addr := rd 4 o d in
      addr <- (if addr =? 0 then
                 a <- balloc dev ;;
                 upd_data bp (wr 4 o a) ;;;
                 log_write bp ;;;
                 ret a
               else ret addr) ;;
      brelse bp ;;;
      ret addr
    else panic "bmap: out of range".

Definition itrunc (i : nat) : KM unit :=
  dev <- get (fun s => i_dev (inode_at s i)) ;;
  for_each (seq 0 (Z.to_nat NDIRECT)) (fun k =>
    a <- addr_at i k ;;
    if a =? 0 then ret tt
    else
      bfree dev a ;;;
      set_addr i k 0) ;;;
  a <- addr_at i (Z.to_nat NDIRECT) ;;
  (if a =? 0 then ret tt
   else
     bp <- bread dev a ;;
     for_each (seq 0 (Z.to_nat NINDIRECT)) (fun j =>
       d <- bdata bp ;;
       let b := rd 4 (4 * j) d in
       if b =? 0 then ret tt else bfree dev b) ;;;
     brelse bp ;;;
     bfree dev a ;;;
     set_addr i (Z.to_nat NDIRECT) 0) ;;;
  upd_inode i (set_i_size 0) ;;;
  iupdate i.

Definition iput (i : nat) : KM unit :=
  acquiresleep (SL_inode i) ;;;
  ip <- get (fun s => inode_at s i) ;;
  (if i_valid ip && (i_nlink ip =? 0) then
     acquire L_icache ;;;
     r <- get (fun s => i_ref (inode_at s i)) ;;
     release L_icache ;;;
     if r =? 1 then
       itrunc i ;;;
       upd_inode i (set_i_type 0) ;;;
       iupdate i ;;;
       upd_inode i (set_i_valid false)
     else ret tt
   else ret tt) ;;;
  releasesleep (SL_inode i) ;;;
  acquire L_icache ;;;
  upd_inode i (fun ip => set_i_ref (i_ref ip - 1) ip) ;;;
  release L_icache.

Definition iunlockput (i : nat) : KM unit := iunlock i ;;; iput i.

(** [struct stat] *)
Record stat := mkStat { st_type : Z; st_dev : Z; st_ino : Z; st_nlink : Z; st_size : Z }.
Definition stati (i : nat) : KM stat :=
  ip <- get (fun s => inode_at s i) ;;
  ret (mkStat (i_type ip) (i_dev ip) (i_inum ip) (i_nlink ip) (i_size ip)).

(** The loop of [readi]: [n] bytes from [off]. *)
Fixpoint readi_loop (fuel : nat) (i : nat) (off n : Z) : KM (list Z) :=
  match fuel with
  | O => panic "out of fuel"
  | S fuel' =>
      if n <=? 0 then ret []
      else
        dev <- get (fun s => i_dev (inode_at s i)) ;;
        a <- bmap i (off / BSIZE) ;;
        bp <- bread dev a ;;
        let m := Z.min n (BSIZE - off mod BSIZE) in
        d <- bdata bp ;;
        brelse bp ;;;
        rest <- readi_loop fuel' i (off + m) (n - m) ;;
        ret (sub (Z.to_nat (off mod BSIZE)) (Z.to_nat m) d ++ rest)
  end.

(** At most this many blocks are touched by [n] bytes. *)
Definition io_fuel (n : Z) : nat := Z.to_nat (n / BSIZE + 3).

(** The result and the bytes stored at [dst]. *)
Definition readi (i : nat) (off n : Z) : KM (Z * list Z) :=
  ip <- get (fun s => inode_at s i) ;;
  if i_type ip =? T_DEV then
    if (i_major ip <? 0) || (NDEV <=? i_major ip) then ret (-1, [])
    else match dev_read (i_major ip) with
         | None => ret (-1, [])
         | Some f => f i n
         end
  else if (i_size ip <? off) || (u32 (off + n) <? off) then ret (-1, [])
  else
    let n := if i_size ip <? u32 (off + n) then i_size ip - off else n in
    l <- readi_loop (io_fuel n) i off n ;;
    ret (i32 n, l).

Fixpoint writei_loop (fuel : nat) (i : nat) (off : Z) (src : list Z) : KM Z :=
  match fuel with
  | O => panic "out of fuel"
  | S fuel' =>
      match src with
      | [] => ret off
      | _ =>
        dev <- get (fun s => i_dev (inode_at s i)) ;;
        a <- bmap i (off / BSIZE) ;;
        bp <- bread dev a ;;
        let m := Z.to_nat (Z.min (Z.of_nat (length src)) (BSIZE - off mod BSIZE)) in
        upd_data bp (splice (Z.to_nat (off mod BSIZE)) (take m src)) ;;;
        log_write bp ;;;
        brelse bp ;;;
        writei_loop fuel' i (off + Z.of_nat m) (drop m src)
      end
  end.

(** [src] is the list of the [n] bytes at it. *)
Definition writei (i : nat) (src : list Z) (off : Z) : KM Z :=
  let n := Z.of_nat (length src) in
  ip <- get (fun s => inode_at s i) ;;
  if i_type ip =? T_DEV then
    if (i_major ip <? 0) || (NDEV <=? i_major ip) then ret (-1)
    else match dev_write (i_major ip) with
         | None => ret (-1)
         | Some f => f i src
         end
  else if (i_size ip <? off) || (u32 (off + n) <? off) then ret (-1)
  else if MAXFILE * BSIZE <? u32 (off + n) then ret (-1)
  else
    off' <- writei_loop (io_fuel n) i off src ;;
    size <- get (fun s => i_size (inode_at s i)) ;;
    (if (0 <? n) && (size <? off') then
       upd_inode i (set_i_size off') ;;;
       iupdate i
     else ret tt) ;;;
    ret (i32 n).

(** ** Directories *)

(** The scan of [dirlookup]: [k] entries left, the next one at [off]. *)
Fixpoint dirlookup_loop (k : nat) (dp : nat) (name : list Z) (off : Z) : KM (option (nat * Z)) :=
  match k with
  | O => ret None
  | S k' =>
      size <- get (fun s => i_size (inode_at s dp)) ;;
      if negb (off <? size) then ret None
      else
        r <- readi dp off 16 ;;
        let '(v, de) := r in
        if negb (v =? 16) then panic "dirlookup read"
        else if (de_inum de =? 0) || negb (namecmp name (de_name de) =? 0) then
          dirlookup_loop k' dp name (off + 16)
        else
          dev <- get (fun s => i_dev (inode_at s dp)) ;;
          i <- iget dev (de_inum de) ;;
          ret (Some (i, off))
  end.

(** One more than the entries a directory can have. *)
Definition dir_fuel (size : Z) : nat := Z.to_nat (size / 16 + 2).

Definition dirlookup (dp : nat) (name : list Z) : KM (option (nat * Z)) :=
  t <- get (fun s => i_type (inode_at s dp)) ;;
  if negb (t =? T_DIR) then panic "dirlookup not DIR" else
  size <- get (fun s => i_size (inode_at s dp)) ;;
  dirlookup_loop (dir_fuel size) dp name 0.

(** The offset of the first free entry, or the end. *)
Fixpoint dirlink_loop (k : nat) (dp : nat) (off : Z) : KM Z :=
  match k with
  | O => ret off
  | S k' =>
      size <- get (fun s => i_size (inode_at s dp)) ;;
      if negb (off <? size) then ret off
      else
        r <- readi dp off 16 ;;
        let '(v, de) := r in
        if negb (v =? 16) then panic "dirlink read"
        else if de_inum de =? 0 then ret off
        else dirlink_loop k' dp (off + 16)
  end.

Definition dirlink (dp : nat) (name : list Z) (inum : Z) : KM Z :=
  found <- dirlookup dp name ;;
  match found with
  | Some (i, _) =>
      iput i ;;;
      ret (-1)
  | None =>
      size <- get (fun s => i_size (inode_at s dp)) ;;
      off <- dirlink_loop (dir_fuel size) dp 0 ;;
      v <- writei dp (le_bytes 2 (u16 inum) ++ strncpy 14 name) off ;;
      if v =? 16 then ret 0 else panic "dirlink"
  end.

(** ** Paths *)

(** The loop of [namex]; the second component is the [name] it leaves. *)
Fixpoint namex_loop (fuel : nat) (i : nat) (path : list Z) (parent : bool) (name : list Z) :
    KM (option nat * list Z) :=
  match fuel with
  | O => panic "out of fuel"
  | S fuel' =>
      match skipelem path with
      | None =>
          if parent then
            iput i ;;;
            ret (None, name)
          else ret (Some i, name)
      | Some (path, name) =>
          ilock i ;;;
          t <- get (fun s => i_type (inode_at s i)) ;;
          if negb (t =? T_DIR) then
            iunlockput i ;;;
            ret (None, name)
          else if parent && bool_decide (path = []) then
            iunlock i ;;;
            ret (Some i, name)
          else
            next <- dirlookup i name ;;
            match next with
            | None =>
                iunlockput i ;;;
                ret (None, name)
            | Some (next, _) =>
                iunlockput i ;;;
                namex_loop fuel' next path parent name
            end
      end
  end.

Definition namex (path : list Z) (parent : bool) : KM (option nat * list Z) :=
  i <- (if bool_decide (head path = Some 47) then iget ROOTDEV ROOTINO
        else
          p <- curproc ;;
          cwd <- get (fun s => p_cwd (proc_at s p)) ;;
          cwd <- in_bounds cwd ;;
          idup cwd) ;;
  namex_loop (S (length path)) i path parent [].

Definition namei (path : list Z) : KM (option nat) := r <- namex path false ;; ret r.1.
Definition nameiparent (path : list Z) : KM (option nat * list Z) := namex path true.
End fs.
