(* ===== verification/FsLayout.v ===== *)
(** * FsLayout: the file system's encodings and path names

    Round trips of the disk inode, the bits of the free map, and path elements: the
    part of fs.c that is about bytes only. *)

From stdpp Require Import base gmap list strings.
From Stdlib Require Import ZArith Lia.
From S2P Require Import Prelude State Core Str Bio Log Fs.

Local Open Scope Z_scope.

(** ** Path elements *)

(** The elements of a path: the maximal runs without ['/']. *)
Fixpoint elements_of (cur : list Z) (path : list Z) : list (list Z) :=
  match path with
  | [] => match cur with [] => [] | _ => [cur] end
  | c :: path' =>
      if c =? 47 then match cur with [] => elements_of [] path' | _ => cur :: elements_of [] path' end
      else elements_of (cur ++ [c]) path'
  end.
Definition path_elements (path : list Z) : list (list Z) := elements_of [] path.

(** All the elements [skipelem] delivers, one call after the other. *)
Fixpoint skipelems (fuel : nat) (path : list Z) : option (list (list Z)) :=
  match fuel with
  | O => None
  | S fuel' =>
      match skipelem path with
      | None => Some []
      | Some (rest, name) => l ← skipelems fuel' rest; Some (name :: l)
      end
  end.

Lemma elements_skip path : elements_of [] (skip_while (fun c => c =? 47) path) = elements_of [] path.
Proof.
  induction path as [|c path IH]; [done|]. simpl. by destruct (c =? 47) eqn:E; simpl; rewrite ?E.
Qed.

Lemma elements_take cur path :
  cur ++ take_while (fun c => negb (c =? 47)) path <> [] ->
  elements_of cur path =
    (cur ++ take_while (fun c => negb (c =? 47)) path)
      :: elements_of [] (skip_while (fun c => negb (c =? 47)) path).
Proof.
  revert cur. induction path as [|c path IH]; intros cur Hne; simpl in *.
  - rewrite app_nil_r in *. by destruct cur.
  - destruct (c =? 47) eqn:E; simpl in *.
    + rewrite app_nil_r in *. rewrite E. by destruct cur.
    + rewrite IH by (by destruct cur). by rewrite <- app_assoc.
Qed.

Lemma length_skip P path : (length (skip_while P path) <= length path)%nat.
Proof. induction path as [|c path IH]; simpl; [lia|]. destruct (P c); simpl; lia. Qed.

Lemma skip_head P path c rest : skip_while P path = c :: rest -> P c = false.
Proof.
  induction path as [|a path IH]; simpl; [done|]. destruct (P a) eqn:E; [done|]. by intros [= <- <-].
Qed.

Lemma skipelem_spec path :
  match skipelem path with
  | None => path_elements path = []
  | Some (rest, name) =>
      exists e, e <> [] /\ name = take 14 e /\ path_elements path = e :: path_elements rest
        /\ head rest <> Some 47 /\ (length rest < length path)%nat
  end.
Proof.
  unfold skipelem, path_elements. rewrite <- (elements_skip path).
  destruct (skip_while (fun c => c =? 47) path) as [|c s] eqn:E; [done|].
  pose proof (skip_head _ _ _ _ E) as Hc. simpl in Hc.
  pose proof (length_skip (fun c => c =? 47) path) as Hl. rewrite E in Hl.
  exists (take_while (fun c => negb (c =? 47)) (c :: s)). simpl. rewrite Hc. simpl. split_and!.
  - done.
  - done.
  - rewrite elements_skip, elements_take by done. done.
  - intros Hh. destruct (skip_while _ (skip_while _ s)) as [|d r] eqn:E2; [done|]. simpl in Hh.
    injection Hh as ->. apply skip_head in E2. done.
  - pose proof (length_skip (fun c => c =? 47) (skip_while (fun c => negb (c =? 47)) s)).
    pose proof (length_skip (fun c => negb (c =? 47)) s). simpl in Hl. lia.
Qed.

Lemma skipelems_S fuel path :
  skipelems (S fuel) path =
    match skipelem path with
    | None => Some []
    | Some (rest, name) => l ← skipelems fuel rest; Some (name :: l)
    end.
Proof. done. Qed.

(** [skipelem] walks a path: called again and again on what it returns, it gives
    the non-empty components between the slashes in order, each cut to DIRSIZ bytes,
    and then 0; no call count larger than the length of the path is needed. *)
Theorem skipelem_walks_path (path : list Z) :
  skipelems (S (length path)) path = Some (take 14 <$> path_elements path).
Proof.
  remember (length path) as n eqn:Hn. assert (length path <= n)%nat as Hle by lia. clear Hn.
  revert path Hle. induction n as [|n IH]; intros path Hle; rewrite skipelems_S;
    pose proof (skipelem_spec path) as Hs; destruct (skipelem path) as [[rest name]|].
  - destruct Hs as (e & _ & _ & _ & _ & Hlt). lia.
  - by rewrite Hs.
  - destruct Hs as (e & _ & -> & -> & _ & Hlt). rewrite (IH rest) by lia. done.
  - by rewrite Hs.
Qed.

(** ** The free map *)

Lemma bit_mask_testbit bi k : 0 <= bi -> 0 <= k -> Z.testbit (bit_mask bi) k = (k =? bi mod 8).
Proof.
  intros Hb Hk. unfold bit_mask. rewrite Z.shiftl_spec by lia.
  pose proof (Z.mod_pos_bound bi 8 ltac:(lia)). destruct (Z.eqb_spec k (bi mod 8)) as [->|Hne].
  - by rewrite Z.sub_diag.
  - destruct (decide (k < bi mod 8)); [by apply Z.testbit_neg_r; lia|].
    change 1 with (2 ^ 0). rewrite Z.pow2_bits_false by lia. done.
Qed.

Lemma bit_set_testbit d bi :
  0 <= bi -> bit_set d bi = Z.testbit (default 0 (d !! Z.to_nat (bi / 8))) (bi mod 8).
Proof.
  intros Hb. unfold bit_set. set (x := default 0 _). pose proof (Z.mod_pos_bound bi 8 ltac:(lia)).
  destruct (Z.eqb_spec (Z.land x (bit_mask bi)) 0) as [E|E]; simpl.
  - assert (Z.testbit (Z.land x (bit_mask bi)) (bi mod 8) = false) as Ht by (by rewrite E, Z.bits_0).
    rewrite Z.land_spec, bit_mask_testbit, Z.eqb_refl, andb_true_r in Ht by lia. done.
  - destruct (Z.testbit x (bi mod 8)) eqn:Et; [done|]. exfalso. apply E. apply Z.bits_inj'. intros k Hk.
    rewrite Z.land_spec, bit_mask_testbit, Z.bits_0 by lia.
    destruct (Z.eqb_spec k (bi mod 8)) as [->|]; [by rewrite Et|by rewrite andb_false_r].
Qed.

(** Bits in the same byte have different positions in it. *)
Lemma same_byte bi bj : 0 <= bi -> 0 <= bj -> Z.to_nat (bi / 8) = Z.to_nat (bj / 8) -> bi mod 8 = bj mod 8 -> bi = bj.
Proof.
  intros Hi Hj Hd Hm. pose proof (Z.div_mod bi 8 ltac:(lia)). pose proof (Z.div_mod bj 8 ltac:(lia)).
  apply Z2Nat.inj in Hd; [lia|apply Z.div_pos; lia|apply Z.div_pos; lia].
Qed.

Lemma bit_set_set bi bj d :
  0 <= bi < 4096 -> 0 <= bj -> length d = 512%nat ->
  bit_set (set_bit bi d) bj = if decide (bi = bj) then true else bit_set d bj.
Proof.
  intros Hi Hj Hl. rewrite !bit_set_testbit by lia. unfold set_bit. rewrite list_lookup_alter.
  assert (is_Some (d !! Z.to_nat (bi / 8))) as [x Hx].
  { apply lookup_lt_is_Some_2. pose proof (Z.div_lt_upper_bound bi 8 512). lia. }
  pose proof (Z.mod_pos_bound bj 8 ltac:(lia)).
  destruct (decide (bi = bj)) as [<-|Hne].
  - rewrite decide_True, Hx by done. simpl. rewrite Z.lor_spec, bit_mask_testbit, Z.eqb_refl by lia.
    apply orb_true_r.
  - case_decide as E; [|done]. rewrite <- E, Hx. simpl.
    rewrite Z.lor_spec, bit_mask_testbit by lia.
    destruct (Z.eqb_spec (bj mod 8) (bi mod 8)) as [Em|]; [|by rewrite orb_false_r].
    destruct Hne. by apply same_byte; [lia|lia| |].
Qed.

Lemma bit_set_clear bi bj d :
  0 <= bi < 4096 -> 0 <= bj -> length d = 512%nat ->
  bit_set (clear_bit bi d) bj = if decide (bi = bj) then false else bit_set d bj.
Proof.
  intros Hi Hj Hl. rewrite !bit_set_testbit by lia. unfold clear_bit. rewrite list_lookup_alter.
  assert (is_Some (d !! Z.to_nat (bi / 8))) as [x Hx].
  { apply lookup_lt_is_Some_2. pose proof (Z.div_lt_upper_bound bi 8 512). lia. }
  pose proof (Z.mod_pos_bound bj 8 ltac:(lia)).
  destruct (decide (bi = bj)) as [<-|Hne].
  - rewrite decide_True, Hx by done. simpl.
    by rewrite Z.land_spec, Z.lnot_spec, bit_mask_testbit, Z.eqb_refl, andb_false_r by lia.
  - case_decide as E; [|done]. rewrite <- E, Hx. simpl.
    rewrite Z.land_spec, Z.lnot_spec, bit_mask_testbit by lia.
    destruct (Z.eqb_spec (bj mod 8) (bi mod 8)) as [Em|]; [|by rewrite andb_true_r].
    destruct Hne. by apply same_byte; [lia|lia| |].
Qed.

(** ** Disk inodes *)

Definition inode_ok (ip : inode) : Prop :=
  -32768 <= i_type ip < 32768 /\ -32768 <= i_major ip < 32768 /\ -32768 <= i_minor ip < 32768
  /\ -32768 <= i_nlink ip < 32768 /\ 0 <= i_size ip < 2 ^ 32 /\ length (i_addrs ip) = 13%nat
  /\ Forall (fun a => 0 <= a < 2 ^ 32) (i_addrs ip).

(** Induction over the words [memmove] copies. *)
Lemma wr_addrs_ind (P : nat -> list Z -> Prop) o l d :
  P 0%nat d ->
  (forall i d, (i < 13)%nat -> P i d -> P (S i) (wr 4 (o + 12 + 4 * i) (default 0 (l !! i)) d)) ->
  P 13%nat (wr_addrs o l d).
Proof.
  intros H0 HS. unfold wr_addrs.
  assert (forall n m d, (m + n <= 13)%nat -> P m d ->
    P (m + n)%nat (foldl (fun d i => wr 4 (o + 12 + 4 * i) (default 0 (l !! i)) d) d (seq m n))) as Hg.
  { induction n as [|n IH]; intros m e Hm HP; simpl; [by rewrite Nat.add_0_r|].
    rewrite <- Nat.add_succ_comm. apply IH; [lia|]. apply HS; [lia|done]. }
  by apply (Hg 13%nat 0%nat d).
Qed.

Lemma length_wr_addrs o l d : (o + 64 <= length d)%nat -> length (wr_addrs o l d) = length d.
Proof.
  intros Hl. apply (wr_addrs_ind (fun _ e => length e = length d)); [done|].
  intros i e Hi IH. rewrite length_wr; lia.
Qed.

Lemma rd_wr_addrs_ne o l d n o' :
  (o + 64 <= length d)%nat -> (o' + n <= o + 12 \/ o + 64 <= o')%nat ->
  rd n o' (wr_addrs o l d) = rd n o' d.
Proof.
  intros Hl Ho. apply (wr_addrs_ind (fun _ e => length e = length d /\ rd n o' e = rd n o' d)); [done|].
  intros i e Hi [IHl IH]. rewrite length_wr, rd_wr_ne by lia. done.
Qed.

Lemma di_addrs_wr_addrs o l d :
  (o + 64 <= length d)%nat -> length l = 13%nat -> Forall (fun a => 0 <= a < 2 ^ 32) l ->
  di_addrs o (wr_addrs o l d) = l.
Proof.
  intros Hl Hl13 Hr.
  assert (length (wr_addrs o l d) = length d /\
    forall j, (j < 13)%nat -> rd 4 (o + 12 + 4 * j) (wr_addrs o l d) = default 0 (l !! j)) as [_ Hj].
  { apply (wr_addrs_ind (fun i e => length e = length d /\
      forall j, (j < i)%nat -> rd 4 (o + 12 + 4 * j) e = default 0 (l !! j))); [split; [done|lia]|].
    intros i e Hi [IHl IH]. split; [rewrite length_wr; lia|]. intros j Hj.
    destruct (decide (i = j)) as [<-|Hne]; [|rewrite rd_wr_ne by lia; apply IH; lia].
    apply rd_wr_eq; [lia|]. destruct (lookup_lt_is_Some_2 l i ltac:(lia)) as [a Ha]. rewrite Ha.
    exact (Forall_lookup_1 _ _ _ _ Hr Ha). }
  unfold di_addrs. apply list_eq. intros j. rewrite list_lookup_fmap.
  destruct (decide (j < 13)%nat) as [Hlt|Hge].
  - rewrite lookup_seq_lt by lia. transitivity (Some (default 0 (l !! j))); [exact (f_equal Some (Hj j Hlt))|].
    by destruct (lookup_lt_is_Some_2 l j ltac:(lia)) as [a ->].
  - rewrite !lookup_ge_None_2; [done|lia|rewrite length_seq; lia].
Qed.

Lemma i16_u16 z : -32768 <= z < 32768 -> i16 (u16 z) = z.
Proof.
  intros Hz. unfold i16, u16. rewrite Zplus_mod_idemp_l, Z.mod_small; lia.
Qed.

Lemma rd2_wr2 o v d : (o + 2 <= length d)%nat -> -32768 <= v < 32768 -> i16 (rd 2 o (wr 2 o (u16 v) d)) = v.
Proof.
  intros Hl Hv. rewrite rd_wr_eq; [by apply i16_u16|lia|]. apply Z.mod_pos_bound. lia.
Qed.

(** Bounds on a block after some [wr]. *)
Ltac block_len := first [lia | rewrite length_wr by block_len; block_len].

Lemma length_put_dinode o ip d : (o + 64 <= length d)%nat -> length (put_dinode o ip d) = length d.
Proof. intros Hl. unfold put_dinode. rewrite length_wr_addrs by block_len. block_len. Qed.

(** The reads of [get_dinode] through the writes of [put_dinode]. *)
Ltac through_dinode :=
  repeat first
    [ rewrite rd_wr_addrs_ne by block_len
    | rewrite rd_wr_ne by block_len ].

Lemma get_put_dinode (o : nat) (ip ip0 : inode) (d : list Z)
    (Hl : (o + 64 <= length d)%nat) (Hok : inode_ok ip) :
  get_dinode o (put_dinode o ip d) ip0 =
    set_i_addrs (i_addrs ip) (set_i_size (i_size ip) (set_i_nlink (i_nlink ip)
      (set_i_minor (i_minor ip) (set_i_major (i_major ip) (set_i_type (i_type ip) ip0)))))
  /\ forall o', (o' + 64 <= o \/ o + 64 <= o')%nat -> get_dinode o' (put_dinode o ip d) ip0 = get_dinode o' d ip0.
Proof.
  destruct Hok as (Ht & Hma & Hmi & Hn & Hs & Hla & Ha). unfold get_dinode. split.
  - assert (di_addrs o (put_dinode o ip d) = i_addrs ip) as ->.
    { apply di_addrs_wr_addrs; [block_len|done..]. }
    assert (di_size o (put_dinode o ip d) = i_size ip) as ->.
    { unfold di_size, put_dinode. through_dinode. apply rd_wr_eq; [block_len|done]. }
    assert (di_type o (put_dinode o ip d) = i_type ip /\ di_major o (put_dinode o ip d) = i_major ip
      /\ di_minor o (put_dinode o ip d) = i_minor ip /\ di_nlink o (put_dinode o ip d) = i_nlink ip)
      as (-> & -> & -> & ->).
    { unfold di_type, di_major, di_minor, di_nlink, put_dinode.
      split_and!; through_dinode; apply rd2_wr2; block_len. }
    done.
  - intros o' Ho'. unfold di_addrs, di_size, di_type, di_major, di_minor, di_nlink, put_dinode. through_dinode.
    f_equal. apply list_fmap_ext. intros j i Hi.
    apply list_elem_of_lookup_2, elem_of_seq in Hi. by through_dinode.
Qed.

(** what [iupdate] writes is what [ilock] reads: every field of the inode comes
    back, and the other inodes of the block are unchanged. *)
Theorem dinode_round_trip (o : nat) (ip ip0 : inode) (d : list Z)
    (Hl : (o + 64 <= length d)%nat) (Hok : inode_ok ip) :
  get_dinode o (put_dinode o ip d) ip0 =
    set_i_addrs (i_addrs ip) (set_i_size (i_size ip) (set_i_nlink (i_nlink ip)
      (set_i_minor (i_minor ip) (set_i_major (i_major ip) (set_i_type (i_type ip) ip0)))))
  /\ forall o', (o' + 64 <= o \/ o + 64 <= o')%nat -> get_dinode o' (put_dinode o ip d) ip0 = get_dinode o' d ip0.
Proof. by apply get_put_dinode. Qed.

(** A directory inode of two blocks. *)
Definition some_inode : inode :=
  mkInode 1 7 1 (mkSleeplock false 0) true T_DIR 0 0 2 1024 (60 :: 61 :: replicate 11 0).

Lemma dinode_round_trip_witness :
  i_size (get_dinode (dinode_at 7) (put_dinode (dinode_at 7) some_inode (replicate 512 9)) some_inode) = 1024.
Proof.
  assert (inode_ok some_inode) as Hok.
  { unfold inode_ok. apply (bool_decide_unpack _). by vm_compute. }
  rewrite (proj1 (dinode_round_trip (dinode_at 7) some_inode some_inode (replicate 512 9)
    ltac:(vm_compute; lia) Hok)). reflexivity.
Defined.
