(* ===== verification/Console.v ===== *)
(** * Console: console input and output (console.c), the process listing (procdump)

    The output side writes the CGA memory and the serial port; the input side is
    the line editor [consoleintr] with its control keys, the command history and
    completion.  [getc] is the list of the characters it returns before -1.  A
    [char] is a byte 0..255, [sx8] its value as an int. *)

From stdpp Require Import base gmap list strings.
From Stdlib Require Import ZArith Lia.
From S2P Require Import Prelude State Core Printf Kalloc Bio Log Fs Pipe.

Local Open Scope Z_scope.
Local Open Scope kernel_scope.

Definition INPUT_BUF : Z := 128.
Definition BACKSPACE : Z := 256.
Definition CONSOLE : Z := 1.

(** A [char] converted to int. *)
Definition sx8 (b : Z) : Z := if b <? 128 then b else b - 256.

(** The bytes of a string literal. *)
Definition lit (s : string) : list Z := (fun a => Z.of_nat (Ascii.nat_of_ascii a)) <$> String.list_ascii_of_string s.

(** The C string at the start of an array, if it ends inside. *)
Fixpoint cstr_in (l : list Z) : option (list Z) :=
  match l with
  | [] => None
  | c :: l' => if c =? 0 then Some [] else s ← cstr_in l'; Some (c :: s)
  end.

Definition upd_cons (f : consstate -> consstate) : KM unit := modify (fun s => set_console (f (console s)) s).

(** ** Output *)

(** [crt[pos] = v] *)
Definition crt_put (pos v : Z) : KM unit :=
  c <- get console ;;
  if (0 <=? pos) && (pos <? 2000) then upd_cons (set_crt (<[Z.to_nat pos := v]> (crt c)))
  else panic "undefined behaviour".

(** [memmove(crt, crt+80, sizeof(crt[0])*23*80); pos -= 80; memset(crt+pos, 0, ...)] *)
Definition scroll (pos : Z) (l : list Z) : list Z :=
  splice (Z.to_nat (pos - 80)) (replicate (Z.to_nat (24 * 80 - (pos - 80))) 0)
    (splice 0 (sub 80 (23 * 80) l) l).

Definition cgaputc (c : Z) : KM unit :=
  pos <- get (fun s => crt_pos (console s)) ;;
  pos <- (if c =? 10 then ret (pos + (80 - pos mod 80))
          else if c =? BACKSPACE then ret (if 0 <? pos then pos - 1 else pos)
          else
            crt_put pos (Z.lor (Z.land c 255) 1792) ;;;
            ret (pos + 1)) ;;
  if (pos <? 0) || (25 * 80 <? pos) then panic "pos under/overflow" else
  pos <- (if 24 <=? pos / 80 then
            upd_cons (fun x => set_crt (scroll pos (crt x)) x) ;;;
            ret (pos - 80)
          else ret pos) ;;
  upd_cons (set_crt_pos (u16 pos)) ;;;
  crt_put pos (Z.lor 32 1792).

Definition uartputc (c : Z) : KM unit := upd_cons (fun x => set_uart_out (uart_out x ++ [u8 c]) x).

(** After a panic on another CPU [consputc] does not return. *)
Definition consputc (c : Z) : KM unit :=
  p <- get (fun s => panicked (console s)) ;;
  if p : bool then panic "halted" else
  (if c =? BACKSPACE then uartputc 8 ;;; uartputc 32 ;;; uartputc 8 else uartputc c) ;;;
  cgaputc c.

Definition printint (xx base : Z) (sgn : bool) : KM unit :=
  l <- in_bounds (Printf.printint false xx base sgn) ;;
  for_each l consputc.

(** An argument of [cprintf]: a word, or a pointer to a string. *)
Inductive carg := Word (a : Z) | Chars (s : list Z).

Fixpoint cprintf_loop (fmt : list Z) (argp : list carg) : KM unit :=
  match fmt with
  | [] => ret tt
  | c :: fmt' =>
      if negb (c =? 37) then consputc c ;;; cprintf_loop fmt' argp
      else
        match fmt' with
        | [] => ret tt
        | c :: fmt'' =>
            if c =? 100 then
              match argp with
              | Word a :: argp' => printint (i32 a) 10 true ;;; cprintf_loop fmt'' argp'
              | _ => panic "undefined behaviour"
              end
            else if (c =? 120) || (c =? 112) then
              match argp with
              | Word a :: argp' => printint (i32 a) 16 false ;;; cprintf_loop fmt'' argp'
              | _ => panic "undefined behaviour"
              end
            else if c =? 115 then
              match argp with
              | Chars s :: argp' => for_each s (fun b => consputc (sx8 b)) ;;; cprintf_loop fmt'' argp'
              | Word 0 :: argp' => for_each null_string consputc ;;; cprintf_loop fmt'' argp'
              | _ => panic "undefined behaviour"
              end
            else if c =? 37 then consputc 37 ;;; cprintf_loop fmt'' argp
            else consputc 37 ;;; consputc c ;;; cprintf_loop fmt'' argp
        end
  end.

Definition cprintf (fmt : list Z) (argp : list carg) : KM unit :=
  locking <- get (fun s => cons_locking (console s)) ;;
  (if locking : bool then acquire L_cons else ret tt) ;;;
  cprintf_loop fmt argp ;;;
  (if locking : bool then release L_cons else ret tt).

(** ** The process listing *)

(** [getcallerpcs] from the frame at [ebp], [n] entries to go. *)
Fixpoint getcallerpcs (s : kstate) (ebp : Z) (n : nat) : option (list Z) :=
  match n with
  | O => Some []
  | S n' =>
      if (ebp =? 0) || (ebp <? KERNBASE) || (ebp =? 4294967295) then Some (replicate n 0)
      else
        pc ← mem_word s (ebp + 4);
        ebp' ← mem_word s ebp;
        rest ← getcallerpcs s ebp' n';
        Some (pc :: rest)
  end.

Definition state_name (st : procstate) : list Z :=
  match st with
  | UNUSED => lit "unused" | EMBRYO => lit "embryo" | SLEEPING => lit "sleep "
  | RUNNABLE => lit "runble" | RUNNING => lit "run   " | ZOMBIE => lit "zombie"
  end.

Definition procdump : KM unit :=
  for_each (seq 0 NPROC) (fun i =>
    p <- get (fun s => proc_at s i) ;;
    if bool_decide (p_state p = UNUSED) then ret tt
    else
      name <- in_bounds (cstr_in (p_name p)) ;;
      cprintf (lit "%d %s %s") [Word (p_pid p); Chars (state_name (p_state p)); Chars name] ;;;
      (if bool_decide (p_state p = SLEEPING) then
         pcs <- get (fun s => ebp ← mem_word s (p_context p + 12); getcallerpcs s (u32 ebp) 10) ;;
         pcs <- in_bounds pcs ;;
         for_each (take_while (fun pc => negb (pc =? 0)) pcs) (fun pc => cprintf (lit " %p") [Word pc])
       else ret tt) ;;;
      cprintf [10] []).

(** ** Command history and completion *)

(** Storing a string and its NUL at the start of [cmd_history[i]] or [complete_result]. *)
Definition put_history (i : nat) (s : list Z) : KM unit :=
  if decide (length s < 128)%nat
  then upd_cons (fun x => set_cmd_history (alter (splice 0 (s ++ [0])) i (cmd_history x)) x)
  else panic "undefined behaviour".
Definition put_result (s : list Z) : KM unit :=
  if decide (length s < 128)%nat
  then upd_cons (fun x => set_complete_result (splice 0 (s ++ [0]) (complete_result x)) x)
  else panic "undefined behaviour".

Definition history (i : nat) : KM (list Z) :=
  h <- get (fun s => cmd_history (console s) !! i) ;; in_bounds h.

(** [buffer] up to its NUL.  An entry without characters is not moved: the inner loop
    that copies it also writes the NUL. *)
Definition save_command (buffer : list Z) : KM unit :=
  for_each (rev (seq 0 14)) (fun i =>
    row <- history i ;;
    if bool_decide (head row = Some 32) then ret tt
    else
      h <- in_bounds (cstr_in row) ;;
      match h with
      | [] => ret tt
      | _ => put_history (i + 1) h
      end) ;;;
  put_history 0 buffer.

(** The inner loop of [search]: [flag == 0] at its end. *)
Fixpoint matches (r h : list Z) : bool :=
  match r, h with
  | [], _ => true
  | _ :: _, [] => false
  | a :: r', b :: h' => (a =? b) && matches r' h'
  end.

Definition search : KM unit :=
  for_each (seq 0 15) (fun i =>
    r <- get (fun s => cstr_in (complete_result (console s))) ;;
    r <- in_bounds r ;;
    row <- history i ;;
    h <- in_bounds (cstr_in row) ;;
    if matches r h then put_result h else ret tt).

(** ** The line editor *)

(** [input.buf[i % INPUT_BUF]] for a uint, and for an int [i]. *)
Definition ubuf (x : consstate) (i : Z) : option Z := in_buf x !! Z.to_nat (i mod INPUT_BUF).
Definition sbuf (x : consstate) (i : Z) : option Z :=
  let k := Z.rem (i32 i) INPUT_BUF in if k <? 0 then None else in_buf x !! Z.to_nat k.

(** The characters at [w, ..., e - 1], as ints and unsigned: what the loops of ^N, ^R
    and the end of a command read. *)
Definition line_from (x : consstate) (n : nat) : option (list Z) :=
  mapM (fun k => sbuf x (in_w x + Z.of_nat k)) (seq 0 n).
Definition line (x : consstate) : option (list Z) := line_from x (Z.to_nat (in_e x - in_w x)).

(** [while(input.e != input.w && input.buf[(input.e-1) % INPUT_BUF] != '\n')] with a body;
    [fuel] is the distance from [w] to [e]. *)
Fixpoint erase_loop {A} (body : A -> KM A) (fuel : nat) (a : A) : KM A :=
  match fuel with
  | O => ret a
  | S fuel' =>
      x <- get console ;;
      if in_e x =? in_w x then ret a
      else
        c <- in_bounds (ubuf x (u32 (in_e x - 1))) ;;
        if c =? 10 then ret a
        else
          a' <- body a ;;
          erase_loop body fuel' a'
  end.
Definition erase {A} (body : A -> KM A) (a : A) : KM A :=
  x <- get console ;;
  erase_loop body (Z.to_nat (u32 (in_e x - in_w x))) a.

(** [input.e--; consputc(BACKSPACE);] *)
Definition erase_one : KM unit :=
  upd_cons (fun x => set_in_e (u32 (in_e x - 1)) x) ;;;
  consputc BACKSPACE.
Definition kill_line : KM unit := erase (fun _ => erase_one) tt.

(** [input.buf[i % INPUT_BUF] = c] for a uint *)
Definition put_in (i c : Z) : KM unit :=
  upd_cons (fun x => set_in_buf (<[Z.to_nat (i mod INPUT_BUF) := u8 c]> (in_buf x)) x).

(** The characters [newBuf] back into [input.buf] from [w], and on the screen. *)
Definition rewrite_line (l : list Z) : KM unit :=
  if decide (length l <= 128)%nat then
    for_each (imap pair l) (fun ic =>
      x <- get console ;;
      upd_cons (fun x => set_in_e (u32 (in_e x + 1)) x) ;;;
      put_in (u32 (in_w x + Z.of_nat ic.1)) ic.2 ;;;
      consputc (sx8 ic.2))
  else panic "undefined behaviour".

Definition not_digit (c : Z) : bool := (57 <? sx8 c) || (sx8 c <? 48).

(** The body of the loop of the tab key; [index] characters are in [complete_result]. *)
Definition tab_char (index : nat) : KM nat :=
  x <- get console ;;
  c <- in_bounds (ubuf x (u32 (in_w x + Z.of_nat index))) ;;
  (if decide (index < 128)%nat then upd_cons (set_complete_result (<[index := c]> (complete_result x)))
   else panic "undefined behaviour") ;;;
  erase_one ;;;
  ret (S index).

Definition complete : KM unit :=
  index <- erase tab_char 0%nat ;;
  (if decide (index < 128)%nat
   then upd_cons (fun x => set_complete_result (<[index := 0]> (complete_result x)) x)
   else panic "undefined behaviour") ;;;
  search ;;;
  r <- get (fun s => cstr_in (complete_result (console s))) ;;
  r <- in_bounds r ;;
  for_each r (fun c =>
    upd_cons (fun x => set_in_e (u32 (in_e x + 1)) x) ;;;
    consputc (sx8 c)).

(** The default case: a character of the line. *)
Definition type_char (c : Z) : KM unit :=
  x <- get console ;;
  if (c =? 0) || negb (u32 (in_e x - in_r x) <? INPUT_BUF) then ret tt
  else
    let c := if c =? 13 then 10 else c in
    put_in (in_e x) c ;;;
    upd_cons (fun x => set_in_e (u32 (in_e x + 1)) x) ;;;
    consputc c ;;;
    x <- get console ;;
    if (c =? 10) || (c =? 4) || (in_e x =? u32 (in_r x + INPUT_BUF)) then
      (if c =? 10 then
         let n := Z.to_nat (u32 (in_e x - 1) - in_w x) in
         let k := Z.to_nat (u32 (in_e x - in_w x - 1) mod INPUT_BUF) in
         l <- in_bounds (line_from x n) ;;
         if decide (k <= n <= 128)%nat then
           buffer <- in_bounds (cstr_in (<[k := 0]> (l ++ replicate (128 - n) 0))) ;;
           save_command buffer
         else panic "undefined behaviour"
       else ret tt) ;;;
      upd_cons (fun x => set_in_w (in_e x) x) ;;;
      wakeup Ch_input
    else ret tt.

(** One character of [consoleintr]; the result is [doprocdump]. *)
Definition console_char (c : Z) : KM bool :=
  if c =? 14 then
    x <- get console ;;
    l <- in_bounds (line x) ;;
    kill_line ;;;
    rewrite_line (List.filter not_digit l) ;;;
    ret false
  else if c =? 18 then
    x <- get console ;;
    l <- in_bounds (line x) ;;
    kill_line ;;;
    rewrite_line (rev l) ;;;
    ret false
  else if c =? 20 then
    upd_cons (fun x => set_in_e (u32 (in_e x + 1)) x) ;;;
    x <- get console ;;
    consputc (i32 (97 + in_w x)) ;;;
    ret false
  else if c =? 5 then
    upd_cons (fun x => set_in_e (u32 (in_e x + 1)) x) ;;;
    x <- get console ;;
    consputc (i32 (97 + in_e x)) ;;;
    ret false
  else if c =? 16 then ret true
  else if c =? 21 then kill_line ;;; ret false
  else if (c =? 8) || (c =? 127) then
    x <- get console ;;
    (if in_e x =? in_w x then ret tt else erase_one) ;;;
    ret false
  else if c =? 9 then complete ;;; ret false
  else type_char c ;;; ret false.

(** [while((c = getc()) >= 0)] *)
Fixpoint consoleintr_loop (cs : list Z) (doprocdump : bool) : KM bool :=
  match cs with
  | [] => ret doprocdump
  | c :: cs' =>
      d <- console_char c ;;
      consoleintr_loop cs' (doprocdump || d)
  end.

Definition consoleintr (cs : list Z) : KM unit :=
  acquire L_cons ;;;
  doprocdump <- consoleintr_loop cs false ;;
  release L_cons ;;;
  if doprocdump : bool then procdump else ret tt.

(** ** The device *)

Section device.
Context `{DiskDriver}.

(** The loop of [consoleread], [n] bytes to go and [acc] stored; [None] when killed. *)
Fixpoint consoleread_loop (ip : nat) (target : Z) (n : nat) (acc : list Z) : KM (option (list Z)) :=
  match n with
  | O => ret (Some acc)
  | S n' =>
      x <- get console ;;
      if in_r x =? in_w x then
        k <- killed ;;
        if k : bool then
          release L_cons ;;;
          ilock ip ;;;
          ret None
        else
          sleep Ch_input (Some L_cons) ;;;
          ret (Some acc)
      else
        c <- in_bounds (ubuf x (in_r x)) ;;
        upd_cons (fun x => set_in_r (u32 (in_r x + 1)) x) ;;;
        if c =? 4 then
          (if Z.of_nat n <? target then upd_cons (fun x => set_in_r (u32 (in_r x - 1)) x) else ret tt) ;;;
          ret (Some acc)
        else if c =? 10 then ret (Some (acc ++ [c]))
        else consoleread_loop ip target n' (acc ++ [c])
  end.

(** After the loop: the number of bytes stored, and the bytes. *)
Definition consoleread_end (ip : nat) (r : option (list Z)) : KM (Z * list Z) :=
  match r with
  | None => ret (-1, [])
  | Some l =>
      release L_cons ;;;
      ilock ip ;;;
      ret (Z.of_nat (length l), l)
  end.

Definition consoleread (ip : nat) (n : Z) : KM (Z * list Z) :=
  iunlock ip ;;;
  acquire L_cons ;;;
  r <- consoleread_loop ip n (Z.to_nat n) [] ;;
  consoleread_end ip r.

(** From the [sleep] of [consoleread] on. *)
Definition consoleread_return (ip : nat) (target : Z) (n : nat) (acc : list Z) : KM (Z * list Z) :=
  sleep_return L_cons ;;;
  r <- consoleread_loop ip target n acc ;;
  consoleread_end ip r.

Definition consolewrite (ip : nat) (buf : list Z) : KM Z :=
  iunlock ip ;;;
  acquire L_cons ;;;
  for_each buf consputc ;;;
  release L_cons ;;;
  ilock ip ;;;
  ret (Z.of_nat (length buf)).

(** [consoleinit]: the entry of [devsw], and locking on. *)
#[export] Instance console_devsw : Devices := {
  dev_read := fun major => if major =? CONSOLE then Some consoleread else None;
  dev_write := fun major => if major =? CONSOLE then Some consolewrite else None
}.
Definition consoleinit : KM unit := upd_cons (set_cons_locking true).
End device.
