(* ===== verification/Vm.v ===== *)
(** * Vm: page tables and user memory (vm.c, mmu.h)

    A page directory is a page of [mem], named by its kernel address; so are the
    page tables its entries point to.  A pointer to an entry is the entry's kernel
    address, 0 for null.  [lcr3], the segment descriptors and the TSS have no state
    in the model. *)

From stdpp Require Import base gmap list strings.
From Stdlib Require Import ZArith Lia.
From S2P Require Import Prelude State Core Kalloc Bio Log Fs Pipe Console.

Local Open Scope Z_scope.
Local Open Scope kernel_scope.

Definition PTE_P : Z := 1.
Definition PTE_W : Z := 2.
Definition PTE_U : Z := 4.
Definition NPDENTRIES : nat := 1024.
Definition PDX (va : Z) : Z := Z.land (Z.shiftr va 22) 1023.
Definition PTX (va : Z) : Z := Z.land (Z.shiftr va 12) 1023.
Definition PGADDR (d t o : Z) : Z := u32 (Z.lor (Z.lor (Z.shiftl d 22) (Z.shiftl t 12)) o).
Definition PTE_ADDR (pte : Z) : Z := Z.land pte (4294967295 - 4095).
Definition PTE_FLAGS (pte : Z) : Z := Z.land pte 4095.
Definition has (pte flag : Z) : bool := negb (Z.land pte flag =? 0).

Definition zero_page : list Z := replicate 4096 0.

Section vm.
Context `{Linker}.

Definition walkpgdir (pgdir va : Z) (alloc : bool) : KM Z :=
  let pde := pgdir + 4 * PDX va in
  e <- mem_rd pde ;;
  if has e PTE_P then ret (P2V (PTE_ADDR e) + 4 * PTX va)
  else if negb alloc then ret 0
  else
    pgtab <- kalloc ;;
    if pgtab =? 0 then ret 0
    else
      mem_store pgtab zero_page ;;;
      mem_wr pde (Z.lor (Z.lor (Z.lor (V2P pgtab) PTE_P) PTE_W) PTE_U) ;;;
      ret (pgtab + 4 * PTX va).

(** [for(;;)] of [mappages], at most [n] pages. *)
Fixpoint mappages_loop (n : nat) (pgdir a last pa perm : Z) : KM Z :=
  match n with
  | O => panic "out of fuel"
  | S n' =>
      pte <- walkpgdir pgdir a true ;;
      if pte =? 0 then ret (-1)
      else
        e <- mem_rd pte ;;
        if has e PTE_P then panic "remap"
        else
          mem_wr pte (Z.lor (Z.lor pa perm) PTE_P) ;;;
          if a =? last then ret 0
          else mappages_loop n' pgdir (u32 (a + PGSIZE)) last (u32 (pa + PGSIZE)) perm
  end.

Definition mappages (pgdir va size pa perm : Z) : KM Z :=
  let a := PGROUNDDOWN va in
  let last := PGROUNDDOWN (u32 (va + size - 1)) in
  mappages_loop (S (Z.to_nat (u32 (last - a) / PGSIZE))) pgdir a last pa perm.

(** [for(; a < oldsz; a += PGSIZE)] of [deallocuvm], at most [n] rounds. *)
Fixpoint deallocuvm_loop (n : nat) (pgdir a oldsz : Z) : KM unit :=
  match n with
  | O => panic "out of fuel"
  | S n' =>
      if negb (a <? oldsz) then ret tt
      else
        pte <- walkpgdir pgdir a false ;;
        if pte =? 0 then deallocuvm_loop n' pgdir (PGADDR (PDX a + 1) 0 0) oldsz
        else
          e <- mem_rd pte ;;
          (if has e PTE_P then
             if PTE_ADDR e =? 0 then panic "kfree"
             else
               kfree (P2V (PTE_ADDR e)) ;;;
               mem_wr pte 0
           else ret tt) ;;;
          deallocuvm_loop n' pgdir (u32 (a + PGSIZE)) oldsz
  end.

Definition deallocuvm (pgdir oldsz newsz : Z) : KM Z :=
  if oldsz <=? newsz then ret oldsz
  else
    deallocuvm_loop (S (Z.to_nat (oldsz / PGSIZE + 1))) pgdir (u32 (PGROUNDUP newsz)) oldsz ;;;
    ret newsz.

Definition freevm (pgdir : Z) : KM unit :=
  if pgdir =? 0 then panic "freevm: no pgdir" else
  _ <- deallocuvm pgdir KERNBASE 0 ;;
  for_each (seq 0 NPDENTRIES) (fun i =>
    e <- mem_rd (pgdir + 4 * Z.of_nat i) ;;
    if has e PTE_P then kfree (P2V (PTE_ADDR e)) else ret tt) ;;;
  kfree pgdir.

(** [struct kmap]: virt, phys_start, phys_end, perm *)
Definition kmap : list (Z * Z * Z * Z) :=
  [ (KERNBASE, 0, EXTMEM, PTE_W);
    (KERNLINK, V2P KERNLINK, V2P kdata, 0);
    (kdata, V2P kdata, PHYSTOP, PTE_W);
    (DEVSPACE, DEVSPACE, 0, PTE_W) ].

Definition setupkvm : KM Z :=
  pgdir <- kalloc ;;
  if pgdir =? 0 then ret 0
  else
    mem_store pgdir zero_page ;;;
    if DEVSPACE <? P2V PHYSTOP then panic "PHYSTOP too high" else
    bad <- loop_until kmap (fun k =>
      let '(virt, phys_start, phys_end, perm) := k in
      r <- mappages pgdir virt (u32 (phys_end - phys_start)) phys_start perm ;;
      if r <? 0 then
        freevm pgdir ;;;
        ret (Some tt)
      else ret None) ;;
    match bad with
    | Some _ => ret 0
    | None => ret pgdir
    end.

(** Without [switchkvm] at its end, which [Main.main] does after it: the registers are not in this state. *)
Definition kvmalloc : KM unit :=
  pgdir <- setupkvm ;;
  modify (set_kpgdir pgdir).

Definition inituvm (pgdir : Z) (init : list Z) : KM unit :=
  if PGSIZE <=? Z.of_nat (length init) then panic "inituvm: more than a page" else
  mem <- kalloc ;;
  mem_store mem zero_page ;;;
  _ <- mappages pgdir 0 PGSIZE (V2P mem) (Z.lor PTE_W PTE_U) ;;
  mem_store mem init.

(** [for(; a < newsz; a += PGSIZE)] of [allocuvm]; false on failure. *)
Fixpoint allocuvm_loop (n : nat) (pgdir oldsz newsz a : Z) : KM bool :=
  match n with
  | O => panic "out of fuel"
  | S n' =>
      if negb (a <? newsz) then ret true
      else
        mem <- kalloc ;;
        if mem =? 0 then
          cprintf (lit "allocuvm out of memory" ++ [10]) [] ;;;
          _ <- deallocuvm pgdir newsz oldsz ;;
          ret false
        else
          mem_store mem zero_page ;;;
          r <- mappages pgdir a PGSIZE (V2P mem) (Z.lor PTE_W PTE_U) ;;
          if r <? 0 then
            cprintf (lit "allocuvm out of memory (2)" ++ [10]) [] ;;;
            _ <- deallocuvm pgdir newsz oldsz ;;
            kfree mem ;;;
            ret false
          else allocuvm_loop n' pgdir oldsz newsz (u32 (a + PGSIZE))
  end.

Definition allocuvm (pgdir oldsz newsz : Z) : KM Z :=
  if KERNBASE <=? newsz then ret 0
  else if newsz <? oldsz then ret oldsz
  else
    ok <- allocuvm_loop (S (Z.to_nat (newsz / PGSIZE + 1))) pgdir oldsz newsz (u32 (PGROUNDUP oldsz)) ;;
    if ok : bool then ret newsz else ret 0.

Definition clearpteu (pgdir uva : Z) : KM unit :=
  pte <- walkpgdir pgdir uva false ;;
  if pte =? 0 then panic "clearpteu"
  else
    e <- mem_rd pte ;;
    mem_wr pte (Z.land e (Z.lnot PTE_U)).

(** One page of [copyuvm]; false is [goto bad]. *)
Definition copyuvm_page (pgdir d i : Z) : KM bool :=
  pte <- walkpgdir pgdir i false ;;
  if pte =? 0 then panic "copyuvm: pte should exist"
  else
    e <- mem_rd pte ;;
    if negb (has e PTE_P) then panic "copyuvm: page not present"
    else
      mem <- kalloc ;;
      if mem =? 0 then ret false
      else
        src <- mem_page (P2V (PTE_ADDR e)) ;;
        mem_store mem src ;;;
        r <- mappages d i PGSIZE (V2P mem) (PTE_FLAGS e) ;;
        if r <? 0 then
          kfree mem ;;;
          ret false
        else ret true.

Definition copyuvm (pgdir sz : Z) : KM Z :=
  d <- setupkvm ;;
  if d =? 0 then ret 0
  else
    bad <- loop_until (seq 0 (Z.to_nat ((sz + PGSIZE - 1) / PGSIZE))) (fun k =>
      ok <- copyuvm_page pgdir d (PGSIZE * Z.of_nat k) ;;
      ret (if ok : bool then None else Some tt)) ;;
    match bad with
    | None => ret d
    | Some _ =>
        freevm d ;;;
        ret 0
    end.

(** A directory without the page table is dereferenced at the null pointer. *)
Definition uva2ka (pgdir uva : Z) : KM Z :=
  pte <- walkpgdir pgdir uva false ;;
  if pte =? 0 then panic "undefined behaviour"
  else
    e <- mem_rd pte ;;
    if negb (has e PTE_P) || negb (has e PTE_U) then ret 0
    else ret (P2V (PTE_ADDR e)).

(** [buf] is the list of the [len] bytes at it. *)
Fixpoint copyout_loop (n : nat) (pgdir va : Z) (buf : list Z) : KM Z :=
  match n with
  | O => panic "out of fuel"
  | S n' =>
      match buf with
      | [] => ret 0
      | _ =>
          let va0 := PGROUNDDOWN va in
          pa0 <- uva2ka pgdir va0 ;;
          if pa0 =? 0 then ret (-1)
          else
            let n := Z.to_nat (Z.min (PGSIZE - (va - va0)) (Z.of_nat (length buf))) in
            mem_store (pa0 + (va - va0)) (take n buf) ;;;
            copyout_loop n' pgdir (u32 (va0 + PGSIZE)) (drop n buf)
      end
  end.
Definition copyout (pgdir va : Z) (buf : list Z) : KM Z :=
  copyout_loop (Z.to_nat (Z.of_nat (length buf) / PGSIZE + 3)) pgdir va buf.
End vm.

Section loaduvm.
Context `{DiskDriver} `{Devices} `{Linker}.

Fixpoint loaduvm_loop (n : nat) (pgdir addr : Z) (ip : nat) (offset sz i : Z) : KM Z :=
  match n with
  | O => panic "out of fuel"
  | S n' =>
      if negb (i <? sz) then ret 0
      else
        pte <- walkpgdir pgdir (u32 (addr + i)) false ;;
        if pte =? 0 then panic "loaduvm: address should exist"
        else
          e <- mem_rd pte ;;
          let n := Z.min (sz - i) PGSIZE in
          r <- readi ip (u32 (offset + i)) n ;;
          match r.2 with [] => ret tt | l => mem_store (P2V (PTE_ADDR e)) l end ;;;
          if negb (r.1 =? n) then ret (-1)
          else loaduvm_loop n' pgdir addr ip offset sz (u32 (i + PGSIZE))
  end.
Definition loaduvm (pgdir addr : Z) (ip : nat) (offset sz : Z) : KM Z :=
  if negb (addr mod PGSIZE =? 0) then panic "loaduvm: addr must be page aligned"
  else loaduvm_loop (Z.to_nat (sz / PGSIZE + 2)) pgdir addr ip offset sz 0.
End loaduvm.
