(* ===== verification/File.v ===== *)
(** * File: open files (file.c), and pipealloc of pipe.c

    A file structure is its index in [ftable.file].  [fileread] returns its value
    and the bytes it stored; the buffer of [filewrite] is the list of its bytes. *)

From stdpp Require Import base gmap list strings.
From Stdlib Require Import ZArith Lia.
From S2P Require Import Prelude State Core Kalloc Pipe Bio Log Fs.

Local Open Scope Z_scope.
Local Open Scope kernel_scope.

Definition null_file : file := mkFile FD_NONE 0 false false 0 0 0.
Definition file_at (s : kstate) (f : nat) : file := default null_file (ftable s !! f).
Definition upd_file (f : nat) (g : file -> file) : KM unit :=
  modify (fun s => set_ftable (alter g f (ftable s)) s).

(** The null pointer is [None]. *)
Definition filealloc : KM (option nat) :=
  acquire L_ftable ;;;
  ft <- get ftable ;;
  match list_find (fun f => f_ref f = 0) (take NFILE ft) with
  | Some (f, _) =>
      upd_file f (set_f_ref 1) ;;;
      release L_ftable ;;;
      ret (Some f)
  | None =>
      release L_ftable ;;;
      ret None
  end.

Definition filedup (f : nat) : KM nat :=
  acquire L_ftable ;;;
  ff <- get (fun s => file_at s f) ;;
  if f_ref ff <? 1 then panic "filedup"
  else
    upd_file f (set_f_ref (f_ref ff + 1)) ;;;
    release L_ftable ;;;
    ret f.

Section file.
Context `{DiskDriver} `{Devices} `{Linker}.

Definition fileclose (f : nat) : KM unit :=
  acquire L_ftable ;;;
  ff <- get (fun s => file_at s f) ;;
  if f_ref ff <? 1 then panic "fileclose"
  else
    upd_file f (set_f_ref (f_ref ff - 1)) ;;;
    if 0 <? f_ref ff - 1 then release L_ftable
    else
      ff <- get (fun s => file_at s f) ;;
      upd_file f (fun ff => set_f_type FD_NONE (set_f_ref 0 ff)) ;;;
      release L_ftable ;;;
      match f_type ff with
      | FD_PIPE => pipeclose (f_pipe ff) (f_writable ff)
      | FD_INODE =>
          begin_op ;;;
          iput (f_ip ff) ;;;
          end_op
      | FD_NONE => ret tt
      end.

(** [None] is -1. *)
Definition filestat (f : nat) : KM (option stat) :=
  ff <- get (fun s => file_at s f) ;;
  match f_type ff with
  | FD_INODE =>
      ilock (f_ip ff) ;;;
      st <- stati (f_ip ff) ;;
      iunlock (f_ip ff) ;;;
      ret (Some st)
  | _ => ret None
  end.

Definition fileread (f : nat) (n : Z) : KM (Z * list Z) :=
  ff <- get (fun s => file_at s f) ;;
  if negb (f_readable ff) then ret (-1, [])
  else
    match f_type ff with
    | FD_PIPE => piperead (f_pipe ff) (Z.to_nat n)
    | FD_INODE =>
        ilock (f_ip ff) ;;;
        off <- get (fun s => f_off (file_at s f)) ;;
        r <- readi (f_ip ff) off n ;;
        (if 0 <? r.1 then upd_file f (fun ff => set_f_off (u32 (f_off ff + r.1)) ff) else ret tt) ;;;
        iunlock (f_ip ff) ;;;
        ret r
    | FD_NONE => panic "fileread"
    end.

(** [int max = ((MAXOPBLOCKS-1-1-2) / 2) * 512;] *)
Definition max_write : nat := Z.to_nat ((MAXOPBLOCKS - 1 - 1 - 2) / 2 * 512).

(** The loop of [filewrite] with the bytes [l] to go: [i == n] at its end. *)
Fixpoint filewrite_loop (fuel : nat) (f : nat) (l : list Z) : KM bool :=
  match fuel with
  | O => panic "out of fuel"
  | S fuel' =>
      match l with
      | [] => ret true
      | _ =>
          let src := take max_write l in
          ip <- get (fun s => f_ip (file_at s f)) ;;
          begin_op ;;;
          ilock ip ;;;
          off <- get (fun s => f_off (file_at s f)) ;;
          r <- writei ip src off ;;
          (if 0 <? r then upd_file f (fun ff => set_f_off (u32 (f_off ff + r)) ff) else ret tt) ;;;
          iunlock ip ;;;
          end_op ;;;
          if r <? 0 then ret false
          else if negb (r =? Z.of_nat (length src)) then panic "short filewrite"
          else filewrite_loop fuel' f (drop max_write l)
      end
  end.

Definition filewrite (f : nat) (addr : list Z) : KM Z :=
  ff <- get (fun s => file_at s f) ;;
  if negb (f_writable ff) then ret (-1)
  else
    match f_type ff with
    | FD_PIPE => pipewrite (f_pipe ff) addr
    | FD_INODE =>
        ok <- filewrite_loop (S (length addr)) f addr ;;
        ret (if ok : bool then Z.of_nat (length addr) else -1)
    | FD_NONE => panic "filewrite"
    end.

(** [goto bad] of [pipealloc], before there is a page. *)
Definition pipealloc_bad (f0 f1 : option nat) : KM (option (nat * nat)) :=
  match f0 with Some f => fileclose f | None => ret tt end ;;;
  match f1 with Some f => fileclose f | None => ret tt end ;;;
  ret None.

(** The files [*f0] and [*f1], or [None] for -1.  The data of a new pipe is what its page
    holds after the lock. *)
Definition pipealloc : KM (option (nat * nat)) :=
  f0 <- filealloc ;;
  match f0 with
  | None => pipealloc_bad None None
  | Some a =>
      f1 <- filealloc ;;
      match f1 with
      | None => pipealloc_bad (Some a) None
      | Some b =>
          p <- kalloc ;;
          if p =? 0 then pipealloc_bad (Some a) (Some b)
          else
            pg <- mem_page p ;;
            modify (fun s => set_pipes (<[p := mkPipe (sub 52 512 pg) 0 0 true true]> (pipes s)) s) ;;;
            upd_file a (fun ff => set_f_pipe p (set_f_writable false (set_f_readable true (set_f_type FD_PIPE ff)))) ;;;
            upd_file b (fun ff => set_f_pipe p (set_f_writable true (set_f_readable false (set_f_type FD_PIPE ff)))) ;;;
            ret (Some (a, b))
      end
  end.
End file.
