(* ===== verification/Proc.v ===== *)
(** * Proc: processes (proc.c)

    Creation, exit, wait, kill, memory growth.  The trap frame and the context of a
    process are in its kernel stack page, as in the code; [p_tf] and [p_context] are
    their addresses.  The addresses of [trapret] and [forkret] and the bytes of
    initcode.S are set by the linker: the class [Symbols].  A routine that sleeps
    ends in [Slept]; [wait_return] and [exit] say what runs after and before. *)

From stdpp Require Import base gmap list strings.
From Stdlib Require Import ZArith Lia.
From S2P Require Import Prelude State Core Sem Bio Log Kalloc Pipe Fs Console Vm File.

Local Open Scope Z_scope.
Local Open Scope kernel_scope.

Class Symbols := { trapret : Z; forkret_addr : Z; initcode : list Z }.

(** Offsets in [struct trapframe] and [struct context]. *)
Definition TF_SIZE : Z := 76.
Definition TF_EBX : Z := 16.
Definition TF_EAX : Z := 28.
Definition TF_ES : Z := 40.
Definition TF_DS : Z := 44.
Definition TF_TRAPNO : Z := 48.
Definition TF_ERR : Z := 52.
Definition TF_EIP : Z := 56.
Definition TF_CS : Z := 60.
Definition TF_EFLAGS : Z := 64.
Definition TF_ESP : Z := 68.
Definition TF_SS : Z := 72.
Definition CONTEXT_SIZE : Z := 20.
Definition CONTEXT_EIP : Z := 16.

Definition SEG_UCODE : Z := 3.
Definition SEG_UDATA : Z := 4.
Definition DPL_USER : Z := 3.
Definition FL_IF : Z := 512.

(** [p->tf->f] *)
Definition tf_rd (p : nat) (f : Z) : KM Z := tf <- get (fun s => p_tf (proc_at s p)) ;; mem_rd (tf + f).
Definition tf_wr (p : nat) (f v : Z) : KM unit := tf <- get (fun s => p_tf (proc_at s p)) ;; mem_wr (tf + f) v.
(** A [ushort] field. *)
Definition tf_wr16 (p : nat) (f v : Z) : KM unit :=
  tf <- get (fun s => p_tf (proc_at s p)) ;; mem_store (tf + f) (le_bytes 2 v).

(** The bytes of a page from an address in it. *)
Definition mem_bytes (a : Z) (n : nat) : KM (list Z) :=
  pg <- mem_page (a - a mod PGSIZE) ;; ret (sub (Z.to_nat (a mod PGSIZE)) n pg).

(** [safestrcpy(dst, src, n)] on an array and a C string. *)
Definition safestrcpy (n : nat) (src dst : list Z) : list Z := splice 0 (take (n - 1) src ++ [0]) dst.

Section proc.
Context `{DiskDriver} `{Devices} `{Linker} `{Symbols}.

Definition allocproc : KM (option nat) :=
  acquire L_ptable ;;;
  ps <- get procs ;;
  match list_find (fun p => p_state p = UNUSED) (take NPROC ps) with
  | None =>
      release L_ptable ;;;
      ret None
  | Some (i, _) =>
      pid <- get nextpid ;;
      modify (set_nextpid (i32 (pid + 1))) ;;;
      upd_proc i (fun p => set_p_pid pid (set_p_state EMBRYO p)) ;;;
      release L_ptable ;;;
      k <- kalloc ;;
      upd_proc i (set_p_kstack k) ;;;
      if k =? 0 then
        upd_proc i (set_p_state UNUSED) ;;;
        ret None
      else
        let sp := k + KSTACKSIZE - TF_SIZE in
        upd_proc i (set_p_tf sp) ;;;
        let sp := sp - 4 in
        mem_wr sp trapret ;;;
        let sp := sp - CONTEXT_SIZE in
        upd_proc i (set_p_context sp) ;;;
        mem_store sp (replicate (Z.to_nat CONTEXT_SIZE) 0) ;;;
        mem_wr (sp + CONTEXT_EIP) forkret_addr ;;;
        ret (Some i)
  end.

Definition userinit : KM unit :=
  p <- allocproc ;;
  modify (set_initproc p) ;;;
  p <- in_bounds p ;;
  pgdir <- setupkvm ;;
  upd_proc p (set_p_pgdir pgdir) ;;;
  if pgdir =? 0 then panic "userinit: out of memory?" else
  inituvm pgdir initcode ;;;
  upd_proc p (set_p_sz PGSIZE) ;;;
  tf <- get (fun s => p_tf (proc_at s p)) ;;
  mem_store tf (replicate (Z.to_nat TF_SIZE) 0) ;;;
  tf_wr16 p TF_CS (Z.lor (Z.shiftl SEG_UCODE 3) DPL_USER) ;;;
  tf_wr16 p TF_DS (Z.lor (Z.shiftl SEG_UDATA 3) DPL_USER) ;;;
  tf_wr16 p TF_ES (Z.lor (Z.shiftl SEG_UDATA 3) DPL_USER) ;;;
  tf_wr16 p TF_SS (Z.lor (Z.shiftl SEG_UDATA 3) DPL_USER) ;;;
  tf_wr p TF_EFLAGS FL_IF ;;;
  tf_wr p TF_ESP PGSIZE ;;;
  tf_wr p TF_EIP 0 ;;;
  upd_proc p (fun x => set_p_name (safestrcpy 16 (lit "initcode") (p_name x)) x) ;;;
  cwd <- namei (lit "/") ;;
  upd_proc p (set_p_cwd cwd) ;;;
  acquire L_ptable ;;;
  upd_proc p (set_p_state RUNNABLE) ;;;
  release L_ptable.

Definition growproc (n : Z) : KM Z :=
  p <- curproc ;;
  x <- get (fun s => proc_at s p) ;;
  let sz := p_sz x in
  sz' <- (if 0 <? n then allocuvm (p_pgdir x) sz (u32 (sz + n))
          else if n <? 0 then deallocuvm (p_pgdir x) sz (u32 (sz + n))
          else ret sz) ;;
  if negb (n =? 0) && (sz' =? 0) then ret (-1)
  else
    upd_proc p (set_p_sz sz') ;;;
    switchuvm p ;;;
    ret 0.

Definition fork : KM Z :=
  p <- curproc ;;
  np <- allocproc ;;
  match np with
  | None => ret (-1)
  | Some np =>
      x <- get (fun s => proc_at s p) ;;
      pgdir <- copyuvm (p_pgdir x) (p_sz x) ;;
      upd_proc np (set_p_pgdir pgdir) ;;;
      if pgdir =? 0 then
        k <- get (fun s => p_kstack (proc_at s np)) ;;
        kfree k ;;;
        upd_proc np (fun x => set_p_state UNUSED (set_p_kstack 0 x)) ;;;
        ret (-1)
      else
        upd_proc np (fun y => set_p_parent (Some p) (set_p_sz (p_sz x) y)) ;;;
        regs <- mem_bytes (p_tf x) (Z.to_nat TF_SIZE) ;;
        tf <- get (fun s => p_tf (proc_at s np)) ;;
        mem_store tf regs ;;;
        tf_wr np TF_EAX 0 ;;;
        for_each (seq 0 NOFILE) (fun i =>
          match p_ofile x !! i with
          | Some (Some f) =>
              _ <- filedup f ;;
              upd_proc np (fun y => set_p_ofile (<[i := Some f]> (p_ofile y)) y)
          | _ => ret tt
          end) ;;;
        cwd <- in_bounds (p_cwd x) ;;
        _ <- idup cwd ;;
        upd_proc np (set_p_cwd (Some cwd)) ;;;
        name <- in_bounds (cstr_in (p_name x)) ;;
        upd_proc np (fun y => set_p_name (safestrcpy 16 name (p_name y)) y) ;;;
        pid <- get (fun s => p_pid (proc_at s np)) ;;
        acquire L_ptable ;;;
        upd_proc np (set_p_state RUNNABLE) ;;;
        release L_ptable ;;;
        ret pid
  end.

(** [wakeup1(p)] for the pointer to a process; the null channel is that of nobody asleep
    but is compared all the same. *)
Definition wakeup_proc (p : option nat) : KM unit :=
  match p with
  | Some q => wakeup1 (Ch_proc q)
  | None => modify (fun s => set_procs ((fun p =>
      if bool_decide (p_state p = SLEEPING) && bool_decide (p_chan p = None)
      then set_p_state RUNNABLE p else p) <$> procs s) s)
  end.

(** [exit] from [acquire(&ptable.lock)] on. *)
Definition exit_sched (p : nat) : KM unit :=
  acquire L_ptable ;;;
  parent <- get (fun s => p_parent (proc_at s p)) ;;
  wakeup_proc parent ;;;
  init <- get initproc ;;
  for_each (seq 0 NPROC) (fun i =>
    x <- get (fun s => proc_at s i) ;;
    if bool_decide (p_parent x = Some p) then
      upd_proc i (set_p_parent init) ;;;
      if bool_decide (p_state x = ZOMBIE) then wakeup_proc init else ret tt
    else ret tt) ;;;
  upd_proc p (set_p_state ZOMBIE) ;;;
  sched None ;;;
  panic "zombie exit".

Definition exit : KM unit :=
  p <- curproc ;;
  init <- get initproc ;;
  if bool_decide (init = Some p) then panic "init exiting" else
  for_each (seq 0 NOFILE) (fun fd =>
    f <- get (fun s => p_ofile (proc_at s p) !! fd) ;;
    match f with
    | Some (Some f) =>
        fileclose f ;;;
        upd_proc p (fun x => set_p_ofile (<[fd := None]> (p_ofile x)) x)
    | _ => ret tt
    end) ;;;
  begin_op ;;;
  cwd <- get (fun s => p_cwd (proc_at s p)) ;;
  cwd <- in_bounds cwd ;;
  iput cwd ;;;
  end_op ;;;
  upd_proc p (set_p_cwd None) ;;;
  exit_sched p.

(** One round of the loop of [wait], with ptable.lock held. *)
Definition wait_loop (p : nat) : KM Z :=
  ps <- get procs ;;
  match list_find (fun x => p_parent x = Some p /\ p_state x = ZOMBIE) (take NPROC ps) with
  | Some (j, x) =>
      kfree (p_kstack x) ;;;
      upd_proc j (set_p_kstack 0) ;;;
      freevm (p_pgdir x) ;;;
      upd_proc j (fun x => set_p_state UNUSED (set_p_killed false
        (set_p_name (<[0%nat := 0]> (p_name x)) (set_p_parent None (set_p_pid 0 x))))) ;;;
      release L_ptable ;;;
      ret (p_pid x)
  | None =>
      let havekids := existsb (fun x => bool_decide (p_parent x = Some p)) (take NPROC ps) in
      k <- get (fun s => p_killed (proc_at s p)) ;;
      if negb havekids || k then
        release L_ptable ;;;
        ret (-1)
      else
        sleep (Ch_proc p) (Some L_ptable) ;;;
        ret (-1)
  end.

Definition wait : KM Z :=
  p <- curproc ;;
  acquire L_ptable ;;;
  wait_loop p.
Definition wait_return : KM Z :=
  p <- curproc ;;
  sleep_return L_ptable ;;;
  wait_loop p.

(** The first scheduling of a process; [first] is the static variable. *)
Definition forkret (first : bool) : KM unit :=
  release L_ptable ;;;
  if first then
    iinit ROOTDEV ;;;
    initlog ROOTDEV
  else ret tt.
End proc.

Definition kill (pid : Z) : KM Z :=
  acquire L_ptable ;;;
  ps <- get procs ;;
  match list_find (fun p => p_pid p = pid) (take NPROC ps) with
  | Some (i, p) =>
      upd_proc i (set_p_killed true) ;;;
      (if bool_decide (p_state p = SLEEPING) then upd_proc i (set_p_state RUNNABLE) else ret tt) ;;;
      release L_ptable ;;;
      ret 0
  | None =>
      release L_ptable ;;;
      ret (-1)
  end.

(** [flpf]; the loop ends, see [flpf_terminates]. *)
Fixpoint flpf_loop (fuel : nat) (num i : Z) : option Z :=
  match fuel with
  | O => None
  | S fuel' =>
      if 1 <? num then
        if Z.rem num i =? 0 then flpf_loop fuel' (Z.quot num i) i
        else flpf_loop fuel' num (i + 1)
      else Some i
  end.
Definition flpf (fuel : nat) (num : Z) : option Z := flpf_loop fuel num 2.
