(* ===== verification/Syscall.v ===== *)
(** * Syscall: user memory and system call arguments (syscall.c), process system calls
    (sysproc.c)

    The kernel reads and writes user memory through the current process's page
    table; an access to a page that is not present faults in the kernel, which
    panics.  A fetch returns [None] for -1. *)

From stdpp Require Import base gmap list strings.
From Stdlib Require Import ZArith Lia.
From S2P Require Import Prelude State Core Sem Bio Log Kalloc Pipe Fs Console Vm File Proc.

Local Open Scope Z_scope.
Local Open Scope kernel_scope.

(** ** The MMU *)

Definition va2ka (s : kstate) (pgdir va : Z) : option Z :=
  e ← mem_word s (pgdir + 4 * PDX va);
  if has e PTE_P then
    t ← mem_word s (P2V (PTE_ADDR e) + 4 * PTX va);
    if has t PTE_P then Some (P2V (PTE_ADDR t) + va mod PGSIZE) else None
  else None.

(** The current process's user address [va]. *)
Definition user_ka (va : Z) : KM Z :=
  p <- curproc ;;
  ka <- get (fun s => va2ka s (p_pgdir (proc_at s p)) va) ;;
  match ka with Some ka => ret ka | None => panic "trap" end.

Definition uload (va : Z) : KM Z :=
  ka <- user_ka va ;;
  pg <- mem_page (ka - ka mod PGSIZE) ;;
  in_bounds (pg !! Z.to_nat (ka mod PGSIZE)).
Definition ustore (va v : Z) : KM unit :=
  ka <- user_ka va ;;
  mem_store ka [u8 v].

Fixpoint uloads (va : Z) (n : nat) : KM (list Z) :=
  match n with
  | O => ret []
  | S n' =>
      b <- uload va ;;
      l <- uloads (va + 1) n' ;;
      ret (b :: l)
  end.
Fixpoint ustores (va : Z) (l : list Z) : KM unit :=
  match l with
  | [] => ret tt
  | b :: l' =>
      ustore va b ;;;
      ustores (va + 1) l'
  end.

(** ** Arguments *)

Definition fetchint (addr : Z) : KM (option Z) :=
  p <- curproc ;;
  sz <- get (fun s => p_sz (proc_at s p)) ;;
  if (sz <=? addr) || (sz <? u32 (addr + 4)) then ret None
  else
    l <- uloads addr 4 ;;
    ret (Some (i32 (le_val l))).

(** [for(s = *pp; s < ep; s++)], [n] bytes before [ep]. *)
Fixpoint fetchstr_loop (n : nat) (s : Z) : KM (option (list Z)) :=
  match n with
  | O => ret None
  | S n' =>
      b <- uload s ;;
      if b =? 0 then ret (Some [])
      else
        l <- fetchstr_loop n' (s + 1) ;;
        ret (l ← l; Some (b :: l))
  end.
Definition fetchstr (addr : Z) : KM (option (list Z)) :=
  p <- curproc ;;
  sz <- get (fun s => p_sz (proc_at s p)) ;;
  if sz <=? addr then ret None
  else fetchstr_loop (Z.to_nat (sz - addr)) addr.

Definition argint (n : Z) : KM (option Z) :=
  p <- curproc ;;
  esp <- tf_rd p TF_ESP ;;
  fetchint (u32 (esp + 4 + 4 * n)).

Definition argptr (n size : Z) : KM (option Z) :=
  p <- curproc ;;
  i <- argint n ;;
  match i with
  | None => ret None
  | Some i =>
      sz <- get (fun s => p_sz (proc_at s p)) ;;
      if (size <? 0) || (sz <=? u32 i) || (sz <? u32 (u32 i + size)) then ret None
      else ret (Some (u32 i))
  end.

Definition argstr (n : Z) : KM (option (list Z)) :=
  a <- argint n ;;
  match a with
  | None => ret None
  | Some a => fetchstr (u32 a)
  end.

(** A system call argument that is not checked: on failure the variable is uninitialised. *)
Definition arg_unchecked (n : Z) : KM Z := a <- argint n ;; in_bounds a.

(** ** sysproc.c *)

Section sysproc.
Context `{DiskDriver} `{Devices} `{Linker} `{Symbols}.

Definition sys_fork : KM Z := fork.
Definition sys_exit : KM Z := exit ;;; ret 0.
Definition sys_wait : KM Z := wait.

Definition sys_kill : KM Z :=
  pid <- argint 0 ;;
  match pid with
  | None => ret (-1)
  | Some pid => kill pid
  end.

Definition sys_getpid : KM Z := p <- curproc ;; get (fun s => p_pid (proc_at s p)).

Definition sys_sbrk : KM Z :=
  n <- argint 0 ;;
  match n with
  | None => ret (-1)
  | Some n =>
      p <- curproc ;;
      addr <- get (fun s => p_sz (proc_at s p)) ;;
      r <- growproc n ;;
      if r <? 0 then ret (-1) else ret (i32 addr)
  end.

(** The loop of [sys_sleep]; [ticks - ticks0 < n] compares unsigned. *)
Definition sys_sleep_loop (ticks0 n : Z) : KM Z :=
  t <- get ticks ;;
  if u32 (t - ticks0) <? u32 n then
    k <- killed ;;
    if k : bool then
      release L_tickslock ;;;
      ret (-1)
    else
      sleep Ch_ticks (Some L_tickslock) ;;;
      ret 0
  else
    release L_tickslock ;;;
    ret 0.
Definition sys_sleep : KM Z :=
  n <- argint 0 ;;
  match n with
  | None => ret (-1)
  | Some n =>
      acquire L_tickslock ;;;
      t <- get ticks ;;
      sys_sleep_loop t n
  end.
Definition sys_sleep_return (ticks0 n : Z) : KM Z :=
  sleep_return L_tickslock ;;; sys_sleep_loop ticks0 n.

Definition sys_uptime : KM Z :=
  acquire L_tickslock ;;;
  t <- get ticks ;;
  release L_tickslock ;;;
  ret (i32 t).

(** The fuel is enough for every int: [flpf_terminates]. *)
Definition sys_flpf : KM Z :=
  p <- curproc ;;
  num <- tf_rd p TF_EBX ;;
  in_bounds (flpf (Z.to_nat (i32 num) + 64) (i32 num)).

(** The first process has no parent. *)
Definition sys_get_parent_pid : KM Z :=
  p <- curproc ;;
  parent <- get (fun s => p_parent (proc_at s p)) ;;
  match parent with
  | Some q => get (fun s => p_pid (proc_at s q))
  | None => panic "trap"
  end.

(** [spoons[i]]: there are six. *)
Definition spoon_index (i : Z) : KM nat :=
  if (0 <=? i) && (i <? 6) then ret (Z.to_nat i) else panic "undefined behaviour".

Definition sys_sem_init : KM Z :=
  i <- arg_unchecked 0 ;;
  v <- arg_unchecked 1 ;;
  i <- spoon_index i ;;
  sem_init i v.
Definition sys_sem_acquire : KM Z :=
  i <- arg_unchecked 0 ;;
  i <- spoon_index i ;;
  sem_acquire i.
Definition sys_sem_release : KM Z :=
  i <- arg_unchecked 0 ;;
  i <- spoon_index i ;;
  sem_release i.
End sysproc.
