(* ===== verification/Exec.v ===== *)
(** * Exec: program loading (exec.c) *)

From stdpp Require Import base gmap list strings.
From Stdlib Require Import ZArith Lia.
From S2P Require Import Prelude State Core Sem Bio Log Kalloc Pipe Fs Console Vm File Proc.

Local Open Scope Z_scope.
Local Open Scope kernel_scope.

(** [struct elfhdr] and [struct proghdr] *)
Definition ELF_MAGIC : Z := 1179403647.
Definition elf_magic (d : list Z) : Z := rd 4 0 d.
Definition elf_entry (d : list Z) : Z := rd 4 24 d.
Definition elf_phoff (d : list Z) : Z := rd 4 28 d.
Definition elf_phnum (d : list Z) : Z := rd 2 44 d.
Definition ELF_SIZE : Z := 52.

Definition ph_type (d : list Z) : Z := rd 4 0 d.
Definition ph_off (d : list Z) : Z := rd 4 4 d.
Definition ph_vaddr (d : list Z) : Z := rd 4 8 d.
Definition ph_filesz (d : list Z) : Z := rd 4 16 d.
Definition ph_memsz (d : list Z) : Z := rd 4 20 d.
Definition PH_SIZE : Z := 32.
Definition ELF_PROG_LOAD : Z := 1.

(** The part of the path after the last slash. *)
Definition basename (path : list Z) : list Z :=
  rev (take_while (fun c => negb (c =? 47)) (rev path)).

Section exec.
Context `{DiskDriver} `{Devices} `{Linker} `{Symbols}.

(** One program header: the new size, [None] for [goto bad]. *)
Definition load_segment (ip : nat) (pgdir sz off : Z) : KM (option Z) :=
  r <- readi ip (u32 off) PH_SIZE ;;
  let '(v, ph) := r in
  if negb (v =? PH_SIZE) then ret None
  else if negb (ph_type ph =? ELF_PROG_LOAD) then ret (Some sz)
  else if ph_memsz ph <? ph_filesz ph then ret None
  else if u32 (ph_vaddr ph + ph_memsz ph) <? ph_vaddr ph then ret None
  else
    sz <- allocuvm pgdir sz (u32 (ph_vaddr ph + ph_memsz ph)) ;;
    if sz =? 0 then ret None
    else if negb (ph_vaddr ph mod PGSIZE =? 0) then ret None
    else
      l <- loaduvm pgdir (ph_vaddr ph) ip (ph_off ph) (ph_filesz ph) ;;
      if l <? 0 then ret None else ret (Some sz).

Fixpoint load_segments (n : nat) (ip : nat) (pgdir sz off : Z) : KM (option Z) :=
  match n with
  | O => ret (Some sz)
  | S n' =>
      r <- load_segment ip pgdir sz off ;;
      match r with
      | None => ret None
      | Some sz => load_segments n' ip pgdir sz (off + PH_SIZE)
      end
  end.

(** From the ELF header to the loaded segments: [pgdir], and the size and entry point if
    nothing went wrong. *)
Definition exec_load (ip : nat) : KM (Z * option (Z * Z)) :=
  r <- readi ip 0 ELF_SIZE ;;
  let '(v, elf) := r in
  if negb (v =? ELF_SIZE) then ret (0, None)
  else if negb (elf_magic elf =? ELF_MAGIC) then ret (0, None)
  else
    pgdir <- setupkvm ;;
    if pgdir =? 0 then ret (0, None)
    else
      sz <- load_segments (Z.to_nat (elf_phnum elf)) ip pgdir 0 (i32 (elf_phoff elf)) ;;
      ret (pgdir, sz ← sz; Some (sz, elf_entry elf)).

(** The argument strings, from [argc] on: the stack pointer and the pointers pushed. *)
Fixpoint push_args (argv : list (list Z)) (argc : nat) (pgdir sp : Z) (ptrs : list Z) : KM (option (Z * list Z)) :=
  match argv with
  | [] => ret (Some (sp, ptrs))
  | a :: argv' =>
      if decide (MAXARG <= argc)%nat then ret None
      else
        let sp := u32 (Z.land (sp - (Z.of_nat (length a) + 1)) (Z.lnot 3)) in
        r <- copyout pgdir sp (a ++ [0]) ;;
        if r <? 0 then ret None
        else push_args argv' (S argc) pgdir sp (ptrs ++ [sp])
  end.

(** Two pages at the end, the arguments on the second: the size and stack pointer. *)
Definition exec_stack (pgdir sz : Z) (argv : list (list Z)) : KM (option (Z * Z)) :=
  let sz := u32 (PGROUNDUP sz) in
  sz <- allocuvm pgdir sz (u32 (sz + 2 * PGSIZE)) ;;
  if sz =? 0 then ret None
  else
    clearpteu pgdir (sz - 2 * PGSIZE) ;;;
    r <- push_args argv 0 pgdir sz [] ;;
    match r with
    | None => ret None
    | Some (sp, ptrs) =>
        let argc := Z.of_nat (length ptrs) in
        let ustack := [4294967295; argc; u32 (sp - (argc + 1) * 4)] ++ ptrs ++ [0] in
        let sp := u32 (sp - (3 + argc + 1) * 4) in
        r <- copyout pgdir sp (mjoin (le_bytes 4 <$> ustack)) ;;
        if r <? 0 then ret None else ret (Some (sz, sp))
    end.

Definition exec (path : list Z) (argv : list (list Z)) : KM Z :=
  p <- curproc ;;
  begin_op ;;;
  ip <- namei path ;;
  match ip with
  | None =>
      end_op ;;;
      cprintf (lit "exec: fail" ++ [10]) [] ;;;
      ret (-1)
  | Some ip =>
      ilock ip ;;;
      r <- exec_load ip ;;
      let '(pgdir, loaded) := r in
      match loaded with
      | None =>
          (if pgdir =? 0 then ret tt else freevm pgdir) ;;;
          iunlockput ip ;;;
          end_op ;;;
          ret (-1)
      | Some (sz, entry) =>
          iunlockput ip ;;;
          end_op ;;;
          r <- exec_stack pgdir sz argv ;;
          match r with
          | None =>
              freevm pgdir ;;;
              ret (-1)
          | Some (sz, sp) =>
              upd_proc p (fun x => set_p_name (safestrcpy 16 (basename path) (p_name x)) x) ;;;
              oldpgdir <- get (fun s => p_pgdir (proc_at s p)) ;;
              upd_proc p (fun x => set_p_sz sz (set_p_pgdir pgdir x)) ;;;
              tf_wr p TF_EIP entry ;;;
              tf_wr p TF_ESP sp ;;;
              switchuvm p ;;;
              freevm oldpgdir ;;;
              ret 0
          end
      end
  end.
End exec.
