(* ===== verification/Sysfile.v ===== *)
(** * Sysfile: file system calls (sysfile.c) *)

From stdpp Require Import base gmap list strings.
From Stdlib Require Import ZArith Lia.
From S2P Require Import Prelude State Core Sem Bio Log Kalloc Pipe Fs Console Vm File Proc Syscall Exec.

Local Open Scope Z_scope.
Local Open Scope kernel_scope.

Definition O_RDONLY : Z := 0.
Definition O_WRONLY : Z := 1.
Definition O_RDWR : Z := 2.
Definition O_CREATE : Z := 512.

(** The descriptor and the file. *)
Definition argfd (n : Z) : KM (option (nat * nat)) :=
  fd <- argint n ;;
  match fd with
  | None => ret None
  | Some fd =>
      if (fd <? 0) || (Z.of_nat NOFILE <=? fd) then ret None
      else
        p <- curproc ;;
        f <- get (fun s => p_ofile (proc_at s p) !! Z.to_nat fd) ;;
        match f with
        | Some (Some f) => ret (Some (Z.to_nat fd, f))
        | _ => ret None
        end
  end.

Definition fdalloc (f : nat) : KM (option nat) :=
  p <- curproc ;;
  fds <- get (fun s => p_ofile (proc_at s p)) ;;
  match list_find (fun x => x = None) (take NOFILE fds) with
  | Some (fd, _) =>
      upd_proc p (fun x => set_p_ofile (<[fd := Some f]> (p_ofile x)) x) ;;;
      ret (Some fd)
  | None => ret None
  end.

Section sysfile.
Context `{DiskDriver} `{Devices} `{Linker} `{Symbols}.

Definition sys_dup : KM Z :=
  a <- argfd 0 ;;
  match a with
  | None => ret (-1)
  | Some (_, f) =>
      fd <- fdalloc f ;;
      match fd with
      | None => ret (-1)
      | Some fd =>
          _ <- filedup f ;;
          ret (Z.of_nat fd)
      end
  end.

(** The three arguments of [read] and [write]: the file, the buffer and its size. *)
Definition rw_args : KM (option (nat * Z * Z)) :=
  a <- argfd 0 ;;
  match a with
  | None => ret None
  | Some (_, f) =>
      n <- argint 2 ;;
      match n with
      | None => ret None
      | Some n =>
          p <- argptr 1 n ;;
          ret (p ← p; Some (f, p, n))
      end
  end.

Definition sys_read : KM Z :=
  a <- rw_args ;;
  match a with
  | None => ret (-1)
  | Some (f, p, n) =>
      r <- fileread f n ;;
      ustores p r.2 ;;;
      ret r.1
  end.

Definition sys_write : KM Z :=
  a <- rw_args ;;
  match a with
  | None => ret (-1)
  | Some (f, p, n) =>
      l <- uloads p (Z.to_nat n) ;;
      filewrite f l
  end.

Definition sys_close : KM Z :=
  a <- argfd 0 ;;
  match a with
  | None => ret (-1)
  | Some (fd, f) =>
      p <- curproc ;;
      upd_proc p (fun x => set_p_ofile (<[fd := None]> (p_ofile x)) x) ;;;
      fileclose f ;;;
      ret 0
  end.

(** The fields of [struct stat]; its padding is not written. *)
Definition store_stat (a : Z) (st : stat) : KM unit :=
  ustores a (le_bytes 2 (u16 (st_type st))) ;;;
  ustores (a + 4) (le_bytes 4 (u32 (st_dev st)) ++ le_bytes 4 (st_ino st) ++ le_bytes 2 (u16 (st_nlink st))) ;;;
  ustores (a + 16) (le_bytes 4 (st_size st)).

Definition sys_fstat : KM Z :=
  a <- argfd 0 ;;
  match a with
  | None => ret (-1)
  | Some (_, f) =>
      p <- argptr 1 20 ;;
      match p with
      | None => ret (-1)
      | Some p =>
          st <- filestat f ;;
          match st with
          | None => ret (-1)
          | Some st =>
              store_stat p st ;;;
              ret 0
          end
      end
  end.

(** [bad:] of [sys_link] *)
Definition sys_link_bad (ip : nat) : KM Z :=
  ilock ip ;;;
  upd_inode ip (fun x => set_i_nlink (i16 (i_nlink x - 1)) x) ;;;
  iupdate ip ;;;
  iunlockput ip ;;;
  end_op ;;;
  ret (-1).

(** From [begin_op] on. *)
Definition link (old new : list Z) : KM Z :=
  begin_op ;;;
  ip <- namei old ;;
  match ip with
  | None =>
      end_op ;;;
      ret (-1)
  | Some ip =>
      ilock ip ;;;
      t <- get (fun s => i_type (inode_at s ip)) ;;
      if t =? T_DIR then
        iunlockput ip ;;;
        end_op ;;;
        ret (-1)
      else
        upd_inode ip (fun x => set_i_nlink (i16 (i_nlink x + 1)) x) ;;;
        iupdate ip ;;;
        iunlock ip ;;;
        r <- nameiparent new ;;
        match r with
        | (None, _) => sys_link_bad ip
        | (Some dp, name) =>
            ilock dp ;;;
            d <- get (fun s => i_dev (inode_at s dp)) ;;
            x <- get (fun s => inode_at s ip) ;;
            bad <- (if negb (d =? i_dev x) then ret true
                    else
                      r <- dirlink dp name (i_inum x) ;;
                      ret (r <? 0)) ;;
            if bad : bool then
              iunlockput dp ;;;
              sys_link_bad ip
            else
              iunlockput dp ;;;
              iput ip ;;;
              end_op ;;;
              ret 0
        end
  end.

Definition sys_link : KM Z :=
  old <- argstr 0 ;;
  match old with
  | None => ret (-1)
  | Some old =>
      new <- argstr 1 ;;
      match new with
      | None => ret (-1)
      | Some new => link old new
      end
  end.

(** The loop of [isdirempty] from [off] on. *)
Fixpoint isdirempty_loop (k : nat) (dp : nat) (off : Z) : KM bool :=
  match k with
  | O => ret true
  | S k' =>
      size <- get (fun s => i_size (inode_at s dp)) ;;
      if negb (off <? size) then ret true
      else
        r <- readi dp off 16 ;;
        if negb (r.1 =? 16) then panic "isdirempty: readi"
        else if negb (de_inum r.2 =? 0) then ret false
        else isdirempty_loop k' dp (off + 16)
  end.
Definition isdirempty (dp : nat) : KM bool :=
  size <- get (fun s => i_size (inode_at s dp)) ;;
  isdirempty_loop (dir_fuel size) dp 32.

(** [bad:] of [sys_unlink] *)
Definition sys_unlink_bad (dp : nat) : KM Z :=
  iunlockput dp ;;;
  end_op ;;;
  ret (-1).

Definition unlink (path : list Z) : KM Z :=
  begin_op ;;;
  r <- nameiparent path ;;
  match r with
  | (None, _) =>
      end_op ;;;
      ret (-1)
  | (Some dp, name) =>
      ilock dp ;;;
      if (namecmp name (lit ".") =? 0) || (namecmp name (lit "..") =? 0) then sys_unlink_bad dp
      else
        r <- dirlookup dp name ;;
        match r with
        | None => sys_unlink_bad dp
        | Some (ip, off) =>
            ilock ip ;;;
            x <- get (fun s => inode_at s ip) ;;
            if i_nlink x <? 1 then panic "unlink: nlink < 1"
            else
              full <- (if i_type x =? T_DIR then e <- isdirempty ip ;; ret (negb e) else ret false) ;;
              if full : bool then
                iunlockput ip ;;;
                sys_unlink_bad dp
              else
                w <- writei dp (replicate 16 0) off ;;
                if negb (w =? 16) then panic "unlink: writei"
                else
                  (if i_type x =? T_DIR then
                     upd_inode dp (fun x => set_i_nlink (i16 (i_nlink x - 1)) x) ;;;
                     iupdate dp
                   else ret tt) ;;;
                  iunlockput dp ;;;
                  upd_inode ip (fun x => set_i_nlink (i16 (i_nlink x - 1)) x) ;;;
                  iupdate ip ;;;
                  iunlockput ip ;;;
                  end_op ;;;
                  ret 0
        end
  end.

Definition sys_unlink : KM Z :=
  path <- argstr 0 ;;
  match path with
  | None => ret (-1)
  | Some path => unlink path
  end.

(** The new inode, locked. *)
Definition create (path : list Z) (type major minor : Z) : KM (option nat) :=
  r <- nameiparent path ;;
  match r with
  | (None, _) => ret None
  | (Some dp, name) =>
      ilock dp ;;;
      found <- dirlookup dp name ;;
      match found with
      | Some (ip, _) =>
          iunlockput dp ;;;
          ilock ip ;;;
          t <- get (fun s => i_type (inode_at s ip)) ;;
          if (type =? T_FILE) && (t =? T_FILE) then ret (Some ip)
          else
            iunlockput ip ;;;
            ret None
      | None =>
          d <- get (fun s => inode_at s dp) ;;
          ip <- ialloc (i_dev d) type ;;
          ilock ip ;;;
          upd_inode ip (fun x => set_i_nlink 1 (set_i_minor minor (set_i_major major x))) ;;;
          iupdate ip ;;;
          inum <- get (fun s => i_inum (inode_at s ip)) ;;
          (if type =? T_DIR then
             upd_inode dp (fun x => set_i_nlink (i16 (i_nlink x + 1)) x) ;;;
             iupdate dp ;;;
             a <- dirlink ip (lit ".") inum ;;
             bad <- (if a <? 0 then ret true else b <- dirlink ip (lit "..") (i_inum d) ;; ret (b <? 0)) ;;
             if bad : bool then panic "create dots" else ret tt
           else ret tt) ;;;
          r <- dirlink dp name inum ;;
          if r <? 0 then panic "create: dirlink"
          else
            iunlockput dp ;;;
            ret (Some ip)
      end
  end.

(** The inode [sys_open] opens, locked; [None] after [end_op]. *)
Definition open_inode (path : list Z) (omode : Z) : KM (option nat) :=
  if has omode O_CREATE then
    ip <- create path T_FILE 0 0 ;;
    match ip with
    | None => end_op ;;; ret None
    | Some ip => ret (Some ip)
    end
  else
    ip <- namei path ;;
    match ip with
    | None => end_op ;;; ret None
    | Some ip =>
        ilock ip ;;;
        t <- get (fun s => i_type (inode_at s ip)) ;;
        if (t =? T_DIR) && negb (omode =? O_RDONLY) then
          iunlockput ip ;;;
          end_op ;;;
          ret None
        else ret (Some ip)
    end.

Definition open_bad (f : option nat) (ip : nat) : KM Z :=
  match f with Some f => fileclose f | None => ret tt end ;;;
  iunlockput ip ;;;
  end_op ;;;
  ret (-1).

Definition open (path : list Z) (omode : Z) : KM Z :=
  begin_op ;;;
  ip <- open_inode path omode ;;
  match ip with
  | None => ret (-1)
  | Some ip =>
      f <- filealloc ;;
      match f with
      | None => open_bad None ip
      | Some f =>
          fd <- fdalloc f ;;
          match fd with
          | None => open_bad (Some f) ip
          | Some fd =>
              iunlock ip ;;;
              end_op ;;;
              upd_file f (fun x => set_f_writable (has omode O_WRONLY || has omode O_RDWR)
                (set_f_readable (negb (has omode O_WRONLY)) (set_f_off 0 (set_f_ip ip (set_f_type FD_INODE x))))) ;;;
              ret (Z.of_nat fd)
          end
      end
  end.

Definition sys_open : KM Z :=
  path <- argstr 0 ;;
  match path with
  | None => ret (-1)
  | Some path =>
      omode <- argint 1 ;;
      match omode with
      | None => ret (-1)
      | Some omode => open path omode
      end
  end.

(** The end of [sys_mkdir] and [sys_mknod]. *)
Definition made (ip : option nat) : KM Z :=
  match ip with
  | None =>
      end_op ;;;
      ret (-1)
  | Some ip =>
      iunlockput ip ;;;
      end_op ;;;
      ret 0
  end.

Definition sys_mkdir : KM Z :=
  begin_op ;;;
  path <- argstr 0 ;;
  ip <- (match path with
         | None => ret None
         | Some path => create path T_DIR 0 0
         end) ;;
  made ip.

Definition sys_mknod : KM Z :=
  begin_op ;;;
  path <- argstr 0 ;;
  ip <- (match path with
         | None => ret None
         | Some path =>
             major <- argint 1 ;;
             match major with
             | None => ret None
             | Some major =>
                 minor <- argint 2 ;;
                 match minor with
                 | None => ret None
                 | Some minor => create path T_DEV (i16 major) (i16 minor)
                 end
             end
         end) ;;
  made ip.

Definition sys_chdir : KM Z :=
  p <- curproc ;;
  begin_op ;;;
  path <- argstr 0 ;;
  ip <- (match path with None => ret None | Some path => namei path end) ;;
  match ip with
  | None =>
      end_op ;;;
      ret (-1)
  | Some ip =>
      ilock ip ;;;
      t <- get (fun s => i_type (inode_at s ip)) ;;
      if negb (t =? T_DIR) then
        iunlockput ip ;;;
        end_op ;;;
        ret (-1)
      else
        iunlock ip ;;;
        cwd <- get (fun s => p_cwd (proc_at s p)) ;;
        cwd <- in_bounds cwd ;;
        iput cwd ;;;
        end_op ;;;
        upd_proc p (set_p_cwd (Some ip)) ;;;
        ret 0
  end.

(** The loop of [sys_exec]: the argument strings from index [i] on, [n] more at most. *)
Fixpoint exec_args (n : nat) (uargv i : Z) : KM (option (list (list Z))) :=
  match n with
  | O => ret None
  | S n' =>
      uarg <- fetchint (u32 (uargv + 4 * i)) ;;
      match uarg with
      | None => ret None
      | Some uarg =>
          if uarg =? 0 then ret (Some [])
          else
            a <- fetchstr (u32 uarg) ;;
            match a with
            | None => ret None
            | Some a =>
                l <- exec_args n' uargv (i + 1) ;;
                ret (l ← l; Some (a :: l))
            end
      end
  end.

Definition sys_exec : KM Z :=
  path <- argstr 0 ;;
  match path with
  | None => ret (-1)
  | Some path =>
      uargv <- argint 1 ;;
      match uargv with
      | None => ret (-1)
      | Some uargv =>
          argv <- exec_args MAXARG (u32 uargv) 0 ;;
          match argv with
          | None => ret (-1)
          | Some argv => exec path argv
          end
      end
  end.

(** Both descriptors, or the first one only. *)
Definition sys_pipe : KM Z :=
  fd <- argptr 0 8 ;;
  match fd with
  | None => ret (-1)
  | Some fd =>
      r <- pipealloc ;;
      match r with
      | None => ret (-1)
      | Some (rf, wf) =>
          fd0 <- fdalloc rf ;;
          fd1 <- (match fd0 with None => ret None | Some _ => fdalloc wf end) ;;
          match fd0, fd1 with
          | Some fd0, Some fd1 =>
              ustores fd (le_bytes 4 (Z.of_nat fd0)) ;;;
              ustores (fd + 4) (le_bytes 4 (Z.of_nat fd1)) ;;;
              ret 0
          | _, _ =>
              match fd0 with
              | Some fd0 =>
                  p <- curproc ;;
                  upd_proc p (fun x => set_p_ofile (<[fd0 := None]> (p_ofile x)) x)
              | None => ret tt
              end ;;;
              fileclose rf ;;;
              fileclose wf ;;;
              ret (-1)
          end
      end
  end.
End sysfile.
