(* ===== verification/Kbd.v ===== *)
(** * Kbd: the keyboard (kbd.c, kbd.h)

    [kbdgetc] as a function of the shift state and the scan code in the data port.
    The result 0 means that no character was typed. *)

From stdpp Require Import base gmap list strings.
From Stdlib Require Import ZArith Lia.
From S2P Require Import Prelude State Core Console.

Local Open Scope Z_scope.
Local Open Scope kernel_scope.

Definition SHIFT : Z := 1.
Definition CTL : Z := 2.
Definition ALT : Z := 4.
Definition CAPSLOCK : Z := 8.
Definition NUMLOCK : Z := 16.
Definition SCROLLLOCK : Z := 32.
Definition E0ESC : Z := 64.

(** A table with the entries [l], 0 elsewhere. *)
Definition table (l : list (Z * Z)) (k : Z) : Z :=
  match List.find (fun e => e.1 =? k) l with Some e => e.2 | None => 0 end.

Definition shiftcode : Z -> Z := table [(29, CTL); (42, SHIFT); (54, SHIFT); (56, ALT); (157, CTL); (184, ALT)].
Definition togglecode : Z -> Z := table [(58, CAPSLOCK); (69, NUMLOCK); (70, SCROLLLOCK)].

(** The keys after an E0 escape, common to the three maps but for Enter and [/]. *)
Definition extended (enter div : Z) : list (Z * Z) :=
  [(156, enter); (181, div); (200, 226); (208, 227); (201, 230); (209, 231); (203, 228); (205, 229);
   (151, 224); (207, 225); (210, 232); (211, 233)].

(** A map that starts with the codes [l]. *)
Definition keymap (l : list Z) (ext : list (Z * Z)) (k : Z) : Z :=
  match l !! Z.to_nat k with Some c => c | None => table ext k end.

(** The keypad of the first two maps: from 0x37 on. *)
Definition keypad : list Z :=
  [42; 0; 32; 0; 0; 0; 0; 0; 0; 0; 0; 0; 0; 0; 0; 0] ++ lit "789-456+1230." ++ [0; 0; 0; 0].

Definition normalmap : Z -> Z :=
  keymap ([0; 27] ++ lit "1234567890-=" ++ [8; 9] ++ lit "qwertyuiop[]" ++ [10; 0] ++ lit "asdfghjkl;'`"
          ++ [0; 92] ++ lit "zxcvbnm,./" ++ [0] ++ keypad) (extended 10 47).
Definition shiftmap : Z -> Z :=
  keymap ([0; 27] ++ lit "!@#$%^&*()_+" ++ [8; 9] ++ lit "QWERTYUIOP{}" ++ [10; 0] ++ lit "ASDFGHJKL:"
          ++ [34; 126] ++ [0; 124] ++ lit "ZXCVBNM<>?" ++ [0] ++ keypad) (extended 10 47).

(** [C(x)] *)
Definition ctl (s : string) : list Z := (fun c => u8 (c - 64)) <$> lit s.
Definition ctlmap : Z -> Z :=
  keymap (replicate 16 0 ++ ctl "QWERTYUIOP" ++ [0; 0; 13; 0] ++ ctl "ASDFGHJKL" ++ [0; 0; 0; 0; 28]
          ++ ctl "ZXCVBNM" ++ [0; 0] ++ ctl "/" ++ [0; 0]) (extended 13 (u8 (47 - 64))).

(** [charcode[shift & (CTL | SHIFT)]] *)
Definition charcode (k : Z) : Z -> Z := if k =? 0 then normalmap else if k =? 1 then shiftmap else ctlmap.

(** The new shift state and the result. *)
Definition kbd_step (shift data : Z) : Z * Z :=
  if data =? 224 then (Z.lor shift E0ESC, 0)
  else if negb (Z.land data 128 =? 0) then
    let data := if negb (Z.land shift E0ESC =? 0) then data else Z.land data 127 in
    (Z.land shift (Z.lnot (Z.lor (shiftcode data) E0ESC)), 0)
  else
    let '(shift, data) :=
      if negb (Z.land shift E0ESC =? 0) then (Z.land shift (Z.lnot E0ESC), Z.lor data 128) else (shift, data) in
    let shift := Z.lxor (Z.lor shift (shiftcode data)) (togglecode data) in
    let c := charcode (Z.land shift (Z.lor CTL SHIFT)) data in
    let c := if negb (Z.land shift CAPSLOCK =? 0) then
               if (97 <=? c) && (c <=? 122) then c - 32
               else if (65 <=? c) && (c <=? 90) then c + 32
               else c
             else c in
    (shift, c).

(** The characters of a sequence of scan codes. *)
Fixpoint kbd_chars (shift : Z) (codes : list Z) : Z * list Z :=
  match codes with
  | [] => (shift, [])
  | data :: codes' =>
      let '(shift, c) := kbd_step shift data in
      let '(shift, cs) := kbd_chars shift codes' in
      (shift, c :: cs)
  end.

(** [consoleintr(kbdgetc)] with the codes in the controller; the result is the new [shift]. *)
Definition kbdintr (shift : Z) (codes : list Z) : KM Z :=
  let '(shift, cs) := kbd_chars shift codes in
  consoleintr cs ;;;
  ret shift.
