(* ===== verification/Trap.v ===== *)
(** * Trap: system call dispatch (syscall.c) and traps (trap.c)

    The hardware's part of a trap is an argument: the number of the CPU, the fault
    address of CR2, and the characters the keyboard or serial port has ready.
    [lapiceoi] has no state here, and [ideintr] of memide.c does nothing. *)

From stdpp Require Import base gmap list strings.
From Stdlib Require Import ZArith Lia.
From S2P Require Import Prelude State Core Sem Bio Log Kalloc Pipe Fs Console Vm File Proc Syscall Exec Sysfile.

Local Open Scope Z_scope.
Local Open Scope kernel_scope.

Definition T_SYSCALL : Z := 64.
Definition T_IRQ0 : Z := 32.
Definition IRQ_TIMER : Z := 0.
Definition IRQ_KBD : Z := 1.
Definition IRQ_COM1 : Z := 4.
Definition IRQ_IDE : Z := 14.
Definition IRQ_SPURIOUS : Z := 31.

Section trap.
Context `{DiskDriver} `{Devices} `{Linker} `{Symbols}.

(** [syscalls[num]] *)
Definition syscalls : list (option (KM Z)) :=
  [ None; Some sys_fork; Some sys_exit; Some sys_wait; Some sys_pipe; Some sys_read; Some sys_kill;
    Some sys_exec; Some sys_fstat; Some sys_chdir; Some sys_dup; Some sys_getpid; Some sys_sbrk;
    Some sys_sleep; Some sys_uptime; Some sys_open; Some sys_write; Some sys_mknod; Some sys_unlink;
    Some sys_link; Some sys_mkdir; Some sys_close; Some sys_flpf; Some sys_get_parent_pid;
    Some sys_sem_init; Some sys_sem_acquire; Some sys_sem_release ].

Definition syscall : KM unit :=
  p <- curproc ;;
  eax <- tf_rd p TF_EAX ;;
  let num := i32 eax in
  match (if (0 <? num) && (num <? Z.of_nat (length syscalls)) then mjoin (syscalls !! Z.to_nat num) else None) with
  | Some f =>
      r <- f ;;
      tf_wr p TF_EAX (u32 r)
  | None =>
      x <- get (fun s => proc_at s p) ;;
      name <- in_bounds (cstr_in (p_name x)) ;;
      cprintf (lit "%d %s: unknown sys call %d" ++ [10]) [Word (p_pid x); Chars name; Word num] ;;;
      tf_wr p TF_EAX (u32 (-1))
  end.

(** [if(myproc() && myproc()->killed && (tf->cs&3) == DPL_USER) exit();] *)
Definition exit_if_killed (cs : Z) : KM unit :=
  p <- myproc ;;
  match p with
  | None => ret tt
  | Some p =>
      k <- get (fun s => p_killed (proc_at s p)) ;;
      if k && (Z.land cs 3 =? DPL_USER) then exit else ret tt
  end.

(** [if(myproc()->killed) exit();] *)
Definition exit_killed : KM unit := k <- killed ;; if k : bool then exit else ret tt.

(** [trap(tf)] up to the switch on a device interrupt or fault. *)
Definition trap_switch (cpu cr2 : Z) (input : list Z) (tf trapno cs : Z) : KM unit :=
  if trapno =? T_IRQ0 + IRQ_TIMER then
    if cpu =? 0 then
      acquire L_tickslock ;;;
      modify (fun s => set_ticks (u32 (ticks s + 1)) s) ;;;
      wakeup Ch_ticks ;;;
      release L_tickslock
    else ret tt
  else if (trapno =? T_IRQ0 + IRQ_IDE) || (trapno =? T_IRQ0 + IRQ_IDE + 1) then ret tt
  else if (trapno =? T_IRQ0 + IRQ_KBD) || (trapno =? T_IRQ0 + IRQ_COM1) then consoleintr input
  else if (trapno =? T_IRQ0 + 7) || (trapno =? T_IRQ0 + IRQ_SPURIOUS) then
    eip <- mem_rd (tf + TF_EIP) ;;
    cprintf (lit "cpu%d: spurious interrupt at %x:%x" ++ [10]) [Word cpu; Word cs; Word eip]
  else
    eip <- mem_rd (tf + TF_EIP) ;;
    err <- mem_rd (tf + TF_ERR) ;;
    p <- myproc ;;
    match p with
    | Some p =>
        if negb (Z.land cs 3 =? 0) then
          x <- get (fun s => proc_at s p) ;;
          name <- in_bounds (cstr_in (p_name x)) ;;
          cprintf (lit "pid %d %s: trap %d err %d on cpu %d eip 0x%x addr 0x%x--kill proc" ++ [10])
            [Word (p_pid x); Chars name; Word trapno; Word err; Word cpu; Word eip; Word cr2] ;;;
          upd_proc p (set_p_killed true)
        else
          cprintf (lit "unexpected trap %d from cpu %d eip %x (cr2=0x%x)" ++ [10])
            [Word trapno; Word cpu; Word eip; Word cr2] ;;;
          panic "trap"
    | None =>
        cprintf (lit "unexpected trap %d from cpu %d eip %x (cr2=0x%x)" ++ [10])
          [Word trapno; Word cpu; Word eip; Word cr2] ;;;
        panic "trap"
    end.

Definition trap (cpu cr2 : Z) (input : list Z) (tf : Z) : KM unit :=
  trapno <- mem_rd (tf + TF_TRAPNO) ;;
  if trapno =? T_SYSCALL then
    exit_killed ;;;
    p <- curproc ;;
    upd_proc p (set_p_tf tf) ;;;
    syscall ;;;
    exit_killed
  else
    csw <- mem_rd (tf + TF_CS) ;;
    let cs := u16 csw in
    trap_switch cpu cr2 input tf trapno cs ;;;
    exit_if_killed cs ;;;
    p <- myproc ;;
    (match p with
     | None => ret tt
     | Some p =>
         st <- get (fun s => p_state (proc_at s p)) ;;
         if bool_decide (st = RUNNING) && (trapno =? T_IRQ0 + IRQ_TIMER) then yield else ret tt
     end) ;;;
    exit_if_killed cs.
End trap.
