(* ===== verification/Ports.v ===== *)
(** * Ports: the machine below the kernel

    The devices are the class [Ports]: what a read or write of an I/O port (x86.h) does to
    them, and [patience], which bounds the polls of a status register.  [Mmio] adds the
    device registers mapped into memory.  [machine] is the kernel's state with the
    variables of the drivers: ide.c, lapic.c, ioapic.c, uart.c and mp.c. *)

From stdpp Require Import functions base gmap list strings.
From Stdlib Require Import ZArith Lia.
From S2P Require Import Prelude State Core.

Local Open Scope Z_scope.
Local Open Scope kernel_scope.

Class Ports := {
  ctl : Type;
  inb : Z -> ctl -> Z * ctl;
  outb : Z -> Z -> ctl -> ctl;
  insl : Z -> nat -> ctl -> list Z * ctl;
  outsl : Z -> list Z -> ctl -> ctl;
  patience : nat
}.

(** A 32-bit register at a kernel address. *)
Class Mmio `{Ports} := {
  ldl : Z -> ctl -> Z * ctl;
  stl : Z -> Z -> ctl -> ctl
}.

Section machine.
Context `{Ports}.

Record machine := mkMachine {
  ks : kstate;
  idequeue : option nat;
  qnext : nat -> option nat;
  havedisk1 : bool;
  lapic : Z;
  ioapic : Z;
  ioapicid : Z;
  ncpu : Z;
  apicids : list Z;
  started : list bool;
  uart : bool;
  hw : ctl
}.

Definition set_ks (s : kstate) (x : machine) : machine :=
  mkMachine s (idequeue x) (qnext x) (havedisk1 x) (lapic x) (ioapic x) (ioapicid x) (ncpu x) (apicids x) (started x) (uart x) (hw x).
Definition set_idequeue (q : option nat) (x : machine) : machine :=
  mkMachine (ks x) q (qnext x) (havedisk1 x) (lapic x) (ioapic x) (ioapicid x) (ncpu x) (apicids x) (started x) (uart x) (hw x).
Definition set_qnext (i : nat) (n : option nat) (x : machine) : machine :=
  mkMachine (ks x) (idequeue x) (<[i := n]> (qnext x)) (havedisk1 x) (lapic x) (ioapic x) (ioapicid x) (ncpu x) (apicids x) (started x) (uart x) (hw x).
Definition set_havedisk1 (x : machine) : machine :=
  mkMachine (ks x) (idequeue x) (qnext x) true (lapic x) (ioapic x) (ioapicid x) (ncpu x) (apicids x) (started x) (uart x) (hw x).
Definition set_lapic (a : Z) (x : machine) : machine :=
  mkMachine (ks x) (idequeue x) (qnext x) (havedisk1 x) a (ioapic x) (ioapicid x) (ncpu x) (apicids x) (started x) (uart x) (hw x).
Definition set_ioapic (a : Z) (x : machine) : machine :=
  mkMachine (ks x) (idequeue x) (qnext x) (havedisk1 x) (lapic x) a (ioapicid x) (ncpu x) (apicids x) (started x) (uart x) (hw x).
Definition set_ioapicid (i : Z) (x : machine) : machine :=
  mkMachine (ks x) (idequeue x) (qnext x) (havedisk1 x) (lapic x) (ioapic x) i (ncpu x) (apicids x) (started x) (uart x) (hw x).
Definition set_ncpu (n : Z) (x : machine) : machine :=
  mkMachine (ks x) (idequeue x) (qnext x) (havedisk1 x) (lapic x) (ioapic x) (ioapicid x) n (apicids x) (started x) (uart x) (hw x).
Definition set_apicids (l : list Z) (x : machine) : machine :=
  mkMachine (ks x) (idequeue x) (qnext x) (havedisk1 x) (lapic x) (ioapic x) (ioapicid x) (ncpu x) l (started x) (uart x) (hw x).
Definition set_started (l : list bool) (x : machine) : machine :=
  mkMachine (ks x) (idequeue x) (qnext x) (havedisk1 x) (lapic x) (ioapic x) (ioapicid x) (ncpu x) (apicids x) l (uart x) (hw x).
Definition set_uart (x : machine) : machine :=
  mkMachine (ks x) (idequeue x) (qnext x) (havedisk1 x) (lapic x) (ioapic x) (ioapicid x) (ncpu x) (apicids x) (started x) true (hw x).
Definition set_hw (c : ctl) (x : machine) : machine :=
  mkMachine (ks x) (idequeue x) (qnext x) (havedisk1 x) (lapic x) (ioapic x) (ioapicid x) (ncpu x) (apicids x) (started x) (uart x) c.

Notation HM := (M (option chan) machine).

(** A routine of the rest of the kernel. *)
Definition kernel {A} (m : KM A) : HM A := fun x =>
  match m (ks x) with
  | Ret a s => Ret a (set_ks s x)
  | Panic msg => Panic msg
  | Slept c s => Slept c (set_ks s x)
  end.

Definition in_byte (port : Z) : HM Z := fun x => let '(v, c) := inb port (hw x) in Ret v (set_hw c x).
Definition out_byte (port v : Z) : HM unit := modify (fun x => set_hw (outb port (u8 v) (hw x)) x).

Context `{!Mmio}.

Definition load_reg (a : Z) : HM Z := fun x => let '(v, c) := ldl a (hw x) in Ret v (set_hw c x).
Definition store_reg (a v : Z) : HM unit := modify (fun x => set_hw (stl a (u32 v) (hw x)) x).
End machine.
Notation HM := (M (option chan) machine).
