(* ===== verification/Apic.v ===== *)
(** * Apic: the interrupt controllers and the clock (lapic.c, ioapic.c, picirq.c)

    The registers of the local APIC are at [lapic], which [mpinit] sets; those of the I/O
    APIC are behind its index and data registers.  [cmostime] reads the clock through
    ports. *)

From stdpp Require Import functions base gmap list strings.
From Stdlib Require Import ZArith Lia.
From S2P Require Import Prelude State Core Kalloc Console Trap Ports.

Local Open Scope Z_scope.
Local Open Scope kernel_scope.

Definition IRQ_ERROR : Z := 19.

(** ** lapic.c *)

Inductive lapic_reg := ID | VER | TPR | EOI | SVR | ESR | ICRLO | ICRHI | TIMER | PCINT | LINT0 | LINT1 | ERROR | TICR | TCCR | TDCR.

(** The registers as indices of words. *)
Definition lapic_index (r : lapic_reg) : Z :=
  match r with
  | ID => 32 | VER => 48 | TPR => 128 | EOI => 176 | SVR => 240 | ESR => 640
  | ICRLO => 768 | ICRHI => 784 | TIMER => 800 | PCINT => 832 | LINT0 => 848 | LINT1 => 864
  | ERROR => 880 | TICR => 896 | TCCR => 912 | TDCR => 992
  end / 4.

Definition ENABLE : Z := 256.
Definition INIT : Z := 1280.
Definition STARTUP : Z := 1536.
Definition DELIVS : Z := 4096.
Definition ASSERT : Z := 16384.
Definition LEVEL : Z := 32768.
Definition BCAST : Z := 524288.
Definition X1 : Z := 11.
Definition PERIODIC : Z := 131072.
Definition MASKED : Z := 65536.

Section lapic.
Context `{Mmio}.

(** [lapic[index]] *)
Definition lapicr (index : lapic_reg) : HM Z := a <- get lapic ;; load_reg (a + 4 * lapic_index index).
Definition lapicw (index : lapic_reg) (value : Z) : HM unit :=
  a <- get lapic ;;
  store_reg (a + 4 * lapic_index index) value ;;;
  _ <- lapicr ID ;; ret tt.

(** [while(lapic[ICRLO] & DELIVS)] *)
Fixpoint deliver_wait (n : nat) : HM unit :=
  match n with
  | O => panic "out of fuel"
  | S n' => v <- lapicr ICRLO ;; if Z.land v DELIVS =? 0 then ret tt else deliver_wait n'
  end.

Definition lapicinit : HM unit :=
  a <- get lapic ;;
  if a =? 0 then ret tt else
  lapicw SVR (Z.lor ENABLE (T_IRQ0 + IRQ_SPURIOUS)) ;;;
  lapicw TDCR X1 ;;;
  lapicw TIMER (Z.lor PERIODIC (T_IRQ0 + IRQ_TIMER)) ;;;
  lapicw TICR 10000000 ;;;
  lapicw LINT0 MASKED ;;;
  lapicw LINT1 MASKED ;;;
  v <- lapicr VER ;;
  (if 4 <=? Z.land (Z.shiftr v 16) 255 then lapicw PCINT MASKED else ret tt) ;;;
  lapicw ERROR (T_IRQ0 + IRQ_ERROR) ;;;
  lapicw ESR 0 ;;;
  lapicw ESR 0 ;;;
  lapicw EOI 0 ;;;
  lapicw ICRHI 0 ;;;
  lapicw ICRLO (Z.lor (Z.lor BCAST INIT) LEVEL) ;;;
  deliver_wait patience ;;;
  lapicw TPR 0.

Definition lapicid : HM Z :=
  a <- get lapic ;;
  if a =? 0 then ret 0 else v <- lapicr ID ;; ret (Z.shiftr v 24).

Definition lapiceoi : HM unit :=
  a <- get lapic ;;
  if a =? 0 then ret tt else lapicw EOI 0.

Definition CMOS_PORT : Z := 112.
Definition CMOS_RETURN : Z := 113.

(** [microdelay] is empty in the source.  The warm reset vector is two words at [40:67]. *)
Definition lapicstartap (apicid addr : Z) : HM unit :=
  out_byte CMOS_PORT 15 ;;;
  out_byte (CMOS_PORT + 1) 10 ;;;
  let wrv := P2V (Z.lor (Z.shiftl 64 4) 103) in
  kernel (mem_store wrv (le_bytes 2 0)) ;;;
  kernel (mem_store (wrv + 2) (le_bytes 2 (u16 (Z.shiftr addr 4)))) ;;;
  lapicw ICRHI (Z.shiftl apicid 24) ;;;
  lapicw ICRLO (Z.lor (Z.lor INIT LEVEL) ASSERT) ;;;
  lapicw ICRLO (Z.lor INIT LEVEL) ;;;
  for_each [0; 1] (fun _ =>
    lapicw ICRHI (Z.shiftl apicid 24) ;;;
    lapicw ICRLO (Z.lor STARTUP (Z.shiftr addr 12))).

Definition CMOS_STATA : Z := 10.
Definition CMOS_STATB : Z := 11.
Definition CMOS_UIP : Z := Z.shiftl 1 7.
Definition SECS : Z := 0.
Definition MINS : Z := 2.
Definition HOURS : Z := 4.
Definition DAY : Z := 7.
Definition MONTH : Z := 8.
Definition YEAR : Z := 9.

Definition cmos_read (reg : Z) : HM Z :=
  out_byte CMOS_PORT reg ;;;
  in_byte CMOS_RETURN.

(** date.h *)
Record rtcdate := mkDate { second : Z; minute : Z; hour : Z; day : Z; month : Z; year : Z }.

#[export] Instance rtcdate_eq_dec : EqDecision rtcdate.
Proof using Type. solve_decision. Defined.

Definition fill_rtcdate : HM rtcdate :=
  s <- cmos_read SECS ;;
  mi <- cmos_read MINS ;;
  h <- cmos_read HOURS ;;
  d <- cmos_read DAY ;;
  mo <- cmos_read MONTH ;;
  y <- cmos_read YEAR ;;
  ret (mkDate s mi h d mo y).

(** One pass of [for(;;)] in [cmostime]: the date, if it is left. *)
Definition cmos_pass : HM (option rtcdate) :=
  t1 <- fill_rtcdate ;;
  a <- cmos_read CMOS_STATA ;;
  if negb (Z.land a CMOS_UIP =? 0) then ret None else
  t2 <- fill_rtcdate ;;
  ret (if decide (t1 = t2) then Some t1 else None).

Fixpoint cmos_loop (n : nat) : HM rtcdate :=
  match n with
  | O => panic "out of fuel"
  | S n' => r <- cmos_pass ;; match r with Some t => ret t | None => cmos_loop n' end
  end.

(** [CONV] *)
Definition CONV (x : Z) : Z := u32 (u32 (Z.shiftr x 4 * 10) + Z.land x 15).

Definition cmostime : HM rtcdate :=
  sb <- cmos_read CMOS_STATB ;;
  let bcd := Z.land sb (Z.shiftl 1 2) =? 0 in
  t1 <- cmos_loop patience ;;
  let t1 := if bcd then mkDate (CONV (second t1)) (CONV (minute t1)) (CONV (hour t1)) (CONV (day t1)) (CONV (month t1)) (CONV (year t1))
            else t1 in
  ret (mkDate (second t1) (minute t1) (hour t1) (day t1) (month t1) (u32 (year t1 + 2000))).
End lapic.

(** ** ioapic.c *)

Definition IOAPIC : Z := 4273995776.
Definition REG_ID : Z := 0.
Definition REG_VER : Z := 1.
Definition REG_TABLE : Z := 16.
Definition INT_DISABLED : Z := 65536.

Section ioapic.
Context `{Mmio}.

(** [struct ioapic]: [reg] at offset 0, [data] at 16. *)
Definition ioapicread (reg : Z) : HM Z :=
  a <- get ioapic ;;
  store_reg a reg ;;;
  load_reg (a + 16).

Definition ioapicwrite (reg data : Z) : HM unit :=
  a <- get ioapic ;;
  store_reg a reg ;;;
  store_reg (a + 16) data.

Definition ioapicinit : HM unit :=
  modify (set_ioapic IOAPIC) ;;;
  v <- ioapicread REG_VER ;;
  let maxintr := Z.land (Z.shiftr v 16) 255 in
  i <- ioapicread REG_ID ;;
  let id := Z.shiftr i 24 in
  oid <- get ioapicid ;;
  (if negb (id =? oid) then kernel (cprintf (lit "ioapicinit: id isn't equal to ioapicid; not a MP" ++ [10]) []) else ret tt) ;;;
  for_each (seq 0 (S (Z.to_nat maxintr))) (fun i =>
    ioapicwrite (REG_TABLE + 2 * Z.of_nat i) (Z.lor INT_DISABLED (T_IRQ0 + Z.of_nat i)) ;;;
    ioapicwrite (REG_TABLE + 2 * Z.of_nat i + 1) 0).

Definition ioapicenable (irq cpunum : Z) : HM unit :=
  ioapicwrite (REG_TABLE + 2 * irq) (T_IRQ0 + irq) ;;;
  ioapicwrite (REG_TABLE + 2 * irq + 1) (Z.shiftl cpunum 24).

(** ** picirq.c *)

Definition IO_PIC1 : Z := 32.
Definition IO_PIC2 : Z := 160.

Definition picinit : HM unit :=
  out_byte (IO_PIC1 + 1) 255 ;;;
  out_byte (IO_PIC2 + 1) 255.
End ioapic.
