(* ===== verification/ApicSpec.v ===== *)
(** * ApicSpec: the time of day is read right, and interrupts go where they are sent

    [Clock] is what [cmostime] relies on of the real-time clock: the index register selects,
    a date register has the field of the current second except while it is updated, and the
    UIP bit is set from 244 microseconds before an update to its end, 1984 microseconds
    after the second began.  Time is in microseconds; an access to a port takes one to ten.
    [IoRegs] is the index and data register of the I/O APIC. *)

From stdpp Require Import functions base gmap list strings.
From Stdlib Require Import ZArith Lia.
From S2P Require Import Prelude State Core Console Trap Ports Apic.

Local Open Scope Z_scope.
Local Open Scope kernel_scope.

(** ** The clock *)

Definition SECOND : Z := 1000000.
Definition updating (t : Z) : Prop := t mod SECOND < 1984.
Definition uip (t : Z) : bool := (t mod SECOND <? 1984) || (SECOND - 244 <=? t mod SECOND).

Definition field (r : Z) (d : rtcdate) : Z :=
  if r =? SECS then second d else if r =? MINS then minute d else if r =? HOURS then hour d
  else if r =? DAY then day d else if r =? MONTH then month d else year d.
Definition date_regs : list Z := [SECS; MINS; HOURS; DAY; MONTH; YEAR].

(** A number below 100 as two decimal digits. *)
Definition bcd (v : Z) : Z := Z.lor (Z.shiftl (v / 10) 4) (v mod 10).

Class Clock `{Ports} := {
  clk : ctl -> Z;
  selected : ctl -> Z;
  decimal : bool;
  civil : Z -> rtcdate;
  civil_digits : forall n r, r ∈ date_regs -> 0 <= field r (civil n) < 100;
  clk_outb : forall r c, clk c + 1 <= clk (outb CMOS_PORT r c) <= clk c + 10 /\ selected (outb CMOS_PORT r c) = r;
  clk_inb : forall c, exists v c', inb CMOS_RETURN c = (v, c') /\ clk c + 1 <= clk c' <= clk c + 10 /\
    (selected c ∈ date_regs -> ~ updating (clk c) ->
       v = (if decimal then bcd else id) (field (selected c) (civil (clk c / SECOND)))) /\
    (selected c = CMOS_STATA -> (Z.land v CMOS_UIP =? 0) = negb (uip (clk c))) /\
    (selected c = CMOS_STATB -> (Z.land v 4 =? 0) = decimal);
  clk_patience : (180 <= patience)%nat
}.

Lemma CONV_bcd v : 0 <= v < 100 -> CONV (bcd v) = v.
Proof.
  intros Hv. assert (exists n, v = Z.of_nat n /\ (n < 100)%nat) as (n & -> & Hn) by (exists (Z.to_nat v); lia).
  do 100 (destruct n as [|n]; [reflexivity|]). lia.
Qed.

Section clock.
Context `{IP : Ports} `{!Mmio} `{!Clock}.
Implicit Types (x : machine) (c : ctl).

Notation tm x := (clk (hw x)).
Definition shown (n : Z) : rtcdate :=
  let f := if decimal then bcd else id in
  let d := civil n in
  mkDate (f (second d)) (f (minute d)) (f (hour d)) (f (day d)) (f (month d)) (f (year d)).

(** No update of the date between two instants of one second. *)
Definition steady (n a b : Z) : Prop := forall t, a <= t <= b -> ~ updating t /\ t / SECOND = n.

Lemma steady_sub n a b a' b' : steady n a b -> a <= a' -> b' <= b -> steady n a' b'.
Proof using Type. intros Hs ?? t Ht. apply Hs. lia. Qed.

Lemma cmos_read_spec r x :
  0 <= r < 256 ->
  exists v c, cmos_read r x = Ret v (set_hw c x) /\ tm x + 2 <= clk c <= tm x + 20 /\
    exists t, tm x <= t <= clk c /\ t <= tm x + 10 /\
    (r ∈ date_regs -> ~ updating t -> v = (if decimal then bcd else id) (field r (civil (t / SECOND)))) /\
    (r = CMOS_STATA -> (Z.land v CMOS_UIP =? 0) = negb (uip t)) /\
    (r = CMOS_STATB -> (Z.land v 4 =? 0) = decimal).
Proof using Type.
  intros Hr. unfold cmos_read, bind, out_byte, in_byte, modify.
  replace (u8 r) with r by (symmetry; by apply Z.mod_small). cbn [hw set_hw].
  destruct (clk_outb r (hw x)) as [Ht Hsel]. destruct (clk_inb (outb CMOS_PORT r (hw x))) as (v & c & -> & Hc & Hd & Ha & Hb).
  rewrite Hsel in Hd, Ha, Hb. exists v, c. split; [done|]. split; [lia|]. exists (clk (outb CMOS_PORT r (hw x))). split_and!; [lia..|done|done|done].
Qed.

Lemma date_read r x :
  r ∈ date_regs ->
  exists v c, cmos_read r x = Ret v (set_hw c x) /\ tm x + 2 <= clk c <= tm x + 20 /\
    forall n, steady n (tm x) (clk c) -> v = (if decimal then bcd else id) (field r (civil n)).
Proof using Type.
  intros Hr. destruct (cmos_read_spec r x) as (v & c & E & Hc & t & Ht & _ & Hv & _).
  { unfold date_regs in Hr. set_unfold in Hr. destruct_or!; subst; by compute. }
  exists v, c. split; [done|]. split; [done|]. intros n Hs. destruct (Hs t ltac:(lia)) as [Hu <-]. by apply Hv.
Qed.

Lemma fill_spec x :
  exists d c, fill_rtcdate x = Ret d (set_hw c x) /\ tm x + 12 <= clk c <= tm x + 120 /\
    forall n, steady n (tm x) (clk c) -> d = shown n.
Proof using Type.
  destruct (date_read SECS x) as (v1 & c1 & E1 & T1 & V1); [set_solver|].
  destruct (date_read MINS (set_hw c1 x)) as (v2 & c2 & E2 & T2 & V2); [set_solver|].
  destruct (date_read HOURS (set_hw c2 x)) as (v3 & c3 & E3 & T3 & V3); [set_solver|].
  destruct (date_read DAY (set_hw c3 x)) as (v4 & c4 & E4 & T4 & V4); [set_solver|].
  destruct (date_read MONTH (set_hw c4 x)) as (v5 & c5 & E5 & T5 & V5); [set_solver|].
  destruct (date_read YEAR (set_hw c5 x)) as (v6 & c6 & E6 & T6 & V6); [set_solver|].
  cbn [hw set_hw] in *. exists (mkDate v1 v2 v3 v4 v5 v6), c6. split; [|split; [lia|]].
  - unfold fill_rtcdate. do 5 (etrans; [eapply bind_eq; eassumption|]). etrans; [eapply bind_eq; eassumption|]. done.
  - intros n Hs. unfold shown. cbn zeta.
    rewrite (V1 n), (V2 n), (V3 n), (V4 n), (V5 n), (V6 n) by (eapply steady_sub; [exact Hs|lia..]). done.
Qed.

(** Nothing can disturb a pass that starts at [t]. *)
Definition calm (t : Z) : Prop := 1984 <= t mod SECOND <= SECOND - 504.

Lemma phase t u :
  t <= u -> t mod SECOND + (u - t) < SECOND -> u mod SECOND = t mod SECOND + (u - t) /\ u / SECOND = t / SECOND.
Proof using Type.
  unfold SECOND. intros H1 H2. pose proof (Z.div_mod t 1000000). pose proof (Z.div_mod u 1000000).
  pose proof (Z.mod_pos_bound t 1000000). pose proof (Z.mod_pos_bound u 1000000). nia.
Qed.

Lemma steady_from t b :
  1984 <= t mod SECOND -> t mod SECOND + (b - t) < SECOND -> steady (t / SECOND) t b.
Proof using Type. intros H1 H2 u Hu. unfold updating. destruct (phase t u) as [-> ->]; lia. Qed.

Lemma uip_clear t : uip t = false <-> 1984 <= t mod SECOND < SECOND - 244.
Proof using Type. unfold uip. rewrite orb_false_iff, Z.ltb_ge, Z.leb_gt. lia. Qed.

Lemma pass_spec x :
  exists r c, cmos_pass x = Ret r (set_hw c x) /\ tm x + 14 <= clk c <= tm x + 260 /\
    (forall d, r = Some d -> exists t, tm x <= t <= clk c /\ d = shown (t / SECOND)) /\
    (calm (tm x) -> r <> None).
Proof using Type.
  destruct (fill_spec x) as (d1 & c1 & E1 & T1 & D1).
  destruct (cmos_read_spec CMOS_STATA (set_hw c1 x)) as (a & c2 & E2 & T2 & t & Ht & Ht' & _ & Ha & _); [by compute|]. specialize (Ha eq_refl).
  destruct (fill_spec (set_hw c2 x)) as (d2 & c3 & E3 & T3 & D2). cbn [hw set_hw] in *.
  assert (forall k, (t1 <- fill_rtcdate ;; a <- cmos_read CMOS_STATA ;; k t1 a) x = k d1 a (set_hw c2 x) :> outcome _ _ (option rtcdate)) as Hk.
  { intros k. etrans; [eapply bind_eq; eassumption|]. etrans; [eapply bind_eq; eassumption|]. done. }
  unfold cmos_pass. rewrite Hk, Ha, negb_involutive. destruct (uip t) eqn:Hu.
  - exists None, c2. split; [done|]. split; [lia|]. split; [done|]. intros [Hc1 Hc2].
    assert (uip t = false) as Hu' by (apply uip_clear; destruct (phase (tm x) t) as [-> _]; lia). congruence.
  - apply uip_clear in Hu. assert (steady (t / SECOND) t (clk c3)) as Hs by (apply steady_from; lia).
    rewrite (D2 (t / SECOND)) in * by (eapply steady_sub; [exact Hs|lia..]).
    exists (if decide (d1 = shown (t / SECOND)) then Some d1 else None), c3. split; [etrans; [eapply bind_eq; eassumption|done]|]. split; [lia|]. split.
    + intros d Hd. case_decide; [|done]. injection Hd as <-. exists t. split; [lia|done].
    + intros [Hc1 Hc2]. destruct (phase (tm x) t) as [_ Hsec]; [lia..|].
      rewrite decide_True; [done|]. rewrite Hsec. apply D1, steady_from; lia.
Qed.

(** How long it takes until [calm]. *)
Definition unrest (t : Z) : Z :=
  if t mod SECOND <? 1984 then 1984 - t mod SECOND
  else if t mod SECOND <=? SECOND - 504 then 0 else SECOND - t mod SECOND + 1984.

Ltac unrest_cases t :=
  pose proof (Z.mod_pos_bound t SECOND ltac:(done)); unfold unrest, SECOND in *;
  destruct (Z.ltb_spec (t mod 1000000) 1984); [|destruct (Z.leb_spec (t mod 1000000) (1000000 - 504))]; lia.

Lemma unrest_range t : 0 <= unrest t < 2500.
Proof using Type. unrest_cases t. Qed.

Lemma unrest_calm t : unrest t = 0 -> calm t.
Proof using Type. unfold calm. unrest_cases t. Qed.

Lemma unrest_drops t u : unrest t <> 0 -> t + 14 <= u <= t + 260 -> unrest u <= Z.max 0 (unrest t - 14).
Proof using Type.
  intros Hn Hu. pose proof (Z.mod_pos_bound t SECOND ltac:(done)). unfold unrest in *. change SECOND with 1000000 in *.
  pose proof (Z.div_mod t 1000000). pose proof (Z.div_mod u 1000000). pose proof (Z.mod_pos_bound u 1000000).
  assert (u / 1000000 = t / 1000000 \/ u / 1000000 = t / 1000000 + 1) as [E|E] by nia;
    repeat (case_match; [..]); rewrite ?Z.ltb_lt, ?Z.ltb_ge, ?Z.leb_le, ?Z.leb_gt in *; lia.
Qed.

Lemma loop_spec n x :
  unrest (tm x) <= 14 * (Z.of_nat n - 1) ->
  exists t c, cmos_loop n x = Ret (shown (t / SECOND)) (set_hw c x) /\ tm x <= t <= clk c.
Proof using Type.
  revert x. induction n as [|n IH]; intros x Hn.
  { pose proof (unrest_range (tm x)). lia. }
  destruct (pass_spec x) as (r & c & E & Hc & Hd & Hcalm). cbn [cmos_loop].
  destruct r as [d|].
  - destruct (Hd d eq_refl) as (t & Ht & ->). exists t, c. split; [|done]. etrans; [eapply bind_eq; eassumption|]. done.
  - assert (unrest (tm x) <> 0) as Hn0.
    { intros Hz. by apply Hcalm; [apply unrest_calm|]. }
    destruct (IH (set_hw c x)) as (t & c' & E' & Ht). { pose proof (unrest_drops _ _ Hn0 Hc). pose proof (unrest_range (tm x)). cbn [hw set_hw]. lia. }
    exists t, c'. cbn [hw set_hw] in Ht. split; [|lia]. etrans; [eapply bind_eq; eassumption|]. done.
Qed.
End clock.

(** The date at an instant. *)
Definition date_at `{Clock} (t : Z) : rtcdate :=
  let d := civil (t / SECOND) in mkDate (second d) (minute d) (hour d) (day d) (month d) (2000 + year d).

Lemma conv_shown `{Clock} n r :
  r ∈ date_regs -> (if decimal then CONV else id) ((if decimal then bcd else id) (field r (civil n))) = field r (civil n).
Proof. intros Hr. destruct decimal; [|done]. by apply CONV_bcd, civil_digits. Qed.

(** [cmostime] returns, and what it returns is the date the clock had at one instant of
    the call: no field is from before and another from after a change, whether the clock
    counts in binary or in decimal digits.  A clock that is being updated makes it read
    again, at most 180 times. *)
Theorem cmostime_consistent `{IP : Ports} `{!Mmio} `{!Clock} (x : machine) :
  exists t c, cmostime x = Ret (date_at t) (set_hw c x) /\ clk (hw x) <= t <= clk c.
Proof.
  destruct (cmos_read_spec CMOS_STATB x) as (sb & c & E & Hc & _ & _ & _ & _ & _ & Hb); [by compute|].
  destruct (loop_spec patience (set_hw c x)) as (t & c' & E' & Ht).
  { pose proof clk_patience. pose proof (unrest_range (clk (hw (set_hw c x)))). lia. }
  exists t, c'. cbn [hw set_hw] in Ht. split; [|lia].
  unfold cmostime. etrans; [eapply bind_eq; exact E|]. etrans; [eapply bind_eq; exact E'|]. cbn zeta beta.
  change (Z.shiftl 1 2) with 4. rewrite (Hb eq_refl). unfold ret. f_equal. unfold date_at.
  pose proof (conv_shown (t / SECOND)) as Hcs.
  pose proof (Hcs SECS ltac:(set_solver)) as H1. pose proof (Hcs MINS ltac:(set_solver)) as H2. pose proof (Hcs HOURS ltac:(set_solver)) as H3.
  pose proof (Hcs DAY ltac:(set_solver)) as H4. pose proof (Hcs MONTH ltac:(set_solver)) as H5. pose proof (Hcs YEAR ltac:(set_solver)) as H6.
  pose proof (civil_digits (t / SECOND) YEAR ltac:(set_solver)) as H7.
  cbn [field SECS MINS HOURS DAY MONTH YEAR Z.eqb Pos.eqb] in *. unfold shown. destruct decimal; cbn [second minute hour day month year id] in *;
    rewrite ?H1, ?H2, ?H3, ?H4, ?H5, ?H6; rewrite (u32_small (_ + 2000)) by lia; f_equal; lia.
Qed.

(** A clock that counts in decimal digits; an access takes a microsecond. *)
Record rtc_sim := mkRtc { rtc_clk : Z; rtc_index : Z }.

#[local] Instance rtc_ports : Ports := {|
  ctl := rtc_sim;
  inb p c := ((if rtc_index c =? CMOS_STATA then if uip (rtc_clk c) then 128 else 0
               else if rtc_index c =? CMOS_STATB then 0
               else bcd (field (rtc_index c) (mkDate (rtc_clk c / SECOND mod 60) (rtc_clk c / SECOND / 60 mod 60) 0 1 1 24))),
              mkRtc (rtc_clk c + 1) (rtc_index c));
  outb p v c := mkRtc (rtc_clk c + 1) v;
  insl _ _ c := ([], c);
  outsl _ _ c := c;
  patience := 180
|}.
#[local] Instance rtc_mmio : Mmio := {| ldl _ c := (0, c); stl _ _ c := c |}.

#[local] Instance rtc_clock : Clock.
Proof.
  refine {| clk := (rtc_clk : ctl -> Z); selected := (rtc_index : ctl -> Z); decimal := true;
            civil := fun n => mkDate (n mod 60) (n / 60 mod 60) 0 1 1 24 |}.
  - intros n r _. pose proof (Z.mod_pos_bound n 60). pose proof (Z.mod_pos_bound (n / 60) 60).
    unfold field. repeat case_match; cbn [second minute hour day month year]; lia.
  - intros r c. cbn. lia.
  - intros c. eexists _, _. split; [done|]. cbn [rtc_clk rtc_index]. split; [lia|]. split_and!.
    + intros Hr _. destruct (Z.eqb_spec (rtc_index c) CMOS_STATA) as [E|_]; [rewrite E in Hr; set_unfold in Hr; naive_solver|].
      destruct (Z.eqb_spec (rtc_index c) CMOS_STATB) as [E|_]; [rewrite E in Hr; set_unfold in Hr; naive_solver|]. done.
    + intros ->. cbn [Z.eqb CMOS_STATA Pos.eqb]. by destruct (uip _).
    + by intros ->.
  - done.
Defined.

(** The call starts 100 microseconds before the second of which 59 have gone ends. *)
Definition rtc_start : machine :=
  mkMachine (mkK [] [] None 1 None ∅ 0 false [] ∅ [] (mkLog 0 0 0 false 0 0 []) (mkSb 0 0 0 0 0 0 0) [] [] ∅ [] 0 null_console 0)
    None (fun _ => None) false 0 0 0 1 [0] [true] false (mkRtc 59999900 0).

Lemma cmostime_consistent_witness :
  (exists t c, cmostime rtc_start = Ret (date_at t) (set_hw c rtc_start) /\ clk (hw rtc_start) <= t <= clk c) /\
  match cmostime rtc_start with Ret d _ => d = mkDate 0 1 0 1 1 2024 | _ => False end.
Proof. split; [apply (cmostime_consistent rtc_start)|by vm_compute]. Defined.

(** ** The I/O APIC *)

Class IoRegs `{Mmio} := {
  io_index : ctl -> Z;
  io_reg : ctl -> Z -> Z;
  io_select : forall v c, io_index (stl IOAPIC v c) = v /\ forall r, io_reg (stl IOAPIC v c) r = io_reg c r;
  io_store : forall v c r, REG_TABLE <= io_index c ->
    io_reg (stl (IOAPIC + 16) v c) r = if r =? io_index c then v else io_reg c r;
  io_load : forall c, exists c', ldl (IOAPIC + 16) c = (io_reg c (io_index c), c') /\ forall r, io_reg c' r = io_reg c r
}.

(** The entry of interrupt [i] after the interrupts [l] were enabled. *)
Definition route (l : list (Z * Z)) (i : Z) : Z * Z :=
  fold_left (fun e p => if p.1 =? i then (T_IRQ0 + i, Z.shiftl p.2 24) else e) l (Z.lor INT_DISABLED (T_IRQ0 + i), 0).

Section ioapic.
Context `{IP : Ports} `{IO : !Mmio} `{!IoRegs}.
Implicit Types (x : machine) (c : ctl).

Definition entry (c : ctl) (i : Z) : Z * Z := (io_reg c (REG_TABLE + 2 * i), io_reg c (REG_TABLE + 2 * i + 1)).

Lemma ioapicwrite_eq r v x :
  ioapic x = IOAPIC -> REG_TABLE <= r < 4294967296 -> 0 <= v < 4294967296 ->
  exists c, ioapicwrite r v x = Ret tt (set_hw c x) /\ forall r', io_reg c r' = if r' =? r then v else io_reg (hw x) r'.
Proof using Type.
  intros Ha Hr Hv. eexists. split.
  { unfold ioapicwrite, bind, get, store_reg, modify. rewrite Ha, (u32_small r), (u32_small v) by (unfold REG_TABLE in *; lia). done. }
  intros r'. cbn [hw set_hw]. destruct (io_select r (hw x)) as [Hi Hs]. rewrite io_store by (rewrite Hi; lia). rewrite Hi, Hs. done.
Qed.

Lemma entry_write i a b x :
  ioapic x = IOAPIC -> 0 <= i < 256 -> 0 <= a < 4294967296 -> 0 <= b < 4294967296 ->
  exists c, (ioapicwrite (REG_TABLE + 2 * i) a ;;; ioapicwrite (REG_TABLE + 2 * i + 1) b) x = Ret tt (set_hw c x) /\
    forall j, entry c j = if i =? j then (a, b) else entry (hw x) j.
Proof using Type.
  intros Ha Hi Hva Hvb. destruct (ioapicwrite_eq (REG_TABLE + 2 * i) a x) as (c1 & E1 & R1); [done|unfold REG_TABLE; lia|done|].
  destruct (ioapicwrite_eq (REG_TABLE + 2 * i + 1) b (set_hw c1 x)) as (c2 & E2 & R2); [done|unfold REG_TABLE; lia|done|].
  exists c2. split. { etrans; [eapply bind_eq; exact E1|]. exact E2. }
  intros j. unfold entry. rewrite !R2. cbn [hw set_hw]. rewrite !R1. unfold REG_TABLE.
  destruct (Z.eqb_spec i j) as [->|Hn]; repeat (case_match; rewrite ?Z.eqb_eq, ?Z.eqb_neq in *); try lia; done.
Qed.

Lemma lor_disabled i : 0 <= i < 256 -> 0 <= Z.lor INT_DISABLED (T_IRQ0 + i) < 4294967296.
Proof using Type.
  intros Hi. assert (0 <= Z.lor INT_DISABLED (T_IRQ0 + i)) by (apply Z.lor_nonneg; unfold INT_DISABLED, T_IRQ0; lia).
  split; [done|]. apply (Z.log2_lt_cancel _ (2 ^ 32)). rewrite Z.log2_lor by (unfold INT_DISABLED, T_IRQ0; lia).
  rewrite Z.log2_pow2 by lia. apply Z.max_lub_lt; [done|]. apply (Z.le_lt_trans _ (Z.log2 1024)); [|done].
  apply Z.log2_le_mono. unfold T_IRQ0. lia.
Qed.

Lemma mask_all n x :
  ioapic x = IOAPIC -> (n <= 256)%nat ->
  wp (for_each (seq 0 n) (fun i =>
        ioapicwrite (REG_TABLE + 2 * Z.of_nat i) (Z.lor INT_DISABLED (T_IRQ0 + Z.of_nat i)) ;;;
        ioapicwrite (REG_TABLE + 2 * Z.of_nat i + 1) 0))
     (fun _ x' => exists c, x' = set_hw c x /\ forall i, 0 <= i < Z.of_nat n -> entry c i = route [] i) x.
Proof using Type.
  intros Ha Hn.
  apply (wp_for_seq (fun k x' => exists c, x' = set_hw c x /\ forall i, 0 <= i < Z.of_nat k -> entry c i = route [] i)); [| |done].
  - exists (hw x). split; [by destruct x|]. lia.
  - intros i x' Hi (c & -> & Hc). pose proof (lor_disabled (Z.of_nat i)).
    destruct (entry_write (Z.of_nat i) (Z.lor INT_DISABLED (T_IRQ0 + Z.of_nat i)) 0 (set_hw c x)) as (c' & E & He); [done|lia..|].
    eapply wp_intro; [exact E|]. exists c'. split; [done|]. intros j Hj. rewrite He. cbn [hw set_hw].
    destruct (Z.eqb_spec (Z.of_nat i) j) as [<-|Hne]; [done|]. apply Hc. lia.
Qed.

Definition valid_route (m : Z) (p : Z * Z) : Prop := 0 <= p.1 <= m /\ 0 <= p.2 < 256.

Lemma enable_all m l pre x :
  ioapic x = IOAPIC -> m < 256 -> Forall (valid_route m) l ->
  (forall i, 0 <= i <= m -> entry (hw x) i = route pre i) ->
  wp (for_each l (fun p => ioapicenable p.1 p.2))
     (fun _ x' => exists c, x' = set_hw c x /\ forall i, 0 <= i <= m -> entry c i = route (pre ++ l) i) x.
Proof using Type.
  intros Ha Hm Hl. revert pre x Ha. induction Hl as [|[irq cpu] l [Hirq Hcpu] Hl IH]; intros pre x Ha Hx; cbn [for_each].
  { apply wp_ret. exists (hw x). rewrite app_nil_r. split; [by destruct x|done]. }
  cbn [fst snd] in *. assert (0 <= Z.shiftl cpu 24 < 4294967296) by (rewrite Z.shiftl_mul_pow2; lia).
  destruct (entry_write irq (T_IRQ0 + irq) (Z.shiftl cpu 24) x) as (c & E & He); [done|unfold T_IRQ0; lia..|].
  eapply wp_step; [exact E|]. eapply wp_mono; [apply (IH (pre ++ [(irq, cpu)]) (set_hw c x)); [done|]|].
  - intros i Hi. cbn [hw set_hw]. rewrite He. unfold route. rewrite fold_left_app. cbn [fold_left fst snd].
    destruct (Z.eqb_spec irq i) as [->|]; [done|]. by apply Hx.
  - intros [] x' (c' & -> & Hc). exists c'. split; [done|]. intros i Hi. rewrite Hc by done. by rewrite <- app_assoc.
Qed.

(** Once the I/O APIC is initialised and the interrupts [l] are enabled, each interrupt of
    the controller has its vector and the processor it was last enabled for, and the others
    are masked. *)
Theorem ioapic_routes m l x :
  Z.land (Z.shiftr (io_reg (hw x) REG_VER) 16) 255 = m -> Z.shiftr (io_reg (hw x) REG_ID) 24 = ioapicid x ->
  Forall (valid_route m) l ->
  wp (ioapicinit ;;; for_each l (fun p => ioapicenable p.1 p.2))
     (fun _ x' => exists c, x' = set_hw c (set_ioapic IOAPIC x) /\ forall i, 0 <= i <= m -> entry c i = route l i) x.
Proof using Type.
  intros Hm Hid Hl. assert (0 <= m < 256) as Hmr.
  { rewrite <- Hm. change 255 with (Z.ones 8). rewrite Z.land_ones by lia. apply Z.mod_pos_bound. lia. }
  set (x1 := set_ioapic IOAPIC x).
  assert (forall r y, ioapic y = IOAPIC -> 0 <= r < 4294967296 ->
    exists c, ioapicread r y = Ret (io_reg (hw y) r) (set_hw c y) /\ forall r', io_reg c r' = io_reg (hw y) r') as Hread.
  { intros r y Hy Hr. destruct (io_select r (hw y)) as [Hi Hs]. destruct (io_load (stl IOAPIC r (hw y))) as (c & E & Hc). exists c. split.
    - unfold ioapicread, bind, get, store_reg, modify, load_reg. rewrite Hy, (u32_small r) by done. cbn [hw set_hw]. by rewrite E, Hi, Hs.
    - intros r'. by rewrite Hc, Hs. }
  destruct (Hread REG_VER x1) as (c1 & E1 & R1); [done|done|]. destruct (Hread REG_ID (set_hw c1 x1)) as (c2 & E2 & R2); [done|done|].
  apply wp_bind. unfold ioapicinit. apply wp_bind, wp_modify. fold x1. eapply wp_step; [exact E1|]. cbn zeta.
  eapply wp_step; [exact E2|]. cbn [hw set_hw]. rewrite R1. change (hw x1) with (hw x). rewrite Hm, Hid.
  eapply wp_step; [reflexivity|]. change (ioapicid _) with (ioapicid x). rewrite Z.eqb_refl. cbn [negb].
  eapply wp_step; [reflexivity|]. eapply wp_mono; [apply mask_all; [done|lia]|].
  intros [] x' (c & -> & Hc). eapply wp_mono; [apply (enable_all m l []); [done|lia|done|]|].
  - intros i Hi. apply Hc. lia.
  - intros [] x' (c' & -> & Hc'). by exists c'.
Qed.
End ioapic.
