(* ===== verification/Ide.v ===== *)
(** * Ide: the IDE disk driver (ide.c)

    The queue of requests is [idequeue] and the [qnext] field of each buffer.  The
    controller is behind the ports.  [iderw] goes to sleep: [ide_rw] is the routine up to
    the switch, [ide_rw_return] what follows it. *)

From stdpp Require Import functions base gmap list strings.
From Stdlib Require Import ZArith Lia.
From S2P Require Import Prelude State Core Bio Trap Ports Apic.

Local Open Scope Z_scope.
Local Open Scope kernel_scope.

Definition SECTOR_SIZE : Z := 512.
Definition IDE_BSY : Z := 128.
Definition IDE_DRDY : Z := 64.
Definition IDE_DF : Z := 32.
Definition IDE_ERR : Z := 1.
Definition IDE_CMD_READ : Z := 32.
Definition IDE_CMD_WRITE : Z := 48.
Definition IDE_CMD_RDMUL : Z := 196.
Definition IDE_CMD_WRMUL : Z := 197.

Section ide.
Context `{Ports}.

(** [while(((r = inb(0x1f7)) & (IDE_BSY|IDE_DRDY)) != IDE_DRDY)] *)
Fixpoint idewait_loop (n : nat) : HM Z :=
  match n with
  | O => panic "out of fuel"
  | S n' =>
      r <- in_byte 503 ;;
      if Z.land r (Z.lor IDE_BSY IDE_DRDY) =? IDE_DRDY then ret r else idewait_loop n'
  end.

Definition idewait (checkerr : bool) : HM Z :=
  r <- idewait_loop patience ;;
  if checkerr && negb (Z.land r (Z.lor IDE_DF IDE_ERR) =? 0) then ret (-1) else ret 0.

(** [for(i=0; i<1000; i++)] of [ideinit] *)
Fixpoint probe (n : nat) : HM unit :=
  match n with
  | O => ret tt
  | S n' =>
      r <- in_byte 503 ;;
      if negb (r =? 0) then modify set_havedisk1 else probe n'
  end.

Definition ideinit `{!Mmio} : HM unit :=
  n <- get ncpu ;;
  ioapicenable IRQ_IDE (n - 1) ;;;
  _ <- idewait false ;;
  out_byte 502 (Z.lor 224 (Z.shiftl 1 4)) ;;;
  probe 1000 ;;;
  out_byte 502 (Z.lor 224 (Z.shiftl 0 4)).

Definition idestart (b : option nat) : HM unit :=
  match b with
  | None => panic "idestart"
  | Some i =>
      b <- get (fun x => buf_at (ks x) i) ;;
      if FSSIZE <=? b_blockno b then panic "incorrect blockno" else
      let sector_per_block := BSIZE / SECTOR_SIZE in
      let sector := i32 (b_blockno b * sector_per_block) in
      let read_cmd := if sector_per_block =? 1 then IDE_CMD_READ else IDE_CMD_RDMUL in
      let write_cmd := if sector_per_block =? 1 then IDE_CMD_WRITE else IDE_CMD_WRMUL in
      if 7 <? sector_per_block then panic "idestart" else
      _ <- idewait false ;;
      out_byte 1014 0 ;;;
      out_byte 498 sector_per_block ;;;
      out_byte 499 (Z.land sector 255) ;;;
      out_byte 500 (Z.land (Z.shiftr sector 8) 255) ;;;
      out_byte 501 (Z.land (Z.shiftr sector 16) 255) ;;;
      out_byte 502 (Z.lor (Z.lor 224 (Z.shiftl (Z.land (b_dev b) 1) 4)) (Z.land (Z.shiftr sector 24) 15)) ;;;
      if negb (Z.land (b_flags b) B_DIRTY =? 0) then
        out_byte 503 write_cmd ;;;
        modify (fun x => set_hw (outsl 496 (take (Z.to_nat BSIZE) (b_data b)) (hw x)) x)
      else out_byte 503 read_cmd
  end.

Definition ideintr : HM unit :=
  kernel (acquire L_ide) ;;;
  q <- get idequeue ;;
  match q with
  | None => kernel (release L_ide)
  | Some i =>
      modify (fun x => set_idequeue (qnext x i) x) ;;;
      b <- get (fun x => buf_at (ks x) i) ;;
      (if Z.land (b_flags b) B_DIRTY =? 0 then
         r <- idewait true ;;
         if 0 <=? r then
           fun x => let '(d, c) := insl 496 (Z.to_nat (BSIZE / 4)) (hw x) in
                    kernel (upd_buf i (set_b_data d)) (set_hw c x)
         else ret tt
       else ret tt) ;;;
      kernel (upd_buf i (fun b => set_b_flags (Z.lor (b_flags b) B_VALID) b)) ;;;
      kernel (upd_buf i (fun b => set_b_flags (Z.land (b_flags b) (Z.lnot B_DIRTY)) b)) ;;;
      kernel (wakeup (Ch_buf i)) ;;;
      q <- get idequeue ;;
      (match q with None => ret tt | Some j => idestart (Some j) end) ;;;
      kernel (release L_ide)
  end.

(** The walk of [pp] to the end of the queue from its buffer [i], and [b] stored there. *)
Fixpoint append_after (fuel : nat) (i b : nat) : HM unit :=
  match fuel with
  | O => panic "out of fuel"
  | S fuel' =>
      n <- get (fun x => qnext x i) ;;
      match n with
      | None => modify (set_qnext i (Some b))
      | Some j => append_after fuel' j b
      end
  end.

(** [while((b->flags & (B_VALID|B_DIRTY)) != B_VALID) sleep(b, &idelock);] and the end of [iderw] *)
Definition ide_wait (i : nat) : HM unit :=
  b <- get (fun x => buf_at (ks x) i) ;;
  if negb (Z.land (b_flags b) (Z.lor B_VALID B_DIRTY) =? B_VALID) then kernel (sleep (Ch_buf i) (Some L_ide))
  else kernel (release L_ide).

Definition ide_rw (i : nat) : HM unit :=
  h <- kernel (holdingsleep (SL_buf i)) ;;
  if negb h then panic "iderw: buf not locked" else
  b <- get (fun x => buf_at (ks x) i) ;;
  if Z.land (b_flags b) (Z.lor B_VALID B_DIRTY) =? B_VALID then panic "iderw: nothing to do" else
  d1 <- get havedisk1 ;;
  if negb (b_dev b =? 0) && negb d1 then panic "iderw: ide disk 1 not present" else
  kernel (acquire L_ide) ;;;
  modify (set_qnext i None) ;;;
  q <- get idequeue ;;
  (match q with
   | None => modify (set_idequeue (Some i))
   | Some j => append_after (S NBUF) j i
   end) ;;;
  q <- get idequeue ;;
  (if bool_decide (q = Some i) then idestart (Some i) else ret tt) ;;;
  ide_wait i.

Definition ide_rw_return (i : nat) : HM unit :=
  kernel (sleep_return L_ide) ;;;
  ide_wait i.
End ide.
