(* ===== verification/IdeSpec.v ===== *)
(** * IdeSpec: the queue of ide.c

    [IdeDisk] states what the ATA task file does: the registers keep what is written to
    them, a command starts the transfer of the sector they name, an interrupt ends it.
    In every interleaving of calls of [iderw], returns from sleep and interrupts, the
    requests are served in the order in which they came, the controller always works on
    the first of them, and each transfers its own block. *)

From stdpp Require Import functions base gmap list strings relations.
From Stdlib Require Import ZArith Lia.
From S2P Require Import Prelude State Core Bio Ports Ide.

Local Open Scope Z_scope.
Local Open Scope kernel_scope.

(** ** The controller *)

(** A read of a sector of a drive, or a write of 512 bytes to it. *)
Inductive request := Read (drive sector : Z) | Write (drive sector : Z) (data : list Z).

(** The sectors of the drives. *)
#[local] Notation contents := (Z -> Z -> list Z).

(** The drive and the sector that the registers name, in LBA mode. *)
Definition reg_drive (R : Z -> Z) : Z := Z.land (Z.shiftr (R 502) 4) 1.
Definition reg_lba (R : Z -> Z) : Z := R 499 + 256 * R 500 + 65536 * R 501 + 16777216 * Z.land (R 502) 15.
Definition reg_ok (R : Z -> Z) : Prop := R 498 = 1 /\ Z.land (R 502) 224 = 224.

Definition put_sector (V : contents) (d n : Z) (data : list Z) : contents := <[d := <[n := data]> (V d)]> V.

(** Polling the status register until BSY is clear and DRDY is set. *)
Fixpoint poll `{Ports} (n : nat) (c : ctl) : option (Z * ctl) :=
  match n with
  | O => None
  | S n' => let '(r, c') := inb 503 c in if Z.land r (Z.lor IDE_BSY IDE_DRDY) =? IDE_DRDY then Some (r, c') else poll n' c'
  end.

Class IdeDisk `{Ports} := {
  (** no command is in progress; a command to transfer is; a write waits for its data; a read has its data ready *)
  at_rest : contents -> (Z -> Z) -> ctl -> Prop;
  busy : request -> contents -> ctl -> Prop;
  wants : Z -> Z -> contents -> ctl -> Prop;
  loaded : bool -> Z -> Z -> contents -> ctl -> Prop;
  (** the controller raises its interrupt *)
  irq : ctl -> ctl -> Prop;
  rest_poll V R c : at_rest V R c -> exists r c', poll patience c = Some (r, c') /\ at_rest V R c';
  rest_outb V R c port v : at_rest V R c -> port ∈ [1014; 498; 499; 500; 501; 502] -> 0 <= v < 256 -> at_rest V (<[port := v]> R) (outb port v c);
  rest_quiet V R c c' : at_rest V R c -> ~ irq c c';
  read_command V R c : at_rest V R c -> reg_ok R -> busy (Read (reg_drive R) (reg_lba R)) V (outb 503 IDE_CMD_READ c);
  write_command V R c : at_rest V R c -> reg_ok R -> wants (reg_drive R) (reg_lba R) V (outb 503 IDE_CMD_WRITE c);
  write_data V d n c data : wants d n V c -> length data = 512%nat -> busy (Write d n data) V (outsl 496 data c);
  irq_read V d n c c' : busy (Read d n) V c -> irq c c' -> exists ok, loaded ok d n V c';
  irq_write V d n data c c' : busy (Write d n data) V c -> irq c c' -> exists R, at_rest (put_sector V d n data) R c';
  loaded_good V d n c : loaded true d n V c -> exists r c', poll patience c = Some (r, c') /\ Z.land r (Z.lor IDE_DF IDE_ERR) = 0 /\
    exists c'', insl 496 128 c' = (V d n, c'') /\ exists R, at_rest V R c'';
  loaded_error V d n c : loaded false d n V c -> exists r c', poll patience c = Some (r, c') /\ Z.land r (Z.lor IDE_DF IDE_ERR) <> 0 /\ exists R, at_rest V R c'
}.

Section queue.
Context `{IP : Ports} `{!IdeDisk}.
Implicit Types (V : contents) (x : machine) (q : list nat).

(** ** Starting a transfer *)

(** A buffer that [iderw] has something to do for. *)
Definition waiting (b : buf) : Prop :=
  (b_flags b = 0 \/ b_flags b = 4 \/ b_flags b = 6) /\ 0 <= b_blockno b < FSSIZE /\ length (b_data b) = 512%nat.

Definition drive_of (b : buf) : Z := Z.land (b_dev b) 1.
Definition req_of (b : buf) : request :=
  if is_dirty b then Write (drive_of b) (b_blockno b) (b_data b) else Read (drive_of b) (b_blockno b).

Lemma idewait_loop_eq n : forall x, idewait_loop n x = match poll n (hw x) with Some (r, c) => Ret r (set_hw c x) | None => Panic "out of fuel" end.
Proof.
  induction n as [|n IH]; intros x; [done|]. cbn [idewait_loop poll]. unfold bind, in_byte. destruct (inb 503 (hw x)) as [r c].
  destruct (_ =? _); [done|]. by rewrite IH.
Qed.

Lemma idewait_rest V R x : at_rest V R (hw x) -> exists c, idewait false x = Ret 0 (set_hw c x) /\ at_rest V R c.
Proof.
  intros Hr. destruct (rest_poll V R _ Hr) as (r & c & Hp & Hr'). exists c. split; [|done]. unfold idewait, bind. by rewrite idewait_loop_eq, Hp.
Qed.

Lemma start_lba bn : 0 <= bn < FSSIZE ->
  u8 (Z.land bn 255) + 256 * u8 (Z.land (Z.shiftr bn 8) 255) + 65536 * u8 (Z.land (Z.shiftr bn 16) 255) = bn /\ Z.land (Z.shiftr bn 24) 15 = 0.
Proof.
  change FSSIZE with 1000. intros Hb. unfold u8. change 255 with (Z.ones 8). rewrite !Z.land_ones, !Z.shiftr_div_pow2 by lia.
  rewrite (Z.div_small bn (2 ^ 24)), (Z.div_small bn (2 ^ 16)) by lia. split; [|done]. change (2 ^ 8) with 256. rewrite !Z.mod_mod by lia.
  rewrite (Z.mod_small (bn / 256)) by (split; [apply Z.div_pos|apply Z.div_lt_upper_bound]; lia). change (0 mod 256) with 0. pose proof (Z.div_mod bn 256). lia.
Qed.

Lemma start_drive dev : let v := u8 (Z.lor (Z.lor 224 (Z.shiftl (Z.land dev 1) 4)) 0) in
  Z.land (Z.shiftr v 4) 1 = Z.land dev 1 /\ Z.land v 15 = 0 /\ Z.land v 224 = 224 /\ 0 <= v < 256.
Proof.
  intros v. assert (Z.land dev 1 = 0 \/ Z.land dev 1 = 1) as Hd.
  { pose proof (Z.land_ones dev 1 ltac:(lia)) as E. change (Z.ones 1) with 1 in E. rewrite E. pose proof (Z.mod_pos_bound dev (2 ^ 1) ltac:(lia)). lia. }
  unfold v. by destruct Hd as [-> | ->].
Qed.

Lemma u8_range z : 0 <= u8 z < 256.
Proof. unfold u8. by apply Z.mod_pos_bound. Qed.

(** The registers as [idestart] stores them. *)
Definition start_regs (R : Z -> Z) (b : buf) : Z -> Z :=
  <[502 := u8 (Z.lor (Z.lor 224 (Z.shiftl (Z.land (b_dev b) 1) 4)) (Z.land (Z.shiftr (b_blockno b) 24) 15))]> (<[501 := u8 (Z.land (Z.shiftr (b_blockno b) 16) 255)]>
    (<[500 := u8 (Z.land (Z.shiftr (b_blockno b) 8) 255)]> (<[499 := u8 (Z.land (b_blockno b) 255)]> (<[498 := u8 1]> (<[1014 := u8 0]> R))))).

Lemma start_regs_ok R b : 0 <= b_blockno b < FSSIZE ->
  reg_ok (start_regs R b) /\ reg_drive (start_regs R b) = drive_of b /\ reg_lba (start_regs R b) = b_blockno b.
Proof.
  intros Hb. destruct (start_lba _ Hb) as [Hl H0]. destruct (start_drive (b_dev b)) as (Hd & Hd4 & Hd5 & _). unfold reg_ok, reg_drive, reg_lba, drive_of, start_regs.
  rewrite H0. repeat (first [rewrite fn_lookup_insert|rewrite fn_lookup_insert_ne by done]).
  split; [by split|]. split; [done|]. rewrite Hd4. lia.
Qed.

Lemma start_spec V R x i b : at_rest V R (hw x) -> bufs (ks x) !! i = Some b -> waiting b ->
  exists c, idestart (Some i) x = Ret tt (set_hw c x) /\ busy (req_of b) V c.
Proof.
  intros Hr Hb (Hf & Hbn & Hlen). destruct (idewait_rest V R x Hr) as (c0 & Hw & Hr0). destruct (start_regs_ok R b Hbn) as (Hok & Hdr & Hlba).
  assert (buf_at (ks x) i = b) as Hba by (unfold buf_at; by rewrite Hb). assert (i32 (b_blockno b * 1) = b_blockno b) as Hs.
  { rewrite Z.mul_1_r. apply i32_small. change FSSIZE with 1000 in Hbn. lia. }
  unfold idestart. unfold bind at 1, get. rewrite Hba, (proj2 (Z.leb_gt _ _)) by lia. change (BSIZE / SECTOR_SIZE) with 1. cbn zeta. cbn [Z.eqb Z.ltb Z.compare Pos.eqb Pos.compare Pos.compare_cont].
  rewrite Hs. unfold bind at 1. rewrite Hw.
  assert (forall k, at_rest V (start_regs R b) k -> busy (Read (drive_of b) (b_blockno b)) V (outb 503 IDE_CMD_READ k) /\
    busy (Write (drive_of b) (b_blockno b) (b_data b)) V (outsl 496 (b_data b) (outb 503 IDE_CMD_WRITE k))) as Hcmd.
  { intros k Hk. rewrite <- Hdr, <- Hlba. split; [by apply read_command|]. apply write_data; [by apply write_command|done]. }
  eassert (at_rest V (start_regs R b) _) as Hrest.
  { unfold start_regs. repeat (apply rest_outb; [|repeat constructor|apply u8_range]). exact Hr0. }
  destruct (Hcmd _ Hrest) as [H1 H2]. unfold req_of, is_dirty. destruct (negb _).
  - eexists. split; [reflexivity|]. rewrite take_ge by (rewrite Hlen; by vm_compute). exact H2.
  - eexists. split; [reflexivity|]. exact H1.
Qed.

(** ** The queue *)

(** From [o] the pointers lead through [q] to the end. *)
Fixpoint chain (o : option nat) (n : nat -> option nat) q : Prop :=
  match q with
  | [] => o = None
  | i :: q' => o = Some i /\ chain (n i) n q'
  end.

Lemma queue_frame n k v q o : k ∉ q -> chain o n q -> chain o (<[k := v]> n) q.
Proof.
  revert o. induction q as [|i q IH]; intros o; [done|]. intros [Hk Hq]%not_elem_of_cons [-> Hc]. split; [done|].
  rewrite fn_lookup_insert_ne by done. by apply IH.
Qed.

Lemma append_after_spec i fuel : forall q x j, chain (Some j) (qnext x) q -> NoDup q -> (length q <= fuel)%nat -> i ∉ q -> qnext x i = None ->
  exists k, append_after fuel j i x = Ret tt (set_qnext k (Some i) x) /\ k ∈ q /\ chain (Some j) (<[k := Some i]> (qnext x)) (q ++ [i]).
Proof.
  induction fuel as [|fuel IH]; intros [|j' q] x j Hc Hnd Hlen Hi Hn; try done; [cbn in Hlen; lia|]. destruct Hc as [[= <-] Hc].
  apply NoDup_cons in Hnd as [Hj Hnd]. apply not_elem_of_cons in Hi as [Hij Hi]. cbn [append_after]. unfold bind, get. destruct (qnext x j) as [j2|] eqn:E.
  - destruct (IH q x j2 Hc Hnd ltac:(cbn in Hlen; lia) Hi Hn) as (k & Ha & Hk & Hc'). exists k. split; [done|]. split; [by right|]. cbn. split; [done|].
    rewrite fn_lookup_insert_ne by (intros ->; done). by rewrite E.
  - destruct q as [|? ?]; [|by destruct Hc]. exists j. split; [done|]. split; [by left|]. cbn. rewrite fn_lookup_insert. split; [done|]. split; [done|].
    by rewrite fn_lookup_insert_ne.
Qed.

(** Between the routines: [q] are the buffers in the queue and the disk holds [V]. *)
Record ide_inv V q x : Prop := {
  iq_chain : chain (idequeue x) (qnext x) q;
  iq_nodup : NoDup q;
  iq_bufs i : i ∈ q -> (i < NBUF)%nat /\ exists b, bufs (ks x) !! i = Some b /\ waiting b;
  iq_hw : match q with [] => exists R, at_rest V R (hw x) | i :: _ => busy (req_of (buf_at (ks x) i)) V (hw x) end
}.

Lemma iq_length V q x : ide_inv V q x -> (length q <= NBUF)%nat.
Proof.
  intros [_ Hnd Hb _]. assert (q ⊆+ seq 0 NBUF) as Hs by (apply NoDup_submseteq; [done|]; intros i Hi; apply elem_of_seq; destruct (Hb i Hi); lia).
  apply submseteq_length in Hs. by rewrite length_seq in Hs.
Qed.

(** The invariant is about the queue, the controller and the buffers in the queue. *)
Lemma inv_kernel V q x s' : ide_inv V q x -> (forall i, i ∈ q -> bufs s' !! i = bufs (ks x) !! i) -> ide_inv V q (set_ks s' x).
Proof.
  intros [Hc Hn Hb Hh] Hs. split; [done|done| |].
  - intros i Hi. cbn. rewrite Hs by done. by apply Hb.
  - destruct q as [|i q]; [done|]. cbn. unfold buf_at in *. by rewrite Hs by (by left).
Qed.

(** ** iderw *)

Definition owned (s : kstate) (i : nat) (b : buf) : Prop :=
  held s = [] /\ bufs s !! i = Some b /\ exists p, cur s = Some p /\ b_lock b = mkSleeplock true (p_pid (proc_at s p)).

Lemma flags_wait b : waiting b -> Z.land (b_flags b) (Z.lor B_VALID B_DIRTY) =? B_VALID = false.
Proof. by intros ([-> |[-> | ->]] & _). Qed.

(** A call of [iderw] puts the buffer at the end of the queue, starts the disk if it was idle, and sleeps. *)
Lemma call_spec V q x i b : ide_inv V q x -> owned (ks x) i b -> waiting b -> (b_dev b = 0 \/ havedisk1 x = true) -> i ∉ q -> (i < NBUF)%nat ->
  exists x', ide_rw i x = Slept (Some (Ch_buf i)) x' /\ ide_inv V (q ++ [i]) x' /\ bufs (ks x') = bufs (ks x) /\ havedisk1 x' = havedisk1 x.
Proof.
  intros Hinv (Hh & Hb & p & Hp & Hl) Hw Hdev Hi Hlt. pose proof (iq_length _ _ _ Hinv) as Hlen. pose proof Hinv as [Hc Hnd Hbs Hhw].
  assert (buf_at (ks x) i = b) as Hba by (unfold buf_at; by rewrite Hb).
  unfold ide_rw. unfold bind at 1, kernel. rewrite (holdingsleep_eq _ _ p); [|rewrite Hh; set_solver|done]. unfold sleeplock_at. rewrite Hba, Hl. cbn [sl_locked sl_pid andb].
  rewrite bool_decide_true by done. cbn [negb]. unfold bind at 1, get. replace (set_ks (ks x) x) with x by (by destruct x). rewrite Hba, flags_wait by done. unfold bind at 1.
  replace (negb (b_dev b =? 0) && negb (havedisk1 x)) with false by (destruct Hdev as [-> | ->]; by rewrite ?andb_false_r).
  unfold bind at 1. rewrite acquire_eq by (rewrite Hh; set_solver). rewrite Hh. unfold bind at 1, modify. unfold bind at 1.
  set (x1 := set_qnext i None (set_ks (set_held [L_ide] (ks x)) x)).
  assert (forall x2, bufs (ks x2) = bufs (ks x) -> held (ks x2) = [L_ide] -> cur (ks x2) = Some p -> havedisk1 x2 = havedisk1 x -> ide_inv V (q ++ [i]) x2 ->
    exists x', ide_wait i x2 = Slept (Some (Ch_buf i)) x' /\ ide_inv V (q ++ [i]) x' /\ bufs (ks x') = bufs (ks x) /\ havedisk1 x' = havedisk1 x) as Hwait.
  { intros x2 E1 E2 E3 E4 Hinv2. unfold ide_wait, bind, get. assert (buf_at (ks x2) i = b) as -> by (unfold buf_at; by rewrite E1, Hb). rewrite flags_wait by done. cbn [negb].
    unfold kernel. rewrite (sleep_eq _ _ _ p) by done. eexists. split; [done|]. split; [by apply inv_kernel|done]. }
  assert (forall j, j ∈ q ++ [i] -> (j < NBUF)%nat /\ exists b, bufs (ks x) !! j = Some b /\ waiting b) as Hbs'.
  { intros j [Hj| ->%list_elem_of_singleton]%elem_of_app; [by apply Hbs|]. split; [done|by exists b]. }
  assert (NoDup (q ++ [i])) as Hnd' by (apply NoDup_app; split; [done|]; split; [intros j Hj ->%list_elem_of_singleton; done|apply NoDup_singleton]).
  change (idequeue x1) with (idequeue x). destruct q as [|j q].
  - destruct Hhw as [R Hr]. cbn [chain] in Hc. rewrite Hc. cbn iota.
    destruct (start_spec V R (set_idequeue (Some i) x1) i b Hr Hb Hw) as (c & Hst & Hbusy).
    do 2 unfold bind at 1. cbn [set_idequeue idequeue]. rewrite bool_decide_true by done. unfold bind at 1. rewrite Hst. apply Hwait; try done.
    split; [|done|done|]; cbn.
    + by rewrite fn_lookup_insert.
    + change (buf_at (set_held [L_ide] (ks x)) i) with (buf_at (ks x) i). by rewrite Hba.
  - pose proof Hc as [Hj _]. rewrite Hj. cbn iota. rewrite Hj in Hc.
    destruct (append_after_spec i (S NBUF) (j :: q) x1 j) as (k & Ha & Hk & Hc'); [by apply queue_frame|done|lia|done|by cbn; rewrite fn_lookup_insert|].
    unfold bind at 1. rewrite Ha. unfold bind at 1. change (idequeue (set_qnext k (Some i) x1)) with (idequeue x). rewrite Hj, bool_decide_false.
    2: { intros [= ->]. apply Hi. by left. }
    unfold bind at 1, ret. apply Hwait; try done. split; [|done|done|done]. change (idequeue (set_qnext k (Some i) x1)) with (idequeue x). by rewrite Hj.
Qed.

(** A return from sleep looks at the flags again. *)
Lemma return_spec V q x i : ide_inv V q x -> held (ks x) = [L_ptable] -> is_Some (cur (ks x)) ->
  exists x', (ide_rw_return i x = Ret tt x' /\ Z.land (b_flags (buf_at (ks x) i)) (Z.lor B_VALID B_DIRTY) = B_VALID \/
      ide_rw_return i x = Slept (Some (Ch_buf i)) x' /\ Z.land (b_flags (buf_at (ks x) i)) (Z.lor B_VALID B_DIRTY) <> B_VALID) /\
    ide_inv V q x' /\ bufs (ks x') = bufs (ks x).
Proof.
  intros Hinv Hh [p Hp]. set (x1 := set_ks (set_held [L_ide] (set_procs (alter (set_p_chan None) p (procs (ks x))) (ks x))) x).
  assert (ide_rw_return i x = ide_wait i x1) as ->.
  { unfold ide_rw_return. unfold bind at 1, kernel. unfold sleep_return, curproc, myproc, bind at 1, bind at 1, get. rewrite Hp. unfold ret, bind at 1, upd_proc, modify.
    rewrite decide_False by done. unfold bind at 1. rewrite (release_top _ []); [|done|set_solver]. by rewrite acquire_eq by (cbn; set_solver). }
  unfold ide_wait, bind, get. change (buf_at (ks x1) i) with (buf_at (ks x) i). assert (ide_inv V q x1) as Hinv1 by (by apply inv_kernel).
  destruct (Z.eqb_spec (Z.land (b_flags (buf_at (ks x) i)) (Z.lor B_VALID B_DIRTY)) B_VALID) as [E|E]; cbn [negb]; unfold kernel.
  - rewrite (release_top _ []); [|done|set_solver]. eexists. split; [by left|]. split; [by apply inv_kernel|done].
  - rewrite (sleep_eq _ _ _ p) by done. eexists. split; [by right|]. split; [by apply inv_kernel|done].
Qed.

(** ** ideintr *)

Definition apply_req (V : contents) (r : request) : contents := match r with Read _ _ => V | Write d n data => put_sector V d n data end.

(** The status that the controller reports has no error bit. *)
Definition no_error (c : ctl) : bool :=
  match poll patience c with Some (r, _) => Z.land r (Z.lor IDE_DF IDE_ERR) =? 0 | None => false end.

Lemma loaded_status V ok d n c : loaded ok d n V c -> no_error c = ok.
Proof.
  unfold no_error. destruct ok; intros Hl.
  - destruct (loaded_good V d n c Hl) as (r & c' & -> & -> & _). done.
  - destruct (loaded_error V d n c Hl) as (r & c' & -> & Hr & _). by apply Z.eqb_neq.
Qed.

(** What the end of a transfer does to its buffer; [ok] is false for a read that the disk reports as failed. *)
Definition served V (ok : bool) (b b' : buf) : Prop :=
  b' = set_b_flags B_VALID (if is_dirty b || negb ok then b else set_b_data (V (drive_of b) (b_blockno b)) b).

(** A transfer that does not fail is the one that bio.c asks of a driver. *)
Lemma served_synced V b b' d : disk_get d (b_dev b) (b_blockno b) = V (drive_of b) (b_blockno b) -> served V true b b' -> b' = synced d b.
Proof. unfold served, synced. intros -> ->. by destruct (is_dirty b). Qed.

(** The first part of [ideintr]: the data of a read, when there is no error. *)
Definition fetch (i : nat) : M (option chan) machine unit :=
  r <- idewait true ;;
  if 0 <=? r then
    fun x => let '(d, c) := insl 496 (Z.to_nat (BSIZE / 4)) (hw x) in
             kernel (upd_buf i (set_b_data d)) (set_hw c x)
  else ret tt.

Lemma fetch_spec V x i d n ok : loaded ok d n V (hw x) ->
  exists c, fetch i x = Ret tt (set_hw c (set_ks (if ok then set_bufs (alter (set_b_data (V d n)) i (bufs (ks x))) (ks x) else ks x) x)) /\ exists R, at_rest V R c.
Proof.
  unfold fetch, idewait, bind, ret. destruct ok; intros Hl.
  - destruct (loaded_good V d n _ Hl) as (r & c & Hp & Hr & c2 & Hin & HR). exists c2. split; [|done]. rewrite idewait_loop_eq, Hp, Hr. cbn [Z.eqb negb andb].
    change (0 <=? 0) with true. cbn iota. change (Z.to_nat (BSIZE / 4)) with 128%nat. cbn [hw set_hw]. by rewrite Hin.
  - destruct (loaded_error V d n _ Hl) as (r & c & Hp & Hr & HR). exists c. split; [|done]. rewrite idewait_loop_eq, Hp. rewrite (proj2 (Z.eqb_neq _ _) Hr). cbn [negb andb].
    change (0 <=? -1) with false. cbn iota. by destruct x.
Qed.

Lemma flags_done f : f = 0 \/ f = 4 \/ f = 6 -> Z.land (Z.lor f B_VALID) (Z.lnot B_DIRTY) = B_VALID.
Proof. by intros [-> |[-> | ->]]. Qed.

Lemma dirty_flags b : Z.land (b_flags b) B_DIRTY =? 0 = negb (is_dirty b).
Proof. unfold is_dirty. by rewrite negb_involutive. Qed.

(** The transfer itself, up to the flags of the buffer. *)
Lemma transfer_spec V x i b c' : busy (req_of b) V (hw x) -> irq (hw x) c' -> bufs (ks x) !! i = Some b ->
  exists c b', (if Z.land (b_flags b) B_DIRTY =? 0 then fetch i else ret tt) (set_hw c' x) = Ret tt (set_hw c (set_ks (set_bufs (<[i := b']> (bufs (ks x))) (ks x)) x)) /\
    b_flags b' = b_flags b /\ set_b_flags B_VALID b' = set_b_flags B_VALID (if is_dirty b || negb (no_error c') then b else set_b_data (V (drive_of b) (b_blockno b)) b) /\
    exists R, at_rest (apply_req V (req_of b)) R c.
Proof.
  intros Hbusy Hirq Hb. rewrite dirty_flags. unfold req_of in *. destruct (is_dirty b); cbn [negb orb apply_req] in *.
  - destruct (irq_write _ _ _ _ _ _ Hbusy Hirq) as [R HR]. exists c', b. rewrite list_insert_id by done. split; [by destruct x as [[] ? ? ? ?]|]. split; [done|]. split; [done|by exists R].
  - destruct (irq_read _ _ _ _ _ Hbusy Hirq) as [ok Hl]. destruct (fetch_spec V (set_hw c' x) i _ _ ok Hl) as (c & Hf & HR).
    rewrite (loaded_status _ _ _ _ _ Hl). exists c, (if ok then set_b_data (V (drive_of b) (b_blockno b)) b else b). rewrite Hf. destruct ok; cbn [negb].
    + erewrite alter_as_insert by done. split; [done|]. split; [by destruct b|]. split; done.
    + rewrite list_insert_id by done. split; [by destruct x as [[] ? ? ? ?]|]. done.
Qed.

(** The end of [ideintr]: the next request is started. *)
Lemma next_spec V R q x : chain (idequeue x) (qnext x) q -> NoDup q -> (forall i, i ∈ q -> (i < NBUF)%nat /\ exists b, bufs (ks x) !! i = Some b /\ waiting b) ->
  at_rest V R (hw x) -> held (ks x) = [L_ide] ->
  exists x', (q <- get idequeue ;; (match q with None => ret tt | Some j => idestart (Some j) end) ;;; kernel (release L_ide)) x = Ret tt x' /\
    ide_inv V q x' /\ ks x' = set_held [] (ks x) /\ havedisk1 x' = havedisk1 x.
Proof.
  intros Hc Hnd Hb Hr Hh. unfold bind at 1, get. destruct q as [|j q].
  - cbn [chain] in Hc. rewrite Hc. unfold bind, ret, kernel. rewrite (release_top _ []); [|done|set_solver]. eexists. split; [done|]. split; [|done].
    split; [done|done|done|]. by exists R.
  - pose proof Hc as [Hj _]. rewrite Hj. destruct (Hb j ltac:(by left)) as (_ & b & Hbj & Hw). destruct (start_spec V R x j b Hr Hbj Hw) as (c & Hst & Hbusy).
    unfold bind. rewrite Hst. unfold kernel. rewrite (release_top _ []); [|done|set_solver]. eexists. split; [done|]. split; [|done]. split; [done|done|done|].
    cbn. unfold buf_at. cbn. by rewrite Hbj.
Qed.

(** An interrupt: the first request of the queue has been served and the next one is started. *)
Lemma intr_spec V i q x c' : ide_inv V (i :: q) x -> held (ks x) = [] -> irq (hw x) c' ->
  exists x' b b', bufs (ks x) !! i = Some b /\ ideintr (set_hw c' x) = Ret tt x' /\ ide_inv (apply_req V (req_of b)) q x' /\
    bufs (ks x') = <[i := b']> (bufs (ks x)) /\ served V (no_error c') b b' /\ held (ks x') = [] /\ cur (ks x') = cur (ks x) /\ havedisk1 x' = havedisk1 x /\
    procs (ks x') = wake (Ch_buf i) <$> procs (ks x).
Proof.
  intros [[Hq Hc] Hnd Hb Hhw] Hh Hirq. destruct (Hb i ltac:(by left)) as (_ & b & Hbi & Hw). apply NoDup_cons in Hnd as [Hi Hnd].
  assert (buf_at (ks x) i = b) as Hba by (unfold buf_at; by rewrite Hbi). rewrite Hba in Hhw.
  set (x1 := set_idequeue (qnext x i) (set_ks (set_held [L_ide] (ks x)) x)).
  destruct (transfer_spec V x1 i b c' Hhw Hirq Hbi) as (c & b' & Ht & Hfl & Hb' & R & HR).
  set (b2 := set_b_flags B_VALID b').
  set (s3 := set_procs (wake (Ch_buf i) <$> procs (ks x)) (set_bufs (<[i := b2]> (bufs (ks x))) (ks (x1)))).
  destruct (next_spec (apply_req V (req_of b)) R q (set_hw c (set_ks s3 x1))) as (x' & Hn & Hinv & Hks & Hd1); [done|done| |done|done|].
  { intros j Hj. destruct (Hb j ltac:(by right)) as (Hjn & bj & Hbj & Hwj). split; [done|]. exists bj. split; [|done]. cbn. rewrite list_lookup_insert_ne by (intros ->; done). done. }
  exists x', b, b2. split; [done|]. split; [|split; [done|]]. 2: { rewrite Hks. split; [done|]. split; [exact Hb'|done]. }
  assert (i < length (bufs (ks x)))%nat as Hlt by (by eapply lookup_lt_Some).
  unfold ideintr. etrans; [eapply bind_eq; unfold kernel; cbn [set_hw ks]; rewrite acquire_eq by (rewrite Hh; set_solver); rewrite Hh; reflexivity|].
  etrans; [eapply bind_eq; reflexivity|]. cbn [set_ks set_hw idequeue]. rewrite Hq. do 2 (etrans; [eapply bind_eq; reflexivity|]).
  match goal with |- context [b_flags ?v] => change v with (buf_at (ks x) i) end. rewrite Hba. etrans; [eapply bind_eq; exact Ht|].
  etrans; [eapply bind_eq; unfold kernel, upd_buf, modify; cbn [set_ks set_hw ks set_bufs bufs]; erewrite alter_as_insert by (by apply list_lookup_insert_eq); rewrite list_insert_insert_eq; reflexivity|].
  etrans; [eapply bind_eq; unfold kernel, upd_buf, modify; cbn [set_ks set_hw ks set_bufs bufs]; erewrite alter_as_insert by (by apply list_lookup_insert_eq); rewrite list_insert_insert_eq; reflexivity|].
  etrans; [eapply bind_eq; unfold kernel; rewrite wakeup_eq by (cbn; set_solver); reflexivity|]. rewrite <- Hn.
  match goal with |- _ ?y = _ ?z => assert (y = z) as ->; [|done] end. unfold s3, b2. cbn.
  destruct b'; cbn in *. by rewrite flags_done by (rewrite Hfl; apply Hw).
Qed.

(** ** Interleavings *)

(** The state a routine ends or sleeps in. *)
Definition ends {A} (o : outcome (option chan) machine A) x' : Prop := match o with Ret _ x => x' = x | Slept _ x => x' = x | Panic _ => False end.

(** [(x, fin, todo)]: the requests [fin] have been served and [todo] are still to be, each with its buffer, in the order in which they were made.  Between
    the routines the rest of the kernel does what it wants with buffers whose requests have been served. *)
#[local] Notation config := (machine * list (nat * request) * list (nat * request))%type.

Inductive istep : config -> config -> Prop :=
| is_call x fin todo i b x' :
    owned (ks x) i b -> waiting b -> (b_dev b = 0 \/ havedisk1 x = true) -> (i < NBUF)%nat -> i ∉ todo.*1 ->
    ends (ide_rw i x) x' -> istep (x, fin, todo) (x', fin, todo ++ [(i, req_of b)])
| is_return x fin todo i x' :
    held (ks x) = [L_ptable] -> is_Some (cur (ks x)) -> ends (ide_rw_return i x) x' -> istep (x, fin, todo) (x', fin, todo)
| is_intr x fin todo c' x' :
    held (ks x) = [] -> irq (hw x) c' -> ends (ideintr (set_hw c' x)) x' -> istep (x, fin, todo) (x', fin ++ take 1 todo, drop 1 todo)
| is_other x fin todo s' :
    (forall i, i ∈ todo.*1 -> bufs s' !! i = bufs (ks x) !! i) -> istep (x, fin, todo) (set_ks s' x, fin, todo).

(** What the disk holds after [fin]. *)
Definition contents_after V (fin : list (nat * request)) : contents := foldl apply_req V fin.*2.

Definition serving V0 (c : config) : Prop :=
  let '(x, fin, todo) := c in
  ide_inv (contents_after V0 fin) todo.*1 x /\ forall i r, (i, r) ∈ todo -> r = req_of (buf_at (ks x) i).

Lemma serving_step V0 c c' : serving V0 c -> istep c c' -> serving V0 c'.
Proof.
  intros Hs Hst. destruct Hst as [x fin todo i b x' Ho Hw Hd Hi Hn He|x fin todo i x' Hh Hc He|x fin todo c' x' Hh Hirq He|x fin todo s' Hb]; destruct Hs as (Hinv & Hreq).
  - destruct (call_spec _ _ x i b Hinv Ho Hw Hd Hn Hi) as (x1 & Hrw & Hinv1 & Hb1 & _). rewrite Hrw in He. cbn in He. subst x'.
    split; [by rewrite fmap_app|]. intros j r. unfold buf_at. rewrite Hb1.
    intros [Hj|[= -> ->]%list_elem_of_singleton]%elem_of_app; [by apply Hreq|]. by rewrite (proj1 (proj2 Ho)).
  - destruct (return_spec _ _ x i Hinv Hh Hc) as (x1 & Hr & Hinv1 & Hb1). assert (x' = x1) as -> by (destruct Hr as [[Hr _]|[Hr _]]; rewrite Hr in He; exact He).
    split; [done|]. intros j r. unfold buf_at. rewrite Hb1. apply Hreq.
  - destruct todo as [|[i r] todo]; [destruct (iq_hw _ _ _ Hinv) as [R HR]; by destruct (rest_quiet _ _ _ _ HR Hirq)|].
    destruct (intr_spec _ i todo.*1 x c' Hinv Hh Hirq) as (x1 & b & b' & Hb & Hi & Hinv1 & Hb1 & _). rewrite Hi in He. cbn in He. subst x'.
    assert (r = req_of b) as -> by (rewrite (Hreq i r) by (by left); unfold buf_at; by rewrite Hb). cbn [take drop]. split.
    + unfold contents_after. rewrite fmap_app, foldl_app. exact Hinv1.
    + pose proof (iq_nodup _ _ _ Hinv) as [Hni _]%NoDup_cons. intros j r Hj. unfold buf_at. rewrite Hb1, list_lookup_insert_ne; [apply Hreq; by right|].
      intros ->. apply Hni. apply list_elem_of_fmap. by exists (j, r).
  - split; [by apply inv_kernel|]. intros j r Hj. unfold buf_at. cbn. rewrite Hb by (apply list_elem_of_fmap; by exists (j, r)). by apply Hreq.
Qed.
End queue.

(** C4: ide.c serves its requests one after the other, in the order in which they were made.  Calls of [iderw], returns from sleep, interrupts and other
    activity of the kernel happen in any order.  Then the queue is the list of the requests that are still to be served; the controller is at rest only
    when there are none, and otherwise works on the first; the disk holds what the requests that were served have made of it.  No routine panics.  The next
    interrupt makes the buffer of the first request valid and wakes who waits for it; for a read whose status has no error bit the buffer then holds the
    block of the disk, and its data is left alone exactly when the status has one.  A call of [iderw] for a further buffer goes to sleep, and a return from
    sleep ends [iderw] only when the request has been served; otherwise it sleeps again. *)
Theorem ide_serves_in_order `{IP : Ports} `{!IdeDisk} (V0 : contents) (R0 : Z -> Z) (x0 x : machine) (fin todo : list (nat * request)) :
  idequeue x0 = None -> at_rest V0 R0 (hw x0) -> rtc istep (x0, [], []) (x, fin, todo) ->
  let V := contents_after V0 fin in
  chain (idequeue x) (qnext x) todo.*1 /\
  match todo with
  | [] => exists R, at_rest V R (hw x)
  | (i, r) :: _ => busy r V (hw x) /\ forall c', held (ks x) = [] -> irq (hw x) c' -> exists x' b b',
      ideintr (set_hw c' x) = Ret tt x' /\ bufs (ks x) !! i = Some b /\ r = req_of b /\ served V (no_error c') b b' /\
      bufs (ks x') = <[i := b']> (bufs (ks x)) /\ procs (ks x') = wake (Ch_buf i) <$> procs (ks x)
  end /\
  (forall i b, owned (ks x) i b -> waiting b -> (b_dev b = 0 \/ havedisk1 x = true) -> (i < NBUF)%nat -> i ∉ todo.*1 ->
    exists x', ide_rw i x = Slept (Some (Ch_buf i)) x' /\ bufs (ks x') = bufs (ks x)) /\
  forall i, held (ks x) = [L_ptable] -> is_Some (cur (ks x)) ->
    exists x', bufs (ks x') = bufs (ks x) /\ (ide_rw_return i x = Slept (Some (Ch_buf i)) x' \/ ide_rw_return i x = Ret tt x' /\ i ∉ todo.*1).
Proof.
  intros Hq Hr Hrtc V. assert (serving V0 (x, fin, todo)) as [Hinv Hreq].
  { eapply (rtc_ind_r (serving V0)); [| |exact Hrtc]; [|intros c c' _ Hst Hs; by eapply serving_step]. split; [|intros i r Hc; by apply elem_of_nil in Hc].
    split; [done|constructor|intros i Hc; by apply elem_of_nil in Hc|by exists R0]. }
  split; [apply Hinv|]. split; [|split].
  - destruct todo as [|[i r] todo]; [apply Hinv|]. assert (r = req_of (buf_at (ks x) i)) as Hri by (apply Hreq; by left). split; [rewrite Hri; apply Hinv|].
    intros c' Hh Hirq. destruct (intr_spec _ i todo.*1 x c' Hinv Hh Hirq) as (x' & b & b' & Hb & Hi & _ & Hb' & Hs & _ & _ & _ & Hps).
    exists x', b, b'. split; [done|]. split; [done|]. split; [rewrite Hri; unfold buf_at; by rewrite Hb|]. done.
  - intros i b Ho Hw Hd Hlt Hi. destruct (call_spec _ _ x i b Hinv Ho Hw Hd Hi Hlt) as (x' & Hc & _ & Hb & _). by exists x'.
  - intros i Hh Hc. destruct (return_spec _ _ x i Hinv Hh Hc) as (x' & Hret & _ & Hb). exists x'. split; [done|].
    destruct Hret as [[Hret Hf]|[Hret _]]; [right|by left]. split; [done|]. intros Hi. destruct (iq_bufs _ _ _ Hinv i Hi) as (_ & b & Hbi & Hw).
    unfold buf_at in Hf. rewrite Hbi in Hf. pose proof (flags_wait b Hw) as Hfw. by apply Z.eqb_neq in Hfw.
Qed.

(** ** A controller *)

(** A controller that is always ready at once, on a disk whose sector 999 cannot be read. *)
Inductive phase := Resting | Working (r : request) | Wanting (d n : Z) | Holding (d n : Z) | Failed (d n : Z).
Record simulator := mkSim { sim_regs : Z -> Z; sim_phase : phase; sim_disk : Z -> Z -> list Z }.

Definition sim_inb (port : Z) (c : simulator) : Z * simulator :=
  match sim_phase c with Failed _ _ => (65, mkSim (sim_regs c) Resting (sim_disk c)) | _ => (64, c) end.
Definition sim_outb (port v : Z) (c : simulator) : simulator :=
  if negb (port =? 503) then mkSim (<[port := v]> (sim_regs c)) (sim_phase c) (sim_disk c)
  else mkSim (sim_regs c) (if v =? IDE_CMD_READ then Working (Read (reg_drive (sim_regs c)) (reg_lba (sim_regs c)))
                           else Wanting (reg_drive (sim_regs c)) (reg_lba (sim_regs c))) (sim_disk c).
Definition sim_outsl (port : Z) (data : list Z) (c : simulator) : simulator :=
  match sim_phase c with Wanting d n => mkSim (sim_regs c) (Working (Write d n data)) (sim_disk c) | _ => c end.
Definition sim_insl (port : Z) (n : nat) (c : simulator) : list Z * simulator :=
  match sim_phase c with Holding d n => (sim_disk c d n, mkSim (sim_regs c) Resting (sim_disk c)) | _ => ([], c) end.
Definition sim_irq (c c' : simulator) : Prop :=
  match sim_phase c with
  | Working (Read d n) => c' = mkSim (sim_regs c) (if n =? 999 then Failed d n else Holding d n) (sim_disk c)
  | Working (Write d n data) => c' = mkSim (sim_regs c) Resting (put_sector (sim_disk c) d n data)
  | _ => False
  end.

#[local] Instance sim_ports : Ports := {| inb := sim_inb; outb := sim_outb; insl := sim_insl; outsl := sim_outsl; patience := 1 |}.

#[local] Instance sim_ide : IdeDisk.
Proof.
  refine {| at_rest := fun V R c => sim_disk c = V /\ sim_regs c = R /\ sim_phase c = Resting;
            busy := fun r V c => sim_disk c = V /\ sim_phase c = Working r;
            wants := fun d n V c => sim_disk c = V /\ sim_phase c = Wanting d n;
            loaded := fun ok d n V c => sim_disk c = V /\ sim_phase c = (if ok : bool then Holding d n else Failed d n);
            irq := sim_irq |}.
  - intros V R c (HV & HR & Hp). exists 64, c. cbn. unfold sim_inb. by rewrite Hp.
  - intros V R c port v (<- & <- & Hp) Hport _. cbn. unfold sim_outb. replace (negb (port =? 503)) with true; [done|]. symmetry. apply negb_true_iff, Z.eqb_neq. set_solver.
  - intros V R c c' (_ & _ & Hp) Hirq. unfold sim_irq in Hirq. by rewrite Hp in Hirq.
  - by intros V R c (<- & <- & Hp) _.
  - by intros V R c (<- & <- & Hp) _.
  - intros V d n c data [<- Hp] _. cbn. unfold sim_outsl. by rewrite Hp.
  - intros V d n c c' [<- Hp] Hirq. unfold sim_irq in Hirq. rewrite Hp in Hirq. subst c'. exists (negb (n =? 999)). by destruct (n =? 999).
  - intros V d n data c c' [<- Hp] Hirq. unfold sim_irq in Hirq. rewrite Hp in Hirq. subst c'. by exists (sim_regs c).
  - intros V d n c [<- Hp]. exists 64, c. cbn. unfold sim_inb. rewrite Hp. split; [done|]. split; [done|]. eexists. unfold sim_insl. rewrite Hp. split; [done|]. by exists (sim_regs c).
  - intros V d n c [<- Hp]. eexists 65, _. cbn. unfold sim_inb. rewrite Hp. split; [done|]. split; [done|]. by exists (sim_regs c).
Defined.

(** A process reads block 7 of disk 1. *)
Definition ide_start : machine :=
  mkMachine (mkK [] [set_p_pid 3 null_proc] (Some 0%nat) 4 None ∅ 0 false [mkBuf 0 1 7 (mkSleeplock true 3) 1 0 0 (replicate 512 0)] ∅ [] (mkLog 0 0 0 false 0 0 [])
    (mkSb 0 0 0 0 0 0 0) [] [] ∅ [] 0 null_console 0) None (fun _ => None) true 0 0 0 2 [0; 1] [true; true] false (mkSim (fun _ => 0) Resting (fun _ n => replicate 512 n)).

Lemma ide_serves_in_order_witness : exists x, ends (ide_rw 0 ide_start) x /\ idequeue x = Some 0%nat /\ busy (Read 1 7) (fun _ n => replicate 512 n) (hw x).
Proof.
  destruct (ide_rw 0 ide_start) as [[] x|msg|c x] eqn:E; [vm_compute in E; done..|].
  assert (waiting (mkBuf 0 1 7 (mkSleeplock true 3) 1 0 0 (replicate 512 0))) as Hw by (split; [by left|]; split; [cbn; by change FSSIZE with 1000; lia|done]).
  assert (istep (ide_start, [], []) (x, [], [(0%nat, Read 1 7)])) as Hst.
  { apply (is_call ide_start [] [] 0 (mkBuf 0 1 7 (mkSleeplock true 3) 1 0 0 (replicate 512 0)) x); [|done|by right|unfold NBUF; lia|by apply not_elem_of_nil|by rewrite E].
    split; [done|]. split; [done|]. by exists 0%nat. }
  destruct (ide_serves_in_order (fun _ n => replicate 512 n) (fun _ => 0) ide_start x [] [(0%nat, Read 1 7)] ltac:(done) ltac:(done) ltac:(by eapply rtc_once)) as ([Hq _] & [Hb _] & _).
  exists x. split; [done|]. split; [exact Hq|exact Hb].
Defined.
