(* ===== verification/Mp.v ===== *)
(** * Mp: the search for processors (mp.c, mp.h)

    The BIOS leaves the MP tables in low memory, which the kernel reads through the pages of
    [mem].  [mp_loop] walks the entries of the table with fuel: an entry is at least 8 bytes
    and the length of a table is 16 bits, so a table whose entries are all known takes fewer
    than 65536 steps. *)

From stdpp Require Import functions base gmap list strings.
From Stdlib Require Import ZArith Lia.
From S2P Require Import Prelude State Core Kalloc Console Ports.

Local Open Scope Z_scope.
Local Open Scope kernel_scope.

Definition NCPU : Z := 8.
Definition MPPROC : Z := 0.
Definition MPBUS : Z := 1.
Definition MPIOAPIC : Z := 2.
Definition MPIOINTR : Z := 3.
Definition MPLINTR : Z := 4.

(** [struct mp]: [physaddr], [imcrp] and the size *)
Definition MP_PHYSADDR : Z := 4.
Definition MP_IMCRP : Z := 12.
Definition MP_SIZE : Z := 16.
(** [struct mpconf]: [length], [version], [lapicaddr] and the size *)
Definition CONF_LENGTH : Z := 4.
Definition CONF_VERSION : Z := 6.
Definition CONF_LAPICADDR : Z := 36.
Definition CONF_SIZE : Z := 44.
(** [struct mpproc] and [struct mpioapic] *)
Definition PROC_APICID : Z := 1.
Definition PROC_SIZE : Z := 20.
Definition IOAPIC_APICNO : Z := 1.
Definition IOAPIC_SIZE : Z := 8.

(** A byte, and a little-endian number of [n] bytes, of kernel memory. *)
Definition byte_of (s : kstate) (a : Z) : option Z := pg ← mem s !! (a - a mod PGSIZE); pg !! Z.to_nat (a mod PGSIZE).
Definition kbyte (a : Z) : KM Z := b <- get (fun s => byte_of s a) ;; in_bounds b.
Fixpoint knum (n : nat) (a : Z) : KM Z :=
  match n with
  | O => ret 0
  | S n' => b <- kbyte a ;; v <- knum n' (a + 1) ;; ret (b + 256 * v)
  end.

(** [memcmp(p, sig, length sig) == 0] *)
Fixpoint signed (a : Z) (sig : list Z) : KM bool :=
  match sig with
  | [] => ret true
  | c :: sig' => b <- kbyte a ;; if b =? c then signed (a + 1) sig' else ret false
  end.

Fixpoint sum_loop (addr : Z) (len : nat) (sum : Z) : KM Z :=
  match len with
  | O => ret (u8 sum)
  | S len' => b <- kbyte addr ;; sum_loop (addr + 1) len' (i32 (sum + b))
  end.
Definition sum (addr : Z) (len : nat) : KM Z := sum_loop addr len 0.

(** The null pointer is [None]. *)
Fixpoint mpsearch1_loop (n : nat) (p e : Z) : KM (option Z) :=
  match n with
  | O => ret None
  | S n' =>
      if p <? e then
        b <- signed p (lit "_MP_") ;;
        b <- (if b : bool then s <- sum p (Z.to_nat MP_SIZE) ;; ret (s =? 0) else ret false) ;;
        if b : bool then ret (Some p) else mpsearch1_loop n' (p + MP_SIZE) e
      else ret None
  end.
Definition mpsearch1 (a len : Z) : KM (option Z) :=
  let addr := P2V a in
  mpsearch1_loop (S (Z.to_nat (len / MP_SIZE))) addr (addr + len).

Definition mpsearch : KM (option Z) :=
  let bda := P2V 1024 in
  h <- kbyte (bda + 15) ;;
  l <- kbyte (bda + 14) ;;
  let p := Z.shiftl (Z.lor (Z.shiftl h 8) l) 4 in
  r <- (if negb (p =? 0) then mpsearch1 p 1024
        else
          h <- kbyte (bda + 20) ;;
          l <- kbyte (bda + 19) ;;
          mpsearch1 (u32 (Z.lor (Z.shiftl h 8) l * 1024 - 1024)) 1024) ;;
  match r with
  | Some mp => ret (Some mp)
  | None => mpsearch1 983040 65536
  end.

(** [*pmp] and the result *)
Definition mpconfig : KM (option (Z * Z)) :=
  r <- mpsearch ;;
  match r with
  | None => ret None
  | Some mp =>
      pa <- knum 4 (mp + MP_PHYSADDR) ;;
      if pa =? 0 then ret None else
      let conf := P2V pa in
      b <- signed conf (lit "PCMP") ;;
      if negb b then ret None else
      v <- kbyte (conf + CONF_VERSION) ;;
      if negb (v =? 1) && negb (v =? 4) then ret None else
      len <- knum 2 (conf + CONF_LENGTH) ;;
      s <- sum conf (Z.to_nat len) ;;
      if negb (s =? 0) then ret None else ret (Some (mp, conf))
  end.

Section mp.
Context `{Ports}.

(** The loop over the entries in [p, e); the result is [ismp].  The [break] of the default
    case leaves the switch and not the loop. *)
Fixpoint mp_loop (fuel : nat) (p e : Z) (ismp : bool) : HM bool :=
  match fuel with
  | O => panic "out of fuel"
  | S fuel' =>
      if p <? e then
        ty <- kernel (kbyte p) ;;
        if ty =? MPPROC then
          n <- get ncpu ;;
          (if n <? NCPU then
             i <- kernel (kbyte (p + PROC_APICID)) ;;
             modify (fun x => set_apicids (<[Z.to_nat n := i]> (apicids x)) x) ;;;
             modify (set_ncpu (n + 1))
           else ret tt) ;;;
          mp_loop fuel' (p + PROC_SIZE) e ismp
        else if ty =? MPIOAPIC then
          i <- kernel (kbyte (p + IOAPIC_APICNO)) ;;
          modify (set_ioapicid i) ;;;
          mp_loop fuel' (p + IOAPIC_SIZE) e ismp
        else if (ty =? MPBUS) || (ty =? MPIOINTR) || (ty =? MPLINTR) then
          mp_loop fuel' (p + 8) e ismp
        else mp_loop fuel' p e false
      else ret ismp
  end.

Definition mpinit : HM unit :=
  r <- kernel mpconfig ;;
  match r with
  | None => panic "Expect to run on an SMP"
  | Some (mp, conf) =>
      a <- kernel (knum 4 (conf + CONF_LAPICADDR)) ;;
      modify (set_lapic a) ;;;
      len <- kernel (knum 2 (conf + CONF_LENGTH)) ;;
      ismp <- mp_loop (Z.to_nat 65536) (conf + CONF_SIZE) (conf + len) true ;;
      if negb ismp then panic "Didn't find a suitable machine" else
      i <- kernel (kbyte (mp + MP_IMCRP)) ;;
      if negb (i =? 0) then
        out_byte 34 112 ;;;
        v <- in_byte 35 ;;
        out_byte 35 (Z.lor v 1)
      else ret tt
  end.
End mp.
