(* ===== verification/MpSpec.v ===== *)
(** * MpSpec: the processors of the MP table are the ones the kernel uses

    [mp_at s a]: an MP floating pointer structure is at [a].  [candidates] are the places
    where the code looks for it, in the order of the search: of the ROM these are the 64
    kilobytes from 0xF0000, although the comment on [mpsearch] says from 0xE0000.  [mpentry]
    is an entry of the configuration table and [encode] its bytes. *)

From stdpp Require Import functions base gmap list strings.
From Stdlib Require Import ZArith Lia.
From S2P Require Import Prelude State Core Kalloc Console Ports Mp.

Local Open Scope Z_scope.
Local Open Scope kernel_scope.

(** ** Bytes of memory *)

Definition bytes_at (s : kstate) (a : Z) (l : list Z) : Prop :=
  Forall is_byte l /\ forall i b, l !! i = Some b -> byte_of s (a + Z.of_nat i) = Some b.
Definition total (l : list Z) : Z := foldr Z.add 0 l.

Lemma bytes_at_cons s a b l : bytes_at s a (b :: l) <-> is_byte b /\ byte_of s a = Some b /\ bytes_at s (a + 1) l.
Proof.
  unfold bytes_at. rewrite Forall_cons. split.
  - intros [[Hb Hl] H]. split; [done|]. split; [specialize (H 0%nat b eq_refl); by rewrite Z.add_0_r in H|]. split; [done|].
    intros i b' Hi. specialize (H (S i) b' Hi). rewrite <- H. f_equal. lia.
  - intros (Hb & H0 & Hl & H). split; [done|]. intros [|i] b' Hi; [injection Hi as <-; by rewrite Z.add_0_r|].
    rewrite <- (H i b' Hi). f_equal. lia.
Qed.

Lemma bytes_at_app s a l1 l2 : bytes_at s a (l1 ++ l2) <-> bytes_at s a l1 /\ bytes_at s (a + Z.of_nat (length l1)) l2.
Proof.
  revert a. induction l1 as [|b l1 IH]; intros a; cbn [app length].
  - rewrite Z.add_0_r. split; [|by intros [_ ?]]. intros H. split; [|done]. split; [constructor|done].
  - rewrite !bytes_at_cons, IH. replace (a + 1 + Z.of_nat (length l1)) with (a + Z.of_nat (S (length l1))) by lia. naive_solver.
Qed.

Lemma bytes_at_sub s a l o n : bytes_at s a l -> (o + n <= length l)%nat -> bytes_at s (a + Z.of_nat o) (sub o n l).
Proof.
  intros H Hl. rewrite <- (take_drop o l), bytes_at_app, length_take, Nat.min_l in H by lia. destruct H as [_ H].
  rewrite <- (take_drop n (drop o l)), bytes_at_app in H. apply H.
Qed.

Lemma kbyte_eq s a b : byte_of s a = Some b -> kbyte a s = Ret b s.
Proof. intros E. unfold kbyte, bind, get. by rewrite E. Qed.

Lemma knum_eq s a l : bytes_at s a l -> knum (length l) a s = Ret (le_val l) s.
Proof.
  revert a. induction l as [|b l IH]; intros a H; [done|]. apply bytes_at_cons in H as (_ & Hb & Hl). cbn [length knum].
  etrans; [eapply bind_eq; by apply kbyte_eq|]. etrans; [eapply bind_eq; by apply IH|]. done.
Qed.

Lemma signed_eq s a l sig :
  bytes_at s a l -> length l = length sig -> signed a sig s = Ret (bool_decide (l = sig)) s.
Proof.
  revert a l. induction sig as [|c sig IH]; intros a l H Hlen; destruct l as [|b l]; try done. injection Hlen as Hlen.
  apply bytes_at_cons in H as (_ & Hb & Hl). cbn [signed]. etrans; [eapply bind_eq; by apply kbyte_eq|].
  destruct (Z.eqb_spec b c) as [->|Hne].
  - rewrite (IH _ l) by done. f_equal. apply bool_decide_ext. naive_solver.
  - unfold ret. f_equal. symmetry. apply bool_decide_eq_false. naive_solver.
Qed.

Lemma sum_loop_eq s a l acc :
  bytes_at s a l -> 0 <= acc -> acc + 255 * Z.of_nat (length l) < 2147483648 ->
  sum_loop a (length l) acc s = Ret (u8 (acc + total l)) s.
Proof.
  revert a acc. induction l as [|b l IH]; intros a acc H Hacc Hmax; cbn [length sum_loop total foldr].
  { by rewrite Z.add_0_r. }
  apply bytes_at_cons in H as (Hbb & Hb & Hl). unfold is_byte in Hbb. cbn [length] in Hmax.
  etrans; [eapply bind_eq; by apply kbyte_eq|]. rewrite i32_small by lia. rewrite IH by (done || lia). unfold total. do 2 f_equal. lia.
Qed.

Lemma sum_eq s a l : bytes_at s a l -> Z.of_nat (length l) < 65536 -> sum a (length l) s = Ret (u8 (total l)) s.
Proof. intros H Hl. unfold sum. by rewrite sum_loop_eq by (done || lia). Qed.

(** ** The floating pointer structure *)

Definition floating (l : list Z) : Prop := length l = 16%nat /\ take 4 l = lit "_MP_" /\ total l mod 256 = 0.
Definition mp_at (s : kstate) (a : Z) : Prop := exists l, bytes_at s a l /\ floating l.
Definition readable (s : kstate) (a : Z) (n : nat) : Prop := exists l, bytes_at s a l /\ length l = n.

(** The places of an area of [n] structures. *)
Definition slots (a : Z) (n : nat) : list Z := (fun k => a + 16 * Z.of_nat k) <$> seq 0 n.

Lemma slots_S a n : slots a (S n) = a :: slots (a + 16) n.
Proof.
  unfold slots. cbn [seq fmap list_fmap]. f_equal; [lia|]. rewrite <- fmap_S_seq, <- list_fmap_compose.
  apply list_fmap_ext. intros i x _. cbn. lia.
Qed.

Lemma bytes_at_inj s a l1 l2 : bytes_at s a l1 -> bytes_at s a l2 -> length l1 = length l2 -> l1 = l2.
Proof.
  intros [_ H1] [_ H2] Hl. apply list_eq. intros i. destruct (l1 !! i) as [b|] eqn:E.
  - destruct (lookup_lt_is_Some_2 l2 i) as [b' E']; [rewrite <- Hl; by eapply lookup_lt_Some|].
    rewrite E'. specialize (H1 i b E). specialize (H2 i b' E'). congruence.
  - symmetry. apply lookup_ge_None. rewrite <- Hl. by apply lookup_ge_None.
Qed.

Lemma mp_test s a (b : bool) k :
  readable s a 16 -> (b = true <-> mp_at s a) ->
  (b <- signed a (lit "_MP_") ;; b <- (if b : bool then s <- sum a (Z.to_nat MP_SIZE) ;; ret (s =? 0) else ret false) ;; k b) s
  = (k b s : outcome (option chan) kstate (option Z)).
Proof.
  intros (l & Hl & Hlen) Hb. etrans; [eapply bind_eq, (signed_eq s a (sub 0 4 l))|].
  { rewrite <- (Z.add_0_r a). apply (bytes_at_sub s a l 0 4); [done|lia]. }
  { rewrite length_sub by lia. done. }
  unfold sub. rewrite drop_0. change (Z.to_nat MP_SIZE) with 16%nat.
  assert (mp_at s a <-> floating l) as Hf.
  { split; [|by exists l]. intros (l' & Hl' & Hf). by rewrite (bytes_at_inj s a l l') by (done || (destruct Hf; lia)). }
  assert (floating l <-> take 4 l = lit "_MP_" /\ total l mod 256 = 0) as Hf' by (unfold floating; naive_solver).
  case_bool_decide as Hsig.
  - rewrite <- Hlen. etrans; [eapply bind_eq; etrans; [eapply bind_eq; apply sum_eq; [done|lia]|reflexivity]|]. f_equal.
    apply eq_true_iff_eq. rewrite Z.eqb_eq, Hb, Hf, Hf'. unfold u8. tauto.
  - etrans; [eapply bind_eq; reflexivity|]. f_equal.
    apply eq_true_iff_eq. rewrite Hb, Hf, Hf'. intuition done.
Qed.

(** The search of [n] places. *)
Lemma search_slots s n p :
  readable s p (16 * n) -> forall m, (n <= m)%nat ->
  (forall pre a post, slots p n = pre ++ a :: post -> Forall (fun q => ~ mp_at s q) pre -> mp_at s a ->
     mpsearch1_loop m p (p + 16 * Z.of_nat n) s = Ret (Some a) s) /\
  (Forall (fun q => ~ mp_at s q) (slots p n) -> mpsearch1_loop m p (p + 16 * Z.of_nat n) s = Ret None s).
Proof.
  revert p. induction n as [|n IH]; intros p (l & Hl & Hlen) m Hm.
  { split; [by intros []|]. intros _. destruct m; [done|]. cbn [mpsearch1_loop]. by rewrite (proj2 (Z.ltb_ge _ _)) by lia. }
  destruct m as [|m]; [lia|].
  assert (readable s p 16) as Hr0.
  { exists (sub 0 16 l). rewrite <- (Z.add_0_r p). split; [apply (bytes_at_sub s p l 0 16); [done|lia]|apply length_sub; lia]. }
  assert (readable s (p + 16) (16 * n)) as Hr1.
  { exists (sub 16 (16 * n) l). split; [apply (bytes_at_sub s p l 16); [done|lia]|apply length_sub; lia]. }
  destruct (IH (p + 16) Hr1 m ltac:(lia)) as [Hit Miss]. replace (p + 16 + 16 * Z.of_nat n) with (p + 16 * Z.of_nat (S n)) in * by lia.
  rewrite slots_S. cbn [mpsearch1_loop]. rewrite (proj2 (Z.ltb_lt _ _)) by lia. split.
  - intros [|q pre] a post Heq Hpre Ha; simplify_eq/=.
    + by rewrite (mp_test s a true).
    + apply Forall_cons in Hpre as [Hq Hpre]. rewrite (mp_test s q false) by (done || (split; [done|]; intros; contradiction)). by eapply Hit.
  - intros [Hq Hs]%Forall_cons. rewrite (mp_test s p false) by (done || (split; [done|]; intros; contradiction)). by apply Miss.
Qed.

(** ** Where the structure is looked for *)

Definition word16 (s : kstate) (a : Z) : Z := default 0 (byte_of s a) + 256 * default 0 (byte_of s (a + 1)).
Definition ebda (s : kstate) : Z := 16 * word16 s (P2V 1024 + 14).
Definition base_end (s : kstate) : Z := 1024 * word16 s (P2V 1024 + 19).

(** The first kilobyte of the EBDA or, if there is none, the last one of base memory; then the BIOS ROM from 0xF0000 to 0xFFFFF. *)
Definition first_area (s : kstate) : Z := P2V (if ebda s =? 0 then u32 (base_end s - 1024) else ebda s).
Definition candidates (s : kstate) : list Z := slots (first_area s) 64 ++ slots (P2V 983040) 4096.
Definition bios (s : kstate) : Prop :=
  readable s (P2V 1024) 256 /\ readable s (first_area s) 1024 /\ readable s (P2V 983040) (16 * 4096).

Lemma readable_byte s a n i : readable s a n -> (i < n)%nat -> exists b, byte_of s (a + Z.of_nat i) = Some b /\ is_byte b.
Proof.
  intros (l & [Hb Hl] & <-) Hi. destruct (lookup_lt_is_Some_2 l i Hi) as [b E]. exists b. split; [by apply Hl|].
  by eapply Forall_lookup_1.
Qed.

Lemma word_lor h l : is_byte l -> Z.lor (Z.shiftl h 8) l = l + 256 * h.
Proof.
  intros Hl. rewrite Z.shiftl_mul_pow2 by lia. rewrite (lor_add 8); [lia..| |done]. by apply Z_mod_mult.
Qed.

Lemma search_area s a n :
  readable s (P2V a) (16 * n) ->
  (forall pre b post, slots (P2V a) n = pre ++ b :: post -> Forall (fun q => ~ mp_at s q) pre -> mp_at s b ->
     mpsearch1 a (16 * Z.of_nat n) s = Ret (Some b) s) /\
  (Forall (fun q => ~ mp_at s q) (slots (P2V a) n) -> mpsearch1 a (16 * Z.of_nat n) s = Ret None s).
Proof.
  intros Hr. unfold mpsearch1, MP_SIZE. rewrite (Z.mul_comm 16), Z.div_mul, Nat2Z.id, (Z.mul_comm _ 16) by lia.
  apply search_slots; [done|lia].
Qed.

(** [mpsearch] after the two words of the BIOS data area were read *)
Lemma mpsearch_eq s :
  bios s ->
  exists a, first_area s = P2V a /\
  mpsearch s = (r <- mpsearch1 a 1024 ;; match r with Some mp => ret (Some mp) | None => mpsearch1 983040 65536 end) s.
Proof.
  intros (Hb & _ & _).
  destruct (readable_byte _ _ _ 14 Hb) as (l & Hl & Bl); [lia|]. destruct (readable_byte _ _ _ 15 Hb) as (h & Hh & Bh); [lia|].
  destruct (readable_byte _ _ _ 19 Hb) as (l2 & Hl2 & Bl2); [lia|]. destruct (readable_byte _ _ _ 20 Hb) as (h2 & Hh2 & Bh2); [lia|].
  assert (ebda s = 16 * (l + 256 * h)) as He.
  { unfold ebda, word16. change (P2V 1024 + 14 + 1) with (P2V 1024 + Z.of_nat 15). change (P2V 1024 + 14) with (P2V 1024 + Z.of_nat 14). by rewrite Hl, Hh. }
  assert (base_end s = 1024 * (l2 + 256 * h2)) as Hbe.
  { unfold base_end, word16. change (P2V 1024 + 19 + 1) with (P2V 1024 + Z.of_nat 20). change (P2V 1024 + 19) with (P2V 1024 + Z.of_nat 19). by rewrite Hl2, Hh2. }
  exists (if ebda s =? 0 then u32 (base_end s - 1024) else ebda s). split; [done|].
  unfold mpsearch. etrans; [eapply bind_eq, kbyte_eq; exact Hh|]. etrans; [eapply bind_eq, kbyte_eq; exact Hl|]. cbn zeta.
  rewrite word_lor, Z.shiftl_mul_pow2 by (done || lia). change (2 ^ 4) with 16. rewrite (Z.mul_comm _ 16), <- He.
  destruct (ebda s =? 0); cbn [negb]; [|done].
  assert ((h <- kbyte (P2V 1024 + 20) ;; l <- kbyte (P2V 1024 + 19) ;; mpsearch1 (u32 (Z.lor (Z.shiftl h 8) l * 1024 - 1024)) 1024) s
    = mpsearch1 (u32 (base_end s - 1024)) 1024 s) as E.
  { etrans; [eapply bind_eq, kbyte_eq; exact Hh2|]. etrans; [eapply bind_eq, kbyte_eq; exact Hl2|]. cbn beta.
    rewrite word_lor by done. by rewrite (Z.mul_comm _ 1024), <- Hbe. }
  unfold bind at 1. rewrite E. done.
Qed.

Lemma mpsearch_first s pre a post :
  bios s -> candidates s = pre ++ a :: post -> Forall (fun q => ~ mp_at s q) pre -> mp_at s a ->
  mpsearch s = Ret (Some a) s.
Proof.
  intros Hbios Hc Hpre Ha. destruct (mpsearch_eq s Hbios) as (b & Hb & ->). destruct Hbios as (_ & H1 & H2).
  rewrite Hb in H1. destruct (search_area s b 64 H1) as [Hit1 Miss1]. destruct (search_area s 983040 4096 H2) as [Hit2 _].
  unfold candidates in Hc. rewrite Hb in Hc. apply app_eq_app in Hc as (k & [[Hs Hk]|[Hs Hk]]).
  - destruct k as [|a' k]; cbn [app] in Hk.
    + rewrite app_nil_r in Hs. rewrite Hs in Miss1. etrans; [eapply bind_eq; by apply Miss1|]. by apply (Hit2 [] a post).
    + injection Hk as <- ->. etrans; [eapply bind_eq; by eapply Hit1|]. done.
  - subst pre. apply Forall_app in Hpre as [Hp1 Hp2]. etrans; [eapply bind_eq; by apply Miss1|]. by apply (Hit2 k a post).
Qed.

Lemma mpsearch_none s : bios s -> Forall (fun q => ~ mp_at s q) (candidates s) -> mpsearch s = Ret None s.
Proof.
  intros Hbios Hc. destruct (mpsearch_eq s Hbios) as (b & Hb & ->). destruct Hbios as (_ & H1 & H2). rewrite Hb in H1.
  unfold candidates in Hc. rewrite Hb in Hc. apply Forall_app in Hc as [Hc1 Hc2].
  etrans; [eapply bind_eq; by apply (search_area s b 64)|]. by apply (search_area s 983040 4096).
Qed.

(** ** The configuration table *)

Inductive mpentry :=
| EProc (apicid : Z) (rest : list Z)
| EIoapic (apicno : Z) (rest : list Z)
| EOther (ty : Z) (rest : list Z).

Definition encode (e : mpentry) : list Z :=
  match e with
  | EProc i rest => MPPROC :: i :: rest
  | EIoapic i rest => MPIOAPIC :: i :: rest
  | EOther ty rest => ty :: rest
  end.
Definition encodes (es : list mpentry) : list Z := concat (encode <$> es).

Definition wf_entry (e : mpentry) : Prop :=
  match e with
  | EProc _ rest => length rest = 18%nat
  | EIoapic _ rest => length rest = 6%nat
  | EOther ty rest => ty ∈ [MPBUS; MPIOINTR; MPLINTR] /\ length rest = 7%nat
  end.

Definition cpu_ids (es : list mpentry) : list Z := omap (fun e => match e with EProc i _ => Some i | _ => None end) es.
Definition io_ids (es : list mpentry) : list Z := omap (fun e => match e with EIoapic i _ => Some i | _ => None end) es.

(** The header and the entries of a table that [mpconfig] accepts. *)
Definition table (hdr : list Z) (es : list mpentry) : Prop :=
  length hdr = 44%nat /\ sub 0 4 hdr = lit "PCMP" /\ (hdr !! 6%nat = Some 1 \/ hdr !! 6%nat = Some 4) /\
  le_val (sub 4 2 hdr) = Z.of_nat (length (hdr ++ encodes es)) /\
  total (hdr ++ encodes es) mod 256 = 0 /\ Forall wf_entry es.

Section mpinit.
Context `{Ports}.
Implicit Types x : machine.

(** What an entry makes the kernel remember. *)
Definition enter x (e : mpentry) : machine :=
  match e with
  | EProc i _ => if ncpu x <? NCPU then set_ncpu (ncpu x + 1) (set_apicids (<[Z.to_nat (ncpu x) := i]> (apicids x)) x) else x
  | EIoapic i _ => set_ioapicid i x
  | EOther _ _ => x
  end.

Lemma kernel_eq {A} (m : KM A) x a : m (ks x) = Ret a (ks x) -> kernel m x = Ret a x.
Proof using Type. intros E. unfold kernel. rewrite E. by destruct x. Qed.

Lemma ks_enter x e : ks (enter x e) = ks x.
Proof using Type. destruct e; cbn; [by case_match|done..]. Qed.

Lemma mp_loop_step fuel p e x en l :
  bytes_at (ks x) p (encode en ++ l) -> wf_entry en -> p + Z.of_nat (length (encode en)) <= e ->
  mp_loop (S fuel) p e true x = mp_loop fuel (p + Z.of_nat (length (encode en))) e true (enter x en).
Proof using Type.
  intros Hb Hwf He. cbn [mp_loop]. destruct en as [i rest|i rest|ty rest]; cbn [encode app wf_entry length] in *;
    (rewrite (proj2 (Z.ltb_lt p e)) by lia); apply bytes_at_cons in Hb as (_ & H0 & Hb).
  - apply bytes_at_cons in Hb as (_ & H1 & _). etrans; [eapply bind_eq, kernel_eq, kbyte_eq; exact H0|]. cbn [Z.eqb MPPROC].
    unfold bind at 1, get. unfold PROC_SIZE, enter. rewrite Hwf. destruct (ncpu x <? NCPU).
    + etrans; [eapply bind_eq; etrans; [eapply bind_eq, kernel_eq, kbyte_eq; exact H1|]; reflexivity|]. done.
    + done.
  - apply bytes_at_cons in Hb as (_ & H1 & _). etrans; [eapply bind_eq, kernel_eq, kbyte_eq; exact H0|]. cbn [Z.eqb MPPROC MPIOAPIC Pos.eqb].
    etrans; [eapply bind_eq, kernel_eq, kbyte_eq; exact H1|]. unfold IOAPIC_SIZE. rewrite Hwf. done.
  - etrans; [eapply bind_eq, kernel_eq, kbyte_eq; exact H0|]. destruct Hwf as [Hty Hlen]. rewrite Hlen.
    set_unfold in Hty. destruct_or!; subst ty; done.
Qed.

Lemma mp_loop_entries es fuel p e x :
  bytes_at (ks x) p (encodes es) -> Forall wf_entry es -> e = p + Z.of_nat (length (encodes es)) -> (length es < fuel)%nat ->
  mp_loop fuel p e true x = Ret true (foldl enter x es).
Proof using Type.
  revert fuel p x. induction es as [|en es IH]; intros fuel p x Hb Hwf He Hf; (destruct fuel as [|fuel]; [lia|]).
  { cbn [mp_loop]. cbn [encodes fmap list_fmap concat length] in He. by rewrite (proj2 (Z.ltb_ge _ _)) by lia. }
  apply Forall_cons in Hwf as [Hen Hwf]. unfold encodes in *. cbn [fmap list_fmap concat] in *. rewrite length_app in He.
  rewrite (mp_loop_step _ _ _ _ en (concat (encode <$> es))) by (done || lia). cbn [foldl].
  apply bytes_at_app in Hb as [_ Hb]. apply IH; [by rewrite ks_enter|done|lia|cbn [length] in Hf; lia].
Qed.

(** An entry of unknown type is never passed. *)
Theorem unknown_entry_hangs fuel p e x ty ismp :
  byte_of (ks x) p = Some ty -> p < e -> ty ∉ [MPPROC; MPBUS; MPIOAPIC; MPIOINTR; MPLINTR] ->
  mp_loop fuel p e ismp x = Panic "out of fuel".
Proof using Type.
  intros Hb He Hty. revert ismp. induction fuel as [|fuel IH]; intros ismp; [done|]. cbn [mp_loop].
  rewrite (proj2 (Z.ltb_lt p e)) by lia. etrans; [eapply bind_eq, kernel_eq, kbyte_eq; exact Hb|].
  assert (forall k, k ∈ [MPPROC; MPBUS; MPIOAPIC; MPIOINTR; MPLINTR] -> (ty =? k) = false) as Hk.
  { intros k Hk. apply Z.eqb_neq. intros ->. contradiction. }
  rewrite (Hk MPPROC), (Hk MPIOAPIC), (Hk MPBUS), (Hk MPIOINTR), (Hk MPLINTR) by set_solver. apply IH.
Qed.

Lemma enter_fold es x :
  0 <= ncpu x <= NCPU -> length (apicids x) = Z.to_nat NCPU ->
  let x' := foldl enter x es in
  ncpu x' = Z.min NCPU (ncpu x + Z.of_nat (length (cpu_ids es))) /\
  take (Z.to_nat (ncpu x')) (apicids x') = take (Z.to_nat NCPU) (take (Z.to_nat (ncpu x)) (apicids x) ++ cpu_ids es) /\
  ioapicid x' = default (ioapicid x) (last (io_ids es)) /\
  ks x' = ks x /\ lapic x' = lapic x /\ hw x' = hw x.
Proof using Type.
  revert x. induction es as [|e es IH]; intros x Hn Hl; cbn [foldl].
  { cbn zeta. cbn [cpu_ids io_ids omap list_omap length last default]. rewrite app_nil_r, Z.add_0_r, Z.min_r, take_take, Nat.min_r by lia. done. }
  destruct e as [i rest|i rest|ty rest]; cbn [enter].
  - change (cpu_ids (EProc i rest :: es)) with (i :: cpu_ids es). change (io_ids (EProc i rest :: es)) with (io_ids es).
    destruct (Z.ltb_spec (ncpu x) NCPU) as [Hlt|Hge].
    + edestruct (IH (set_ncpu (ncpu x + 1) (set_apicids (<[Z.to_nat (ncpu x) := i]> (apicids x)) x))) as (I1 & I2 & I3 & I4);
        [cbn [ncpu set_ncpu]; lia|cbn [apicids set_ncpu set_apicids]; by rewrite length_insert|].
      cbn [ncpu set_ncpu apicids set_apicids ioapicid ks lapic hw] in *. rewrite I2, I1, I3. split; [cbn [length]; lia|]. split; [|done].
      f_equal. replace (Z.to_nat (ncpu x + 1)) with (S (Z.to_nat (ncpu x))) by lia.
      rewrite (take_S_r _ _ i) by (apply list_lookup_insert_eq; unfold NCPU in *; lia).
      rewrite take_insert_ge by lia. by rewrite <- app_assoc.
    + destruct (IH x Hn Hl) as (I1 & I2 & I34). rewrite I1. split; [cbn [length]; lia|]. split; [|done].
      rewrite <- I1, I2. rewrite !take_app_le by (rewrite length_take; lia). done.
  - change (cpu_ids (EIoapic i rest :: es)) with (cpu_ids es). change (io_ids (EIoapic i rest :: es)) with (i :: io_ids es).
    destruct (IH (set_ioapicid i x) Hn Hl) as (I1 & I2 & I3 & I4). split; [done|]. split; [done|]. split; [|done].
    rewrite I3, last_cons. by destruct (last (io_ids es)).
  - by apply IH.
Qed.
End mpinit.

Lemma field_eq s a l o n v : bytes_at s a l -> (o + n <= length l)%nat -> le_val (sub o n l) = v -> knum n (a + Z.of_nat o) s = Ret v s.
Proof.
  intros Hb Hl <-. rewrite <- (length_sub o n l) at 1 by done. apply knum_eq. by apply bytes_at_sub.
Qed.

Lemma byte_eq s a l o b : bytes_at s a l -> l !! o = Some b -> kbyte (a + Z.of_nat o) s = Ret b s.
Proof. intros [_ Hb] Ho. by apply kbyte_eq, Hb. Qed.

(** The structure at [a] is the first, and the table it points to has the entries [es]. *)
Definition mp_system (s : kstate) (a : Z) (hdr : list Z) (es : list mpentry) : Prop :=
  bios s /\ (exists pre post, candidates s = pre ++ a :: post /\ Forall (fun q => ~ mp_at s q) pre) /\
  (exists l, bytes_at s a l /\ floating l /\ le_val (sub 4 4 l) <> 0 /\
     bytes_at s (P2V (le_val (sub 4 4 l))) (hdr ++ encodes es)) /\
  table hdr es.

Lemma encodes_length es : (length es <= length (encodes es))%nat.
Proof.
  induction es as [|e es IH]; [done|]. unfold encodes in *. cbn [fmap list_fmap concat length]. rewrite length_app.
  destruct e; cbn [encode length]; lia.
Qed.

Lemma table_short s a hdr l :
  bytes_at s a (hdr ++ l) -> length hdr = 44%nat -> le_val (sub 4 2 hdr) = Z.of_nat (length (hdr ++ l)) ->
  Z.of_nat (length (hdr ++ l)) < 65536 /\ Z.of_nat (length l) < 65536.
Proof.
  intros Hb Hlen Hl. apply bytes_at_app in Hb as [Hb _]. destruct (bytes_at_sub s a hdr 4 2) as [Hf _]; [done|lia|].
  pose proof (le_val_range _ Hf) as Hr. rewrite length_sub in Hr by lia. rewrite length_app in *. change (256 ^ Z.of_nat 2) with 65536 in Hr. lia.
Qed.

Lemma mpconfig_eq s a hdr es :
  mp_system s a hdr es ->
  exists conf, bytes_at s conf (hdr ++ encodes es) /\ mpconfig s = Ret (Some (a, conf)) s.
Proof.
  intros (Hbios & (pre & post & Hc & Hpre) & (l & Hl & Hf & Hpa & Hb) & (Hlen & Hsig & Hver & Hlenf & Hsum & _)).
  eexists. split; [exact Hb|]. set (conf := P2V _) in *. pose proof Hf as (Hl16 & _).
  unfold mpconfig. etrans; [eapply bind_eq, (mpsearch_first s pre a post); try done; by exists l|].
  etrans; [eapply bind_eq, (field_eq s a l 4 4); [done|lia|reflexivity]|]. cbn beta. rewrite (proj2 (Z.eqb_neq _ _)) by done. fold conf. cbn zeta.
  pose proof Hb as Hh. apply bytes_at_app in Hh as [Hh _].
  etrans; [eapply bind_eq, (signed_eq s conf (sub 0 4 hdr)); [|by rewrite Hsig]|].
  { rewrite <- (Z.add_0_r conf). apply (bytes_at_sub s conf hdr 0 4); [done|lia]. }
  rewrite bool_decide_true by done. cbn [negb].
  assert (exists v, hdr !! 6%nat = Some v /\ (v = 1 \/ v = 4)) as (v & Hv & Hv14) by naive_solver.
  etrans; [eapply bind_eq, (byte_eq s conf hdr 6 v); done|].
  assert (negb (v =? 1) && negb (v =? 4) = false) as -> by (by destruct Hv14 as [-> | ->]).
  etrans; [eapply bind_eq, (field_eq s conf hdr 4 2); [done|lia|exact Hlenf]|]. rewrite Nat2Z.id.
  etrans; [eapply bind_eq, sum_eq; [done|]|].
  { by apply (table_short s conf). }
  unfold u8. rewrite Hsum. done.
Qed.

Lemma imcr_eq `{Ports} (i : Z) (x : machine) :
  exists c, (if negb (i =? 0) then out_byte 34 112 ;;; v <- in_byte 35 ;; out_byte 35 (Z.lor v 1) else ret tt) x = Ret tt (set_hw c x).
Proof.
  destruct (negb _); [|exists (hw x); by destruct x].
  unfold bind, out_byte, in_byte, modify. cbn [hw set_hw]. destruct (inb 35 _) as [v c]. by eexists.
Qed.

(** [mpinit] has taken what the table says. *)
Definition mp_found `{Ports} (x : machine) (hdr : list Z) (es : list mpentry) : Prop :=
  exists x', mpinit x = Ret tt x' /\ ks x' = ks x /\
    lapic x' = le_val (sub 36 4 hdr) /\
    ncpu x' = Z.min NCPU (Z.of_nat (length (cpu_ids es))) /\
    take (Z.to_nat (ncpu x')) (apicids x') = take (Z.to_nat NCPU) (cpu_ids es) /\
    ioapicid x' = default (ioapicid x) (last (io_ids es)).

Lemma mpinit_table `{Ports} (x : machine) (a : Z) (hdr : list Z) (es : list mpentry) :
  mp_system (ks x) a hdr es -> ncpu x = 0 -> length (apicids x) = Z.to_nat NCPU -> mp_found x hdr es.
Proof.
  intros Hsys Hn Hl. destruct (mpconfig_eq _ _ _ _ Hsys) as (conf & Hb & Hcfg).
  destruct Hsys as (_ & _ & (l & Hla & [Hl16 _] & _ & _) & (Hlen & _ & _ & Hlenf & _ & Hwf)).
  pose proof Hb as Hh. apply bytes_at_app in Hh as [Hh He]. rewrite Hlen in He.
  set (x1 := set_lapic (le_val (sub 36 4 hdr)) x).
  destruct (enter_fold es x1) as (R1 & R2 & R3 & R4 & R5 & _); [cbn; unfold NCPU; lia|done|]. set (x2 := foldl enter x1 es) in *.
  destruct (lookup_lt_is_Some_2 l 12) as [im Him]; [lia|]. destruct (imcr_eq im x2) as (c & Ec).
  exists (set_hw c x2). split.
  - unfold mpinit. etrans; [eapply bind_eq, kernel_eq, Hcfg|]. cbn beta iota.
    etrans; [eapply bind_eq, kernel_eq, (field_eq _ conf hdr 36 4); [done|lia|reflexivity]|].
    etrans; [eapply bind_eq; reflexivity|]. fold x1.
    etrans; [eapply bind_eq, kernel_eq, (field_eq _ conf hdr 4 2); [done|lia|exact Hlenf]|].
    pose proof (table_short _ _ _ _ Hb Hlen Hlenf) as Hshort. pose proof (encodes_length es).
    etrans; [eapply bind_eq, (mp_loop_entries es); [exact He|done|rewrite length_app; unfold CONF_SIZE; lia|lia]|]. fold x2. cbn [negb].
    etrans; [eapply bind_eq, kernel_eq, (byte_eq _ a l 12 im); [by rewrite R4|done]|]. exact Ec.
  - cbn [set_hw ks lapic ncpu apicids ioapicid]. rewrite R1, R3, R4, R5. subst x1. cbn [set_lapic ks lapic ncpu apicids ioapicid] in *.
    rewrite Hn in *. rewrite R1 in R2. done.
Qed.

(** C37: [mpinit] looks for the MP structure in the first kilobyte of the EBDA (or, if there is
    none, the last one of base memory) and then in the ROM from 0xF0000 to 0xFFFFF.  If the
    first one there has a valid configuration table, [mpinit] returns: it sets [lapic] to the
    address in the table's header, records the APIC ids of the processors in the order of the
    table, at most [NCPU] of them, and the id of the last I/O APIC.  If there is none there,
    whatever is elsewhere in memory, in particular in the ROM from 0xE0000 to 0xEFFFF, it panics. *)
Theorem mpinit_finds_cpus `{Ports} (x : machine) :
  bios (ks x) ->
  (forall a hdr es, mp_system (ks x) a hdr es -> ncpu x = 0 -> length (apicids x) = Z.to_nat NCPU -> mp_found x hdr es) /\
  (Forall (fun a => ~ mp_at (ks x) a) (candidates (ks x)) -> mpinit x = Panic "Expect to run on an SMP").
Proof.
  intros Hb. split; [intros a hdr es; apply mpinit_table|]. intros Hc. unfold mpinit. etrans; [eapply bind_eq, kernel_eq|].
  - unfold mpconfig. etrans; [eapply bind_eq; by apply mpsearch_none|]. done.
  - done.
Qed.

(** ** A machine with two processors *)

Lemma page_bytes s a pg :
  a mod PGSIZE = 0 -> mem s !! a = Some pg -> length pg = 4096%nat -> Forall is_byte pg -> bytes_at s a pg.
Proof.
  intros Ha Hm Hl Hb. split; [done|]. intros i b Hi. pose proof (lookup_lt_Some _ _ _ Hi) as Hlt. rewrite Hl in Hlt.
  unfold byte_of, PGSIZE in *. assert ((a + Z.of_nat i) mod 4096 = Z.of_nat i) as ->.
  { rewrite Z.add_mod, Ha, Z.add_0_l, Z.mod_mod by lia. apply Z.mod_small. lia. }
  replace (a + Z.of_nat i - Z.of_nat i) with a by lia. rewrite Hm. cbn [mbind option_bind]. by rewrite Nat2Z.id.
Qed.

Lemma readable_pages s a n :
  a mod PGSIZE = 0 -> (forall k, (k < n)%nat -> mem s !! (a + 4096 * Z.of_nat k) = Some (replicate 4096 0)) ->
  readable s a (n * 4096).
Proof.
  revert a. induction n as [|n IH]; intros a Ha Hm. { exists []. split; [split; [constructor|done]|done]. }
  destruct (IH (a + 4096)) as (l & Hl & Hlen).
  { unfold PGSIZE in *. rewrite Z.add_mod, Ha by lia. done. }
  { intros k Hk. rewrite <- (Hm (S k)) by lia. f_equal. lia. }
  exists (replicate 4096 0 ++ l). rewrite bytes_at_app, length_app, length_replicate, Hlen. split; [|lia]. split; [|done].
  apply page_bytes; [done|rewrite <- (Hm 0%nat) by lia; f_equal; lia|by rewrite length_replicate|].
  apply Forall_replicate. unfold is_byte. lia.
Qed.

Lemma readable_sub s a n o m : readable s a n -> (o + m <= n)%nat -> readable s (a + Z.of_nat o) m.
Proof. intros (l & Hl & <-) H. exists (sub o m l). split; [by apply bytes_at_sub|by apply length_sub]. Qed.

Definition demo_mp : list Z := lit "_MP_" ++ le_bytes 4 654592 ++ [1; 4; 154; 0; 0; 0; 0; 0].
Definition demo_entries : list mpentry :=
  [EProc 0 (replicate 18 0); EProc 1 (replicate 18 0); EIoapic 2 (replicate 6 0)].
Definition demo_hdr : list Z :=
  lit "PCMP" ++ le_bytes 2 92 ++ [4; 138] ++ replicate 20 0 ++ le_bytes 4 0 ++ [0; 0; 3; 0] ++ le_bytes 4 4276092928 ++ [0; 0; 0; 0].
Definition demo_ebda : list Z := splice 3072 demo_mp (splice 3328 (demo_hdr ++ encodes demo_entries) (replicate 4096 0)).
Definition demo_low : list Z := wr 2 1038 40896 (replicate 4096 0).
Definition demo_pages : gmap Z (list Z) :=
  <[P2V 0 := demo_low]> (<[P2V 651264 := demo_ebda]>
    (list_to_map ((fun k => (P2V 983040 + 4096 * Z.of_nat k, replicate 4096 0)) <$> seq 0 16))).
Definition demo_machine `{Ports} (c : ctl) : machine :=
  mkMachine (mkK [] [] None 1 None demo_pages 0 false [] ∅ [] (mkLog 0 0 0 false 0 0 []) (mkSb 0 0 0 0 0 0 0) [] [] ∅ [] 0 null_console 0)
    None (fun _ => None) false 0 0 0 0 (replicate 8 0) (replicate 8 false) false c.

Lemma forall_bytes l : forallb (fun b => (0 <=? b) && (b <? 256)) l = true -> Forall is_byte l.
Proof. intros Hb. apply Forall_forall. intros b Hin. rewrite forallb_forall in Hb. specialize (Hb b). rewrite list_elem_of_In in Hin. apply Hb in Hin. unfold is_byte. lia. Qed.

Lemma demo_mp_floating : floating demo_mp /\ le_val (sub 4 4 demo_mp) = 654592.
Proof. vm_compute. done. Qed.

Lemma demo_table : table demo_hdr demo_entries.
Proof. split; [done|]. split; [by vm_compute|]. split; [right; by vm_compute|]. split; [by vm_compute|]. split; [by vm_compute|]. repeat constructor. Qed.

Lemma demo_system `{Ports} (c : ctl) : mp_system (ks (demo_machine c)) (P2V 654336) demo_hdr demo_entries.
Proof.
  set (s := ks _). assert (bytes_at s (P2V 651264) demo_ebda) as He.
  { apply page_bytes; [done|by vm_compute|by vm_compute|apply forall_bytes; by vm_compute]. }
  assert (bytes_at s (P2V 0) demo_low) as Hl.
  { apply page_bytes; [done|by vm_compute|by vm_compute|apply forall_bytes; by vm_compute]. }
  assert (length demo_ebda = 4096%nat /\ length demo_low = 4096%nat) as [He4 Hl4] by (by vm_compute).
  assert (first_area s = P2V 654336) as Hfa by (by vm_compute).
  assert (bytes_at s (P2V 654336) demo_mp) as Hmp.
  { change (P2V 654336) with (P2V 651264 + Z.of_nat 3072). replace demo_mp with (sub 3072 16 demo_ebda) by (by vm_compute).
    apply bytes_at_sub; [exact He|rewrite He4; lia]. }
  split; [|split; [|split]].
  - split; [|split].
    + change (P2V 1024) with (P2V 0 + Z.of_nat 1024). apply (readable_sub s (P2V 0) 4096); [exists demo_low; split; [exact Hl|exact Hl4]|lia].
    + rewrite Hfa. change (P2V 654336) with (P2V 651264 + Z.of_nat 3072). apply (readable_sub s (P2V 651264) 4096); [exists demo_ebda; split; [exact He|exact He4]|lia].
    + apply readable_pages; [done|]. intros k Hk. do 16 (destruct k as [|k]; [by vm_compute|]). lia.
  - eexists [], _. split; [unfold candidates; rewrite Hfa, (slots_S _ 63); reflexivity|constructor].
  - destruct demo_mp_floating as [Hf Hpa]. exists demo_mp. rewrite Hpa. split; [exact Hmp|]. split; [exact Hf|]. split; [discriminate|].
    change (P2V 654592) with (P2V 651264 + Z.of_nat 3328).
    replace (demo_hdr ++ encodes demo_entries) with (sub 3328 92 demo_ebda) by (by vm_compute).
    apply bytes_at_sub; [exact He|rewrite He4; lia].
  - exact demo_table.
Qed.

#[local] Instance no_ports : Ports := {| ctl := unit; inb _ c := (0, c); outb _ _ c := c; insl _ _ c := ([], c); outsl _ _ c := c; patience := 0 |}.

Lemma mpinit_finds_cpus_witness :
  exists x', mpinit (demo_machine (H := no_ports) tt) = Ret tt x' /\ ncpu x' = 2 /\ take 2 (apicids x') = [0; 1] /\ ioapicid x' = 2 /\ lapic x' = 4276092928.
Proof.
  destruct (mpinit_finds_cpus (demo_machine (H := no_ports) tt)) as [Hm _]; [apply demo_system|].
  destruct (Hm (P2V 654336) demo_hdr demo_entries) as (x' & E & _ & H1 & H2 & H3 & H4); [apply demo_system|done|done|].
  exists x'. rewrite H2 in H3. repeat split; done.
Defined.
