(* ===== verification/Uart.v ===== *)
(** * Uart: the serial port (uart.c)

    [Console.uartputc] is the byte that the console sends; [uart_putc] is the routine with
    its wait for the port, and [uart_putc_sends] says that it sends that byte.  [consoleintr]
    calls [uartgetc] until it returns -1: [uart_drain] are the characters it gets. *)

From stdpp Require Import functions base gmap list strings.
From Stdlib Require Import ZArith Lia.
From S2P Require Import Prelude State Core Console Trap Ports Apic.

Local Open Scope Z_scope.
Local Open Scope kernel_scope.

Definition COM1 : Z := 1016.

Section uart.
Context `{Mmio}.

(** [for(i = 0; i < 128 && !(inb(COM1+5) & 0x20); i++)] *)
Fixpoint uart_wait (n : nat) : HM unit :=
  match n with
  | O => ret tt
  | S n' => v <- in_byte (COM1 + 5) ;; if Z.land v 32 =? 0 then uart_wait n' else ret tt
  end.

Definition uart_putc (c : Z) : HM unit :=
  u <- get uart ;;
  if negb u then ret tt else
  uart_wait 128 ;;;
  out_byte (COM1 + 0) c.

Definition uartinit : HM unit :=
  out_byte (COM1 + 2) 0 ;;;
  out_byte (COM1 + 3) 128 ;;;
  out_byte (COM1 + 0) (115200 / 9600) ;;;
  out_byte (COM1 + 1) 0 ;;;
  out_byte (COM1 + 3) 3 ;;;
  out_byte (COM1 + 4) 0 ;;;
  out_byte (COM1 + 1) 1 ;;;
  v <- in_byte (COM1 + 5) ;;
  if v =? 255 then ret tt else
  modify set_uart ;;;
  _ <- in_byte (COM1 + 2) ;;
  _ <- in_byte (COM1 + 0) ;;
  ioapicenable IRQ_COM1 0 ;;;
  for_each (lit "xv6..." ++ [10]) uart_putc.

Definition uartgetc : HM Z :=
  u <- get uart ;;
  if negb u then ret (-1) else
  v <- in_byte (COM1 + 5) ;;
  if Z.land v 1 =? 0 then ret (-1) else in_byte (COM1 + 0).

Fixpoint uart_drain (n : nat) : HM (list Z) :=
  match n with
  | O => panic "out of fuel"
  | S n' => c <- uartgetc ;; if c <? 0 then ret [] else l <- uart_drain n' ;; ret (c :: l)
  end.

Definition uartintr : HM unit :=
  l <- uart_drain patience ;;
  kernel (consoleintr l).
End uart.

(** A port that sends what is stored and keeps it while its status is read. *)
Class UartDev `{Ports} := {
  sent : ctl -> list Z;
  uart_sends : forall v c, sent (outb (COM1 + 0) v c) = sent c ++ [v];
  uart_status : forall c, sent (inb (COM1 + 5) c).2 = sent c
}.

Section sends.
Context `{UartDev}.
Implicit Types x : machine.

Lemma uart_wait_keeps n x : exists c, uart_wait n x = Ret tt (set_hw c x) /\ sent c = sent (hw x).
Proof using Type.
  revert x. induction n as [|n IH]; intros x; cbn [uart_wait]; [exists (hw x); by destruct x|].
  pose proof (uart_status (hw x)) as Hs. unfold bind at 1, in_byte. destruct (inb (COM1 + 5) (hw x)) as [v c]. cbn [snd] in Hs.
  destruct (Z.land v 32 =? 0); [|by exists c]. destruct (IH (set_hw c x)) as (c' & -> & Hc'). exists c'. split; [done|]. by rewrite Hc'.
Qed.

(** A character of the console is sent once, after those before it. *)
Lemma uart_putc_sends ch x :
  uart x = true -> exists c, uart_putc ch x = Ret tt (set_hw c x) /\ sent c = sent (hw x) ++ [u8 ch].
Proof using Type.
  intros Hu. destruct (uart_wait_keeps 128 x) as (c & E & Hc). eexists. split.
  - unfold uart_putc, bind at 1, get. rewrite Hu. cbn [negb]. etrans; [eapply bind_eq; exact E|]. reflexivity.
  - cbn [hw set_hw]. by rewrite uart_sends, Hc.
Qed.

(** The bytes of the serial port are those of the console's record of it. *)
Theorem uart_refines l x k :
  uart x = true -> sent (hw x) = uart_out (console k) ->
  exists c k', for_each l uart_putc x = Ret tt (set_hw c x) /\ for_each l uartputc k = Ret tt k' /\
    sent c = uart_out (console k').
Proof using Type.
  revert x k. induction l as [|ch l IH]; intros x k Hu Hs; cbn [for_each].
  { exists (hw x), k. split; [by destruct x|done]. }
  destruct (uart_putc_sends ch x Hu) as (c & E & Hc).
  destruct (IH (set_hw c x) (set_console (set_uart_out (uart_out (console k) ++ [u8 ch]) (console k)) k)) as (c' & k' & E1 & E2 & Hk); [done|by cbn; rewrite Hc, Hs|].
  exists c', k'. split; [etrans; [eapply bind_eq; exact E|exact E1]|]. by split.
Qed.
End sends.
