(* ===== verification/Boot.v ===== *)
(** * Boot: the boot loader (bootmain.c)

    bootasm.S enters [bootmain] in protected mode without paging: memory is all of the
    physical addresses, a function to bytes.  The disk is behind the ports.  [bootmain]
    returns [None] when the image is no ELF file, and otherwise the address it jumps to. *)

From stdpp Require Import functions base gmap list strings.
From Stdlib Require Import ZArith Lia.
From S2P Require Import Prelude State Core Exec Str Ports Ide IdeSpec.

Local Open Scope Z_scope.
Local Open Scope kernel_scope.

Definition SECTSIZE : Z := 512.

(** A number of [n] bytes in memory, and [stosb] of x86.h on the state. *)
Definition num_at (n : nat) (m : memory) (a : Z) : Z := le_val ((fun i => m (u32 (a + Z.of_nat i))) <$> seq 0 n).

Section boot.
Context `{Ports}.

Record bootst := mkBoot { bmem : memory; bhw : ctl }.
Notation BM := (M (option chan) bootst).

Definition boot_inb (port : Z) : BM Z := fun x => let '(v, c) := inb port (bhw x) in Ret v (mkBoot (bmem x) c).
Definition boot_outb (port v : Z) : BM unit := modify (fun x => mkBoot (bmem x) (outb port (u8 v) (bhw x))).

Fixpoint waitdisk (n : nat) : BM unit :=
  match n with
  | O => panic "out of fuel"
  | S n' => v <- boot_inb 503 ;; if negb (Z.land v 192 =? 64) then waitdisk n' else ret tt
  end.

Definition readsect (dst offset : Z) : BM unit :=
  waitdisk patience ;;;
  boot_outb 498 1 ;;;
  boot_outb 499 offset ;;;
  boot_outb 500 (Z.shiftr offset 8) ;;;
  boot_outb 501 (Z.shiftr offset 16) ;;;
  boot_outb 502 (Z.lor (Z.shiftr offset 24) 224) ;;;
  boot_outb 503 32 ;;;
  waitdisk patience ;;;
  (fun x => let '(d, c) := insl 496 (Z.to_nat (SECTSIZE / 4)) (bhw x) in Ret tt (mkBoot (store_bytes (bmem x) dst d) c)).

(** [for(; pa < epa; pa += SECTSIZE, offset++)] *)
Fixpoint readseg_loop (n : nat) (pa epa offset : Z) : BM unit :=
  if pa <? epa then
    match n with
    | O => panic "out of fuel"
    | S n' => readsect pa offset ;;; readseg_loop n' (u32 (pa + SECTSIZE)) epa (u32 (offset + 1))
    end
  else ret tt.

Definition readseg (pa count offset : Z) : BM unit :=
  let epa := u32 (pa + count) in
  let pa := u32 (pa - offset mod SECTSIZE) in
  let offset := u32 (offset / SECTSIZE + 1) in
  readseg_loop (Z.to_nat (count / SECTSIZE + 2)) pa epa offset.

(** A segment: the fields of [struct proghdr] at [ph]. *)
Definition load_ph (ph : Z) : BM unit :=
  pa <- get (fun x => num_at 4 (bmem x) (ph + 12)) ;;
  filesz <- get (fun x => num_at 4 (bmem x) (ph + 16)) ;;
  off <- get (fun x => num_at 4 (bmem x) (ph + 4)) ;;
  readseg pa filesz off ;;;
  filesz <- get (fun x => num_at 4 (bmem x) (ph + 16)) ;;
  memsz <- get (fun x => num_at 4 (bmem x) (ph + 20)) ;;
  if filesz <? memsz then
    modify (fun x => mkBoot (stosb (bmem x) (u32 (pa + filesz)) 0 (Z.to_nat (memsz - filesz))) (bhw x))
  else ret tt.

(** [for(; ph < eph; ph++)] *)
Fixpoint load_phs (n : nat) (ph : Z) : BM unit :=
  match n with
  | O => ret tt
  | S n' => load_ph ph ;;; load_phs n' (ph + PH_SIZE)
  end.

Definition bootmain : BM (option Z) :=
  let elf := 65536 in
  readseg elf 4096 0 ;;;
  magic <- get (fun x => num_at 4 (bmem x) elf) ;;
  if negb (magic =? ELF_MAGIC) then ret None else
  phoff <- get (fun x => num_at 4 (bmem x) (elf + 28)) ;;
  phnum <- get (fun x => num_at 2 (bmem x) (elf + 44)) ;;
  load_phs (Z.to_nat phnum) (elf + phoff) ;;;
  entry <- get (fun x => num_at 4 (bmem x) (elf + 24)) ;;
  ret (Some entry).
End boot.
Notation BM := (M (option chan) bootst).
