(* ===== verification/BootSpec.v ===== *)
(** * BootSpec: the boot loader loads the kernel

    [PolledDisk] is what [readsect] relies on of an ATA disk that is polled: after a read
    command it becomes ready and the data port gives the sector.  The kernel's image is on
    the disk from sector 1 on, its byte [o] is [F o].  [boot_image] are the conditions on an
    image that the linker script kernel.ld meets: the program headers are in the first page, the
    segments lie above the scratch space, and one that is loaded later starts, rounded down
    to a sector of the file, after the end of those before it. *)

From stdpp Require Import functions base gmap list strings.
From Stdlib Require Import ZArith Lia.
From S2P Require Import Prelude State Core Exec Str Ports Ide IdeSpec Boot.

Local Open Scope Z_scope.
Local Open Scope kernel_scope.

Class PolledDisk `{Ports} := {
  ready : (Z -> Z -> list Z) -> (Z -> Z) -> ctl -> Prop;
  ready_poll V R c : ready V R c -> exists r c', poll patience c = Some (r, c') /\ ready V R c';
  ready_outb V R c port v : ready V R c -> port ∈ [498; 499; 500; 501; 502] -> 0 <= v < 256 -> ready V (<[port := v]> R) (outb port v c);
  ready_read V R c : ready V R c -> reg_ok R ->
    exists r c1 c2 R', poll patience (outb 503 IDE_CMD_READ c) = Some (r, c1) /\
      insl 496 128 c1 = (V (reg_drive R) (reg_lba R), c2) /\ ready V R' c2
}.

(** The registers as [readsect] stores them name the sector. *)
Lemma sector_regs (R : Z -> Z) off :
  0 <= off < 2 ^ 28 ->
  let R' := <[502 := u8 (Z.lor (Z.shiftr off 24) 224)]> (<[501 := u8 (Z.shiftr off 16)]> (<[500 := u8 (Z.shiftr off 8)]>
              (<[499 := u8 off]> (<[498 := u8 1]> R)))) in
  reg_ok R' /\ reg_drive R' = 0 /\ reg_lba R' = off.
Proof.
  intros Ho. rewrite !Z.shiftr_div_pow2 by lia. intros R'.
  assert (0 <= off / 2 ^ 24 < 16) as Hh by (split; [apply Z.div_pos|apply Z.div_lt_upper_bound]; lia).
  assert (R' 502 = 224 + off / 2 ^ 24) as H502.
  { unfold R'. rewrite fn_lookup_insert, Z.lor_comm, (lor_add 4) by (done || lia). unfold u8. apply Z.mod_small. lia. }
  assert (R' 498 = 1 /\ R' 499 = u8 off /\ R' 500 = u8 (off / 2 ^ 8) /\ R' 501 = u8 (off / 2 ^ 16)) as (H498 & H499 & H500 & H501) by done.
  unfold reg_ok, reg_drive, reg_lba. rewrite H498, H499, H500, H501, H502.
  assert (Z.land (224 + off / 2 ^ 24) 15 = off / 2 ^ 24 /\ Z.land (224 + off / 2 ^ 24) 224 = 224 /\
    Z.land (Z.shiftr (224 + off / 2 ^ 24) 4) 1 = 0) as (-> & -> & ->).
  { revert Hh. generalize (off / 2 ^ 24). intros h Hh. assert (exists n, h = Z.of_nat n /\ (n < 16)%nat) as (n & -> & Hn) by (exists (Z.to_nat h); lia).
    do 16 (destruct n as [|n]; [done|]). lia. }
  split; [done|]. split; [done|]. unfold u8.
  pose proof (Z.div_mod off (2 ^ 8)). pose proof (Z.div_mod (off / 2 ^ 8) (2 ^ 8)). pose proof (Z.div_mod (off / 2 ^ 16) (2 ^ 8)).
  rewrite Z.div_div in * by lia. change (2 ^ 8 * 2 ^ 8) with (2 ^ 16) in *. change (2 ^ 16 * 2 ^ 8) with (2 ^ 24) in *. change 256 with (2 ^ 8). lia.
Qed.

(** The image [F] of [N] sectors from sector 1 on. *)
Definition stored (V : Z -> Z -> list Z) (F : Z -> Z) (N : Z) : Prop :=
  N < 2 ^ 28 /\ forall k, 0 <= k < N -> length (V 0 (k + 1)) = 512%nat /\
    forall i, 0 <= i < 512 -> default 0 (V 0 (k + 1) !! Z.to_nat i) = F (512 * k + i).

(** How many sectors [readseg] reads. *)
Definition sectors (count off : Z) : Z := (count + off mod 512 + 511) / 512.

Section boot.
Context `{IP : Ports} `{!PolledDisk}.
Implicit Types (x : bootst) (V : Z -> Z -> list Z).

Lemma waitdisk_eq n x : waitdisk n x = match poll n (bhw x) with Some (_, c) => Ret tt (mkBoot (bmem x) c) | None => Panic "out of fuel" end.
Proof using Type.
  revert x. induction n as [|n IH]; intros x; [done|]. cbn [waitdisk poll]. unfold bind, boot_inb. destruct (inb 503 (bhw x)) as [r c].
  change (Z.lor IDE_BSY IDE_DRDY) with 192. change IDE_DRDY with 64. destruct (_ =? _); cbn [negb]; [done|]. by rewrite IH.
Qed.

Lemma readsect_eq V R x dst off :
  ready V R (bhw x) -> 0 <= off < 2 ^ 28 ->
  exists c R', readsect dst off x = Ret tt (mkBoot (store_bytes (bmem x) dst (V 0 off)) c) /\ ready V R' c.
Proof using Type.
  intros Hr Ho. destruct (ready_poll _ _ _ Hr) as (r & c0 & E0 & Hr0).
  pose proof (sector_regs R off Ho) as (Hok & Hd & Hlba). set (R' := <[502 := _]> _) in *.
  assert (ready V R' (outb 502 (u8 (Z.lor (Z.shiftr off 24) 224)) (outb 501 (u8 (Z.shiftr off 16)) (outb 500 (u8 (Z.shiftr off 8))
            (outb 499 (u8 off) (outb 498 (u8 1) c0)))))) as Hr1.
  { repeat (apply ready_outb; [|set_solver|apply u8_range]). done. }
  destruct (ready_read _ _ _ Hr1 Hok) as (r1 & c1 & c2 & R2 & E1 & E2 & Hr2). rewrite Hd, Hlba in E2.
  exists c2, R2. split; [|done]. unfold readsect.
  etrans; [eapply bind_eq; rewrite waitdisk_eq, E0; reflexivity|]. do 6 (etrans; [eapply bind_eq; reflexivity|]).
  etrans; [eapply bind_eq; rewrite waitdisk_eq; cbn [bhw bmem]; change (u8 32) with IDE_CMD_READ; rewrite E1; reflexivity|].
  cbn [bhw bmem]. change (Z.to_nat (SECTSIZE / 4)) with 128%nat. by rewrite E2.
Qed.

Lemma readseg_loop_eq V F N R x n j pa epa k :
  stored V F N -> ready V R (bhw x) -> 0 <= pa -> 0 <= k -> k + Z.of_nat j <= N -> pa + 512 * Z.of_nat j < 2 ^ 32 ->
  pa + 512 * (Z.of_nat j - 1) < epa \/ j = O -> epa <= pa + 512 * Z.of_nat j -> (j <= n)%nat ->
  exists c R' m, readseg_loop n pa epa (k + 1) x = Ret tt (mkBoot m c) /\ ready V R' c /\
    forall a, m a = if decide (pa <= a < pa + 512 * Z.of_nat j) then F (512 * k + (a - pa)) else bmem x a.
Proof using Type.
  intros [HN Hst]. revert R x n pa k. induction j as [|j IH]; intros R x n pa k Hr Hpa Hk HkN Htop Hlo Hhi Hn.
  { exists (bhw x), R, (bmem x). split; [|split; [done|]].
    - destruct n; cbn [readseg_loop]; rewrite (proj2 (Z.ltb_ge _ _)) by lia; by destruct x.
    - intros a. rewrite decide_False by lia. done. }
  destruct n as [|n]; [lia|]. cbn [readseg_loop]. rewrite (proj2 (Z.ltb_lt _ _)) by lia.
  destruct (readsect_eq V R x pa (k + 1) Hr) as (c & R1 & E & Hr1); [lia|].
  destruct (Hst k) as [Hlen Hby]; [lia|].
  destruct (IH R1 (mkBoot (store_bytes (bmem x) pa (V 0 (k + 1))) c) n (pa + 512) (k + 1)) as (c' & R' & m & E' & Hr' & Hm); [done|lia..|].
  exists c', R', m. split; [|split; [done|]].
  - etrans; [eapply bind_eq; exact E|]. unfold SECTSIZE. rewrite !u32_small by lia. exact E'.
  - intros a. rewrite Hm. cbn [bmem]. rewrite store_bytes_spec, Hlen.
    destruct (decide (pa + 512 <= a < pa + 512 + 512 * Z.of_nat j)); [rewrite decide_True by lia; f_equal; lia|].
    destruct (decide (pa <= a < pa + Z.of_nat 512)); [|by rewrite decide_False by lia].
    rewrite decide_True by lia. rewrite Hby by lia. done.
Qed.

Lemma readseg_eq V F N R x pa count off :
  stored V F N -> ready V R (bhw x) -> 0 <= count -> 0 <= off ->
  0 <= pa - off mod 512 -> off / 512 + sectors count off <= N -> pa - off mod 512 + 512 * sectors count off < 2 ^ 32 ->
  exists c R' m, readseg pa count off x = Ret tt (mkBoot m c) /\ ready V R' c /\
    forall a, m a = if decide (pa - off mod 512 <= a < pa - off mod 512 + 512 * sectors count off) then F (off + (a - pa)) else bmem x a.
Proof using Type.
  intros Hst Hr Hc Ho Hpa HN Htop. pose proof (Z.mod_pos_bound off 512). pose proof (Z.div_mod off 512). pose proof (proj1 Hst).
  pose proof (Z.div_pos off 512). pose proof (Z.div_mod (count + off mod 512 + 511) 512). pose proof (Z.mod_pos_bound (count + off mod 512 + 511) 512).
  pose proof (Z.div_mod count 512). pose proof (Z.mod_pos_bound count 512). unfold sectors in *. set (j := (count + off mod 512 + 511) / 512) in *.
  destruct (readseg_loop_eq V F N R x (Z.to_nat (count / 512 + 2)) (Z.to_nat j) (pa - off mod 512) (pa + count) (off / 512)) as (c & R' & m & E & Hr' & Hm);
    [done|done|lia..|].
  exists c, R', m. split; [|split; [done|]].
  - unfold readseg, SECTSIZE. cbn zeta. rewrite !u32_small by lia. exact E.
  - intros a. rewrite Hm, Z2Nat.id by lia. case_decide; [f_equal; lia|done].
Qed.
End boot.

(** ** The image *)

Section image.
Variable F : Z -> Z.

Definition fnum (n : nat) (o : Z) : Z := le_val ((fun i => F (o + Z.of_nat i)) <$> seq 0 n).
Definition img_entry : Z := fnum 4 24.
Definition img_phoff : Z := fnum 4 28.
Definition img_phnum : Z := fnum 2 44.
Definition seg_field (o : Z) (i : nat) : Z := fnum 4 (img_phoff + 32 * Z.of_nat i + o).
Definition seg_off : nat -> Z := seg_field 4.
Definition seg_paddr : nat -> Z := seg_field 12.
Definition seg_filesz : nat -> Z := seg_field 16.
Definition seg_memsz : nat -> Z := seg_field 20.

(** Where the first sector of a segment goes, and where the segment ends. *)
Definition seg_start (i : nat) : Z := seg_paddr i - seg_off i mod 512.
Definition seg_end (i : nat) : Z := seg_paddr i + Z.max (seg_filesz i) (seg_memsz i).

Definition boot_image (N : Z) : Prop :=
  (forall o, is_byte (F o)) /\ 8 <= N /\ fnum 4 0 = ELF_MAGIC /\ img_phoff + 32 * img_phnum <= 4096 /\
  (forall i, Z.of_nat i < img_phnum ->
     69632 <= seg_start i /\ seg_off i / 512 + sectors (seg_filesz i) (seg_off i) <= N /\
     seg_start i + 512 * sectors (seg_filesz i) (seg_off i) < 2 ^ 32 /\ seg_end i < 2 ^ 32) /\
  (forall i k, (i < k)%nat -> Z.of_nat k < img_phnum -> seg_end i <= seg_start k).

(** The segment is in memory: the bytes of the file, and zeros to its size in memory. *)
Definition in_memory (m : memory) (i : nat) : Prop :=
  (forall o, 0 <= o < seg_filesz i -> m (seg_paddr i + o) = F (seg_off i + o)) /\
  (forall o, seg_filesz i <= o < seg_memsz i -> m (seg_paddr i + o) = 0).

Definition header_in (m : memory) : Prop := forall a, 65536 <= a < 69632 -> m a = F (a - 65536).

Lemma fnum_range n o : (forall o, is_byte (F o)) -> 0 <= fnum n o < 256 ^ Z.of_nat n.
Proof using Type.
  intros Hb. unfold fnum. set (l := _ <$> _). rewrite <- (length_seq n 0), <- (length_fmap (fun i => F (o + Z.of_nat i))). apply le_val_range.
  apply Forall_fmap, Forall_forall. intros i _. apply Hb.
Qed.

Lemma num_header m n o : header_in m -> 0 <= o -> o + Z.of_nat n <= 4096 -> num_at n m (65536 + o) = fnum n o.
Proof using Type.
  intros Hm Ho Hn. unfold num_at, fnum. f_equal. apply list_fmap_ext. intros i k Hk. apply lookup_seq in Hk as [-> Hi]. cbn [Nat.add].
  rewrite u32_small, Hm by lia. f_equal. lia.
Qed.

Section load.
Context `{IP : Ports} `{!PolledDisk}.
Variables (V : Z -> Z -> list Z) (N : Z).
Hypotheses (Hst : stored V F N) (Himg : boot_image N).
Implicit Types x : bootst.

Lemma load_ph_eq R x i :
  ready V R (bhw x) -> header_in (bmem x) -> Z.of_nat i < img_phnum ->
  exists c R' m, load_ph (65536 + (img_phoff + 32 * Z.of_nat i)) x = Ret tt (mkBoot m c) /\ ready V R' c /\
    in_memory m i /\ header_in m /\ forall a, a < seg_start i -> m a = bmem x a.
Proof using Hst Himg.
  intros Hr Hh Hi. destruct Himg as (Hb & _ & _ & Hph & Hseg & _). destruct (Hseg i Hi) as (S1 & S2 & S3 & S4).
  pose proof (fnum_range 4 28 Hb) as R0. pose proof (fnum_range 2 44 Hb) as R1. fold img_phoff in R0. fold img_phnum in R1.
  assert (forall m o, header_in m -> 0 <= o <= 28 -> num_at 4 m (65536 + (img_phoff + 32 * Z.of_nat i) + o) = seg_field o i) as Hf.
  { intros m o Hm Ho. rewrite <- Z.add_assoc. apply num_header; [done|lia|lia]. }
  assert (0 <= seg_filesz i < 2 ^ 32) as R2 by exact (fnum_range 4 _ Hb). assert (0 <= seg_off i < 2 ^ 32) as R3 by exact (fnum_range 4 _ Hb).
  destruct (readseg_eq V F N R x (seg_paddr i) (seg_filesz i) (seg_off i)) as (c & R' & m & E & Hr' & Hm); [done|done|apply R2|apply R3|unfold seg_start in S1; lia|done|exact S3|].
  fold (seg_start i) in Hm. pose proof (Z.mod_pos_bound (seg_off i) 512).
  pose proof (Z.div_mod (seg_filesz i + seg_off i mod 512 + 511) 512). pose proof (Z.mod_pos_bound (seg_filesz i + seg_off i mod 512 + 511) 512).
  assert (header_in m) as Hh'. { intros a Ha. rewrite Hm, decide_False by lia. by apply Hh. }
  assert (in_file : forall a, seg_paddr i <= a < seg_paddr i + seg_filesz i -> m a = F (seg_off i + (a - seg_paddr i))).
  { intros a Ha. rewrite Hm, decide_True; [done|]. unfold seg_start, sectors. lia. }
  assert (load_ph (65536 + (img_phoff + 32 * Z.of_nat i)) x =
    Ret tt (mkBoot (if seg_filesz i <? seg_memsz i then stosb m (u32 (seg_paddr i + seg_filesz i)) 0 (Z.to_nat (seg_memsz i - seg_filesz i)) else m) c)) as EL.
  { unfold load_ph. do 3 (etrans; [eapply bind_eq; reflexivity|]). rewrite (Hf _ 12), (Hf _ 16), (Hf _ 4) by (done || lia).
    etrans; [eapply bind_eq; exact E|]. do 2 (etrans; [eapply bind_eq; reflexivity|]). cbn [bmem]. rewrite (Hf _ 16), (Hf _ 20) by (done || lia).
    fold (seg_filesz i) (seg_memsz i) (seg_paddr i). by destruct (_ <? _). }
  eexists c, R', _. split; [exact EL|]. split; [done|]. unfold seg_end in S4.
  destruct (Z.ltb_spec (seg_filesz i) (seg_memsz i)) as [Hlt|Hge].
  - assert (0 <= seg_paddr i) by (unfold seg_start in S1; lia). rewrite u32_small by lia. split; [split|split].
    + intros o Ho. rewrite stosb_spec, decide_False by lia. rewrite in_file by lia. f_equal. lia.
    + intros o Ho. rewrite stosb_spec, decide_True by lia. done.
    + intros a Ha. rewrite stosb_spec, decide_False by (unfold seg_start in S1; lia). by apply Hh'.
    + intros a Ha. rewrite stosb_spec, decide_False by (unfold seg_start in Ha; lia). rewrite Hm, decide_False by lia. done.
  - split; [split|split; [done|]].
    + intros o Ho. rewrite in_file by lia. f_equal. lia.
    + lia.
    + intros a Ha. rewrite Hm, decide_False by lia. done.
Qed.

Lemma load_phs_eq n R x i :
  ready V R (bhw x) -> header_in (bmem x) -> Z.of_nat (i + n) <= img_phnum ->
  (forall k, (k < i)%nat -> in_memory (bmem x) k) ->
  exists c R' m, load_phs n (65536 + (img_phoff + 32 * Z.of_nat i)) x = Ret tt (mkBoot m c) /\ ready V R' c /\ header_in m /\
    forall k, (k < i + n)%nat -> in_memory m k.
Proof using Hst Himg.
  revert R x i. induction n as [|n IH]; intros R x i Hr Hh Hi Hk; cbn [load_phs].
  { exists (bhw x), R, (bmem x). rewrite Nat.add_0_r. by destruct x. }
  destruct (load_ph_eq R x i Hr Hh) as (c & R1 & m & E & Hr1 & Hin & Hh1 & Hlow); [lia|].
  destruct (IH R1 (mkBoot m c) (S i) Hr1 Hh1) as (c' & R' & m' & E' & Hr' & Hh' & Hin'); [lia| |].
  - intros k Hki. destruct (decide (k = i)) as [->|Hne]; [done|]. destruct Himg as (Hb & _ & _ & _ & _ & Hord).
    pose proof (Hord k i ltac:(lia) ltac:(lia)) as Hle. unfold seg_end in Hle. destruct (Hk k ltac:(lia)) as [K1 K2].
    split; intros o Ho; cbn [bmem]; rewrite Hlow by lia; [by apply K1|by apply K2].
  - exists c', R', m'. split; [|split; [done|split; [done|]]].
    + etrans; [eapply bind_eq; exact E|]. rewrite <- E'. f_equal. unfold PH_SIZE. lia.
    + intros k Hki. apply Hin'. lia.
Qed.
End load.
End image.

(** C16: The boot loader loads the kernel.  When the image on the disk is an ELF file that meets
    [boot_image], [bootmain] reads it sector by sector, returns the entry point of its header,
    and then every segment is in memory at its physical address, followed by zeros up to its
    size in memory, although whole sectors are read and a segment's first and last sector
    spill over its ends. *)
Theorem bootmain_loads `{IP : Ports} `{!PolledDisk} (F : Z -> Z) (N : Z) (V : Z -> Z -> list Z) (R : Z -> Z) (x : bootst) :
  stored V F N -> boot_image F N -> ready V R (bhw x) ->
  exists m c, bootmain x = Ret (Some (img_entry F)) (mkBoot m c) /\
    forall i, Z.of_nat i < img_phnum F -> in_memory F m i.
Proof.
  intros Hst Himg Hr. pose proof Himg as (Hb & HN & Hmagic & Hph & _).
  pose proof (fnum_range F 4 28 Hb) as R0. pose proof (fnum_range F 2 44 Hb) as R1. fold (img_phoff F) in R0. fold (img_phnum F) in R1.
  destruct (readseg_eq V F N R x 65536 4096 0) as (c & R' & m & E & Hr' & Hm); [done|done|done|done|done|exact HN|done|].
  assert (header_in F m) as Hh. { intros a Ha. rewrite Hm, decide_True by (change (0 mod 512) with 0; change (sectors 4096 0) with 8; lia). done. }
  destruct (load_phs_eq F V N Hst Himg (Z.to_nat (img_phnum F)) R' (mkBoot m c) 0) as (c' & R2 & m' & E' & Hr2 & Hh' & Hin); [done|done|lia|lia|].
  exists m', c'. split; [|intros i Hi; apply Hin; lia].
  unfold bootmain. etrans; [eapply bind_eq; exact E|]. do 1 (etrans; [eapply bind_eq; reflexivity|]). cbn [bmem].
  change 65536 with (65536 + 0) at 1. rewrite (num_header F m 4 0) by (done || lia). rewrite Hmagic. cbn [negb Z.eqb ELF_MAGIC]. rewrite Pos.eqb_refl. cbn [negb].
  do 2 (etrans; [eapply bind_eq; reflexivity|]). cbn [bmem]. rewrite (num_header F m 4 28), (num_header F m 2 44) by (done || lia).
  fold (img_phoff F) (img_phnum F). change (32 * Z.of_nat 0) with 0 in E'. rewrite Z.add_0_r in E'.
  etrans; [eapply bind_eq; exact E'|]. etrans; [eapply bind_eq; reflexivity|]. cbn [bmem]. rewrite (num_header F m' 4 24) by (done || lia). done.
Qed.

(** ** An image of one segment *)

Definition demo_head : list Z :=
  le_bytes 4 ELF_MAGIC ++ replicate 20 0 ++ le_bytes 4 1048588 ++ le_bytes 4 52 ++ replicate 12 0 ++ le_bytes 2 1 ++ replicate 6 0 ++
  le_bytes 4 ELF_PROG_LOAD ++ le_bytes 4 4096 ++ le_bytes 4 2148532224 ++ le_bytes 4 1048576 ++ le_bytes 4 700 ++ le_bytes 4 900 ++ replicate 8 0.
Definition demo_file (o : Z) : Z := if 4096 <=? o then o mod 251 else default 0 (demo_head !! Z.to_nat o).
Definition demo_sectors (_ n : Z) : list Z := (fun i => demo_file (512 * (n - 1) + Z.of_nat i)) <$> seq 0 512.

(** A disk that is always ready. *)
#[local] Instance boot_ports : Ports := {|
  ctl := Z -> Z;
  inb _ c := (64, c);
  outb port v c := if port =? 503 then c else <[port := v]> c;
  insl _ _ c := (demo_sectors (reg_drive c) (reg_lba c), c);
  outsl _ _ c := c;
  patience := 1
|}.
#[local] Instance boot_disk : PolledDisk.
Proof.
  refine {| ready := fun V R c => V = demo_sectors /\ c = R |}.
  - intros V R c Hr. by exists 64, c.
  - intros V R c port v [-> ->] Hp _. split; [done|]. cbn. rewrite (proj2 (Z.eqb_neq _ _)) by set_solver. done.
  - intros V R c [-> ->] _. by exists 64, R, R, R.
Defined.

Lemma demo_stored : stored demo_sectors demo_file 16.
Proof.
  split; [done|]. intros k Hk. unfold demo_sectors. split; [by rewrite length_fmap, length_seq|]. intros i Hi.
  rewrite list_lookup_fmap, (proj2 (lookup_seq 0 512 (Z.to_nat i) (Z.to_nat i))) by lia. cbn [fmap option_fmap option_map default from_option id]. f_equal. lia.
Qed.

Lemma demo_byte o : is_byte (demo_file o).
Proof.
  unfold demo_file, is_byte. destruct (Z.leb_spec 4096 o). { pose proof (Z.mod_pos_bound o 251). lia. }
  assert (Forall is_byte demo_head) as Hb by (unfold demo_head; rewrite !Forall_app; repeat split; (apply le_bytes_byte || (apply Forall_replicate; unfold is_byte; lia))).
  destruct (demo_head !! Z.to_nat o) as [b|] eqn:E; [by apply (Forall_lookup_1 _ _ _ _ Hb E)|done].
Qed.

Lemma demo_image : boot_image demo_file 16.
Proof.
  split; [apply demo_byte|]. split; [done|]. split; [by vm_compute|]. split; [by vm_compute|].
  assert (img_phnum demo_file = 1) as -> by (by vm_compute). split.
  - intros i Hi. assert (i = 0%nat) as -> by lia. vm_compute. done.
  - lia.
Qed.

Lemma demo_segment :
  seg_paddr demo_file 0 = 1048576 /\ seg_off demo_file 0 = 4096 /\ seg_filesz demo_file 0 = 700 /\ seg_memsz demo_file 0 = 900.
Proof. by vm_compute. Qed.

Definition demo_boot : bootst := @mkBoot boot_ports (fun _ => 255) (fun _ => 0).

Lemma bootmain_loads_witness :
  exists m c, bootmain demo_boot = Ret (Some 1048588) (mkBoot m c) /\
    m 1048676 = demo_file 4196 /\ m 1049400 = 0.
Proof.
  destruct (bootmain_loads demo_file 16 demo_sectors (fun _ => 0) demo_boot) as (m & c & E & Hm);
    [apply demo_stored|apply demo_image|done|].
  exists m, c. split; [exact E|]. destruct (Hm 0%nat ltac:(by vm_compute)) as [H1 H2].
  destruct demo_segment as (S1 & S2 & S3 & S4).
  rewrite S1, S2, S3 in H1. rewrite S1, S3, S4 in H2.
  split; [exact (H1 100 ltac:(lia))|exact (H2 824 ltac:(lia))].
Defined.
