(* ===== verification/Seg.v ===== *)
(** * Seg: segments, gates and the task state (mmu.h, seginit and switchuvm of vm.c, tvinit of trap.c)

    A descriptor is a record of its bit fields; [seg_base], [seg_limit] and [gate_offset]
    are how the processor reads them.  [cpuregs] are the tables and registers of one CPU:
    [mycpu()->gdt] and [mycpu()->ts], GDTR, IDTR, TR and CR3.  Their addresses are chosen by
    the linker ([Tables]), and the entry points [vectors] are generated by vectors.pl. *)

From stdpp Require Import functions base gmap list strings.
From Stdlib Require Import ZArith Lia.
From S2P Require Import Prelude State Core Proc Trap.

Local Open Scope Z_scope.
Local Open Scope kernel_scope.

Definition SEG_KCODE : Z := 1.
Definition SEG_KDATA : Z := 2.
Definition SEG_TSS : Z := 5.
Definition NSEGS : nat := 6.
Definition STA_X : Z := 8.
Definition STA_W : Z := 2.
Definition STA_R : Z := 2.
Definition STS_T32A : Z := 9.
Definition STS_IG32 : Z := 14.
Definition STS_TG32 : Z := 15.

Record segdesc := mkSeg {
  lim_15_0 : Z; base_15_0 : Z; base_23_16 : Z; sd_type : Z; sd_s : Z; sd_dpl : Z; sd_p : Z;
  lim_19_16 : Z; sd_avl : Z; sd_rsv1 : Z; sd_db : Z; sd_g : Z; base_31_24 : Z
}.

Definition SEG (type base lim dpl : Z) : segdesc :=
  mkSeg (Z.land (Z.shiftr lim 12) 65535) (Z.land base 65535) (Z.land (Z.shiftr base 16) 255) type 1 dpl 1
        (Z.shiftr lim 28) 0 0 1 1 (Z.shiftr base 24).
Definition SEG16 (type base lim dpl : Z) : segdesc :=
  mkSeg (Z.land lim 65535) (Z.land base 65535) (Z.land (Z.shiftr base 16) 255) type 1 dpl 1
        (Z.shiftr lim 16) 0 0 1 0 (Z.shiftr base 24).
Definition set_sd_s (v : Z) (d : segdesc) : segdesc :=
  mkSeg (lim_15_0 d) (base_15_0 d) (base_23_16 d) (sd_type d) v (sd_dpl d) (sd_p d) (lim_19_16 d) (sd_avl d) (sd_rsv1 d) (sd_db d) (sd_g d) (base_31_24 d).
Definition null_seg : segdesc := mkSeg 0 0 0 0 0 0 0 0 0 0 0 0 0.

(** The fields of the task state that the kernel sets; the segment is 104 bytes. *)
Record taskstate := mkTs { esp0 : Z; ss0 : Z; iomb : Z }.
Definition TS_SIZE : Z := 104.

Record gatedesc := mkGate {
  off_15_0 : Z; gd_cs : Z; gd_args : Z; gd_rsv1 : Z; gd_type : Z; gd_s : Z; gd_dpl : Z; gd_p : Z; off_31_16 : Z
}.
Definition SETGATE (istrap : bool) (sel off d : Z) : gatedesc :=
  mkGate (Z.land off 65535) sel 0 0 (if istrap then STS_TG32 else STS_IG32) 0 d 1 (Z.shiftr off 16).
Definition null_gate : gatedesc := mkGate 0 0 0 0 0 0 0 0 0.

Class Tables := { gdt_addr : Z; ts_addr : Z; idt_addr : Z; vectors : nat -> Z }.

(** Address and limit of a table, as [lgdt] and [lidt] give them to the processor. *)
Record cpuregs := mkRegs { gdt : list segdesc; ts : taskstate; gdtr : Z * Z; idtr : Z * Z; tr : Z; cr3 : Z }.

Definition lgdt (p size : Z) (r : cpuregs) : cpuregs := mkRegs (gdt r) (ts r) (p, u16 (size - 1)) (idtr r) (tr r) (cr3 r).
Definition lidt (p size : Z) (r : cpuregs) : cpuregs := mkRegs (gdt r) (ts r) (gdtr r) (p, u16 (size - 1)) (tr r) (cr3 r).
Definition ltr (sel : Z) (r : cpuregs) : cpuregs := mkRegs (gdt r) (ts r) (gdtr r) (idtr r) (u16 sel) (cr3 r).
Definition lcr3 (v : Z) (r : cpuregs) : cpuregs := mkRegs (gdt r) (ts r) (gdtr r) (idtr r) (tr r) v.
Definition set_gdt (i : Z) (d : segdesc) (r : cpuregs) : cpuregs := mkRegs (<[Z.to_nat i := d]> (gdt r)) (ts r) (gdtr r) (idtr r) (tr r) (cr3 r).
Definition set_ts (t : taskstate) (r : cpuregs) : cpuregs := mkRegs (gdt r) t (gdtr r) (idtr r) (tr r) (cr3 r).

Section seg.
Context `{Tables}.

Definition seginit (r : cpuregs) : cpuregs :=
  let r := set_gdt SEG_KCODE (SEG (Z.lor STA_X STA_R) 0 4294967295 0) r in
  let r := set_gdt SEG_KDATA (SEG STA_W 0 4294967295 0) r in
  let r := set_gdt SEG_UCODE (SEG (Z.lor STA_X STA_R) 0 4294967295 DPL_USER) r in
  let r := set_gdt SEG_UDATA (SEG STA_W 0 4294967295 DPL_USER) r in
  lgdt gdt_addr (8 * Z.of_nat NSEGS) r.

(** [pushcli] and [popcli] leave these registers alone. *)
Definition switchuvm (p : option proc) (r : cpuregs) : outcome (option chan) cpuregs unit :=
  match p with
  | None => Panic "switchuvm: no process"
  | Some p =>
      if p_kstack p =? 0 then Panic "switchuvm: no kstack"
      else if p_pgdir p =? 0 then Panic "switchuvm: no pgdir"
      else
        let r := set_gdt SEG_TSS (SEG16 STS_T32A ts_addr (TS_SIZE - 1) 0) r in
        let r := set_gdt SEG_TSS (set_sd_s 0 (default null_seg (gdt r !! Z.to_nat SEG_TSS))) r in
        let r := set_ts (mkTs (u32 (p_kstack p + KSTACKSIZE)) (Z.shiftl SEG_KDATA 3) 65535) r in
        let r := ltr (Z.shiftl SEG_TSS 3) r in
        Ret tt (lcr3 (V2P (p_pgdir p)) r)
  end.

Definition switchkvm (kpgdir : Z) (r : cpuregs) : cpuregs := lcr3 (V2P kpgdir) r.

(** [tvinit] on [idt]; the lock it initialises is free in every [kstate] of the boot. *)
Definition tvinit (idt : list gatedesc) : list gatedesc :=
  let idt := fold_left (fun t i => <[i := SETGATE false (Z.shiftl SEG_KCODE 3) (vectors i) 0]> t) (seq 0 256) idt in
  <[Z.to_nat T_SYSCALL := SETGATE true (Z.shiftl SEG_KCODE 3) (vectors (Z.to_nat T_SYSCALL)) DPL_USER]> idt.

Definition idtinit (r : cpuregs) : cpuregs := lidt idt_addr (8 * 256) r.
End seg.

(** ** What the processor makes of them *)

Definition seg_base (d : segdesc) : Z := base_15_0 d + 65536 * base_23_16 d + 16777216 * base_31_24 d.
Definition seg_limit (d : segdesc) : Z :=
  let l := lim_15_0 d + 65536 * lim_19_16 d in if sd_g d =? 1 then 4096 * l + 4095 else l.
Definition gate_offset (g : gatedesc) : Z := off_15_0 g + 65536 * off_31_16 g.

(** [int n] may be executed at privilege level [cpl]. *)
Definition may_call (cpl : Z) (g : gatedesc) : bool := (gd_p g =? 1) && (cpl <=? gd_dpl g).

Lemma land_low k z : 0 <= k -> Z.land z (Z.ones k) = z mod 2 ^ k.
Proof. intros. by apply Z.land_ones. Qed.

Lemma base_fields b :
  0 <= b < 2 ^ 32 -> Z.land b 65535 + 65536 * Z.land (Z.shiftr b 16) 255 + 16777216 * Z.shiftr b 24 = b.
Proof.
  intros Hb. change 65535 with (Z.ones 16). change 255 with (Z.ones 8). rewrite !Z.land_ones, !Z.shiftr_div_pow2 by lia.
  pose proof (Z.div_mod b (2 ^ 16)). pose proof (Z.div_mod (b / 2 ^ 16) (2 ^ 8)). rewrite Z.div_div in * by lia.
  change (2 ^ 16 * 2 ^ 8) with (2 ^ 24) in *. lia.
Qed.

(** A segment made by [SEG] has the base it was given and its limit rounded up to a page's end. *)
Lemma SEG_decodes t b l d : 0 <= b < 2 ^ 32 -> 0 <= l < 2 ^ 32 -> seg_base (SEG t b l d) = b /\ seg_limit (SEG t b l d) = 4096 * (l / 4096) + 4095.
Proof.
  intros Hb Hl. split; [by apply base_fields|]. unfold seg_limit, SEG. cbn [lim_15_0 lim_19_16 sd_g Z.eqb Pos.eqb].
  change 65535 with (Z.ones 16). rewrite Z.land_ones, !Z.shiftr_div_pow2 by lia.
  pose proof (Z.div_mod (l / 2 ^ 12) (2 ^ 16)). rewrite Z.div_div in * by lia. change (2 ^ 12 * 2 ^ 16) with (2 ^ 28) in *. change 4096 with (2 ^ 12). lia.
Qed.

Lemma SEG16_decodes t b l d : 0 <= b < 2 ^ 32 -> 0 <= l < 2 ^ 20 -> seg_base (SEG16 t b l d) = b /\ seg_limit (SEG16 t b l d) = l.
Proof.
  intros Hb Hl. split; [by apply base_fields|]. unfold seg_limit, SEG16. cbn [lim_15_0 lim_19_16 sd_g Z.eqb].
  change 65535 with (Z.ones 16). rewrite Z.land_ones, Z.shiftr_div_pow2 by lia. pose proof (Z.div_mod l (2 ^ 16)). lia.
Qed.

Lemma SETGATE_decodes t sel off d : 0 <= off < 2 ^ 32 -> gate_offset (SETGATE t sel off d) = off.
Proof.
  intros Ho. unfold gate_offset, SETGATE. cbn [off_15_0 off_31_16]. change 65535 with (Z.ones 16). rewrite Z.land_ones, Z.shiftr_div_pow2 by lia.
  pose proof (Z.div_mod off (2 ^ 16)). lia.
Qed.

Section gates.
Context `{Tables}.

Lemma tvinit_lookup idt i :
  length idt = 256%nat -> (i < 256)%nat ->
  tvinit idt !! i = Some (if decide (i = Z.to_nat T_SYSCALL) then SETGATE true 8 (vectors i) DPL_USER else SETGATE false 8 (vectors i) 0).
Proof using Type.
  intros Hl Hi. unfold tvinit. set (f := fun t i => _).
  assert (forall l t, Forall (fun i => i < length t)%nat l -> NoDup l -> length (fold_left f l t) = length t /\
    forall j, fold_left f l t !! j = if decide (j ∈ l) then Some (SETGATE false 8 (vectors j) 0) else t !! j) as Hfold.
  { induction l as [|k l IH]; intros t Hb Hnd; cbn [fold_left]. { split; [done|]. intros j. by rewrite decide_False by set_solver. }
    apply Forall_cons in Hb as [Hk Hb]. apply NoDup_cons in Hnd as [Hkl Hnd].
    assert (length (f t k) = length t) as Hft by apply length_insert.
    destruct (IH (f t k)) as [IH1 IH2]; [by rewrite Hft|done|]. rewrite Hft in IH1. split; [done|].
    intros j. rewrite IH2. destruct (decide (j ∈ l)); [by rewrite decide_True by set_solver|]. unfold f. destruct (decide (j = k)) as [->|].
    - rewrite list_lookup_insert_eq, decide_True by (done || set_solver). done.
    - rewrite list_lookup_insert_ne, decide_False by (done || set_solver). done. }
  destruct (Hfold (seq 0 256) idt) as [HL Hlk]; [rewrite Hl; apply Forall_forall; intros j Hj; apply elem_of_seq in Hj; lia|apply NoDup_seq|].
  destruct (decide (i = Z.to_nat T_SYSCALL)) as [->|Hne].
  - rewrite list_lookup_insert_eq by (rewrite HL, Hl; done). done.
  - rewrite list_lookup_insert_ne by done. rewrite Hlk, decide_True by (apply elem_of_seq; lia). done.
Qed.

(** Every vector leads to its entry point in the kernel's code segment, and a user program
    can enter only through the system call gate. *)
Theorem gates_guarded idt i :
  length idt = 256%nat -> (i < 256)%nat -> 0 <= vectors i < 2 ^ 32 ->
  exists g, tvinit idt !! i = Some g /\ gate_offset g = vectors i /\ gd_cs g = Z.shiftl SEG_KCODE 3 /\
    may_call 0 g = true /\ (may_call DPL_USER g = true <-> Z.of_nat i = T_SYSCALL).
Proof using Type.
  intros Hl Hi Hv. rewrite tvinit_lookup by done. eexists. split; [done|]. unfold may_call, T_SYSCALL in *. case_decide as E.
  - split; [by apply SETGATE_decodes|]. split; [done|]. split; [done|]. split; [subst i; done|done].
  - split; [by apply SETGATE_decodes|]. split; [done|]. split; [done|]. split; [done|lia].
Qed.

(** After [seginit] the kernel and the user segments are flat; only the latter are the user's. *)
Theorem segments_flat r i :
  length (gdt r) = NSEGS -> i ∈ [SEG_KCODE; SEG_KDATA; SEG_UCODE; SEG_UDATA] ->
  exists d, gdt (seginit r) !! Z.to_nat i = Some d /\ seg_base d = 0 /\ seg_limit d = 4294967295 /\
    (sd_dpl d = DPL_USER <-> i ∈ [SEG_UCODE; SEG_UDATA]).
Proof using Type.
  intros Hl Hi. unfold NSEGS in Hl. destruct r as [g t a b c d]. cbn [gdt] in Hl.
  do 6 (destruct g as [|? g]; [done|]). set_unfold in Hi.
  destruct_or!; subst i; eexists; (split; [reflexivity|]); (split; [done|]); (split; [done|]); set_unfold; cbn; unfold SEG_KCODE, SEG_KDATA, SEG_UCODE, SEG_UDATA, DPL_USER; lia.
Qed.

(** A process that runs enters the kernel on the top of its own kernel stack, in its own
    address space, and may not access ports. *)
Theorem switchuvm_sets p r :
  p_kstack p <> 0 -> p_pgdir p <> 0 -> length (gdt r) = NSEGS -> 0 <= ts_addr < 2 ^ 32 ->
  exists r' d, switchuvm (Some p) r = Ret tt r' /\ cr3 r' = V2P (p_pgdir p) /\
    esp0 (ts r') = u32 (p_kstack p + KSTACKSIZE) /\ gdt r' !! Z.to_nat (Z.shiftr (tr r') 3) = Some d /\
    seg_base d = ts_addr /\ sd_s d = 0 /\ seg_limit d < iomb (ts r').
Proof using Type.
  intros Hk Hp Hl Ha. unfold switchuvm. rewrite !(proj2 (Z.eqb_neq _ _)) by done. eexists _, _. split; [reflexivity|]. cbn.
  split; [done|]. split; [done|]. rewrite list_lookup_insert_eq by (rewrite length_insert, Hl; compute; lia).
  rewrite list_lookup_insert_eq by (rewrite Hl; compute; lia). split; [done|]. cbn [default from_option id].
  destruct (SEG16_decodes STS_T32A ts_addr (TS_SIZE - 1) 0) as [H1 H2]; [done|done|]. split; [exact H1|]. split; [done|]. done.
Qed.
End gates.
