(* ===== verification/Asm.v ===== *)
(** * Asm: the assembly code (swtch.S, trapasm.S, vectors.pl, usys.S, initcode.S, entry.S,
    bootasm.S, entryother.S)

    The routines are lists of instructions and [exec] is what the processor does with one:
    the subset of IA-32 they use.  Memory is the processor's view of it, a function from
    linear addresses to bytes; segments are flat ([segments_flat]), so that a segment
    register matters only by its selector.  Of the arithmetic flags only ZF is kept, which
    is the one that is tested.  A segment register is pushed as a 16-bit store in a 32-bit
    slot.  The assembler and the linker place the code: the class [Image] gives the
    instruction at an address and the address after it, and [placed] says that a routine is
    there.  [deliver] is the processor's part of an interrupt: the stack of the task state,
    the frame it pushes, the gate of the table [idt]. *)

From stdpp Require Import functions base gmap list strings.
From Stdlib Require Import ZArith Lia.
From S2P Require Import Prelude State Core Str Vm Proc Trap Ports Seg.

Local Open Scope Z_scope.

Inductive reg := EAX | ECX | EDX | EBX | ESP | EBP | ESI | EDI.
Inductive sreg := CS | DS | ES | FS | GS | SS.
Inductive creg := CR0 | CR3 | CR4.

Inductive instr :=
| movl (src dst : reg)
| movl_imm (v : Z) (dst : reg)
| movl_load (disp : Z) (base dst : reg)
| movl_abs (a : Z) (dst : reg)
| movl_store (src base : reg)
| movl_from (src : creg) (dst : reg)
| movl_to (src : reg) (dst : creg)
| movw_imm (v : Z) (dst : reg)
| movw (src dst : reg)
| movw_seg (src : reg) (dst : sreg)
| movb_imm (v : Z) (dst : reg)
| xorw (src dst : reg)
| addl (v : Z) (dst : reg)
| orl (v : Z) (dst : reg)
| testb (v : Z) (r : reg)
| pushl (r : reg)
| pushl_imm (v : Z)
| pushl_seg (r : sreg)
| popl (r : reg)
| popl_seg (r : sreg)
| pushal
| popal
| call (a : Z)
| call_abs (a : Z)
| jmp (a : Z)
| jmp_reg (r : reg)
| jnz (a : Z)
| ljmp (sel a : Z)
| ret_
| iret
| int (n : Z)
| cli_
| lgdt_ (a : Z)
| inb_ (port : Z)
| outb_ (port : Z)
| outw_.

(** ** The processor *)

(** [out %ax, %dx] of 16 bits. *)
Class WordPorts `{Ports} := { outw : Z -> Z -> ctl -> ctl }.

Class Image := { fetch : Z -> option (instr * Z); label : string -> Z }.

Record gregs := mkG { eax : Z; ecx : Z; edx : Z; ebx : Z; esp : Z; ebp : Z; esi : Z; edi : Z }.
Record sregs := mkS { cs : Z; ds : Z; es : Z; fs : Z; gs : Z; ss : Z }.

Definition CR0_PE : Z := 1.
Definition CR0_WP : Z := 65536.
Definition CR0_PG : Z := 2147483648.
Definition CR4_PSE : Z := 16.
Definition FL_ZF : Z := 64.
(** TF, NT, RF and VM *)
Definition FL_ENTRY : Z := 213248.

Section cpu.
Context `{WordPorts}.

Record cpu := mkCpu {
  gr : gregs;
  sr : sregs;
  c0 : Z; c3 : Z; c4 : Z;
  gdtreg : Z * Z;
  eflags : Z;
  eip : Z;
  idt : list gatedesc;
  task : taskstate;
  cm : memory;
  dev : ctl
}.

Definition set_g (v : gregs) (c : cpu) : cpu := mkCpu v (sr c) (c0 c) (c3 c) (c4 c) (gdtreg c) (eflags c) (eip c) (idt c) (task c) (cm c) (dev c).
Definition set_s (v : sregs) (c : cpu) : cpu := mkCpu (gr c) v (c0 c) (c3 c) (c4 c) (gdtreg c) (eflags c) (eip c) (idt c) (task c) (cm c) (dev c).
Definition set_cr (r : creg) (v : Z) (c : cpu) : cpu :=
  match r with
  | CR0 => mkCpu (gr c) (sr c) v (c3 c) (c4 c) (gdtreg c) (eflags c) (eip c) (idt c) (task c) (cm c) (dev c)
  | CR3 => mkCpu (gr c) (sr c) (c0 c) v (c4 c) (gdtreg c) (eflags c) (eip c) (idt c) (task c) (cm c) (dev c)
  | CR4 => mkCpu (gr c) (sr c) (c0 c) (c3 c) v (gdtreg c) (eflags c) (eip c) (idt c) (task c) (cm c) (dev c)
  end.
Definition set_gdtreg (v : Z * Z) (c : cpu) : cpu := mkCpu (gr c) (sr c) (c0 c) (c3 c) (c4 c) v (eflags c) (eip c) (idt c) (task c) (cm c) (dev c).
Definition set_eflags (v : Z) (c : cpu) : cpu := mkCpu (gr c) (sr c) (c0 c) (c3 c) (c4 c) (gdtreg c) v (eip c) (idt c) (task c) (cm c) (dev c).
Definition set_eip (v : Z) (c : cpu) : cpu := mkCpu (gr c) (sr c) (c0 c) (c3 c) (c4 c) (gdtreg c) (eflags c) v (idt c) (task c) (cm c) (dev c).
Definition set_m (v : memory) (c : cpu) : cpu := mkCpu (gr c) (sr c) (c0 c) (c3 c) (c4 c) (gdtreg c) (eflags c) (eip c) (idt c) (task c) v (dev c).
Definition set_dev (v : ctl) (c : cpu) : cpu := mkCpu (gr c) (sr c) (c0 c) (c3 c) (c4 c) (gdtreg c) (eflags c) (eip c) (idt c) (task c) (cm c) v.

Definition rget (r : reg) (x : gregs) : Z :=
  match r with EAX => eax x | ECX => ecx x | EDX => edx x | EBX => ebx x | ESP => esp x | EBP => ebp x | ESI => esi x | EDI => edi x end.
Definition rset (r : reg) (v : Z) (x : gregs) : gregs :=
  match r with
  | EAX => mkG v (ecx x) (edx x) (ebx x) (esp x) (ebp x) (esi x) (edi x)
  | ECX => mkG (eax x) v (edx x) (ebx x) (esp x) (ebp x) (esi x) (edi x)
  | EDX => mkG (eax x) (ecx x) v (ebx x) (esp x) (ebp x) (esi x) (edi x)
  | EBX => mkG (eax x) (ecx x) (edx x) v (esp x) (ebp x) (esi x) (edi x)
  | ESP => mkG (eax x) (ecx x) (edx x) (ebx x) v (ebp x) (esi x) (edi x)
  | EBP => mkG (eax x) (ecx x) (edx x) (ebx x) (esp x) v (esi x) (edi x)
  | ESI => mkG (eax x) (ecx x) (edx x) (ebx x) (esp x) (ebp x) v (edi x)
  | EDI => mkG (eax x) (ecx x) (edx x) (ebx x) (esp x) (ebp x) (esi x) v
  end.
Definition sget (r : sreg) (x : sregs) : Z :=
  match r with CS => cs x | DS => ds x | ES => es x | FS => fs x | GS => gs x | SS => ss x end.
Definition sset (r : sreg) (v : Z) (x : sregs) : sregs :=
  match r with
  | CS => mkS v (ds x) (es x) (fs x) (gs x) (ss x)
  | DS => mkS (cs x) v (es x) (fs x) (gs x) (ss x)
  | ES => mkS (cs x) (ds x) v (fs x) (gs x) (ss x)
  | FS => mkS (cs x) (ds x) (es x) v (gs x) (ss x)
  | GS => mkS (cs x) (ds x) (es x) (fs x) v (ss x)
  | SS => mkS (cs x) (ds x) (es x) (fs x) (gs x) v
  end.
Definition crget (r : creg) (c : cpu) : Z := match r with CR0 => c0 c | CR3 => c3 c | CR4 => c4 c end.

Definition setr (r : reg) (v : Z) (c : cpu) : cpu := set_g (rset r v (gr c)) c.
Definition setsr (r : sreg) (v : Z) (c : cpu) : cpu := set_s (sset r v (sr c)) c.

(** A number of [n] bytes in memory. *)
Definition ld (n : nat) (m : memory) (a : Z) : Z := le_val ((fun i => m (a + Z.of_nat i)) <$> seq 0 n).
Definition st (n : nat) (m : memory) (a v : Z) : memory := store_bytes m a (le_bytes n v).

(** A 32-bit slot of the stack, of which [n] bytes are written. *)
Definition push (n : nat) (v : Z) (c : cpu) : cpu :=
  let a := u32 (esp (gr c) - 4) in set_m (st n (cm c) a v) (setr ESP a c).
Definition pop (n : nat) (c : cpu) : Z * cpu :=
  (ld n (cm c) (esp (gr c)), setr ESP (u32 (esp (gr c) + 4)) c).

Definition low (k v w : Z) : Z := w - w mod k + v mod k.
Definition set_zf (v : Z) (c : cpu) : cpu :=
  set_eflags (if v =? 0 then Z.lor (eflags c) FL_ZF else Z.land (eflags c) (Z.lnot FL_ZF)) c.
Definition cpl (c : cpu) : Z := Z.land (cs (sr c)) 3.

(** ** Interrupts *)

(** The exceptions for which the processor pushes an error code. *)
Definition has_errcode (n : Z) : bool := (n =? 8) || ((10 <=? n) && (n <=? 14)) || (n =? 17).

(** [iret_to] is the address the handler returns to. *)
Definition deliver (n : Z) (err : option Z) (iret_to : Z) (c : cpu) : option cpu :=
  gt ← idt c !! Z.to_nat n;
  let c' :=
    if cpl c =? 0 then c
    else
      let k := setsr SS (ss0 (task c)) (setr ESP (esp0 (task c)) c) in
      push 4 (esp (gr c)) (push 2 (ss (sr c)) k) in
  let c' := push 4 iret_to (push 2 (cs (sr c)) (push 4 (eflags c) c')) in
  let c' := match err with Some e => push 4 e c' | None => c' end in
  let clear := if gd_type gt =? STS_IG32 then Z.lor FL_ENTRY FL_IF else FL_ENTRY in
  Some (set_eip (gate_offset gt) (setsr CS (gd_cs gt) (set_eflags (Z.land (eflags c) (Z.lnot clear)) c'))).

Definition do_iret (c : cpu) : cpu :=
  let k := cpl c in
  let '(ip, c) := pop 4 c in
  let '(sel, c) := pop 2 c in
  let '(fl, c) := pop 4 c in
  let c := set_eip ip (setsr CS sel (set_eflags fl c)) in
  if Z.land sel 3 =? k then c
  else
    let '(sp, c) := pop 4 c in
    let '(sel, c) := pop 2 c in
    setsr SS sel (setr ESP sp c).

Definition do_popal (c : cpu) : cpu :=
  let '(vdi, c) := pop 4 c in
  let '(vsi, c) := pop 4 c in
  let '(vbp, c) := pop 4 c in
  let '(_, c) := pop 4 c in
  let '(vbx, c) := pop 4 c in
  let '(vdx, c) := pop 4 c in
  let '(vcx, c) := pop 4 c in
  let '(vax, c) := pop 4 c in
  set_g (mkG vax vcx vdx vbx (esp (gr c)) vbp vsi vdi) c.

Definition do_pushal (c : cpu) : cpu :=
  let x := gr c in
  push 4 (edi x) (push 4 (esi x) (push 4 (ebp x) (push 4 (esp x) (push 4 (ebx x) (push 4 (edx x) (push 4 (ecx x) (push 4 (eax x) c))))))).

(** One instruction; [nx] is the address after it. *)
Definition exec (i : instr) (nx : Z) (c : cpu) : option cpu :=
  let go c := Some (set_eip nx c) in
  match i with
  | movl src dst => go (setr dst (rget src (gr c)) c)
  | movl_imm v dst => go (setr dst (u32 v) c)
  | movl_load disp base dst => go (setr dst (ld 4 (cm c) (u32 (rget base (gr c) + disp))) c)
  | movl_abs a dst => go (setr dst (ld 4 (cm c) a) c)
  | movl_store src base => go (set_m (st 4 (cm c) (rget base (gr c)) (rget src (gr c))) c)
  | movl_from src dst => go (setr dst (crget src c) c)
  | movl_to src dst => go (set_cr dst (rget src (gr c)) c)
  | movw_imm v dst => go (setr dst (low 65536 v (rget dst (gr c))) c)
  | movw src dst => go (setr dst (low 65536 (rget src (gr c)) (rget dst (gr c))) c)
  | movw_seg src dst => go (setsr dst (u16 (rget src (gr c))) c)
  | movb_imm v dst => go (setr dst (low 256 v (rget dst (gr c))) c)
  | xorw src dst =>
      let v := Z.lxor (u16 (rget dst (gr c))) (u16 (rget src (gr c))) in
      go (set_zf v (setr dst (low 65536 v (rget dst (gr c))) c))
  | addl v dst => let w := u32 (rget dst (gr c) + v) in go (set_zf w (setr dst w c))
  | orl v dst => let w := Z.lor (rget dst (gr c)) v in go (set_zf w (setr dst w c))
  | testb v r => go (set_zf (Z.land (u8 (rget r (gr c))) v) c)
  | pushl r => go (push 4 (rget r (gr c)) c)
  | pushl_imm v => go (push 4 (u32 v) c)
  | pushl_seg r => go (push 2 (sget r (sr c)) c)
  | popl r => let '(v, c) := pop 4 c in go (setr r v c)
  | popl_seg r => let '(v, c) := pop 2 c in go (setsr r v c)
  | pushal => go (do_pushal c)
  | popal => go (do_popal c)
  | call a => Some (set_eip a (push 4 nx c))
  | call_abs a => let t := ld 4 (cm c) a in Some (set_eip t (push 4 nx c))
  | jmp a => Some (set_eip a c)
  | jmp_reg r => Some (set_eip (rget r (gr c)) c)
  | jnz a => Some (set_eip (if Z.land (eflags c) FL_ZF =? 0 then a else nx) c)
  | ljmp sel a => Some (set_eip a (setsr CS sel c))
  | ret_ => let '(v, c) := pop 4 c in Some (set_eip v c)
  | iret => Some (do_iret c)
  | int n =>
      gt ← idt c !! Z.to_nat n;
      if may_call (cpl c) gt then deliver n None nx c else None
  | cli_ => go (set_eflags (Z.land (eflags c) (Z.lnot FL_IF)) c)
  | lgdt_ a => go (set_gdtreg (ld 2 (cm c) a, ld 4 (cm c) (a + 2)) c)
  | inb_ port => let '(v, d) := inb port (dev c) in go (set_dev d (setr EAX (low 256 v (eax (gr c))) c))
  | outb_ port => go (set_dev (outb port (u8 (eax (gr c))) (dev c)) c)
  | outw_ => go (set_dev (outw (u16 (edx (gr c))) (u16 (eax (gr c))) (dev c)) c)
  end.

Context `{Image}.

Definition step (c : cpu) : option cpu := '(i, nx) ← fetch (eip c); exec i nx c.
Fixpoint run (n : nat) (c : cpu) : option cpu :=
  match n with O => Some c | S n' => c ← step c; run n' c end.

(** The instructions [l] are from [a] to before [b]. *)
Fixpoint placed (a : Z) (l : list instr) (b : Z) : Prop :=
  match l with
  | [] => a = b
  | i :: l' => exists nx, fetch a = Some (i, nx) /\ placed nx l' b
  end.

(** ** The code *)

Definition swtch : list instr :=
  [ movl_load 4 ESP EAX; movl_load 8 ESP EDX;
    pushl EBP; pushl EBX; pushl ESI; pushl EDI;
    movl_store ESP EAX; movl EDX ESP;
    popl EDI; popl ESI; popl EBX; popl EBP;
    ret_ ].

(** vectors.pl: the entry point of interrupt [i] *)
Definition vector (i : Z) : list instr :=
  (if negb ((i =? 8) || ((10 <=? i) && (i <=? 14)) || (i =? 17)) then [pushl_imm 0] else []) ++
  [pushl_imm i; jmp (label "alltraps")].

Definition alltraps_code : list instr :=
  [ pushl_seg DS; pushl_seg ES; pushl_seg FS; pushl_seg GS; pushal;
    movw_imm (Z.shiftl SEG_KDATA 3) EAX; movw_seg EAX DS; movw_seg EAX ES;
    pushl ESP; call (label "trap"); addl 4 ESP ].
Definition trapret_code : list instr :=
  [ popal; popl_seg GS; popl_seg FS; popl_seg ES; popl_seg DS; addl 8 ESP; iret ].

(** usys.S *)
Definition SYSCALL (num : Z) : list instr := [movl_imm num EAX; int T_SYSCALL; ret_].

Definition initcode_start : list instr :=
  [ pushl_imm (label "argv"); pushl_imm (label "init"); pushl_imm 0; movl_imm 7 EAX; int T_SYSCALL ].
Definition initcode_exit : list instr := [movl_imm 2 EAX; int T_SYSCALL; jmp (label "exit")].

Definition entry_code : list instr :=
  [ movl_from CR4 EAX; orl CR4_PSE EAX; movl_to EAX CR4;
    movl_imm (V2P (label "entrypgdir")) EAX; movl_to EAX CR3;
    movl_from CR0 EAX; orl (Z.lor CR0_PG CR0_WP) EAX; movl_to EAX CR0;
    movl_imm (label "stack" + KSTACKSIZE) ESP;
    movl_imm (label "main") EAX; jmp_reg EAX ].

(** The code that bootasm.S and entryother.S share. *)
Definition real_mode : list instr := [cli_; xorw EAX EAX; movw_seg EAX DS; movw_seg EAX ES; movw_seg EAX SS].
Definition protected_mode (start32 : Z) : list instr :=
  [ lgdt_ (label "gdtdesc"); movl_from CR0 EAX; orl CR0_PE EAX; movl_to EAX CR0;
    ljmp (Z.shiftl SEG_KCODE 3) start32 ].
Definition data_segments : list instr :=
  [ movw_imm (Z.shiftl SEG_KDATA 3) EAX; movw_seg EAX DS; movw_seg EAX ES; movw_seg EAX SS;
    movw_imm 0 EAX; movw_seg EAX FS; movw_seg EAX GS ].
Definition breakpoint : list instr :=
  [ movw_imm 35328 EAX; movw EAX EDX; outw_; movw_imm 35552 EAX; outw_ ].

Definition seta20_1 : list instr :=
  [inb_ 100; testb 2 EAX; jnz (label "seta20.1"); movb_imm 209 EAX; outb_ 100].
Definition seta20_2 : list instr :=
  [inb_ 100; testb 2 EAX; jnz (label "seta20.2"); movb_imm 223 EAX; outb_ 96].
Definition boot_start32 : list instr :=
  data_segments ++ [movl_imm (label "start") ESP; call (label "bootmain")] ++ breakpoint ++ [jmp (label "spin")].

Definition ap_start32 : list instr :=
  data_segments ++
  [ movl_from CR4 EAX; orl CR4_PSE EAX; movl_to EAX CR4;
    movl_abs (label "start" - 12) EAX; movl_to EAX CR3;
    movl_from CR0 EAX; orl (Z.lor CR0_PE (Z.lor CR0_PG CR0_WP)) EAX; movl_to EAX CR0;
    movl_abs (label "start" - 4) ESP;
    call_abs (label "start" - 8) ] ++
  breakpoint ++ [jmp (label "spin")].
End cpu.

(** The descriptors of the boot loader's table, as bytes (asm.h). *)
Definition SEG_NULLASM : list Z := replicate 8 0.
Definition SEG_ASM (type base lim : Z) : list Z :=
  le_bytes 2 (Z.land (Z.shiftr lim 12) 65535) ++ le_bytes 2 (Z.land base 65535) ++
  [Z.land (Z.shiftr base 16) 255; Z.lor 144 type; Z.lor 192 (Z.land (Z.shiftr lim 28) 15); Z.land (Z.shiftr base 24) 255].
Definition boot_gdt : list Z :=
  SEG_NULLASM ++ SEG_ASM (Z.lor STA_X STA_R) 0 4294967295 ++ SEG_ASM STA_W 0 4294967295.

(** usys.S with the numbers of syscall.h *)
Definition usys : list (string * Z) :=
  [ ("fork", 1); ("exit", 2); ("wait", 3); ("pipe", 4); ("read", 5); ("write", 16); ("close", 21); ("kill", 6);
    ("exec", 7); ("open", 15); ("mknod", 17); ("unlink", 18); ("fstat", 8); ("link", 19); ("mkdir", 20);
    ("chdir", 9); ("dup", 10); ("getpid", 11); ("sbrk", 12); ("sleep", 13); ("uptime", 14); ("flpf", 22);
    ("get_parent_pid", 23); ("sem_init", 24); ("sem_acquire", 25); ("sem_release", 26) ]%string.

(** [struct trapframe] and [struct context] in memory. *)
Record trapframe := mkTf {
  tf_edi : Z; tf_esi : Z; tf_ebp : Z; tf_oesp : Z; tf_ebx : Z; tf_edx : Z; tf_ecx : Z; tf_eax : Z;
  tf_gs : Z; tf_fs : Z; tf_es : Z; tf_ds : Z; tf_trapno : Z;
  tf_err : Z; tf_eip : Z; tf_cs : Z; tf_eflags : Z; tf_esp : Z; tf_ss : Z
}.
Definition frame_of (m : memory) (a : Z) : trapframe :=
  mkTf (ld 4 m a) (ld 4 m (a + 4)) (ld 4 m (a + 8)) (ld 4 m (a + 12)) (ld 4 m (a + 16)) (ld 4 m (a + 20)) (ld 4 m (a + 24)) (ld 4 m (a + 28))
       (ld 2 m (a + 32)) (ld 2 m (a + 36)) (ld 2 m (a + 40)) (ld 2 m (a + 44)) (ld 4 m (a + 48))
       (ld 4 m (a + 52)) (ld 4 m (a + 56)) (ld 2 m (a + 60)) (ld 4 m (a + 64)) (ld 4 m (a + 68)) (ld 2 m (a + 72)).

Record context := mkCtx { ctx_edi : Z; ctx_esi : Z; ctx_ebx : Z; ctx_ebp : Z; ctx_eip : Z }.
Definition context_of (m : memory) (a : Z) : context :=
  mkCtx (ld 4 m a) (ld 4 m (a + 4)) (ld 4 m (a + 8)) (ld 4 m (a + 12)) (ld 4 m (a + 16)).

Definition set_tf_eax (v : Z) (f : trapframe) : trapframe :=
  mkTf (tf_edi f) (tf_esi f) (tf_ebp f) (tf_oesp f) (tf_ebx f) (tf_edx f) (tf_ecx f) v (tf_gs f) (tf_fs f) (tf_es f) (tf_ds f) (tf_trapno f)
       (tf_err f) (tf_eip f) (tf_cs f) (tf_eflags f) (tf_esp f) (tf_ss f).
