(* ===== verification/Sched.v ===== *)
(** * Sched: the scheduler (proc.c) is fair

    [swtch] to a process comes back when the process enters [sched], on this CPU, having
    run with interrupts and with the other CPUs at work in between: that is [run], an
    argument.  [scheduler] never returns; [scheduler n] are the first [n] passes of its loop
    over the process table.  [ran] is not in the source: it records the processes that were
    switched to.  [Turn] is what a turn of a process may do: it gives the CPU back holding
    just [ptable.lock], and a process that was waiting for the CPU still waits or was run by
    another CPU. *)

From stdpp Require Import functions base gmap list strings.
From Stdlib Require Import ZArith Lia.
From S2P Require Import Prelude State Core Seg.

Local Open Scope Z_scope.
Local Open Scope kernel_scope.

Record schedst := mkSched { sk : kstate; regs : cpuregs; ran : list nat }.
Notation QM := (M (option chan) schedst).

Definition set_sk (s : kstate) (x : schedst) : schedst := mkSched s (regs x) (ran x).
Definition in_kernel {A} (m : KM A) : QM A := fun x =>
  match m (sk x) with
  | Ret a s => Ret a (set_sk s x)
  | Panic msg => Panic msg
  | Slept c s => Slept c (set_sk s x)
  end.
Definition on_cpu (m : cpuregs -> outcome (option chan) cpuregs unit) : QM unit := fun x =>
  match m (regs x) with
  | Ret _ r => Ret tt (mkSched (sk x) r (ran x))
  | Panic msg => Panic msg
  | Slept c r => Slept c (mkSched (sk x) r (ran x))
  end.

(** ** Fairness *)

Definition waits (x : schedst) (q : nat) : Prop := p_state (proc_at (sk x) q) = RUNNABLE.
Definition loadable (x : schedst) : Prop :=
  forall q, waits x q \/ p_state (proc_at (sk x) q) = RUNNING -> p_kstack (proc_at (sk x) q) <> 0 /\ p_pgdir (proc_at (sk x) q) <> 0.
(** Since [x], [q] was run. *)
Definition got_cpu (x x' : schedst) (q : nat) : Prop := exists l, ran x' = ran x ++ l /\ q ∈ l.
(** From [x] to [x'] nobody lost its turn. *)
Definition later (x x' : schedst) : Prop :=
  (exists l, ran x' = ran x ++ l) /\ forall q, waits x q -> waits x' q \/ got_cpu x x' q.

Lemma later_refl x : later x x.
Proof. split; [exists []; by rewrite app_nil_r|]. by left. Qed.

Lemma later_trans x1 x2 x3 : later x1 x2 -> later x2 x3 -> later x1 x3.
Proof.
  intros [[l1 E1] W1] [[l2 E2] W2]. split; [exists (l1 ++ l2); by rewrite E2, E1, app_assoc|]. intros q Hq.
  destruct (W1 q Hq) as [Hw|(l & E & Hl)].
  - destruct (W2 q Hw) as [?|(l & E & Hl)]; [by left|]. right. exists (l1 ++ l). rewrite E, E1, app_assoc. set_solver.
  - right. exists (l ++ l2). rewrite E2, E, app_assoc. set_solver.
Qed.

Lemma got_later x1 x2 x3 q : got_cpu x1 x2 q -> later x2 x3 -> got_cpu x1 x3 q.
Proof. intros (l & E & Hl) [[l2 E2] _]. exists (l ++ l2). rewrite E2, E, app_assoc. set_solver. Qed.

Lemma later_got x1 x2 x3 q : later x1 x2 -> got_cpu x2 x3 q -> got_cpu x1 x3 q.
Proof. intros [[l1 E1] _] (l & E & Hl). exists (l1 ++ l). rewrite E, E1, app_assoc. set_solver. Qed.

(** The state in which the process is entered. *)
Definition entered (p : nat) (r : cpuregs) (x : schedst) : schedst :=
  mkSched (set_procs (alter (set_p_state RUNNING) p (procs (sk x))) (set_cur (Some p) (sk x))) r (ran x ++ [p]).

Lemma entered_at p r x q :
  waits x p -> proc_at (sk (entered p r x)) q = if decide (q = p) then set_p_state RUNNING (proc_at (sk x) p) else proc_at (sk x) q.
Proof.
  unfold waits, entered, proc_at. cbn [sk procs set_procs]. intros Hw. destruct (decide (q = p)) as [->|Hne].
  - rewrite list_lookup_alter_eq. destruct (procs (sk x) !! p); [done|]. done.
  - by rewrite list_lookup_alter_ne.
Qed.

Lemma entered_later p r x : waits x p -> later x (entered p r x) /\ got_cpu x (entered p r x) p /\ (loadable x -> loadable (entered p r x)).
Proof.
  intros Hw. assert (got_cpu x (entered p r x) p) as Hg by (exists [p]; split; [done|set_solver]).
  split; [split; [by exists [p]|]|split; [done|]].
  - intros q Hq. destruct (decide (q = p)) as [->|Hne]; [by right|]. left. unfold waits. by rewrite entered_at, decide_False.
  - intros Hl q. unfold waits. rewrite entered_at by done. case_decide; [|apply Hl]. intros _. cbn [p_kstack p_pgdir set_p_state]. apply Hl. by left.
Qed.

Section scheduler.
Context `{Tables}.
Variable run : nat -> QM unit.

(** The body of the loop over the table. *)
Definition sched_slot (p : nat) : QM unit :=
  v <- get (fun x => proc_at (sk x) p) ;;
  if negb (bool_decide (p_state v = RUNNABLE)) then ret tt else
  in_kernel (modify (set_cur (Some p))) ;;;
  on_cpu (switchuvm (Some v)) ;;;
  in_kernel (upd_proc p (set_p_state RUNNING)) ;;;
  modify (fun x => mkSched (sk x) (regs x) (ran x ++ [p])) ;;;
  run p ;;;
  k <- get (fun x => kpgdir (sk x)) ;;
  on_cpu (fun r => Ret tt (switchkvm k r)) ;;;
  in_kernel (modify (set_cur None)).

Definition sched_pass : QM unit :=
  in_kernel (acquire L_ptable) ;;;
  for_each (seq 0 NPROC) sched_slot ;;;
  in_kernel (release L_ptable).

Fixpoint sched_passes (n : nat) : QM unit :=
  match n with
  | O => ret tt
  | S n' => sched_pass ;;; sched_passes n'
  end.

(** [sti] at the top of each pass is left out: interrupts between two passes are not modelled. *)
Definition scheduler (n : nat) : QM unit :=
  in_kernel (modify (set_cur None)) ;;;
  sched_passes n.

Class Turn := {
  turn_ends p x : held (sk x) = [L_ptable] -> cur (sk x) = Some p -> p_state (proc_at (sk x) p) = RUNNING -> loadable x ->
    wp (run p) (fun _ x' => held (sk x') = [L_ptable] /\ loadable x' /\ later x x') x
}.

Context `{!Turn}.

Definition idle (x : schedst) : Prop := held (sk x) = [L_ptable] /\ loadable x.

(** A slot leaves nobody behind and, if its process waits, runs it. *)
Lemma sched_slot_spec p x :
  idle x -> wp (sched_slot p) (fun _ x' => idle x' /\ later x x' /\ (waits x p -> got_cpu x x' p)) x.
Proof using Type*.
  intros [Hh Hl]. unfold sched_slot. apply wp_bind, wp_get. case_bool_decide as Hw; cbn [negb].
  2: { apply wp_ret. split; [done|]. split; [apply later_refl|]. intros. contradiction. }
  destruct (Hl p (or_introl Hw)) as [Hk Hp].
  eapply wp_step; [reflexivity|]. eapply wp_step.
  { unfold on_cpu, switchuvm. rewrite !(proj2 (Z.eqb_neq _ _)) by done. reflexivity. }
  eapply wp_step; [reflexivity|]. eapply wp_step; [reflexivity|].
  match goal with |- wp _ _ (mkSched _ ?r _) => destruct (entered_later p r x Hw) as (L1 & G1 & K1); specialize (K1 Hl); pose proof (entered_at p r x p Hw) as A1; rewrite decide_True in A1 by done; change (mkSched _ _ _) with (entered p r x) end.
  eapply wp_chain; [apply turn_ends; [done|done|by rewrite A1|done]|]. intros [] x2 (Hh2 & Hl2 & L2).
  eapply wp_step; [reflexivity|]. eapply wp_step; [reflexivity|]. eapply wp_intro; [reflexivity|].
  split; [by split|]. split; [by eapply later_trans|]. intros _. by eapply got_later.
Qed.

Lemma sched_slots_spec l x :
  idle x -> wp (for_each l sched_slot) (fun _ x' => idle x' /\ later x x' /\ forall q, q ∈ l -> waits x q -> got_cpu x x' q) x.
Proof using Type*.
  revert x. induction l as [|p l IH]; intros x Hi; cbn [for_each].
  { apply wp_ret. split; [done|]. split; [apply later_refl|set_solver]. }
  eapply wp_chain; [by apply sched_slot_spec|]. intros [] x1 (Hi1 & L1 & G1). eapply wp_mono; [by apply IH|].
  intros [] x2 (Hi2 & L2 & G2). split; [done|]. split; [by eapply later_trans|]. intros q [->|Hq]%elem_of_cons Hw.
  - eapply got_later; [by apply G1|done].
  - destruct (proj2 L1 q Hw) as [Hw1|Hg]; [eapply later_got; [done|by apply G2]|by eapply got_later].
Qed.

Definition resting (x : schedst) : Prop := held (sk x) = [] /\ loadable x.

Lemma sched_pass_spec x :
  resting x ->
  wp sched_pass (fun _ x' => resting x' /\ forall q, (q < NPROC)%nat -> waits x q -> got_cpu x x' q) x.
Proof using Type*.
  intros [Hh Hl]. unfold sched_pass. eapply wp_step; [unfold in_kernel; rewrite acquire_eq by (rewrite Hh; set_solver); rewrite Hh; reflexivity|].
  eapply wp_chain; [by apply sched_slots_spec|]. intros [] x1 ([Hh1 Hl1] & _ & G).
  eapply wp_intro; [unfold in_kernel; rewrite (release_top _ []) by (done || set_solver); reflexivity|].
  split; [done|]. intros q Hq Hw. apply G; [apply elem_of_seq; lia|done].
Qed.

Lemma sched_passes_spec n x : resting x -> wp (sched_passes n) (fun _ => resting) x.
Proof using Type*.
  revert x. induction n as [|n IH]; intros x Hx; cbn [sched_passes]; [by apply wp_ret|].
  eapply wp_chain; [by apply sched_pass_spec|]. intros [] x' [Hx' _]. by apply IH.
Qed.
End scheduler.

(** C24: The scheduler starves nobody.  However many passes it has made over the process
    table, the next one ends, and every process that was waiting for the CPU when it began
    has been run by its end, whatever the processes do on their turns and whichever wake up
    or are taken by other CPUs meanwhile. *)
Theorem scheduler_fair `{Tables} (run : nat -> QM unit) `{!Turn run} (n : nat) (x : schedst) :
  held (sk x) = [] -> loadable x ->
  wp (scheduler run n) (fun _ x1 =>
    wp (sched_pass run) (fun _ x2 => forall q, (q < NPROC)%nat -> waits x1 q -> got_cpu x1 x2 q) x1) x.
Proof.
  intros Hh Hl. unfold scheduler. eapply wp_step; [reflexivity|]. eapply wp_mono; [by apply sched_passes_spec|].
  intros [] x1 Hx1. eapply wp_mono; [by apply sched_pass_spec|]. by intros [] x2 [_ Hq].
Qed.

(** Processes that yield at once. *)
Definition yielder (p : nat) : QM unit := in_kernel (upd_proc p (set_p_state RUNNABLE)).

#[local] Instance yielder_turn : Turn yielder.
Proof.
  split. intros p x Hh Hc Hr Hl. eapply wp_intro; [reflexivity|]. split; [done|].
  assert (forall q, proc_at (set_procs (alter (set_p_state RUNNABLE) p (procs (sk x))) (sk x)) q =
    if decide (q = p) then set_p_state RUNNABLE (proc_at (sk x) p) else proc_at (sk x) q) as Hat.
  { intros q. rewrite proc_at_alter. destruct (decide (p = q)) as [<-|]; [|by rewrite decide_False by congruence].
    rewrite (decide_True (P := p = p)) by done. case_decide as Hlt; [done|]. exfalso. revert Hr. unfold proc_at. by rewrite lookup_ge_None_2 by lia. }
  split; [|split; [exists []; by rewrite app_nil_r|]]; intros q; unfold waits; cbn [sk set_sk]; rewrite Hat.
  - case_decide as E; [|apply Hl]. intros _. cbn [p_kstack p_pgdir set_p_state]. apply Hl. by right.
  - intros Hq. left. by case_decide.
Qed.

#[local] Instance no_tables : Tables := {| gdt_addr := 0; ts_addr := 0; idt_addr := 0; vectors := fun _ => 0 |}.

(** Two processes, one of which sleeps. *)
Definition demo_procs : list proc :=
  [set_p_state RUNNABLE (set_p_kstack 8192 (set_p_pgdir 4096 null_proc)); set_p_state SLEEPING null_proc;
   set_p_state RUNNABLE (set_p_kstack 16384 (set_p_pgdir 12288 null_proc))].
Definition demo_sched : schedst :=
  mkSched (mkK [] demo_procs None 4 None ∅ 0 false [] ∅ [] (mkLog 0 0 0 false 0 0 []) (mkSb 0 0 0 0 0 0 0) [] [] ∅ [] 0 null_console 4096)
    (mkRegs (replicate 6 null_seg) (mkTs 0 0 0) (0, 0) (0, 0) 0 0) [].

Lemma scheduler_fair_witness :
  wp (scheduler yielder 1) (fun _ x1 =>
    wp (sched_pass yielder) (fun _ x2 => forall q, (q < NPROC)%nat -> waits x1 q -> got_cpu x1 x2 q) x1) demo_sched /\
  match scheduler yielder 2 demo_sched with Ret _ x => ran x = [0; 2; 0; 2]%nat | _ => False end.
Proof.
  split; [|by vm_compute]. apply (scheduler_fair yielder 1 demo_sched); [done|].
  intros q. unfold waits, proc_at, demo_sched, demo_procs. cbn [sk procs]. do 3 (destruct q as [|q]; [cbn; intuition congruence|]). by intros [?|?].
Defined.
