(* ===== verification/AsmSpec.v ===== *)
(** * AsmSpec: context switch, trap entry and return

    [swtch] saves a context from which a later [swtch] resumes; the path from an interrupt
    to [trap] builds the trap frame and the path back restores the registers from it; a new
    process starts in user mode with the registers of its trap frame. *)

From stdpp Require Import functions base gmap list strings.
From Stdlib Require Import ZArith Lia.
From S2P Require Import Prelude State Core Kalloc Bio Console Vm Proc Syscall Exec Sysfile Trap Ports Seg Str Asm.

Local Open Scope Z_scope.

(** ** Memory *)

Lemma st_at n m a v x : st n m a v x = if decide (a <= x < a + Z.of_nat n) then default 0 (le_bytes n v !! Z.to_nat (x - a)) else m x.
Proof. unfold st. by rewrite store_bytes_spec, length_le_bytes. Qed.

Lemma ld_ext n m m' a : (forall x, a <= x < a + Z.of_nat n -> m x = m' x) -> ld n m a = ld n m' a.
Proof. intros E. unfold ld. f_equal. apply list_fmap_ext. intros i x Hi. apply lookup_seq in Hi as [-> Hi]. apply E. lia. Qed.

Lemma ld_st_ne n k m a b v : b + Z.of_nat k <= a \/ a + Z.of_nat n <= b -> ld n (st k m b v) a = ld n m a.
Proof. intros. apply ld_ext. intros x Hx. rewrite st_at, decide_False by lia. done. Qed.

Lemma ld_st_eq n m a v : 0 <= v < 256 ^ Z.of_nat n -> ld n (st n m a v) a = v.
Proof.
  intros Hv. rewrite <- (le_val_bytes n v Hv) at 2. unfold ld. f_equal. apply list_eq. intros i. rewrite list_lookup_fmap.
  destruct (decide (i < n)%nat) as [Hi|Hi].
  - rewrite lookup_seq_lt by done. cbn [fmap option_fmap option_map]. rewrite st_at, decide_True by lia.
    replace (Z.to_nat _) with i by lia. destruct (lookup_lt_is_Some_2 (le_bytes n v) i) as [b Hb]; [by rewrite length_le_bytes|]. by rewrite Hb.
  - rewrite lookup_ge_None_2 by (rewrite length_seq; lia). rewrite lookup_ge_None_2; [done|]. rewrite length_le_bytes. lia.
Qed.

Definition word32 (z : Z) : Prop := 0 <= z < 4294967296.
Definition word16 (z : Z) : Prop := 0 <= z < 65536.
Lemma ld_st_word m a b v : a = b -> word32 v -> ld 4 (st 4 m b v) a = v.
Proof. intros -> Hv. by apply ld_st_eq. Qed.
Lemma ld_st_half m a b v : a = b -> word16 v -> ld 2 (st 2 m b v) a = v.
Proof. intros -> Hv. by apply ld_st_eq. Qed.

(** Addresses that do not wrap, and reads of the stack after pushes. *)
Ltac nowrap := repeat match goal with |- context [u32 ?e] => rewrite (u32_small e) by lia end.
Ltac tidy :=
  nowrap; rewrite <- ?Z.add_assoc;
  repeat match goal with |- context [Z.add (Zpos ?a) (Zpos ?b)] => let v := eval vm_compute in (Zpos a + Zpos b) in change (Zpos a + Zpos b) with v end.
Ltac same_addr := done || lia || (f_equal; lia).
Ltac slot := repeat first [rewrite ld_st_word by (unfold word32 in *; lia) | rewrite ld_st_half by (unfold word16 in *; lia) | rewrite ld_st_ne by lia].

Section spec.
Context `{WordPorts} `{Image}.

Lemma run_step n c i nx : fetch (eip c) = Some (i, nx) -> run (S n) c = (c' ← exec i nx c; run n c').
Proof. intros E. cbn [run]. unfold step. by rewrite E. Qed.

Lemma run_app n k c c' : run n c = Some c' -> run (n + k) c = run k c'.
Proof.
  revert c. induction n as [|n IH]; intros c; cbn [run Nat.add]; [by intros [= ->]|]. destruct (step c); cbn [mbind option_bind]; [apply IH|done].
Qed.

End spec.

Tactic Notation "cpu_cbn" :=
  cbn [exec mbind option_bind push pop setr setsr set_g set_s set_m set_eip set_eflags set_zf do_pushal rget rset sget sset gr sr cm eip eflags idt task c0 c3 c4 gdtreg dev eax ecx edx ebx esp ebp esi edi cs ds es fs gs ss context_of ctx_edi ctx_esi ctx_ebx ctx_ebp ctx_eip].
Tactic Notation "cpu_cbn" "in" "*" :=
  cbn [exec mbind option_bind push pop setr setsr set_g set_s set_m set_eip set_eflags set_zf do_pushal rget rset sget sset gr sr cm eip eflags idt task c0 c3 c4 gdtreg dev eax ecx edx ebx esp ebp esi edi cs ds es fs gs ss context_of ctx_edi ctx_esi ctx_ebx ctx_ebp ctx_eip] in *.

(** Executes the next instruction, placed by a hypothesis. *)
Ltac instr_step :=
  match goal with
  | E : fetch ?a = Some (?i, ?nx) |- run (S ?n) ?c = _ =>
      etrans; [eapply (run_step n c i nx); exact E|]; clear E;
      cpu_cbn
  end.

Ltac unplace H := cbn [placed swtch alltraps_code trapret_code app] in H; repeat (let nx := fresh "nx" in let E := fresh "E" in destruct H as (nx & E & H)).

Section swtch.
Context `{WordPorts} `{Image}.

(** A call of [swtch(old, new)]; the new context is neither in the part of the stack that is
    written nor at [old]. *)
Record swtch_call (c : cpu) (old new : Z) : Prop := {
  sw_code : exists b, placed (eip c) swtch b;
  sw_old : ld 4 (cm c) (esp (gr c) + 4) = old;
  sw_new : ld 4 (cm c) (esp (gr c) + 8) = new;
  sw_stack : 16 <= esp (gr c) /\ esp (gr c) + 12 <= 4294967296;
  sw_ctx : 0 <= new /\ new + 20 < 4294967296;
  sw_apart : new + 20 <= esp (gr c) - 16 \/ esp (gr c) <= new;
  sw_apart' : new + 20 <= old \/ old + 4 <= new;
  sw_slot : old + 4 <= esp (gr c) - 16 \/ esp (gr c) + 4 <= old
}.

Lemma swtch_switches c old new :
  swtch_call c old new -> word32 (ebp (gr c)) -> word32 (ebx (gr c)) -> word32 (esi (gr c)) -> word32 (edi (gr c)) ->
  exists c', run (length swtch) c = Some c' /\
    let k := context_of (cm c) new in
    gr c' = mkG old (ecx (gr c)) new (ctx_ebx k) (new + 20) (ctx_ebp k) (ctx_esi k) (ctx_edi k) /\ eip c' = ctx_eip k /\
    ld 4 (cm c') old = esp (gr c) - 16 /\
    context_of (cm c') (esp (gr c) - 16) = mkCtx (edi (gr c)) (esi (gr c)) (ebx (gr c)) (ebp (gr c)) (ld 4 (cm c) (esp (gr c))) /\
    (forall a, ~ (esp (gr c) - 16 <= a < esp (gr c)) -> ~ (old <= a < old + 4) -> cm c' a = cm c a).
Proof using Type.
  intros [[b Hc] Ho Hn Hs Hx Ha Ha' Hsl] Hbp Hbx Hsi Hdi.
  destruct c as [[ax cx dx bx sp bp si di] sgs k0 k3 k4 gd fl ip it tk mm dv]. cbn [eip gr cm sr esp ebp ebx esi edi ecx] in *.
  unplace Hc. eexists. split.
  - cbn [length swtch]. do 13 instr_step. cbn [run]. reflexivity.
  - cpu_cbn. rewrite (u32_small (sp + 4)), (u32_small (sp + 8)) by lia. rewrite Ho, Hn. nowrap. slot.
    split; [f_equal; slot; same_addr|]. split; [slot; same_addr|]. split; [slot; lia|]. split.
    + unfold context_of. f_equal; slot; same_addr.
    + intros a H1' H2'. rewrite !st_at, !decide_False by lia. done.
Qed.

(** C13: a context switch is undone by the switch back.  When [swtch(old, new)] is called, it
    returns to the context at [new], with the address of the caller's saved context in
    [*old]; and whenever [swtch] is called later with this address as the new context, and
    nothing has written to it, it returns to the first caller as a function does: at its
    return address, with its stack pointer and its callee-saved registers. *)
Theorem swtch_resumes c old new :
  swtch_call c old new -> word32 (ebp (gr c)) -> word32 (ebx (gr c)) -> word32 (esi (gr c)) -> word32 (edi (gr c)) ->
  exists c', run (length swtch) c = Some c' /\ eip c' = ld 4 (cm c) (new + 16) /\ esp (gr c') = new + 20 /\
    let saved := ld 4 (cm c') old in
    forall d old2, swtch_call d old2 saved -> word32 (ebp (gr d)) -> word32 (ebx (gr d)) -> word32 (esi (gr d)) -> word32 (edi (gr d)) ->
      context_of (cm d) saved = context_of (cm c') saved ->
      exists d', run (length swtch) d = Some d' /\
        eip d' = ld 4 (cm c) (esp (gr c)) /\ esp (gr d') = esp (gr c) + 4 /\
        ebp (gr d') = ebp (gr c) /\ ebx (gr d') = ebx (gr c) /\ esi (gr d') = esi (gr c) /\ edi (gr d') = edi (gr c).
Proof using Type.
  intros Hc Hbp Hbx Hsi Hdi. destruct (swtch_switches c old new) as (c' & Hr & Hg & Hi & Hs & Hk & _); [done..|].
  exists c'. split; [done|]. split; [done|]. split; [by rewrite Hg|]. cbn zeta. rewrite Hs. intros d old2 Hd Dbp Dbx Dsi Ddi E.
  destruct (swtch_switches d old2 (esp (gr c) - 16)) as (d' & Hr' & Hg' & Hi' & _); [done..|].
  exists d'. split; [done|]. rewrite Hi', Hg', E, Hk. cbn. repeat split; lia.
Qed.
End swtch.

(** ** Traps *)

Section traps.
Context `{WordPorts} `{Image}.

Record wf (c : cpu) : Prop := {
  wf_eax : word32 (eax (gr c)); wf_ecx : word32 (ecx (gr c)); wf_edx : word32 (edx (gr c)); wf_ebx : word32 (ebx (gr c));
  wf_esp : word32 (esp (gr c)); wf_ebp : word32 (ebp (gr c)); wf_esi : word32 (esi (gr c)); wf_edi : word32 (edi (gr c));
  wf_cs : word16 (cs (sr c)); wf_ds : word16 (ds (sr c)); wf_es : word16 (es (sr c)); wf_fs : word16 (fs (sr c));
  wf_gs : word16 (gs (sr c)); wf_ss : word16 (ss (sr c)); wf_eflags : word32 (eflags c)
}.

Lemma u16_low v w : u16 (low 65536 v w) = u16 v.
Proof. unfold u16, low. rewrite (Z.div_mod w 65536) at 1 by lia. rewrite <- (Z.mod_mod v 65536) at 2 by lia. rewrite <- (Z.mod_add (v mod 65536) (w / 65536) 65536) by lia. f_equal. lia. Qed.

Lemma word_land a b : word32 a -> word32 (Z.land a b).
Proof.
  unfold word32. intros Ha. assert (Z.land a b = Z.land a (Z.land (Z.ones 32) b)) as ->.
  { rewrite Z.land_assoc, Z.land_ones by lia. by rewrite Z.mod_small. }
  rewrite (Z.land_comm (Z.ones 32)), Z.land_assoc, Z.land_ones by lia. apply Z.mod_pos_bound. lia.
Qed.

(** Code is in the address space. *)
Definition image_ok : Prop := forall a i nx, fetch a = Some (i, nx) -> word32 nx.

(** [alltraps] stores the registers below the part of the frame that is there already, and
    calls [trap] with the address of the frame. *)
Lemma alltraps_frame c tf b :
  image_ok -> placed (eip c) alltraps_code b -> wf c -> esp (gr c) = tf + 48 -> 8 <= tf -> tf + 76 <= 4294967296 ->
  exists c' back, run 10 c = Some c' /\ eip c' = label "trap" /\ placed back [addl 4 ESP] b /\
    esp (gr c') = tf - 8 /\ ld 4 (cm c') (tf - 8) = back /\ ld 4 (cm c') (tf - 4) = tf /\
    (let f := frame_of (cm c) tf in let x := gr c in let y := sr c in
     frame_of (cm c') tf = mkTf (edi x) (esi x) (ebp x) (tf + 32) (ebx x) (edx x) (ecx x) (eax x) (gs y) (fs y) (es y) (ds y)
       (tf_trapno f) (tf_err f) (tf_eip f) (tf_cs f) (tf_eflags f) (tf_esp f) (tf_ss f)) /\
    sr c' = mkS (cs (sr c)) (Z.shiftl SEG_KDATA 3) (Z.shiftl SEG_KDATA 3) (fs (sr c)) (gs (sr c)) (ss (sr c)) /\
    eflags c' = eflags c /\ idt c' = idt c /\ task c' = task c /\ (forall a, ~ (tf - 8 <= a < tf + 48) -> cm c' a = cm c a).
Proof using Type.
  intros Hok Hc [] Hsp Hlo Hhi.
  destruct c as [[ax cx dx bx sp bp si di] [vcs vds ves vfs vgs vss] k0 k3 k4 gd fl ip it tk mm dv]. cpu_cbn in *.
  unplace Hc. subst sp. eexists _, _. split; [do 10 instr_step; cbn [run]; reflexivity|].
  match goal with E : fetch _ = Some (call _, _) |- _ => pose proof (Hok _ _ _ E) end.
  cpu_cbn. nowrap. split; [done|]. split; [eexists; split; done|]. split; [lia|]. split; [slot; done|].
  split; [slot; lia|]. split; [unfold frame_of; cbn [tf_trapno tf_err tf_eip tf_cs tf_eflags tf_esp tf_ss]; f_equal; slot; same_addr|].
  split; [by rewrite !u16_low|]. do 3 (split; [done|]). intros a Ha. rewrite !st_at, !decide_False by lia. done.
Qed.

(** The error code of exception [n] is [e]. *)
Definition errcode (n e : Z) : option Z := if has_errcode n then Some e else None.

(** The entry point of [n] completes the processor's part of the frame. *)
Lemma vector_frame c n tf b :
  placed (eip c) (vector n) b -> 0 <= n < 256 -> esp (gr c) = tf + (if has_errcode n then 52 else 56) -> 0 <= tf -> tf + 76 <= 4294967296 ->
  exists k c', run k c = Some c' /\ eip c' = label "alltraps" /\ gr c' = rset ESP (tf + 48) (gr c) /\ sr c' = sr c /\ eflags c' = eflags c /\
    idt c' = idt c /\ task c' = task c /\ ld 4 (cm c') (tf + 48) = n /\ ld 4 (cm c') (tf + 52) = (if has_errcode n then ld 4 (cm c) (tf + 52) else 0) /\
    (forall a, ~ (tf + 48 <= a < tf + 56) -> cm c' a = cm c a).
Proof using Type.
  intros Hc Hn Hsp Hlo Hhi. unfold vector in Hc. fold (has_errcode n) in Hc.
  destruct c as [[ax cx dx bx sp bp si di] sgs k0 k3 k4 gd fl ip it tk mm dv]. cpu_cbn in *.
  destruct (has_errcode n); cbn [negb app placed] in Hc; repeat (let nx := fresh "nx" in let E := fresh "E" in destruct Hc as (nx & E & Hc)); subst sp.
  - exists 2%nat. eexists. split; [do 2 instr_step; cbn [run]; reflexivity|]. cpu_cbn. nowrap.
    split; [done|]. split; [f_equal; lia|]. do 4 (split; [done|]). split; [slot; done|]. split; [slot; done|].
    intros a Ha. rewrite !st_at, !decide_False by lia. done.
  - exists 3%nat. eexists. split; [do 3 instr_step; cbn [run]; reflexivity|]. cpu_cbn. nowrap.
    split; [done|]. split; [f_equal; lia|]. do 4 (split; [done|]). split; [slot; done|]. split; [slot; done|].
    intros a Ha. rewrite !st_at, !decide_False by lia. done.
Qed.

(** Where the frame is: below the top of the kernel stack when user code is interrupted,
    and otherwise at the stack pointer, where it lacks the last two words. *)
Definition tf_addr (c : cpu) : Z := (if cpl c =? 0 then esp (gr c) + 8 else esp0 (task c)) - TF_SIZE.

Lemma deliver_frame c n e to gt :
  idt c !! Z.to_nat n = Some gt -> wf c -> word32 e -> word32 to -> 8 <= tf_addr c -> tf_addr c + 76 <= 4294967296 ->
  exists c', deliver n (errcode n e) to c = Some c' /\ eip c' = gate_offset gt /\
    let tf := tf_addr c in
    gr c' = rset ESP (tf + (if has_errcode n then 52 else 56)) (gr c) /\
    sr c' = sset CS (gd_cs gt) (sset SS (if cpl c =? 0 then ss (sr c) else ss0 (task c)) (sr c)) /\
    idt c' = idt c /\ task c' = task c /\ 
    eflags c' = Z.land (eflags c) (Z.lnot (if gd_type gt =? STS_IG32 then Z.lor FL_ENTRY FL_IF else FL_ENTRY)) /\
    (has_errcode n = true -> ld 4 (cm c') (tf + 52) = e) /\ ld 4 (cm c') (tf + 56) = to /\ ld 2 (cm c') (tf + 60) = cs (sr c) /\
    ld 4 (cm c') (tf + 64) = eflags c /\
    ld 4 (cm c') (tf + 68) = (if cpl c =? 0 then ld 4 (cm c) (tf + 68) else esp (gr c)) /\
    ld 2 (cm c') (tf + 72) = (if cpl c =? 0 then ld 2 (cm c) (tf + 72) else ss (sr c)) /\
    (forall a, ~ (tf + 52 <= a < tf + 76) -> cm c' a = cm c a).
Proof using Type.
  intros Hg [] He Ht Hlo Hhi. unfold deliver, errcode, tf_addr, TF_SIZE in *. rewrite Hg. cbn [mbind option_bind]. destruct (cpl c =? 0) eqn:Hk;
  destruct c as [[ax cx dx bx sp bp si di] [vcs vds ves vfs vgs vss] k0 k3 k4 gd fl ip it tk mm dv]; cpu_cbn in *;
  (destruct (has_errcode n); eexists; (split; [reflexivity|]); cpu_cbn; nowrap; (split; [done|]); (split; [f_equal; lia|]); do 4 (split; [done|]);
   (split; [intros; try discriminate; slot; done|]); do 5 (split; [slot; done|]); intros a Ha; rewrite !st_at, !decide_False by lia; done).
Qed.

Lemma do_popal_eq c : let sp := esp (gr c) in 0 <= sp -> sp + 32 < 4294967296 ->
  do_popal c = set_g (mkG (ld 4 (cm c) (sp + 28)) (ld 4 (cm c) (sp + 24)) (ld 4 (cm c) (sp + 20)) (ld 4 (cm c) (sp + 16)) (sp + 32)
                          (ld 4 (cm c) (sp + 8)) (ld 4 (cm c) (sp + 4)) (ld 4 (cm c) sp)) c.
Proof using Type.
  intros sp Hlo Hhi. subst sp. destruct c as [[ax cx dx bx sp bp si di] sgs k0 k3 k4 gd fl ip it tk mm dv]. cpu_cbn in *.
  unfold do_popal. cpu_cbn. tidy. reflexivity.
Qed.

Lemma do_iret_eq c : cpl c = 0 -> let sp := esp (gr c) in 0 <= sp -> sp + 20 < 4294967296 ->
  let user := negb (Z.land (ld 2 (cm c) (sp + 4)) 3 =? 0) in
  do_iret c = set_eip (ld 4 (cm c) sp) (set_eflags (ld 4 (cm c) (sp + 8)) (setsr CS (ld 2 (cm c) (sp + 4))
    (setsr SS (if user then ld 2 (cm c) (sp + 16) else ss (sr c)) (setr ESP (if user then ld 4 (cm c) (sp + 12) else sp + 12) c)))).
Proof using Type.
  intros Hk sp Hlo Hhi user. subst sp user. destruct c as [[ax cx dx bx sp bp si di] [vcs vds ves vfs vgs vss] k0 k3 k4 gd fl ip it tk mm dv]. cpu_cbn in *.
  unfold do_iret. rewrite Hk. cpu_cbn. tidy. destruct (Z.land (ld 2 mm (sp + 4)) 3 =? 0); cbn [negb]; cpu_cbn; tidy; reflexivity.
Qed.

(** [trapret] loads the registers from the frame at the stack pointer. *)
Lemma trapret_restores c b :
  placed (eip c) trapret_code b -> cpl c = 0 -> let tf := esp (gr c) in let f := frame_of (cm c) tf in 0 <= tf -> tf + 76 < 4294967296 ->
  exists c', run (length trapret_code) c = Some c' /\ cm c' = cm c /\ eip c' = tf_eip f /\ eflags c' = tf_eflags f /\
    gr c' = mkG (tf_eax f) (tf_ecx f) (tf_edx f) (tf_ebx f) (if negb (Z.land (tf_cs f) 3 =? 0) then tf_esp f else tf + 68) (tf_ebp f) (tf_esi f) (tf_edi f) /\
    sr c' = mkS (tf_cs f) (tf_ds f) (tf_es f) (tf_fs f) (tf_gs f) (if negb (Z.land (tf_cs f) 3 =? 0) then tf_ss f else ss (sr c)).
Proof using Type.
  intros Hc Hk tf f Hlo Hhi. subst f tf.
  destruct c as [[ax cx dx bx sp bp si di] [vcs vds ves vfs vgs vss] k0 k3 k4 gd fl ip it tk mm dv]. cpu_cbn in *.
  unplace Hc. cbn [length trapret_code frame_of tf_eip tf_eflags tf_eax tf_ecx tf_edx tf_ebx tf_esp tf_ebp tf_esi tf_edi tf_cs tf_ds tf_es tf_fs tf_gs tf_ss].
  eexists. split.
  - instr_step. rewrite do_popal_eq by (cpu_cbn; lia). cpu_cbn. do 5 (instr_step; tidy). instr_step.
    rewrite do_iret_eq by (cpu_cbn; lia || exact Hk). cbn [run]. reflexivity.
  - cpu_cbn. tidy. repeat (split; [reflexivity|]). reflexivity.
Qed.

Context `{Tables}.

(** The trap code is linked and the processor's table is the one of [tvinit]. *)
Record trap_code (c : cpu) : Prop := {
  tc_image : image_ok;
  tc_vector : forall n, 0 <= n < 256 -> word32 (vectors (Z.to_nat n)) /\ exists b, placed (vectors (Z.to_nat n)) (vector n) b;
  tc_alltraps : placed (label "alltraps") alltraps_code (label "trapret");
  tc_trapret : exists b, placed (label "trapret") trapret_code b;
  tc_idt : exists t, length t = 256%nat /\ idt c = tvinit t
}.

(** The registers of [c], interrupted by [n] before the instruction at [to], as a frame at [tf]. *)
Definition interrupted (c : cpu) (n e to tf : Z) : trapframe :=
  let x := gr c in let y := sr c in
  mkTf (edi x) (esi x) (ebp x) (tf + 32) (ebx x) (edx x) (ecx x) (eax x) (gs y) (fs y) (es y) (ds y) n
    (if has_errcode n then e else 0) to (cs y) (eflags c)
    (if cpl c =? 0 then ld 4 (cm c) (tf + 68) else esp x) (if cpl c =? 0 then ld 2 (cm c) (tf + 72) else ss y).

(** At the call [trap(tf)] in kernel mode. *)
Record at_trap (c : cpu) (tf : Z) : Prop := {
  at_eip : eip c = label "trap";
  at_esp : esp (gr c) = tf - 8;
  at_back : exists back, ld 4 (cm c) (tf - 8) = back /\ placed back [addl 4 ESP] (label "trapret");
  at_arg : ld 4 (cm c) (tf - 4) = tf;
  at_cs : cs (sr c) = Z.shiftl SEG_KCODE 3;
  at_ds : ds (sr c) = Z.shiftl SEG_KDATA 3 /\ es (sr c) = Z.shiftl SEG_KDATA 3
}.

Lemma trap_enters c n e to :
  trap_code c -> wf c -> word32 e -> word32 to -> 0 <= n < 256 -> 8 <= tf_addr c -> tf_addr c + 76 <= 4294967296 -> word16 (ss0 (task c)) ->
  exists c1 k c2, deliver n (errcode n e) to c = Some c1 /\ run k c1 = Some c2 /\ at_trap c2 (tf_addr c) /\
    frame_of (cm c2) (tf_addr c) = interrupted c n e to (tf_addr c) /\
    ss (sr c2) = (if cpl c =? 0 then ss (sr c) else ss0 (task c)) /\
    eflags c2 = Z.land (eflags c) (Z.lnot (if n =? T_SYSCALL then FL_ENTRY else Z.lor FL_ENTRY FL_IF)) /\
    (forall a, ~ (tf_addr c - 8 <= a < tf_addr c + 76) -> cm c2 a = cm c a).
Proof using Type.
  intros [Hok Hv Ha Hr (t & Ht & Hidt)] Hwf He Hto Hn Hlo Hhi Hss.
  assert (Z.to_nat n < 256)%nat as Hn' by lia. pose proof (tvinit_lookup t (Z.to_nat n) Ht Hn') as Hg. rewrite <- Hidt in Hg.
  set (gt := if decide _ then _ else _) in Hg. destruct (Hv n Hn) as [Hvw [b Hb]].
  assert (gate_offset gt = vectors (Z.to_nat n) /\ gd_cs gt = 8 /\ gd_type gt = (if n =? T_SYSCALL then STS_TG32 else STS_IG32)) as (Go & Gc & Gt).
  { subst gt. destruct (decide _) as [E|E]; (split; [by apply SETGATE_decodes|]; split; [done|]).
    - assert (n = T_SYSCALL) as -> by (unfold T_SYSCALL in *; lia). done.
    - rewrite (proj2 (Z.eqb_neq _ _)) by (intros ->; done). done. }
  clearbody gt. destruct (deliver_frame c n e to gt) as (c1 & D1 & Ei & Eg & Es & Eid & Et & Ef & Fe & Fi & Fc & Ff & Fsp & Fss & Fr1); [done..|].
  cbn zeta in *. set (tf := tf_addr c) in *. rewrite Go in Ei. rewrite Gc in Es. rewrite Gt in Ef.
  destruct (vector_frame c1 n tf b) as (k & c2 & R2 & Ei2 & Eg2 & Es2 & Ef2 & Eid2 & Et2 & Fn & Fe2 & Fr2); [by rewrite Ei|done|by rewrite Eg|lia|lia|].
  assert (wf c2) as Hwf2.
  { rewrite Eg in Eg2. rewrite Es in Es2. rewrite Ef in Ef2. destruct Hwf. constructor; rewrite ?Eg2, ?Es2, ?Ef2; cbn; try done;
      [unfold word32; lia|by destruct (cpl c =? 0)|by apply word_land]. }
  destruct (alltraps_frame c2 tf (label "trapret")) as (c3 & back & R3 & Ei3 & Hback & Esp3 & Bk & Arg & Fr & Es3 & Ef3 & _ & _ & Fr3);
    [done|by rewrite Ei2|done|by rewrite Eg2|lia|lia|].
  exists c1, (k + 10)%nat, c3. split; [done|]. split; [rewrite (run_app _ _ _ _ R2); done|]. split; [|split].
  - rewrite Es2, Es in Es3. constructor; [done..|eauto|done|by rewrite Es3|by rewrite Es3].
  - rewrite Fr. unfold interrupted, frame_of. cbn [tf_trapno tf_err tf_eip tf_cs tf_eflags tf_esp tf_ss].
    assert (forall k a, tf + 56 <= a -> ld k (cm c2) a = ld k (cm c1) a) as Hl by (intros; apply ld_ext; intros; apply Fr2; lia).
    rewrite Fn, Fe2, !Hl by lia. rewrite Fi, Fc, Ff, Fsp, Fss, Eg2, Es2, Eg, Es. cpu_cbn.
    destruct (has_errcode n); [by rewrite Fe|done].
  - split; [rewrite Es3, Es2, Es; done|]. split; [rewrite Ef3, Ef2, Ef; f_equal; f_equal; by destruct (n =? T_SYSCALL)|].
    intros a Ha'. rewrite Fr3, Fr2, Fr1 by lia. done.
Qed.


Lemma interrupted_view c n e to v :
  let f := set_tf_eax v (interrupted c n e to (tf_addr c)) in
  (mkG (tf_eax f) (tf_ecx f) (tf_edx f) (tf_ebx f) (if negb (Z.land (tf_cs f) 3 =? 0) then tf_esp f else tf_addr c + 68) (tf_ebp f) (tf_esi f) (tf_edi f),
   mkS (tf_cs f) (tf_ds f) (tf_es f) (tf_fs f) (tf_gs f)
     (if negb (Z.land (tf_cs f) 3 =? 0) then tf_ss f else if cpl c =? 0 then ss (sr c) else ss0 (task c)), tf_eflags f, tf_eip f)
  = (rset EAX v (gr c), sr c, eflags c, to).
Proof using Type.
  unfold set_tf_eax, interrupted. cbn [tf_eax tf_ecx tf_edx tf_ebx tf_esp tf_ebp tf_esi tf_edi tf_cs tf_ds tf_es tf_fs tf_gs tf_ss tf_eflags tf_eip].
  fold (cpl c). unfold tf_addr, TF_SIZE. destruct (cpl c =? 0); cbn [negb]; destruct c as [[] [] ? ? ? ? ? ? ? ? ? ?]; cpu_cbn; repeat f_equal; lia.
Qed.

(** What the interrupted code sees of the processor. *)
Definition user_view (c : cpu) : gregs * sregs * Z * Z := (gr c, sr c, eflags c, eip c).

(** [trap] has returned to [alltraps]: a C function keeps its argument's slot to the caller,
    the segment registers and the stack above it. *)
Record trap_returned (c d : cpu) (tf : Z) : Prop := {
  tr_eip : eip d = ld 4 (cm c) (tf - 8);
  tr_esp : esp (gr d) = tf - 4;
  tr_cs : cs (sr d) = cs (sr c);
  tr_ss : ss (sr d) = ss (sr c)
}.

Lemma trap_back c n e to :
  trap_code c -> wf c -> word32 e -> word32 to -> 0 <= n < 256 -> 8 <= tf_addr c -> tf_addr c + 76 < 4294967296 -> word16 (ss0 (task c)) ->
  exists c1 k c2, deliver n (errcode n e) to c = Some c1 /\ run k c1 = Some c2 /\ at_trap c2 (tf_addr c) /\
    frame_of (cm c2) (tf_addr c) = interrupted c n e to (tf_addr c) /\ (forall a, ~ (tf_addr c - 8 <= a < tf_addr c + 76) -> cm c2 a = cm c a) /\
    forall d, trap_returned c2 d (tf_addr c) ->
      exists k' d', run k' d = Some d' /\ cm d' = cm d /\ eip d' = tf_eip (frame_of (cm d) (tf_addr c)) /\
        (frame_of (cm d) (tf_addr c) = frame_of (cm c2) (tf_addr c) -> user_view d' = (gr c, sr c, eflags c, to)) /\
        (forall v, frame_of (cm d) (tf_addr c) = set_tf_eax v (frame_of (cm c2) (tf_addr c)) -> user_view d' = (rset EAX v (gr c), sr c, eflags c, to)).
Proof using Type.
  intros Hc Hwf He Hto Hn Hlo Hhi Hss. destruct (trap_enters c n e to) as (c1 & k & c2 & D & R & Hat & Hfr & Hs2 & _ & Hm2); [done..|lia|done|].
  exists c1, k, c2. do 5 (split; [done|]). intros d [Dip Dsp Dcs Dss]. set (tf := tf_addr c) in *.
  destruct (at_back _ _ Hat) as (back & Hb & nx & Hf & ->). destruct (tc_trapret _ Hc) as [b Hb'].
  set (d1 := set_eip (label "trapret") (set_zf tf (setr ESP tf d))).
  assert (step d = Some d1) as S1.
  { unfold step. rewrite Dip, Hb, Hf. cbn [mbind option_bind]. subst d1. cbn [exec rget]. rewrite Dsp, u32_small by lia. by replace (tf - 4 + 4) with tf by lia. }
  destruct (trapret_restores d1 b) as (d' & R' & Hm & Hi & Hfl & Hg & Hs); [done|unfold cpl; subst d1; cpu_cbn; rewrite Dcs, (at_cs _ _ Hat); done|cbn; lia|cbn; lia|].
  change (esp (gr d1)) with tf in *. change (cm d1) with (cm d) in *. change (ss (sr d1)) with (ss (sr d)) in *.
  exists (S (length trapret_code)), d'. split; [cbn [run]; rewrite S1; exact R'|]. do 2 (split; [done|]).
  assert (forall v, frame_of (cm d) tf = set_tf_eax v (frame_of (cm c2) tf) -> user_view d' = (rset EAX v (gr c), sr c, eflags c, to)) as Hv.
  { intros v E. unfold user_view. rewrite Hg, Hs, Hi, Hfl, E, Hfr, Dss, Hs2. apply interrupted_view. }
  split; [|exact Hv]. intros E. rewrite (Hv (eax (gr c))); [by destruct (gr c)|]. rewrite E, Hfr. done.
Qed.

(** C10: an interrupt is invisible to the code it interrupts.  When interrupt, exception or
    system call [n] arrives, in user or in kernel mode, the processor, the entry point of [n]
    and [alltraps] reach [trap] in the kernel's segments, with a trap frame that holds the
    interrupted registers, the number and the error code; and when [trap] returns, the
    processor resumes with the registers of the frame.  If [trap] left the frame as it was,
    these are the interrupted ones, all of them. *)
Theorem trap_round_trip c n e to :
  trap_code c -> wf c -> word32 e -> word32 to -> 0 <= n < 256 -> 8 <= tf_addr c -> tf_addr c + 76 < 4294967296 -> word16 (ss0 (task c)) ->
  exists c1 k c2, deliver n (errcode n e) to c = Some c1 /\ run k c1 = Some c2 /\ at_trap c2 (tf_addr c) /\
    frame_of (cm c2) (tf_addr c) = interrupted c n e to (tf_addr c) /\ (forall a, ~ (tf_addr c - 8 <= a < tf_addr c + 76) -> cm c2 a = cm c a) /\
    forall d, trap_returned c2 d (tf_addr c) ->
      exists k' d', run k' d = Some d' /\ cm d' = cm d /\ eip d' = tf_eip (frame_of (cm d) (tf_addr c)) /\
        (frame_of (cm d) (tf_addr c) = frame_of (cm c2) (tf_addr c) -> user_view d' = (gr c, sr c, eflags c, to)) /\
        (forall v, frame_of (cm d) (tf_addr c) = set_tf_eax v (frame_of (cm c2) (tf_addr c)) -> user_view d' = (rset EAX v (gr c), sr c, eflags c, to)).
Proof using Type. apply trap_back. Qed.

(** A system call's way in and out: the routine of usys.S at [eip c] is called in user mode. *)
Lemma stub_traps c num b :
  trap_code c -> wf c -> placed (eip c) (SYSCALL num) b -> 0 <= num < 100 -> cpl c = DPL_USER ->
  exists n1 nx, word32 nx /\ placed nx [ret_] b /\ run 2 c = deliver T_SYSCALL None nx (set_eip n1 (setr EAX num c)).
Proof using Type.
  intros Hc Hwf Hp Hn Hk. cbn [SYSCALL placed] in Hp. destruct Hp as (n1 & E1 & n2 & E2 & n3 & E3 & Hb). exists n1, n2.
  split; [by eapply (tc_image _ Hc)|]. split; [by exists n3|]. rewrite (run_step _ _ _ _ E1). cbn [exec mbind option_bind]. rewrite u32_small by lia.
  set (c1 := set_eip n1 (setr EAX num c)). rewrite (run_step _ c1 _ _ E2). cbn [exec]. destruct (tc_idt _ Hc) as (t & Ht & Hi).
  pose proof (tvinit_lookup t 64 Ht ltac:(lia)) as Hg. change (idt c1) with (idt c). change (Z.to_nat T_SYSCALL) with 64%nat. rewrite Hi, Hg. cbn [mbind option_bind].
  change (cpl c1) with (cpl c). rewrite Hk. change (may_call _ _) with true. cbn iota.
  by destruct (deliver _ _ _ _).
Qed.

(** A system call from user mode.  When user code calls the routine of usys.S for the call
    [num], the kernel reaches [trap] with a trap frame on the process's kernel stack that
    holds the number T_SYSCALL, [num] in [eax] and the stack pointer of the caller, where
    the return address and the arguments are as the caller left them; and when [trap] returns with the result
    [v] in the frame's [eax], the routine returns [v] to its caller with every other register
    as it was. *)
Theorem system_call c num b :
  trap_code c -> wf c -> placed (eip c) (SYSCALL num) b -> 0 <= num < 100 -> cpl c = DPL_USER ->
  84 <= esp0 (task c) < 4294967296 -> word16 (ss0 (task c)) -> esp (gr c) + 4 < 4294967296 ->
  let tf := esp0 (task c) - TF_SIZE in
  exists k c2, run k c = Some c2 /\ at_trap c2 tf /\
    (let f := frame_of (cm c2) tf in tf_trapno f = T_SYSCALL /\ tf_eax f = num /\ tf_esp f = esp (gr c) /\ tf_cs f = cs (sr c)) /\
    (forall a, ~ (tf - 8 <= a < tf + 76) -> cm c2 a = cm c a) /\
    forall d v, trap_returned c2 d tf -> frame_of (cm d) tf = set_tf_eax v (frame_of (cm c2) tf) ->
      exists k' d', run k' d = Some d' /\ eip d' = ld 4 (cm d) (esp (gr c)) /\
        gr d' = rset ESP (esp (gr c) + 4) (rset EAX v (gr c)) /\ sr d' = sr c /\ eflags d' = eflags c /\ cm d' = cm d.
Proof using Type.
  intros Hc Hwf Hp Hn Hk Hlo Hss Hsp tf. destruct (stub_traps c num b Hc Hwf Hp Hn Hk) as (n1 & nx & Hnx & (b' & Hret & _) & Hrun).
  set (c0 := set_eip n1 (setr EAX num c)) in *. assert (trap_code c0) as Hc0 by (destruct Hc; by constructor).
  assert (wf c0) as Hwf0. { destruct Hwf. constructor; try done. unfold word32. cbn. lia. }
  assert (tf_addr c0 = tf) as Htf. { unfold tf_addr. change (cpl c0) with (cpl c). by rewrite Hk. }
  destruct (trap_back c0 T_SYSCALL 0 nx) as (c1 & k & c2 & D & R & Hat & Hfr & Hm2 & Hback); [done|done|done|done|done|rewrite Htf; unfold tf, TF_SIZE; lia..|done|].
  rewrite Htf in *. exists (2 + k)%nat, c2. split; [rewrite (run_app _ _ _ _ (eq_trans Hrun D)); exact R|]. split; [done|]. rewrite Hfr. split.
  { unfold interrupted. cbn zeta. change (cpl c0) with (cpl c). rewrite Hk. done. }
  split; [exact Hm2|]. intros d v Hd Hf. destruct (Hback d Hd) as (k' & d' & R' & Hm & _ & _ & Hv). rewrite Hfr in Hv. specialize (Hv v Hf). unfold user_view in Hv. injection Hv as Hg Hs Hfl Hi.
  exists (k' + 1)%nat. eexists. split. { rewrite (run_app _ _ _ _ R'). cbn [run]. unfold step. rewrite Hi, Hret. cpu_cbn. reflexivity. }
  cpu_cbn. rewrite Hg, Hm. unfold c0. cpu_cbn. destruct Hwf. unfold word32 in *. rewrite u32_small by lia. repeat split; done.
Qed.
End traps.

(** The numbers of usys.S select the handlers of their names. *)
Section dispatch.
Context `{DiskDriver} `{Devices} `{Linker} `{Symbols}.

Definition handlers : list (string * KM Z) :=
  [ ("fork", sys_fork); ("exit", sys_exit); ("wait", sys_wait); ("pipe", sys_pipe); ("read", sys_read); ("write", sys_write);
    ("close", sys_close); ("kill", sys_kill); ("exec", sys_exec); ("open", sys_open); ("mknod", sys_mknod); ("unlink", sys_unlink);
    ("fstat", sys_fstat); ("link", sys_link); ("mkdir", sys_mkdir); ("chdir", sys_chdir); ("dup", sys_dup); ("getpid", sys_getpid);
    ("sbrk", sys_sbrk); ("sleep", sys_sleep); ("uptime", sys_uptime); ("flpf", sys_flpf); ("get_parent_pid", sys_get_parent_pid);
    ("sem_init", sys_sem_init); ("sem_acquire", sys_sem_acquire); ("sem_release", sys_sem_release) ]%string.

Theorem stubs_reach_handlers name num :
  (name, num) ∈ usys -> exists f, (name, f) ∈ handlers /\ syscalls !! Z.to_nat num = Some (Some f).
Proof using Type.
  unfold usys, handlers. intros Hin. repeat (apply elem_of_cons in Hin as [[= -> ->]|Hin]; [eexists; split; [|reflexivity]; repeat constructor|]).
  by apply elem_of_nil in Hin.
Qed.
End dispatch.

(** ** An image *)

(** Blocks of code at their addresses, an instruction a byte. *)
Definition block_fetch (bl : list (Z * list instr)) (a : Z) : option (instr * Z) :=
  match list_find (fun b : Z * list instr => b.1 <= a < b.1 + Z.of_nat (length b.2)) bl with
  | Some (_, (base, code)) => i ← code !! Z.to_nat (a - base); Some (i, a + 1)
  | None => None
  end.
Definition demo_label (l : string) : Z :=
  match list_find (fun x => x.1 = l) [("swtch", 100); ("alltraps", 200); ("trapret", 211); ("trap", 300); ("read", 400)]%string with
  | Some (_, (_, a)) => a
  | None => 0
  end.
Definition demo_blocks : list (Z * list instr) :=
  let I := {| fetch _ := None; label := demo_label |} in
  [(100, swtch); (200, alltraps_code ++ trapret_code); (400, SYSCALL 5)] ++ ((fun n => (1000 + 3 * Z.of_nat n, vector (Z.of_nat n))) <$> seq 0 256).
#[local] Instance demo_code : Image := { fetch := block_fetch demo_blocks; label := demo_label }.
#[local] Instance demo_tables : Tables := { gdt_addr := 0; ts_addr := 0; idt_addr := 0; vectors n := 1000 + 3 * Z.of_nat n }.
#[local] Instance demo_ports : Ports := { ctl := unit; inb _ c := (0, c); outb _ _ c := c; insl _ _ c := ([], c); outsl _ _ c := c; patience := 0 }.
#[local] Instance demo_word_ports : WordPorts := { outw _ _ c := c }.

#[local] Instance reg_eq_dec : EqDecision reg.
Proof. solve_decision. Defined.
#[local] Instance sreg_eq_dec : EqDecision sreg.
Proof. solve_decision. Defined.
#[local] Instance creg_eq_dec : EqDecision creg.
Proof. solve_decision. Defined.
#[local] Instance instr_eq_dec : EqDecision instr.
Proof. solve_decision. Defined.

(** [placed] by evaluation. *)
Fixpoint placed_to (a : Z) (l : list instr) : option Z :=
  match l with
  | [] => Some a
  | i :: l' => '(j, nx) ← fetch a; if decide (i = j) then placed_to nx l' else None
  end.
Lemma placed_to_ok a l b : placed_to a l = Some b -> placed a l b.
Proof.
  revert a. induction l as [|i l IH]; intros a; cbn [placed_to placed]; [by intros [= ->]|]. destruct (fetch a) as [[j nx]|]; [|done].
  cbn [mbind option_bind]. case_decide; [|done]. intros E. exists nx. subst. split; [done|]. by apply IH.
Qed.

Definition demo_idt : list gatedesc := tvinit (replicate 256 null_gate).
(** User code about to be interrupted, or to call [read]. *)
Definition demo_user : cpu :=
  mkCpu (mkG 1 2 3 4 8000 6 7 8) (mkS 27 35 35 0 0 35) 0 0 0 (0, 0) 514 400 demo_idt (mkTs 20480 16 65535) (fun _ => 0) tt.
(** A call of [swtch] and another one that returns to it. *)
Definition demo_switch (sp old new : Z) (m : memory) : cpu :=
  mkCpu (mkG 1 2 3 4 sp 6 7 8) (mkS 8 16 16 0 0 16) 0 0 0 (0, 0) 2 100 demo_idt (mkTs 20480 16 65535) (st 4 (st 4 m (sp + 4) old) (sp + 8) new) tt.

Lemma demo_code_ok : image_ok.
Proof.
  intros a i nx. cbn [fetch demo_code]. unfold block_fetch. destruct (list_find _ _) as [[? [base code]]|] eqn:E; [|done].
  apply list_find_Some in E as (Hin & Hb & _). assert (0 <= base /\ base + Z.of_nat (length code) <= 4000) as Hr.
  { assert (Forall (fun b : Z * list instr => 0 <= b.1 /\ b.1 + Z.of_nat (length b.2) <= 4000) demo_blocks) as Hf; [|apply (proj1 (Forall_lookup _ _) Hf _ _ Hin)].
    apply (bool_decide_unpack _). by vm_compute. }
  destruct (code !! _); [|done]. intros [= _ <-]. cbn in Hb. unfold word32. lia.
Qed.

Lemma demo_trap_code : trap_code demo_user.
Proof.
  constructor; [exact demo_code_ok| |by apply placed_to_ok; vm_compute|eexists; by apply placed_to_ok; vm_compute|exists (replicate 256 null_gate); done].
  intros n Hn. split; [unfold word32; cbn; lia|]. exists (vectors (Z.to_nat n) + Z.of_nat (length (vector n))).
  assert (Forall (fun k => placed_to (vectors k) (vector (Z.of_nat k)) = Some (vectors k + Z.of_nat (length (vector (Z.of_nat k))))) (seq 0 256)) as Hf.
  { apply (bool_decide_unpack _). by vm_compute. }
  rewrite Forall_forall in Hf. specialize (Hf (Z.to_nat n)). rewrite Z2Nat.id in Hf by lia. apply placed_to_ok, Hf, elem_of_seq. lia.
Qed.

Lemma demo_swtch_call sp old new m : 16 <= sp < 8000 -> 0 <= new < 8000 -> 0 <= old < 8000 -> new + 20 <= sp - 16 \/ sp <= new -> new + 20 <= old \/ old + 4 <= new ->
  old + 4 <= sp - 16 \/ sp + 4 <= old -> swtch_call (demo_switch sp old new m) old new.
Proof.
  intros. constructor; cbn [demo_switch eip cm gr esp]; try lia; [eexists; by apply placed_to_ok; vm_compute|slot; done|slot; done].
Qed.

Lemma swtch_resumes_witness : exists c' d d', let c := demo_switch 4000 5000 6000 (fun _ => 0) in
  run (length swtch) c = Some c' /\ run (length swtch) d = Some d' /\ esp (gr d') = 4004 /\ ebp (gr d') = ebp (gr c) /\ edi (gr d') = edi (gr c).
Proof.
  set (c := demo_switch 4000 5000 6000 (fun _ => 0)).
  destruct (swtch_resumes c 5000 6000) as (c' & Hr & _ & _ & Hback); [apply demo_swtch_call; lia|done..|].
  assert (option_map (fun x => ld 4 (cm x) 5000) (run (length swtch) c) = Some 3984) as Hs by (by vm_compute).
  rewrite Hr in Hs. injection Hs as Hs. cbn zeta in Hback. rewrite Hs in Hback.
  destruct (Hback (demo_switch 7000 5100 3984 (cm c')) 5100) as (d' & Hd & _ & Hsp & Hbp & _ & _ & Hdi); [apply demo_swtch_call; lia|cbn [demo_switch gr ebp ebx esi edi]; unfold word32; lia..| |].
  { unfold context_of. cbn [demo_switch cm]. f_equal; slot; done. }
  exists c', (demo_switch 7000 5100 3984 (cm c')), d'. split; [exact Hr|]. split; [exact Hd|]. split; [exact Hsp|]. split; [exact Hbp|exact Hdi].
Defined.

Lemma demo_returned c tf : trap_returned c (set_eip (ld 4 (cm c) (tf - 8)) (setr ESP (tf - 4) c)) tf.
Proof. by constructor. Qed.

Lemma trap_round_trip_witness : exists c1 k c2 k' d', deliver 32 None 404 demo_user = Some c1 /\ run k c1 = Some c2 /\
  run k' (set_eip (ld 4 (cm c2) (tf_addr demo_user - 8)) (setr ESP (tf_addr demo_user - 4) c2)) = Some d' /\
  user_view d' = (gr demo_user, sr demo_user, eflags demo_user, 404).
Proof.
  destruct (trap_round_trip demo_user 32 0 404) as (c1 & k & c2 & D & R & _ & _ & _ & Hback); [exact demo_trap_code|done..|].
  destruct (Hback _ (demo_returned c2 (tf_addr demo_user))) as (k' & d' & R' & _ & _ & Hv & _).
  exists c1, k, c2, k', d'. split; [exact D|]. split; [exact R|]. split; [exact R'|]. apply Hv. reflexivity.
Defined.

Lemma system_call_witness : exists k c2, run k demo_user = Some c2 /\ at_trap c2 20404 /\ tf_eax (frame_of (cm c2) 20404) = 5.
Proof.
  destruct (system_call demo_user 5 403) as (k & c2 & R & Hat & (_ & He & _) & _); [exact demo_trap_code|done|by apply placed_to_ok; vm_compute|done..|].
  exists k, c2. split; [exact R|]. split; [exact Hat|exact He].
Defined.
