(* ===== verification/AsmBoot.v ===== *)
(** * AsmBoot: the start of the processors and of the first process

    [entry] turns paging on and reaches [main]; bootasm.S reaches [bootmain] in protected
    mode with the A20 line on; entryother.S reaches [mpenter] on the stack that [startothers]
    left for it; initcode.S calls exec on "/init". *)

From stdpp Require Import functions base gmap list strings.
From Stdlib Require Import ZArith Lia.
From S2P Require Import Prelude State Core Str Vm Proc Trap Ports Seg Asm AsmSpec.

Local Open Scope Z_scope.

Section boot.
Context `{WordPorts} `{Image}.

(** [entry] runs with paging off and ends in [main] on the boot stack, with 4 MB pages, the
    boot page directory and write protection. *)
Theorem entry_reaches_main c b :
  placed (eip c) entry_code b -> word32 (label "stack" + KSTACKSIZE) -> word32 (label "main") ->
  exists c', run (length entry_code) c = Some c' /\ eip c' = label "main" /\ esp (gr c') = label "stack" + KSTACKSIZE /\
    c4 c' = Z.lor (c4 c) CR4_PSE /\ c3 c' = V2P (label "entrypgdir") /\ c0 c' = Z.lor (c0 c) (Z.lor CR0_PG CR0_WP) /\ cm c' = cm c.
Proof using Type.
  intros Hc Hst Hma. unfold word32, KSTACKSIZE in *. cbn [placed entry_code] in Hc. destruct c as [[ax cx dx bx sp bp si di] sgs k0 k3 k4 gd fl ip it tk mm dv].
  repeat (let nx := fresh "nx" in let E := fresh "E" in destruct Hc as (nx & E & Hc)).
  eexists. split; [cbn [length entry_code]; do 11 (instr_step; cbn [crget set_cr c0 c3 c4]); cbn [run]; reflexivity|].
  cpu_cbn. unfold KSTACKSIZE. rewrite !u32_small by lia. split; [done|]. split; [done|]. split; [done|]. split; [|done]. unfold V2P. by rewrite u32_small by (apply u32_range).
Qed.

(** The status port is read [n] times until the keyboard controller is not busy. *)
Fixpoint idle_in (n : nat) (d : ctl) : Prop :=
  let '(v, d') := inb 100 d in
  match n with
  | O => Z.land (u8 v) 2 = 0
  | S n' => Z.land (u8 v) 2 <> 0 /\ idle_in n' d'
  end.
Fixpoint after_idle (n : nat) (d : ctl) : ctl := let d' := (inb 100 d).2 in match n with O => d' | S n' => after_idle n' d' end.

Lemma u8_low v w : u8 (low 256 v w) = u8 v.
Proof. unfold u8, low. rewrite (Z.div_mod w 256) at 1 by lia. rewrite <- (Z.mod_mod v 256) at 2 by lia. rewrite <- (Z.mod_add (v mod 256) (w / 256) 256) by lia. f_equal. lia. Qed.

Lemma zf_set v fl : Z.land (if v =? 0 then Z.lor fl FL_ZF else Z.land fl (Z.lnot FL_ZF)) FL_ZF =? 0 = negb (v =? 0).
Proof.
  destruct (v =? 0); cbn [negb].
  - apply Z.eqb_neq. intros E. apply (f_equal (fun z => Z.testbit z 6)) in E. rewrite Z.land_spec, Z.lor_spec in E. change (Z.testbit FL_ZF 6) with true in E. by rewrite orb_true_r in E.
  - apply Z.eqb_eq. apply Z.bits_inj'. intros i Hi. rewrite !Z.land_spec, Z.lnot_spec, Z.bits_0 by done. destruct (Z.testbit fl i), (Z.testbit FL_ZF i); done.
Qed.

(** [cli] stays in force: no instruction here sets IF again. *)
Definition int_off (c : cpu) : Prop := Z.testbit (eflags c) 9 = false.
Lemma zf_keeps_if (v fl : Z) : Z.testbit fl 9 = false -> Z.testbit (if v =? 0 then Z.lor fl FL_ZF else Z.land fl (Z.lnot FL_ZF)) 9 = false.
Proof. intros E. destruct (v =? 0); [rewrite Z.lor_spec|rewrite Z.land_spec]; rewrite E; done. Qed.
Lemma int_off_zf v c : int_off c -> int_off (set_zf v c).
Proof. apply zf_keeps_if. Qed.
Lemma int_off_cli c : int_off (set_eflags (Z.land (eflags c) (Z.lnot FL_IF)) c).
Proof. unfold int_off. cbn [eflags set_eflags]. rewrite Z.land_spec, Z.lnot_spec by lia. by rewrite andb_comm. Qed.

(** What the boot code keeps while it polls. *)
Definition polled (c c' : cpu) : Prop :=
  cm c' = cm c /\ sr c' = sr c /\ c0 c' = c0 c /\ gdtreg c' = gdtreg c /\ (int_off c -> int_off c').

Lemma polled_trans c1 c2 c3 : polled c1 c2 -> polled c2 c3 -> polled c1 c3.
Proof. unfold polled. intros (? & ? & ? & ? & ?) (? & ? & ? & ? & ?). repeat split; try congruence. auto. Qed.

(** One turn of a wait loop. *)
Lemma poll_once c a n1 n2 b v d :
  fetch a = Some (inb_ 100, n1) -> fetch n1 = Some (testb 2 EAX, n2) -> fetch n2 = Some (jnz a, b) -> eip c = a -> inb 100 (dev c) = (v, d) ->
  exists c', run 3 c = Some c' /\ eip c' = (if Z.land (u8 v) 2 =? 0 then b else a) /\ dev c' = d /\ polled c c'.
Proof using Type.
  intros E1 E2 E3 Hi Ed. subst a. rewrite (run_step _ _ _ _ E1). cbn [exec]. rewrite Ed. cbn [mbind option_bind].
  rewrite (run_step _ (set_eip n1 _) _ _ E2). cbn [exec mbind option_bind]. rewrite (run_step _ (set_eip n2 _) _ _ E3). cbn [exec mbind option_bind run].
  eexists. split; [reflexivity|]. cbn [eip set_eip dev set_zf set_eflags eflags set_dev]. cbn [rget gr set_eip set_dev setr set_g rset eax]. rewrite u8_low, zf_set.
  split; [by destruct (Z.land (u8 v) 2 =? 0)|]. split; [done|]. unfold polled. do 4 (split; [done|]). intros Hf. by apply int_off_zf.
Qed.

(** A wait loop ends when the controller is not busy. *)
Lemma wait_idle n : forall c a n1 n2 b,
  fetch a = Some (inb_ 100, n1) -> fetch n1 = Some (testb 2 EAX, n2) -> fetch n2 = Some (jnz a, b) -> eip c = a -> idle_in n (dev c) ->
  exists k c', run k c = Some c' /\ eip c' = b /\ dev c' = after_idle n (dev c) /\ polled c c'.
Proof using Type.
  induction n as [|n IH]; intros c a n1 n2 b E1 E2 E3 Hi Hd; cbn [idle_in after_idle] in *; destruct (inb 100 (dev c)) as [v d] eqn:Ed;
    destruct (poll_once c a n1 n2 b v d E1 E2 E3 Hi Ed) as (c1 & R1 & Hi1 & Hd1 & P1).
  - rewrite (proj2 (Z.eqb_eq _ _) Hd) in Hi1. by exists 3%nat, c1.
  - destruct Hd as [Hb Hd]. rewrite (proj2 (Z.eqb_neq _ _) Hb) in Hi1. rewrite <- Hd1 in Hd.
    destruct (IH c1 a n1 n2 b E1 E2 E3 Hi1 Hd) as (k & c2 & R2 & Hi2 & Hd2 & P2). exists (3 + k)%nat, c2. split; [by rewrite (run_app _ _ _ _ R1)|].
    split; [done|]. split; [rewrite Hd2, Hd1; done|]. by eapply polled_trans.
Qed.

Lemma placed_app a l l' b : placed a (l ++ l') b <-> exists c, placed a l c /\ placed c l' b.
Proof using Type.
  revert a. induction l as [|i l IH]; intros a; cbn [app placed]; [naive_solver|]. split.
  - intros (nx & E & (c & Hl & Hl')%IH). exists c. split; [by exists nx|done].
  - intros (c & (nx & E & Hl) & Hl'). exists nx. split; [done|]. apply IH. by exists c.
Qed.

(** bootasm.S is in memory. *)
Record boot_code : Prop := {
  bc_start : placed (label "start") real_mode (label "seta20.1");
  bc_a20_1 : placed (label "seta20.1") seta20_1 (label "seta20.2");
  bc_a20_2 : exists a, placed (label "seta20.2") seta20_2 a /\ exists b, placed a (protected_mode (label "start32")) b;
  bc_start32 : exists b, placed (label "start32") boot_start32 b
}.

Lemma real_mode_runs c b : placed (eip c) real_mode b ->
  exists c', run (length real_mode) c = Some c' /\ eip c' = b /\ dev c' = dev c /\ cm c' = cm c /\ c0 c' = c0 c /\ c4 c' = c4 c /\ int_off c'.
Proof using Type.
  intros Hc. cbn [placed real_mode] in Hc. destruct Hc as (a1 & E1 & a2 & E2 & a3 & E3 & a4 & E4 & a5 & E5 & ->).
  cbn [length real_mode]. rewrite (run_step _ _ _ _ E1). cbn [exec mbind option_bind]. rewrite (run_step _ (set_eip a1 _) _ _ E2). cbn [exec mbind option_bind].
  rewrite (run_step _ (set_eip a2 _) _ _ E3). cbn [exec mbind option_bind]. rewrite (run_step _ (set_eip a3 _) _ _ E4). cbn [exec mbind option_bind].
  rewrite (run_step _ (set_eip a4 _) _ _ E5). cbn [exec mbind option_bind run]. eexists. split; [reflexivity|]. do 5 (split; [done|]).
  apply (int_off_zf _ (set_eflags _ c)), int_off_cli.
Qed.

(** The command [v] to the keyboard controller's [port]. *)
Lemma a20_command c v port n1 n2 : fetch (eip c) = Some (movb_imm v EAX, n1) -> fetch n1 = Some (outb_ port, n2) -> 0 <= v < 256 ->
  exists c', run 2 c = Some c' /\ eip c' = n2 /\ dev c' = outb port v (dev c) /\ cm c' = cm c /\ c0 c' = c0 c /\ eflags c' = eflags c.
Proof using Type.
  intros E1 E2 Hv. rewrite (run_step _ _ _ _ E1). cbn [exec mbind option_bind]. rewrite (run_step _ (set_eip n1 _) _ _ E2). cbn [exec mbind option_bind run].
  eexists. split; [reflexivity|]. split; [done|]. split; [|done]. cbn [dev set_eip set_dev setr set_g eax gr rset]. rewrite u8_low. unfold u8. by rewrite Z.mod_small.
Qed.

Lemma protected_mode_runs c start32 b : placed (eip c) (protected_mode start32) b -> int_off c ->
  exists c', run 5 c = Some c' /\ eip c' = start32 /\ dev c' = dev c /\ cm c' = cm c /\ c0 c' = Z.lor (c0 c) CR0_PE /\ c4 c' = c4 c /\ cs (sr c') = Z.shiftl SEG_KCODE 3 /\
    gdtreg c' = (ld 2 (cm c) (label "gdtdesc"), ld 4 (cm c) (label "gdtdesc" + 2)) /\ int_off c'.
Proof using Type.
  intros Hc Hf. cbn [placed protected_mode] in Hc. destruct Hc as (a1 & E1 & a2 & E2 & a3 & E3 & a4 & E4 & a5 & E5 & _).
  rewrite (run_step _ _ _ _ E1). cbn [exec mbind option_bind]. rewrite (run_step _ (set_eip a1 _) _ _ E2). cbn [exec mbind option_bind].
  rewrite (run_step _ (set_eip a2 _) _ _ E3). cbn [exec mbind option_bind]. rewrite (run_step _ (set_eip a3 _) _ _ E4). cbn [exec mbind option_bind].
  rewrite (run_step _ (set_eip a4 _) _ _ E5). cbn [exec mbind option_bind run]. eexists. split; [reflexivity|]. do 7 (split; [done|]).
  exact (int_off_zf _ c Hf).
Qed.

Lemma data_segments_run c l b : placed (eip c) (data_segments ++ l) b ->
  exists c', run (length data_segments) c = Some c' /\ placed (eip c') l b /\ dev c' = dev c /\ cm c' = cm c /\ c0 c' = c0 c /\ c3 c' = c3 c /\ c4 c' = c4 c /\ gdtreg c' = gdtreg c /\
    sr c' = mkS (cs (sr c)) (Z.shiftl SEG_KDATA 3) (Z.shiftl SEG_KDATA 3) 0 0 (Z.shiftl SEG_KDATA 3) /\ eflags c' = eflags c.
Proof using Type.
  intros Hc. cbn [placed data_segments app] in Hc. destruct Hc as (a1 & E1 & a2 & E2 & a3 & E3 & a4 & E4 & a5 & E5 & a6 & E6 & a7 & E7 & Hl).
  destruct c as [[ax cx dx bx sp bp si di] sgs k0 k3 k4 gd fl ip it tk mm dv]. eexists. split; [cbn [length data_segments]; do 7 instr_step; cbn [run]; reflexivity|].
  cpu_cbn. rewrite !u16_low. split; [exact Hl|]. done.
Qed.

(** bootasm.S reaches [bootmain]: interrupts are off, the A20 line has been switched on through
    the keyboard controller, the processor is in protected mode with the segments of the boot
    table, and the stack is below the boot sector. *)
Theorem bootasm_reaches_bootmain c i1 i2 :
  boot_code -> eip c = label "start" -> 4 <= label "start" < 4294967296 ->
  idle_in i1 (dev c) -> idle_in i2 (outb 100 209 (after_idle i1 (dev c))) ->
  exists k c', run k c = Some c' /\ eip c' = label "bootmain" /\
    dev c' = outb 96 223 (after_idle i2 (outb 100 209 (after_idle i1 (dev c)))) /\
    sr c' = mkS (Z.shiftl SEG_KCODE 3) (Z.shiftl SEG_KDATA 3) (Z.shiftl SEG_KDATA 3) 0 0 (Z.shiftl SEG_KDATA 3) /\ int_off c' /\
    c0 c' = Z.lor (c0 c) CR0_PE /\ gdtreg c' = (ld 2 (cm c) (label "gdtdesc"), ld 4 (cm c) (label "gdtdesc" + 2)) /\ esp (gr c') = label "start" - 4.
Proof using Type.
  intros [Hs A1 (a & A2 & b & Hpm) (b' & H32)] Hi Hst Hd1 Hd2. rewrite <- Hi in Hs.
  destruct (real_mode_runs c _ Hs) as (c1 & R1 & I1 & D1 & M1 & C1 & _ & F1).
  cbn [placed seta20_1 seta20_2] in A1, A2. destruct A1 as (p1 & P1 & p2 & P2 & p3 & P3 & p4 & P4 & p5 & P5 & ->). destruct A2 as (q1 & Q1 & q2 & Q2 & q3 & Q3 & q4 & Q4 & q5 & Q5 & <-).
  destruct (wait_idle i1 c1 _ _ _ _ P1 P2 P3 I1) as (k2 & c2 & R2 & I2 & D2 & M2 & _ & C2 & _ & F2); [by rewrite D1|]. rewrite <- I2 in P4.
  destruct (a20_command c2 _ _ _ _ P4 P5) as (c3 & R3 & I3 & D3 & M3 & C3 & F3); [lia|]. rewrite D2, D1 in D3.
  destruct (wait_idle i2 c3 _ _ _ _ Q1 Q2 Q3 I3) as (k4 & c4 & R4 & I4 & D4 & M4 & _ & C4 & _ & F4); [by rewrite D3|]. rewrite <- I4 in Q4.
  destruct (a20_command c4 _ _ _ _ Q4 Q5) as (c5 & R5 & I5 & D5 & M5 & C5 & F5); [lia|]. rewrite <- I5 in Hpm.
  assert (int_off c5) as O5. { unfold int_off in *. rewrite F5. apply F4. rewrite F3. by apply F2. }
  destruct (protected_mode_runs c5 _ _ Hpm O5) as (c6 & R6 & I6 & D6 & M6 & C6 & _ & S6 & G6 & O6).
  unfold boot_start32 in H32. rewrite <- I6 in H32. destruct (data_segments_run c6 _ _ H32) as (c7 & R7 & H7 & D7 & M7 & C7 & _ & _ & G7 & S7 & F7).
  cbn [app placed] in H7. destruct H7 as (r1 & E1 & r2 & E2 & _).
  assert (exists c8, run 2 c7 = Some c8 /\ eip c8 = label "bootmain" /\ dev c8 = dev c7 /\ sr c8 = sr c7 /\ c0 c8 = c0 c7 /\ gdtreg c8 = gdtreg c7 /\ eflags c8 = eflags c7 /\ esp (gr c8) = label "start" - 4) as (c8 & R8 & I8 & D8 & S8 & C8 & G8 & F8 & Sp8).
  { rewrite (run_step _ _ _ _ E1). cbn [exec mbind option_bind]. rewrite (run_step _ (set_eip r1 _) _ _ E2). cbn [exec mbind option_bind run].
    eexists. split; [reflexivity|]. do 6 (split; [done|]). cbn [push set_eip set_m setr set_g gr esp rset]. rewrite (u32_small (label "start")) by lia. apply u32_small. lia. }
  exists (length real_mode + (k2 + (2 + (k4 + (2 + (5 + (length data_segments + 2)))))))%nat, c8.
  split; [by rewrite (run_app _ _ _ _ R1), (run_app _ _ _ _ R2), (run_app _ _ _ _ R3), (run_app _ _ _ _ R4), (run_app _ _ _ _ R5), (run_app _ _ _ _ R6), (run_app _ _ _ _ R7)|].
  split; [done|]. split; [congruence|]. split; [by rewrite S8, S7, S6|]. split; [unfold int_off in *; by rewrite F8, F7|].
  split; [congruence|]. split; [|done]. rewrite G8, G7, G6. congruence.
Qed.

(** Another processor reaches [mpenter] in protected mode, with paging through the directory and on
    the stack that are in the words below [start]. *)
Theorem ap_reaches_mpenter c b b' :
  placed (label "start") (real_mode ++ protected_mode (label "start32")) b -> placed (label "start32") ap_start32 b' -> eip c = label "start" ->
  let top := ld 4 (cm c) (label "start" - 4) in 4 <= top < 4294967296 ->
  exists k c', run k c = Some c' /\ eip c' = ld 4 (cm c) (label "start" - 8) /\ c3 c' = ld 4 (cm c) (label "start" - 12) /\ esp (gr c') = top - 4 /\
    c0 c' = Z.lor (Z.lor (c0 c) CR0_PE) (Z.lor CR0_PE (Z.lor CR0_PG CR0_WP)) /\ c4 c' = Z.lor (c4 c) CR4_PSE /\
    sr c' = mkS (Z.shiftl SEG_KCODE 3) (Z.shiftl SEG_KDATA 3) (Z.shiftl SEG_KDATA 3) 0 0 (Z.shiftl SEG_KDATA 3) /\ int_off c'.
Proof using Type.
  intros Hs H32 Hi top Htop. apply placed_app in Hs as (a & Hs & Hpm). rewrite <- Hi in Hs.
  destruct (real_mode_runs c _ Hs) as (c1 & R1 & I1 & D1 & M1 & C1 & C14 & F1). rewrite <- I1 in Hpm.
  destruct (protected_mode_runs c1 _ _ Hpm F1) as (c2 & R2 & I2 & D2 & M2 & C2 & C24 & S2 & G2 & F2).
  unfold ap_start32 in H32. rewrite <- I2 in H32. destruct (data_segments_run c2 _ _ H32) as (c5 & R3 & H3 & D3 & M3 & C3 & _ & C34 & G3 & S3 & F3).
  assert (cm c5 = cm c) as Em by congruence. assert (top = ld 4 (cm c5) (label "start" - 4)) as Etop by (by rewrite Em).
  cbn [app placed] in H3. destruct H3 as (r1 & E1 & r2 & E2 & r3 & E3 & r4 & E4 & r5 & E5 & r6 & E6 & r7 & E7 & r8 & E8 & r9 & E9 & r10 & E10 & _).
  assert (int_off c5) as O5 by (unfold int_off in *; by rewrite F3).
  assert (exists c6, run 10 c5 = Some c6 /\ eip c6 = ld 4 (cm c5) (label "start" - 8) /\ c3 c6 = ld 4 (cm c5) (label "start" - 12) /\ esp (gr c6) = top - 4 /\
    c0 c6 = Z.lor (c0 c5) (Z.lor CR0_PE (Z.lor CR0_PG CR0_WP)) /\ c4 c6 = Z.lor (c4 c5) CR4_PSE /\ sr c6 = sr c5 /\ int_off c6) as (c6 & R6 & I6 & C63 & Sp6 & C60 & C64 & S6 & F6).
  { clear - E1 E2 E3 E4 E5 E6 E7 E8 E9 E10 Etop O5 Htop. destruct c5 as [[ax cx dx bx sp bp si di] sgs k0 k3 k4 gd fl ip it tk mm dv]. cpu_cbn in *.
    eexists. split; [do 10 (instr_step; cbn [crget set_cr c0 c3 c4]); cbn [run]; reflexivity|]. cpu_cbn. split; [done|]. split; [done|]. split; [rewrite <- Etop; apply u32_small; lia|].
    do 3 (split; [done|]). unfold int_off. cpu_cbn. by do 2 apply zf_keeps_if. }
  exists (length real_mode + (5 + (length data_segments + 10)))%nat, c6.
  split; [by rewrite (run_app _ _ _ _ R1), (run_app _ _ _ _ R2), (run_app _ _ _ _ R3)|]. rewrite Em in *.
  do 3 (split; [done|]). split; [congruence|]. split; [congruence|]. split; [by rewrite S6, S3, S2|done].
Qed.

Context `{Tables}.

(** The first user code calls exec(init, argv): [trap] gets the number of exec, and below the
    user's stack pointer are a return address 0 and the two arguments. *)
Theorem initcode_calls_exec c b :
  trap_code c -> wf c -> placed (eip c) initcode_start b -> cpl c = DPL_USER -> word32 (label "init") -> word32 (label "argv") ->
  84 <= esp0 (task c) < 4294967296 -> word16 (ss0 (task c)) -> 12 <= esp (gr c) -> (esp (gr c) <= esp0 (task c) - 84 \/ esp0 (task c) <= esp (gr c) - 12) ->
  let tf := esp0 (task c) - TF_SIZE in
  exists k c2, run k c = Some c2 /\ at_trap c2 tf /\
    let f := frame_of (cm c2) tf in
    tf_trapno f = T_SYSCALL /\ tf_eax f = 7 /\ tf_esp f = esp (gr c) - 12 /\
    ld 4 (cm c2) (tf_esp f) = 0 /\ ld 4 (cm c2) (tf_esp f + 4) = label "init" /\ ld 4 (cm c2) (tf_esp f + 8) = label "argv".
Proof using Type.
  intros Hc Hwf Hp Hk Hini Harg Hlo Hss Hsp Hap tf. cbn [placed initcode_start] in Hp.
  destruct Hp as (a1 & E1 & a2 & E2 & a3 & E3 & a4 & E4 & nx & E5 & _). pose proof (tc_image _ Hc _ _ _ E5) as Hnx.
  assert (exists c1, run 4 c = Some c1 /\ eip c1 = a4 /\ gr c1 = rset EAX 7 (rset ESP (esp (gr c) - 12) (gr c)) /\ sr c1 = sr c /\ eflags c1 = eflags c /\ idt c1 = idt c /\ task c1 = task c /\
    ld 4 (cm c1) (esp (gr c) - 12) = 0 /\ ld 4 (cm c1) (esp (gr c) - 8) = label "init" /\ ld 4 (cm c1) (esp (gr c) - 4) = label "argv") as (c1 & R1 & I1 & G1 & S1 & F1 & T1 & K1 & W0 & W1 & W2).
  { destruct Hwf as [_ _ _ _ Hw _ _ _ _ _ _ _ _ _ _]. clear - E1 E2 E3 E4 Hini Harg Hsp Hw. destruct c as [[ax cx dx bx sp bp si di] sgs k0 k3 k4 gd fl ip it tk mm dv]. unfold word32 in *. cpu_cbn in *.
    eexists. split; [do 4 instr_step; cbn [run]; reflexivity|]. cpu_cbn. nowrap. split; [done|]. split; [f_equal; lia|]. do 4 (split; [done|]).
    split; [slot; done|]. split; slot; done. }
  assert (trap_code c1) as Hc1 by (destruct Hc as [? ? ? ? Hi]; constructor; [done..|by rewrite T1]).
  assert (wf c1) as Hwf1. { destruct Hwf. constructor; rewrite ?G1, ?S1, ?F1; cbn; unfold word32 in *; try done; lia. }
  assert (cpl c1 = DPL_USER) as Hk1 by (unfold cpl; by rewrite S1).
  assert (tf_addr c1 = tf) as Htf. { unfold tf_addr. rewrite Hk1, K1. done. }
  destruct (trap_enters c1 T_SYSCALL 0 nx) as (c2 & k & c3 & D & R & Hat & Hfr & _ & _ & Hm); [done|done|done|done|done|rewrite Htf; unfold tf, TF_SIZE; lia..|by rewrite K1|].
  rewrite Htf in *. rewrite <- I1 in E5.
  assert (run 1 c1 = Some c2) as R2.
  { destruct (tc_idt _ Hc1) as (t & Ht & Hi). rewrite (run_step _ _ _ _ E5). cbn [exec]. rewrite Hi. change (Z.to_nat T_SYSCALL) with 64%nat. rewrite (tvinit_lookup t 64 Ht) by lia. cbn [mbind option_bind].
    rewrite Hk1. change (may_call _ _) with true. cbn iota. change None with (errcode T_SYSCALL 0). by rewrite D. }
  exists (4 + (1 + k))%nat, c3. split; [by rewrite (run_app _ _ _ _ R1), (run_app _ _ _ _ R2)|]. split; [done|]. rewrite Hfr. unfold interrupted. cbn zeta. rewrite Hk1.
  cbn [tf_trapno tf_eax tf_esp Z.eqb DPL_USER]. rewrite G1. cpu_cbn. split; [done|]. split; [done|]. split; [done|].
  assert (forall o, 0 <= o <= 8 -> ld 4 (cm c3) (esp (gr c) - 12 + o) = ld 4 (cm c1) (esp (gr c) - 12 + o)) as Hu.
  { intros o Ho. apply ld_ext. intros x Hx. apply Hm. unfold tf, TF_SIZE. lia. }
  rewrite <- (Z.add_0_r (esp (gr c) - 12)) at 1. rewrite !Hu by lia. rewrite Z.add_0_r. replace (esp (gr c) - 12 + 4) with (esp (gr c) - 8) by lia. replace (esp (gr c) - 12 + 8) with (esp (gr c) - 4) by lia. done.
Qed.
End boot.

(** A descriptor in memory. *)
Definition read_desc (b : list Z) : segdesc :=
  let w := rd 2 0 b in let w2 := rd 2 2 b in let t := rd 1 5 b in let x := rd 1 6 b in
  mkSeg w w2 (rd 1 4 b) (Z.land t 15) (Z.land (Z.shiftr t 4) 1) (Z.land (Z.shiftr t 5) 3) (Z.shiftr t 7)
        (Z.land x 15) (Z.land (Z.shiftr x 4) 1) (Z.land (Z.shiftr x 5) 1) (Z.land (Z.shiftr x 6) 1) (Z.shiftr x 7) (rd 1 7 b).

(** The boot loader's table has the kernel's code and data segments where the kernel will have
    them, with the same flat descriptors. *)
Theorem boot_gdt_flat :
  read_desc (sub (8 * Z.to_nat SEG_KCODE) 8 boot_gdt) = SEG (Z.lor STA_X STA_R) 0 4294967295 0 /\
  read_desc (sub (8 * Z.to_nat SEG_KDATA) 8 boot_gdt) = SEG STA_W 0 4294967295 0.
Proof. by vm_compute. Qed.
