(* ===== verification/Main.v ===== *)
(** * Main: the start of the kernel (main.c)

    [main] is the sequence of the components' initialisations on the boot processor, and
    [mpenter] what the other processors run.  The state is the machine with the tables and
    registers of this CPU.  [entryother] (entryother.S), the addresses of [mpenter] and
    [entrypgdir], and what the other processors do while this one polls [started]
    ([others]) are arguments.  [pinit] and [fileinit] initialise a lock each, which is free
    already in a state whose [held] is empty.  [scheduler] does not return: [main] ends where
    it is called. *)

From stdpp Require Import functions base gmap list strings.
From Stdlib Require Import ZArith Lia.
From S2P Require Import Prelude State Core Bio Kalloc Fs Console Vm Proc Trap Ports Apic Ide Mp Uart Seg.

Local Open Scope Z_scope.
Local Open Scope kernel_scope.

Definition PTE_PS : Z := 128.

(** The boot page table: two pages of four megabytes. *)
Definition entrypgdir : list Z :=
  <[Z.to_nat (Z.shiftr KERNBASE 22) := Z.lor (Z.lor (Z.lor 0 PTE_P) PTE_W) PTE_PS]>
    (<[0%nat := Z.lor (Z.lor (Z.lor 0 PTE_P) PTE_W) PTE_PS]> (replicate NPDENTRIES 0)).

(** How the processor translates an address with it, CR4_PSE being set. *)
Definition entry_translate (va : Z) : option Z :=
  e ← entrypgdir !! Z.to_nat (PDX va);
  if negb (Z.land e PTE_P =? 0) && negb (Z.land e PTE_PS =? 0)
  then Some (Z.land e 4290772992 + va mod 4194304) else None.

Class Entry := { entryother : list Z; mpenter_addr : Z; entrypgdir_addr : Z }.

Section main.
Context `{DiskDriver} `{Devices} `{Linker} `{Symbols} `{Mmio} `{Tables} `{Entry}.

Record mainst := mkMain { mach : machine; mregs : cpuregs; idt : list gatedesc }.
Notation MM := (M (option chan) mainst).

Definition on_machine {A} (m : HM A) : MM A := fun x =>
  match m (mach x) with
  | Ret a y => Ret a (mkMain y (mregs x) (idt x))
  | Panic msg => Panic msg
  | Slept c y => Slept c (mkMain y (mregs x) (idt x))
  end.
Definition on_kernel {A} (m : KM A) : MM A := on_machine (kernel m).
Definition on_regs (f : cpuregs -> cpuregs) : MM unit := modify (fun x => mkMain (mach x) (f (mregs x)) (idt x)).

(** [mycpu()-cpus]: the loop over [cpus] of [mycpu] *)
Definition cpuid : HM nat :=
  i <- lapicid ;;
  l <- get (fun x => take (Z.to_nat (ncpu x)) (apicids x)) ;;
  match list_find (fun a => a = i) l with
  | Some (k, _) => ret k
  | None => panic "unknown apicid"
  end.

(** [while(c->started == 0)] *)
Fixpoint await (others : machine -> machine) (n : nat) (c : nat) : HM unit :=
  s <- get (fun x => default false (started x !! c)) ;;
  if s : bool then ret tt else
  match n with
  | O => panic "out of fuel"
  | S n' => modify others ;;; await others n' c
  end.

(** The body of the loop of [startothers]. *)
Definition startother (others : machine -> machine) (code : Z) (c : nat) : HM unit :=
  me <- cpuid ;;
  if bool_decide (c = me) then ret tt else
  stack <- kernel kalloc ;;
  kernel (mem_wr (code - 4) (u32 (stack + KSTACKSIZE))) ;;;
  kernel (mem_wr (code - 8) mpenter_addr) ;;;
  kernel (mem_wr (code - 12) (V2P entrypgdir_addr)) ;;;
  a <- get (fun x => default 0 (apicids x !! c)) ;;
  lapicstartap a (V2P code) ;;;
  await others patience c.

Definition startothers (others : machine -> machine) : HM unit :=
  let code := P2V 28672 in
  kernel (mem_store code entryother) ;;;
  n <- get ncpu ;;
  for_each (seq 0 (Z.to_nat n)) (startother others code).

Definition switch_kvm : MM unit :=
  k <- get (fun x => kpgdir (ks (mach x))) ;;
  on_regs (switchkvm k).

(** [mpmain] up to the call of [scheduler] *)
Definition mpmain : MM unit :=
  c <- on_machine cpuid ;;
  c' <- on_machine cpuid ;;
  on_kernel (cprintf (lit "cpu%d: starting %d" ++ [10]) [Word (Z.of_nat c); Word (Z.of_nat c')]) ;;;
  on_regs idtinit ;;;
  c <- on_machine cpuid ;;
  modify (fun x => mkMain (set_started (<[c := true]> (started (mach x))) (mach x)) (mregs x) (idt x)).

Definition mpenter : MM unit :=
  switch_kvm ;;;
  on_regs seginit ;;;
  on_machine lapicinit ;;;
  mpmain.

Definition main (others : machine -> machine) : MM unit :=
  on_kernel (kinit1 kend (P2V (4 * 1024 * 1024))) ;;;
  on_kernel kvmalloc ;;; switch_kvm ;;;
  on_machine mpinit ;;;
  on_machine lapicinit ;;;
  on_regs seginit ;;;
  on_machine picinit ;;;
  on_machine ioapicinit ;;;
  on_kernel consoleinit ;;; on_machine (ioapicenable IRQ_KBD 0) ;;;
  on_machine uartinit ;;;
  modify (fun x => mkMain (mach x) (mregs x) (tvinit (idt x))) ;;;
  on_kernel binit ;;;
  on_machine ideinit ;;;
  on_machine (startothers others) ;;;
  on_kernel (kinit2 (P2V (4 * 1024 * 1024)) (P2V PHYSTOP)) ;;;
  on_kernel userinit ;;;
  mpmain.
End main.

(** The boot page table maps the first four megabytes of memory where they are and at [KERNBASE]. *)
Theorem entrypgdir_maps a : 0 <= a < 4194304 -> entry_translate a = Some a /\ entry_translate (KERNBASE + a) = Some a.
Proof.
  intros Ha. assert (PDX a = 0 /\ PDX (KERNBASE + a) = 512) as [E1 E2].
  { unfold PDX, KERNBASE. change 1023 with (Z.ones 10). rewrite !Z.land_ones, !Z.shiftr_div_pow2 by lia. change (2 ^ 22) with 4194304.
    rewrite Z.div_small by lia. replace (2147483648 + a) with (a + 512 * 4194304) by lia. rewrite Z.div_add, Z.div_small by lia. done. }
  unfold entry_translate. rewrite E1, E2. assert (entrypgdir !! Z.to_nat 0 = Some 131 /\ entrypgdir !! Z.to_nat 512 = Some 131) as [-> ->] by (by vm_compute).
  cbn [mbind option_bind]. change (Z.land 131 4290772992) with 0. change (_ && _) with true. cbn iota.
  rewrite Z.mod_small by lia. replace (KERNBASE + a) with (a + 512 * 4194304) by (unfold KERNBASE; lia). rewrite Z.mod_add, Z.mod_small by lia. done.
Qed.
