(* ===== verification/ProcSpec.v ===== *)
(** * ProcSpec: the process system calls do what they say *)

From stdpp Require Import base gmap list strings.
From Stdlib Require Import ZArith Lia Znumtheory.
From S2P Require Import Prelude State Core Sem Kalloc Pipe Proc.

Local Open Scope Z_scope.

(** ** flpf *)

(** No divisor of [n] lies between 1 and [i]. *)
Definition rough (n i : Z) : Prop := forall d, (d | n) -> 1 < d -> i <= d.

Lemma rough_divide n m i : rough n i -> (m | n) -> rough m i.
Proof. intros Hr Hm d Hd Hd1. apply Hr; [|done]. by transitivity m. Qed.

Lemma rough_succ n i : rough n i -> ~ (i | n) -> rough n (i + 1).
Proof.
  intros Hr Hn d Hd Hd1. specialize (Hr d Hd Hd1).
  destruct (decide (d = i)) as [->|]; [done|lia].
Qed.

Lemma rough_prime n i : 1 < i -> rough n i -> (i | n) -> prime i.
Proof.
  intros Hi Hr Hd. apply prime_alt. split; [done|]. intros d Hd1 Hdi.
  pose proof (Hr d (Z.divide_trans _ _ _ Hdi Hd) ltac:(lia)). lia.
Qed.

Lemma rough_le n i : 1 < n -> rough n i -> i <= n.
Proof. intros Hn Hr. by apply Hr; [apply Z.divide_refl|]. Qed.

Record flpf_inv (num n i : Z) : Prop := {
  fi_n : 1 <= n;
  fi_i : 2 <= i;
  fi_rough : rough n i;
  fi_done : n = 1 -> prime i /\ (i | num);
  fi_div : (n | num);
  fi_max : forall q, prime q -> (q | num) -> (q | n) \/ q <= i
}.

Lemma flpf_inv_divide num n i : flpf_inv num n i -> 1 < n -> (i | n) -> flpf_inv num (n / i) i.
Proof.
  intros [Hn Hi Hr _ Hd Hm] Hn1 Hin. pose proof Hin as [k Hk].
  assert (n / i = k) as E by (subst n; apply Z.div_mul; lia).
  assert ((n / i | n)) as Hkn by (rewrite E; exists i; lia).
  split.
  - rewrite E. nia.
  - done.
  - by eapply rough_divide.
  - intros _. split; [apply (rough_prime n); [lia|done..]|]. by transitivity n.
  - by transitivity n.
  - intros q Hq Hqn. destruct (Hm q Hq Hqn) as [Hqn'|]; [|by right].
    rewrite Hk in Hqn'. apply prime_mult in Hqn' as [Hqk|Hqi]; [|by right; apply Z.divide_pos_le; [lia|]|done].
    left. by rewrite E.
Qed.

Lemma flpf_inv_next num n i : flpf_inv num n i -> 1 < n -> ~ (i | n) -> flpf_inv num n (i + 1).
Proof.
  intros [Hn Hi Hr _ Hd Hm] Hn1 Hin. split; try done.
  - lia.
  - by apply rough_succ.
  - lia.
  - intros q Hq Hqn. destruct (Hm q Hq Hqn); [by left|right; lia].
Qed.

Lemma log2_half n i : 1 < n -> 2 <= i -> 0 <= n / i -> Z.log2 (n / i) <= Z.log2 n - 1.
Proof.
  intros Hn Hi Hq. etransitivity; [apply (Z.log2_le_mono _ (n / 2)); apply Z.div_le_compat_l; lia|].
  rewrite <- Z.div2_div, Z.div2_spec, Z.log2_shiftr by lia. pose proof (Z.log2_pos n Hn). lia.
Qed.

(** The number of rounds the loop still needs. *)
Definition flpf_rounds (n i : Z) : Z := if n <=? 1 then 1 else n - i + 1 + Z.log2 n.

Lemma flpf_loop_spec num fuel n i :
  flpf_inv num n i -> flpf_rounds n i <= Z.of_nat fuel ->
  exists r, flpf_loop fuel n i = Some r /\ flpf_inv num 1 r.
Proof.
  revert n i. induction fuel as [|fuel IH]; intros n i Hinv Hf.
  - exfalso. unfold flpf_rounds in Hf. destruct (Z.leb_spec n 1); [lia|].
    pose proof (rough_le n i ltac:(lia) (fi_rough _ _ _ Hinv)). pose proof (Z.log2_nonneg n). lia.
  - cbn [flpf_loop]. unfold flpf_rounds in Hf. pose proof (fi_i _ _ _ Hinv) as Hi.
    destruct (Z.ltb_spec 1 n) as [Hn|Hn]; destruct (Z.leb_spec n 1) as [Hn'|Hn']; try lia.
    2:{ exists i. split; [done|]. pose proof (fi_n _ _ _ Hinv). by replace 1 with n by lia. }
    rewrite Z.rem_mod_nonneg, Z.quot_div_nonneg by lia.
    destruct (Z.eqb_spec (n mod i) 0) as [E|E].
    + apply Z.mod_divide in E; [|lia]. pose proof (flpf_inv_divide _ _ _ Hinv Hn E) as Hinv'. apply IH; [done|].
      pose proof (log2_half n i Hn Hi ltac:(apply Z.div_pos; lia)). pose proof (Z.log2_nonneg n).
      pose proof (rough_le n i Hn (fi_rough _ _ _ Hinv)).
      unfold flpf_rounds. destruct (Z.leb_spec (n / i) 1); [pose proof (Z.log2_pos n Hn); lia|].
      assert (n / i < n) by (apply Z.div_lt; lia). lia.
    + assert (~ (i | n)) as Hnd by (by rewrite <- Z.mod_divide by lia).
      apply IH; [by apply flpf_inv_next|]. unfold flpf_rounds. destruct (Z.leb_spec n 1); lia.
Qed.

Definition largest_prime_factor (num r : Z) : Prop :=
  prime r /\ (r | num) /\ forall q, prime q -> (q | num) -> q <= r.

(** C38: [flpf] ends on every int; from 2 on its result is the largest prime factor of
    the argument, below 2 it is 2. *)
Theorem flpf_largest_prime_factor (num : Z) (Hnum : -2147483648 <= num < 2147483648) :
  exists r, flpf (Z.to_nat num + 64) num = Some r /\
    (num <= 1 -> r = 2) /\
    (1 < num -> largest_prime_factor num r).
Proof.
  destruct (decide (num <= 1)) as [Hle|Hgt].
  - exists 2. split; [|split; [done|lia]]. unfold flpf. replace (Z.to_nat num + 64)%nat with (S (Z.to_nat num + 63)) by lia.
    cbn [flpf_loop].
    by destruct (Z.ltb_spec 1 num); [lia|].
  - destruct (flpf_loop_spec num (Z.to_nat num + 64) num 2) as (r & Hr & Hinv).
    { split; try lia; [intros d; lia|apply Z.divide_refl|by left]. }
    { unfold flpf_rounds. destruct (Z.leb_spec num 1); [lia|].
      assert (Z.log2 num < 31) by (apply Z.log2_lt_pow2; lia). lia. }
    exists r. split; [done|]. split; [lia|]. intros _. destruct Hinv as [_ Hi _ Hd _ Hm].
    destruct (Hd eq_refl) as [Hp Hdv]. split_and!; [done..|]. intros q Hq Hqn.
    destruct (Hm q Hq Hqn) as [Hq1|]; [|done]. apply Z.divide_1_r_nonneg in Hq1; [|destruct Hq; lia].
    destruct Hq. lia.
Qed.

Lemma flpf_largest_prime_factor_witness : flpf (Z.to_nat 84 + 64) 84 = Some 7.
Proof.
  destruct (flpf_largest_prime_factor 84 ltac:(lia)) as (r & Hr & _ & _). rewrite Hr. vm_compute in Hr. congruence.
Defined.
