(* ===== verification/ConsoleOut.v ===== *)
(** * ConsoleOut: what the console shows and sends *)

From stdpp Require Import base gmap list strings.
From Stdlib Require Import ZArith Lia.
From S2P Require Import Prelude State Core Printf Console.

Local Open Scope Z_scope.
Local Open Scope kernel_scope.

(** ** The screen *)

(** 24 of the 25 rows are used. *)
Definition screen_ok (x : consstate) : Prop := length (crt x) = 2000%nat /\ 0 <= crt_pos x < 24 * 80.

(** The cursor after the character, before scrolling. *)
Definition advance (c pos : Z) : Z :=
  if c =? 10 then pos + (80 - pos mod 80) else if c =? BACKSPACE then (if 0 <? pos then pos - 1 else pos) else pos + 1.
Definition scrolls (c pos : Z) : bool := 24 * 80 <=? advance c pos.

(** The cell of the cursor, where the next character goes, is blank. *)
Definition cursor_cell : Z := Z.lor 32 1792.

Definition drawn (c pos : Z) (l : list Z) : list Z :=
  if (c =? 10) || (c =? BACKSPACE) then l else <[Z.to_nat pos := Z.lor (Z.land c 255) 1792]> l.
Definition new_pos (c pos : Z) : Z := if scrolls c pos then advance c pos - 80 else advance c pos.
Definition new_crt (c pos : Z) (l : list Z) : list Z :=
  <[Z.to_nat (new_pos c pos) := cursor_cell]>
    (if scrolls c pos then scroll (advance c pos) (drawn c pos l) else drawn c pos l).

Lemma advance_range c pos : 0 <= pos < 1920 -> 0 <= advance c pos <= 1920 /\ 0 <= new_pos c pos < 1920.
Proof.
  intros Hp. unfold new_pos, scrolls.
  assert (0 <= advance c pos <= 1920) as Ha.
  { unfold advance. pose proof (Z.mod_pos_bound pos 80 ltac:(lia)). pose proof (Z.div_mod pos 80 ltac:(lia)).
    destruct (c =? 10); [|destruct (c =? BACKSPACE); [destruct (Z.ltb_spec 0 pos)|]; lia].
    assert (pos / 80 < 24) by (apply Z.div_lt_upper_bound; lia). lia. }
  split; [done|]. destruct (Z.leb_spec (24 * 80) (advance c pos)); lia.
Qed.

Lemma length_drawn c pos l : length (drawn c pos l) = length l.
Proof. unfold drawn. destruct (_ || _); [done|]. apply length_insert. Qed.

Lemma length_scroll l : length l = 2000%nat -> length (scroll 1920 l) = 2000%nat.
Proof.
  intros Hl. unfold scroll. rewrite length_splice; rewrite length_splice; rewrite ?length_sub; rewrite ?length_replicate; lia.
Qed.

Lemma crt_put_eq pos v s :
  0 <= pos < 2000 -> crt_put pos v s = Ret tt (set_console (set_crt (<[Z.to_nat pos := v]> (crt (console s))) (console s)) s).
Proof.
  intros Hp. unfold crt_put, bind, get. rewrite (proj2 (Z.leb_le _ _)), (proj2 (Z.ltb_lt _ _)) by lia. done.
Qed.

Definition cga (c : Z) (x : consstate) : consstate :=
  set_crt_pos (new_pos c (crt_pos x)) (set_crt (new_crt c (crt_pos x) (crt x)) x).

(** The cursor moved, before the bounds check. *)
Lemma cga_draw c s :
  screen_ok (console s) ->
  (let pos := crt_pos (console s) in
   if c =? 10 then ret (pos + (80 - pos mod 80))
   else if c =? BACKSPACE then ret (if 0 <? pos then pos - 1 else pos)
   else crt_put pos (Z.lor (Z.land c 255) 1792) ;;; ret (pos + 1) : KM Z) s =
  Ret (advance c (crt_pos (console s)))
    (set_console (set_crt (drawn c (crt_pos (console s)) (crt (console s))) (console s)) s).
Proof.
  intros [Hl Hp]. cbv zeta. unfold advance, drawn.
  destruct (c =? 10); [by destruct s as [????????????????? ? [] ?]|].
  destruct (c =? BACKSPACE); [by destruct s as [????????????????? ? [] ?]|].
  unfold bind. rewrite crt_put_eq by lia. done.
Qed.

Lemma cgaputc_eq c s :
  screen_ok (console s) -> cgaputc c s = Ret tt (set_console (cga c (console s)) s).
Proof.
  intros Hok. pose proof Hok as [Hl Hp]. destruct (advance_range c _ Hp) as [Ha Hn].
  unfold cgaputc. unfold bind at 1, get at 1. unfold bind at 1. pose proof (cga_draw c s Hok) as Hd. cbv zeta in Hd.
  rewrite Hd. clear Hd. set (pos := crt_pos (console s)) in *.
  rewrite (proj2 (Z.ltb_ge _ _)), (proj2 (Z.ltb_ge _ _)) by lia. cbn [orb].
  unfold cga, new_crt. fold pos. unfold new_pos, scrolls in *.
  assert ((24 <=? advance c pos / 80) = (24 * 80 <=? advance c pos)) as ->.
  { apply Bool.eq_iff_eq_true. rewrite !Z.leb_le. split; intros ?.
    - apply (Z.le_trans _ (80 * (advance c pos / 80))); [lia|]. apply Z.mul_div_le. lia.
    - apply Z.div_le_lower_bound; lia. }
  destruct (24 * 80 <=? advance c pos); unfold bind, upd_cons, modify, ret; cbn [console set_console].
  - rewrite crt_put_eq by lia. unfold u16. rewrite Z.mod_small by lia. destruct s as [????????????????? ? [] ?]. done.
  - rewrite crt_put_eq by lia. unfold u16. rewrite Z.mod_small by lia. destruct s as [????????????????? ? [] ?]. done.
Qed.

Lemma cga_ok c x : screen_ok x -> screen_ok (cga c x).
Proof.
  intros [Hl Hp]. destruct (advance_range c _ Hp) as [Ha Hn]. split; [|done]. cbn [crt cga set_crt_pos set_crt].
  unfold new_crt. rewrite length_insert. destruct (scrolls c (crt_pos x)) eqn:E; [|by rewrite length_drawn].
  unfold scrolls in E. apply Z.leb_le in E. replace (advance c (crt_pos x)) with 1920 by lia.
  apply length_scroll. by rewrite length_drawn.
Qed.

Lemma lookup_scroll l k :
  length l = 2000%nat -> (k < 1920)%nat ->
  scroll 1920 l !! k = if decide (k < 1840)%nat then l !! (k + 80)%nat else Some 0.
Proof.
  intros Hl Hk. unfold scroll. case_decide as Hd.
  - rewrite lookup_splice_out; [|rewrite length_splice; rewrite ?length_sub; lia|rewrite length_replicate; lia].
    rewrite lookup_splice_in by (rewrite ?length_sub; lia). rewrite lookup_sub by lia. f_equal. lia.
  - rewrite lookup_splice_in; [|rewrite length_splice; rewrite ?length_sub; lia|rewrite length_replicate; lia].
    apply lookup_replicate_2. lia.
Qed.

(** [cgaputc] never panics and keeps the cursor in the 24 rows it uses.  A character
    goes to the cursor's cell, which moves on; a newline moves it to the next row, a
    backspace one cell back; when the 24 rows are full every row moves up by one and
    the last one is cleared.  The new cursor cell is blank. *)
Theorem cgaputc_shows (c : Z) (s : kstate) (Hok : screen_ok (console s)) :
  exists x, cgaputc c s = Ret tt (set_console x s) /\ screen_ok x
  /\ crt_pos x = new_pos c (crt_pos (console s))
  /\ crt x !! Z.to_nat (crt_pos x) = Some cursor_cell
  /\ (c <> 10 -> c <> BACKSPACE ->
      crt x !! Z.to_nat (if scrolls c (crt_pos (console s)) then crt_pos (console s) - 80 else crt_pos (console s))
        = Some (Z.lor (Z.land c 255) 1792))
  /\ forall k, (k < 1920)%nat -> k <> Z.to_nat (crt_pos x) -> k <> Z.to_nat (crt_pos (console s)) ->
      (if scrolls c (crt_pos (console s)) then (k < 1839)%nat else True) ->
      crt x !! k = crt (console s) !! (if scrolls c (crt_pos (console s)) then k + 80 else k)%nat.
Proof.
  exists (cga c (console s)). split; [by apply cgaputc_eq|]. split; [by apply cga_ok|].
  destruct Hok as [Hl Hp]. set (pos := crt_pos (console s)) in *. set (l := crt (console s)) in *.
  destruct (advance_range c pos Hp) as [Ha Hn]. cbn [crt_pos crt cga set_crt_pos set_crt]. fold pos l.
  pose proof (length_drawn c pos l) as Hd. rewrite Hl in Hd. unfold new_crt.
  split; [done|]. split.
  { apply list_lookup_insert_eq. destruct (scrolls c pos) eqn:E; [|lia].
    unfold scrolls in E. apply Z.leb_le in E. replace (advance c pos) with 1920 by lia. rewrite length_scroll; lia. }
  unfold new_pos in *. destruct (scrolls c pos) eqn:E; unfold scrolls in E.
  - apply Z.leb_le in E. assert (advance c pos = 1920) as Ea by lia. rewrite Ea in *. split.
    + intros H10 Hbs. unfold advance, drawn in *. rewrite (proj2 (Z.eqb_neq c 10)), (proj2 (Z.eqb_neq c BACKSPACE)) in * by done.
      cbn [orb]. assert (pos = 1919) as -> by lia. rewrite list_lookup_insert_ne by lia.
      rewrite lookup_scroll; [|by rewrite length_insert|lia]. rewrite decide_True by lia.
      replace (Z.to_nat (1919 - 80) + 80)%nat with (Z.to_nat 1919) by lia. apply list_lookup_insert_eq. lia.
    + intros k Hk Hk1 Hk2 Hk3. rewrite list_lookup_insert_ne, lookup_scroll by lia. rewrite decide_True by lia.
      unfold drawn. destruct (_ || _) eqn:Eb; [done|]. rewrite list_lookup_insert_ne; [done|].
      apply orb_false_iff in Eb as [E1 E2]. unfold advance in Ea. rewrite E1, E2 in Ea. lia.
  - apply Z.leb_gt in E. split.
    + intros H10 Hbs. unfold advance, drawn in *. rewrite (proj2 (Z.eqb_neq c 10)), (proj2 (Z.eqb_neq c BACKSPACE)) in * by done.
      cbn [orb]. rewrite list_lookup_insert_ne by lia. apply list_lookup_insert_eq. lia.
    + intros k Hk Hk1 Hk2 _. rewrite list_lookup_insert_ne by lia. unfold drawn.
      destruct (_ || _); [done|]. by rewrite list_lookup_insert_ne by lia.
Qed.

(** The last cell of the screen is written and the screen scrolls. *)
Definition full_screen : kstate :=
  mkK [] [null_proc] (Some 0%nat) 1 None ∅ 0 true [] ∅ [] (mkLog 0 0 0 false 0 0 []) (mkSb 0 0 0 0 0 0 0)
    [] [] ∅ [] 0 (set_crt_pos 1919 null_console) 0.
Lemma cgaputc_shows_witness :
  exists x, cgaputc 65 full_screen = Ret tt (set_console x full_screen) /\ crt_pos x = 1840 /\
    crt x !! 1839%nat = Some 1857.
Proof.
  destruct (cgaputc_shows 65 full_screen ltac:(split; [by vm_compute|by vm_compute])) as (x & Hx & _ & Hp & _ & Hc & _).
  exists x. split; [exact Hx|]. split; [by rewrite Hp|]. exact (Hc ltac:(lia) ltac:(done)).
Defined.

(** ** The serial port *)

Definition put_bytes (c : Z) : list Z := if c =? BACKSPACE then [8; 32; 8] else [u8 c].

(** The console after output of [bs]: nothing else has changed. *)
Record wrote (bs : list Z) (x x' : consstate) : Prop := {
  wr_eq : x' = set_uart_out (uart_out x ++ bs) (set_crt_pos (crt_pos x') (set_crt (crt x') x));
  wr_ok : screen_ok x'
}.

Lemma wrote_refl x : screen_ok x -> wrote [] x x.
Proof. intros Hok. split; [|done]. rewrite app_nil_r. by destruct x. Qed.

Lemma wrote_trans bs bs' x y z : wrote bs x y -> wrote bs' y z -> wrote (bs ++ bs') x z.
Proof. intros [-> _] [-> Hz]. split; [|done]. cbn. by rewrite app_assoc. Qed.

Lemma consputc_eq c s :
  screen_ok (console s) -> panicked (console s) = false ->
  exists x, consputc c s = Ret tt (set_console x s) /\ wrote (put_bytes c) (console s) x.
Proof.
  intros Hok Hp. unfold consputc. unfold bind at 1, get at 1. rewrite Hp. cbv iota beta.
  set (y := set_uart_out (uart_out (console s) ++ put_bytes c) (console s)).
  exists (cga c y). split.
  - transitivity (cgaputc c (set_console y s)).
    + unfold put_bytes in y. unfold bind at 1, uartputc, upd_cons, modify.
      destruct (c =? BACKSPACE); [unfold bind|]; cbn [console set_console]; f_equal; try done.
      unfold y. cbn. by rewrite <- !app_assoc.
    + by rewrite cgaputc_eq.
  - split; [by destruct (console s)|]. by apply cga_ok.
Qed.

(** [wp] of output: [m] writes [bs] to the console and changes nothing else. *)
Definition writes_out (bs : list Z) (m : KM unit) : Prop :=
  forall s, screen_ok (console s) -> panicked (console s) = false ->
  exists x, m s = Ret tt (set_console x s) /\ wrote bs (console s) x.

Lemma writes_ret : writes_out [] (ret tt).
Proof. intros s Hok _. exists (console s). split; [by destruct s|by apply wrote_refl]. Qed.

Lemma writes_seq bs bs' (m m' : KM unit) : writes_out bs m -> writes_out bs' m' -> writes_out (bs ++ bs') (m ;;; m').
Proof.
  intros Hm Hm' s Hok Hp. destruct (Hm s Hok Hp) as (x & Hx & Hw). pose proof Hw as [He Ho].
  destruct (Hm' (set_console x s)) as (y & Hy & Hw'); [done|by rewrite He|].
  exists y. split; [|by eapply wrote_trans]. unfold bind. by rewrite Hx, Hy.
Qed.

Lemma writes_consputc c : writes_out (put_bytes c) (consputc c).
Proof. intros s. apply consputc_eq. Qed.

Lemma writes_each {A} (f : A -> KM unit) (g : A -> list Z) l :
  (forall a, writes_out (g a) (f a)) -> writes_out (mjoin (g <$> l)) (for_each l f).
Proof.
  intros Hf. induction l as [|a l IH]; [apply writes_ret|]. apply (writes_seq (g a)); [apply Hf|apply IH].
Qed.

(** What a call of [cprintf] sends; [None] when the arguments do not fit the format. *)
Fixpoint render (fmt : list Z) (argp : list carg) : option (list Z) :=
  match fmt with
  | [] => Some []
  | c :: fmt' =>
      if negb (c =? 37) then o ← render fmt' argp; Some (put_bytes c ++ o)
      else
        match fmt' with
        | [] => Some []
        | c :: fmt'' =>
            let num base sgn :=
              match argp with
              | Word a :: argp' => d ← Printf.printint false (i32 a) base sgn; o ← render fmt'' argp'; Some (d ++ o)
              | _ => None
              end in
            if c =? 100 then num 10 true
            else if (c =? 120) || (c =? 112) then num 16 false
            else if c =? 115 then
              match argp with
              | Chars s :: argp' => o ← render fmt'' argp'; Some (mjoin (put_bytes ∘ sx8 <$> s) ++ o)
              | Word 0 :: argp' => o ← render fmt'' argp'; Some (null_string ++ o)
              | _ => None
              end
            else if c =? 37 then o ← render fmt'' argp; Some (37 :: o)
            else o ← render fmt'' argp; Some (37 :: put_bytes c ++ o)
        end
  end.

(** The digits of a number are characters. *)
Lemma put_digits_ascii n x base l :
  2 <= base <= 16 -> 0 <= x -> put_digits false n x base = Some l -> Forall (fun c => 0 <= c < 128) l.
Proof.
  intros Hb. revert x l. induction n as [|n IH]; intros x l Hx; [done|]. cbn [put_digits].
  pose proof (Z.mod_pos_bound x base ltac:(lia)) as Hm.
  assert (0 <= digit false (x mod base) < 128) as Hd by (unfold digit; destruct (Z.ltb_spec (x mod base) 10); lia).
  destruct (x / base =? 0); [intros [= <-]; by apply Forall_singleton|].
  destruct (put_digits false n (x / base) base) as [r|] eqn:E; [|done]. intros [= <-].
  constructor; [done|]. apply (IH (x / base)); [|done]. apply Z.div_pos; lia.
Qed.

Lemma printint_ascii xx base sgn l :
  2 <= base <= 16 -> Printf.printint false xx base sgn = Some l -> Forall (fun c => 0 <= c < 128) l.
Proof.
  intros Hb. unfold Printf.printint. destruct (put_digits _ _ _ _) as [buf|] eqn:E; [|done].
  apply put_digits_ascii in E; [|done|apply u32_range]. simpl.
  destruct (sgn && _); [case_decide|]; intros [= <-]; [|by apply Forall_rev].
  rewrite rev_app_distr. constructor; [lia|]. by apply Forall_rev.
Qed.

Lemma put_bytes_ascii l : Forall (fun c => 0 <= c < 128) l -> mjoin (put_bytes <$> l) = l.
Proof.
  induction 1 as [|c l Hc _ IH]; [done|]. cbn. unfold put_bytes at 1, BACKSPACE. rewrite (proj2 (Z.eqb_neq _ _)) by lia.
  change (u8 c :: mjoin (put_bytes <$> l) = c :: l). rewrite IH. unfold u8. by rewrite Z.mod_small by lia.
Qed.

Lemma writes_ascii l : Forall (fun c => 0 <= c < 128) l -> writes_out l (for_each l consputc).
Proof. intros Hl. rewrite <- (put_bytes_ascii l Hl) at 1. apply writes_each, writes_consputc. Qed.

Lemma writes_printint xx base sgn d :
  2 <= base <= 16 -> Printf.printint false xx base sgn = Some d -> writes_out d (printint xx base sgn).
Proof.
  intros Hb Hd. pose proof (writes_ascii d (printint_ascii _ _ _ _ Hb Hd)) as Hw. intros s Hok Hp.
  unfold printint. rewrite Hd. exact (Hw s Hok Hp).
Qed.

(** The loop, by induction on the length of the format. *)
Lemma writes_cprintf_loop n fmt argp o :
  (length fmt <= n)%nat -> render fmt argp = Some o -> writes_out o (cprintf_loop fmt argp).
Proof.
  revert fmt argp o. induction n as [|n IH]; intros [|c fmt] argp o Hn; simpl in Hn; try lia; cbn [render cprintf_loop].
  1,2: intros [= <-]; apply writes_ret.
  destruct (negb (c =? 37)).
  { destruct (render fmt argp) as [o'|] eqn:E; [|done]. intros [= <-].
    apply writes_seq; [apply writes_consputc|]. apply IH; [lia|done]. }
  destruct fmt as [|d fmt]; [intros [= <-]; apply writes_ret|]. simpl in Hn.
  assert (forall argp o, render fmt argp = Some o -> writes_out o (cprintf_loop fmt argp)) as IH'.
  { intros argp' o' Ho'. apply IH; [lia|done]. }
  clear IH. destruct (d =? 100).
  { destruct argp as [|[a|] argp]; try done. destruct (Printf.printint _ _ _ _) as [b|] eqn:E; [|done].
    destruct (render fmt argp) as [o'|] eqn:E'; [|done]. intros [= <-].
    apply writes_seq; [by apply writes_printint|by apply IH']. }
  destruct ((d =? 120) || (d =? 112)).
  { destruct argp as [|[a|] argp]; try done. destruct (Printf.printint _ _ _ _) as [b|] eqn:E; [|done].
    destruct (render fmt argp) as [o'|] eqn:E'; [|done]. intros [= <-].
    apply writes_seq; [by apply writes_printint|by apply IH']. }
  destruct (d =? 115).
  { destruct argp as [|[[| |]|str] argp]; try done; (destruct (render fmt argp) as [o'|] eqn:E'; [|done]); intros [= <-].
    - apply (writes_seq null_string); [|by apply IH']. apply writes_ascii. repeat (constructor; [lia|]). constructor.
    - apply writes_seq; [|by apply IH']. apply writes_each. intros a. apply writes_consputc. }
  destruct (d =? 37); (destruct (render fmt argp) as [o'|] eqn:E'; [|done]); intros [= <-].
  - apply (writes_seq [37]); [exact (writes_consputc 37)|by apply IH'].
  - apply (writes_seq [37]); [exact (writes_consputc 37)|].
    apply writes_seq; [apply writes_consputc|by apply IH'].
Qed.

(** Printing with the lock, when the console has one. *)
Lemma locked_writes o m s : writes_out o m -> screen_ok (console s) -> panicked (console s) = false -> L_cons ∉ held s ->
  exists x, (locking <- get (fun s => cons_locking (console s)) ;;
    (if locking : bool then acquire L_cons else ret tt) ;;; m ;;; (if locking : bool then release L_cons else ret tt)) s = Ret tt (set_console x s)
    /\ wrote o (console s) x.
Proof.
  intros Hw Hok Hp Hl. unfold bind at 1, get at 1. destruct (cons_locking (console s)); unfold bind at 1.
  - rewrite acquire_eq by done. destruct (Hw (set_held (L_cons :: held s) s) Hok Hp) as (x & Hx & Hwr).
    exists x. split; [|done]. unfold bind. rewrite Hx. rewrite (release_top _ (held s)) by done. by destruct s.
  - destruct (Hw s Hok Hp) as (x & Hx & Hwr). exists x. split; [|done]. unfold bind, ret. by rewrite Hx.
Qed.

(** [cprintf] prints: it returns for every format whose arguments fit, sends the
    formatted text to the serial port and the screen, and changes nothing else; the
    lock is free again. *)
Theorem cprintf_prints (fmt : list Z) (argp : list carg) (o : list Z) (s : kstate)
    (Ho : render fmt argp = Some o) (Hok : screen_ok (console s)) (Hp : panicked (console s) = false)
    (Hl : L_cons ∉ held s) :
  exists x, cprintf fmt argp s = Ret tt (set_console x s) /\ wrote o (console s) x.
Proof. apply locked_writes; [|done..]. by apply (writes_cprintf_loop _ _ _ _ (le_n _)). Qed.

Lemma cprintf_prints_witness :
  exists x, cprintf (lit "pid %d %s") [Word 12; Chars (lit "sh")] full_screen = Ret tt (set_console x full_screen)
    /\ uart_out x = lit "pid 12 sh".
Proof.
  destruct (cprintf_prints (lit "pid %d %s") [Word 12; Chars (lit "sh")] (lit "pid 12 sh") full_screen
    ltac:(by vm_compute) ltac:(split; by vm_compute) eq_refl ltac:(apply not_elem_of_nil)) as (x & Hx & [Hw _]).
  exists x. split; [exact Hx|]. rewrite Hw. reflexivity.
Defined.
