(* ===== verification/VmSpec.v ===== *)
(** * VmSpec: page directories as maps from page numbers to entries

    [space m pg tab ent]: in the memory [m] the page [pg] is a directory, [tab d] is the
    page table of its entry [d], and [ent v] is the entry of the virtual page [v], the
    address divided by PGSIZE.  [walkpgdir] finds and [mappages] adds entries of [ent]. *)

From stdpp Require Import functions base gmap list strings.
From Stdlib Require Import ZArith Lia.
From S2P Require Import Prelude State Core Kalloc Bio Log Fs Pipe Console Vm.

Local Open Scope Z_scope.
Local Open Scope kernel_scope.

(** ** Entries *)

Lemma lor_aligned x f : x mod 4096 = 0 -> 0 <= f < 4096 -> Z.lor x f = x + f.
Proof. by apply (lor_add 12). Qed.

Lemma PTE_FLAGS_mod e : PTE_FLAGS e = e mod 4096.
Proof. apply (Z.land_ones e 12). lia. Qed.

Lemma PTE_ADDR_mod e : 0 <= e < 2 ^ 32 -> PTE_ADDR e = e - e mod 4096.
Proof.
  intros He. unfold PTE_ADDR. change (4294967295 - 4095) with (Z.ldiff (Z.ones 32) (Z.ones 12)).
  assert (Z.land e (Z.ldiff (Z.ones 32) (Z.ones 12)) = Z.ldiff (Z.land e (Z.ones 32)) (Z.ones 12)) as ->.
  { apply Z.bits_inj'. intros i Hi. rewrite Z.land_spec, !Z.ldiff_spec, Z.land_spec. by rewrite andb_assoc. }
  rewrite Z.land_ones, Z.mod_small, Z.ldiff_ones_r, Z.shiftl_mul_pow2, Z.shiftr_div_pow2 by lia. change (2 ^ 12) with 4096.
  pose proof (Z.div_mod e 4096). lia.
Qed.

(** [pa | perm | PTE_P] *)
Definition mkpte (pa perm : Z) : Z := Z.lor (Z.lor pa perm) PTE_P.

(** The kernel address of the page that an entry refers to. *)
Definition frame (e : Z) : Z := P2V (PTE_ADDR e).

Lemma lor_P_range f : 0 <= f < 4096 -> 0 <= Z.lor f PTE_P < 4096.
Proof.
  intros Hf. split; [apply Z.lor_nonneg; unfold PTE_P; lia|]. destruct (decide (Z.lor f PTE_P = 0)) as [->|Hn]; [lia|].
  apply (Z.log2_lt_pow2 _ 12); [pose proof (Z.lor_nonneg f PTE_P); unfold PTE_P in *; lia|]. rewrite Z.log2_lor by (unfold PTE_P; lia).
  change (Z.log2 PTE_P) with 0. destruct (decide (f = 0)) as [->|]; [by simpl|]. apply Z.max_lub_lt; [|lia]. by apply Z.log2_lt_pow2; lia.
Qed.

Lemma mkpte_eq pa perm : pa mod 4096 = 0 -> 0 <= perm < 4096 -> mkpte pa perm = pa + Z.lor perm PTE_P.
Proof. intros Hp Hf. unfold mkpte. rewrite <- Z.lor_assoc. by apply lor_aligned, lor_P_range. Qed.

Lemma has_lor_P x : has (Z.lor x PTE_P) PTE_P = true.
Proof.
  unfold has. apply negb_true_iff, Z.eqb_neq. intros H0. apply (f_equal (fun z => Z.testbit z 0)) in H0.
  rewrite Z.land_spec, Z.lor_spec in H0. change (Z.testbit PTE_P 0) with true in H0. by rewrite orb_true_r in H0.
Qed.

Lemma mkpte_ok pa perm : pa mod 4096 = 0 -> 0 <= pa < 2 ^ 32 -> 0 <= perm < 4096 ->
  PTE_ADDR (mkpte pa perm) = pa /\ PTE_FLAGS (mkpte pa perm) = Z.lor perm PTE_P /\ has (mkpte pa perm) PTE_P = true /\ 0 <= mkpte pa perm < 2 ^ 32.
Proof.
  intros Hp Hr Hf. pose proof (lor_P_range perm Hf) as Hl. assert (0 <= mkpte pa perm < 2 ^ 32) as He.
  { rewrite mkpte_eq by done. pose proof (Z.div_mod pa 4096). lia. }
  split_and!; try (apply He); [| |apply has_lor_P].
  - rewrite PTE_ADDR_mod, mkpte_eq by done. pose proof (Z.add_mod pa (Z.lor perm PTE_P) 4096 ltac:(lia)) as Hm.
    rewrite Hp, Z.add_0_l, Z.mod_mod, (Z.mod_small (Z.lor _ _)) in Hm by lia. lia.
  - rewrite PTE_FLAGS_mod, mkpte_eq by done. rewrite Z.add_mod, Hp, Z.add_0_l, Z.mod_mod by lia. by apply Z.mod_small.
Qed.

(** ** Page numbers *)

Lemma PDX_div va : 0 <= va < 2 ^ 32 -> PDX va = va / 4096 / 1024.
Proof.
  intros Hv. unfold PDX. rewrite Z.shiftr_div_pow2 by lia. change 1023 with (Z.ones 10). rewrite Z.land_ones by lia. rewrite Z.div_div by lia.
  change (4096 * 1024) with (2 ^ 22). apply Z.mod_small. split; [apply Z.div_pos; lia|]. apply Z.div_lt_upper_bound; lia.
Qed.

Lemma PTX_mod va : PTX va = (va / 4096) mod 1024.
Proof. unfold PTX. rewrite Z.shiftr_div_pow2 by lia. change 1023 with (Z.ones 10). by rewrite Z.land_ones by lia. Qed.

Lemma PGROUNDDOWN_div a : PGROUNDDOWN a = 4096 * (a / 4096).
Proof.
  unfold PGROUNDDOWN. change (Z.lnot (PGSIZE - 1)) with (Z.lnot (Z.ones 12)). rewrite <- Z.ldiff_land, Z.ldiff_ones_r by lia.
  rewrite Z.shiftl_mul_pow2, Z.shiftr_div_pow2 by lia. change (2 ^ 12) with 4096. lia.
Qed.

Lemma PGROUNDUP_div a : PGROUNDUP a = 4096 * ((a + 4095) / 4096).
Proof. change (PGROUNDUP a) with (PGROUNDDOWN (a + PGSIZE - 1)). rewrite PGROUNDDOWN_div. by replace (a + PGSIZE - 1) with (a + 4095) by (unfold PGSIZE; lia). Qed.

(** ** Words of pages *)

Definition word (i : Z) (P : list Z) : Z := rd 4 (Z.to_nat (4 * i)) P.
Definition put_word (i v : Z) (P : list Z) : list Z := wr 4 (Z.to_nat (4 * i)) v P.

Lemma length_put_word i v P : 0 <= i < 1024 -> length P = 4096%nat -> length (put_word i v P) = 4096%nat.
Proof. intros Hi Hl. unfold put_word. rewrite length_wr; lia. Qed.

Lemma word_put i j v P : 0 <= i < 1024 -> 0 <= j < 1024 -> length P = 4096%nat -> 0 <= v < 2 ^ 32 ->
  word j (put_word i v P) = if decide (j = i) then v else word j P.
Proof.
  intros Hi Hj Hl Hv. unfold word, put_word. case_decide as Hc; [subst; apply rd_wr_eq; [lia|by change (256 ^ Z.of_nat 4) with (2 ^ 32)]|].
  apply rd_wr_ne; lia.
Qed.

Lemma word_zero i : word i zero_page = 0.
Proof.
  unfold word, rd, sub, zero_page. rewrite drop_replicate, take_replicate.
  assert (forall n, le_val (replicate n 0) = 0) as Hz by (induction n as [|n IH]; [done|]; cbn [replicate le_val]; lia). apply Hz.
Qed.

Lemma page_word_addr pg i : pg mod 4096 = 0 -> 0 <= i < 1024 -> (pg + 4 * i) mod PGSIZE = 4 * i /\ pg + 4 * i - (pg + 4 * i) mod PGSIZE = pg.
Proof.
  intros Hp Hi. change PGSIZE with 4096. rewrite Z.add_mod, Hp, Z.add_0_l, Z.mod_mod, (Z.mod_small (4 * i)) by lia. lia.
Qed.

Lemma mem_rd_page s pg P i : mem s !! pg = Some P -> pg mod 4096 = 0 -> 0 <= i < 1024 -> mem_rd (pg + 4 * i) s = Ret (word i P) s.
Proof.
  intros HP Hp Hi. destruct (page_word_addr pg i Hp Hi) as [H1 H2]. unfold mem_rd, bind, get, mem_word. rewrite H2, HP, H1. cbn [mbind option_bind].
  change (PGSIZE - 4) with 4092. rewrite (proj2 (Z.leb_le _ _)) by lia. done.
Qed.

Lemma mem_store_page s a pg P l : mem s !! pg = Some P -> a mod PGSIZE + Z.of_nat (length l) <= 4096 -> a - a mod PGSIZE = pg ->
  mem_store a l s = Ret tt (set_mem (<[pg := splice (Z.to_nat (a mod PGSIZE)) l P]> (mem s)) s).
Proof.
  intros HP Hl <-. unfold mem_store, bind, get. rewrite HP. cbn [in_bounds ret]. change PGSIZE with 4096 in *. rewrite (proj2 (Z.leb_le _ _)) by lia.
  unfold modify. f_equal. f_equal. apply map_eq. intros w. destruct (decide (w = a - a mod 4096)) as [->|Hn].
  - by rewrite lookup_alter_eq, lookup_insert_eq, HP.
  - by rewrite lookup_alter_ne, lookup_insert_ne.
Qed.

Lemma mem_wr_page s pg P i v : mem s !! pg = Some P -> pg mod 4096 = 0 -> 0 <= i < 1024 ->
  mem_wr (pg + 4 * i) v s = Ret tt (set_mem (<[pg := put_word i v P]> (mem s)) s).
Proof.
  intros HP Hp Hi. destruct (page_word_addr pg i Hp Hi) as [H1 H2]. unfold mem_wr. rewrite (mem_store_page _ _ pg P); [by rewrite H1|done|rewrite H1, length_le_bytes; lia|done].
Qed.

Lemma mem_fill_page s pg P Q : mem s !! pg = Some P -> pg mod 4096 = 0 -> length P = 4096%nat -> length Q = 4096%nat ->
  mem_store pg Q s = Ret tt (set_mem (<[pg := Q]> (mem s)) s).
Proof.
  intros HP Hp Hl Hq. rewrite (mem_store_page _ _ pg P); [|done|change PGSIZE with 4096; rewrite Hp; lia|change PGSIZE with 4096; lia]. change PGSIZE with 4096. rewrite Hp.
  unfold splice. cbn [Z.to_nat take]. by rewrite Nat.add_0_l, drop_ge, app_nil_r by lia.
Qed.

Section space.
Context `{Linker}.
Implicit Types (m : gmap Z (list Z)) (tab ent : Z -> option Z).

(** The kernel sees its pages above KERNBASE. *)
Lemma page_V2P w : page_ok w -> V2P w = w - KERNBASE /\ V2P w mod 4096 = 0 /\ 0 <= V2P w < PHYSTOP /\ P2V (V2P w) = w.
Proof.
  intros (Hm & _ & Hp & Hr). change PGSIZE with 4096 in Hm. assert (V2P w = w - KERNBASE) as HV.
  { unfold V2P, u32 in *. change KERNBASE with 2147483648 in *. change PHYSTOP with 234881024 in *. destruct (Z.ltb_spec w 2147483648); [|apply Z.mod_small; lia].
    rewrite (Z.mod_eq (w - 2147483648)) in Hp by lia. pose proof (Z.div_mod (w - 2147483648) 4294967296 ltac:(lia)).
    pose proof (Z.mod_pos_bound (w - 2147483648) 4294967296 ltac:(lia)). lia. }
  split; [done|]. rewrite HV in *. split; [by rewrite Zminus_mod, Hm|]. split.
  - split; [|done]. rewrite <- HV. apply u32_range.
  - unfold P2V. replace (w - KERNBASE + KERNBASE) with w by lia. apply u32_small. lia.
Qed.

Lemma frame_mkpte w perm : page_ok w -> 0 <= perm < 4096 -> frame (mkpte (V2P w) perm) = w.
Proof.
  intros Hw Hf. destruct (page_V2P w Hw) as (_ & Hm & Hr & HP). change PHYSTOP with 234881024 in Hr. unfold frame.
  by rewrite (proj1 (mkpte_ok (V2P w) perm Hm ltac:(lia) Hf)).
Qed.

(** The entry of the directory for the table [t]. *)
Definition mkpde (t : Z) : Z := Z.lor (Z.lor (Z.lor (V2P t) PTE_P) PTE_W) PTE_U.

Lemma mkpde_pte t : mkpde t = mkpte (V2P t) (Z.lor PTE_W PTE_U).
Proof. unfold mkpde, mkpte. rewrite <- !Z.lor_assoc. f_equal. Qed.

Lemma mkpde_ok t : page_ok t -> frame (mkpde t) = t /\ has (mkpde t) PTE_P = true /\ 0 <= mkpde t < 2 ^ 32.
Proof.
  intros Ht. rewrite mkpde_pte. destruct (page_V2P t Ht) as (_ & Hm & Hr & HP). change PHYSTOP with 234881024 in Hr.
  split; [by apply frame_mkpte|]. by apply mkpte_ok; try lia.
Qed.

Record space m (pg : Z) tab ent : Prop := {
  sp_page : page_ok pg;
  sp_dir : exists P, m !! pg = Some P /\ length P = 4096%nat /\ forall d, 0 <= d < 1024 -> word d P = from_option mkpde 0 (tab d);
  sp_tab d t : tab d = Some t -> 0 <= d < 1024 /\ page_ok t /\ t <> pg /\
    exists T, m !! t = Some T /\ length T = 4096%nat /\ forall i, 0 <= i < 1024 -> word i T = default 0 (ent (1024 * d + i));
  sp_inj d d' t : tab d = Some t -> tab d' = Some t -> d = d';
  sp_ent v e : ent v = Some e -> 0 <= v < 2 ^ 20 /\ is_Some (tab (v / 1024)) /\ has e PTE_P = true /\ 0 <= e < 2 ^ 32
}.

Lemma space_ext m m' pg tab ent ent' : space m pg tab ent -> m' !! pg = m !! pg -> (forall d t, tab d = Some t -> m' !! t = m !! t) ->
  (forall v, ent' v = ent v) -> space m' pg tab ent'.
Proof.
  intros [Hp (P & HP & Hd) Ht Hi He] Hm Hmt Hent. split; [done| | |done|].
  - exists P. by rewrite Hm.
  - intros d t Hdt. destruct (Ht d t Hdt) as (? & ? & ? & T & HT & HlT & Hw). do 3 (split; [done|]). exists T. rewrite (Hmt d t Hdt).
    split; [done|]. split; [done|]. intros i Hi'. rewrite Hent. by apply Hw.
  - intros v e. rewrite Hent. apply He.
Qed.

Lemma vpn_split v : 0 <= v < 2 ^ 20 -> 0 <= v / 1024 < 1024 /\ 0 <= v mod 1024 < 1024 /\ v = 1024 * (v / 1024) + v mod 1024.
Proof. intros Hv. pose proof (Z.div_mod v 1024 ltac:(lia)). pose proof (Z.mod_pos_bound v 1024 ltac:(lia)). lia. Qed.

(** The entry of a page whose table exists. *)
Definition ent_ok (o : option Z) : Prop := forall e, o = Some e -> has e PTE_P = true /\ 0 <= e < 2 ^ 32.

Lemma put_entry m pg tab ent v t T o : space m pg tab ent -> 0 <= v < 2 ^ 20 -> tab (v / 1024) = Some t -> m !! t = Some T -> ent_ok o ->
  space (<[t := put_word (v mod 1024) (default 0 o) T]> m) pg tab (<[v := o]> ent).
Proof.
  intros [Hp (P & HP & HlP & Hd) Ht Hi He] Hv Htv HT Ho. destruct (vpn_split v Hv) as (Hv1 & Hv2 & Heq).
  destruct (Ht _ _ Htv) as (_ & Hpt & Hne & T' & HT' & HlT & Hw). rewrite HT in HT'. injection HT' as <-.
  assert (0 <= default 0 o < 2 ^ 32) as Hr by (destruct o as [e|]; cbn; [apply (Ho e eq_refl)|lia]).
  split; [done| | |done|].
  - exists P. by rewrite lookup_insert_ne by done.
  - intros d t' Hdt. destruct (Ht d t' Hdt) as (Hd' & Hp' & Hne' & T1 & HT1 & HlT1 & Hw1). do 3 (split; [done|]). destruct (decide (t' = t)) as [->|Hn].
    + assert (d = v / 1024) as -> by (by eapply Hi). eexists. rewrite lookup_insert_eq. split; [done|]. split; [by apply length_put_word|].
      intros i Hi'. rewrite word_put by done. case_decide as Hc; [subst i; by rewrite <- Heq, fn_lookup_insert|].
      rewrite fn_lookup_insert_ne by lia. by apply Hw.
    + exists T1. rewrite lookup_insert_ne by done. split; [done|]. split; [done|]. intros i Hi'. rewrite fn_lookup_insert_ne; [by apply Hw1|].
      intros Hvd. apply Hn. assert (v / 1024 = d) as Hq by (rewrite Hvd, Z.add_comm, Z.mul_comm, Z.div_add, (Z.div_small i) by lia; lia). congruence.
  - intros w e. destruct (decide (w = v)) as [->|Hn]; [rewrite fn_lookup_insert|rewrite fn_lookup_insert_ne by done; apply He].
    intros ->. destruct (Ho e eq_refl). rewrite Htv. split; [exact Hv|]. split; [by eexists|]. done.
Qed.

(** A directory and its tables are not on the free list. *)
Record dir (l : list Z) (s : kstate) (pg : Z) tab ent : Prop := {
  dr_free : kmem_ok l s;
  dr_space : space (mem s) pg tab ent;
  dr_page : pg ∉ l;
  dr_tab d t : tab d = Some t -> t ∉ l
}.

(** Nothing but memory changes. *)
Definition vmframe (s s' : kstate) : Prop := s' = set_mem (mem s') (set_freelist (freelist s') s).

Lemma vmframe_refl s : vmframe s s.
Proof. by destruct s. Qed.
Lemma vmframe_trans s1 s2 s3 : vmframe s1 s2 -> vmframe s2 s3 -> vmframe s1 s3.
Proof. unfold vmframe. intros H1 H2. rewrite H2, H1. done. Qed.

(** Writing a page that is not free. *)
Lemma kmem_write l s pg P : kmem_ok l s -> pg ∉ l -> kmem_ok l (set_mem (<[pg := P]> (mem s)) s).
Proof.
  intros [Hh Hl Hn] Hp. split; [done| |done]. eapply free_list_frame; [|exact Hl]. intros v Hv. cbn. rewrite lookup_insert_ne; [done|]. by intros ->.
Qed.

Lemma free_page l s w : kmem_ok l s -> w ∈ l -> page_ok w /\ exists P, mem s !! w = Some P /\ length P = 4096%nat.
Proof.
  intros [_ Hl _]. revert Hl. generalize (freelist s). induction l as [|v l IH]; intros a Hl Hw; [by apply elem_of_nil in Hw|].
  destruct Hl as (_ & Hv & P & HP & HlP & Hl). apply elem_of_cons in Hw as [->|Hw]; [by split; [|exists P]|by eapply IH].
Qed.

(** ** Growing a directory *)

(** The tables of [new] have been added. *)
Record grow tab tab' (new : list Z) : Prop := {
  gr_old d t : tab d = Some t -> tab' d = Some t;
  gr_from d t : tab' d = Some t -> tab d = Some t \/ t ∈ new;
  gr_new t : t ∈ new -> exists d, tab' d = Some t
}.

Lemma grow_refl tab : grow tab tab [].
Proof. split; [done|by left|]. intros t Ht. by apply elem_of_nil in Ht. Qed.

Lemma grow_trans tab1 tab2 tab3 n1 n2 : grow tab1 tab2 n1 -> grow tab2 tab3 n2 -> grow tab1 tab3 (n1 ++ n2).
Proof.
  intros [A1 A2 A3] [B1 B2 B3]. split.
  - intros d t Ht. by apply B1, A1.
  - intros d t Ht. rewrite elem_of_app. destruct (B2 d t Ht) as [Hb|]; [|tauto]. destruct (A2 d t Hb); tauto.
  - intros t [Ht|Ht]%elem_of_app; [|by apply B3]. destruct (A3 t Ht) as [d Hd]. exists d. by apply B1.
Qed.

(** Tables have been taken from the free list; no page but those of the directory has been written. *)
Definition enlarged (pg : Z) (l : list Z) (s : kstate) tab (l' : list Z) (s' : kstate) tab' : Prop :=
  vmframe s s' /\ (exists new, l = new ++ l' /\ grow tab tab' new) /\
  forall w, w <> pg -> (forall d, tab' d <> Some w) -> mem s' !! w = mem s !! w.

Lemma enlarged_refl pg l s tab : enlarged pg l s tab l s tab.
Proof. split; [apply vmframe_refl|]. split; [|done]. exists []. split; [done|apply grow_refl]. Qed.

Lemma enlarged_trans pg l1 s1 tab1 l2 s2 tab2 l3 s3 tab3 :
  enlarged pg l1 s1 tab1 l2 s2 tab2 -> enlarged pg l2 s2 tab2 l3 s3 tab3 -> enlarged pg l1 s1 tab1 l3 s3 tab3.
Proof.
  intros (A1 & (n1 & -> & G1) & M1) (B1 & (n2 & -> & G2) & M2). split; [by eapply vmframe_trans|]. split.
  - exists (n1 ++ n2). split; [by rewrite app_assoc|by eapply grow_trans].
  - intros w Hw Hd. rewrite M2 by done. apply M1; [done|]. intros d Hdw. by apply (Hd d), (gr_old _ _ _ G2).
Qed.

Lemma walk_dir s pg tab ent va alloc t : space (mem s) pg tab ent -> 0 <= va < 2 ^ 32 -> tab (va / 4096 / 1024) = Some t ->
  walkpgdir pg va alloc s = Ret (t + 4 * PTX va) s.
Proof.
  intros [Hp (P & HP & HlP & Hd) Ht Hi He] Hva Htd. destruct (Ht _ _ Htd) as (Hr & Hpt & _). destruct Hp as (Hpm & _).
  unfold walkpgdir, bind. rewrite PDX_div, (mem_rd_page s pg P) by done. rewrite Hd, Htd by done. cbn [from_option].
  destruct (mkpde_ok t Hpt) as (Hf & -> & _). unfold frame in Hf. by rewrite Hf.
Qed.

Lemma walk_missing s pg tab ent va : space (mem s) pg tab ent -> 0 <= va < 2 ^ 32 -> tab (va / 4096 / 1024) = None ->
  walkpgdir pg va false s = Ret 0 s.
Proof.
  intros [Hp (P & HP & HlP & Hd) Ht Hi He] Hva Htd. destruct Hp as (Hpm & _). unfold walkpgdir, bind.
  assert (0 <= va / 4096 / 1024 < 1024) by (split; [apply Z.div_pos; [apply Z.div_pos|]; lia|]; rewrite Z.div_div by lia; apply Z.div_lt_upper_bound; lia).
  rewrite PDX_div, (mem_rd_page s pg P) by done. by rewrite Hd, Htd by done.
Qed.

Lemma new_table m pg tab ent d t : space m pg tab ent -> 0 <= d < 1024 -> tab d = None -> page_ok t -> t <> pg -> (forall d', tab d' <> Some t) ->
  space (<[pg := put_word d (mkpde t) (default [] (m !! pg))]> (<[t := zero_page]> m)) pg (<[d := Some t]> tab) ent.
Proof.
  intros [Hp (P & HP & HlP & Hd) Ht Hi He] Hdr Hn Hpt Hne Hnt. destruct (mkpde_ok t Hpt) as (_ & _ & Hr). rewrite HP. cbn [from_option id].
  assert (forall i, 0 <= i < 1024 -> ent (1024 * d + i) = None) as Hno.
  { intros i Hi'. destruct (ent _) as [e|] eqn:He'; [|done]. destruct (He _ _ He') as (_ & [t' Ht'] & _).
    rewrite Z.add_comm, Z.mul_comm, Z.div_add, Z.div_small, Z.add_0_l, Hn in Ht' by lia. done. }
  split; [done| | | |].
  - eexists. rewrite lookup_insert_eq. split; [done|]. split; [by apply length_put_word|]. intros d' Hd'. rewrite word_put by done.
    case_decide as Hc; [subst; by rewrite fn_lookup_insert|]. rewrite fn_lookup_insert_ne by done. by apply Hd.
  - intros d' t' Hdt. destruct (decide (d' = d)) as [->|Hnd].
    + rewrite fn_lookup_insert in Hdt. injection Hdt as <-. do 3 (split; [done|]). exists zero_page. rewrite lookup_insert_ne, lookup_insert_eq by done.
      split; [done|]. split; [done|]. intros i Hi'. by rewrite word_zero, Hno.
    + rewrite fn_lookup_insert_ne in Hdt by done. destruct (Ht d' t' Hdt) as (? & ? & ? & T & HT & ?). do 3 (split; [done|]). exists T.
      rewrite !lookup_insert_ne by (try done; intros ->; by eapply Hnt). done.
  - intros d1 d2 t'. destruct (decide (d1 = d)) as [->|H1], (decide (d2 = d)) as [->|H2]; rewrite ?fn_lookup_insert, ?fn_lookup_insert_ne by done;
      [done|intros [= <-] Hc; by apply Hnt in Hc|intros Hc [= <-]; by apply Hnt in Hc|apply Hi].
  - intros v e Hve. destruct (He v e Hve) as (H1 & H2 & H3). split; [done|]. split; [|done]. destruct (decide (v / 1024 = d)) as [->|]; [by rewrite fn_lookup_insert; eexists|].
    by rewrite fn_lookup_insert_ne.
Qed.

Lemma walk_grows l t s pg tab ent va : dir (t :: l) s pg tab ent -> 0 <= va < 2 ^ 32 -> tab (va / 4096 / 1024) = None ->
  exists s', walkpgdir pg va true s = Ret (t + 4 * PTX va) s' /\ dir l s' pg (<[va / 4096 / 1024 := Some t]> tab) ent /\
    enlarged pg (t :: l) s tab l s' (<[va / 4096 / 1024 := Some t]> tab).
Proof.
  intros [Hk Hs Hpg Htab] Hva Hn. destruct (free_page _ _ t Hk ltac:(by left)) as (Hpt & T & HT & HlT).
  assert (t <> pg) as Hne by (intros ->; apply Hpg; by left). assert (forall d', tab d' <> Some t) as Hnt by (intros d' Hc; apply (Htab _ _ Hc); by left).
  pose proof Hs as [(Hpm & _) (P & HP & HlP & Hd) _ _ _]. set (d := va / 4096 / 1024) in *.
  assert (0 <= d < 1024) as Hdr by (unfold d; split; [apply Z.div_pos; [apply Z.div_pos|]; lia|]; rewrite Z.div_div by lia; apply Z.div_lt_upper_bound; lia).
  pose proof (kalloc_ok (t :: l) s Hk) as (v & s1 & Ha & Hm & _ & -> & Hk1). pose proof Ha as Ha'. rewrite (kalloc_eq _ _ Hk) in Ha'. injection Ha' as <-.
  set (s1 := set_freelist _ s) in *.
  eexists. split; [|split; [|split; [|split]]].
  - unfold walkpgdir, bind. rewrite PDX_div by done. fold d. rewrite (mem_rd_page s pg P), Hd, Hn by done. cbn [from_option]. change (has 0 PTE_P) with false. cbn [negb].
    rewrite Ha. destruct (Z.eqb_spec t 0) as [->|_]; [destruct Hpt as (_ & _ & _ & ?); lia|].
    rewrite (mem_fill_page s1 t T) by (try done; apply Hpt). erewrite (mem_wr_page _ pg P) by (try done; cbn; by rewrite lookup_insert_ne). reflexivity.
  - pose proof (new_table (mem s) pg tab ent d t Hs Hdr Hn Hpt Hne Hnt) as Hsp. rewrite HP in Hsp. cbn [from_option id] in Hsp.
    pose proof (km_nodup _ _ Hk) as [Htl _]%NoDup_cons. apply not_elem_of_cons in Hpg as [_ Hpg]. split; [|exact Hsp|done|].
    + apply kmem_write; [by apply kmem_write|done].
    + intros d' t'. destruct (decide (d' = d)) as [->|]; [rewrite fn_lookup_insert; by intros [= <-]|rewrite fn_lookup_insert_ne by done].
      intros Hd'. specialize (Htab _ _ Hd'). by apply not_elem_of_cons in Htab as [_ ?].
  - by destruct s.
  - exists [t]. split; [done|]. split.
    + intros d' t' Hd'. rewrite fn_lookup_insert_ne; [done|]. intros <-. congruence.
    + intros d' t'. destruct (decide (d' = d)) as [->|]; [rewrite fn_lookup_insert; intros [= <-]; right; by left|rewrite fn_lookup_insert_ne by done; by left].
    + intros t' ->%list_elem_of_singleton. exists d. by rewrite fn_lookup_insert.
  - intros w Hw Hd'. cbn. rewrite !lookup_insert_ne; [done| |done]. intros <-. apply (Hd' d). by rewrite fn_lookup_insert.
Qed.

(** [walkpgdir] with [alloc]: the entry of page [v], or 0 when there is no page for its table. *)
Lemma walk_spec l s pg tab ent v : dir l s pg tab ent -> 0 <= v < 2 ^ 20 ->
  wp (walkpgdir pg (4096 * v) true) (fun r s' => r = 0 /\ l = [] /\ s' = s \/
    exists t l' tab', r = t + 4 * (v mod 1024) /\ tab' (v / 1024) = Some t /\ dir l' s' pg tab' ent /\ enlarged pg l s tab l' s' tab' /\
      (length l <= length l' + 1)%nat) s.
Proof.
  intros Hd Hv. assert (4096 * v / 4096 = v) as Hq by (rewrite Z.mul_comm; by apply Z.div_mul).
  assert (PTX (4096 * v) = v mod 1024) as HX by (by rewrite PTX_mod, Hq). pose proof (dr_space _ _ _ _ _ Hd) as Hs.
  destruct (tab (v / 1024)) as [t|] eqn:Ht.
  - eapply wp_intro; [apply (walk_dir s pg tab ent); [done|lia|by rewrite Hq]|]. right. exists t, l, tab. rewrite HX.
    split; [done|]. split; [done|]. split; [done|]. split; [apply enlarged_refl|lia].
  - destruct l as [|t l].
    + destruct Hs as [(Hpm & _) (P & HP & HlP & Hdd) _ _ _]. destruct (vpn_split v Hv) as (Hv1 & _ & _).
      eapply (wp_intro _ _ _ 0 s); [|by left]. unfold walkpgdir, bind. rewrite PDX_div, Hq, (mem_rd_page s pg P), Hdd, Ht by (done || lia).
      cbn [from_option]. change (has 0 PTE_P) with false. cbn [negb]. by rewrite (kalloc_eq [] s (dr_free _ _ _ _ _ Hd)).
    + destruct (walk_grows l t s pg tab ent (4096 * v) Hd ltac:(lia) ltac:(by rewrite Hq)) as (s' & Hw & Hd' & Hg). rewrite Hq in Hd', Hg.
      eapply wp_intro; [exact Hw|]. right. eexists t, l, _. rewrite HX. split; [done|]. split; [|split; [exact Hd'|split; [exact Hg|cbn; lia]]]. by rewrite fn_lookup_insert.
Qed.

(** Writing the entry of page [v]. *)
Lemma set_entry l s pg tab ent v t o : dir l s pg tab ent -> 0 <= v < 2 ^ 20 -> tab (v / 1024) = Some t -> ent_ok o ->
  exists s', mem_rd (t + 4 * (v mod 1024)) s = Ret (default 0 (ent v)) s /\ mem_wr (t + 4 * (v mod 1024)) (default 0 o) s = Ret tt s' /\
    dir l s' pg tab (<[v := o]> ent) /\ enlarged pg l s tab l s' tab.
Proof.
  intros [Hk Hs Hpg Htab] Hv Ht Ho. destruct (vpn_split v Hv) as (Hv1 & Hv2 & Heq).
  destruct (sp_tab _ _ _ _ Hs _ _ Ht) as (_ & (Hpt & _) & Hne & T & HT & HlT & Hw).
  eexists. split; [|split; [|split]].
  - rewrite (mem_rd_page s t T) by done. rewrite Hw by done. by rewrite <- Heq.
  - by apply mem_wr_page.
  - split; [by apply kmem_write; [|eapply Htab]|by eapply put_entry|done|done].
  - split; [by destruct s|]. split; [exists []; split; [done|apply grow_refl]|]. intros w _ Hw'. cbn. rewrite lookup_insert_ne; [done|]. intros <-. by eapply Hw'.
Qed.

(** The entries that [mappages] makes: [n] pages from [v] on, at [pa]. *)
Definition map_range ent (v n pa perm : Z) (w : Z) : option Z :=
  if bool_decide (v <= w < v + n) then Some (mkpte (pa + 4096 * (w - v)) perm) else ent w.

Lemma map_range_0 ent v pa perm w : map_range ent v 0 pa perm w = ent w.
Proof. unfold map_range. by rewrite bool_decide_false by lia. Qed.

Lemma map_range_S ent v n pa perm w : 0 <= n ->
  map_range (<[v := Some (mkpte pa perm)]> ent) (v + 1) n (pa + 4096) perm w = map_range ent v (n + 1) pa perm w.
Proof.
  intros Hn. unfold map_range. destruct (decide (w = v)) as [->|Hw].
  - rewrite bool_decide_false, bool_decide_true, fn_lookup_insert by lia. by replace (pa + 4096 * (v - v)) with pa by lia.
  - rewrite fn_lookup_insert_ne by done. destruct (decide (v <= w < v + (n + 1))).
    + rewrite !bool_decide_true by lia. by replace (pa + 4096 + 4096 * (w - (v + 1))) with (pa + 4096 * (w - v)) by lia.
    + by rewrite !bool_decide_false by lia.
Qed.

Lemma dir_ext l s pg tab ent ent' : dir l s pg tab ent -> (forall v, ent' v = ent v) -> dir l s pg tab ent'.
Proof. intros [Hk Hs Hp Ht] He. split; [done| |done|done]. by eapply space_ext. Qed.

(** [j] of the [n] pages have been mapped, with at most one new table for each: all, or the free list is empty. *)
Definition mapped l s pg tab ent (v n pa perm : Z) (r : Z) (s' : kstate) : Prop :=
  exists l' tab' j, dir l' s' pg tab' (map_range ent v j pa perm) /\ enlarged pg l s tab l' s' tab' /\
    (length l <= length l' + Z.to_nat j)%nat /\ (r = 0 /\ j = n \/ r = -1 /\ 0 <= j < n /\ l' = []).

Lemma mappages_loop_spec n : forall l s pg tab ent v pa perm, dir l s pg tab ent -> 0 <= v -> v + Z.of_nat n < 2 ^ 20 ->
  pa mod 4096 = 0 -> 0 <= pa -> pa + 4096 * Z.of_nat n < 2 ^ 32 -> 0 <= perm < 4096 ->
  (forall w, v <= w <= v + Z.of_nat n -> ent w = None) ->
  wp (mappages_loop (S n) pg (4096 * v) (4096 * (v + Z.of_nat n)) pa perm) (mapped l s pg tab ent v (Z.of_nat n + 1) pa perm) s.
Proof.
  induction n as [|n IH]; intros l s pg tab ent v pa perm Hd Hv Hmax Hpa Hp0 Hpm Hperm Hno; cbn [mappages_loop].
  all: eapply wp_chain; [by apply walk_spec; [exact Hd|lia]|]; intros r s1 [(-> & -> & ->)|(t & l1 & tab1 & -> & Ht & Hd1 & Hg1 & Hl1)].
  1,3: rewrite Z.eqb_refl; apply wp_ret; exists [], tab, 0; split; [eapply dir_ext; [exact Hd|]; intros w; apply map_range_0|];
    split; [apply enlarged_refl|]; split; [done|]; right; split; [done|]; split; [lia|done].
  all: destruct (vpn_split v ltac:(lia)) as (_ & Hv2 & _); destruct (sp_tab _ _ _ _ (dr_space _ _ _ _ _ Hd1) _ _ Ht) as (_ & (_ & _ & _ & ?) & _);
    rewrite (proj2 (Z.eqb_neq _ _)) by lia;
    destruct (mkpte_ok pa perm Hpa ltac:(lia) Hperm) as (_ & _ & HP & HR);
    destruct (set_entry l1 s1 pg tab1 ent v t (Some (mkpte pa perm)) Hd1 ltac:(lia) Ht ltac:(by intros e [= <-])) as (s2 & Hrd & Hwr & Hd2 & Hg2);
    eapply wp_step; [exact Hrd|]; rewrite Hno by lia; cbn [from_option id]; change (has 0 PTE_P) with false; cbn iota;
    eapply wp_step; [exact Hwr|]; pose proof (enlarged_trans _ _ _ _ _ _ _ _ _ _ Hg1 Hg2) as Hg.
  - rewrite (proj2 (Z.eqb_eq _ _)) by lia. apply wp_ret. exists l1, tab1, 1. split; [|split; [done|split; [done|by left]]].
    eapply dir_ext; [exact Hd2|]. intros w. by rewrite <- (map_range_S ent v 0), map_range_0.
  - rewrite (proj2 (Z.eqb_neq _ _)) by lia. change PGSIZE with 4096. rewrite !u32_small by lia.
    replace (4096 * v + 4096) with (4096 * (v + 1)) by lia. replace (v + Z.of_nat (S n)) with (v + 1 + Z.of_nat n) by lia.
    eapply wp_mono; [apply (IH l1 s2 pg tab1 _ (v + 1) (pa + 4096) perm Hd2)|]; try lia.
    + by rewrite Z.add_mod, Hpa by lia.
    + intros w Hw. rewrite fn_lookup_insert_ne by lia. apply Hno. lia.
    + intros r s3 (l3 & tab3 & j & Hd3 & Hg3 & Hl3 & Hr). exists l3, tab3, (j + 1). split; [|split; [|split]].
      * eapply dir_ext; [exact Hd3|]. intros w. symmetry. apply map_range_S. destruct Hr as [[_ ->]|(_ & ? & _)]; lia.
      * by eapply enlarged_trans.
      * destruct Hr as [[_ ->]|(_ & ? & _)]; lia.
      * destruct Hr as [[-> ->]|(-> & Hj & ->)]; [left|right]; split_and!; try done; lia.
Qed.

(** [mappages] of whole pages. *)
Lemma mappages_spec l s pg tab ent v n pa perm : dir l s pg tab ent -> 0 < n -> 0 <= v -> v + n <= 2 ^ 20 ->
  pa mod 4096 = 0 -> 0 <= pa -> pa + 4096 * n <= 2 ^ 32 -> 0 <= perm < 4096 -> (forall w, v <= w < v + n -> ent w = None) ->
  wp (mappages pg (4096 * v) (u32 (4096 * n)) pa perm) (mapped l s pg tab ent v n pa perm) s.
Proof.
  intros Hd Hn Hv Hmax Hpa Hp0 Hpm Hperm Hno. unfold mappages. rewrite !PGROUNDDOWN_div.
  assert (u32 (4096 * v + u32 (4096 * n) - 1) = 4096 * (v + n) - 1) as Hl.
  { unfold u32. rewrite <- Z.add_sub_assoc, Z.add_mod, Zminus_mod, Z.mod_mod, <- Zminus_mod, <- Z.add_mod, Z.mod_small by lia. lia. }
  assert (4096 * v / 4096 = v) as -> by (rewrite Z.mul_comm; by apply Z.div_mul).
  assert ((4096 * (v + n) - 1) / 4096 = v + (n - 1)) as Hq by (symmetry; apply (Z.div_unique_pos _ _ _ 4095); lia).
  rewrite Hl, Hq, u32_small by lia. change PGSIZE with 4096.
  assert ((4096 * (v + (n - 1)) - 4096 * v) / 4096 = n - 1) as -> by (symmetry; apply (Z.div_unique_pos _ _ _ 0); lia).
  destruct (Z_of_nat_complete (n - 1)) as [k Hk]; [lia|]. rewrite Hk, Nat2Z.id. replace n with (Z.of_nat k + 1) by lia.
  apply mappages_loop_spec; try done; try lia. intros w Hw. apply Hno. lia.
Qed.
End space.
