(* ===== verification/VmUser.v ===== *)
(** * VmUser: the memory of a process

    [vm l s pg tab ent]: the free list is [l], [pg] is a directory with the tables [tab]
    and the entries [ent], and each user page has a frame of its own, apart from the free
    pages and from the directory.  [deallocuvm], [freevm], [setupkvm] and [allocuvm]
    keep it, and no page is lost: what leaves the address space is on the free list. *)

From stdpp Require Import functions base gmap list strings.
From Stdlib Require Import ZArith Lia.
From S2P Require Import Prelude State Core Kalloc Bio Log Fs Pipe Console ConsoleOut Vm VmSpec.

Local Open Scope Z_scope.
Local Open Scope kernel_scope.

(** The pages below KERNBASE. *)
Notation NUSER := 524288.

Section vm.
Context `{Linker}.
Implicit Types (tab ent : Z -> option Z) (l : list Z) (s : kstate).

Record vm l s (pg : Z) tab ent : Prop := {
  vm_dir : dir l s pg tab ent;
  vm_frame v e : 0 <= v < NUSER -> ent v = Some e ->
    page_ok (frame e) /\ frame e ∉ l /\ frame e <> pg /\ (forall d, tab d <> Some (frame e)) /\
    exists P, mem s !! frame e = Some P /\ length P = 4096%nat;
  vm_inj v v' e e' : 0 <= v < NUSER -> 0 <= v' < NUSER -> ent v = Some e -> ent v' = Some e' -> frame e = frame e' -> v = v'
}.

(** The pages of an address space: the directory, the tables, the frames of user memory. *)
Definition uses (pg : Z) tab ent (w : Z) : Prop :=
  w = pg \/ (exists d, tab d = Some w) \/ (exists v e, 0 <= v < NUSER /\ ent v = Some e /\ frame e = w).

Lemma vm_ext l s pg tab ent ent' : vm l s pg tab ent -> (forall v, ent' v = ent v) -> vm l s pg tab ent'.
Proof.
  intros [Hd Hf Hi] He. split; [by eapply dir_ext| |].
  - intros v e Hv. rewrite He. by apply Hf.
  - intros v v' e e' Hv Hv'. rewrite !He. by apply Hi.
Qed.

(** The pages [F] have been freed; no other page but those of the directory has been written. *)
Definition freed (pg : Z) tab (F : Z -> Prop) l s l' s' : Prop :=
  vmframe s s' /\ (forall w, w ∈ l' <-> w ∈ l \/ F w) /\
  forall w, w <> pg -> (forall d, tab d <> Some w) -> ~ F w -> mem s' !! w = mem s !! w.

Lemma freed_trans pg tab (F1 F2 F : Z -> Prop) l1 s1 l2 s2 l3 s3 : (forall w, F w <-> F1 w \/ F2 w) ->
  freed pg tab F1 l1 s1 l2 s2 -> freed pg tab F2 l2 s2 l3 s3 -> freed pg tab F l1 s1 l3 s3.
Proof.
  intros HF (A1 & A2 & A3) (B1 & B2 & B3). split; [by eapply vmframe_trans|]. split.
  - intros w. rewrite B2, A2, HF. tauto.
  - intros w Hw Hd Hn. rewrite HF in Hn. rewrite B3, A3; [done|tauto..].
Qed.

Lemma freed_none pg tab (F : Z -> Prop) l s : (forall w, ~ F w) -> freed pg tab F l s l s.
Proof. intros HF. split; [apply vmframe_refl|]. split; [|done]. intros w. specialize (HF w). tauto. Qed.

(** ** deallocuvm *)

Lemma kfree_frame l s v : kmem_ok l s -> page_ok v -> v ∉ l ->
  exists s', kfree v s = Ret tt s' /\ kmem_ok (v :: l) s' /\ vmframe s s' /\ forall w, w <> v -> mem s' !! w = mem s !! w.
Proof.
  intros Hk Hv Hn. destruct (kfree_ok l s v Hk Hv Hn) as (s' & Hf & Hk' & _ & Hm). exists s'. split; [done|]. split; [done|]. split; [|done].
  rewrite (kfree_eq l s v Hk Hv) in Hf. injection Hf as <-. by destruct s.
Qed.

(** The directory does not care about other pages. *)
Lemma dir_frame l l' s s' pg tab ent : dir l s pg tab ent -> kmem_ok l' s' -> (forall w, w ∈ l' -> w <> pg /\ forall d, tab d <> Some w) ->
  (forall w, w = pg \/ (exists d, tab d = Some w) -> mem s' !! w = mem s !! w) -> dir l' s' pg tab ent.
Proof.
  intros [Hk Hs Hp Ht] Hk' Ha Hm. split; [done| | |].
  - eapply space_ext; [exact Hs|apply Hm; by left| |done]. intros d t Hd. apply Hm. right. by exists d.
  - intros Hin. by destruct (Ha _ Hin).
  - intros d t Hd Hin. destruct (Ha _ Hin) as [_ Hn]. by apply (Hn d).
Qed.

Lemma dealloc_one l s pg tab ent v e t : vm l s pg tab ent -> 0 <= v < NUSER -> ent v = Some e -> tab (v / 1024) = Some t ->
  exists s1 s2, kfree (frame e) s = Ret tt s1 /\ mem_wr (t + 4 * (v mod 1024)) 0 s1 = Ret tt s2 /\
    vm (frame e :: l) s2 pg tab (<[v := None]> ent) /\ freed pg tab (fun w => w = frame e) l s (frame e :: l) s2.
Proof.
  intros [Hd Hf Hi] Hv He Ht. destruct (Hf v e Hv He) as (Hok & Hnl & Hnp & Hnt & _).
  destruct (kfree_frame l s (frame e) (dr_free _ _ _ _ _ Hd) Hok Hnl) as (s1 & Hkf & Hk1 & Hv1 & Hm1).
  assert (dir (frame e :: l) s1 pg tab ent) as Hd1.
  { eapply dir_frame; [exact Hd|done| |].
    - intros w [->|Hw]%elem_of_cons; [done|]. split; [intros ->; by apply (dr_page _ _ _ _ _ Hd)|]. intros d Hdw. by apply (dr_tab _ _ _ _ _ Hd _ _ Hdw).
    - intros w [->|[d Hdw]]; apply Hm1; [done|]. intros ->. by apply (Hnt d). }
  destruct (set_entry _ _ _ _ _ v t None Hd1 ltac:(lia) Ht ltac:(done)) as (s2 & _ & Hwr & Hd2 & Hg2). destruct Hg2 as (Hv2 & _ & Hm2).
  exists s1, s2. split; [done|]. split; [done|]. split; [split; [done| |]|].
  - intros v' e'. destruct (decide (v' = v)) as [->|Hne]; [by rewrite fn_lookup_insert|]. rewrite fn_lookup_insert_ne by done. intros Hv' He'.
    destruct (Hf v' e' Hv' He') as (Hok' & Hnl' & Hnp' & Hnt' & P & HP & HlP). split; [done|]. split.
    + apply not_elem_of_cons. split; [|done]. intros Heq. apply Hne. by eapply Hi.
    + split; [done|]. split; [done|]. exists P. rewrite Hm2, Hm1; [done| |done|done]. intros Heq. apply Hne. by eapply Hi.
  - intros v1 v2 e1 e2 Hv1' Hv2'. destruct (decide (v1 = v)) as [->|Hn1]; [by rewrite fn_lookup_insert|]. destruct (decide (v2 = v)) as [->|Hn2]; [by rewrite fn_lookup_insert|].
    rewrite !fn_lookup_insert_ne by done. by apply Hi.
  - split; [by eapply vmframe_trans|]. split; [intros w; rewrite elem_of_cons; tauto|]. intros w Hw Hdw Hne. by rewrite Hm2, Hm1.
Qed.

(** The entries without those of the pages from [u] to [U]. *)
Definition clear ent (u U w : Z) : option Z := if bool_decide (u <= w < U) then None else ent w.

(** The frames of those pages. *)
Definition frames_of ent (u U w : Z) : Prop := exists v e, u <= v < U /\ ent v = Some e /\ frame e = w.

Lemma clear_skip ent u u' U w : u <= u' -> (forall v, u <= v < Z.min u' U -> ent v = None) -> clear ent u' U w = clear ent u U w.
Proof.
  intros Hu Hn. unfold clear. destruct (decide (u' <= w < U)).
  - by rewrite !bool_decide_true by lia.
  - rewrite (bool_decide_false (u' <= w < U)) by lia. destruct (decide (u <= w < U)); [rewrite bool_decide_true by lia; apply Hn; lia|by rewrite bool_decide_false by lia].
Qed.

Lemma frames_skip ent u u' U w : u <= u' -> (forall v, u <= v < Z.min u' U -> ent v = None) -> frames_of ent u' U w <-> frames_of ent u U w.
Proof.
  intros Hu Hn. split; intros (v & e & Hv & He & Hw); exists v, e; split; try done; [lia|].
  destruct (decide (v < u')); [|lia]. by rewrite Hn in He by lia.
Qed.

(** [deallocuvm] from page [u] to page [U]. *)
Definition deallocated l s pg tab ent (u U : Z) (s' : kstate) : Prop :=
  exists l', vm l' s' pg tab (clear ent u U) /\ freed pg tab (frames_of ent u U) l s l' s'.

Lemma deallocated_skip l s pg tab ent u u' U s' : u <= u' -> (forall v, u <= v < Z.min u' U -> ent v = None) ->
  deallocated l s pg tab ent u' U s' -> deallocated l s pg tab ent u U s'.
Proof.
  intros Hu Hn (l' & Hv & A1 & A2 & A3). exists l'. split; [eapply vm_ext; [exact Hv|]; intros w; symmetry; by apply clear_skip|].
  split; [done|]. split; [intros w; by rewrite A2, (frames_skip ent u u')|]. intros w Hw Hd Hf. apply A3; [done|done|]. by rewrite (frames_skip ent u u').
Qed.

Lemma deallocated_step l s pg tab ent u U e l1 s1 s' : u < U -> ent u = Some e ->
  freed pg tab (fun w => w = frame e) l s l1 s1 -> deallocated l1 s1 pg tab (<[u := None]> ent) (u + 1) U s' -> deallocated l s pg tab ent u U s'.
Proof.
  intros Hu He Hf1 (l' & Hv & Hf2). exists l'. split.
  - eapply vm_ext; [exact Hv|]. intros w. unfold clear. destruct (decide (w = u)) as [->|]; [rewrite bool_decide_true, bool_decide_false, fn_lookup_insert by lia; done|].
    rewrite fn_lookup_insert_ne by done. by rewrite (bool_decide_ext (u + 1 <= w < U) (u <= w < U)) by lia.
  - eapply freed_trans; [|exact Hf1|exact Hf2]. intros w. split.
    + intros (v & e' & Hv' & He' & <-). destruct (decide (v = u)) as [->|]; [left; congruence|]. right. exists v, e'. rewrite fn_lookup_insert_ne by done. split; [lia|done].
    + intros [->|(v & e' & Hv' & He' & <-)]; [exists u, e; split; [lia|done]|]. rewrite fn_lookup_insert_ne in He' by lia. exists v, e'. split; [lia|done].
Qed.

(** The kernel is linked at KERNLINK: its text, its data from a page boundary on, and the end of it in physical memory. *)
Record linked : Prop := {
  lk_text : KERNLINK < kdata;
  lk_align : kdata mod 4096 = 0;
  lk_data : kdata <= kend;
  lk_end : kend < KERNBASE + PHYSTOP
}.
Context (L : linked).

Lemma frame_addr e : page_ok (frame e) -> PTE_ADDR e <> 0.
Proof. intros (_ & Hf & _) He. unfold frame in Hf. rewrite He in Hf. change (P2V 0) with KERNBASE in Hf. pose proof (lk_text L). pose proof (lk_data L). unfold KERNLINK, EXTMEM in *. lia. Qed.

Lemma PGADDR_next d : 0 <= d < 1023 -> PGADDR (d + 1) 0 0 = 4096 * (1024 * (d + 1)).
Proof. intros Hd. unfold PGADDR. rewrite Z.shiftl_0_l, !Z.lor_0_r, Z.shiftl_mul_pow2 by lia. change (2 ^ 22) with 4194304. rewrite u32_small; lia. Qed.

Lemma deallocuvm_loop_spec pg tab oldsz n : 0 <= oldsz <= KERNBASE -> let U := (oldsz + 4095) / 4096 in
  forall l s ent u, vm l s pg tab ent -> 0 <= u -> (0 < n)%nat -> U - u < Z.of_nat n ->
  wp (deallocuvm_loop n pg (4096 * u) oldsz) (fun _ s' => deallocated l s pg tab ent u U s') s.
Proof.
  intros Hsz U. change KERNBASE with 2147483648 in Hsz. pose proof (Z.div_mod (oldsz + 4095) 4096 ltac:(lia)) as Hdm. fold U in Hdm.
  pose proof (Z.mod_pos_bound (oldsz + 4095) 4096 ltac:(lia)) as Hmb. induction n as [|n IH]; intros l s ent u Hvm Hu H0 Hn; cbn [deallocuvm_loop]; [lia|].
  destruct (Z.ltb_spec (4096 * u) oldsz) as [Hlt|Hge]; cbn [negb].
  2: { apply wp_ret. exists l. split; [eapply vm_ext; [exact Hvm|]; intros w; unfold clear; by rewrite bool_decide_false by lia|]. apply freed_none. intros w (v & e & ? & _). lia. }
  assert (u < U) as HuU by lia. assert (4096 * u / 4096 = u) as Hq by (rewrite Z.mul_comm; by apply Z.div_mul).
  pose proof (dr_space _ _ _ _ _ (vm_dir _ _ _ _ _ Hvm)) as Hs. destruct (vpn_split u ltac:(lia)) as (Hu1 & Hu2 & Heq).
  destruct (tab (u / 1024)) as [t|] eqn:Ht.
  - eapply wp_step; [apply (walk_dir s pg tab ent); [done|lia|by rewrite Hq]|]. rewrite PTX_mod, Hq.
    destruct (sp_tab _ _ _ _ Hs _ _ Ht) as (_ & (_ & _ & _ & ?) & _). rewrite (proj2 (Z.eqb_neq _ _)) by lia.
    destruct (set_entry l s pg tab ent u t None (vm_dir _ _ _ _ _ Hvm) ltac:(lia) Ht ltac:(done)) as (_ & Hrd & _). eapply wp_step; [exact Hrd|].
    change PGSIZE with 4096. rewrite u32_small by lia. replace (4096 * u + 4096) with (4096 * (u + 1)) by lia. destruct (ent u) as [e|] eqn:He; cbn [from_option id].
    + destruct (sp_ent _ _ _ _ Hs u e He) as (_ & _ & -> & _). destruct (vm_frame _ _ _ _ _ Hvm u e ltac:(lia) He) as (Hfe & _).
      destruct (dealloc_one l s pg tab ent u e t Hvm ltac:(lia) He Ht) as (s1 & s2 & Hk1 & Hw2 & Hvm2 & Hfr).
      fold (frame e). rewrite (proj2 (Z.eqb_neq _ _)) by (by eapply frame_addr). eapply wp_chain; [eapply wp_step; [exact Hk1|]; by eapply (wp_intro _ (fun _ s' => s' = s2))|].
      intros [] sx ->. eapply wp_mono; [apply (IH _ s2 _ (u + 1) Hvm2); lia|]. intros ? s3 Hd. by eapply deallocated_step.
    + change (has 0 PTE_P) with false. cbn iota. eapply wp_step; [done|]. eapply wp_mono; [apply (IH l s ent (u + 1) Hvm); lia|].
      intros ? s' Hd. eapply deallocated_skip; [..|exact Hd]; [lia|]. intros v Hv. by replace v with u by lia.
  - eapply wp_step; [apply (walk_missing s pg tab ent); [done|lia|by rewrite Hq]|]. cbn [Z.eqb]. rewrite PDX_div, Hq, PGADDR_next by lia.
    eapply wp_mono; [apply (IH l s ent _ Hvm); lia|]. intros ? s' Hd. eapply deallocated_skip; [..|exact Hd]; [lia|].
    intros v Hv. destruct (ent v) as [e|] eqn:He; [|done]. destruct (sp_ent _ _ _ _ Hs v e He) as (_ & [t' Ht'] & _).
    assert (v / 1024 = u / 1024) as Hvu by (symmetry; apply (Z.div_unique_pos _ _ _ (v - 1024 * (u / 1024))); lia). by rewrite Hvu, Ht in Ht'.
Qed.

Lemma deallocuvm_spec l s pg tab ent oldsz newsz : vm l s pg tab ent -> 0 <= newsz < oldsz -> oldsz <= KERNBASE ->
  wp (deallocuvm pg oldsz newsz) (fun r s' => r = newsz /\ deallocated l s pg tab ent ((newsz + 4095) / 4096) ((oldsz + 4095) / 4096) s') s.
Proof.
  intros Hvm Hn Ho. unfold deallocuvm. rewrite (proj2 (Z.leb_gt _ _)) by lia. change KERNBASE with 2147483648 in *. rewrite PGROUNDUP_div.
  pose proof (Z.div_mod (newsz + 4095) 4096 ltac:(lia)). pose proof (Z.mod_pos_bound (newsz + 4095) 4096 ltac:(lia)).
  pose proof (Z.div_mod (oldsz + 4095) 4096 ltac:(lia)). pose proof (Z.mod_pos_bound (oldsz + 4095) 4096 ltac:(lia)).
  change PGSIZE with 4096. pose proof (Z.div_mod oldsz 4096 ltac:(lia)). pose proof (Z.mod_pos_bound oldsz 4096 ltac:(lia)).
  rewrite u32_small by lia. eapply wp_chain; [apply deallocuvm_loop_spec; [change KERNBASE with 2147483648; lia|exact Hvm|lia..]|].
  intros ? s' Hd. by apply wp_ret.
Qed.

(** ** freevm *)

Lemma free_tables l s pg tab ent : dir l s pg tab ent ->
  wp (for_each (seq 0 NPDENTRIES) (fun i => e <- mem_rd (pg + 4 * Z.of_nat i) ;; if has e PTE_P then kfree (P2V (PTE_ADDR e)) else ret tt))
    (fun _ s' => exists l', kmem_ok l' s' /\ vmframe s s' /\ (forall w, w ∈ l' <-> w ∈ l \/ exists d, tab d = Some w) /\
      forall w, (forall d, tab d <> Some w) -> mem s' !! w = mem s !! w) s.
Proof.
  intros [Hk Hs Hpg Htab]. pose proof Hs as [(Hpm & _) (P & HP & HlP & Hd) Ht Hi _].
  apply (wp_for_seq (fun i s' => exists l', kmem_ok l' s' /\ vmframe s s' /\ (forall w, w ∈ l' <-> w ∈ l \/ exists d, d < Z.of_nat i /\ tab d = Some w) /\
    forall w, (forall d, d < Z.of_nat i -> tab d <> Some w) -> mem s' !! w = mem s !! w)).
  - exists l. split; [done|]. split; [apply vmframe_refl|]. split; [|done]. intros w. split; [by left|]. intros [|(d & Hd0 & Hdw)]; [done|]. destruct (Ht _ _ Hdw); lia.
  - intros i s1 Hi1 (l1 & Hk1 & Hv1 & Hl1 & Hm1). change NPDENTRIES with 1024%nat in Hi1.
    eapply wp_step; [apply (mem_rd_page s1 pg P); [rewrite Hm1; [done|]; intros d _ Hc; by destruct (Ht _ _ Hc) as (_ & _ & ? & _)|done|lia]|].
    rewrite Hd by lia. destruct (tab (Z.of_nat i)) as [t|] eqn:Hti; cbn [from_option].
    + destruct (Ht _ _ Hti) as (_ & Hpt & _). destruct (mkpde_ok t Hpt) as (Hft & -> & _). fold (frame (mkpde t)). rewrite Hft.
      destruct (kfree_frame l1 s1 t Hk1 Hpt) as (s2 & Hf & Hk2 & Hv2 & Hm2).
      { rewrite Hl1. intros [Hc|(d & Hlt & Hc)]; [by apply (Htab _ _ Hti)|]. pose proof (Hi _ _ _ Hti Hc). lia. }
      eapply wp_intro; [exact Hf|]. exists (t :: l1). split; [done|]. split; [by eapply vmframe_trans|]. split.
      * intros w. rewrite elem_of_cons, Hl1. split.
        -- intros [->|[?|(d & ? & ?)]]; [right; exists (Z.of_nat i); split; [lia|done]|by left|right; exists d; split; [lia|done]].
        -- intros [?|(d & Hlt & Hdw)]; [tauto|]. destruct (decide (d = Z.of_nat i)) as [->|]; [left; congruence|]. right; right. exists d. split; [lia|done].
      * intros w Hw. rewrite Hm2, Hm1; [done| |]; [intros d Hlt; apply Hw; lia|]. intros ->. apply (Hw (Z.of_nat i)); [lia|done].
    + eapply wp_ret. exists l1. split; [done|]. split; [done|]. split.
      * intros w. rewrite Hl1. split; (intros [?|(d & ? & Hdw)]; [by left|]; right; exists d; split; [|done]); [lia|].
        destruct (decide (d = Z.of_nat i)) as [->|]; [congruence|lia].
      * intros w Hw. apply Hm1. intros d Hlt. apply Hw. lia.
  - intros s' (l' & Hk' & Hv' & Hl' & Hm'). change (Z.of_nat NPDENTRIES) with 1024 in *. exists l'. split; [done|]. split; [done|]. split.
    + intros w. rewrite Hl'. split; (intros [?|(d & Hdw)]; [by left|]; right; exists d); [tauto|]. destruct (Ht _ _ Hdw). split; [lia|done].
    + intros w Hw. by apply Hm'.
Qed.

(** The address space [pg] is gone: its pages are on the free list. *)
Definition released l s pg tab ent s' : Prop :=
  exists l', kmem_ok l' s' /\ vmframe s s' /\ (forall w, w ∈ l' <-> w ∈ l \/ uses pg tab ent w) /\
    forall w, ~ uses pg tab ent w -> mem s' !! w = mem s !! w.

Lemma freevm_spec l s pg tab ent : vm l s pg tab ent -> wp (freevm pg) (fun _ s' => released l s pg tab ent s') s.
Proof.
  intros Hvm. unfold freevm. pose proof (sp_page _ _ _ _ (dr_space _ _ _ _ _ (vm_dir _ _ _ _ _ Hvm))) as Hpg. pose proof Hpg as (_ & _ & _ & ?).
  rewrite (proj2 (Z.eqb_neq _ _)) by lia. eapply wp_chain; [apply deallocuvm_spec; [exact Hvm|change KERNBASE with 2147483648; lia|lia]|].
  intros ? s1 [_ (l1 & Hvm1 & Hv1 & Hl1 & Hm1)]. change ((0 + 4095) / 4096) with 0 in *. change ((KERNBASE + 4095) / 4096) with NUSER in *.
  eapply wp_chain; [exact (free_tables l1 s1 pg tab _ (vm_dir _ _ _ _ _ Hvm1))|]. intros _ s2 (l2 & Hk2 & Hv2 & Hl2 & Hm2).
  pose proof (dr_page _ _ _ _ _ (vm_dir _ _ _ _ _ Hvm1)) as Hpl1. pose proof (dr_space _ _ _ _ _ (vm_dir _ _ _ _ _ Hvm1)) as Hs1.
  destruct (kfree_frame l2 s2 pg Hk2 Hpg) as (s3 & Hf & Hk3 & Hv3 & Hm3).
  { rewrite Hl2. intros [?|[d Hd]]; [done|]. by destruct (sp_tab _ _ _ _ Hs1 _ _ Hd) as (_ & _ & ? & _). }
  eapply wp_intro; [exact Hf|]. exists (pg :: l2). split; [done|]. split; [by eapply vmframe_trans; [|eapply vmframe_trans]|]. split.
  - intros w. rewrite elem_of_cons, Hl2, Hl1. unfold uses, frames_of. tauto.
  - intros w Hw. rewrite Hm3, Hm2, Hm1; [done|..]; intros; intros Hc; apply Hw; unfold uses; [by left|right; left; by eexists|by right; right|right; left; by eexists|by left].
Qed.

(** ** Accounting for pages *)

(** The pages that are free or in the address space are the same, and no other page has been written. *)
Definition conserved (pg : Z) l s tab ent l' s' tab' ent' : Prop :=
  (forall w, w ∈ l \/ uses pg tab ent w <-> w ∈ l' \/ uses pg tab' ent' w) /\
  forall w, w ∉ l -> ~ uses pg tab ent w -> mem s' !! w = mem s !! w.

Lemma conserved_trans pg l1 s1 tab1 ent1 l2 s2 tab2 ent2 l3 s3 tab3 ent3 :
  conserved pg l1 s1 tab1 ent1 l2 s2 tab2 ent2 -> conserved pg l2 s2 tab2 ent2 l3 s3 tab3 ent3 -> conserved pg l1 s1 tab1 ent1 l3 s3 tab3 ent3.
Proof.
  intros [A1 A2] [B1 B2]. split; [intros w; by rewrite A1|]. intros w H1 H2. rewrite B2, A2; [done|done|done|..]; specialize (A1 w); tauto.
Qed.

(** The free pages are the same. *)
Definition kept l s l' s' : Prop :=
  kmem_ok l' s' /\ vmframe s s' /\ (forall w, w ∈ l' <-> w ∈ l) /\ forall w, w ∉ l -> mem s' !! w = mem s !! w.

(** A new address space, of pages that were free. *)
Definition built l s (pg : Z) l' s' tab ent : Prop :=
  vm l' s' pg tab ent /\ vmframe s s' /\ (forall w, w ∈ l <-> w ∈ l' \/ uses pg tab ent w) /\ forall w, w ∉ l -> mem s' !! w = mem s !! w.

Lemma built_step l s pg l1 s1 tab1 ent1 l2 s2 tab2 ent2 : built l s pg l1 s1 tab1 ent1 -> vm l2 s2 pg tab2 ent2 -> vmframe s1 s2 ->
  conserved pg l1 s1 tab1 ent1 l2 s2 tab2 ent2 -> built l s pg l2 s2 tab2 ent2.
Proof.
  intros (_ & F1 & P1 & M1) Hv F2 [P2 M2]. split; [done|]. split; [by eapply vmframe_trans|]. split; [intros w; by rewrite P1, P2|].
  intros w Hw. rewrite P1 in Hw. rewrite M2, M1; [done| |tauto..]. by rewrite P1.
Qed.

Lemma built_released l s pg l1 s1 tab ent s2 : built l s pg l1 s1 tab ent -> released l1 s1 pg tab ent s2 -> exists l2, kept l s l2 s2.
Proof.
  intros (_ & F1 & P1 & M1) (l2 & Hk & F2 & P2 & M2). exists l2. split; [done|]. split; [by eapply vmframe_trans|]. split; [intros w; by rewrite P1, P2|].
  intros w Hw. rewrite M2, M1; [done|done|]. rewrite P1 in Hw. tauto.
Qed.

(** ** setupkvm *)

(** A directory and its tables are at most 1025 pages. *)
(** An address space with no user memory has at most 1025 pages. *)
Lemma pages_left l pg l' s' tab ent : vm l' s' pg tab ent -> NoDup l -> (forall w, w ∈ l -> w ∈ l' \/ uses pg tab ent w) -> (forall v, 0 <= v < NUSER -> ent v = None) ->
  (length l <= length l' + 1025)%nat.
Proof.
  intros Hvm Hnd Hp Hno. assert (l ⊆+ l' ++ pg :: ((fun d => default 0 (tab d)) <$> seqZ 0 1024)) as Hl.
  { apply NoDup_submseteq; [done|]. intros w [Hw|[->|[[d Hd]|(v & e & Hv & He & _)]]]%Hp; rewrite elem_of_app, elem_of_cons; [by left|by right; left| |by rewrite Hno in He].
    right; right. apply list_elem_of_fmap. exists d. split; [by rewrite Hd|]. apply elem_of_seqZ. apply (sp_tab _ _ _ _ (dr_space _ _ _ _ _ (vm_dir _ _ _ _ _ Hvm)) _ _ Hd). }
  apply submseteq_length in Hl. rewrite length_app in Hl. cbn [length] in Hl. rewrite length_fmap, length_seqZ in Hl. lia.
Qed.

Lemma built_length l s pg l' s' tab ent : built l s pg l' s' tab ent -> NoDup l -> (forall v, 0 <= v < NUSER -> ent v = None) -> (length l <= length l' + 1025)%nat.
Proof. intros (Hvm & _ & Hp & _) Hnd Hno. eapply pages_left; [exact Hvm|done| |done]. intros w Hw. by apply Hp. Qed.

Lemma vm_kernel l s pg tab ent : dir l s pg tab ent -> (forall v, 0 <= v < NUSER -> ent v = None) -> vm l s pg tab ent.
Proof. intros Hd Hn. split; [done|..]; [intros v e Hv|intros v v' e e' Hv _]; by rewrite Hn. Qed.

Lemma uses_kernel pg tab ent w : (forall v, 0 <= v < NUSER -> ent v = None) -> uses pg tab ent w <-> w = pg \/ exists d, tab d = Some w.
Proof. intros Hn. unfold uses. split; [|tauto]. intros [?|[?|(v & e & Hv & He & _)]]; [tauto|tauto|]. by rewrite Hn in He. Qed.

Lemma enlarged_conserved pg l s tab ent l' s' tab' ent' : enlarged pg l s tab l' s' tab' ->
  (forall w, (exists v e, 0 <= v < NUSER /\ ent v = Some e /\ frame e = w) <-> (exists v e, 0 <= v < NUSER /\ ent' v = Some e /\ frame e = w)) ->
  conserved pg l s tab ent l' s' tab' ent'.
Proof.
  intros (_ & (new & -> & [G1 G2 G3]) & Hm) Hf. split.
  - intros w. rewrite elem_of_app. unfold uses. rewrite Hf. split.
    + intros [[Hn|?]|[?|[[d Hd]|?]]]; [destruct (G3 w Hn); eauto|eauto|eauto|apply G1 in Hd; eauto|eauto].
    + intros [?|[?|[[d Hd]|?]]]; [eauto|eauto|destruct (G2 d w Hd); eauto|eauto].
  - intros w Hw Hu. apply Hm; [intros ->; apply Hu; by left|]. intros d Hd. destruct (G2 d w Hd) as [Hd'|Hn]; [apply Hu; right; left; eauto|].
    apply Hw, elem_of_app. by left.
Qed.

(** A row of [kmap] in pages. *)
Definition seg_ok ent (k : Z * Z * Z * Z) : Prop :=
  let '(v, n, p, perm) := k in
  NUSER <= v /\ 0 < n /\ v + n <= 2 ^ 20 /\ 0 <= p /\ p + n <= 2 ^ 20 /\ 0 <= perm < 4096 /\ forall w, v <= w < v + n -> ent w = None.
Definition add_seg ent (k : Z * Z * Z * Z) : Z -> option Z := let '(v, n, p, perm) := k in map_range ent v n (4096 * p) perm.
Definition seg_row (k : Z * Z * Z * Z) : Z * Z * Z * Z := let '(v, n, p, perm) := k in (4096 * v, 4096 * p, u32 (4096 * (p + n)), perm).

Fixpoint segs_ok ent (ks : list (Z * Z * Z * Z)) : Prop :=
  match ks with
  | [] => True
  | k :: ks' => seg_ok ent k /\ segs_ok (add_seg ent k) ks'
  end.

Definition map_row (pgdir : Z) (k : Z * Z * Z * Z) : KM (option unit) :=
  let '(virt, phys_start, phys_end, perm) := k in
  r <- mappages pgdir virt (u32 (phys_end - phys_start)) phys_start perm ;;
  if r <? 0 then
    freevm pgdir ;;;
    ret (Some tt)
  else ret None.

Lemma map_rows_spec l s pg ks (Hnd : NoDup l) : forall l1 s1 tab1 ent1, built l s pg l1 s1 tab1 ent1 -> (forall v, 0 <= v < NUSER -> ent1 v = None) -> segs_ok ent1 ks ->
  wp (loop_until (seg_row <$> ks) (map_row pg)) (fun r s' => match r with
    | None => exists l' tab', built l s pg l' s' tab' (foldl add_seg ent1 ks)
    | Some _ => (length l <= 1025)%nat /\ exists l', kept l s l' s'
    end) s1.
Proof.
  induction ks as [|[[[v n] p] perm] ks IH]; intros l1 s1 tab1 ent1 Hb Hno Hok; cbn [fmap list_fmap loop_until]; [apply wp_ret; by exists l1, tab1|].
  destruct Hok as [(Hv & Hn & Hvn & Hp & Hpn & Hperm & Hfree) Hok]. cbn [seg_row map_row]. pose proof Hb as (Hvm & _ & _).
  assert (u32 (u32 (4096 * (p + n)) - 4096 * p) = u32 (4096 * n)) as ->.
  { unfold u32. rewrite Zminus_mod, Z.mod_mod, <- Zminus_mod by lia. f_equal. lia. }
  apply wp_bind. eapply wp_chain; [apply (mappages_spec l1 s1 pg tab1 ent1); try done; try lia; [apply Hvm|by rewrite Z.mul_comm, Z.mod_mul]|].
  intros r s2 (l2 & tab2 & j & Hd2 & Hg2 & _ & Hr).
  assert (forall u, 0 <= u < NUSER -> map_range ent1 v j (4096 * p) perm u = None) as Hno2.
  { intros u Hu. unfold map_range. rewrite bool_decide_false by lia. by apply Hno. }
  assert (built l s pg l2 s2 tab2 (map_range ent1 v j (4096 * p) perm)) as Hb2.
  { eapply built_step; [exact Hb|by apply vm_kernel|apply Hg2|]. apply (enlarged_conserved _ _ _ _ _ _ _ _ _ Hg2).
    intros w. split; intros (u & e & Hu & He & _); [by rewrite Hno in He|by rewrite Hno2 in He]. }
  destruct Hr as [[-> ->]|(-> & _ & ->)].
  - cbn [Z.ltb Z.compare]. apply wp_ret. exact (IH l2 s2 tab2 _ Hb2 Hno2 Hok).
  - change (-1 <? 0) with true. cbn iota. eapply wp_chain; [apply (freevm_spec _ _ _ _ _ (proj1 Hb2))|]. intros ? s3 Hrel. apply wp_ret. cbn iota. apply wp_ret.
    split; [by apply (built_length _ _ _ _ _ _ _ Hb2)|by eapply built_released].
Qed.

(** [kmap] in pages; the data begins at the physical page [kdata_page]. *)
Definition kdata_page : Z := kdata / 4096 - NUSER.
Definition ksegs : list (Z * Z * Z * Z) :=
  [ (NUSER, 256, 0, PTE_W); (NUSER + 256, kdata_page - 256, 256, 0); (NUSER + kdata_page, 57344 - kdata_page, kdata_page, PTE_W);
    (1040384, 8192, 1040384, PTE_W) ].
Definition kernel_ent : Z -> option Z := foldl add_seg (fun _ => None) ksegs.

Lemma kdata_eq : kdata = 4096 * (NUSER + kdata_page) /\ 256 < kdata_page < 57344.
Proof.
  pose proof L as [H1 H2 H3 H4]. unfold kdata_page, KERNLINK in *. change KERNBASE with 2147483648 in *. change EXTMEM with 1048576 in *. change PHYSTOP with 234881024 in *.
  pose proof (Z.div_mod kdata 4096 ltac:(lia)). lia.
Qed.

Lemma kmap_segs : kmap = seg_row <$> ksegs.
Proof.
  destruct kdata_eq as [Hk Hp]. unfold kmap, ksegs. cbn [fmap list_fmap seg_row].
  assert (V2P kdata = 4096 * kdata_page) as -> by (unfold V2P; change KERNBASE with 2147483648; rewrite Hk, u32_small; lia).
  replace (256 + (kdata_page - 256)) with kdata_page by lia. replace (kdata_page + (57344 - kdata_page)) with 57344 by lia.
  rewrite (u32_small (4096 * kdata_page)) by lia. rewrite <- Hk. done.
Qed.

Lemma ksegs_ok : segs_ok (fun _ => None) ksegs.
Proof.
  destruct kdata_eq as [Hk Hp]. cbn [segs_ok ksegs seg_ok add_seg]. unfold PTE_W, map_range.
  split_and!; try lia; intros w Hw; repeat rewrite bool_decide_false by lia; done.
Qed.

(** User memory is not mapped by the kernel; physical memory is, from KERNBASE on, the kernel's text without PTE_W. *)
Lemma kernel_ent_user v : 0 <= v < NUSER -> kernel_ent v = None.
Proof.
  intros Hv. destruct kdata_eq as [Hk Hp]. unfold kernel_ent. cbn [foldl ksegs add_seg]. unfold map_range. by repeat rewrite bool_decide_false by lia.
Qed.

Lemma kernel_ent_phys p : 0 <= p < 57344 -> kernel_ent (NUSER + p) = Some (mkpte (4096 * p) (if bool_decide (256 <= p < kdata_page) then 0 else PTE_W)).
Proof.
  intros Hv. destruct kdata_eq as [Hk Hp]. unfold kernel_ent. cbn [foldl ksegs add_seg]. unfold map_range. rewrite bool_decide_false by lia.
  destruct (decide (kdata_page <= p)); [rewrite bool_decide_true, bool_decide_false by lia; do 2 f_equal; lia|]. rewrite bool_decide_false by lia.
  destruct (decide (256 <= p)); [rewrite !bool_decide_true by lia; do 2 f_equal; lia|]. rewrite bool_decide_false, bool_decide_true, bool_decide_false by lia.
  do 2 f_equal. lia.
Qed.

Lemma space_empty m pg : page_ok pg -> space (<[pg := zero_page]> m) pg (fun _ => None) (fun _ => None).
Proof. intros Hp. split; try done. exists zero_page. rewrite lookup_insert_eq. split; [done|]. split; [done|]. intros d _. apply word_zero. Qed.

(** [kalloc] takes the first page of the free list. *)
Lemma kalloc_takes l s : kmem_ok l s -> exists s', vmframe s s' /\ mem s' = mem s /\ match l with
  | [] => kalloc s = Ret 0 s
  | w :: l' => kalloc s = Ret w s' /\ kmem_ok l' s' /\ page_ok w /\ w ∉ l' /\ exists P, mem s !! w = Some P /\ length P = 4096%nat
  end.
Proof.
  intros Hk. destruct l as [|w l']; [exists s; split; [apply vmframe_refl|]; split; [done|]; by rewrite (kalloc_eq [] s Hk)|].
  destruct (free_page _ _ w Hk ltac:(by left)) as (Hw & HP). pose proof (km_nodup _ _ Hk) as [Hn _]%NoDup_cons.
  destruct (kalloc_ok _ _ Hk) as (v & s' & Ha & Hm & _ & -> & Hk'). exists s'. split; [|split; [done|by split]].
  rewrite (kalloc_eq _ _ Hk) in Ha. injection Ha as <-. by destruct s.
Qed.

Lemma setupkvm_spec l s : kmem_ok l s ->
  wp setupkvm (fun r s' => r = 0 /\ (length l <= 1025)%nat /\ (exists l', kept l s l' s') \/ exists l' tab', built l s r l' s' tab' kernel_ent) s.
Proof.
  intros Hk. destruct (kalloc_takes l s Hk) as (s1 & Hv1 & Hm1 & Ha). unfold setupkvm. destruct l as [|pg l].
  { eapply wp_step; [exact Ha|]. cbn [Z.eqb]. apply wp_ret. left. split; [done|]. split; [cbn; lia|]. exists []. split; [done|]. split; [apply vmframe_refl|done]. }
  destruct Ha as (Ha & Hk1 & Hpg & Hnl & P & HP & HlP). eapply wp_step; [exact Ha|]. rewrite (proj2 (Z.eqb_neq _ _)) by (destruct Hpg as (_ & _ & _ & ?); lia).
  eapply wp_step; [apply (mem_fill_page s1 pg P); [by rewrite Hm1|apply Hpg|done|done]|]. set (s2 := set_mem _ s1).
  change (DEVSPACE <? P2V PHYSTOP) with false. cbn iota. rewrite kmap_segs.
  assert (built (pg :: l) s pg l s2 (fun _ => None) (fun _ => None)) as Hb.
  { split; [|split; [|split]].
    - apply vm_kernel; [|done]. split; [by apply kmem_write|by apply space_empty|done|done].
    - eapply vmframe_trans; [exact Hv1|]. by destruct s1.
    - intros w. rewrite elem_of_cons, uses_kernel by done. split; [intros [->|?]; tauto|]. intros [?|[?|[d Hd]]]; [tauto|tauto|done].
    - intros w [Hw _]%not_elem_of_cons. cbn. by rewrite lookup_insert_ne, Hm1. }
  eapply wp_chain; [exact (map_rows_spec _ _ _ _ (km_nodup _ _ Hk) _ _ _ _ Hb ltac:(done) ksegs_ok)|]. intros [[]|] s' Hs; apply wp_ret; [by left|by right].
Qed.
End vm.

(** C20: [freevm] returns every page.  An address space was built from free pages, whatever was mapped or unmapped in it since:
    [freevm] then ends with the free list it was built from, as a set, and no other page has been written. *)
Theorem freevm_returns_pages `{Linker} (L : linked) (l l' : list Z) (s s' : kstate) (pg : Z) (tab ent : Z -> option Z) :
  built l s pg l' s' tab ent -> wp (freevm pg) (fun _ s2 => exists l2, kept l s l2 s2) s'.
Proof.
  intros Hb. eapply wp_mono; [apply (freevm_spec L _ _ _ _ _ (proj1 Hb))|]. intros ? s2 Hr. by eapply built_released.
Qed.

(** A kernel of 512 KB and 4000 free pages above it. *)
Definition vm_linker : Linker := {| kend := 2149056512; kdata := 2148798464 |}.

Lemma vm_linked : linked (H := vm_linker).
Proof. split; by vm_compute. Qed.

Lemma demo_pages n : (n <= 4000)%nat -> exists s, kmem_ok (H := vm_linker) (range_pages 2149056512 n) s /\ vmframe full_screen s.
Proof.
  induction n as [|n IH]; intros Hn; [exists full_screen; split; [|apply vmframe_refl]; by split; [apply not_elem_of_nil|done|constructor]|].
  destruct (IH ltac:(lia)) as (s & Hk & Hv). set (w := 2149056512 + PGSIZE * Z.of_nat n).
  assert (range_pages 2149056512 (S n) = w :: range_pages 2149056512 n) as -> by (unfold range_pages; by rewrite seq_S, fmap_app, reverse_app).
  destruct (kfree_frame (H := vm_linker) _ s w Hk) as (s' & _ & Hk' & Hv' & _); [..|exists s'; split; [done|by eapply vmframe_trans]].
  - unfold w, page_ok. change PGSIZE with 4096. change (@kend vm_linker) with 2149056512. change PHYSTOP with 234881024.
    split; [rewrite Z.mul_comm; apply (Z.mod_add 2149056512); lia|]. split; [lia|]. split; [|lia]. unfold V2P. change KERNBASE with 2147483648. rewrite u32_small; lia.
  - unfold range_pages. rewrite elem_of_reverse, list_elem_of_fmap. intros (j & Hj & Hj'%elem_of_seq). unfold w in Hj. change PGSIZE with 4096 in Hj. lia.
Qed.

Lemma length_range_pages p n : length (range_pages p n) = n.
Proof. unfold range_pages. by rewrite length_reverse, length_fmap, length_seq. Qed.

(** A kernel with its first directory. *)
Lemma demo_directory : exists l s d l' s' tab, kmem_ok (H := vm_linker) l s /\ length l = 4000%nat /\ (forall w, w ∈ l -> w < 2165440512) /\ vmframe full_screen s /\
  built (H := vm_linker) l s d l' s' tab (kernel_ent (H := vm_linker)).
Proof.
  destruct (demo_pages 4000 (le_n _)) as (s & Hk & Hv). pose proof (length_range_pages 2149056512 4000) as Hl.
  assert (forall w, w ∈ range_pages 2149056512 4000 -> w < 2165440512) as Hr.
  { intros w Hw. unfold range_pages in Hw. rewrite elem_of_reverse, list_elem_of_fmap in Hw. destruct Hw as (j & -> & Hj%elem_of_seq). change PGSIZE with 4096. lia. }
  revert Hk Hl Hr. generalize (range_pages 2149056512 4000). intros l Hk Hl Hr.
  destruct (wp_inv _ _ _ (setupkvm_spec (H := vm_linker) vm_linked _ s Hk)) as (d & s' & _ & [(_ & Hlen & _)|(l' & tab & Hb)]); [lia|].
  exists l, s, d, l', s', tab. split; [exact Hk|]. split; [exact Hl|]. split; [exact Hr|]. split; [exact Hv|exact Hb].
Qed.

Lemma freevm_returns_pages_witness : exists l s d s' s2 l2, length l = 4000%nat /\ freevm (H := vm_linker) d s' = Ret tt s2 /\ kept (H := vm_linker) l s l2 s2.
Proof.
  destruct demo_directory as (l & s & d & l' & s' & tab & _ & Hl & _ & _ & Hb).
  destruct (wp_inv _ _ _ (freevm_returns_pages (H := vm_linker) vm_linked l l' s s' d tab _ Hb)) as ([] & s2 & Hf & l2 & Hk).
  exists l, s, d, s', s2, l2. split; [exact Hl|]. split; [exact Hf|exact Hk].
Defined.
