(* ===== verification/VmProc.v ===== *)
(** * VmProc: growing, copying and writing the memory of a process

    [allocuvm] adds pages of zeroes or leaves the memory as it was; [copyuvm] makes a
    copy in pages of its own or gives every page back; [copyout] writes the bytes of
    user memory it is asked to write. *)

From stdpp Require Import functions base gmap list strings.
From Stdlib Require Import ZArith Lia.
From S2P Require Import Prelude State Core Kalloc Bio Log Fs Pipe Console ConsoleOut Vm VmSpec VmUser.

Local Open Scope Z_scope.
Local Open Scope kernel_scope.

Section proc.
Context `{Linker} (L : linked).
Implicit Types (tab ent : Z -> option Z) (l : list Z) (s : kstate).

(** ** A page between the free list and the address space *)

Record spare (f : Z) l s pg tab ent : Prop := {
  sr_vm : vm l s pg tab ent;
  sr_ok : page_ok f;
  sr_free : f ∉ l;
  sr_uses : ~ uses pg tab ent f;
  sr_page : exists P, mem s !! f = Some P /\ length P = 4096%nat
}.

Lemma vm_uses l s pg tab ent w : vm l s pg tab ent -> w ∈ l -> ~ uses pg tab ent w.
Proof.
  intros [Hd Hf _] Hw [->|[[d Hdw]|(v & e & Hv & He & <-)]]; [by apply (dr_page _ _ _ _ _ Hd)|by apply (dr_tab _ _ _ _ _ Hd d w)|].
  by destruct (Hf v e Hv He) as (_ & ? & _).
Qed.

(** The address space does not care about other pages. *)
Lemma vm_frame_mem l l' s s' pg tab ent : vm l s pg tab ent -> kmem_ok l' s' -> (forall w, w ∈ l' -> ~ uses pg tab ent w) ->
  (forall w, uses pg tab ent w -> mem s' !! w = mem s !! w) -> vm l' s' pg tab ent.
Proof.
  intros [Hd Hf Hi] Hk Ha Hm. split; [|intros v e Hv He|done].
  - eapply dir_frame; [exact Hd|done| |].
    + intros w Hw. specialize (Ha w Hw). unfold uses in Ha. split; [tauto|]. intros d Hdw. apply Ha. right; left. by exists d.
    + intros w [->|[d Hdw]]; apply Hm; [by left|right; left; by exists d].
  - assert (uses pg tab ent (frame e)) as Hu by (right; right; by exists v, e).
    destruct (Hf v e Hv He) as (H1 & _ & H2 & H3 & H4). split; [done|]. split; [intros Hc; by apply (Ha _ Hc)|]. split; [done|]. split; [done|].
    by rewrite Hm.
Qed.

(** Taking the first free page and filling it. *)
Lemma take_page f l s pg tab ent C : vm (f :: l) s pg tab ent -> length C = 4096%nat ->
  exists s1 s2, kalloc s = Ret f s1 /\ mem s1 = mem s /\ f <> 0 /\ mem_store f C s1 = Ret tt s2 /\ vmframe s s1 /\ vmframe s s2 /\
    spare f l s2 pg tab ent /\ mem s2 = <[f := C]> (mem s).
Proof.
  intros Hvm HC. pose proof (dr_free _ _ _ _ _ (vm_dir _ _ _ _ _ Hvm)) as Hk.
  destruct (kalloc_takes _ _ Hk) as (s1 & Hv1 & Hm1 & Ha & Hk1 & Hf & Hnl & P & HP & HlP).
  pose proof (vm_uses _ _ _ _ _ f Hvm ltac:(by left)) as Hu.
  exists s1, (set_mem (<[f := C]> (mem s1)) s1). split; [done|]. split; [done|]. split; [destruct Hf as (_ & _ & _ & ?); lia|].
  split; [apply (mem_fill_page s1 f P); [by rewrite Hm1|apply Hf|done|done]|]. split; [done|]. split; [eapply vmframe_trans; [exact Hv1|by destruct s1]|].
  split; [|cbn; by rewrite Hm1]. split; [|done|done|done|exists C; split; [apply lookup_insert_eq|done]].
  eapply vm_frame_mem; [exact Hvm|by apply kmem_write| |].
  - intros w Hw. apply (vm_uses _ _ _ _ _ _ Hvm). by right.
  - intros w Hw. cbn. rewrite Hm1, lookup_insert_ne; [done|]. by intros ->.
Qed.

(** Giving it back. *)
Lemma give_back f l s pg tab ent : spare f l s pg tab ent ->
  exists s', kfree f s = Ret tt s' /\ vm (f :: l) s' pg tab ent /\ vmframe s s' /\ forall w, w <> f -> mem s' !! w = mem s !! w.
Proof.
  intros [Hvm Hf Hnl Hu _]. destruct (kfree_frame l s f (dr_free _ _ _ _ _ (vm_dir _ _ _ _ _ Hvm)) Hf Hnl) as (s' & Hkf & Hk & Hv & Hm).
  exists s'. split; [done|]. split; [|done]. eapply vm_frame_mem; [exact Hvm|done| |].
  - intros w [->|Hw]%elem_of_cons; [done|by apply (vm_uses _ _ _ _ _ _ Hvm)].
  - intros w Hw. apply Hm. by intros ->.
Qed.

(** The frames of [ent] have kept what is in them. *)
Definition same_frames ent s s' : Prop := forall v e, 0 <= v < NUSER -> ent v = Some e -> mem s' !! frame e = mem s !! frame e.

(** [mappages] of the page [f] at [v]. *)
Definition page_mapped (f : Z) l s pg tab ent (v perm : Z) (r : Z) (s' : kstate) : Prop :=
  exists l' tab', vmframe s s' /\ same_frames ent s s' /\ mem s' !! f = mem s !! f /\ enlarged pg l s tab l' s' tab' /\
    (r = 0 /\ (length l <= length l' + 1)%nat /\ vm l' s' pg tab' (<[v := Some (mkpte (V2P f) perm)]> ent) \/ r = -1 /\ l = [] /\ l' = [] /\ spare f [] s' pg tab' ent).

Lemma vm_enlarged l s pg tab ent l' s' tab' : vm l s pg tab ent -> dir l' s' pg tab' ent -> enlarged pg l s tab l' s' tab' -> vm l' s' pg tab' ent /\ same_frames ent s s'.
Proof.
  intros [Hd Hf Hi] Hd' (_ & (new & -> & [G1 G2 G3]) & Hm).
  assert (forall v e, 0 <= v < NUSER -> ent v = Some e -> frame e ∉ l' /\ (forall d, tab' d <> Some (frame e)) /\ mem s' !! frame e = mem s !! frame e) as Hall.
  { intros v e Hv He. destruct (Hf v e Hv He) as (_ & Hnl & Hnp & Hnt & _). apply not_elem_of_app in Hnl as [Hn Hnl].
    assert (forall d, tab' d <> Some (frame e)) as Hnt' by (intros d Hdw; by destruct (G2 _ _ Hdw) as [?%Hnt|?]). split; [done|]. split; [done|]. by apply Hm. }
  split; [|intros v e Hv He; by apply (Hall v e)]. split; [done| |done].
  intros v e Hv He. destruct (Hf v e Hv He) as (H1 & _ & H2 & _ & H3). destruct (Hall v e Hv He) as (H4 & H5 & H6). by rewrite H6.
Qed.

Lemma map_page f l s pg tab ent v perm : spare f l s pg tab ent -> 0 <= v < NUSER -> ent v = None -> 0 <= perm < 4096 ->
  wp (mappages pg (4096 * v) PGSIZE (V2P f) perm) (page_mapped f l s pg tab ent v perm) s.
Proof.
  intros [Hvm Hf Hnl Hu HP] Hv Hno Hperm. destruct (page_V2P f Hf) as (_ & Hmod & Hr & _). change PHYSTOP with 234881024 in Hr.
  eapply wp_mono; [apply (mappages_spec l s pg tab ent v 1 (V2P f) perm (vm_dir _ _ _ _ _ Hvm)); try done; try lia; intros w Hw; by replace w with v by lia|].
  intros r s' (l' & tab' & j & Hd & Hg & Hlen & Hj). exists l', tab'. pose proof Hg as (Hv' & (new & Hnew & [G1 G2 G3]) & Hm).
  assert (f ∉ l') as Hnl' by (intros Hc; apply Hnl; rewrite Hnew; apply elem_of_app; by right).
  assert (forall d, tab' d <> Some f) as Hnt.
  { intros d Hdf. destruct (G2 _ _ Hdf) as [Hc|Hc]; [apply Hu; right; left; by exists d|]. apply Hnl. rewrite Hnew. apply elem_of_app. by left. }
  assert (f <> pg) as Hnp by (intros ->; apply Hu; by left). assert (mem s' !! f = mem s !! f) as Hmf by (by apply Hm).
  split; [done|].
  destruct Hj as [[-> ->]|(-> & Hj & ->)].
  - assert (same_frames ent s s') as Hsf.
    { intros u e Hu' He. destruct (vm_frame _ _ _ _ _ Hvm u e Hu' He) as (_ & H1 & H2 & H3 & _). apply Hm; [done|]. intros d Hdw.
      destruct (G2 _ _ Hdw) as [Hc|Hc]; [by apply (H3 d)|]. apply H1. rewrite Hnew. apply elem_of_app. by left. }
    split; [done|]. split; [done|]. split; [done|]. left. split; [done|]. split; [done|].
    assert (forall w, <[v := Some (mkpte (V2P f) perm)]> ent w = map_range ent v 1 (V2P f) perm w) as Hext.
    { intros w. rewrite <- (map_range_S ent v 0) by done. by rewrite map_range_0. }
    split; [by eapply dir_ext| |].
    + intros u e Hu'. destruct (decide (u = v)) as [->|Hne]; [rewrite fn_lookup_insert; intros [= <-]; rewrite frame_mkpte by done; by rewrite Hmf|].
      rewrite fn_lookup_insert_ne by done. intros He. destruct (vm_frame _ _ _ _ _ Hvm u e Hu' He) as (H1 & H2 & H3 & H4 & H5). rewrite (Hsf u e Hu' He).
      split; [done|]. rewrite Hnew, not_elem_of_app in H2. destruct H2 as [H2 H2']. split; [done|]. split; [done|]. split; [|done].
      intros d Hdw. by destruct (G2 _ _ Hdw) as [?%H4|?].
    + assert (forall u e, 0 <= u < NUSER -> ent u = Some e -> frame e <> f) as Hnf by (intros u e Hu' He <-; apply Hu; right; right; by exists u, e).
      intros u1 u2 e1 e2 Hu1 Hu2. destruct (decide (u1 = v)) as [->|N1], (decide (u2 = v)) as [->|N2]; rewrite ?fn_lookup_insert, ?fn_lookup_insert_ne by done.
      * done.
      * intros [= <-] He. rewrite frame_mkpte by done. intros Hc. by destruct (Hnf u2 e2 Hu2 He).
      * intros He [= <-]. rewrite frame_mkpte by done. intros Hc. by destruct (Hnf u1 e1 Hu1 He).
      * by apply (vm_inj _ _ _ _ _ Hvm).
  - assert (j = 0) as -> by lia. destruct (vm_enlarged l s pg tab ent [] s' tab' Hvm) as [Hvm' Hsf]; [eapply dir_ext; [exact Hd|]; intros w; by rewrite map_range_0|done|].
    split; [done|]. split; [done|]. split; [done|]. right. split; [done|]. split; [by destruct l; [|cbn in Hlen; lia]|]. split; [done|]. split; [done|done|done| |by rewrite Hmf].
    intros [->|[[d Hdw]|He]]; [done|by apply (Hnt d)|]. apply Hu. by right; right.
Qed.

(** No page is lost, whether it has been mapped or is going back. *)
Lemma mapped_conserved f l s s2 s' pg tab ent v perm l' tab' : page_ok f -> 0 <= v < NUSER -> ent v = None -> 0 <= perm < 4096 ->
  (exists C, mem s2 = <[f := C]> (mem s)) -> enlarged pg l s2 tab l' s' tab' ->
  conserved pg (f :: l) s tab ent l' s' tab' (<[v := Some (mkpte (V2P f) perm)]> ent) /\ conserved pg (f :: l) s tab ent (f :: l') s' tab' ent.
Proof.
  intros Hf Hv Hno Hperm [C Hm2] Hg. pose proof (enlarged_conserved pg l s2 tab ent l' s' tab' ent Hg ltac:(done)) as [Hp Ho].
  assert (forall w, w ∉ f :: l -> ~ uses pg tab ent w -> mem s' !! w = mem s !! w) as Hmem.
  { intros w [Hwf Hw]%not_elem_of_cons Hu. by rewrite Ho, Hm2, lookup_insert_ne. }
  split; (split; [|done]); intros w; rewrite !elem_of_cons; specialize (Hp w); [|tauto].
  assert (uses pg tab' (<[v := Some (mkpte (V2P f) perm)]> ent) w <-> w = f \/ uses pg tab' ent w) as ->; [|tauto].
  unfold uses. split.
  - intros [?|[?|(u & e & Hu & He & Hw)]]; [tauto|tauto|]. destruct (decide (u = v)) as [->|Hne].
    + rewrite fn_lookup_insert in He. injection He as <-. rewrite frame_mkpte in Hw by done. by left.
    + rewrite fn_lookup_insert_ne in He by done. right; right; right. by exists u, e.
  - intros [->|[?|[?|(u & e & Hu & He & Hw)]]]; [|tauto|tauto|].
    + right; right. eexists v, _. rewrite fn_lookup_insert. split; [done|]. split; [done|]. by apply frame_mkpte.
    + right; right. exists u, e. rewrite fn_lookup_insert_ne; [done|]. intros <-. congruence.
Qed.

(** ** allocuvm *)

Lemma deallocated_conserved l s pg tab ent u U s' : 0 <= u -> U <= NUSER -> deallocated l s pg tab ent u U s' ->
  exists l', vm l' s' pg tab (clear ent u U) /\ vmframe s s' /\ conserved pg l s tab ent l' s' tab (clear ent u U) /\
    (forall w, w ∈ l' -> w ∈ l \/ uses pg tab ent w) /\ forall w, ~ uses pg tab ent w -> mem s' !! w = mem s !! w.
Proof.
  intros Hu HU (l' & Hvm & Hv & Hl & Hm). exists l'. split; [done|]. split; [done|].
  assert (forall w, frames_of ent u U w -> uses pg tab ent w) as Hfu by (intros w (v & e & Hr & He & Hw); right; right; exists v, e; split; [lia|done]).
  assert (forall w, ~ uses pg tab ent w -> mem s' !! w = mem s !! w) as Hmem.
  { intros w Hw. apply Hm; [intros ->; apply Hw; by left|intros d Hd; apply Hw; right; left; by exists d|]. intros Hc. by apply Hw, Hfu. }
  split; [|split; [|done]].
  - split; [|intros w _; apply Hmem]. intros w. rewrite Hl. split.
    + intros [?|[->|[?|(v & e & Hr & He & Hw)]]]; [tauto|right; by left|right; right; by left|]. destruct (decide (u <= v < U)); [left; right; by exists v, e|].
      right; right; right. exists v, e. unfold clear. by rewrite bool_decide_false.
    + intros [[?|?%Hfu]|[->|[?|(v & e & Hr & He & Hw)]]]; [tauto|tauto|right; by left|right; right; by left|]. unfold clear in He.
      destruct (decide (u <= v < U)); [by rewrite bool_decide_true in He|]. rewrite bool_decide_false in He by done. right; right; right. by exists v, e.
  - intros w. rewrite Hl. intros [?|?%Hfu]; tauto.
Qed.

(** Frames of entries that stay are neither freed nor written. *)
Lemma clear_frames l s pg tab ent u U s' : vm l s pg tab ent -> 0 <= u -> U <= NUSER -> deallocated l s pg tab ent u U s' -> same_frames (clear ent u U) s s'.
Proof.
  intros Hvm Hu HU (l' & _ & _ & _ & Hm) v e Hv. unfold clear. destruct (decide (u <= v < U)); [by rewrite bool_decide_true by done|]. rewrite bool_decide_false by done.
  intros He. destruct (vm_frame _ _ _ _ _ Hvm v e Hv He) as (_ & _ & H1 & H2 & _). apply Hm; [done|done|]. intros (v' & e' & Hv' & He' & Hw).
  assert (v' = v) by (eapply (vm_inj _ _ _ _ _ Hvm); [lia|done..]). lia.
Qed.

(** Nothing but memory and the console changes. *)
Definition rest_same s s' : Prop := s' = set_console (console s') (set_mem (mem s') (set_freelist (freelist s') s)).

Lemma vmframe_rest s1 s2 s3 : vmframe s1 s2 -> rest_same s2 s3 -> rest_same s1 s3.
Proof. unfold vmframe, rest_same. intros -> ->. done. Qed.

Lemma print_message msg s : render msg [] <> None -> screen_ok (console s) -> panicked (console s) = false -> L_cons ∉ held s ->
  exists x, cprintf msg [] s = Ret tt (set_console x s).
Proof.
  intros Hr Hok Hp Hl. destruct (render msg []) as [o|] eqn:Ho; [|done].
  destruct (locked_writes o _ s (writes_cprintf_loop _ _ _ _ (le_n _) Ho) Hok Hp Hl) as (x & Hx & _). by exists x.
Qed.

Lemma vm_console l s pg tab ent x : vm l s pg tab ent -> vm l (set_console x s) pg tab ent.
Proof. intros Hvm. eapply vm_frame_mem; [exact Hvm| |intros w; apply (vm_uses _ _ _ _ _ _ Hvm)|done]. by destruct (dr_free _ _ _ _ _ (vm_dir _ _ _ _ _ Hvm)). Qed.

(** The console can print. *)
Definition printable s : Prop := screen_ok (console s) /\ panicked (console s) = false /\ L_cons ∉ held s.

Lemma printable_frame s s' : vmframe s s' -> printable s -> printable s'.
Proof. unfold vmframe, printable. by intros ->. Qed.

Section alloc.
Context (pg oldsz newsz : Z) (Hsz : 0 <= oldsz < newsz) (Hmax : newsz < KERNBASE).
Notation u0 := ((oldsz + 4095) / 4096).
Notation U := ((newsz + 4095) / 4096).

Lemma alloc_range : 0 <= u0 /\ U <= NUSER /\ forall u, 0 <= u -> (4096 * u < newsz <-> u < U).
Proof.
  change KERNBASE with 2147483648 in Hmax. pose proof (Z.div_mod (oldsz + 4095) 4096 ltac:(lia)). pose proof (Z.mod_pos_bound (oldsz + 4095) 4096 ltac:(lia)).
  pose proof (Z.div_mod (newsz + 4095) 4096 ltac:(lia)). pose proof (Z.mod_pos_bound (newsz + 4095) 4096 ltac:(lia)). split; [lia|]. split; [lia|]. intros u Hu. lia.
Qed.

(** The message and [deallocuvm] of both error exits, before the rest [k] of the exit. *)
Lemma undo_alloc {A} (msg : list Z) (k : KM A) Q l s tab ent : vm l s pg tab ent -> printable s -> render msg [] <> None ->
  (forall s' l', vm l' s' pg tab (clear ent u0 U) -> rest_same s s' -> conserved pg l s tab ent l' s' tab (clear ent u0 U) -> same_frames (clear ent u0 U) s s' ->
     (forall w, w ∈ l' -> w ∈ l \/ uses pg tab ent w) -> (forall w, ~ uses pg tab ent w -> mem s' !! w = mem s !! w) -> wp k Q s') ->
  wp (cprintf msg [] ;;; _ <- deallocuvm pg newsz oldsz ;; k) Q s.
Proof.
  intros Hvm (Hok & Hp & Hl) Hr Hk. destruct (print_message msg s Hr Hok Hp Hl) as (x & Hx). eapply wp_step; [exact Hx|].
  pose proof (vm_console _ _ _ _ _ x Hvm) as Hvm1. destruct alloc_range as (H0 & H1 & _).
  eapply wp_chain; [apply (deallocuvm_spec L _ _ _ _ _ _ _ Hvm1); lia|]. intros ? s' [_ Hd].
  pose proof (clear_frames _ _ _ _ _ _ _ _ Hvm1 H0 H1 Hd) as Hsf.
  destruct (deallocated_conserved _ _ _ _ _ _ _ _ H0 H1 Hd) as (l' & Hvm' & Hf & Hc & Hin & Hm).
  apply (Hk s' l'); try done. unfold rest_same. rewrite Hf. by destruct s.
Qed.

(** What the loop does from page [u] on. *)
Definition alloc_result l s tab ent (u : Z) (b : bool) (s' : kstate) : Prop :=
  exists l' tab' ent', vm l' s' pg tab' ent' /\ conserved pg l s tab ent l' s' tab' ent' /\
    if b then vmframe s s' /\ same_frames ent s s' /\ (forall v, ~ u <= v < U -> ent' v = ent v) /\
      (forall v, u <= v < U -> exists w, ent' v = Some (mkpte (V2P w) (Z.lor PTE_W PTE_U)) /\ page_ok w /\ mem s' !! w = Some zero_page)
    else (length l < Z.to_nat (2 * (U - u)))%nat /\ rest_same s s' /\ (forall v, ent' v = clear ent u0 U v) /\ same_frames ent' s s'.

Lemma alloc_result_step f l s s1 tab ent u l1 tab1 b s' : u0 <= u < U -> 0 <= u < NUSER -> page_ok f -> ent u = None -> vmframe s s1 -> same_frames ent s s1 ->
  mem s1 !! f = Some zero_page -> let ent1 := <[u := Some (mkpte (V2P f) (Z.lor PTE_W PTE_U))]> ent in
  conserved pg (f :: l) s tab ent l1 s1 tab1 ent1 -> (length l <= length l1 + 1)%nat -> alloc_result l1 s1 tab1 ent1 (u + 1) b s' -> alloc_result (f :: l) s tab ent u b s'.
Proof.
  intros Hu Hu' Hf Hno Hv Hsf Hz ent1 Hc Hlen (l' & tab' & ent' & Hvm & Hc' & Hb). exists l', tab', ent'. split; [done|]. split; [by eapply conserved_trans|].
  assert (forall v e, ent v = Some e -> ent1 v = Some e) as He1.
  { intros v e He. unfold ent1. rewrite fn_lookup_insert_ne; [done|]. intros <-. congruence. }
  destruct b.
  - destruct Hb as (Hv' & Hsf' & Hout & Hin). split; [by eapply vmframe_trans|]. split; [|split].
    + intros v e Hvr He. rewrite (Hsf' v e Hvr (He1 v e He)). by apply Hsf with v.
    + intros v Hvr. rewrite Hout by lia. unfold ent1. by rewrite fn_lookup_insert_ne by lia.
    + intros v Hvr. destruct (decide (v = u)) as [->|]; [|apply Hin; lia]. exists f. rewrite Hout by lia. unfold ent1. rewrite fn_lookup_insert. split; [done|]. split; [done|].
      rewrite <- Hz. rewrite <- (frame_mkpte f (Z.lor PTE_W PTE_U) Hf ltac:(done)). apply (Hsf' u); [done|]. unfold ent1. by rewrite fn_lookup_insert.
  - destruct Hb as (Hl' & Hv' & Hcl & Hsf'). split; [cbn; lia|]. split; [by eapply vmframe_rest|].
    assert (forall v, ent' v = clear ent u0 U v) as Hcl'.
    { intros v. rewrite Hcl. unfold clear. destruct (decide (u0 <= v < U)); [by rewrite !bool_decide_true by done|]. rewrite !bool_decide_false by done.
      unfold ent1. by rewrite fn_lookup_insert_ne by lia. }
    split; [done|]. intros v e Hvr He. rewrite (Hsf' v e Hvr He). apply (Hsf v); [done|]. rewrite Hcl' in He. unfold clear in He. by destruct (bool_decide _).
Qed.

Lemma alloc_failed l s l' s' tab tab' ent ent1 : vm l' s' pg tab' (clear ent1 u0 U) -> (forall v, ent1 v = ent v) -> conserved pg l s tab ent l' s' tab' (clear ent1 u0 U) ->
  rest_same s s' -> same_frames (clear ent1 u0 U) s s' -> forall u, (length l < Z.to_nat (2 * (U - u)))%nat -> alloc_result l s tab ent u false s'.
Proof.
  intros Hvm He Hc Hr Hsf u Hlen. exists l', tab', (clear ent1 u0 U). do 4 (split; [done|]). split; [|done].
  intros v. unfold clear. by rewrite He.
Qed.

Lemma allocuvm_loop_spec n : forall l s tab ent u, vm l s pg tab ent -> u0 <= u -> U - u < Z.of_nat n -> (0 < n)%nat ->
  (forall v, u <= v < U -> ent v = None) -> printable s ->
  wp (allocuvm_loop n pg oldsz newsz (4096 * u)) (alloc_result l s tab ent u) s.
Proof.
  destruct alloc_range as (H0 & HU & Hlt). change KERNBASE with 2147483648 in Hmax.
  induction n as [|n IH]; intros l s tab ent u Hvm Hu Hn Hn0 Hno Hpr; [lia|]. cbn [allocuvm_loop]. specialize (Hlt u ltac:(lia)).
  destruct (Z.ltb_spec (4096 * u) newsz) as [Hl|Hg]; cbn [negb].
  2: { apply wp_ret. exists l, tab, ent. split; [done|]. split; [split; done|]. split; [apply vmframe_refl|]. split; [done|]. split; [done|]. intros v Hv. lia. }
  destruct l as [|f l].
  - destruct (kalloc_takes [] s (dr_free _ _ _ _ _ (vm_dir _ _ _ _ _ Hvm))) as (_ & _ & _ & Ha). eapply wp_step; [exact Ha|]. rewrite Z.eqb_refl.
    eapply undo_alloc; [exact Hvm|done|by vm_compute|]. intros s' l' Hvm' Hr Hc Hsf _ _. apply wp_ret. eapply alloc_failed; [done..|]. cbn. lia.
  - destruct (take_page f l s pg tab ent zero_page Hvm ltac:(done)) as (s1 & s2 & Ha & Hm1 & Hf0 & Hst & _ & Hv2 & Hsp & Hm2).
    eapply wp_step; [exact Ha|]. rewrite (proj2 (Z.eqb_neq _ _)) by done. eapply wp_step; [exact Hst|].
    assert (same_frames ent s s2) as Hsf2.
    { intros v e Hv He. rewrite Hm2, lookup_insert_ne; [done|]. intros ->. apply (sr_uses _ _ _ _ _ _ Hsp). right; right. by exists v, e. }
    eapply wp_chain; [apply (map_page f l s2 pg tab ent u _ Hsp); [lia|apply Hno; lia|done]|].
    intros r s3 (l3 & tab3 & Hv3 & Hsf3 & Hmf & Hg & Hr). pose proof (vmframe_trans _ _ _ Hv2 Hv3) as Hv.
    assert (same_frames ent s s3) as Hsf by (intros v e Hvr He; by rewrite (Hsf3 v e Hvr He), (Hsf2 v e Hvr He)).
    destruct (mapped_conserved f l s s2 s3 pg tab ent u (Z.lor PTE_W PTE_U) l3 tab3 (sr_ok _ _ _ _ _ _ Hsp) ltac:(lia) ltac:(apply Hno; lia) ltac:(done) ltac:(by exists zero_page) Hg) as [Hc1 Hc2].
    destruct Hr as [(-> & Hlen & Hvm3)|(-> & -> & -> & Hsp3)].
    + cbn [Z.ltb Z.compare]. change PGSIZE with 4096. rewrite u32_small by lia. replace (4096 * u + 4096) with (4096 * (u + 1)) by lia.
      eapply wp_mono; [apply (IH l3 s3 tab3 _ (u + 1) Hvm3); [lia..| |by eapply printable_frame]|].
      * intros v Hvr. rewrite fn_lookup_insert_ne by lia. apply Hno. lia.
      * intros b s' Hres. eapply alloc_result_step; [lia|lia|apply Hsp|apply Hno; lia|exact Hv|exact Hsf| |exact Hc1|exact Hlen|exact Hres]. by rewrite Hmf, Hm2, lookup_insert_eq.
    + change (-1 <? 0) with true. cbn iota. eapply undo_alloc; [apply Hsp3|by eapply printable_frame|by vm_compute|].
      intros s4 l4 Hvm4 Hr4 Hc4 Hsf4 Hin4 Hm4. destruct Hsp3 as [_ Hfok _ Hfu (P & HP & HlP)].
      assert (f ∉ l4) as Hfl4 by (intros Hc; destruct (Hin4 f Hc) as [?%elem_of_nil|?]; done).
      assert (~ uses pg tab3 (clear ent u0 U) f) as Hfu4.
      { intros [?|[?|(v & e & Hvr & He & Hw)]]; apply Hfu; [by left|right; by left|]. right; right. exists v, e. unfold clear in He. by destruct (bool_decide _). }
      destruct (give_back f l4 s4 pg tab3 (clear ent u0 U)) as (s5 & Hkf & Hvm5 & Hv5 & Hm5); [split; try done; exists P; by rewrite Hm4|].
      eapply wp_step; [exact Hkf|]. apply wp_ret. eapply (alloc_failed _ _ (f :: l4) s5 tab tab3 ent ent); [done|done| | | |cbn; lia].
      * eapply conserved_trans; [exact Hc2|]. destruct Hc4 as [P4 M4]. split; [intros w; specialize (P4 w); rewrite !elem_of_cons; tauto|].
        intros w [Hw1 Hw2]%not_elem_of_cons Hw3. rewrite Hm5 by done. by apply M4.
      * eapply vmframe_rest; [exact Hv|]. unfold rest_same in *. rewrite Hv5, Hr4. done.
      * intros v e Hvr He. rewrite Hm5 by (intros Hw; apply Hfu4; right; right; by exists v, e). rewrite (Hsf4 v e Hvr He). apply (Hsf v); [done|]. unfold clear in He. by destruct (bool_decide _).
Qed.
End alloc.
End proc.
