(* ===== verification/VmTheorem.v ===== *)
(** * VmTheorem: the memory of a process, byte by byte

    [proc_mem l s pg tab ent sz]: a process of size [sz] with the directory [pg]; [ubyte]
    reads a byte of its memory the way the processor does, through the entries. *)

From stdpp Require Import functions base gmap list strings.
From Stdlib Require Import ZArith Lia.
From S2P Require Import Prelude State Core Kalloc Bio Log Fs Pipe Console ConsoleOut Vm VmSpec VmUser VmProc.

Local Open Scope Z_scope.
Local Open Scope kernel_scope.

(** The byte at user address [x]. *)
Definition ubyte (s : kstate) (ent : Z -> option Z) (x : Z) : option Z :=
  e ← ent (x / 4096); P ← mem s !! frame e; P !! Z.to_nat (x mod 4096).

(** The pages below [sz] and no others are mapped. *)
Definition proc_mem `{LK : Linker} (l : list Z) (s : kstate) (pg : Z) (tab ent : Z -> option Z) (sz : Z) : Prop :=
  vm l s pg tab ent /\ forall v, 0 <= v < NUSER -> is_Some (ent v) <-> 4096 * v < sz.

Section theorems.
Context `{Linker}.
Implicit Types (tab ent : Z -> option Z) (l : list Z) (s : kstate).

Lemma upage x : 0 <= x < KERNBASE -> 0 <= x / 4096 < NUSER /\ x = 4096 * (x / 4096) + x mod 4096 /\ 0 <= x mod 4096 < 4096.
Proof.
  change KERNBASE with 2147483648. intros Hx. pose proof (Z.div_mod x 4096 ltac:(lia)). pose proof (Z.mod_pos_bound x 4096 ltac:(lia)). lia.
Qed.

Lemma ubyte_same s s' ent ent' x : 0 <= x < KERNBASE -> ent' (x / 4096) = ent (x / 4096) -> same_frames ent s s' -> ubyte s' ent' x = ubyte s ent x.
Proof.
  intros Hx He Hsf. destruct (upage x Hx) as [Hv _]. unfold ubyte. rewrite He. destruct (ent (x / 4096)) as [e|] eqn:E; [|done]. cbn [mbind option_bind].
  by rewrite (Hsf _ _ Hv E).
Qed.

(** The user may touch the [n] bytes at [va]. *)
Definition accessible ent (va n : Z) : Prop := forall x, va <= x < va + n -> exists e, ent (x / 4096) = Some e /\ has e PTE_U = true.

Lemma has_user pa : has (mkpte pa (Z.lor PTE_W PTE_U)) PTE_U = true.
Proof.
  unfold has, mkpte. apply negb_true_iff, Z.eqb_neq. intros H0. apply (f_equal (fun z => Z.testbit z 2)) in H0. rewrite Z.land_spec, !Z.lor_spec in H0.
  change (Z.testbit PTE_U 2) with true in H0. by rewrite !orb_true_r in H0.
Qed.

(** How [allocuvm] answers, and the process afterwards. *)
Inductive alloc_outcome l s pg tab ent (oldsz newsz : Z) : Z -> kstate -> Prop :=
| alloc_smaller : newsz < oldsz -> newsz < KERNBASE -> alloc_outcome l s pg tab ent oldsz newsz oldsz s
| alloc_grew s' l' tab' ent' : oldsz <= newsz < KERNBASE -> proc_mem l' s' pg tab' ent' newsz -> conserved pg l s tab ent l' s' tab' ent' -> vmframe s s' ->
    (forall x, 0 <= x < oldsz -> ubyte s' ent' x = ubyte s ent x) ->
    (forall x, PGROUNDUP oldsz <= x < newsz -> ubyte s' ent' x = Some 0) -> accessible ent' (PGROUNDUP oldsz) (newsz - PGROUNDUP oldsz) -> alloc_outcome l s pg tab ent oldsz newsz newsz s'
| alloc_none s' l' tab' ent' : KERNBASE <= newsz \/ Z.of_nat (length l) < 2 * ((newsz + 4095) / 4096 - (oldsz + 4095) / 4096) ->
    proc_mem l' s' pg tab' ent' oldsz -> conserved pg l s tab ent l' s' tab' ent' -> rest_same s s' ->
    (forall x, 0 <= x < KERNBASE -> ubyte s' ent' x = ubyte s ent x) -> alloc_outcome l s pg tab ent oldsz newsz 0 s'.

Lemma conserved_refl pg l s tab ent : conserved pg l s tab ent l s tab ent.
Proof. by split. Qed.

Lemma allocuvm_spec (L : linked) l s pg tab ent oldsz newsz : proc_mem l s pg tab ent oldsz -> 0 <= oldsz < KERNBASE -> 0 <= newsz -> printable s ->
  wp (allocuvm pg oldsz newsz) (alloc_outcome l s pg tab ent oldsz newsz) s.
Proof.
  intros [Hvm Hsz] Ho Hn Hpr. unfold allocuvm. destruct (Z.leb_spec KERNBASE newsz) as [Hk|Hk].
  { apply wp_ret. eapply alloc_none; [by left|by split|apply conserved_refl|by destruct s|done]. }
  destruct (Z.ltb_spec newsz oldsz) as [Hlt|Hge]; [apply wp_ret; by constructor|]. change KERNBASE with 2147483648 in *.
  pose proof (Z.div_mod (oldsz + 4095) 4096 ltac:(lia)). pose proof (Z.mod_pos_bound (oldsz + 4095) 4096 ltac:(lia)).
  pose proof (Z.div_mod (newsz + 4095) 4096 ltac:(lia)). pose proof (Z.mod_pos_bound (newsz + 4095) 4096 ltac:(lia)).
  destruct (decide (oldsz = newsz)) as [->|Hne].
  { rewrite PGROUNDUP_div, u32_small by lia. cbn [allocuvm_loop]. rewrite (proj2 (Z.ltb_ge _ _)) by lia. cbn [negb]. eapply wp_step; [done|]. apply wp_ret.
    eapply alloc_grew; [change KERNBASE with 2147483648; lia|by split|apply conserved_refl|apply vmframe_refl|done|..]; intros x Hx; rewrite PGROUNDUP_div in Hx; lia. }
  rewrite PGROUNDUP_div, u32_small by lia. change PGSIZE with 4096. pose proof (Z.div_mod newsz 4096 ltac:(lia)). pose proof (Z.mod_pos_bound newsz 4096 ltac:(lia)).
  assert (forall v, (oldsz + 4095) / 4096 <= v < NUSER -> ent v = None) as Hno.
  { intros v Hv. destruct (ent v) as [e|] eqn:E; [|done]. assert (4096 * v < oldsz) by (apply Hsz; [lia|by rewrite E]). lia. }
  eapply wp_chain; [apply (allocuvm_loop_spec L pg oldsz newsz ltac:(lia) ltac:(change KERNBASE with 2147483648; lia) _ l s tab ent _ Hvm); [lia|lia|lia| |done]|].
  { intros v Hv. apply Hno. lia. }
  intros [] s' (l' & tab' & ent' & Hvm' & Hc & Hb); apply wp_ret.
  - destruct Hb as (Hv & Hsf & Hout & Hin). eapply alloc_grew; [change KERNBASE with 2147483648; lia|split; [exact Hvm'|]|exact Hc|done| | |].
    + intros v Hv'. destruct (decide ((oldsz + 4095) / 4096 <= v < (newsz + 4095) / 4096)) as [Hr|Hr].
      * destruct (Hin v Hr) as (w & -> & _). split; [lia|by eexists].
      * rewrite Hout by done. rewrite Hsz by done. lia.
    + intros x Hx. destruct (upage x ltac:(change KERNBASE with 2147483648; lia)) as (? & ? & ?). apply ubyte_same; [change KERNBASE with 2147483648; lia|apply Hout; lia|done].
    + intros x Hx. rewrite PGROUNDUP_div in Hx. destruct (upage x ltac:(change KERNBASE with 2147483648; lia)) as (? & ? & ?). destruct (Hin (x / 4096) ltac:(lia)) as (w & He & Hw & Hz).
      unfold ubyte. rewrite He. cbn [mbind option_bind]. rewrite frame_mkpte, Hz by done. cbn [mbind option_bind]. apply lookup_replicate_2. lia.
    + intros x Hx. rewrite PGROUNDUP_div in Hx. destruct (upage x ltac:(change KERNBASE with 2147483648; lia)) as (? & ? & ?). destruct (Hin (x / 4096) ltac:(lia)) as (w & He & _).
      eexists. split; [exact He|apply has_user].
  - destruct Hb as (Hl & Hr & Hcl & Hsf).
    assert (forall v, 0 <= v < NUSER -> ent' v = ent v) as He.
    { intros v Hv. rewrite Hcl. unfold clear. case_bool_decide; [|done]. symmetry. apply Hno. lia. }
    eapply alloc_none; [right; lia|split; [exact Hvm'|]|exact Hc|done|].
    + intros v Hv. rewrite He by done. by apply Hsz.
    + intros x Hx. destruct (upage x Hx) as (Hv & _ & _). apply ubyte_same; [done|by apply He|]. intros v e Hv' Hve. apply (Hsf v); [done|]. by rewrite He.
Qed.

(** ** copyuvm *)

Lemma flags_P e : has e PTE_P = true -> Z.lor (PTE_FLAGS e) PTE_P = PTE_FLAGS e.
Proof.
  unfold has, PTE_FLAGS. rewrite negb_true_iff, Z.eqb_neq. intros He. apply Z.bits_inj'. intros i Hi. rewrite Z.lor_spec, Z.land_spec.
  destruct (Z.eqb_spec i 0) as [->|Hn]; [|unfold PTE_P; rewrite (Z.bits_above_log2 1 i) by (try done; cbn; lia); by rewrite orb_false_r].
  destruct (Z.testbit e 0) eqn:E; [done|]. destruct He. apply Z.bits_inj'. intros j Hj. rewrite Z.land_spec, Z.bits_0.
  destruct (Z.eqb_spec j 0) as [->|Hj0]; [by rewrite E|]. unfold PTE_P. rewrite (Z.bits_above_log2 1 j) by (try done; cbn; lia). apply andb_false_r.
Qed.

(** The first [k] pages of the process are copied to the address space [d]. *)
Definition copied l s ent (k : Z) (d : Z) l' s' tab' ent' : Prop :=
  built l s d l' s' tab' ent' /\ (forall v, k <= v -> ent' v = kernel_ent v) /\
  forall v, 0 <= v < k -> exists e e', ent v = Some e /\ ent' v = Some e' /\ PTE_FLAGS e' = PTE_FLAGS e /\ frame e' ∈ l /\ mem s' !! frame e' = mem s !! frame e.

Lemma same_parent l s pg tab ent l' s' : vm l s pg tab ent -> kmem_ok l' s' -> (forall w, w ∈ l' -> w ∈ l) -> (forall w, w ∉ l -> mem s' !! w = mem s !! w) ->
  vm l' s' pg tab ent /\ same_frames ent s s'.
Proof.
  intros Hvm Hk Hl Hm. split.
  - eapply vm_frame_mem; [exact Hvm|done|intros w Hw; by apply (vm_uses _ _ _ _ _ _ Hvm), Hl|]. intros w Hw. apply Hm. intros Hc. by apply (vm_uses _ _ _ _ _ _ Hvm Hc).
  - intros v e Hv He. apply Hm. apply (vm_frame _ _ _ _ _ Hvm v e Hv He).
Qed.

Section copy.
Context (L : linked) (l : list Z) (s : kstate) (pg : Z) (tab ent : Z -> option Z) (Hvm : vm l s pg tab ent).

Lemma copy_page d k l1 s1 tab1 ent1 : copied l s ent k d l1 s1 tab1 ent1 -> 0 <= k < NUSER -> is_Some (ent k) ->
  wp (copyuvm_page pg d (4096 * k)) (fun ok s' => if ok : bool then exists l' tab' ent', copied l s ent (k + 1) d l' s' tab' ent' /\ (length l1 <= length l' + 2)%nat
    else (length l1 < 2)%nat /\ exists l' tab' ent', built l s d l' s' tab' ent') s1.
Proof.
  intros (Hb & Hker & Hcp) Hk [e He]. pose proof Hb as (Hvm1 & Hv1 & Hp1 & Hm1). assert (4096 * k / 4096 = k) as Hq by (rewrite Z.mul_comm; by apply Z.div_mul).
  destruct (same_parent l s pg tab ent l1 s1 Hvm (dr_free _ _ _ _ _ (vm_dir _ _ _ _ _ Hvm1)) ltac:(intros w Hw; apply Hp1; by left) Hm1) as [Hpar Hpf].
  pose proof (dr_space _ _ _ _ _ (vm_dir _ _ _ _ _ Hpar)) as Hps. destruct (sp_ent _ _ _ _ Hps k e He) as (_ & [t Ht] & HP & He32).
  destruct (vm_frame _ _ _ _ _ Hpar k e Hk He) as (_ & _ & _ & _ & C & HC & HlC). destruct (sp_tab _ _ _ _ Hps _ _ Ht) as (_ & (_ & _ & _ & ?) & _).
  assert (0 <= k mod 1024) by (apply Z.mod_pos_bound; lia).
  unfold copyuvm_page. eapply wp_step; [apply (walk_dir s1 pg tab ent); [done|lia|by rewrite Hq]|]. rewrite PTX_mod, Hq, (proj2 (Z.eqb_neq _ _)) by lia.
  destruct (set_entry l1 s1 pg tab ent k t None (vm_dir _ _ _ _ _ Hpar) ltac:(lia) Ht ltac:(done)) as (_ & Hrd & _). eapply wp_step; [exact Hrd|].
  rewrite He. cbn [from_option id]. rewrite HP. cbn [negb]. destruct l1 as [|f l1].
  { destruct (kalloc_takes [] s1 (dr_free _ _ _ _ _ (vm_dir _ _ _ _ _ Hvm1))) as (_ & _ & _ & Ha). eapply wp_step; [exact Ha|]. rewrite Z.eqb_refl. apply wp_ret.
    split; [cbn; lia|]. by exists [], tab1, ent1. }
  destruct (take_page f l1 s1 d tab1 ent1 C Hvm1 HlC) as (s2 & s3 & Ha & Hm2 & Hf0 & Hst & _ & Hv3 & Hsp & Hm3).
  eapply wp_step; [exact Ha|]. rewrite (proj2 (Z.eqb_neq _ _)) by done. fold (frame e). eapply wp_step; [unfold mem_page, bind, get; rewrite Hm2, HC; done|]. eapply wp_step; [exact Hst|].
  assert (ent1 k = None) as Hno by (rewrite Hker by lia; by apply kernel_ent_user). assert (0 <= PTE_FLAGS e < 4096) as Hfl by (rewrite PTE_FLAGS_mod; apply Z.mod_pos_bound; lia).
  eapply wp_chain; [by apply (map_page f l1 s3 d tab1 ent1 k _ Hsp)|]. intros r s4 (l4 & tab4 & Hv4 & Hsf4 & Hmf & Hg & Hr). pose proof (vmframe_trans _ _ _ Hv3 Hv4) as Hv.
  destruct (mapped_conserved f l1 s1 s3 s4 d tab1 ent1 k (PTE_FLAGS e) l4 tab4 (sr_ok _ _ _ _ _ _ Hsp) Hk Hno Hfl ltac:(by exists C) Hg) as [Hc1 Hc2].
  assert (f ∈ l) as Hfl' by (apply Hp1; left; by left).
  destruct Hr as [(-> & Hlen & Hvm4)|(-> & -> & -> & Hsp4)].
  - cbn [Z.ltb Z.compare]. apply wp_ret. eexists l4, tab4, _. split; [|cbn; lia]. split; [by eapply built_step|]. split.
    + intros v Hv'. rewrite fn_lookup_insert_ne by lia. apply Hker. lia.
    + intros v Hv'. destruct (decide (v = k)) as [->|Hne].
      * eexists e, _. rewrite fn_lookup_insert. split; [done|]. split; [done|]. destruct (page_V2P f (sr_ok _ _ _ _ _ _ Hsp)) as (_ & Hmod & Hr & _). change PHYSTOP with 234881024 in Hr.
        split; [rewrite (proj1 (proj2 (mkpte_ok (V2P f) _ Hmod ltac:(lia) Hfl))); by apply flags_P|]. rewrite frame_mkpte by (apply Hsp || done). split; [done|].
        rewrite Hmf, Hm3, lookup_insert_eq. rewrite <- HC. by apply (Hpf k).
      * destruct (Hcp v ltac:(lia)) as (a & b & Ea & Eb & Hfa & Hin & Hmm). exists a, b. rewrite fn_lookup_insert_ne by done. do 4 (split; [done|]). rewrite <- Hmm.
        rewrite (Hsf4 v b) by (done || lia). rewrite Hm3, lookup_insert_ne; [done|]. intros Hw. apply (sr_uses _ _ _ _ _ _ Hsp). right; right. exists v, b. split; [lia|done].
  - change (-1 <? 0) with true. cbn iota. destruct (give_back f [] s4 d tab4 ent1 Hsp4) as (s5 & Hkf & Hvm5 & Hv5 & Hm5). eapply wp_step; [exact Hkf|]. apply wp_ret.
    split; [cbn; lia|]. exists [f], tab4, ent1. eapply built_step; [exact Hb|done|by eapply vmframe_trans|]. destruct Hc2 as [P4 M4]. split; [done|].
    intros w Hw Hu. rewrite Hm5, M4; [done|done|done|]. intros ->. apply Hw. by left.
Qed.
End copy.

(** What [fork] gets: a process with the same memory in pages that were free, or nothing, with every page back. *)
Inductive copy_outcome l s pg tab ent (sz : Z) : Z -> kstate -> Prop :=
| copy_made d s' l' tab' ent' : built l s d l' s' tab' ent' -> proc_mem l' s' d tab' ent' sz -> proc_mem l' s' pg tab ent sz ->
    (forall x, 0 <= x < KERNBASE -> ubyte s' ent' x = ubyte s ent x /\ ubyte s' ent x = ubyte s ent x) ->
    (forall v e, 0 <= v < NUSER -> ent v = Some e -> exists e', ent' v = Some e' /\ PTE_FLAGS e' = PTE_FLAGS e) ->
    (forall w, uses d tab' ent' w -> ~ uses pg tab ent w) -> (forall v, NUSER <= v -> ent' v = kernel_ent v) -> copy_outcome l s pg tab ent sz d s'
| copy_failed s' l' : Z.of_nat (length l) <= 1026 + 2 * ((sz + 4095) / 4096) -> kept l s l' s' -> copy_outcome l s pg tab ent sz 0 s'.

Lemma copied_all l s pg tab ent sz d l' s' tab' ent' : proc_mem l s pg tab ent sz -> 0 <= sz <= KERNBASE -> linked ->
  copied l s ent ((sz + 4095) / 4096) d l' s' tab' ent' -> copy_outcome l s pg tab ent sz d s'.
Proof.
  intros [Hvm Hsz] Hr L (Hb & Hker & Hcp). change KERNBASE with 2147483648 in Hr. pose proof (Z.div_mod (sz + 4095) 4096 ltac:(lia)). pose proof (Z.mod_pos_bound (sz + 4095) 4096 ltac:(lia)).
  pose proof Hb as (Hvm' & _ & Hp & Hm).
  destruct (same_parent l s pg tab ent l' s' Hvm (dr_free _ _ _ _ _ (vm_dir _ _ _ _ _ Hvm')) ltac:(intros w Hw; apply Hp; by left) Hm) as [Hpar Hpf].
  assert (forall v, 0 <= v < NUSER -> (sz + 4095) / 4096 <= v -> ent v = None /\ ent' v = None) as Hout.
  { intros v Hv Hle. split; [|rewrite Hker by done; by apply kernel_ent_user]. destruct (ent v) eqn:E; [|done]. assert (4096 * v < sz) by (apply Hsz; [done|by rewrite E]). lia. }
  eapply copy_made; [exact Hb|split; [done|]|by split| | | |].
  - intros v Hv. destruct (decide (v < (sz + 4095) / 4096)) as [Hlt|Hge]; [destruct (Hcp v ltac:(lia)) as (e & e' & _ & -> & _); split; [lia|by eexists]|].
    destruct (Hout v Hv ltac:(lia)) as [_ ->]. split; [by intros [? ?]|lia].
  - intros x Hx. destruct (upage x Hx) as (Hv & _). split; [|by apply ubyte_same]. unfold ubyte. destruct (decide (x / 4096 < (sz + 4095) / 4096)) as [Hlt|Hge].
    + destruct (Hcp _ (conj (proj1 Hv) Hlt)) as (e & e' & -> & -> & _ & _ & Hmm). cbn [mbind option_bind]. by rewrite Hmm.
    + by destruct (Hout _ Hv ltac:(lia)) as [-> ->].
  - intros v e Hv He. destruct (decide (v < (sz + 4095) / 4096)) as [Hlt|Hge]; [|destruct (Hout v Hv ltac:(lia)); congruence].
    destruct (Hcp v ltac:(lia)) as (e1 & e' & He1 & He' & Hfl & _). exists e'. split; [done|]. congruence.
  - intros w Hw. apply (vm_uses _ _ _ _ _ _ Hvm), Hp. by right.
  - intros v Hv. apply Hker. lia.
Qed.

(** ** copyout *)

Lemma store_user l s pg tab ent v e off (chunk : list Z) P : vm l s pg tab ent -> 0 <= v < NUSER -> ent v = Some e -> mem s !! frame e = Some P ->
  0 <= off -> off + Z.of_nat (length chunk) <= 4096 -> let s' := set_mem (<[frame e := splice (Z.to_nat off) chunk P]> (mem s)) s in
  vm l s' pg tab ent /\ forall x, 0 <= x < KERNBASE -> ubyte s' ent x =
    if bool_decide (4096 * v + off <= x < 4096 * v + off + Z.of_nat (length chunk)) then chunk !! Z.to_nat (x - (4096 * v + off)) else ubyte s ent x.
Proof.
  intros Hvm Hv He HP Ho Hlen s'. destruct (vm_frame _ _ _ _ _ Hvm v e Hv He) as (Hok & Hnl & Hnp & Hnt & P' & HP' & HlP). rewrite HP in HP'. injection HP' as <-.
  split.
  - destruct Hvm as [Hd Hf Hi]. split; [|intros v' e' Hv' He'|done].
    + eapply dir_frame; [exact Hd|apply kmem_write; [apply Hd|done]| |].
      * intros w Hw. split; [intros ->; by apply (dr_page _ _ _ _ _ Hd)|]. intros d Hdw. by apply (dr_tab _ _ _ _ _ Hd d w).
      * intros w Hw. cbn. rewrite lookup_insert_ne; [done|]. intros Hc. destruct Hw as [->|[d Hdw]]; [done|]. apply (Hnt d). congruence.
    + destruct (Hf v' e' Hv' He') as (H1 & H2 & H3 & H4 & Q & HQ & HlQ). do 4 (split; [done|]). cbn. destruct (decide (frame e' = frame e)) as [->|Hn].
      * eexists. rewrite lookup_insert_eq. split; [done|]. rewrite length_splice; lia.
      * exists Q. by rewrite lookup_insert_ne.
  - intros x Hx. destruct (upage x Hx) as (Hxv & Hxe & Hxm). unfold ubyte. destruct (decide (x / 4096 = v)) as [Heq|Hne].
    + rewrite Heq, He. cbn [mbind option_bind]. rewrite HP. change (mem s') with (<[frame e := splice (Z.to_nat off) chunk P]> (mem s)). rewrite lookup_insert_eq. cbn [mbind option_bind].
      case_bool_decide as Hc.
      * rewrite lookup_splice_in by lia. f_equal. lia.
      * by rewrite lookup_splice_out by lia.
    + rewrite bool_decide_false by lia. destruct (ent (x / 4096)) as [e'|] eqn:E; [|done]. cbn [mbind option_bind]. change (mem s') with (<[frame e := splice (Z.to_nat off) chunk P]> (mem s)).
      rewrite lookup_insert_ne; [done|]. intros Hc. apply Hne. by eapply (vm_inj _ _ _ _ _ Hvm).
Qed.

Lemma uva2ka_spec l s pg tab ent v e : vm l s pg tab ent -> 0 <= v < NUSER -> ent v = Some e -> has e PTE_U = true -> uva2ka pg (4096 * v) s = Ret (frame e) s.
Proof.
  intros Hvm Hv He HU. pose proof (dr_space _ _ _ _ _ (vm_dir _ _ _ _ _ Hvm)) as Hs. assert (4096 * v / 4096 = v) as Hq by (rewrite Z.mul_comm; by apply Z.div_mul).
  destruct (sp_ent _ _ _ _ Hs v e He) as (_ & [t Ht] & HP & _). destruct (sp_tab _ _ _ _ Hs _ _ Ht) as (_ & (_ & _ & _ & ?) & _). assert (0 <= v mod 1024) by (apply Z.mod_pos_bound; lia).
  unfold uva2ka, bind. rewrite (walk_dir s pg tab ent _ _ t) by (done || lia || by rewrite Hq). rewrite PTX_mod, Hq, (proj2 (Z.eqb_neq _ _)) by lia.
  destruct (set_entry l s pg tab ent v t None (vm_dir _ _ _ _ _ Hvm) ltac:(lia) Ht ltac:(done)) as (_ & Hrd & _). rewrite Hrd, He. cbn [from_option id]. by rewrite HP, HU.
Qed.

(** The bytes [buf] have been written at [va]. *)
Definition put_user l s pg tab ent (va : Z) (buf : list Z) s' : Prop :=
  vm l s' pg tab ent /\ vmframe s s' /\ (forall w, (forall v e, 0 <= v < NUSER -> ent v = Some e -> frame e <> w) -> mem s' !! w = mem s !! w) /\
  forall x, 0 <= x < KERNBASE -> ubyte s' ent x = if bool_decide (va <= x < va + Z.of_nat (length buf)) then buf !! Z.to_nat (x - va) else ubyte s ent x.

Lemma copyout_loop_spec n : forall l s pg tab ent va buf, vm l s pg tab ent -> 0 <= va -> va + Z.of_nat (length buf) <= KERNBASE ->
  accessible ent va (Z.of_nat (length buf)) -> va mod 4096 + Z.of_nat (length buf) <= 4096 * (Z.of_nat n - 1) -> (0 < n)%nat ->
  wp (copyout_loop n pg va buf) (fun r s' => r = 0 /\ put_user l s pg tab ent va buf s') s.
Proof.
  induction n as [|n IH]; intros l s pg tab ent va buf Hvm Hva Hmax Hacc Hn Hn0; [lia|]. cbn [copyout_loop]. destruct buf as [|b buf].
  { apply wp_ret. split; [done|]. split; [done|]. split; [apply vmframe_refl|]. split; [done|]. intros x Hx. cbn [length]. by rewrite bool_decide_false by lia. }
  set (bs := b :: buf) in *. assert (0 < Z.of_nat (length bs)) as Hpos by (unfold bs; cbn; lia). change KERNBASE with 2147483648 in Hmax.
  destruct (upage va ltac:(change KERNBASE with 2147483648; lia)) as (Hv & Hvd & Hvm4). rewrite PGROUNDDOWN_div. set (v := va / 4096) in *.
  destruct (Hacc va ltac:(lia)) as (e & He & HU). fold v in He. eapply wp_step; [by eapply uva2ka_spec|].
  destruct (vm_frame _ _ _ _ _ Hvm v e Hv He) as ((Hpm & _ & _ & Hp0) & _ & _ & _ & P & HP & HlP). rewrite (proj2 (Z.eqb_neq _ _)) by lia.
  change PGSIZE with 4096. replace (va - 4096 * v) with (va mod 4096) by lia. set (off := va mod 4096) in *. set (c := Z.min (4096 - off) (Z.of_nat (length bs))).
  assert (length (take (Z.to_nat c) bs) = Z.to_nat c) as Hlc by (rewrite length_take; lia).
  assert ((frame e + off) mod PGSIZE = off) as Hmo by (change PGSIZE with 4096 in *; rewrite Z.add_mod, Hpm, Z.add_0_l, Z.mod_mod, Z.mod_small; lia).
  eapply wp_step; [apply (mem_store_page s (frame e + off) (frame e) P); [done|rewrite Hmo, Hlc; lia|lia]|]. rewrite Hmo.
  destruct (store_user l s pg tab ent v e off (take (Z.to_nat c) bs) P Hvm Hv He HP ltac:(lia) ltac:(lia)) as [Hvm1 Hby]. set (s1 := set_mem _ s) in *.
  rewrite u32_small by lia. replace (4096 * v + 4096) with (4096 * (v + 1)) by lia.
  assert (length (drop (Z.to_nat c) bs) = (length bs - Z.to_nat c)%nat) as Hld by apply length_drop.
  assert (c = 4096 - off \/ c = Z.of_nat (length bs) /\ length (drop (Z.to_nat c) bs) = 0%nat) as Hc by lia.
  eapply wp_mono; [apply (IH l s1 pg tab ent (4096 * (v + 1)) (drop (Z.to_nat c) bs) Hvm1); [lia| | | |lia]|].
  - change KERNBASE with 2147483648. rewrite Hld. lia.
  - intros x Hx. rewrite Hld in Hx. apply Hacc. lia.
  - rewrite (Z.mul_comm 4096), Z.mod_mul, Hld by lia. lia.
  - intros r s' (-> & Hvm' & Hf & Hm & Hby'). split; [done|]. split; [done|]. split; [eapply vmframe_trans; [|exact Hf]; by destruct s|]. split.
    + intros w Hw. rewrite Hm by done. unfold s1. cbn. rewrite lookup_insert_ne; [done|]. by apply (Hw v).
    + intros x Hx. rewrite Hby', Hby, Hld, Hlc by done. destruct (decide (va <= x < va + Z.of_nat (length bs))) as [Hin|Hout].
      * rewrite (bool_decide_true (va <= x < _)) by done. destruct (decide (4096 * (v + 1) <= x)).
        -- rewrite bool_decide_true, lookup_drop by lia. f_equal. lia.
        -- rewrite bool_decide_false, bool_decide_true, lookup_take_lt by lia. f_equal. lia.
      * by rewrite !bool_decide_false by lia.
Qed.
End theorems.

Lemma copyuvm_spec `{LK : Linker} (L : linked) (l : list Z) (s : kstate) (pg : Z) (tab ent : Z -> option Z) (sz : Z) :
  proc_mem l s pg tab ent sz -> 0 <= sz <= KERNBASE -> wp (copyuvm pg sz) (copy_outcome l s pg tab ent sz) s.
Proof.
  intros Hpm Hsz. pose proof Hpm as [Hvm Hin]. pose proof (dr_free _ _ _ _ _ (vm_dir _ _ _ _ _ Hvm)) as Hk. pose proof (km_nodup _ _ Hk) as Hnd.
  unfold copyuvm. eapply wp_chain; [by apply setupkvm_spec|]. intros d s1 [(-> & Hlen & l1 & Hkept)|(l1 & tab1 & Hb)].
  { rewrite Z.eqb_refl. apply wp_ret. eapply copy_failed; [|exact Hkept]. change KERNBASE with 2147483648 in Hsz. pose proof (Z.div_pos (sz + 4095) 4096). lia. }
  pose proof (sp_page _ _ _ _ (dr_space _ _ _ _ _ (vm_dir _ _ _ _ _ (proj1 Hb)))) as (_ & _ & _ & Hd). rewrite (proj2 (Z.eqb_neq _ _)) by lia.
  pose proof (built_length _ _ _ _ _ _ _ Hb Hnd (kernel_ent_user L)) as Hlen. change PGSIZE with 4096. replace (sz + 4096 - 1) with (sz + 4095) by lia.
  change KERNBASE with 2147483648 in Hsz. pose proof (Z.div_mod (sz + 4095) 4096 ltac:(lia)). pose proof (Z.mod_pos_bound (sz + 4095) 4096 ltac:(lia)).
  eapply wp_chain; [apply (wp_loop_until (fun k s' => exists l' tab' ent', copied l s ent (Z.of_nat k) d l' s' tab' ent' /\ (length l <= length l' + 1025 + 2 * k)%nat) _ _
    (fun r s' => match r with None => copy_outcome l s pg tab ent sz d s'
                 | Some _ => Z.of_nat (length l) <= 1026 + 2 * ((sz + 4095) / 4096) /\ exists l' tab' ent', built l s d l' s' tab' ent' end))|].
  - exists l1, tab1, kernel_ent. split; [|lia]. split; [done|]. split; [done|]. intros v Hv. lia.
  - intros k s' Hk' (l2 & tab2 & ent2 & Hcp & Hl2). eapply wp_chain.
    { apply (copy_page L l s pg tab ent Hvm d (Z.of_nat k) l2 s' tab2 ent2 Hcp); [lia|]. apply Hin; lia. }
    intros [] s2 Hs2; apply wp_ret.
    + destruct Hs2 as (l3 & tab3 & ent3 & Hc3 & Hl3). exists l3, tab3, ent3. rewrite Nat2Z.inj_succ. split; [exact Hc3|lia].
    + destruct Hs2 as [Hl3 Hb3]. split; [lia|done].
  - intros s' (l2 & tab2 & ent2 & Hcp & _). rewrite Z2Nat.id in Hcp by lia. by eapply copied_all; [|change KERNBASE with 2147483648; lia|..].
  - intros [[]|] s' Hr; [|by apply wp_ret]. destruct Hr as (Hl & l2 & tab2 & ent2 & Hb2). eapply wp_chain; [apply (freevm_spec L _ _ _ _ _ (proj1 Hb2))|].
    intros ? s2 Hrel. destruct (built_released _ _ _ _ _ _ _ _ Hb2 Hrel) as [l3 Hk3]. apply wp_ret. by eapply copy_failed.
Qed.

(** C19: [copyuvm] makes a copy.  For a process with its pages below [sz] mapped, [copyuvm] returns a directory in pages that were free,
    with the kernel's mappings and, byte for byte and with the same flags, the memory of the process; the two address spaces share
    no page and the process's own memory is untouched.  Only when there are too few free pages does it return 0; then
    every page is free again and nothing has changed. *)
Theorem copyuvm_copies `{LK : Linker} (L : linked) (l : list Z) (s : kstate) (pg : Z) (tab ent : Z -> option Z) (sz : Z) :
  proc_mem l s pg tab ent sz -> 0 <= sz <= KERNBASE -> wp (copyuvm pg sz) (copy_outcome l s pg tab ent sz) s.
Proof. apply copyuvm_spec; done. Qed.

(** C21: [copyout] writes user memory.  Where the user may touch all [length buf] bytes at [va], [copyout] returns 0, the
    bytes at [va] are those of [buf], and every other byte of user memory and every page that is not the process's is unchanged. *)
Theorem copyout_writes `{LK : Linker} (l : list Z) (s : kstate) (pg : Z) (tab ent : Z -> option Z) (va : Z) (buf : list Z) :
  vm l s pg tab ent -> 0 <= va -> va + Z.of_nat (length buf) <= KERNBASE -> accessible ent va (Z.of_nat (length buf)) ->
  wp (copyout pg va buf) (fun r s' => r = 0 /\ put_user l s pg tab ent va buf s') s.
Proof.
  intros Hvm Hva Hmax Hacc. unfold copyout. change PGSIZE with 4096. pose proof (Z.div_mod (Z.of_nat (length buf)) 4096 ltac:(lia)).
  pose proof (Z.mod_pos_bound (Z.of_nat (length buf)) 4096 ltac:(lia)). pose proof (Z.mod_pos_bound va 4096 ltac:(lia)).
  apply copyout_loop_spec; try done; lia.
Qed.

(** A process of two pages. *)
Lemma demo_process : exists l s pg tab ent, proc_mem (LK := vm_linker) l s pg tab ent 8192 /\ printable s /\ accessible ent 0 8192 /\
  (forall w, w ∈ l \/ uses pg tab ent w -> w < 2165440512) /\
  exists l0, length l0 = 4000%nat /\ NoDup l0 /\ forall w, w ∈ l0 -> w ∈ l \/ uses pg tab ent w.
Proof.
  destruct demo_directory as (l & s & d & l' & s' & tab & Hk & Hl & Hr & Hf & Hb).
  pose proof (built_length (H := vm_linker) _ _ _ _ _ _ _ Hb (km_nodup _ _ Hk) (kernel_ent_user vm_linked)) as Hlen. pose proof Hb as (Hvm & Hf' & Hpg & _).
  assert (proc_mem (LK := vm_linker) l' s' d tab (kernel_ent (H := vm_linker)) 0) as Hpm.
  { split; [exact Hvm|]. intros v Hv. rewrite (kernel_ent_user vm_linked) by exact Hv. split; [by intros [? ?]|lia]. }
  assert (printable full_screen) as Hfs by (split; [split; [done|by cbn; lia]|]; split; [done|apply not_elem_of_nil]).
  assert (printable s') as Hpr by (eapply printable_frame; [|exact Hfs]; by eapply vmframe_trans).
  destruct (wp_inv _ _ _ (allocuvm_spec (H := vm_linker) vm_linked _ _ _ _ _ 0 8192 Hpm ltac:(by vm_compute) ltac:(lia) Hpr)) as (r & s2 & _ & Ho).
  inversion Ho as [? ?|? l2 tab2 ent2 ? Hpm2 [Hcon _] Hf2 ? ? Ha|? ? ? ? Hc]; subst; [lia| |].
  - exists l2, s2, d, tab2, ent2. split; [exact Hpm2|]. split; [by eapply printable_frame|]. split; [exact Ha|].
    split; [intros w Hw; apply Hr, Hpg, Hcon, Hw|]. exists l. split; [exact Hl|]. split; [apply (km_nodup _ _ Hk)|]. intros w Hw. by apply Hcon, Hpg.
  - destruct Hc as [Hc|Hc]; [by vm_compute in Hc|]. change ((8192 + 4095) / 4096 - (0 + 4095) / 4096) with 2 in Hc. lia.
Qed.

Lemma copyuvm_copies_witness : exists l s pg tab ent d s', copyuvm (H := vm_linker) pg 8192 s = Ret d s' /\ copy_outcome (H := vm_linker) l s pg tab ent 8192 d s'.
Proof.
  destruct demo_process as (l & s & pg & tab & ent & Hpm & _).
  destruct (wp_inv _ _ _ (copyuvm_copies (LK := vm_linker) vm_linked l s pg tab ent 8192 Hpm ltac:(by vm_compute))) as (d & s' & Hc & Ho).
  exists l, s, pg, tab, ent, d, s'. split; [exact Hc|exact Ho].
Defined.

Lemma copyout_writes_witness : exists s pg ent s', copyout pg 4094 [104; 101; 108; 108; 111] s = Ret 0 s' /\ ubyte s' ent 4097 = Some 108.
Proof.
  destruct demo_process as (l & s & pg & tab & ent & [Hvm _] & _ & Ha & _).
  destruct (wp_inv _ _ _ (copyout_writes (LK := vm_linker) l s pg tab ent 4094 [104; 101; 108; 108; 111] Hvm ltac:(lia) ltac:(by vm_compute)
    ltac:(intros x Hx; apply Ha; cbn in Hx; lia))) as (r & s' & Hc & -> & _ & _ & _ & Hby).
  exists s, pg, ent, s'. split; [exact Hc|]. rewrite Hby by (by vm_compute). reflexivity.
Defined.
