(* ===== verification/ProcMem.v ===== *)
(** * ProcMem: sbrk, from growproc down to the page tables *)

From stdpp Require Import functions base gmap list strings.
From Stdlib Require Import ZArith Lia.
From S2P Require Import Prelude State Core Sem Kalloc Bio Log Fs Pipe Console ConsoleOut Vm File Proc.
From S2P Require Import VmSpec VmUser VmProc VmTheorem.

Local Open Scope Z_scope.
Local Open Scope kernel_scope.

(** Process [p] is running, with the directory [pg] and [sz] bytes of memory. *)
Record running (s : kstate) (p : nat) (pg sz : Z) : Prop := {
  ru_cur : cur s = Some p;
  ru_slot : (p < length (procs s))%nat;
  ru_pgdir : p_pgdir (proc_at s p) = pg;
  ru_kstack : p_kstack (proc_at s p) <> 0;
  ru_sz : p_sz (proc_at s p) = sz
}.

(** [curproc->sz = sz;] *)
Definition resized (p : nat) (sz : Z) (s : kstate) : kstate := set_procs (alter (set_p_sz sz) p (procs s)) s.

Section grow.
Context `{Linker}.
Implicit Types (tab ent : Z -> option Z) (l : list Z) (s : kstate).

(** How [growproc] answers, and the process afterwards. *)
Inductive grow_outcome l s (p : nat) (pg : Z) tab ent (sz n : Z) : Z -> kstate -> Prop :=
| grow_done s1 l' tab' ent' : sz + n < KERNBASE -> vmframe s s1 -> proc_mem l' (resized p (sz + n) s1) pg tab' ent' (sz + n) ->
    conserved pg l s tab ent l' s1 tab' ent' -> running (resized p (sz + n) s1) p pg (sz + n) ->
    (forall x, 0 <= x < Z.min sz (sz + n) -> ubyte s1 ent' x = ubyte s ent x) ->
    (forall x, PGROUNDUP sz <= x < sz + n -> ubyte s1 ent' x = Some 0) -> grow_outcome l s p pg tab ent sz n 0 (resized p (sz + n) s1)
| grow_failed s' l' tab' ent' : KERNBASE <= sz + n \/ Z.of_nat (length l) < 2 * ((sz + n + 4095) / 4096 - (sz + 4095) / 4096) ->
    proc_mem l' s' pg tab' ent' sz -> conserved pg l s tab ent l' s' tab' ent' -> rest_same s s' -> running s' p pg sz ->
    (forall x, 0 <= x < KERNBASE -> ubyte s' ent' x = ubyte s ent x) -> grow_outcome l s p pg tab ent sz n (-1) s'.

Lemma proc_mem_same l s s' pg tab ent sz : proc_mem l s pg tab ent sz -> mem s' = mem s -> freelist s' = freelist s -> held s' = held s ->
  proc_mem l s' pg tab ent sz.
Proof.
  intros [Hvm Hsz] Hm Hf Hh. split; [|done]. eapply vm_frame_mem; [exact Hvm| |intros w; apply (vm_uses _ _ _ _ _ _ Hvm)|by rewrite Hm].
  destruct (dr_free _ _ _ _ _ (vm_dir _ _ _ _ _ Hvm)) as [H1 H2 H3]. split; [by rewrite Hh|by rewrite Hm, Hf|done].
Qed.

Lemma resized_running s p pg sz z : running s p pg sz -> running (resized p z s) p pg z.
Proof.
  intros [H1 H2 H3 H4 H5]. destruct (lookup_lt_is_Some_2 _ _ H2) as [x Hx].
  assert (proc_at s p = x) as Hp by (unfold proc_at; by rewrite Hx).
  assert (proc_at (resized p z s) p = set_p_sz z x) as Hp' by (unfold proc_at; cbn; by rewrite list_lookup_alter_eq, Hx).
  rewrite Hp in *. split; rewrite ?Hp'; try done. cbn. by rewrite length_alter.
Qed.

Lemma running_frame s s' p pg sz : vmframe s s' -> running s p pg sz -> running s' p pg sz.
Proof. unfold vmframe. intros ->. by intros [? ? ? ? ?]. Qed.
Lemma running_rest s s' p pg sz : rest_same s s' -> running s p pg sz -> running s' p pg sz.
Proof. unfold rest_same. intros ->. by intros [? ? ? ? ?]. Qed.

(** The end of [growproc]. *)
Lemma finish_grow s p pg sz z : running s p pg sz -> pg <> 0 -> (upd_proc p (set_p_sz z) ;;; switchuvm p ;;; ret 0) s = Ret 0 (resized p z s).
Proof.
  intros Hr Hpg. pose proof (resized_running s p pg sz z Hr) as [_ _ H3 H4 _]. change ((switchuvm p ;;; ret 0) (resized p z s) = Ret 0 (resized p z s)).
  unfold switchuvm, bind, get. rewrite (proj2 (Z.eqb_neq _ _) H4), H3, (proj2 (Z.eqb_neq _ _)) by done. done.
Qed.

(** [deallocuvm] of a process. *)
Lemma deallocuvm_shrinks (L : linked) l s pg tab ent oldsz newsz : proc_mem l s pg tab ent oldsz -> 0 <= newsz < oldsz -> oldsz <= KERNBASE ->
  wp (deallocuvm pg oldsz newsz) (fun r s' => r = newsz /\ exists l' ent', proc_mem l' s' pg tab ent' newsz /\ vmframe s s' /\
    conserved pg l s tab ent l' s' tab ent' /\ forall x, 0 <= x < newsz -> ubyte s' ent' x = ubyte s ent x) s.
Proof.
  intros [Hvm Hin] Hn Ho. eapply wp_mono; [by apply deallocuvm_spec|]. intros r s' [-> Hd]. split; [done|]. change KERNBASE with 2147483648 in Ho.
  pose proof (Z.div_mod (newsz + 4095) 4096 ltac:(lia)). pose proof (Z.mod_pos_bound (newsz + 4095) 4096 ltac:(lia)).
  pose proof (Z.div_mod (oldsz + 4095) 4096 ltac:(lia)). pose proof (Z.mod_pos_bound (oldsz + 4095) 4096 ltac:(lia)).
  pose proof (clear_frames _ _ _ _ _ ((newsz + 4095) / 4096) ((oldsz + 4095) / 4096) _ Hvm ltac:(lia) ltac:(lia) Hd) as Hsf.
  destruct (deallocated_conserved _ _ _ _ _ ((newsz + 4095) / 4096) ((oldsz + 4095) / 4096) _ ltac:(lia) ltac:(lia) Hd) as (l' & Hvm' & Hf & Hc & _). eexists l', _. split; [split; [exact Hvm'|]|split; [done|split; [exact Hc|]]].
  - intros v Hv. unfold clear. destruct (decide ((newsz + 4095) / 4096 <= v < (oldsz + 4095) / 4096)).
    + rewrite bool_decide_true by done. split; [by intros [? ?]|lia].
    + rewrite bool_decide_false by done. rewrite Hin by done. lia.
  - intros x Hx. destruct (upage x ltac:(change KERNBASE with 2147483648; lia)) as (Hv & Hxe & Hxm).
    assert (clear ent ((newsz + 4095) / 4096) ((oldsz + 4095) / 4096) (x / 4096) = ent (x / 4096)) as Hce by (unfold clear; by rewrite bool_decide_false by lia).
    unfold ubyte. rewrite Hce. destruct (ent (x / 4096)) as [e|] eqn:E; [|done]. cbn [mbind option_bind]. by rewrite (Hsf (x / 4096) e Hv Hce).
Qed.
End grow.

(** C18: [growproc] resizes the running process.  For every [n] that leaves it some memory, [growproc n] returns 0 with the size
    changed by [n]: exactly the pages below the new size are mapped, each in a frame of its own, the bytes that both sizes have
    are unchanged, new pages are zero, and what was unmapped is free.  It returns -1, with the memory and the size as they were,
    only when the new size would reach KERNBASE or there are too few free pages. *)
Theorem growproc_resizes `{LK : Linker} (L : linked) (l : list Z) (s : kstate) (p : nat) (pg : Z) (tab ent : Z -> option Z) (sz n : Z) :
  running s p pg sz -> proc_mem l s pg tab ent sz -> printable s -> 0 <= sz < KERNBASE -> - sz < n < 2 ^ 31 ->
  wp (growproc n) (grow_outcome l s p pg tab ent sz n) s.
Proof.
  intros Hr Hpm Hpr Hsz Hn. pose proof Hr as [Hc _ Hpg _ Hz]. pose proof (sp_page _ _ _ _ (dr_space _ _ _ _ _ (vm_dir _ _ _ _ _ (proj1 Hpm)))) as (_ & _ & _ & Hp0).
  unfold growproc. eapply wp_step; [unfold curproc, myproc, bind, get; rewrite Hc; done|]. eapply wp_step; [done|]. rewrite Hz, Hpg. change KERNBASE with 2147483648 in Hsz.
  rewrite u32_small by lia. destruct (Z.ltb_spec 0 n) as [H0|H0]; [|destruct (Z.ltb_spec n 0) as [H1|H1]].
  - rewrite (proj2 (Z.eqb_neq n 0)) by lia. cbn [negb andb].
    eapply wp_chain; [apply (allocuvm_spec L _ _ _ _ _ sz (sz + n) Hpm); [change KERNBASE with 2147483648; lia|lia|done]|]. intros r s1 Ho.
    destruct Ho as [? ?|s1 l1 tab1 ent1 Hb Hpm1 Hc1 Hf1 Hold Hnew _|s1 l1 tab1 ent1 Hcond Hpm1 Hc1 Hr1 Hby]; [lia| |].
    + rewrite (proj2 (Z.eqb_neq _ _)) by lia. eapply wp_intro; [eapply finish_grow; [by eapply running_frame|lia]|].
      eapply grow_done; [lia|done|by eapply proc_mem_same|done|by eapply resized_running, running_frame| |done]. intros x Hx. apply Hold. lia.
    + cbn [Z.eqb]. apply wp_ret. eapply grow_failed; [done|done|done|done|by eapply running_rest|done].
  - rewrite (proj2 (Z.eqb_neq n 0)) by lia. cbn [negb andb].
    eapply wp_chain; [apply (deallocuvm_shrinks L _ _ _ _ _ sz (sz + n) Hpm); [lia|change KERNBASE with 2147483648; lia]|].
    intros r s1 (-> & l1 & ent1 & Hpm1 & Hf1 & Hc1 & Hby). rewrite (proj2 (Z.eqb_neq _ _)) by lia. eapply wp_intro; [eapply finish_grow; [by eapply running_frame|lia]|].
    eapply grow_done; [change KERNBASE with 2147483648; lia|done|by eapply proc_mem_same|done|by eapply resized_running, running_frame| |].
    + intros x Hx. apply Hby. lia.
    + intros x Hx. rewrite PGROUNDUP_div in Hx. pose proof (Z.div_mod (sz + 4095) 4096 ltac:(lia)). pose proof (Z.mod_pos_bound (sz + 4095) 4096 ltac:(lia)). lia.
  - assert (n = 0) as -> by lia. cbn [Z.eqb negb andb]. eapply wp_step; [done|]. eapply wp_intro; [eapply finish_grow; [exact Hr|lia]|].
    replace (resized p sz s) with (resized p (sz + 0) s) by (by rewrite Z.add_0_r). eapply (grow_done _ _ _ _ _ _ _ _ s l tab ent); rewrite ?Z.add_0_r; try done.
    + change KERNBASE with 2147483648. lia.
    + apply vmframe_refl.
    + by eapply proc_mem_same.
    + by eapply resized_running.
    + intros x Hx. rewrite PGROUNDUP_div in Hx. pose proof (Z.div_mod (sz + 4095) 4096 ltac:(lia)). pose proof (Z.mod_pos_bound (sz + 4095) 4096 ltac:(lia)). lia.
Qed.

Lemma demo_running : exists l s pg tab ent, running s 0 pg 8192 /\ proc_mem (LK := vm_linker) l s pg tab ent 8192 /\ printable s.
Proof.
  destruct demo_process as (l & s & pg & tab & ent & Hpm & Hpr & _).
  exists l, (set_cur (Some 0%nat) (set_procs [set_p_sz 8192 (set_p_pgdir pg (set_p_kstack 2149060608 null_proc))] s)), pg, tab, ent.
  split; [by split; [done|cbn; lia|..]|]. split; [|exact Hpr]. by eapply proc_mem_same.
Qed.

Lemma growproc_resizes_witness : exists l s pg tab ent r s', growproc (H1 := vm_linker) 5000 s = Ret r s' /\ grow_outcome (H := vm_linker) l s 0 pg tab ent 8192 5000 r s'.
Proof.
  destruct demo_running as (l & s & pg & tab & ent & Hr & Hpm & Hpr).
  destruct (wp_inv _ _ _ (growproc_resizes (LK := vm_linker) vm_linked l s 0 pg tab ent 8192 5000 Hr Hpm Hpr ltac:(by vm_compute) ltac:(lia))) as (r & s' & Hg & Ho).
  exists l, s, pg, tab, ent, r, s'. split; [exact Hg|exact Ho].
Defined.

(** ** Memory given back *)

(** [growproc] of minus the size: everything is unmapped, the new size 0 is taken for an error and the old one is kept.  The page table
    of the first page stays in the directory. *)
Lemma growproc_to_zero `{LK : Linker} (L : linked) (l : list Z) (s : kstate) (p : nat) (pg : Z) (tab ent : Z -> option Z) (sz : Z) :
  running s p pg sz -> proc_mem l s pg tab ent sz -> 0 < sz < KERNBASE ->
  wp (growproc (- sz)) (fun r s' => r = -1 /\ vmframe s s' /\ exists l' ent', proc_mem l' s' pg tab ent' 0 /\ conserved pg l s tab ent l' s' tab ent' /\ is_Some (tab 0)) s.
Proof.
  intros Hr Hpm Hsz. pose proof Hr as [Hc _ Hpg _ Hz]. unfold growproc. change KERNBASE with 2147483648 in Hsz.
  eapply wp_step; [unfold curproc, myproc, bind, get; rewrite Hc; done|]. eapply wp_step; [done|]. rewrite Hz, Hpg. rewrite Z.add_opp_diag_r. change (u32 0) with 0.
  rewrite (proj2 (Z.ltb_ge _ _)), (proj2 (Z.ltb_lt _ _)), (proj2 (Z.eqb_neq _ _)) by lia. cbn [negb andb].
  eapply wp_chain; [apply (deallocuvm_shrinks L _ _ _ _ _ sz 0 Hpm); [lia|change KERNBASE with 2147483648; lia]|].
  intros r s1 (-> & l1 & ent1 & Hpm1 & Hf1 & Hcs & _). cbn [Z.eqb]. apply wp_ret. split; [done|]. split; [done|]. exists l1, ent1. split; [done|]. split; [done|].
  destruct Hpm as [Hvm Hin]. destruct (proj2 (Hin 0 ltac:(lia)) ltac:(lia)) as [e He].
  by destruct (sp_ent _ _ _ _ (dr_space _ _ _ _ _ (vm_dir _ _ _ _ _ Hvm)) 0 e He) as (_ & Ht & _).
Qed.

(** A page below the size that is not mapped. *)
Lemma copyuvm_page_absent `{LK : Linker} l s pg tab ent d : proc_mem l s pg tab ent 0 -> is_Some (tab 0) -> copyuvm_page pg d 0 s = Panic "copyuvm: page not present".
Proof.
  intros [Hvm Hin] [t Ht]. assert (ent 0 = None) as Hno by (destruct (ent 0) eqn:E; [assert (4096 * 0 < 0) by (apply Hin; [lia|by rewrite E]); lia|done]).
  pose proof (dr_space _ _ _ _ _ (vm_dir _ _ _ _ _ Hvm)) as Hs. destruct (sp_tab _ _ _ _ Hs _ _ Ht) as (_ & (_ & _ & _ & ?) & _).
  destruct (set_entry l s pg tab ent 0 t None (vm_dir _ _ _ _ _ Hvm) ltac:(lia) Ht ltac:(done)) as (_ & Hrd & _).
  unfold copyuvm_page, bind. rewrite (walk_dir s pg tab ent 0 false t Hs ltac:(lia) Ht). change (PTX 0) with (0 mod 1024). change (0 mod 1024) with 0 in *.
  rewrite (proj2 (Z.eqb_neq _ _)) by lia. rewrite Hrd, Hno. done.
Qed.

(** [copyuvm] then panics, unless there are too few pages even for the kernel's part of a directory. *)
Lemma copyuvm_unmapped `{LK : Linker} (L : linked) l s pg tab ent sz : proc_mem l s pg tab ent 0 -> is_Some (tab 0) -> 0 < sz ->
  copyuvm pg sz s = Panic "copyuvm: page not present" \/ (length l <= 1025)%nat /\ wp (copyuvm pg sz) (fun r s' => r = 0 /\ exists l', kept l s l' s') s.
Proof.
  intros [Hvm Hin] Ht Hsz. pose proof (dr_free _ _ _ _ _ (vm_dir _ _ _ _ _ Hvm)) as Hk. unfold copyuvm.
  destruct (wp_inv _ _ _ (setupkvm_spec L l s Hk)) as (d & s1 & Hst & [(-> & Hlen & Hkept)|(l1 & tab1 & Hb)]); [right|left].
  - split; [done|]. eapply wp_step; [exact Hst|]. by apply wp_ret.
  - pose proof (sp_page _ _ _ _ (dr_space _ _ _ _ _ (vm_dir _ _ _ _ _ (proj1 Hb)))) as (_ & _ & _ & Hd).
    etrans; [eapply bind_eq; exact Hst|]. cbv beta. rewrite (proj2 (Z.eqb_neq _ _)) by lia. change PGSIZE with 4096.
    pose proof (Z.div_le_lower_bound (sz + 4096 - 1) 4096 1 ltac:(lia) ltac:(lia)). destruct (Z.to_nat ((sz + 4096 - 1) / 4096)) as [|n] eqn:E; [lia|].
    destruct Hb as (Hvm1 & _ & Hp & Hm). destruct (same_parent l s pg tab ent l1 s1 Hvm (dr_free _ _ _ _ _ (vm_dir _ _ _ _ _ Hvm1))
      ltac:(intros w Hw; apply Hp; by left) Hm) as [Hpar _].
    cbn [seq loop_until]. change (4096 * Z.of_nat 0) with 0. unfold bind. by rewrite (copyuvm_page_absent l1 s1 pg tab ent d (conj Hpar Hin) Ht).
Qed.
