(* ===== verification/ForkSpec.v ===== *)
(** * ForkSpec: fork, from the process table down to the page tables and the registers

    [allocproc] prepares a slot and a kernel stack; [fork] makes a child with the parent's
    memory, files, directory and trap frame, or leaves everything as it was.  The kernel stack
    that it leaves for the child is what [swtch] and [trapret] read: the first switch to the
    child goes to [forkret], and its return to [trapret], which enters user mode with the
    parent's registers and 0 in [eax]. *)

From stdpp Require Import functions base gmap list strings.
From Stdlib Require Import ZArith Lia.
From S2P Require Import Prelude State Core Sem Kalloc Bio Log Fs Pipe Console Vm File Proc.
From S2P Require Import VmSpec VmUser VmProc VmTheorem ProcMem.

Local Open Scope Z_scope.
Local Open Scope kernel_scope.

Section fork.
Context `{DiskDriver} `{Devices} `{Linker} `{Symbols}.
Implicit Types (tab ent : Z -> option Z) (l : list Z) (s : kstate).

(** The kernel stack of a new process: the context and the return address above it. *)
Definition new_stack (P : list Z) : list Z :=
  splice 4012 (le_bytes 4 forkret_addr) (splice 3996 (replicate 20 0) (splice 4016 (le_bytes 4 trapret) P)).
Definition new_proc (k pid : Z) (x : proc) : proc :=
  set_p_context (k + 3996) (set_p_tf (k + 4020) (set_p_kstack k (set_p_pid pid (set_p_state EMBRYO x)))).

(** Only processes and memory change. *)
Definition procframe s s' : Prop := exists pr np m f, s' = set_procs pr (set_nextpid np (set_mem m (set_freelist f s))).

Lemma procframe_trans s1 s2 s3 : procframe s1 s2 -> procframe s2 s3 -> procframe s1 s3.
Proof. intros (pr & np & m & f & ->) (pr' & np' & m' & f' & ->). by exists pr', np', m', f'. Qed.
Lemma procframe_procs s pr : procframe s (set_procs pr s).
Proof. exists pr, (nextpid s), (mem s), (freelist s). by destruct s. Qed.
Lemma procframe_vm s s' : vmframe s s' -> procframe s s'.
Proof. intros ->. exists (procs s), (nextpid s), (mem s'), (freelist s'). by destruct s. Qed.
Lemma procframe_mem s m : procframe s (set_mem m s).
Proof. exists (procs s), (nextpid s), m, (freelist s). by destruct s. Qed.

Definition unused (s : kstate) (i : nat) (x : proc) : Prop := list_find (fun p => p_state p = UNUSED) (take NPROC (procs s)) = Some (i, x).

Lemma in_page k P o v (xs : list Z) s : mem s !! k = Some P -> k mod 4096 = 0 -> 0 <= o < 4096 -> o + Z.of_nat (length xs) <= 4096 -> v = k + o ->
  mem_store v xs s = Ret tt (set_mem (<[k := splice (Z.to_nat o) xs P]> (mem s)) s).
Proof.
  intros HP Hk Ho Hl ->. assert ((k + o) mod PGSIZE = o) as Hm by (change PGSIZE with 4096; rewrite Z.add_mod, Hk, Z.add_0_l, Z.mod_mod, Z.mod_small; lia).
  rewrite (mem_store_page s (k + o) k P) by (rewrite ?Hm; done || lia). by rewrite Hm.
Qed.

Lemma allocproc_takes s l k i x :
  kmem_ok (k :: l) s -> L_ptable ∉ held s -> unused s i x ->
  exists s' P, allocproc s = Ret (Some i) s' /\ procframe s s' /\ kmem_ok l s' /\ procs s' = alter (new_proc k (nextpid s)) i (procs s) /\ nextpid s' = i32 (nextpid s + 1) /\
    mem s !! k = Some P /\ length P = 4096%nat /\ mem s' = <[k := new_stack P]> (mem s).
Proof using Type.
  intros Hk Hh Hu. set (s1 := set_procs (alter (fun p => set_p_pid (nextpid s) (set_p_state EMBRYO p)) i (procs s)) (set_nextpid (i32 (nextpid s + 1)) s)).
  assert (kmem_ok (k :: l) s1) as Hk1 by (by destruct Hk; constructor).
  destruct (kalloc_takes _ _ Hk1) as (s2 & F2 & M2 & Ka & Hk2 & (Hal & _ & _ & Hpos) & Hn & P & HP & HL). change (mem s1) with (mem s) in *. change (k mod 4096 = 0) in Hal.
  assert (Hp2 : procs s2 = procs s1) by (rewrite F2; done).
  set (s3 := set_procs (alter (set_p_tf (k + 4020)) i (alter (set_p_kstack k) i (procs s2))) s2).
  set (s4 := set_mem (<[k := splice 4016 (le_bytes 4 trapret) P]> (mem s)) s3).
  set (s5 := set_procs (alter (set_p_context (k + 3996)) i (procs s4)) s4).
  exists (set_mem (<[k := new_stack P]> (mem s)) s5), P.
  split; [|split; [|split; [|split; [|split; [|done]]]]].
  - unfold allocproc. etrans; [eapply bind_eq; by apply acquire_eq|]. cbv beta. etrans; [eapply bind_eq; reflexivity|]. cbv beta.
    change (procs (set_held _ s)) with (procs s). unfold unused in Hu. rewrite Hu. do 3 (etrans; [eapply bind_eq; reflexivity|]; cbv beta).
    etrans; [eapply bind_eq; by apply (release_top _ (held s))|]. cbv beta.
    etrans; [eapply bind_eq; etrans; [|exact Ka]; f_equal; by destruct s|]. cbv beta. etrans; [eapply bind_eq; reflexivity|]. cbv beta.
    rewrite (proj2 (Z.eqb_neq k 0)) by lia. cbv zeta. unfold KSTACKSIZE, TF_SIZE, CONTEXT_SIZE, CONTEXT_EIP.
    replace (k + 4096 - 76) with (k + 4020) by lia. replace (k + 4020 - 4) with (k + 4016) by lia. replace (k + 4016 - 20) with (k + 3996) by lia.
    etrans; [eapply bind_eq; reflexivity|]. cbv beta. change (set_procs _ (set_procs _ s2)) with s3.
    etrans; [eapply bind_eq; apply (in_page k P 4016 _ _ s3); [by rewrite <- HP, <- M2|done|lia|rewrite length_le_bytes; lia|done]|].
    change (mem s3) with (mem s2). rewrite M2. cbv beta. etrans; [eapply bind_eq; reflexivity|]. cbv beta. change (set_procs _ (set_mem _ s3)) with s5.
    etrans; [eapply bind_eq; apply (in_page k (splice 4016 (le_bytes 4 trapret) P) 3996); [apply lookup_insert_eq|done|lia|rewrite length_replicate; lia|done]|].
    cbv beta. etrans; [eapply bind_eq; apply (in_page k (splice 3996 (replicate 20 0) (splice 4016 (le_bytes 4 trapret) P)) 4012); 
      [apply lookup_insert_eq|done|lia|rewrite length_le_bytes; lia|lia]|].
    unfold ret. f_equal. unfold new_stack. cbn [mem set_mem]. change (mem s5) with (<[k := splice 4016 (le_bytes 4 trapret) P]> (mem s)). rewrite !insert_insert_eq. reflexivity.
  - apply (procframe_trans s s1); [exists (procs s1), (nextpid s1), (mem s), (freelist s); by destruct s|].
    apply (procframe_trans s1 s2); [by apply procframe_vm|]. apply (procframe_trans s2 s3); [apply procframe_procs|].
    apply (procframe_trans s3 s4); [apply procframe_mem|]. apply (procframe_trans s4 s5); [apply procframe_procs|apply procframe_mem].
  - destruct (kmem_write l s2 k (new_stack P) Hk2 Hn) as [H1' H2' H3']. cbn [mem set_mem] in H2'. rewrite M2 in H2'. by constructor.
  - cbn. rewrite Hp2. cbn. rewrite !list_alter_alter_eq. done.
  - cbn. rewrite F2. done.
Qed.

Lemma allocproc_no_slot s : L_ptable ∉ held s -> list_find (fun p => p_state p = UNUSED) (take NPROC (procs s)) = None -> allocproc s = Ret None s.
Proof using Type.
  intros Hh Hu. unfold allocproc. etrans; [eapply bind_eq; by apply acquire_eq|]. cbv beta. etrans; [eapply bind_eq; reflexivity|]. cbv beta.
  change (procs (set_held _ s)) with (procs s). rewrite Hu. etrans; [eapply bind_eq; by apply (release_top _ (held s))|]. unfold ret. f_equal. by destruct s.
Qed.

Lemma allocproc_no_page s i x : kmem_ok [] s -> L_ptable ∉ held s -> unused s i x ->
  exists s', allocproc s = Ret None s' /\ procframe s s' /\ kmem_ok [] s' /\ mem s' = mem s /\
    procs s' = alter (fun p => set_p_state UNUSED (set_p_kstack 0 (set_p_pid (nextpid s) (set_p_state EMBRYO p)))) i (procs s).
Proof using Type.
  intros Hk Hh Hu. set (s1 := set_procs (alter (fun p => set_p_pid (nextpid s) (set_p_state EMBRYO p)) i (procs s)) (set_nextpid (i32 (nextpid s + 1)) s)).
  assert (kmem_ok [] s1) as Hk1 by (by destruct Hk; constructor).
  exists (set_procs (alter (set_p_state UNUSED) i (alter (set_p_kstack 0) i (procs s1))) s1). split; [|split; [|split; [|split]]].
  - unfold allocproc. etrans; [eapply bind_eq; by apply acquire_eq|]. cbv beta. etrans; [eapply bind_eq; reflexivity|]. cbv beta.
    change (procs (set_held _ s)) with (procs s). unfold unused in Hu. rewrite Hu. do 3 (etrans; [eapply bind_eq; reflexivity|]; cbv beta).
    etrans; [eapply bind_eq; by apply (release_top _ (held s))|]. cbv beta.
    etrans; [eapply bind_eq; etrans; [|exact (kalloc_eq [] s1 Hk1)]; f_equal; by destruct s|]. cbv beta. do 2 (etrans; [eapply bind_eq; reflexivity|]; cbv beta). reflexivity.
  - apply (procframe_trans s s1); [exists (procs s1), (nextpid s1), (mem s), (freelist s); by destruct s|apply procframe_procs].
  - by destruct Hk1; constructor.
  - done.
  - cbn. rewrite !list_alter_alter_eq. done.
Qed.

(** ** Open files *)

(** How many of the first [n] descriptors are the file [f]. *)
Definition fcount (ofl : list (option nat)) (n f : nat) : Z := Z.of_nat (length (filter (fun o => o = Some f) (take n ofl))).

Record dupped (i : nat) (ofl : list (option nat)) (n : nat) s s' : Prop := {
  dp_frame : exists pr ft, s' = set_procs pr (set_ftable ft s);
  dp_child c : procs s !! i = Some c -> procs s' !! i = Some (set_p_ofile (take n ofl ++ drop n (p_ofile c)) c);
  dp_other j : j <> i -> procs s' !! j = procs s !! j;
  dp_ref f x : ftable s !! f = Some x -> ftable s' !! f = Some (set_f_ref (f_ref x + fcount ofl n f) x)
}.

Lemma fcount_S ofl n o f : ofl !! n = Some o -> fcount ofl (S n) f = fcount ofl n f + (if decide (o = Some f) then 1 else 0).
Proof. intros Ho. unfold fcount. rewrite (take_S_r _ _ _ Ho), filter_app, length_app, filter_cons, filter_nil. case_decide; cbn [length]; lia. Qed.

Lemma filedup_eq f x s : L_ftable ∉ held s -> ftable s !! f = Some x -> 1 <= f_ref x ->
  filedup f s = Ret f (set_ftable (alter (set_f_ref (f_ref x + 1)) f (ftable s)) s).
Proof.
  intros Hh Hf Hr. unfold filedup. etrans; [eapply bind_eq; by apply acquire_eq|]. cbv beta. etrans; [eapply bind_eq; reflexivity|]. cbv beta.
  unfold file_at. change (ftable (set_held _ s)) with (ftable s). rewrite Hf. cbn [default from_option id]. rewrite (proj2 (Z.ltb_ge _ _)) by lia.
  etrans; [eapply bind_eq; reflexivity|]. cbv beta. etrans; [eapply bind_eq; by apply (release_top _ (held s))|]. reflexivity.
Qed.

Definition dup_file (i : nat) (ofl : list (option nat)) (j : nat) : KM unit :=
  match ofl !! j with
  | Some (Some f) => _ <- filedup f ;; upd_proc i (fun y => set_p_ofile (<[j := Some f]> (p_ofile y)) y)
  | _ => ret tt
  end.

Lemma dup_file_step i ofl n c s s' : length ofl = NOFILE -> (n < NOFILE)%nat -> L_ftable ∉ held s -> procs s !! i = Some c -> p_ofile c = replicate NOFILE None ->
  (forall f, Some f ∈ ofl -> exists x, ftable s !! f = Some x /\ 1 <= f_ref x) -> dupped i ofl n s s' ->
  wp (dup_file i ofl n) (fun _ s'' => dupped i ofl (S n) s s'') s'.
Proof using Type.
  intros Hl Hn Hh Hc Hof Hf [(pr & ft & Efr) Dc Do Dr]. destruct (lookup_lt_is_Some_2 ofl n ltac:(lia)) as [o Ho]. unfold dup_file. rewrite Ho.
  assert (Hdrop : drop n (p_ofile c) = None :: drop (S n) (p_ofile c)).
  { rewrite Hof. unfold NOFILE. rewrite !drop_replicate. replace (16 - n)%nat with (S (16 - S n)) by (unfold NOFILE in Hn; lia). done. }
  pose proof (take_S_r _ _ _ Ho) as Htk. destruct o as [f|].
  - destruct (Hf f) as (x & Hx & Hr); [by eapply list_elem_of_lookup_2|]. pose proof (Dr f x Hx) as Hx'.
    assert (L_ftable ∉ held s') as Hh' by (by rewrite Efr).
    eapply wp_step; [apply (filedup_eq _ _ _ Hh' Hx'); cbn; unfold fcount; lia|]. eapply wp_intro; [reflexivity|]. split.
    + rewrite Efr. by eexists _, _.
    + intros c' Hc'. assert (c' = c) as -> by congruence. assert (<[n := Some f]> (take n ofl ++ drop n (p_ofile c)) = take (S n) ofl ++ drop (S n) (p_ofile c)) as Hins.
      { rewrite Htk, Hdrop. rewrite insert_app_r_alt by (rewrite length_take; lia). rewrite length_take, Nat.min_l, Nat.sub_diag, <- app_assoc by lia. done. }
      cbn. rewrite list_lookup_alter_eq, (Dc c Hc). cbn [fmap option_fmap option_map]. f_equal. unfold set_p_ofile at 1. cbn [p_ofile set_p_ofile]. by rewrite Hins.
    + intros j Hj. cbn. rewrite list_lookup_alter_ne by done. by apply Do.
    + intros g y Hy. cbn. rewrite (fcount_S _ _ _ g Ho). destruct (decide (g = f)) as [->|Hne].
      * rewrite list_lookup_alter_eq, (Dr f y Hy). rewrite decide_True by done. assert (x = y) as -> by congruence. cbn [fmap option_fmap option_map f_ref set_f_ref]. by rewrite Z.add_assoc.
      * rewrite list_lookup_alter_ne, (Dr g y Hy), decide_False, Z.add_0_r by congruence. done.
  - eapply wp_intro; [reflexivity|]. split; [by eexists _, _| |done|].
    + intros c' Hc'. assert (c' = c) as -> by congruence. rewrite (Dc c Hc), Htk, Hdrop, <- app_assoc. done.
    + intros g y Hy. rewrite (Dr g y Hy), (fcount_S _ _ _ g Ho), decide_False, Z.add_0_r by done. done.
Qed.

Lemma dup_files_spec i ofl c s : length ofl = NOFILE -> L_ftable ∉ held s -> procs s !! i = Some c -> p_ofile c = replicate NOFILE None ->
  (forall f, Some f ∈ ofl -> exists x, ftable s !! f = Some x /\ 1 <= f_ref x) ->
  wp (for_each (seq 0 NOFILE) (dup_file i ofl)) (fun _ s' => dupped i ofl NOFILE s s') s.
Proof using Type.
  intros Hl Hh Hc Hof Hf. apply (wp_for_seq (fun n s' => dupped i ofl n s s')); [| |done].
  - split; [exists (procs s), (ftable s); by destruct s|by intros c' ->; rewrite take_0; destruct c'|done|].
    intros f y Hy. unfold fcount. rewrite take_0, filter_nil, Z.add_0_r, Hy. by destruct y.
  - intros n s' Hn Hs'. by eapply dup_file_step.
Qed.

(** ** The end of [fork], once the memory is copied *)

Definition fork_tail (p : nat) (x : proc) (np : nat) : KM Z :=
  upd_proc np (fun y => set_p_parent (Some p) (set_p_sz (p_sz x) y)) ;;;
  regs <- mem_bytes (p_tf x) (Z.to_nat TF_SIZE) ;;
  tf <- get (fun s => p_tf (proc_at s np)) ;;
  mem_store tf regs ;;;
  tf_wr np TF_EAX 0 ;;;
  for_each (seq 0 NOFILE) (dup_file np (p_ofile x)) ;;;
  cwd <- in_bounds (p_cwd x) ;;
  _ <- idup cwd ;;
  upd_proc np (set_p_cwd (Some cwd)) ;;;
  name <- in_bounds (cstr_in (p_name x)) ;;
  upd_proc np (fun y => set_p_name (safestrcpy 16 name (p_name y)) y) ;;;
  pid <- get (fun s => p_pid (proc_at s np)) ;;
  acquire L_ptable ;;;
  upd_proc np (set_p_state RUNNABLE) ;;;
  release L_ptable ;;;
  ret pid.

Lemma fork_eq : fork =
  (p <- curproc ;;
   np <- allocproc ;;
   match np with
   | None => ret (-1)
   | Some np =>
       x <- get (fun s => proc_at s p) ;;
       pgdir <- copyuvm (p_pgdir x) (p_sz x) ;;
       upd_proc np (set_p_pgdir pgdir) ;;;
       if pgdir =? 0 then
         k <- get (fun s => p_kstack (proc_at s np)) ;;
         kfree k ;;;
         upd_proc np (fun x => set_p_state UNUSED (set_p_kstack 0 x)) ;;;
         ret (-1)
       else fork_tail p x np
   end).
Proof using Type. reflexivity. Qed.

(** The kernel stack of the child: the parent's trap frame with 0 in [eax]. *)
Definition child_stack (K P : list Z) : list Z := splice 4048 (le_bytes 4 0) (splice 4020 (sub 4020 76 K) P).

(** The process [fork] makes of the slot [c] for the parent [x]. *)
Definition child_of (p : nat) (x : proc) (name : list Z) (c : proc) : proc :=
  set_p_state RUNNABLE (set_p_name (safestrcpy 16 name (p_name c)) (set_p_cwd (p_cwd x) (set_p_ofile (p_ofile x)
    (set_p_parent (Some p) (set_p_sz (p_sz x) c))))).

Lemma proc_at_eq s i c : procs s !! i = Some c -> proc_at s i = c.
Proof. unfold proc_at. by intros ->. Qed.

Lemma sub_length {A} o n (xs : list A) : (o + n <= length xs)%nat -> length (sub o n xs) = n.
Proof. intros. unfold sub. rewrite length_take, length_drop. lia. Qed.

Lemma page_offset k o : k mod 4096 = 0 -> 0 <= o < 4096 -> (k + o) mod PGSIZE = o /\ k + o - (k + o) mod PGSIZE = k.
Proof. intros Hk Ho. change PGSIZE with 4096. rewrite Z.add_mod, Hk, Z.add_0_l, Z.mod_mod, Z.mod_small by lia. lia. Qed.

Lemma mem_bytes_page kp K o n s : mem s !! kp = Some K -> kp mod 4096 = 0 -> 0 <= o < 4096 -> mem_bytes (kp + o) n s = Ret (sub (Z.to_nat o) n K) s.
Proof. intros HK Hkp Ho. destruct (page_offset kp o Hkp Ho) as [H1' H2']. unfold mem_bytes, mem_page, bind, get. rewrite H2', H1', HK. done. Qed.

Lemma idup_eq i s : L_icache ∉ held s -> idup i s = Ret i (set_icache (alter (fun ip => set_i_ref (i_ref ip + 1) ip) i (icache s)) s).
Proof.
  intros Hh. unfold idup. etrans; [eapply bind_eq; by apply acquire_eq|]. cbv beta. etrans; [eapply bind_eq; reflexivity|]. cbv beta.
  etrans; [eapply bind_eq; by apply (release_top _ (held s))|]. reflexivity.
Qed.

Lemma fork_tail_spec p x np c k P kp K cwd name s :
  procs s !! np = Some c -> p_ofile c = replicate NOFILE None -> p_tf c = k + 4020 -> k mod 4096 = 0 -> mem s !! k = Some P -> length P = 4096%nat ->
  p_tf x = kp + 4020 -> kp mod 4096 = 0 -> mem s !! kp = Some K -> length K = 4096%nat -> k <> kp ->
  L_ptable ∉ held s -> L_ftable ∉ held s -> L_icache ∉ held s ->
  length (p_ofile x) = NOFILE -> (forall f, Some f ∈ p_ofile x -> exists y, ftable s !! f = Some y /\ 1 <= f_ref y) ->
  p_cwd x = Some cwd -> cstr_in (p_name x) = Some name ->
  wp (fork_tail p x np) (fun r s' => r = p_pid c /\ procs s' !! np = Some (child_of p x name c) /\ (forall j, j <> np -> procs s' !! j = procs s !! j) /\
    (forall f y, ftable s !! f = Some y -> ftable s' !! f = Some (set_f_ref (f_ref y + fcount (p_ofile x) NOFILE f) y)) /\
    exists pr ft, s' = set_procs pr (set_ftable ft (set_icache (alter (fun ip => set_i_ref (i_ref ip + 1) ip) cwd (icache s)) (set_mem (<[k := child_stack K P]> (mem s)) s)))) s.
Proof using Type.
  intros Hc Hof Htf Hk HP HlP Hxtf Hkp HK HlK Hne Hpt Hft Hic Hol Hfi Hcwd Hname.
  unfold fork_tail. eapply wp_step; [reflexivity|]. set (s1 := set_procs _ s).
  assert (Hc1 : procs s1 !! np = Some (set_p_parent (Some p) (set_p_sz (p_sz x) c))) by (cbn; by rewrite list_lookup_alter_eq, Hc).
  eapply wp_step; [rewrite Hxtf; by apply (mem_bytes_page kp K)|]. eapply wp_step; [reflexivity|]. cbv beta. rewrite (proc_at_eq s1 np _ Hc1). cbn [p_tf set_p_parent set_p_sz]. rewrite Htf.
  assert (length (sub 4020 76 K) = 76%nat) as Hls by (apply sub_length; rewrite HlK; lia).
  eapply wp_step; [apply (in_page k P 4020); [done|done|lia|change (4020 + Z.of_nat (length (sub 4020 76 K)) <= 4096); rewrite Hls; lia|done]|]. set (s2 := set_mem _ s1).
  eapply wp_step.
  { unfold tf_wr. etrans; [eapply bind_eq; reflexivity|]. cbv beta. rewrite (proc_at_eq s2 np _ Hc1). cbn [p_tf set_p_parent set_p_sz]. rewrite Htf.
    apply (in_page k (splice 4020 (sub 4020 76 K) P) 4048); [cbn; by rewrite lookup_insert_eq|done|lia|rewrite length_le_bytes; lia|unfold TF_EAX; lia]. }
  set (s3 := set_mem _ s2).
  assert (s3 = set_procs (procs s1) (set_mem (<[k := child_stack K P]> (mem s)) s)) as E3.
  { unfold s3, s2. cbn [mem set_mem]. rewrite insert_insert_eq. change (Z.to_nat 4048) with 4048%nat. reflexivity. }
  eapply wp_chain; [by eapply (dup_files_spec np _ _ s3)|].
  intros _ s4 [(pr & ft & Efr) Dc Do Dr]. eapply wp_step; [by rewrite Hcwd|]. eapply wp_step; [apply idup_eq; by rewrite Efr|].
  eapply wp_step; [reflexivity|]. eapply wp_step; [by rewrite Hname|]. eapply wp_step; [reflexivity|]. eapply wp_step; [reflexivity|]. cbv beta.
  set (s5 := set_procs _ (set_procs _ _)). assert (held s5 = held s) as Hh5 by (unfold s5; by rewrite Efr).
  pose proof (Dc _ Hc1) as Hc4.
  eapply wp_step; [apply acquire_eq; by rewrite Hh5|]. eapply wp_step; [reflexivity|]. eapply wp_step; [apply (release_top _ (held s)); [change (L_ptable :: held s5 = L_ptable :: held s); by rewrite Hh5|done]|].
  eapply wp_intro; [reflexivity|]. cbn [procs set_procs set_held set_icache ftable set_ftable]. 
  assert (procs s5 !! np = Some (set_p_name (safestrcpy 16 name (p_name c)) (set_p_cwd (p_cwd x) (set_p_ofile (p_ofile x) (set_p_parent (Some p) (set_p_sz (p_sz x) c)))))) as Hc5.
  { unfold s5. cbn [procs set_procs set_icache]. rewrite !list_lookup_alter_eq, Hc4. cbn [fmap option_fmap option_map]. f_equal.
    rewrite take_ge, drop_ge, app_nil_r, Hcwd by (cbn; rewrite ?Hof, ?length_replicate; lia). done. }
  rewrite (proc_at_eq _ _ _ Hc5). split; [done|]. split; [by rewrite list_lookup_alter_eq, Hc5|]. split; [|split].
  - intros j Hj. unfold s5. cbn [procs set_procs set_icache]. rewrite !list_lookup_alter_ne, Do by done. cbn. by rewrite list_lookup_alter_ne by done.
  - intros f y Hy. unfold s5. cbn. by apply Dr.
  - unfold s5. rewrite Efr, E3. eexists _, _. reflexivity.
Qed.

(** ** fork *)

(** The running process [p] with [sz] bytes of memory, a trap frame at the top of its kernel
    stack, and its files, directory and name in order. *)
Record forkable l s (p : nat) (pg : Z) tab ent (sz kp : Z) (K name : list Z) (cwd : nat) : Prop := {
  fk_run : running s p pg sz;
  fk_state : p_state (proc_at s p) <> UNUSED;
  fk_mem : proc_mem l s pg tab ent sz;
  fk_sz : 0 <= sz <= KERNBASE;
  fk_locks : L_ptable ∉ held s /\ L_ftable ∉ held s /\ L_icache ∉ held s;
  fk_tf : p_tf (proc_at s p) = kp + 4020 /\ kp mod 4096 = 0 /\ kp ∉ l /\ mem s !! kp = Some K /\ length K = 4096%nat;
  fk_files : length (p_ofile (proc_at s p)) = NOFILE /\ forall f, Some f ∈ p_ofile (proc_at s p) -> exists y, ftable s !! f = Some y /\ 1 <= f_ref y;
  fk_cwd : p_cwd (proc_at s p) = Some cwd;
  fk_name : cstr_in (p_name (proc_at s p)) = Some name;
  fk_unused i x : procs s !! i = Some x -> p_state x = UNUSED -> p_ofile x = replicate NOFILE None
}.

(** How [fork] answers, and the two processes afterwards. *)
Inductive fork_outcome l s (p : nat) (pg : Z) tab ent (sz : Z) (K name : list Z) (cwd : nat) : Z -> kstate -> Prop :=
| fork_child i c k P d l' tab' ent' s' :
    procs s !! i = Some c -> p_state c = UNUSED -> i <> p ->
    procs s' !! i = Some (child_of p (proc_at s p) name (set_p_pgdir d (new_proc k (nextpid s) c))) ->
    (forall j, j <> i -> procs s' !! j = procs s !! j) ->
    proc_mem l' s' d tab' ent' sz -> proc_mem l' s' pg tab ent sz ->
    (forall x, 0 <= x < KERNBASE -> ubyte s' ent' x = ubyte s ent x /\ ubyte s' ent x = ubyte s ent x) ->
    (forall v e, 0 <= v < NUSER -> ent v = Some e -> exists e', ent' v = Some e' /\ PTE_FLAGS e' = PTE_FLAGS e) ->
    (forall w, uses d tab' ent' w -> ~ uses pg tab ent w /\ w <> k) ->
    (forall w, w ∈ l <-> w = k \/ w ∈ l' \/ uses d tab' ent' w) ->
    length P = 4096%nat -> mem s' !! k = Some (child_stack K (new_stack P)) ->
    (forall w, w ∉ l -> mem s' !! w = mem s !! w) ->
    (forall f y, ftable s !! f = Some y -> ftable s' !! f = Some (set_f_ref (f_ref y + fcount (p_ofile (proc_at s p)) NOFILE f) y)) ->
    icache s' = alter (fun ip => set_i_ref (i_ref ip + 1) ip) cwd (icache s) ->
    nextpid s' = i32 (nextpid s + 1) ->
    fork_outcome l s p pg tab ent sz K name cwd (nextpid s) s'
| fork_no_slot : Forall (fun x => p_state x <> UNUSED) (take NPROC (procs s)) -> fork_outcome l s p pg tab ent sz K name cwd (-1) s
| fork_no_memory i c c' l' s' :
    Z.of_nat (length l) <= 1027 + 2 * ((sz + 4095) / 4096) ->
    procs s !! i = Some c -> p_state c = UNUSED -> i <> p ->
    procs s' !! i = Some c' -> p_state c' = UNUSED -> p_ofile c' = p_ofile c -> (forall j, j <> i -> procs s' !! j = procs s !! j) ->
    kmem_ok l' s' -> (forall w, w ∈ l' <-> w ∈ l) -> (forall w, w ∉ l -> mem s' !! w = mem s !! w) -> procframe s s' ->
    fork_outcome l s p pg tab ent sz K name cwd (-1) s'.

Lemma unused_slot s i x p : unused s i x -> p_state (proc_at s p) <> UNUSED -> procs s !! i = Some x /\ p_state x = UNUSED /\ i <> p.
Proof.
  intros Hu Hp. apply list_find_Some in Hu as (Hl & Hx & _). apply lookup_take_Some in Hl as [Hl _]. split; [done|]. split; [done|].
  intros ->. by rewrite (proc_at_eq _ _ _ Hl) in Hp.
Qed.

Lemma page_ok_mod k : page_ok k -> k mod 4096 = 0 /\ k <> 0.
Proof. intros (Hk & _ & _ & ?). change PGSIZE with 4096 in Hk. lia. Qed.

Lemma length_new_stack P : length P = 4096%nat -> length (new_stack P) = 4096%nat.
Proof.
  intros HP. assert (length (splice 4016 (le_bytes 4 trapret) P) = 4096%nat) as H1' by (rewrite length_splice; [done|rewrite length_le_bytes; lia]).
  assert (length (splice 3996 (replicate 20 0) (splice 4016 (le_bytes 4 trapret) P)) = 4096%nat) as H2' by (rewrite length_splice; [done|rewrite length_replicate; lia]).
  unfold new_stack. rewrite length_splice; [done|rewrite length_le_bytes; lia].
Qed.

(** Writing a page that is not of an address space. *)
Lemma vm_off_page l s pg tab ent k Q s' : vm l s pg tab ent -> k ∉ l -> ~ uses pg tab ent k -> mem s' = <[k := Q]> (mem s) -> freelist s' = freelist s -> held s' = held s ->
  vm l s' pg tab ent /\ same_frames ent s s' /\ kmem_ok l s'.
Proof using Type.
  intros Hvm Hk Hu Hm Hf Hh. assert (kmem_ok l s') as Hk'.
  { destruct (kmem_write l s k Q (dr_free _ _ _ _ _ (vm_dir _ _ _ _ _ Hvm)) Hk) as [K1 K2 K3]. constructor; [by rewrite Hh|by rewrite Hm, Hf|done]. }
  split; [|split; [|done]].
  - eapply vm_frame_mem; [exact Hvm|done|intros w Hw; by apply (vm_uses _ _ _ _ _ _ Hvm)|]. intros w Hw. rewrite Hm, lookup_insert_ne; [done|]. by intros ->.
  - intros v e Hv He. rewrite Hm, lookup_insert_ne; [done|]. intros ->. apply Hu. right; right. by exists v, e.
Qed.

(** [fork] when there are a slot and a page for the kernel stack. *)
Lemma fork_with_stack (L : linked) k l s p pg tab ent sz kp K name cwd i c :
  forkable (k :: l) s p pg tab ent sz kp K name cwd -> unused s i c -> wp fork (fork_outcome (k :: l) s p pg tab ent sz K name cwd) s.
Proof using Type.
  intros [Hrun Hst Hpm Hsz (Hpt & Hft & Hic) (Htf & Hkp & Hkpl & HK & HlK) [Hol Hfi] Hcwd Hname Hun] Hu. pose proof Hpm as [Hvm Hin].
  destruct (unused_slot _ _ _ _ Hu Hst) as (Hi & Hcu & Hip). pose proof (dr_free _ _ _ _ _ (vm_dir _ _ _ _ _ Hvm)) as Hk.
  pose proof (km_nodup _ _ Hk) as [Hkl Hnd]%NoDup_cons. destruct (free_page _ _ k Hk ltac:(by left)) as (Hpk & _). destruct (page_ok_mod _ Hpk) as [Hkm Hk0].
  destruct (allocproc_takes s l k i c Hk Hpt Hu) as (s1 & P & E1 & F1 & Hk1 & Hp1 & Hnp & HP & HlP & Hm1).
  rewrite fork_eq. eapply wp_step; [apply curproc_eq; apply Hrun|]. eapply wp_step; [exact E1|]. cbv beta iota. eapply wp_step; [reflexivity|]. cbv beta.
  assert (proc_at s1 p = proc_at s p) as Ep by (unfold proc_at; rewrite Hp1, list_lookup_alter_ne; done). rewrite Ep, (ru_pgdir _ _ _ _ Hrun), (ru_sz _ _ _ _ Hrun).
  assert (forall w, w ∉ k :: l -> mem s1 !! w = mem s !! w) as Hm1'. { intros w Hw. rewrite Hm1, lookup_insert_ne; [done|]. set_solver. }
  destruct (same_parent _ _ _ _ _ l s1 Hvm Hk1 ltac:(intros w Hw; by right) Hm1') as [Hvm1 Hsf1].
  eapply wp_chain; [apply (copyuvm_spec L l s1 pg tab ent sz); [by split|done]|].
  intros d s2 Hco. destruct Hco as [d s2 l' tab' ent' Hb Hpm' Hpm2 Hby Hfl Hdis _|s2 l2 Hlen Hkept].
  - destruct Hb as (Hvm' & F2 & Hpages & Hm2). assert (d <> 0) as Hd by (apply page_ok_mod, (sp_page _ _ _ _ (dr_space _ _ _ _ _ (vm_dir _ _ _ _ _ Hvm')))).
    eapply wp_step; [reflexivity|]. cbv beta. rewrite (proj2 (Z.eqb_neq d 0)) by done. set (s3 := set_procs _ s2).
    assert (procs s2 = procs s1) as Hp2 by (by rewrite F2).
    set (c3 := set_p_pgdir d (new_proc k (nextpid s) c)).
    assert (procs s3 !! i = Some c3) as Hc3 by (cbn; by rewrite list_lookup_alter_eq, Hp2, Hp1, list_lookup_alter_eq, Hi).
    assert (~ uses d tab' ent' k) as Hdk by (intros Hc; apply Hkl, Hpages; by right).
    assert (~ uses pg tab ent k) as Hpgk by (apply (vm_uses _ _ _ _ _ _ Hvm); by left).
    assert (k ∉ l') as Hkl' by (intros Hc; apply Hkl, Hpages; by left).
    assert (held s2 = held s) as Hh2. { rewrite F2. by destruct F1 as (? & ? & ? & ? & ->). }
    assert (ftable s2 = ftable s) as Hf2. { rewrite F2. by destruct F1 as (? & ? & ? & ? & ->). }
    assert (mem s2 !! k = Some (new_stack P)) as Hsk by (rewrite Hm2, Hm1 by done; apply lookup_insert_eq).
    assert (forall w, w ∉ k :: l -> mem s2 !! w = mem s !! w) as Hm2'. { intros w Hw. rewrite Hm2, Hm1'; [done..|]. intros Hc. apply Hw. by right. }
    eapply wp_mono; [apply (fork_tail_spec p (proc_at s p) i c3 k (new_stack P) kp K cwd name s3); try done|].
    { by apply (Hun i c). } { by apply length_new_stack. } { cbn. by rewrite Hm2'. } { intros ->. apply Hkpl. by left. } { cbn. by rewrite Hh2. } { cbn. by rewrite Hh2. } { cbn. by rewrite Hh2. } { cbn. by rewrite Hf2. }
    intros r s' (-> & Hci & Hoth & Hrefs & pr & ft & Es').
    destruct (vm_off_page l' s2 d tab' ent' k (child_stack K (new_stack P)) s' Hvm' Hkl' Hdk) as (V1 & S1 & _); [by rewrite Es'..|].
    destruct (vm_off_page l' s2 pg tab ent k (child_stack K (new_stack P)) s' (proj1 Hpm2) Hkl' Hpgk) as (V2 & S2 & _); [by rewrite Es'..|].
    apply (fork_child _ _ _ _ _ _ _ _ _ _ i c k P d l' tab' ent' s'); try done.
    + intros j Hj. rewrite Hoth by done. cbn. by rewrite list_lookup_alter_ne, Hp2, Hp1, list_lookup_alter_ne by done.
    + split; [done|]. apply Hpm'.
    + intros x Hx. rewrite (ubyte_same s2 s' ent' ent' x), (ubyte_same s2 s' ent ent x) by done. destruct (Hby x Hx) as [-> ->]. by rewrite (ubyte_same s s1 ent ent x) by done.
    + intros w Hw. split; [by apply Hdis|]. by intros ->.
    + intros w. rewrite elem_of_cons, Hpages. done.
    + rewrite Es'. cbn. apply lookup_insert_eq.
    + intros w Hw. rewrite Es'. cbn. rewrite lookup_insert_ne by (intros ->; apply Hw; by left). by apply Hm2'.
    + intros f y Hy. apply Hrefs. cbn. by rewrite Hf2.
    + rewrite Es'. cbn. rewrite F2. by destruct F1 as (? & ? & ? & ? & ->).
    + rewrite Es'. cbn. rewrite F2. cbn. exact Hnp.
  - destruct Hkept as (Hk2 & F2 & Hl2 & Hm2). assert (procs s2 = procs s1) as Hp2 by (by rewrite F2).
    eapply wp_step; [reflexivity|]. cbv beta. cbn [Z.eqb]. set (s3 := set_procs _ s2).
    assert (procs s3 !! i = Some (set_p_pgdir 0 (new_proc k (nextpid s) c))) as Hc3 by (cbn; by rewrite list_lookup_alter_eq, Hp2, Hp1, list_lookup_alter_eq, Hi).
    eapply wp_step; [reflexivity|]. cbv beta. rewrite (proc_at_eq _ _ _ Hc3). cbn [p_kstack set_p_pgdir new_proc set_p_context set_p_tf set_p_kstack].
    assert (k ∉ l2) as Hkl2 by (by rewrite Hl2). assert (kmem_ok l2 s3) as Hk3 by (by destruct Hk2; constructor).
    destruct (kfree_frame l2 s3 k Hk3 Hpk Hkl2) as (s4 & E4 & Hk4 & F4 & Hm4). assert (procs s4 = procs s3) as Hp4 by (by rewrite F4).
    eapply wp_step; [exact E4|]. eapply wp_step; [reflexivity|]. eapply wp_intro; [reflexivity|].
    set (s5 := set_procs _ s4). apply (fork_no_memory _ _ _ _ _ _ _ _ _ _ i c (set_p_state UNUSED (set_p_kstack 0 (set_p_pgdir 0 (new_proc k (nextpid s) c)))) (k :: l2)); try done.
    + cbn [length]. lia.
    + cbn. by rewrite list_lookup_alter_eq, Hp4, Hc3.
    + intros j Hj. cbn. by rewrite list_lookup_alter_ne, Hp4 by done; cbn; rewrite list_lookup_alter_ne, Hp2, Hp1, list_lookup_alter_ne by done.
    + by destruct Hk4; constructor.
    + intros w. by rewrite !elem_of_cons, Hl2.
    + intros w Hw. cbn. rewrite Hm4 by (intros ->; apply Hw; by left). cbn. rewrite Hm2, Hm1'; [done..|]. intros Hc. apply Hw. by right.
    + eapply procframe_trans; [exact F1|]. eapply procframe_trans; [by apply procframe_vm|]. eapply (procframe_trans _ s3); [apply procframe_procs|].
      eapply procframe_trans; [by apply procframe_vm|]. apply procframe_procs.
Qed.

Lemma fork_spec (L : linked) l s p pg tab ent sz kp K name cwd :
  forkable l s p pg tab ent sz kp K name cwd -> wp fork (fork_outcome l s p pg tab ent sz K name cwd) s.
Proof using Type.
  intros Hf. pose proof Hf as [Hrun Hst Hpm Hsz (Hpt & Hft & Hic) _ _ _ _ _]. destruct (list_find (fun p => p_state p = UNUSED) (take NPROC (procs s))) as [[i c]|] eqn:Hu.
  - destruct l as [|k l]; [|by eapply fork_with_stack]. destruct (unused_slot _ _ _ _ Hu Hst) as (Hi & Hcu & Hip).
    destruct (allocproc_no_page s i c) as (s1 & E1 & F1 & Hk1 & Hm1 & Hp1); [apply (dr_free _ _ _ _ _ (vm_dir _ _ _ _ _ (proj1 Hpm)))|done..|].
    rewrite fork_eq. eapply wp_step; [apply curproc_eq; apply Hrun|]. eapply wp_step; [exact E1|]. eapply wp_intro; [reflexivity|].
    eapply (fork_no_memory _ _ _ _ _ _ _ _ _ _ i c _ []); [|done..|by rewrite Hp1, list_lookup_alter_eq, Hi|done|done| |done|done|by intros w; rewrite Hm1|done].
    + cbn [length]. change KERNBASE with 2147483648 in Hsz. pose proof (Z.div_pos (sz + 4095) 4096). lia.
    + intros j Hj. by rewrite Hp1, list_lookup_alter_ne.
  - rewrite fork_eq. eapply wp_step; [apply curproc_eq; apply Hrun|]. eapply wp_step; [by apply allocproc_no_slot|]. eapply wp_intro; [reflexivity|].
    apply fork_no_slot. by apply list_find_None in Hu.
Qed.
(** [fork] of a process whose memory is not mapped. *)
Lemma fork_unmapped (L : linked) l s p pg tab ent sz : running s p pg sz -> p_state (proc_at s p) <> UNUSED -> proc_mem l s pg tab ent 0 -> is_Some (tab 0) -> 0 < sz ->
  L_ptable ∉ held s ->
  fork s = Panic "copyuvm: page not present" \/
  wp fork (fun r _ => r = -1) s /\ (Forall (fun x => p_state x <> UNUSED) (take NPROC (procs s)) \/ (length l <= 1026)%nat).
Proof using Type.
  intros Hrun Hst [Hvm Hin] Ht Hsz Hh. pose proof (dr_free _ _ _ _ _ (vm_dir _ _ _ _ _ Hvm)) as Hk. rewrite fork_eq.
  destruct (list_find (fun p => p_state p = UNUSED) (take NPROC (procs s))) as [[i c]|] eqn:Hu.
  2:{ right. split; [|left; by apply list_find_None in Hu]. eapply wp_step; [apply curproc_eq; apply Hrun|]. eapply wp_step; [by apply allocproc_no_slot|]. by apply wp_ret. }
  destruct l as [|k l].
  { right. split; [|right; cbn; lia]. destruct (allocproc_no_page s i c Hk Hh Hu) as (s1 & E1 & _).
    eapply wp_step; [apply curproc_eq; apply Hrun|]. eapply wp_step; [exact E1|]. by apply wp_ret. }
  destruct (unused_slot _ _ _ _ Hu Hst) as (Hi & Hcu & Hip). pose proof (km_nodup _ _ Hk) as [Hkl Hnd]%NoDup_cons. destruct (free_page _ _ k Hk ltac:(by left)) as (Hpk & _).
  destruct (allocproc_takes s l k i c Hk Hh Hu) as (s1 & P & E1 & F1 & Hk1 & Hp1 & _ & HP & HlP & Hm1).
  assert (proc_at s1 p = proc_at s p) as Ep by (unfold proc_at; rewrite Hp1, list_lookup_alter_ne; done).
  assert (forall w, w ∉ k :: l -> mem s1 !! w = mem s !! w) as Hm1'. { intros w Hw. rewrite Hm1, lookup_insert_ne; [done|]. set_solver. }
  destruct (same_parent _ _ _ _ _ l s1 Hvm Hk1 ltac:(intros w Hw; by right) Hm1') as [Hvm1 _].
  destruct (copyuvm_unmapped L l s1 pg tab ent sz (conj Hvm1 Hin) Ht Hsz) as [Hpan|[Hlen Hw]]; [left|right].
  - etrans; [eapply bind_eq; apply curproc_eq; apply Hrun|]. etrans; [eapply bind_eq; exact E1|]. cbv beta iota. etrans; [eapply bind_eq; reflexivity|]. cbv beta.
    rewrite Ep, (ru_pgdir _ _ _ _ Hrun), (ru_sz _ _ _ _ Hrun). unfold bind. by rewrite Hpan.
  - split; [|right; cbn; lia]. eapply wp_step; [apply curproc_eq; apply Hrun|]. eapply wp_step; [exact E1|]. cbv beta iota. eapply wp_step; [reflexivity|]. cbv beta.
    rewrite Ep, (ru_pgdir _ _ _ _ Hrun), (ru_sz _ _ _ _ Hrun). eapply wp_chain; [exact Hw|]. intros d s2 (-> & l2 & Hk2 & F2 & Hl2 & _).
    assert (procs s2 = procs s1) as Hp2 by (by rewrite F2). eapply wp_step; [reflexivity|]. cbv beta. cbn [Z.eqb]. set (s3 := set_procs _ s2).
    assert (procs s3 !! i = Some (set_p_pgdir 0 (new_proc k (nextpid s) c))) as Hc3 by (cbn; by rewrite list_lookup_alter_eq, Hp2, Hp1, list_lookup_alter_eq, Hi).
    eapply wp_step; [reflexivity|]. cbv beta. rewrite (proc_at_eq _ _ _ Hc3). cbn [p_kstack set_p_pgdir new_proc set_p_context set_p_tf set_p_kstack].
    destruct (kfree_frame l2 s3 k) as (s4 & E4 & _); [by destruct Hk2; constructor|done|by rewrite Hl2|].
    eapply wp_step; [exact E4|]. eapply wp_step; [reflexivity|]. by apply wp_ret.
Qed.
End fork.

(** ** The child runs *)

From S2P Require Import Str Ports Seg Asm AsmSpec.

(** The page [P] at [k], as memory. *)
Definition page_mem (k : Z) (P : list Z) : memory := fun a => default 0 (P !! Z.to_nat (a - k)).
(** The processor's memory has the page [P] at [k]. *)
Definition sees (m : memory) (k : Z) (P : list Z) : Prop := forall a, k <= a < k + 4096 -> m a = page_mem k P a.

Lemma ld_shift n m m' a b : (forall i, 0 <= i < Z.of_nat n -> m (a + i) = m' (b + i)) -> ld n m a = ld n m' b.
Proof. intros E. unfold ld. f_equal. apply list_fmap_ext. intros i x Hi. apply lookup_seq in Hi as [-> Hi]. apply E. lia. Qed.

Lemma sees_ld n m k P a : sees m k P -> k <= a -> a + Z.of_nat n <= k + 4096 -> ld n m a = ld n (page_mem k P) a.
Proof. intros Hs Ha Hn. apply ld_ext. intros x Hx. apply Hs. lia. Qed.

Lemma sees_frame m k P : sees m k P -> frame_of m (k + 4020) = frame_of (page_mem k P) (k + 4020).
Proof. intros Hs. unfold frame_of. f_equal; apply (sees_ld _ _ _ _ _ Hs); lia. Qed.

(** A number that has been stored in a page. *)
Lemma ld_spliced n k o v P : (o + n <= length P)%nat -> 0 <= v < 256 ^ Z.of_nat n -> ld n (page_mem k (splice o (le_bytes n v) P)) (k + Z.of_nat o) = v.
Proof.
  intros Ho Hv. rewrite <- (le_val_bytes n v Hv) at 2. unfold ld. f_equal. apply list_eq. intros i. rewrite list_lookup_fmap. destruct (decide (i < n)%nat) as [Hi|Hi].
  - rewrite lookup_seq_lt by done. cbn [fmap option_fmap option_map]. unfold page_mem. replace (Z.to_nat _) with (o + i)%nat by lia.
    rewrite lookup_splice_in by (rewrite ?length_le_bytes; lia). replace (o + i - o)%nat with i by lia.
    destruct (lookup_lt_is_Some_2 (le_bytes n v) i) as [b Hb]; [by rewrite length_le_bytes|]. by rewrite Hb.
  - rewrite !lookup_ge_None_2; [done|rewrite length_le_bytes; lia|rewrite length_seq; lia].
Qed.

Lemma ld_splice_out n k o xs P a : (o <= length P)%nat -> k <= a -> a + Z.of_nat n <= k + Z.of_nat o \/ k + Z.of_nat o + Z.of_nat (length xs) <= a ->
  ld n (page_mem k (splice o xs P)) a = ld n (page_mem k P) a.
Proof. intros Ho Ha Hd. apply ld_ext. intros x Hx. unfold page_mem. rewrite lookup_splice_out by lia. done. Qed.

Section child.
Context `{SY : Symbols}.

Section page.
Context (k kp : Z) (K Q : list Z) (HK : length K = 4096%nat) (HQ : length Q = 4096%nat).

Lemma length_tf_copy : length (splice 4020 (sub 4020 76 K) Q) = 4096%nat.
Proof using HK HQ. rewrite length_splice; [done|]. rewrite sub_length; rewrite ?HK, ?HQ; lia. Qed.

(** Outside [eax] the child's frame is the parent's. *)
Lemma child_field n o : 0 <= o -> o + Z.of_nat n <= 76 -> o + Z.of_nat n <= 28 \/ 32 <= o ->
  ld n (page_mem k (child_stack K Q)) (k + 4020 + o) = ld n (page_mem kp K) (kp + 4020 + o).
Proof using HK HQ.
  intros Ho Hn Hd. pose proof length_tf_copy as Hl. apply ld_shift. intros i Hi. unfold page_mem, child_stack.
  rewrite lookup_splice_out by (rewrite ?Hl, ?length_le_bytes; lia). assert (length (sub 4020 76 K) = 76%nat) as Hs by (apply sub_length; rewrite HK; lia).
  rewrite lookup_splice_in by (rewrite ?HQ, ?Hs; lia). unfold sub. rewrite lookup_take_lt, lookup_drop by lia. do 2 f_equal. lia.
Qed.

Lemma child_eax : ld 4 (page_mem k (child_stack K Q)) (k + 4020 + 28) = 0.
Proof using HK HQ.
  pose proof length_tf_copy as Hl. replace (k + 4020 + 28) with (k + Z.of_nat 4048) by lia. apply ld_spliced; [rewrite Hl; lia|done].
Qed.

Lemma child_frame : frame_of (page_mem k (child_stack K Q)) (k + 4020) = set_tf_eax 0 (frame_of (page_mem kp K) (kp + 4020)).
Proof using HK HQ.
  unfold frame_of, set_tf_eax. cbn [tf_edi tf_esi tf_ebp tf_oesp tf_ebx tf_edx tf_ecx tf_eax tf_gs tf_fs tf_es tf_ds tf_trapno tf_err tf_eip tf_cs tf_eflags tf_esp tf_ss].
  f_equal; try (apply child_field; lia); [|exact child_eax].
  rewrite <- (Z.add_0_r (k + 4020)), <- (Z.add_0_r (kp + 4020)). apply child_field; lia.
Qed.

(** Below the frame are the return address [trapret] and the context of [forkret]. *)
Lemma below_frame n a : k <= a -> a + Z.of_nat n <= k + 4020 -> ld n (page_mem k (child_stack K Q)) a = ld n (page_mem k Q) a.
Proof using HK HQ.
  intros Ha Hn. pose proof length_tf_copy as Hl. unfold child_stack. rewrite !ld_splice_out by (rewrite ?Hl, ?HQ; lia). done.
Qed.
End page.

Lemma new_stack_words k P : length P = 4096%nat -> word32 trapret -> word32 forkret_addr ->
  ld 4 (page_mem k (new_stack P)) (k + 4012) = forkret_addr /\ ld 4 (page_mem k (new_stack P)) (k + 4016) = trapret.
Proof.
  intros HP Ht Hf. assert (length (splice 4016 (le_bytes 4 trapret) P) = 4096%nat) as H1 by (rewrite length_splice; [done|rewrite length_le_bytes; lia]).
  assert (length (splice 3996 (replicate 20 0) (splice 4016 (le_bytes 4 trapret) P)) = 4096%nat) as H2 by (rewrite length_splice; [done|rewrite length_replicate; lia]).
  unfold new_stack. split.
  - change (k + 4012) with (k + Z.of_nat 4012). apply ld_spliced; [rewrite H2; lia|exact Hf].
  - rewrite !ld_splice_out by (rewrite ?H2, ?H1, ?length_le_bytes, ?length_replicate; lia). change (k + 4016) with (k + Z.of_nat 4016). apply ld_spliced; [lia|exact Ht].
Qed.
End child.

Section runs.
Context `{LK : Linker} `{SY : Symbols} `{WordPorts} `{Image}.

(** What user code sees when it resumes with the frame [f]. *)
Definition frame_view (f : trapframe) : gregs * sregs * Z * Z :=
  (mkG (tf_eax f) (tf_ecx f) (tf_edx f) (tf_ebx f) (tf_esp f) (tf_ebp f) (tf_esi f) (tf_edi f),
   mkS (tf_cs f) (tf_ds f) (tf_es f) (tf_fs f) (tf_gs f) (tf_ss f), tf_eflags f, tf_eip f).

(** The first switch to a process whose kernel stack is the page [P] at [k]. *)
Definition starts_at (k : Z) (P : list Z) (f : trapframe) : Prop :=
  forall c old, sees (cm c) k P -> swtch_call c old (k + 3996) -> word32 (ebp (gr c)) -> word32 (ebx (gr c)) -> word32 (esi (gr c)) -> word32 (edi (gr c)) ->
    (esp (gr c) <= k \/ k + 4096 <= esp (gr c) - 16) -> (old + 4 <= k \/ k + 4096 <= old) ->
    exists c1, run (length swtch) c = Some c1 /\ eip c1 = forkret_addr /\ ld 4 (cm c1) (esp (gr c1)) = trapret /\
      forall d, eip d = trapret -> esp (gr d) = esp (gr c1) + 4 -> cpl d = 0 -> frame_of (cm d) (k + 4020) = frame_of (cm c1) (k + 4020) ->
        exists d', run (length trapret_code) d = Some d' /\ user_view d' = frame_view f /\ cm d' = cm d.

Lemma child_stack_starts k kp K P b : 0 <= k -> k + 4096 < 4294967296 -> length K = 4096%nat -> length P = 4096%nat -> word32 trapret -> word32 forkret_addr ->
  placed trapret trapret_code b -> Z.land (tf_cs (frame_of (page_mem kp K) (kp + 4020))) 3 <> 0 ->
  starts_at k (child_stack K (new_stack P)) (set_tf_eax 0 (frame_of (page_mem kp K) (kp + 4020))).
Proof using Type.
  intros Hk0 Hk HK HP Ht Hf Hpl Hu c old Hs Hc Hbp Hbx Hsi Hdi Hst Hold.
  pose proof (length_new_stack P HP) as HN. destruct (new_stack_words k P HP Ht Hf) as [Wf Wt]. set (CS := child_stack K (new_stack P)) in *.
  destruct (swtch_switches c old (k + 3996)) as (c1 & R1 & G1 & I1 & _ & _ & M1); [done..|].
  assert (sees (cm c1) k CS) as Hs1. { intros a Ha. rewrite M1 by lia. by apply Hs. }
  exists c1. split; [done|]. rewrite G1, I1. cbn [context_of ctx_eip esp]. split; [|split].
  - rewrite (sees_ld 4 _ k CS) by (done || lia). unfold CS. rewrite below_frame by (done || lia). rewrite <- Wf. f_equal. lia.
  - rewrite (sees_ld 4 _ k CS) by (done || lia). unfold CS. rewrite below_frame by (done || lia). rewrite <- Wt. f_equal. lia.
  - intros d Ei Es Ek Ef. assert (esp (gr d) = k + 4020) as Hsp by lia. rewrite (sees_frame _ _ _ Hs1) in Ef. unfold CS in Ef. rewrite (child_frame k kp) in Ef by done.
    destruct (trapret_restores d b) as (d' & R' & Hm & Hi & Hfl & Hg & Hsr); [by rewrite Ei|done|lia|lia|].
    exists d'. split; [done|]. split; [|done]. unfold user_view, frame_view. rewrite Hg, Hsr, Hi, Hfl, Hsp, Ef.
    rewrite (proj2 (Z.eqb_neq (Z.land (tf_cs (set_tf_eax 0 _)) 3) 0)) by done. done.
Qed.
End runs.

(** C9: [fork] makes a copy of the process.  When there are a free slot and enough pages, the child has the parent's size and, byte for byte and with
    the same flags, its memory, in pages that were free and are shared with nobody; the same open files and directory, each with its reference counted; the
    same name; the parent as parent; and a pid of its own, which is the result.  The parent, the other processes and every page in use are untouched.
    Otherwise the result is -1, and every page is free again. *)
Theorem fork_copies `{LK : Linker} `{SY : Symbols} (L : linked) l s p pg tab ent sz kp K name cwd :
  forkable l s p pg tab ent sz kp K name cwd -> wp fork (fork_outcome l s p pg tab ent sz K name cwd) s.
Proof. by eapply fork_spec. Qed.

(** C40: a process that gives all its memory back with sbrk is left with the old size.  [growproc] unmaps everything, takes the new size 0
    for an error and returns -1 without storing it.  The next [fork] of the process never makes a child: it panics in [copyuvm], or returns -1, and
    then there was no free slot or there were not the pages for a kernel stack and the kernel's part of a directory. *)
Theorem sbrk_to_zero_keeps_size `{LK : Linker} `{SY : Symbols} (L : linked) (l : list Z) (s : kstate) (p : nat) (pg : Z) (tab ent : Z -> option Z) (sz : Z) :
  running s p pg sz -> p_state (proc_at s p) <> UNUSED -> L_ptable ∉ held s -> proc_mem l s pg tab ent sz -> 0 < sz < KERNBASE ->
  wp (growproc (- sz)) (fun r s' => r = -1 /\ running s' p pg sz /\ exists l' ent', proc_mem l' s' pg tab ent' 0 /\
    conserved pg l s tab ent l' s' tab ent' /\
    (fork s' = Panic "copyuvm: page not present" \/
     wp fork (fun r _ => r = -1) s' /\ (Forall (fun x => p_state x <> UNUSED) (take NPROC (procs s)) \/ (length l' <= 1026)%nat))) s.
Proof.
  intros Hr Hst Hh Hpm Hsz. eapply wp_mono; [by apply (growproc_to_zero L l s p pg tab ent sz)|]. intros r s' (-> & Hf & l' & ent' & Hpm' & Hc & Ht).
  assert (running s' p pg sz) as Hr' by (by eapply running_frame). split; [done|]. split; [done|]. exists l', ent'. split; [done|]. split; [done|].
  assert (procs s' = procs s) as <- by (by rewrite Hf). eapply fork_unmapped; try done; [|lia|by rewrite Hf]. unfold proc_at in *. by rewrite Hf.
Qed.

(** C11: the child of [fork] returns 0 where the parent returns.  When [fork] succeeds, the first switch of the scheduler to the child ([swtch]) goes to [forkret];
    its return goes to [trapret], which enters user mode with the registers, the segments, the flags and the instruction pointer of the parent's trap
    frame, and 0 in [eax]. *)
Theorem child_returns_zero `{LK : Linker} `{SY : Symbols} `{WordPorts} `{Image} (L : linked) l s p pg tab ent sz kp K name cwd b :
  forkable l s p pg tab ent sz kp K name cwd -> word32 trapret -> word32 forkret_addr -> placed trapret trapret_code b ->
  let f := frame_of (page_mem kp K) (kp + 4020) in
  Z.land (tf_cs f) 3 <> 0 ->
  wp fork (fun r s' => fork_outcome l s p pg tab ent sz K name cwd r s' /\ forall i x, procs s' !! i = Some x -> procs s !! i <> Some x -> p_state x = RUNNABLE ->
    p_parent x = Some p /\ p_context x = p_kstack x + 3996 /\ exists P, mem s' !! p_kstack x = Some P /\ starts_at (p_kstack x) P (set_tf_eax 0 f)) s.
Proof.
  intros Hf Ht Hfr Hpl f Hu. eapply wp_mono; [by eapply fork_spec|]. intros r s' Ho. split; [done|]. intros i x Hx Hn Hr.
  destruct Ho as [j c k P d l' tab' ent' s' Hj Hcu Hjp Hcj Hoth _ _ _ _ _ Hl HP Hmk _ _ _ _|Hall|j c c' l' s' _ Hj _ _ Hcj Hcs _ Hoth _ _ _ _].
  - destruct (decide (i = j)) as [->|Hne]; [|by rewrite Hoth in Hx]. rewrite Hcj in Hx. injection Hx as <-. cbn. split; [done|]. split; [done|].
    exists (child_stack K (new_stack P)). split; [done|].
    assert (page_ok k) as Hk. { destruct (free_page _ _ k (dr_free _ _ _ _ _ (vm_dir _ _ _ _ _ (proj1 (fk_mem _ _ _ _ _ _ _ _ _ _ _ Hf))))) as [Hk _]; [apply Hl; by left|done]. }
    destruct (page_V2P k Hk) as (Ev & _ & Hv & _). unfold KERNBASE, PHYSTOP in *. destruct Hk as (_ & _ & _ & Hp).
    eapply child_stack_starts; try done; [lia|lia|apply Hf].
  - done.
  - destruct (decide (i = j)) as [->|Hne]; [|by rewrite Hoth in Hx]. rewrite Hcj in Hx. injection Hx as <-. congruence.
Qed.

#[local] Existing Instance vm_linker.
#[local] Existing Instance demo_code.
#[local] Existing Instance demo_ports.
#[local] Existing Instance demo_word_ports.
#[local] Instance demo_symbols : Symbols := { trapret := 211; forkret_addr := 500; initcode := [] }.

(** A process that may fork: its kernel stack is a page below the free ones. *)
Definition demo_kstack : list Z := splice 4080 (le_bytes 2 27) (replicate 4096 0).
Definition demo_forker (pg : Z) (s : kstate) : kstate :=
  set_held [] (set_mem (<[2148536320 := demo_kstack]> (mem s)) (set_cur (Some 0%nat)
    (set_procs [set_p_cwd (Some 0%nat) (set_p_tf (2148536320 + 4020) (set_p_state RUNNING (set_p_sz 8192 (set_p_pgdir pg (set_p_kstack 2148536320 null_proc))))); null_proc] s))).

Lemma demo_forkable : exists l s pg tab ent, forkable l (demo_forker pg s) 0 pg tab ent 8192 2148536320 demo_kstack [] 0 /\
  exists l0, length l0 = 4000%nat /\ NoDup l0 /\ forall w, w ∈ l0 -> w ∈ l \/ uses pg tab ent w.
Proof.
  destruct demo_process as (l & s & pg & tab & ent & Hpm & _ & _ & _ & Hl0). pose proof (proj1 Hpm) as Hvm. exists l, s, pg, tab, ent. split; [|exact Hl0].
  pose proof (dr_free _ _ _ _ _ (vm_dir _ _ _ _ _ Hvm)) as Hk.
  assert (forall w, w ∈ l \/ uses pg tab ent w -> w <> 2148536320) as Hok.
  { intros w Hw ->. assert (@page_ok vm_linker 2148536320) as (_ & Hc & _); [|by vm_compute in Hc]. destruct Hw as [Hw|[->|[(d & Hd)|(v & e & Hv & He & <-)]]].
    - by destruct (free_page _ _ _ Hk Hw).
    - apply (sp_page _ _ _ _ (dr_space _ _ _ _ _ (vm_dir _ _ _ _ _ Hvm))).
    - by destruct (sp_tab _ _ _ _ (dr_space _ _ _ _ _ (vm_dir _ _ _ _ _ Hvm)) _ _ Hd) as (_ & ? & _).
    - by destruct (vm_frame _ _ _ _ _ Hvm v e Hv He) as (? & _). }
  assert (2148536320 ∉ l) as Hkl by (intros Hc; by apply (Hok _ (or_introl Hc))).
  split; try done.
  - split; done || (cbn; lia).
  - split; [|apply Hpm]. eapply vm_frame_mem; [exact Hvm| |intros w Hw; by apply (vm_uses _ _ _ _ _ _ Hvm)|].
    + destruct (kmem_write (H := vm_linker) l s 2148536320 demo_kstack Hk Hkl) as [? ? ?]. constructor; [cbn; apply not_elem_of_nil|done|done].
    + intros w Hw. cbn. rewrite lookup_insert_ne; [done|]. intros Hc. by apply (Hok w (or_intror Hw)).
  - split; [apply not_elem_of_nil|]. split; apply not_elem_of_nil.
  - split; [done|]. split; [done|]. split; [done|]. split; [cbn; apply lookup_insert_eq|by vm_compute].
  - split; [done|]. intros f Hf. assert (Some f ∈ replicate NOFILE (None : option nat)) as Hf' by exact Hf. by apply elem_of_replicate in Hf' as [? _].
  - intros [|[|i]] x; cbn; [by intros [= <-]|by intros [= <-]|done].
Qed.

Lemma fork_copies_witness : exists l s pg tab ent r s', fork s = Ret r s' /\ fork_outcome l s 0 pg tab ent 8192 demo_kstack [] 0 r s'.
Proof.
  destruct demo_forkable as (l & s' & pg & tab & ent & Hf & _). set (s := demo_forker pg s') in Hf. clearbody s. clear s'.
  destruct (wp_inv _ _ _ (fork_copies vm_linked l s 0 pg tab ent 8192 2148536320 demo_kstack [] 0 Hf)) as (r & s' & Hr & Ho).
  exists l, s, pg, tab, ent, r, s'. split; [exact Hr|exact Ho].
Defined.

Lemma demo_user_frame : Z.land (tf_cs (frame_of (page_mem 2148536320 demo_kstack) (2148536320 + 4020))) 3 <> 0.
Proof. by vm_compute. Qed.

Lemma child_returns_zero_witness : exists s r s', fork s = Ret r s' /\ forall i x, procs s' !! i = Some x -> procs s !! i <> Some x -> p_state x = RUNNABLE ->
  exists P, mem s' !! p_kstack x = Some P /\ starts_at (p_kstack x) P (set_tf_eax 0 (frame_of (page_mem 2148536320 demo_kstack) (2148536320 + 4020))).
Proof.
  destruct demo_forkable as (l & s' & pg & tab & ent & Hf & _). set (s := demo_forker pg s') in Hf. clearbody s. clear s'.
  destruct (wp_inv _ _ _ (child_returns_zero vm_linked l s 0 pg tab ent 8192 2148536320 demo_kstack [] 0 218 Hf ltac:(by unfold word32; cbn) ltac:(by unfold word32; cbn)
    ltac:(by apply placed_to_ok; vm_compute) demo_user_frame)) as (r & s' & Hr & _ & Hx).
  exists s, r, s'. split; [exact Hr|]. intros i x H1 H2 H3. destruct (Hx i x H1 H2 H3) as (_ & _ & HP). exact HP.
Defined.

Lemma sbrk_to_zero_keeps_size_witness : exists s s', growproc (-8192) s = Ret (-1) s' /\ p_sz (proc_at s' 0) = 8192 /\ fork s' = Panic "copyuvm: page not present".
Proof.
  destruct demo_forkable as (l & s & pg & tab & ent & [Hr Hst Hpm _ [Hh _] _ _ _ _ _] & l0 & Hl0 & Hnd & Hin).
  destruct (wp_inv _ _ _ (sbrk_to_zero_keeps_size vm_linked l (demo_forker pg s) 0 pg tab ent 8192 Hr Hst Hh Hpm ltac:(by vm_compute)))
    as (r & s' & Hg & -> & Hr' & l' & ent' & [Hvm Hno] & [Hc _] & [Hf|[_ [Hf|Hlen]]]).
  - exists (demo_forker pg s), s'. split; [exact Hg|]. split; [apply Hr'|exact Hf].
  - exfalso. apply Forall_cons in Hf as [_ [Hf _]%Forall_cons]. by apply Hf.
  - exfalso. assert (length l0 <= length l' + 1025)%nat; [|lia]. eapply pages_left; [exact Hvm|done|intros w Hw; by apply Hc, Hin|].
    intros v Hv. destruct (ent' v) eqn:E; [|done]. assert (4096 * v < 0) by (apply Hno; [done|by rewrite E]). lia.
Defined.
