(* ===== verification/WaitSpec.v ===== *)
(** * WaitSpec: wait, the end of a process

    [wait] gives back the pages of a child that has exited and frees its slot, answers -1
    when there is nothing to wait for, and otherwise sleeps on the parent's channel. *)

From stdpp Require Import functions base gmap list strings.
From Stdlib Require Import ZArith Lia.
From S2P Require Import Prelude State Core Sem Kalloc Bio Log Fs Pipe Console Vm File Proc.
From S2P Require Import VmSpec VmUser VmProc VmTheorem ProcMem ForkSpec.

Local Open Scope Z_scope.
Local Open Scope kernel_scope.

Section wait.
Context `{LK : Linker}.
Implicit Types (tab ent : Z -> option Z) (l : list Z) (s : kstate).

(** The first child of [p] that has exited. *)
Definition zombie_child s (p j : nat) (x : proc) : Prop :=
  list_find (fun x => p_parent x = Some p /\ p_state x = ZOMBIE) (take NPROC (procs s)) = Some (j, x).
Definition no_zombie s (p : nat) : Prop := Forall (fun x => ~ (p_parent x = Some p /\ p_state x = ZOMBIE)) (take NPROC (procs s)).
Definition childless s (p : nat) : Prop := Forall (fun x => p_parent x <> Some p) (take NPROC (procs s)).

(** The memory of a process that has exited: its address space and its kernel stack. *)
Record exited l s (x : proc) tab ent : Prop := {
  ex_vm : vm l s (p_pgdir x) tab ent;
  ex_stack : page_ok (p_kstack x);
  ex_free : p_kstack x ∉ l;
  ex_apart : ~ uses (p_pgdir x) tab ent (p_kstack x)
}.

Definition reaped (x : proc) : proc :=
  set_p_state UNUSED (set_p_killed false (set_p_name (<[0%nat := 0]> (p_name x)) (set_p_parent None (set_p_pid 0 (set_p_kstack 0 x))))).

Record reap_outcome l s (j : nat) (x : proc) tab ent s' : Prop := {
  rp_slot : procs s' = <[j := reaped x]> (procs s);
  rp_pages : exists l', kmem_ok l' s' /\ forall w, w ∈ l' <-> w ∈ l \/ w = p_kstack x \/ uses (p_pgdir x) tab ent w;
  rp_mem w : w <> p_kstack x -> ~ uses (p_pgdir x) tab ent w -> mem s' !! w = mem s !! w;
  rp_rest : procframe s s'
}.

Lemma wait_reaps_spec (L : linked) l s p j x tab ent :
  cur s = Some p -> L_ptable ∉ held s -> zombie_child s p j x -> exited l s x tab ent ->
  wp wait (fun r s' => r = p_pid x /\ reap_outcome l s j x tab ent s') s.
Proof using Type.
  intros Hcur Hpt Hz [Hvm Hks Hkl Hku]. pose proof (dr_free _ _ _ _ _ (vm_dir _ _ _ _ _ Hvm)) as Hk.
  pose proof Hz as Hz'. apply list_find_Some in Hz' as (Hj & _ & _). apply lookup_take_Some in Hj as [Hj _]. pose proof (lookup_lt_Some _ _ _ Hj) as Hjl.
  unfold wait. eapply wp_step; [by apply curproc_eq|]. eapply wp_step; [by apply acquire_eq|]. set (s1 := set_held _ s).
  assert (kmem_ok l s1) as Hk1. { destruct Hk as [K1 K2 K3]. constructor; [cbn; by apply not_elem_of_cons|done|done]. }
  unfold wait_loop. eapply wp_step; [reflexivity|]. cbv beta. change (procs s1) with (procs s). unfold zombie_child in Hz. rewrite Hz.
  destruct (kfree_frame l s1 _ Hk1 Hks Hkl) as (s2 & E2 & Hk2 & F2 & Hm2). eapply wp_step; [exact E2|]. eapply wp_step; [reflexivity|]. set (s3 := set_procs _ s2).
  assert (kmem_ok (p_kstack x :: l) s3) as Hk3 by (by destruct Hk2; constructor).
  assert (vm (p_kstack x :: l) s3 (p_pgdir x) tab ent) as Hvm3.
  { eapply vm_frame_mem; [exact Hvm|done| |].
    - intros w [->|Hw]%elem_of_cons; [done|]. by apply (vm_uses _ _ _ _ _ _ Hvm).
    - intros w Hw. cbn. rewrite Hm2; [done|]. by intros ->. }
  eapply wp_chain; [apply (freevm_spec L _ _ _ _ _ Hvm3)|]. intros [] s4 (l4 & Hk4 & F4 & Hl4 & Hm4).
  assert (procs s2 = procs s) as Hp2 by (by rewrite F2). assert (procs s4 = alter (set_p_kstack 0) j (procs s)) as Hp4 by (rewrite F4; cbn; by rewrite Hp2).
  assert (held s4 = L_ptable :: held s) as Hh4 by (rewrite F4; cbn; by rewrite F2).
  eapply wp_step; [reflexivity|]. eapply wp_step; [apply (release_top _ (held s)); [exact Hh4|done]|]. eapply wp_intro; [reflexivity|]. split; [done|]. split.
  - cbn. rewrite Hp4, list_alter_alter_eq. apply (alter_as_insert _ _ _ _ Hj).
  - exists l4. split.
    + destruct Hk4 as [K1 K2 K3]. constructor; [cbn; by destruct Hk|done|done].
    + intros w. rewrite Hl4, elem_of_cons. naive_solver.
  - intros w Hw Hu. cbn. rewrite Hm4 by done. cbn. by rewrite Hm2.
  - assert (procframe s1 s4) as F14. { eapply procframe_trans; [by apply procframe_vm|]. eapply (procframe_trans _ s3); [apply procframe_procs|by apply procframe_vm]. }
    destruct F14 as (pr & np & m & f & ->). by eexists _, _, _, _.
Qed.

Lemma no_zombie_find s p : no_zombie s p -> list_find (fun x => p_parent x = Some p /\ p_state x = ZOMBIE) (take NPROC (procs s)) = None.
Proof. intros Hn. by apply list_find_None. Qed.

Lemma has_kids s p : existsb (fun x => bool_decide (p_parent x = Some p)) (take NPROC (procs s)) = false <-> childless s p.
Proof.
  unfold childless. induction (take NPROC (procs s)) as [|x xs IH]; cbn [existsb]; [by split|]. rewrite orb_false_iff, IH, bool_decide_eq_false. by rewrite Forall_cons.
Qed.

Lemma wait_none s p : cur s = Some p -> L_ptable ∉ held s -> no_zombie s p -> childless s p \/ p_killed (proc_at s p) = true -> wait s = Ret (-1) s.
Proof using Type.
  intros Hcur Hpt Hz Hn. unfold wait. etrans; [eapply bind_eq; by apply curproc_eq|]. cbv beta. etrans; [eapply bind_eq; by apply acquire_eq|]. cbv beta.
  unfold wait_loop. etrans; [eapply bind_eq; reflexivity|]. cbv beta. change (procs (set_held _ s)) with (procs s). rewrite (no_zombie_find s p Hz).
  etrans; [eapply bind_eq; reflexivity|]. cbv beta. change (proc_at (set_held _ s) p) with (proc_at s p).
  assert (negb (existsb (fun x => bool_decide (p_parent x = Some p)) (take NPROC (procs s))) || p_killed (proc_at s p) = true) as ->.
  { destruct Hn as [Hn|Hn]; [by apply has_kids in Hn as ->|]. rewrite Hn. apply orb_true_r. }
  etrans; [eapply bind_eq; by apply (release_top _ (held s))|]. unfold ret. f_equal. by destruct s.
Qed.

Lemma wait_sleeps s p : cur s = Some p -> held s = [] -> no_zombie s p -> ~ childless s p -> p_killed (proc_at s p) = false ->
  wait s = Slept (Some (Ch_proc p)) (set_held [L_ptable] (set_procs (alter (slept (Ch_proc p)) p (procs s)) s)).
Proof using Type.
  intros Hcur Hh Hz Hn Hk. unfold wait. etrans; [eapply bind_eq; by apply curproc_eq|]. cbv beta. etrans; [eapply bind_eq; apply acquire_eq; rewrite Hh; apply not_elem_of_nil|]. cbv beta.
  unfold wait_loop. etrans; [eapply bind_eq; reflexivity|]. cbv beta. change (procs (set_held _ s)) with (procs s). rewrite (no_zombie_find s p Hz).
  etrans; [eapply bind_eq; reflexivity|]. cbv beta. change (proc_at (set_held _ s) p) with (proc_at s p). rewrite Hk.
  destruct (existsb _ _) eqn:E; [|by apply has_kids in E]. cbn [negb orb]. unfold bind. rewrite (sleep_eq _ _ _ p); [|done|cbn; by rewrite Hh]. by destruct s.
Qed.
End wait.

(** C12: [wait] ends a child.  When a child has exited, [wait] returns its pid, and every page of its address space and its kernel stack are
    free again; the slot is unused, and no other process and no other page changes.  With no child, or killed, and none exited, it returns -1
    and changes nothing; with children that still run, it sleeps on its own channel, where [exit] wakes it. *)
Theorem wait_reaps `{LK : Linker} (L : linked) (s : kstate) (p : nat) :
  cur s = Some p -> held s = [] ->
  (forall l j x tab ent, zombie_child s p j x -> exited l s x tab ent -> wp wait (fun r s' => r = p_pid x /\ reap_outcome l s j x tab ent s') s) /\
  (no_zombie s p -> childless s p \/ p_killed (proc_at s p) = true -> wait s = Ret (-1) s) /\
  (no_zombie s p -> ~ childless s p -> p_killed (proc_at s p) = false ->
    exists s', wait s = Slept (Some (Ch_proc p)) s' /\ procs s' = alter (slept (Ch_proc p)) p (procs s)).
Proof.
  intros Hcur Hh. assert (L_ptable ∉ held s) as Hpt by (rewrite Hh; apply not_elem_of_nil). split; [|split].
  - intros l j x tab ent Hz He. by eapply wait_reaps_spec.
  - intros Hz Hn. by eapply wait_none.
  - intros Hz Hn Hk. eexists. split; [by apply wait_sleeps|done].
Qed.

(** What [fork] took, [wait] gives back. *)
Theorem fork_wait_conserves `{LK : Linker} (l l1 : list Z) (k d : Z) (tab ent : Z -> option Z) (s s' : kstate) (j : nat) (x : proc) :
  (forall w, w ∈ l <-> w = k \/ w ∈ l1 \/ uses d tab ent w) -> p_kstack x = k -> p_pgdir x = d -> reap_outcome l1 s j x tab ent s' ->
  exists l2, kmem_ok l2 s' /\ forall w, w ∈ l2 <-> w ∈ l.
Proof. intros Hl <- <- [_ (l' & Hk & Hp) _ _]. exists l'. split; [done|]. intros w. rewrite Hp, Hl. naive_solver. Qed.

(** Free slots have pid 0, so [kill(0)] finds one; the next process made there is born killed. *)
Theorem kill_zero_dooms_next `{LK : Linker} `{SY : Symbols} (L : linked) (s : kstate) (l : list Z) (k : Z) (i : nat) (x : proc) :
  kmem_ok (k :: l) s -> held s = [] -> unused s i x -> list_find (fun p => p_pid p = 0) (take NPROC (procs s)) = Some (i, x) ->
  exists s1 s2 y, kill 0 s = Ret 0 s1 /\ allocproc s1 = Ret (Some i) s2 /\ procs s2 !! i = Some y /\ p_killed y = true.
Proof.
  intros Hk Hh Hu Hf. set (s1 := set_procs (alter (set_p_killed true) i (procs s)) s). pose proof Hu as (Hi & Hx & Hfirst)%list_find_Some.
  apply lookup_take_Some in Hi as [Hi Hlt].
  assert (kill 0 s = Ret 0 s1) as Hkill.
  { unfold kill. etrans; [eapply bind_eq; apply acquire_eq; rewrite Hh; apply not_elem_of_nil|]. cbv beta. etrans; [eapply bind_eq; reflexivity|]. cbv beta.
    change (procs (set_held _ s)) with (procs s). rewrite Hf. etrans; [eapply bind_eq; reflexivity|]. cbv beta. rewrite bool_decide_false by (by rewrite Hx).
    etrans; [eapply bind_eq; reflexivity|]. cbv beta. etrans; [eapply bind_eq; apply (release_top _ []); [cbn; by rewrite Hh|apply not_elem_of_nil]|]. unfold ret, s1. by destruct s; cbn in *; subst. }
  assert (unused s1 i (set_p_killed true x)) as Hu1.
  { apply list_find_Some. change (procs s1) with (alter (set_p_killed true) i (procs s)). split_and!; [by rewrite lookup_take_lt, list_lookup_alter_eq, Hi|done|].
    intros j y Hj Hji. apply (Hfirst j); [|done]. apply lookup_take_Some in Hj as [Hj ?]. rewrite list_lookup_alter_ne in Hj by lia. by rewrite lookup_take_lt by lia. }
  destruct (allocproc_takes s1 l k i (set_p_killed true x)) as (s2 & P & Ha & _ & _ & Hp & _); [by destruct Hk; constructor|change (held s1) with (held s); rewrite Hh; apply not_elem_of_nil|done|].
  exists s1, s2. eexists. split_and!; [done|done| |].
  - rewrite Hp, list_lookup_alter_eq. change (procs s1) with (alter (set_p_killed true) i (procs s)). rewrite list_lookup_alter_eq, Hi. reflexivity.
  - done.
Qed.

#[local] Existing Instance vm_linker.

(** A parent with a child that has exited. *)
Definition demo_reaper (pg : Z) (s : kstate) : kstate :=
  set_held [] (set_cur (Some 0%nat) (set_procs [null_proc; set_p_parent (Some 0%nat) (set_p_pid 7 (set_p_state ZOMBIE (set_p_pgdir pg (set_p_kstack 2200002560 null_proc))))] s)).

Lemma wait_reaps_witness : exists s s', wait s = Ret 7 s' /\ p_state (proc_at s' 1) = UNUSED.
Proof.
  destruct demo_process as (l & s & pg & tab & ent & [Hvm _] & _ & _ & Hr & _).
  assert (2200002560 ∉ l /\ ~ uses pg tab ent 2200002560) as [Hl Hu] by (split; intros Hc; [specialize (Hr _ (or_introl Hc))|specialize (Hr _ (or_intror Hc))]; lia).
  destruct (wait_reaps vm_linked (demo_reaper pg s) 0 eq_refl eq_refl) as [Hw _].
  set (x := set_p_parent (Some 0%nat) (set_p_pid 7 (set_p_state ZOMBIE (set_p_pgdir pg (set_p_kstack 2200002560 null_proc))))).
  destruct (wp_inv _ _ _ (Hw l 1%nat x tab ent ltac:(reflexivity) ltac:(split; [|by vm_compute|exact Hl|exact Hu];
    eapply vm_frame_mem; [exact Hvm|destruct (dr_free _ _ _ _ _ (vm_dir _ _ _ _ _ Hvm)); constructor; [apply not_elem_of_nil|done|done]|intros w Hw'; by apply (vm_uses _ _ _ _ _ _ Hvm)|done])))
    as (r & s' & Hr' & -> & [Hs _ _ _]).
  exists (demo_reaper pg s), s'. split; [exact Hr'|]. unfold proc_at. rewrite Hs. reflexivity.
Defined.
