(* ===== verification/History.v ===== *)
(** * History: the command history and completion of the console *)

From stdpp Require Import base gmap list strings.
From Stdlib Require Import ZArith Lia.
From S2P Require Import Prelude State Core Console ConsoleOut.

Local Open Scope Z_scope.
Local Open Scope kernel_scope.

(** ** C strings in arrays *)

Lemma cstr_in_app h t : Forall (fun c => c <> 0) h -> cstr_in (h ++ 0 :: t) = Some h.
Proof.
  induction 1 as [|c h Hc _ IH]; [done|]. simpl. rewrite (proj2 (Z.eqb_neq _ _)) by done. by rewrite IH.
Qed.

Lemma cstr_in_spec l h : cstr_in l = Some h -> Forall (fun c => c <> 0) h /\ exists t, l = h ++ 0 :: t.
Proof.
  revert h. induction l as [|c l IH]; intros h; [done|]. simpl. destruct (Z.eqb_spec c 0) as [->|Hc].
  - intros [= <-]. split; [done|]. by exists l.
  - destruct (cstr_in l) as [h'|]; [|done]. intros [= <-]. destruct (IH h' eq_refl) as [Hf [t ->]].
    split; [by constructor|]. by exists t.
Qed.

Lemma cstr_in_length l h : cstr_in l = Some h -> (length h < length l)%nat.
Proof. intros Hh. apply cstr_in_spec in Hh as [_ [t ->]]. rewrite length_app. simpl. lia. Qed.

(** A string stored at the start of an array. *)
Lemma cstr_in_splice h l :
  Forall (fun c => c <> 0) h -> (length h < length l)%nat ->
  length (splice 0 (h ++ [0]) l) = length l /\ cstr_in (splice 0 (h ++ [0]) l) = Some h.
Proof.
  intros Hf Hl. split; [apply length_splice; rewrite length_app; simpl; lia|].
  unfold splice. simpl. rewrite <- app_assoc. by apply cstr_in_app.
Qed.

Definition holds_string (h row : list Z) : Prop := length row = 128%nat /\ cstr_in row = Some h.

(** [cmd_history] holds the commands [H], the latest first. *)
Definition hist (H : list (list Z)) (x : consstate) : Prop :=
  length H = 15%nat /\ Forall2 holds_string H (cmd_history x).

Lemma holds_nonzero h row : holds_string h row -> Forall (fun c => c <> 0) h /\ (length h < 128)%nat.
Proof.
  intros [Hl Hc]. split; [by apply cstr_in_spec in Hc as [Hf _]|]. apply cstr_in_length in Hc. lia.
Qed.

Lemma hist_lookup H x i h :
  hist H x -> H !! i = Some h -> exists row, cmd_history x !! i = Some row /\ holds_string h row.
Proof. intros [_ Hf] Hh. by eapply Forall2_lookup_l in Hf. Qed.

Lemma hist_put H x i h :
  hist H x -> (i < 15)%nat -> Forall (fun c => c <> 0) h -> (length h < 128)%nat ->
  hist (<[i := h]> H) (set_cmd_history (alter (splice 0 (h ++ [0])) i (cmd_history x)) x).
Proof.
  intros [Hl Hf] Hi Hnz Hlen. split; [by rewrite length_insert|]. cbn [cmd_history set_cmd_history].
  destruct (lookup_lt_is_Some_2 (cmd_history x) i) as [row E]; [rewrite <- (Forall2_length _ _ _ Hf); lia|].
  rewrite (alter_as_insert _ _ _ row E). apply Forall2_insert; [done|].
  destruct (Forall2_lookup_r _ _ _ _ _ Hf E) as (h0 & _ & [Hr _]).
  destruct (cstr_in_splice h row Hnz ltac:(lia)) as [Hl' Hc']. split; [lia|done].
Qed.

Lemma put_history_eq i h s :
  (length h < 128)%nat ->
  put_history i h s =
    Ret tt (set_console (set_cmd_history (alter (splice 0 (h ++ [0])) i (cmd_history (console s))) (console s)) s).
Proof. intros Hl. unfold put_history. by rewrite decide_True. Qed.

(** ** save_command *)

(** An entry that is empty or starts with a blank does not move. *)
Definition stays (h : list Z) : bool := match h with [] => true | c :: _ => c =? 32 end.
Definition shifted (h h' : list Z) : list Z := if stays h then h' else h.

(** The history after a command. *)
Definition push_command (cmd : list Z) (H : list (list Z)) : list (list Z) :=
  cmd :: zip_with shifted (take 14 H) (drop 1 H).

(** The entries after the rounds 13, ..., k of the loop. *)
Definition shift_from (k : nat) (H : list (list Z)) : list (list Z) :=
  imap (fun j h => if decide (j <= k)%nat then h else shifted (default [] (H !! (j - 1)%nat)) h) H.

Lemma shift_from_lookup k H j :
  shift_from k H !! j =
    (fun h => if decide (j <= k)%nat then h else shifted (default [] (H !! (j - 1)%nat)) h) <$> H !! j.
Proof. unfold shift_from. apply list_lookup_imap. Qed.

Lemma length_shift_from k H : length (shift_from k H) = length H.
Proof. apply length_imap. Qed.

Lemma shift_from_step i H h :
  H !! i = Some h ->
  shift_from i H = if stays h then shift_from (S i) H else <[S i := h]> (shift_from (S i) H).
Proof.
  intros Hh. apply list_eq. intros j.
  assert ((if stays h then shift_from (S i) H else <[S i := h]> (shift_from (S i) H)) !! j
    = if decide (j = S i) then (fun h' => shifted h h') <$> H !! j else shift_from (S i) H !! j) as ->.
  { destruct (decide (j = S i)) as [->|Hne].
    - unfold shifted. destruct (stays h) eqn:E.
      + rewrite shift_from_lookup. destruct (H !! S i); [|done]. simpl. by rewrite decide_True by lia.
      + destruct (H !! S i) eqn:E'; simpl.
        * apply list_lookup_insert_eq. rewrite length_shift_from. by eapply lookup_lt_Some.
        * apply lookup_ge_None_2. rewrite length_insert, length_shift_from. by apply lookup_ge_None_1.
    - destruct (stays h); [done|]. by rewrite list_lookup_insert_ne by done. }
  rewrite !shift_from_lookup. destruct (decide (j = S i)) as [->|Hne].
  - destruct (H !! S i); [|done]. simpl. rewrite decide_False by lia. by rewrite Nat.sub_0_r, Hh.
  - destruct (H !! j); [|done]. simpl. destruct (decide (j <= i)%nat), (decide (j <= S i)%nat); done || lia.
Qed.

Lemma push_command_shift cmd H : length H = 15%nat -> push_command cmd H = <[0%nat := cmd]> (shift_from 0 H).
Proof.
  intros Hl. do 15 (destruct H as [|? H]; [done|]). by destruct H.
Qed.

(** The frame of the history's operations. *)
Definition same_but_history (x x' : consstate) : Prop := x' = set_cmd_history (cmd_history x') x.

Lemma same_but_history_trans x y z : same_but_history x y -> same_but_history y z -> same_but_history x z.
Proof. unfold same_but_history. intros -> ->. done. Qed.

Lemma save_round H n s :
  (n < 14)%nat -> length H = 15%nat -> hist (shift_from (S n) H) (console s) ->
  exists x, (row <- history n ;;
    if bool_decide (head row = Some 32) then ret tt
    else h <- in_bounds (cstr_in row) ;; match h with [] => ret tt | _ => put_history (n + 1) h end) s
    = Ret tt (set_console x s) /\ hist (shift_from n H) x /\ same_but_history (console s) x.
Proof.
  intros Hn Hl Hh. destruct (lookup_lt_is_Some_2 H n ltac:(lia)) as [h Hhn].
  destruct (hist_lookup (shift_from (S n) H) (console s) n h Hh) as (row & Hrow & Hs).
  { rewrite shift_from_lookup, Hhn. simpl. by rewrite decide_True by lia. }
  pose proof (holds_nonzero _ _ Hs) as [Hnz Hlen]. destruct Hs as [Hr Hc]. pose proof (shift_from_step n H h Hhn) as Hst.
  unfold history. unfold bind at 1, bind at 1, get at 1. rewrite Hrow. unfold in_bounds at 1, ret at 1.
  assert (head row = Some 32 <-> exists h', h = 32 :: h') as Hhd.
  { apply cstr_in_spec in Hc as [_ [t ->]]. destruct h as [|c h]; simpl; [split; [done|by intros [? ?]]|].
    split; [intros [= ->]; by exists h|by intros [? [= -> ->]]]. }
  destruct (stays h) eqn:E.
  - exists (console s). rewrite Hst. split; [|split; [done|by destruct (console s)]].
    case_bool_decide as Hb; [by destruct s|]. rewrite Hc. destruct h as [|c h]; [by destruct s|].
    simpl in E. apply Z.eqb_eq in E. subst c. destruct Hb. apply Hhd. by exists h.
  - rewrite bool_decide_false. 2:{ rewrite Hhd. intros [h' ->]. done. }
    eexists. split; [|split; [rewrite Hst; apply (hist_put _ _ (S n) h Hh); [lia|done..]|]].
    + rewrite Hc. destruct h as [|c h]; [done|]. unfold bind, in_bounds, ret. rewrite Nat.add_1_r. by apply put_history_eq.
    + done.
Qed.

Lemma save_loop H n s :
  (n <= 14)%nat -> length H = 15%nat -> hist (shift_from n H) (console s) ->
  exists x, for_each (rev (seq 0 n)) (fun i =>
    row <- history i ;;
    if bool_decide (head row = Some 32) then ret tt
    else h <- in_bounds (cstr_in row) ;; match h with [] => ret tt | _ => put_history (i + 1) h end) s
    = Ret tt (set_console x s) /\ hist (shift_from 0 H) x /\ same_but_history (console s) x.
Proof.
  revert s. induction n as [|n IH]; intros s Hn Hl Hh.
  - exists (console s). split; [by destruct s|]. split; [done|by destruct (console s)].
  - rewrite seq_S, rev_app_distr. cbn [rev app for_each]. rewrite Nat.add_0_l.
    destruct (save_round H n s ltac:(lia) Hl Hh) as (x & Hx & Hhx & Hsx).
    destruct (IH (set_console x s) ltac:(lia) Hl Hhx) as (y & Hy & Hhy & Hsy).
    exists y. split; [|split; [done|by eapply same_but_history_trans]].
    unfold bind at 1. rewrite Hx. exact Hy.
Qed.

Lemma save_command_spec cmd H s :
  hist H (console s) -> Forall (fun c => c <> 0) cmd -> (length cmd < 128)%nat ->
  exists x, save_command cmd s = Ret tt (set_console x s) /\ hist (push_command cmd H) x /\ same_but_history (console s) x.
Proof.
  intros Hh Hnz Hlen. pose proof Hh as [Hl _].
  destruct (save_loop H 14 s ltac:(lia) Hl) as (x & Hx & Hhx & Hsx).
  { replace (shift_from 14 H) with H; [done|]. do 15 (destruct H as [|? H]; [done|]). by destruct H. }
  exists (set_cmd_history (alter (splice 0 (cmd ++ [0])) 0%nat (cmd_history x)) x). split; [|split].
  - unfold save_command. unfold bind at 1. rewrite Hx. by rewrite put_history_eq.
  - rewrite push_command_shift by done. apply hist_put; [done|lia|done|done].
  - by eapply same_but_history_trans.
Qed.

(** [save_command] puts the command first and moves every other entry down by one,
    dropping the fifteenth, except that an entry that is empty or starts with a blank
    stays out: its successor keeps its place. *)
Theorem save_command_pushes (cmd : list Z) (H : list (list Z)) (s : kstate)
    (Hh : hist H (console s)) (Hnz : Forall (fun c => c <> 0) cmd) (Hlen : (length cmd < 128)%nat) :
  exists x, save_command cmd s = Ret tt (set_console x s) /\ same_but_history (console s) x
  /\ hist (push_command cmd H) x
  /\ (Forall (fun h => stays h = false) (take 14 H) -> push_command cmd H = cmd :: take 14 H).
Proof.
  destruct (save_command_spec cmd H s Hh Hnz Hlen) as (x & Hx & Hhx & Hsx).
  exists x. split_and!; [done..|]. intros Hall. unfold push_command. f_equal.
  destruct Hh as [Hl _]. apply list_eq. intros i. rewrite lookup_zip_with.
  destruct (take 14 H !! i) as [h|] eqn:E; [|done]. simpl. rewrite lookup_drop.
  assert (i < 14)%nat as Hi by (apply lookup_lt_Some in E; rewrite length_take in E; lia).
  destruct (lookup_lt_is_Some_2 H (1 + i) ltac:(lia)) as [h' ->]. simpl. unfold shifted.
  by rewrite (Forall_lookup_1 _ _ _ _ Hall E).
Qed.

Lemma hist_null : hist (replicate 15 []) null_console.
Proof. split; [done|]. apply Forall2_replicate. split; [done|by vm_compute]. Qed.

Lemma save_command_pushes_witness :
  exists x, save_command (lit "ls") full_screen = Ret tt (set_console x full_screen) /\
    hist (lit "ls" :: replicate 14 []) x.
Proof.
  destruct (save_command_pushes (lit "ls") (replicate 15 []) full_screen) as (x & Hx & _ & Hh & _).
  - exact hist_null.
  - repeat (constructor; [done|]). constructor.
  - vm_compute. lia.
  - exists x. split; [exact Hx|exact Hh].
Defined.

(** ** Completion *)

Lemma matches_spec r h : matches r h = true <-> r `prefix_of` h.
Proof.
  revert h. induction r as [|a r IH]; intros h; simpl; [split; [intros _; apply prefix_nil|done]|].
  destruct h as [|b h]; [split; [done|intros Hp; by apply prefix_nil_inv in Hp]|].
  rewrite andb_true_iff, Z.eqb_eq, IH. split.
  - intros [-> Hp]. by apply prefix_cons.
  - intros Hp. split; [by apply prefix_cons_inv_1 in Hp|by apply prefix_cons_inv_2 in Hp].
Qed.

(** What [search] computes. *)
Definition complete_with (H : list (list Z)) (r : list Z) : list Z :=
  foldl (fun r h => if matches r h then h else r) r H.

Lemma complete_with_spec H r :
  r `prefix_of` complete_with H r
  /\ (complete_with H r = r \/ complete_with H r ∈ H)
  /\ (forall h, h ∈ H -> complete_with H r `prefix_of` h -> h = complete_with H r).
Proof.
  revert r. induction H as [|g H IH]; intros r; cbn [complete_with foldl].
  - split_and!; [done|by left|]. intros h Hh. by apply elem_of_nil in Hh.
  - fold (complete_with H (if matches r g then g else r)).
    destruct (IH (if matches r g then g else r)) as (Hp & He & Hm).
    set (res := complete_with H (if matches r g then g else r)) in *. destruct (matches r g) eqn:E.
    + apply matches_spec in E. split_and!; [by etransitivity|right; destruct He as [->|He]; [by left|by right]|].
      intros h [->|Hh]%elem_of_cons Hph; [|by apply Hm]. apply (anti_symm prefix); done.
    + split_and!; [done|destruct He; [by left|by right; right]|].
      intros h [->|Hh]%elem_of_cons Hph; [|by apply Hm].
      exfalso. rewrite <- not_true_iff_false, matches_spec in E. apply E. by etransitivity.
Qed.

Lemma put_result_eq h s :
  (length h < 128)%nat ->
  put_result h s =
    Ret tt (set_console (set_complete_result (splice 0 (h ++ [0]) (complete_result (console s))) (console s)) s).
Proof. intros Hl. unfold put_result. by rewrite decide_True. Qed.

Definition same_but_result (x x' : consstate) : Prop := x' = set_complete_result (complete_result x') x.

Lemma search_loop H n m r s :
  length H = 15%nat -> (m + n = 15)%nat -> hist H (console s) -> holds_string r (complete_result (console s)) ->
  exists x, for_each (seq m n) (fun i =>
    r <- get (fun s => cstr_in (complete_result (console s))) ;;
    r <- in_bounds r ;;
    row <- history i ;;
    h <- in_bounds (cstr_in row) ;;
    if matches r h then put_result h else ret tt) s = Ret tt (set_console x s)
  /\ holds_string (complete_with (drop m H) r) (complete_result x) /\ same_but_result (console s) x.
Proof.
  intros Hl. revert m r s. induction n as [|n IH]; intros m r s Hm Hh Hr.
  - exists (console s). rewrite drop_ge by lia. split; [by destruct s|]. split; [done|by destruct (console s)].
  - cbn [seq for_each]. destruct (lookup_lt_is_Some_2 H m ltac:(lia)) as [h Hhm].
    rewrite (drop_S _ _ _ Hhm). cbn [complete_with foldl].
    fold (complete_with (drop (S m) H) (if matches r h then h else r)).
    destruct (hist_lookup _ _ _ _ Hh Hhm) as (row & Hrow & Hs). pose proof (holds_nonzero _ _ Hs) as [Hnz Hlen].
    set (y := if matches r h
      then set_complete_result (splice 0 (h ++ [0]) (complete_result (console s))) (console s) else console s).
    destruct (IH (S m) (if matches r h then h else r) (set_console y s) ltac:(lia)) as (x & Hx & Hhx & Hsx).
    { unfold y. by destruct (matches r h). }
    { unfold y. destruct (matches r h); [|done]. cbn. destruct Hr as [Hr _].
      destruct (cstr_in_splice h (complete_result (console s)) Hnz ltac:(lia)) as [Hl' Hc']. split; [lia|done]. }
    exists x. split; [|split; [done|]].
    + transitivity (Ret (C := option chan) tt (set_console x (set_console y s))); [|done].
      rewrite <- Hx. clear Hx. unfold bind at 1. unfold bind at 1, get at 1. destruct Hr as [_ Hc]. rewrite Hc.
      unfold bind at 1, in_bounds at 1, ret at 1. unfold bind at 1, history, bind at 1, get at 1. rewrite Hrow.
      unfold in_bounds at 1, ret at 1. unfold bind at 1. destruct Hs as [_ Hs]. rewrite Hs. unfold in_bounds, ret at 1.
      subst y. destruct (matches r h); [by rewrite put_result_eq by done|]. unfold ret. by destruct s.
    + unfold same_but_result in *. rewrite Hsx. unfold y. by destruct (matches r h).
Qed.

Lemma search_spec H r s :
  hist H (console s) -> holds_string r (complete_result (console s)) ->
  exists x, search s = Ret tt (set_console x s)
  /\ holds_string (complete_with H r) (complete_result x) /\ same_but_result (console s) x.
Proof. intros Hh Hr. apply (search_loop H 15 0 r s); [by destruct Hh|done..]. Qed.

(** completion is by the history: the result of [search] extends what was typed, is
    a command of the history unless it is what was typed, and no command of the
    history extends it further. *)
Theorem search_completes (H : list (list Z)) (r : list Z) (s : kstate)
    (Hh : hist H (console s)) (Hr : holds_string r (complete_result (console s))) :
  exists x res, search s = Ret tt (set_console x s) /\ same_but_result (console s) x
  /\ cstr_in (complete_result x) = Some res
  /\ r `prefix_of` res /\ (res = r \/ res ∈ H) /\ (forall h, h ∈ H -> res `prefix_of` h -> h = res).
Proof.
  destruct (search_spec H r s Hh Hr) as (x & Hx & [_ Hc] & Hs).
  destruct (complete_with_spec H r) as (Hp & He & Hm). exists x, (complete_with H r). by split_and!.
Qed.

(** After [ls] and [cat README] the letter [c] is completed. *)
Definition two_commands : kstate :=
  match (save_command (lit "ls") ;;; save_command (lit "cat README") ;;; put_result (lit "c")) full_screen with
  | Ret _ s => s
  | _ => full_screen
  end.
Lemma search_completes_witness :
  exists x res, search two_commands = Ret tt (set_console x two_commands) /\
    cstr_in (complete_result x) = Some res /\ lit "c" `prefix_of` res /\ res <> lit "c".
Proof.
  assert (hist (lit "cat README" :: lit "ls" :: replicate 13 []) (console two_commands)) as Hh.
  { split; [done|]. vm_compute. repeat (constructor; [by split|]). constructor. }
  destruct (search_completes _ (lit "c") two_commands Hh ltac:(by vm_compute)) as (x & res & Hx & _ & Hc & Hp & _ & Hm).
  exists x, res. split_and!; [exact Hx|exact Hc|exact Hp|]. intros ->.
  specialize (Hm (lit "cat README") ltac:(left) ltac:(by exists (lit "at README"))). discriminate Hm.
Defined.
