(* ===== verification/Editor.v ===== *)
(** * Editor: the console's line editor refines an editor of two lists

    [input] holds the characters ready to be read, [P], and the line being edited,
    [L], in a ring of 128 characters with three counters.  The keys act on the lists:
    a character is added to [L], backspace drops the last one, ^U all, ^N the digits,
    ^R reverses the line; return, ^D or a full ring moves [L] to the end of [P]. *)

From stdpp Require Import base gmap list strings.
From Stdlib Require Import ZArith Lia.
From S2P Require Import Prelude State Core Bio Cache Console ConsoleOut History.

Local Open Scope Z_scope.
Local Open Scope kernel_scope.

(** ** The ring *)

Definition slot (i : Z) : nat := Z.to_nat (i mod INPUT_BUF).

Record queue (P L : list Z) (x : consstate) : Prop := {
  q_len : length (in_buf x) = 128%nat;
  q_r : 0 <= in_r x;
  q_w : in_w x = in_r x + Z.of_nat (length P);
  q_e : in_e x = in_w x + Z.of_nat (length L);
  q_max : in_e x < 2 ^ 31;
  q_fit : (length P + length L <= 128)%nat;
  q_buf i c : (P ++ L) !! i = Some c -> in_buf x !! slot (in_r x + Z.of_nat i) = Some c
}.

Lemma queue_wrote P L bs x x' : wrote bs x x' -> queue P L x -> queue P L x'.
Proof. intros [He _] [???????]. rewrite He. by split. Qed.

Lemma ring_slot_lt i : (slot i < 128)%nat.
Proof. unfold slot, INPUT_BUF. pose proof (Z.mod_pos_bound i 128 ltac:(lia)). lia. Qed.

(** Characters less than 128 apart are in different places. *)
Lemma ring_slot_inj i j : slot i = slot j -> i - 128 < j < i + 128 -> i = j.
Proof.
  unfold slot, INPUT_BUF. intros Hs Hij. pose proof (Z.mod_pos_bound i 128 ltac:(lia)).
  pose proof (Z.mod_pos_bound j 128 ltac:(lia)). apply Z2Nat.inj in Hs; [|lia..].
  pose proof (Z.div_mod i 128 ltac:(lia)). pose proof (Z.div_mod j 128 ltac:(lia)). lia.
Qed.

Lemma u32_31 z : 0 <= z < 2 ^ 31 -> u32 z = z.
Proof. intros Hz. apply u32_small. lia. Qed.

Lemma queue_push P L x c :
  queue P L x -> (length P + length L < 128)%nat -> in_e x + 1 < 2 ^ 31 ->
  queue P (L ++ [c]) (set_in_e (in_e x + 1) (set_in_buf (<[slot (in_e x) := c]> (in_buf x)) x)).
Proof.
  intros [Hl Hr Hw He Hm Hf Hb] Hroom Hmax. split; cbn [in_buf in_r in_w in_e set_in_e set_in_buf]; try done.
  - by rewrite length_insert.
  - rewrite length_app. simpl. lia.
  - rewrite length_app. simpl. lia.
  - intros i d. rewrite app_assoc. rewrite lookup_app_Some. intros [Hi|[Hi Hd]].
    + rewrite list_lookup_insert_ne; [by apply Hb|]. intros Hs. apply lookup_lt_Some in Hi.
      rewrite length_app in Hi. apply ring_slot_inj in Hs; lia.
    + rewrite length_app in *. apply list_lookup_singleton_Some in Hd as [Hd ->].
      replace (in_r x + Z.of_nat i) with (in_e x) by lia. apply list_lookup_insert_eq. rewrite Hl. apply ring_slot_lt.
Qed.

Lemma queue_pop P L x c : queue P (L ++ [c]) x -> queue P L (set_in_e (in_e x - 1) x).
Proof.
  intros [Hl Hr Hw He Hm Hf Hb]. rewrite length_app in *. simpl in *. split; cbn; try lia; try done.
  intros i d Hd. apply Hb. rewrite app_assoc. apply lookup_app_l_Some. done.
Qed.

Lemma queue_commit P L x : queue P L x -> queue (P ++ L) [] (set_in_w (in_e x) x).
Proof.
  intros [Hl Hr Hw He Hm Hf Hb]. split; cbn; try done.
  - rewrite length_app. lia.
  - lia.
  - rewrite length_app. lia.
  - intros i d. rewrite app_nil_r. apply Hb.
Qed.

(** The next character to read. *)
Lemma queue_take c P L x :
  queue (c :: P) L x -> ubuf x (in_r x) = Some c /\ queue P L (set_in_r (in_r x + 1) x).
Proof.
  intros [Hl Hr Hw He Hm Hf Hb]. simpl in *. split.
  - specialize (Hb 0%nat c eq_refl). by rewrite Z.add_0_r in Hb.
  - split; cbn; try lia; try done. intros i d Hd. specialize (Hb (S i) d Hd).
    by replace (in_r x + 1 + Z.of_nat i) with (in_r x + Z.of_nat (S i)) by lia.
Qed.

(** ** Reading the line *)

Lemma sbuf_slot x i : 0 <= i < 2 ^ 31 -> sbuf x i = in_buf x !! slot i.
Proof.
  intros Hi. unfold sbuf. rewrite i32_small by lia. rewrite Z.rem_mod_nonneg by (unfold INPUT_BUF; lia).
  pose proof (Z.mod_pos_bound i INPUT_BUF ltac:(unfold INPUT_BUF; lia)). by rewrite (proj2 (Z.ltb_ge _ _)) by lia.
Qed.

Lemma queue_line_char P L x k c : queue P L x -> L !! k = Some c -> sbuf x (in_w x + Z.of_nat k) = Some c.
Proof.
  intros [Hl Hr Hw He Hm Hf Hb] Hk. pose proof (lookup_lt_Some _ _ _ Hk). rewrite sbuf_slot by lia.
  rewrite Hw. rewrite <- Z.add_assoc, <- Nat2Z.inj_add. apply Hb. by rewrite lookup_app_r, Nat.add_comm, Nat.add_sub by lia.
Qed.

Lemma line_from_spec P L x n : queue P L x -> (n <= length L)%nat -> line_from x n = Some (take n L).
Proof.
  intros Hq Hn. unfold line_from. apply mapM_Some_2. apply Forall2_same_length_lookup_2.
  - rewrite length_seq, length_take. lia.
  - intros k i c Hi Hc. apply lookup_seq in Hi as [-> Hk]. apply lookup_take_Some in Hc as [Hc _].
    by eapply queue_line_char.
Qed.

Lemma line_spec P L x : queue P L x -> line x = Some L.
Proof.
  intros Hq. unfold line. destruct Hq as [? ? ? He] eqn:E. rewrite He.
  replace (Z.to_nat _) with (length L) by lia. rewrite <- (firstn_all L) at 2. by apply (line_from_spec P).
Qed.

(** ** The editor *)

Definition char_ok (c : Z) : Prop := 0 < c < 256 /\ c <> 10.

(** [r] characters have been read. *)
Record editor (r : Z) (P L : list Z) (H : list (list Z)) (x : consstate) : Prop := {
  ed_r : in_r x = r;
  ed_queue : queue P L x;
  ed_line : Forall char_ok L;
  ed_hist : hist H x;
  ed_screen : screen_ok x;
  ed_live : panicked x = false
}.

Lemma editor_e r P L H x : editor r P L H x -> in_e x = r + Z.of_nat (length P) + Z.of_nat (length L).
Proof. intros [Hr [] _ _ _ _]. lia. Qed.

Lemma editor_wrote r P L H bs x x' : wrote bs x x' -> editor r P L H x -> editor r P L H x'.
Proof.
  intros Hw [Hr Hq Hl Hh _ Hp]. split; [|by eapply queue_wrote|done| |by destruct Hw|]; destruct Hw as [-> _]; done.
Qed.

(** [m] edits the console of [s] to [P], [L], [H] and changes nothing else. *)
Definition edits (m : KM unit) (s : kstate) r P L H : Prop :=
  exists x, m s = Ret tt (set_console x s) /\ editor r P L H x.

Lemma edits_ret s r P L H : editor r P L H (console s) -> edits (ret tt) s r P L H.
Proof. intros He. exists (console s). split; [by destruct s|done]. Qed.

Lemma edits_seq (m m' : KM unit) s x r P L H :
  m s = Ret tt (set_console x s) -> edits m' (set_console x s) r P L H -> edits (m ;;; m') s r P L H.
Proof. intros Hm (y & Hy & He). exists y. split; [|done]. unfold bind. by rewrite Hm, Hy. Qed.

Lemma edits_upd f (m : KM unit) s r P L H :
  edits m (set_console (f (console s)) s) r P L H -> edits (upd_cons f ;;; m) s r P L H.
Proof. by apply edits_seq. Qed.

Lemma edits_consputc c s r P L H : editor r P L H (console s) -> edits (consputc c) s r P L H.
Proof.
  intros He. destruct (consputc_eq c s (ed_screen _ _ _ _ _ He) (ed_live _ _ _ _ _ He)) as (x & Hx & Hw).
  exists x. split; [done|by eapply editor_wrote].
Qed.

Lemma edits_erase_one s r P L H c : editor r P (L ++ [c]) H (console s) -> edits erase_one s r P L H.
Proof.
  intros [Hr Hq Hl Hh Hs Hp]. apply edits_upd, edits_consputc. cbn [console set_console].
  pose proof (queue_pop _ _ _ _ Hq) as Hq'. destruct Hq. rewrite length_app in *. simpl in *.
  rewrite u32_31 by lia. apply Forall_app in Hl as [Hl _]. split; done.
Qed.

Lemma last_char P L c x : queue P (L ++ [c]) x -> in_e x <> in_w x /\ ubuf x (u32 (in_e x - 1)) = Some c.
Proof.
  intros [Hl Hr Hw He Hm Hf Hb]. rewrite length_app in *. simpl in *. split; [lia|].
  rewrite u32_31 by lia. unfold ubuf. replace (in_e x - 1) with (in_r x + Z.of_nat (length P + length L)) by lia.
  apply Hb. rewrite app_assoc, lookup_app_r; rewrite !length_app; [|lia]. by rewrite Nat.sub_diag.
Qed.

Lemma edits_kill_loop s r P L H :
  editor r P L H (console s) -> edits (erase_loop (fun _ => erase_one) (length L) tt) s r P [] H.
Proof.
  revert s. induction L as [|c L IH] using rev_ind; intros s He; [by apply edits_ret|].
  rewrite length_app, Nat.add_1_r. cbn [erase_loop].
  destruct (last_char _ _ _ _ (ed_queue _ _ _ _ _ He)) as [Hne Hc].
  destruct (edits_erase_one _ _ _ _ _ _ He) as (y & Hy & Hey).
  destruct (IH (set_console y s) Hey) as (x & Hx & Hex). exists x. split; [|done].
  unfold bind at 1, get at 1. rewrite (proj2 (Z.eqb_neq _ _)), Hc by done. unfold bind at 1, in_bounds, ret at 1.
  pose proof (ed_line _ _ _ _ _ He) as Hl. apply Forall_app in Hl as [_ Hl]. apply Forall_singleton in Hl as [_ Hl].
  rewrite (proj2 (Z.eqb_neq _ _)) by done. unfold bind. by rewrite Hy.
Qed.

Lemma edits_kill_line s r P L H : editor r P L H (console s) -> edits kill_line s r P [] H.
Proof.
  intros He. destruct (edits_kill_loop s r P L H He) as (x & Hx & Hex). exists x. split; [|done].
  unfold kill_line, erase. unfold bind at 1, get at 1. destruct (ed_queue _ _ _ _ _ He). rewrite u32_31 by lia.
  replace (Z.to_nat _) with (length L) by lia. exact Hx.
Qed.

(** One character of [rewrite_line]. *)
Lemma edits_rewrite_one s r P L H c :
  editor r P L H (console s) -> char_ok c -> (length P + length L < 128)%nat -> in_e (console s) + 1 < 2 ^ 31 ->
  edits (x <- get console ;;
    upd_cons (fun x => set_in_e (u32 (in_e x + 1)) x) ;;;
    put_in (u32 (in_w x + Z.of_nat (length L))) c ;;;
    consputc (sx8 c)) s r P (L ++ [c]) H.
Proof.
  intros [Hr Hq Hl Hh Hs Hp] [Hc Hc10] Hroom Hmax. unfold bind at 1, get at 1.
  apply edits_upd, edits_upd, edits_consputc. cbn [console set_console].
  pose proof (queue_push P L _ c Hq Hroom Hmax) as Hq'. destruct Hq.
  split; [done| |by apply Forall_app_2; [|apply Forall_singleton]|done..].
  rewrite !u32_31 by lia. rewrite <- q_e0. unfold u8. rewrite (Z.mod_small c) by lia. exact Hq'.
Qed.

Lemma edits_rewrite_loop s r P L l H k :
  editor r P L H (console s) -> Forall char_ok l -> (length P + length L + length l <= 128)%nat ->
  k = length L -> in_e (console s) + Z.of_nat (length l) < 2 ^ 31 ->
  edits (for_each (imap (fun i c => ((k + i)%nat, c)) l) (fun ic =>
    x <- get console ;;
    upd_cons (fun x => set_in_e (u32 (in_e x + 1)) x) ;;;
    put_in (u32 (in_w x + Z.of_nat ic.1)) ic.2 ;;;
    consputc (sx8 ic.2))) s r P (L ++ l) H.
Proof.
  revert s L k. induction l as [|c l IH]; intros s L k He Hl Hroom -> Hmax; simpl in Hroom, Hmax.
  - rewrite app_nil_r. by apply edits_ret.
  - apply Forall_cons in Hl as [Hc Hl]. cbn [imap for_each].
    destruct (edits_rewrite_one s r P L H c He Hc ltac:(lia) ltac:(lia)) as (y & Hy & Hey).
    eapply edits_seq; [cbn [fst snd]; rewrite Nat.add_0_r; exact Hy|].
    replace (imap _ l) with (imap (fun i d => ((length (L ++ [c]) + i)%nat, d)) l).
    2:{ apply imap_ext. intros i d _. unfold compose. rewrite length_app. simpl. f_equal. lia. }
    rewrite (cons_middle c L l), app_assoc. apply IH; [done|done|rewrite length_app; simpl; lia|done|].
    cbn [console set_console]. rewrite (editor_e _ _ _ _ _ Hey). rewrite (editor_e _ _ _ _ _ He) in Hmax.
    rewrite length_app. simpl. lia.
Qed.

Lemma edits_rewrite_line s r P l H :
  editor r P [] H (console s) -> Forall char_ok l -> (length P + length l <= 128)%nat ->
  in_e (console s) + Z.of_nat (length l) < 2 ^ 31 -> edits (rewrite_line l) s r P l H.
Proof.
  intros He Hl Hroom Hmax. unfold rewrite_line. rewrite decide_True by lia.
  exact (edits_rewrite_loop s r P [] l H 0%nat He Hl ltac:(simpl; lia) eq_refl Hmax).
Qed.

(** ** The keys on lists *)

Definition estate : Type := list Z * list Z * list (list Z).

(** A character of the line; return (and ^D, or a full ring) ends it. *)
Definition type_key (c : Z) (st : estate) : estate :=
  let '(P, L, H) := st in
  if (c =? 0) || (128 <=? length P + length L)%nat then st
  else
    let c := if c =? 13 then 10 else c in
    if c =? 10 then (P ++ L ++ [10], [], push_command L H)
    else if (c =? 4) || (length P + length L + 1 =? 128)%nat then (P ++ L ++ [c], [], H)
    else (P, L ++ [c], H).

(** A decimal digit, of ASCII. *)
Definition is_digit (c : Z) : bool := bool_decide (48 <= c <= 57).

Definition edit_key (c : Z) (st : estate) : estate :=
  let '(P, L, H) := st in
  if c =? 14 then (P, List.filter (fun c => negb (is_digit c)) L, H)
  else if c =? 18 then (P, rev L, H)
  else if c =? 21 then (P, [], H)
  else if (c =? 8) || (c =? 127) then (P, removelast L, H)
  else type_key c st.

Definition editing (r : Z) (st : estate) (x : consstate) : Prop := editor r st.1.1 st.1.2 st.2 x.

(** A key handled: the console is edited and readers may be woken. *)
Definition handles (m : KM unit) (s : kstate) (r : Z) (st : estate) : Prop :=
  exists x ps, m s = Ret tt (set_procs ps (set_console x s)) /\ editing r st x /\ procs_le (procs s) ps.

Lemma edits_handles m s r P L H : edits m s r P L H -> handles m s r (P, L, H).
Proof. intros (x & Hx & He). exists x, (procs s). by split_and!; [destruct s| |]. Qed.

(** The character in the ring and on the screen. *)
Lemma store_char s r P L H c :
  editor r P L H (console s) -> 0 < c < 256 -> (length P + length L < 128)%nat -> in_e (console s) + 1 < 2 ^ 31 ->
  exists y, (put_in (in_e (console s)) c ;;; upd_cons (fun x => set_in_e (u32 (in_e x + 1)) x) ;;; consputc c) s
    = Ret tt (set_console y s)
  /\ in_r y = r /\ queue P (L ++ [c]) y /\ hist H y /\ screen_ok y /\ panicked y = false.
Proof.
  intros [Hr Hq Hl Hh Hs Hp] Hc Hroom Hmax. pose proof (queue_push P L _ c Hq Hroom Hmax) as Hq'.
  set (z := set_in_e (in_e (console s) + 1) (set_in_buf (<[slot (in_e (console s)) := c]> (in_buf (console s))) (console s))).
  destruct (consputc_eq c (set_console z s) Hs Hp) as (y & Hy & Hw). exists y. split.
  - transitivity (consputc c (set_console z s)); [|exact Hy]. subst z. unfold bind, put_in, upd_cons, modify. cbn [console set_console in_e set_in_buf].
    rewrite u32_31 by (destruct Hq; lia). unfold u8. rewrite (Z.mod_small c) by lia. done.
  - split_and!; [destruct Hw as [-> _]; done|by eapply queue_wrote|destruct Hw as [-> _]; done|by destruct Hw|destruct Hw as [-> _]; done].
Qed.

(** [input.w = input.e; wakeup(&input.r);] *)
Lemma commit_line s r P L H :
  in_r (console s) = r -> queue P L (console s) -> hist H (console s) -> screen_ok (console s) ->
  panicked (console s) = false -> L_ptable ∉ held s ->
  handles (upd_cons (fun x => set_in_w (in_e x) x) ;;; wakeup Ch_input) s r (P ++ L, [], H).
Proof.
  intros Hr Hq Hh Hs Hp Hheld. exists (set_in_w (in_e (console s)) (console s)), (wake Ch_input <$> procs s). split_and!.
  - unfold bind, upd_cons, modify. by rewrite wakeup_eq.
  - split; [done|by apply queue_commit|done..].
  - apply procs_le_wake.
Qed.

Lemma handles_seq (m : KM unit) (k : KM unit) s y r st :
  m s = Ret tt (set_console y s) -> handles k (set_console y s) r st -> handles (m ;;; k) s r st.
Proof. intros Hm (x & ps & Hx & He & Hps). exists x, ps. split; [|done]. unfold bind. by rewrite Hm, Hx. Qed.

Lemma handles_seq3 (m1 m2 m3 k : KM unit) s y r st :
  (m1 ;;; m2 ;;; m3) s = Ret tt (set_console y s) -> handles k (set_console y s) r st ->
  handles (m1 ;;; m2 ;;; m3 ;;; k) s r st.
Proof.
  intros Hm (x & ps & Hx & He & Hps). exists x, ps. split; [|done]. unfold bind in *.
  destruct (m1 s) as [a1 s1| |]; [|done..]. destruct (m2 s1) as [a2 s2| |]; [|done..]. by rewrite Hm, Hx.
Qed.

(** The command that ends with return. *)
Lemma command_string L : (length L < 128)%nat -> Forall (fun c => c <> 0) L ->
  cstr_in (<[length L := 0]> (L ++ replicate (128 - length L) 0)) = Some L.
Proof.
  intros Hl Hnz. destruct (128 - length L)%nat as [|n] eqn:E; [lia|]. cbn [replicate].
  rewrite insert_app_r_alt by lia. rewrite Nat.sub_diag. cbn. by apply cstr_in_app.
Qed.

Lemma chars_nonzero L : Forall char_ok L -> Forall (fun c => c <> 0) L.
Proof. rewrite !Forall_forall. intros Hl c Hc. destruct (Hl c Hc). lia. Qed.

Lemma handles_get {A} (f : kstate -> A) (k : A -> KM unit) s r st : handles (k (f s)) s r st -> handles (bind (get f) k) s r st.
Proof. done. Qed.

Lemma type_char_handles s r P L H c :
  editor r P L H (console s) -> 0 <= c < 256 -> L_ptable ∉ held s ->
  in_e (console s) + 1 < 2 ^ 31 -> handles (type_char c) s r (type_key c (P, L, H)).
Proof.
  intros He Hc Hheld Hmax. pose proof (editor_e _ _ _ _ _ He) as Hee. pose proof He as [Hr Hq Hl Hh Hs Hp].
  unfold type_char, type_key. apply handles_get. rewrite u32_31 by (destruct Hq; lia).
  assert ((c =? 0) || negb (in_e (console s) - in_r (console s) <? INPUT_BUF)
    = (c =? 0) || (128 <=? length P + length L)%nat) as ->.
  { f_equal. apply Bool.eq_iff_eq_true. rewrite negb_true_iff, Z.ltb_ge, Nat.leb_le. unfold INPUT_BUF. lia. }
  destruct ((c =? 0) || _) eqn:Eskip; [by apply edits_handles, edits_ret|].
  apply orb_false_iff in Eskip as [Ec%Z.eqb_neq Hroom%Nat.leb_gt].
  set (d := if c =? 13 then 10 else c). assert (0 < d < 256) as Hd by (unfold d; destruct (c =? 13); lia).
  destruct (store_char s r P L H d He Hd Hroom Hmax) as (y & Hy & Hry & Hqy & Hhy & Hsy & Hpy).
  apply (handles_seq3 _ _ _ _ _ y); [exact Hy|]. apply handles_get. cbn [console set_console].
  pose proof (q_e _ _ _ Hqy) as Hey. pose proof (q_w _ _ _ Hqy) as Hwy. pose proof (q_max _ _ _ Hqy) as Hmy.
  pose proof (q_r _ _ _ Hqy) as Hry0. rewrite length_app in Hey. simpl in Hey.
  assert ((in_e y =? u32 (in_r y + INPUT_BUF)) = (length P + length L + 1 =? 128)%nat) as ->.
  { apply Bool.eq_iff_eq_true. rewrite Z.eqb_eq, Nat.eqb_eq. unfold INPUT_BUF. rewrite u32_small by lia. lia. }
  destruct (Z.eqb_spec d 10) as [->|Hd10]; cbn [orb].
  - pose proof (chars_nonzero _ Hl) as Hnz.
    destruct (save_command_spec L H (set_console y s) Hhy Hnz ltac:(lia)) as (z & Hz & Hhz & Hsz). cbn [console set_console] in Hsz.
    apply (handles_seq _ _ _ z).
    + rewrite !u32_31 by lia.
      replace (Z.to_nat (in_e y - 1 - in_w y)) with (length L) by lia.
      replace (Z.to_nat ((in_e y - in_w y - 1) mod INPUT_BUF)) with (length L).
      2:{ unfold INPUT_BUF. rewrite Z.mod_small by lia. lia. }
      rewrite (line_from_spec P (L ++ [10])) by (done || rewrite length_app; simpl; lia).
      rewrite take_app_length. unfold bind at 1, in_bounds at 1, ret at 1. rewrite decide_True by lia.
      rewrite command_string by (done || lia). exact Hz.
    + unfold same_but_history in Hsz. apply commit_line; [by rewrite Hsz| |done|by rewrite Hsz..|done].
      cbn [console set_console]. rewrite Hsz. destruct Hqy. by split.
  - destruct ((d =? 4) || _).
    + apply (handles_seq _ _ _ y); [done|]. by apply commit_line.
    + apply edits_handles, edits_ret. split; try done. apply Forall_app_2; [done|]. by apply Forall_singleton.
Qed.

(** ** The refinement *)

(** The keys of the editor: all but ^E, tab, ^P and ^T. *)
Definition plain_key (c : Z) : Prop := 0 <= c < 256 /\ c <> 5 /\ c <> 9 /\ c <> 16 /\ c <> 20.

(** A key handled by [m], which returns [false]. *)
Lemma handles_false (m : KM unit) s r st :
  handles m s r st ->
  exists x ps, (m ;;; ret false) s = Ret false (set_procs ps (set_console x s)) /\ editing r st x /\ procs_le (procs s) ps.
Proof. intros (x & ps & Hx & He). exists x, ps. split; [|done]. unfold bind. by rewrite Hx. Qed.

Lemma filter_length f (L : list Z) : (length (List.filter f L) <= length L)%nat.
Proof. induction L as [|c L IH]; simpl; [lia|]. destruct (f c); simpl; lia. Qed.

(** The comparisons of signed characters find the digits. *)
Lemma filter_not_digit L : Forall char_ok L -> List.filter not_digit L = List.filter (fun c => negb (is_digit c)) L.
Proof.
  intros HL. apply List.filter_ext_in. intros c Hc. apply list_elem_of_In, (proj1 (Forall_forall _ _) HL) in Hc as [Hc _].
  unfold not_digit, is_digit, sx8. case_bool_decide; destruct (c <? 128) eqn:E; lia.
Qed.

Lemma filter_chars f L : Forall char_ok L -> Forall char_ok (List.filter f L).
Proof. induction 1 as [|c L Hc _ IH]; [done|]. cbn [List.filter]. destruct (f c); by try constructor. Qed.

(** ^N and ^R: read the line, erase it, write another one. *)
Lemma replace_line s r P L H l :
  editor r P L H (console s) -> Forall char_ok l -> (length l <= length L)%nat ->
  handles (kill_line ;;; rewrite_line l) s r (P, l, H).
Proof.
  intros He Hl Hlen. destruct (edits_kill_line s r P L H He) as (y & Hy & Hey).
  pose proof (editor_e _ _ _ _ _ He) as E. pose proof (editor_e _ _ _ _ _ Hey) as E'. simpl in E'.
  destruct (ed_queue _ _ _ _ _ He). eapply edits_handles, edits_seq; [exact Hy|].
  apply edits_rewrite_line; [done|done|lia|]. cbn [console set_console]. lia.
Qed.

Lemma assoc_false (m k : KM unit) s : (m ;;; k ;;; ret false) s = ((m ;;; k) ;;; ret false) s.
Proof. unfold bind. by destruct (m s). Qed.

Lemma console_char_handles s r st c :
  editing r st (console s) -> plain_key c -> L_ptable ∉ held s -> in_e (console s) + 1 < 2 ^ 31 ->
  exists x ps, console_char c s = Ret false (set_procs ps (set_console x s))
    /\ editing r (edit_key c st) x /\ procs_le (procs s) ps.
Proof.
  destruct st as [[P L] H]. intros He (Hc & H5 & H9 & H16 & H20) Hheld Hmax. unfold editing in He. cbn in He.
  pose proof (line_spec _ _ _ (ed_queue _ _ _ _ _ He)) as Hline. unfold console_char, edit_key.
  destruct (c =? 14).
  { unfold bind at 1, get at 1. rewrite Hline. unfold bind at 1, in_bounds, ret at 1. rewrite assoc_false.
    rewrite filter_not_digit by apply He. eapply handles_false, replace_line; [done|by apply filter_chars, He|apply filter_length]. }
  destruct (c =? 18).
  { unfold bind at 1, get at 1. rewrite Hline. unfold bind at 1, in_bounds, ret at 1. rewrite assoc_false.
    eapply handles_false, replace_line; [done|by apply Forall_rev, (ed_line _ _ _ _ _ He)|by rewrite length_rev]. }
  rewrite (proj2 (Z.eqb_neq c 20)), (proj2 (Z.eqb_neq c 5)), (proj2 (Z.eqb_neq c 16)) by done.
  destruct (c =? 21); [by eapply handles_false, edits_handles, edits_kill_line|].
  destruct ((c =? 8) || (c =? 127)).
  { unfold bind at 1, get at 1. apply handles_false, edits_handles.
    destruct L as [|d L _] using rev_ind.
    - pose proof (q_e _ _ _ (ed_queue _ _ _ _ _ He)) as E. simpl in E. rewrite (proj2 (Z.eqb_eq _ _)) by lia.
      by apply edits_ret.
    - destruct (last_char _ _ _ _ (ed_queue _ _ _ _ _ He)) as [Hne _]. rewrite (proj2 (Z.eqb_neq _ _)) by done.
      rewrite removelast_last. by eapply edits_erase_one. }
  rewrite (proj2 (Z.eqb_neq c 9)) by done. by apply handles_false, type_char_handles.
Qed.

(** A key makes the ring longer by one character at most. *)
Lemma edit_key_length c P L H P' L' H' :
  edit_key c (P, L, H) = (P', L', H') -> (length P' + length L' <= length P + length L + 1)%nat.
Proof.
  unfold edit_key, type_key.
  repeat match goal with |- context [if ?b then _ else _] => destruct b end; intros [= <- <- <-];
    rewrite ?length_app, ?length_rev; simpl; try lia.
  - pose proof (filter_length (fun c => negb (is_digit c)) L). lia.
  - destruct L as [|d L _] using rev_ind; [simpl; lia|]. rewrite removelast_last, length_app. lia.
Qed.

Definition run_keys (cs : list Z) (st : estate) : estate := foldl (fun st c => edit_key c st) st cs.

Lemma consoleintr_loop_handles cs s r P L H d :
  editor r P L H (console s) -> Forall plain_key cs -> L_ptable ∉ held s ->
  r + Z.of_nat (length P + length L + length cs) < 2 ^ 31 ->
  exists x ps, consoleintr_loop cs d s = Ret d (set_procs ps (set_console x s))
    /\ editing r (run_keys cs (P, L, H)) x /\ procs_le (procs s) ps.
Proof.
  revert s P L H d. induction cs as [|c cs IH]; intros s P L H d He Hcs Hheld Hmax.
  - exists (console s), (procs s). by split_and!; [destruct s| |].
  - apply Forall_cons in Hcs as [Hc Hcs]. pose proof (editor_e _ _ _ _ _ He) as E. simpl in Hmax.
    destruct (console_char_handles s r (P, L, H) c He Hc Hheld ltac:(lia)) as (y & ps & Hy & Hey & Hps).
    cbn [run_keys foldl]. destruct (edit_key c (P, L, H)) as [[P' L'] H'] eqn:Ek.
    pose proof (edit_key_length _ _ _ _ _ _ _ Ek).
    destruct (IH (set_procs ps (set_console y s)) P' L' H' (d || false) Hey Hcs Hheld ltac:(lia)) as (x & ps' & Hx & Hex & Hps').
    exists x, ps'. split_and!; [|done|by etransitivity].
    cbn [consoleintr_loop]. unfold bind. rewrite Hy. rewrite Hx. by destruct d.
Qed.

(** C22: the line editor.  Whatever keys of the editor are typed, [consoleintr] returns, and
    what is ready to be read, the line and the history are those of the editor on
    lists: ^N has removed the digits of the line, ^R reversed it, ^U emptied it,
    backspace dropped its last character; a finished line is ready and in the
    history.  Nothing else in the kernel has changed, but for sleeping readers that
    are runnable. *)
Theorem console_edits_lines (cs : list Z) (s : kstate) (r : Z) (P L : list Z) (H : list (list Z))
    (He : editor r P L H (console s)) (Hcs : Forall plain_key cs)
    (Hcons : L_cons ∉ held s) (Hpt : L_ptable ∉ held s)
    (Hmax : r + Z.of_nat (length P + length L + length cs) < 2 ^ 31) :
  exists x ps, consoleintr cs s = Ret tt (set_procs ps (set_console x s))
    /\ editing r (run_keys cs (P, L, H)) x /\ procs_le (procs s) ps.
Proof.
  destruct (consoleintr_loop_handles cs (set_held (L_cons :: held s) s) r P L H false He Hcs) as (x & ps & Hx & Hex & Hps).
  { cbn. by apply not_elem_of_cons. }
  { done. }
  exists x, ps. split_and!; [|done..]. unfold consoleintr. unfold bind at 1. rewrite acquire_eq by done.
  unfold bind. rewrite Hx. rewrite (release_top _ (held s)) by done. by destruct s.
Qed.

Lemma editor_null : editor 0 [] [] (replicate 15 []) null_console.
Proof.
  split; [done| |done|apply hist_null|by split; vm_compute|done]. split; try done. simpl. lia.
Qed.

(** [ab1] reversed is [1ba]; without the digits it is [ba]. *)
Lemma console_edits_lines_witness :
  exists x ps, consoleintr (lit "ab1" ++ [18; 14; 13]) (set_console null_console full_screen)
      = Ret tt (set_procs ps (set_console x full_screen))
    /\ editor 0 (lit "ba" ++ [10]) [] (lit "ba" :: replicate 14 []) x.
Proof.
  destruct (console_edits_lines (lit "ab1" ++ [18; 14; 13]) (set_console null_console full_screen)
    0 [] [] (replicate 15 []) editor_null) as (x & ps & Hx & He & _).
  - repeat (constructor; [by split_and!|]). constructor.
  - apply not_elem_of_nil.
  - apply not_elem_of_nil.
  - vm_compute. reflexivity.
  - exists x, ps. split; [exact Hx|exact He].
Defined.

(** ** Two keys the editor does not survive *)

Definition fresh_console : kstate := set_console null_console full_screen.
Definition typed (cs : list Z) : kstate :=
  match consoleintr cs fresh_console with
  | Ret _ s => s
  | _ => full_screen
  end.
Definition ready (s : kstate) : option (list Z) :=
  let x := console s in mapM (fun k => ubuf x (in_r x + Z.of_nat k)) (seq 0 (Z.to_nat (in_w x - in_r x))).

(** completion shows a command but does not enter it.  After [ls] was run, typing [l],
    tab and return shows [ls], but the line handed to the reader is [l] and a NUL
    byte: the tab key counts the completed characters without storing them. *)
Theorem completion_not_entered :
  ready (typed (lit "ls" ++ [10])) = Some (lit "ls" ++ [10])
  /\ cstr_in (complete_result (console (typed (lit "ls" ++ [10] ++ lit "l" ++ [9; 10])))) = Some (lit "ls")
  /\ ready (typed (lit "ls" ++ [10] ++ lit "l" ++ [9; 10])) = Some (lit "ls" ++ [10] ++ [108; 0; 10]).
Proof. split_and!; by vm_compute. Qed.

(** ^T advances the edit index without a bounds check: after 129 of them ^R reads
    past the end of its buffer [newBuf]. *)
Theorem control_t_overruns :
  consoleintr (replicate 129 20 ++ [18]) fresh_console = Panic "undefined behaviour".
Proof. by vm_compute. Qed.
