(* ===== verification/ConsoleRead.v ===== *)
(** * ConsoleRead: reading the console

    The lock of an inode around a device's read, and [consoleread] against the lists
    of the line editor. *)

From stdpp Require Import base gmap list strings.
From Stdlib Require Import ZArith Lia.
From S2P Require Import Prelude State Core Bio Memide Cache Pipe Fs Console ConsoleOut History Editor.

Local Open Scope Z_scope.
Local Open Scope kernel_scope.

(** ** A locked inode *)

(** The running process has the lock of inode [i], which is in memory. *)
Record ilocked (i : nat) (s : kstate) : Prop := {
  il_in : exists ip, icache s !! i = Some ip;
  il_cur : is_Some (cur s);
  il_lock : i_lock (inode_at s i) = mkSleeplock true (mypid s);
  il_ref : 1 <= i_ref (inode_at s i);
  il_valid : i_valid (inode_at s i) = true
}.

Lemma iunlock_eq i s :
  ilocked i s -> held s = [] ->
  iunlock i s = Ret tt (set_procs (wake (Ch_sleeplock (SL_inode i)) <$> procs s)
    (set_icache (alter (set_i_lock (mkSleeplock false 0)) i (icache s)) s)).
Proof.
  intros [_ [p Hp] Hl Hr _] Hh. unfold iunlock. unfold bind at 1.
  rewrite (holdingsleep_eq _ s p) by (rewrite ?Hh; set_solver). cbn [sleeplock_at]. rewrite Hl. cbn [sl_locked sl_pid andb].
  unfold mypid. rewrite Hp. simpl. rewrite bool_decide_true by done.
  unfold bind at 1, get at 1. rewrite (proj2 (Z.ltb_ge _ _)) by lia. cbn [negb orb].
  rewrite releasesleep_eq by (rewrite Hh; set_solver). done.
Qed.

(** [ilock] of a free inode that is in memory. *)
Lemma ilock_eq `{DiskDriver} i s p :
  held s = [] -> cur s = Some p -> 1 <= i_ref (inode_at s i) -> sl_locked (i_lock (inode_at s i)) = false ->
  i_valid (inode_at s i) = true ->
  ilock i s = Ret tt (set_icache (alter (set_i_lock (mkSleeplock true (mypid s))) i (icache s)) s).
Proof.
  intros Hh Hp Hr Hl Hv. unfold ilock. unfold bind at 1, get at 1. rewrite (proj2 (Z.ltb_ge _ _)) by lia.
  unfold bind at 1. rewrite (acquiresleep_eq _ _ p) by (rewrite ?Hh; set_solver). cbn [put_sleeplock].
  unfold ilock_fill, bind, get. unfold inode_at at 1. cbn [icache set_icache]. rewrite list_lookup_alter, decide_True by done.
  unfold mypid. rewrite Hp. simpl. unfold inode_at in Hv. destruct (icache s !! i) as [ip|] eqn:E; simpl in *; by rewrite Hv.
Qed.

Lemma relock s i ip l l' :
  icache s !! i = Some ip -> i_lock ip = l ->
  alter (set_i_lock l) i (alter (set_i_lock l') i (icache s)) = icache s.
Proof.
  intros Hi <-. apply list_eq. intros j. rewrite !list_lookup_alter.
  destruct (decide (i = j)) as [<-|]; [|done]. rewrite decide_True, Hi by done. simpl. by destruct ip.
Qed.

(** The state between the [iunlock] and the [ilock] of a device's read or write. *)
Definition unlocked (i : nat) (s : kstate) : kstate :=
  set_procs (wake (Ch_sleeplock (SL_inode i)) <$> procs s)
    (set_icache (alter (set_i_lock (mkSleeplock false 0)) i (icache s)) s).

(** [ilock] after code that leaves the inode alone. *)
Lemma ilock_again `{DiskDriver} i s ps x :
  ilocked i s -> held s = [] -> procs_le (procs (unlocked i s)) ps ->
  ilock i (set_procs ps (set_console x (unlocked i s))) = Ret tt (set_procs ps (set_console x s)) /\ procs_le (procs s) ps.
Proof.
  intros Hil Hh Hps. pose proof Hil as [[ip Hip] [p Hp] Hlk Hr Hv].
  assert (procs_le (procs s) ps) as Hle by (etransitivity; [apply procs_le_wake|exact Hps]). split; [|done].
  assert (inode_at s i = ip) as Hin by (unfold inode_at; by rewrite Hip). rewrite Hin in *.
  assert (inode_at (set_procs ps (set_console x (unlocked i s))) i = set_i_lock (mkSleeplock false 0) ip) as Hin'.
  { unfold inode_at. cbn. rewrite list_lookup_alter, decide_True, Hip by done. done. }
  rewrite (ilock_eq i _ p) by (rewrite ?Hin'; done). f_equal.
  assert (mypid (set_procs ps (set_console x (unlocked i s))) = mypid s) as ->.
  { unfold mypid. cbn. rewrite Hp. by apply (procs_le_pid s (set_procs ps s)). }
  unfold unlocked. cbn [icache set_procs set_console set_icache]. rewrite (relock s i ip) by done. by destruct s.
Qed.

(** ** consoleread *)

(** The bytes of the line that [n] bytes ask for, and what is left; [None] when the
    reader has to wait.  ^D ends the line and is not part of it; before the first
    byte it is consumed. *)
Fixpoint read_line (first : bool) (n : nat) (P : list Z) : option (list Z * list Z) :=
  match n with
  | O => Some ([], P)
  | S n' =>
      match P with
      | [] => None
      | c :: P' =>
          if c =? 4 then Some ([], if first then P' else P)
          else if c =? 10 then Some ([10], P')
          else r ← read_line false n' P'; Some (c :: r.1, r.2)
      end
  end.

Lemma editor_take r c P L H x :
  editor r (c :: P) L H x ->
  in_r x <> in_w x /\ ubuf x (in_r x) = Some c /\ u32 (in_r x + 1) = r + 1 /\ u32 (r + 1 - 1) = r
  /\ editor (r + 1) P L H (set_in_r (r + 1) x).
Proof.
  intros [Hr Hq Hl Hh Hs Hp]. destruct (queue_take _ _ _ _ Hq) as [Hc Hq']. rewrite Hr in *.
  destruct Hq. simpl in *. rewrite !u32_31 by lia. split_and!; [lia|done|done|lia|]. by split.
Qed.

Section read.
Context `{DD : DiskDriver}.

Lemma consoleread_loop_spec ip target n acc s r P L H l R first :
  editor r P L H (console s) -> (Z.of_nat n <? target) = negb first -> Z.of_nat n <= target ->
  read_line first n P = Some (l, R) ->
  exists x, consoleread_loop ip target n acc s = Ret (Some (acc ++ l)) (set_console x s)
    /\ editor (r + Z.of_nat (length P) - Z.of_nat (length R)) R L H x.
Proof.
  revert acc s r P first l. induction n as [|n IH]; intros acc s r P first l He Hf Ht; cbn [read_line consoleread_loop].
  { intros [= <- <-]. exists (console s). rewrite app_nil_r. split; [by destruct s|].
    by replace (r + Z.of_nat (length P) - Z.of_nat (length P)) with r by lia. }
  destruct P as [|c P]; [done|]. destruct (editor_take _ _ _ _ _ _ He) as (Hne & Hc & Hu & Hu' & He').
  unfold bind at 1, get at 1. rewrite (proj2 (Z.eqb_neq _ _) Hne), Hc. unfold bind at 1, in_bounds, ret at 1.
  unfold bind at 1, upd_cons at 1, modify at 1. rewrite Hu.
  destruct (c =? 4).
  { intros [= <- <-]. rewrite app_nil_r, Hf. destruct first; cbn [negb].
    - eexists. split; [done|]. simpl. by replace (r + Z.of_nat (S (length P)) - Z.of_nat (length P)) with (r + 1) by lia.
    - exists (console s). unfold bind, upd_cons, modify, ret. cbn [console set_console in_r set_in_r]. rewrite Hu'.
      replace (r + Z.of_nat (length (c :: P)) - Z.of_nat (length (c :: P))) with r by lia. split; [|done].
      pose proof (ed_r _ _ _ _ _ He) as Hr. destruct s as [????????????????? ? [] ?]. cbn in *. by rewrite Hr. }
  destruct (Z.eqb_spec c 10) as [->|Hc10].
  { intros [= <- <-]. eexists. split; [done|]. simpl.
    by replace (r + Z.of_nat (S (length P)) - Z.of_nat (length P)) with (r + 1) by lia. }
  destruct (read_line false n P) as [[l' R']|] eqn:E; [|done]. intros [= <- <-].
  destruct (IH (acc ++ [c]) (set_console (set_in_r (r + 1) (console s)) s) (r + 1) P false l' He') as (x & Hx & Hex).
  { apply Z.ltb_lt. lia. } { lia. } { done. }
  exists x. rewrite Hx, <- app_assoc. split; [done|].
  by replace (r + Z.of_nat (length (c :: P)) - Z.of_nat (length R'))
    with (r + 1 + Z.of_nat (length P) - Z.of_nat (length R')) by (simpl; lia).
Qed.

(** With no end of line among the characters ready, the reader takes them all and sleeps. *)
Lemma consoleread_loop_sleeps ip target n acc s r P L H first i :
  editor r P L H (console s) -> (Z.of_nat n <? target) = negb first -> Z.of_nat n <= target ->
  read_line first n P = None -> held s = [L_cons] -> cur s = Some i -> p_killed (proc_at s i) = false ->
  exists x, consoleread_loop ip target n acc s =
      Slept (Some Ch_input) (set_held [L_ptable] (set_procs (alter (slept Ch_input) i (procs s)) (set_console x s)))
    /\ editor (r + Z.of_nat (length P)) [] L H x.
Proof.
  revert acc s r P first. induction n as [|n IH]; intros acc s r P first He Hf Ht; cbn [read_line consoleread_loop]; [done|].
  intros Hn Hh Hi Hk. unfold bind at 1, get at 1. destruct P as [|c P].
  { exists (console s). rewrite Z.add_0_r. split; [|done]. destruct (ed_queue _ _ _ _ _ He). simpl in *.
    rewrite (proj2 (Z.eqb_eq _ _)) by lia. unfold bind at 1, killed, curproc, bind at 1, bind at 1, myproc, get at 1.
    rewrite Hi. unfold ret at 1, get at 1. rewrite Hk. unfold bind. rewrite (sleep_eq _ _ _ i) by done. by destruct s. }
  destruct (editor_take _ _ _ _ _ _ He) as (Hne & Hc & Hu & Hu' & He').
  rewrite (proj2 (Z.eqb_neq _ _) Hne), Hc. unfold bind at 1, in_bounds, ret at 1.
  unfold bind at 1, upd_cons at 1, modify at 1. rewrite Hu. destruct (c =? 4); [done|]. destruct (c =? 10); [done|].
  destruct (read_line false n P) as [[l' R']|] eqn:E; [done|].
  destruct (IH (acc ++ [c]) (set_console (set_in_r (r + 1) (console s)) s) (r + 1) P false He') as (x & Hx & Hex);
    [apply Z.ltb_lt; lia|lia|done..|].
  exists x. split; [exact Hx|]. by replace (r + Z.of_nat (length (c :: P))) with (r + 1 + Z.of_nat (length P)) by (simpl; lia).
Qed.

(** C35: reading the console.  With a line ready, [consoleread] returns its bytes, at most
    [n] of them, and takes them out of the queue; the lock of the inode is held again
    and no other part of the kernel has changed.  When no line is ready and the
    process has not been killed, it gives up both locks and sleeps until
    [consoleintr] wakes it. *)
Theorem console_reads_line (ip : nat) (n : Z) (s : kstate) (r : Z) (P L : list Z) (H : list (list Z))
    (He : editor r P L H (console s)) (Hil : ilocked ip s) (Hh : held s = []) (Hn : 0 <= n) :
  match read_line true (Z.to_nat n) P with
  | Some (l, R) => exists x ps, consoleread ip n s = Ret (Z.of_nat (length l), l) (set_procs ps (set_console x s))
      /\ editor (r + Z.of_nat (length P) - Z.of_nat (length R)) R L H x /\ procs_le (procs s) ps
  | None => (forall p, cur s = Some p -> p_killed (proc_at s p) = false) ->
      exists s', consoleread ip n s = Slept (Some Ch_input) s' /\ held s' = [L_ptable]
      /\ editor (r + Z.of_nat (length P)) [] L H (console s') /\ sl_locked (i_lock (inode_at s' ip)) = false
  end.
Proof.
  pose proof Hil as [_ [p Hp] _ _ _]. unfold consoleread. pose proof (iunlock_eq ip s Hil Hh) as Hun.
  change (set_procs _ _) with (unlocked ip s) in Hun. set (s1 := set_held [L_cons] (unlocked ip s)).
  assert ((iunlock ip ;;; acquire L_cons) s = Ret tt s1) as Hpre.
  { unfold bind. rewrite Hun, acquire_eq by (cbn; rewrite Hh; set_solver). unfold s1. cbn. by rewrite Hh. }
  assert (forall k : KM (Z * list Z), (iunlock ip ;;; acquire L_cons ;;; k) s = k s1) as Hk.
  { intros k. unfold bind in *. rewrite Hun in *. by rewrite Hpre. }
  rewrite Hk. destruct (read_line true (Z.to_nat n) P) as [[l R]|] eqn:E.
  - destruct (consoleread_loop_spec ip n (Z.to_nat n) [] s1 r P L H l R true He) as (x & Hx & Hex);
      [apply Z.ltb_ge; lia|lia|done|].
    destruct (ilock_again ip s (procs (unlocked ip s)) x Hil Hh ltac:(done)) as [Hi Hle].
    exists x, (procs (unlocked ip s)). split_and!; [|done..].
    unfold bind. rewrite Hx. unfold consoleread_end, bind. rewrite (release_top _ []) by (done || set_solver).
    replace (set_held [] (set_console x s1)) with (set_procs (procs (unlocked ip s)) (set_console x (unlocked ip s))).
    { rewrite Hi. done. }
    unfold s1, unlocked. destruct s. cbn in *. by subst.
  - intros Hkl. assert (p_killed (proc_at s1 p) = false) as Hk1.
    { specialize (Hkl p Hp). unfold s1, unlocked, proc_at in *. cbn. rewrite list_lookup_fmap.
      destruct (procs s !! p) as [q|]; [|done]. simpl in *. unfold wake. by destruct (_ && _). }
    destruct (consoleread_loop_sleeps ip n (Z.to_nat n) [] s1 r P L H true p He) as (x & Hx & Hex);
      [apply Z.ltb_ge; lia|lia|done..|].
    eexists. split_and!; [unfold bind; rewrite Hx; done|done|done|].
    unfold inode_at. cbn. rewrite list_lookup_alter, decide_True by done. destruct (icache s !! ip) as [q|]; done.
Qed.
End read.

(** A process reads the line [ls] from the locked console inode. *)
Definition one_line : consstate :=
  set_in_e 3 (set_in_w 3 (set_in_buf (lit "ls" ++ [10] ++ replicate 125 0) null_console)).
Definition reading : kstate :=
  set_icache [mkInode 1 2 1 (mkSleeplock true 0) true T_DEV 1 1 1 0 []] (set_console one_line full_screen).

Lemma one_line_editor : editor 0 (lit "ls" ++ [10]) [] (replicate 15 []) one_line.
Proof.
  split; [done| |done|apply hist_null|by split; vm_compute|done]. split; try done; [simpl; lia|].
  intros i c Hi. do 3 (destruct i as [|i]; [exact Hi|]). discriminate Hi.
Qed.

Lemma console_reads_line_witness :
  exists x ps, consoleread (H := Memide.memide_driver 0) 0 100 reading = Ret (3, lit "ls" ++ [10]) (set_procs ps (set_console x reading))
    /\ editor 3 [] [] (replicate 15 []) x.
Proof.
  destruct (console_reads_line (DD := Memide.memide_driver 0) 0 100 reading 0 (lit "ls" ++ [10]) [] (replicate 15 [])
    one_line_editor) as (x & ps & Hx & He & _).
  - by split; [eexists| |by vm_compute..].
  - done.
  - lia.
  - exists x, ps. split; [exact Hx|exact He].
Defined.
