(* ===== verification/SyscallSpec.v ===== *)
(** * SyscallSpec: the kernel checks the pointers it gets from user programs *)

From stdpp Require Import base gmap list strings.
From Stdlib Require Import ZArith Lia.
From S2P Require Import Prelude State Core Sem Kalloc Pipe Console History Vm Proc Syscall.

Local Open Scope Z_scope.
Local Open Scope kernel_scope.

(** ** User memory *)

(** The byte at a user address of process [p]. *)
Definition user_byte (s : kstate) (p : nat) (va : Z) : option Z :=
  ka ← va2ka s (p_pgdir (proc_at s p)) va;
  pg ← mem s !! (ka - ka mod PGSIZE);
  pg !! Z.to_nat (ka mod PGSIZE).

(** Process [p] runs, its memory is below the kernel and mapped up to its size. *)
Record user_ok (s : kstate) (p : nat) : Prop := {
  uo_cur : cur s = Some p;
  uo_sz : 0 <= p_sz (proc_at s p) <= KERNBASE;
  uo_mapped va : 0 <= va < p_sz (proc_at s p) -> exists b, user_byte s p va = Some b /\ is_byte b
}.

Lemma uload_eq s p va b : cur s = Some p -> user_byte s p va = Some b -> uload va s = Ret b s.
Proof.
  intros Hc Hb. unfold user_byte in Hb. destruct (va2ka _ _ _) as [ka|] eqn:E; [|done]. simpl in Hb.
  destruct (mem s !! _) as [pg|] eqn:Em; [|done]. simpl in Hb.
  unfold uload. unfold bind at 1, user_ka, bind at 1. rewrite (curproc_eq _ p) by done. unfold bind at 1, get at 1. rewrite E.
  unfold ret at 1, mem_page, bind, get. rewrite Em. unfold in_bounds at 1, ret at 1. by rewrite Hb.
Qed.

Fixpoint user_bytes (s : kstate) (p : nat) (va : Z) (n : nat) : option (list Z) :=
  match n with
  | O => Some []
  | S n' => b ← user_byte s p va; l ← user_bytes s p (va + 1) n'; Some (b :: l)
  end.

Lemma uloads_eq s p va n bs : cur s = Some p -> user_bytes s p va n = Some bs -> uloads va n s = Ret bs s.
Proof.
  intros Hc. revert va bs. induction n as [|n IH]; intros va bs Hbs; [by injection Hbs as <-|].
  cbn [user_bytes] in Hbs. apply bind_Some in Hbs as (b & Hb & (l & Hl & [= <-])%bind_Some).
  cbn [uloads]. unfold bind at 1. rewrite (uload_eq s p va b Hc Hb). unfold bind. by rewrite (IH (va + 1) l).
Qed.

Lemma user_bytes_mapped s p va n :
  user_ok s p -> 0 <= va -> va + Z.of_nat n <= p_sz (proc_at s p) ->
  exists l, user_bytes s p va n = Some l /\ length l = n /\ Forall is_byte l.
Proof.
  intros Hok. revert va. induction n as [|n IH]; intros va Hva Hn; [by exists []|].
  destruct (uo_mapped _ _ Hok va ltac:(lia)) as (b & Hb & Hbb).
  destruct (IH (va + 1) ltac:(lia) ltac:(lia)) as (l & Hl & Hlen & Hf).
  exists (b :: l). cbn [user_bytes]. rewrite Hb. simpl. rewrite Hl. split_and!; [done|by f_equal/=|by constructor].
Qed.

(** The word at a user address, when it is inside the process. *)
Definition user_word (s : kstate) (p : nat) (addr : Z) : option Z :=
  if (addr <? p_sz (proc_at s p)) && (addr + 4 <=? p_sz (proc_at s p))
  then l ← user_bytes s p addr 4; Some (i32 (le_val l)) else None.

Lemma fetchint_eq s p addr :
  user_ok s p -> 0 <= addr < 2 ^ 32 -> fetchint addr s = Ret (user_word s p addr) s.
Proof.
  intros Hok Ha. pose proof Hok as [Hc [Hs0 Hs] _]. unfold KERNBASE in Hs.
  unfold fetchint, user_word. unfold bind at 1. rewrite (curproc_eq s p) by done.
  unfold bind at 1, get at 1. set (sz := p_sz (proc_at s p)) in *.
  destruct (Z.leb_spec sz addr) as [Hle|Hgt]; cbn [orb].
  - by rewrite (proj2 (Z.ltb_ge _ _)) by lia.
  - rewrite (proj2 (Z.ltb_lt addr sz)) by lia. rewrite u32_small by lia. cbn [andb].
    destruct (Z.ltb_spec sz (addr + 4)) as [Hlt|Hge].
    + by rewrite (proj2 (Z.leb_gt _ _)) by lia.
    + rewrite (proj2 (Z.leb_le _ _)) by lia.
      destruct (user_bytes_mapped s p addr 4 Hok ltac:(lia) ltac:(lia)) as (l & Hl & _).
      unfold bind. rewrite (uloads_eq s p addr 4 l Hc Hl). by rewrite Hl.
Qed.

(** [argint]: the word at [esp + 4 + 4n]. *)
Lemma argint_eq s p n esp :
  user_ok s p -> mem_word s (p_tf (proc_at s p) + TF_ESP) = Some esp ->
  argint n s = Ret (user_word s p (u32 (esp + 4 + 4 * n))) s.
Proof.
  intros Hok Hesp. unfold argint. unfold bind at 1. rewrite (curproc_eq s p) by apply Hok.
  unfold bind at 1, tf_rd, bind at 1, get at 1, mem_rd, bind at 1, get at 1. rewrite Hesp. unfold in_bounds, ret at 1.
  apply fetchint_eq; [done|apply u32_range].
Qed.

(** C36: [argptr] accepts no pointer outside the process: on every argument it returns, and
    when it returns a pointer the whole block lies in the process's memory; it refuses
    exactly the blocks that do not, and arguments it cannot read. *)
Theorem argptr_checked (s : kstate) (p : nat) (n size esp : Z)
    (Hok : user_ok s p) (Hesp : mem_word s (p_tf (proc_at s p) + TF_ESP) = Some esp)
    (Hsize : -2147483648 <= size < 2147483648) :
  argptr n size s =
    Ret (i ← user_word s p (u32 (esp + 4 + 4 * n));
         if decide (0 <= size /\ u32 i < p_sz (proc_at s p) /\ u32 i + size <= p_sz (proc_at s p))
         then Some (u32 i) else None) s.
Proof.
  pose proof Hok as [Hc [Hs0 Hs] _]. unfold KERNBASE in Hs.
  unfold argptr. unfold bind at 1. rewrite (curproc_eq s p) by done. unfold bind at 1. rewrite (argint_eq s p n esp) by done.
  destruct (user_word s p _) as [i|]; [|done]. simpl. unfold bind, get. set (sz := p_sz (proc_at s p)) in *.
  pose proof (u32_range i). destruct (Z.ltb_spec size 0); [by rewrite decide_False by lia|]. cbn [orb].
  destruct (Z.leb_spec sz (u32 i)); [by rewrite decide_False by lia|]. cbn [orb].
  rewrite (u32_small (u32 i + size)) by lia. destruct (Z.ltb_spec sz (u32 i + size)).
  - by rewrite decide_False by lia.
  - by rewrite decide_True by lia.
Qed.

(** A process of one page, with its stack pointer at 4000 and the words 4090 and 0 as arguments. *)
Definition tiny_stack : list Z := replicate 4004 0 ++ le_bytes 4 4090 ++ replicate 88 0.
Definition tiny_mem : gmap Z (list Z) :=
  <[2148532224 := wr 4 0 1052679 zero_page]>
  (<[2148536320 := wr 4 0 1056775 zero_page]>
  (<[2148540416 := tiny_stack]>
  {[2148544512 := wr 4 (Z.to_nat TF_ESP) 4000 zero_page]})).
Definition tiny_proc : proc :=
  set_p_tf 2148544512 (set_p_sz 4096 (set_p_pgdir 2148532224 null_proc)).
Definition tiny : kstate :=
  mkK [] [tiny_proc] (Some 0%nat) 1 None tiny_mem 0 true [] ∅ [] (mkLog 0 0 0 false 0 0 []) (mkSb 0 0 0 0 0 0 0)
    [] [] ∅ [] 0 null_console 0.

Lemma tiny_page va : 0 <= va < 4096 -> va2ka tiny 2148532224 va = Some (2148540416 + va).
Proof.
  intros Hva. unfold va2ka. assert (PDX va = 0 /\ PTX va = 0) as [-> ->].
  { unfold PDX, PTX. rewrite !Z.shiftr_div_pow2, !Z.div_small by lia. done. }
  assert (mem_word tiny (2148532224 + 4 * 0) = Some 1052679) as -> by (by vm_compute). simpl.
  assert (P2V (PTE_ADDR 1052679) + 4 * 0 = 2148536320) as -> by (by vm_compute).
  assert (mem_word tiny 2148536320 = Some 1056775) as -> by (by vm_compute). simpl.
  assert (P2V (PTE_ADDR 1056775) = 2148540416) as -> by (by vm_compute).
  unfold PGSIZE. by rewrite Z.mod_small by lia.
Qed.

Lemma tiny_stack_bytes : length tiny_stack = 4096%nat /\ Forall is_byte tiny_stack.
Proof.
  split; [by vm_compute|]. unfold tiny_stack. rewrite !Forall_app. split_and!; [|apply le_bytes_byte|];
    apply Forall_replicate; unfold is_byte; lia.
Qed.

Lemma tiny_ok : user_ok tiny 0.
Proof.
  split; [done|by vm_compute|]. cbn [proc_at tiny procs]. intros va Hva. simpl in Hva.
  destruct tiny_stack_bytes as [Hl Hf]. destruct (lookup_lt_is_Some_2 tiny_stack (Z.to_nat va) ltac:(lia)) as [b Hb].
  exists b. split; [|by eapply Forall_lookup_1]. unfold user_byte. cbn [proc_at tiny procs]. simpl.
  rewrite tiny_page by lia. simpl.
  assert ((2148540416 + va) mod PGSIZE = va) as ->.
  { unfold PGSIZE. rewrite <- (Z.mod_small va 4096) at 2 by lia. rewrite Z.add_mod by lia.
    change (2148540416 mod 4096) with 0. by rewrite Z.add_0_l, Z.mod_mod by lia. }
  replace (2148540416 + va - va) with 2148540416 by lia. exact Hb.
Qed.

Lemma argptr_checked_witness :
  argptr 0 6 tiny = Ret (Some 4090) tiny /\ argptr 0 7 tiny = Ret None tiny.
Proof.
  split.
  - rewrite (argptr_checked tiny 0 0 6 4000 tiny_ok ltac:(by vm_compute) ltac:(lia)). by vm_compute.
  - rewrite (argptr_checked tiny 0 0 7 4000 tiny_ok ltac:(by vm_compute) ltac:(lia)). by vm_compute.
Defined.

(** ** Strings *)

(** The bytes before the first NUL at [s], if there is one in the next [n] bytes. *)
Lemma fetchstr_loop_eq s p n va l :
  cur s = Some p -> user_bytes s p va n = Some l -> fetchstr_loop n va s = Ret (cstr_in l) s.
Proof.
  intros Hc. revert va l. induction n as [|n IH]; intros va l Hl; [by injection Hl as <-|].
  cbn [user_bytes] in Hl. apply bind_Some in Hl as (b & Hb & (l' & Hl' & [= <-])%bind_Some).
  cbn [fetchstr_loop cstr_in]. unfold bind at 1. rewrite (uload_eq s p va b Hc Hb).
  destruct (b =? 0); [done|]. unfold bind. rewrite (IH (va + 1) l' Hl'). done.
Qed.

Lemma user_bytes_take s p va n L k :
  user_bytes s p va n = Some L -> (k <= n)%nat -> user_bytes s p va k = Some (take k L).
Proof.
  revert va L k. induction n as [|n IH]; intros va L k HL Hk.
  - injection HL as <-. replace k with 0%nat by lia. done.
  - cbn [user_bytes] in HL. apply bind_Some in HL as (b & Hb & (l & Hl & [= <-])%bind_Some).
    destruct k as [|k]; [done|]. cbn [user_bytes take]. rewrite Hb. simpl. by rewrite (IH (va + 1) l k Hl ltac:(lia)).
Qed.

Lemma cstr_in_iff L l : cstr_in L = Some l <-> Forall (fun c => c <> 0) l /\ exists t, L = l ++ 0 :: t.
Proof.
  split; [apply cstr_in_spec|]. intros [Hf [t ->]]. by apply cstr_in_app.
Qed.

(** [fetchstr] accepts a string only when it ends inside the process: it returns the
    bytes up to the first NUL between the address and the process's size, and refuses
    the string when there is none. *)
Theorem fetchstr_checked (s : kstate) (p : nat) (addr : Z) (Hok : user_ok s p) (Ha : 0 <= addr < 2 ^ 32) :
  exists o, fetchstr addr s = Ret o s /\
    (forall l, o = Some l <->
       addr + Z.of_nat (length l) < p_sz (proc_at s p) /\ Forall (fun c => c <> 0) l
       /\ user_bytes s p addr (length l + 1) = Some (l ++ [0])).
Proof.
  pose proof Hok as [Hc [Hs0 Hs] _]. unfold fetchstr. set (sz := p_sz (proc_at s p)) in *.
  destruct (decide (sz <= addr)) as [Hle|Hgt].
  - exists None. split; [|intros l; split; [done|]; lia].
    unfold bind. rewrite (curproc_eq s p) by done. unfold get. fold sz. by rewrite (proj2 (Z.leb_le _ _)).
  - destruct (user_bytes_mapped s p addr (Z.to_nat (sz - addr)) Hok ltac:(lia) ltac:(fold sz; lia)) as (L & HL & Hlen & _).
    exists (cstr_in L). split.
    + unfold bind. rewrite (curproc_eq s p) by done. unfold get. fold sz. rewrite (proj2 (Z.leb_gt _ _)) by lia.
      by apply (fetchstr_loop_eq s p).
    + intros l. rewrite cstr_in_iff. split.
      * intros [Hf [t ->]]. rewrite length_app in Hlen. simpl in Hlen. split_and!; [lia|done|].
        rewrite (user_bytes_take _ _ _ _ _ _ HL) by lia. f_equal.
        rewrite (cons_middle 0 l t), app_assoc. rewrite take_app_length'; [done|]. rewrite length_app. simpl. lia.
      * intros (Hlt & Hf & Hl). split; [done|]. rewrite (user_bytes_take _ _ _ _ _ _ HL) in Hl by lia.
        injection Hl as Hl. exists (drop (length l + 1) L). rewrite (cons_middle 0 l), app_assoc, <- Hl. by rewrite take_drop.
Qed.

(** The NUL-terminated strings of the stack page above are empty; the two bytes at 4004 are not 0. *)
Lemma fetchstr_checked_witness : fetchstr 4004 tiny = Ret (Some [250; 15]) tiny.
Proof.
  destruct (fetchstr_checked tiny 0 4004 tiny_ok ltac:(lia)) as (o & Ho & Hl). rewrite Ho. f_equal.
  apply Hl. split_and!; [by vm_compute|repeat constructor; lia|by vm_compute].
Defined.
