(* ===== verification/FsTx.v ===== *)
(** * FsTx: blocks inside a transaction

    What the upper layers of the file system see of the cache and the log: the blocks
    [V], of which those on [bs] are in the log, with the buffers [H] held.  Reading,
    modifying and releasing a block as specifications over this view. *)

From stdpp Require Import functions base gmap list strings.
From Stdlib Require Import ZArith Lia.
From S2P Require Import Prelude State Core Bio Cache Log LogSpec Fs.

Local Open Scope Z_scope.
Local Open Scope kernel_scope.

(** ** Frames *)

(** Only buffers, the log and sleeping processes may have changed. *)
Definition fstep (s s' : kstate) : Prop := lstep [] s s' /\ same_ops (log s) (log s').

Lemma fstep_lstep s s' : lstep [] s s' -> same_ops (log s) (log s') -> fstep s s'.
Proof. by split. Qed.

Lemma fstep_bstep s s' : bstep [] s s' -> fstep s s'.
Proof.
  intros Hb. split; [by apply lstep_bstep|]. destruct (bstep_same _ _ _ Hb) as (_ & _ & _ & -> & _). done.
Qed.

#[export] Instance fstep_preorder : PreOrder fstep.
Proof.
  split.
  - intros s. apply fstep_bstep, bstep_refl.
  - intros s s' s'' [Hl [Ho Hc]] [Hl' [Ho' Hc']]. split; [by eapply lstep_quiet|]. split; congruence.
Qed.

(** Only buffers and sleeping processes may have changed. *)
Definition rstep (s s' : kstate) : Prop := bstep [] s s'.

#[export] Instance rstep_preorder : PreOrder rstep.
Proof. split; [exact bstep_refl|intros s s' s''; apply bstep_quiet]. Qed.

Lemma rstep_state s s' : rstep s s' -> exists ps bs, procs_le (procs s) ps /\ s' = set_procs ps (set_bufs bs s).
Proof. intros (ps & bs & Hps & ->). exists ps, bs. split; [done|]. destruct s. unfold did_write. cbn. by rewrite app_nil_r. Qed.

Lemma fstep_same s s' :
  fstep s s' -> held s' = held s /\ cur s' = cur s /\ mypid s' = mypid s /\ sb s' = sb s
  /\ icache s' = icache s /\ disk s' = disk s /\ l_outstanding (log s') = l_outstanding (log s).
Proof.
  intros [Hl [Ho _]]. destruct (bstep_same _ _ _ Hl) as (H1 & H2 & H3 & _ & H5 & H6 & H7 & _). by split_and!.
Qed.

Lemma fstep_icache ic s s' : fstep s s' -> fstep (set_icache ic s) (set_icache ic s').
Proof.
  intros [(ps & bs & Hps & Hs') Ho]. split; [|done]. exists ps, bs. split; [done|].
  exact (f_equal (set_icache ic) Hs').
Qed.

(** The same, and inode [i] is now [ip]. *)
Definition istep (i : nat) (ip : inode) (s s' : kstate) : Prop :=
  fstep (set_icache (<[i := ip]> (icache s)) s) s'.

Lemma istep_fstep i ip s s' : icache s !! i = Some ip -> fstep s s' -> istep i ip s s'.
Proof. intros Hi Hs. unfold istep. rewrite list_insert_id by done. by destruct s. Qed.

Lemma istep_trans i ip ip' s s' s'' : istep i ip s s' -> istep i ip' s' s'' -> istep i ip' s s''.
Proof.
  unfold istep. intros H1 H2. destruct (fstep_same _ _ H1) as (_ & _ & _ & _ & Hic & _). cbn in Hic.
  rewrite Hic, list_insert_insert_eq in H2. transitivity (set_icache (<[i:=ip']> (icache s)) s'); [|done].
  pose proof (fstep_icache (<[i:=ip']> (icache s)) _ _ H1) as H3. exact H3.
Qed.

Lemma istep_inode i ip ip' s s' : icache s !! i = Some ip -> istep i ip' s s' -> icache s' !! i = Some ip'.
Proof.
  intros Hi Hs. destruct (fstep_same _ _ Hs) as (_ & _ & _ & _ & -> & _). apply list_lookup_insert_eq. by eapply lookup_lt_Some.
Qed.

Lemma istep_same i ip s s' :
  istep i ip s s' -> held s' = held s /\ cur s' = cur s /\ sb s' = sb s /\ l_outstanding (log s') = l_outstanding (log s).
Proof. intros Hs. by destruct (fstep_same _ _ Hs) as (? & ? & ? & ? & ? & ? & ?). Qed.

Lemma inode_at_lookup s i ip : icache s !! i = Some ip -> inode_at s i = ip.
Proof. unfold inode_at. by intros ->. Qed.

(** ** The view *)

(** With no buffer held and none dirty the disk is the view. *)
Lemma cache_clean V s k : cache ∅ V ∅ s -> on_block (disk s) k = V k.
Proof. intros Hc. destruct (c_disk _ _ _ _ Hc k) as [?|[[? ?]|?]]; [set_solver|by simplify_map_eq|done]. Qed.

Section tx.
Context `{DD : DiskDriver} (dev start size_ : Z) (G : geometry dev start size_).
Implicit Types (H : gmap (Z * Z) nat) (V : Z * Z -> list Z) (bs : list Z) (s : kstate).

Record tx H bs V s : Prop := {
  tx_header : header dev start size_ bs (log s);
  tx_cache : cache H V (keys dev bs) s;
  tx_clean k : k ∈ keys dev bs \/ on_block (disk s) k = V k
}.

Lemma tx_icache H bs V s ic : tx H bs V s -> tx H bs V (set_icache ic s).
Proof. intros [Hh [C1 C2 C3 C4 C5 C6 C7 C8 C9] Hcl]. by split; [|split|]. Qed.

Lemma tx_block H bs V s k : tx H bs V s -> block_ok (V k).
Proof. intros Ht. apply (c_blocks _ _ _ _ (tx_cache _ _ _ _ Ht)). Qed.

Lemma tx_size H bs V s : tx H bs V s -> Z.of_nat (length bs) < size_ /\ size (keys dev bs) = length bs.
Proof. destruct G. intros [[] _ _]. split; [done|]. by eapply size_keys. Qed.

Lemma tx_bread_only H bs V s b :
  tx H bs V s -> on_disk dev b -> H !! (dev, b) = None -> (size H + length bs < 30)%nat ->
  wp (bread dev b) (fun i s' => tx (<[(dev, b) := i]> H) bs V s' /\ rstep s s') s.
Proof.
  intros Ht Hd Hn Hroom. pose proof Ht as [Hh Hc Hcl]. eapply wp_mono.
  - apply (bread_spec H V (keys dev bs)); [done|destruct G; lia|done|done|]. right.
    rewrite (proj2 (tx_size _ _ _ _ Ht)). unfold NBUF. lia.
  - intros i s' [Hc' Hs']. split; [|done].
    destruct (bstep_same _ _ _ Hs') as (_ & _ & _ & Hlg & _ & _ & Hdisk & _). split; [by rewrite Hlg|done|].
    intros k. rewrite Hdisk. apply Hcl.
Qed.

Lemma tx_bread H bs V s b :
  tx H bs V s -> on_disk dev b -> H !! (dev, b) = None -> (size H + length bs < 30)%nat ->
  wp (bread dev b) (fun i s' => tx (<[(dev, b) := i]> H) bs V s' /\ fstep s s') s.
Proof. intros. eapply wp_mono; [by apply tx_bread_only|]. intros i s' [? ?]. by split; [|apply fstep_bstep]. Qed.

Lemma tx_bdata H bs V s b i : tx H bs V s -> H !! (dev, b) = Some i -> bdata i s = Ret (V (dev, b)) s.
Proof. intros Ht Hi. unfold bdata, get. by rewrite (cache_data _ _ _ _ _ _ (tx_cache _ _ _ _ Ht) Hi). Qed.

Lemma tx_brelse_only H bs V s b i :
  tx H bs V s -> H !! (dev, b) = Some i ->
  wp (brelse i) (fun _ s' => tx (delete (dev, b) H) bs V s' /\ rstep s s') s.
Proof.
  intros Ht Hi. pose proof Ht as [Hh Hc Hcl]. eapply wp_mono; [by apply (brelse_spec H V (keys dev bs) s (dev, b))|].
  intros [] s' [Hc' Hs']. split; [|done].
  destruct (bstep_same _ _ _ Hs') as (_ & _ & _ & Hlg & _ & _ & Hdisk & _). split; [by rewrite Hlg|done|].
  intros k. rewrite Hdisk. apply Hcl.
Qed.

Lemma tx_brelse H bs V s b i :
  tx H bs V s -> H !! (dev, b) = Some i ->
  wp (brelse i) (fun _ s' => tx (delete (dev, b) H) bs V s' /\ fstep s s') s.
Proof. intros. eapply wp_mono; [by eapply tx_brelse_only|]. intros [] s' [? ?]. by split; [|apply fstep_bstep]. Qed.

(** A block modified in its buffer and logged. *)
Lemma tx_modify {A} H bs V s b i f (k : KM A) Q :
  tx H bs V s -> H !! (dev, b) = Some i -> 1 <= l_outstanding (log s) -> home dev start size_ b ->
  Z.of_nat (length bs) + 1 < size_ -> block_ok (f (V (dev, b))) ->
  (forall s', tx H (absorbed bs b) (<[(dev, b) := f (V (dev, b))]> V) s' -> fstep s s' -> wp k Q s') ->
  wp (upd_data i f ;;; log_write i ;;; k) Q s.
Proof.
  intros Ht Hi Ho Hb Hlt Hok Hk. pose proof Ht as [Hh Hc Hcl]. pose proof G as [].
  eapply wp_step; [reflexivity|]. set (s1 := set_bufs _ s).
  assert (cache H (<[(dev, b) := f (V (dev, b))]> V) (keys dev bs) s1) as Hc1.
  { apply (cache_write _ _ _ _ _ _ _ _ Hc Hi); [done|]. by rewrite (cache_data _ _ _ _ _ _ Hc Hi). }
  assert (1 <= size_ <= 30) by lia. eapply wp_chain; [by eapply (log_write_spec dev start size_)|]. intros [] s2 (Hh2 & Hso & Hc2 & Hs2). cbn in Hso.
  apply Hk.
  - split; [done|done|]. intros k'. destruct (lstep_same _ _ _ Hs2) as [-> _]. cbn.
    rewrite (keys_absorbed dev start size_) by (done || lia). unfold insert, fn_insert. case_decide as E.
    + subst k'. left. set_solver.
    + destruct (Hcl k'); [left; set_solver|by right].
  - apply fstep_lstep; [|done]. eapply lstep_quiet; [apply lstep_bstep, bstep_bufs|exact Hs2].
Qed.
End tx.
