(* ===== verification/FsCommit.v ===== *)
(** * FsCommit: transactions that change files

    A transaction from [begin_op] to [end_op] around any code that keeps the view of
    FsTx: what reaches the disk, and what a crash leaves. *)

From stdpp Require Import functions base gmap list strings.
From Stdlib Require Import ZArith Lia.
From S2P Require Import Prelude State Core Bio Cache Log LogSpec Fs FsTx.

Local Open Scope Z_scope.
Local Open Scope kernel_scope.

Section commit.
Context `{DD : DiskDriver} (dev start size_ : Z) (G : geometry dev start size_).
Implicit Types (V W : Z * Z -> list Z) (bs : list Z) (s : kstate) (ws : list (Z * Z * list Z)).

Notation in_log := (in_log dev start size_).
Notation good := (good dev start size_).
Notation logical := (logical dev start).

(** No operation in progress: the disk holds the blocks [V] and the log is empty. *)
Record quiet V s : Prop := {
  q_header : header dev start size_ [] (log s);
  q_cache : cache ∅ V ∅ s;
  q_committing : l_committing (log s) = false;
  q_outstanding : l_outstanding (log s) = 0;
  q_good : good (disk s);
  q_head : encodes (on_block (disk s) (hkey dev start)) []
}.

(** After any of the writes [ws] to disk [d], the log recovers one of the views [P]. *)
Definition crash_safe (d : gmap (Z * Z) (list Z)) ws (P : (Z * Z -> list Z) -> Prop) : Prop :=
  forall ws1, ws1 `prefix_of` ws -> good (apply_writes ws1 d) /\
    exists W, P W /\ forall k, ~ in_log k -> logical (apply_writes ws1 d) k = W k.

Lemma crash_safe_nil V s : quiet V s -> crash_safe (disk s) [] (fun W => W = V).
Proof.
  intros [Hh Hc _ _ Hg He] ws1 ->%prefix_nil_inv. split; [done|]. exists V. split; [done|]. intros k Hk. simpl.
  rewrite logical_nil by done. by apply cache_clean.
Qed.

Lemma crash_safe_mono d ws (P Q : (Z * Z -> list Z) -> Prop) :
  crash_safe d ws P -> (forall W, P W -> exists W', Q W' /\ forall k, ~ in_log k -> W k = W' k) -> crash_safe d ws Q.
Proof.
  intros Hs HPQ ws1 Hp. destruct (Hs ws1 Hp) as (Hg & W & HW & Hk). split; [done|]. destruct (HPQ W HW) as (W' & HW' & Heq).
  exists W'. split; [done|]. intros k Hnk. by rewrite Hk, Heq.
Qed.

Lemma crash_safe_app d ws ws' P :
  crash_safe d ws P -> crash_safe (apply_writes ws d) ws' P -> crash_safe d (ws ++ ws') P.
Proof.
  intros H1 H2 ws1 [Hp|(ws2 & -> & Hp)]%prefix_app_cases; [by apply H1|]. rewrite apply_writes_app. by apply H2.
Qed.

(** What a crash after any of these writes comes to, recovery interrupted or not. *)
Lemma crash_safe_recovers d ws P ws1 d1 s1 :
  crash_safe d ws P -> ws1 `prefix_of` ws -> interrupted dev (apply_writes ws1 d) d1 -> booted d1 s1 ->
  wp (boot_fs dev) (fun _ s2 => exists W, P W /\ forall k, ~ in_log k -> on_block (disk s2) k = W k) s1.
Proof.
  intros Hs Hp Hint Hb. pose proof G as []. destruct (Hs ws1 Hp) as (Hg & W & HW & Hk).
  destruct (interrupted_logical dev start size_) with (d := apply_writes ws1 d) (d' := d1) as [Hg2 Hl2]; try (done || lia).
  eapply wp_mono; [eapply (boot_recovers dev start size_); (done || lia)|].
  intros [] s2 (Hd2 & _). exists W. split; [done|]. intros k Hnk. by rewrite Hd2, Hl2, Hk.
Qed.

Definition in_op s : kstate := set_log (set_l_outstanding 1 (log s)) s.

Lemma begin_tx V s : quiet V s -> begin_op s = Ret tt (in_op s) /\ tx dev start size_ ∅ [] V (in_op s).
Proof.
  intros [Hh Hc Hcm Ho _ _]. pose proof G as []. split.
  - eapply (begin_op_spec dev start size_), wp_inv in Hc as ([] & s' & Hr & ->); try (done || lia).
    + unfold in_op. by rewrite Ho in Hr.
    + rewrite Ho. unfold MAXOPBLOCKS, LOGSIZE, MAXOPBLOCKS. simpl. lia.
  - split; [destruct Hh; by split|by apply cache_log|]. intros k. right. exact (cache_clean V s k Hc).
Qed.

Lemma end_tx bs V V0 s :
  tx dev start size_ ∅ bs V s -> l_committing (log s) = false -> l_outstanding (log s) = 1 ->
  good (disk s) -> encodes (on_block (disk s) (hkey dev start)) [] ->
  (forall k, ~ in_log k -> on_block (disk s) k = V0 k) ->
  wp end_op (fun _ s' => exists ws V', lstep ws s s' /\ quiet V' s' /\ (forall k, ~ in_log k -> V' k = V k) /\
    crash_safe (disk s) ws (fun W => W = V0 \/ W = V)) s.
Proof.
  intros [Hh Hc Hcl] Hcm Ho Hg He HV0. pose proof G as []. assert (1 <= size_ <= 30) as Hsz by lia.
  eapply wp_mono; [by eapply (end_op_spec dev start size_)|].
  intros [] s' ((ws & V' & Hh' & Hc' & HV' & Hs' & Hws) & Hcm' & Ho').
  assert (crash_safe (disk s) ws (fun W => W = V0 \/ W = V) /\ encodes (on_block (apply_writes ws (disk s)) (hkey dev start)) []) as [Hcs Hhd].
  { destruct Hws as [[-> ->]|(hd & hd0 & E1 & E2 & ->)].
    - split; [|done]. intros ws1 ->%prefix_nil_inv. split; [done|]. exists V0. split; [by left|]. intros k Hk. simpl.
      rewrite logical_nil by done. by apply HV0.
    - apply header_alt in Hh as (_ & Hlb & _). split.
      + intros ws1 Hp. destruct (commit_prefix dev start size_) with (V := V) (bs := bs) (hd := hd) (hd0 := hd0) (d := disk s) (ws := ws1)
          as [Hsd Hon]; try done. { intros k Hk _. destruct (Hcl k); done. }
        split.
        * apply benign_good; [|done|done]. eapply benign_prefix with (ws' := commit_writes dev start V bs hd hd0); try done.
          eapply benign_commit; try done. apply Hc.
        * destruct Hon as [Hon|Hon]; [exists V0|exists V]; (split; [by auto|]); intros k Hk; rewrite Hon by done; auto.
      + unfold commit_writes. rewrite !app_assoc, apply_writes_app. simpl. rewrite on_block_insert, decide_True by done. done. }
  exists ws, V'. destruct (lstep_same _ _ _ Hs') as [Hd _]. split_and!; try done. split; try done; rewrite Hd; [|done].
  by destruct (Hcs ws ltac:(done)) as [? _].
Qed.
End commit.
