(* ===== verification/FsAlloc.v ===== *)
(** * FsAlloc: the free map

    The blocks of the disk as a bitmap: [balloc] takes the first free block, zeroes it
    and marks it; [bfree] clears its mark. *)

From stdpp Require Import functions base gmap list strings.
From Stdlib Require Import ZArith Lia.
From S2P Require Import Prelude State Core Bio Cache Log LogSpec Fs FsLayout FsTx.

Local Open Scope Z_scope.
Local Open Scope kernel_scope.

Section alloc.
Context `{DD : DiskDriver} (dev start size_ : Z) (G : geometry dev start size_) (sb0 : superblock).
Implicit Types (H : gmap (Z * Z) nat) (V : Z * Z -> list Z) (bs : list Z) (s : kstate).

(** Where the data blocks start, after the bitmap. *)
Definition datastart : Z := sb_bmapstart sb0 + sb_size sb0 / BPB + 1.

(** boot | super | log | inodes | bitmap | data *)
Record fs_layout : Prop := {
  fl_size : 0 < sb_size sb0 < 2 ^ 31;
  fl_inodes : start + size_ <= sb_inodestart sb0;
  fl_ninodes : 0 <= sb_ninodes sb0;
  fl_bmap : sb_inodestart sb0 + sb_ninodes sb0 / IPB + 1 <= sb_bmapstart sb0;
  fl_data : datastart <= sb_size sb0;
  fl_disk b : start + size_ <= b < sb_size sb0 -> on_disk dev b
}.
Hypothesis L : fs_layout.

(** The bit of block [b] in the bitmap. *)
Definition bit V (b : Z) : bool := bit_set (V (dev, BBLOCK b sb0)) (b mod BPB).

(** The boot block up to the bitmap are marked. *)
Definition meta_used V : Prop := forall b, 0 <= b < datastart -> bit V b = true.

Definition first_free V : option Z :=
  Z.of_nat <$> List.find (fun b => negb (bit V (Z.of_nat b))) (seq 0 (Z.to_nat (sb_size sb0))).

Definition alloc_view V (b : Z) : Z * Z -> list Z :=
  <[(dev, b) := zero_block]> (<[(dev, BBLOCK b sb0) := set_bit (b mod BPB) (V (dev, BBLOCK b sb0))]> V).
Definition free_view V (b : Z) : Z * Z -> list Z :=
  <[(dev, BBLOCK b sb0) := clear_bit (b mod BPB) (V (dev, BBLOCK b sb0))]> V.

Lemma home_block b : start + size_ <= b < sb_size sb0 -> home dev start size_ b.
Proof.
  intros Hb. destruct G, L. split_and!; try lia; [|by apply fl_disk0]. intros [_ ?]. simpl in *. lia.
Qed.

Lemma bblock_range b : 0 <= b < sb_size sb0 -> BBLOCK b sb0 = b / BPB + sb_bmapstart sb0 /\ start + size_ <= BBLOCK b sb0 < datastart.
Proof.
  intros Hb. pose proof L as []. pose proof G as []. unfold BBLOCK.
  assert (0 <= b / BPB <= sb_size sb0 / BPB) by (unfold BPB, BSIZE; split; [apply Z.div_pos|apply Z.div_le_mono]; lia).
  assert (0 <= sb_ninodes sb0 / IPB) by (apply Z.div_pos; [lia|done]). unfold datastart in *.
  rewrite u32_small by lia. lia.
Qed.

Lemma bblock_home b : 0 <= b < sb_size sb0 -> home dev start size_ (BBLOCK b sb0) /\ on_disk dev (BBLOCK b sb0).
Proof.
  intros Hb. destruct (bblock_range b Hb) as [_ ?]. pose proof L as []. assert (home dev start size_ (BBLOCK b sb0)) as Hh
    by (apply home_block; lia). split; [done|apply Hh].
Qed.

Lemma bblock_inj b c :
  0 <= b < sb_size sb0 -> 0 <= c < sb_size sb0 -> BBLOCK b sb0 = BBLOCK c sb0 -> b mod BPB = c mod BPB -> b = c.
Proof.
  intros Hb Hc. destruct (bblock_range b Hb) as [-> _]. destruct (bblock_range c Hc) as [-> _]. intros.
  pose proof (Z.div_mod b BPB ltac:(done)). pose proof (Z.div_mod c BPB ltac:(done)). lia.
Qed.

Lemma bit_mod b : 0 <= b mod BPB < 4096.
Proof. apply Z.mod_pos_bound. done. Qed.

(** Writing a data block does not touch the map. *)
Lemma bit_data V b c d :
  0 <= b < sb_size sb0 -> datastart <= c -> bit (<[(dev, c) := d]> V) b = bit V b.
Proof.
  intros Hb Hc. unfold bit. destruct (bblock_range b Hb) as [_ ?]. by rewrite fn_lookup_insert_ne by (intros [= ->]; lia).
Qed.

Lemma bit_alloc V b c :
  block_ok (V (dev, BBLOCK b sb0)) -> datastart <= b < sb_size sb0 -> 0 <= c < sb_size sb0 ->
  bit (alloc_view V b) c = if decide (c = b) then true else bit V c.
Proof.
  intros [Hl _] Hb Hc. pose proof L as []. assert (0 <= b) by (destruct (bblock_range c Hc); pose proof G as []; lia).
  unfold alloc_view. rewrite bit_data by (done || lia). unfold bit. pose proof (bit_mod b). pose proof (bit_mod c).
  destruct (decide (BBLOCK c sb0 = BBLOCK b sb0)) as [E|E].
  - rewrite E, fn_lookup_insert, bit_set_set by (done || lia). repeat case_decide; try done; [|congruence].
    destruct (bblock_inj c b); done || lia.
  - rewrite fn_lookup_insert_ne by (by intros [=]). case_decide; [congruence|done].
Qed.

Lemma bit_free V b c :
  block_ok (V (dev, BBLOCK b sb0)) -> 0 <= b < sb_size sb0 -> 0 <= c < sb_size sb0 ->
  bit (free_view V b) c = if decide (c = b) then false else bit V c.
Proof.
  intros [Hl _] Hb Hc. unfold free_view, bit. pose proof (bit_mod b). pose proof (bit_mod c).
  destruct (decide (BBLOCK c sb0 = BBLOCK b sb0)) as [E|E].
  - rewrite E, fn_lookup_insert, bit_set_clear by (done || lia). repeat case_decide; try done; [|congruence].
    destruct (bblock_inj c b); done || lia.
  - rewrite fn_lookup_insert_ne by (by intros [=]). case_decide; [congruence|done].
Qed.

(** ** Blocks of zeroes *)

Lemma zero_block_ok : block_ok zero_block.
Proof. split; [done|]. by apply Forall_replicate. Qed.

Lemma bzero_spec H bs V s b :
  tx dev start size_ H bs V s -> 1 <= l_outstanding (log s) -> home dev start size_ b -> H !! (dev, b) = None ->
  (size H + length bs < 30)%nat -> Z.of_nat (length bs) + 1 < size_ ->
  wp (bzero dev b) (fun _ s' => tx dev start size_ H (absorbed bs b) (<[(dev, b) := zero_block]> V) s' /\ fstep s s') s.
Proof.
  intros Ht Ho Hb Hn Hroom Hlt. unfold bzero. eapply wp_chain; [by eapply tx_bread; [|done|apply Hb|..]|].
  intros i s1 [Ht1 Hs1]. destruct (fstep_same _ _ Hs1) as (_ & _ & _ & _ & _ & _ & Ho1).
  apply (tx_modify dev start size_ G (<[(dev, b) := i]> H) bs V _ b); [done|apply lookup_insert_eq|lia|done|done|apply zero_block_ok|].
  intros s2 Ht2 Hs2. eapply wp_mono; [eapply tx_brelse; [exact Ht2|apply lookup_insert_eq]|].
  intros [] s3 [Ht3 Hs3]. rewrite delete_insert_id in Ht3 by done. split; [done|]. by rewrite Hs1, Hs2.
Qed.

(** ** Allocation *)

(** Inside a transaction, with the superblock read. *)
Record fsys H bs V s : Prop := {
  fx_tx : tx dev start size_ H bs V s;
  fx_sb : sb s = sb0;
  fx_out : 1 <= l_outstanding (log s);
  fx_meta : meta_used V;
  (** the buffers that are held are of allocated data blocks *)
  fx_held b : is_Some (H !! (dev, b)) -> datastart <= b < sb_size sb0 /\ bit V b = true
}.

Lemma in_group j x : 0 <= x < BPB -> (BPB * j + x) / BPB = j /\ (BPB * j + x) mod BPB = x.
Proof.
  intros Hx. split.
  - rewrite Z.mul_comm, Z.div_add_l, Z.div_small, Z.add_0_r by (done || lia). done.
  - rewrite Z.add_comm, Z.mul_comm, Z.mod_add, Z.mod_small by (done || lia). done.
Qed.

Lemma free_bit_spec V j :
  0 <= j -> BPB * j < sb_size sb0 ->
  match free_bit (V (dev, BBLOCK (BPB * j) sb0)) (BPB * j) (sb_size sb0) with
  | Some bi => let b := BPB * j + Z.of_nat bi in
      0 <= Z.of_nat bi < BPB /\ b < sb_size sb0 /\ bit V b = false /\ forall c, BPB * j <= c < b -> bit V c = true
  | None => forall c, BPB * j <= c < Z.min (BPB * j + BPB) (sb_size sb0) -> bit V c = true
  end.
Proof.
  intros Hj Hlt. assert (forall x, 0 <= x < BPB -> BPB * j + x < sb_size sb0 ->
    bit V (BPB * j + x) = bit_set (V (dev, BBLOCK (BPB * j) sb0)) x) as Hbit.
  { intros x Hx Hx'. unfold bit. assert ((BPB * j + x) / BPB = j /\ (BPB * j + x) mod BPB = x) as [Hd ->].
    { by apply in_group. }
    f_equal. f_equal. f_equal. unfold BBLOCK. rewrite Hd, Z.mul_comm, Z.div_mul by done. done. }
  assert (0 < BPB) by done. unfold free_bit. pose proof (find_seq (fun bi => negb (bit_set (V (dev, BBLOCK (BPB * j) sb0)) (Z.of_nat bi))) 0
    (Z.to_nat (Z.min BPB (sb_size sb0 - BPB * j)))) as Hf. destruct (List.find _ _) as [bi|].
  - destruct Hf as (Hi & Hf & Hall). simpl in *. split_and!; [lia|lia|lia| |].
    + rewrite Hbit by lia. by apply negb_true_iff.
    + intros c Hc. replace c with (BPB * j + (c - BPB * j)) by lia. rewrite Hbit by lia.
      specialize (Hall (Z.to_nat (c - BPB * j)) ltac:(lia)). rewrite Z2Nat.id in Hall by lia. by apply negb_false_iff.
  - intros c Hc. replace c with (BPB * j + (c - BPB * j)) by lia. rewrite Hbit by lia.
    specialize (Hf (Z.to_nat (c - BPB * j)) ltac:(lia)). rewrite Z2Nat.id in Hf by lia. by apply negb_false_iff.
Qed.

Lemma first_free_some V b :
  0 <= b < sb_size sb0 -> bit V b = false -> (forall c, 0 <= c < b -> bit V c = true) -> first_free V = Some b.
Proof.
  intros Hb Hf Hall. unfold first_free. rewrite (find_seq_first _ _ _ (Z.to_nat b)); [|lia| |].
  - simpl. f_equal. lia.
  - rewrite Z2Nat.id by lia. by rewrite Hf.
  - intros c Hc. rewrite Hall by lia. done.
Qed.

Lemma first_free_none V : (forall c, 0 <= c < sb_size sb0 -> bit V c = true) -> first_free V = None.
Proof. intros Hall. unfold first_free. rewrite find_seq_none; [done|]. intros c Hc. rewrite Hall by lia. done. Qed.

Lemma first_free_all V c : first_free V = None -> 0 <= c < sb_size sb0 -> bit V c = true.
Proof.
  unfold first_free. pose proof (find_seq (fun b => negb (bit V (Z.of_nat b))) 0 (Z.to_nat (sb_size sb0))) as Hf.
  destruct (List.find _ _); [done|]. intros _ Hc. specialize (Hf (Z.to_nat c) ltac:(lia)). rewrite Z2Nat.id in Hf by lia.
  by apply negb_false_iff.
Qed.

Lemma first_free_spec V b :
  first_free V = Some b -> 0 <= b < sb_size sb0 /\ bit V b = false /\ forall c, 0 <= c < b -> bit V c = true.
Proof.
  unfold first_free. pose proof (find_seq (fun b => negb (bit V (Z.of_nat b))) 0 (Z.to_nat (sb_size sb0))) as Hf.
  destruct (List.find _ _) as [n|]; [|done]. intros [= <-]. destruct Hf as (Hn & Hb & Hall).
  split; [lia|]. split; [by apply negb_true_iff|]. intros c Hc. specialize (Hall (Z.to_nat c) ltac:(lia)).
  rewrite Z2Nat.id in Hall by lia. by apply negb_false_iff.
Qed.

Definition after_alloc bs (b : Z) : list Z := absorbed (absorbed bs (BBLOCK b sb0)) b.

Lemma length_absorbed bs b : (length bs <= length (absorbed bs b) <= length bs + 1)%nat.
Proof. unfold absorbed. case_decide; rewrite ?length_app; simpl; lia. Qed.

Lemma Forall_alter_byte f k d : (forall x, is_byte x -> is_byte (f x)) -> block_ok d -> block_ok (alter f k d).
Proof.
  intros Hf [Hl Hd]. split; [by rewrite length_alter|]. apply Forall_alter; [done|]. intros x _ Hx. by apply Hf.
Qed.

Lemma is_byte_shift x : 0 <= x -> is_byte x <-> Z.shiftr x 8 = 0.
Proof. intros Hx. rewrite Z.shiftr_div_pow2, Z.div_small_iff by done. unfold is_byte. lia. Qed.

Lemma bit_mask_byte bi : is_byte (bit_mask bi).
Proof.
  unfold bit_mask. rewrite Z.shiftl_1_l. pose proof (Z.mod_pos_bound bi 8 ltac:(done)).
  pose proof (Z.pow_nonneg 2 (bi mod 8) ltac:(done)). pose proof (Z.pow_lt_mono_r 2 (bi mod 8) 8 ltac:(done)). unfold is_byte. lia.
Qed.

Lemma block_ok_set_bit bi d : block_ok d -> block_ok (set_bit bi d).
Proof.
  apply Forall_alter_byte. intros x Hx. pose proof (bit_mask_byte bi) as Hm.
  assert (0 <= x /\ 0 <= bit_mask bi) as [H1 H2] by (unfold is_byte in *; lia).
  apply is_byte_shift; [by apply Z.lor_nonneg|]. rewrite Z.shiftr_lor. apply is_byte_shift in Hx, Hm; [|done..]. by rewrite Hx, Hm.
Qed.

Lemma block_ok_clear_bit bi d : block_ok d -> block_ok (clear_bit bi d).
Proof.
  apply Forall_alter_byte. intros x Hx. assert (0 <= x) by (unfold is_byte in Hx; lia).
  apply is_byte_shift; [apply Z.land_nonneg; by left|]. rewrite Z.shiftr_land. apply is_byte_shift in Hx; [|done]. by rewrite Hx.
Qed.

(** Marking the block found and zeroing it. *)
Lemma take_block H bs V s b i :
  tx dev start size_ (<[(dev, BBLOCK b sb0) := i]> H) bs V s -> H !! (dev, BBLOCK b sb0) = None -> H !! (dev, b) = None ->
  1 <= l_outstanding (log s) -> datastart <= b < sb_size sb0 ->
  (size H <= 1)%nat -> Z.of_nat (length bs) + 2 < size_ ->
  wp (upd_data i (set_bit (b mod BPB)) ;;; log_write i ;;; brelse i ;;; bzero dev b ;;; ret (Some b))
    (fun r s' => r = Some b /\ tx dev start size_ H (after_alloc bs b) (alloc_view V b) s' /\ fstep s s') s.
Proof.
  intros Ht Hn1 Hn2 Ho Hb Hsz Hlt. pose proof G as []. pose proof L as [].
  assert (0 <= b < sb_size sb0) as Hb0 by (destruct (bblock_range 0 ltac:(lia)); lia).
  assert (block_ok (set_bit (b mod BPB) (V (dev, BBLOCK b sb0)))) as Hok.
  { apply block_ok_set_bit, (tx_block _ _ _ _ _ _ _ _ Ht). }
  eapply (tx_modify dev start size_ G _ bs V _ (BBLOCK b sb0));
    [exact Ht|apply lookup_insert_eq|done|by apply bblock_home|lia|done|]. intros s1 Ht1 Hs1.
  eapply wp_chain; [eapply tx_brelse; [exact Ht1|apply lookup_insert_eq]|]. intros [] s2 [Ht2 Hs2].
  rewrite delete_insert_id in Ht2 by done.
  destruct (fstep_same _ _ Hs1) as (_ & _ & _ & _ & _ & _ & Ho1). destruct (fstep_same _ _ Hs2) as (_ & _ & _ & _ & _ & _ & Ho2).
  pose proof (length_absorbed bs (BBLOCK b sb0)).
  eapply wp_chain; [apply bzero_spec; [exact Ht2|lia|apply home_block; destruct (bblock_range 0 ltac:(lia)); lia|done|lia|lia]|].
  intros [] s3 [Ht3 Hs3]. apply wp_ret. split; [done|]. split; [done|]. by rewrite Hs1, Hs2.
Qed.

Definition balloc_scan (size : Z) : KM (option Z) :=
  loop_until (seq 0 (Z.to_nat ((size + BPB - 1) / BPB))) (fun j =>
    let b := BPB * Z.of_nat j in
    sb <- get sb ;;
    bp <- bread dev (BBLOCK b sb) ;;
    d <- bdata bp ;;
    match free_bit d b size with
    | Some bi =>
        upd_data bp (set_bit (Z.of_nat bi)) ;;;
        log_write bp ;;;
        brelse bp ;;;
        bzero dev (b + Z.of_nat bi) ;;;
        ret (Some (b + Z.of_nat bi))
    | None =>
        brelse bp ;;;
        ret None
    end).

Lemma not_held_free H bs V s b : fsys H bs V s -> bit V b = false -> H !! (dev, b) = None.
Proof.
  intros [_ _ _ _ Hh] Hb. destruct (H !! (dev, b)) eqn:E; [|done]. destruct (Hh b) as [_ ?]; [by rewrite E|congruence].
Qed.
Lemma not_held_meta H bs V s b : fsys H bs V s -> b < datastart -> H !! (dev, b) = None.
Proof.
  intros [_ _ _ _ Hh] Hb. destruct (H !! (dev, b)) eqn:E; [|done]. destruct (Hh b) as [? ?]; [by rewrite E|lia].
Qed.

Lemma balloc_scan_spec H bs V s :
  fsys H bs V s -> (size H <= 1)%nat -> Z.of_nat (length bs) + 2 < size_ ->
  wp (balloc_scan (sb_size sb0)) (fun r s' => r = first_free V /\
    match r with
    | Some b => tx dev start size_ H (after_alloc bs b) (alloc_view V b) s' /\ fstep s s'
    | None => True
    end) s.
Proof.
  intros Hfs Hsz Hlt. pose proof Hfs as [Ht Hsb Ho Hm Hh]. pose proof L as []. pose proof G as [].
  pose proof (Z.div_mod (sb_size sb0 + BPB - 1) BPB ltac:(done)) as Hdm.
  pose proof (Z.mod_pos_bound (sb_size sb0 + BPB - 1) BPB ltac:(done)) as Hmb.
  assert (0 < BPB) by done. set (n := (sb_size sb0 + BPB - 1) / BPB) in *.
  apply (wp_loop_until (fun j s' => tx dev start size_ H bs V s' /\ fstep s s' /\
    forall c, 0 <= c < Z.min (BPB * Z.of_nat j) (sb_size sb0) -> bit V c = true)).
  - split_and!; [done|done|lia].
  - intros j s1 Hj (Ht1 & Hs1 & Hall). eapply wp_step; [reflexivity|].
    destruct (fstep_same _ _ Hs1) as (_ & _ & _ & -> & _ & _ & Ho1). rewrite Hsb. set (b := BPB * Z.of_nat j) in *.
    assert (0 <= b < sb_size sb0) as Hb by nia. destruct (bblock_range b Hb) as [_ Hbb].
    pose proof (not_held_meta _ _ _ _ (BBLOCK b sb0) Hfs ltac:(lia)) as Hn.
    eapply wp_chain; [eapply tx_bread; [exact G|exact Ht1|by apply bblock_home|done|lia]|]. intros i s2 [Ht2 Hs2].
    eapply wp_step; [eapply tx_bdata; [exact Ht2|apply lookup_insert_eq]|].
    pose proof (free_bit_spec V (Z.of_nat j) ltac:(lia) ltac:(unfold b in *; lia)) as Hfb. fold b in Hfb.
    destruct (free_bit _ b _) as [bi|].
    + destruct Hfb as (Hbi & Hb2 & Hfree & Hused).
      assert (first_free V = Some (b + Z.of_nat bi)) as Hff.
      { apply first_free_some; [lia|done|]. intros c Hc. destruct (decide (c < b)); [apply Hall|apply Hused]; lia. }
      assert (datastart <= b + Z.of_nat bi).
      { destruct (decide (datastart <= b + Z.of_nat bi)); [done|]. rewrite Hm in Hfree by lia. done. }
      assert (BBLOCK (b + Z.of_nat bi) sb0 = BBLOCK b sb0 /\ (b + Z.of_nat bi) mod BPB = Z.of_nat bi) as [Hbl Hmod].
      { unfold BBLOCK, b. destruct (in_group (Z.of_nat j) (Z.of_nat bi) Hbi) as [-> ->]. by rewrite Z.mul_comm, Z.div_mul. }
      destruct (fstep_same _ _ Hs2) as (_ & _ & _ & _ & _ & _ & Ho2).
      pose proof (take_block H bs V s2 (b + Z.of_nat bi) i) as Htb. rewrite Hbl, Hmod in Htb.
      eapply wp_mono; [apply Htb; try done; [by eapply not_held_free|lia]|].
      intros r s3 (-> & Ht3 & Hs3). split; [done|]. split; [done|]. by rewrite Hs1, Hs2.
    + eapply wp_chain; [eapply tx_brelse; [exact Ht2|apply lookup_insert_eq]|]. intros [] s3 [Ht3 Hs3].
      rewrite delete_insert_id in Ht3 by done. apply wp_ret. split; [done|]. split; [by rewrite Hs1, Hs2|].
      intros c Hc. destruct (decide (c < b)); [apply Hall; lia|apply Hfb; lia].
  - intros s1 (_ & _ & Hall). split; [|done]. symmetry. apply first_free_none. intros c Hc. apply Hall. nia.
Qed.

Lemma first_free_data V b : meta_used V -> first_free V = Some b -> datastart <= b < sb_size sb0 /\ bit V b = false.
Proof.
  intros Hm Hf. apply first_free_spec in Hf as (Hb & Hf & _). split; [|done].
  destruct (decide (b < datastart)); [rewrite Hm in Hf by lia; done|lia].
Qed.

Lemma fsys_step H bs V s bs' V' s' :
  fsys H bs V s -> tx dev start size_ H bs' V' s' -> fstep s s' ->
  (forall b, 0 <= b < sb_size sb0 -> bit V b = true -> bit V' b = true) -> fsys H bs' V' s'.
Proof.
  intros [Ht Hsb Ho Hm Hh] Ht' Hs Hbit. destruct (fstep_same _ _ Hs) as (_ & _ & _ & Hsb' & _ & _ & Ho').
  pose proof G as []. pose proof L as []. destruct (bblock_range 0 ltac:(lia)) as [_ ?].
  split; [done|congruence|lia| |].
  - intros b Hb. apply Hbit; [lia|by apply Hm].
  - intros b Hb. destruct (Hh b Hb). split; [done|]. apply Hbit; [lia|done].
Qed.

Lemma balloc_spec H bs V s :
  fsys H bs V s -> (size H <= 1)%nat -> Z.of_nat (length bs) + 2 < size_ ->
  match first_free V with
  | Some b => wp (balloc dev) (fun r s' => r = b /\ fsys H (after_alloc bs b) (alloc_view V b) s' /\ fstep s s') s
  | None => balloc dev s = Panic "balloc: out of blocks"
  end.
Proof.
  intros Hfs Hsz Hlt. pose proof Hfs as [Ht Hsb Ho Hm Hh].
  destruct (wp_inv _ _ _ (balloc_scan_spec H bs V s Hfs Hsz Hlt)) as (r & s' & Hr & Heq & Hp).
  assert (balloc dev s = match r with Some b => Ret b s' | None => Panic "balloc: out of blocks" end) as Hb.
  { unfold balloc, bind at 1, get at 1. rewrite Hsb. unfold bind at 1. fold (balloc_scan (sb_size sb0)). rewrite Hr. by destruct r. }
  rewrite <- Heq. destruct r as [b|]; [|done]. destruct Hp as [Ht' Hs]. eapply wp_intro; [exact Hb|].
  split; [done|]. split; [|done]. destruct (first_free_data V b Hm (eq_sym Heq)) as [Hbd _].
  eapply fsys_step; [done..|]. intros c Hc Hbit. rewrite bit_alloc by (apply (tx_block _ _ _ _ _ _ _ _ Ht) || done).
  by case_decide.
Qed.

(** ** Freeing *)

Lemma bfree_spec H bs V s b :
  fsys H bs V s -> (size H <= 1)%nat -> Z.of_nat (length bs) + 1 < size_ -> datastart <= b < sb_size sb0 ->
  H !! (dev, b) = None ->
  if bit V b then wp (bfree dev b) (fun _ s' => fsys H (absorbed bs (BBLOCK b sb0)) (free_view V b) s' /\ fstep s s') s
  else bfree dev b s = Panic "freeing free block".
Proof.
  intros Hfs Hsz Hlt Hb Hnb. pose proof Hfs as [Ht Hsb Ho Hm Hh]. pose proof G as []. pose proof L as [].
  assert (0 <= b < sb_size sb0) as Hb0 by (destruct (bblock_range 0 ltac:(lia)); lia).
  destruct (bblock_range b Hb0) as [_ Hbb]. pose proof (not_held_meta _ _ _ _ (BBLOCK b sb0) Hfs ltac:(lia)) as Hn.
  destruct (wp_inv _ _ _ (tx_bread dev start size_ G H bs V s (BBLOCK b sb0) Ht (proj2 (bblock_home b Hb0)) Hn ltac:(lia)))
    as (i & s1 & Hr & Ht1 & Hs1).
  pose proof (tx_bdata _ _ _ _ _ _ _ _ _ Ht1 (lookup_insert_eq _ _ _)) as Hd.
  destruct (bit V b) eqn:Hbit.
  - unfold bfree. eapply wp_step; [reflexivity|]. rewrite Hsb. eapply wp_step; [exact Hr|]. eapply wp_step; [exact Hd|].
    unfold bit in Hbit. rewrite Hbit. cbn [negb]. destruct (fstep_same _ _ Hs1) as (_ & _ & _ & _ & _ & _ & Ho1).
    assert (block_ok (clear_bit (b mod BPB) (V (dev, BBLOCK b sb0)))).
    { apply block_ok_clear_bit, (tx_block _ _ _ _ _ _ _ _ Ht). }
    eapply (tx_modify dev start size_ G _ bs V _ (BBLOCK b sb0));
      [exact Ht1|apply lookup_insert_eq|lia|by apply bblock_home|lia|done|]. intros s2 Ht2 Hs2.
    eapply wp_mono; [eapply tx_brelse; [exact Ht2|apply lookup_insert_eq]|]. intros [] s3 [Ht3 Hs3].
    rewrite delete_insert_id in Ht3 by done. assert (fstep s s3) as Hs03 by (by rewrite Hs1, Hs2). split; [|done].
    destruct (fstep_same _ _ Hs03) as (_ & _ & _ & Hsb' & _ & _ & Ho').
    split; [done|congruence|lia| |].
    + intros c Hc. rewrite bit_free by (apply (tx_block _ _ _ _ _ _ _ _ Ht) || lia).
      rewrite decide_False by lia. by apply Hm.
    + intros c Hc. destruct (Hh c Hc). split; [done|]. rewrite bit_free by (apply (tx_block _ _ _ _ _ _ _ _ Ht) || lia).
      rewrite decide_False; [done|]. intros ->. rewrite Hnb in Hc. by destruct Hc.
  - unfold bfree, bind at 1, get at 1. rewrite Hsb. unfold bind at 1. rewrite Hr. unfold bind at 1. rewrite Hd.
    unfold bit in Hbit. by rewrite Hbit.
Qed.
End alloc.
