(* ===== verification/FsFile.v ===== *)
(** * FsFile: the contents of an inode

    The blocks of a file as the inode and its indirect block name them; [bmap] adds
    blocks without disturbing what is there, [readi] and [writei] read and write the
    bytes of the file. *)

From stdpp Require Import functions base gmap list strings.
From Stdlib Require Import ZArith Lia.
From S2P Require Import Prelude State Core Bio Cache Log LogSpec Fs FsLayout FsTx FsAlloc.

Local Open Scope Z_scope.
Local Open Scope kernel_scope.

(** The indirect block of an inode. *)
Definition ind (ip : inode) : Z := default 0 (i_addrs ip !! 12%nat).

(** The log blocks and the free blocks that the indirect block may still need. *)
Definition lcost (bs : list Z) (ip : inode) : nat := if ind ip =? 0 then 2 else if decide (ind ip ∈ bs) then 0 else 1.
Definition need (ip : inode) : nat := if ind ip =? 0 then 1 else 0.

Lemma elem_of_absorbed (bs : list Z) b c : c ∈ absorbed bs b <-> c = b \/ c ∈ bs.
Proof. unfold absorbed. case_decide; set_solver. Qed.

Lemma lcost_mono bs bs' ip : (forall b, b ∈ bs -> b ∈ bs') -> (lcost bs' ip <= lcost bs ip)%nat.
Proof. intros Hbs. unfold lcost. destruct (ind ip =? 0); [done|]. repeat case_decide; naive_solver lia. Qed.

Section file.
Context `{DD : DiskDriver} (dev start size_ : Z) (G : geometry dev start size_) (sb0 : superblock)
  (L : fs_layout dev start size_ sb0).
Implicit Types (V : Z * Z -> list Z) (bs : list Z) (s : kstate) (ip : inode).

Notation bit := (bit dev sb0).
Notation datastart := (datastart sb0).

(** ** The block table of a file

    Positions 0 to 11 are the direct blocks, 12 is the indirect block and from 13 on
    are the blocks named in it. *)

Definition loc V ip (p : nat) : Z :=
  if (p <? 13)%nat then default 0 (i_addrs ip !! p)
  else if ind ip =? 0 then 0 else rd 4 (4 * (p - 13)) (V (dev, ind ip)).
(** The position of block [bn] of the file. *)
Definition posn (bn : Z) : nat := if bn <? 12 then Z.to_nat bn else Z.to_nat bn + 1.

Record file_ok V ip : Prop := {
  f_dev : i_dev ip = dev;
  f_len : length (i_addrs ip) = 13%nat;
  f_used p : (p < 141)%nat -> loc V ip p <> 0 -> datastart <= loc V ip p < sb_size sb0 /\ bit V (loc V ip p) = true;
  f_inj p q : (p < 141)%nat -> (q < 141)%nat -> loc V ip p <> 0 -> loc V ip p = loc V ip q -> p = q
}.

(** Blocks that no operation on this file may change: other devices, the blocks before
    the bitmap, and the allocated blocks of other files. *)
Definition other V ip (k : Z * Z) : Prop :=
  k.1 <> dev \/ k.2 < sb_bmapstart sb0 \/
  (datastart <= k.2 < sb_size sb0 /\ bit V k.2 = true /\ forall p, (p < 141)%nat -> loc V ip p <> k.2).

(** Blocks may have been added to the file. *)
Record grown V ip V' ip' : Prop := {
  g_loc p : (p < 141)%nat -> loc V ip p <> 0 -> loc V' ip' p = loc V ip p;
  g_fresh p : (p < 141)%nat -> loc V ip p = 0 -> loc V' ip' p <> 0 ->
    datastart <= loc V' ip' p < sb_size sb0 /\ bit V (loc V' ip' p) = false;
  g_inode : ip' = set_i_addrs (i_addrs ip') ip;
  g_other k : other V ip k -> V' k = V k;
  g_bits b : 0 <= b < sb_size sb0 -> bit V b = true -> bit V' b = true;
  (** no block is marked that is not in the file *)
  g_noleak b : datastart <= b < sb_size sb0 -> bit V' b = true -> bit V b = true \/ exists p, (p < 141)%nat /\ loc V' ip' p = b
}.

(** The data blocks of the file are as they were. *)
Definition same_data V ip V' : Prop :=
  forall p, (p < 141)%nat -> p <> 12%nat -> loc V ip p <> 0 -> V' (dev, loc V ip p) = V (dev, loc V ip p).

Lemma loc_12 V ip : loc V ip 12 = ind ip.
Proof. done. Qed.

Lemma datastart_pos : start + size_ < datastart /\ 1 < datastart.
Proof. pose proof G as []. pose proof L as []. destruct (bblock_range dev start size_ G sb0 L 0 ltac:(lia)). lia. Qed.

Lemma grown_refl V ip : grown V ip V ip.
Proof. split; try done; [by destruct ip|by left]. Qed.

Lemma other_grown V ip V' ip' k : grown V ip V' ip' -> other V ip k -> other V' ip' k.
Proof.
  intros [L1 F1 _ _ B1 _] Hk. pose proof datastart_pos. destruct Hk as [Hk|[Hk|(Hd & Hk & Hn)]]; [by left|by right; left|].
  right; right. split; [done|]. split; [apply B1; [lia|done]|].
  intros p Hp. destruct (decide (loc V ip p = 0)) as [E|E]; [|by rewrite L1; [apply Hn|..]].
  intros Heq. destruct (F1 p Hp E ltac:(lia)). congruence.
Qed.

Lemma grown_trans V1 ip1 V2 ip2 V3 ip3 :
  file_ok V1 ip1 -> grown V1 ip1 V2 ip2 -> grown V2 ip2 V3 ip3 -> grown V1 ip1 V3 ip3.
Proof.
  intros [_ _ Hu _] Hg1 [L2 F2 I2 O2 B2 N2]. pose proof Hg1 as [L1 F1 I1 O1 B1 N1]. pose proof datastart_pos.
  assert (forall b, datastart <= b < sb_size sb0 -> bit V2 b = false -> bit V1 b = false) as Hb21.
  { intros b Hb Hf. destruct (bit V1 b) eqn:E; [|done]. rewrite B1 in Hf; [done|lia|done]. }
  assert (forall p, (p < 141)%nat -> loc V1 ip1 p <> 0 -> loc V3 ip3 p = loc V1 ip1 p) as HL.
  { intros p Hp Hn. rewrite L2, L1; [done..|]. by rewrite L1. }
  split.
  - done.
  - intros p Hp Hz Hn. destruct (decide (loc V2 ip2 p = 0)) as [E|E].
    + destruct (F2 p Hp E Hn) as [Hr Hf]. split; [done|by apply Hb21].
    + rewrite L2 by done. by apply F1.
  - rewrite I2, I1. by destruct ip1.
  - intros k Hk. rewrite O2, O1; [done|done|]. by apply (other_grown V1 ip1).
  - auto.
  - intros b Hb Hbit. destruct (N2 b Hb Hbit) as [Hb2|?]; [|by right].
    destruct (N1 b Hb Hb2) as [?|(p & Hp & <-)]; [by left|]. right; exists p. split; [done|]. rewrite L2; [done..|lia].
Qed.

Lemma same_data_trans V1 ip1 V2 ip2 V3 :
  grown V1 ip1 V2 ip2 -> same_data V1 ip1 V2 -> same_data V2 ip2 V3 -> same_data V1 ip1 V3.
Proof.
  intros [L1 _ _ _ _ _] H1 H2 p Hp H12 Hn. pose proof (H2 p Hp H12) as H2p. rewrite L1 in H2p by done.
  rewrite H2p by done. by apply H1.
Qed.

(** The table after block [b] is put at position [p]. *)
Lemma place p b V ip V1 ip1 :
  file_ok V ip -> datastart <= b < sb_size sb0 -> bit V b = false -> (p < 141)%nat -> loc V ip p = 0 ->
  (forall q, (q < 141)%nat -> loc V1 ip1 q = if decide (q = p) then b else loc V ip q) ->
  (forall k, k <> (dev, b) -> k <> (dev, BBLOCK b sb0) -> k <> (dev, ind ip) \/ ind ip = 0 -> V1 k = V k) ->
  (forall c, 0 <= c < sb_size sb0 -> bit V1 c = if decide (c = b) then true else bit V c) ->
  ip1 = set_i_addrs (i_addrs ip1) ip -> length (i_addrs ip1) = 13%nat ->
  file_ok V1 ip1 /\ grown V ip V1 ip1 /\ same_data V ip V1.
Proof.
  intros [Hd Hl Hu Hi] Hb Hf Hp Hz Hloc HV Hbit Hip Hl1. pose proof datastart_pos.
  assert (forall q, (q < 141)%nat -> loc V ip q <> 0 -> loc V ip q <> b) as Hnb.
  { intros q Hq Hn Heq. destruct (Hu q Hq Hn). congruence. }
  assert (start + size_ <= BBLOCK b sb0 < datastart /\ sb_bmapstart sb0 <= BBLOCK b sb0) as [HBB HBB'].
  { destruct (bblock_range dev start size_ G sb0 L b) as [HB ?]; [lia|]. split; [done|]. rewrite HB.
    assert (0 <= b / BPB) by (apply Z.div_pos; [lia|done]). lia. }
  split_and!; [split|split|].
  - by rewrite Hip.
  - done.
  - intros q Hq. rewrite Hloc by done. case_decide as E.
    + intros _. split; [done|]. rewrite Hbit, decide_True by (done || lia). done.
    + intros Hn. destruct (Hu q Hq Hn). split; [done|]. rewrite Hbit by lia. by case_decide.
  - intros q r Hq Hr. rewrite !Hloc by done. repeat case_decide; subst; try done.
    + intros _ Heq. by destruct (Hnb r Hr); [lia|].
    + intros Hn Heq. by destruct (Hnb q Hq); [lia|].
    + by apply Hi.
  - intros q Hq Hn. rewrite Hloc by done. case_decide; [congruence|done].
  - intros q Hq Hz'. rewrite Hloc by done. by case_decide.
  - done.
  - intros [d c] Hk. apply HV; [intros [= -> ->]|intros [= -> ->]|].
    + destruct Hk as [?|[?|(? & ? & _)]]; simpl in *; [done|lia|congruence].
    + destruct Hk as [?|[?|(? & ? & _)]]; simpl in *; [done|lia|lia].
    + destruct (decide (ind ip = 0)); [by right|]. left. intros [= -> ->].
      destruct Hk as [?|[?|(? & ? & Hn)]]; simpl in *; [done| |].
      * destruct (Hu 12%nat) as [??]; [lia|done|]. rewrite loc_12 in *. lia.
      * by apply (Hn 12%nat); [lia|].
  - intros c Hc Hc'. rewrite Hbit by done. by case_decide.
  - intros c Hc. rewrite Hbit by lia. case_decide; [|by left]. intros _. right. exists p.
    rewrite Hloc, decide_True by done. done.
  - intros q Hq H12 Hn. destruct (Hu q Hq Hn). apply HV; [intros [=]; by apply (Hnb q)|intros [=]; lia|].
    left. intros [=]. apply H12. apply (Hi q 12%nat); [done|lia|done|done].
Qed.

Lemma rd_zero n o : rd n o zero_block = 0.
Proof.
  unfold rd, sub, zero_block. rewrite drop_replicate, take_replicate. generalize (n `min` (512 - o))%nat as m.
  intros m. induction m as [|m IH]; [done|]. simpl in *. by rewrite IH.
Qed.

Lemma alloc_view_ne V b k : k <> (dev, b) -> k <> (dev, BBLOCK b sb0) -> alloc_view dev sb0 V b k = V k.
Proof. intros H1 H2. unfold alloc_view. by rewrite !fn_lookup_insert_ne by done. Qed.

Lemma ind_block V ip b :
  file_ok V ip -> datastart <= b < sb_size sb0 -> bit V b = false -> ind ip <> 0 ->
  alloc_view dev sb0 V b (dev, ind ip) = V (dev, ind ip).
Proof.
  intros [_ _ Hu _] Hb Hf Hn. destruct (Hu 12%nat) as [Hr Hbit]; [lia|done|]. rewrite loc_12 in *.
  apply alloc_view_ne; intros [= Heq]; [congruence|].
  destruct (bblock_range dev start size_ G sb0 L b); [pose proof datastart_pos; lia|lia].
Qed.

Definition set_loc (p : nat) (b : Z) ip : inode := set_i_addrs (<[p := b]> (i_addrs ip)) ip.

Lemma place_direct p b V ip :
  file_ok V ip -> block_ok (V (dev, BBLOCK b sb0)) ->
  datastart <= b < sb_size sb0 -> bit V b = false -> (p < 13)%nat -> loc V ip p = 0 ->
  let V1 := alloc_view dev sb0 V b in
  let ip1 := set_loc p b ip in
  loc V1 ip1 p = b /\ (forall q, (q < 141)%nat -> q <> p -> loc V1 ip1 q = loc V ip q) /\ file_ok V1 ip1 /\ grown V ip V1 ip1 /\ same_data V ip V1.
Proof.
  intros Hfo Hok Hb Hf Hp Hz V1 ip1. pose proof Hfo as [Hd Hl Hu Hi]. pose proof datastart_pos.
  assert (forall q, (q < 141)%nat -> loc V1 ip1 q = if decide (q = p) then b else loc V ip q) as Hloc.
  { intros q Hq. unfold loc, ind, ip1, set_loc. cbn [i_addrs set_i_addrs]. destruct (Nat.ltb_spec q 13).
    - case_decide as E; [subst; rewrite list_lookup_insert_eq by lia; done|by rewrite list_lookup_insert_ne by done].
    - rewrite decide_False by lia. destruct (decide (p = 12)%nat) as [->|Hne].
      + rewrite list_lookup_insert_eq by lia. simpl. unfold loc in Hz. simpl in Hz. rewrite Hz.
        destruct (Z.eqb_spec b 0); [done|]. unfold V1, alloc_view. by rewrite fn_lookup_insert, rd_zero.
      + rewrite list_lookup_insert_ne by done. fold (ind ip). destruct (Z.eqb_spec (ind ip) 0); [done|].
        unfold V1. by rewrite (ind_block V ip b). }
  split; [rewrite Hloc by lia; by rewrite decide_True|].
  split; [intros q Hq Hne; rewrite Hloc by lia; by rewrite decide_False|]. apply (place p b); try done; [lia| | |].
  - intros k Hk1 Hk2 _. by apply alloc_view_ne.
  - intros c Hc. by apply (bit_alloc dev start size_ G sb0 L).
  - unfold ip1, set_loc. cbn. by rewrite length_insert.
Qed.

Lemma place_indirect p b V ip :
  file_ok V ip -> block_ok (V (dev, BBLOCK b sb0)) -> block_ok (V (dev, ind ip)) ->
  datastart <= b < sb_size sb0 -> bit V b = false -> (13 <= p < 141)%nat -> loc V ip p = 0 -> ind ip <> 0 ->
  let V1 := <[(dev, ind ip) := wr 4 (4 * (p - 13)) b (V (dev, ind ip))]> (alloc_view dev sb0 V b) in
  loc V1 ip p = b /\ (forall q, (q < 141)%nat -> q <> p -> loc V1 ip q = loc V ip q) /\ file_ok V1 ip /\ grown V ip V1 ip /\ same_data V ip V1.
Proof.
  intros Hfo Hok [Hl _] Hb Hf Hp Hz Hn V1. pose proof Hfo as [Hd Hla Hu Hi]. pose proof datastart_pos. pose proof L as [].
  destruct (Hu 12%nat) as [Hr Hbit]; [lia|done|]. rewrite loc_12 in *.
  assert (forall q, (q < 141)%nat -> loc V1 ip q = if decide (q = p) then b else loc V ip q) as Hloc.
  { intros q Hq. unfold loc. destruct (Nat.ltb_spec q 13); [by rewrite decide_False by lia|].
    destruct (Z.eqb_spec (ind ip) 0); [done|]. unfold V1. rewrite fn_lookup_insert. case_decide as E.
    - subst q. apply rd_wr_eq; [lia|]. change (256 ^ Z.of_nat 4) with (2 ^ 32). lia.
    - apply rd_wr_ne; lia. }
  split; [rewrite Hloc by lia; by rewrite decide_True|].
  split; [intros q Hq Hne; rewrite Hloc by lia; by rewrite decide_False|]. apply (place p b); try done; [lia| | |by destruct ip].
  - intros k Hk1 Hk2 [Hk3|?]; [|done]. unfold V1. rewrite fn_lookup_insert_ne by done. by apply alloc_view_ne.
  - intros c Hc. unfold V1. rewrite (bit_data dev start size_ G sb0 L) by (done || lia).
    by apply (bit_alloc dev start size_ G sb0 L).
Qed.

(** ** Counting the free blocks *)

Definition nfree V : nat := length (filter (fun b => bit V (Z.of_nat b) = false) (seq 0 (Z.to_nat (sb_size sb0)))).

Lemma nfree_first V : (0 < nfree V)%nat -> exists b, first_free dev sb0 V = Some b.
Proof.
  intros Hn. destruct (first_free dev sb0 V) as [b|] eqn:E; [by exists b|]. exfalso. revert Hn. unfold nfree.
  destruct (filter _ _) as [|b l] eqn:Ef; simpl; [lia|]. intros _.
  assert (b ∈ b :: l) as Hb by set_solver. rewrite <- Ef, list_elem_of_filter, elem_of_seq in Hb. destruct Hb as [Hb1 Hb2].
  rewrite (first_free_all dev sb0 V) in Hb1; [done|done|lia].
Qed.

(** A view that marks [b] and no other block. *)
Lemma nfree_mark V V1 b :
  0 <= b < sb_size sb0 -> bit V b = false ->
  (forall c, 0 <= c < sb_size sb0 -> bit V1 c = if decide (c = b) then true else bit V c) -> nfree V = S (nfree V1).
Proof.
  intros Hb Hf Hbit. unfold nfree. apply (filter_remove _ _ (Z.to_nat b)).
  - apply NoDup_seq.
  - apply elem_of_seq. lia.
  - by rewrite Z2Nat.id by lia.
  - intros y Hy%elem_of_seq. rewrite Hbit by lia. case_decide; [split; [done|intros [_ ?]; lia]|].
    split; [intros; split; [done|lia]|by intros [? _]].
Qed.

Lemma nfree_same V V1 : (forall c, 0 <= c < sb_size sb0 -> bit V1 c = bit V c) -> nfree V1 = nfree V.
Proof.
  intros Hbit. unfold nfree. f_equal. apply filter_ext_in. intros y Hy%elem_of_seq. by rewrite Hbit by lia.
Qed.

(** ** bmap *)

Lemma posn_lt bn : 0 <= bn < 140 -> (posn bn < 141)%nat /\ posn bn <> 12%nat.
Proof. intros Hb. unfold posn. destruct (Z.ltb_spec bn 12); lia. Qed.

Lemma posn_inj b c : 0 <= b -> 0 <= c -> posn b = posn c -> b = c.
Proof. intros Hb Hc. unfold posn. destruct (Z.ltb_spec b 12), (Z.ltb_spec c 12); lia. Qed.

Lemma addr_at_eq V s i ip k :
  icache s !! i = Some ip -> file_ok V ip -> (k < 13)%nat -> addr_at i k s = Ret (loc V ip k) s.
Proof.
  intros Hi Hf Hk. unfold addr_at, bind, get. rewrite (inode_at_lookup _ _ _ Hi). unfold loc.
  destruct (Nat.ltb_spec k 13); [|lia]. pose proof (f_len _ _ Hf).
  by destruct (lookup_lt_is_Some_2 (i_addrs ip) k ltac:(lia)) as [a ->].
Qed.

Lemma set_addr_eq s i ip k a :
  icache s !! i = Some ip -> set_addr i k a s = Ret tt (set_icache (<[i := set_loc k a ip]> (icache s)) s).
Proof. intros Hi. unfold set_addr, upd_inode, modify. by rewrite (alter_as_insert _ _ _ _ Hi). Qed.

Lemma loc_home V ip p :
  file_ok V ip -> (p < 141)%nat -> loc V ip p <> 0 -> home dev start size_ (loc V ip p).
Proof.
  intros Hf Hp Hn. destruct (f_used _ _ Hf p Hp Hn) as [Hr _]. pose proof datastart_pos.
  apply (home_block dev start size_ G sb0 L). lia.
Qed.

Lemma ind_nonzero V ip p : (13 <= p)%nat -> loc V ip p <> 0 -> ind ip <> 0.
Proof. unfold loc. destruct (Nat.ltb_spec p 13); [lia|]. by destruct (Z.eqb_spec (ind ip) 0). Qed.

Lemma loc_indirect V ip bn :
  12 <= bn -> ind ip <> 0 -> rd 4 (Z.to_nat (4 * (bn - 12))) (V (dev, ind ip)) = loc V ip (posn bn).
Proof.
  intros Hb Hn. unfold loc, posn. destruct (Z.ltb_spec bn 12); [lia|]. destruct (Nat.ltb_spec (Z.to_nat bn + 1) 13); [lia|].
  destruct (Z.eqb_spec (ind ip) 0); [done|]. f_equal. lia.
Qed.

Lemma bmap_read i bs V s ip bn :
  tx dev start size_ ∅ bs V s -> icache s !! i = Some ip -> file_ok V ip -> 0 <= bn < 140 -> loc V ip (posn bn) <> 0 ->
  wp (bmap i bn) (fun a s' => a = loc V ip (posn bn) /\ tx dev start size_ ∅ bs V s' /\ rstep s s') s.
Proof.
  intros Ht Hi Hf Hb Hn. unfold bmap. eapply wp_step; [reflexivity|]. rewrite (inode_at_lookup _ _ _ Hi), (f_dev _ _ Hf).
  unfold NDIRECT. destruct (Z.ltb_spec bn 12) as [Hlt|Hge].
  - eapply wp_step; [apply (addr_at_eq V); [done..|lia]|]. unfold posn in Hn |- *.
    destruct (Z.ltb_spec bn 12); [|lia]. destruct (Z.eqb_spec (loc V ip (Z.to_nat bn)) 0); [done|]. by apply wp_ret.
  - change NINDIRECT with 128. destruct (Z.ltb_spec (bn - 12) 128); [|lia].
    assert (ind ip <> 0) as Hind by (apply (ind_nonzero V ip (posn bn)); [unfold posn; destruct (Z.ltb_spec bn 12); lia|done]).
    eapply wp_step; [apply (addr_at_eq V); [done..|lia]|]. change (Z.to_nat 12) with 12%nat. rewrite loc_12.
    destruct (Z.eqb_spec (ind ip) 0); [done|]. eapply wp_step; [reflexivity|].
    pose proof (tx_size _ _ _ G _ _ _ _ Ht) as [Hfit _]. pose proof (geo_size _ _ _ G).
    eapply wp_chain; [eapply tx_bread_only; [done|exact Ht|apply (loc_home V ip 12); [done|lia|done]|done|]|].
    { rewrite map_size_empty. lia. }
    intros bp s1 [Ht1 Hs1]. eapply wp_step; [eapply tx_bdata; [exact Ht1|apply lookup_insert_eq]|].
    cbv zeta. rewrite loc_indirect by done. destruct (Z.eqb_spec (loc V ip (posn bn)) 0); [done|]. eapply wp_step; [reflexivity|].
    eapply wp_chain; [eapply tx_brelse_only; [exact Ht1|apply lookup_insert_eq]|]. intros [] s2 [Ht2 Hs2].
    rewrite delete_insert_id in Ht2 by done. apply wp_ret. split; [done|]. split; [done|]. by rewrite Hs1.
Qed.

Notation fsys := (fsys dev start size_ sb0).
Notation after_alloc := (after_alloc sb0).

(** [bmap] has added block [bn] of the file. *)
Record mapped bs V ip (bn : Z) (a : Z) bs' V' ip' : Prop := {
  m_file : file_ok V' ip';
  m_grown : grown V ip V' ip';
  m_data : same_data V ip V';
  m_addr : loc V' ip' (posn bn) = a;
  m_nz : a <> 0;
  m_cost : (length bs' + lcost bs' ip' <= length bs + lcost bs ip + 2)%nat;
  m_free : (nfree V + need ip' <= nfree V' + need ip + 1)%nat;
  m_in : a ∈ bs'
}.

Lemma elem_of_after_alloc bs b c : c ∈ after_alloc bs b <-> c = b \/ c = BBLOCK b sb0 \/ c ∈ bs.
Proof. unfold FsAlloc.after_alloc. by rewrite !elem_of_absorbed. Qed.

Lemma length_after_alloc bs b : (length bs <= length (after_alloc bs b) <= length bs + 2)%nat.
Proof.
  unfold FsAlloc.after_alloc. pose proof (length_absorbed bs (BBLOCK b sb0)).
  pose proof (length_absorbed (absorbed bs (BBLOCK b sb0)) b). lia.
Qed.

Lemma fsys_icache H bs V s ic : fsys H bs V s -> fsys H bs V (set_icache ic s).
Proof. intros [Ht H1 H2 H3 H4]. split; try done. by apply tx_icache. Qed.

(** A free block for position [p] of the inode itself. *)
Lemma new_direct i bs V s ip p :
  fsys ∅ bs V s -> icache s !! i = Some ip -> file_ok V ip -> (p < 13)%nat -> loc V ip p = 0 ->
  Z.of_nat (length bs) + 2 < size_ -> (1 <= nfree V)%nat ->
  wp (a <- balloc dev ;; set_addr i p a ;;; ret a) (fun a s' => exists V',
    let ip' := set_loc p a ip in
    loc V' ip' p = a /\ a <> 0 /\ (forall q, (q < 141)%nat -> q <> p -> loc V' ip' q = loc V ip q) /\ file_ok V' ip' /\ grown V ip V' ip' /\ same_data V ip V' /\
    nfree V = S (nfree V') /\ fsys ∅ (after_alloc bs a) V' s' /\ istep i ip' s s') s.
Proof.
  intros Hfs Hi Hf Hp Hz Hlt Hn. destruct (nfree_first V ltac:(lia)) as [b Hb].
  pose proof (balloc_spec dev start size_ G sb0 L ∅ bs V s Hfs) as Hspec. rewrite Hb in Hspec.
  destruct (first_free_data dev sb0 V b (fx_meta _ _ _ _ _ _ _ _ Hfs) Hb) as [Hbd Hbf]. pose proof datastart_pos.
  pose proof (tx_block _ _ _ _ _ _ _ (dev, BBLOCK b sb0) (fx_tx _ _ _ _ _ _ _ _ Hfs)) as Hok.
  eapply wp_chain; [apply Hspec; [rewrite map_size_empty; lia|done]|]. intros r s1 (-> & Hfs1 & Hs1).
  destruct (fstep_same _ _ Hs1) as (_ & _ & _ & _ & Hic & _).
  eapply wp_step; [apply (set_addr_eq _ _ ip); by rewrite Hic|]. apply wp_ret. exists (alloc_view dev sb0 V b). cbv zeta.
  destruct (place_direct p b V ip Hf Hok Hbd Hbf Hp Hz) as (Hl & Hq & Hfo & Hg & Hsd).
  split_and!; try done; [lia| |by apply fsys_icache|].
  - apply (nfree_mark _ _ b); [lia|done|]. intros c Hc. by apply (bit_alloc dev start size_ G sb0 L).
  - unfold istep. rewrite Hic. by apply fstep_icache.
Qed.

(** [bmap] from the indirect block on *)
Definition bmap_tail (addr : Z) (o : nat) : KM Z :=
  bp <- bread dev addr ;;
  d <- bdata bp ;;
  let addr := rd 4 o d in
  addr <- (if addr =? 0 then
             a <- balloc dev ;;
             upd_data bp (wr 4 o a) ;;;
             log_write bp ;;;
             ret a
           else ret addr) ;;
  brelse bp ;;;
  ret addr.

Lemma bmap_tail_new bs V s ip bn :
  fsys ∅ bs V s -> file_ok V ip -> ind ip <> 0 -> 12 <= bn < 140 -> loc V ip (posn bn) = 0 ->
  Z.of_nat (length bs) + Z.of_nat (lcost bs ip) + 3 < size_ -> (1 <= nfree V)%nat ->
  wp (bmap_tail (ind ip) (Z.to_nat (4 * (bn - 12)))) (fun a s' => exists bs' V',
    mapped bs V ip bn a bs' V' ip /\ fsys ∅ bs' V' s' /\ fstep s s') s.
Proof.
  intros Hfs Hf Hind Hbn Hz Hlt Hn. pose proof (fx_tx _ _ _ _ _ _ _ _ Hfs) as Ht. pose proof (geo_size _ _ _ G).
  destruct (nfree_first V ltac:(lia)) as [b Hb]. pose proof datastart_pos.
  destruct (first_free_data dev sb0 V b (fx_meta _ _ _ _ _ _ _ _ Hfs) Hb) as [Hbd Hbf].
  destruct (f_used _ _ Hf 12) as [Hir Hib]; [lia|done|]. pose proof (loc_home V ip 12 Hf ltac:(lia) Hind) as Hih. rewrite loc_12 in *.
  pose proof (fun k => tx_block _ _ _ _ _ _ _ k Ht) as Hok. set (o := Z.to_nat (4 * (bn - 12))).
  unfold bmap_tail. eapply wp_chain; [eapply tx_bread; [done|exact Ht|apply Hih|done|rewrite map_size_empty; lia]|].
  intros bp s1 [Ht1 Hs1]. set (H1 := <[(dev, ind ip) := bp]> ∅) in *.
  assert (fsys H1 bs V s1) as Hfs1.
  { destruct (fstep_same _ _ Hs1) as (_ & _ & _ & Hsb & _ & _ & Ho). destruct Hfs as [_ Hsb0 Ho0 Hm _].
    split; [done|congruence|lia|done|]. intros c [x Hx]. unfold H1 in Hx. apply lookup_insert_Some in Hx as [[[= <-] _]|[_ ?]]; done. }
  eapply wp_step; [eapply tx_bdata; [exact Ht1|apply lookup_insert_eq]|]. cbv zeta.
  assert (rd 4 o (V (dev, ind ip)) = 0) as -> by (by unfold o; rewrite loc_indirect by (done || lia)). rewrite Z.eqb_refl.
  pose proof (balloc_spec dev start size_ G sb0 L H1 bs V s1 Hfs1) as Hspec. rewrite Hb in Hspec.
  assert (size H1 = 1%nat) as Hsz by (unfold H1; rewrite map_size_insert_None by done; by rewrite map_size_empty).
  pose proof (length_after_alloc bs b). set (V1 := <[(dev, ind ip) := wr 4 o b (V (dev, ind ip))]> (alloc_view dev sb0 V b)).
  eapply (wp_chain _ _ (fun a s' => a = b /\ tx dev start size_ H1 (absorbed (after_alloc bs b) (ind ip)) V1 s' /\ fstep s1 s')).
  { eapply wp_chain; [apply Hspec; lia|]. intros r s2 (-> & Hfs2 & Hs2).
    pose proof (ind_block V ip b Hf Hbd Hbf Hind) as Hsame.
    eapply (tx_modify dev start size_ G H1 _ _ _ (ind ip)); [exact (fx_tx _ _ _ _ _ _ _ _ Hfs2)|apply lookup_insert_eq|
      exact (fx_out _ _ _ _ _ _ _ _ Hfs2)|exact Hih|lia| |].
    - rewrite Hsame. apply block_ok_wr; [done|unfold o; lia].
    - intros s3 Ht3 Hs3. apply wp_ret. rewrite Hsame in Ht3. split; [done|]. split; [done|]. by rewrite Hs2. }
  intros r s2 (-> & Ht2 & Hs2). eapply wp_chain; [eapply tx_brelse; [exact Ht2|apply lookup_insert_eq]|].
  intros [] s3 [Ht3 Hs3]. unfold H1 in Ht3. rewrite delete_insert_id in Ht3 by done. apply wp_ret.
  assert (13 <= posn bn < 141)%nat by (unfold posn; destruct (Z.ltb_spec bn 12); lia).
  assert (o = 4 * (posn bn - 13))%nat as Ho by (unfold posn, o; destruct (Z.ltb_spec bn 12); lia).
  destruct (place_indirect (posn bn) b V ip Hf (Hok _) (Hok _) Hbd Hbf ltac:(done) Hz Hind) as (Hl & _ & Hfo & Hg & Hsd).
  rewrite <- Ho in *. assert (fstep s s3) by (by rewrite Hs1, Hs2). exists (absorbed (after_alloc bs b) (ind ip)), V1.
  split_and!; [|eapply fsys_step; [done..|by apply (g_bits _ _ _ _ Hg)]|done]. split; try done; [lia| | |].
  - pose proof (length_absorbed (after_alloc bs b) (ind ip)). unfold lcost in *. destruct (Z.eqb_spec (ind ip) 0); [done|].
    rewrite (decide_True (P := ind ip ∈ absorbed _ _)) by (rewrite elem_of_absorbed; by left). case_decide; [|lia].
    unfold absorbed at 1. rewrite decide_True by (rewrite elem_of_after_alloc; auto). lia.
  - unfold need. destruct (ind ip =? 0); rewrite (nfree_mark V V1 b); try lia; try done;
    intros c Hc; unfold V1; rewrite (bit_data dev start size_ G sb0 L) by (done || lia);
    by apply (bit_alloc dev start size_ G sb0 L).
  - rewrite elem_of_absorbed, elem_of_after_alloc. auto.
Qed.

Lemma bmap_new i bs V s ip bn :
  fsys ∅ bs V s -> icache s !! i = Some ip -> file_ok V ip -> 0 <= bn < 140 -> loc V ip (posn bn) = 0 ->
  Z.of_nat (length bs) + Z.of_nat (lcost bs ip) + 3 < size_ -> (need ip + 1 <= nfree V)%nat ->
  wp (bmap i bn) (fun a s' => exists bs' V' ip',
    mapped bs V ip bn a bs' V' ip' /\ fsys ∅ bs' V' s' /\ istep i ip' s s') s.
Proof.
  intros Hfs Hi Hf Hb Hz Hlt Hn. unfold bmap. eapply wp_step; [reflexivity|]. rewrite (inode_at_lookup _ _ _ Hi), (f_dev _ _ Hf).
  unfold NDIRECT. destruct (Z.ltb_spec bn 12) as [Hbn|Hbn].
  - assert (posn bn = Z.to_nat bn) as Hp by (unfold posn; destruct (Z.ltb_spec bn 12); lia). rewrite Hp in *.
    eapply wp_step; [apply (addr_at_eq V); [done..|lia]|]. rewrite Hz, Z.eqb_refl.
    eapply wp_mono; [by apply (new_direct i bs V s ip (Z.to_nat bn)); (done || lia)|].
    intros a s' (V' & Hl & Ha & _ & Hfo & Hg & Hsd & Hnf & Hfs' & Hs').
    exists (after_alloc bs a), V', (set_loc (Z.to_nat bn) a ip). split_and!; [|done|done].
    assert (ind (set_loc (Z.to_nat bn) a ip) = ind ip) as Hind.
    { unfold ind, set_loc. cbn [i_addrs set_i_addrs]. by rewrite list_lookup_insert_ne by lia. }
    split; try done; [by rewrite Hp| | |rewrite elem_of_after_alloc; by left].
    + pose proof (length_after_alloc bs a). assert (lcost (after_alloc bs a) (set_loc (Z.to_nat bn) a ip) <= lcost bs ip)%nat; [|lia].
      unfold lcost. rewrite Hind. apply (lcost_mono bs (after_alloc bs a) ip). intros c Hc. rewrite elem_of_after_alloc. auto.
    + unfold need. rewrite Hind. lia.
  - change NINDIRECT with 128. destruct (Z.ltb_spec (bn - 12) 128); [|lia].
    eapply wp_step; [apply (addr_at_eq V); [done..|lia]|]. change (Z.to_nat 12) with 12%nat. rewrite loc_12.
    fold (bmap_tail (ind ip) (Z.to_nat (4 * (bn - 12)))). destruct (Z.eqb_spec (ind ip) 0) as [Hi0|Hi0].
    + assert (lcost bs ip = 2 /\ need ip = 1)%nat as [Hlc Hnd] by (unfold lcost, need; by rewrite Hi0).
      eapply wp_chain; [by apply (new_direct i bs V s ip 12); (done || lia)|].
      intros a s1 (V1 & Hl & Ha & Hq & Hfo & Hg & Hsd & Hnf & Hfs1 & Hs1). rewrite loc_12 in Hl.
      set (ip1 := set_loc 12 a ip) in *. destruct (posn_lt bn Hb) as [Hp1 Hp2].
      assert (lcost (after_alloc bs a) ip1 = 0 /\ need ip1 = 0)%nat as [Hlc1 Hnd1].
      { unfold lcost, need. rewrite Hl. destruct (Z.eqb_spec a 0); [done|]. rewrite decide_True; [done|].
        rewrite elem_of_after_alloc. by left. }
      pose proof (length_after_alloc bs a). fold (bmap_tail a (Z.to_nat (4 * (bn - 12)))). rewrite <- Hl.
      eapply wp_mono; [by apply (bmap_tail_new (after_alloc bs a) V1 s1 ip1); (rewrite ?Hl, ?Hq; done || lia)|].
      intros b s2 (bs2 & V2 & [] & Hfs2 & Hs2). exists bs2, V2, ip1. split_and!; [|done|].
      * split; try done; [by eapply grown_trans|by eapply same_data_trans|lia|lia].
      * apply (istep_trans i ip1 ip1 s s1 s2); [done|]. apply istep_fstep; [by apply (istep_inode i ip ip1 s)|done].
    + eapply wp_step; [reflexivity|].
      eapply wp_mono; [by apply (bmap_tail_new bs V s ip bn); (done || lia)|].
      intros b s2 (bs2 & V2 & Hm & Hfs2 & Hs2). exists bs2, V2, ip. split_and!; [done|done|by apply istep_fstep].
Qed.
End file.
