(* ===== verification/FsIo.v ===== *)
(** * FsIo: reading and writing files

    [readi] returns the bytes of the file and [writei] replaces them, growing the file
    when it writes past its end; what a write adds to the log is bounded. *)

From stdpp Require Import functions base gmap list strings.
From Stdlib Require Import ZArith Lia.
From S2P Require Import Prelude State Core Bio Memide Cache Log LogSpec Fs FsLayout FsTx FsAlloc FsFile.

Local Open Scope Z_scope.
Local Open Scope kernel_scope.

Section io.
Context `{DD : DiskDriver} `{Devices} (dev start size_ : Z) (G : geometry dev start size_) (sb0 : superblock)
  (L : fs_layout dev start size_ sb0).
Implicit Types (V : Z * Z -> list Z) (bs : list Z) (s : kstate) (ip : inode).

Notation loc := (loc dev).
Notation file_ok := (file_ok dev sb0).
Notation grown := (grown dev sb0).
Notation fsys := (fsys dev start size_ sb0).
Notation tx := (tx dev start size_).

(** Byte [p] of the file. *)
Definition fbyte V ip (p : Z) : Z := default 0 (V (dev, loc V ip (posn (p / 512))) !! Z.to_nat (p mod 512)).
Definition bytes V ip (off n : Z) : list Z := (fun j => fbyte V ip (off + Z.of_nat j)) <$> seq 0 (Z.to_nat n).
Definition contents V ip : list Z := bytes V ip 0 (i_size ip).

(** The file has all its blocks up to byte [n]. *)
Definition dense V ip (n : Z) : Prop := forall bn, 0 <= bn -> bn * 512 < n -> loc V ip (posn bn) <> 0.

Lemma length_bytes V ip off n : length (bytes V ip off n) = Z.to_nat n.
Proof. unfold bytes. by rewrite length_fmap, length_seq. Qed.

Lemma lookup_bytes V ip off n j :
  (j < Z.to_nat n)%nat -> bytes V ip off n !! j = Some (fbyte V ip (off + Z.of_nat j)).
Proof. intros Hj. unfold bytes. rewrite list_lookup_fmap, lookup_seq_lt by done. done. Qed.

Lemma bytes_app V ip off m n :
  0 <= m -> 0 <= n -> bytes V ip off (m + n) = bytes V ip off m ++ bytes V ip (off + m) n.
Proof.
  intros Hm Hn. apply list_eq. intros j. destruct (decide (j < Z.to_nat m)%nat).
  - rewrite lookup_app_l by (by rewrite length_bytes). by rewrite !lookup_bytes by lia.
  - rewrite lookup_app_r, length_bytes by (rewrite length_bytes; lia). destruct (decide (j < Z.to_nat (m + n))%nat).
    + rewrite !lookup_bytes by lia. do 2 f_equal. lia.
    + rewrite !lookup_ge_None_2 by (rewrite length_bytes; lia). done.
Qed.

(** The bytes inside one block. *)
Lemma bytes_block V ip off m :
  0 <= off -> 0 <= m -> off mod 512 + m <= 512 -> length (V (dev, loc V ip (posn (off / 512)))) = 512%nat ->
  bytes V ip off m = sub (Z.to_nat (off mod 512)) (Z.to_nat m) (V (dev, loc V ip (posn (off / 512)))).
Proof.
  intros Ho Hm Hle Hl. apply list_eq. intros j. destruct (decide (j < Z.to_nat m)%nat).
  - pose proof (Z.mod_pos_bound off 512 ltac:(lia)).
    rewrite lookup_bytes, lookup_sub by lia. unfold fbyte. destruct (lookup_lt_is_Some_2
      (V (dev, loc V ip (posn (off / 512)))) (Z.to_nat (off mod 512) + j) ltac:(lia)) as [x Hx]. rewrite Hx.
    assert (off + Z.of_nat j = (off / 512) * 512 + (off mod 512 + Z.of_nat j)) as -> by (pose proof (Z.div_mod off 512); lia).
    rewrite Z.div_add_l, (Z.div_small (off mod 512 + _)), Z.add_0_r by lia.
    rewrite (Z.add_comm (off / 512 * 512)), Z.mod_add, (Z.mod_small (off mod 512 + _)) by lia.
    replace (Z.to_nat (off mod 512 + Z.of_nat j)) with (Z.to_nat (off mod 512) + j)%nat by lia. by rewrite Hx.
  - rewrite !lookup_ge_None_2; [done| |rewrite length_bytes; lia]. unfold sub. rewrite length_take. lia.
Qed.

(** ** readi *)

Lemma next_block off n :
  0 <= off -> 0 < n -> let m := Z.min n (512 - off mod 512) in
  0 < m <= n /\ off mod 512 + m <= 512 /\ (m = n \/ (off + m) mod 512 = 0 /\ off mod 512 + m = 512).
Proof.
  intros Ho Hn m. pose proof (Z.mod_pos_bound off 512 ltac:(lia)). split_and!; try lia.
  destruct (decide (n <= 512 - off mod 512)); [left; lia|right]. split; [|lia].
  replace (off + m) with ((off / 512 + 1) * 512) by (pose proof (Z.div_mod off 512); lia). apply Z.mod_mul. lia.
Qed.

Lemma readi_loop_spec i V ip bs fuel : forall s off n,
  tx ∅ bs V s -> icache s !! i = Some ip -> file_ok V ip -> dense V ip (off + n) ->
  0 <= off -> 0 <= n -> off + n <= MAXFILE * BSIZE -> (1 <= fuel)%nat -> (0 < n -> n + off mod 512 <= 512 * (Z.of_nat fuel - 1)) ->
  wp (readi_loop fuel i off n) (fun l s' => l = bytes V ip off n /\ tx ∅ bs V s' /\ rstep s s') s.
Proof.
  induction fuel as [|fuel IH]; intros s off n Ht Hi Hf Hd Ho Hn Hmax Hf1 Hfuel; [lia|].
  cbn [readi_loop]. destruct (Z.leb_spec n 0) as [Hn0|Hn0].
  { apply wp_ret. assert (n = 0) as -> by lia. done. }
  destruct (next_block off n Ho Hn0) as (Hm & Hle & Hnext). change (MAXFILE * BSIZE) with 71680 in Hmax. unfold BSIZE.
  set (m := Z.min n (512 - off mod 512)) in *. pose proof (Z.div_mod off 512 ltac:(lia)).
  assert (0 <= off / 512 < 140) as Hbn by (pose proof (Z.div_pos off 512); pose proof (Z.mod_pos_bound off 512); lia).
  assert (loc V ip (posn (off / 512)) <> 0) as Hnz by (apply Hd; pose proof (Z.mod_pos_bound off 512); lia).
  destruct (posn_lt _ Hbn) as [Hp _]. eapply wp_step; [reflexivity|]. rewrite (inode_at_lookup _ _ _ Hi), (f_dev _ _ _ _ Hf).
  eapply wp_chain; [by eapply (bmap_read dev start size_ G sb0 L)|]. intros a s1 (-> & Ht1 & Hs1).
  pose proof (tx_size _ _ _ G _ _ _ _ Ht) as [Hfit _]. pose proof (geo_size _ _ _ G).
  eapply wp_chain; [eapply tx_bread_only; [done|exact Ht1|by apply (loc_home dev start size_ G sb0 L)|done|rewrite map_size_empty; lia]|].
  intros bp s2 [Ht2 Hs2]. eapply wp_step; [eapply tx_bdata; [exact Ht2|apply lookup_insert_eq]|].
  eapply wp_chain; [eapply tx_brelse_only; [exact Ht2|apply lookup_insert_eq]|]. intros [] s3 [Ht3 Hs3].
  rewrite delete_insert_id in Ht3 by done. assert (rstep s s3) as Hs by (by rewrite Hs1, Hs2).
  destruct (bstep_same _ _ _ Hs) as (_ & _ & _ & _ & _ & Hic & _). fold m.
  eapply wp_chain; [apply IH; [exact Ht3|by rewrite Hic|done|by replace (off + m + (n - m)) with (off + n) by lia|lia|lia| | |]|].
  { change (MAXFILE * BSIZE) with 71680. lia. }
  { pose proof (Z.mod_pos_bound off 512). lia. }
  { destruct Hnext as [->|[Hz Heq]]; [lia|rewrite Hz; lia]. }
  intros l s4 (-> & Ht4 & Hs4). apply wp_ret. split; [|split; [done|by rewrite Hs]].
  replace n with (m + (n - m)) at 2 by lia. rewrite (bytes_app V ip off m (n - m)) by lia. f_equal.
  symmetry. apply bytes_block; try lia. apply (tx_block _ _ _ _ _ _ _ _ Ht).
Qed.

(** ** writei *)

(** Blocks that a write of [n] bytes at [off] may have to add, and those it may log. *)
Definition wblocks (off n : Z) : Z := (Z.max 0 (n - (- off) mod 512) + 511) / 512.
Definition wcost (off n : Z) : Z := if n =? 0 then 0 else 2 * wblocks off n + (if off mod 512 =? 0 then 0 else 1).

Lemma wblocks_nonneg off n : 0 <= wblocks off n.
Proof. unfold wblocks. apply Z.div_pos; lia. Qed.

Lemma wcost_next off n :
  0 <= off -> 0 < n -> let m := Z.min n (512 - off mod 512) in
  wblocks (off + m) (n - m) + (if off mod 512 =? 0 then 1 else 0) <= wblocks off n /\
  wcost (off + m) (n - m) + (if off mod 512 =? 0 then 2 else 1) <= wcost off n.
Proof.
  intros Ho Hn m. destruct (next_block off n Ho Hn) as (Hm & Hle & Hnext). fold m in Hm, Hle, Hnext.
  assert (wblocks (off + m) (n - m) + (if off mod 512 =? 0 then 1 else 0) <= wblocks off n) as Hb.
  { unfold wblocks. destruct Hnext as [Hmn|[Hz Heq]].
    - rewrite Hmn, Z.sub_diag. pose proof (Z.mod_pos_bound (- (off + n)) 512 ltac:(lia)). rewrite Z.max_l by lia.
      destruct (Z.eqb_spec (off mod 512) 0) as [E|E].
      + rewrite Z.mod_opp_l_z by lia. rewrite Z.sub_0_r. change ((0 + 511) / 512) with 0.
        apply Z.div_le_lower_bound; lia.
      + change ((0 + 511) / 512 + 0) with 0. apply Z.div_pos; lia.
    - rewrite (Z.mod_opp_l_z (off + m)) by lia. destruct (Z.eqb_spec (off mod 512) 0) as [E|E].
      + rewrite Z.mod_opp_l_z by lia. rewrite <- Z.div_add by lia. apply Z.div_le_mono; lia.
      + rewrite Z.mod_opp_l_nz by lia. rewrite Z.add_0_r. apply Z.div_le_mono; lia. }
  split; [done|]. unfold wcost. destruct (Z.eqb_spec n 0); [lia|]. destruct (Z.eqb_spec (n - m) 0).
  - pose proof (wblocks_nonneg (off + m) (n - m)). destruct (off mod 512 =? 0); lia.
  - destruct Hnext as [|[-> _]]; [lia|]. destruct (off mod 512 =? 0); simpl; lia.
Qed.

(** Writing a data block of the file *)
Lemma write_block V ip bn d :
  file_ok V ip -> 0 <= bn < 140 -> loc V ip (posn bn) <> 0 ->
  let V' := <[(dev, loc V ip (posn bn)) := d]> V in
  (forall p, (p < 141)%nat -> loc V' ip p = loc V ip p) /\ file_ok V' ip /\ grown V ip V' ip.
Proof.
  intros Hf Hb Hn V'. pose proof Hf as [Hd Hl Hu Hi]. destruct (posn_lt bn Hb) as [Hp H12].
  destruct (Hu _ Hp Hn) as [Hr _]. pose proof (datastart_pos dev start size_ G sb0 L).
  assert (forall p, (p < 141)%nat -> loc V' ip p = loc V ip p) as Hloc.
  { intros p Hlt. unfold FsFile.loc, V'. destruct (p <? 13)%nat; [done|]. destruct (Z.eqb_spec (ind ip) 0); [done|].
    rewrite fn_lookup_insert_ne; [done|]. intros [= E]. apply H12. apply (Hi _ 12%nat); [done|lia|done|done]. }
  assert (forall b, 0 <= b < sb_size sb0 -> bit dev sb0 V' b = bit dev sb0 V b) as Hbit.
  { intros b Hb'. by apply (bit_data dev start size_ G sb0 L); [|lia]. }
  split_and!; [done|split|split].
  - done.
  - done.
  - intros p Hlt. rewrite Hloc by done. intros Hnz. destruct (Hu p Hlt Hnz). split; [done|]. rewrite Hbit by lia. done.
  - intros p q Hlt Hlt'. rewrite !Hloc by done. by apply Hi.
  - intros p Hlt _. by apply Hloc.
  - intros p Hlt Hz. by rewrite Hloc.
  - by destruct ip.
  - intros [e k] Hk. unfold V'. rewrite fn_lookup_insert_ne; [done|]. intros [= He Hk'].
    destruct Hk as [?|[?|(_ & _ & Hk)]]; simpl in *; [done| |by apply (Hk (posn bn))].
    unfold datastart in *. pose proof L as []. assert (0 <= sb_size sb0 / BPB) by (apply Z.div_pos; [lia|done]). lia.
  - intros b Hb'. by rewrite Hbit.
  - intros b Hb'. rewrite Hbit by lia. by left.
Qed.

Lemma fbyte_write V ip bn d p :
  file_ok V ip -> 0 <= bn < 140 -> loc V ip (posn bn) <> 0 -> 0 <= p < 71680 -> loc V ip (posn (p / 512)) <> 0 ->
  fbyte (<[(dev, loc V ip (posn bn)) := d]> V) ip p =
    if decide (p / 512 = bn) then default 0 (d !! Z.to_nat (p mod 512)) else fbyte V ip p.
Proof.
  intros Hf Hb Hn Hp Hnp. destruct (write_block V ip bn d Hf Hb Hn) as (Hloc & _).
  assert (0 <= p / 512 < 140) as Hpb by (split; [apply Z.div_pos|apply Z.div_lt_upper_bound]; lia).
  destruct (posn_lt _ Hpb) as [Hlt _], (posn_lt _ Hb) as [Hlt' _].
  unfold fbyte. rewrite Hloc by done. case_decide as E.
  - subst bn. by rewrite fn_lookup_insert.
  - rewrite fn_lookup_insert_ne; [done|]. intros [= Heq]. apply E. apply posn_inj; [lia..|]. symmetry. by apply (f_inj _ _ _ _ Hf).
Qed.

(** The bytes [src] at [off], and no other byte. *)
Record wrote V ip V' ip' (off : Z) (src : list Z) : Prop := {
  w_grown : grown V ip V' ip';
  w_in j : (j < length src)%nat -> fbyte V' ip' (off + Z.of_nat j) = default 0 (src !! j);
  w_out p : 0 <= p < 71680 -> loc V ip (posn (p / 512)) <> 0 -> p < off \/ off + Z.of_nat (length src) <= p ->
    fbyte V' ip' p = fbyte V ip p;
  w_dense : dense V' ip' (off + Z.of_nat (length src))
}.

Lemma block_of p : 0 <= p < 71680 -> 0 <= p / 512 < 140 /\ (posn (p / 512) < 141)%nat /\ posn (p / 512) <> 12%nat.
Proof.
  intros Hp. assert (0 <= p / 512 < 140) as Hb by (split; [apply Z.div_pos|apply Z.div_lt_upper_bound]; lia).
  split; [done|]. by apply posn_lt.
Qed.

Lemma fbyte_same V ip V1 ip1 p :
  grown V ip V1 ip1 -> same_data dev V ip V1 -> 0 <= p < 71680 -> loc V ip (posn (p / 512)) <> 0 ->
  fbyte V1 ip1 p = fbyte V ip p.
Proof.
  intros Hg Hsd Hp Hn. destruct (block_of p Hp) as (Hb & Hlt & H12). unfold fbyte.
  by rewrite (g_loc _ _ _ _ _ _ Hg), Hsd.
Qed.

Lemma wrote_nil V ip off : dense V ip off -> wrote V ip V ip off [].
Proof. intros Hd. split; [apply grown_refl|simpl; lia|done|]. simpl. by rewrite Z.add_0_r. Qed.

Lemma wrote_app V ip V1 ip1 V2 ip2 off xs ys :
  file_ok V ip -> 0 <= off -> off + Z.of_nat (length (xs ++ ys)) <= 71680 ->
  wrote V ip V1 ip1 off xs -> wrote V1 ip1 V2 ip2 (off + Z.of_nat (length xs)) ys -> wrote V ip V2 ip2 off (xs ++ ys).
Proof.
  intros Hf Ho Hmax [G1 I1 O1 D1] [G2 I2 O2 D2]. rewrite length_app in *. split.
  - by eapply grown_trans.
  - intros j Hj. rewrite length_app in Hj. destruct (decide (j < length xs)%nat).
    + rewrite lookup_app_l by done. rewrite O2; [by apply I1|lia| |lia]. apply D1; [apply Z.div_pos; lia|].
      pose proof (Z.mul_div_le (off + Z.of_nat j) 512). lia.
    + rewrite lookup_app_r by lia. rewrite <- I2 by lia. f_equal. lia.
  - intros p Hp Hn Hout. rewrite length_app in Hout. rewrite O2; [apply O1; [done|done|lia]|done| |lia].
    destruct (block_of p Hp) as (_ & Hlt & _). by rewrite (g_loc _ _ _ _ _ _ G1).
  - rewrite length_app, Nat2Z.inj_add, Z.add_assoc. done.
Qed.

(** A write inside one block *)
Lemma wrote_block V ip V1 ip1 off xs :
  file_ok V ip -> dense V ip off -> file_ok V1 ip1 -> grown V ip V1 ip1 -> same_data dev V ip V1 ->
  let a := loc V1 ip1 (posn (off / 512)) in
  a <> 0 -> length (V1 (dev, a)) = 512%nat -> 0 <= off -> off mod 512 + Z.of_nat (length xs) <= 512 ->
  off + Z.of_nat (length xs) <= 71680 -> xs <> [] ->
  let V2 := <[(dev, a) := splice (Z.to_nat (off mod 512)) xs (V1 (dev, a))]> V1 in
  file_ok V2 ip1 /\ wrote V ip V2 ip1 off xs.
Proof.
  intros Hf Hd Hf1 Hg Hsd a Ha Hl Ho Hle Hmax Hxs V2. pose proof (Z.mod_pos_bound off 512 ltac:(lia)).
  pose proof (Z.div_mod off 512 ltac:(lia)). assert (0 < length xs)%nat by (destruct xs; [done|simpl; lia]).
  destruct (block_of off ltac:(lia)) as (Hb & Hlt & _).
  destruct (write_block V1 ip1 (off / 512) (splice (Z.to_nat (off mod 512)) xs (V1 (dev, a))) Hf1 Hb Ha) as (Hloc & Hf2 & Hg2).
  split; [done|]. split.
  - by eapply grown_trans.
  - intros j Hj. assert ((off + Z.of_nat j) / 512 = off / 512 /\ (off + Z.of_nat j) mod 512 = off mod 512 + Z.of_nat j) as [Ed Em].
    { split; symmetry; [apply (Z.div_unique_pos _ 512 _ (off mod 512 + Z.of_nat j))|apply (Z.mod_unique_pos _ 512 (off / 512))]; lia. }
    unfold V2, a. rewrite fbyte_write by (done || rewrite ?Ed; done || lia). rewrite Ed, Em, decide_True by done.
    rewrite lookup_splice_in by (unfold a in *; lia). do 2 f_equal. lia.
  - intros p Hp Hn Hout. destruct (block_of p Hp) as (_ & Hpl & _).
    rewrite <- (fbyte_same V ip V1 ip1) by done. unfold V2, a.
    rewrite fbyte_write by (done || by rewrite (g_loc _ _ _ _ _ _ Hg)). case_decide as E; [|done].
    unfold fbyte. rewrite E. rewrite lookup_splice_out; [done|unfold a in *; lia|].
    pose proof (Z.div_mod p 512 ltac:(lia)). pose proof (Z.mod_pos_bound p 512 ltac:(lia)). lia.
  - intros bn Hbn Hlt'. destruct (decide (bn = off / 512)) as [->|Hne]; [unfold V2; by rewrite Hloc|].
    destruct (posn_lt bn ltac:(lia)) as [Hbl _]. unfold V2. rewrite Hloc by done.
    rewrite (g_loc _ _ _ _ _ _ Hg); [|done|]; apply Hd; lia.
Qed.

Notation nfree := (nfree dev sb0).
Notation aligned off := (off mod 512 =? 0).

(** The block that a write at [off] goes to. *)
Lemma bmap_write i bs V s ip off :
  fsys ∅ bs V s -> icache s !! i = Some ip -> file_ok V ip -> dense V ip off -> 0 <= off < 71680 ->
  Z.of_nat (length bs + lcost bs ip) + (if aligned off then 2 else 1) + 1 < size_ ->
  Z.of_nat (need ip) + (if aligned off then 1 else 0) <= Z.of_nat (nfree V) ->
  wp (bmap i (off / 512)) (fun a s' => exists bs' V' ip',
    (file_ok V' ip' /\ grown V ip V' ip' /\ same_data dev V ip V' /\ loc V' ip' (posn (off / 512)) = a /\ a <> 0) /\
    (Z.of_nat (length (absorbed bs' a) + lcost (absorbed bs' a) ip') <=
       Z.of_nat (length bs + lcost bs ip) + (if aligned off then 2 else 1) /\
     Z.of_nat (nfree V + need ip') <= Z.of_nat (nfree V' + need ip) + (if aligned off then 1 else 0)) /\
    (loc V ip (posn (off / 512)) <> 0 -> ip' = ip) /\ Z.of_nat (length bs') + 1 < size_ /\
    fsys ∅ bs' V' s' /\ istep i ip' s s') s.
Proof.
  intros Hfs Hi Hf Hd Ho Hroom Hfree. destruct (block_of off Ho) as (Hb & Hlt & _).
  pose proof (fx_tx _ _ _ _ _ _ _ _ Hfs) as Ht. destruct (decide (loc V ip (posn (off / 512)) = 0)) as [Hz|Hnz].
  - assert (off mod 512 = 0) as Hal.
    { destruct (decide (off mod 512 = 0)); [done|]. destruct (Hd (off / 512)); [lia| |done].
      pose proof (Z.div_mod off 512). pose proof (Z.mod_pos_bound off 512). lia. }
    rewrite Hal, Z.eqb_refl in *. eapply wp_mono; [by apply (bmap_new dev start size_ G sb0 L i bs V s ip); (done || lia)|].
    intros a s' (bs' & V' & ip' & [M1 M2 M3 M4 M5 M6 M7 M8] & Hfs' & Hs'). exists bs', V', ip'.
    assert (absorbed bs' a = bs') as -> by (unfold absorbed; by rewrite decide_True). split_and!; try done; lia.
  - eapply wp_mono; [by apply (bmap_read dev start size_ G sb0 L i bs V s ip)|]. intros a s' (-> & Ht' & Hs'%fstep_bstep).
    exists bs, V, ip. split_and!; try done; [apply grown_refl| | | | |].
    + pose proof (length_absorbed bs (loc V ip (posn (off / 512)))).
      assert (lcost (absorbed bs (loc V ip (posn (off / 512)))) ip <= lcost bs ip)%nat.
      { apply lcost_mono. intros c Hc. rewrite elem_of_absorbed. by right. }
      destruct (aligned off); lia.
    + destruct (aligned off); lia.
    + destruct (aligned off); lia.
    + by eapply (fsys_step dev start size_ G sb0 L).
    + by apply istep_fstep.
Qed.

(** What a write of [src] at [off] leaves: [c] blocks of log and [b] free blocks at most. *)
Definition written i bs V ip (off : Z) (src : list Z) (c b : Z) bs' V' ip' (s s' : kstate) : Prop :=
  (file_ok V' ip' /\ wrote V ip V' ip' off src) /\
  (Z.of_nat (length bs' + lcost bs' ip') <= Z.of_nat (length bs + lcost bs ip) + c /\
   Z.of_nat (nfree V + need ip') <= Z.of_nat (nfree V' + need ip) + b) /\
  (dense V ip (off + Z.of_nat (length src)) -> ip' = ip) /\ fsys ∅ bs' V' s' /\ istep i ip' s s'.

(** One turn of the loop of [writei]. *)
Lemma write_one {A} i bs V s ip off xs (k : KM A) Q :
  fsys ∅ bs V s -> icache s !! i = Some ip -> file_ok V ip -> dense V ip off -> Forall is_byte xs -> xs <> [] ->
  0 <= off -> off mod 512 + Z.of_nat (length xs) <= 512 -> off + Z.of_nat (length xs) <= 71680 ->
  let c := if aligned off then 2 else 1 in
  let b := if aligned off then 1 else 0 in
  Z.of_nat (length bs + lcost bs ip) + c + 1 < size_ -> Z.of_nat (need ip) + b <= Z.of_nat (nfree V) ->
  (forall bs' V' ip' s', written i bs V ip off xs c b bs' V' ip' s s' -> wp k Q s') ->
  wp (a <- bmap i (off / 512) ;; bp <- bread dev a ;; upd_data bp (splice (Z.to_nat (off mod 512)) xs) ;;;
      log_write bp ;;; brelse bp ;;; k) Q s.
Proof.
  intros Hfs Hi Hf Hd Hby Hne Ho Hle Hmax c b Hroom Hfree Hk.
  assert (0 < length xs)%nat by (destruct xs; [done|simpl; lia]).
  eapply wp_chain; [apply (bmap_write i bs V s ip off); (done || lia)|].
  intros a s1 (bs1 & V1 & ip1 & (Hf1 & Hg1 & Hsd1 & Ha & Hanz) & (Hc1 & Hn1) & Hsame & Hlen1 & Hfs1 & Hs1).
  pose proof (fx_tx _ _ _ _ _ _ _ _ Hfs1) as Ht1. pose proof (geo_size _ _ _ G). destruct (block_of off ltac:(lia)) as (Hb & Hlt & _).
  assert (home dev start size_ a) as Hha by (rewrite <- Ha; apply (loc_home dev start size_ G sb0 L); rewrite ?Ha; done).
  eapply wp_chain; [eapply tx_bread; [done|exact Ht1|apply Hha|done|rewrite map_size_empty; lia]|]. intros bp s2 [Ht2 Hs2].
  destruct (fstep_same _ _ Hs2) as (_ & _ & _ & _ & _ & _ & Ho2).
  destruct (tx_block _ _ _ _ _ _ _ (dev, a) Ht1) as [Hvl Hvb]. pose proof (Z.mod_pos_bound off 512 ltac:(lia)).
  eapply (tx_modify dev start size_ G _ bs1 V1 _ a); [exact Ht2|apply lookup_insert_eq|
    pose proof (fx_out _ _ _ _ _ _ _ _ Hfs1); lia|done|done| |].
  { split; [by rewrite length_splice by lia|]. unfold splice. rewrite !Forall_app. split_and!;
      [by apply Forall_take|done|by apply Forall_drop]. }
  intros s3 Ht3 Hs3. eapply wp_chain; [eapply tx_brelse; [exact Ht3|apply lookup_insert_eq]|]. intros [] s4 [Ht4 Hs4].
  rewrite delete_insert_id in Ht4 by done. assert (fstep s1 s4) as Hs14 by (by rewrite Hs2, Hs3).
  subst a. destruct (wrote_block V ip V1 ip1 off xs Hf Hd Hf1 Hg1 Hsd1 Hanz Hvl Ho Hle Hmax Hne) as [Hf2 Hw2].
  set (a := loc V1 ip1 (posn (off / 512))) in *. set (V2 := <[(dev, a) := _]> V1) in *.
  assert (forall e, 0 <= e < sb_size sb0 -> bit dev sb0 V2 e = bit dev sb0 V1 e) as Hbit.
  { intros e He. apply (bit_data dev start size_ G sb0 L); [done|]. apply (f_used _ _ _ _ Hf1); done. }
  apply (Hk (absorbed bs1 a) V2 ip1). split_and!; try done.
  - rewrite (nfree_same dev sb0 V1 V2) by done. done.
  - intros Hd2. apply Hsame. apply Hd2; [lia|]. pose proof (Z.div_mod off 512 ltac:(lia)). lia.
  - eapply (fsys_step dev start size_ G sb0 L); [exact Hfs1|done|done|]. intros e He Hbe. by rewrite Hbit.
  - apply (istep_trans i ip1 ip1 s s1 s4); [done|]. apply istep_fstep; [by apply (istep_inode i ip ip1 s)|done].
Qed.

Lemma written_app i bs V ip off xs c b bs1 V1 ip1 s s1 ys c' b' bs2 V2 ip2 s2 :
  file_ok V ip -> 0 <= off -> off + Z.of_nat (length (xs ++ ys)) <= 71680 ->
  written i bs V ip off xs c b bs1 V1 ip1 s s1 ->
  written i bs1 V1 ip1 (off + Z.of_nat (length xs)) ys c' b' bs2 V2 ip2 s1 s2 ->
  written i bs V ip off (xs ++ ys) (c + c') (b + b') bs2 V2 ip2 s s2.
Proof.
  intros Hf Ho Hmax ([Hf1 Hw1] & [Hc1 Hn1] & Hd1 & Hfs1 & Hs1) ([Hf2 Hw2] & [Hc2 Hn2] & Hd2 & Hfs2 & Hs2).
  split_and!; [done|by eapply wrote_app|lia|lia| |done|by eapply istep_trans].
  rewrite length_app in Hmax |- *. intros Hd. rewrite Hd2.
  - apply Hd1. intros bn Hb Hlt. apply Hd; lia.
  - intros bn Hb Hlt. destruct (posn_lt bn ltac:(lia)) as [Hp _]. rewrite (g_loc _ _ _ _ _ _ (w_grown _ _ _ _ _ _ Hw1)); [|done|]; apply Hd; lia.
Qed.

Lemma writei_loop_spec i fuel : forall bs V s ip off src,
  fsys ∅ bs V s -> icache s !! i = Some ip -> file_ok V ip -> dense V ip off -> Forall is_byte src ->
  let n := Z.of_nat (length src) in
  0 <= off -> off + n <= 71680 -> (1 <= fuel)%nat -> (0 < n -> n + off mod 512 <= 512 * (Z.of_nat fuel - 1)) ->
  Z.of_nat (length bs + lcost bs ip) + wcost off n + 1 < size_ ->
  Z.of_nat (need ip) + wblocks off n <= Z.of_nat (nfree V) ->
  wp (writei_loop fuel i off src) (fun r s' => r = off + n /\ exists bs' V' ip',
    written i bs V ip off src (wcost off n) (wblocks off n) bs' V' ip' s s') s.
Proof.
  induction fuel as [|fuel IH]; intros bs V s ip off src Hfs Hi Hf Hd Hby n Ho Hmax Hf1 Hfuel Hroom Hfree; [lia|].
  cbn [writei_loop]. destruct (decide (src = [])) as [->|Hne].
  { apply wp_ret. split; [unfold n; simpl; lia|]. exists bs, V, ip. pose proof (wblocks_nonneg off n).
    change n with 0 in *. change (wcost off 0) with 0. split_and!; [done|by apply wrote_nil|lia|lia|done|done|by apply istep_fstep]. }
  assert (0 < n) as Hn by (unfold n; destruct src; [done|simpl; lia]).
  destruct (next_block off n Ho Hn) as (Hm & Hle & Hnext). destruct (wcost_next off n Ho Hn) as [Hwb Hwc].
  set (m := Z.min n (512 - off mod 512)) in *. pose proof (wblocks_nonneg (off + m) (n - m)).
  assert (0 <= wcost (off + m) (n - m)) by (unfold wcost; repeat case_match; lia).
  pose proof (Z.mod_pos_bound off 512 ltac:(lia)).
  replace (match src with [] => _ | _ => _ end) with (
        dev <- get (fun s => i_dev (inode_at s i)) ;;
        a <- bmap i (off / BSIZE) ;;
        bp <- bread dev a ;;
        let m := Z.to_nat (Z.min (Z.of_nat (length src)) (BSIZE - off mod BSIZE)) in
        upd_data bp (splice (Z.to_nat (off mod BSIZE)) (take m src)) ;;;
        log_write bp ;;;
        brelse bp ;;;
        writei_loop fuel i (off + Z.of_nat m) (drop m src)) by (by destruct src).
  change BSIZE with 512. fold n. fold m. cbv zeta. eapply wp_step; [reflexivity|].
  rewrite (inode_at_lookup _ _ _ Hi), (f_dev _ _ _ _ Hf). assert (length (take (Z.to_nat m) src) = Z.to_nat m) as Hxl by (rewrite length_take; lia).
  apply (write_one i bs V s ip off (take (Z.to_nat m) src)); try done; try lia;
    [by apply Forall_take|by intros E; rewrite E in Hxl; simpl in Hxl; lia|].
  intros bs1 V1 ip1 s1 Hw1. pose proof Hw1 as ([Hf1' Hwr1] & [Hc1 Hn1] & Hd1 & Hfs1 & Hs1).
  assert (Z.of_nat (length (drop (Z.to_nat m) src)) = n - m) as Hdl by (rewrite length_drop; lia).
  rewrite Z2Nat.id by lia. assert (dense V1 ip1 (off + m)) as Hd1' by (replace m with (Z.of_nat (length (take (Z.to_nat m) src))) by lia; apply Hwr1).
  eapply wp_mono; [apply (IH bs1 V1 s1 ip1); rewrite ?Hdl; try done; try lia|].
  - by apply (istep_inode i ip ip1 s).
  - by apply Forall_drop.
  - intros r s2 (-> & bs2 & V2 & ip2 & Hw2). rewrite Hdl in *. split; [lia|]. exists bs2, V2, ip2.
    eassert (written i bs V ip off (take (Z.to_nat m) src ++ drop (Z.to_nat m) src) _ _ bs2 V2 ip2 s s2) as Hw.
    { eapply written_app; [done|done|by rewrite take_drop|exact Hw1|]. rewrite Hxl, Z2Nat.id by lia. exact Hw2. }
    rewrite take_drop in Hw. destruct Hw as ([? ?] & [? ?] & ? & ? & ?). split_and!; try done; lia.
Qed.

(** ** The inode on the disk *)

Lemma iblock_range inum :
  0 <= inum < sb_ninodes sb0 -> start + size_ <= IBLOCK inum sb0 < sb_bmapstart sb0 /\ sb_bmapstart sb0 < datastart sb0.
Proof.
  intros Hi. pose proof L as []. pose proof G as []. unfold IBLOCK, datastart in *.
  assert (0 < IPB) by done. assert (0 <= inum / IPB <= sb_ninodes sb0 / IPB) by (split; [apply Z.div_pos|apply Z.div_le_mono]; lia).
  assert (0 <= sb_size sb0 / BPB) by (apply Z.div_pos; [lia|done]). rewrite u32_small by lia. lia.
Qed.

(** A write before the bitmap changes no file and no mark. *)
Lemma meta_write V ip b d :
  file_ok V ip -> start + size_ <= b < sb_bmapstart sb0 ->
  let V' := <[(dev, b) := d]> V in
  (forall p, (p < 141)%nat -> loc V' ip p = loc V ip p) /\
  (forall c, 0 <= c < sb_size sb0 -> bit dev sb0 V' c = bit dev sb0 V c) /\ file_ok V' ip /\
  (forall p, 0 <= p < 71680 -> loc V ip (posn (p / 512)) <> 0 -> fbyte V' ip p = fbyte V ip p).
Proof.
  intros Hf Hb V'. pose proof Hf as [Hd Hl Hu Hi]. pose proof (datastart_pos dev start size_ G sb0 L).
  assert (sb_bmapstart sb0 < datastart sb0) as Hlt.
  { unfold datastart. pose proof L as []. assert (0 <= sb_size sb0 / BPB) by (apply Z.div_pos; [lia|done]). lia. }
  assert (forall p, (p < 141)%nat -> loc V' ip p = loc V ip p) as Hloc.
  { intros p Hp. unfold FsFile.loc, V'. destruct (p <? 13)%nat; [done|]. destruct (Z.eqb_spec (ind ip) 0); [done|].
    destruct (Hu 12%nat) as [Hr _]; [lia|done|]. rewrite loc_12 in Hr. rewrite fn_lookup_insert_ne; [done|]. intros [= ->]. lia. }
  assert (forall c, 0 <= c < sb_size sb0 -> bit dev sb0 V' c = bit dev sb0 V c) as Hbit.
  { intros c Hc. unfold bit, V'. destruct (bblock_range dev start size_ G sb0 L c Hc) as [HB _].
    assert (0 <= c / BPB) by (apply Z.div_pos; [lia|done]). rewrite fn_lookup_insert_ne; [done|]. intros [=]. lia. }
  split_and!; [done|done|split|].
  - done.
  - done.
  - intros p Hp. rewrite Hloc by done. intros Hn. destruct (Hu p Hp Hn). split; [done|]. rewrite Hbit by lia. done.
  - intros p q Hp Hq. rewrite !Hloc by done. by apply Hi.
  - intros p Hp Hn. destruct (block_of p Hp) as (_ & Hpl & _). unfold fbyte. rewrite Hloc by done.
    destruct (Hu _ Hpl Hn) as [Hr _]. unfold V'. rewrite fn_lookup_insert_ne; [done|]. intros [=]. lia.
Qed.

Lemma block_ok_put_dinode o ip d : (o + 64 <= 512)%nat -> block_ok d -> block_ok (put_dinode o ip d).
Proof.
  intros Ho Hd. unfold put_dinode. apply (wr_addrs_ind (fun _ e => block_ok e)).
  - repeat apply block_ok_wr; done || lia.
  - intros k e Hk He. apply block_ok_wr; [done|lia].
Qed.

Lemma dinode_at_le inum : (dinode_at inum + 64 <= 512)%nat.
Proof. unfold dinode_at. pose proof (Z.mod_pos_bound inum IPB ltac:(done)). change IPB with 8 in *. lia. Qed.

Definition put_view V ip : Z * Z -> list Z :=
  <[(dev, IBLOCK (i_inum ip) sb0) := put_dinode (dinode_at (i_inum ip)) ip (V (dev, IBLOCK (i_inum ip) sb0))]> V.

Lemma iupdate_spec i bs V s ip :
  fsys ∅ bs V s -> icache s !! i = Some ip -> file_ok V ip -> 0 <= i_inum ip < sb_ninodes sb0 ->
  Z.of_nat (length bs) + 1 < size_ ->
  wp (iupdate i) (fun _ s' => fsys ∅ (absorbed bs (IBLOCK (i_inum ip) sb0)) (put_view V ip) s' /\ fstep s s') s.
Proof.
  intros Hfs Hi Hf Hin Hlt. pose proof Hfs as [Ht Hsb Ho _ _]. destruct (iblock_range _ Hin) as [Hir Hbd].
  pose proof L as []. pose proof (geo_size _ _ _ G).
  assert (home dev start size_ (IBLOCK (i_inum ip) sb0)) as Hh by (apply (home_block dev start size_ G sb0 L); lia).
  unfold iupdate. eapply wp_step; [reflexivity|]. rewrite (inode_at_lookup _ _ _ Hi). eapply wp_step; [reflexivity|].
  rewrite Hsb, (f_dev _ _ _ _ Hf).
  eapply wp_chain; [eapply tx_bread; [done|exact Ht|apply Hh|done|rewrite map_size_empty; lia]|]. intros bp s1 [Ht1 Hs1].
  destruct (fstep_same _ _ Hs1) as (_ & _ & _ & _ & _ & _ & Ho1).
  eapply (tx_modify dev start size_ G _ bs V _ (IBLOCK (i_inum ip) sb0)); [exact Ht1|apply lookup_insert_eq|lia|done|done| |].
  { apply block_ok_put_dinode; [apply dinode_at_le|]. apply (tx_block _ _ _ _ _ _ _ _ Ht). }
  intros s2 Ht2 Hs2. eapply wp_mono; [eapply tx_brelse; [exact Ht2|apply lookup_insert_eq]|]. intros [] s3 [Ht3 Hs3].
  rewrite delete_insert_id in Ht3 by done. assert (fstep s s3) by (by rewrite Hs1, Hs2). split; [|done].
  eapply (fsys_step dev start size_ G sb0 L); [done..|]. intros c Hc Hbit.
  destruct (meta_write V ip (IBLOCK (i_inum ip) sb0) (put_dinode (dinode_at (i_inum ip)) ip (V (dev, IBLOCK (i_inum ip) sb0))) Hf Hir)
    as (_ & Hb & _). unfold put_view. by rewrite Hb.
Qed.
End io.
