(* ===== verification/FsSpec.v ===== *)
(** * FsSpec: what reading and writing a file does

    The invariant of the inode of a file or directory, and the specifications of
    [readi] and [writei] over the bytes of the file. *)

From stdpp Require Import functions base gmap list strings.
From Stdlib Require Import ZArith Lia.
From S2P Require Import Prelude State Core Bio Memide Cache Log LogSpec Fs FsLayout FsTx FsCommit FsAlloc FsFile FsIo.

Local Open Scope Z_scope.
Local Open Scope kernel_scope.

(** A file or directory: its blocks are its own, it has no holes, and the inode on the
    disk is the one in memory. *)
Record regular (dev : Z) (sb0 : superblock) (V : Z * Z -> list Z) (ip : inode) : Prop := {
  r_file : file_ok dev sb0 V ip;
  r_ok : inode_ok ip;
  r_type : i_type ip <> T_DEV;
  r_inum : 0 <= i_inum ip < sb_ninodes sb0;
  r_size : i_size ip <= MAXFILE * BSIZE;
  r_dense : dense dev V ip (i_size ip);
  r_synced : get_dinode (dinode_at (i_inum ip)) (V (dev, IBLOCK (i_inum ip) sb0)) ip = ip
}.

Section spec.
Context `{DD : DiskDriver} `{Devices} (dev start size_ : Z) (G : geometry dev start size_) (sb0 : superblock)
  (L : fs_layout dev start size_ sb0).
Implicit Types (V : Z * Z -> list Z) (bs : list Z) (s : kstate) (ip : inode).

Notation loc := (loc dev).
Notation file_ok := (file_ok dev sb0).
Notation fsys := (fsys dev start size_ sb0).
Notation regular := (regular dev sb0).
Notation contents := (contents dev).

Lemma length_file_bytes V ip : length (contents V ip) = Z.to_nat (i_size ip).
Proof. apply length_bytes. Qed.

Lemma io_fuel_enough off n :
  0 <= n -> (1 <= io_fuel n)%nat /\ (0 < n -> n + off mod 512 <= 512 * (Z.of_nat (io_fuel n) - 1)).
Proof.
  intros Hn. unfold io_fuel. change BSIZE with 512. pose proof (Z.div_mod n 512 ltac:(lia)).
  pose proof (Z.mod_pos_bound n 512 ltac:(lia)). pose proof (Z.mod_pos_bound off 512 ltac:(lia)). lia.
Qed.

Lemma u32_wraps off n : 0 <= off < 2 ^ 32 -> 0 <= n < 2 ^ 32 -> (u32 (off + n) <? off) = (2 ^ 32 <=? off + n).
Proof.
  intros Ho Hn. unfold u32. change 4294967296 with (2 ^ 32). destruct (Z.leb_spec (2 ^ 32) (off + n)).
  - replace (off + n) with (off + n - 2 ^ 32 + 1 * 2 ^ 32) by lia. rewrite Z.mod_add, Z.mod_small by lia. apply Z.ltb_lt. lia.
  - rewrite Z.mod_small by lia. apply Z.ltb_ge. lia.
Qed.

(** ** readi *)

Lemma bytes_contents V ip off n :
  0 <= off -> 0 <= n -> off + n <= i_size ip -> bytes dev V ip off n = sub (Z.to_nat off) (Z.to_nat n) (contents V ip).
Proof.
  intros Ho Hn Hle. apply list_eq. intros j. destruct (decide (j < Z.to_nat n)%nat).
  - unfold contents. rewrite lookup_sub, !lookup_bytes by lia. do 2 f_equal. lia.
  - rewrite !lookup_ge_None_2; [done| |rewrite length_bytes; lia]. unfold sub. rewrite length_take. lia.
Qed.

Lemma readi_spec i bs V s ip off n :
  tx dev start size_ ∅ bs V s -> icache s !! i = Some ip -> regular V ip -> 0 <= off < 2 ^ 32 -> 0 <= n < 2 ^ 31 ->
  if (i_size ip <? off) || (2 ^ 32 <=? off + n) then readi i off n s = Ret (-1, []) s
  else let m := Z.min n (i_size ip - off) in
    wp (readi i off n) (fun r s' => r = (m, sub (Z.to_nat off) (Z.to_nat m) (contents V ip)) /\
      tx dev start size_ ∅ bs V s' /\ rstep s s') s.
Proof.
  intros Ht Hi [Hf Hok Hty Hin Hsz Hde _] Ho Hn. change (MAXFILE * BSIZE) with 71680 in Hsz.
  destruct Hok as (_ & _ & _ & _ & Hsz0 & _).
  assert ((i_type ip =? T_DEV) = false) as Hty' by (by apply Z.eqb_neq).
  destruct ((i_size ip <? off) || (2 ^ 32 <=? off + n)) eqn:E.
  - unfold readi, bind, get. rewrite (inode_at_lookup _ _ _ Hi), Hty', u32_wraps, E by lia. done.
  - cbv zeta. unfold readi. eapply wp_step; [reflexivity|]. rewrite (inode_at_lookup _ _ _ Hi), Hty', u32_wraps, E by lia.
    apply orb_false_iff in E as [E1%Z.ltb_ge E2%Z.leb_gt]. rewrite u32_small by lia.
    set (m := Z.min n (i_size ip - off)).
    replace (if i_size ip <? off + n then i_size ip - off else n) with m
      by (unfold m; destruct (Z.ltb_spec (i_size ip) (off + n)); lia).
    destruct (io_fuel_enough off m ltac:(lia)).
    eapply wp_chain; [eapply (readi_loop_spec dev start size_ G sb0 L i V ip bs); try done; try lia|].
    + intros bn Hb Hlt. apply Hde; lia.
    + change (MAXFILE * BSIZE) with 71680. lia.
    + intros l s' (-> & Ht' & Hs'). apply wp_ret. rewrite i32_small by lia. split; [|done].
      by rewrite bytes_contents by lia.
Qed.

(** ** writei *)

Lemma contents_wrote V ip V' ip' off src :
  dense dev V ip (i_size ip) -> 0 <= off <= i_size ip -> i_size ip <= 71680 ->
  (forall j, (j < length src)%nat -> fbyte dev V' ip' (off + Z.of_nat j) = default 0 (src !! j)) ->
  (forall p, 0 <= p < 71680 -> loc V ip (posn (p / 512)) <> 0 -> p < off \/ off + Z.of_nat (length src) <= p ->
    fbyte dev V' ip' p = fbyte dev V ip p) ->
  i_size ip' = Z.max (i_size ip) (off + Z.of_nat (length src)) ->
  contents V' ip' = splice (Z.to_nat off) src (contents V ip).
Proof.
  intros Hd Ho Hsz Hin Hout Hsz'. apply list_eq. intros j.
  assert (length (splice (Z.to_nat off) src (contents V ip)) = Z.to_nat (i_size ip')) as Hlen.
  { unfold splice. rewrite !length_app, length_take, length_drop, length_file_bytes. lia. }
  destruct (decide (j < Z.to_nat (i_size ip'))%nat).
  - unfold contents at 1. rewrite lookup_bytes, Z.add_0_l by lia.
    destruct (decide (Z.to_nat off <= j < Z.to_nat off + length src)%nat).
    + rewrite lookup_splice_in by (rewrite ?length_file_bytes; lia). replace (Z.of_nat j) with (off + Z.of_nat (j - Z.to_nat off)) by lia.
      rewrite Hin by lia. by destruct (lookup_lt_is_Some_2 src (j - Z.to_nat off) ltac:(lia)) as [x ->].
    + rewrite lookup_splice_out by (rewrite ?length_file_bytes; lia). unfold contents. rewrite lookup_bytes, Z.add_0_l by lia.
      rewrite Hout; [done|lia| |lia]. apply Hd; [apply Z.div_pos; lia|]. pose proof (Z.mul_div_le (Z.of_nat j) 512). lia.
  - rewrite !lookup_ge_None_2; [done|lia|rewrite length_file_bytes; lia].
Qed.

Lemma file_inode_ok V ip0 ip :
  inode_ok ip0 -> file_ok V ip -> 0 <= i_size ip < 2 ^ 32 ->
  i_type ip = i_type ip0 -> i_major ip = i_major ip0 -> i_minor ip = i_minor ip0 -> i_nlink ip = i_nlink ip0 -> inode_ok ip.
Proof.
  intros (H1 & H2 & H3 & H4 & _) [_ Hl Hu _] Hsz E1 E2 E3 E4. pose proof L as []. pose proof (datastart_pos dev start size_ G sb0 L).
  unfold inode_ok. split_and!; try lia. apply Forall_forall. intros a Ha.
  apply list_elem_of_lookup in Ha as [k Hk]. pose proof (lookup_lt_Some _ _ _ Hk).
  assert (loc V ip k = a) as Hlk by (unfold FsFile.loc; destruct (Nat.ltb_spec k 13); [by rewrite Hk|lia]).
  destruct (decide (a = 0)); [lia|]. destruct (Hu k) as [Hr _]; [lia|congruence|]. rewrite Hlk in Hr. lia.
Qed.

Lemma file_ok_size V ip z : file_ok V ip -> file_ok V (set_i_size z ip).
Proof. intros [H1 H2 H3 H4]. by split. Qed.

(** What a write leaves: the new contents, and nothing of any other file. *)
Record rewritten V ip V' ip' (off : Z) (src : list Z) : Prop := {
  rw_regular : regular V' ip';
  rw_contents : contents V' ip' = splice (Z.to_nat off) src (contents V ip);
  rw_fields : ip' = set_i_size (i_size ip') (set_i_addrs (i_addrs ip') ip);
  rw_others k : other dev sb0 V ip k -> ~ in_log dev start size_ k -> k <> (dev, IBLOCK (i_inum ip) sb0) -> V' k = V k;
  rw_keeps k : other dev sb0 V ip k -> other dev sb0 V' ip' k;
  rw_inodes o ip0 : (o + 64 <= dinode_at (i_inum ip) \/ dinode_at (i_inum ip) + 64 <= o)%nat ->
    get_dinode o (V' (dev, IBLOCK (i_inum ip) sb0)) ip0 = get_dinode o (V (dev, IBLOCK (i_inum ip) sb0)) ip0
}.

Lemma iblock_other V ip : 0 <= i_inum ip < sb_ninodes sb0 -> other dev sb0 V ip (dev, IBLOCK (i_inum ip) sb0).
Proof. intros Hi. right; left. apply (iblock_range dev start size_ G sb0 L), Hi. Qed.

(** The write stays inside the file. *)
Lemma rewritten_inside V ip V' off src :
  regular V ip -> 0 <= off -> off + Z.of_nat (length src) <= i_size ip -> file_ok V' ip -> wrote dev sb0 V ip V' ip off src ->
  rewritten V ip V' ip off src.
Proof.
  intros [Hf Hok Hty Hin Hsz Hde Hsy] Ho Hle Hf' Hw. change (MAXFILE * BSIZE) with 71680 in Hsz. pose proof (w_grown _ _ _ _ _ _ _ _ Hw) as Hg.
  pose proof (g_other _ _ _ _ _ _ Hg _ (iblock_other V ip Hin)) as Hib.
  split; [split|..]; try done.
  - intros bn Hb Hlt. destruct (posn_lt bn ltac:(lia)) as [Hp _]. rewrite (g_loc _ _ _ _ _ _ Hg); [|done|]; by apply Hde.
  - by rewrite Hib.
  - apply contents_wrote; try (done || lia); apply Hw.
  - by destruct ip.
  - intros k Hk _ _. by apply (g_other _ _ _ _ _ _ Hg).
  - intros k. by apply (other_grown dev start size_ G sb0 L).
  - intros o ip0 _. by rewrite Hib.
Qed.

(** The write makes the file longer. *)
Lemma rewritten_grows V ip V1 ip1 off src :
  regular V ip -> 0 <= off <= i_size ip -> i_size ip < off + Z.of_nat (length src) -> off + Z.of_nat (length src) <= 71680 ->
  (forall k, block_ok (V1 k)) -> file_ok V1 ip1 -> wrote dev sb0 V ip V1 ip1 off src ->
  let ip' := set_i_size (off + Z.of_nat (length src)) ip1 in
  rewritten V ip (put_view dev sb0 V1 ip') ip' off src.
Proof.
  intros [Hf Hok Hty Hin Hsz Hde Hsy] Ho Hlt Hle Hbl Hf1 Hw ip'. pose proof Hw as [Hg Hwin Hwout Hwd].
  pose proof (g_inode _ _ _ _ _ _ Hg) as Hip1. pose proof (g_other _ _ _ _ _ _ Hg _ (iblock_other V ip Hin)) as Hib.
  assert (i_inum ip' = i_inum ip) as Hinum by (unfold ip'; rewrite Hip1; by destruct ip).
  destruct (iblock_range dev start size_ G sb0 L _ Hin) as [Hir _].
  assert (inode_ok ip') as Hok'.
  { apply (file_inode_ok V1 ip); [done|by apply file_ok_size|unfold ip'; simpl; lia|..]; unfold ip'; rewrite Hip1; by destruct ip. }
  change (MAXFILE * BSIZE) with 71680 in Hsz. destruct (meta_write dev start size_ G sb0 L V1 ip1 (IBLOCK (i_inum ip) sb0)
    (put_dinode (dinode_at (i_inum ip)) ip' (V1 (dev, IBLOCK (i_inum ip) sb0))) Hf1 Hir) as (Hloc & Hbit & Hf2 & Hfb).
  pose proof (dinode_at_le (i_inum ip)) as Hdl. destruct (Hbl (dev, IBLOCK (i_inum ip) sb0)) as [Hbll _].
  unfold put_view. rewrite Hinum. split; [split|..].
  - by apply file_ok_size.
  - done.
  - unfold ip'. rewrite Hip1. by destruct ip.
  - by rewrite Hinum.
  - unfold ip'. simpl. change (MAXFILE * BSIZE) with 71680. lia.
  - intros bn Hb Hbn. destruct (posn_lt bn ltac:(unfold ip' in Hbn; simpl in Hbn; lia)) as [Hp _].
    intros Hz. apply (Hwd bn Hb Hbn). rewrite <- (Hloc _ Hp). exact Hz.
  - rewrite Hinum, fn_lookup_insert. destruct (get_put_dinode (dinode_at (i_inum ip)) ip' ip' (V1 (dev, IBLOCK (i_inum ip) sb0)))
      as [-> _]; [lia|done|]. by destruct ip'.
  - apply contents_wrote; try done.
    + intros j Hj. rewrite <- Hwin by done. apply (Hfb (off + Z.of_nat j)); [lia|]. apply Hwd; [apply Z.div_pos; lia|].
      pose proof (Z.mul_div_le (off + Z.of_nat j) 512). lia.
    + intros p Hp Hn Hout. rewrite <- Hwout by done. apply (Hfb p); [done|]. destruct (block_of p Hp) as (_ & Hpl & _).
      by rewrite (g_loc _ _ _ _ _ _ Hg).
    + unfold ip'. simpl. lia.
  - unfold ip'. rewrite Hip1. by destruct ip.
  - intros k Hk _ Hne. rewrite fn_lookup_insert_ne by done. by apply (g_other _ _ _ _ _ _ Hg).
  - intros k Hk. apply (other_grown dev start size_ G sb0 L _ _ V1 ip1) in Hk; [|done].
    destruct Hk as [?|[?|(Hr & Hb & Hn)]]; [by left|by right; left|].
    right; right. pose proof (datastart_pos dev start size_ G sb0 L). rewrite Hbit by lia. split; [done|]. split; [done|].
    intros p Hp. pose proof (Hn p Hp) as Hnp. rewrite <- (Hloc p Hp) in Hnp. exact Hnp.
  - intros o ip0 Hoo. rewrite fn_lookup_insert. destruct (get_put_dinode (dinode_at (i_inum ip)) ip' ip0 (V1 (dev, IBLOCK (i_inum ip) sb0)))
      as [_ Hoth]; [lia|done|]. rewrite Hoth by lia. by rewrite Hib.
Qed.

Lemma lcost_le bs ip : (lcost bs ip <= 2)%nat.
Proof. unfold lcost. destruct (ind ip =? 0); [done|]. case_decide; lia. Qed.

(** [writei] after its guards, and its end: a longer file gets its new size. *)
Definition writei_tail i (n off' : Z) : KM Z :=
  size <- get (fun s => i_size (inode_at s i)) ;;
  (if (0 <? n) && (size <? off') then
     upd_inode i (set_i_size off') ;;;
     iupdate i
   else ret tt) ;;;
  ret (i32 n).
Definition writei_body i (src : list Z) (off : Z) : KM Z :=
  off' <- writei_loop (io_fuel (Z.of_nat (length src))) i off src ;;
  writei_tail i (Z.of_nat (length src)) off'.

Lemma writei_end i bs V s ip src off bs1 V1 ip1 s1 c b :
  regular V ip -> icache s !! i = Some ip -> 0 <= off <= i_size ip -> off + Z.of_nat (length src) <= 71680 ->
  Z.of_nat (length bs + lcost bs ip) + c + 1 < size_ ->
  written dev start size_ sb0 i bs V ip off src c b bs1 V1 ip1 s s1 ->
  wp (writei_tail i (Z.of_nat (length src)) (off + Z.of_nat (length src))) (fun r s' => r = i32 (Z.of_nat (length src)) /\ exists bs' V' ip',
    rewritten V ip V' ip' off src /\ fsys ∅ bs' V' s' /\ istep i ip' s s' /\
    Z.of_nat (length bs') <= Z.of_nat (length bs + lcost bs ip) + c + 1 /\
    Z.of_nat (nfree dev sb0 V + need ip') <= Z.of_nat (nfree dev sb0 V' + need ip) + b) s1.
Proof.
  intros Hr Hi Ho Hmax Hroom ([Hf1 Hw1] & [Hc1 Hn1] & Hd1 & Hfs1 & Hs1).
  pose proof (istep_inode _ _ _ _ _ Hi Hs1) as Hi1. pose proof (g_inode _ _ _ _ _ _ (w_grown _ _ _ _ _ _ _ _ Hw1)) as Hg.
  assert (i_size ip1 = i_size ip) as Hsz by (rewrite Hg; by destruct ip).
  eapply wp_step; [reflexivity|]. rewrite (inode_at_lookup _ _ _ Hi1), Hsz.
  destruct ((0 <? Z.of_nat (length src)) && (i_size ip <? off + Z.of_nat (length src))) eqn:E.
  - apply andb_true_iff in E as [_ E%Z.ltb_lt]. set (ip2 := set_i_size (off + Z.of_nat (length src)) ip1).
    set (s2 := set_icache (<[i := ip2]> (icache s1)) s1). pose proof (fsys_icache dev start size_ sb0 ∅ bs1 V1 s1 (<[i := ip2]> (icache s1)) Hfs1) as Hfs2.
    assert (icache s2 !! i = Some ip2) as Hi2 by (apply list_lookup_insert_eq; by eapply lookup_lt_Some).
    eapply wp_chain; [eapply wp_step; [unfold upd_inode, modify; rewrite (alter_as_insert _ _ _ _ Hi1); reflexivity|]|].
    { apply (iupdate_spec dev start size_ G sb0 L i bs1 V1 s2 ip2 Hfs2 Hi2); [by apply file_ok_size| |lia].
      unfold ip2. rewrite Hg. apply (r_inum _ _ _ _ Hr). }
    intros [] s3 [Hfs3 Hs3]. apply wp_ret. split; [done|]. eexists _, _, ip2. split_and!; [|exact Hfs3| | |].
    + apply (rewritten_grows V ip V1 ip1); try done. intros k. apply (tx_block _ _ _ _ _ _ _ _ (fx_tx _ _ _ _ _ _ _ _ Hfs1)).
    + apply (istep_trans i ip1 ip2 s s1 s3); [done|]. exact Hs3.
    + pose proof (length_absorbed bs1 (IBLOCK (i_inum ip2) sb0)). lia.
    + rewrite (nfree_same dev sb0 V1 (put_view dev sb0 V1 ip2)); [exact Hn1|].
      apply (meta_write dev start size_ G sb0 L V1 ip1); [done|]. apply (iblock_range dev start size_ G sb0 L).
      unfold ip2. rewrite Hg. apply (r_inum _ _ _ _ Hr).
  - eapply wp_step; [reflexivity|]. apply wp_ret. split; [done|]. exists bs1, V1, ip1.
    assert (off + Z.of_nat (length src) <= i_size ip) as Hle.
    { apply andb_false_iff in E as [E%Z.ltb_ge|E%Z.ltb_ge]; lia. }
    assert (ip1 = ip) as -> by (apply Hd1; intros bn Hb Hlt; apply (r_dense _ _ _ _ Hr); lia).
    split_and!; [apply rewritten_inside; (done || lia)|done|done|lia|lia].
Qed.

Lemma writei_spec i bs V s ip src off :
  fsys ∅ bs V s -> icache s !! i = Some ip -> regular V ip -> Forall is_byte src -> 0 <= off < 2 ^ 32 ->
  let n := Z.of_nat (length src) in
  n < 2 ^ 31 ->
  if (i_size ip <? off) || (MAXFILE * BSIZE <? off + n) then writei i src off s = Ret (-1) s
  else
    Z.of_nat (length bs) + wcost off n + 3 < size_ -> Z.of_nat (need ip) + wblocks off n <= Z.of_nat (nfree dev sb0 V) ->
    wp (writei i src off) (fun r s' => r = n /\ exists bs' V' ip',
      rewritten V ip V' ip' off src /\ fsys ∅ bs' V' s' /\ istep i ip' s s' /\
      Z.of_nat (length bs') <= Z.of_nat (length bs) + wcost off n + 3 /\
      Z.of_nat (nfree dev sb0 V + need ip') <= Z.of_nat (nfree dev sb0 V' + need ip) + wblocks off n) s.
Proof.
  intros Hfs Hi Hr Hby Ho n Hn. pose proof Hr as [Hf Hok Hty Hin Hsz Hde _]. change (MAXFILE * BSIZE) with 71680 in *.
  assert ((i_type ip =? T_DEV) = false) as Hty' by (by apply Z.eqb_neq).
  assert (forall A (x y : A), (if (i_size ip <? off) || (u32 (off + n) <? off) then x else
    if 71680 <? u32 (off + n) then x else y) = if (i_size ip <? off) || (71680 <? off + n) then x else y) as Hguard.
  { intros A x y. rewrite u32_wraps by (unfold n in *; lia). destruct (Z.ltb_spec (i_size ip) off); [done|]. simpl.
    destruct (Z.leb_spec (2 ^ 32) (off + n)); [|by rewrite u32_small by (unfold n in *; lia)].
    destruct (Z.ltb_spec 71680 (off + n)); [done|lia]. }
  assert (writei i src off s = if (i_size ip <? off) || (71680 <? off + n) then Ret (-1) s else writei_body i src off s) as Heq.
  { rewrite <- Hguard. unfold writei, bind at 1, get at 1. cbv zeta. rewrite (inode_at_lookup _ _ _ Hi), Hty'. fold n.
    change (MAXFILE * BSIZE) with 71680. by repeat case_match. }
  destruct ((i_size ip <? off) || (71680 <? off + n)) eqn:E; [done|]. intros Hroom Hfree.
  apply orb_false_iff in E as [E1%Z.ltb_ge E2%Z.ltb_ge]. unfold wp at 1. rewrite Heq.
  destruct (io_fuel_enough off n ltac:(lia)). pose proof (lcost_le bs ip).
  change (wp (writei_body i src off) (fun r s' => r = n /\ exists bs' V' ip',
      rewritten V ip V' ip' off src /\ fsys ∅ bs' V' s' /\ istep i ip' s s' /\
      Z.of_nat (length bs') <= Z.of_nat (length bs) + wcost off n + 3 /\
      Z.of_nat (nfree dev sb0 V + need ip') <= Z.of_nat (nfree dev sb0 V' + need ip) + wblocks off n) s).
  eapply wp_chain; [apply (writei_loop_spec dev start size_ G sb0 L i (io_fuel n) bs V s ip off src); try done; fold n; try lia|].
  - intros bn Hb Hlt. apply Hde; lia.
  - fold n. intros r s1 (-> & bs1 & V1 & ip1 & Hw). eapply wp_mono; [apply (writei_end i bs V s ip src off bs1 V1 ip1 s1 (wcost off n) (wblocks off n) Hr Hi); [lia|done| |exact Hw]|].
    + unfold n in *. lia.
    + intros r s2 (-> & bs2 & V2 & ip2 & Hrw & Hfs2 & Hs2 & Hlen & Hfr). split; [unfold n; apply i32_small; unfold n in *; lia|].
      exists bs2, V2, ip2. split_and!; try done. unfold n in *. lia.
Qed.

(** ** Views that differ in the log only *)

(** Equal outside the log. *)
Definition agree V V' : Prop := forall k, ~ in_log dev start size_ k -> V' k = V k.

Lemma not_in_log b : start + size_ <= b -> ~ in_log dev start size_ (dev, b).
Proof. intros Hb [_ ?]. simpl in *. lia. Qed.

Lemma bit_agree V V' b : agree V V' -> 0 <= b < sb_size sb0 -> bit dev sb0 V' b = bit dev sb0 V b.
Proof.
  intros Ha Hb. unfold bit. destruct (bblock_range dev start size_ G sb0 L b Hb) as [_ ?]. rewrite Ha; [done|]. apply not_in_log. lia.
Qed.

Lemma loc_agree V V' ip p : agree V V' -> file_ok V ip -> (p < 141)%nat -> loc V' ip p = loc V ip p.
Proof.
  intros Ha Hf Hp. unfold FsFile.loc. destruct (p <? 13)%nat; [done|]. destruct (Z.eqb_spec (ind ip) 0); [done|].
  destruct (f_used _ _ _ _ Hf 12%nat) as [Hr _]; [lia|done|]. rewrite loc_12 in Hr. pose proof (datastart_pos dev start size_ G sb0 L).
  rewrite Ha; [done|]. apply not_in_log. lia.
Qed.

Lemma file_agree V V' ip : agree V V' -> file_ok V ip -> file_ok V' ip.
Proof.
  intros Ha Hf. pose proof Hf as [Hd Hl Hu Hi]. pose proof (datastart_pos dev start size_ G sb0 L). split; [done|done| |].
  - intros p Hp. rewrite (loc_agree V V') by done. intros Hn. destruct (Hu p Hp Hn). by rewrite (bit_agree V V') by (done || lia).
  - intros p q Hp Hq. rewrite !(loc_agree V V') by done. by apply Hi.
Qed.

Lemma fbyte_agree V V' ip p :
  agree V V' -> file_ok V ip -> 0 <= p < 71680 -> loc V ip (posn (p / 512)) <> 0 -> fbyte dev V' ip p = fbyte dev V ip p.
Proof.
  intros Ha Hf Hp Hn. destruct (block_of p Hp) as (_ & Hpl & _). unfold fbyte. rewrite (loc_agree V V') by done.
  destruct (f_used _ _ _ _ Hf _ Hpl Hn) as [Hr _]. pose proof (datastart_pos dev start size_ G sb0 L).
  rewrite Ha; [done|]. apply not_in_log. lia.
Qed.

Lemma iblock_agree V V' ip : agree V V' -> 0 <= i_inum ip < sb_ninodes sb0 -> V' (dev, IBLOCK (i_inum ip) sb0) = V (dev, IBLOCK (i_inum ip) sb0).
Proof. intros Ha Hi. apply Ha, not_in_log. apply (iblock_range dev start size_ G sb0 L), Hi. Qed.

Lemma regular_agree V V' ip : agree V V' -> regular V ip -> regular V' ip /\ contents V' ip = contents V ip.
Proof.
  intros Ha Hr. pose proof Hr as [Hf Hok Hty Hin Hsz Hde Hsy]. change (MAXFILE * BSIZE) with 71680 in Hsz. split; [split|]; try done.
  - by apply (file_agree V).
  - intros bn Hb Hlt. destruct (posn_lt bn ltac:(lia)). rewrite (loc_agree V V') by done. by apply Hde.
  - by rewrite (iblock_agree V).
  - apply list_eq. intros j. destruct (decide (j < Z.to_nat (i_size ip))%nat).
    + unfold contents. rewrite !lookup_bytes, Z.add_0_l by done. rewrite (fbyte_agree V V'); [done|done|done|lia|].
      apply Hde; [apply Z.div_pos; lia|]. pose proof (Z.mul_div_le (Z.of_nat j) 512). lia.
    + rewrite !lookup_ge_None_2 by (rewrite length_file_bytes; lia). done.
Qed.

Lemma other_agree V V' ip k : agree V V' -> file_ok V ip -> other dev sb0 V ip k -> other dev sb0 V' ip k.
Proof.
  intros Ha Hf [?|[?|(Hr & Hb & Hn)]]; [by left|by right; left|]. right; right. pose proof (datastart_pos dev start size_ G sb0 L).
  rewrite (bit_agree V V') by (done || lia). split; [done|]. split; [done|]. intros p Hp. rewrite (loc_agree V V') by done. by apply Hn.
Qed.

Lemma rewritten_agree V ip V1 V2 ip1 off src : agree V1 V2 -> rewritten V ip V1 ip1 off src -> rewritten V ip V2 ip1 off src.
Proof.
  intros Ha [Hr Hc Hf Ho Hk Hi]. destruct (regular_agree V1 V2 ip1 Ha Hr) as [Hr2 Hc2].
  assert (i_inum ip1 = i_inum ip) as Hin by (rewrite Hf; by destruct ip).
  assert (V2 (dev, IBLOCK (i_inum ip) sb0) = V1 (dev, IBLOCK (i_inum ip) sb0)) as Hib.
  { rewrite <- Hin. apply (iblock_agree V1); [done|]. apply Hr. }
  split; [done|by rewrite Hc2|done| | |].
  - intros k Hk1 Hk2 Hk3. rewrite Ha by done. by apply Ho.
  - intros k Hk1. apply (other_agree V1); [done|apply Hr|by apply Hk].
  - intros o ip0 Ho'. rewrite Hib. by apply Hi.
Qed.

End spec.

(** ** The theorems *)

(** [balloc] has taken block [b]. *)
Record allocated (dev : Z) (sb0 : superblock) (V : Z * Z -> list Z) (b : Z) (V' : Z * Z -> list Z) : Prop := {
  al_range : datastart sb0 <= b < sb_size sb0;
  al_free : bit dev sb0 V b = false;
  al_first c : 0 <= c < b -> bit dev sb0 V c = true;
  al_zero : V' (dev, b) = zero_block;
  al_bits c : 0 <= c < sb_size sb0 -> bit dev sb0 V' c = (c =? b) || bit dev sb0 V c;
  al_others k : k <> (dev, b) -> k <> (dev, BBLOCK b sb0) -> V' k = V k
}.

(** C6: allocation of disk blocks.  Inside a transaction [balloc] returns the first
    block that the bitmap has as free, a data block, marks it and fills it with zeroes,
    and changes no other mark and no other block; if there is no free block it panics.
    [bfree] of that block clears exactly its mark again, and a second [bfree] panics. *)
Theorem balloc_bfree `{DD : DiskDriver} dev start size_ sb0 H bs V s :
  geometry dev start size_ -> fs_layout dev start size_ sb0 -> fsys dev start size_ sb0 H bs V s ->
  (size H <= 1)%nat -> Z.of_nat (length bs) + 4 < size_ ->
  (forall b, 0 <= b < sb_size sb0 -> bit dev sb0 V b = true) /\ balloc dev s = Panic "balloc: out of blocks" \/
  wp (balloc dev) (fun b s' => exists bs' V', allocated dev sb0 V b V' /\ fsys dev start size_ sb0 H bs' V' s' /\
    wp (bfree dev b) (fun _ s'' => exists bs'' V'', fsys dev start size_ sb0 H bs'' V'' s'' /\
      (forall c, 0 <= c < sb_size sb0 -> bit dev sb0 V'' c = bit dev sb0 V c) /\
      bfree dev b s'' = Panic "freeing free block") s') s.
Proof.
  intros G L Hfs Hsz Hlt. pose proof (balloc_spec dev start size_ G sb0 L H bs V s Hfs Hsz ltac:(lia)) as Hb.
  pose proof (fun k => tx_block _ _ _ _ _ _ _ k (fx_tx _ _ _ _ _ _ _ _ Hfs)) as Hok.
  destruct (first_free dev sb0 V) as [b|] eqn:E; [right|left; split; [intros b; by apply first_free_all|done]].
  destruct (first_free_data dev sb0 V b (fx_meta _ _ _ _ _ _ _ _ Hfs) E) as [Hbd Hbf].
  pose proof (datastart_pos dev start size_ G sb0 L). pose proof (first_free_spec _ _ _ _ E) as (Hb0 & _ & Hfirst).
  eapply wp_mono; [exact Hb|]. intros r s1 (-> & Hfs1 & Hs1). exists (after_alloc sb0 bs b), (alloc_view dev sb0 V b).
  assert (forall c, 0 <= c < sb_size sb0 -> bit dev sb0 (alloc_view dev sb0 V b) c = if decide (c = b) then true else bit dev sb0 V c) as Hbits.
  { intros c Hc. by apply (bit_alloc dev start size_ G sb0 L). }
  split; [|split; [done|]].
  - split; try done; [by unfold alloc_view; rewrite fn_lookup_insert| |].
    + intros c Hc. rewrite Hbits by done. case_decide; [subst; by rewrite Z.eqb_refl|]. by rewrite (proj2 (Z.eqb_neq _ _)).
    + intros k Hk1 Hk2. by apply alloc_view_ne.
  - assert (H !! (dev, b) = None) as Hnb by exact (not_held_free _ _ _ _ _ _ _ _ _ Hfs Hbf).
    pose proof (length_after_alloc sb0 bs b) as Hla.
    pose proof (fun H => bfree_spec dev start size_ G sb0 L H) as Hfree.
    pose proof (Hfree H _ _ s1 b Hfs1 Hsz ltac:(lia) Hbd Hnb) as Hfr. rewrite Hbits, decide_True in Hfr by done.
    eapply wp_mono; [exact Hfr|]. intros [] s2 [Hfs2 Hs2]. eexists _, _. split; [exact Hfs2|].
    assert (forall c, 0 <= c < sb_size sb0 -> bit dev sb0 (free_view dev sb0 (alloc_view dev sb0 V b) b) c = bit dev sb0 V c) as Hbits2.
    { intros c Hc. rewrite (bit_free dev start size_ G sb0 L), Hbits by
        (done || apply (tx_block _ _ _ _ _ _ _ _ (fx_tx _ _ _ _ _ _ _ _ Hfs1))). by case_decide; subst. }
    split; [done|]. pose proof (length_absorbed (after_alloc sb0 bs b) (BBLOCK b sb0)).
    pose proof (Hfree H _ _ s2 b Hfs2 Hsz ltac:(lia) Hbd Hnb) as Hfr2. rewrite Hbits2, Hbf in Hfr2 by done. done.
Qed.

(** C5: writing a file.  Inside a transaction, [writei] of [src] at [off] refuses a
    write past the end of the file or past the largest file and changes nothing.
    Otherwise, with room in the log and enough free blocks, it returns the number of
    bytes; the contents of the file are the old ones with [src] at [off]; the inode on
    the disk is the one in memory; no block of another file changes and no other inode
    of the inode block. *)
Theorem writei_writes `{DD : DiskDriver} `{Devices} dev start size_ sb0 i bs V s ip src off :
  geometry dev start size_ -> fs_layout dev start size_ sb0 -> fsys dev start size_ sb0 ∅ bs V s ->
  icache s !! i = Some ip -> regular dev sb0 V ip -> Forall is_byte src -> 0 <= off < 2 ^ 32 ->
  let n := Z.of_nat (length src) in
  n < 2 ^ 31 ->
  Z.of_nat (length bs) + wcost off n + 3 < size_ -> Z.of_nat (need ip) + wblocks off n <= Z.of_nat (nfree dev sb0 V) ->
  if (i_size ip <? off) || (MAXFILE * BSIZE <? off + n) then writei i src off s = Ret (-1) s
  else wp (writei i src off) (fun r s' => r = n /\ exists bs' V' ip',
    rewritten dev start size_ sb0 V ip V' ip' off src /\ fsys dev start size_ sb0 ∅ bs' V' s' /\
    icache s' !! i = Some ip' /\ disk s' = disk s) s.
Proof.
  intros G L Hfs Hi Hr Hby Ho n Hn Hroom Hfree.
  pose proof (writei_spec dev start size_ G sb0 L i bs V s ip src off Hfs Hi Hr Hby Ho Hn) as Hw.
  destruct ((i_size ip <? off) || (MAXFILE * BSIZE <? off + Z.of_nat (length src))) eqn:E; fold n in E; rewrite E; [done|].
  eapply wp_mono; [by apply Hw|]. intros r s' (-> & bs' & V' & ip' & Hrw & Hfs' & Hs' & _). split; [done|].
  exists bs', V', ip'. split_and!; [done|done|by apply (istep_inode i ip ip' s)|]. by destruct (fstep_same _ _ Hs') as (_ & _ & _ & _ & _ & ? & _).
Qed.

(** ** A file system with one empty file *)

Definition small_sb : superblock := mkSb 1000 941 200 30 2 32 58.
Definition empty_file : inode := mkInode 1 1 1 (mkSleeplock false 0) true T_FILE 0 0 1 0 (replicate 13 0).
Definition small_bitmap : list Z := replicate 7 255 ++ [7] ++ replicate 504 0.
Definition small_disk : gmap (Z * Z) (list Z) :=
  {[(1, 1) := demo_sb; (1, 58) := small_bitmap; (1, 32) := put_dinode 64 empty_file zero_block]}.
Definition small_view : Z * Z -> list Z := on_block small_disk.

Lemma small_block k :
  on_block small_disk k = if decide (k = (1, 1)) then demo_sb else if decide (k = (1, 58)) then small_bitmap
    else if decide (k = (1, 32)) then put_dinode 64 empty_file zero_block else zero_block.
Proof.
  unfold on_block, small_disk, disk_get. rewrite <- surjective_pairing.
  repeat case_decide; subst; [by simplify_map_eq..|]. by rewrite !lookup_insert_ne, lookup_singleton_ne by done.
Qed.

Lemma small_good : good (DD := memide_driver 512000) 1 2 30 small_disk.
Proof.
  assert (block_ok zero_block) as Hz by apply zero_block_ok.
  assert (block_ok demo_sb) as Hs by (split; [done|]; by apply (bool_decide_unpack _)).
  assert (block_ok small_bitmap) as Hm by (split; [done|]; by apply (bool_decide_unpack _)).
  assert (block_ok (put_dinode 64 empty_file zero_block)) as Hi by (by apply block_ok_put_dinode; [lia|]).
  split; [done|done| |].
  - exists []. split; [by apply nil_loggable|]. split; [done|done|done].
  - intros k. rewrite small_block. by repeat case_decide.
Qed.

Lemma small_layout : fs_layout (DD := memide_driver 512000) 1 2 30 small_sb.
Proof.
  split; [simpl; lia..|vm_compute; done|vm_compute; done|]. intros b Hb. split; [done|].
  change (u32 (disksize 512000)) with 1000. change (sb_size small_sb) with 1000 in Hb. lia.
Qed.

Lemma small_loc V p : loc 1 V empty_file p = 0.
Proof.
  unfold loc, ind. destruct (Nat.ltb_spec p 13); [|done]. unfold empty_file. cbn [i_addrs].
  by rewrite lookup_replicate_2.
Qed.

Lemma small_regular : regular 1 small_sb small_view empty_file.
Proof.
  split; try done.
  - split; [done|done| |]; intros p; [|intros q]; rewrite small_loc; done.
  - unfold inode_ok. apply (bool_decide_unpack _). by vm_compute.
  - intros bn Hb Hlt. simpl in Hlt. lia.
Qed.

Lemma small_bits : meta_used 1 small_sb small_view /\ nfree 1 small_sb small_view = 941%nat.
Proof.
  split; [|by vm_compute]. intros b Hb. change (datastart small_sb) with 59 in Hb.
  assert (Forall (fun b => bit 1 small_sb small_view (Z.of_nat b) = true) (seq 0 59)) as Hall.
  { apply (bool_decide_unpack _). by vm_compute. }
  rewrite Forall_forall in Hall. specialize (Hall (Z.to_nat b)). rewrite elem_of_seq, Z2Nat.id in Hall by lia. apply Hall. lia.
Qed.

Definition no_devices : Devices := {| dev_read := fun _ => None; dev_write := fun _ => None |}.

(** The machine about to boot from it, with the file open. *)
Definition small_machine : kstate :=
  set_sb small_sb (set_icache [empty_file] (set_ftable [mkFile FD_INODE 1 true true 0 0 0] (fresh small_disk))).

Lemma small_boots : exists s V ws,
  quiet (DD := memide_driver 512000) 1 2 30 V s /\ agree 1 2 30 small_view V /\ lstep ws small_machine s.
Proof.
  pose proof demo_geometry as []. assert (booted small_disk small_machine) as Hb by (by split).
  destruct (wp_inv _ _ _ (boot_recovers (DD := memide_driver 512000) 1 2 30 geo_dev geo_start ltac:(lia) geo_end geo_log geo_sb
    small_disk small_machine small_good Hb)) as ([] & s & _ & Hd & Hh & [Ho Hc] & V & ws & HV & Hca & Hs & Hg & He & _).
  exists s, V, ws. split; [|split; [|done]]. { split; try done; by rewrite ?Hc, ?Ho. }
  intros k Hk. rewrite HV by done. apply logical_nil. split; [apply small_good|done|done].
Qed.

Lemma small_bit V c : agree 1 2 30 small_view V -> 0 <= c < 1000 -> bit 1 small_sb V c = bit 1 small_sb small_view c.
Proof. by apply (bit_agree (DD := memide_driver 512000) 1 2 30 demo_geometry small_sb small_layout small_view V). Qed.

Lemma small_transaction : exists s V,
  fsys (DD := memide_driver 512000) 1 2 30 small_sb ∅ [] V s /\ agree 1 2 30 small_view V /\ icache s !! 0%nat = Some empty_file.
Proof.
  destruct small_boots as (s & V & ws & Hq & Ha & Hs). destruct (begin_tx (DD := memide_driver 512000) 1 2 30 demo_geometry V s Hq) as [_ Ht].
  destruct (bstep_same _ _ _ Hs) as (_ & _ & _ & _ & Hsb & Hic & _ & _).
  exists (in_op s), V. split_and!; [|done|by cbn; rewrite Hic]. split; [done|by cbn; rewrite Hsb|done| |by intros b [x Hx]].
  intros b Hb. rewrite small_bit; [by apply small_bits|done|]. change (datastart small_sb) with 59 in Hb. simpl. lia.
Qed.

Lemma balloc_bfree_witness : exists s V s',
  balloc (H := memide_driver 512000) 1 s = Ret 59 s' /\ bit 1 small_sb V 59 = true /\ V (1, 59) = zero_block.
Proof.
  destruct small_transaction as (s & V & Hfs & Ha & _).
  destruct (balloc_bfree (DD := memide_driver 512000) 1 2 30 small_sb ∅ [] V s demo_geometry small_layout Hfs
    ltac:(rewrite map_size_empty; lia) ltac:(simpl; lia)) as [[Hall _]|Hw].
  - specialize (Hall 59 ltac:(simpl; lia)). rewrite small_bit in Hall by (done || lia). by vm_compute in Hall.
  - apply wp_inv in Hw as (b & s' & Hr & bs' & V' & Hal & _).
    assert (b = 59) as ->.
    { destruct Hal as [Hr1 Hf Hfirst _ _ _]. change (datastart small_sb) with 59 in Hr1. destruct (decide (59 < b)); [|lia].
      specialize (Hfirst 59 ltac:(lia)). rewrite small_bit in Hfirst by (done || lia). by vm_compute in Hfirst. }
    exists s, V', s'. split; [done|]. destruct Hal as [_ _ _ Hz Hb _]. split; [|done]. rewrite Hb by (simpl; lia). done.
Defined.

Lemma writei_writes_witness : exists s s' V',
  writei (H := memide_driver 512000) (H0 := no_devices) 0 [104; 105] 0 s = Ret 2 s' /\
  exists ip', contents 1 V' ip' = [104; 105] /\ icache s' !! 0%nat = Some ip'.
Proof.
  destruct small_transaction as (s & V & Hfs & Ha & Hi).
  destruct (regular_agree (DD := memide_driver 512000) 1 2 30 demo_geometry small_sb small_layout small_view V empty_file Ha small_regular) as [Hr Hc].
  assert (nfree 1 small_sb V = 941%nat) as Hn.
  { rewrite <- (proj2 small_bits). apply nfree_same. intros c Hcc. by apply small_bit. }
  destruct (wp_inv _ _ _ (writei_writes (DD := memide_driver 512000) (H := no_devices)
    1 2 30 small_sb 0 [] V s empty_file [104; 105] 0 demo_geometry small_layout Hfs Hi Hr
    ltac:(apply (bool_decide_unpack _); by vm_compute) ltac:(lia) ltac:(simpl; lia) ltac:(by vm_compute) ltac:(rewrite Hn; by vm_compute)))
    as (r & s' & Hw & -> & bs' & V' & ip' & Hrw & _ & Hi' & _).
  exists s, s', V'. split; [exact Hw|]. exists ip'. split; [|done]. rewrite (rw_contents _ _ _ _ _ _ _ _ _ _ Hrw), Hc. by vm_compute.
Defined.
