(* ===== verification/DirSpec.v ===== *)
(** * DirSpec: directories

    A directory is a file of 16-byte entries.  [dirlookup] finds the first entry in use with
    the name; [dirlink] stores an entry in the first free place, so that the name is found
    and no other name is affected. *)

From stdpp Require Import functions base gmap list strings.
From Stdlib Require Import ZArith Lia.
From S2P Require Import Prelude State Core Bio Memide Cache Log LogSpec Fs FsLayout FsTx FsCommit FsAlloc FsFile FsIo FsSpec.

Local Open Scope Z_scope.
Local Open Scope kernel_scope.

(** ** Names *)

Definition cname (name : list Z) : Prop := Forall (fun b => 0 < b < 256) name.

Lemma take_pad n m (q : list Z) : (n <= m)%nat -> take n (q ++ replicate m 0) = take n (q ++ replicate n 0).
Proof. intros Hn. replace m with (n + (m - n))%nat by lia. rewrite replicate_add, app_assoc. rewrite take_app_le; [done|]. rewrite length_app, length_replicate. lia. Qed.

Lemma strncmp_padded n p q : cname p -> cname q -> strncmp n p (strncpy n q) = 0 <-> take n p = take n q.
Proof.
  unfold strncpy. revert p q. induction n as [|n IH]; intros p q Hp Hq; [done|].
  destruct Hq as [|y q Hy Hq]; destruct Hp as [|x p Hx Hp]; cbn [strncmp app replicate take head default from_option tail id].
  - done.
  - rewrite (proj2 (Z.eqb_neq x 0)) by lia. cbn [negb andb]. split; [lia|done].
  - cbn [Z.eqb negb andb]. split; [lia|done].
  - rewrite (proj2 (Z.eqb_neq x 0)) by lia. cbn [negb andb]. destruct (Z.eqb_spec x y) as [->|Hne].
    + change (0 :: replicate n 0) with (replicate (S n) 0). rewrite take_pad by lia. rewrite IH by done. split; [by intros ->|by intros [= ->]].
    + split; [lia|]. intros [= ->]. done.
Qed.

Lemma length_strncpy n q : length (strncpy n q) = n.
Proof. unfold strncpy. rewrite length_take, length_app, length_replicate. lia. Qed.

(** ** Entries *)

Definition entries (c : list Z) : list (list Z) := (fun k => sub (16 * k) 16 c) <$> seq 0 (length c / 16).
Definition named (name e : list Z) : Prop := de_inum e <> 0 /\ namecmp name (de_name e) = 0.
#[global] Instance named_dec name e : Decision (named name e).
Proof. unfold named. apply _. Defined.
(** The index and the entry of a name. *)
Definition dir_find (name c : list Z) : option (nat * list Z) := list_find (named name) (entries c).
Definition dir_inum (name c : list Z) : option Z := de_inum ∘ snd <$> dir_find name c.
(** The first free place. *)
Definition dir_free (c : list Z) : nat := from_option fst (length (entries c)) (list_find (fun e => de_inum e = 0) (entries c)).

Definition entry (name : list Z) (inum : Z) : list Z := le_bytes 2 (u16 inum) ++ strncpy 14 name.

Lemma length_entry name inum : length (entry name inum) = 16%nat.
Proof. unfold entry. by rewrite length_app, length_le_bytes, length_strncpy. Qed.

Lemma entry_bytes name inum : cname name -> Forall is_byte (entry name inum).
Proof.
  intros Hn. unfold entry, strncpy. apply Forall_app. split; [apply le_bytes_byte|]. apply Forall_take, Forall_app. split.
  - eapply Forall_impl; [done|]. unfold is_byte. cbv beta. lia.
  - by apply Forall_replicate.
Qed.

Lemma entry_fields name inum : 0 <= inum < 65536 -> de_inum (entry name inum) = inum /\ de_name (entry name inum) = strncpy 14 name.
Proof.
  intros Hi. unfold de_inum, de_name, entry, rd, sub. split.
  - rewrite drop_0, take_app_length'; [|by rewrite length_le_bytes]. unfold u16. rewrite Z.mod_small by done. by apply le_val_bytes.
  - rewrite drop_app_length' by (by rewrite length_le_bytes). apply take_ge. by rewrite length_strncpy.
Qed.

Lemma entry_named name name' inum : cname name -> cname name' -> 0 < inum < 65536 -> named name' (entry name inum) <-> take 14 name' = take 14 name.
Proof.
  intros Hn Hn' Hi. unfold named, namecmp. destruct (entry_fields name inum ltac:(lia)) as [-> ->]. rewrite strncmp_padded by done. split; [tauto|]. split; [lia|done].
Qed.

Lemma length_entries c : length (entries c) = (length c / 16)%nat.
Proof. unfold entries. by rewrite length_fmap, length_seq. Qed.

Lemma lookup_entries c k : (k < length c / 16)%nat -> entries c !! k = Some (sub (16 * k) 16 c).
Proof. intros Hk. unfold entries. rewrite list_lookup_fmap, lookup_seq_lt by done. done. Qed.

Lemma sub_splice_at {A} o (e c : list A) : (o <= length c)%nat -> sub o (length e) (splice o e c) = e.
Proof. intros Ho. unfold sub, splice. rewrite drop_app_length' by (rewrite length_take; lia). by rewrite take_app_length. Qed.

Lemma sub_splice_away {A} o (e c : list A) o' n : (o <= length c)%nat -> (o' + n <= o \/ o + length e <= o')%nat ->
  sub o' n (splice o e c) = sub o' n c.
Proof.
  intros Ho Hd. apply list_eq. intros i. destruct (decide (i < n)%nat).
  - rewrite !lookup_sub by lia. apply lookup_splice_out; lia.
  - unfold sub. by rewrite !lookup_take_ge by lia.
Qed.

Lemma entries_splice c k e : length e = 16%nat -> (length c mod 16 = 0)%nat -> (k <= length c / 16)%nat ->
  entries (splice (16 * k) e c) = if decide (k < length c / 16)%nat then <[k := e]> (entries c) else entries c ++ [e].
Proof.
  intros He Hm Hk. pose proof (Nat.div_mod_eq (length c) 16) as Hd. set (N := (length c / 16)%nat) in *.
  assert (length (splice (16 * k) e c) = 16 * (if decide (k < N)%nat then N else S N))%nat as Hl.
  { unfold splice. rewrite !length_app, length_take, length_drop, He. case_decide; lia. }
  assert (length (entries (splice (16 * k) e c)) = if decide (k < N)%nat then N else S N) as Hle.
  { rewrite length_entries, Hl, Nat.mul_comm, Nat.div_mul by lia. done. }
  apply list_eq. intros j. destruct (decide (j < if decide (k < N)%nat then N else S N)%nat) as [Hj|Hj].
  - rewrite lookup_entries by (rewrite <- length_entries, Hle; done). destruct (decide (j = k)) as [->|Hne].
    + replace (sub (16 * k) 16 (splice (16 * k) e c)) with e by (rewrite <- (sub_splice_at (16 * k) e c) at 1 by lia; by rewrite He). case_decide; [rewrite list_lookup_insert_eq; [done|rewrite length_entries; lia]|].
      rewrite lookup_app_r by (rewrite length_entries; lia). rewrite length_entries. fold N. by replace (k - N)%nat with 0%nat by lia.
    + assert (j < N)%nat by (case_decide; lia). rewrite sub_splice_away by lia. 
      case_decide; [rewrite list_lookup_insert_ne by done|rewrite lookup_app_l by (rewrite length_entries; lia)]; by rewrite lookup_entries.
  - rewrite !lookup_ge_None_2; [done| |by rewrite Hle; lia]. case_decide; [rewrite length_insert|rewrite length_app]; rewrite length_entries; cbn [length]; fold N; lia.
Qed.

(** Replacing an entry that was not it by one that is not it keeps what is found. *)
Lemma list_find_alter {A} (P : A -> Prop) `{forall x, Decision (P x)} (l : list A) k x :
  ~ P x -> (forall y, l !! k = Some y -> ~ P y) -> list_find P (<[k := x]> l) = list_find P l.
Proof.
  intros Hx. revert k. induction l as [|y l IH]; intros k Hk; [done|]. destruct k as [|k]; cbn.
  - by rewrite !decide_False by (by apply (Hk y) || done).
  - case_decide; [done|]. by rewrite <- (IH k).
Qed.

Lemma list_find_snoc {A} (P : A -> Prop) `{forall x, Decision (P x)} (l : list A) x :
  ~ P x -> list_find P (l ++ [x]) = list_find P l.
Proof. intros Hx. induction l as [|y l IH]; cbn; [by rewrite decide_False|]. case_decide; [done|]. by rewrite IH. Qed.

Lemma list_find_here {A} (P : A -> Prop) `{forall x, Decision (P x)} (l : list A) k x :
  P x -> list_find P l = None -> (k < length l)%nat -> list_find P (<[k := x]> l) = Some (k, x).
Proof.
  intros Hx Hn Hk. rewrite list_find_None, Forall_lookup in Hn. apply list_find_Some. split_and!; [by apply list_lookup_insert_eq|done|].
  intros j y Hj Hlt. rewrite list_lookup_insert_ne in Hj by lia. by eapply Hn.
Qed.

Lemma list_find_end {A} (P : A -> Prop) `{forall x, Decision (P x)} (l : list A) x :
  P x -> list_find P l = None -> list_find P (l ++ [x]) = Some (length l, x).
Proof.
  intros Hx Hn. rewrite list_find_None, Forall_lookup in Hn. apply list_find_Some. split_and!; [by rewrite list_lookup_middle|done|].
  intros j y Hj Hlt. rewrite lookup_app_l in Hj by done. by eapply Hn.
Qed.

(** The place [dirlink] takes is free or the end. *)
Lemma dir_free_place c : (dir_free c <= length c / 16)%nat /\ forall e, entries c !! dir_free c = Some e -> de_inum e = 0.
Proof.
  rewrite <- length_entries. unfold dir_free. destruct (list_find _ (entries c)) as [[k e]|] eqn:E; cbn [from_option fst].
  - apply list_find_Some in E as (Hk & He & _). split; [apply lookup_lt_Some in Hk; lia|]. by intros e' [= <-]%(eq_trans (eq_sym Hk)).
  - split; [done|]. intros e He%lookup_lt_Some. lia.
Qed.

(** Storing an entry there adds its name and changes no other. *)
Lemma dir_find_added c name inum : (length c mod 16 = 0)%nat -> cname name -> 0 < inum < 65536 -> dir_find name c = None ->
  let c' := splice (16 * dir_free c) (entry name inum) c in
  dir_find name c' = Some (dir_free c, entry name inum) /\
  forall name', cname name' -> take 14 name' <> take 14 name -> dir_find name' c' = dir_find name' c.
Proof.
  intros Hm Hn Hi Hnone c'. destruct (dir_free_place c) as [Hk Hfree]. unfold dir_find, c'. rewrite entries_splice by (done || apply length_entry).
  assert (named name (entry name inum)) as Hnm by (by apply entry_named).
  assert (forall name', cname name' -> take 14 name' <> take 14 name -> ~ named name' (entry name inum)) as Hno.
  { intros name' Hn' Hne ?%entry_named; done. }
  case_decide.
  - split; [apply list_find_here; [done|done|by rewrite length_entries]|]. intros name' Hn' Hne. apply list_find_alter; [by apply Hno|].
    intros e He [? _]. by apply Hfree in He.
  - split; [|intros name' Hn' Hne; by apply list_find_snoc, Hno]. rewrite list_find_end by done. rewrite length_entries. do 2 f_equal. lia.
Qed.

(** ** Reading *)

(** What [iget] does to the inode cache: a reference to the cached copy, or to a slot no one
    refers to. *)
Definition igot (dev inum : Z) (ic ic' : list inode) (i : nat) : Prop :=
  exists ip, ic !! i = Some ip /\
    ((0 < i_ref ip /\ i_dev ip = dev /\ i_inum ip = inum /\ ic' = <[i := set_i_ref (i_ref ip + 1) ip]> ic) \/
     (i_ref ip = 0 /\ ic' = <[i := set_i_valid false (set_i_ref 1 (set_i_inum inum (set_i_dev dev ip)))]> ic /\
      forall j jp, (j < NINODE)%nat -> ic !! j = Some jp -> ~ (0 < i_ref jp /\ i_dev jp = dev /\ i_inum jp = inum))).

(** A slot of the inode cache can be had. *)
Definition iroom (dev inum : Z) (ic : list inode) : Prop :=
  exists j jp, (j < NINODE)%nat /\ ic !! j = Some jp /\ (i_ref jp = 0 \/ 0 < i_ref jp /\ i_dev jp = dev /\ i_inum jp = inum).

Lemma list_find_take {A} (P : A -> Prop) `{forall x, Decision (P x)} n (l : list A) i x :
  list_find P (take n l) = Some (i, x) -> (i < n)%nat /\ l !! i = Some x /\ P x.
Proof. intros (Hi & HP & _)%list_find_Some. apply lookup_take_Some in Hi as [? ?]. done. Qed.

Lemma list_find_take_none {A} (P : A -> Prop) `{forall x, Decision (P x)} n (l : list A) :
  list_find P (take n l) = None -> forall i x, (i < n)%nat -> l !! i = Some x -> ~ P x.
Proof. rewrite list_find_None, Forall_lookup. intros Ha i x Hi Hx. apply (Ha i). by rewrite lookup_take_lt. Qed.

Lemma alter_insert {A} (f : A -> A) i (l : list A) x : l !! i = Some x -> alter f i l = <[i := f x]> l.
Proof.
  intros Hi. apply list_eq. intros m. destruct (decide (m = i)) as [->|].
  - rewrite list_lookup_alter_eq, Hi, list_lookup_insert_eq by (by eapply lookup_lt_Some). done.
  - by rewrite list_lookup_alter_ne, list_lookup_insert_ne by done.
Qed.

Lemma iget_spec dev inum s : held s = [] -> iroom dev inum (icache s) ->
  wp (iget dev inum) (fun i s' => igot dev inum (icache s) (icache s') i /\ s' = set_icache (icache s') s) s.
Proof.
  intros Hh (j & jp & Hj & Hjp & Hc). unfold iget. eapply wp_step; [apply acquire_eq; rewrite Hh; set_solver|]. eapply wp_step; [reflexivity|].
  change (icache (set_held _ s)) with (icache s). destruct (list_find _ (take NINODE (icache s))) as [[i ip]|] eqn:E.
  - apply list_find_take in E as (_ & Hi & Hr & Hd & Hn). eapply wp_step; [reflexivity|]. eapply wp_step; [apply (release_top _ (held s)); [done|rewrite Hh; set_solver]|].
    apply wp_ret. split; [|by destruct s]. exists ip. split; [done|]. left. split_and!; [done..|]. by apply alter_insert.
  - pose proof (list_find_take_none _ _ _ E) as Hno. destruct (list_find (fun ip => i_ref ip = 0) _) as [[i ip]|] eqn:E2.
    2:{ exfalso. destruct Hc as [Hc|Hc]; [by eapply (list_find_take_none _ _ _ E2)|by eapply Hno]. }
    apply list_find_take in E2 as (_ & Hi & Hr). eapply wp_step; [reflexivity|]. eapply wp_step; [apply (release_top _ (held s)); [done|rewrite Hh; set_solver]|].
    apply wp_ret. split; [|by destruct s]. exists ip. split; [done|]. right. split_and!; [done| |done].
    exact (alter_insert (fun ip => set_i_valid false (set_i_ref 1 (set_i_inum inum (set_i_dev dev ip)))) i _ ip Hi).
Qed.

Section dirs.
Context `{DD : DiskDriver} `{Devices} (dev start size_ : Z) (G : geometry dev start size_) (sb0 : superblock)
  (L : fs_layout dev start size_ sb0).
Notation tx := (tx dev start size_).
Notation contents := (contents dev).

(** An open directory, of whole entries. *)
Record is_dir V ip : Prop := {
  d_regular : regular dev sb0 V ip;
  d_type : i_type ip = T_DIR;
  d_whole : i_size ip mod 16 = 0
}.

Lemma dir_length V ip : is_dir V ip -> Z.of_nat (length (contents V ip)) = i_size ip /\ (length (contents V ip) mod 16 = 0)%nat /\
  i_size ip = 16 * Z.of_nat (length (entries (contents V ip))) /\ i_size ip <= 71680.
Proof.
  intros [[_ (_ & _ & _ & _ & Hsz & _) _ _ Hm _ _] _ Hd]. rewrite length_entries. unfold FsIo.contents. rewrite length_bytes.
  change (MAXFILE * BSIZE) with 71680 in Hm. apply Z.div_exact in Hd; [|done]. rewrite <- (Z2Nat.id (i_size ip / 16)) in Hd by (apply Z.div_pos; lia).
  set (N := Z.to_nat (i_size ip / 16)) in Hd. replace (Z.to_nat (i_size ip)) with (N * 16)%nat by lia. rewrite Nat.Div0.mod_mul, Nat.div_mul by done. lia.
Qed.

Lemma read_entry dp bs V s ip j e :
  tx ∅ bs V s -> icache s !! dp = Some ip -> is_dir V ip -> entries (contents V ip) !! j = Some e ->
  wp (readi dp (16 * Z.of_nat j) 16) (fun r s' => r = (16, e) /\ tx ∅ bs V s' /\ fstep s s') s.
Proof.
  intros Ht Hi Hd He. destruct (dir_length _ _ Hd) as (Hl & _ & Hsz & Hm). pose proof (lookup_lt_Some _ _ _ He) as Hlt.
  pose proof (readi_spec dev start size_ G sb0 L dp bs V s ip (16 * Z.of_nat j) 16 Ht Hi (d_regular _ _ Hd) ltac:(lia) ltac:(lia)) as Hr.
  rewrite (proj2 (Z.ltb_ge _ _)), (proj2 (Z.leb_gt _ _)) in Hr by lia. cbn [orb] in Hr. cbv zeta in Hr. rewrite Z.min_l in Hr by lia.
  eapply wp_mono; [exact Hr|]. intros r s' (-> & ? & ?%fstep_bstep). split; [|done]. f_equal.
  rewrite lookup_entries in He by (by rewrite <- length_entries). injection He as <-. f_equal; lia.
Qed.

Lemma dirlink_loop_spec k dp bs V s ip j :
  tx ∅ bs V s -> icache s !! dp = Some ip -> is_dir V ip -> (j <= length (entries (contents V ip)) < j + k)%nat ->
  wp (dirlink_loop k dp (16 * Z.of_nat j)) (fun r s' => tx ∅ bs V s' /\ fstep s s' /\
    r = 16 * Z.of_nat (j + from_option fst (length (entries (contents V ip)) - j)%nat
      (list_find (fun e => de_inum e = 0) (drop j (entries (contents V ip)))))) s.
Proof.
  set (es := entries (contents V ip)). revert j s. induction k as [|k IH]; intros j s Ht Hi Hd Hj; [lia|].
  destruct (dir_length _ _ Hd) as (_ & _ & Hsz & _). fold es in Hsz. cbn [dirlink_loop]. eapply wp_step; [reflexivity|]. rewrite (inode_at_lookup _ _ _ Hi).
  destruct (es !! j) as [e|] eqn:He.
  - pose proof (lookup_lt_Some _ _ _ He) as Hlt. rewrite (proj2 (Z.ltb_lt _ _)) by lia. cbn [negb].
    eapply wp_chain; [by apply (read_entry dp bs V s ip j e)|]. cbv beta. intros r s' (-> & Ht' & Hs'). cbn [Z.eqb Pos.eqb negb].
    rewrite (drop_S _ _ _ He). cbn [list_find]. destruct (Z.eqb_spec (de_inum e) 0) as [E|E].
    + apply wp_ret. split_and!; [done|done|]. rewrite decide_True by done. cbn [from_option fst]. lia.
    + replace (16 * Z.of_nat j + 16) with (16 * Z.of_nat (S j)) by lia. rewrite decide_False by done.
      destruct (fstep_same _ _ Hs') as (_ & _ & _ & _ & Hic & _). eapply wp_mono; [apply IH; [done|by rewrite Hic|done|lia]|].
      intros r s'' (Ht'' & Hs'' & ->). split_and!; [done|by etransitivity|]. destruct (list_find _ (drop (S j) es)) as [[]|]; cbn [fmap option_fmap option_map prod_map from_option fst]; lia.
  - apply lookup_ge_None in He. rewrite (proj2 (Z.ltb_ge _ _)) by lia. apply wp_ret. split_and!; [done|reflexivity|].
    rewrite drop_ge by done. cbn [list_find from_option]. lia.
Qed.

Lemma dirlookup_loop_spec k dp name bs V s ip j :
  tx ∅ bs V s -> icache s !! dp = Some ip -> is_dir V ip -> (j <= length (entries (contents V ip)) < j + k)%nat ->
  (forall m e, list_find (named name) (drop j (entries (contents V ip))) = Some (m, e) -> iroom dev (de_inum e) (icache s)) ->
  wp (dirlookup_loop k dp name (16 * Z.of_nat j)) (fun r s' => exists s1, tx ∅ bs V s1 /\ fstep s s1 /\
    match list_find (named name) (drop j (entries (contents V ip))) with
    | None => r = None /\ s' = s1
    | Some (m, e) => exists i, r = Some (i, 16 * Z.of_nat (j + m)) /\ igot dev (de_inum e) (icache s) (icache s') i /\ s' = set_icache (icache s') s1
    end) s.
Proof.
  set (es := entries (contents V ip)). revert j s. induction k as [|k IH]; intros j s Ht Hi Hd Hj Hroom; [lia|].
  destruct (dir_length _ _ Hd) as (_ & _ & Hsz & _). fold es in Hsz. cbn [dirlookup_loop]. eapply wp_step; [reflexivity|]. rewrite (inode_at_lookup _ _ _ Hi).
  destruct (es !! j) as [e|] eqn:He.
  - pose proof (lookup_lt_Some _ _ _ He) as Hlt. rewrite (proj2 (Z.ltb_lt _ _)) by lia. cbn [negb].
    eapply wp_chain; [by apply (read_entry dp bs V s ip j e)|]. cbv beta. intros r s' (-> & Ht' & Hs'). cbn [Z.eqb Pos.eqb negb].
    destruct (fstep_same _ _ Hs') as (_ & _ & _ & _ & Hic & _). rewrite (drop_S _ _ _ He) in *. cbn [list_find] in *.
    destruct (decide (named name e)) as [[Hn1 Hn2]|Hn].
    + rewrite (proj2 (Z.eqb_neq _ _)), (proj2 (Z.eqb_eq _ _)) by done. cbn [orb negb]. eapply wp_step; [reflexivity|].
      rewrite (inode_at_lookup s' dp ip) by (by rewrite Hic). rewrite (f_dev _ _ _ _ (r_file _ _ _ _ (d_regular _ _ Hd))).
      eapply wp_chain; [apply iget_spec; [apply (c_held _ _ _ _ (tx_cache _ _ _ _ _ _ _ Ht'))|rewrite Hic; by eapply Hroom]|].
      intros i s'' [Hg Hs'']. apply wp_ret. exists s'. split_and!; [done|done|]. exists i. rewrite Nat.add_0_r. by rewrite <- Hic.
    + assert ((de_inum e =? 0) || negb (namecmp name (de_name e) =? 0) = true) as ->.
      { destruct (Z.eqb_spec (de_inum e) 0), (Z.eqb_spec (namecmp name (de_name e)) 0); try done. by destruct Hn. }
      replace (16 * Z.of_nat j + 16) with (16 * Z.of_nat (S j)) by lia.
      eapply wp_mono; [apply (IH (S j) s'); [done|by rewrite Hic|done|lia|]|].
      { intros m e' Hf. rewrite Hic. apply (Hroom (S m)). by rewrite Hf. } cbv beta. rewrite Hic.
      intros r s'' (s1 & Ht1 & Hs1 & Hr). exists s1. split_and!; [done|by etransitivity|].
      destruct (list_find _ (drop (S j) es)) as [[m e']|]; cbn; [|done]. by rewrite <- Nat.add_succ_comm.
  - apply lookup_ge_None in He. rewrite (proj2 (Z.ltb_ge _ _)) by lia. apply wp_ret. exists s. split_and!; [done|reflexivity|]. by rewrite drop_ge.
Qed.

Lemma dirlookup_spec dp name bs V s ip :
  tx ∅ bs V s -> icache s !! dp = Some ip -> is_dir V ip ->
  (forall m e, dir_find name (contents V ip) = Some (m, e) -> iroom dev (de_inum e) (icache s)) ->
  wp (dirlookup dp name) (fun r s' => exists s1, tx ∅ bs V s1 /\ fstep s s1 /\
    match dir_find name (contents V ip) with
    | None => r = None /\ s' = s1
    | Some (m, e) => exists i, r = Some (i, 16 * Z.of_nat m) /\ igot dev (de_inum e) (icache s) (icache s') i /\ s' = set_icache (icache s') s1
    end) s.
Proof.
  intros Ht Hi Hd Hroom. destruct (dir_length _ _ Hd) as (_ & _ & Hsz & _). unfold dirlookup. eapply wp_step; [reflexivity|]. rewrite (inode_at_lookup _ _ _ Hi), (d_type _ _ Hd).
  rewrite Z.eqb_refl. cbn [negb]. eapply wp_step; [reflexivity|]. rewrite (inode_at_lookup _ _ _ Hi).
  apply (dirlookup_loop_spec _ dp name bs V s ip 0); try done. split; [lia|]. unfold dir_fuel. rewrite Hsz, Z.mul_comm, Z.div_mul; lia.
Qed.

Lemma rewritten_dir V ip V' ip' off e : is_dir V ip -> rewritten dev start size_ sb0 V ip V' ip' (16 * Z.of_nat off) e ->
  length e = 16%nat -> (off <= length (entries (contents V ip)))%nat -> is_dir V' ip'.
Proof.
  intros Hd [Hr Hc Hf _ _ _] He Ho. destruct (dir_length _ _ Hd) as (Hl & Hm & Hsz & _). pose proof Hr as [_ (_ & _ & _ & _ & Hsz' & _) _ _ _ _ _].
  split; [done|rewrite Hf; apply (d_type _ _ Hd)|]. apply (f_equal length) in Hc. unfold FsIo.contents at 1 in Hc. rewrite length_bytes in Hc.
  unfold splice in Hc. rewrite !length_app, length_take, length_drop, He in Hc.
  assert (i_size ip' = 16 * Z.max (Z.of_nat off + 1) (Z.of_nat (length (entries (contents V ip))))) as -> by lia.
  by rewrite Z.mul_comm, Z.mod_mul.
Qed.

Lemma dirlink_spec dp name inum bs V s ip :
  fsys dev start size_ sb0 ∅ bs V s -> icache s !! dp = Some ip -> is_dir V ip -> cname name -> 0 < inum < 65536 ->
  dir_find name (contents V ip) = None ->
  let off := 16 * Z.of_nat (dir_free (contents V ip)) in
  off + 16 <= MAXFILE * BSIZE -> Z.of_nat (length bs) + wcost off 16 + 3 < size_ ->
  Z.of_nat (need ip) + wblocks off 16 <= Z.of_nat (nfree dev sb0 V) ->
  wp (dirlink dp name inum) (fun r s' => r = 0 /\ exists bs' V' ip',
    rewritten dev start size_ sb0 V ip V' ip' off (entry name inum) /\ fsys dev start size_ sb0 ∅ bs' V' s' /\
    is_dir V' ip' /\ istep dp ip' s s') s.
Proof.
  intros Hfs Hi Hd Hn Hin Hnone off Hmax Hroom Hfree. pose proof Hfs as [Ht Hsb Hout Hmeta Hheld]. destruct (dir_length _ _ Hd) as (_ & _ & Hsz & Hm).
  destruct (dir_free_place (contents V ip)) as [Hplace _]. rewrite <- length_entries in Hplace.
  unfold dirlink. eapply wp_chain; [apply (dirlookup_spec dp name bs V s ip); try done; by rewrite Hnone|]. cbv beta. rewrite Hnone.
  intros r s1 (? & Ht1 & Hs1 & -> & <-). destruct (fstep_same _ _ Hs1) as (_ & _ & _ & _ & Hic & _).
  eapply wp_step; [reflexivity|]. rewrite (inode_at_lookup s1 dp ip) by (by rewrite Hic).
  eapply wp_chain; [apply (dirlink_loop_spec _ dp bs V s1 ip 0); [done|by rewrite Hic|done|]|].
  { split; [lia|]. unfold dir_fuel. rewrite Hsz, Z.mul_comm, Z.div_mul; lia. }
  cbv beta. rewrite drop_0, Nat.sub_0_r. intros r s2 (Ht2 & Hs2 & ->). change (0 + ?x)%nat with x. fold (dir_free (contents V ip)). fold off.
  destruct (fstep_same _ _ Hs2) as (_ & _ & _ & _ & Hic2 & _). assert (fstep s s2) as Hs02 by (by etransitivity).
  destruct (fstep_same _ _ Hs02) as (_ & _ & _ & Hsb2 & _ & _ & Hout2). fold (entry name inum).
  pose proof (writei_spec dev start size_ G sb0 L dp bs V s2 ip (entry name inum) off) as Hw. cbv zeta in Hw. rewrite length_entry in Hw.
  change (Z.of_nat 16) with 16 in Hw. rewrite (proj2 (Z.ltb_ge (i_size ip) off)), (proj2 (Z.ltb_ge _ (off + 16))) in Hw by lia. cbn [orb] in Hw.
  change (MAXFILE * BSIZE) with 71680 in Hmax. eapply wp_chain; [apply Hw; try done; try lia|].
  - split; try done; congruence.
  - congruence.
  - apply (d_regular _ _ Hd).
  - by apply entry_bytes.
  - intros r s' (-> & bs' & V' & ip' & Hrw & Hfs' & Hst & _). cbn [Z.eqb Pos.eqb]. apply wp_ret. split; [done|]. exists bs', V', ip'.
    split_and!; [done|done|by eapply rewritten_dir; [..|apply length_entry|]|]. by apply (istep_trans dp ip ip' s s2 s'); [apply istep_fstep|].
Qed.
End dirs.

(** C14: [dirlookup] on an open directory returns exactly when it should: no entry in use has
    the name (the first fourteen bytes count) and it returns 0 with nothing changed, or it
    returns the offset of the first such entry and an inode of the cache, referenced once
    more, that stands for the entry's inode number: the cached copy if there is one, otherwise
    a slot no one referred to.  Neither the blocks nor the disk change. *)
Theorem dirlookup_finds `{DD : DiskDriver} `{Devices} dev start size_ sb0 dp name bs V s ip :
  geometry dev start size_ -> fs_layout dev start size_ sb0 -> tx dev start size_ ∅ bs V s ->
  icache s !! dp = Some ip -> is_dir dev sb0 V ip ->
  match dir_find name (contents dev V ip) with
  | None => wp (dirlookup dp name) (fun r s' => r = None /\ tx dev start size_ ∅ bs V s' /\ fstep s s') s
  | Some (m, e) =>
      iroom dev (de_inum e) (icache s) ->
      wp (dirlookup dp name) (fun r s' => exists i, r = Some (i, 16 * Z.of_nat m) /\
        igot dev (de_inum e) (icache s) (icache s') i /\ tx dev start size_ ∅ bs V s' /\ disk s' = disk s) s
  end.
Proof.
  intros G L Ht Hi Hd. pose proof (dirlookup_spec dev start size_ G sb0 L dp name bs V s ip Ht Hi Hd) as Hw.
  destruct (dir_find name (contents dev V ip)) as [[m e]|].
  - intros Hroom. eapply wp_mono; [apply Hw; by intros ?? [= <- <-]|]. intros r s' (s1 & Ht1 & Hs1 & i & -> & Hg & ->). exists i.
    destruct (fstep_same _ _ Hs1) as (_ & _ & _ & _ & _ & Hdk & _). split_and!; [done|done|by apply tx_icache|done].
  - eapply wp_mono; [by apply Hw|]. by intros r s' (s1 & Ht1 & Hs1 & -> & ->).
Qed.

(** C7: [dirlink] of a name that is not in the directory, with room in the log, on the disk and
    in the file, returns 0; the directory is then its old contents with the entry stored at
    the first free place, the name is found there with the inode number, every other name is
    found exactly where it was or, as before, not at all, and no other file has changed. *)
Theorem dirlink_adds `{DD : DiskDriver} `{Devices} dev start size_ sb0 dp name inum bs V s ip :
  geometry dev start size_ -> fs_layout dev start size_ sb0 -> fsys dev start size_ sb0 ∅ bs V s ->
  icache s !! dp = Some ip -> is_dir dev sb0 V ip -> cname name -> 0 < inum < 65536 ->
  let c := contents dev V ip in
  let off := 16 * Z.of_nat (dir_free c) in
  dir_find name c = None -> off + 16 <= MAXFILE * BSIZE -> Z.of_nat (length bs) + wcost off 16 + 3 < size_ ->
  Z.of_nat (need ip) + wblocks off 16 <= Z.of_nat (nfree dev sb0 V) ->
  wp (dirlink dp name inum) (fun r s' => r = 0 /\ exists bs' V' ip',
    let c' := contents dev V' ip' in
    fsys dev start size_ sb0 ∅ bs' V' s' /\ icache s' !! dp = Some ip' /\ is_dir dev sb0 V' ip' /\
    rewritten dev start size_ sb0 V ip V' ip' off (entry name inum) /\
    dir_inum name c' = Some inum /\
    forall name', cname name' -> take 14 name' <> take 14 name -> dir_find name' c' = dir_find name' c) s.
Proof.
  intros G L Hfs Hi Hd Hn Hin c off Hnone Hmax Hroom Hfree.
  eapply wp_mono; [by apply (dirlink_spec dev start size_ G sb0 L dp name inum bs V s ip)|]. intros r s' (-> & bs' & V' & ip' & Hrw & Hfs' & Hd' & Hst).
  split; [done|]. exists bs', V', ip'. cbv zeta. rewrite (rw_contents _ _ _ _ _ _ _ _ _ _ Hrw). fold c off.
  replace (Z.to_nat off) with (16 * dir_free c)%nat by (unfold off; lia).
  destruct (dir_find_added c name inum) as [Hf Ho]; [apply (dir_length dev sb0 V ip Hd)|done..|].
  split_and!; [done|by eapply istep_inode|done|done| |exact Ho].
  unfold dir_inum. rewrite Hf. cbn. f_equal. apply entry_fields. lia.
Qed.

(** ** A directory with one entry *)

Definition empty_dir : inode := set_i_type T_DIR empty_file.

Lemma empty_dir_file V : file_ok 1 small_sb V empty_dir.
Proof.
  assert (forall p, loc 1 V empty_dir p = 0) as Hloc; [|split; [done|done| |]; intros p; [|intros q]; rewrite Hloc; done].
  intros p. unfold loc, ind. destruct (Nat.ltb_spec p 13); [|done]. unfold empty_dir. cbn [i_addrs set_i_type empty_file]. by rewrite lookup_replicate_2.
Qed.

Lemma empty_dir_regular V : block_ok (V (1, 32)) -> is_dir 1 small_sb (put_view 1 small_sb V empty_dir) empty_dir.
Proof.
  intros [Hb _].
  assert (inode_ok empty_dir) as Hok by (unfold inode_ok; apply (bool_decide_unpack _); by vm_compute).
  split; [split; try done|done|done].
  - apply empty_dir_file.
  - intros bn Hbn Hlt. cbn in Hlt. lia.
  - unfold put_view. change (IBLOCK (i_inum empty_dir) small_sb) with 32. rewrite fn_lookup_insert.
    rewrite (proj1 (get_put_dinode _ empty_dir empty_dir _ ltac:(rewrite Hb; apply dinode_at_le) Hok)). done.
Qed.

Lemma small_directory : exists s V bs,
  fsys (DD := memide_driver 512000) 1 2 30 small_sb ∅ bs V s /\ is_dir 1 small_sb V empty_dir /\ icache s !! 0%nat = Some empty_dir /\
  (length bs <= 1)%nat /\ nfree 1 small_sb V = 941%nat.
Proof.
  destruct small_transaction as (s & V & Hfs & Ha & Hi).
  assert (block_ok (V (1, 32))) as Hb by (eapply tx_block, Hfs). pose proof (empty_dir_regular V Hb) as Hd.
  destruct (wp_inv _ _ _ (iupdate_spec (DD := memide_driver 512000) 1 2 30 demo_geometry small_sb small_layout 0 [] V (set_icache [empty_dir] s) empty_dir
    ltac:(by apply fsys_icache) ltac:(done) ltac:(exact (empty_dir_file V)) ltac:(by vm_compute) ltac:(simpl; lia))) as (_ & s' & _ & Hfs' & Hs').
  destruct (fstep_same _ _ Hs') as (_ & _ & _ & _ & Hic & _). exists s', (put_view 1 small_sb V empty_dir). eexists. split_and!; [exact Hfs'|done|by rewrite Hic|by vm_compute|].
  rewrite <- (proj2 small_bits). apply nfree_same. intros c Hc. rewrite <- (small_bit V) by done.
  unfold bit, put_view. rewrite fn_lookup_insert_ne; [done|]. rewrite (proj1 (bblock_range (DD := memide_driver 512000) 1 2 30 demo_geometry small_sb small_layout c Hc)). change (sb_bmapstart small_sb) with 58.
  change (IBLOCK (i_inum empty_dir) small_sb) with 32. intros [= E].
  assert (0 <= c / BPB) by (apply Z.div_pos; [apply Hc|done]). lia.
Qed.

Lemma dirlink_adds_witness : exists s s' V' ip',
  dirlink (H := memide_driver 512000) (H0 := no_devices) 0 [46] 1 s = Ret 0 s' /\ icache s' !! 0%nat = Some ip' /\
  dir_inum [46] (contents 1 V' ip') = Some 1 /\ dir_find [46; 46] (contents 1 V' ip') = None.
Proof.
  destruct small_directory as (s & V & bs & Hfs & Hd & Hi & Hbs & Hn).
  destruct (wp_inv _ _ _ (dirlink_adds (DD := memide_driver 512000) (H := no_devices) 1 2 30 small_sb 0 [46] 1 bs V s empty_dir
    demo_geometry small_layout Hfs Hi Hd ltac:(by apply (bool_decide_unpack _)) ltac:(lia) ltac:(reflexivity) ltac:(by vm_compute)
    ltac:(change (Z.of_nat (length bs) + 2 + 3 < 30); lia) ltac:(rewrite Hn; by vm_compute)))
    as (r & s' & Hr & -> & bs' & V' & ip' & _ & Hi' & _ & _ & Hf & Ho).
  exists s, s', V', ip'. split_and!; [exact Hr|done|exact Hf|].
  rewrite Ho; [by vm_compute|by apply (bool_decide_unpack _)|done].
Defined.

Lemma dirlookup_finds_witness : exists s s' i,
  dirlookup (H := memide_driver 512000) (H0 := no_devices) 0 [46] s = Ret (Some (i, 0)) s' /\ igot 1 1 (icache s) (icache s') i.
Proof.
  destruct small_directory as (s & V & bs & Hfs & Hd & Hi & Hbs & Hn).
  destruct (wp_inv _ _ _ (dirlink_spec (DD := memide_driver 512000) (H := no_devices) 1 2 30 demo_geometry small_sb small_layout 0 [46] 1 bs V s empty_dir
    Hfs Hi Hd ltac:(by apply (bool_decide_unpack _)) ltac:(lia) ltac:(reflexivity) ltac:(by vm_compute)
    ltac:(change (Z.of_nat (length bs) + 2 + 3 < 30); lia) ltac:(rewrite Hn; by vm_compute)))
    as (r & s1 & _ & -> & bs' & V' & ip' & Hrw & Hfs' & Hd' & Hst).
  pose proof (istep_inode _ _ _ _ _ Hi Hst) as Hi'.
  pose proof (dirlookup_finds (DD := memide_driver 512000) (H := no_devices) 1 2 30 small_sb 0 [46] bs' V' s1 ip'
    demo_geometry small_layout (fx_tx _ _ _ _ _ _ _ _ Hfs') Hi' Hd') as Hw.
  rewrite (rw_contents _ _ _ _ _ _ _ _ _ _ Hrw) in Hw.
  replace (dir_find [46] _) with (Some (0%nat, entry [46] 1)) in Hw by (by vm_compute).
  destruct (wp_inv _ _ _ (Hw ltac:(exists 0%nat, ip'; rewrite (rw_fields _ _ _ _ _ _ _ _ _ _ Hrw) in *; split_and!; [unfold NINODE; lia|done|by right])))
    as (r & s' & Hr & i & -> & Hg & _).
  exists s1, s', i. split; [exact Hr|exact Hg].
Defined.
