(* ===== verification/FileSpec.v ===== *)
(** * FileSpec: open files across crashes

    [filewrite] and [fileread] on an open file of the disk, with the inode lock, the
    offset and the transactions: what they do, and what a crash in the middle of a
    write leaves. *)

From stdpp Require Import functions base gmap list strings.
From Stdlib Require Import ZArith Lia.
From S2P Require Import Prelude State Core Bio Memide Cache Log LogSpec Fs FsLayout FsTx FsCommit.
From S2P Require Import FsAlloc FsFile FsIo FsSpec File ConsoleRead.

Local Open Scope Z_scope.
Local Open Scope kernel_scope.

Lemma splice_app {A} o (xs ys l : list A) :
  (o <= length l)%nat -> splice (o + length xs) ys (splice o xs l) = splice o (xs ++ ys) l.
Proof.
  intros Ho. unfold splice. assert (length (take o l ++ xs) = o + length xs)%nat as Hl by (rewrite length_app, length_take; lia).
  rewrite (app_assoc (take o l) xs (drop _ _)), take_app_length' by done.
  rewrite <- (drop_drop _ (length ys)), drop_app_length' by done. rewrite length_app, Nat.add_assoc, <- !drop_drop. by rewrite <- !app_assoc.
Qed.

Lemma splice_nil {A} o (l : list A) : splice o [] l = l.
Proof. unfold splice. simpl. by rewrite Nat.add_0_r, take_drop. Qed.

Lemma wp_then {C S A} (m1 m2 m3 : M C S unit) (k : M C S A) P Q s :
  wp (m1 ;;; m2 ;;; m3) P s -> (forall s', P tt s' -> wp k Q s') -> wp (m1 ;;; m2 ;;; m3 ;;; k) Q s.
Proof.
  unfold wp, bind. intros Hm Hk. destruct (m1 s) as [[] s1| |]; try done. destruct (m2 s1) as [[] s2| |]; try done.
  destruct (m3 s2) as [[] s3| |]; try done. by apply Hk.
Qed.

Section filespec.
Context `{DD : DiskDriver} `{Devices} (dev start size_ : Z) (G : geometry dev start size_) (sb0 : superblock)
  (L : fs_layout dev start size_ sb0).
Implicit Types (V W : Z * Z -> list Z) (bs : list Z) (s : kstate) (ip : inode).

Notation in_log := (in_log dev start size_).
Notation agree := (agree dev start size_).
Notation loc := (loc dev).
Notation file_ok := (file_ok dev sb0).
Notation regular := (regular dev sb0).
Notation contents := (contents dev).
Notation rewritten := (rewritten dev start size_ sb0).
Notation quiet := (quiet dev start size_).

Lemma rewritten_nil V ip off : regular V ip -> rewritten V ip V ip off [].
Proof. intros Hr. split; try done; [by rewrite splice_nil|by destruct ip]. Qed.

Lemma rewritten_app V ip V1 ip1 V2 ip2 off xs ys :
  0 <= off <= i_size ip -> 0 <= i_size ip ->
  rewritten V ip V1 ip1 off xs -> rewritten V1 ip1 V2 ip2 (off + Z.of_nat (length xs)) ys -> rewritten V ip V2 ip2 off (xs ++ ys).
Proof.
  intros Ho Hs [R1 C1 F1 O1 K1 I1] [R2 C2 F2 O2 K2 I2].
  assert (i_inum ip1 = i_inum ip) as Hin by (rewrite F1; by destruct ip). rewrite Hin in *. split.
  - done.
  - rewrite C2, C1. rewrite <- splice_app by (rewrite length_file_bytes; lia). f_equal. lia.
  - rewrite F2 at 1. rewrite F1. by destruct ip.
  - intros k H1 H2 H3. rewrite O2, O1; auto.
  - auto.
  - intros o ip0 Hoo. rewrite I2, I1; auto.
Qed.

(** The lock of an inode is not part of its contents. *)
Lemma regular_lock V ip l : regular V ip -> regular V (set_i_lock l ip).
Proof.
  intros [[H1 H2 H3 H4] Hok Hty Hin Hsz Hde Hsy]. split; try done. change (set_i_lock l (get_dinode (dinode_at (i_inum ip))
    (V (dev, IBLOCK (i_inum ip) sb0)) ip) = set_i_lock l ip). by rewrite Hsy.
Qed.

Lemma rewritten_lock V ip V' ip' off src l :
  rewritten V (set_i_lock l ip) V' ip' off src -> rewritten V ip V' (set_i_lock (i_lock ip) ip') off src.
Proof.
  intros [R C F O K I]. split; try done; [by apply regular_lock|]. rewrite F. by destruct ip.
Qed.

(** ** Open files *)

Variables (i f : nat).

(** File [f] is open at [off] on the disk file in inode [i]; nobody is using it. *)
Record open_file V ip (off : Z) s : Prop := {
  o_quiet : quiet V s;
  o_sb : sb s = sb0;
  o_meta : meta_used dev sb0 V;
  o_inode : icache s !! i = Some ip;
  o_regular : regular V ip;
  o_ref : 1 <= i_ref ip;
  o_valid : i_valid ip = true;
  o_lock : i_lock ip = mkSleeplock false 0;
  o_file : exists ff, ftable s !! f = Some ff /\ f_type ff = FD_INODE /\ f_ip ff = i /\ f_off ff = off
}.

Lemma file_at_lookup s ff : ftable s !! f = Some ff -> file_at s f = ff.
Proof. unfold file_at. by intros ->. Qed.

Lemma max_write_eq : max_write = 1536%nat.
Proof. done. Qed.

(** A transaction of at most [max_write] bytes fits in its reservation. *)
Lemma wcost_chunk off n : 0 <= off -> 0 <= n <= Z.of_nat max_write -> wcost off n + 3 <= MAXOPBLOCKS.
Proof.
  rewrite max_write_eq. intros Ho Hn. change MAXOPBLOCKS with 10. unfold wcost, wblocks. destruct (Z.eqb_spec n 0); [lia|].
  destruct (Z.eqb_spec (off mod 512) 0) as [E|E].
  - rewrite Z.mod_opp_l_z by lia. assert ((Z.max 0 (n - 0) + 511) / 512 < 4) by (apply Z.div_lt_upper_bound; lia). lia.
  - rewrite Z.mod_opp_l_nz by lia. pose proof (Z.mod_pos_bound off 512).
    assert ((Z.max 0 (n - (512 - off mod 512)) + 511) / 512 < 4) by (apply Z.div_lt_upper_bound; lia). lia.
Qed.

(** The state between [ilock] and [iunlock]. *)
Lemma chunk_locked V ip off s p :
  open_file V ip off s -> cur s = Some p ->
  let ipl := set_i_lock (mkSleeplock true (mypid s)) ip in
  let s2 := set_icache (<[i := ipl]> (icache s)) (in_op s) in
  begin_op s = Ret tt (in_op s) /\ ilock i (in_op s) = Ret tt s2 /\ fsys dev start size_ sb0 ∅ [] V s2 /\
  icache s2 !! i = Some ipl /\ regular V ipl.
Proof.
  intros [Hq Hsb Hm Hi Hr Href Hv Hl Hff] Hp ipl s2. destruct (begin_tx dev start size_ G V s Hq) as [Hb Ht].
  assert (icache s2 !! i = Some ipl) as Hi2 by (apply list_lookup_insert_eq; by eapply lookup_lt_Some).
  assert (inode_at (in_op s) i = ip) as Hin by (by apply inode_at_lookup).
  split_and!; [done| | |done|by apply regular_lock].
  - rewrite (ilock_eq i (in_op s) p); rewrite ?Hin, ?Hl; try done; [|apply (q_cache _ _ _ _ _ Hq)].
    unfold s2, ipl. f_equal. f_equal. cbn [icache in_op set_log]. by rewrite (alter_as_insert _ _ _ _ Hi).
  - split; [by apply tx_icache|done|done|done|]. intros b [x Hx]. done.
Qed.

Lemma tx_unlocked bs V s ft ic ps :
  tx dev start size_ ∅ bs V s -> procs_le (procs s) ps -> tx dev start size_ ∅ bs V (set_procs ps (set_icache ic (set_ftable ft s))).
Proof.
  intros [Hh Hc Hcl] Hps. split; [done| |done]. apply cache_procs; [done|]. destruct Hc as [C1 C2 C3 C4 C5 C6 C7 C8 C9]. by split.
Qed.

(** From [writei] to the end of the transaction *)
Lemma chunk_end V ip off s src bs V1 ip1 s3 :
  open_file V ip off s -> rewritten V (set_i_lock (mkSleeplock true (mypid s)) ip) V1 ip1 off src ->
  fsys dev start size_ sb0 ∅ bs V1 s3 -> 0 <= off -> off + Z.of_nat (length src) <= 71680 ->
  istep i ip1 (set_icache (<[i := set_i_lock (mkSleeplock true (mypid s)) ip]> (icache s)) (in_op s)) s3 ->
  wp (upd_file f (fun ff => set_f_off (u32 (f_off ff + Z.of_nat (length src))) ff) ;;; iunlock i ;;; end_op)
    (fun _ s' => exists ws V' ip', open_file V' ip' (off + Z.of_nat (length src)) s' /\ rewritten V ip V' ip' off src /\
      need ip' = need ip1 /\ nfree dev sb0 V' = nfree dev sb0 V1 /\
      writes s' = writes s ++ ws /\ disk s' = apply_writes ws (disk s) /\
      crash_safe dev start size_ (disk s) ws (fun W => W = V \/ rewritten V ip W ip' off src)) s3.
Proof.
  intros [Hq Hsb Hm Hi Hr Href Hv Hl (ff & Hff & Hft & Hfi & Hfo)] Hrw Hfs Ho Hmax Hs3.
  pose proof (rewritten_lock _ _ _ _ _ _ _ Hrw) as Hrw'. rewrite Hl in Hrw'. set (ip6 := set_i_lock _ ip1) in Hrw'.
  pose proof (rw_fields _ _ _ _ _ _ _ _ _ _ Hrw) as Hf1. destruct (fstep_same _ _ Hs3) as (Hh3 & Hc3 & Hp3 & Hsb3 & Hic3 & Hd3 & Ho3).
  cbn in Hh3, Hc3, Hsb3, Hic3, Hd3, Ho3. rewrite list_insert_insert_eq in Hic3.
  assert (icache s3 !! i = Some ip1) as Hi3 by (rewrite Hic3; apply list_lookup_insert_eq; by eapply lookup_lt_Some).
  assert (ftable s3 = ftable s /\ writes s3 = writes s /\ l_committing (log s3) = false) as (Hft3 & Hw3 & Hcm3).
  { destruct Hs3 as [(ps & bb & _ & E) [_ Hcm]]. cbn in Hcm. rewrite Hcm, E. cbn. rewrite app_nil_r. by rewrite (q_committing _ _ _ _ _ Hq). }
  eapply wp_step; [reflexivity|]. rewrite Hft3, (alter_as_insert _ _ _ _ Hff), Hfo, u32_small by lia.
  set (ff' := set_f_off _ ff). set (s4 := set_ftable _ s3).
  assert (ilocked i s4) as Hil.
  { destruct (c_cur _ _ _ _ (q_cache _ _ _ _ _ Hq)) as [p Hp]. assert (inode_at s4 i = ip1) as E by (by apply inode_at_lookup).
    split; rewrite ?E; [by exists ip1|exists p; cbn; by rewrite Hc3| | |]; rewrite Hf1; try done. cbn. f_equal. symmetry. exact Hp3. }
  eapply wp_step; [apply iunlock_eq; [done|]|].
  { cbn. rewrite Hh3. apply (q_cache _ _ _ _ _ Hq). }
  rewrite (alter_as_insert _ _ _ _ (Hi3 : icache s4 !! i = Some ip1)). fold ip6. set (s5 := set_procs _ _).
  pose proof (procs_le_wake (Ch_sleeplock (SL_inode i)) (procs s3)) as Hps.
  pose proof (tx_unlocked bs V1 s3 (<[f := ff']> (ftable s)) (<[i := ip6]> (icache s4)) _ (fx_tx _ _ _ _ _ _ _ _ Hfs) Hps) as Ht5.
  assert (disk s5 = disk s) as Hd5 by exact Hd3.
  eapply wp_mono; [apply (end_tx dev start size_ G bs V1 V s5 Ht5)|].
  - exact Hcm3.
  - exact Ho3.
  - rewrite Hd5. apply Hq.
  - rewrite Hd5. apply Hq.
  - intros k _. rewrite Hd5. by apply cache_clean, (q_cache _ _ _ _ _ Hq).
  - intros [] s6 (ws & V' & Hs6 & Hq6 & Hag & Hcs). exists ws, V', ip6. rewrite Hd5 in Hcs. destruct (lstep_same _ _ _ Hs6) as [Hd6 Hw6].
    destruct (bstep_same _ _ _ Hs6) as (_ & _ & _ & _ & Hsb6 & Hic6 & _ & _). cbn in Hsb6, Hic6.
    assert (ftable s6 = <[f := ff']> (ftable s)) as Hft6 by (by destruct Hs6 as (? & ? & _ & ->)).
    split_and!; [|by apply (rewritten_agree dev start size_ G sb0 L _ _ V1)|done| | | |].
    + split; [done|congruence| | |by apply (regular_agree dev start size_ G sb0 L V1), Hrw'| | |done|].
      * intros b Hb. rewrite (bit_agree dev start size_ G sb0 L V1 V'); [by apply (fx_meta _ _ _ _ _ _ _ _ Hfs)|done|]. pose proof L as []. lia.
      * rewrite Hic6. apply list_lookup_insert_eq. by eapply lookup_lt_Some.
      * unfold ip6. rewrite Hf1. done.
      * unfold ip6. rewrite Hf1. done.
      * exists ff'. split; [|done]. rewrite Hft6. apply list_lookup_insert_eq. by eapply lookup_lt_Some.
    + apply nfree_same. intros c Hc. by apply (bit_agree dev start size_ G sb0 L).
    + rewrite Hw6. cbn. by rewrite Hw3.
    + by rewrite Hd6, Hd5.
    + eapply crash_safe_mono; [exact Hcs|]. intros W [->| ->]; [exists V; auto|exists V1; auto].
Qed.

(** ** filewrite *)

(** What a crash leaves of a write: the whole chunks that were committed. *)
Definition crashed V ip (off : Z) (src : list Z) W : Prop :=
  exists j ip', rewritten V ip W ip' off (take (j * max_write) src).

Lemma wblocks_0 off : wblocks off 0 = 0.
Proof. unfold wblocks. pose proof (Z.mod_pos_bound (- off) 512 ltac:(lia)). by rewrite Z.max_l by lia. Qed.

Lemma wblocks_chunk off n m :
  0 <= off -> m = Z.min n (Z.of_nat max_write) -> 0 <= n -> wblocks off m + wblocks (off + m) (n - m) <= wblocks off n.
Proof.
  rewrite max_write_eq. change (Z.of_nat 1536) with 1536. intros Ho Hm Hn. destruct (decide (n <= 1536)).
  { replace m with n by lia. rewrite Z.sub_diag, wblocks_0. lia. }
  assert (m = 1536) as -> by lia. unfold wblocks. pose proof (Z.mod_pos_bound (- off) 512 ltac:(lia)).
  replace (- (off + 1536)) with (- off + (-3) * 512) by lia. rewrite Z.mod_add by lia. set (r := (- off) mod 512) in *.
  assert ((Z.max 0 (1536 - r) + 511) / 512 = 3) as -> by (symmetry; apply (Z.div_unique _ _ _ (511 - r)); lia).
  rewrite Z.add_comm, <- Z.div_add by lia. destruct (decide (r <= n - 1536)); [apply Z.div_le_mono; lia|].
  rewrite Z.max_l by lia. change ((0 + 511 + 3 * 512) / 512) with 3. apply Z.div_le_lower_bound; lia.
Qed.

(** One transaction of [filewrite]. *)
Definition chunk_done V ip (off : Z) (xs : list Z) ws V' ip' s s' : Prop :=
  (open_file V' ip' (off + Z.of_nat (length xs)) s' /\ rewritten V ip V' ip' off xs /\
   i_size ip' = Z.max (i_size ip) (off + Z.of_nat (length xs))) /\
  (writes s' = writes s ++ ws /\ disk s' = apply_writes ws (disk s) /\
   crash_safe dev start size_ (disk s) ws (fun W => W = V \/ rewritten V ip W ip' off xs)) /\
  Z.of_nat (nfree dev sb0 V + need ip') <= Z.of_nat (nfree dev sb0 V' + need ip) + wblocks off (Z.of_nat (length xs)).

Lemma rewritten_size V ip V' ip' off src :
  regular V ip -> 0 <= off <= i_size ip -> rewritten V ip V' ip' off src ->
  i_size ip' = Z.max (i_size ip) (off + Z.of_nat (length src)).
Proof.
  intros Hr Ho Hrw. pose proof (f_equal length (rw_contents _ _ _ _ _ _ _ _ _ _ Hrw)) as Hlen. unfold splice in Hlen.
  rewrite !length_app, length_take, length_drop, !length_file_bytes in Hlen. pose proof (r_ok _ _ _ _ Hr) as (_ & _ & _ & _ & ? & _).
  pose proof (r_ok _ _ _ _ (rw_regular _ _ _ _ _ _ _ _ _ _ Hrw)) as (_ & _ & _ & _ & ? & _). lia.
Qed.

Lemma filewrite_chunk V ip off s xs (k : Z -> KM bool) Q :
  open_file V ip off s -> Forall is_byte xs -> (0 < length xs <= max_write)%nat ->
  let m := Z.of_nat (length xs) in
  0 <= off <= i_size ip -> off + m <= 71680 -> Z.of_nat (need ip) + wblocks off m <= Z.of_nat (nfree dev sb0 V) ->
  (forall ws V' ip' s', chunk_done V ip off xs ws V' ip' s s' -> wp (k m) Q s') ->
  wp (ip <- get (fun s => f_ip (file_at s f)) ;;
      begin_op ;;;
      ilock ip ;;;
      off <- get (fun s => f_off (file_at s f)) ;;
      r <- writei ip xs off ;;
      (if 0 <? r then upd_file f (fun ff => set_f_off (u32 (f_off ff + r)) ff) else ret tt) ;;;
      iunlock ip ;;;
      end_op ;;;
      k r) Q s.
Proof.
  intros Ho Hby Hlen m Hoff Hmax Hfree Hk. pose proof Ho as [Hq Hsb Hm Hi Hr Href Hv Hl (ff & Hff & Hft & Hfi & Hfo)].
  destruct (c_cur _ _ _ _ (q_cache _ _ _ _ _ Hq)) as [p Hp].
  destruct (chunk_locked V ip off s p Ho Hp) as (Hb & Hil & Hfs & Hi2 & Hr2).
  set (s2 := set_icache _ (in_op s)) in *. set (ipl := set_i_lock _ ip) in *.
  assert (file_at s2 f = ff) as Hff2 by (by apply file_at_lookup).
  eapply wp_step; [reflexivity|]. rewrite (file_at_lookup _ _ Hff), Hfi.
  eapply wp_step; [exact Hb|]. eapply wp_step; [exact Hil|]. eapply wp_step; [reflexivity|]. rewrite Hff2, Hfo.
  pose proof (writei_spec dev start size_ G sb0 L i [] V s2 ipl xs off Hfs Hi2 Hr2 Hby ltac:(lia)) as Hws.
  cbv zeta in Hws. fold m in Hws. change (MAXFILE * BSIZE) with 71680 in Hws. change (i_size ipl) with (i_size ip) in Hws.
  rewrite (proj2 (Z.ltb_ge (i_size ip) off)), (proj2 (Z.ltb_ge 71680 (off + m))) in Hws by lia. cbn [orb] in Hws.
  pose proof (wcost_chunk off m ltac:(lia) ltac:(lia)) as Hwc. change MAXOPBLOCKS with 10 in Hwc. pose proof (geo_size _ _ _ G).
  eapply wp_chain; [apply Hws; [lia|simpl; lia|change (need ipl) with (need ip); lia]|].
  intros r s3 (-> & bs3 & V3 & ip3 & Hrw3 & Hfs3 & Hs3 & _ & Hn3). rewrite (proj2 (Z.ltb_lt 0 m)) by lia.
  change (need ipl) with (need ip) in Hn3.
  eapply wp_then; [apply (chunk_end V ip off s xs bs3 V3 ip3 s3 Ho Hrw3 Hfs3); [lia|fold m; lia|exact Hs3]|]. fold m.
  intros s4 (ws & V4 & ip4 & Ho4 & Hrw4 & Hnd & Hnf & Hw4 & Hd4 & Hcs4). apply (Hk ws V4 ip4).
  split_and!; try done; [by apply (rewritten_size V ip V4)|fold m; lia].
Qed.

Lemma filewrite_loop_spec fuel : forall V ip off s src,
  open_file V ip off s -> Forall is_byte src -> (length src < fuel)%nat ->
  let n := Z.of_nat (length src) in
  0 <= off <= i_size ip -> off + n <= 71680 -> Z.of_nat (need ip) + wblocks off n <= Z.of_nat (nfree dev sb0 V) ->
  wp (filewrite_loop fuel f src) (fun r s' => r = true /\ exists ws V' ip',
    open_file V' ip' (off + n) s' /\ rewritten V ip V' ip' off src /\
    writes s' = writes s ++ ws /\ disk s' = apply_writes ws (disk s) /\
    crash_safe dev start size_ (disk s) ws (crashed V ip off src)) s.
Proof.
  induction fuel as [|fuel IH]; intros V ip off s src Ho Hby Hfuel n Hoff Hmax Hfree; [lia|].
  pose proof Ho as [Hq Hsb Hm Hi Hr Href Hv Hl (ff & Hff & Hft & Hfi & Hfo)].
  cbn [filewrite_loop]. destruct (decide (src = [])) as [->|Hne].
  { apply wp_ret. split; [done|]. exists [], V, ip. change n with 0. rewrite Z.add_0_r, app_nil_r.
    split_and!; [done|by apply rewritten_nil|done|done|]. eapply crash_safe_mono; [by apply crash_safe_nil|].
    intros W ->. exists V. split; [|done]. exists 0%nat, ip. by apply rewritten_nil. }
  assert (0 < length src)%nat by (destruct src; [done|simpl; lia]).
  replace (match src with [] => _ | _ => _ end) with (
      ip <- get (fun s => f_ip (file_at s f)) ;;
      begin_op ;;;
      ilock ip ;;;
      off <- get (fun s => f_off (file_at s f)) ;;
      r <- writei ip (take max_write src) off ;;
      (if 0 <? r then upd_file f (fun ff => set_f_off (u32 (f_off ff + r)) ff) else ret tt) ;;;
      iunlock ip ;;;
      end_op ;;;
      if r <? 0 then ret false
      else if negb (r =? Z.of_nat (length (take max_write src))) then panic "short filewrite"
      else filewrite_loop fuel f (drop max_write src)) by (by destruct src).
  set (xs := take max_write src). set (ys := drop max_write src). set (m := Z.of_nat (length xs)).
  assert (0 < max_write)%nat by (rewrite max_write_eq; lia).
  assert (m = Z.min n (Z.of_nat max_write) /\ Z.of_nat (length ys) = n - m /\ 0 < m <= n) as (Hm1 & Hm2 & Hm3).
  { unfold m, n, xs, ys. rewrite length_take, length_drop. lia. }
  pose proof (wblocks_chunk off n m ltac:(lia) Hm1 ltac:(lia)) as Hwb. pose proof (wblocks_nonneg (off + m) (n - m)).
  apply (filewrite_chunk V ip off s xs); [done|by apply Forall_take|lia|lia|fold m; lia|fold m; lia|]. fold m.
  intros ws V4 ip4 s4 ((Ho4 & Hrw4 & Hsz4) & (Hw4 & Hd4 & Hcs4) & Hn4). fold m in Ho4, Hsz4, Hn4.
  rewrite (proj2 (Z.ltb_ge m 0)), Z.eqb_refl by lia. cbn [negb].
  eapply wp_mono; [apply (IH V4 ip4 (off + m) s4 ys Ho4); [by apply Forall_drop|lia|lia|lia|rewrite Hm2; lia]|].
  intros r s5 (-> & ws5 & V5 & ip5 & Ho5 & Hrw5 & Hw5 & Hd5 & Hcs5). split; [done|].
  pose proof (r_ok _ _ _ _ Hr) as (_ & _ & _ & _ & Hsz0 & _).
  exists (ws ++ ws5), V5, ip5. rewrite Hm2 in Ho5. replace (off + m + (n - m)) with (off + n) in Ho5 by lia.
  split_and!; [done| |by rewrite Hw5, Hw4, app_assoc|by rewrite Hd5, Hd4, apply_writes_app|].
  - rewrite <- (take_drop max_write src). by eapply rewritten_app; [lia|lia|exact Hrw4|].
  - apply crash_safe_app; [|rewrite <- Hd4].
    + eapply crash_safe_mono; [exact Hcs4|]. intros W [->|HW]; [exists V|exists W]; (split; [|done]).
      * exists 0%nat, ip. by apply rewritten_nil.
      * exists 1%nat, ip4. by rewrite Nat.mul_1_l.
    + eapply crash_safe_mono; [exact Hcs5|]. intros W (j & ip' & HW). exists W. split; [|done]. exists (S j), ip'.
      rewrite Nat.mul_succ_l, Nat.add_comm, <- take_take_drop. by eapply rewritten_app; [lia|lia|exact Hrw4|].
Qed.

(** ** fileread *)

Lemma read_unlocks V ip off s s3 ft ff off' :
  open_file V ip off s ->
  rstep (set_icache (<[i := set_i_lock (mkSleeplock true (mypid s)) ip]> (icache s)) s) s3 -> tx dev start size_ ∅ [] V s3 ->
  ft !! f = Some ff -> f_type ff = FD_INODE -> f_ip ff = i -> f_off ff = off' ->
  wp (iunlock i) (fun _ s' => open_file V ip off' s' /\ rstep (set_ftable ft s) s') (set_ftable ft s3).
Proof.
  intros [Hq Hsb Hm Hi Hr Href Hv Hl _] Hr3 Ht3 Hf1 Hf2 Hf3 Hf4. pose proof (fstep_bstep _ _ Hr3) as Hs3. pose proof Hs3 as [_ [Hop Hcm]].
  destruct (fstep_same _ _ Hs3) as (Hh3 & Hc3 & Hp3 & Hsb3 & Hic3 & Hd3 & _). cbn in Hh3, Hc3, Hsb3, Hic3, Hd3, Hop, Hcm.
  set (ipl := set_i_lock _ ip) in *. pose proof Hq as [_ Hc Hq1 Hq2 Hq3 Hq4]. destruct (c_cur _ _ _ _ Hc) as [p Hp].
  assert (icache s3 !! i = Some ipl) as Hi3 by (rewrite Hic3; apply list_lookup_insert_eq; by eapply lookup_lt_Some).
  assert (inode_at (set_ftable ft s3) i = ipl) as Hin by (by apply inode_at_lookup).
  eapply wp_intro; [apply iunlock_eq|].
  - split; rewrite ?Hin; [by exists ipl|exists p; cbn; by rewrite Hc3| |done|done]. cbn. f_equal. symmetry. exact Hp3.
  - cbn. rewrite Hh3. apply Hc.
  - cbn [icache set_ftable]. rewrite (alter_as_insert _ _ _ _ Hi3), Hic3, list_insert_insert_eq.
    assert (set_i_lock (mkSleeplock false 0) ipl = ip) as -> by (unfold ipl; destruct ip; cbn in *; by rewrite Hl).
    pose proof (procs_le_wake (Ch_sleeplock (SL_inode i)) (procs s3)) as Hps.
    pose proof (tx_unlocked [] V s3 ft (<[i := ip]> (icache s)) _ Ht3 Hps) as [Hh5 Hc5 _]. cbn in Hh5.
    split; [|destruct Hr3 as (ps & b & Hpl & ->); eexists _, b; split; [by etransitivity|rewrite (list_insert_id (icache s) i ip Hi); by destruct s]]. split; try done; [split; try done| | |].
    + cbn. by rewrite Hcm.
    + cbn. by rewrite Hop.
    + cbn. by rewrite Hd3.
    + cbn. by rewrite Hd3.
    + cbn. by rewrite Hsb3.
    + cbn. apply list_lookup_insert_eq. by eapply lookup_lt_Some.
    + by exists ff.
Qed.

Lemma fileread_spec V ip off s n :
  open_file V ip off s -> f_readable (file_at s f) = true -> 0 <= off <= i_size ip -> 0 <= n < 2 ^ 31 ->
  let m := Z.min n (i_size ip - off) in
  wp (fileread f n) (fun r s' => r = (m, sub (Z.to_nat off) (Z.to_nat m) (contents V ip)) /\
    open_file V ip (off + m) s' /\ rstep (set_ftable (<[f := set_f_off (off + m) (file_at s f)]> (ftable s)) s) s') s.
Proof.
  intros Ho Hrd Hoff Hn m. pose proof Ho as [Hq Hsb Hm Hi Hr Href Hv Hl (ff & Hff & Hft & Hfi & Hfo)].
  rewrite (file_at_lookup _ _ Hff) in Hrd. pose proof (r_size _ _ _ _ Hr) as Hmax. change (MAXFILE * BSIZE) with 71680 in Hmax.
  unfold fileread. eapply wp_step; [reflexivity|]. rewrite (file_at_lookup _ _ Hff), Hrd, Hft, Hfi. cbn [negb].
  pose proof (q_cache _ _ _ _ _ Hq) as Hc. destruct (c_cur _ _ _ _ Hc) as [p Hp]. pose proof (inode_at_lookup _ _ _ Hi) as Hin.
  set (ipl := set_i_lock (mkSleeplock true (mypid s)) ip). set (s2 := set_icache (<[i := ipl]> (icache s)) s).
  eapply wp_step; [apply (ilock_eq i s p); rewrite ?Hin, ?Hl; try done; apply Hc|].
  rewrite (alter_as_insert _ _ _ _ Hi). fold ipl. fold s2. eapply wp_step; [reflexivity|].
  assert (file_at s2 f = ff) as -> by (by apply file_at_lookup). rewrite Hfo.
  assert (icache s2 !! i = Some ipl) as Hi2 by (apply list_lookup_insert_eq; by eapply lookup_lt_Some).
  assert (tx dev start size_ ∅ [] V s2) as Ht.
  { apply tx_icache. split; [apply Hq|done|]. intros k. right. exact (cache_clean V s k Hc). }
  pose proof (readi_spec dev start size_ G sb0 L i [] V s2 ipl off n Ht Hi2 ltac:(by apply regular_lock) ltac:(lia) Hn) as Hrs.
  change (i_size ipl) with (i_size ip) in Hrs.
  rewrite (proj2 (Z.ltb_ge (i_size ip) off)), (proj2 (Z.leb_gt (2 ^ 32) (off + n))) in Hrs by lia. cbn [orb] in Hrs. cbv zeta in Hrs.
  eapply wp_chain; [exact Hrs|]. fold m. intros r s3 (-> & Ht3 & Hs3). cbn [fst snd].
  assert (ftable s3 = ftable s) as Hft3 by (by destruct Hs3 as (? & ? & _ & ->)).
  eapply (wp_chain _ _ (fun _ s4 => s4 = set_ftable (<[f := set_f_off (off + m) ff]> (ftable s)) s3)).
  { destruct (Z.ltb_spec 0 m).
    - unfold upd_file, modify, wp. rewrite Hft3, (alter_as_insert _ _ _ _ Hff). by rewrite Hfo, u32_small by lia.
    - apply wp_ret. replace (set_f_off (off + m) ff) with ff by (replace (off + m) with (f_off ff) by lia; by destruct ff).
      rewrite list_insert_id by done. rewrite <- Hft3. by destruct s3. }
  intros [] s4 ->.
  eapply wp_chain; [eapply (read_unlocks V ip off s s3 _ (set_f_off (off + m) ff) (off + m)); try done; apply list_lookup_insert_eq; by eapply lookup_lt_Some|].
  intros [] s5 [Ho5 Hd5]. by apply wp_ret.
Qed.
End filespec.

(** ** The theorems *)

(** C3: [filewrite] across crashes.  On an open, writable file of the disk, with enough
    free blocks, it returns the number of bytes, the file then has the bytes written at
    the offset and the offset has moved past them.  If the power fails after any of the
    block writes, and again in any number of recoveries, the recovery that completes
    leaves the file with a number of whole chunks of [max_write] bytes written, and
    everything else as it was. *)
Theorem filewrite_crash_safe `{DD : DiskDriver} `{Devices} dev start size_ sb0 i f V ip off s src :
  geometry dev start size_ -> fs_layout dev start size_ sb0 -> open_file dev start size_ sb0 i f V ip off s ->
  f_writable (file_at s f) = true -> Forall is_byte src -> 0 <= off <= i_size ip ->
  let n := Z.of_nat (length src) in
  off + n <= MAXFILE * BSIZE -> Z.of_nat (need ip) + wblocks off n <= Z.of_nat (nfree dev sb0 V) ->
  wp (filewrite f src) (fun r s' => r = n /\
    (exists V' ip', open_file dev start size_ sb0 i f V' ip' (off + n) s' /\ rewritten dev start size_ sb0 V ip V' ip' off src) /\
    forall ws ws1 d1 s1, writes s' = writes s ++ ws -> ws1 `prefix_of` ws ->
      interrupted dev (apply_writes ws1 (disk s)) d1 -> booted d1 s1 ->
      wp (boot_fs dev) (fun _ s2 => exists j W ip2, (forall k, ~ in_log dev start size_ k -> on_block (disk s2) k = W k) /\
        rewritten dev start size_ sb0 V ip W ip2 off (take (j * max_write) src)) s1) s.
Proof.
  intros G L Ho Hw Hby Hoff n Hmax Hfree. pose proof Ho as [_ _ _ _ _ _ _ _ (ff & Hff & Hft & _)].
  unfold filewrite. eapply wp_step; [reflexivity|]. rewrite Hw. rewrite (file_at_lookup _ _ _ Hff), Hft. cbn [negb].
  eapply wp_chain; [by apply (filewrite_loop_spec dev start size_ G sb0 L i f (S (length src)) V ip off s src); (done || lia)|].
  intros r s' (-> & ws & V' & ip' & Ho' & Hrw & Hws & _ & Hcs). apply wp_ret. split; [done|]. split; [by exists V', ip'|].
  intros ws' ws1 d1 s1 Hws' Hp Hint Hb. rewrite Hws in Hws'. apply app_inv_head in Hws' as <-.
  eapply wp_mono; [by eapply (crash_safe_recovers dev start size_ G)|].
  intros [] s2 (W & (j & ip2 & HW) & Hd). by exists j, W, ip2.
Qed.

(** C8: [fileread].  On an open, readable file of the disk it returns the bytes of the
    file at the offset, at most [n] and up to the end, and moves the offset past them.
    Apart from the offset the state is as it was, but for the buffers, which still hold the
    same disk, and for processes that slept and are now woken: all other fields of the file,
    the other files, every inode with its lock, the log, the disk and memory are unchanged. *)
Theorem fileread_reads `{DD : DiskDriver} `{Devices} dev start size_ sb0 i f V ip off s n :
  geometry dev start size_ -> fs_layout dev start size_ sb0 -> open_file dev start size_ sb0 i f V ip off s ->
  f_readable (file_at s f) = true -> 0 <= off <= i_size ip -> 0 <= n < 2 ^ 31 ->
  let m := Z.min n (i_size ip - off) in
  wp (fileread f n) (fun r s' => r = (m, sub (Z.to_nat off) (Z.to_nat m) (contents dev V ip)) /\
    open_file dev start size_ sb0 i f V ip (off + m) s' /\
    exists ps bs, procs_le (procs s) ps /\
      s' = set_procs ps (set_bufs bs (set_ftable (<[f := set_f_off (off + m) (file_at s f)]> (ftable s)) s))) s.
Proof.
  intros G L Ho Hr Hoff Hn. eapply wp_mono; [by apply (fileread_spec dev start size_ G sb0 L i f V ip off s n)|].
  intros r s' (-> & Ho' & Hs'). split; [done|]. split; [done|]. exact (rstep_state _ _ Hs').
Qed.

(** [lg] holds at most [k] blocks more than [bs]. *)
Definition logged_at_most (k : Z) (bs : list Z) (lg : logstate) : Prop := lh_n lg <= Z.of_nat (length bs) + k.

(** C17: the reservation of [filewrite].  A transaction that writes at most [max_write]
    bytes, at any offset and whatever blocks the file still needs, adds at most
    MAXOPBLOCKS blocks to the log. *)
Theorem chunk_fits_reservation `{DD : DiskDriver} `{Devices} dev start size_ sb0 i bs V s ip src off :
  geometry dev start size_ -> fs_layout dev start size_ sb0 -> fsys dev start size_ sb0 ∅ bs V s ->
  icache s !! i = Some ip -> regular dev sb0 V ip -> Forall is_byte src -> (length src <= max_write)%nat -> 0 <= off ->
  let n := Z.of_nat (length src) in
  off + n < 2 ^ 32 -> Z.of_nat (length bs) + MAXOPBLOCKS < size_ -> Z.of_nat (need ip) + wblocks off n <= Z.of_nat (nfree dev sb0 V) ->
  wp (writei i src off) (fun _ s' => logged_at_most MAXOPBLOCKS bs (log s')) s.
Proof.
  intros G L Hfs Hi Hr Hby Hlen Ho n Hn Hroom Hfree. pose proof (wcost_chunk off n Ho ltac:(lia)) as Hc.
  pose proof (writei_spec dev start size_ G sb0 L i bs V s ip src off Hfs Hi Hr Hby ltac:(lia)) as Hw. fold n in Hw.
  rewrite max_write_eq in Hlen. specialize (Hw ltac:(lia)).
  destruct ((i_size ip <? off) || (MAXFILE * BSIZE <? off + n)).
  - eapply wp_intro; [exact Hw|]. unfold logged_at_most. rewrite (h_n _ _ _ _ _ (tx_header _ _ _ _ _ _ _ (fx_tx _ _ _ _ _ _ _ _ Hfs))).
    change MAXOPBLOCKS with 10. lia.
  - eapply wp_mono; [by apply Hw; [lia|]|]. intros r s' (_ & bs' & V' & ip' & _ & Hfs' & _ & Hl & _). unfold logged_at_most.
    rewrite (h_n _ _ _ _ _ (tx_header _ _ _ _ _ _ _ (fx_tx _ _ _ _ _ _ _ _ Hfs'))). lia.
Qed.

(** ** The file of the small file system *)

Lemma small_open : exists s V, open_file (DD := memide_driver 512000) 1 2 30 small_sb 0 0 V empty_file 0 s /\
  agree 1 2 30 small_view V /\ f_writable (file_at s 0) = true /\ f_readable (file_at s 0) = true.
Proof.
  destruct small_boots as (s & V & ws & Hq & Ha & Hs). destruct (bstep_same _ _ _ Hs) as (_ & _ & _ & _ & Hsb & Hic & _ & _).
  assert (ftable s = [mkFile FD_INODE 1 true true 0 0 0]) as Hft by (by destruct Hs as (? & ? & _ & ->)).
  exists s, V. split_and!; [|done|unfold file_at; by rewrite Hft..]. split; try done.
  - intros b Hb. change (datastart small_sb) with 59 in Hb. rewrite small_bit by (done || lia). by apply small_bits.
  - by rewrite Hic.
  - apply (regular_agree (DD := memide_driver 512000) 1 2 30 demo_geometry small_sb small_layout small_view V empty_file Ha small_regular).
  - rewrite Hft. by eexists.
Qed.

Lemma small_nfree V : agree 1 2 30 small_view V -> nfree 1 small_sb V = 941%nat.
Proof. intros Ha. rewrite <- (proj2 small_bits). apply nfree_same. intros c Hc. by apply small_bit. Qed.

Lemma filewrite_crash_safe_witness : exists s s' V' ip',
  filewrite (H := memide_driver 512000) (H0 := no_devices) 0 [104; 105] s = Ret 2 s' /\
  contents 1 V' ip' = [104; 105] /\ open_file (DD := memide_driver 512000) 1 2 30 small_sb 0 0 V' ip' 2 s'.
Proof.
  destruct small_open as (s & V & Ho & Ha & Hw & _).
  destruct (regular_agree (DD := memide_driver 512000) 1 2 30 demo_geometry small_sb small_layout small_view V empty_file Ha small_regular) as [_ Hc].
  destruct (wp_inv _ _ _ (filewrite_crash_safe (DD := memide_driver 512000) (H := no_devices)
    1 2 30 small_sb 0 0 V empty_file 0 s [104; 105] demo_geometry small_layout Ho Hw ltac:(apply (bool_decide_unpack _); by vm_compute)
    ltac:(simpl; lia) ltac:(by vm_compute) ltac:(rewrite small_nfree by done; by vm_compute)))
    as (r & s' & Hr & -> & (V' & ip' & Ho' & Hrw) & _).
  exists s, s', V', ip'. split; [exact Hr|]. split; [|exact Ho']. rewrite (rw_contents _ _ _ _ _ _ _ _ _ _ Hrw), Hc. by vm_compute.
Defined.

Lemma fileread_reads_witness : exists s s',
  fileread (H := memide_driver 512000) (H0 := no_devices) 0 10 s = Ret (0, []) s' /\ disk s' = disk s.
Proof.
  destruct small_open as (s & V & Ho & Ha & _ & Hrd).
  destruct (wp_inv _ _ _ (fileread_reads (DD := memide_driver 512000) (H := no_devices)
    1 2 30 small_sb 0 0 V empty_file 0 s 10 demo_geometry small_layout Ho Hrd ltac:(simpl; lia) ltac:(lia)))
    as (r & s' & Hr & -> & _ & ps & bs & _ & ->).
  eexists s, _. split; [exact Hr|done].
Defined.

Lemma chunk_fits_reservation_witness : exists s s' r,
  writei (H := memide_driver 512000) (H0 := no_devices) 0 (replicate 1536 7) 0 s = Ret r s' /\ lh_n (log s') <= 10.
Proof.
  destruct small_transaction as (s & V & Hfs & Ha & Hi).
  destruct (regular_agree (DD := memide_driver 512000) 1 2 30 demo_geometry small_sb small_layout small_view V empty_file Ha small_regular) as [Hr _].
  destruct (wp_inv _ _ _ (chunk_fits_reservation (DD := memide_driver 512000) (H := no_devices)
    1 2 30 small_sb 0 [] V s empty_file (replicate 1536 7) 0 demo_geometry small_layout Hfs Hi Hr
    ltac:(by apply Forall_replicate) ltac:(by rewrite length_replicate) ltac:(lia) ltac:(by vm_compute) ltac:(by vm_compute)
    ltac:(rewrite small_nfree by done; by vm_compute))) as (r & s' & Hw & Hl).
  exists s, s', r. split; [exact Hw|exact Hl].
Defined.
