(* ===== verification/User.v ===== *)
(** * User: programs over the system calls (user.h, ulib.c, printf.c)

    A user program is a tree of system calls: a call and what the program does with
    each result.  Strings are the lists of their bytes without the NUL, buffers are
    lists; the system below is whatever answers the calls.  [run] answers them from a
    machine of open streams, with any split of the input into short reads. *)

From stdpp Require Import base gmap list strings.
From Stdlib Require Import ZArith Lia Ascii.
From S2P Require Import Prelude State Fs Printf.

Local Open Scope Z_scope.

(** ** System calls *)

(** The calls of user.h and what they return; data that a call stores in the caller's
    memory is part of its result. *)
Inductive sysE : Type -> Type :=
| Sfork : sysE Z
| Sexit : sysE Empty_set
| Swait : sysE Z
| Spipe : sysE (Z * (Z * Z))
| Swrite (fd : Z) (bytes : list Z) : sysE Z
| Sread (fd n : Z) : sysE (Z * list Z)
| Sclose (fd : Z) : sysE Z
| Skill (pid : Z) : sysE Z
| Sexec (path : list Z) (argv : list (list Z)) : sysE Z
| Sopen (path : list Z) (omode : Z) : sysE Z
| Smknod (path : list Z) (major minor : Z) : sysE Z
| Sunlink (path : list Z) : sysE Z
| Sfstat (fd : Z) : sysE (Z * stat)
| Slink (old new : list Z) : sysE Z
| Smkdir (path : list Z) : sysE Z
| Schdir (path : list Z) : sysE Z
| Sdup (fd : Z) : sysE Z
| Sgetpid : sysE Z
| Ssbrk (n : Z) : sysE Z
| Ssleep (n : Z) : sysE Z
| Suptime : sysE Z
| Sflpf (ebx : Z) : sysE Z
| Sget_parent_pid : sysE Z
| Ssem_init (i v : Z) : sysE Z
| Ssem_acquire (i : Z) : sysE Z
| Ssem_release (i : Z) : sysE Z
(** calls with an address of the program's choice: [link]'s second string, [read]'s buffer, the stack of [sleep] *)
| Slink_at (old : list Z) (p : Z) : sysE Z
| Sread_at (fd p n : Z) : sysE Z
| Ssleep_at (esp : Z) : sysE Z
(** instructions whose effect is the machine's: a byte of memory, an I/O port, a loop that never ends *)
| Xload (a : Z) : sysE Z
| Xstore (a v : Z) : sysE unit
| Xoutb (port v : Z) : sysE unit
| Xinb (port : Z) : sysE Z
| Xspin : sysE Empty_set.

(** A program: done, a call and what follows it, or undefined behaviour. *)
Inductive user (A : Type) : Type :=
| URet (a : A)
| USys {R : Type} (e : sysE R) (k : R -> user A)
| UBad (msg : string).
Arguments URet {A} a.
Arguments USys {A R} e k.
Arguments UBad {A} msg.

Fixpoint ubind {A B} (m : user A) (f : A -> user B) : user B :=
  match m with
  | URet a => f a
  | USys e k => USys e (fun r => ubind (k r) f)
  | UBad msg => UBad msg
  end.

Declare Scope user_scope.
Delimit Scope user_scope with user.
Notation "x <- m ;; k" := (ubind m (fun x => k))
  (at level 100, m at next level, right associativity) : user_scope.
Notation "m ;;; k" := (ubind m (fun _ => k))
  (at level 100, right associativity) : user_scope.
Local Open Scope user_scope.

Definition call {R} (e : sysE R) : user R := USys e URet.
Definition exit {A} : user A := USys Sexit (fun r => match r with end).

Definition ubounds {A} (o : option A) : user A :=
  match o with Some a => URet a | None => UBad "undefined behaviour" end.

(** [for(i = ...; i < argc; i++) body(argv[i])] *)
Fixpoint ueach {A} (l : list A) (f : A -> user unit) : user unit :=
  match l with
  | [] => URet tt
  | x :: l' => f x ;;; ueach l' f
  end.

(** The bytes of a string literal. *)
Definition str (s : string) : list Z := (fun c => Z.of_nat (nat_of_ascii c)) <$> String.list_ascii_of_string s.

(** ** printf.c *)

Inductive parg := PInt (v : Z) | PStr (s : list Z).

Definition putc (fd c : Z) : user unit := call (Swrite fd [u8 c]) ;;; URet tt.
Definition puts (fd : Z) (s : list Z) : user unit := ueach s (putc fd).

(** The argument of [%c] in the format, for the character [c] after the percent sign. *)
Definition uprintf_arg (fd c : Z) (ap : list parg) : user (list parg) :=
  if c =? 100 then
    match ap with
    | PInt v :: ap' => o <- ubounds (printint true (i32 v) 10 true) ;; puts fd o ;;; URet ap'
    | _ => UBad "undefined behaviour"
    end
  else if (c =? 120) || (c =? 112) then
    match ap with
    | PInt v :: ap' => o <- ubounds (printint true (i32 v) 16 false) ;; puts fd o ;;; URet ap'
    | _ => UBad "undefined behaviour"
    end
  else if c =? 115 then
    match ap with
    | PStr s :: ap' => puts fd s ;;; URet ap'
    | PInt v :: ap' => if v =? 0 then puts fd null_string ;;; URet ap' else UBad "undefined behaviour"
    | [] => UBad "undefined behaviour"
    end
  else if c =? 99 then
    match ap with
    | PInt v :: ap' => putc fd v ;;; URet ap'
    | _ => UBad "undefined behaviour"
    end
  else if c =? 37 then putc fd c ;;; URet ap
  else putc fd 37 ;;; putc fd c ;;; URet ap.

Fixpoint uprintf_loop (fd : Z) (fmt : list Z) (percent : bool) (ap : list parg) : user unit :=
  match fmt with
  | [] => URet tt
  | c :: fmt' =>
      if negb percent then
        if c =? 37 then uprintf_loop fd fmt' true ap
        else putc fd c ;;; uprintf_loop fd fmt' false ap
      else
        ap <- uprintf_arg fd c ap ;;
        uprintf_loop fd fmt' false ap
  end.
Definition printf (fd : Z) (fmt : list Z) (ap : list parg) : user unit := uprintf_loop fd fmt false ap.

(** ** ulib.c *)

(** The loop of [gets] with room for [n] more characters; ['\n'] is 10, ['\r'] 13. *)
Fixpoint ugets_loop (n : nat) (acc : list Z) : user (list Z) :=
  match n with
  | O => URet acc
  | S n' =>
      r <- call (Sread 0 1) ;;
      let '(cc, l) := r in
      if cc <? 1 then URet acc
      else
        c <- ubounds (head l) ;;
        if (c =? 10) || (c =? 13) then URet (acc ++ [c]) else ugets_loop n' (acc ++ [c])
  end.
Definition gets (max : Z) : user (list Z) := ugets_loop (Z.to_nat (max - 1)) [].

Definition stat_path (n : list Z) : user (Z * stat) :=
  fd <- call (Sopen n 0) ;;
  if fd <? 0 then URet (-1, mkStat 0 0 0 0 0)
  else
    r <- call (Sfstat fd) ;;
    call (Sclose fd) ;;;
    URet r.

(** [n = n*10 + *s++ - '0'] *)
Fixpoint uatoi_loop (s : list Z) (n : Z) : Z :=
  match s with
  | [] => n
  | c :: s' => if (48 <=? c) && (c <=? 57) then uatoi_loop s' (i32 (n * 10 + c - 48)) else n
  end.
Definition atoi (s : list Z) : Z := uatoi_loop s 0.

(** The index of the first [c] in [s]. *)
Fixpoint strchr (s : list Z) (c : Z) : option nat :=
  match s with
  | [] => None
  | x :: s' => if x =? c then Some O else S <$> strchr s' c
  end.
Definition is_in (s : list Z) (c : Z) : bool := bool_decide (is_Some (strchr s c)).

(** ** Answering the calls *)

(** The streams to be read and the bytes written, by descriptor; [next] is what [open]
    returns next for each path. *)
Record streams := mkStreams {
  s_in : gmap Z (list Z);
  s_out : gmap Z (list Z);
  s_files : gmap (list Z) (list Z);
  s_next : Z
}.

Inductive ures (A : Type) := Done (a : A) | Exited | Bad (msg : string).
Arguments Done {A} a.
Arguments Exited {A}.
Arguments Bad {A} msg.

Section run.
(** How many bytes a read may fall short: of [n] available bytes it returns at least one. *)
Variable short : list Z -> Z -> nat.
Definition read_count (l : list Z) (n : Z) : nat := Nat.min (Nat.min (Z.to_nat n) (length l)) (S (short l n)).

Definition answer {R} (e : sysE R) (s : streams) : option (R * streams) :=
  match e in sysE R return option (R * streams) with
  | Sread fd n =>
      match s_in s !! fd with
      | Some l => let k := read_count l n in
          Some ((Z.of_nat k, take k l), mkStreams (<[fd := drop k l]> (s_in s)) (s_out s) (s_files s) (s_next s))
      | None => Some ((-1, []), s)
      end
  | Swrite fd bytes =>
      Some (Z.of_nat (length bytes), mkStreams (s_in s) (<[fd := default [] (s_out s !! fd) ++ bytes]> (s_out s)) (s_files s) (s_next s))
  | Sopen path _ =>
      match s_files s !! path with
      | Some l => Some (s_next s, mkStreams (<[s_next s := l]> (s_in s)) (s_out s) (s_files s) (s_next s + 1))
      | None => Some (-1, s)
      end
  | Sclose fd => Some (0, mkStreams (delete fd (s_in s)) (s_out s) (s_files s) (s_next s))
  | _ => None
  end.

Fixpoint run {A} (m : user A) (s : streams) : ures A * streams :=
  match m with
  | URet a => (Done a, s)
  | UBad msg => (Bad msg, s)
  | USys e k =>
      match e with
      | Sexit => (Exited, s)
      | _ => match answer e s with Some (r, s') => run (k r) s' | None => (Bad "no answer", s) end
      end
  end.
End run.

Lemma run_bind short {A B} (m : user A) (f : A -> user B) s :
  run short (ubind m f) s =
  match run short m s with
  | (Done a, s') => run short (f a) s'
  | (Exited, s') => (Exited, s')
  | (Bad msg, s') => (Bad msg, s')
  end.
Proof.
  revert s. induction m as [a|R e k IH|msg]; intros s; [done| |done].
  cbn [ubind run]. destruct e; try done; destruct (answer _ _ s) as [[r s']|]; try done; apply IH.
Qed.

(** What is written to descriptor [fd]. *)
Definition output (fd : Z) (s : streams) : list Z := default [] (s_out s !! fd).
Definition emit (fd : Z) (l : list Z) (s : streams) : streams :=
  mkStreams (s_in s) (<[fd := output fd s ++ l]> (s_out s)) (s_files s) (s_next s).

Lemma run_write short {A} fd l (k : Z -> user A) s :
  run short (USys (Swrite fd l) k) s = run short (k (Z.of_nat (length l))) (emit fd l s).
Proof. done. Qed.

(** Only [l] has been written to [fd]. *)
Definition printed (fd : Z) (l : list Z) (s s' : streams) : Prop :=
  s_in s' = s_in s /\ s_files s' = s_files s /\ s_next s' = s_next s /\ output fd s' = output fd s ++ l /\
  forall fd', fd' <> fd -> output fd' s' = output fd' s.

Lemma printed_nil fd s : printed fd [] s s.
Proof. by unfold printed; rewrite app_nil_r. Qed.

Lemma printed_emit fd l s : printed fd l s (emit fd l s).
Proof.
  unfold printed, emit, output. cbn. rewrite lookup_insert_eq. split_and!; [done..|]. intros fd' Hne. by rewrite lookup_insert_ne.
Qed.

Lemma printed_app fd l l' s s' s'' : printed fd l s s' -> printed fd l' s' s'' -> printed fd (l ++ l') s s''.
Proof.
  intros (H1 & H2 & H3 & H4 & H5) (K1 & K2 & K3 & K4 & K5). split_and!; try congruence; [by rewrite K4, H4, app_assoc|].
  intros fd' Hne. by rewrite K5, H5.
Qed.

(** [l] is what is left to read from [fd]. *)
Definition set_in (fd : Z) (l : list Z) (s : streams) : streams :=
  mkStreams (<[fd := l]> (s_in s)) (s_out s) (s_files s) (s_next s).

Lemma printed_set_in fd l fd' r s s' : printed fd l s s' -> printed fd l (set_in fd' r s) (set_in fd' r s').
Proof. intros (H1 & H2 & H3 & H4 & H5). split_and!; try done. cbn. by rewrite H1. Qed.

Lemma set_in_twice fd l l' s : set_in fd l (set_in fd l' s) = set_in fd l s.
Proof. unfold set_in. cbn. by rewrite insert_insert_eq. Qed.

Lemma set_in_same fd l s : s_in s !! fd = Some l -> set_in fd l s = s.
Proof. intros Hl. unfold set_in. rewrite insert_id by done. by destruct s. Qed.

Lemma run_read short {A} fd n l (k : Z * list Z -> user A) s : s_in s !! fd = Some l ->
  run short (USys (Sread fd n) k) s =
  let c := read_count short l n in run short (k (Z.of_nat c, take c l)) (set_in fd (drop c l) s).
Proof. intros Hl. cbn [run answer]. by rewrite Hl. Qed.

(** A file, not a pipe or the console: a read returns all it was asked for. *)
Definition full_reads (short : list Z -> Z -> nat) : Prop := forall l n, (Z.to_nat n <= S (short l n))%nat.

Lemma full_count short l n : full_reads short -> read_count short l n = Nat.min (Z.to_nat n) (length l).
Proof. intros Hf. unfold read_count. specialize (Hf l n). lia. Qed.
