(* ===== verification/Utils.v ===== *)
(** * Utils: the small user programs

    cat, wc, echo, ls, rm, mkdir, ln, kill, init, zombie, forktest, stressfs and the
    programs of the lab (flpf, get_pid, test_gpp, prime_numbers).  [argv] is the list of
    the arguments, the name of the program first.  Loops that run until the end of a
    stream take fuel, one unit a turn. *)

From stdpp Require Import base gmap list strings.
From Stdlib Require Import ZArith Lia.
From S2P Require Import Prelude State Fs Sysfile User.

Local Open Scope Z_scope.
Local Open Scope user_scope.

Definition out_of_fuel {A} : user A := UBad "out of fuel".

(** ** echo.c *)

Fixpoint echo_loop (args : list (list Z)) : user unit :=
  match args with
  | [] => URet tt
  | a :: rest =>
      printf 1 (str "%s%s") [PStr a; PStr (match rest with [] => [10] | _ => str " " end)] ;;;
      echo_loop rest
  end.
Definition echo_main (argv : list (list Z)) : user unit := echo_loop (tail argv) ;;; exit.

(** ** cat.c *)

Fixpoint cat (fuel : nat) (fd : Z) : user unit :=
  match fuel with
  | O => out_of_fuel
  | S fuel' =>
      r <- call (Sread fd 512) ;;
      let '(n, buf) := r in
      if 0 <? n then
        w <- call (Swrite 1 buf) ;;
        if negb (w =? n) then
          printf 1 (str "cat: write error" ++ [10]) [] ;;;
          exit
        else cat fuel' fd
      else if n <? 0 then
        printf 1 (str "cat: read error" ++ [10]) [] ;;;
        exit
      else URet tt
  end.

Definition cat_main (fuel : nat) (argv : list (list Z)) : user unit :=
  if (length argv <=? 1)%nat then
    cat fuel 0 ;;;
    exit
  else
    ueach (tail argv) (fun a =>
      fd <- call (Sopen a 0) ;;
      if fd <? 0 then
        printf 1 (str "cat: cannot open %s" ++ [10]) [PStr a] ;;;
        exit
      else
        cat fuel fd ;;;
        call (Sclose fd) ;;;
        URet tt) ;;;
    exit.

(** ** wc.c *)

(** [" \r\t\n\v"] *)
Definition wc_blanks : list Z := [32; 13; 9; 10; 11].

(** [l], [w], [c] and [inword] *)
Record counts := mkCounts { c_lines : Z; c_words : Z; c_chars : Z; c_inword : bool }.

Definition wc_char (x : counts) (b : Z) : counts :=
  let c := i32 (c_chars x + 1) in
  let l := if b =? 10 then i32 (c_lines x + 1) else c_lines x in
  if is_in wc_blanks b then mkCounts l (c_words x) c false
  else if negb (c_inword x) then mkCounts l (i32 (c_words x + 1)) c true
  else mkCounts l (c_words x) c (c_inword x).

Fixpoint wc_loop (fuel : nat) (fd : Z) (x : counts) : user (Z * counts) :=
  match fuel with
  | O => out_of_fuel
  | S fuel' =>
      r <- call (Sread fd 512) ;;
      let '(n, buf) := r in
      if 0 <? n then wc_loop fuel' fd (foldl wc_char x buf) else URet (n, x)
  end.

Definition wc (fuel : nat) (fd : Z) (name : list Z) : user unit :=
  r <- wc_loop fuel fd (mkCounts 0 0 0 false) ;;
  let '(n, x) := r in
  if n <? 0 then
    printf 1 (str "wc: read error" ++ [10]) [] ;;;
    exit
  else
    printf 1 (str "%d %d %d %s" ++ [10]) [PInt (c_lines x); PInt (c_words x); PInt (c_chars x); PStr name].

Definition wc_main (fuel : nat) (argv : list (list Z)) : user unit :=
  if (length argv <=? 1)%nat then
    wc fuel 0 [] ;;;
    exit
  else
    ueach (tail argv) (fun a =>
      fd <- call (Sopen a 0) ;;
      if fd <? 0 then
        printf 1 (str "wc: cannot open %s" ++ [10]) [PStr a] ;;;
        exit
      else
        wc fuel fd a ;;;
        call (Sclose fd) ;;;
        URet tt) ;;;
    exit.

(** ** ls.c *)

(** The characters after the last slash (47). *)
Definition after_slash (path : list Z) : list Z :=
  let p := take_while (fun c => negb (c =? 47)) (rev path) in rev p.

(** [static char buf[DIRSIZ+1]]: its last byte is never written. *)
Definition fmtname (path : list Z) : list Z :=
  let p := after_slash path in
  if (14 <=? length p)%nat then p else p ++ replicate (14 - length p) 32.

(** The C string at the start of a block of bytes. *)
Definition c_string (l : list Z) : list Z := take_while (fun c => negb (c =? 0)) l.

Definition ls_line (name : list Z) (st : stat) : user unit :=
  printf 1 (str "%s %d %d %d" ++ [10]) [PStr name; PInt (st_type st); PInt (st_ino st); PInt (st_size st)].

(** [while(read(fd, &de, sizeof(de)) == sizeof(de))] with [path] and a slash in [buf] *)
Fixpoint ls_entries (fuel : nat) (fd : Z) (path : list Z) : user unit :=
  match fuel with
  | O => out_of_fuel
  | S fuel' =>
      r <- call (Sread fd 16) ;;
      let '(n, de) := r in
      if negb (n =? 16) then URet tt
      else if de_inum de =? 0 then ls_entries fuel' fd path
      else
        let buf := path ++ [47] ++ c_string (de_name de) in
        r <- stat_path buf ;;
        let '(v, st) := r in
        (if v <? 0 then printf 1 (str "ls: cannot stat %s" ++ [10]) [PStr buf]
         else ls_line (fmtname buf) st) ;;;
        ls_entries fuel' fd path
  end.

Definition ls (fuel : nat) (path : list Z) : user unit :=
  fd <- call (Sopen path 0) ;;
  if fd <? 0 then printf 2 (str "ls: cannot open %s" ++ [10]) [PStr path]
  else
    r <- call (Sfstat fd) ;;
    let '(v, st) := r in
    if v <? 0 then
      printf 2 (str "ls: cannot stat %s" ++ [10]) [PStr path] ;;;
      call (Sclose fd) ;;;
      URet tt
    else
      (if st_type st =? T_FILE then ls_line (fmtname path) st
       else if st_type st =? T_DIR then
         if 512 <? Z.of_nat (length path) + 1 + DIRSIZ + 1 then printf 1 (str "ls: path too long" ++ [10]) []
         else ls_entries fuel fd path
       else URet tt) ;;;
      call (Sclose fd) ;;;
      URet tt.

Definition ls_main (fuel : nat) (argv : list (list Z)) : user unit :=
  if (length argv <? 2)%nat then
    ls fuel (str ".") ;;;
    exit
  else
    ueach (tail argv) (ls fuel) ;;;
    exit.

(** ** rm.c, mkdir.c, ln.c, kill.c *)

(** The loops of [rm] and [mkdir] stop at the first failure. *)
Fixpoint rm_loop (args : list (list Z)) : user unit :=
  match args with
  | [] => URet tt
  | a :: rest =>
      r <- call (Sunlink a) ;;
      if r <? 0 then printf 2 (str "rm: %s failed to delete" ++ [10]) [PStr a] else rm_loop rest
  end.
Definition rm_main (argv : list (list Z)) : user unit :=
  if (length argv <? 2)%nat then
    printf 2 (str "Usage: rm files..." ++ [10]) [] ;;;
    exit
  else
    rm_loop (tail argv) ;;;
    exit.

Fixpoint mkdir_loop (args : list (list Z)) : user unit :=
  match args with
  | [] => URet tt
  | a :: rest =>
      r <- call (Smkdir a) ;;
      if r <? 0 then printf 2 (str "mkdir: %s failed to create" ++ [10]) [PStr a] else mkdir_loop rest
  end.
Definition mkdir_main (argv : list (list Z)) : user unit :=
  if (length argv <? 2)%nat then
    printf 2 (str "Usage: mkdir files..." ++ [10]) [] ;;;
    exit
  else
    mkdir_loop (tail argv) ;;;
    exit.

Definition ln_main (argv : list (list Z)) : user unit :=
  match argv with
  | [_; old; new] =>
      r <- call (Slink old new) ;;
      (if r <? 0 then printf 2 (str "link %s %s: failed" ++ [10]) [PStr old; PStr new] else URet tt) ;;;
      exit
  | _ =>
      printf 2 (str "Usage: ln old new" ++ [10]) [] ;;;
      exit
  end.

Definition kill_main (argv : list (list Z)) : user unit :=
  if (length argv <? 2)%nat then
    printf 2 (str "usage: kill pid..." ++ [10]) [] ;;;
    exit
  else
    ueach (tail argv) (fun a => call (Skill (atoi a)) ;;; URet tt) ;;;
    exit.

(** ** init.c *)

(** [while((wpid=wait()) >= 0 && wpid != pid) printf(1, "zombie!\n");] *)
Fixpoint init_wait (fuel : nat) (pid : Z) : user unit :=
  match fuel with
  | O => out_of_fuel
  | S fuel' =>
      wpid <- call Swait ;;
      if (0 <=? wpid) && negb (wpid =? pid) then
        printf 1 (str "zombie!" ++ [10]) [] ;;;
        init_wait fuel' pid
      else URet tt
  end.

Definition init_banner : user unit :=
  printf 1 (str "init: starting sh" ++ [10]) [] ;;;
  printf 1 (str "1.Amir-Hossein_Shahgholi" ++ [10]) [] ;;;
  printf 1 (str "2.Erfan_Soleymani" ++ [10]) [] ;;;
  printf 1 (str "3.Amir-Hossein_Abdoli" ++ [10]) [].

(** The [for(;;)] loop. *)
Fixpoint init_loop (fuel : nat) : user unit :=
  match fuel with
  | O => out_of_fuel
  | S fuel' =>
      init_banner ;;;
      pid <- call Sfork ;;
      if pid <? 0 then
        printf 1 (str "init: fork failed" ++ [10]) [] ;;;
        exit
      else if pid =? 0 then
        call (Sexec (str "sh") [str "sh"]) ;;;
        printf 1 (str "init: exec sh failed" ++ [10]) [] ;;;
        exit
      else
        init_wait fuel' pid ;;;
        init_loop fuel'
  end.

Definition init_main (fuel : nat) : user unit :=
  fd <- call (Sopen (str "console") O_RDWR) ;;
  (if fd <? 0 then
     call (Smknod (str "console") 1 1) ;;;
     call (Sopen (str "console") O_RDWR) ;;;
     URet tt
   else URet tt) ;;;
  call (Sdup 0) ;;;
  call (Sdup 0) ;;;
  init_loop fuel.

(** ** zombie.c, forktest.c, stressfs.c *)

Definition zombie_main : user unit :=
  pid <- call Sfork ;;
  (if 0 <? pid then call (Ssleep 5) ;;; URet tt else URet tt) ;;;
  exit.

(** forktest's own [printf]: the format as it is. *)
Definition ft_printf (fd : Z) (s : list Z) : user unit := call (Swrite fd s) ;;; URet tt.

(** The forks: [n] done when it stops, [k] to go. *)
Fixpoint ft_forks (k : nat) (n : Z) : user Z :=
  match k with
  | O => URet n
  | S k' =>
      pid <- call Sfork ;;
      if pid <? 0 then URet n
      else if pid =? 0 then exit
      else ft_forks k' (n + 1)
  end.
Fixpoint ft_waits (n : nat) : user unit :=
  match n with
  | O => URet tt
  | S n' =>
      r <- call Swait ;;
      if r <? 0 then
        ft_printf 1 (str "wait stopped early" ++ [10]) ;;;
        exit
      else ft_waits n'
  end.
Definition forktest : user unit :=
  ft_printf 1 (str "fork test" ++ [10]) ;;;
  n <- ft_forks 1000 0 ;;
  if n =? 1000 then
    ft_printf 1 (str "fork claimed to work N times!" ++ [10]) ;;;
    exit
  else
    ft_waits (Z.to_nat n) ;;;
    r <- call Swait ;;
    if negb (r =? -1) then
      ft_printf 1 (str "wait got too many" ++ [10]) ;;;
      exit
    else ft_printf 1 (str "fork test OK" ++ [10]).
Definition forktest_main : user unit := forktest ;;; exit.

(** [for(i = 0; i < 4; i++) if(fork() > 0) break;] from [i] on, [k] turns left *)
Fixpoint sf_forks (k : nat) (i : Z) : user Z :=
  match k with
  | O => URet i
  | S k' => pid <- call Sfork ;; if 0 <? pid then URet i else sf_forks k' (i + 1)
  end.
Definition stressfs_main : user unit :=
  let data := replicate 512 97 in
  printf 1 (str "stressfs starting" ++ [10]) [] ;;;
  i <- sf_forks 4 0 ;;
  printf 1 (str "write %d" ++ [10]) [PInt i] ;;;
  let path := str "stressfs" ++ [48 + i] in
  fd <- call (Sopen path (Z.lor O_CREATE O_RDWR)) ;;
  ueach (seq 0 20) (fun _ => call (Swrite fd data) ;;; URet tt) ;;;
  call (Sclose fd) ;;;
  printf 1 (str "read" ++ [10]) [] ;;;
  fd <- call (Sopen path O_RDONLY) ;;
  ueach (seq 0 20) (fun _ => call (Sread fd 512) ;;; URet tt) ;;;
  call (Sclose fd) ;;;
  call Swait ;;;
  exit.

(** ** The programs of the lab *)

(** The inline assembly puts [num] into %ebx for the call. *)
Definition flpf_main (argv : list (list Z)) : user unit :=
  a <- ubounds (argv !! 1%nat) ;;
  r <- call (Sflpf (atoi a)) ;;
  printf 1 (str "Result: %d" ++ [10]) [PInt r] ;;;
  exit.

Definition get_pid : user unit :=
  pid <- call Sgetpid ;;
  printf 1 (str "Pid = %d" ++ [10]) [PInt pid] ;;;
  exit.

(** [while(wait() != -1);] *)
Fixpoint wait_all (fuel : nat) : user unit :=
  match fuel with
  | O => out_of_fuel
  | S fuel' => r <- call Swait ;; if r =? -1 then URet tt else wait_all fuel'
  end.

Definition test_gpp_main (fuel : nat) : user unit :=
  let parent :=
    p <- call Sget_parent_pid ;; printf 1 (str "parent=%d" ++ [10]) [PInt p] in
  p0 <- call Sfork ;;
  p1 <- call Sfork ;;
  (if negb (p1 =? 0) && (p0 =? 0) then parent else URet tt) ;;;
  p2 <- call Sfork ;;
  (if negb (p2 =? 0) && (p1 =? 0) && (p0 =? 0) then parent else URet tt) ;;;
  wait_all fuel ;;;
  exit.

(** [flag]: some [j] of [2 <= j < i] divides [i]. *)
Definition has_divisor (i : Z) : bool :=
  existsb (fun k => Z.rem i (2 + Z.of_nat k) =? 0) (seq 0 (Z.to_nat (i - 2))).

Definition prime_numbers (argv : list (list Z)) : user unit :=
  fd <- call (Sopen (str "prime_numbers.txt") (Z.lor O_CREATE O_WRONLY)) ;;
  a <- ubounds (argv !! 1%nat) ;;
  b <- ubounds (argv !! 2%nat) ;;
  ueach (seq 0 (Z.to_nat (atoi b - atoi a + 1))) (fun k =>
    let i := atoi a + Z.of_nat k in
    if has_divisor i then URet tt else printf fd (str "%d" ++ [10]) [PInt i]) ;;;
  call (Sclose fd) ;;;
  exit.
