(* ===== verification/Grep.v ===== *)
(** * Grep: regular expressions and the lines that match them (grep.c)

    The matcher of Kernighan and Pike on strings, against the language of its patterns;
    the loop over the lines of a stream. *)

From stdpp Require Import base gmap list strings.
From Stdlib Require Import ZArith Lia.
From S2P Require Import Prelude State Fs User Utils.

Local Open Scope Z_scope.
Local Open Scope user_scope.

(** ** The matcher *)

(** [here] is [matchhere(re, .)]; ['.'] is 46. *)
Fixpoint matchstar (c : Z) (here : list Z -> bool) (text : list Z) : bool :=
  here text || match text with
               | [] => false
               | t :: text' => ((t =? c) || (c =? 46)) && matchstar c here text'
               end.

(** ['*'] is 42, ['$'] is 36. *)
Fixpoint matchhere (re text : list Z) {struct re} : bool :=
  match re with
  | [] => true
  | c :: re1 =>
      let step :=
        if (c =? 36) && bool_decide (re1 = []) then bool_decide (text = [])
        else match text with
             | [] => false
             | t :: text' => ((c =? 46) || (c =? t)) && matchhere re1 text'
             end in
      match re1 with
      | x :: re2 => if x =? 42 then matchstar c (matchhere re2) text else step
      | [] => step
      end
  end.

(** [do if(matchhere(re, text)) return 1; while( *text++ != '\0');] *)
Fixpoint match_anywhere (re text : list Z) : bool :=
  matchhere re text || match text with [] => false | _ :: text' => match_anywhere re text' end.

(** ['^'] is 94. *)
Definition match_ (re text : list Z) : bool :=
  match re with
  | c :: re' => if c =? 94 then matchhere re' text else match_anywhere re text
  | [] => match_anywhere re text
  end.

(** ** The lines *)

(** [while((q = strchr(p, '\n')) != 0)]: what is left at [p] after it. *)
Fixpoint grep_lines (fuel : nat) (pattern p : list Z) : user (list Z) :=
  match fuel with
  | O => out_of_fuel
  | S fuel' =>
      match strchr (c_string p) 10 with
      | None => URet p
      | Some q =>
          (if match_ pattern (take q p) then call (Swrite 1 (take (S q) p)) ;;; URet tt else URet tt) ;;;
          grep_lines fuel' pattern (drop (S q) p)
      end
  end.

(** The loop of [grep]: [buf] is the first [m] bytes of the buffer of 1024. *)
Fixpoint grep_loop (fuel : nat) (pattern : list Z) (fd : Z) (buf : list Z) : user unit :=
  match fuel with
  | O => out_of_fuel
  | S fuel' =>
      r <- call (Sread fd (1024 - Z.of_nat (length buf) - 1)) ;;
      let '(n, l) := r in
      if 0 <? n then
        let buf := buf ++ l in
        p <- grep_lines (S (length buf)) pattern buf ;;
        if (length p =? length buf)%nat then grep_loop fuel' pattern fd []
        else grep_loop fuel' pattern fd p
      else URet tt
  end.
Definition grep (fuel : nat) (pattern : list Z) (fd : Z) : user unit := grep_loop fuel pattern fd [].

Definition grep_main (fuel : nat) (argv : list (list Z)) : user unit :=
  match argv with
  | _ :: pattern :: files =>
      match files with
      | [] =>
          grep fuel pattern 0 ;;;
          exit
      | _ =>
          ueach files (fun a =>
            fd <- call (Sopen a 0) ;;
            if fd <? 0 then
              printf 1 (str "grep: cannot open %s" ++ [10]) [PStr a] ;;;
              exit
            else
              grep fuel pattern fd ;;;
              call (Sclose fd) ;;;
              URet tt) ;;;
          exit
      end
  | _ =>
      printf 2 (str "usage: grep pattern [file ...]" ++ [10]) [] ;;;
      exit
  end.

(** ** The language of a pattern *)

(** A character or any character, once or repeated. *)
Inductive atom := One (c : option Z) | Many (c : option Z).

Definition sym (c : Z) : option Z := if c =? 46 then None else Some c.
Definition fits (c : option Z) (x : Z) : Prop := match c with None => True | Some y => x = y end.

(** The atoms of a pattern and whether it ends in ['$']. *)
Fixpoint parse (re : list Z) : list atom * bool :=
  match re with
  | [] => ([], false)
  | c :: re1 =>
      let step := if (c =? 36) && bool_decide (re1 = []) then ([], true) else (One (sym c) :: (parse re1).1, (parse re1).2) in
      match re1 with
      | x :: re2 => if x =? 42 then (Many (sym c) :: (parse re2).1, (parse re2).2) else step
      | [] => step
      end
  end.

Fixpoint lang (l : list atom) (w : list Z) : Prop :=
  match l with
  | [] => w = []
  | One c :: l' => exists x w', w = x :: w' /\ fits c x /\ lang l' w'
  | Many c :: l' => exists u v, w = u ++ v /\ Forall (fits c) u /\ lang l' v
  end.

(** A word of the pattern at the start of [text], all of it if the pattern is anchored. *)
Definition starts (p : list atom * bool) (text : list Z) : Prop :=
  exists w v, text = w ++ v /\ lang p.1 w /\ (p.2 = true -> v = []).

(** [starts] with the first atom dealt with. *)
Lemma starts_one c l e text :
  starts (One c :: l, e) text <-> exists x text', text = x :: text' /\ fits c x /\ starts (l, e) text'.
Proof.
  split.
  - intros (w & v & -> & (x & w' & -> & Hx & Hl) & He). exists x, (w' ++ v). split; [done|]. split; [done|]. by exists w', v.
  - intros (x & text' & -> & Hx & w & v & -> & Hl & He). exists (x :: w), v. split; [done|]. split; [by exists x, w|done].
Qed.

Lemma starts_many c l e text :
  starts (Many c :: l, e) text <->
  starts (l, e) text \/ exists x text', text = x :: text' /\ fits c x /\ starts (Many c :: l, e) text'.
Proof.
  split.
  - intros (w & v & -> & (u & w' & -> & Hu & Hl) & He). destruct Hu as [|x u Hx Hu]; [left; by exists w', v|].
    right. exists x, (u ++ w' ++ v). split; [by rewrite <- !app_assoc|]. split; [done|].
    exists (u ++ w'), v. split; [by rewrite app_assoc|]. split; [by exists u, w'|done].
  - intros [(w & v & -> & Hl & He)|(x & text' & -> & Hx & w & v & -> & (u & w' & -> & Hu & Hl) & He)].
    + exists w, v. split; [done|]. split; [by exists [], w|done].
    + exists (x :: u ++ w'), v. split; [done|]. split; [|done]. exists (x :: u), w'. by split_and!; [|constructor|].
Qed.

Lemma fits_sym c t : (t =? c) || (c =? 46) = true <-> fits (sym c) t.
Proof.
  unfold sym. destruct (Z.eqb_spec c 46) as [->|]; simpl; [by rewrite orb_true_r|]. rewrite orb_false_r. apply Z.eqb_eq.
Qed.

Lemma matchstar_spec c here l e :
  (forall text, here text = true <-> starts (l, e) text) ->
  forall text, matchstar c here text = true <-> starts (Many (sym c) :: l, e) text.
Proof.
  intros Hh text. induction text as [|t text IH]; cbn [matchstar]; rewrite starts_many, orb_true_iff, Hh.
  - split; [intros [?|?]; [by left|done]|]. intros [?|(x & text' & ? & _)]; [by left|done].
  - rewrite andb_true_iff, fits_sym, IH. split.
    + intros [?|[? ?]]; [by left|right]. by exists t, text.
    + intros [?|(x & text' & [= <- <-] & ? & ?)]; [by left|by right].
Qed.

Lemma matchhere_spec re : forall text, matchhere re text = true <-> starts (parse re) text.
Proof.
  assert (forall n re, (length re <= n)%nat -> forall text, matchhere re text = true <-> starts (parse re) text) as H.
  { intros n. induction n as [|n IH]; intros [|c re1] Hlen text; simpl in Hlen; try lia.
    1, 2: split; [|done]; intros _; by exists [], text.
    assert (forall text, (if (c =? 36) && bool_decide (re1 = []) then bool_decide (text = [])
        else match text with [] => false | t :: text' => ((c =? 46) || (c =? t)) && matchhere re1 text' end) = true <->
      starts (if (c =? 36) && bool_decide (re1 = []) then ([], true) else (One (sym c) :: (parse re1).1, (parse re1).2)) text) as Hstep.
    { intros text'. destruct ((c =? 36) && bool_decide (re1 = [])).
      - rewrite bool_decide_eq_true. split; [intros ->; by exists [], []|].
        intros (w & v & -> & Hw & Hv). simpl in Hw, Hv. by rewrite Hw, Hv.
      - rewrite starts_one, <- surjective_pairing. destruct text' as [|t text']; [split; [done|by intros (x & ? & ? & _)]|].
        rewrite andb_true_iff, IH, orb_comm, Z.eqb_sym, fits_sym by lia. split.
        + intros [? ?]. by exists t, text'.
        + by intros (x & ? & [= <- <-] & ? & ?). }
    cbn [matchhere parse]. destruct re1 as [|x re2]; [apply Hstep|]. destruct (x =? 42); [|apply Hstep].
    rewrite (matchstar_spec c (matchhere re2) (parse re2).1 (parse re2).2); [done|].
    intros text'. rewrite <- surjective_pairing. apply IH. simpl in Hlen. lia. }
  by apply (H (length re)).
Qed.

(** Some part of [text] is a word of the pattern, its beginning after a ['^']. *)
Definition occurs (re text : list Z) : Prop := exists u v, text = u ++ v /\ starts (parse re) v.
Definition matches (re text : list Z) : Prop :=
  match re with
  | c :: re' => if c =? 94 then starts (parse re') text else occurs re text
  | [] => occurs re text
  end.

Lemma match_anywhere_spec re text : match_anywhere re text = true <-> occurs re text.
Proof.
  induction text as [|t text IH]; cbn [match_anywhere]; rewrite orb_true_iff, matchhere_spec.
  - split; [intros [?|?]; [|done]; by exists [], []|].
    intros (u & v & Huv & Hs). symmetry in Huv. apply app_eq_nil in Huv as [-> ->]. by left.
  - rewrite IH. split.
    + intros [?|(u & v & -> & ?)]; [by exists [], (t :: text)|by exists (t :: u), v].
    + intros ([|x u] & v & Huv & Hs); simpl in Huv; [subst; by left|]. injection Huv as <- ->. right. by exists u, v.
Qed.

Lemma match_spec re text : match_ re text = true <-> matches re text.
Proof.
  unfold match_, matches. destruct re as [|c re']; [apply match_anywhere_spec|].
  destruct (c =? 94); [apply matchhere_spec|apply match_anywhere_spec].
Qed.

#[global] Instance matches_dec re text : Decision (matches re text).
Proof. refine (cast_if (decide (match_ re text = true))); by rewrite <- match_spec. Defined.

(** ** The lines of a stream *)

Definition unlines (ls : list (list Z)) : list Z := concat ((fun l => l ++ [10]) <$> ls).
Definition line_ok (l : list Z) : Prop := 0 ∉ l /\ 10 ∉ l /\ (length l <= 1022)%nat.
Definition grepped (pattern : list Z) (ls : list (list Z)) : list Z := unlines (filter (matches pattern) ls).

Lemma unlines_app ls ls' : unlines (ls ++ ls') = unlines ls ++ unlines ls'.
Proof. unfold unlines. by rewrite fmap_app, concat_app. Qed.

Lemma unlines_cons l ls : unlines (l :: ls) = l ++ 10 :: unlines ls.
Proof. unfold unlines. cbn. by rewrite <- app_assoc. Qed.

Lemma c_string_app l l' : 0 ∉ l -> c_string (l ++ l') = l ++ c_string l'.
Proof.
  intros Hl. unfold c_string. induction l as [|x l IH]; [done|]. cbn [app take_while]. apply not_elem_of_cons in Hl as [Hx Hl].
  rewrite (proj2 (Z.eqb_neq x 0)) by done. cbn [negb]. by rewrite IH.
Qed.

Lemma strchr_app l l' c : c ∉ l -> strchr (l ++ l') c = (fun i => (length l + i)%nat) <$> strchr l' c.
Proof.
  induction l as [|x l IH]; intros Hl; cbn; [by destruct (strchr l' c)|]. apply not_elem_of_cons in Hl as [Hx Hl].
  rewrite (proj2 (Z.eqb_neq x c)), IH by done. by destruct (strchr l' c).
Qed.

Lemma strchr_none l c : c ∉ l -> strchr l c = None.
Proof. intros Hl. rewrite <- (app_nil_r l). by rewrite strchr_app. Qed.

Lemma grepped_app pattern ls ls' : grepped pattern (ls ++ ls') = grepped pattern ls ++ grepped pattern ls'.
Proof. unfold grepped. by rewrite filter_app, unlines_app. Qed.

(** The first line, when the buffer holds it with its newline. *)
Lemma split_line b rest l ls : (length l < length b)%nat -> b ++ rest = l ++ 10 :: unlines ls ->
  exists b', b = l ++ 10 :: b' /\ b' ++ rest = unlines ls.
Proof.
  intros Hlen Hb. exists (drop (S (length l)) b).
  pose proof (f_equal (drop (S (length l))) Hb) as Hd. pose proof (f_equal (take (S (length l))) Hb) as Ht.
  rewrite take_app_le in Ht by lia. rewrite drop_app_le in Hd by lia. rewrite cons_middle, app_assoc in Ht, Hd.
  rewrite take_app_length' in Ht by (rewrite length_app; simpl; lia). rewrite drop_app_length' in Hd by (rewrite length_app; simpl; lia).
  split; [|done]. by rewrite cons_middle, app_assoc, <- Ht, take_drop.
Qed.

Lemma grep_line short pattern l s : exists s',
  run short (if match_ pattern l then call (Swrite 1 (l ++ [10])) ;;; URet tt else URet tt) s = (Done tt, s') /\
  printed 1 (grepped pattern [l]) s s'.
Proof.
  unfold grepped. rewrite filter_cons, filter_nil. destruct (match_ pattern l) eqn:Hm.
  - rewrite decide_True by by apply match_spec. exists (emit 1 (l ++ [10]) s). split; [done|]. rewrite unlines_cons. apply printed_emit.
  - rewrite decide_False by by rewrite <- match_spec, Hm. exists s. split; [done|]. apply printed_nil.
Qed.

Lemma grep_lines_spec short pattern : forall ls b rest s fuel,
  b ++ rest = unlines ls -> Forall line_ok ls -> (length b < fuel)%nat ->
  exists dn ls' p s', ls = dn ++ ls' /\ run short (grep_lines fuel pattern b) s = (Done p, s') /\
    printed 1 (grepped pattern dn) s s' /\ p ++ rest = unlines ls' /\ b = unlines dn ++ p /\
    (length p <= length (default [] (head ls')))%nat.
Proof.
  induction ls as [|l ls IH]; intros b rest s fuel Hb Hls Hfuel; (destruct fuel as [|fuel]; [lia|]).
  { apply app_eq_nil in Hb as [-> ->]. exists [], [], [], s. split_and!; try done. apply printed_nil. }
  apply Forall_cons in Hls as [(H0 & H10 & Hlen) Hls]. rewrite unlines_cons in Hb.
  destruct (decide (length b <= length l)%nat) as [Hle|Hgt].
  - assert (b = take (length b) l) as Hbl.
    { pose proof (f_equal (take (length b)) Hb) as Ht. by rewrite take_app_length, take_app_le in Ht. }
    exists [], (l :: ls), b, s. split_and!; try done; [|apply printed_nil|by rewrite unlines_cons].
    assert (0 ∉ b) by (rewrite Hbl; intros Hin; by apply H0, (subseteq_take (length b))).
    assert (10 ∉ b) by (rewrite Hbl; intros Hin; by apply H10, (subseteq_take (length b))).
    cbn [grep_lines]. by rewrite <- (app_nil_r b), c_string_app, strchr_app by done.
  - apply split_line in Hb as (b' & -> & Hb'); [|lia]. rewrite !length_app in Hfuel. simpl in Hfuel.
    destruct (grep_line short pattern l s) as (s1 & Hrun & Hs1).
    destruct (IH b' rest s1 fuel Hb' Hls ltac:(lia)) as (dn & ls' & p & s' & -> & Hr & Hp & Hrest & -> & Hhd).
    exists (l :: dn), ls', p, s'. split_and!; try done.
    + cbn [grep_lines]. rewrite c_string_app, strchr_app by done.
      change (strchr (c_string (10 :: unlines dn ++ p)) 10) with (Some O). cbn [fmap option_fmap option_map]. rewrite Nat.add_0_r.
      rewrite take_app_length, run_bind. rewrite (cons_middle 10), !(app_assoc l [10]).
      rewrite take_app_length', drop_app_length' by (rewrite length_app; simpl; lia). by rewrite Hrun.
    + rewrite (grepped_app pattern [l] dn : grepped pattern (l :: dn) = _). by eapply printed_app.
    + by rewrite unlines_cons, <- app_assoc.
Qed.

(** A buffer that is full, or holds all that is left, has a whole line. *)
Lemma whole_line ls b rest : b ++ rest = unlines ls -> Forall line_ok ls -> b <> [] -> (length b = 1023)%nat \/ rest = [] ->
  (length (default [] (head ls)) < length b)%nat.
Proof.
  intros Hb Hls Hne Hor. destruct ls as [|l ls]; [by apply app_eq_nil in Hb as [-> _]|].
  apply Forall_cons in Hls as [(_ & _ & Hl) _]. change (length l < length b)%nat. destruct Hor as [Hfull| ->]; [lia|].
  rewrite app_nil_r in Hb. subst. rewrite unlines_cons, length_app. cbn. lia.
Qed.

Lemma grep_loop_spec short pattern fd : full_reads short -> forall fuel ls buf rest s,
  buf ++ rest = unlines ls -> Forall line_ok ls -> s_in s !! fd = Some rest ->
  (length buf <= length (default [] (head ls)))%nat -> (length rest < fuel)%nat ->
  exists s', run short (grep_loop fuel pattern fd buf) s = (Done tt, s') /\ printed 1 (grepped pattern ls) (set_in fd [] s) s'.
Proof.
  intros Hf. induction fuel as [|fuel IH]; intros ls buf rest s Hb Hls Hin Hbuf Hfuel; [lia|].
  assert (length buf <= 1022)%nat as Hroom.
  { destruct ls as [|l ls]; [cbn in Hbuf; lia|]. change (length buf <= length l)%nat in Hbuf. apply Forall_cons in Hls as [(_ & _ & ?) _]. lia. }
  cbn [grep_loop]. unfold call. cbn [ubind]. erewrite run_read by done. rewrite full_count by done. cbv zeta.
  set (k := Nat.min _ _). destruct (decide (k = 0)%nat) as [Hk|Hk].
  { assert (rest = []) as -> by (destruct rest; [done|exfalso; revert Hk; subst k; cbn [length]; lia]). rewrite Hk. cbn [Z.of_nat Z.ltb].
    exists s. split; [by rewrite set_in_same|]. rewrite set_in_same by done.
    destruct ls as [|l ls]; [apply printed_nil|]. apply (f_equal length) in Hb. rewrite unlines_cons, !length_app in Hb. change (length buf <= length l)%nat in Hbuf. cbn [length] in Hb. lia. }
  rewrite (proj2 (Z.ltb_lt _ _)) by lia. rewrite run_bind.
  assert ((buf ++ take k rest) ++ drop k rest = unlines ls) as Hb' by by rewrite <- app_assoc, take_drop.
  destruct (grep_lines_spec short pattern ls (buf ++ take k rest) (drop k rest) (set_in fd (drop k rest) s) (S (length (buf ++ take k rest))))
    as (dn & ls' & p & s1 & -> & -> & Hp & Hrest & Hbp & Hhd); [done..|lia|].
  assert (length p <> length (buf ++ take k rest)) as Hneq.
  { intros Heq. assert (dn = []) as ->.
    { destruct dn as [|l dn]; [done|]. rewrite Hbp, unlines_cons, !length_app in Heq. cbn in Heq. lia. }
    assert (Hw := whole_line ls' _ _ Hb' Hls). rewrite <- Heq in Hw. enough (length (default [] (head ls')) < length p)%nat by lia.
    apply Hw.
    - intros [_ Ht]%app_eq_nil. apply (f_equal length) in Ht. rewrite length_take in Ht. cbn [length] in Ht. subst k. lia.
    - destruct (decide (length rest <= k)%nat); [right; by apply drop_ge|left]. rewrite Heq, length_app, length_take. lia. }
  rewrite (proj2 (Nat.eqb_neq _ _)) by done. apply Forall_app in Hls as [_ Hls].
  assert (s_in s1 !! fd = Some (drop k rest)) as Hs1 by (destruct Hp as [-> _]; cbn; by rewrite lookup_insert_eq).
  destruct (IH ls' p (drop k rest) s1) as (s' & -> & Hs'); [done..|rewrite length_drop; lia|].
  exists s'. split; [done|]. rewrite grepped_app. eapply printed_app; [|done].
  rewrite <- (set_in_twice fd [] (drop k rest) s). by apply printed_set_in.
Qed.

(** C29: On a file of lines that fit its buffer, [grep] returns and has written exactly the lines
    that match the pattern, in their order, wherever the reads of 1023 bytes split them.  A line
    matches when some part of it (its beginning, after a caret) is a word of the pattern, where
    a dot is any character, a star repeats the character before it and a dollar sign at the end
    is the end of the line. *)
Theorem grep_prints short pattern fd ls s fuel :
  full_reads short -> Forall line_ok ls -> s_in s !! fd = Some (unlines ls) -> (length (unlines ls) < fuel)%nat ->
  exists s', run short (grep fuel pattern fd) s = (Done tt, s') /\
    output 1 s' = output 1 s ++ unlines (filter (matches pattern) ls) /\
    s_in s' = <[fd := []]> (s_in s) /\ forall fd', fd' <> 1 -> output fd' s' = output fd' s.
Proof.
  intros Hf Hls Hin Hfuel.
  destruct (grep_loop_spec short pattern fd Hf fuel ls [] (unlines ls) s) as (s' & Hrun & Hp1 & _ & _ & Hp2 & Hp3);
    [done..|cbn; lia|done|]. by exists s'.
Qed.

Definition three_lines : list (list Z) := [str "one"; str "two"; str "three"].
Definition on_input (l : list Z) : streams := mkStreams {[ 0 := l ]} ∅ ∅ 3.
Definition whole (l : list Z) (n : Z) : nat := Z.to_nat n.

Lemma grep_prints_witness : exists s',
  run whole (grep 100 (str "^t.*e$") 0) (on_input (unlines three_lines)) = (Done tt, s') /\ output 1 s' = str "three" ++ [10].
Proof.
  destruct (grep_prints whole (str "^t.*e$") 0 three_lines (on_input (unlines three_lines)) 100) as (s' & Hrun & Hout & _).
  - intros l n. unfold whole. lia.
  - unfold three_lines. repeat constructor; try (by apply (bool_decide_unpack _); vm_compute); cbn; lia.
  - done.
  - vm_compute. lia.
  - exists s'. split; [exact Hrun|]. rewrite Hout. by vm_compute.
Defined.

(** The same three lines from a pipe whose reads return one byte at a time: a read that brings
    no newline empties the buffer, so each line is seen as what its last read brought. *)
Example grep_short_reads :
  output 1 (snd (run (fun _ _ => O) (grep 100 (str "^t.*e$") 0) (on_input (unlines three_lines)))) = [] /\
  output 1 (snd (run (fun _ _ => O) (grep 100 (str "^$") 0) (on_input (unlines three_lines)))) = [10; 10; 10].
Proof. by vm_compute. Qed.
