(* ===== verification/Sh.v ===== *)
(** * Sh: the shell (sh.c)

    The command line as the bytes up to its NUL, pointers into it as positions; the tree
    of structs that the parser builds, with the counted strings as pairs of positions;
    [runcmd] and [main] as programs over the system calls.  [malloc] is taken to return
    memory: the shell does not check it. *)

From stdpp Require Import base gmap list strings.
From Stdlib Require Import ZArith Lia.
From S2P Require Import Prelude State Fs Sysfile User Utils.

Local Open Scope Z_scope.
Local Open Scope user_scope.

Definition MAXARGS : nat := 10.

(** ** Commands *)

(** A counted string: where it begins and ends. *)
Definition span : Type := nat * nat.

Inductive cmd :=
| EXEC (argv : list span)
| REDIR (c : cmd) (file : span) (mode fd : Z)
| PIPE (left right : cmd)
| LIST (left right : cmd)
| BACK (c : cmd).

Definition panic {A} (s : list Z) : user A :=
  printf 2 (str "%s" ++ [10]) [PStr s] ;;; exit.

Definition fork1 : user Z :=
  pid <- call Sfork ;;
  if pid =? -1 then panic (str "fork") else URet pid.

(** ** Tokens *)

Definition whitespace : list Z := [32; 9; 13; 10; 11].
Definition symbols : list Z := str "<|>&;()".

(** [while(s < es && p( *s)) s++] with [n] characters before [es]. *)
Fixpoint scan (p : Z -> bool) (t : list Z) (n s : nat) : nat :=
  match n with
  | O => s
  | S n' => if p (default 0 (t !! s)) then scan p t n' (S s) else s
  end.

Definition skip_blanks (t : list Z) (s : nat) : nat := scan (is_in whitespace) t (length t - s) s.
Definition word_char (c : Z) : bool := negb (is_in whitespace c) && negb (is_in symbols c).

(** The token, its beginning and end, and the position after it and the blanks. *)
Definition gettoken (t : list Z) (s : nat) : Z * span * nat :=
  let q := skip_blanks t s in
  let c := default 0 (t !! q) in
  let '(ret, eq) :=
    if c =? 0 then (0, q)
    else if is_in (str "|();&<") c then (c, S q)
    else if c =? 62 then
      if default 0 (t !! S q) =? 62 then (43, S (S q)) else (c, S q)
    else (97, scan word_char t (length t - q) q) in
  (ret, (q, eq), skip_blanks t eq).

Definition peek (t : list Z) (s : nat) (toks : list Z) : bool * nat :=
  let s := skip_blanks t s in
  let c := default 0 (t !! s) in
  (negb (c =? 0) && is_in toks c, s).

(** ** The parser *)

(** [cmd->argv[argc] = q], where [cmd] is the [execcmd] that [ret] may already wrap. *)
Fixpoint add_arg (ret : cmd) (a : span) : cmd :=
  match ret with
  | EXEC argv => EXEC (argv ++ [a])
  | REDIR c file mode fd => REDIR (add_arg c a) file mode fd
  | _ => ret
  end.

Fixpoint parseredirs (fuel : nat) (c : cmd) (t : list Z) (s : nat) : user (cmd * nat) :=
  match fuel with
  | O => out_of_fuel
  | S fuel' =>
      let '(b, s) := peek t s (str "<>") in
      if b then
        let '(tok, _, s) := gettoken t s in
        let '(tok', file, s) := gettoken t s in
        if negb (tok' =? 97) then panic (str "missing file for redirection")
        else
          let c :=
            if tok =? 60 then REDIR c file O_RDONLY 0
            else if tok =? 62 then REDIR c file (Z.lor O_WRONLY O_CREATE) 1
            else if tok =? 43 then REDIR c file (Z.lor O_WRONLY O_CREATE) 1
            else c in
          parseredirs fuel' c t s
      else URet (c, s)
  end.

(** The loop of [parseexec], after [argc] arguments. *)
Fixpoint parse_args (fuel argc : nat) (ret : cmd) (t : list Z) (s : nat) : user (cmd * nat) :=
  match fuel with
  | O => out_of_fuel
  | S fuel' =>
      let '(b, s) := peek t s (str "|)&;") in
      if b then URet (ret, s)
      else
        let '(tok, a, s) := gettoken t s in
        if tok =? 0 then URet (ret, s)
        else if negb (tok =? 97) then panic (str "syntax")
        else
          let ret := add_arg ret a in
          let argc := S argc in
          if (MAXARGS <=? argc)%nat then panic (str "too many args")
          else
            r <- parseredirs (S (length t)) ret t s ;;
            let '(ret, s) := r in
            parse_args fuel' argc ret t s
  end.

(** [while(peek(ps, es, "&"))] of [parseline] *)
Fixpoint parse_back (fuel : nat) (c : cmd) (t : list Z) (s : nat) : user (cmd * nat) :=
  match fuel with
  | O => out_of_fuel
  | S fuel' =>
      let '(b, s) := peek t s (str "&") in
      if b then
        let '(_, _, s) := gettoken t s in
        parse_back fuel' (BACK c) t s
      else URet (c, s)
  end.

Fixpoint parseline (fuel : nat) (t : list Z) (s : nat) : user (cmd * nat) :=
  match fuel with
  | O => out_of_fuel
  | S fuel' =>
      r <- parsepipe fuel' t s ;;
      let '(c, s) := r in
      r <- parse_back (S (length t)) c t s ;;
      let '(c, s) := r in
      let '(b, s) := peek t s (str ";") in
      if b then
        let '(_, _, s) := gettoken t s in
        r <- parseline fuel' t s ;;
        let '(c', s) := r in
        URet (LIST c c', s)
      else URet (c, s)
  end
with parsepipe (fuel : nat) (t : list Z) (s : nat) : user (cmd * nat) :=
  match fuel with
  | O => out_of_fuel
  | S fuel' =>
      r <- parseexec fuel' t s ;;
      let '(c, s) := r in
      let '(b, s) := peek t s (str "|") in
      if b then
        let '(_, _, s) := gettoken t s in
        r <- parsepipe fuel' t s ;;
        let '(c', s) := r in
        URet (PIPE c c', s)
      else URet (c, s)
  end
with parseexec (fuel : nat) (t : list Z) (s : nat) : user (cmd * nat) :=
  match fuel with
  | O => out_of_fuel
  | S fuel' =>
      let '(b, s) := peek t s (str "(") in
      if b then parseblock fuel' t s
      else
        r <- parseredirs (S (length t)) (EXEC []) t s ;;
        let '(ret, s) := r in
        parse_args (S (length t)) 0 ret t s
  end
with parseblock (fuel : nat) (t : list Z) (s : nat) : user (cmd * nat) :=
  match fuel with
  | O => out_of_fuel
  | S fuel' =>
      let '(b, s) := peek t s (str "(") in
      if negb b then panic (str "parseblock")
      else
        let '(_, _, s) := gettoken t s in
        r <- parseline fuel' t s ;;
        let '(c, s) := r in
        let '(b, s) := peek t s (str ")") in
        if negb b then panic (str "syntax - missing )")
        else
          let '(_, _, s) := gettoken t s in
          parseredirs (S (length t)) c t s
  end.

(** [*p = 0] in the buffer, whose byte after the last is NUL already. *)
Definition put_nul (t : list Z) (i : nat) : list Z := <[i := 0]> t.

Fixpoint nulterminate (c : cmd) (t : list Z) : list Z :=
  match c with
  | EXEC argv => foldl (fun t a => put_nul t (snd a)) t argv
  | REDIR c file _ _ => put_nul (nulterminate c t) (snd file)
  | PIPE l r | LIST l r => nulterminate r (nulterminate l t)
  | BACK c => nulterminate c t
  end.

(** The command, and the buffer it points into. *)
Definition parsecmd (t : list Z) : user (cmd * list Z) :=
  r <- parseline (4 * S (length t)) t 0 ;;
  let '(c, s) := r in
  let '(_, s) := peek t s [] in
  if negb (s =? length t)%nat then
    printf 2 (str "leftovers: %s" ++ [10]) [PStr (drop s t)] ;;;
    panic (str "syntax")
  else URet (c, nulterminate c t).

(** ** Running commands *)

(** The string that a pointer to position [q] is. *)
Definition string_at (t : list Z) (q : nat) : list Z := c_string (drop q t).

Fixpoint runcmd (t : list Z) (c : cmd) : user unit :=
  match c with
  | EXEC argv =>
      match argv with
      | [] => exit
      | a :: _ =>
          call (Sexec (string_at t (fst a)) ((fun a => string_at t (fst a)) <$> argv)) ;;;
          printf 2 (str "exec %s failed" ++ [10]) [PStr (string_at t (fst a))]
      end
  | REDIR c file mode fd =>
      call (Sclose fd) ;;;
      r <- call (Sopen (string_at t (fst file)) mode) ;;
      if r <? 0 then
        printf 2 (str "open %s failed" ++ [10]) [PStr (string_at t (fst file))] ;;;
        exit
      else runcmd t c
  | LIST l r =>
      pid <- fork1 ;;
      (if pid =? 0 then runcmd t l else URet tt) ;;;
      call Swait ;;;
      runcmd t r
  | PIPE l r =>
      x <- call Spipe ;;
      let '(x, (p0, p1)) := x in
      if x <? 0 then panic (str "pipe")
      else
        pid <- fork1 ;;
        (if pid =? 0 then
           call (Sclose 1) ;;; call (Sdup p1) ;;; call (Sclose p0) ;;; call (Sclose p1) ;;;
           runcmd t l
         else URet tt) ;;;
        pid <- fork1 ;;
        (if pid =? 0 then
           call (Sclose 0) ;;; call (Sdup p0) ;;; call (Sclose p0) ;;; call (Sclose p1) ;;;
           runcmd t r
         else URet tt) ;;;
        call (Sclose p0) ;;;
        call (Sclose p1) ;;;
        call Swait ;;;
        call Swait ;;;
        URet tt
  | BACK c =>
      pid <- fork1 ;;
      if pid =? 0 then runcmd t c else URet tt
  end ;;;
  exit.

(** ** Reading commands *)

Definition getcmd (nbuf : Z) : user (option (list Z)) :=
  printf 2 (str "$ ") [] ;;;
  buf <- gets nbuf ;;
  let buf := c_string buf in
  URet (if bool_decide (buf = []) then None else Some buf).

(** The loop that opens the console until three descriptors are open. *)
Fixpoint open_console (fuel : nat) : user unit :=
  match fuel with
  | O => out_of_fuel
  | S fuel' =>
      fd <- call (Sopen (str "console") O_RDWR) ;;
      if fd <? 0 then URet tt
      else if 3 <=? fd then call (Sclose fd) ;;; URet tt
      else open_console fuel'
  end.

(** [runcmd(parsecmd(buf))] *)
Definition run_line (t : list Z) : user unit :=
  r <- parsecmd t ;;
  let '(c, t) := r in runcmd t c.

Fixpoint shell_loop (fuel : nat) : user unit :=
  match fuel with
  | O => out_of_fuel
  | S fuel' =>
      buf <- getcmd 100 ;;
      match buf with
      | None => exit
      | Some buf =>
          (if bool_decide (take 3 buf = str "cd ") then
             let dir := drop 3 (take (length buf - 1) buf) in
             r <- call (Schdir dir) ;;
             if r <? 0 then printf 2 (str "cannot cd %s" ++ [10]) [PStr dir] else URet tt
           else
             pid <- fork1 ;;
             (if pid =? 0 then run_line buf else URet tt) ;;;
             call Swait ;;;
             URet tt) ;;;
          shell_loop fuel'
      end
  end.

Definition shell_main (fuel : nat) : user unit := open_console fuel ;;; shell_loop fuel.
