(* ===== verification/ShSpec.v ===== *)
(** * ShSpec: what the shell understands

    The tokens of a command line, the grammar of commands as syntax trees over tokens,
    and the commands they mean; the parser of [sh.c] returns exactly the command that
    the tokens of its line mean, and refuses every other line. *)

From stdpp Require Import base gmap list strings.
From Stdlib Require Import ZArith Lia.
From S2P Require Import Prelude State Fs FsLayout Sysfile User Utils Grep Sh.

Local Open Scope Z_scope.
Local Open Scope user_scope.

(** ** Tokens *)

(** [>>] is the symbol 43. *)
Inductive token := Word (w : list Z) | Sym (c : Z).

Definition blank : Z -> bool := is_in whitespace.

Fixpoint lex (n : nat) (l : list Z) : list token :=
  match n with
  | O => []
  | S n' =>
      match skip_while blank l with
      | [] => []
      | c :: l' =>
          if is_in (str "|();&<") c then Sym c :: lex n' l'
          else if c =? 62 then
            match l' with
            | d :: l'' => if d =? 62 then Sym 43 :: lex n' l'' else Sym c :: lex n' l'
            | [] => [Sym c]
            end
          else Word (take_while word_char (c :: l')) :: lex n' (skip_while word_char (c :: l'))
      end
  end.
Definition tokens (l : list Z) : list token := lex (length l) l.

Lemma skip_length P l : (length (take_while P l) + length (skip_while P l) = length l)%nat.
Proof. induction l as [|c l IH]; cbn; [done|]. destruct (P c); cbn; lia. Qed.

Lemma take_skip P l : take_while P l ++ skip_while P l = l.
Proof. induction l as [|c l IH]; cbn; [done|]. destruct (P c); cbn; [by rewrite IH|done]. Qed.

Lemma drop_take_while P l : drop (length (take_while P l)) l = skip_while P l.
Proof. rewrite <- (take_skip P l) at 2. apply drop_app_length. Qed.

Lemma skip_skip P l : skip_while P (skip_while P l) = skip_while P l.
Proof. induction l as [|c l IH]; cbn; [done|]. destruct (P c) eqn:HP; [done|]. cbn. by rewrite HP. Qed.

Lemma skip_true P c l : P c = true -> skip_while P (c :: l) = skip_while P l.
Proof. intros HP. cbn. by rewrite HP. Qed.

Lemma strchr_elem l c : is_Some (strchr l c) <-> c ∈ l.
Proof.
  induction l as [|x l IH]; cbn; [split; [by intros [? ?]|by intros ?%elem_of_nil]|]. rewrite elem_of_cons, <- IH.
  destruct (Z.eqb_spec x c) as [->|Hne]; [split; by eauto|]. destruct (strchr l c); cbn; naive_solver.
Qed.

Lemma is_in_elem l c : is_in l c = bool_decide (c ∈ l).
Proof. unfold is_in. apply bool_decide_ext, strchr_elem. Qed.

(** What is no blank, no operator and no ['>'] is in a word. *)
Lemma word_char_intro c : blank c = false -> is_in (str "|();&<") c = false -> (c =? 62) = false -> word_char c = true.
Proof.
  unfold word_char, blank. intros -> H1 H2. cbn [negb andb]. apply negb_true_iff. rewrite is_in_elem in *.
  apply bool_decide_eq_false in H1. apply bool_decide_eq_false. intros Hin. apply H1. revert Hin. apply Z.eqb_neq in H2.
  unfold symbols. cbn. rewrite !elem_of_cons. naive_solver.
Qed.

Lemma lex_fuel : forall n m l, (length l <= n)%nat -> (length l <= m)%nat -> lex n l = lex m l.
Proof.
  induction n as [|n IH]; intros m l Hn Hm.
  { destruct l; [|cbn in Hn; lia]. by destruct m. }
  destruct m as [|m]; [destruct l; [done|cbn in Hm; lia]|]. cbn [lex].
  destruct (skip_while blank l) as [|c l'] eqn:Hs; [done|].
  pose proof (skip_length blank l) as Hl. rewrite Hs in Hl. cbn [length] in Hl. apply skip_head in Hs.
  destruct (is_in _ c) eqn:Hop; [f_equal; apply IH; lia|]. destruct (c =? 62) eqn:Hgt.
  - destruct l' as [|d l'']; [done|]. cbn [length] in Hl. destruct (d =? 62); f_equal; apply IH; cbn [length]; lia.
  - f_equal. rewrite skip_true by by apply word_char_intro. pose proof (skip_length word_char l'). apply IH; lia.
Qed.

Lemma tokens_eq l : tokens l =
  match skip_while blank l with
  | [] => []
  | c :: l' =>
      if is_in (str "|();&<") c then Sym c :: tokens l'
      else if c =? 62 then
        match l' with
        | d :: l'' => if d =? 62 then Sym 43 :: tokens l'' else Sym c :: tokens l'
        | [] => [Sym c]
        end
      else Word (take_while word_char (c :: l')) :: tokens (skip_while word_char (c :: l'))
  end.
Proof.
  unfold tokens at 1. rewrite (lex_fuel _ (S (length l))) by lia. cbn [lex].
  destruct (skip_while blank l) as [|c l'] eqn:Hs; [done|].
  pose proof (skip_length blank l) as Hl. rewrite Hs in Hl. cbn [length] in Hl.
  destruct (is_in _ c); [f_equal; apply lex_fuel; lia|]. destruct (c =? 62).
  - destruct l' as [|d l'']; [done|]. cbn [length] in Hl. destruct (d =? 62); f_equal; apply lex_fuel; cbn [length]; lia.
  - f_equal. pose proof (skip_length word_char (c :: l')) as Hw. cbn [length] in Hw. apply lex_fuel; lia.
Qed.

Lemma tokens_skip l : tokens (skip_while blank l) = tokens l.
Proof. rewrite tokens_eq, (tokens_eq l). by rewrite skip_skip. Qed.

(** ** The scanner *)

Lemma scan_spec p t : forall n s, (s + n = length t)%nat -> scan p t n s = (s + length (take_while p (drop s t)))%nat.
Proof.
  induction n as [|n IH]; intros s Hs; cbn [scan].
  { rewrite drop_ge by lia. cbn. lia. }
  destruct (lookup_lt_is_Some_2 t s) as [c Hc]; [lia|]. rewrite Hc, (drop_S _ _ _ Hc). cbn.
  destruct (p c); [|cbn; lia]. rewrite IH by lia. cbn [length]. lia.
Qed.

Lemma drop_scan p t s : (s <= length t)%nat -> drop (scan p t (length t - s) s) t = skip_while p (drop s t).
Proof. intros Hs. rewrite scan_spec by lia. rewrite <- drop_drop. apply drop_take_while. Qed.

Lemma scan_le p t s : (s <= length t)%nat -> (s <= scan p t (length t - s) s <= length t)%nat.
Proof.
  intros Hs. rewrite scan_spec by lia. pose proof (skip_length p (drop s t)) as Hl. rewrite length_drop in Hl. lia.
Qed.

(** The symbols that [gettoken] returns. *)
Definition operators : list Z := str "|();&<>+".

Lemma gt_operators : 62 ∈ operators /\ 43 ∈ operators.
Proof. apply (bool_decide_unpack _). by vm_compute. Qed.

(** ** Commands and their grammar *)

Inductive command :=
| Run (argv : list (list Z))
| Redirect (c : command) (file : list Z) (mode fd : Z)
| Pipeline (l r : command)
| Sequence (l r : command)
| Background (c : command).

Inductive direction := Input | Output | Append.
Definition op_code (d : direction) : Z := match d with Input => 60 | Output => 62 | Append => 43 end.
Definition redir_mode (d : direction) : Z := match d with Input => O_RDONLY | _ => Z.lor O_WRONLY O_CREATE end.
Definition redir_fd (d : direction) : Z := match d with Input => 0 | _ => 1 end.

Definition redir : Type := direction * list Z.
Definition arg : Type := list Z * list redir.

(** [line ::= pipeline &* [; line]], [pipeline ::= simple [| pipeline]],
    [simple ::= redir* (word redir* )* | ( line ) redir*]; a list of commands may be
    empty, so may a simple command. *)
Inductive line :=
| Last (p : pipeline) (bg : nat)
| More (p : pipeline) (bg : nat) (l : line)
with pipeline :=
| Single (e : simple)
| Through (e : simple) (p : pipeline)
with simple :=
| Plain (rs : list redir) (args : list arg)
| Block (l : line) (rs : list redir).

Scheme line_mut := Induction for line Sort Prop
with pipeline_mut := Induction for pipeline Sort Prop
with simple_mut := Induction for simple Sort Prop.
Combined Scheme line_ind' from line_mut, pipeline_mut, simple_mut.

Definition redir_toks (rs : list redir) : list token := concat ((fun r => [Sym (op_code (fst r)); Word (snd r)]) <$> rs).
Definition arg_toks (args : list arg) : list token := concat ((fun a => Word (fst a) :: redir_toks (snd a)) <$> args).

Fixpoint line_toks (l : line) : list token :=
  match l with
  | Last p bg => pipe_toks p ++ repeat (Sym 38) bg
  | More p bg l => pipe_toks p ++ repeat (Sym 38) bg ++ Sym 59 :: line_toks l
  end
with pipe_toks (p : pipeline) : list token :=
  match p with
  | Single e => simple_toks e
  | Through e p => simple_toks e ++ Sym 124 :: pipe_toks p
  end
with simple_toks (e : simple) : list token :=
  match e with
  | Plain rs args => redir_toks rs ++ arg_toks args
  | Block l rs => Sym 40 :: line_toks l ++ Sym 41 :: redir_toks rs
  end.

(** At most nine arguments. *)
Fixpoint line_fits (l : line) : Prop :=
  match l with
  | Last p _ => pipe_fits p
  | More p _ l => pipe_fits p /\ line_fits l
  end
with pipe_fits (p : pipeline) : Prop :=
  match p with
  | Single e => simple_fits e
  | Through e p => simple_fits e /\ pipe_fits p
  end
with simple_fits (e : simple) : Prop :=
  match e with
  | Plain _ args => (length args < MAXARGS)%nat
  | Block l _ => line_fits l
  end.

Definition redirected (rs : list redir) (c : command) : command :=
  foldl (fun c r => Redirect c (snd r) (redir_mode (fst r)) (redir_fd (fst r))) c rs.

Fixpoint line_means (l : line) : command :=
  match l with
  | Last p bg => Nat.iter bg Background (pipe_means p)
  | More p bg l => Sequence (Nat.iter bg Background (pipe_means p)) (line_means l)
  end
with pipe_means (p : pipeline) : command :=
  match p with
  | Single e => simple_means e
  | Through e p => Pipeline (simple_means e) (pipe_means p)
  end
with simple_means (e : simple) : command :=
  match e with
  | Plain rs args => redirected (rs ++ concat (snd <$> args)) (Run (fst <$> args))
  | Block l rs => redirected rs (line_means l)
  end.

(** The command that the parser's tree is when [f] are the strings its pointers are to. *)
Fixpoint command_of (f : span -> list Z) (k : cmd) : command :=
  match k with
  | EXEC argv => Run (f <$> argv)
  | REDIR k file mode fd => Redirect (command_of f k) (f file) mode fd
  | PIPE l r => Pipeline (command_of f l) (command_of f r)
  | LIST l r => Sequence (command_of f l) (command_of f r)
  | BACK k => Background (command_of f k)
  end.

Fixpoint spans (k : cmd) : list span :=
  match k with
  | EXEC argv => argv
  | REDIR k file _ _ => spans k ++ [file]
  | PIPE l r | LIST l r => spans l ++ spans r
  | BACK k => spans k
  end.

(** ** Programs that complain *)

(** Writes to descriptor 2 only, then exits or returns a value in [P]. *)
Inductive mutters {A} (P : A -> Prop) : user A -> Prop :=
| mutters_ret a : P a -> mutters P (URet a)
| mutters_exit k : mutters P (USys Sexit k)
| mutters_write l k : (forall r, mutters P (k r)) -> mutters P (USys (Swrite 2 l) k).

(** Never returns. *)
Definition complains {A} (m : user A) : Prop := mutters (fun _ => False) m.

Lemma mutters_bind {A B} (P : A -> Prop) (Q : B -> Prop) m f :
  mutters P m -> (forall a, P a -> mutters Q (f a)) -> mutters Q (ubind m f).
Proof. intros Hm Hf. induction Hm as [a Ha|k|l k _ IH]; cbn [ubind]; [by apply Hf|constructor|by constructor]. Qed.

Lemma complains_bind {A B} (m : user A) (f : A -> user B) : complains m -> complains (ubind m f).
Proof. intros Hm. by eapply mutters_bind. Qed.

Lemma mutters_puts s : mutters (fun _ => True) (puts 2 s).
Proof.
  unfold puts. induction s as [|c s IH]; cbn [ueach]; [by constructor|].
  eapply (mutters_bind (fun _ => True)); [|done]. unfold putc, call. cbn. constructor. intros r. by constructor.
Qed.

(** A format that uses its string arguments and no others. *)
Fixpoint string_format (fmt : list Z) (percent : bool) (ap : list parg) : bool :=
  match fmt with
  | [] => true
  | c :: fmt' =>
      if negb percent then string_format fmt' (c =? 37) ap
      else match ap with PStr _ :: ap' => (c =? 115) && string_format fmt' false ap' | _ => false end
  end.

Lemma mutters_printf : forall fmt percent ap, string_format fmt percent ap = true ->
  mutters (fun _ => True) (uprintf_loop 2 fmt percent ap).
Proof.
  induction fmt as [|c fmt IH]; intros percent ap Hf; [by constructor|]. cbn [uprintf_loop]. cbn [string_format] in Hf.
  destruct percent; cbn [negb] in *.
  - destruct ap as [|[v|s] ap]; [done..|]. apply andb_true_iff in Hf as [->%Z.eqb_eq Hf].
    eapply (mutters_bind (fun ap' => ap' = ap)); [|intros ? ->; by apply IH].
    eapply (mutters_bind (fun _ => True)); [apply mutters_puts|intros _ _; by constructor].
  - destruct (c =? 37); [by apply IH|]. eapply (mutters_bind (fun _ => True)); [apply (mutters_puts [c])|intros _ _; by apply IH].
Qed.

Lemma panic_complains {A} s : complains (panic s : user A).
Proof.
  eapply (mutters_bind (fun _ => True)); [by apply mutters_printf|]. intros _ _. apply mutters_exit.
Qed.
Section line.
Context (t : list Z) (Ht : 0 ∉ t).

Definition toks (s : nat) : list token := tokens (drop s t).
Definition word (a : span) : list Z := take (snd a - fst a) (drop (fst a) t).

(** The counted string is as many characters of a word as there are. *)
Definition span_ok (a : span) : Prop := snd a = (fst a + length (take_while word_char (drop (fst a) t)))%nat.

Lemma word_span a : span_ok a -> word a = take_while word_char (drop (fst a) t).
Proof.
  intros Ha. unfold word. rewrite Ha. replace (_ + _ - _)%nat with (length (take_while word_char (drop (fst a) t))) by lia.
  rewrite <- (take_skip word_char (drop (fst a) t)) at 2. apply take_app_length.
Qed.

Lemma drop_cases s : (s <= length t)%nat ->
  match drop s t with
  | [] => s = length t /\ t !! s = None
  | c :: l => t !! s = Some c /\ c <> 0 /\ drop (S s) t = l /\ (S s <= length t)%nat
  end.
Proof.
  intros Hs. destruct (drop s t) as [|c l] eqn:Hd.
  - apply (f_equal length) in Hd. rewrite length_drop in Hd. cbn in Hd. split; [lia|]. apply lookup_ge_None. lia.
  - assert (t !! s = Some c) as Hc by (rewrite <- (Nat.add_0_r s), <- lookup_drop, Hd; done).
    pose proof (drop_S _ _ _ Hc) as Hd'. rewrite Hd in Hd'. injection Hd' as ->. split_and!; try done.
    + intros ->. by apply Ht, (list_elem_of_lookup_2 _ s).
    + by apply lookup_lt_Some in Hc.
Qed.

Lemma skip_blanks_spec s : (s <= length t)%nat ->
  (s <= skip_blanks t s <= length t)%nat /\ drop (skip_blanks t s) t = skip_while blank (drop s t).
Proof. intros Hs. split; [by apply scan_le|by apply drop_scan]. Qed.

Lemma toks_skip s : (s <= length t)%nat -> toks (skip_blanks t s) = toks s.
Proof. intros Hs. unfold toks. destruct (skip_blanks_spec s Hs) as [_ ->]. apply tokens_skip. Qed.

Definition token_is (ts : list token) (ret : Z) (a : span) (r : list token) : Prop :=
  match ts with
  | [] => ret = 0 /\ r = []
  | Sym c :: ts' => ret = c /\ c ∈ operators /\ r = ts'
  | Word w :: ts' => ret = 97 /\ word a = w /\ span_ok a /\ r = ts'
  end.

Lemma gettoken_spec s : (s <= length t)%nat -> exists ret a s',
  gettoken t s = (ret, a, s') /\ (s' <= length t)%nat /\ token_is (toks s) ret a (toks s').
Proof.
  intros Hs. unfold gettoken. destruct (skip_blanks_spec s Hs) as [[_ Hq] Hd]. set (q := skip_blanks t s) in *.
  unfold toks at 1. rewrite tokens_eq, <- Hd. pose proof (drop_cases q Hq) as Hc. destruct (drop q t) as [|c l] eqn:Hdq.
  { destruct Hc as [Hq' ->]. eexists _, _, _. split; [done|]. split; [by apply skip_blanks_spec|]. cbn [token_is].
    rewrite toks_skip by done. unfold toks. by rewrite Hdq. }
  destruct Hc as (-> & Hc0 & Hl & HSq). change (default 0 (Some c)) with c. rewrite (proj2 (Z.eqb_neq c 0)) by done.
  destruct (is_in _ c) eqn:Hop.
  { eexists _, _, _. split; [done|]. split; [by apply skip_blanks_spec|]. cbn [token_is]. rewrite toks_skip by done.
    split_and!; [done| |by unfold toks; rewrite Hl]. rewrite is_in_elem in Hop. apply bool_decide_eq_true in Hop.
    revert Hop. unfold operators. cbn. rewrite !elem_of_cons. naive_solver. }
  destruct (Z.eqb_spec c 62) as [->|Hgt].
  - pose proof (drop_cases (S q) HSq) as Hc. rewrite Hl in Hc. destruct l as [|d l].
    { destruct Hc as [_ ->]. eexists _, _, _. split; [done|]. split; [by apply skip_blanks_spec|].
      rewrite toks_skip by done. unfold toks. rewrite Hl. split; [done|split; [apply gt_operators|done]]. }
    destruct Hc as (-> & _ & Hl' & HSSq). change (default 0 (Some d)) with d.
    destruct (d =? 62); eexists _, _, _; (split; [done|]); (split; [by apply skip_blanks_spec|]);
      rewrite toks_skip by done; unfold toks; rewrite ?Hl, ?Hl'; (split; [done|split; [apply gt_operators|done]]).
  - eexists _, _, _. split; [done|]. assert (Hle := scan_le word_char t q Hq). split; [apply skip_blanks_spec; lia|].
    rewrite toks_skip by lia. cbn [token_is].
    assert (span_ok (q, scan word_char t (length t - q) q)) as Hok by (unfold span_ok; cbn [fst snd]; rewrite scan_spec by lia; done).
    rewrite word_span by done. cbn [fst]. split_and!; [done|by rewrite Hdq|done|unfold toks; by rewrite drop_scan, Hdq].
Qed.

(** The character that [peek] sees. *)
Definition starts_with (l : list Z) (ts : list token) : bool :=
  match ts with
  | Sym c :: _ => is_in l (if c =? 43 then 62 else c)
  | _ => false
  end.

Lemma peek_spec s l : (s <= length t)%nat -> l ⊆ symbols -> exists s',
  peek t s l = (starts_with l (toks s), s') /\ (s' <= length t)%nat /\ toks s' = toks s /\ (s' = length t <-> toks s = []).
Proof.
  intros Hs Hl. unfold peek. destruct (skip_blanks_spec s Hs) as [[_ Hq] Hd]. exists (skip_blanks t s).
  pose proof (toks_skip s Hs) as Htk. set (q := skip_blanks t s) in *.
  enough (negb (default 0 (t !! q) =? 0) && is_in l (default 0 (t !! q)) = starts_with l (toks s) /\ (q = length t <-> toks s = []))
    as [-> Hend] by done.
  rewrite <- Htk. unfold toks. pose proof (drop_cases q Hq) as Hc. rewrite tokens_eq. rewrite Hd, skip_skip, <- Hd.
  destruct (drop q t) as [|c r] eqn:Hdq; [destruct Hc as [-> ->]; done|]. destruct Hc as (-> & Hc0 & Hr & HSq).
  change (default 0 (Some c)) with c. rewrite (proj2 (Z.eqb_neq c 0)) by done. cbn [negb andb].
  destruct (is_in (str "|();&<") c) eqn:Hop.
  { cbn [starts_with]. destruct (Z.eqb_spec c 43) as [->|]; [done|]. split; [done|]. split; [lia|done]. }
  destruct (Z.eqb_spec c 62) as [->|Hgt].
  { destruct r as [|d r]; [|destruct (d =? 62)]; (split; [done|]); (split; [lia|done]). }
  split; [|split; [lia|done]]. cbn [starts_with]. rewrite is_in_elem. apply bool_decide_eq_false. intros Hin%Hl.
  rewrite is_in_elem in Hop. apply bool_decide_eq_false in Hop. apply Hop. revert Hin. unfold symbols. cbn. rewrite !elem_of_cons. naive_solver.
Qed.
End line.
