(* ===== verification/ShParse.v ===== *)
(** * ShParse: the parser of the shell against its grammar *)

From stdpp Require Import base gmap list strings.
From Stdlib Require Import ZArith Lia.
From S2P Require Import Prelude State Fs FsLayout Sysfile User Utils Grep Sh ShSpec.

Local Open Scope Z_scope.
Local Open Scope user_scope.

(** ** Trees of simple commands *)

Definition sredir : Type := direction * span.
Definition sarg : Type := span * list sredir.

(** [parseredirs] puts each redirection around the command. *)
Definition wrap (rs : list sredir) (k : cmd) : cmd :=
  foldl (fun k r => REDIR k (snd r) (redir_mode (fst r)) (redir_fd (fst r))) k rs.

Lemma wrap_app rs rs' k : wrap (rs ++ rs') k = wrap rs' (wrap rs k).
Proof. apply foldl_app. Qed.

Lemma add_arg_wrap rs argv a : add_arg (wrap rs (EXEC argv)) a = wrap rs (EXEC (argv ++ [a])).
Proof. induction rs as [|r rs IH] using rev_ind; [done|]. rewrite !wrap_app. cbn. by rewrite IH. Qed.

Lemma spans_wrap rs k : spans (wrap rs k) = spans k ++ (snd <$> rs).
Proof.
  induction rs as [|r rs IH] using rev_ind; [by rewrite app_nil_r|]. rewrite wrap_app, fmap_app, app_assoc, <- IH. done.
Qed.

Section words.
Context (f : span -> list Z).
Definition word_redir (r : sredir) : redir := (fst r, f (snd r)).
Definition word_arg (a : sarg) : arg := (f (fst a), word_redir <$> snd a).

Lemma command_wrap rs k : command_of f (wrap rs k) = redirected (word_redir <$> rs) (command_of f k).
Proof.
  induction rs as [|r rs IH] using rev_ind; [done|]. rewrite wrap_app, fmap_app. unfold redirected. rewrite foldl_app.
  cbn. fold (redirected (word_redir <$> rs) (command_of f k)). by rewrite IH.
Qed.

Lemma command_simple rs args :
  command_of f (wrap (rs ++ concat (snd <$> args)) (EXEC (fst <$> args))) = simple_means (Plain (word_redir <$> rs) (word_arg <$> args)).
Proof.
  rewrite command_wrap. cbn [simple_means command_of]. f_equal; [|f_equal; by rewrite <- !list_fmap_compose].
  rewrite fmap_app. f_equal. induction args as [|a args IH]; [done|]. cbn. by rewrite fmap_app, IH.
Qed.
End words.

(** ** What the parser returns *)

(** Operators a function peeks for. *)
Lemma peeked_subset (l : list Z) : forallb (is_in symbols) l = true -> l ⊆ symbols.
Proof.
  intros Hl c Hc. rewrite forallb_forall in Hl. specialize (Hl c). rewrite <- list_elem_of_In, is_in_elem in Hl.
  exact (bool_decide_eq_true_1 _ (Hl Hc)).
Qed.

Section parser.
Context (t : list Z) (Ht : 0 ∉ t).
Notation toks := (toks t).
Notation word := (word t).
Notation span_ok := (span_ok t).

Definition redirs_ok (rs : list sredir) : Prop := Forall (fun r => span_ok (snd r)) rs.
Definition args_ok (args : list sarg) : Prop := Forall (fun a => span_ok (fst a) /\ redirs_ok (snd a)) args.

Lemma spans_simple rs args : redirs_ok rs -> args_ok args ->
  Forall span_ok (spans (wrap (rs ++ concat (snd <$> args)) (EXEC (fst <$> args)))).
Proof.
  intros Hrs Hargs. rewrite spans_wrap, fmap_app. cbn [spans]. rewrite !Forall_app, !Forall_fmap. split_and!.
  - by eapply Forall_impl; [exact Hargs|intros a [? _]].
  - done.
  - clear Hrs. induction Hargs as [|a args [_ Ha] _ IH]; [constructor|]. cbn. by apply Forall_app.
Qed.

Lemma peek_at s l : (s <= length t)%nat -> forallb (is_in symbols) l = true -> exists s',
  peek t s l = (starts_with l (toks s), s') /\ (s' <= length t)%nat /\ toks s' = toks s /\ (s' = length t <-> toks s = []).
Proof. intros Hs Hl. by apply peek_spec, peeked_subset. Qed.

Lemma gettoken_word s w r : (s <= length t)%nat -> toks s = Word w :: r -> exists a s',
  gettoken t s = (97, a, s') /\ (s' <= length t)%nat /\ toks s' = r /\ word a = w /\ span_ok a.
Proof.
  intros Hs Htk. destruct (gettoken_spec t Ht s Hs) as (ret & a & s' & Hg & Hs' & Hto). rewrite Htk in Hto.
  destruct Hto as (-> & Hw & Ha & Hr). by exists a, s'.
Qed.

Lemma gettoken_sym s c r : (s <= length t)%nat -> toks s = Sym c :: r -> exists a s',
  gettoken t s = (c, a, s') /\ (s' <= length t)%nat /\ toks s' = r /\ c ∈ operators.
Proof.
  intros Hs Htk. destruct (gettoken_spec t Ht s Hs) as (ret & a & s' & Hg & Hs' & Hto). rewrite Htk in Hto.
  destruct Hto as (-> & Hw & Hr). by exists a, s'.
Qed.

Lemma gettoken_end s : (s <= length t)%nat -> toks s = [] -> exists a s',
  gettoken t s = (0, a, s') /\ (s' <= length t)%nat /\ toks s' = [].
Proof.
  intros Hs Htk. destruct (gettoken_spec t Ht s Hs) as (ret & a & s' & Hg & Hs' & Hto). rewrite Htk in Hto.
  destruct Hto as (-> & Hr). by exists a, s'.
Qed.

Lemma toks_length s : (length (toks s) <= length t - s)%nat.
Proof.
  unfold ShSpec.toks, tokens. rewrite <- length_drop. generalize (length (drop s t)) at 1 as n.
  intros n. transitivity (length (drop s t)); [|done]. generalize (drop s t) as l. induction n as [|n IH]; intros l; cbn [lex length]; [lia|].
  pose proof (skip_length blank l) as Hl. destruct (skip_while blank l) as [|c l'] eqn:Hs; [cbn; lia|]. cbn [length] in Hl. apply skip_head in Hs.
  destruct (is_in _ c) eqn:Hop; [cbn [length]; specialize (IH l'); lia|]. destruct (c =? 62) eqn:Hgt.
  - destruct l' as [|d l'']; [cbn; lia|]. cbn [length] in Hl. destruct (d =? 62); cbn [length];
      [specialize (IH l'')|specialize (IH (d :: l'')); cbn [length] in IH]; lia.
  - cbn [length]. rewrite skip_true by by apply word_char_intro. specialize (IH (skip_while word_char l')).
    pose proof (skip_length word_char l'). lia.
Qed.

Lemma starts_with_true l ts : starts_with l ts = true -> exists c r, ts = Sym c :: r /\ is_in l (if c =? 43 then 62 else c) = true.
Proof. destruct ts as [|[w|c] r]; [done..|]. by exists c, r. Qed.

(** ** Redirections *)

Lemma starts_redir ts : starts_with (str "<>") ts = true <-> exists d r, ts = Sym (op_code d) :: r.
Proof.
  split; [|by intros ([| |] & r & ->)]. intros (c & r & -> & Hc)%starts_with_true.
  destruct (Z.eqb_spec c 43) as [->|]; [by exists Append, r|]. rewrite is_in_elem in Hc. apply bool_decide_eq_true_1 in Hc.
  cbn in Hc. rewrite !elem_of_cons in Hc. destruct Hc as [->|[->|[]%elem_of_nil]]; [by exists Input, r|by exists Output, r].
Qed.

Lemma redirs_step fuel k s d w r : (s <= length t)%nat -> toks s = Sym (op_code d) :: Word w :: r -> exists a s',
  parseredirs (S fuel) k t s = parseredirs fuel (wrap [(d, a)] k) t s' /\
  (s' <= length t)%nat /\ toks s' = r /\ word a = w /\ span_ok a.
Proof.
  intros Hs Htk. cbn [parseredirs]. destruct (peek_at s (str "<>")) as (s1 & -> & Hs1 & Htk1 & _); [done..|].
  rewrite Htk in *. rewrite (proj2 (starts_redir _)) by by eexists _, _.
  destruct (gettoken_sym s1 _ _ Hs1 Htk1) as (b & s2 & -> & Hs2 & Htk2 & _).
  destruct (gettoken_word s2 _ _ Hs2 Htk2) as (a & s3 & -> & Hs3 & Htk3 & Hw & Ha). exists a, s3. split; [|done].
  by destruct d.
Qed.

Lemma redirs_stop fuel k s : (s <= length t)%nat -> starts_with (str "<>") (toks s) = false -> exists s',
  parseredirs (S fuel) k t s = URet (k, s') /\ (s' <= length t)%nat /\ toks s' = toks s.
Proof.
  intros Hs Htk. cbn [parseredirs]. destruct (peek_at s (str "<>")) as (s1 & -> & Hs1 & Htk1 & _); [done..|].
  rewrite Htk. by exists s1.
Qed.

Lemma redirs_bad fuel k s d r : (s <= length t)%nat -> toks s = Sym (op_code d) :: r -> (forall w r', r <> Word w :: r') ->
  complains (parseredirs (S fuel) k t s).
Proof.
  intros Hs Htk Hr. cbn [parseredirs]. destruct (peek_at s (str "<>")) as (s1 & -> & Hs1 & Htk1 & _); [done..|].
  rewrite Htk in *. rewrite (proj2 (starts_redir _)) by by eexists _, _.
  destruct (gettoken_sym s1 _ _ Hs1 Htk1) as (b & s2 & -> & Hs2 & Htk2 & _).
  destruct r as [|[w|c] r'].
  - destruct (gettoken_end s2 Hs2 Htk2) as (a & s3 & -> & _). apply panic_complains.
  - by destruct (Hr w r').
  - destruct (gettoken_sym s2 _ _ Hs2 Htk2) as (a & s3 & -> & _ & _ & Hc). rewrite (proj2 (Z.eqb_neq c 97)); [apply panic_complains|].
    intros ->. revert Hc. apply (bool_decide_unpack _). by vm_compute.
Qed.

Lemma redirs_total : forall fuel k s, (s <= length t)%nat -> (length (toks s) < fuel)%nat ->
  (exists rs s', parseredirs fuel k t s = URet (wrap rs k, s') /\ (s' <= length t)%nat /\ redirs_ok rs /\
     toks s = redir_toks (word_redir word <$> rs) ++ toks s') \/
  complains (parseredirs fuel k t s).
Proof.
  induction fuel as [|fuel IH]; intros k s Hs Hfuel; [lia|].
  destruct (starts_with (str "<>") (toks s)) eqn:Hst.
  2:{ destruct (redirs_stop fuel k s Hs Hst) as (s' & -> & Hs' & Htk). left. exists [], s'. split_and!; try done. constructor. }
  apply starts_redir in Hst as (d & r & Htk). destruct r as [|[w|c] r]; [right; by eapply redirs_bad| |right; by eapply redirs_bad].
  destruct (redirs_step fuel k s d w r Hs Htk) as (a & s1 & -> & Hs1 & Htk1 & Hw & Ha).
  destruct (IH (wrap [(d, a)] k) s1 Hs1) as [(rs & s' & -> & Hs' & Hrs & Htk')|Hc]; [|left|by right].
  { rewrite Htk, <- Htk1 in Hfuel. cbn [length] in Hfuel. lia. }
  exists ((d, a) :: rs), s'. split_and!; try done; [by constructor|]. subst w. by rewrite Htk, <- Htk1, Htk'.
Qed.

Lemma redirs_complete : forall rs fuel k s rest, (s <= length t)%nat -> toks s = redir_toks rs ++ rest ->
  starts_with (str "<>") rest = false -> (length rs < fuel)%nat ->
  exists rs' s', parseredirs fuel k t s = URet (wrap rs' k, s') /\ (s' <= length t)%nat /\ toks s' = rest /\
    redirs_ok rs' /\ rs = word_redir word <$> rs'.
Proof.
  induction rs as [|[d w] rs IH]; intros fuel k s rest Hs Htk Hst Hfuel; (destruct fuel as [|fuel]; [lia|]).
  - cbn in Htk. subst rest. destruct (redirs_stop fuel k s Hs Hst) as (s' & -> & Hs' & Htk). exists [], s'. split_and!; try done. constructor.
  - destruct (redirs_step fuel k s d w (redir_toks rs ++ rest) Hs Htk) as (a & s1 & -> & Hs1 & Htk1 & Hw & Ha). cbn [length] in Hfuel.
    destruct (IH fuel (wrap [(d, a)] k) s1 rest Hs1 Htk1 Hst ltac:(lia)) as (rs' & s' & -> & Hs' & Htk' & Hrs & ->).
    exists ((d, a) :: rs'), s'. split_and!; try done; [by constructor|]. by subst w.
Qed.

Lemma length_redir_toks rs : (length rs <= length (redir_toks rs))%nat.
Proof. unfold redir_toks. induction rs as [|r rs IH]; cbn; lia. Qed.

Lemma length_arg_toks args : (length args <= length (arg_toks args))%nat.
Proof. unfold arg_toks. induction args as [|a args IH]; cbn; [lia|]. rewrite length_app. lia. Qed.

Lemma enough s : (length (toks s) < S (length t))%nat.
Proof. pose proof (toks_length s). lia. Qed.

(** ** Arguments *)

(** What may follow. *)
Definition ends (l : list Z) (ts : list token) : Prop := ts = [] \/ starts_with l ts = true.

Lemma args_stop fuel argc ret s : (s <= length t)%nat -> ends (str "|)&;") (toks s) -> exists s',
  parse_args (S fuel) argc ret t s = URet (ret, s') /\ (s' <= length t)%nat /\ toks s' = toks s.
Proof.
  intros Hs Hend. cbn [parse_args]. destruct (peek_at s (str "|)&;")) as (s1 & -> & Hs1 & Htk1 & _); [done..|].
  destruct Hend as [Hnil| ->]; [|by exists s1]. rewrite Hnil in *. cbn [starts_with].
  destruct (gettoken_end s1 Hs1 Htk1) as (a & s2 & -> & Hs2 & Htk2). by exists s2.
Qed.

Lemma args_bad fuel argc ret s c r : (s <= length t)%nat -> toks s = Sym c :: r -> starts_with (str "|)&;") (toks s) = false ->
  complains (parse_args (S fuel) argc ret t s).
Proof.
  intros Hs Htk Hst. cbn [parse_args]. destruct (peek_at s (str "|)&;")) as (s1 & -> & Hs1 & Htk1 & _); [done..|].
  rewrite Hst. rewrite Htk in Htk1. destruct (gettoken_sym s1 _ _ Hs1 Htk1) as (a & s2 & -> & _ & _ & Hc).
  assert (c <> 0 /\ c <> 97) as [H0 H97] by (split; intros ->; revert Hc; apply (bool_decide_unpack _); by vm_compute).
  rewrite (proj2 (Z.eqb_neq c 0)), (proj2 (Z.eqb_neq c 97)) by done. apply panic_complains.
Qed.

Lemma args_step fuel rs argv s w r : (s <= length t)%nat -> toks s = Word w :: r -> exists a s',
  parse_args (S fuel) (length argv) (wrap rs (EXEC argv)) t s =
    (if (MAXARGS <=? S (length argv))%nat then panic (str "too many args")
     else x <- parseredirs (S (length t)) (wrap rs (EXEC (argv ++ [a]))) t s' ;;
          let '(ret, s) := x in parse_args fuel (length (argv ++ [a])) ret t s) /\
  (s' <= length t)%nat /\ toks s' = r /\ word a = w /\ span_ok a.
Proof.
  intros Hs Htk. cbn [parse_args]. destruct (peek_at s (str "|)&;")) as (s1 & -> & Hs1 & Htk1 & _); [done..|].
  rewrite Htk in *. cbn [starts_with]. destruct (gettoken_word s1 _ _ Hs1 Htk1) as (a & s2 & -> & Hs2 & Htk2 & Hw & Ha).
  exists a, s2. split; [|done]. cbn [Z.eqb Pos.eqb negb]. rewrite add_arg_wrap, length_app, Nat.add_comm. cbn [length Nat.add].
  done.
Qed.

Lemma ends_no_redir args rest : ends (str "|)&;") rest -> starts_with (str "<>") (arg_toks args ++ rest) = false.
Proof.
  intros Hend. destruct args as [|a args]; [|done]. cbn. destruct Hend as [->|(c & r & -> & Hc)%starts_with_true]; [done|].
  apply not_true_is_false. intros (d & r' & [= -> _])%starts_redir. by destruct d.
Qed.

Lemma args_total : forall fuel rs argv s, (s <= length t)%nat -> (length (toks s) < fuel)%nat -> (length argv < MAXARGS)%nat ->
  (exists args s', parse_args fuel (length argv) (wrap rs (EXEC argv)) t s =
       URet (wrap (rs ++ concat (snd <$> args)) (EXEC (argv ++ (fst <$> args))), s') /\
     (s' <= length t)%nat /\ args_ok args /\ (length argv + length args < MAXARGS)%nat /\
     toks s = arg_toks (word_arg word <$> args) ++ toks s') \/
  complains (parse_args fuel (length argv) (wrap rs (EXEC argv)) t s).
Proof.
  induction fuel as [|fuel IH]; intros rs argv s Hs Hfuel Hargv; [lia|].
  destruct (toks s) as [|[w|c] r] eqn:Htk.
  - destruct (args_stop fuel (length argv) (wrap rs (EXEC argv)) s Hs) as (s' & -> & Hs' & Htk'); [by left|].
    left. exists [], s'. cbn. rewrite !app_nil_r, Nat.add_0_r. split_and!; try done; [constructor|by rewrite Htk', Htk].
  - destruct (args_step fuel rs argv s w r Hs Htk) as (a & s1 & -> & Hs1 & Htk1 & Hw & Ha).
    destruct (Nat.leb_spec MAXARGS (S (length argv))) as [Hmax|Hmax]; [right; apply panic_complains|].
    destruct (redirs_total (S (length t)) (wrap rs (EXEC (argv ++ [a]))) s1 Hs1 (enough s1)) as [(rs1 & s2 & -> & Hs2 & Hrs1 & Htk2)|Hc];
      [|right; by apply complains_bind].
    cbn [ubind]. rewrite <- wrap_app. destruct (IH (rs ++ rs1) (argv ++ [a]) s2 Hs2) as [(args & s' & -> & Hs' & Hargs & Hn & Htk')|Hc];
      [..|left|by right].
    { rewrite <- Htk1, Htk2 in Hfuel. cbn [length] in Hfuel. rewrite length_app in Hfuel. lia. }
    { rewrite length_app. cbn [length]. lia. }
    exists ((a, rs1) :: args), s'. rewrite length_app in Hn. cbn [length] in Hn. split_and!; [|done|by constructor|cbn [length]; lia|].
    + cbn. by rewrite <- !app_assoc.
    + subst w. rewrite <- Htk1, Htk2, Htk'. cbn [fmap list_fmap]. unfold arg_toks. cbn [fmap list_fmap concat]. cbn. by rewrite <- app_assoc.
  - destruct (starts_with (str "|)&;") (toks s)) eqn:Hst; [|right; by eapply args_bad].
    destruct (args_stop fuel (length argv) (wrap rs (EXEC argv)) s Hs) as (s' & -> & Hs' & Htk'); [by right|].
    left. exists [], s'. cbn. rewrite !app_nil_r, Nat.add_0_r. split_and!; try done; [constructor|by rewrite Htk', Htk].
Qed.

Lemma args_complete : forall args fuel rs argv s rest, (s <= length t)%nat -> toks s = arg_toks args ++ rest ->
  ends (str "|)&;") rest -> (length args < fuel)%nat -> (length argv + length args < MAXARGS)%nat ->
  exists args' s', parse_args fuel (length argv) (wrap rs (EXEC argv)) t s =
      URet (wrap (rs ++ concat (snd <$> args')) (EXEC (argv ++ (fst <$> args'))), s') /\
    (s' <= length t)%nat /\ toks s' = rest /\ args_ok args' /\ args = word_arg word <$> args'.
Proof.
  induction args as [|[w rs1] args IH]; intros fuel rs argv s rest Hs Htk Hend Hfuel Hmax; (destruct fuel as [|fuel]; [lia|]).
  - cbn in Htk. subst rest. destruct (args_stop fuel (length argv) (wrap rs (EXEC argv)) s Hs Hend) as (s' & -> & Hs' & Htk').
    exists [], s'. cbn. rewrite !app_nil_r. split_and!; try done. constructor.
  - cbn [length] in *. destruct (args_step fuel rs argv s w (redir_toks rs1 ++ arg_toks args ++ rest) Hs) as (a & s1 & -> & Hs1 & Htk1 & Hw & Ha).
    { rewrite Htk. unfold arg_toks. cbn. by rewrite <- app_assoc. }
    rewrite (proj2 (Nat.leb_gt _ _)) by lia.
    destruct (redirs_complete rs1 (S (length t)) (wrap rs (EXEC (argv ++ [a]))) s1 (arg_toks args ++ rest))
      as (rs1' & s2 & -> & Hs2 & Htk2 & Hrs1 & ->); [done..|by apply ends_no_redir| |].
    { pose proof (enough s1) as He. rewrite Htk1, length_app in He. pose proof (length_redir_toks rs1). lia. }
    cbn [ubind]. rewrite <- wrap_app.
    destruct (IH fuel (rs ++ rs1') (argv ++ [a]) s2 rest Hs2 Htk2 Hend) as (args' & s' & -> & Hs' & Htk' & Hargs & ->);
      [lia|rewrite length_app; cbn [length]; lia|].
    exists ((a, rs1') :: args'), s'. split_and!; [|done..|by constructor|by subst w]. cbn. by rewrite <- !app_assoc.
Qed.

(** ** One operator *)

Lemma starts_operator c ts : c <> 62 -> starts_with [c] ts = true <-> exists r, ts = Sym c :: r /\ c <> 43.
Proof.
  intros Hc. split.
  - intros (x & r & -> & Hx)%starts_with_true. rewrite is_in_elem in Hx. apply bool_decide_eq_true_1, list_elem_of_singleton in Hx.
    destruct (Z.eqb_spec x 43) as [->|]; [by subst c|]. subst c. by exists r.
  - intros (r & -> & H43). cbn [starts_with]. rewrite (proj2 (Z.eqb_neq c 43)), is_in_elem by done.
    apply bool_decide_eq_true, list_elem_of_singleton. done.
Qed.

Lemma peek_yes s c r : (s <= length t)%nat -> c ∈ symbols -> c <> 62 -> toks s = Sym c :: r -> exists s1 a s2,
  peek t s [c] = (true, s1) /\ gettoken t s1 = (c, a, s2) /\ (s1 <= length t)%nat /\ toks s1 = toks s /\ (s2 <= length t)%nat /\ toks s2 = r.
Proof.
  intros Hs Hc Hc62 Htk. assert (c <> 43) by (intros ->; revert Hc; apply (bool_decide_unpack _); by vm_compute).
  destruct (peek_at s [c] Hs) as (s1 & -> & Hs1 & Htk1 & _).
  { cbn. rewrite is_in_elem, bool_decide_eq_true_2 by done. done. }
  rewrite Htk in *. rewrite (proj2 (starts_operator c _ Hc62)) by by exists r.
  destruct (gettoken_sym s1 c r Hs1 Htk1) as (a & s2 & Hg & Hs2 & Htk2 & _). by exists s1, a, s2.
Qed.

Lemma peek_no s c : (s <= length t)%nat -> c ∈ symbols -> starts_with [c] (toks s) = false -> exists s1,
  peek t s [c] = (false, s1) /\ (s1 <= length t)%nat /\ toks s1 = toks s.
Proof.
  intros Hs Hc Hst. destruct (peek_at s [c] Hs) as (s1 & -> & Hs1 & Htk1 & _).
  { cbn. rewrite is_in_elem, bool_decide_eq_true_2 by done. done. }
  rewrite Hst. by exists s1.
Qed.

Lemma back_total : forall fuel k s, (s <= length t)%nat -> (length (toks s) < fuel)%nat ->
  exists n s', parse_back fuel k t s = URet (Nat.iter n BACK k, s') /\ (s' <= length t)%nat /\
    toks s = repeat (Sym 38) n ++ toks s' /\ starts_with [38] (toks s') = false.
Proof.
  assert (38 ∈ symbols) as H38 by (apply (bool_decide_unpack _); by vm_compute).
  induction fuel as [|fuel IH]; intros k s Hs Hfuel; [lia|]. cbn [parse_back]. change (str "&") with [38].
  destruct (starts_with [38] (toks s)) eqn:Hst.
  - apply starts_operator in Hst as (r & Htk & _); [|done]. destruct (peek_yes s 38 r Hs H38 ltac:(done) Htk) as (s1 & a & s2 & -> & -> & _ & _ & Hs2 & Htk2).
    rewrite Htk, <- Htk2 in *. cbn [length] in Hfuel. destruct (IH (BACK k) s2 Hs2 ltac:(lia)) as (n & s' & -> & Hs' & -> & Hst').
    exists (S n), s'. rewrite Nat.iter_succ_r. by split_and!.
  - destruct (peek_no s 38 Hs H38 Hst) as (s1 & -> & Hs1 & Htk1). exists O, s1. split_and!; try done; by rewrite Htk1.
Qed.

Lemma repeat_unique n m r r' : starts_with [38] r = false -> starts_with [38] r' = false ->
  repeat (Sym 38) n ++ r = repeat (Sym 38) m ++ r' -> n = m /\ r = r'.
Proof.
  revert m. induction n as [|n IH]; intros [|m] Hr Hr' Heq; cbn in *; [done|subst; done|subst; done|].
  injection Heq as Heq. destruct (IH m Hr Hr' Heq) as [-> ->]. done.
Qed.

Lemma command_back n k : command_of word (Nat.iter n BACK k) = Nat.iter n Background (command_of word k).
Proof. induction n as [|n IH]; [done|]. cbn. f_equal. exact IH. Qed.

Lemma spans_back n k : spans (Nat.iter n BACK k) = spans k.
Proof. induction n as [|n IH]; done. Qed.

(** ** The parser returns what the grammar says, or complains *)

Definition returns {T} (tk : T -> list token) (fits : T -> Prop) (means : T -> command) (r : user (cmd * nat)) (s : nat) : Prop :=
  (exists k s' x, r = URet (k, s') /\ (s' <= length t)%nat /\ Forall span_ok (spans k) /\
     toks s = tk x ++ toks s' /\ fits x /\ command_of word k = means x) \/
  complains r.
Definition line_returns := returns line_toks line_fits line_means.
Definition pipe_returns := returns pipe_toks pipe_fits pipe_means.
Definition simple_returns := returns simple_toks simple_fits simple_means.

Lemma operator_symbols : Forall (fun c => c ∈ symbols /\ c <> 62) (str "&;|()").
Proof. apply (bool_decide_unpack _). by vm_compute. Qed.

(** The two tests on one operator: it is there and is read, or it is not there. *)
Lemma operator_cases s c : (s <= length t)%nat -> c ∈ str "&;|()" ->
  (exists s1 a s2 r, peek t s [c] = (true, s1) /\ gettoken t s1 = (c, a, s2) /\ (s1 <= length t)%nat /\ toks s1 = toks s /\
     (s2 <= length t)%nat /\ toks s = Sym c :: r /\ toks s2 = r) \/
  (exists s1, peek t s [c] = (false, s1) /\ (s1 <= length t)%nat /\ toks s1 = toks s /\ starts_with [c] (toks s) = false).
Proof.
  intros Hs Hc. pose proof operator_symbols as Hop. rewrite Forall_forall in Hop. destruct (Hop c Hc) as [Hsym H62].
  destruct (starts_with [c] (toks s)) eqn:Hst.
  - apply starts_operator in Hst as (r & Htk & _); [|done]. left.
    destruct (peek_yes s c r Hs Hsym H62 Htk) as (s1 & a & s2 & Hp & Hg & Hs1 & Htk1 & Hs2 & Htk2). by exists s1, a, s2, r.
  - right. destruct (peek_no s c Hs Hsym Hst) as (s1 & Hp & Hs1 & Htk1). by exists s1.
Qed.

Ltac operator c s :=
  destruct (operator_cases s c) as [(?s & ?a & ?s & ?r & -> & ?Hget & ? & ?Htk & ? & ?Htk & ?Htk)|(?s & -> & ? & ?Htk & ?Hno)];
  [done|by apply (bool_decide_unpack _); vm_compute|try match goal with Hg : gettoken _ _ = _ |- _ => rewrite Hg; clear Hg end|].

Lemma returns_at {T} tk fits means r s s' : toks s = toks s' -> returns (T := T) tk fits means r s -> returns tk fits means r s'.
Proof. unfold returns. by intros ->. Qed.

Lemma returns_bind {T U} tk fits means (tk' : U -> list token) fits' means' r s f s0 :
  returns (T := T) tk fits means r s ->
  (forall k s' x, (s' <= length t)%nat -> Forall span_ok (spans k) -> toks s = tk x ++ toks s' -> fits x -> command_of word k = means x ->
     returns tk' fits' means' (f (k, s')) s0) ->
  returns tk' fits' means' (ubind r f) s0.
Proof.
  intros [(k & s' & x & -> & Hs' & Hk & Htk & Hx & Hm)|Hc] Hf; [by eapply Hf|right; by apply complains_bind].
Qed.

Lemma exec_total fuel s : (s <= length t)%nat ->
  (forall s, (s <= length t)%nat -> starts_with [40] (toks s) = true -> (4 * length (toks s) + 1 <= fuel)%nat -> simple_returns (parseblock fuel t s) s) ->
  (4 * length (toks s) + 2 <= S fuel)%nat -> simple_returns (parseexec (S fuel) t s) s.
Proof.
  intros Hs Hblock Hfuel. cbn [parseexec]. change (str "(") with [40]. operator 40 s.
  - eapply returns_at; [exact Htk|]. apply Hblock; [done|by rewrite Htk, Htk0|rewrite Htk; lia].
  - destruct (redirs_total (S (length t)) (EXEC []) s0 H (enough s0)) as [(rs & s1 & -> & Hs1 & Hrs & Htk1)|Hc];
      [|right; by apply complains_bind].
    cbn [ubind]. destruct (args_total (S (length t)) rs [] s1 Hs1 (enough s1)) as [(args & s2 & Hp & Hs2 & Hargs & Hmax & Htk2)|Hc];
      [cbn; unfold MAXARGS; lia|left|by right].
    eexists _, s2, (Plain (word_redir word <$> rs) (word_arg word <$> args)). split; [exact Hp|]. split_and!; [done| | | |].
    + by apply spans_simple.
    + cbn [simple_toks]. by rewrite <- Htk, Htk1, Htk2, <- app_assoc.
    + cbn [simple_fits]. by rewrite length_fmap.
    + by rewrite <- command_simple.
Qed.

Lemma block_total fuel s : (s <= length t)%nat -> starts_with [40] (toks s) = true ->
  (forall s, (s <= length t)%nat -> (4 * length (toks s) + 4 <= fuel)%nat -> line_returns (parseline fuel t s) s) ->
  (4 * length (toks s) + 1 <= S fuel)%nat -> simple_returns (parseblock (S fuel) t s) s.
Proof.
  intros Hs Hst Hline Hfuel. cbn [parseblock]. change (str "(") with [40]. operator 40 s; [cbn [negb]|congruence].
  rewrite Htk0 in Hfuel. cbn [length] in Hfuel. rewrite <- Htk1 in Hfuel.
  eapply returns_bind; [apply Hline; [done|lia]|]. intros k s2 l Hs2 Hk Htkl Hl Hm. cbv beta iota.
  change (str ")") with [41]. operator 41 s2; [cbn [negb]|right; apply panic_complains].
  destruct (redirs_total (S (length t)) k s4 H2 (enough s4)) as [(rs & s5 & -> & Hs5 & Hrs & Htk5)|Hc]; [left|by right].
  exists (wrap rs k), s5, (Block l (word_redir word <$> rs)). split_and!; [done..| | |done|].
  - rewrite spans_wrap, Forall_app, Forall_fmap. done.
  - cbn [simple_toks]. rewrite Htk0, <- Htk1, Htkl, Htk3, <- Htk4, Htk5. cbn. by rewrite <- app_assoc.
  - cbn [simple_means]. by rewrite command_wrap, Hm.
Qed.

Lemma pipe_total fuel s : (s <= length t)%nat ->
  (forall s, (s <= length t)%nat -> (4 * length (toks s) + 2 <= fuel)%nat -> simple_returns (parseexec fuel t s) s) ->
  (forall s, (s <= length t)%nat -> (4 * length (toks s) + 3 <= fuel)%nat -> pipe_returns (parsepipe fuel t s) s) ->
  (4 * length (toks s) + 3 <= S fuel)%nat -> pipe_returns (parsepipe (S fuel) t s) s.
Proof.
  intros Hs Hexec Hpipe Hfuel. cbn [parsepipe]. eapply returns_bind; [apply Hexec; [done|lia]|].
  intros k s1 e Hs1 Hk Htke He Hm. cbv beta iota. change (str "|") with [124]. operator 124 s1.
  - eapply returns_bind; [apply Hpipe; [done|]|].
    { rewrite Htke, Htk0, <- Htk1, length_app in Hfuel. cbn [length] in Hfuel. lia. }
    intros k' s4 p Hs4 Hk' Htkp Hp Hm'. left. exists (PIPE k k'), s4, (Through e p). split_and!; try done.
    + cbn [spans]. by apply Forall_app.
    + cbn [pipe_toks]. rewrite Htke, Htk0, <- Htk1, Htkp. by rewrite <- app_assoc.
    + cbn. by rewrite Hm, Hm'.
  - left. exists k, s0, (Single e). split_and!; try done. by rewrite Htk, Htke.
Qed.

Lemma line_total fuel s : (s <= length t)%nat ->
  (forall s, (s <= length t)%nat -> (4 * length (toks s) + 3 <= fuel)%nat -> pipe_returns (parsepipe fuel t s) s) ->
  (forall s, (s <= length t)%nat -> (4 * length (toks s) + 4 <= fuel)%nat -> line_returns (parseline fuel t s) s) ->
  (4 * length (toks s) + 4 <= S fuel)%nat -> line_returns (parseline (S fuel) t s) s.
Proof.
  intros Hs Hpipe Hline Hfuel. cbn [parseline]. eapply returns_bind; [apply Hpipe; [done|lia]|].
  intros k s1 p Hs1 Hk Htkp Hp Hm. cbv beta iota.
  destruct (back_total (S (length t)) k s1 Hs1 (enough s1)) as (n & s2 & -> & Hs2 & Htkb & _). cbn [ubind].
  change (str ";") with [59]. operator 59 s2.
  - eapply returns_bind; [apply Hline; [done|]|].
    { rewrite Htkp, Htkb, Htk0, <- Htk1, !length_app in Hfuel. cbn [length] in Hfuel. lia. }
    intros k' s5 l Hs5 Hk' Htkl Hl Hm'. left. exists (LIST (Nat.iter n BACK k) k'), s5, (More p n l). split_and!; try done.
    + cbn [spans]. rewrite spans_back. by apply Forall_app.
    + cbn [line_toks]. rewrite Htkp, Htkb, Htk0, <- Htk1, Htkl. by rewrite <- !app_assoc.
    + cbn [command_of line_means]. by rewrite command_back, Hm, Hm'.
  - left. exists (Nat.iter n BACK k), s0, (Last p n). split_and!; try done.
    + by rewrite spans_back.
    + cbn [line_toks]. by rewrite Htk, Htkp, Htkb, <- app_assoc.
    + by rewrite command_back, Hm.
Qed.

Lemma parser_total : forall fuel,
  (forall s, (s <= length t)%nat -> (4 * length (toks s) + 4 <= fuel)%nat -> line_returns (parseline fuel t s) s) /\
  (forall s, (s <= length t)%nat -> (4 * length (toks s) + 3 <= fuel)%nat -> pipe_returns (parsepipe fuel t s) s) /\
  (forall s, (s <= length t)%nat -> (4 * length (toks s) + 2 <= fuel)%nat -> simple_returns (parseexec fuel t s) s) /\
  (forall s, (s <= length t)%nat -> starts_with [40] (toks s) = true -> (4 * length (toks s) + 1 <= fuel)%nat -> simple_returns (parseblock fuel t s) s).
Proof.
  induction fuel as [|fuel (Hl & Hp & He & Hb)]; [split_and!; intros; lia|].
  split_and!; intros; [by apply line_total|by apply pipe_total|by apply exec_total|by apply block_total].
Qed.

(** ** The parser accepts every line of the grammar *)

Definition parsed (r : user (cmd * nat)) (c : command) (rest : list token) : Prop :=
  exists k s', r = URet (k, s') /\ (s' <= length t)%nat /\ toks s' = rest /\ Forall span_ok (spans k) /\ command_of word k = c.

Lemma ends_not l c rest : ends l rest -> is_in l c = false -> c <> 62 -> starts_with [c] rest = false.
Proof.
  intros Hend Hc H62. apply not_true_is_false. intros (r & -> & H43)%starts_operator; [|done].
  destruct Hend as [|Hst]; [done|]. cbn in Hst. rewrite (proj2 (Z.eqb_neq c 43)) in Hst by done. congruence.
Qed.

Lemma ends_clash l c r : ends l (Sym c :: r) -> is_in l c = false -> c <> 43 -> False.
Proof. intros [|Hst] Hc H43; [done|]. cbn in Hst. rewrite (proj2 (Z.eqb_neq c 43)) in Hst by done. congruence. Qed.

Lemma ends_more l l' rest : l ⊆ l' -> ends l rest -> ends l' rest.
Proof.
  intros Hl [->|(c & r & -> & Hc)%starts_with_true]; [by left|]. right. cbn. rewrite is_in_elem in *.
  apply bool_decide_eq_true_1 in Hc. by apply bool_decide_eq_true_2, Hl.
Qed.

Lemma ends_sym l c r : is_in l c = true -> c <> 43 -> ends l (Sym c :: r).
Proof. intros Hc H43. right. cbn. by rewrite (proj2 (Z.eqb_neq c 43)). Qed.

Definition line_parsed (l : line) : Prop := forall fuel s rest, (s <= length t)%nat -> toks s = line_toks l ++ rest ->
  ends (str ")") rest -> line_fits l -> (4 * length (toks s) + 4 <= fuel)%nat -> parsed (parseline fuel t s) (line_means l) rest.
Definition pipe_parsed (p : pipeline) : Prop := forall fuel s rest, (s <= length t)%nat -> toks s = pipe_toks p ++ rest ->
  ends (str ")&;") rest -> pipe_fits p -> (4 * length (toks s) + 3 <= fuel)%nat -> parsed (parsepipe fuel t s) (pipe_means p) rest.
Definition simple_parsed (e : simple) : Prop := forall fuel s rest, (s <= length t)%nat -> toks s = simple_toks e ++ rest ->
  ends (str "|)&;") rest -> simple_fits e -> (4 * length (toks s) + 2 <= fuel)%nat -> parsed (parseexec fuel t s) (simple_means e) rest.

Lemma redirs_enough s rs rest : toks s = redir_toks rs ++ rest -> (length rs < S (length t))%nat.
Proof. intros Htk. pose proof (enough s) as He. rewrite Htk, length_app in He. pose proof (length_redir_toks rs). lia. Qed.

Lemma plain_no_block rs args rest : ends (str "|)&;") rest -> starts_with [40] ((redir_toks rs ++ arg_toks args) ++ rest) = false.
Proof.
  intros Hend. destruct rs as [|[d w] rs]; [|by destruct d]. destruct args as [|a args]; [|done]. by eapply ends_not.
Qed.

Lemma plain_complete rs args : simple_parsed (Plain rs args).
Proof.
  intros fuel s rest Hs Htk Hend Hfits Hfuel. destruct fuel as [|fuel]; [lia|]. cbn [simple_toks] in Htk. cbn [parseexec].
  change (str "(") with [40]. operator 40 s.
  { pose proof (plain_no_block rs args rest Hend) as Hno. rewrite <- Htk, Htk1 in Hno. done. }
  rewrite <- Htk0, <- app_assoc in Htk.
  destruct (redirs_complete rs (S (length t)) (EXEC []) s0 (arg_toks args ++ rest)) as (rs' & s1 & -> & Hs1 & Htk1 & Hrs & ->);
    [done..|by apply ends_no_redir|by eapply redirs_enough|].
  cbn [ubind]. destruct (args_complete args (S (length t)) rs' [] s1 rest) as (args' & s2 & Hp & Hs2 & Htk2 & Hargs & ->); [done..| |done|].
  { pose proof (enough s1) as He. rewrite Htk1, length_app in He. pose proof (length_arg_toks args). lia. }
  eexists _, s2. split; [exact Hp|]. split_and!; [done..|by apply spans_simple|apply command_simple].
Qed.

Lemma block_complete l rs : line_parsed l -> simple_parsed (Block l rs).
Proof.
  intros Hline fuel s rest Hs Htk Hend Hfits Hfuel. destruct fuel as [|[|fuel]]; [lia..|]. cbn [simple_toks] in Htk. cbn [parseexec].
  change (str "(") with [40]. operator 40 s; [|by rewrite Htk in Hno].
  cbn [parseblock]. change (str "(") with [40]. operator 40 s0; [|by rewrite Htk0, Htk in Hno].
  assert (toks s3 = line_toks l ++ Sym 41 :: redir_toks rs ++ rest) as Htkl.
  { rewrite Htk0, Htk in Htk4. cbn in Htk4. injection Htk4 as <-. rewrite Htk5. by rewrite <- app_assoc. }
  destruct (Hline fuel s3 _ H2 Htkl) as (k & s4 & -> & Hs4 & Htk6 & Hk & Hm); [by apply ends_sym|done| |].
  { rewrite Htk1 in Hfuel. rewrite Htk0, Htk1 in Htk4. injection Htk4 as ->. rewrite Htk5. cbn [length] in Hfuel. lia. }
  cbn [negb ubind]. change (str ")") with [41]. operator 41 s4; [|by rewrite Htk6 in Hno]. cbn [negb].
  rewrite Htk6 in Htk8. injection Htk8 as <-.
  destruct (redirs_complete rs (S (length t)) k s6 rest) as (rs' & s7 & -> & Hs7 & Htk10 & Hrs & ->); [done..|by apply (ends_no_redir [])|by eapply redirs_enough|].
  eexists _, s7. split; [done|]. split_and!; [done..| |].
  - rewrite spans_wrap, Forall_app, Forall_fmap. done.
  - cbn [simple_means]. by rewrite command_wrap, Hm.
Qed.

Lemma single_complete e : simple_parsed e -> pipe_parsed (Single e).
Proof.
  intros Hsimple fuel s rest Hs Htk Hend Hfits Hfuel. destruct fuel as [|fuel]; [lia|]. cbn [parsepipe].
  destruct (Hsimple fuel s rest Hs Htk) as (k & s1 & -> & Hs1 & Htk1 & Hk & Hm); [|done|lia|].
  { eapply ends_more; [|done]. apply (bool_decide_unpack _). by vm_compute. }
  cbn [ubind]. change (str "|") with [124]. operator 124 s1.
  - rewrite <- Htk1, Htk2 in Hend. by apply ends_clash in Hend.
  - exists k, s0. split_and!; try done. congruence.
Qed.

Lemma through_complete e p : simple_parsed e -> pipe_parsed p -> pipe_parsed (Through e p).
Proof.
  intros Hsimple Hpipe fuel s rest Hs Htk Hend [He Hp] Hfuel. destruct fuel as [|fuel]; [lia|]. cbn [parsepipe].
  cbn [pipe_toks] in Htk. rewrite <- app_assoc in Htk.
  destruct (Hsimple fuel s _ Hs Htk) as (k & s1 & -> & Hs1 & Htk1 & Hk & Hm); [by apply ends_sym|done|lia|].
  cbn [ubind]. change (str "|") with [124]. operator 124 s1; [|by rewrite Htk1 in Hno].
  rewrite Htk1 in Htk2. injection Htk2 as <-.
  destruct (Hpipe fuel s2 rest H0 Htk3 Hend Hp) as (k' & s3 & -> & Hs3 & Htk4 & Hk' & Hm').
  { rewrite Htk, !length_app in Hfuel. rewrite Htk3, length_app. cbn [length] in Hfuel. lia. }
  exists (PIPE k k'), s3. split_and!; try done.
  - cbn [spans]. by apply Forall_app.
  - cbn. by rewrite Hm, Hm'.
Qed.

(** A pipeline and the ampersands after it. *)
Lemma back_complete p n fuel s rest : pipe_parsed p -> (s <= length t)%nat -> toks s = pipe_toks p ++ repeat (Sym 38) n ++ rest ->
  ends (str ");") rest -> pipe_fits p -> (4 * length (toks s) + 3 <= fuel)%nat ->
  parsed (r <- parsepipe fuel t s ;; let '(c, s) := r in parse_back (S (length t)) c t s) (Nat.iter n Background (pipe_means p)) rest.
Proof.
  intros Hpipe Hs Htk Hend Hp Hfuel.
  destruct (Hpipe fuel s _ Hs Htk) as (k & s1 & -> & Hs1 & Htk1 & Hk & Hm); [|done..|].
  { destruct n as [|n]; [|by apply ends_sym]. eapply ends_more; [|exact Hend]. apply (bool_decide_unpack _). by vm_compute. }
  cbn [ubind]. destruct (back_total (S (length t)) k s1 Hs1 (enough s1)) as (m & s2 & -> & Hs2 & Htkb & Hno).
  rewrite Htk1 in Htkb. apply repeat_unique in Htkb as [<- ->]; [|by eapply ends_not|done].
  exists (Nat.iter n BACK k), s2. split_and!; try done; [by rewrite spans_back|by rewrite command_back, Hm].
Qed.

Lemma parseline_bind fuel s r : r = (x <- parsepipe fuel t s ;; let '(c, s) := x in parse_back (S (length t)) c t s) ->
  forall k s', r = URet (k, s') ->
  parseline (S fuel) t s =
    let '(b, s) := peek t s' (str ";") in
    if b then
      let '(_, _, s) := gettoken t s in
      r <- parseline fuel t s ;;
      let '(c', s) := r in
      URet (LIST k c', s)
    else URet (k, s).
Proof.
  intros -> k s' Hr. cbn [parseline]. destruct (parsepipe fuel t s) as [[c s1]|R e f|msg]; [|done..]. cbn [ubind] in *. by rewrite Hr.
Qed.

Lemma last_complete p n : pipe_parsed p -> line_parsed (Last p n).
Proof.
  intros Hpipe fuel s rest Hs Htk Hend Hfits Hfuel. destruct fuel as [|fuel]; [lia|]. cbn [line_toks] in Htk. rewrite <- app_assoc in Htk.
  destruct (back_complete p n fuel s rest Hpipe Hs Htk) as (k & s1 & Hr & Hs1 & Htk1 & Hk & Hm); [|done|lia|].
  { eapply ends_more; [|exact Hend]. apply (bool_decide_unpack _). by vm_compute. }
  erewrite parseline_bind by done. change (str ";") with [59]. operator 59 s1.
  - rewrite <- Htk1, Htk2 in Hend. by apply ends_clash in Hend.
  - exists k, s0. split_and!; try done. congruence.
Qed.

Lemma more_complete p n l : pipe_parsed p -> line_parsed l -> line_parsed (More p n l).
Proof.
  intros Hpipe Hline fuel s rest Hs Htk Hend [Hp Hl] Hfuel. destruct fuel as [|fuel]; [lia|].
  cbn [line_toks] in Htk. rewrite <- !app_assoc in Htk. rewrite <- app_comm_cons in Htk.
  destruct (back_complete p n fuel s _ Hpipe Hs Htk) as (k & s1 & Hr & Hs1 & Htk1 & Hk & Hm); [by apply ends_sym|done|lia|].
  erewrite parseline_bind by done. change (str ";") with [59]. operator 59 s1; [|by rewrite Htk1 in Hno].
  rewrite Htk1 in Htk2. injection Htk2 as <-.
  destruct (Hline fuel s2 rest H0 Htk3 Hend Hl) as (k' & s3 & -> & Hs3 & Htk4 & Hk' & Hm').
  { rewrite Htk, !length_app in Hfuel. rewrite Htk3, length_app. cbn [length] in Hfuel. rewrite length_app in Hfuel. lia. }
  exists (LIST k k'), s3. split_and!; try done.
  - cbn [spans]. by apply Forall_app.
  - cbn. by rewrite Hm, Hm'.
Qed.

Lemma parser_complete : (forall l, line_parsed l) /\ (forall p, pipe_parsed p) /\ (forall e, simple_parsed e).
Proof.
  apply line_ind'; eauto using last_complete, more_complete, single_complete, through_complete, plain_complete, block_complete.
Qed.

(** ** The strings after [nulterminate] *)

Lemma nulterminate_spans k b : nulterminate k b = foldl put_nul b (snd <$> spans k).
Proof.
  revert b. induction k as [argv|k IH file mode fd|l IHl r IHr|l IHl r IHr|k IH]; intros b; cbn [nulterminate spans].
  - revert b. induction argv as [|a argv IH]; intros b; [done|]. apply IH.
  - by rewrite fmap_app, foldl_app, <- IH.
  - by rewrite fmap_app, foldl_app, <- IHl, <- IHr.
  - by rewrite fmap_app, foldl_app, <- IHl, <- IHr.
  - apply IH.
Qed.

Lemma lookup_put_nul E b i : foldl put_nul b E !! i = if decide (i ∈ E) then (fun _ => 0) <$> b !! i else b !! i.
Proof.
  revert b. induction E as [|e E IH]; intros b; [done|]. cbn [foldl]. rewrite IH. unfold put_nul.
  destruct (decide (i = e)) as [->|Hne].
  - rewrite (decide_True (P := e ∈ e :: E)) by left. destruct (decide (e < length b)%nat) as [Hlt|Hge].
    + rewrite list_lookup_insert_eq by done. destruct (lookup_lt_is_Some_2 b e Hlt) as [x ->]. by destruct (decide (e ∈ E)).
    + rewrite list_insert_ge by lia. rewrite (lookup_ge_None_2 b e) by lia. by destruct (decide (e ∈ E)).
  - rewrite list_lookup_insert_ne by done. destruct (decide (i ∈ E)) as [Hin|Hin].
    + by rewrite decide_True by by right.
    + by rewrite decide_False by by intros [?|?]%elem_of_cons.
Qed.

Lemma take_while_true P l i c : take_while P l !! i = Some c -> l !! i = Some c /\ P c = true.
Proof.
  revert i. induction l as [|x l IH]; intros i Hi; cbn in Hi; [by rewrite lookup_nil in Hi|].
  destruct (P x) eqn:HP; [|by rewrite lookup_nil in Hi]. destruct i as [|i]; [by injection Hi as <-|by apply IH].
Qed.

Lemma take_while_end P l c : l !! length (take_while P l) = Some c -> P c = false.
Proof. induction l as [|x l IH]; cbn; [done|]. destruct (P x) eqn:HP; cbn; [apply IH|by intros [= <-]]. Qed.

(** The NULs are not inside words. *)
Lemma nul_outside a a' i : span_ok a -> span_ok a' -> (i < length (take_while word_char (drop (fst a) t)))%nat -> (fst a + i)%nat <> snd a'.
Proof.
  intros Ha Ha' Hi Heq. destruct (lookup_lt_is_Some_2 _ _ Hi) as [c Hc]. apply take_while_true in Hc as [Hc Hw]. rewrite lookup_drop, Heq, Ha' in Hc.
  rewrite <- lookup_drop in Hc. apply take_while_end in Hc. congruence.
Qed.

Lemma string_word k a : Forall span_ok (spans k) -> a ∈ spans k -> string_at (nulterminate k t) (fst a) = word a.
Proof.
  intros Hk Hin. assert (span_ok a) as Ha by by (rewrite Forall_forall in Hk; apply Hk). rewrite word_span by done.
  rewrite nulterminate_spans. set (b := foldl _ _ _). set (w := take_while _ _).
  assert (take (length w) (drop (fst a) b) = w) as Htake.
  { apply list_eq. intros i. destruct (decide (i < length w)%nat) as [Hi|Hi].
    - rewrite lookup_take_lt, lookup_drop by done. subst b. rewrite lookup_put_nul, decide_False.
      + destruct (lookup_lt_is_Some_2 w i Hi) as [c Hc]. rewrite Hc. apply take_while_true in Hc as [Hc _]. by rewrite lookup_drop in Hc.
      + intros (a' & Heq & Hin')%list_elem_of_fmap. rewrite Forall_forall in Hk. by eapply (nul_outside a a'); [..|exact Heq]; [|apply Hk|].
    - rewrite lookup_take_ge by lia. symmetry. apply lookup_ge_None. lia. }
  unfold string_at. rewrite <- (take_drop (length w) (drop (fst a) b)), Htake, drop_drop, c_string_app.
  2:{ intros (i & Hi)%list_elem_of_lookup. apply take_while_true in Hi as [Hi _]. rewrite lookup_drop in Hi. by eapply Ht, list_elem_of_lookup_2. }
  rewrite <- (Ha : snd a = (fst a + length w)%nat). enough (c_string (drop (snd a) b) = []) as -> by apply app_nil_r.
  destruct (drop (snd a) b) as [|c l] eqn:Hd; [done|].
  assert (b !! snd a = Some c) as Hc by (rewrite <- (Nat.add_0_r (snd a)), <- lookup_drop, Hd; done).
  subst b. rewrite lookup_put_nul, decide_True in Hc by by apply list_elem_of_fmap_2.
  destruct (t !! snd a); [|done]. by injection Hc as <-.
Qed.
End parser.

Lemma command_ext f g k : (forall a, a ∈ spans k -> f a = g a) -> command_of f k = command_of g k.
Proof.
  induction k as [argv|k IH file mode fd|l IHl r IHr|l IHl r IHr|k IH]; cbn [spans command_of]; intros Hfg.
  - f_equal. apply list_fmap_ext. intros i a Ha. by apply Hfg, (list_elem_of_lookup_2 _ i).
  - rewrite IH, Hfg; [done|..]; intros; try apply Hfg; set_solver.
  - rewrite IHl, IHr; [done|..]; intros; apply Hfg; set_solver.
  - rewrite IHl, IHr; [done|..]; intros; apply Hfg; set_solver.
  - by rewrite IH.
Qed.

(** ** The command of a line *)

(** The command that [parsecmd] hands to [runcmd], with the strings its pointers are to. *)
Definition command_in (buf : list Z) (k : cmd) : command := command_of (fun a => string_at buf (fst a)) k.

Lemma command_nul t k : 0 ∉ t -> Forall (span_ok t) (spans k) -> command_in (nulterminate k t) k = command_of (word t) k.
Proof. intros Ht Hk. apply command_ext. intros a Ha. by apply string_word. Qed.

Definition denotes (t : list Z) (c : command) : Prop := exists l, tokens t = line_toks l /\ line_fits l /\ line_means l = c.

Lemma parsecmd_complete t c : 0 ∉ t -> denotes t c -> exists k buf, parsecmd t = URet (k, buf) /\ command_in buf k = c.
Proof.
  intros Ht (l & Htk & Hl & <-). destruct (parser_complete t Ht) as [Hline _].
  destruct (Hline l (4 * S (length t))%nat O []) as (k & s & Hp & Hs & Htks & Hk & Hm);
    [lia|unfold toks; rewrite drop_0, app_nil_r; done|by left|done| |].
  { pose proof (toks_length t O). lia. }
  unfold parsecmd. rewrite Hp. cbn [ubind]. destruct (peek_at t Ht s [] Hs) as (s1 & -> & _ & _ & Hend); [done|].
  rewrite (proj2 (Nat.eqb_eq _ _)) by by apply Hend. exists k, (nulterminate k t). split; [done|]. by rewrite command_nul.
Qed.

Lemma parsecmd_total t : 0 ∉ t ->
  (exists k buf, parsecmd t = URet (k, buf) /\ denotes t (command_in buf k)) \/ complains (parsecmd t).
Proof.
  intros Ht. unfold parsecmd. destruct (parser_total t Ht (4 * S (length t))%nat) as [Hline _].
  destruct (Hline O) as [(k & s & l & -> & Hs & Hk & Htk & Hl & Hm)|Hc]; [lia|pose proof (toks_length t O); lia| |right; by apply complains_bind].
  cbn [ubind]. destruct (peek_at t Ht s [] Hs) as (s1 & -> & _ & _ & Hend); [done|]. destruct (Nat.eqb_spec s1 (length t)) as [He|He]; cbn [negb].
  - left. exists k, (nulterminate k t). split; [done|]. exists l. rewrite command_nul by done. split_and!; [|done..].
    unfold toks in Htk at 1. rewrite drop_0 in Htk. by rewrite Htk, (proj1 Hend He), app_nil_r.
  - right. eapply (mutters_bind (fun _ => True)); [by apply mutters_printf|]. intros _ _. apply panic_complains.
Qed.

(** C26: The parser of the shell implements its grammar.  On every line it returns, with no
    recursion left unfinished, or writes a message to descriptor 2 and exits; it returns a tree
    exactly when the tokens of the line are a line of the grammar with at most nine arguments to
    a command, and the tree, after the NULs have been put into the line in place, is the command
    that line means. *)
Theorem parsecmd_grammar t : 0 ∉ t ->
  (forall c, (exists k buf, parsecmd t = URet (k, buf) /\ command_in buf k = c) <-> denotes t c) /\
  ((exists k buf, parsecmd t = URet (k, buf)) \/ complains (parsecmd t)).
Proof.
  intros Ht. split; [|destruct (parsecmd_total t Ht) as [(k & buf & -> & _)|Hc]; [left; by eexists _, _|by right]].
  intros c. split; [|by apply parsecmd_complete]. intros (k & buf & Hp & <-).
  destruct (parsecmd_total t Ht) as [(k' & buf' & Hp' & Hd)|Hc]; [by rewrite Hp in Hp'; injection Hp' as -> ->|].
  rewrite Hp in Hc. by inversion Hc.
Qed.

Definition sample_line : list Z := str "(grep x<in ;wc)| sort>out &" ++ [10].

Lemma parsecmd_grammar_witness : 0 ∉ sample_line /\ denotes sample_line
  (Background (Pipeline (Sequence (Redirect (Run [str "grep"; str "x"]) (str "in") 0 0) (Run [str "wc"]))
                        (Redirect (Run [str "sort"]) (str "out") 513 1))).
Proof.
  assert (0 ∉ sample_line) as Ht by (apply (bool_decide_unpack _); by vm_compute). split; [done|].
  apply (proj1 (parsecmd_grammar sample_line Ht)). eexists _, _. split; [vm_compute; reflexivity|by vm_compute].
Defined.
