(* ===== verification/ShRun.v ===== *)
(** * ShRun: what the processes of a command do

    The processes of a command in a system that may refuse every [fork], [pipe], [open] and
    [exec].  Descriptors are allocated from the lowest free one, as [fdalloc] does; a child has
    its parent's table.  The shell starts the programs of the command with their standard
    input and output connected by pipes and files and with no other descriptor open, waits
    where it has to, holds no end of a pipe while it waits, and stops at the first refusal. *)

From stdpp Require Import base gmap list strings.
From Stdlib Require Import ZArith Lia.
From S2P Require Import Prelude State Fs Sysfile User Utils Sh ShSpec ShParse.

Local Open Scope Z_scope.
Local Open Scope user_scope.

(** ** Processes *)

(** What a descriptor is open on. *)
Inductive object := Given (n : nat) | Opened (path : list Z) (mode : Z) | Reader (pipe : nat) | Writer (pipe : nat).
Definition fdtable : Type := gmap Z object.

(** A program that has replaced a process, its arguments and its descriptors. *)
Record program := mkProgram { p_path : list Z; p_argv : list (list Z); p_fds : fdtable }.

(** What a process does from now on: it makes a child, sleeps until a child ends (with these
    descriptors open), becomes a program, or exits. *)
Inductive life :=
| Fork (child rest : life)
| Wait (fds : fdtable) (rest : life)
| Exec (p : program)
| Exit.

(** The answers of the system; the calls that may fail are numbered. *)
Record answers := mkAnswers {
  fork_pid : nat -> Z;
  pipe_ok : nat -> bool;
  openable : nat -> list Z -> Z -> bool;
  executable : nat -> list Z -> bool;
  waited : nat -> Z
}.
(** [fork] returns the pid of the child, or -1. *)
Definition fork_answers (w : answers) : Prop := forall n, fork_pid w n = -1 \/ 0 < fork_pid w n.

Section system.
Context (w : answers) (Hw : fork_answers w).

Definition free_fd (fds : fdtable) : option Z := List.find (fun fd => bool_decide (fds !! fd = None)) (seqZ 0 (Z.of_nat NOFILE)).

(** What the process does, and the number of the next call. *)
Definition outcome : Type := option (life * nat).

(** One system call, [K] is what follows it. *)
Definition sys {R} (e : sysE R) : (R -> fdtable -> nat -> outcome) -> fdtable -> nat -> outcome :=
  match e in sysE R return (R -> fdtable -> nat -> outcome) -> fdtable -> nat -> outcome with
  | Sfork => fun K fds n =>
      if fork_pid w n =? -1 then K (-1) fds (S n)
      else
        '(child, n') ← K 0 fds (S n);
        '(parent, n'') ← K (fork_pid w n) fds n';
        Some (Fork child parent, n'')
  | Sexit => fun _ _ n => Some (Exit, n)
  | Swait => fun K fds n => '(rest, n') ← K (waited w n) fds n; Some (Wait fds rest, n')
  | Swrite _ l => fun K fds n => K (Z.of_nat (length l)) fds n
  | Sclose fd => fun K fds n => K (if bool_decide (is_Some (fds !! fd)) then 0 else -1) (delete fd fds) n
  | Sopen path mode => fun K fds n =>
      if openable w n path mode then
        match free_fd fds with
        | Some fd => K fd (<[fd := Opened path mode]> fds) (S n)
        | None => K (-1) fds (S n)
        end
      else K (-1) fds (S n)
  | Sdup fd => fun K fds n =>
      match fds !! fd, free_fd fds with
      | Some o, Some fd' => K fd' (<[fd' := o]> fds) n
      | _, _ => K (-1) fds n
      end
  | Spipe => fun K fds n =>
      match free_fd fds with
      | Some r =>
          let fds' := <[r := Reader n]> fds in
          match free_fd fds' with
          | Some x => if pipe_ok w n then K (0, (r, x)) (<[x := Writer n]> fds') (S n) else K (-1, (0, 0)) fds (S n)
          | None => K (-1, (0, 0)) fds (S n)
          end
      | None => K (-1, (0, 0)) fds (S n)
      end
  | Sexec path argv => fun K fds n =>
      if executable w n path then Some (Exec (mkProgram path argv fds), S n) else K (-1) fds (S n)
  | _ => fun _ _ _ => None
  end.

(** A process that returns instead of exiting is not described. *)
Fixpoint processes {A} (m : user A) (fds : fdtable) (n : nat) : outcome :=
  match m with
  | URet _ => None
  | UBad _ => None
  | USys e k => sys e (fun r fds n => processes (k r) fds n) fds n
  end.

(** ** What a command is to do *)

Record stdio := mkStdio { stdin : object; stdout : object; stderr : object }.
Definition table (s : stdio) : fdtable := <[0 := stdin s]> (<[1 := stdout s]> {[ 2 := stderr s ]}).
Definition redirect (fd : Z) (o : object) (s : stdio) : stdio :=
  if fd =? 0 then mkStdio o (stdout s) (stderr s) else mkStdio (stdin s) o (stderr s).

(** The process of a command with the standard descriptors [s]; call [n] is the next.  In [l ; r]
    the process waits for its child [l] before it goes on as [r].  In [l | r] it makes two
    children, which hold one end of the pipe each, and waits for both with only its own
    descriptors.  In [c &] it does not wait.  When the system refuses a call it exits. *)
Fixpoint started (c : command) (s : stdio) (n : nat) : life * nat :=
  match c with
  | Run [] => (Exit, n)
  | Run (path :: args) => (if executable w n path then Exec (mkProgram path (path :: args) (table s)) else Exit, S n)
  | Redirect c file mode fd => if openable w n file mode then started c (redirect fd (Opened file mode) s) (S n) else (Exit, S n)
  | Pipeline l r =>
      if negb (pipe_ok w n) then (Exit, S n) else
      if fork_pid w (S n) =? -1 then (Exit, S (S n)) else
      let '(child1, n1) := started l (redirect 1 (Writer n) s) (S (S n)) in
      if fork_pid w n1 =? -1 then (Fork child1 Exit, S n1) else
      let '(child2, n2) := started r (redirect 0 (Reader n) s) (S n1) in
      (Fork child1 (Fork child2 (Wait (table s) (Wait (table s) Exit))), n2)
  | Sequence l r =>
      if fork_pid w n =? -1 then (Exit, S n) else
      let '(child1, n1) := started l s (S n) in
      let '(rest, n2) := started r s n1 in
      (Fork child1 (Wait (table s) rest), n2)
  | Background c =>
      if fork_pid w n =? -1 then (Exit, S n) else
      let '(child, n1) := started c s (S n) in (Fork child Exit, n1)
  end.

(** Redirections are of the standard input and output. *)
Fixpoint standard (c : command) : Prop :=
  match c with
  | Run _ => True
  | Redirect c _ _ fd => (fd = 0 \/ fd = 1) /\ standard c
  | Pipeline l r | Sequence l r => standard l /\ standard r
  | Background c => standard c
  end.

(** ** Programs that do not return *)

Inductive never_returns {A} : user A -> Prop :=
| never_exit k : never_returns (USys Sexit k)
| never_bad msg : never_returns (UBad msg)
| never_call {R} (e : sysE R) k : (forall r, never_returns (k r)) -> never_returns (USys e k).

Lemma never_bind {A B} (m : user A) (f : A -> user B) : (forall a, never_returns (f a)) -> never_returns (ubind m f).
Proof. intros Hf. induction m as [a|R e k IH|msg]; cbn [ubind]; [done|by apply never_call|apply never_bad]. Qed.

Lemma sys_ext {R} (e : sysE R) K K' fds n : (forall r fds n, K r fds n = K' r fds n) -> sys e K fds n = sys e K' fds n.
Proof.
  intros HK. destruct e; cbn [sys]; rewrite ?HK; try done; repeat case_match; try by rewrite ?HK.
  destruct (K' 0 fds (S n)) as [[? ?]|]; cbn; [|done]. by rewrite HK.
Qed.

Lemma processes_never {A B} (m : user A) (f : A -> user B) fds n : never_returns m -> processes (ubind m f) fds n = processes m fds n.
Proof.
  intros Hm. revert fds n. induction Hm as [k|msg|R e k _ IH]; intros fds n; [done..|]. cbn [ubind processes]. by apply sys_ext.
Qed.

Lemma never_bind_l {A B} (m : user A) (f : A -> user B) : never_returns m -> never_returns (ubind m f).
Proof. intros Hm. induction Hm; cbn [ubind]; by constructor. Qed.

Lemma processes_assoc {A B C} (m : user A) (f : A -> user B) (g : B -> user C) fds n :
  processes (ubind (ubind m f) g) fds n = processes (ubind m (fun a => ubind (f a) g)) fds n.
Proof.
  revert fds n. induction m as [a|R e k IH|msg]; intros fds n; [done| |done]. cbn [ubind processes]. apply sys_ext. intros. apply IH.
Qed.

Lemma processes_mutters {A B} (P : A -> Prop) (m : user A) (f : A -> user B) fds n : mutters P m ->
  (forall a, P a -> processes (f a) fds n = Some (Exit, n)) -> processes (ubind m f) fds n = Some (Exit, n).
Proof. intros Hm Hf. induction Hm as [a Ha|k|l k _ IH]; cbn [ubind processes sys]; [by apply Hf|done|apply IH]. Qed.

Lemma processes_call {R B} (e : sysE R) (f : R -> user B) fds n :
  processes (ubind (call e) f) fds n = sys e (fun r fds n => processes (f r) fds n) fds n.
Proof. done. Qed.

(** [fork1] exits when there is no child. *)
Lemma processes_fork1 {B} (f : Z -> user B) fds n :
  processes (ubind fork1 f) fds n =
  if fork_pid w n =? -1 then Some (Exit, S n)
  else '(child, n') ← processes (f 0) fds (S n); '(parent, n'') ← processes (f (fork_pid w n)) fds n'; Some (Fork child parent, n'').
Proof.
  unfold fork1. rewrite processes_assoc, processes_call. cbn [sys]. destruct (fork_pid w n =? -1) eqn:E.
  - cbn [Z.eqb Pos.eqb]. unfold panic. rewrite processes_assoc. by eapply processes_mutters; [by apply mutters_printf|].
  - done.
Qed.

Lemma runcmd_never buf k : never_returns (runcmd buf k).
Proof. destruct k; cbn [runcmd]; apply never_bind; intros []; apply never_exit. Qed.

Lemma open_redirected file mode fd s : fd = 0 \/ fd = 1 ->
  free_fd (delete fd (table s)) = Some fd /\ <[fd := Opened file mode]> (delete fd (table s)) = table (redirect fd (Opened file mode) s).
Proof. by intros [->| ->]. Qed.

(** The table with both ends of a new pipe. *)
Definition piped (s : stdio) (i : nat) : fdtable := <[4 := Writer i]> (<[3 := Reader i]> (table s)).

Lemma left_child {A B} (m : user A) (g : A -> user B) s i n : never_returns m ->
  processes (ubind (call (Sclose 1) ;;; call (Sdup 4) ;;; call (Sclose 3) ;;; call (Sclose 4) ;;; m) g) (piped s i) n =
  processes m (table (redirect 1 (Writer i) s)) n.
Proof. intros Hm. rewrite processes_never; [done|]. by repeat (apply never_bind; intros _). Qed.

Lemma right_child {A B} (m : user A) (g : A -> user B) s i n : never_returns m ->
  processes (ubind (call (Sclose 0) ;;; call (Sdup 3) ;;; call (Sclose 3) ;;; call (Sclose 4) ;;; m) g) (piped s i) n =
  processes m (table (redirect 0 (Reader i) s)) n.
Proof. intros Hm. rewrite processes_never; [done|]. by repeat (apply never_bind; intros _). Qed.

Lemma parent_pid n : fork_pid w n =? -1 = false -> fork_pid w n =? 0 = false.
Proof. intros E%Z.eqb_neq. apply Z.eqb_neq. destruct (Hw n); lia. Qed.

Lemma runcmd_starts buf k : forall s n, standard (command_in buf k) ->
  processes (runcmd buf k) (table s) n = Some (started (command_in buf k) s n).
Proof.
  unfold command_in. induction k as [[|a argv]|k IH file mode fd|l IHl r IHr|l IHl r IHr|k IH]; intros s n Hst; cbn [runcmd command_of started standard] in *.
  - done.
  - rewrite processes_assoc, processes_call. cbn [sys fmap list_fmap]. destruct (executable w n _); [done|].
    by eapply processes_mutters; [by apply mutters_printf|].
  - destruct Hst as [Hfd Hst]. rewrite processes_assoc, processes_call. cbn [sys]. rewrite processes_assoc, processes_call. cbn [sys].
    destruct (open_redirected (string_at buf (fst file)) mode fd s Hfd) as [-> ->]. destruct (openable w n _ _).
    + rewrite (proj2 (Z.ltb_ge fd 0)) by lia. rewrite processes_never by apply runcmd_never. by apply IH.
    + cbn [Z.ltb Z.compare]. rewrite processes_assoc. by eapply processes_mutters; [by apply mutters_printf|].
  - destruct Hst as [Hl Hr]. rewrite processes_assoc, processes_call. cbn [sys].
    change (free_fd (table s)) with (Some 3). cbv iota zeta. change (free_fd (<[3 := Reader n]> (table s))) with (Some 4). cbv iota.
    destruct (pipe_ok w n); cbn [negb Z.ltb Z.compare].
    2:{ unfold panic. rewrite processes_assoc. by eapply processes_mutters; [by apply mutters_printf|]. }
    rewrite processes_assoc, processes_fork1. destruct (fork_pid w (S n) =? -1) eqn:E1; [done|]. cbn [Z.eqb].
    fold (piped s n). rewrite processes_assoc, left_child by apply runcmd_never. rewrite IHl by done. cbn [mbind option_bind].
    destruct (started _ (redirect 1 _ s) _) as [ls n1]. rewrite parent_pid by done. cbn [ubind].
    rewrite processes_assoc, processes_fork1. destruct (fork_pid w n1 =? -1) eqn:E2; [done|]. cbn [Z.eqb]. rewrite processes_assoc, right_child by apply runcmd_never.
    rewrite IHr by done. cbn [mbind option_bind]. destruct (started _ (redirect 0 _ s) _) as [rs n2]. rewrite parent_pid by done. done.
  - destruct Hst as [Hl Hr]. rewrite processes_assoc, processes_fork1. destruct (fork_pid w n =? -1) eqn:E; [done|]. cbn [Z.eqb].
    rewrite processes_assoc, processes_never by apply runcmd_never. rewrite IHl by done. cbn [mbind option_bind].
    destruct (started _ s (S n)) as [ls n1]. rewrite parent_pid by done. cbn [ubind]. rewrite processes_assoc, processes_call. cbn [sys].
    rewrite processes_never, IHr by (done || apply runcmd_never). cbn [mbind option_bind]. by destruct (started _ s n1).
  - rewrite processes_assoc, processes_fork1. destruct (fork_pid w n =? -1) eqn:E; [done|]. cbn [Z.eqb]. rewrite processes_never, IH by (done || apply runcmd_never).
    cbn [mbind option_bind]. destruct (started _ s (S n)) as [ls n1]. rewrite parent_pid by done. done.
Qed.

(** ** Lines *)

Lemma redirected_standard rs c : standard c -> standard (redirected rs c).
Proof.
  intros Hc. induction rs as [|[d file] rs IH] using rev_ind; [done|]. unfold redirected. rewrite foldl_app. cbn.
  split; [destruct d; auto|exact IH].
Qed.

Lemma iter_standard n c : standard c -> standard (Nat.iter n Background c).
Proof. induction n as [|n IH]; [done|]. intros Hc. by apply IH. Qed.

Lemma grammar_standard : (forall l, standard (line_means l)) /\ (forall p, standard (pipe_means p)) /\ (forall e, standard (simple_means e)).
Proof.
  apply line_ind'; cbn; intros; split_and?; auto using redirected_standard, iter_standard. by apply redirected_standard.
Qed.

End system.


Definition pipeline_line : list Z := str "cat <in| grep x |wc>out" ++ [10].

(** A system that refuses one [fork]; in [pipeline_line] call 8 is the [fork] for the third program. *)
Definition sample_answers (refused : nat) : answers :=
  mkAnswers (fun n => if bool_decide (n = refused) then -1 else 5) (fun _ => true) (fun _ _ _ => true) (fun _ _ => true) (fun _ => 5).

