(* ===== verification/UtFile.v ===== *)
(** * UtFile: the tests of files and directories in usertests.c

    Each test is a program over the system calls.  [buf] is the global buffer of 8192 bytes
    and is threaded through the tests that use it; a test takes fuel where it reads until
    the end of a file. *)

From stdpp Require Import base gmap list strings.
From Stdlib Require Import ZArith Lia.
From S2P Require Import Prelude State Fs Sysfile Str User Utils.

Local Open Scope Z_scope.
Local Open Scope user_scope.

(** ** Steps the tests share *)

(** [printf(1, "...\n")] *)
Definition say (s : string) : user unit := printf 1 (str s ++ [10]) [].
(** a failed check: the message, and [exit()] *)
Definition fail {A} (s : string) : user A := say s ;;; exit.
Definition fail_if (b : bool) (s : string) : user unit := if b then fail s else URet tt.

(** a loop whose body may end it: [false] when it did *)
Fixpoint uloop {A} (l : list A) (f : A -> user bool) : user bool :=
  match l with
  | [] => URet true
  | x :: l' => b <- f x ;; if b : bool then uloop l' f else URet false
  end.
(** a loop that changes local variables *)
Fixpoint ufold {A S} (l : list A) (f : S -> A -> user S) (s : S) : user S :=
  match l with
  | [] => URet s
  | x :: l' => s <- f s x ;; ufold l' f s
  end.

Definition open (path : list Z) (omode : Z) : user Z := call (Sopen path omode).
Definition close (fd : Z) : user unit := call (Sclose fd) ;;; URet tt.
Definition unlink_ (path : list Z) : user unit := call (Sunlink path) ;;; URet tt.
Definition wait_ : user unit := call Swait ;;; URet tt.

(** [read(fd, buf, n)] and the buffer after it *)
Definition read (fd : Z) (buf : list Z) (n : Z) : user (Z * list Z) :=
  r <- call (Sread fd n) ;;
  let '(cc, l) := r in URet (cc, splice 0 l buf).
(** [buf[i]], a signed char *)
Definition at_ (buf : list Z) (i : nat) : Z := schar (default 0 (buf !! i)).
Definition BUFSIZE : Z := 8192.
Definition RDWR : Z := Z.lor O_CREATE O_RDWR.

(** ** The inode tests *)

Definition iputtest : user unit :=
  say "iput test" ;;;
  r <- call (Smkdir (str "iputdir")) ;; fail_if (r <? 0) "mkdir failed" ;;;
  r <- call (Schdir (str "iputdir")) ;; fail_if (r <? 0) "chdir iputdir failed" ;;;
  r <- call (Sunlink (str "../iputdir")) ;; fail_if (r <? 0) "unlink ../iputdir failed" ;;;
  r <- call (Schdir (str "/")) ;; fail_if (r <? 0) "chdir / failed" ;;;
  say "iput test ok".

Definition exitiputtest : user unit :=
  say "exitiput test" ;;;
  pid <- call Sfork ;;
  fail_if (pid <? 0) "fork failed" ;;;
  if pid =? 0 then
    r <- call (Smkdir (str "iputdir")) ;; fail_if (r <? 0) "mkdir failed" ;;;
    r <- call (Schdir (str "iputdir")) ;; fail_if (r <? 0) "child chdir failed" ;;;
    r <- call (Sunlink (str "../iputdir")) ;; fail_if (r <? 0) "unlink ../iputdir failed" ;;;
    exit
  else
    wait_ ;;;
    say "exitiput test ok".

Definition openiputtest : user unit :=
  say "openiput test" ;;;
  r <- call (Smkdir (str "oidir")) ;; fail_if (r <? 0) "mkdir oidir failed" ;;;
  pid <- call Sfork ;;
  fail_if (pid <? 0) "fork failed" ;;;
  if pid =? 0 then
    fd <- open (str "oidir") O_RDWR ;;
    fail_if (0 <=? fd) "open directory for write succeeded" ;;;
    exit
  else
    call (Ssleep 1) ;;;
    r <- call (Sunlink (str "oidir")) ;; fail_if (negb (r =? 0)) "unlink failed" ;;;
    wait_ ;;;
    say "openiput test ok".

(** ** Opening, writing and reading *)

Definition opentest : user unit :=
  say "open test" ;;;
  fd <- open (str "echo") 0 ;;
  fail_if (fd <? 0) "open echo failed!" ;;;
  close fd ;;;
  fd <- open (str "doesnotexist") 0 ;;
  fail_if (0 <=? fd) "open doesnotexist succeeded!" ;;;
  say "open test ok".

Definition writetest (buf : list Z) : user (list Z) :=
  say "small file test" ;;;
  fd <- open (str "small") RDWR ;;
  (if 0 <=? fd then say "creat small succeeded; ok" else fail "error: creat small failed!") ;;;
  ueach (seq 0 100) (fun i =>
    r <- call (Swrite fd (str "aaaaaaaaaa")) ;;
    (if negb (r =? 10) then printf 1 (str "error: write aa %d new file failed" ++ [10]) [PInt (Z.of_nat i)] ;;; exit else URet tt) ;;;
    r <- call (Swrite fd (str "bbbbbbbbbb")) ;;
    if negb (r =? 10) then printf 1 (str "error: write bb %d new file failed" ++ [10]) [PInt (Z.of_nat i)] ;;; exit else URet tt) ;;;
  say "writes ok" ;;;
  close fd ;;;
  fd <- open (str "small") O_RDONLY ;;
  (if 0 <=? fd then say "open small succeeded ok" else fail "error: open small failed!") ;;;
  r <- read fd buf 2000 ;;
  let '(i, buf) := r in
  (if i =? 2000 then say "read succeeded ok" else fail "read failed") ;;;
  close fd ;;;
  r <- call (Sunlink (str "small")) ;; fail_if (r <? 0) "unlink small failed" ;;;
  say "small file test ok" ;;;
  URet buf.

(** The first int of [buf]. *)
Definition word0 (buf : list Z) : Z := i32 (rd 4 0 buf).

(** The loop that reads the big file back: [n] and the buffer at its end. *)
Fixpoint writetest1_read (fuel : nat) (fd : Z) (buf : list Z) (n : Z) : user (list Z) :=
  match fuel with
  | O => out_of_fuel
  | S fuel' =>
      r <- read fd buf 512 ;;
      let '(i, buf) := r in
      if i =? 0 then
        if n =? MAXFILE - 1 then printf 1 (str "read only %d blocks from big") [PInt n] ;;; exit
        else URet buf
      else if negb (i =? 512) then printf 1 (str "read failed %d" ++ [10]) [PInt i] ;;; exit
      else if negb (word0 buf =? n) then
        printf 1 (str "read content of block %d is %d" ++ [10]) [PInt n; PInt (word0 buf)] ;;; exit
      else writetest1_read fuel' fd buf (n + 1)
  end.

Definition writetest1 (fuel : nat) (buf : list Z) : user (list Z) :=
  say "big files test" ;;;
  fd <- open (str "big") RDWR ;;
  fail_if (fd <? 0) "error: creat big failed!" ;;;
  buf <- ufold (seq 0 (Z.to_nat MAXFILE)) (fun buf i =>
    let buf := wr 4 0 (Z.of_nat i) buf in
    r <- call (Swrite fd (take 512 buf)) ;;
    fail_if (negb (r =? 512)) "error: write big file failed" ;;;
    URet buf) buf ;;
  close fd ;;;
  fd <- open (str "big") O_RDONLY ;;
  fail_if (fd <? 0) "error: open big failed!" ;;;
  buf <- writetest1_read fuel fd buf 0 ;;
  close fd ;;;
  r <- call (Sunlink (str "big")) ;; fail_if (r <? 0) "unlink big failed" ;;;
  say "big files ok" ;;;
  URet buf.

(** [name]: a letter and a digit *)
Definition name2 (c i : Z) : list Z := [c; u8 (48 + i)].

Definition createtest : user unit :=
  say "many creates, followed by unlink test" ;;;
  ueach (seq 0 52) (fun i =>
    fd <- open (name2 97 (Z.of_nat i)) RDWR ;;
    close fd) ;;;
  ueach (seq 0 52) (fun i => unlink_ (name2 97 (Z.of_nat i))) ;;;
  say "many creates, followed by unlink; ok".

Definition dirtest : user unit :=
  say "mkdir test" ;;;
  r <- call (Smkdir (str "dir0")) ;; fail_if (r <? 0) "mkdir failed" ;;;
  r <- call (Schdir (str "dir0")) ;; fail_if (r <? 0) "chdir dir0 failed" ;;;
  r <- call (Schdir (str "..")) ;; fail_if (r <? 0) "chdir .. failed" ;;;
  r <- call (Sunlink (str "dir0")) ;; fail_if (r <? 0) "unlink dir0 failed" ;;;
  say "mkdir test ok".

(** ** Files written by several processes *)

(** The loop of [sharedfd] that reads the file; [nc] and [np] count the letters. *)
Fixpoint sharedfd_read (fuel : nat) (fd : Z) (buf : list Z) (nc np : Z) : user (Z * Z) :=
  match fuel with
  | O => out_of_fuel
  | S fuel' =>
      r <- read fd buf 10 ;;
      let '(n, buf) := r in
      if 0 <? n then
        sharedfd_read fuel' fd buf (nc + Z.of_nat (length (filter (fun c => c = 99) buf))) (np + Z.of_nat (length (filter (fun c => c = 112) buf)))
      else URet (nc, np)
  end.

Definition sharedfd (fuel : nat) : user unit :=
  say "sharedfd test" ;;;
  unlink_ (str "sharedfd") ;;;
  fd <- open (str "sharedfd") RDWR ;;
  if fd <? 0 then printf 1 (str "fstests: cannot open sharedfd for writing") [] else
  pid <- call Sfork ;;
  let buf := replicate 10 (if pid =? 0 then 99 else 112) in
  uloop (seq 0 1000) (fun _ =>
    r <- call (Swrite fd buf) ;;
    if negb (r =? 10) then say "fstests: write sharedfd failed" ;;; URet false else URet true) ;;;
  (if pid =? 0 then exit else wait_) ;;;
  close fd ;;;
  fd <- open (str "sharedfd") 0 ;;
  if fd <? 0 then say "fstests: cannot open sharedfd for reading" else
  r <- sharedfd_read fuel fd buf 0 0 ;;
  let '(nc, np) := r in
  close fd ;;;
  unlink_ (str "sharedfd") ;;;
  if (nc =? 10000) && (np =? 10000) then say "sharedfd ok"
  else printf 1 (str "sharedfd oops %d %d" ++ [10]) [PInt nc; PInt np] ;;; exit.

(** [while((n = read(fd, buf, sizeof(buf))) > 0)]: the buffer and [total] *)
Fixpoint fourfiles_read (fuel : nat) (fd c : Z) (buf : list Z) (total : Z) : user (list Z * Z) :=
  match fuel with
  | O => out_of_fuel
  | S fuel' =>
      r <- read fd buf BUFSIZE ;;
      let '(n, buf) := r in
      if 0 <? n then
        fail_if (existsb (fun b => negb (schar b =? c)) (take (Z.to_nat n) buf)) "wrong char" ;;;
        fourfiles_read fuel' fd c buf (total + n)
      else URet (buf, total)
  end.

Definition fourfiles_child (fname : list Z) (pi : Z) (buf : list Z) : user unit :=
  fd <- open fname RDWR ;;
  fail_if (fd <? 0) "create failed" ;;;
  let buf := splice 0 (replicate 512 (u8 (48 + pi))) buf in
  ueach (seq 0 12) (fun _ =>
    n <- call (Swrite fd (take 500 buf)) ;;
    if negb (n =? 500) then printf 1 (str "write failed %d" ++ [10]) [PInt n] ;;; exit else URet tt) ;;;
  exit.

Definition fourfiles (fuel : nat) (buf : list Z) : user (list Z) :=
  let names := [str "f0"; str "f1"; str "f2"; str "f3"] in
  say "fourfiles test" ;;;
  ueach (seq 0 4) (fun pi =>
    let fname := default [] (names !! pi) in
    unlink_ fname ;;;
    pid <- call Sfork ;;
    fail_if (pid <? 0) "fork failed" ;;;
    if pid =? 0 then fourfiles_child fname (Z.of_nat pi) buf else URet tt) ;;;
  ueach (seq 0 4) (fun _ => wait_) ;;;
  buf <- ufold (seq 0 2) (fun buf i =>
    let fname := default [] (names !! i) in
    fd <- open fname 0 ;;
    r <- fourfiles_read fuel fd (48 + Z.of_nat i) buf 0 ;;
    let '(buf, total) := r in
    close fd ;;;
    (if negb (total =? 12 * 500) then printf 1 (str "wrong length %d" ++ [10]) [PInt total] ;;; exit else URet tt) ;;;
    unlink_ fname ;;;
    URet buf) buf ;;
  say "fourfiles ok" ;;;
  URet buf.

(** A child of [createdelete]: it creates the files and removes every second of them again. *)
Definition createdelete_child (pi : Z) : user unit :=
  ueach (seq 0 20) (fun i =>
    let i := Z.of_nat i in
    fd <- open (name2 (112 + pi) i) RDWR ;;
    fail_if (fd <? 0) "create failed" ;;;
    close fd ;;;
    if (0 <? i) && (i mod 2 =? 0) then
      r <- call (Sunlink (name2 (112 + pi) (i / 2))) ;; fail_if (r <? 0) "unlink failed"
    else URet tt) ;;;
  exit.

Definition createdelete : user unit :=
  say "createdelete test" ;;;
  ueach (seq 0 4) (fun pi =>
    pid <- call Sfork ;;
    fail_if (pid <? 0) "fork failed" ;;;
    if pid =? 0 then createdelete_child (Z.of_nat pi) else URet tt) ;;;
  ueach (seq 0 4) (fun _ => wait_) ;;;
  ueach (seq 0 20) (fun i => ueach (seq 0 4) (fun pi =>
    let i := Z.of_nat i in
    let name := name2 (112 + Z.of_nat pi) i in
    fd <- open name 0 ;;
    (if ((i =? 0) || (10 <=? i)) && (fd <? 0) then
       printf 1 (str "oops createdelete %s didn't exist" ++ [10]) [PStr name] ;;; exit
     else if ((1 <=? i) && (i <? 10)) && (0 <=? fd) then
       printf 1 (str "oops createdelete %s did exist" ++ [10]) [PStr name] ;;; exit
     else URet tt) ;;;
    if 0 <=? fd then close fd else URet tt)) ;;;
  ueach (seq 0 20) (fun i => ueach (seq 0 4) (fun _ => unlink_ (name2 (112 + Z.of_nat i) (Z.of_nat i)))) ;;;
  say "createdelete ok".

(** ** Links *)

Definition unlinkread (buf : list Z) : user (list Z) :=
  say "unlinkread test" ;;;
  fd <- open (str "unlinkread") RDWR ;;
  fail_if (fd <? 0) "create unlinkread failed" ;;;
  call (Swrite fd (str "hello")) ;;;
  close fd ;;;
  fd <- open (str "unlinkread") O_RDWR ;;
  fail_if (fd <? 0) "open unlinkread failed" ;;;
  r <- call (Sunlink (str "unlinkread")) ;; fail_if (negb (r =? 0)) "unlink unlinkread failed" ;;;
  fd1 <- open (str "unlinkread") RDWR ;;
  call (Swrite fd1 (str "yyy")) ;;;
  close fd1 ;;;
  r <- read fd buf BUFSIZE ;;
  let '(n, buf) := r in
  (if negb (n =? 5) then printf 1 (str "unlinkread read failed") [] ;;; exit else URet tt) ;;;
  fail_if (negb (at_ buf 0 =? 104)) "unlinkread wrong data" ;;;
  r <- call (Swrite fd (take 10 buf)) ;; fail_if (negb (r =? 10)) "unlinkread write failed" ;;;
  close fd ;;;
  unlink_ (str "unlinkread") ;;;
  say "unlinkread ok" ;;;
  URet buf.

Definition linktest (buf : list Z) : user (list Z) :=
  say "linktest" ;;;
  unlink_ (str "lf1") ;;;
  unlink_ (str "lf2") ;;;
  fd <- open (str "lf1") RDWR ;;
  fail_if (fd <? 0) "create lf1 failed" ;;;
  r <- call (Swrite fd (str "hello")) ;; fail_if (negb (r =? 5)) "write lf1 failed" ;;;
  close fd ;;;
  r <- call (Slink (str "lf1") (str "lf2")) ;; fail_if (r <? 0) "link lf1 lf2 failed" ;;;
  unlink_ (str "lf1") ;;;
  r <- open (str "lf1") 0 ;; fail_if (0 <=? r) "unlinked lf1 but it is still there!" ;;;
  fd <- open (str "lf2") 0 ;;
  fail_if (fd <? 0) "open lf2 failed" ;;;
  r <- read fd buf BUFSIZE ;;
  let '(n, buf) := r in
  fail_if (negb (n =? 5)) "read lf2 failed" ;;;
  close fd ;;;
  r <- call (Slink (str "lf2") (str "lf2")) ;; fail_if (0 <=? r) "link lf2 lf2 succeeded! oops" ;;;
  unlink_ (str "lf2") ;;;
  r <- call (Slink (str "lf2") (str "lf1")) ;; fail_if (0 <=? r) "link non-existant succeeded! oops" ;;;
  r <- call (Slink (str ".") (str "lf1")) ;; fail_if (0 <=? r) "link . lf1 succeeded! oops" ;;;
  say "linktest ok" ;;;
  URet buf.

(** The loop over the directory in [concreate]: [de] is the entry last read, [fa] the files
    seen, [n] their number. *)
Fixpoint concreate_read (fuel : nat) (fd : Z) (de : list Z) (fa : list bool) (n : Z) : user Z :=
  match fuel with
  | O => out_of_fuel
  | S fuel' =>
      r <- read fd de 16 ;;
      let '(cc, de) := r in
      if negb (0 <? cc) then URet n
      else if de_inum de =? 0 then concreate_read fuel' fd de fa n
      else
        let nm := de_name de in
        if (at_ nm 0 =? 67) && (at_ nm 2 =? 0) then
          let i := at_ nm 1 - 48 in
          (if (i <? 0) || (40 <=? u32 i) then printf 1 (str "concreate weird file %s" ++ [10]) [PStr (c_string nm)] ;;; exit else URet tt) ;;;
          (if default false (fa !! Z.to_nat i) then printf 1 (str "concreate duplicate file %s" ++ [10]) [PStr (c_string nm)] ;;; exit else URet tt) ;;;
          concreate_read fuel' fd de (<[Z.to_nat i := true]> fa) (n + 1)
        else concreate_read fuel' fd de fa n
  end.

Definition concreate (fuel : nat) : user unit :=
  say "concreate test" ;;;
  ueach (seq 0 40) (fun i =>
    let i := Z.of_nat i in
    let file := name2 67 i in
    unlink_ file ;;;
    pid <- call Sfork ;;
    (if negb (pid =? 0) && (i mod 3 =? 1) then call (Slink (str "C0") file) ;;; URet tt
     else if (pid =? 0) && (i mod 5 =? 1) then call (Slink (str "C0") file) ;;; URet tt
     else
       fd <- open file RDWR ;;
       (if fd <? 0 then printf 1 (str "concreate create %s failed" ++ [10]) [PStr file] ;;; exit else URet tt) ;;;
       close fd) ;;;
    if pid =? 0 then exit else wait_) ;;;
  fd <- open (str ".") 0 ;;
  n <- concreate_read fuel fd (replicate 16 0) (replicate 40 false) 0 ;;
  close fd ;;;
  fail_if (negb (n =? 40)) "concreate not enough files in directory listing" ;;;
  ueach (seq 0 40) (fun i =>
    let i := Z.of_nat i in
    let file := name2 67 i in
    pid <- call Sfork ;;
    fail_if (pid <? 0) "fork failed" ;;;
    (if ((i mod 3 =? 0) && (pid =? 0)) || ((i mod 3 =? 1) && negb (pid =? 0)) then
       ueach (seq 0 4) (fun _ => fd <- open file 0 ;; close fd)
     else ueach (seq 0 4) (fun _ => unlink_ file)) ;;;
    if pid =? 0 then exit else wait_) ;;;
  say "concreate ok".

(** [x] is the generator of the choices. *)
Definition linkunlink_step (x : Z) : user Z :=
  let x := u32 (u32 (x * 1103515245) + 12345) in
  (if x mod 3 =? 0 then fd <- open (str "x") (Z.lor O_RDWR O_CREATE) ;; close fd
   else if x mod 3 =? 1 then call (Slink (str "cat") (str "x")) ;;; URet tt
   else unlink_ (str "x")) ;;;
  URet x.

Definition linkunlink : user unit :=
  say "linkunlink test" ;;;
  unlink_ (str "x") ;;;
  pid <- call Sfork ;;
  fail_if (pid <? 0) "fork failed" ;;;
  ufold (seq 0 100) (fun x _ => linkunlink_step x) (if negb (pid =? 0) then 1 else 97) ;;;
  (if negb (pid =? 0) then wait_ else exit) ;;;
  say "linkunlink ok".

(** ** Directories *)

Definition bigdir_name (i : nat) : list Z := [120; 48 + Z.of_nat i / 64; 48 + Z.of_nat i mod 64].

Definition bigdir : user unit :=
  say "bigdir test" ;;;
  unlink_ (str "bd") ;;;
  fd <- open (str "bd") O_CREATE ;;
  fail_if (fd <? 0) "bigdir create failed" ;;;
  close fd ;;;
  ueach (seq 0 500) (fun i =>
    r <- call (Slink (str "bd") (bigdir_name i)) ;; fail_if (negb (r =? 0)) "bigdir link failed") ;;;
  unlink_ (str "bd") ;;;
  ueach (seq 0 500) (fun i =>
    r <- call (Sunlink (bigdir_name i)) ;;
    if negb (r =? 0) then printf 1 (str "bigdir unlink failed") [] ;;; exit else URet tt) ;;;
  say "bigdir ok".

(** Calls that have to fail, and calls that have to succeed. *)
Definition must {A} (ok : bool) (m : user A) (good : A -> bool) (msg : string) : user unit :=
  r <- m ;; fail_if (negb (Bool.eqb (good r) ok)) msg.
Definition nonneg (r : Z) : bool := 0 <=? r.
Definition iszero (r : Z) : bool := r =? 0.

(** The calls of [subdir] that the kernel must refuse. *)
Definition subdir_refused : user unit :=
  must false (open (str "dd/dd/ff") O_RDONLY) nonneg "open (unlinked) dd/dd/ff succeeded!" ;;;
  must false (open (str "dd/ff/ff") RDWR) nonneg "create dd/ff/ff succeeded!" ;;;
  must false (open (str "dd/xx/ff") RDWR) nonneg "create dd/xx/ff succeeded!" ;;;
  must false (open (str "dd") O_CREATE) nonneg "create dd succeeded!" ;;;
  must false (open (str "dd") O_RDWR) nonneg "open dd rdwr succeeded!" ;;;
  must false (open (str "dd") O_WRONLY) nonneg "open dd wronly succeeded!" ;;;
  must false (call (Slink (str "dd/ff/ff") (str "dd/dd/xx"))) iszero "link dd/ff/ff dd/dd/xx succeeded!" ;;;
  must false (call (Slink (str "dd/xx/ff") (str "dd/dd/xx"))) iszero "link dd/xx/ff dd/dd/xx succeeded!" ;;;
  must false (call (Slink (str "dd/ff") (str "dd/dd/ffff"))) iszero "link dd/ff dd/dd/ffff succeeded!" ;;;
  must false (call (Smkdir (str "dd/ff/ff"))) iszero "mkdir dd/ff/ff succeeded!" ;;;
  must false (call (Smkdir (str "dd/xx/ff"))) iszero "mkdir dd/xx/ff succeeded!" ;;;
  must false (call (Smkdir (str "dd/dd/ffff"))) iszero "mkdir dd/dd/ffff succeeded!" ;;;
  must false (call (Sunlink (str "dd/xx/ff"))) iszero "unlink dd/xx/ff succeeded!" ;;;
  must false (call (Sunlink (str "dd/ff/ff"))) iszero "unlink dd/ff/ff succeeded!" ;;;
  must false (call (Schdir (str "dd/ff"))) iszero "chdir dd/ff succeeded!" ;;;
  must false (call (Schdir (str "dd/xx"))) iszero "chdir dd/xx succeeded!".

Definition subdir (buf : list Z) : user (list Z) :=
  say "subdir test" ;;;
  unlink_ (str "ff") ;;;
  must true (call (Smkdir (str "dd"))) iszero "subdir mkdir dd failed" ;;;
  fd <- open (str "dd/ff") RDWR ;;
  fail_if (fd <? 0) "create dd/ff failed" ;;;
  call (Swrite fd (str "ff")) ;;;
  close fd ;;;
  must false (call (Sunlink (str "dd"))) nonneg "unlink dd (non-empty dir) succeeded!" ;;;
  must true (call (Smkdir (str "/dd/dd"))) iszero "subdir mkdir dd/dd failed" ;;;
  fd <- open (str "dd/dd/ff") RDWR ;;
  fail_if (fd <? 0) "create dd/dd/ff failed" ;;;
  call (Swrite fd (str "FF")) ;;;
  close fd ;;;
  fd <- open (str "dd/dd/../ff") 0 ;;
  fail_if (fd <? 0) "open dd/dd/../ff failed" ;;;
  r <- read fd buf BUFSIZE ;;
  let '(cc, buf) := r in
  fail_if (negb (cc =? 2) || negb (at_ buf 0 =? 102)) "dd/dd/../ff wrong content" ;;;
  close fd ;;;
  must true (call (Slink (str "dd/dd/ff") (str "dd/dd/ffff"))) iszero "link dd/dd/ff dd/dd/ffff failed" ;;;
  must true (call (Sunlink (str "dd/dd/ff"))) iszero "unlink dd/dd/ff failed" ;;;
  must false (open (str "dd/dd/ff") O_RDONLY) nonneg "open (unlinked) dd/dd/ff succeeded" ;;;
  must true (call (Schdir (str "dd"))) iszero "chdir dd failed" ;;;
  must true (call (Schdir (str "dd/../../dd"))) iszero "chdir dd/../../dd failed" ;;;
  must true (call (Schdir (str "dd/../../../dd"))) iszero "chdir dd/../../dd failed" ;;;
  must true (call (Schdir (str "./.."))) iszero "chdir ./.. failed" ;;;
  fd <- open (str "dd/dd/ffff") 0 ;;
  fail_if (fd <? 0) "open dd/dd/ffff failed" ;;;
  r <- read fd buf BUFSIZE ;;
  let '(n, buf) := r in
  fail_if (negb (n =? 2)) "read dd/dd/ffff wrong len" ;;;
  close fd ;;;
  subdir_refused ;;;
  must true (call (Sunlink (str "dd/dd/ffff"))) iszero "unlink dd/dd/ff failed" ;;;
  must true (call (Sunlink (str "dd/ff"))) iszero "unlink dd/ff failed" ;;;
  must false (call (Sunlink (str "dd"))) iszero "unlink non-empty dd succeeded!" ;;;
  must true (call (Sunlink (str "dd/dd"))) nonneg "unlink dd/dd failed" ;;;
  must true (call (Sunlink (str "dd"))) nonneg "unlink dd failed" ;;;
  say "subdir ok" ;;;
  URet buf.

Definition fourteen : user unit :=
  say "fourteen test" ;;;
  must true (call (Smkdir (str "12345678901234"))) iszero "mkdir 12345678901234 failed" ;;;
  must true (call (Smkdir (str "12345678901234/123456789012345"))) iszero "mkdir 12345678901234/123456789012345 failed" ;;;
  fd <- open (str "123456789012345/123456789012345/123456789012345") O_CREATE ;;
  fail_if (fd <? 0) "create 123456789012345/123456789012345/123456789012345 failed" ;;;
  close fd ;;;
  fd <- open (str "12345678901234/12345678901234/12345678901234") 0 ;;
  fail_if (fd <? 0) "open 12345678901234/12345678901234/12345678901234 failed" ;;;
  close fd ;;;
  must false (call (Smkdir (str "12345678901234/12345678901234"))) iszero "mkdir 12345678901234/12345678901234 succeeded!" ;;;
  must false (call (Smkdir (str "123456789012345/12345678901234"))) iszero "mkdir 12345678901234/123456789012345 succeeded!" ;;;
  say "fourteen ok".

Definition rmdot : user unit :=
  say "rmdot test" ;;;
  must true (call (Smkdir (str "dots"))) iszero "mkdir dots failed" ;;;
  must true (call (Schdir (str "dots"))) iszero "chdir dots failed" ;;;
  must false (call (Sunlink (str "."))) iszero "rm . worked!" ;;;
  must false (call (Sunlink (str ".."))) iszero "rm .. worked!" ;;;
  must true (call (Schdir (str "/"))) iszero "chdir / failed" ;;;
  must false (call (Sunlink (str "dots/."))) iszero "unlink dots/. worked!" ;;;
  must false (call (Sunlink (str "dots/.."))) iszero "unlink dots/.. worked!" ;;;
  must true (call (Sunlink (str "dots"))) iszero "unlink dots failed!" ;;;
  say "rmdot ok".

Definition dirfile : user unit :=
  say "dir vs file" ;;;
  fd <- open (str "dirfile") O_CREATE ;;
  fail_if (fd <? 0) "create dirfile failed" ;;;
  close fd ;;;
  must false (call (Schdir (str "dirfile"))) iszero "chdir dirfile succeeded!" ;;;
  must false (open (str "dirfile/xx") 0) nonneg "create dirfile/xx succeeded!" ;;;
  must false (open (str "dirfile/xx") O_CREATE) nonneg "create dirfile/xx succeeded!" ;;;
  must false (call (Smkdir (str "dirfile/xx"))) iszero "mkdir dirfile/xx succeeded!" ;;;
  must false (call (Sunlink (str "dirfile/xx"))) iszero "unlink dirfile/xx succeeded!" ;;;
  must false (call (Slink (str "README") (str "dirfile/xx"))) iszero "link to dirfile/xx succeeded!" ;;;
  must true (call (Sunlink (str "dirfile"))) iszero "unlink dirfile failed!" ;;;
  must false (open (str ".") O_RDWR) nonneg "open . for writing succeeded!" ;;;
  fd <- open (str ".") 0 ;;
  r <- call (Swrite fd (str "x")) ;; fail_if (0 <? r) "write . succeeded!" ;;;
  close fd ;;;
  say "dir vs file OK".

Definition iref : user unit :=
  say "empty file name" ;;;
  ueach (seq 0 (50 + 1)) (fun _ =>
    must true (call (Smkdir (str "irefd"))) iszero "mkdir irefd failed" ;;;
    must true (call (Schdir (str "irefd"))) iszero "chdir irefd failed" ;;;
    call (Smkdir []) ;;;
    call (Slink (str "README") []) ;;;
    fd <- open [] O_CREATE ;;
    (if 0 <=? fd then close fd else URet tt) ;;;
    fd <- open (str "xx") O_CREATE ;;
    (if 0 <=? fd then close fd else URet tt) ;;;
    unlink_ (str "xx")) ;;;
  call (Schdir (str "/")) ;;;
  say "empty file name OK".

(** ** Large writes *)

(** [for(sz = 499; sz < 12*512; sz += 471)]: 12 sizes *)
Definition bigwrite (buf : list Z) : user unit :=
  say "bigwrite test" ;;;
  unlink_ (str "bigwrite") ;;;
  ueach (seq 0 12) (fun k =>
    let sz := 499 + 471 * Z.of_nat k in
    fd <- open (str "bigwrite") RDWR ;;
    fail_if (fd <? 0) "cannot create bigwrite" ;;;
    ueach (seq 0 2) (fun _ =>
      cc <- call (Swrite fd (take (Z.to_nat sz) buf)) ;;
      if negb (cc =? sz) then printf 1 (str "write(%d) ret %d" ++ [10]) [PInt sz; PInt cc] ;;; exit else URet tt) ;;;
    close fd ;;;
    unlink_ (str "bigwrite")) ;;;
  say "bigwrite ok".

(** The loop that reads [bigfile] back: the buffer and [total]. *)
Fixpoint bigfile_read (fuel : nat) (fd : Z) (buf : list Z) (i total : Z) : user (list Z * Z) :=
  match fuel with
  | O => out_of_fuel
  | S fuel' =>
      r <- read fd buf 300 ;;
      let '(cc, buf) := r in
      fail_if (cc <? 0) "read bigfile failed" ;;;
      if cc =? 0 then URet (buf, total) else
      fail_if (negb (cc =? 300)) "short read bigfile" ;;;
      fail_if (negb (at_ buf 0 =? i / 2) || negb (at_ buf 299 =? i / 2)) "read bigfile wrong data" ;;;
      bigfile_read fuel' fd buf (i + 1) (total + cc)
  end.

Definition bigfile (fuel : nat) (buf : list Z) : user (list Z) :=
  say "bigfile test" ;;;
  unlink_ (str "bigfile") ;;;
  fd <- open (str "bigfile") RDWR ;;
  (if fd <? 0 then printf 1 (str "cannot create bigfile") [] ;;; exit else URet tt) ;;;
  buf <- ufold (seq 0 20) (fun buf i =>
    let buf := splice 0 (replicate 600 (Z.of_nat i)) buf in
    r <- call (Swrite fd (take 600 buf)) ;; fail_if (negb (r =? 600)) "write bigfile failed" ;;;
    URet buf) buf ;;
  close fd ;;;
  fd <- open (str "bigfile") 0 ;;
  fail_if (fd <? 0) "cannot open bigfile" ;;;
  r <- bigfile_read fuel fd buf 0 0 ;;
  let '(buf, total) := r in
  close fd ;;;
  fail_if (negb (total =? 20 * 600)) "read bigfile wrong total" ;;;
  unlink_ (str "bigfile") ;;;
  say "bigfile test ok" ;;;
  URet buf.

(** ** A full disk *)

Definition fsfull_name (n : Z) : list Z :=
  [102; u8 (48 + n / 1000); u8 (48 + n mod 1000 / 100); u8 (48 + n mod 100 / 10); u8 (48 + n mod 10)].

(** [while(1)]: [total] when a write falls short *)
Fixpoint fsfull_write (fuel : nat) (fd : Z) (buf : list Z) (total : Z) : user Z :=
  match fuel with
  | O => out_of_fuel
  | S fuel' =>
      cc <- call (Swrite fd (take 512 buf)) ;;
      if cc <? 512 then URet total else fsfull_write fuel' fd buf (i32 (total + cc))
  end.

(** The first loop: [nfiles] at its end. *)
Fixpoint fsfull_fill (fuel : nat) (buf : list Z) (nfiles : Z) : user Z :=
  match fuel with
  | O => out_of_fuel
  | S fuel' =>
      let name := fsfull_name nfiles in
      printf 1 (str "writing %s" ++ [10]) [PStr name] ;;;
      fd <- open name RDWR ;;
      if fd <? 0 then printf 1 (str "open %s failed" ++ [10]) [PStr name] ;;; URet nfiles else
      total <- fsfull_write fuel' fd buf 0 ;;
      printf 1 (str "wrote %d bytes" ++ [10]) [PInt total] ;;;
      close fd ;;;
      if total =? 0 then URet nfiles else fsfull_fill fuel' buf (nfiles + 1)
  end.

Definition fsfull (fuel : nat) (buf : list Z) : user unit :=
  say "fsfull test" ;;;
  nfiles <- fsfull_fill fuel buf 0 ;;
  ueach (rev (seq 0 (S (Z.to_nat nfiles)))) (fun k => unlink_ (fsfull_name (Z.of_nat k))) ;;;
  say "fsfull test finished".
