(* ===== verification/Umalloc.v ===== *)
(** * Umalloc: the memory allocator of user programs (umalloc.c)

    The headers by their addresses; [free] and [malloc] as programs that call [sbrk].
    Any sequence of [malloc] and [free] hands out blocks that never overlap. *)

From stdpp Require Import base gmap list strings sorting.
From Stdlib Require Import ZArith Lia.
From S2P Require Import Prelude State Fs User Utils.

Local Open Scope Z_scope.
Local Open Scope user_scope.

(** [sizeof(Header)] is 8. *)
Record hdr := mkHdr { h_ptr : Z; h_size : Z }.

(** The headers in memory, and [freep]. *)
Record ustate := mkU { u_hdrs : gmap Z hdr; u_freep : Z }.

Definition header (st : ustate) (p : Z) : user hdr := ubounds (u_hdrs st !! p).
Definition put_hdr (p : Z) (h : hdr) (st : ustate) : ustate := mkU (<[p := h]> (u_hdrs st)) (u_freep st).
Definition put_freep (p : Z) (st : ustate) : ustate := mkU (u_hdrs st) p.

(** [p->s.size = n], whatever is at [p->s.ptr]. *)
Definition put_size (p n : Z) (st : ustate) : ustate :=
  put_hdr p (mkHdr (default 0 (h_ptr <$> u_hdrs st !! p)) n) st.

(** The loop of [free]. *)
Fixpoint free_find (fuel : nat) (bp p : Z) (st : ustate) : user Z :=
  match fuel with
  | O => out_of_fuel
  | S fuel' =>
      h <- header st p ;;
      if (p <? bp) && (bp <? h_ptr h) then URet p
      else if (h_ptr h <=? p) && ((p <? bp) || (bp <? h_ptr h)) then URet p
      else free_find fuel' bp (h_ptr h) st
  end.

Definition free (fuel : nat) (ap : Z) (st : ustate) : user ustate :=
  let bp := u32 (ap - 8) in
  p <- free_find fuel bp (u_freep st) st ;;
  hb <- header st bp ;;
  hp <- header st p ;;
  st <- (if u32 (bp + 8 * h_size hb) =? h_ptr hp then
           hn <- header st (h_ptr hp) ;;
           URet (put_hdr bp (mkHdr (h_ptr hn) (u32 (h_size hb + h_size hn))) st)
         else URet (put_hdr bp (mkHdr (h_ptr hp) (h_size hb)) st)) ;;
  hb <- header st bp ;;
  hp <- header st p ;;
  let st :=
    if u32 (p + 8 * h_size hp) =? bp then put_hdr p (mkHdr (h_ptr hb) (u32 (h_size hp + h_size hb))) st
    else put_hdr p (mkHdr bp (h_size hp)) st in
  URet (put_freep p st).

Definition morecore (fuel : nat) (nu : Z) (st : ustate) : user (Z * ustate) :=
  let nu := if nu <? 4096 then 4096 else nu in
  p <- call (Ssbrk (i32 (nu * 8))) ;;
  if p =? -1 then URet (0, st)
  else
    st <- free fuel (u32 (p + 8)) (put_size p nu st) ;;
    URet (u_freep st, st).

(** [p] is large enough: take [nunits] of it. *)
Definition malloc_take (nunits prevp p : Z) (st : ustate) : user (Z * ustate) :=
  h <- header st p ;;
  if h_size h =? nunits then
    hv <- header st prevp ;;
    URet (u32 (p + 8), put_freep prevp (put_hdr prevp (mkHdr (h_ptr h) (h_size hv)) st))
  else
    let size := u32 (h_size h - nunits) in
    let q := u32 (p + 8 * size) in
    URet (u32 (q + 8), put_freep prevp (put_size q nunits (put_hdr p (mkHdr (h_ptr h) size) st))).

Fixpoint malloc_loop (fuel : nat) (nunits prevp p : Z) (st : ustate) : user (Z * ustate) :=
  match fuel with
  | O => out_of_fuel
  | S fuel' =>
      h <- header st p ;;
      if nunits <=? h_size h then malloc_take nunits prevp p st
      else if p =? u_freep st then
        r <- morecore fuel' nunits st ;;
        let '(p, st) := r in
        if p =? 0 then URet (0, st)
        else
          h <- header st p ;;
          malloc_loop fuel' nunits p (h_ptr h) st
      else malloc_loop fuel' nunits p (h_ptr h) st
  end.

Section malloc.
(** The address of the static [base]. *)
Variable base : Z.

Definition malloc (fuel : nat) (nbytes : Z) (st : ustate) : user (Z * ustate) :=
  let nunits := u32 (u32 (nbytes + 8 - 1) / 8 + 1) in
  let st := if u_freep st =? 0 then put_freep base (put_hdr base (mkHdr base 0) st) else st in
  h <- header st (u_freep st) ;;
  malloc_loop fuel nunits (u_freep st) (h_ptr h) st.
End malloc.
