(* ===== verification/UtProc.v ===== *)
(** * UtProc: the tests of processes and memory in usertests.c, and its [main]

    An access to memory or to a port is an event of the program like a system call: the
    machine answers it, or kills the process.  [mem] uses the allocator of [Umalloc]; the
    pointer it stores at the start of each block is kept in [links], by address, and [base] is
    the address of the allocator's static header. *)

From stdpp Require Import base gmap list strings.
From Stdlib Require Import ZArith Lia.
From S2P Require Import Prelude State Fs Sysfile Str User Utils UtFile Umalloc.

Local Open Scope Z_scope.
Local Open Scope user_scope.

Definition fork : user Z := call Sfork.
Definition kill (pid : Z) : user unit := call (Skill pid) ;;; URet tt.
(** [sbrk]'s result is a pointer. *)
Definition sbrk (n : Z) : user Z := r <- call (Ssbrk (i32 n)) ;; URet (u32 r).
(** [for(;;) ;] *)
Definition spin {A} : user A := USys Xspin (fun r => match r with end).

Definition echoargv : list (list Z) := [str "echo"; str "ALL"; str "TESTS"; str "PASSED"].

Definition exectest : user unit :=
  say "exec test" ;;;
  r <- call (Sexec (str "echo") echoargv) ;;
  fail_if (r <? 0) "exec echo failed".

(** ** Pipes *)

(** The bytes that the child writes from [seq] on, and the parent's check of them. *)
Definition counting (seq : Z) (n : nat) : list Z := (fun i => u8 (seq + Z.of_nat i)) <$> List.seq 0 n.

Fixpoint pipe1_read (fuel : nat) (fd : Z) (buf : list Z) (cc seq total : Z) : user (option (list Z * Z)) :=
  match fuel with
  | O => out_of_fuel
  | S fuel' =>
      r <- read fd buf cc ;;
      let '(n, buf) := r in
      if 0 <? n then
        if negb (bool_decide (take (Z.to_nat n) buf = counting seq (Z.to_nat n))) then
          say "pipe1 oops 2" ;;; URet None
        else
          let cc := i32 (cc * 2) in
          pipe1_read fuel' fd buf (if BUFSIZE <? u32 cc then BUFSIZE else cc) (seq + n) (total + n)
      else URet (Some (buf, total))
  end.

Definition pipe1 (fuel : nat) (buf : list Z) : user (list Z) :=
  r <- call Spipe ;;
  let '(v, (fd0, fd1)) := r in
  fail_if (negb (v =? 0)) "pipe() failed" ;;;
  pid <- fork ;;
  if pid =? 0 then
    close fd0 ;;;
    ufold (seq 0 5) (fun buf n =>
      let buf := splice 0 (counting (1033 * Z.of_nat n) 1033) buf in
      r <- call (Swrite fd1 (take 1033 buf)) ;; fail_if (negb (r =? 1033)) "pipe1 oops 1" ;;;
      URet buf) buf ;;;
    exit
  else if 0 <? pid then
    close fd1 ;;;
    r <- pipe1_read fuel fd0 buf 1 0 0 ;;
    match r with
    | None => URet buf
    | Some (buf, total) =>
        (if negb (total =? 5 * 1033) then printf 1 (str "pipe1 oops 3 total %d" ++ [10]) [PInt total] ;;; exit else URet tt) ;;;
        close fd0 ;;;
        wait_ ;;;
        say "pipe1 ok" ;;;
        URet buf
    end
  else fail "fork() failed".

(** ** Processes *)

Definition preempt (buf : list Z) : user (list Z) :=
  printf 1 (str "preempt: ") [] ;;;
  pid1 <- fork ;;
  (if pid1 =? 0 then spin else URet tt) ;;;
  pid2 <- fork ;;
  (if pid2 =? 0 then spin else URet tt) ;;;
  r <- call Spipe ;;
  let '(_, (fd0, fd1)) := r in
  pid3 <- fork ;;
  (if pid3 =? 0 then
     close fd0 ;;;
     r <- call (Swrite fd1 (str "x")) ;;
     (if negb (r =? 1) then printf 1 (str "preempt write error") [] else URet tt) ;;;
     close fd1 ;;;
     spin
   else URet tt) ;;;
  close fd1 ;;;
  r <- read fd0 buf BUFSIZE ;;
  let '(n, buf) := r in
  if negb (n =? 1) then printf 1 (str "preempt read error") [] ;;; URet buf else
  close fd0 ;;;
  printf 1 (str "kill... ") [] ;;;
  kill pid1 ;;;
  kill pid2 ;;;
  kill pid3 ;;;
  printf 1 (str "wait... ") [] ;;;
  wait_ ;;;
  wait_ ;;;
  wait_ ;;;
  say "preempt ok" ;;;
  URet buf.

Definition exitwait : user unit :=
  b <- uloop (seq 0 100) (fun _ =>
    pid <- fork ;;
    if pid <? 0 then say "fork failed" ;;; URet false
    else if negb (pid =? 0) then
      r <- call Swait ;;
      if negb (r =? pid) then say "wait wrong pid" ;;; URet false else URet true
    else exit) ;;
  if b : bool then say "exitwait ok" else URet tt.

Fixpoint ut_forks (k : nat) (n : Z) : user Z :=
  match k with
  | O => URet n
  | S k' =>
      pid <- fork ;;
      if pid <? 0 then URet n
      else if pid =? 0 then exit
      else ut_forks k' (n + 1)
  end.

Definition ut_forktest : user unit :=
  say "fork test" ;;;
  n <- ut_forks 1000 0 ;;
  fail_if (n =? 1000) "fork claimed to work 1000 times!" ;;;
  ueach (seq 0 (Z.to_nat n)) (fun _ => r <- call Swait ;; fail_if (r <? 0) "wait stopped early") ;;;
  r <- call Swait ;; fail_if (negb (r =? -1)) "wait got too many" ;;;
  say "fork test OK".

(** ** Memory *)

(** [while((m2 = malloc(10001)) != 0)] and [while(m1)]: the allocator's state, [links] and [m1] *)
Fixpoint mem_fill (base : Z) (fuel : nat) (st : ustate) (links : gmap Z Z) (m1 : Z) : user (ustate * gmap Z Z * Z) :=
  match fuel with
  | O => out_of_fuel
  | S fuel' =>
      r <- malloc base fuel 10001 st ;;
      let '(m2, st) := r in
      if negb (m2 =? 0) then mem_fill base fuel' st (<[m2 := m1]> links) m2 else URet (st, links, m1)
  end.
Fixpoint mem_free (fuel : nat) (st : ustate) (links : gmap Z Z) (m1 : Z) : user ustate :=
  match fuel with
  | O => out_of_fuel
  | S fuel' =>
      if m1 =? 0 then URet st
      else
        m2 <- ubounds (links !! m1) ;;
        st <- free fuel m1 st ;;
        mem_free fuel' st links m2
  end.

Definition mem (base : Z) (fuel : nat) (st : ustate) : user unit :=
  say "mem test" ;;;
  ppid <- call Sgetpid ;;
  pid <- fork ;;
  if pid =? 0 then
    r <- mem_fill base fuel st ∅ 0 ;;
    let '(st, links, m1) := r in
    st <- mem_free fuel st links m1 ;;
    r <- malloc base fuel (1024 * 20) st ;;
    let '(m1, st) := r in
    (if m1 =? 0 then say "couldn't allocate mem?!!" ;;; kill ppid ;;; exit else URet tt) ;;;
    free fuel m1 st ;;;
    say "mem ok" ;;;
    exit
  else wait_.

Definition BIG : Z := 100 * 1024 * 1024.
Definition KERN : Z := 2147483648.

(** The first loop of [sbrktest]: the break grows by single bytes.  The result is [a]. *)
Definition sbrk_bytes (a : Z) : user Z :=
  ufold (seq 0 5000) (fun a i =>
    b <- sbrk 1 ;;
    (if negb (b =? a) then printf 1 (str "sbrk test failed %d %x %x" ++ [10]) [PInt (Z.of_nat i); PInt a; PInt b] ;;; exit else URet tt) ;;;
    call (Xstore b 1) ;;;
    URet (u32 (b + 1))) a.

(** From growing to [BIG] to giving all of it back. *)
Definition sbrk_big (oldbrk : Z) : user unit :=
  a <- sbrk 0 ;;
  p <- sbrk (u32 (BIG - a)) ;;
  fail_if (negb (p =? a)) "sbrk test failed to grow big address space; enough phys mem?" ;;;
  let lastaddr := BIG - 1 in
  call (Xstore lastaddr 99) ;;;
  a <- sbrk 0 ;;
  c <- sbrk (-4096) ;;
  fail_if (c =? 4294967295) "sbrk could not deallocate" ;;;
  c <- sbrk 0 ;;
  (if negb (c =? u32 (a - 4096)) then printf 1 (str "sbrk deallocation produced wrong address, a %x c %x" ++ [10]) [PInt a; PInt c] ;;; exit else URet tt) ;;;
  a <- sbrk 0 ;;
  c <- sbrk 4096 ;;
  bad <- (if negb (c =? a) then URet true else b <- sbrk 0 ;; URet (negb (b =? u32 (a + 4096)))) ;;
  (if bad : bool then printf 1 (str "sbrk re-allocation failed, a %x c %x" ++ [10]) [PInt a; PInt c] ;;; exit else URet tt) ;;;
  v <- call (Xload lastaddr) ;;
  fail_if (v =? 99) "sbrk de-allocation didn't really deallocate" ;;;
  a <- sbrk 0 ;;
  b <- sbrk 0 ;;
  c <- sbrk (- (b - oldbrk)) ;;
  if negb (c =? a) then printf 1 (str "sbrk downsize failed, a %x c %x" ++ [10]) [PInt a; PInt c] ;;; exit else URet tt.

(** [for(a = KERNBASE; a < KERNBASE+2000000; a += 50000)]: a child reads the kernel's memory. *)
Definition sbrk_kernel : user unit :=
  ueach (seq 0 40) (fun k =>
    let a := KERN + 50000 * Z.of_nat k in
    ppid <- call Sgetpid ;;
    pid <- fork ;;
    fail_if (pid <? 0) "fork failed" ;;;
    (if pid =? 0 then
       v <- call (Xload a) ;;
       printf 1 (str "oops could read %x = %x" ++ [10]) [PInt a; PInt (schar v)] ;;;
       kill ppid ;;;
       exit
     else URet tt) ;;;
    wait_).

(** [for(;;) sleep(1000);] *)
Fixpoint sleep_on (fuel : nat) : user unit :=
  match fuel with
  | O => out_of_fuel
  | S fuel' => call (Ssleep 1000) ;;; sleep_on fuel'
  end.

(** Ten children that take a lot of memory: their pids. *)
Definition sbrk_hogs (fuel : nat) (fd0 fd1 : Z) : user (list Z) :=
  ufold (seq 0 10) (fun pids _ =>
    pid <- fork ;;
    (if pid =? 0 then
       b <- sbrk 0 ;;
       sbrk (u32 (BIG - b)) ;;;
       call (Swrite fd1 (str "x")) ;;;
       sleep_on fuel ;;;
       exit
     else URet tt) ;;;
    (if negb (pid =? -1) then call (Sread fd0 1) ;;; URet tt else URet tt) ;;;
    URet (pids ++ [pid])) [].

Definition sbrktest (fuel : nat) : user unit :=
  say "sbrk test" ;;;
  oldbrk <- sbrk 0 ;;
  a <- sbrk 0 ;;
  a <- sbrk_bytes a ;;
  pid <- fork ;;
  fail_if (pid <? 0) "sbrk test fork failed" ;;;
  sbrk 1 ;;;
  c <- sbrk 1 ;;
  fail_if (negb (c =? u32 (a + 1))) "sbrk test failed post-fork" ;;;
  (if pid =? 0 then exit else URet tt) ;;;
  wait_ ;;;
  sbrk_big oldbrk ;;;
  sbrk_kernel ;;;
  r <- call Spipe ;;
  let '(v, (fd0, fd1)) := r in
  fail_if (negb (v =? 0)) "pipe() failed" ;;;
  pids <- sbrk_hogs fuel fd0 fd1 ;;
  c <- sbrk 4096 ;;
  ueach pids (fun pid => if pid =? -1 then URet tt else kill pid ;;; wait_) ;;;
  fail_if (c =? 4294967295) "failed sbrk leaked memory" ;;;
  b <- sbrk 0 ;;
  (if oldbrk <? b then b <- sbrk 0 ;; sbrk (- (b - oldbrk)) ;;; URet tt else URet tt) ;;;
  say "sbrk test OK".

(** ** What the kernel makes of bad arguments *)

(** The call of [sleep] with the stack pointer at [p]. *)
Definition validateint (p : Z) : user unit := call (Ssleep_at p) ;;; URet tt.

(** [for(p = 0; p <= (uint)hi; p += 4096)]: 276 pages *)
Definition validatetest : user unit :=
  say "validate test" ;;;
  ueach (seq 0 276) (fun k =>
    let p := 4096 * Z.of_nat k in
    pid <- fork ;;
    (if pid =? 0 then validateint p ;;; exit else URet tt) ;;;
    call (Ssleep 0) ;;;
    call (Ssleep 0) ;;;
    kill pid ;;;
    wait_ ;;;
    r <- call (Slink_at (str "nosuchfile") p) ;;
    fail_if (negb (r =? -1)) "link should not succeed") ;;;
  say "validate ok".

(** [uninit] is the array as the loader left it. *)
Definition bsstest (uninit : list Z) : user unit :=
  say "bss test" ;;;
  ueach uninit (fun b => fail_if (negb (b =? 0)) "bss test failed") ;;;
  say "bss test ok".

Definition bigarg : list Z := str "bigargs test: failed" ++ [10] ++ replicate 199 32.

Definition bigargtest : user unit :=
  unlink_ (str "bigarg-ok") ;;;
  pid <- fork ;;
  (if pid =? 0 then
     say "bigarg test" ;;;
     call (Sexec (str "echo") (replicate (MAXARG - 1) bigarg)) ;;;
     say "bigarg test ok" ;;;
     fd <- open (str "bigarg-ok") O_CREATE ;;
     close fd ;;;
     exit
   else fail_if (pid <? 0) "bigargtest: fork failed") ;;;
  wait_ ;;;
  fd <- open (str "bigarg-ok") 0 ;;
  fail_if (fd <? 0) "bigarg test failed!" ;;;
  close fd ;;;
  unlink_ (str "bigarg-ok").

Definition RTC_ADDR : Z := 112.
Definition RTC_DATA : Z := 113.

Definition uio : user unit :=
  say "uio test" ;;;
  pid <- fork ;;
  (if pid =? 0 then
     call (Xoutb RTC_ADDR 9) ;;;
     call (Xinb RTC_DATA) ;;;
     fail "uio: uio succeeded; test FAILED"
   else fail_if (pid <? 0) "fork failed") ;;;
  wait_ ;;;
  say "uio test done".

Definition argptest : user unit :=
  fd <- open (str "init") O_RDONLY ;;
  (if fd <? 0 then printf 2 (str "open failed" ++ [10]) [] ;;; exit else URet tt) ;;;
  b <- sbrk 0 ;;
  call (Sread_at fd (u32 (b - 1)) (-1)) ;;;
  close fd ;;;
  say "arg test passed".

(** [randstate] and the result *)
Definition rand (randstate : Z) : Z := u32 (randstate * 1664525 + 1013904223).

Definition usertests_main (base : Z) (fuel : nat) (uninit : list Z) : user unit :=
  let buf := replicate 8192 0 in
  say "usertests starting" ;;;
  r <- open (str "usertests.ran") 0 ;;
  fail_if (0 <=? r) "already ran user tests -- rebuild fs.img" ;;;
  fd <- open (str "usertests.ran") O_CREATE ;;
  close fd ;;;
  argptest ;;;
  createdelete ;;;
  linkunlink ;;;
  concreate fuel ;;;
  buf <- fourfiles fuel buf ;;
  sharedfd fuel ;;;
  bigargtest ;;;
  bigwrite buf ;;;
  bigargtest ;;;
  bsstest uninit ;;;
  sbrktest fuel ;;;
  validatetest ;;;
  opentest ;;;
  buf <- writetest buf ;;
  buf <- writetest1 fuel buf ;;
  createtest ;;;
  openiputtest ;;;
  exitiputtest ;;;
  iputtest ;;;
  mem base fuel (mkU ∅ 0) ;;;
  buf <- pipe1 fuel buf ;;
  buf <- preempt buf ;;
  exitwait ;;;
  rmdot ;;;
  fourteen ;;;
  buf <- bigfile fuel buf ;;
  buf <- subdir buf ;;
  buf <- linktest buf ;;
  buf <- unlinkread buf ;;
  dirfile ;;;
  iref ;;;
  ut_forktest ;;;
  bigdir ;;;
  uio ;;;
  exectest ;;;
  exit.
