(* ===== verification/UtRun.v ===== *)
(** * UtRun: the tests of usertests.c on a reference system

    A small system that does what the manual says of the calls on files: a tree of
    directories, files with links, descriptors with offsets that children share, pipes.
    [fork] runs the child to its end before the parent goes on.  The tests pass on it, and
    the run shows what they leave behind. *)

From stdpp Require Import base gmap list strings.
From Stdlib Require Import ZArith Lia.
From S2P Require Import Prelude State Fs Sysfile Str User Utils UtFile UtProc.

Local Open Scope Z_scope.
Local Open Scope user_scope.

(** ** The system *)

Inductive node := NFile (data : list Z) | NDir (ents : list (list Z * nat)) | NPipe (data : list Z).
(** What a descriptor refers to: a node, the offset, and whether it can be read and written. *)
Record ofile := mkOfile { of_node : nat; of_off : nat; of_rd : bool; of_wr : bool }.
(** [sy_out] is the console's output, last character first. *)
Record system := mkSys { sy_nodes : gmap nat node; sy_next : nat; sy_files : gmap nat ofile; sy_nextf : nat; sy_pid : Z; sy_out : list Z }.
Record process := mkProcess { pr_fds : gmap Z nat; pr_cwd : nat; pr_zombies : list Z }.

Definition ROOT : nat := 1.
Definition put_node (i : nat) (n : node) (s : system) : system :=
  mkSys (<[i := n]> (sy_nodes s)) (sy_next s) (sy_files s) (sy_nextf s) (sy_pid s) (sy_out s).
Definition put_file (i : nat) (f : ofile) (s : system) : system :=
  mkSys (sy_nodes s) (sy_next s) (<[i := f]> (sy_files s)) (sy_nextf s) (sy_pid s) (sy_out s).
Definition new_node (n : node) (s : system) : nat * system :=
  (sy_next s, mkSys (<[sy_next s := n]> (sy_nodes s)) (S (sy_next s)) (sy_files s) (sy_nextf s) (sy_pid s) (sy_out s)).

Definition entry (l : list (list Z * nat)) (nm : list Z) : option nat :=
  snd <$> List.find (fun e => bool_decide (e.1 = nm)) l.
Definition entries (s : system) (d : nat) : option (list (list Z * nat)) :=
  match sy_nodes s !! d with Some (NDir l) => Some l | _ => None end.

(** The elements of a path. *)
Fixpoint elements (fuel : nat) (path : list Z) : list (list Z) :=
  match fuel with
  | O => []
  | S fuel' => match skipelem path with Some (rest, e) => e :: elements fuel' rest | None => [] end
  end.
Fixpoint walk (s : system) (d : nat) (l : list (list Z)) : option nat :=
  match l with
  | [] => Some d
  | e :: l' => es ← entries s d; i ← entry es e; walk s i l'
  end.
Definition start_of (cwd : nat) (path : list Z) : nat := match path with 47 :: _ => ROOT | _ => cwd end.
Definition find_node (s : system) (cwd : nat) (path : list Z) : option nat :=
  walk s (start_of cwd path) (elements (length path) path).
(** The directory and the last element. *)
Definition find_parent (s : system) (cwd : nat) (path : list Z) : option (nat * list Z) :=
  match rev (elements (length path) path) with
  | [] => None
  | e :: l => d ← walk s (start_of cwd path) (rev l); _ ← entries s d; Some (d, e)
  end.

Definition add_entry (d : nat) (nm : list Z) (i : nat) (s : system) : system :=
  match entries s d with Some l => put_node d (NDir (l ++ [(nm, i)])) s | None => s end.

Definition create (s : system) (cwd : nat) (path : list Z) (isdir : bool) : option (nat * system) :=
  '(d, nm) ← find_parent s cwd path;
  es ← entries s d;
  match entry es nm with
  | Some i => if isdir then None else match sy_nodes s !! i with Some (NFile _) => Some (i, s) | _ => None end
  | None =>
      let '(i, s) := new_node (NFile []) s in
      let s := if isdir then put_node i (NDir [(str ".", i); (str "..", d)]) s else s in
      Some (i, add_entry d nm i s)
  end.

Definition is_dir (s : system) (i : nat) : bool := bool_decide (is_Some (entries s i)).

Definition remove (s : system) (cwd : nat) (path : list Z) : option system :=
  '(d, nm) ← find_parent s cwd path;
  if bool_decide (nm = str ".") || bool_decide (nm = str "..") then None else
  es ← entries s d;
  i ← entry es nm;
  if match entries s i with Some l => (2 <? length l)%nat | None => false end then None
  else Some (put_node d (NDir (filter (fun e => e.1 <> nm) es)) s).

Definition lowest_fd (p : process) : Z := default 16 (List.find (fun fd => bool_decide (pr_fds p !! fd = None)) (seqZ 0 16)).
Definition new_fd (f : ofile) (p : process) (s : system) : Z * process * system :=
  let fd := lowest_fd p in
  (fd, mkProcess (<[fd := sy_nextf s]> (pr_fds p)) (pr_cwd p) (pr_zombies p),
   mkSys (sy_nodes s) (sy_next s) (<[sy_nextf s := f]> (sy_files s)) (S (sy_nextf s)) (sy_pid s) (sy_out s)).

(** A directory as a file of entries. *)
Definition dir_bytes (l : list (list Z * nat)) : list Z :=
  concat ((fun e => le_bytes 2 (Z.of_nat e.2) ++ e.1 ++ replicate (14 - length e.1) 0) <$> l).

Definition overwrite (o : nat) (new old : list Z) : list Z := take o old ++ new ++ drop (o + length new) old.

Definition do_write (fd : Z) (l : list Z) (p : process) (s : system) : Z * system :=
  if (fd =? 1) || (fd =? 2) then (Z.of_nat (length l), mkSys (sy_nodes s) (sy_next s) (sy_files s) (sy_nextf s) (sy_pid s) (rev l ++ sy_out s)) else
  match (i ← pr_fds p !! fd; f ← sy_files s !! i; n ← sy_nodes s !! of_node f; Some (i, f, n)) with
  | Some (i, f, NFile data) =>
      if negb (of_wr f) || (MAXFILE * BSIZE <? Z.of_nat (of_off f + length l)) then (-1, s)
      else (Z.of_nat (length l),
            put_file i (mkOfile (of_node f) (of_off f + length l) (of_rd f) (of_wr f))
              (put_node (of_node f) (NFile (overwrite (of_off f) l data)) s))
  | Some (i, f, NPipe data) => if of_wr f then (Z.of_nat (length l), put_node (of_node f) (NPipe (data ++ l)) s) else (-1, s)
  | _ => (-1, s)
  end.

Definition do_read (fd n : Z) (p : process) (s : system) : (Z * list Z) * system :=
  match (i ← pr_fds p !! fd; f ← sy_files s !! i; nd ← sy_nodes s !! of_node f; Some (i, f, nd)) with
  | Some (i, f, NPipe data) =>
      let l := take (Z.to_nat n) data in ((Z.of_nat (length l), l), put_node (of_node f) (NPipe (drop (length l) data)) s)
  | Some (i, f, nd) =>
      let data := match nd with NFile d => d | NDir l => dir_bytes l | NPipe d => d end in
      let l := take (Z.to_nat n) (drop (of_off f) data) in
      if of_rd f then ((Z.of_nat (length l), l), put_file i (mkOfile (of_node f) (of_off f + length l) (of_rd f) (of_wr f)) s)
      else ((-1, []), s)
  | None => ((-1, []), s)
  end.

Definition do_open (path : list Z) (omode : Z) (p : process) (s : system) : Z * process * system :=
  let '(r, s) := if negb (Z.land omode O_CREATE =? 0)
    then match create s (pr_cwd p) path false with Some (i, s') => (Some i, s') | None => (None, s) end
    else match find_node s (pr_cwd p) path with
         | Some i => (if is_dir s i && negb (omode =? O_RDONLY) then None else Some i, s)
         | None => (None, s)
         end in
  match r with
  | None => (-1, p, s)
  | Some i => new_fd (mkOfile i 0 (Z.land omode 1 =? 0) (negb (Z.land omode 3 =? 0))) p s
  end.

(** ** Running a program *)

Definition answer_unit (o : option system) (s : system) : Z * system := match o with Some s' => (0, s') | None => (-1, s) end.
Definition result A : Type := ures A * process * system.

Definition serve {A R} (e : sysE R) : (R -> process -> system -> result A) -> process -> system -> result A :=
  match e in sysE R return (R -> process -> system -> result A) -> process -> system -> result A with
  | Sfork => fun K p s =>
      let pid := sy_pid s in
      let s := mkSys (sy_nodes s) (sy_next s) (sy_files s) (sy_nextf s) (pid + 1) (sy_out s) in
      match K 0 (mkProcess (pr_fds p) (pr_cwd p) []) s with
      | (Bad msg, _, s) => (Bad msg, p, s)
      | (_, _, s) => K pid (mkProcess (pr_fds p) (pr_cwd p) (pr_zombies p ++ [pid])) s
      end
  | Sexit => fun _ p s => (Exited, p, s)
  | Swait => fun K p s =>
      match pr_zombies p with [] => K (-1) p s | z :: l => K z (mkProcess (pr_fds p) (pr_cwd p) l) s end
  | Ssleep _ => fun K p s => K 0 p s
  | Spipe => fun K p s =>
      let '(i, s) := new_node (NPipe []) s in
      let '(fd0, p, s) := new_fd (mkOfile i 0 true false) p s in
      let '(fd1, p, s) := new_fd (mkOfile i 0 false true) p s in
      K (0, (fd0, fd1)) p s
  | Swrite fd l => fun K p s => let '(r, s) := do_write fd l p s in K r p s
  | Sread fd n => fun K p s => let '(r, s) := do_read fd n p s in K r p s
  | Sclose fd => fun K p s =>
      K (if bool_decide (is_Some (pr_fds p !! fd)) then 0 else -1) (mkProcess (delete fd (pr_fds p)) (pr_cwd p) (pr_zombies p)) s
  | Sopen path omode => fun K p s => let '(r, p, s) := do_open path omode p s in K r p s
  | Sunlink path => fun K p s => let '(r, s) := answer_unit (remove s (pr_cwd p) path) s in K r p s
  | Slink old new => fun K p s =>
      let '(r, s) := answer_unit (
        i ← find_node s (pr_cwd p) old;
        if is_dir s i then None else
        '(d, nm) ← find_parent s (pr_cwd p) new;
        es ← entries s d;
        match entry es nm with Some _ => None | None => Some (add_entry d nm i s) end) s in
      K r p s
  | Smkdir path => fun K p s => let '(r, s) := answer_unit (snd <$> create s (pr_cwd p) path true) s in K r p s
  | Schdir path => fun K p s =>
      match find_node s (pr_cwd p) path with
      | Some i => if is_dir s i then K 0 (mkProcess (pr_fds p) i (pr_zombies p)) s else K (-1) p s
      | None => K (-1) p s
      end
  | _ => fun _ p s => (Bad "no answer", p, s)
  end.

Fixpoint execute {A} (m : user A) (p : process) (s : system) : result A :=
  match m with
  | URet a => (Done a, p, s)
  | UBad msg => (Bad msg, p, s)
  | USys e k => serve e (fun r p s => execute (k r) p s) p s
  end.

(** A root directory with three files, and a process in it with the console open. *)
Definition fresh_system : system :=
  mkSys (<[ROOT := NDir [(str ".", ROOT); (str "..", ROOT); (str "README", 2%nat); (str "cat", 3%nat); (str "echo", 4%nat)]]>
          (<[2%nat := NFile []]> (<[3%nat := NFile []]> {[4%nat := NFile []]}))) 5 ∅ 0 3 [].
Definition shell_child : process := mkProcess (<[0 := 100%nat]> (<[1 := 100%nat]> {[2 := 100%nat]})) ROOT [].

(** What a program prints, whether it is done, and the names it leaves in the root. *)
Definition trial {A} (m : user A) : bool * list Z * list (list Z) :=
  let '(r, _, s) := execute m shell_child fresh_system in
  (match r with Done _ => true | _ => false end, rev (sy_out s), fst <$> default [] (entries s ROOT)).
Definition line (s : string) : list Z := str s ++ [10].
Definition buf0 : list Z := replicate 8192 0.

(** ** The tests pass *)

Definition file_tests : user unit :=
  iputtest ;;; exitiputtest ;;; openiputtest ;;; opentest ;;;
  buf <- writetest buf0 ;;
  createtest ;;; dirtest ;;;
  buf <- unlinkread buf ;;
  buf <- linktest buf ;;
  buf <- subdir buf ;;
  concreate 50 ;;;
  rmdot ;;; dirfile ;;; exitwait.

(** The tests find nothing wrong with the reference system, one after the other, and leave
    its root directory as it was. *)
Theorem file_tests_pass :
  trial file_tests =
  (true,
   line "iput test" ++ line "iput test ok" ++ line "exitiput test" ++ line "exitiput test ok" ++
   line "openiput test" ++ line "openiput test ok" ++ line "open test" ++ line "open test ok" ++
   line "small file test" ++ line "creat small succeeded; ok" ++ line "writes ok" ++ line "open small succeeded ok" ++
   line "read succeeded ok" ++ line "small file test ok" ++
   line "many creates, followed by unlink test" ++ line "many creates, followed by unlink; ok" ++
   line "mkdir test" ++ line "mkdir test ok" ++ line "unlinkread test" ++ line "unlinkread ok" ++
   line "linktest" ++ line "linktest ok" ++ line "subdir test" ++ line "subdir ok" ++
   line "concreate test" ++ line "concreate ok" ++
   line "rmdot test" ++ line "rmdot ok" ++ line "dir vs file" ++ line "dir vs file OK" ++ line "exitwait ok",
   [str "."; str ".."; str "README"; str "cat"; str "echo"]).
Proof. vm_compute. reflexivity. Qed.

(** [createdelete] passes, but of the forty-four files its children leave it removes only
    [p0]: the last loop makes both characters of a name from [i]. *)
Theorem createdelete_leaves_files :
  exists left, trial createdelete =
    (true, line "createdelete test" ++ line "createdelete ok", [str "."; str ".."; str "README"; str "cat"; str "echo"] ++ left) /\
  length left = 43%nat.
Proof. eexists. split; [vm_compute; reflexivity|]. reflexivity. Qed.

(** [fourfiles] checks and removes two of its four files. *)
Theorem fourfiles_leaves_files :
  trial (fourfiles 10 buf0) = (true, line "fourfiles test" ++ line "fourfiles ok", [str "."; str ".."; str "README"; str "cat"; str "echo"; str "f2"; str "f3"]).
Proof. vm_compute. reflexivity. Qed.

(** [writetest1] takes a file that reads back empty for the file it wrote. *)
Lemma writetest1_accepts_empty short (fd : Z) (buf : list Z) (s : streams) :
  s_in s !! fd = Some [] -> run short (writetest1_read 1 fd buf 0) s = (Done (splice 0 [] buf), s).
Proof.
  intros Hs. unfold writetest1_read, read, call. cbn [ubind]. rewrite (run_read _ _ _ [] _ _ Hs). unfold read_count. rewrite Nat.min_0_r.
  change (drop _ []) with (@nil Z). rewrite set_in_same by done. reflexivity.
Qed.
