(* ===== verification/UmallocSpec.v ===== *)
(** * UmallocSpec: blocks of [malloc] never overlap

    The free list as a ring of blocks that starts at [freep]; free and allocated blocks
    are apart from each other in memory obtained from [sbrk]. *)

From stdpp Require Import base gmap list strings sorting.
From Stdlib Require Import ZArith Lia.
From S2P Require Import Prelude State Fs User Utils Umalloc.

Local Open Scope Z_scope.
Local Open Scope user_scope.

(** ** Programs that call [sbrk] *)

(** [m] ends in [Q] when its calls of [sbrk] fail or add to the end [brk] of memory. *)
Fixpoint uwp {A} (m : user A) (brk : Z) (Q : A -> Z -> Prop) : Prop :=
  match m with
  | URet a => Q a brk
  | UBad _ => False
  | USys e k =>
      match e in sysE R return (R -> Z -> Prop) -> Prop with
      | Ssbrk n => fun K => 0 <= n /\ K (-1) brk /\ (brk + n <= KERNBASE -> K brk (brk + n))
      | _ => fun _ => False
      end (fun r brk => uwp (k r) brk Q)
  end.

Lemma uwp_bind {A B} (m : user A) (f : A -> user B) brk Q :
  uwp m brk (fun a brk => uwp (f a) brk Q) -> uwp (ubind m f) brk Q.
Proof.
  revert brk. induction m as [a|R e k IH|msg]; intros brk; cbn [uwp ubind]; [done| |done].
  destruct e; try done. intros (Hn & H1 & H2). split_and!; [done|by apply IH|]. intros Hle. by apply IH, H2.
Qed.

Lemma uwp_mono {A} (m : user A) brk (Q Q' : A -> Z -> Prop) : uwp m brk Q -> (forall a brk, Q a brk -> Q' a brk) -> uwp m brk Q'.
Proof.
  intros Hm HQ. revert brk Hm. induction m as [a|R e k IH|msg]; intros brk; cbn [uwp]; [apply HQ| |done].
  destruct e; try done. intros (Hn & H1 & H2). split_and!; [done|by apply IH|]. intros Hle. by apply IH, H2.
Qed.

(** ** Blocks *)

(** A block: its address and its size in units of 8 bytes, the header included; the size of
    [base] is 0, but it has a header. *)
Notation block := (Z * Z)%type.
Definition bend (x : block) : Z := fst x + 8 * Z.max 1 (snd x).
Definition disj (x y : block) : Prop := bend x <= fst y \/ bend y <= fst x.

Fixpoint apart (l : list block) : Prop :=
  match l with
  | [] => True
  | x :: l' => Forall (disj x) l' /\ apart l'
  end.

Lemma disj_sym x y : disj x y -> disj y x.
Proof. unfold disj. tauto. Qed.

#[global] Instance apart_perm : Proper (Permutation ==> iff) apart.
Proof.
  enough (forall l l', l ≡ₚ l' -> apart l -> apart l') as H by (intros l l' Hp; split; apply H; by rewrite Hp).
  induction 1 as [|x l l' Hp IH|x y l|l1 l2 l3 _ IH1 _ IH2]; cbn; [done| | |tauto].
  - intros [Hx Hl]. split; [by rewrite <- Hp|auto].
  - rewrite !Forall_cons. intros ([Hyx Hy] & Hx & Hl). split_and!; auto using disj_sym.
Qed.

Lemma apart_swap x y l : apart (x :: y :: l) -> apart (y :: x :: l).
Proof. intros H. eapply apart_perm; [|exact H]. apply perm_swap. Qed.

Lemma apart_middle x l l' : apart (x :: l ++ l') -> apart (l ++ x :: l').
Proof. intros H. eapply apart_perm; [|exact H]. by rewrite <- Permutation_middle. Qed.

Lemma apart_app l l' : apart (l ++ l') -> apart l /\ apart l'.
Proof.
  induction l as [|x l IH]; cbn; [done|]. rewrite Forall_app. intros [[Hx _] Hl]. destruct (IH Hl). done.
Qed.

(** Two adjacent blocks are apart from others as the block of both is. *)
Lemma apart_join a s b n l : b = a + 8 * s -> 1 <= s -> 1 <= n -> apart ((a, s) :: (b, n) :: l) <-> apart ((a, s + n) :: l).
Proof.
  intros -> Hs Hn. cbn. rewrite Forall_cons. split.
  - intros [[_ H1] [H2 Hl]]. split; [|done]. rewrite Forall_forall in *. intros y Hy. specialize (H1 y Hy). specialize (H2 y Hy).
    unfold disj, bend in *. cbn in *. lia.
  - intros [H Hl]. rewrite Forall_forall in H. split_and!; [| | |done].
    + unfold disj, bend. cbn. lia.
    + apply Forall_forall. intros y Hy. specialize (H y Hy). unfold disj, bend in *. cbn in *. lia.
    + apply Forall_forall. intros y Hy. specialize (H y Hy). unfold disj, bend in *. cbn in *. lia.
Qed.

(** ** The ring *)

(** The address of the first block of [l], of what follows it when there is none. *)
Definition first (l : list block) (e : Z) : Z := match l with [] => e | x :: _ => fst x end.

(** The headers of the blocks of [l] link them in this order, and the last one to [e]. *)
Fixpoint seg (h : gmap Z hdr) (l : list block) (e : Z) : Prop :=
  match l with
  | [] => True
  | (a, s) :: l' => h !! a = Some (mkHdr (first l' e) s) /\ seg h l' e
  end.

Lemma seg_app h l l' e : seg h (l ++ l') e <-> seg h l (first l' e) /\ seg h l' e.
Proof.
  induction l as [|[a s] l IH]; cbn; [tauto|]. rewrite IH. enough (first (l ++ l') e = first l (first l' e)) as -> by tauto.
  by destruct l.
Qed.

Lemma seg_insert h l e a x : a ∉ l.*1 -> seg h l e -> seg (<[a := x]> h) l e.
Proof.
  induction l as [|[b s] l IH]; cbn; [done|]. rewrite not_elem_of_cons. intros [Hab Ha] [Hb Hl]. split; [|by apply IH].
  by rewrite lookup_insert_ne.
Qed.

Definition ring (h : gmap Z hdr) (r : list block) : Prop := seg h r (first r 0).

Lemma ring_rotate h l l' : ring h (l ++ l') -> ring h (l' ++ l).
Proof.
  unfold ring. rewrite !seg_app. destruct l as [|x l], l' as [|y l']; cbn [app first]; try tauto;
    rewrite ?app_nil_r; done.
Qed.

(** ** The loop of [free] stops *)

Section free_loop.
Context (bp : Z).

Definition stops (a next : Z) : bool := ((a <? bp) && (bp <? next)) || ((next <=? a) && ((a <? bp) || (bp <? next))).

Fixpoint no_stop (l : list block) (e : Z) : Prop :=
  match l with
  | [] => True
  | (a, _) :: l' => stops a (first l' e) = false /\ no_stop l' e
  end.

Lemma stops_false a b : a <> bp -> b <> bp -> stops a b = false -> (a < bp -> a < b < bp) /\ (bp < a -> b < bp \/ a < b).
Proof. unfold stops. intros Ha Hb. rewrite orb_false_iff, !andb_false_iff, orb_false_iff. lia. Qed.

(** Addresses would grow for ever. *)
Lemma no_stop_grows : forall l a s e, bp ∉ ((a, s) :: l).*1 -> e <> bp -> no_stop ((a, s) :: l) e ->
  (a < bp -> a < e < bp) /\ (bp < a -> e < bp \/ a < e).
Proof.
  induction l as [|[b n] l IH]; intros a s e Hbp He [Hst Hl].
  { apply stops_false in Hst; [done|set_solver|done]. }
  cbn in Hbp. rewrite !not_elem_of_cons in Hbp. destruct Hbp as (Ha & Hb & Hl').
  apply stops_false in Hst; [|done..]. cbn in Hst. destruct (IH b n e) as [H1 H2]; [by apply not_elem_of_cons|done|done|]. lia.
Qed.

Lemma ring_stops r : r <> [] -> bp ∉ r.*1 -> ~ no_stop r (first r 0).
Proof.
  destruct r as [|[a s] l]; [done|]. intros _ Hbp Hn. cbn [first] in Hn.
  destruct (no_stop_grows l a s a) as [H1 H2]; [done|set_solver|done|]. assert (a <> bp) by set_solver. lia.
Qed.

Lemma free_find_spec st : forall l e fuel, seg (u_hdrs st) l e -> ~ no_stop l e -> (length l < fuel)%nat ->
  exists p s l1 l2, l = l1 ++ (p, s) :: l2 /\ free_find fuel bp (first l e) st = URet p.
Proof.
  induction l as [|[a s] l IH]; intros e fuel Hseg Hn Hfuel; [by destruct Hn|]. destruct fuel as [|fuel]; [lia|].
  cbn in Hseg. destruct Hseg as [Ha Hl]. cbn [first free_find fst]. unfold header. rewrite Ha. cbn [ubounds ubind h_ptr].
  destruct (stops a (first l e)) eqn:Hst.
  - exists a, s, [], l. split; [done|]. unfold stops in Hst. destruct ((a <? bp) && (bp <? first l e)); [done|].
    cbn [orb] in Hst. by rewrite Hst.
  - cbn in Hn. destruct (IH e fuel Hl) as (p & n & l1 & l2 & -> & Hf); [tauto|cbn in Hfuel; lia|].
    exists p, n, ((a, s) :: l1), l2. split; [done|]. unfold stops in Hst. apply orb_false_iff in Hst as [-> ->]. done.
Qed.
End free_loop.

(** ** The invariant *)

Section allocator.
(** [base] is below [lo], where the memory that [sbrk] adds begins. *)
Context (base lo : Z) (Hbase : 0 < base) (Hlo : base + 8 <= lo).

Definition heap_block (brk : Z) (x : block) : Prop := lo <= fst x /\ 1 <= snd x /\ bend x <= brk.
Definition free_block (brk : Z) (x : block) : Prop := x = (base, 0) \/ heap_block brk x.
Definition live_block (h : gmap Z hdr) (brk : Z) (x : block) : Prop :=
  heap_block brk x /\ exists q, h !! fst x = Some (mkHdr q (snd x)).

Record inv (st : ustate) (brk : Z) (live r : list block) : Prop := mkInv {
  inv_ring : ring (u_hdrs st) r;
  inv_freep : u_freep st = first r 0;
  inv_base : (base, 0) ∈ r;
  inv_free : Forall (free_block brk) r;
  inv_live : Forall (live_block (u_hdrs st) brk) live;
  inv_apart : apart (r ++ live);
  inv_brk : lo <= brk <= KERNBASE
}.

Lemma disj_ne x y : disj x y -> fst x <> fst y.
Proof. unfold disj, bend. lia. Qed.

Lemma disj_not_in x l : Forall (disj x) l -> fst x ∉ l.*1.
Proof. intros Hl (y & Heq & Hy)%list_elem_of_fmap. rewrite Forall_forall in Hl. by apply (disj_ne x y (Hl y Hy)). Qed.

Lemma live_insert h brk l a x : a ∉ l.*1 -> Forall (live_block h brk) l -> Forall (live_block (<[a := x]> h) brk) l.
Proof.
  intros Ha Hl. rewrite Forall_forall in *. intros y Hy. destruct (Hl y Hy) as [Hb (q & Hq)]. split; [done|]. exists q.
  rewrite lookup_insert_ne; [done|]. intros ->. by apply Ha, list_elem_of_fmap_2.
Qed.

Lemma free_bounds brk x : brk <= KERNBASE -> lo <= brk -> free_block brk x -> 0 < fst x /\ 0 <= snd x /\ fst x + 8 * snd x < 2 ^ 32.
Proof. unfold KERNBASE. intros Hbrk Hlo' [->|(H1 & H2 & H3)]; [cbn; lia|]. unfold bend in H3. lia. Qed.

(** A free block that begins at or after [lo] is not [base]. *)
Lemma free_heap brk x : lo <= fst x -> free_block brk x -> heap_block brk x.
Proof. intros Hx [->|]; [cbn in Hx; lia|done]. Qed.

(** *** [free] *)

(** [free] has found the block [p] after which [bp] goes, and has written the header of [bp]. *)
Record placed (h : gmap Z hdr) (brk : Z) (live : list block) (p s bp n : Z) (rest : list block) : Prop := mkPlaced {
  pl_rest : seg h rest p;
  pl_bp : h !! bp = Some (mkHdr (first rest p) n);
  pl_p : exists q, h !! p = Some (mkHdr q s);
  pl_base : (base, 0) ∈ (p, s) :: rest;
  pl_free : Forall (free_block brk) ((p, s) :: rest);
  pl_heap : heap_block brk (bp, n);
  pl_live : Forall (live_block h brk) live;
  pl_apart : apart ((p, s) :: (bp, n) :: rest ++ live)
}.

(** The second test of [free]. *)
Lemma free_join_prev st brk live p s bp n rest : lo <= brk <= KERNBASE -> placed (u_hdrs st) brk live p s bp n rest ->
  exists st' r', put_freep p (if u32 (p + 8 * s) =? bp then put_hdr p (mkHdr (first rest p) (u32 (s + n))) st else put_hdr p (mkHdr bp s) st) = st' /\
    inv st' brk live r' /\ (length r' <= 2 + length rest)%nat /\ Exists (fun x => n <= snd x) r'.
Proof.
  intros Hbrk [Hrest Hbp [q Hp] Hb Hf Hh Hlive Hap]. inversion Hf as [|? ? Hfp Hfr]; subst.
  pose proof (free_bounds brk (p, s) ltac:(lia) ltac:(lia) Hfp) as Hbd. cbn [fst snd] in Hbd.
  destruct Hh as (Hh1 & Hh2 & Hh3). unfold bend, KERNBASE in *. cbn [fst snd] in *.
  assert (p ∉ rest.*1 /\ p ∉ live.*1 /\ p <> bp) as (Hpr & Hpl & Hpb).
  { destruct Hap as [Hd _]. apply Forall_cons in Hd as [Hd1 Hd2]. apply disj_not_in in Hd2. apply disj_ne in Hd1. cbn in *.
    rewrite fmap_app, not_elem_of_app in Hd2. tauto. }
  rewrite u32_small by lia. destruct (Z.eqb_spec (p + 8 * s) bp) as [Heq|Hne].
  - destruct Hfp as [[= -> ->]|(Hp1 & Hp2 & Hp3)]; [lia|]. unfold bend in Hp3. cbn [fst snd] in *. rewrite u32_small by lia.
    eexists _, ((p, s + n) :: rest). split; [done|]. split; [|split; [cbn; lia|left; cbn; lia]].
    apply (apart_join p s bp n (rest ++ live)) in Hap; [|done..]. split; cbn; try done.
    + unfold ring. cbn. rewrite lookup_insert_eq. split; [done|]. by apply seg_insert.
    + apply elem_of_cons in Hb as [[= -> ->]|Hb]; [lia|]. by right.
    + constructor; [|done]. right. unfold heap_block, bend. cbn. lia.
    + by apply live_insert.
  - eexists _, ((p, s) :: (bp, n) :: rest). split; [done|]. split; [|split; [cbn; lia|right; left; cbn; lia]].
    split; cbn; try done.
    + unfold ring. cbn. rewrite lookup_insert_eq, lookup_insert_ne by done. split_and!; [done..|]. by apply seg_insert.
    + apply elem_of_cons in Hb as [->|Hb]; [by left|by do 2 right].
    + constructor; [done|]. constructor; [|done]. right. unfold heap_block, bend. cbn. lia.
    + by apply live_insert.
Qed.

Lemma not_in_rest x l live : apart (x :: l ++ live) -> fst x ∉ l.*1 /\ fst x ∉ live.*1.
Proof. intros [Hd _]. apply disj_not_in in Hd. rewrite fmap_app, not_elem_of_app in Hd. done. Qed.

(** The first test of [free]. *)
Lemma free_join_next st brk live p s bp m rest q : lo <= brk <= KERNBASE ->
  u_hdrs st !! p = Some (mkHdr (first rest p) s) -> seg (u_hdrs st) rest p -> u_hdrs st !! bp = Some (mkHdr q m) ->
  (base, 0) ∈ (p, s) :: rest -> Forall (free_block brk) ((p, s) :: rest) -> heap_block brk (bp, m) ->
  Forall (live_block (u_hdrs st) brk) live -> apart ((bp, m) :: (p, s) :: rest ++ live) ->
  exists st' n rest',
    (if u32 (bp + 8 * m) =? first rest p then
       hn <- header st (first rest p) ;;
       URet (put_hdr bp (mkHdr (h_ptr hn) (u32 (m + h_size hn))) st)
     else URet (put_hdr bp (mkHdr (first rest p) m) st)) = URet st' /\
    placed (u_hdrs st') brk live p s bp n rest' /\ m <= n /\ (length rest' <= length rest)%nat.
Proof.
  intros Hbrk Hp Hrest Hbp Hb Hf Hh Hlive Hap. pose proof Hh as (Hh1 & Hh2 & Hh3). unfold bend, KERNBASE in *. cbn [fst snd] in *.
  destruct (not_in_rest (bp, m) ((p, s) :: rest) live Hap) as [Hbr Hbl]. cbn in Hbr. apply not_elem_of_cons in Hbr as [Hbpp Hbr].
  rewrite u32_small by lia. destruct (Z.eqb_spec (bp + 8 * m) (first rest p)) as [Heq|Hne].
  - destruct rest as [|[a k] rest].
    { cbn in Heq. apply elem_of_cons in Hb as [[= <- <-]|[]%elem_of_nil]. lia. }
    cbn in Heq, Hrest. destruct Hrest as [Ha Hrest]. cbn [first fst]. unfold header. rewrite Ha. cbn [ubounds ubind h_ptr h_size].
    inversion Hf as [|? ? Hfp Hfr]; subst. inversion Hfr as [|? ? Hfa Hfr']; subst.
    apply free_heap in Hfa as (Ha1 & Ha2 & Ha3); [|cbn; lia]. unfold bend in Ha3. cbn [fst snd] in *. rewrite u32_small by lia.
    eexists _, (m + k), rest. split; [done|]. split; [|cbn; lia].
    assert (apart ((bp, m + k) :: (p, s) :: rest ++ live)) as Hap'.
    { apply (proj1 (apart_join bp m (bp + 8 * m) k _ eq_refl Hh2 Ha2)).
      eapply apart_perm; [|exact Hap]. cbn. by apply perm_skip, perm_swap. }
    cbn in Hbr. apply not_elem_of_cons in Hbr as [Hba Hbr].
    split; cbn; try done.
    + by apply seg_insert.
    + by rewrite lookup_insert_eq.
    + rewrite lookup_insert_ne by done. by eexists.
    + apply elem_of_cons in Hb as [->|[[= H1 H2]|Hb]%elem_of_cons]; [by left|lia|by right].
    + by constructor.
    + unfold heap_block, bend. cbn. lia.
    + by apply live_insert.
    + exact (apart_swap _ _ _ Hap').
  - eexists _, m, rest. split; [done|]. split; [|lia]. split; cbn; try done.
    + by apply seg_insert.
    + by rewrite lookup_insert_eq.
    + rewrite lookup_insert_ne by done. by eexists.
    + by apply live_insert.
    + exact (apart_swap _ _ _ Hap).
Qed.

Lemma free_spec st brk live r bp m fuel : inv st brk ((bp, m) :: live) r -> (length r < fuel)%nat ->
  exists st' r', free fuel (bp + 8) st = URet st' /\ inv st' brk live r' /\ (length r' <= S (length r))%nat /\ Exists (fun x => m <= snd x) r'.
Proof.
  intros [Hring Hfreep Hb Hf Hlive Hap Hbrk] Hfuel. inversion Hlive as [|? ? [Hh [q Hbp]] Hlive']; subst.
  pose proof Hh as (Hh1 & Hh2 & Hh3). unfold bend, KERNBASE in *. cbn [fst snd] in *. rewrite <- Permutation_middle in Hap.
  destruct (not_in_rest (bp, m) r live Hap) as [Hbr _]. cbn in Hbr. assert (r <> []) as Hne by (intros ->; by apply elem_of_nil in Hb).
  unfold free. rewrite u32_small by lia. replace (bp + 8 - 8) with bp by lia. rewrite Hfreep.
  destruct (free_find_spec bp st r (first r 0) fuel Hring (ring_stops bp r Hne Hbr) Hfuel) as (p & s & l1 & l2 & -> & Hfind).
  replace (first (l1 ++ (p, s) :: l2) (first (l1 ++ (p, s) :: l2) 0)) with (first (l1 ++ (p, s) :: l2) 0) in Hfind by by destruct l1.
  rewrite Hfind. cbn [ubind]. apply ring_rotate in Hring. cbn in Hring. destruct Hring as [Hp Hrest]. cbn [first fst] in *.
  assert (l1 ++ (p, s) :: l2 ≡ₚ (p, s) :: l2 ++ l1) as Hperm by by rewrite Permutation_app_comm.
  unfold header. rewrite Hbp, Hp. cbn [ubounds ubind h_ptr h_size].
  destruct (free_join_next st brk live p s bp m (l2 ++ l1) q) as (st1 & n & rest & Hst1 & Hpl & Hmn & Hlen); try done.
  { by rewrite <- Hperm. } { by rewrite <- Hperm. } { by rewrite Hperm in Hap. }
  match goal with |- context [if ?b then ?x else ?y] => replace (if b then x else y) with (URet st1) by (symmetry; exact Hst1) end.
  cbn [ubind]. pose proof Hpl as [_ Hbp1 [q1 Hp1] _ _ _ _ _]. rewrite Hbp1, Hp1. cbn [ubounds ubind h_ptr h_size].
  destruct (free_join_prev st1 brk live p s bp n rest Hbrk Hpl) as (st' & r' & Hst' & Hinv & Hlen' & Hex).
  exists st', r'. split; [by rewrite Hst'|]. split; [done|]. rewrite length_app in *. cbn [length]. split; [lia|].
  eapply Exists_impl; [exact Hex|]. cbn. lia.
Qed.

(** *** [malloc] *)

Lemma inv_rotate st brk live l x l' : inv st brk live (l ++ x :: l') -> inv (put_freep (fst x) st) brk live (x :: l' ++ l).
Proof.
  intros [Hring Hfreep Hb Hf Hlive Hap Hbrk]. assert (l ++ x :: l' ≡ₚ x :: l' ++ l) as Hperm by by rewrite Permutation_app_comm.
  split; cbn [u_hdrs put_freep]; try done.
  - by apply ring_rotate in Hring.
  - by rewrite <- Hperm.
  - by rewrite <- Hperm.
  - by rewrite <- Hperm.
Qed.

Lemma inv_head st brk live p s l : inv st brk live ((p, s) :: l) ->
  u_freep st = p /\ u_hdrs st !! p = Some (mkHdr (first l p) s) /\ 0 < p /\ 0 <= s /\ p + 8 * s < 2 ^ 32.
Proof.
  intros [[Hp _] Hfreep _ Hf _ _ Hbrk]. inversion Hf as [|? ? Hfp _]; subst.
  destruct (free_bounds brk (p, s) ltac:(lia) ltac:(lia) Hfp) as (H1 & H2 & H3). by split_and!.
Qed.

Lemma malloc_take_spec st brk live v sv p s rest n : inv (put_freep v st) brk live ((v, sv) :: (p, s) :: rest) -> 1 <= n <= s ->
  exists b st' r', malloc_take n v p st = URet (b + 8, st') /\ inv st' brk ((b, n) :: live) r' /\ (length r' <= S (S (length rest)))%nat.
Proof.
  intros Hinv Hn. pose proof Hinv as [(Hv & Hp & Hrest) _ Hb Hf Hlive Hap Hbrk]. cbn [first fst u_hdrs put_freep] in *.
  inversion Hf as [|? ? Hfv Hf']; subst. inversion Hf' as [|? ? Hfp Hfr]; subst.
  destruct Hfp as [[= -> ->]|Hhp]; [lia|]. pose proof Hhp as (Hp1 & Hp2 & Hp3). unfold bend, KERNBASE in *. cbn [fst snd] in *.
  destruct (not_in_rest (v, sv) ((p, s) :: rest) live Hap) as [Hvr Hvl]. cbn in Hvr. apply not_elem_of_cons in Hvr as [Hvp Hvr].
  assert ((base, 0) ∈ (v, sv) :: rest) as Hb'.
  { apply elem_of_cons in Hb as [->|[[= H1 H2]|Hb]%elem_of_cons]; [by left|lia|by right]. }
  apply apart_swap in Hap. destruct (not_in_rest (p, s) ((v, sv) :: rest) live Hap) as [Hpr Hpl]. cbn in Hpr. apply not_elem_of_cons in Hpr as [Hpv Hpr].
  unfold malloc_take, header. rewrite Hp. cbn [ubounds ubind h_ptr h_size]. destruct (Z.eqb_spec s n) as [->|Hne].
  - rewrite Hv. cbn [ubounds ubind h_size]. rewrite u32_small by lia. eexists p, _, ((v, sv) :: rest). split; [done|].
    split; [|cbn; lia]. split; cbn; try done.
    + unfold ring. cbn. rewrite lookup_insert_eq. split; [done|]. by apply seg_insert.
    + by constructor.
    + constructor; [|by apply live_insert]. split; [done|]. cbn. rewrite lookup_insert_ne by done. by eexists.
    + exact (apart_middle (p, n) ((v, sv) :: rest) live Hap).
  - rewrite (u32_small (s - n)) by lia. rewrite (u32_small (p + _)) by lia. rewrite (u32_small (_ + 8)) by lia.
    replace s with (s - n + n) in Hap by lia. apply (apart_join p (s - n) (p + 8 * (s - n)) n) in Hap; [|lia..].
    destruct (not_in_rest (p + 8 * (s - n), n) ((p, s - n) :: (v, sv) :: rest) live) as [Hqr Hql]; [by apply apart_swap|].
    cbn in Hqr. rewrite !not_elem_of_cons in Hqr. destruct Hqr as (Hqp & Hqv & Hqr).
    eexists (p + 8 * (s - n)), _, ((v, sv) :: (p, s - n) :: rest). split; [done|]. split; [|cbn; lia]. split; cbn; try done.
    + unfold ring. cbn. rewrite !(lookup_insert_ne _ (p + 8 * (s - n))), (lookup_insert_ne _ p v), lookup_insert_eq by done.
      split_and!; [done..|]. by do 2 (apply seg_insert; [done|]).
    + apply elem_of_cons in Hb' as [->|Hb']; [by left|by do 2 right].
    + constructor; [done|]. constructor; [|done]. right. unfold heap_block, bend. cbn. lia.
    + constructor; [|by do 2 (apply live_insert; [done|])]. split; [unfold heap_block, bend; cbn; lia|]. cbn. rewrite lookup_insert_eq. by eexists.
    + exact (apart_swap (p, s - n) (v, sv) _ (apart_middle _ ((p, s - n) :: (v, sv) :: rest) live (apart_swap _ _ _ Hap))).
Qed.

(** What the loop does when no block is large enough. *)
Definition malloc_more (fuel : nat) (n : Z) (st : ustate) : user (Z * ustate) :=
  r <- morecore fuel n st ;;
  let '(p, st) := r in
  if p =? 0 then URet (0, st)
  else
    h <- header st p ;;
    malloc_loop fuel n p (h_ptr h) st.

Lemma malloc_step fuel n v p st h : u_hdrs st !! p = Some h ->
  malloc_loop (S fuel) n v p st =
  if n <=? h_size h then malloc_take n v p st
  else if p =? u_freep st then malloc_more fuel n st else malloc_loop fuel n p (h_ptr h) st.
Proof. intros Hp. cbn [malloc_loop]. unfold header at 1. rewrite Hp. done. Qed.

Lemma malloc_walk st brk live n : 1 <= n -> forall todo dn v sv fuel, inv st brk live (dn ++ (v, sv) :: todo) ->
  (length todo < fuel)%nat ->
  (exists v' sv' p s rest, malloc_loop fuel n v (first todo (u_freep st)) st = malloc_take n v' p st /\
     inv (put_freep v' st) brk live ((v', sv') :: (p, s) :: rest) /\ n <= s /\ S (S (length rest)) = length (dn ++ (v, sv) :: todo)) \/
  (Forall (fun x => snd x < n) (todo ++ take 1 (dn ++ [(v, sv)])) /\
   exists fuel', fuel = (S (length todo) + fuel')%nat /\ malloc_loop fuel n v (first todo (u_freep st)) st = malloc_more fuel' n st).
Proof.
  intros Hn. induction todo as [|[p s] todo IH]; intros dn v sv fuel Hinv Hfuel; (destruct fuel as [|fuel]; [lia|]).
  - cbn [first]. destruct dn as [|[f sf] dn]; cbn [app] in *.
    + apply inv_head in Hinv as Hh. destruct Hh as (-> & Hv & _). rewrite (malloc_step _ _ _ _ _ _ Hv). cbn [h_size].
      assert (sv = 0) as ->. { pose proof (inv_base _ _ _ _ Hinv) as [[= _ <-]|[]%elem_of_nil]%elem_of_cons. done. }
      rewrite (proj2 (Z.leb_gt n 0)) by lia. right. split; [repeat constructor; cbn; lia|]. exists fuel. split; [done|].
      destruct (inv_head _ _ _ _ _ _ Hinv) as (-> & _). by rewrite Z.eqb_refl.
    + apply inv_head in Hinv as Hh. destruct Hh as (Hfp & Hf & _). rewrite Hfp, (malloc_step _ _ _ _ _ _ Hf), Hfp, Z.eqb_refl. cbn [h_size].
      destruct (Z.leb_spec n sf) as [Hle|Hgt].
      * left. exists v, sv, f, sf, dn. split; [done|]. split; [by apply (inv_rotate st brk live ((f, sf) :: dn) (v, sv) [])|]. split; [done|].
        cbn. rewrite length_app. cbn. lia.
      * right. split; [repeat constructor; cbn; lia|]. by exists fuel.
  - replace (dn ++ (v, sv) :: (p, s) :: todo) with ((dn ++ [(v, sv)]) ++ (p, s) :: todo) in * by by rewrite <- app_assoc.
    pose proof (inv_rotate _ _ _ _ _ _ Hinv) as Hrot. cbn [fst] in Hrot. destruct (inv_head _ _ _ _ _ _ Hrot) as (_ & Hp & _). cbn [u_hdrs put_freep] in Hp.
    assert (u_freep st = first (dn ++ [(v, sv)]) 0) as Hfp by (rewrite (inv_freep _ _ _ _ Hinv); by destruct dn).
    assert (first (todo ++ dn ++ [(v, sv)]) p = first todo (u_freep st)) as Hnext by (rewrite Hfp; by destruct todo, dn).
    assert (p <> u_freep st) as Hpf.
    { destruct (not_in_rest (p, s) (todo ++ dn ++ [(v, sv)]) live) as [Hpr _]; [apply (inv_apart _ _ _ _ Hrot)|]. intros ->. apply Hpr.
      cbn [fst]. rewrite Hfp, !fmap_app, elem_of_app. right. destruct dn as [|x dn]; by left. }
    cbn [first fst]. rewrite (malloc_step _ _ _ _ _ _ Hp). cbn [h_size h_ptr]. rewrite Hnext, (proj2 (Z.eqb_neq _ _)) by done.
    destruct (Z.leb_spec n s) as [Hle|Hgt].
    + left. exists v, sv, p, s, (todo ++ dn). split; [done|]. split; [|split; [done|rewrite !length_app; cbn; lia]].
      rewrite <- app_assoc in Hinv. by apply inv_rotate in Hinv.
    + destruct (IH (dn ++ [(v, sv)]) p s fuel Hinv) as [Hl|(Hall & fuel' & -> & Hr)]; [cbn in Hfuel; lia|by left|right].
      split; [|exists fuel'; done]. constructor; [done|]. replace (take 1 (dn ++ [(v, sv)])) with (take 1 ((dn ++ [(v, sv)]) ++ [(p, s)])); [done|].
      by destruct dn.
Qed.

Definition small (n : Z) : Prop := 1 <= n < 2 ^ 28.

(** [malloc] has taken a block of [n] units, or there is no more memory. *)
Definition allocated (n : Z) (live r : list block) (x : Z * ustate) (brk : Z) : Prop :=
  exists r', (length r' <= S (length r))%nat /\
    (fst x = 0 /\ inv (snd x) brk live r' \/ exists b, fst x = b + 8 /\ inv (snd x) brk ((b, n) :: live) r').

Lemma inv_more st brk live r nu : inv st brk live r -> 1 <= nu -> brk + 8 * nu <= KERNBASE ->
  inv (put_size brk nu st) (brk + 8 * nu) ((brk, nu) :: live) r.
Proof.
  intros [Hring Hfreep Hb Hf Hlive Hap Hbrk] Hnu Hmax. assert (Forall (fun x => bend x <= brk) (r ++ live)) as Hend.
  { apply Forall_app. split.
    - eapply Forall_impl; [exact Hf|]. intros x [->|(_ & _ & ?)]; [unfold bend; cbn; lia|done].
    - eapply Forall_impl; [exact Hlive|]. intros x [(_ & _ & ?) _]. done. }
  assert (Forall (disj (brk, nu)) (r ++ live)) as Hd.
  { eapply Forall_impl; [exact Hend|]. intros x Hx. right. done. }
  pose proof (disj_not_in _ _ Hd) as Hni. cbn in Hni. rewrite fmap_app, not_elem_of_app in Hni. destruct Hni as [Hnr Hnl].
  split; cbn [u_hdrs u_freep put_size put_hdr]; try done.
  - unfold ring. by apply seg_insert.
  - eapply Forall_impl; [exact Hf|]. intros x [->|(? & ? & ?)]; [by left|right]. unfold heap_block. lia.
  - constructor.
    + split; [unfold heap_block, bend; cbn; lia|]. cbn. rewrite lookup_insert_eq. by eexists.
    + apply live_insert; [done|]. eapply Forall_impl; [exact Hlive|]. intros x [(? & ? & ?) ?]. split; [|done]. unfold heap_block. lia.
  - apply apart_middle. done.
  - lia.
Qed.

Lemma malloc_more_spec st brk live r n fuel : inv st brk live r -> small n -> (S (length r) < fuel)%nat ->
  uwp (malloc_more fuel n st) brk (allocated n live r).
Proof.
  intros Hinv Hn Hfuel. unfold malloc_more. apply uwp_bind. unfold morecore. set (nu := if n <? 4096 then 4096 else n).
  assert (n <= nu /\ 1 <= nu < 2 ^ 28) as [Hnnu Hnu] by (unfold small in Hn; subst nu; destruct (Z.ltb_spec n 4096); lia).
  unfold call. cbn [ubind uwp]. rewrite i32_small by lia. split; [lia|]. split.
  { exists r. split; [lia|]. by left. }
  intros Hmax. replace (nu * 8) with (8 * nu) in * by lia. pose proof (inv_brk _ _ _ _ Hinv) as Hbrk. unfold KERNBASE in *.
  rewrite (proj2 (Z.eqb_neq _ _)) by lia. rewrite u32_small by lia.
  destruct (free_spec _ _ _ _ _ _ fuel (inv_more st brk live r nu Hinv ltac:(lia) ltac:(unfold KERNBASE; lia))) as (st1 & r1 & -> & Hinv1 & Hlen1 & Hex);
    [lia|]. cbn [ubind uwp].
  destruct r1 as [|[p s] todo]; [by apply Exists_nil in Hex|].
  destruct (inv_head _ _ _ _ _ _ Hinv1) as (Hfp & Hp & Hp0 & _). rewrite Hfp, (proj2 (Z.eqb_neq _ _)) by lia. unfold header. rewrite Hp. cbn [ubounds ubind h_ptr].
  destruct (malloc_walk st1 _ live n ltac:(unfold small in Hn; lia) todo [] p s fuel Hinv1) as [(v & sv & q & sq & rest & Hl & Hinv2 & Hsq & Hlen2)|[Hall _]];
    [cbn in Hlen1; lia| |].
  - rewrite Hfp in Hl. rewrite Hl. unfold small in Hn.
    destruct (malloc_take_spec st1 _ live v sv q sq rest n Hinv2 ltac:(lia)) as (b & st2 & r2 & -> & Hinv3 & Hlen3). cbn [uwp].
    exists r2. cbn in Hlen2, Hlen1. split; [lia|]. right. by exists b.
  - exfalso. cbn in Hall. rewrite Forall_app in Hall. destruct Hall as [Hall1 Hall2].
    apply Exists_exists in Hex as (x & [->|Hx]%elem_of_cons & Hnx); rewrite Forall_forall in *.
    + specialize (Hall2 (p, s)). cbn in *. assert ((p, s) ∈ [(p, s)]) by by left. specialize (Hall2 H). lia.
    + specialize (Hall1 x Hx). cbn in *. lia.
Qed.

Lemma malloc_loop_spec st brk live r n fuel : inv st brk live r -> small n -> (2 + 2 * length r < fuel)%nat ->
  exists h, header st (u_freep st) = URet h /\ uwp (malloc_loop fuel n (u_freep st) (h_ptr h) st) brk (allocated n live r).
Proof.
  intros Hinv Hn Hfuel. destruct r as [|[p s] todo]; [by destruct (proj1 (elem_of_nil _) (inv_base _ _ _ _ Hinv))|].
  destruct (inv_head _ _ _ _ _ _ Hinv) as (Hfp & Hp & _). rewrite Hfp. exists (mkHdr (first todo p) s). split; [unfold header; by rewrite Hp|]. cbn [h_ptr].
  destruct (malloc_walk st brk live n ltac:(unfold small in Hn; lia) todo [] p s fuel Hinv) as [(v & sv & q & sq & rest & Hl & Hinv2 & Hsq & Hlen2)|(_ & fuel' & Hf & Hl)];
    [cbn in Hfuel; lia| |]; rewrite Hfp in Hl; rewrite Hl.
  - unfold small in Hn. destruct (malloc_take_spec st _ live v sv q sq rest n Hinv2 ltac:(lia)) as (b & st2 & r2 & -> & Hinv3 & Hlen3). cbn [uwp].
    exists r2. cbn in Hlen2. cbn. split; [lia|]. right. by exists b.
  - apply malloc_more_spec; [done..|]. cbn in *. lia.
Qed.

(** Before the first [malloc], and after it with at most [k] free blocks. *)
Definition ready (st : ustate) (brk : Z) (live : list block) (k : nat) : Prop :=
  (u_freep st = 0 /\ live = [] /\ lo <= brk <= KERNBASE) \/ exists r, inv st brk live r /\ (length r <= S k)%nat.

Lemma inv_first st brk : lo <= brk <= KERNBASE -> inv (put_freep base (put_hdr base (mkHdr base 0) st)) brk [] [(base, 0)].
Proof.
  intros Hbrk. split; cbn; try done.
  - unfold ring. cbn. by rewrite lookup_insert_eq.
  - by left.
  - constructor; [by left|constructor].
Qed.

Lemma units nbytes : 0 <= nbytes <= 2 ^ 31 - 16 -> exists n, u32 (u32 (nbytes + 8 - 1) / 8 + 1) = n /\ small n /\ nbytes <= 8 * (n - 1).
Proof.
  intros Hn. rewrite (u32_small (nbytes + 8 - 1)) by lia. pose proof (Z.div_mod (nbytes + 8 - 1) 8) as Hd. pose proof (Z.mod_pos_bound (nbytes + 8 - 1) 8) as Hm.
  rewrite u32_small by lia. eexists. split; [done|]. unfold small. lia.
Qed.

Lemma malloc_spec st brk live k nbytes fuel : ready st brk live k -> 0 <= nbytes <= 2 ^ 31 - 16 -> (4 + 2 * k < fuel)%nat ->
  uwp (malloc base fuel nbytes st) brk (fun x brk =>
    fst x = 0 /\ ready (snd x) brk live (S k) \/
    exists b n, fst x = b + 8 /\ nbytes <= 8 * (n - 1) /\ ready (snd x) brk ((b, n) :: live) (S k)).
Proof.
  intros Hr Hnb Hfuel. destruct (units nbytes Hnb) as (n & Hn & Hsmall & Hbytes). unfold malloc. rewrite Hn. cbv zeta.
  assert (exists r, inv (if u_freep st =? 0 then put_freep base (put_hdr base (mkHdr base 0) st) else st) brk live r /\ (length r <= S k)%nat) as (r & Hinv & Hlen).
  { destruct Hr as [(-> & -> & Hbrk)|(r & Hinv & Hlen)]; [exists [(base, 0)]; split; [by apply inv_first|cbn; lia]|].
    exists r. split; [|done]. destruct r as [|[p s] l]; [by destruct (proj1 (elem_of_nil _) (inv_base _ _ _ _ Hinv))|].
    destruct (inv_head _ _ _ _ _ _ Hinv) as (Hfp & _ & Hp & _). by rewrite Hfp, (proj2 (Z.eqb_neq _ _)) by lia. }
  revert Hinv. generalize (if u_freep st =? 0 then put_freep base (put_hdr base (mkHdr base 0) st) else st) as st'. intros st' Hinv.
  destruct (malloc_loop_spec st' brk live r n fuel Hinv Hsmall ltac:(lia)) as (h & -> & Hl).
  cbn [ubind]. eapply uwp_mono; [exact Hl|]. intros [a st2] brk2 (r' & Hlen' & [[Ha Hi]|(b & Ha & Hi)]); cbn [fst snd] in *.
  - left. split; [done|]. right. exists r'. split; [done|lia].
  - right. exists b, n. split_and!; [done..|]. right. exists r'. split; [done|lia].
Qed.

Lemma inv_live_perm st brk live live' r : live ≡ₚ live' -> inv st brk live r -> inv st brk live' r.
Proof. intros Hp [Hring Hfreep Hb Hf Hlive Hap Hbrk]. split; try done; by rewrite <- Hp. Qed.

(** ** Sequences of calls *)

Inductive request := Malloc (nbytes : Z) | Free (i : nat).

(** The program's blocks, each with the size it asked for; [Free i] gives back the [i]-th. *)
Fixpoint session (fuel : nat) (ops : list request) (st : ustate) (ps : list (Z * Z)) : user (list (Z * Z)) :=
  match ops with
  | [] => URet ps
  | Malloc n :: ops =>
      r <- malloc base fuel n st ;;
      let '(p, st) := r in
      session fuel ops st (if p =? 0 then ps else (p, n) :: ps)
  | Free i :: ops =>
      match ps !! i with
      | None => session fuel ops st ps
      | Some (p, _) =>
          st <- free fuel p st ;;
          session fuel ops st (delete i ps)
      end
  end.

Definition request_ok (op : request) : Prop := match op with Malloc n => 0 <= n <= 2 ^ 31 - 16 | Free _ => True end.

(** What the program has been given: memory from [sbrk], no byte of it twice. *)
Definition own_blocks (ps : list (Z * Z)) (brk : Z) : Prop :=
  Forall (fun x => lo + 8 <= fst x /\ fst x + snd x <= brk) ps /\
  forall i j x y, i <> j -> ps !! i = Some x -> ps !! j = Some y -> fst x + snd x <= fst y - 8 \/ fst y + snd y <= fst x - 8.

Definition given (p x : Z * Z) : Prop := fst p = fst x + 8 /\ 0 <= snd p <= 8 * (snd x - 1).

Lemma apart_lookup l i j x y : apart l -> i <> j -> l !! i = Some x -> l !! j = Some y -> disj x y.
Proof.
  revert i j. induction l as [|z l IH]; intros i j; [done|]. intros [Hz Hl] Hij Hi Hj. rewrite Forall_forall in Hz.
  destruct i as [|i], j as [|j]; cbn in Hi, Hj; [done| | |by eapply (IH i j); auto].
  - injection Hi as ->. by eapply Hz, list_elem_of_lookup_2.
  - injection Hj as ->. by eapply disj_sym, Hz, list_elem_of_lookup_2.
Qed.

Lemma ready_own st brk live k ps : ready st brk live k -> Forall2 given ps live -> own_blocks ps brk.
Proof.
  intros Hr Hps. assert (Forall (heap_block brk) live /\ apart live) as [Hheap Hap].
  { destruct Hr as [(_ & -> & _)|(r & [_ _ _ _ Hlive Hap _] & _)]; [done|]. apply apart_app in Hap as [_ Hap]. split; [|done].
    eapply Forall_impl; [exact Hlive|]. by intros x [? _]. }
  split.
  - apply Forall_lookup. intros i p Hp. destruct (Forall2_lookup_l _ _ _ _ _ Hps Hp) as (x & Hx & Hg1 & Hg2).
    destruct (Forall_lookup_1 _ _ _ _ Hheap Hx) as (H1 & H2 & H3). unfold bend in H3. lia.
  - intros i j p q Hij Hp Hq. destruct (Forall2_lookup_l _ _ _ _ _ Hps Hp) as (x & Hx & Hg1 & Hg2).
    destruct (Forall2_lookup_l _ _ _ _ _ Hps Hq) as (y & Hy & Hg3 & Hg4). pose proof (apart_lookup _ _ _ _ _ Hap Hij Hx Hy) as Hd.
    unfold disj, bend in Hd. lia.
Qed.

Lemma session_spec : forall ops fuel st brk live k ps, ready st brk live k -> Forall2 given ps live -> Forall request_ok ops ->
  (4 + 2 * (k + length ops) < fuel)%nat -> uwp (session fuel ops st ps) brk own_blocks.
Proof.
  induction ops as [|[n|i] ops IH]; intros fuel st brk live k ps Hr Hps Hops Hfuel; cbn [session].
  { by eapply ready_own. }
  all: inversion Hops as [|? ? Hop Hops']; subst; cbn [length] in Hfuel.
  - apply uwp_bind. eapply uwp_mono; [apply (malloc_spec st brk live k); [done|done|lia]|]. intros [p st'] brk' [[Hp Hr']|(b & m & Hp & Hm & Hr')]; cbn [fst snd] in *; subst p.
    + rewrite Z.eqb_refl. eapply (IH _ _ _ live (S k)); [done..|lia].
    + assert (b + 8 <> 0) as Hb.
      { destruct Hr' as [(_ & [=] & _)|(r & Hi & _)]. pose proof (inv_live _ _ _ _ Hi) as Hl. inversion Hl as [|? ? [(? & _) _] _]; subst. cbn in *. lia. }
      rewrite (proj2 (Z.eqb_neq _ _)) by done. eapply (IH _ _ _ ((b, m) :: live) (S k)); [done| |done|lia]. constructor; [|done].
      split; [done|]. cbn in *. lia.
  - destruct (ps !! i) as [[p n]|] eqn:Hi; [|eapply (IH _ _ _ live k); [done..|lia]].
    destruct (Forall2_lookup_l _ _ _ _ _ Hps Hi) as ([b m] & Hb & Hp & _). cbn in Hp. subst p.
    destruct Hr as [(_ & -> & _)|(r & Hinv & Hlen)]; [done|].
    destruct (free_spec st brk (delete i live) r b m fuel) as (st' & r' & -> & Hinv' & Hlen' & _).
    { eapply inv_live_perm; [|exact Hinv]. by apply delete_Permutation. } { lia. }
    cbn [ubind]. eapply (IH _ _ _ (delete i live) (S k)); [right; exists r'; split; [done|lia]| |done|lia].
    by apply Forall2_delete.
Qed.
End allocator.

(** C28: Whatever sequence of [malloc] and [free] of its own blocks a program calls, with no
    request larger than 2^31 - 16 bytes, and whether [sbrk] gives memory or fails, the allocator
    ends every call without an invalid access, and the blocks the program has at the end are in
    the memory from [sbrk], at least as large as asked for, and never overlap each other or the
    headers of each other.  (For a larger request [sbrk] is called with a negative
    number, see [malloc_negative_sbrk].) *)
Theorem malloc_blocks_apart base lo brk ops fuel :
  0 < base -> base + 8 <= lo -> lo <= brk <= KERNBASE -> Forall request_ok ops -> (4 + 2 * length ops < fuel)%nat ->
  uwp (session base fuel ops (mkU ∅ 0) []) brk (own_blocks lo).
Proof.
  intros Hbase Hlo Hbrk Hops Hfuel. eapply (session_spec base lo Hbase Hlo ops fuel _ brk [] 0); [by left|constructor|done|lia].
Qed.

Definition sample_requests : list request := [Malloc 100; Malloc 40000; Free 1; Malloc 8; Malloc 60].

Lemma malloc_blocks_apart_witness : uwp (session 4096 20 sample_requests (mkU ∅ 0) []) 8192 (own_blocks 8192).
Proof.
  apply (malloc_blocks_apart 4096 8192 8192 sample_requests 20); [lia|lia|unfold KERNBASE; lia| |cbn; lia].
  repeat constructor; cbn; lia.
Defined.

(** The same calls with a [sbrk] that always gives memory. *)
Fixpoint with_sbrk {A} (m : user A) (brk : Z) : option A :=
  match m with
  | URet a => Some a
  | UBad _ => None
  | USys e k =>
      match e in sysE R return (R -> Z -> option A) -> option A with
      | Ssbrk n => fun K => K brk (brk + n)
      | _ => fun _ => None
      end (fun r brk => with_sbrk (k r) brk)
  end.

Example sample_session : with_sbrk (session 4096 20 sample_requests (mkU ∅ 0) []) 8192 = Some [(40880, 60); (40952, 8); (40968, 40000)].
Proof. by vm_compute. Qed.

(** The argument of [sbrk] when it is the first call. *)
Definition first_sbrk {A} (m : user A) : option Z :=
  match m with USys (Ssbrk n) _ => Some n | _ => None end.

(** A request of [2^31] bytes asks [sbrk] for a negative number of bytes. *)
Example malloc_negative_sbrk : first_sbrk (malloc 4096 20 (2 ^ 31) (mkU ∅ 0)) = Some (-2147483640).
Proof. by vm_compute. Qed.
