(* ===== verification/Mkfs.v ===== *)
(** * Mkfs: the program that makes the file system image (mkfs.c)

    It runs on the host: the image as blocks by number, [None] where an assertion or a
    read of the image fails and the program exits.  [xshort] and [xint] store and load
    little-endian values, so inodes are the bytes of a [struct dinode].  A file is its
    name and the pieces that [read] returns of it. *)

From stdpp Require Import base gmap list strings.
From Stdlib Require Import ZArith Lia.
From S2P Require Import Prelude State Bio Fs User.

Local Open Scope Z_scope.

Definition NINODES : Z := 200.
Definition nbitmap : Z := FSSIZE / (BSIZE * 8) + 1.
Definition ninodeblocks : Z := NINODES / IPB + 1.
Definition nlog : Z := LOGSIZE.
Definition nmeta : Z := 2 + nlog + ninodeblocks + nbitmap.
Definition nblocks : Z := FSSIZE - nmeta.

Definition mkfs_sb : superblock :=
  mkSb FSSIZE nblocks NINODES nlog 2 (2 + nlog) (2 + nlog + ninodeblocks).

Record image := mkImage {
  m_blocks : gmap Z (list Z);
  m_freeinode : Z;
  m_freeblock : Z
}.

Definition wsect (sec : Z) (buf : list Z) (m : image) : image :=
  mkImage (<[sec := buf]> (m_blocks m)) (m_freeinode m) (m_freeblock m).
Definition rsect (sec : Z) (m : image) : option (list Z) := m_blocks m !! sec.

Definition winode (inum : Z) (din : list Z) (m : image) : option image :=
  let bn := IBLOCK inum mkfs_sb in
  buf ← rsect bn m;
  Some (wsect bn (splice (dinode_at inum) din buf) m).
Definition rinode (inum : Z) (m : image) : option (list Z) :=
  let bn := IBLOCK inum mkfs_sb in
  buf ← rsect bn m;
  Some (sub (dinode_at inum) 64 buf).

Definition ialloc (type : Z) (m : image) : option (Z * image) :=
  let inum := m_freeinode m in
  let m := mkImage (m_blocks m) (u32 (inum + 1)) (m_freeblock m) in
  let din := wr 4 8 0 (wr 2 6 1 (wr 2 0 type (replicate 64 0))) in
  m ← winode inum din m;
  Some (inum, m).

(** [freeblock++] *)
Definition next_block (m : image) : Z * image :=
  (m_freeblock m, mkImage (m_blocks m) (m_freeinode m) (u32 (m_freeblock m + 1))).

Definition din_addr (din : list Z) (i : nat) : Z := rd 4 (12 + 4 * i) din.
Definition put_addr (i : nat) (a : Z) (din : list Z) : list Z := wr 4 (12 + 4 * i) a din.

(** The block that the indirect block names. *)
Definition indirect_block (fbn : Z) (din : list Z) (m : image) : option (Z * list Z * image) :=
  let a := din_addr din (Z.to_nat NDIRECT) in
  let j := Z.to_nat (4 * (fbn - NDIRECT)) in
  indirect ← rsect a m;
  let '(indirect, m) :=
    if rd 4 j indirect =? 0 then
      let '(b, m) := next_block m in
      let indirect := wr 4 j b indirect in
      (indirect, wsect a indirect m)
    else (indirect, m) in
  Some (rd 4 j indirect, din, m).

(** [if(xint(din.addrs[i]) == 0) din.addrs[i] = xint(freeblock++);] *)
Definition direct_block (i : nat) (din : list Z) (m : image) : list Z * image :=
  if din_addr din i =? 0 then let '(b, m) := next_block m in (put_addr i b din, m) else (din, m).

(** The block of the file that [iappend] writes to, the inode with its address. *)
Definition iappend_block (fbn : Z) (din : list Z) (m : image) : option (Z * list Z * image) :=
  if fbn <? NDIRECT then
    let '(din, m) := direct_block (Z.to_nat fbn) din m in
    Some (din_addr din (Z.to_nat fbn), din, m)
  else
    let '(din, m) := direct_block (Z.to_nat NDIRECT) din m in
    indirect_block fbn din m.

Fixpoint iappend_loop (fuel : nat) (din : list Z) (off : Z) (p : list Z) (m : image) : option (list Z * Z * image) :=
  match p with
  | [] => Some (din, off, m)
  | _ =>
      match fuel with
      | O => None
      | S fuel' =>
          let fbn := off / BSIZE in
          if negb (fbn <? MAXFILE) then None
          else
            '(x, din, m) ← iappend_block fbn din m;
            let n1 := Z.min (Z.of_nat (length p)) ((fbn + 1) * BSIZE - off) in
            buf ← rsect x m;
            let m := wsect x (splice (Z.to_nat (off - fbn * BSIZE)) (take (Z.to_nat n1) p) buf) m in
            iappend_loop fuel' din (off + n1) (drop (Z.to_nat n1) p) m
      end
  end.

Definition iappend (inum : Z) (p : list Z) (m : image) : option image :=
  din ← rinode inum m;
  '(din, off, m) ← iappend_loop (S (length p)) din (rd 4 8 din) p m;
  winode inum (wr 4 8 off din) m.

(** [buf[i/8] = buf[i/8] | (0x1 << (i%8))] for each block in use *)
Definition used_bits (used : Z) : list Z :=
  foldl (fun buf i => set_bit (Z.of_nat i) buf) zero_block (seq 0 (Z.to_nat used)).
Definition balloc (used : Z) (m : image) : option image :=
  if negb (used <? BSIZE * 8) then None else Some (wsect (sb_bmapstart mkfs_sb) (used_bits used) m).

(** [sb] at the beginning of a block of zeroes *)
Definition sb_block : list Z :=
  wr 4 24 (sb_bmapstart mkfs_sb) (wr 4 20 (sb_inodestart mkfs_sb) (wr 4 16 (sb_logstart mkfs_sb) (wr 4 12 (sb_nlog mkfs_sb)
    (wr 4 8 (sb_ninodes mkfs_sb) (wr 4 4 (sb_nblocks mkfs_sb) (wr 4 0 (sb_size mkfs_sb) zero_block)))))).

(** [struct dirent] *)
Definition dirent_of (inum : Z) (name : list Z) : list Z := wr 2 0 inum (replicate 2 0) ++ strncpy 14 name.

Definition zeroed : gmap Z (list Z) :=
  foldl (fun img i => <[Z.of_nat i := zero_block]> img) ∅ (seq 0 (Z.to_nat FSSIZE)).

(** [while((cc = read(fd, buf, sizeof(buf))) > 0) iappend(inum, buf, cc);] *)
Fixpoint append_pieces (inum : Z) (pieces : list (list Z)) (m : image) : option image :=
  match pieces with
  | [] => Some m
  | p :: pieces' => m ← iappend inum p m; append_pieces inum pieces' m
  end.

Definition add_file (rootino : Z) (file : list Z * list (list Z)) (m : image) : option image :=
  let '(name, pieces) := file in
  if existsb (fun c => c =? 47) name then None
  else
    let name := match name with c :: name' => if c =? 95 then name' else name | [] => name end in
    '(inum, m) ← ialloc T_FILE m;
    m ← iappend rootino (dirent_of inum name) m;
    append_pieces inum pieces m.

Fixpoint add_files (rootino : Z) (files : list (list Z * list (list Z))) (m : image) : option image :=
  match files with
  | [] => Some m
  | f :: files' => m ← add_file rootino f m; add_files rootino files' m
  end.

(** [din.size] of the root directory rounded up *)
Definition fix_root (rootino : Z) (m : image) : option image :=
  din ← rinode rootino m;
  let off := rd 4 8 din in
  let off := (off / BSIZE + 1) * BSIZE in
  winode rootino (wr 4 8 off din) m.

Definition mkfs (files : list (list Z * list (list Z))) : option image :=
  let m := mkImage zeroed 1 nmeta in
  let m := wsect 1 sb_block m in
  '(rootino, m) ← ialloc T_DIR m;
  if negb (rootino =? ROOTINO) then None
  else
    m ← iappend rootino (dirent_of rootino (str ".")) m;
    m ← iappend rootino (dirent_of rootino (str "..")) m;
    m ← add_files rootino files m;
    m ← fix_root rootino m;
    balloc (m_freeblock m) m.
