(* ===== verification/MkfsSpec.v ===== *)
(** * MkfsSpec: the image that mkfs makes

    The files in the image are as the kernel reads them: the invariants of the kernel's
    file system hold of the image, and the contents of each inode are those of the file. *)

From stdpp Require Import functions base gmap list strings.
From Stdlib Require Import ZArith Lia.
From S2P Require Import Prelude State Bio Memide Cache Log LogSpec Fs FsLayout FsTx FsAlloc FsFile FsIo FsSpec User Mkfs.

Local Open Scope Z_scope.

Notation dd := (memide_driver 512000).

Lemma mkfs_layout : fs_layout (DD := dd) 1 2 30 mkfs_sb.
Proof. exact small_layout. Qed.

Notation loc := (loc 1).
Notation file_ok := (file_ok 1 mkfs_sb).
Notation grown := (grown 1 mkfs_sb).
Notation other := (other 1 mkfs_sb).
Notation bit := (bit 1 mkfs_sb).
Notation alloc_view := (alloc_view 1 mkfs_sb).
Notation wrote := (wrote 1 mkfs_sb).
Notation dense := (dense 1).
Notation contents := (contents 1).
Notation regular := (regular 1 mkfs_sb).
Notation fbyte := (fbyte 1).

(** ** The image as a view of blocks *)

(** [V] is the image with the bitmap that [balloc] is going to write. *)
Record imaged (m : image) (V : Z * Z -> list Z) : Prop := {
  im_blocks b : 0 <= b < 1000 -> b <> 58 -> m_blocks m !! b = Some (V (1, b));
  im_dom b : is_Some (m_blocks m !! b) <-> 0 <= b < 1000;
  im_out k : k.1 <> 1 \/ ~ 0 <= k.2 < 1000 -> V k = zero_block;
  im_ok k : block_ok (V k);
  im_bitmap : V (1, 58) = used_bits (m_freeblock m);
  im_bits b : 0 <= b < 1000 -> bit V b = (b <? m_freeblock m);
  im_free b : m_freeblock m <= b < 1000 -> V (1, b) = zero_block;
  im_range : 59 <= m_freeblock m <= 1000
}.

Lemma bblock_58 b : 0 <= b < 1000 -> BBLOCK b mkfs_sb = 58.
Proof. intros Hb. unfold BBLOCK. change BPB with 4096. rewrite Z.div_small by lia. done. Qed.

Lemma imaged_wsect m V b d : imaged m V -> 0 <= b < m_freeblock m -> b <> 58 -> block_ok d -> imaged (wsect b d m) (<[(1, b) := d]> V).
Proof.
  intros [Hb Hd Ho Hok Hbm Hbits Hf Hr] Hlt H58 Hd'. split; cbn [m_blocks m_freeblock wsect]; try done.
  - intros c Hc Hc58. destruct (decide (c = b)) as [->|Hne]; [by rewrite lookup_insert_eq, fn_lookup_insert|].
    rewrite lookup_insert_ne, fn_lookup_insert_ne by congruence. by apply Hb.
  - intros c. destruct (decide (c = b)) as [->|Hne]; [rewrite lookup_insert_eq; split; [lia|by eexists]|].
    by rewrite lookup_insert_ne by done.
  - intros [e c] Hk. rewrite fn_lookup_insert_ne by (intros [= <- <-]; cbn in *; lia). by apply Ho.
  - intros k. destruct (decide (k = (1, b))) as [->|Hne]; [by rewrite fn_lookup_insert|by rewrite fn_lookup_insert_ne].
  - by rewrite fn_lookup_insert_ne by congruence.
  - intros c Hc. rewrite <- Hbits by done. unfold FsAlloc.bit. rewrite bblock_58 by done. by rewrite fn_lookup_insert_ne by congruence.
  - intros c Hc. rewrite fn_lookup_insert_ne by (intros [= ->]; lia). by apply Hf.
Qed.

Lemma imaged_alloc m V : imaged m V -> m_freeblock m < 1000 ->
  let '(b, m') := next_block m in b = m_freeblock m /\ m_freeblock m' = b + 1 /\ imaged m' (alloc_view V b).
Proof.
  intros [Hb Hd Ho Hok Hbm Hbits Hf Hr] Hlt. unfold Mkfs.next_block. rewrite u32_small by lia. cbn [m_freeblock].
  set (b := m_freeblock m) in *. split; [done|]. split; [done|]. unfold FsAlloc.alloc_view. rewrite bblock_58 by lia.
  split; cbn [m_blocks m_freeblock]; try done.
  - intros c Hc Hc58. destruct (decide (c = b)) as [->|Hne].
    + rewrite fn_lookup_insert. rewrite Hb by done. by rewrite Hf by lia.
    + rewrite !fn_lookup_insert_ne by congruence. by apply Hb.
  - intros [e c] Hk. rewrite !fn_lookup_insert_ne by (intros [= <- <-]; cbn in *; lia). by apply Ho.
  - intros k. destruct (decide (k = (1, b))) as [->|]; [rewrite fn_lookup_insert; apply zero_block_ok|]. rewrite fn_lookup_insert_ne by done.
    destruct (decide (k = (1, 58))) as [->|]; [rewrite fn_lookup_insert|by rewrite fn_lookup_insert_ne].
    by apply block_ok_set_bit.
  - rewrite fn_lookup_insert_ne by (intros [=]; lia). rewrite fn_lookup_insert, Hbm. unfold used_bits.
    replace (Z.to_nat (b + 1)) with (S (Z.to_nat b)) by lia. rewrite seq_S, foldl_app. cbn [foldl]. change (0 + Z.to_nat b)%nat with (Z.to_nat b).
    rewrite Z2Nat.id by lia. change BPB with 4096. rewrite Z.mod_small by lia. done.
  - intros c Hc. assert (alloc_view V b = <[(1, b) := zero_block]> (<[(1, 58) := set_bit (b mod BPB) (V (1, 58))]> V)) as <-
      by (unfold FsAlloc.alloc_view; by rewrite bblock_58 by lia).
    rewrite (bit_alloc (DD := dd) 1 2 30 demo_geometry mkfs_sb mkfs_layout); [|rewrite bblock_58 by lia; apply Hok|change (59 <= b < 1000); lia|done].
    rewrite Hbits by done. case_decide; subst; symmetry; [apply Z.ltb_lt; lia|]. destruct (Z.ltb_spec c b); [apply Z.ltb_lt|apply Z.ltb_ge]; lia.
  - intros c Hc. rewrite !fn_lookup_insert_ne by (intros [=]; lia). apply Hf. lia.
  - lia.
Qed.

Lemma imaged_rsect m V b : imaged m V -> 59 <= b < 1000 -> rsect b m = Some (V (1, b)).
Proof. intros Him Hb. apply (im_blocks _ _ Him); lia. Qed.

(** ** The bytes of an inode *)

(** [din] is the inode [ip]. *)
Record din_is (din : list Z) (ip : inode) : Prop := {
  d_len : length din = 64%nat;
  d_bytes : Forall is_byte din;
  d_type : di_type 0 din = i_type ip;
  d_major : di_major 0 din = i_major ip;
  d_minor : di_minor 0 din = i_minor ip;
  d_nlink : di_nlink 0 din = i_nlink ip;
  d_size : di_size 0 din = i_size ip;
  d_addrs : di_addrs 0 din = i_addrs ip
}.

Lemma lookup_di_addrs o d i : (i < 13)%nat -> di_addrs o d !! i = Some (rd 4 (o + 12 + 4 * i) d).
Proof. intros Hi. unfold di_addrs. by rewrite list_lookup_fmap, lookup_seq_lt. Qed.

Lemma length_di_addrs o d : length (di_addrs o d) = 13%nat.
Proof. done. Qed.

Lemma din_addr_is din ip i : din_is din ip -> (i < 13)%nat -> din_addr din i = default 0 (i_addrs ip !! i).
Proof. intros Hd Hi. by rewrite <- (d_addrs _ _ Hd), lookup_di_addrs. Qed.

Lemma is_byte_splice o l d : Forall is_byte l -> Forall is_byte d -> Forall is_byte (splice o l d).
Proof. intros Hl Hd. unfold splice. rewrite !Forall_app. split_and!; [by apply Forall_take|done|by apply Forall_drop]. Qed.

Lemma is_byte_wr n o v d : Forall is_byte d -> Forall is_byte (wr n o v d).
Proof. apply is_byte_splice, le_bytes_byte. Qed.

Lemma din_put_addr din ip i b : din_is din ip -> (i < 13)%nat -> 0 <= b < 2 ^ 32 -> din_is (put_addr i b din) (set_loc i b ip).
Proof.
  intros [Hl Hb Ht Hma Hmi Hn Hs Ha] Hi Hr. unfold put_addr.
  split; unfold di_type, di_major, di_minor, di_nlink, di_size in *; rewrite ?rd_wr_ne by lia; try done.
  - by rewrite length_wr by lia.
  - by apply is_byte_wr.
  - cbn [set_loc i_addrs set_i_addrs]. rewrite <- Ha. apply list_eq. intros j. destruct (decide (j < 13)%nat) as [Hj|Hj].
    + rewrite lookup_di_addrs by done. destruct (decide (j = i)) as [->|Hne].
      * rewrite list_lookup_insert_eq by (by rewrite length_di_addrs). f_equal. apply rd_wr_eq; [lia|done].
      * rewrite list_lookup_insert_ne, lookup_di_addrs by done. f_equal. apply rd_wr_ne; lia.
    + rewrite !lookup_ge_None_2; [done|rewrite length_insert|]; rewrite length_di_addrs; lia.
Qed.

Lemma din_put_size din ip z : din_is din ip -> 0 <= z < 2 ^ 32 -> din_is (wr 4 8 z din) (set_i_size z ip).
Proof.
  intros [Hl Hb Ht Hma Hmi Hn Hs Ha] Hr.
  split; unfold di_type, di_major, di_minor, di_nlink, di_size in *; rewrite ?rd_wr_ne by lia; try done.
  - by rewrite length_wr by lia.
  - by apply is_byte_wr.
  - apply rd_wr_eq; [lia|done].
  - change (i_addrs (set_i_size z ip)) with (i_addrs ip). rewrite <- Ha. apply list_eq. intros j. destruct (decide (j < 13)%nat) as [Hj|Hj].
    + rewrite !lookup_di_addrs by done. f_equal. apply rd_wr_ne; lia.
    + by rewrite !lookup_ge_None_2 by (rewrite length_di_addrs; lia).
Qed.

Lemma sub_sub {A} o n o' n' (d : list A) : (o' + n' <= n)%nat -> sub o' n' (sub o n d) = sub (o + o') n' d.
Proof. intros Hle. unfold sub. rewrite skipn_firstn_comm, take_take, drop_drop. f_equal. lia. Qed.

Lemma rd_sub n o m o' d : (o' + n <= m)%nat -> rd n o' (sub o m d) = rd n (o + o') d.
Proof. intros Hle. unfold rd. by rewrite sub_sub. Qed.

(** The inode at offset [o] of a block. *)
Lemma get_dinode_sub o d ip : get_dinode o d ip = get_dinode 0 (sub o 64 d) ip.
Proof.
  assert (di_addrs o d = di_addrs 0 (sub o 64 d)) as Ha.
  { apply list_fmap_ext. intros i j Hj. apply lookup_seq in Hj as [-> ?]. rewrite rd_sub by lia. f_equal; lia. }
  unfold get_dinode. rewrite Ha. unfold di_type, di_major, di_minor, di_nlink, di_size. rewrite !rd_sub by lia. by rewrite Nat.add_0_r.
Qed.

Lemma get_dinode_is din ip ip0 : din_is din ip -> i_dev ip0 = i_dev ip -> i_inum ip0 = i_inum ip -> i_ref ip0 = i_ref ip ->
  i_lock ip0 = i_lock ip -> i_valid ip0 = i_valid ip -> get_dinode 0 din ip0 = ip.
Proof.
  intros [_ _ Ht Hma Hmi Hn Hs Ha] H1 H2 H3 H4 H5. unfold get_dinode. rewrite Ht, Hma, Hmi, Hn, Hs, Ha. destruct ip, ip0. cbn in *. by subst.
Qed.

(** ** The blocks of a file *)

(** The file has the blocks of its first [off] bytes and no others. *)
Definition exact (V : Z * Z -> list Z) (ip : inode) (off : Z) : Prop :=
  (forall bn, 0 <= bn < 140 -> loc V ip (posn bn) <> 0 <-> bn * 512 < off) /\ (ind ip <> 0 <-> 6144 < off).

(** The number of blocks of a file of [n] bytes, the indirect block included. *)
Definition nb (n : Z) : Z := (n + 511) / 512 + (if 6144 <? n then 1 else 0).

Lemma exact_dense V ip off : exact V ip off -> off <= 71680 -> dense V ip off.
Proof. intros [He _] Hmax bn Hb Hlt. apply He; lia. Qed.

(** What [iappend_block] allocates for the byte at [off]. *)
Definition fresh_blocks (off : Z) : Z := if off mod 512 =? 0 then (if off =? 6144 then 2 else 1) else 0.

Lemma nb_step off n : 0 <= off -> 0 < n -> off mod 512 + n <= 512 -> nb (off + n) = nb off + fresh_blocks off.
Proof.
  intros Ho Hn Hle. unfold nb, fresh_blocks. pose proof (Z.div_mod off 512 ltac:(lia)) as Hd. pose proof (Z.mod_pos_bound off 512 ltac:(lia)) as Hm.
  assert ((off + n + 511) / 512 = off / 512 + 1) as ->.
  { symmetry. apply (Z.div_unique_pos _ 512 _ (off mod 512 + n - 1)); lia. }
  destruct (Z.eqb_spec (off mod 512) 0) as [E|E].
  - assert ((off + 511) / 512 = off / 512) as ->.
    { symmetry. apply (Z.div_unique_pos _ 512 _ 511); lia. }
    destruct (Z.eqb_spec off 6144), (Z.ltb_spec 6144 (off + n)), (Z.ltb_spec 6144 off); lia.
  - assert ((off + 511) / 512 = off / 512 + 1) as ->.
    { symmetry. apply (Z.div_unique_pos _ 512 _ (off mod 512 - 1)); lia. }
    destruct (Z.ltb_spec 6144 (off + n)), (Z.ltb_spec 6144 off); lia.
Qed.

(** The inode, the image and the view after a block for the byte at [off] has been found. *)
Record extended (m : image) (V : Z * Z -> list Z) (ip : inode) (off a : Z) (din' : list Z) (m' : image) (V' : Z * Z -> list Z) (ip' : inode) : Prop := {
  ex_image : imaged m' V';
  ex_din : din_is din' ip';
  ex_file : file_ok V' ip';
  ex_grown : grown V ip V' ip';
  ex_data : same_data 1 V ip V';
  ex_loc : loc V' ip' (posn (off / 512)) = a;
  ex_nonzero : a <> 0;
  ex_free : m_freeblock m' = m_freeblock m + fresh_blocks off;
  ex_inodes : m_freeinode m' = m_freeinode m;
  ex_exact bn : 0 <= bn < 140 -> loc V' ip' (posn bn) <> 0 <-> bn * 512 < off \/ bn = off / 512;
  ex_ind : ind ip' <> 0 <-> 6144 < off \/ 12 <= off / 512
}.

(** One more block, at position [p] of the table. *)
Record placed (m : image) (V : Z * Z -> list Z) (ip : inode) (p : nat) (b : Z) (m' : image) (V' : Z * Z -> list Z) (ip' : inode) : Prop := {
  pc_image : imaged m' V';
  pc_free : m_freeblock m' = b + 1;
  pc_inodes : m_freeinode m' = m_freeinode m;
  pc_file : file_ok V' ip';
  pc_grown : grown V ip V' ip';
  pc_data : same_data 1 V ip V';
  pc_loc : loc V' ip' p = b;
  pc_others q : (q < 141)%nat -> q <> p -> loc V' ip' q = loc V ip q
}.

Lemma free_unused m V b : imaged m V -> b = m_freeblock m -> b < 1000 ->
  (datastart mkfs_sb <= b < sb_size mkfs_sb) /\ bit V b = false /\ BBLOCK b mkfs_sb = 58 /\ b <> 0.
Proof.
  intros Him -> Hlt. pose proof (im_range _ _ Him). split; [change (59 <= m_freeblock m < 1000); lia|].
  split_and!; [|apply bblock_58; lia|lia].
  rewrite (im_bits _ _ Him) by lia. apply Z.ltb_ge. lia.
Qed.

Lemma placed_direct m V ip p : imaged m V -> file_ok V ip -> m_freeblock m < 1000 -> (p < 13)%nat -> loc V ip p = 0 ->
  let b := m_freeblock m in placed m V ip p b (snd (Mkfs.next_block m)) (alloc_view V b) (set_loc p b ip).
Proof.
  intros Him Hf Hlt Hp Hz b. destruct (free_unused m V b Him eq_refl Hlt) as (Hd & Hb & HB & _).
  pose proof (imaged_alloc m V Him Hlt) as Hal. unfold Mkfs.next_block in *. destruct Hal as (_ & Hf1 & Him1).
  destruct (place_direct (DD := dd) 1 2 30 demo_geometry mkfs_sb mkfs_layout p b V ip Hf) as (Hl & Ho & Hf' & Hg & Hs); [rewrite HB; apply (im_ok _ _ Him)|done..|].
  by split.
Qed.

Lemma ind_range V ip : file_ok V ip -> ind ip <> 0 -> 59 <= ind ip < 1000 /\ bit V (ind ip) = true.
Proof. intros Hf Hi. destruct (f_used _ _ _ _ Hf 12%nat) as [Hr Hb]; [lia|done|]. done. Qed.

Lemma placed_indirect m V ip bn : imaged m V -> file_ok V ip -> m_freeblock m < 1000 -> 12 <= bn < 140 -> loc V ip (posn bn) = 0 -> ind ip <> 0 ->
  let b := m_freeblock m in let d := wr 4 (Z.to_nat (4 * (bn - 12))) b (V (1, ind ip)) in
  placed m V ip (posn bn) b (wsect (ind ip) d (snd (Mkfs.next_block m))) (<[(1, ind ip) := d]> (alloc_view V b)) ip.
Proof.
  intros Him Hf Hlt Hbn Hz Hi b d. destruct (free_unused m V b Him eq_refl Hlt) as (Hd & Hb & HB & _).
  destruct (ind_range V ip Hf Hi) as [Hir Hib]. rewrite (im_bits _ _ Him) in Hib by lia. apply Z.ltb_lt in Hib.
  pose proof (imaged_alloc m V Him Hlt) as Hal. unfold Mkfs.next_block in *. destruct Hal as (_ & Hf1 & Him1). cbn [m_freeblock] in *.
  destruct (posn_lt bn ltac:(lia)) as [Hp H12].
  assert (13 <= posn bn /\ Z.to_nat (4 * (bn - 12)) = 4 * (posn bn - 13))%nat as [Hp13 Hj].
  { unfold posn. destruct (Z.ltb_spec bn 12); lia. }
  destruct (place_indirect (DD := dd) 1 2 30 demo_geometry mkfs_sb mkfs_layout (posn bn) b V ip Hf) as (Hl & Ho & Hf' & Hg & Hs);
    [rewrite HB; apply (im_ok _ _ Him)|apply (im_ok _ _ Him)|done|done|lia|done|done|]. rewrite <- Hj in *. fold d in Hl, Ho, Hf', Hg, Hs.
  split; try done. apply imaged_wsect; [done|cbn; lia|lia|]. apply block_ok_wr; [apply (im_ok _ _ Him)|lia].
Qed.

Lemma indirect_spec m V din ip bn : imaged m V -> file_ok V ip -> din_is din ip -> 12 <= bn < 140 -> ind ip <> 0 ->
  (loc V ip (posn bn) <> 0 -> indirect_block bn din m = Some (loc V ip (posn bn), din, m)) /\
  (loc V ip (posn bn) = 0 -> m_freeblock m < 1000 -> exists m' V',
     indirect_block bn din m = Some (m_freeblock m, din, m') /\ placed m V ip (posn bn) (m_freeblock m) m' V' ip).
Proof.
  intros Him Hf Hdin Hbn Hi. unfold indirect_block. change (Z.to_nat NDIRECT) with 12%nat. change NDIRECT with 12.
  rewrite (din_addr_is din ip) by (done || lia). fold (ind ip). destruct (ind_range V ip Hf Hi) as [Hir _].
  rewrite (imaged_rsect m V) by done. cbn [mbind option_bind].
  assert (loc V ip (posn bn) = rd 4 (Z.to_nat (4 * (bn - 12))) (V (1, ind ip))) as Hloc.
  { unfold FsFile.loc, posn. rewrite (proj2 (Z.ltb_ge _ _)) by lia. rewrite (proj2 (Nat.ltb_ge _ _)) by lia.
    rewrite (proj2 (Z.eqb_neq _ _)) by done. f_equal. lia. }
  rewrite <- Hloc. split.
  - intros Hn. by rewrite (proj2 (Z.eqb_neq _ _)), Hloc by done.
  - intros Hz Hlt. rewrite Hz, Z.eqb_refl. pose proof (placed_indirect m V ip bn Him Hf Hlt Hbn Hz Hi) as Hpl. unfold Mkfs.next_block in *.
    eexists _, _. split; [|exact Hpl]. cbn [snd]. rewrite rd_wr_eq; [done| |].
    + rewrite (proj1 (im_ok _ _ Him (1, ind ip))). lia.
    + pose proof (im_range _ _ Him). change (256 ^ Z.of_nat 4) with (2 ^ 32). lia.
Qed.

Section step.
Context (m : image) (V : Z * Z -> list Z) (din : list Z) (ip : inode) (off : Z).
Context (Him : imaged m V) (Hf : file_ok V ip) (Hdin : din_is din ip) (Hex : exact V ip off) (Hoff : 0 <= off < 71680).

Lemma off_block : 0 <= off / 512 < 140 /\ off / 512 * 512 <= off < off / 512 * 512 + 512.
Proof. destruct (block_of off Hoff) as [Hb _]. pose proof (Z.div_mod off 512 ltac:(lia)). pose proof (Z.mod_pos_bound off 512 ltac:(lia)). lia. Qed.

(** The block is there already. *)
Lemma extended_same : off mod 512 <> 0 -> extended m V ip off (loc V ip (posn (off / 512))) din m V ip.
Proof.
  intros Hal. destruct off_block as [Hb Hr]. pose proof (Z.div_mod off 512 ltac:(lia)) as Hd. destruct Hex as [He Hi].
  split; try done.
  - apply grown_refl.
  - apply He; lia.
  - unfold fresh_blocks. rewrite (proj2 (Z.eqb_neq _ _)) by done. lia.
  - intros bn Hbn. rewrite He by done. split; [by left|]. intros [| ->]; lia.
  - rewrite Hi. split; [by left|]. intros [|]; [done|]. lia.
Qed.

Lemma aligned_zero : off mod 512 = 0 -> loc V ip (posn (off / 512)) = 0.
Proof.
  intros Hal. destruct off_block as [Hb Hr]. pose proof (Z.div_mod off 512 ltac:(lia)) as Hd. destruct Hex as [He _].
  destruct (decide (loc V ip (posn (off / 512)) = 0)) as [|Hn]; [done|]. apply He in Hn; lia.
Qed.

Lemma placed_extended m' V' ip' din' : placed m V ip (posn (off / 512)) (m_freeblock m) m' V' ip' -> din_is din' ip' ->
  off mod 512 = 0 -> off <> 6144 -> m_freeblock m < 1000 -> extended m V ip off (m_freeblock m) din' m' V' ip'.
Proof.
  intros [P1 P2 P3 P4 P5 P6 P7 P8] Hd' Hal Hne Hlt. destruct off_block as [Hb Hr]. pose proof (Z.div_mod off 512 ltac:(lia)) as Hd.
  destruct Hex as [He Hi]. pose proof (im_range _ _ Him). destruct (posn_lt (off / 512) Hb) as [Hp H12]. split; try done.
  - lia.
  - unfold fresh_blocks. rewrite (proj2 (Z.eqb_eq _ _)), (proj2 (Z.eqb_neq _ _)) by done. lia.
  - intros bn Hbn. destruct (decide (bn = off / 512)) as [->|Hbne]; [split; [by right|intros _; lia]|].
    destruct (posn_lt bn Hbn) as [Hq _]. rewrite P8; [|done|intros Heq; apply Hbne; apply posn_inj; lia || done].
    rewrite He by done. split; [by left|]. by intros [|].
  - rewrite <- (loc_12 1 V' ip'), P8, loc_12, Hi by (done || lia). split; [by left|]. intros [|]; [done|]. lia.
Qed.

Lemma direct_spec : off / 512 < 12 -> m_freeblock m + fresh_blocks off <= 1000 ->
  exists a din' m' V' ip', iappend_block (off / 512) din m = Some (a, din', m') /\ extended m V ip off a din' m' V' ip'.
Proof.
  intros Hdir Hroom. destruct off_block as [Hb Hr]. unfold iappend_block, direct_block. change NDIRECT with 12. rewrite (proj2 (Z.ltb_lt _ _)) by done.
  assert (posn (off / 512) = Z.to_nat (off / 512)) as Hpo by (unfold posn; by rewrite (proj2 (Z.ltb_lt _ _))).
  assert (forall ip, loc V ip (posn (off / 512)) = default 0 (i_addrs ip !! Z.to_nat (off / 512))) as Hloc.
  { intros ip1. rewrite Hpo. unfold FsFile.loc. by rewrite (proj2 (Nat.ltb_lt _ _)) by lia. }
  assert (Z.to_nat (off / 512) < 13)%nat as Hi by lia.
  rewrite (din_addr_is din ip) by done. rewrite <- Hloc. destruct (decide (off mod 512 = 0)) as [Hal|Hal].
  - rewrite (aligned_zero Hal), Z.eqb_refl. unfold fresh_blocks in Hroom. rewrite (proj2 (Z.eqb_eq _ _)) in Hroom by done.
    assert (off <> 6144) as Hne by (pose proof (Z.div_mod off 512 ltac:(lia)); lia).
    rewrite (proj2 (Z.eqb_neq _ _)) in Hroom by done. pose proof (im_range _ _ Him).
    pose proof (placed_direct m V ip (posn (off / 512)) Him Hf ltac:(lia) ltac:(lia) (aligned_zero Hal)) as Hpl. rewrite Hpo in Hpl.
    assert (din_is (put_addr (Z.to_nat (off / 512)) (m_freeblock m) din) (set_loc (Z.to_nat (off / 512)) (m_freeblock m) ip)) as Hd' by (apply din_put_addr; done || lia).
    unfold Mkfs.next_block in *. eexists _, _, _, _, _. split; [done|]. rewrite (din_addr_is _ _ _ Hd') by done.
    cbn [set_loc i_addrs set_i_addrs]. rewrite list_lookup_insert_eq by (rewrite (f_len _ _ _ _ Hf); done). cbn [default from_option id].
    apply placed_extended; [by rewrite Hpo|done|done|done|lia].
  - rewrite (proj2 (Z.eqb_neq _ _)) by (by apply (ex_nonzero _ _ _ _ _ _ _ _ _ (extended_same Hal))).
    eexists _, _, _, _, _. split; [done|]. rewrite (din_addr_is din ip), <- Hloc by done. by apply extended_same.
Qed.

Lemma far_spec : 12 <= off / 512 -> m_freeblock m + fresh_blocks off <= 1000 ->
  exists a din' m' V' ip', iappend_block (off / 512) din m = Some (a, din', m') /\ extended m V ip off a din' m' V' ip'.
Proof.
  intros Hfar Hroom. destruct off_block as [Hb Hr]. pose proof (Z.div_mod off 512 ltac:(lia)) as Hd. pose proof (im_range _ _ Him).
  unfold iappend_block, direct_block. change NDIRECT with 12. rewrite (proj2 (Z.ltb_ge _ _)) by done. change (Z.to_nat 12) with 12%nat.
  rewrite (din_addr_is din ip) by (done || lia). fold (ind ip). destruct (decide (off = 6144)) as [H6|H6].
  - assert (ind ip = 0) as Hi0. { destruct Hex as [_ Hi]. destruct (decide (ind ip = 0)); [done|]. apply Hi in n. lia. }
    rewrite Hi0, Z.eqb_refl. rewrite H6 in Hroom. change (fresh_blocks 6144) with 2 in Hroom.
    assert (off mod 512 = 0) as Hal by by rewrite H6.
    pose proof (placed_direct m V ip 12 Him Hf ltac:(lia) ltac:(lia) Hi0) as [P1 P2 P3 P4 P5 P6 P7 P8].
    assert (din_is (put_addr 12 (m_freeblock m) din) (set_loc 12 (m_freeblock m) ip)) as Hd' by (apply din_put_addr; done || lia).
    destruct (posn_lt (off / 512) Hb) as [Hp H12].
    destruct (indirect_spec _ _ _ _ (off / 512) P1 P4 Hd' ltac:(lia)) as [_ Hnew]; [rewrite <- (loc_12 1 (alloc_view V (m_freeblock m))), P7; lia|].
    unfold Mkfs.next_block in *. cbn [snd m_freeblock m_freeinode] in *.
    destruct Hnew as (m' & V' & Hblk & [Q1 Q2 Q3 Q4 Q5 Q6 Q7 Q8]); [rewrite P8 by done; by apply aligned_zero|lia|].
    exists (u32 (m_freeblock m + 1)), (put_addr 12 (m_freeblock m) din), m', V', (set_loc 12 (m_freeblock m) ip).
    split; [exact Hblk|]. destruct Hex as [He Hi]. split; try done.
    + by eapply (grown_trans (DD := dd) 1 2 30 demo_geometry mkfs_sb mkfs_layout).
    + by eapply same_data_trans.
    + lia.
    + rewrite H6. change (fresh_blocks 6144) with 2. lia.
    + intros bn Hbn. destruct (decide (bn = off / 512)) as [->|Hbne]; [rewrite Q7; split; [by right|intros _; lia]|].
      destruct (posn_lt bn Hbn) as [Hq Hq12]. rewrite Q8; [|done|intros Heq; apply Hbne; apply posn_inj; lia || done].
      rewrite P8, He by done. split; [by left|]. by intros [|].
    + rewrite <- (loc_12 1 V'), Q8 by (done || lia). rewrite P7. split; [by right|intros _; lia].
  - assert (ind ip <> 0) as Hi0. { destruct Hex as [_ Hi]. apply Hi. lia. }
    rewrite (proj2 (Z.eqb_neq (ind ip) 0)) by done.
    destruct (indirect_spec m V din ip (off / 512) Him Hf Hdin ltac:(lia) Hi0) as [Hold Hnew].
    destruct (decide (off mod 512 = 0)) as [Hal|Hal].
    + unfold fresh_blocks in Hroom. rewrite (proj2 (Z.eqb_eq _ _)), (proj2 (Z.eqb_neq off 6144)) in Hroom by done.
      destruct (Hnew (aligned_zero Hal) ltac:(lia)) as (m' & V' & -> & Hpl). eexists _, _, _, _, _. split; [done|].
      by apply placed_extended; [..|lia].
    + rewrite Hold by (by apply (ex_nonzero _ _ _ _ _ _ _ _ _ (extended_same Hal))).
      eexists _, _, _, _, _. split; [done|]. by apply extended_same.
Qed.

Lemma iappend_block_spec : m_freeblock m + fresh_blocks off <= 1000 ->
  exists a din' m' V' ip', iappend_block (off / 512) din m = Some (a, din', m') /\ extended m V ip off a din' m' V' ip'.
Proof. destruct (decide (off / 512 < 12)); [by apply direct_spec|apply far_spec; lia]. Qed.
End step.

(** ** Appending to a file *)

Lemma nb_mono a b : a <= b -> nb a <= nb b.
Proof.
  intros Hab. unfold nb. pose proof (Z.div_le_mono (a + 511) (b + 511) 512 ltac:(lia) ltac:(lia)).
  destruct (Z.ltb_spec 6144 a), (Z.ltb_spec 6144 b); lia.
Qed.

Record appended (m : image) (V : Z * Z -> list Z) (ip : inode) (off : Z) (p din' : list Z) (m' : image) (V' : Z * Z -> list Z) (ip' : inode) : Prop := {
  ap_image : imaged m' V';
  ap_din : din_is din' ip';
  ap_file : file_ok V' ip';
  ap_wrote : wrote V ip V' ip' off p;
  ap_exact : exact V' ip' (off + Z.of_nat (length p));
  ap_free : m_freeblock m' = m_freeblock m + nb (off + Z.of_nat (length p)) - nb off;
  ap_inodes : m_freeinode m' = m_freeinode m
}.

(** The piece of [p] that goes to one block. *)
Lemma append_one m V din ip off xs :
  imaged m V -> file_ok V ip -> din_is din ip -> exact V ip off -> 0 <= off -> xs <> [] -> Forall is_byte xs ->
  off mod 512 + Z.of_nat (length xs) <= 512 -> off + Z.of_nat (length xs) <= 71680 -> m_freeblock m + fresh_blocks off <= 1000 ->
  exists a din' m1 buf V' ip', iappend_block (off / 512) din m = Some (a, din', m1) /\ rsect a m1 = Some buf /\
    appended m V ip off xs din' (wsect a (splice (Z.to_nat (off mod 512)) xs buf) m1) V' ip'.
Proof.
  intros Him Hf Hdin Hex Hoff Hxs Hby Hle Hmax Hroom. assert (0 < length xs)%nat by (destruct xs; [done|cbn; lia]).
  pose proof (Z.mod_pos_bound off 512 ltac:(lia)) as Hmod. pose proof (Z.div_mod off 512 ltac:(lia)) as Hd.
  destruct (iappend_block_spec m V din ip off Him Hf Hdin Hex ltac:(lia) Hroom) as (a & din' & m1 & V1 & ip1 & Hblk & [E1 E2 E3 E4 E5 E6 E7 E8 E9 E10 E11]).
  destruct (block_of off ltac:(lia)) as (Hb & Hp & _). destruct (f_used _ _ _ _ E3 _ Hp ltac:(by rewrite E6)) as [Ha Hbit]. rewrite E6 in Ha, Hbit.
  change (59 <= a < 1000) in Ha. rewrite (im_bits _ _ E1) in Hbit by lia. apply Z.ltb_lt in Hbit. destruct (im_ok _ _ E1 (1, a)) as [Hl Hbb].
  destruct (wrote_block (DD := dd) 1 2 30 demo_geometry mkfs_sb mkfs_layout V ip V1 ip1 off xs Hf (exact_dense V ip off Hex ltac:(lia)) E3 E4 E5) as [Hf2 Hw];
    [by rewrite E6|by rewrite E6|done|done|done|done|]. rewrite E6 in Hf2, Hw.
  destruct (write_block (DD := dd) 1 2 30 demo_geometry mkfs_sb mkfs_layout V1 ip1 (off / 512) (splice (Z.to_nat (off mod 512)) xs (V1 (1, a))) E3 Hb ltac:(by rewrite E6))
    as (Hloc & _). rewrite E6 in Hloc.
  exists a, din', m1, (V1 (1, a)), (<[(1, a) := splice (Z.to_nat (off mod 512)) xs (V1 (1, a))]> V1), ip1.
  split; [done|]. split; [by apply imaged_rsect|]. split; try done.
  - apply imaged_wsect; [done|lia|lia|]. split; [rewrite length_splice; lia|by apply is_byte_splice].
  - split.
    + intros bn Hbn. destruct (posn_lt bn Hbn) as [Hq _]. rewrite Hloc, E10 by done. lia.
    + rewrite E11. lia.
  - cbn [m_freeblock wsect]. rewrite E8, nb_step by lia. lia.
Qed.

Lemma appended_app m V ip off xs din1 m1 V1 ip1 ys din2 m2 V2 ip2 : file_ok V ip -> 0 <= off -> off + Z.of_nat (length (xs ++ ys)) <= 71680 ->
  appended m V ip off xs din1 m1 V1 ip1 -> appended m1 V1 ip1 (off + Z.of_nat (length xs)) ys din2 m2 V2 ip2 ->
  appended m V ip off (xs ++ ys) din2 m2 V2 ip2.
Proof.
  intros Hf Ho Hmax [A1 A2 A3 A4 A5 A6 A7] [B1 B2 B3 B4 B5 B6 B7]. split; try done.
  - by eapply (wrote_app (DD := dd) 1 2 30 demo_geometry mkfs_sb mkfs_layout).
  - rewrite length_app, Nat2Z.inj_add, Z.add_assoc. done.
  - rewrite B6, A6, length_app, Nat2Z.inj_add, Z.add_assoc. lia.
  - congruence.
Qed.

Lemma iappend_loop_spec : forall fuel p m V din ip off,
  imaged m V -> file_ok V ip -> din_is din ip -> exact V ip off -> 0 <= off -> Forall is_byte p -> off + Z.of_nat (length p) <= 71680 ->
  m_freeblock m + nb (off + Z.of_nat (length p)) - nb off <= 1000 -> (length p < fuel)%nat ->
  exists din' m' V' ip', iappend_loop fuel din off p m = Some (din', off + Z.of_nat (length p), m') /\ appended m V ip off p din' m' V' ip'.
Proof.
  induction fuel as [|fuel IH]; intros p m V din ip off Him Hf Hdin Hex Hoff Hby Hmax Hroom Hfuel; [lia|].
  destruct p as [|x p']; [|set (p := x :: p') in *].
  { exists din, m, V, ip. cbn [iappend_loop length]. rewrite Z.add_0_r. split; [done|]. split; try done.
    - apply wrote_nil. by apply (exact_dense V ip off); [|cbn in Hmax; lia].
    - by rewrite Z.add_0_r.
    - cbn [length]. rewrite Z.add_0_r. lia. }
  assert (0 < length p)%nat by (cbn; lia). cbn [iappend_loop]. change BSIZE with 512. change MAXFILE with 140.
  pose proof (Z.mod_pos_bound off 512 ltac:(lia)) as Hmod. pose proof (Z.div_mod off 512 ltac:(lia)) as Hd.
  rewrite (proj2 (Z.ltb_lt _ _)) by lia. cbn [negb]. fold p. set (n := Z.min _ _).
  assert (0 < n <= Z.of_nat (length p) /\ off mod 512 + n <= 512) as [Hn Hn'] by lia.
  assert (length (take (Z.to_nat n) p) = Z.to_nat n) as Hlen by (rewrite length_take; lia).
  assert (length (drop (Z.to_nat n) p) = length p - Z.to_nat n)%nat as Hlen' by (by rewrite length_drop).
  pose proof (nb_mono (off + n) (off + Z.of_nat (length p)) ltac:(lia)) as Hmono. pose proof (nb_step off n Hoff ltac:(lia) Hn') as Hstep.
  destruct (append_one m V din ip off (take (Z.to_nat n) p)) as (a & din1 & m1 & buf & V1 & ip1 & -> & Hbuf & Hap); try done.
  { intros Hnil. rewrite Hnil in Hlen. cbn in Hlen. lia. } { by apply Forall_take. } { lia. } { lia. } { lia. }
  cbn [mbind option_bind]. rewrite Hbuf. cbn [mbind option_bind]. replace (off - off / 512 * 512) with (off mod 512) by lia.
  pose proof Hap as [A1 A2 A3 A4 A5 A6 A7]. rewrite Hlen in A5, A6. rewrite Z2Nat.id in A5, A6 by lia.
  destruct (IH (drop (Z.to_nat n) p) _ V1 din1 ip1 (off + n) A1 A3 A2 A5) as (din2 & m2 & V2 & ip2 & -> & Hap2); [lia|by apply Forall_drop|lia| |lia|].
  { rewrite Hlen'. replace (off + n + Z.of_nat (length p - Z.to_nat n)) with (off + Z.of_nat (length p)) by lia. lia. }
  exists din2, m2, V2, ip2. split; [by replace (off + n + Z.of_nat (length (drop (Z.to_nat n) p))) with (off + Z.of_nat (length p)) by lia|]. rewrite <- (take_drop (Z.to_nat n) p).
  eapply appended_app; [done|done|by rewrite take_drop|done|]. by rewrite Hlen, Z2Nat.id by lia.
Qed.
