(* ===== verification/MkfsImage.v ===== *)
(** * MkfsImage: the files of the image *)

From stdpp Require Import functions base gmap list strings.
From Stdlib Require Import ZArith Lia.
From S2P Require Import Prelude State Bio Memide Cache Log LogSpec Fs FsLayout FsTx FsAlloc FsFile FsIo FsSpec User Mkfs MkfsSpec.

Local Open Scope Z_scope.

(** The inode [i] as [ilock] reads it into the first entry of the inode cache. *)
Definition ino (V : Z * Z -> list Z) (i : Z) : inode :=
  get_dinode (dinode_at i) (V (1, IBLOCK i mkfs_sb)) (mkInode 1 i 1 (mkSleeplock false 0) true 0 0 0 0 0 []).

Record good_file (V : Z * Z -> list Z) (ip : inode) : Prop := {
  gf_file : file_ok V ip;
  gf_exact : exact V ip (i_size ip);
  gf_size : 0 <= i_size ip <= 71680
}.

(** The first [n - 1] inodes are files with blocks of their own. *)
Record volume (m : image) (V : Z * Z -> list Z) (n : Z) : Prop := {
  vo_image : imaged m V;
  vo_next : m_freeinode m = n;
  vo_range : 1 <= n <= 200;
  vo_file i : 1 <= i < n -> good_file V (ino V i);
  vo_apart i j p q : 1 <= i < n -> 1 <= j < n -> i <> j -> (p < 141)%nat -> (q < 141)%nat ->
    loc V (ino V i) p <> 0 -> loc V (ino V i) p <> loc V (ino V j) q
}.

(** ** Blocks of other files *)

(** A file whose blocks are as they were. *)
Lemma frame_file V V' ip : file_ok V ip -> (forall p, (p < 141)%nat -> loc V ip p <> 0 -> V' (1, loc V ip p) = V (1, loc V ip p)) ->
  (forall b, 0 <= b < 1000 -> bit V b = true -> bit V' b = true) ->
  (forall p, (p < 141)%nat -> loc V' ip p = loc V ip p) /\ file_ok V' ip /\
  (forall z, 0 <= z < 71680 -> loc V ip (posn (z / 512)) <> 0 -> fbyte V' ip z = fbyte V ip z).
Proof.
  intros [Hd Hl Hu Hi] HV Hbits. assert (forall p, (p < 141)%nat -> loc V' ip p = loc V ip p) as Hloc.
  { intros p Hp. unfold FsFile.loc. destruct (p <? 13)%nat; [done|]. destruct (Z.eqb_spec (ind ip) 0) as [|Hn]; [done|].
    by rewrite <- (loc_12 1 V ip), (HV 12%nat) by (done || lia). }
  split; [done|]. split.
  - split; [done|done| |].
    + intros p Hp. rewrite Hloc by done. intros Hn. destruct (Hu p Hp Hn) as [Hr Hb]. split; [done|]. apply Hbits; [|done].
      change (59 <= loc V ip p < 1000) in Hr. lia.
    + intros p q Hp Hq. rewrite !Hloc by done. by apply Hi.
  - intros z Hz Hn. destruct (block_of z Hz) as (_ & Hp & _). unfold FsIo.fbyte. rewrite Hloc, HV by done. done.
Qed.

Lemma good_frame V V' ip : good_file V ip -> (forall p, (p < 141)%nat -> loc V ip p <> 0 -> V' (1, loc V ip p) = V (1, loc V ip p)) ->
  (forall b, 0 <= b < 1000 -> bit V b = true -> bit V' b = true) ->
  (forall p, (p < 141)%nat -> loc V' ip p = loc V ip p) /\ good_file V' ip /\ contents V' ip = contents V ip.
Proof.
  intros [Hf [He Hi] Hs] HV Hbits. destruct (frame_file V V' ip Hf HV Hbits) as (Hloc & Hf' & Hby). split; [done|]. split.
  - split; [done| |done]. split; [|done]. intros bn Hbn. destruct (posn_lt bn Hbn) as [Hp _]. rewrite Hloc by done. by apply He.
  - unfold FsIo.contents, bytes. apply list_fmap_ext. intros j k Hk. apply lookup_seq in Hk as [-> Hk]. rewrite Z.add_0_l.
    pose proof (Z.div_mod (Z.of_nat (0 + j)) 512 ltac:(lia)). pose proof (Z.mod_pos_bound (Z.of_nat (0 + j)) 512 ltac:(lia)).
    apply Hby; [lia|]. apply He; lia.
Qed.

Lemma iblock_eq i : 0 <= i < 200 -> IBLOCK i mkfs_sb = i / 8 + 32 /\ 32 <= IBLOCK i mkfs_sb < 57.
Proof.
  intros Hi. unfold IBLOCK. change IPB with 8. change (sb_inodestart mkfs_sb) with 32. pose proof (Z.div_mod i 8 ltac:(lia)).
  pose proof (Z.mod_pos_bound i 8 ltac:(lia)). rewrite u32_small by lia. lia.
Qed.

Lemma dinode_apart i j : 0 <= i < 200 -> 0 <= j < 200 -> i <> j -> IBLOCK i mkfs_sb = IBLOCK j mkfs_sb ->
  (dinode_at i + 64 <= dinode_at j \/ dinode_at j + 64 <= dinode_at i)%nat.
Proof.
  intros Hi Hj Hne Heq. destruct (iblock_eq i Hi) as [Ei _], (iblock_eq j Hj) as [Ej _]. unfold dinode_at. change IPB with 8.
  pose proof (Z.div_mod i 8 ltac:(lia)). pose proof (Z.div_mod j 8 ltac:(lia)). pose proof (Z.mod_pos_bound i 8 ltac:(lia)).
  pose proof (Z.mod_pos_bound j 8 ltac:(lia)). lia.
Qed.

Lemma ino_din V i : (forall k, block_ok (V k)) -> din_is (sub (dinode_at i) 64 (V (1, IBLOCK i mkfs_sb))) (ino V i).
Proof.
  intros Hok. destruct (Hok (1, IBLOCK i mkfs_sb)) as [Hl Hb]. pose proof (dinode_at_le i). unfold ino. rewrite get_dinode_sub. split; try done.
  - unfold sub. rewrite length_take, length_drop. lia.
  - unfold sub. by apply Forall_take, Forall_drop.
Qed.

(** [winode] of inode [i]. *)
Definition put_ino (V : Z * Z -> list Z) (i : Z) (din : list Z) : Z * Z -> list Z :=
  <[(1, IBLOCK i mkfs_sb) := splice (dinode_at i) din (V (1, IBLOCK i mkfs_sb))]> V.

Lemma winode_spec m V i din : imaged m V -> 0 <= i < 200 -> length din = 64%nat -> Forall is_byte din ->
  exists m', winode i din m = Some m' /\ imaged m' (put_ino V i din) /\ m_freeblock m' = m_freeblock m /\ m_freeinode m' = m_freeinode m.
Proof.
  intros Him Hi Hl Hb. destruct (iblock_eq i Hi) as [_ Hr]. unfold winode, rsect. rewrite (im_blocks _ _ Him) by lia. cbn [mbind option_bind].
  eexists. split; [done|]. split; [|done]. pose proof (im_range _ _ Him). destruct (im_ok _ _ Him (1, IBLOCK i mkfs_sb)) as [Hl' Hb'].
  apply imaged_wsect; [done|lia|lia|]. pose proof (dinode_at_le i). split; [rewrite length_splice; lia|by apply is_byte_splice].
Qed.

Lemma ino_put V i din ip : (forall k, block_ok (V k)) -> din_is din ip ->
  i_dev ip = 1 -> i_inum ip = i -> i_ref ip = 1 -> i_lock ip = mkSleeplock false 0 -> i_valid ip = true -> ino (put_ino V i din) i = ip.
Proof.
  intros Hok Hd H1 H2 H3 H4 H5. unfold ino, put_ino. rewrite fn_lookup_insert, get_dinode_sub. pose proof (dinode_at_le i).
  rewrite <- (d_len _ _ Hd), sub_splice_eq; [|rewrite (proj1 (Hok _)), (d_len _ _ Hd); lia]. by apply get_dinode_is.
Qed.

Lemma ino_put_ne V i j din : (forall k, block_ok (V k)) -> length din = 64%nat -> 0 <= i < 200 -> 0 <= j < 200 -> i <> j ->
  ino (put_ino V i din) j = ino V j.
Proof.
  intros Hok Hl Hi Hj Hne. unfold ino, put_ino. destruct (decide (IBLOCK j mkfs_sb = IBLOCK i mkfs_sb)) as [Heq|Hb].
  - rewrite Heq, fn_lookup_insert, get_dinode_sub, (get_dinode_sub (dinode_at j) (V _)). pose proof (dinode_at_le i).
    rewrite sub_splice_ne; [done|rewrite (proj1 (Hok _)), Hl; lia|]. destruct (dinode_apart i j Hi Hj Hne (eq_sym Heq)); lia.
  - by rewrite fn_lookup_insert_ne by congruence.
Qed.

(** ** [iappend] *)

Definition same_inode (V V' : Z * Z -> list Z) (j : Z) : Prop := ino V' j = ino V j /\ contents V' (ino V' j) = contents V (ino V j).

(** The boot block, the super block and the log are as they were. *)
Definition same_front (V V' : Z * Z -> list Z) : Prop := forall b, 0 <= b < 32 -> V' (1, b) = V (1, b).

Lemma volume_other m V n i j p : volume m V n -> 1 <= i < n -> 1 <= j < n -> i <> j -> (p < 141)%nat -> loc V (ino V j) p <> 0 ->
  other V (ino V i) (1, loc V (ino V j) p).
Proof.
  intros [Him _ Hn Hfile Hap] Hi Hj Hne Hp Hnz. right; right. destruct (f_used _ _ _ _ (gf_file _ _ (Hfile j Hj)) p Hp Hnz) as [Hr Hb].
  split; [done|]. split; [done|]. intros q Hq Heq. by apply (Hap j i p q Hj Hi ltac:(done) Hp Hq Hnz).
Qed.

Lemma front_other V ip b : b < 58 -> other V ip (1, b).
Proof. intros Hb. right; left. done. Qed.

Lemma put_ino_ne V i din b : b < 32 \/ 57 <= b -> 0 <= i < 200 -> put_ino V i din (1, b) = V (1, b).
Proof. intros Hb Hi. unfold put_ino. destruct (iblock_eq i Hi). rewrite fn_lookup_insert_ne; [done|]. intros [=]. lia. Qed.

(** The file [i] after bytes have been added to it and its inode has been written. *)
Lemma appended_file V ip V1 ip1 p i din : file_ok V ip -> exact V ip (i_size ip) -> 0 <= i_size ip -> i_size ip + Z.of_nat (length p) <= 71680 ->
  file_ok V1 ip1 -> wrote V ip V1 ip1 (i_size ip) p -> exact V1 ip1 (i_size ip + Z.of_nat (length p)) -> 0 <= i < 200 ->
  let ip2 := set_i_size (i_size ip + Z.of_nat (length p)) ip1 in let V2 := put_ino V1 i din in
  (forall q, (q < 141)%nat -> loc V2 ip2 q = loc V1 ip1 q) /\ good_file V2 ip2 /\ contents V2 ip2 = contents V ip ++ p.
Proof.
  intros Hf He Hs0 Hmax Hf1 Hw He1 Hi ip2 V2. pose proof Hw as [_ Hin Hout Hde].
  assert (good_file V1 ip2) as Hg by (split; [by apply file_ok_size|done|cbn; lia]).
  assert (forall b, 0 <= b < 1000 -> bit V1 b = true -> bit V2 b = true) as Hbits.
  { intros b Hb. unfold FsAlloc.bit, V2. rewrite bblock_58 by done. by rewrite put_ino_ne by lia. }
  destruct (good_frame V1 V2 ip2 Hg) as (Hloc & Hg' & Hc); [|done|].
  { intros q Hq Hn. destruct (f_used _ _ _ _ Hf1 q Hq Hn) as [Hr _]. change (59 <= loc V1 ip1 q < 1000) in Hr. apply put_ino_ne; [|done].
    change (loc V1 ip2 q) with (loc V1 ip1 q). lia. }
  split; [done|]. split; [done|]. rewrite Hc.
  assert (contents V1 ip2 = splice (Z.to_nat (i_size ip)) p (contents V ip)) as ->.
  { apply (contents_wrote 1 V ip V1 ip2 (i_size ip) p); try done; try lia.
    - apply exact_dense; [done|lia].
    - cbn. lia. }
  unfold splice. rewrite take_ge, drop_ge by (rewrite length_file_bytes; lia). by rewrite app_nil_r.
Qed.

(** Another file when the file [i] has grown to [V1], [ip1] and its inode has been written. *)
Section kept.
Context (m : image) (V : Z * Z -> list Z) (n i : Z) (Hv : volume m V n) (Hi : 1 <= i < n).
Context (m1 : image) (V1 : Z * Z -> list Z) (ip1 : inode) (din : list Z).
Context (Hg : grown V (ino V i) V1 ip1) (Him1 : imaged m1 V1) (Hfree : m_freeblock m <= m_freeblock m1) (Hlen : length din = 64%nat).
Let V2 : Z * Z -> list Z := put_ino V1 i din.

Lemma kept_inode j : 1 <= j < n -> j <> i -> ino V2 j = ino V j.
Proof.
  intros Hj Hne. pose proof (vo_range _ _ _ Hv). unfold V2. rewrite ino_put_ne by (done || apply (im_ok _ _ Him1) || lia).
  unfold ino. destruct (iblock_eq j ltac:(lia)). by rewrite (g_other _ _ _ _ _ _ Hg) by (apply front_other; lia).
Qed.

Lemma kept_file j : 1 <= j < n -> j <> i ->
  (forall p, (p < 141)%nat -> loc V2 (ino V j) p = loc V (ino V j) p) /\ good_file V2 (ino V j) /\ contents V2 (ino V j) = contents V (ino V j).
Proof.
  intros Hj Hne. pose proof (vo_range _ _ _ Hv). apply good_frame; [by apply (vo_file _ _ _ Hv)| |].
  - intros p Hp Hn. destruct (f_used _ _ _ _ (gf_file _ _ (vo_file _ _ _ Hv j Hj)) p Hp Hn) as [Hr _]. change (59 <= loc V (ino V j) p < 1000) in Hr.
    unfold V2. rewrite put_ino_ne by lia. by apply (g_other _ _ _ _ _ _ Hg), (volume_other m V n).
  - intros b Hb. rewrite (im_bits _ _ (vo_image _ _ _ Hv)) by done. intros Hlt%Z.ltb_lt. unfold FsAlloc.bit, V2. rewrite bblock_58 by done.
    rewrite put_ino_ne by lia. pose proof (im_bits _ _ Him1 b Hb) as Hbit. unfold FsAlloc.bit in Hbit. rewrite bblock_58 in Hbit by done.
    rewrite Hbit. apply Z.ltb_lt. lia.
Qed.

Lemma kept_apart j p q : 1 <= j < n -> j <> i -> (p < 141)%nat -> (q < 141)%nat -> loc V1 ip1 p <> 0 -> loc V1 ip1 p <> loc V (ino V j) q.
Proof.
  intros Hj Hne Hp Hq Hn Heq. destruct (decide (loc V (ino V i) p = 0)) as [Hz|Hnz].
  - destruct (g_fresh _ _ _ _ _ _ Hg p Hp Hz Hn) as [_ Hb]. rewrite Heq in Hb, Hn.
    destruct (f_used _ _ _ _ (gf_file _ _ (vo_file _ _ _ Hv j Hj)) q Hq Hn). congruence.
  - rewrite (g_loc _ _ _ _ _ _ Hg) in Heq by done. by apply (vo_apart _ _ _ Hv i j p q).
Qed.

Lemma volume_put m2 ip2 : imaged m2 V2 -> m_freeinode m2 = n -> ino V2 i = ip2 -> good_file V2 ip2 ->
  (forall q, (q < 141)%nat -> loc V2 ip2 q = loc V1 ip1 q) -> volume m2 V2 n.
Proof.
  intros Him2 Hnx Hino Hg2 Hloc. pose proof Hv as [_ _ Hn _ Hap]. split; try done.
  - intros j Hj. destruct (decide (j = i)) as [->|Hne]; [by rewrite Hino|]. rewrite kept_inode by done. by apply kept_file.
  - intros j k p q Hj Hk Hjk Hp Hq. destruct (decide (j = i)) as [->|Hji].
    + rewrite Hino, kept_inode by done. destruct (kept_file k Hk ltac:(done)) as (Hlk & _). rewrite Hloc, Hlk by done. by apply kept_apart.
    + destruct (kept_file j Hj Hji) as (Hlj & _). rewrite (kept_inode j), Hlj by done. destruct (decide (k = i)) as [->|Hki].
      * rewrite Hino, Hloc by done. intros Hn1 Heq. apply (kept_apart j q p Hj Hji Hq Hp); congruence.
      * destruct (kept_file k Hk Hki) as (Hlk & _). rewrite (kept_inode k), Hlk by done. by apply Hap.
Qed.
End kept.

Lemma iappend_spec m V n i p : volume m V n -> 1 <= i < n -> Forall is_byte p ->
  let ip := ino V i in let z := i_size ip + Z.of_nat (length p) in
  z <= 71680 -> m_freeblock m + nb z - nb (i_size ip) <= 1000 ->
  exists m' V', iappend i p m = Some m' /\ volume m' V' n /\ m_freeblock m' = m_freeblock m + nb z - nb (i_size ip) /\
    (i_size (ino V' i) = z /\ i_type (ino V' i) = i_type ip /\ contents V' (ino V' i) = contents V ip ++ p) /\
    (forall j, 1 <= j < n -> j <> i -> same_inode V V' j) /\ same_front V V'.
Proof.
  intros Hv Hi Hby ip z Hz Hroom. pose proof Hv as [Him Hnx Hn Hfile Hap]. destruct (Hfile i Hi) as [Hf He Hs]. fold ip in Hf, He, Hs.
  destruct (iblock_eq i ltac:(lia)) as [_ HIB]. unfold iappend, rinode, rsect. rewrite (im_blocks _ _ Him) by lia. cbn [mbind option_bind].
  pose proof (ino_din V i (im_ok _ _ Him)) as Hdin. fold ip in Hdin. rewrite (d_size _ _ Hdin : rd 4 8 _ = _).
  destruct (iappend_loop_spec (S (length p)) p m V _ ip (i_size ip) Him Hf Hdin He ltac:(lia) Hby Hz Hroom ltac:(lia))
    as (din1 & m1 & V1 & ip1 & -> & [A1 A2 A3 A4 A5 A6 A7]). cbn [mbind option_bind]. fold z in A5, A6 |- *.
  assert (din_is (wr 4 8 z din1) (set_i_size z ip1)) as Hdin2 by (apply din_put_size; [done|lia]).
  destruct (winode_spec m1 V1 i (wr 4 8 z din1) A1 ltac:(lia) (d_len _ _ Hdin2) (d_bytes _ _ Hdin2)) as (m2 & -> & B1 & B2 & B3).
  set (V2 := put_ino V1 i (wr 4 8 z din1)) in *.
  destruct (appended_file V ip V1 ip1 p i (wr 4 8 z din1) Hf He ltac:(lia) Hz A3 A4 A5 ltac:(lia)) as (Hloc2 & Hg2 & Hc2). fold z V2 in Hloc2, Hg2, Hc2.
  pose proof (w_grown _ _ _ _ _ _ _ _ A4) as Hg. pose proof (g_inode _ _ _ _ _ _ Hg) as Hip1.
  assert (ino V2 i = set_i_size z ip1) as Hino by (apply ino_put; [apply (im_ok _ _ A1)|done|by rewrite Hip1..]).
  assert (m_freeblock m <= m_freeblock m1) as Hfree by (pose proof (nb_mono (i_size ip) z ltac:(lia)); lia).
  exists m2, V2. split; [done|]. split.
  { apply (volume_put m V n i Hv Hi m1 V1 ip1 (wr 4 8 z din1) Hg A1 Hfree (d_len _ _ Hdin2) m2 (set_i_size z ip1)); try done. lia. }
  split; [lia|]. split.
  { rewrite Hino. split_and!; [done| |done]. by rewrite Hip1. }
  split.
  - intros j Hj Hne. unfold same_inode, V2. rewrite (kept_inode m V n i Hv Hi m1 V1 ip1 (wr 4 8 z din1) Hg A1 (d_len _ _ Hdin2) j) by done.
    split; [done|]. by destruct (kept_file m V n i Hv Hi m1 V1 ip1 (wr 4 8 z din1) Hg A1 Hfree (d_len _ _ Hdin2) j Hj Hne) as (_ & _ & ->).
  - intros b Hb. unfold V2. rewrite put_ino_ne by lia. apply (g_other _ _ _ _ _ _ Hg). apply front_other. lia.
Qed.

(** ** [ialloc] *)

Definition new_inode (n type : Z) : inode := mkInode 1 n 1 (mkSleeplock false 0) true type 0 0 1 0 (replicate 13 0).

Lemma new_din n type : type = T_DIR \/ type = T_FILE -> din_is (wr 4 8 0 (wr 2 6 1 (wr 2 0 type (replicate 64 0)))) (new_inode n type).
Proof. intros [->| ->]; split; try done; apply (bool_decide_unpack _); by vm_compute. Qed.

Lemma new_loc V n type p : loc V (new_inode n type) p = 0.
Proof. unfold FsFile.loc, ind. destruct (Nat.ltb_spec p 13); [|done]. cbn [new_inode i_addrs]. by rewrite lookup_replicate_2. Qed.

Lemma new_good V n type : good_file V (new_inode n type).
Proof.
  split; [|split|cbn; lia].
  - split; [done|done| |]; intros p; [|intros q]; by rewrite new_loc.
  - intros bn Hbn. rewrite new_loc. cbn. lia.
  - cbn. lia.
Qed.

(** Writing an inode changes no block of a file. *)
Lemma put_kept m V n i din j : volume m V n -> 0 <= i < 200 -> 1 <= j < n ->
  (forall p, (p < 141)%nat -> loc (put_ino V i din) (ino V j) p = loc V (ino V j) p) /\ good_file (put_ino V i din) (ino V j) /\
  contents (put_ino V i din) (ino V j) = contents V (ino V j).
Proof.
  intros Hv Hi Hj. pose proof (vo_file _ _ _ Hv j Hj) as Hg. apply good_frame; [done| |].
  - intros p Hp Hnz. destruct (f_used _ _ _ _ (gf_file _ _ Hg) p Hp Hnz) as [Hr _]. change (59 <= loc V (ino V j) p < 1000) in Hr.
    apply put_ino_ne; lia.
  - intros b Hb. unfold FsAlloc.bit. rewrite bblock_58 by done. by rewrite put_ino_ne by lia.
Qed.

Lemma ialloc_spec m V n type : volume m V n -> n < 200 -> type = T_DIR \/ type = T_FILE ->
  exists m' V', ialloc type m = Some (n, m') /\ volume m' V' (n + 1) /\ m_freeblock m' = m_freeblock m /\ ino V' n = new_inode n type /\
    (forall j, 1 <= j < n -> same_inode V V' j) /\ same_front V V'.
Proof.
  intros Hv Hlt Hty. pose proof Hv as [Him Hnx Hn Hfile Hap]. unfold ialloc. rewrite Hnx, u32_small by lia.
  pose proof (new_din n type Hty) as Hdin. set (din := wr 4 8 0 _) in *.
  assert (imaged (mkImage (m_blocks m) (n + 1) (m_freeblock m)) V) as Him' by by destruct Him.
  destruct (winode_spec _ V n din Him' ltac:(lia) (d_len _ _ Hdin) (d_bytes _ _ Hdin)) as (m2 & -> & B1 & B2 & B3). cbn [m_freeblock m_freeinode] in B2, B3.
  cbn [mbind option_bind]. set (V2 := put_ino V n din) in *.
  assert (ino V2 n = new_inode n type) as Hino by (by apply ino_put; [apply (im_ok _ _ Him)|..]).
  assert (forall j, 1 <= j < n -> ino V2 j = ino V j) as Hinoj.
  { intros j Hj. apply ino_put_ne; [apply (im_ok _ _ Him)|apply (d_len _ _ Hdin)|lia..]. }
  pose proof (fun j Hj => put_kept m V n n din j Hv ltac:(lia) Hj) as Hkept. fold V2 in Hkept.
  exists m2, V2. split; [done|]. split; [|split_and!; [done|done| |]].
  - split; [done|done|lia| |].
    + intros j Hj. destruct (decide (j = n)) as [->|Hne]; [rewrite Hino; apply new_good|]. rewrite Hinoj by lia. apply Hkept. lia.
    + intros j k p q Hj Hk Hjk Hp Hq. destruct (decide (j = n)) as [->|Hjn]; [by rewrite Hino, new_loc|].
      rewrite (Hinoj j) by lia. destruct (Hkept j ltac:(lia)) as (-> & _); [|done]. destruct (decide (k = n)) as [->|Hkn]; [by rewrite Hino, new_loc|].
      rewrite (Hinoj k) by lia. destruct (Hkept k ltac:(lia)) as (-> & _); [|done]. apply Hap; done || lia.
  - intros j Hj. unfold same_inode. rewrite Hinoj by done. split; [done|]. by destruct (Hkept j Hj) as (_ & _ & ->).
  - intros b Hb. apply put_ino_ne; lia.
Qed.

Lemma append_pieces_spec i pieces : forall m V n, volume m V n -> 1 <= i < n -> Forall (Forall is_byte) pieces ->
  let ip := ino V i in let z := i_size ip + Z.of_nat (length (concat pieces)) in
  z <= 71680 -> m_freeblock m + nb z - nb (i_size ip) <= 1000 ->
  exists m' V', append_pieces i pieces m = Some m' /\ volume m' V' n /\ m_freeblock m' = m_freeblock m + nb z - nb (i_size ip) /\
    (i_size (ino V' i) = z /\ i_type (ino V' i) = i_type ip /\ contents V' (ino V' i) = contents V ip ++ concat pieces) /\
    (forall j, 1 <= j < n -> j <> i -> same_inode V V' j) /\ same_front V V'.
Proof.
  induction pieces as [|p pieces IH]; intros m V n Hv Hi Hby ip z Hz Hroom.
  { exists m, V. subst z. cbn in *. rewrite Z.add_0_r, app_nil_r. split_and!; done || lia. }
  inversion Hby as [|? ? Hp Hps]; subst. subst z. cbn [concat] in *. rewrite length_app, Nat2Z.inj_add, Z.add_assoc in *.
  pose proof (nb_mono (i_size ip + Z.of_nat (length p)) (i_size ip + Z.of_nat (length p) + Z.of_nat (length (concat pieces))) ltac:(lia)) as Hmono.
  destruct (iappend_spec m V n i p Hv Hi Hp) as (m1 & V1 & H1 & Hv1 & F1 & (Hs1 & Ht1 & Hc1) & Ho1 & Hf1); [fold ip; lia..|]. fold ip in Hs1, Ht1, Hc1, F1.
  destruct (IH m1 V1 n Hv1 Hi Hps) as (m2 & V2 & H2 & Hv2 & F2 & (Hs2 & Ht2 & Hc2) & Ho2 & Hf2); [rewrite Hs1; lia..|].
  exists m2, V2. cbn [append_pieces]. rewrite H1. cbn [mbind option_bind]. rewrite Hs1 in *.
  split; [exact H2|]. split; [exact Hv2|]. split; [lia|]. split; [split; [exact Hs2|split; [by rewrite Ht2|by rewrite Hc2, Hc1, app_assoc]]|]. split.
  - intros j Hj Hne. destruct (Ho1 j Hj Hne) as [E1 C1], (Ho2 j Hj Hne) as [E2 C2]. split; congruence.
  - intros b Hb. by rewrite Hf2, Hf1.
Qed.

(** ** Files *)

Notation hostfile := (list Z * list (list Z))%type.

Definition strip (name : list Z) : list Z := match name with c :: name' => if c =? 95 then name' else name | [] => name end.
Definition total (f : hostfile) : Z := Z.of_nat (length (concat (snd f))).

Record file_fits (f : hostfile) : Prop := {
  ff_name : existsb (fun c => c =? 47) (fst f) = false;
  ff_bytes : Forall is_byte (fst f) /\ Forall (Forall is_byte) (snd f);
  ff_size : total f <= 71680
}.

Lemma strip_bytes name : Forall is_byte name -> Forall is_byte (strip name).
Proof. intros Hn. destruct name as [|c name]; [done|]. cbn. destruct (c =? 95); [by inversion Hn|done]. Qed.

Lemma dirent_ok inum name : Forall is_byte name -> length (dirent_of inum name) = 16%nat /\ Forall is_byte (dirent_of inum name).
Proof.
  intros Hn. unfold dirent_of, strncpy. split.
  - rewrite length_app, length_wr by done. rewrite length_take, length_app, !length_replicate. lia.
  - apply Forall_app. split; [apply is_byte_wr; by repeat constructor|]. apply Forall_take, Forall_app. split; [done|].
    apply Forall_replicate. unfold is_byte. lia.
Qed.

(** The inode of a file of the host. *)
Definition holds_file (V : Z * Z -> list Z) (i : Z) (f : hostfile) : Prop :=
  i_size (ino V i) = total f /\ i_type (ino V i) = T_FILE /\ contents V (ino V i) = concat (snd f).

Lemma add_file_spec m V n f : volume m V n -> 2 <= n < 200 -> file_fits f ->
  let r := i_size (ino V 1) in r + 16 <= 71680 -> m_freeblock m + (nb (r + 16) - nb r) + nb (total f) <= 1000 ->
  exists m' V', add_file 1 f m = Some m' /\ volume m' V' (n + 1) /\ m_freeblock m' = m_freeblock m + (nb (r + 16) - nb r) + nb (total f) /\
    (i_size (ino V' 1) = r + 16 /\ i_type (ino V' 1) = i_type (ino V 1) /\
     contents V' (ino V' 1) = contents V (ino V 1) ++ dirent_of n (strip (fst f))) /\
    holds_file V' n f /\ (forall j, 2 <= j < n -> same_inode V V' j) /\ same_front V V'.
Proof.
  destruct f as [name pieces]. intros Hv Hn [Hname [Hnb Hpb] Hsize] r Hr Hroom. cbn [fst snd] in *. unfold add_file. rewrite Hname.
  fold (strip name). destruct (dirent_ok n (strip name) (strip_bytes _ Hnb)) as [Hdl Hdb].
  destruct (ialloc_spec m V n T_FILE Hv ltac:(lia) ltac:(by right)) as (m1 & V1 & -> & Hv1 & F1 & Hi1 & Ho1 & Hf1). cbn [mbind option_bind].
  destruct (Ho1 1 ltac:(lia)) as [Er Cr].
  pose proof (nb_mono r (r + 16) ltac:(lia)) as Hm1. pose proof (nb_mono 0 (total (name, pieces)) ltac:(unfold total; lia)) as Hm2. change (nb 0) with 0 in Hm2.
  destruct (iappend_spec m1 V1 (n + 1) 1 (dirent_of n (strip name)) Hv1 ltac:(lia) Hdb) as (m2 & V2 & -> & Hv2 & F2 & (Hs2 & Ht2 & Hc2) & Ho2 & Hf2).
  { rewrite Er, Hdl. fold r. lia. } { rewrite Er, Hdl. fold r. change (Z.of_nat 16) with 16. lia. }
  rewrite Er, Hdl in F2, Hs2. fold r in F2, Hs2. change (Z.of_nat 16) with 16 in *. cbn [mbind option_bind].
  destruct (Ho2 n ltac:(lia) ltac:(lia)) as [En Cn]. rewrite Hi1 in En.
  destruct (append_pieces_spec n pieces m2 V2 (n + 1) Hv2 ltac:(lia) Hpb) as (m3 & V3 & -> & Hv3 & F3 & (Hs3 & Ht3 & Hc3) & Ho3 & Hf3).
  { rewrite En. cbn [new_inode i_size]. unfold total in Hsize. cbn [snd] in Hsize. lia. }
  { rewrite En. cbn [new_inode i_size]. change (nb 0) with 0. unfold total in *. cbn [snd] in *. rewrite Z.add_0_l. lia. }
  rewrite En in F3, Hs3, Ht3, Hc3. cbn [new_inode i_size i_type] in F3, Hs3, Ht3. change (nb 0) with 0 in F3. rewrite Z.add_0_l in *.
  destruct (Ho3 1 ltac:(lia) ltac:(lia)) as [Er3 Cr3].
  exists m3, V3. split; [done|]. split; [done|]. split; [unfold total in *; cbn [snd] in *; lia|]. split; [|split; [|split]].
  - split; [by rewrite Er3|]. split; [by rewrite Er3, Ht2, Er|by rewrite Cr3, Hc2, Cr].
  - split_and!; [done|done|]. rewrite Hc3. unfold FsIo.contents at 1. done.
  - intros j Hj. destruct (Ho1 j ltac:(lia)) as [E1 C1], (Ho2 j ltac:(lia) ltac:(lia)) as [E2 C2], (Ho3 j ltac:(lia) ltac:(lia)) as [E3 C3]. split; congruence.
  - intros b Hb. by rewrite Hf3, Hf2, Hf1.
Qed.

(** The blocks that files take. *)
Definition file_blocks (files : list hostfile) : Z := foldr (fun f n => nb (total f) + n) 0 files.

Definition entries (n : Z) (files : list hostfile) : list Z :=
  concat (imap (fun k f => dirent_of (n + Z.of_nat k) (strip (fst f))) files).

Lemma entries_cons n f files : entries n (f :: files) = dirent_of n (strip (fst f)) ++ entries (n + 1) files.
Proof.
  unfold entries. cbn [imap concat]. rewrite Z.add_0_r. f_equal. f_equal. apply imap_ext. intros k x _. unfold compose. f_equal. lia.
Qed.

Lemma nb_total_nonneg f : 0 <= nb (total f).
Proof. change 0 with (nb 0). apply nb_mono. unfold total. lia. Qed.

Lemma file_blocks_nonneg files : 0 <= file_blocks files.
Proof.
  induction files as [|f files IH]; [done|]. unfold file_blocks in *. cbn [foldr]. pose proof (nb_total_nonneg f). lia.
Qed.

Lemma add_files_spec files : forall m V n, volume m V n -> 2 <= n -> n + Z.of_nat (length files) <= 200 -> Forall file_fits files ->
  let r := i_size (ino V 1) in let r' := r + 16 * Z.of_nat (length files) in
  0 <= r -> r' <= 71680 -> m_freeblock m + (nb r' - nb r) + file_blocks files <= 1000 ->
  exists m' V', add_files 1 files m = Some m' /\ volume m' V' (n + Z.of_nat (length files)) /\
    (i_size (ino V' 1) = r' /\ i_type (ino V' 1) = i_type (ino V 1) /\ contents V' (ino V' 1) = contents V (ino V 1) ++ entries n files) /\
    (forall k f, files !! k = Some f -> holds_file V' (n + Z.of_nat k) f) /\
    (forall j, 2 <= j < n -> same_inode V V' j) /\ same_front V V'.
Proof.
  induction files as [|f files IH]; intros m V n Hv Hn Hmax Hfits r r' Hr Hr' Hroom.
  { exists m, V. subst r'. cbn [length] in *. change (Z.of_nat 0) with 0. rewrite Z.mul_0_r, !Z.add_0_r, app_nil_r. done. }
  inversion Hfits as [|? ? Hf Hfs]; subst. subst r'. cbn [length foldr file_blocks] in *. fold (file_blocks files) in Hroom. rewrite Nat2Z.inj_succ in *.
  pose proof (nb_mono (r + 16) (r + 16 * Z.succ (Z.of_nat (length files))) ltac:(lia)) as Hm. pose proof (file_blocks_nonneg files).
  destruct (add_file_spec m V n f Hv ltac:(lia) Hf) as (m1 & V1 & H1 & Hv1 & F1 & (Hs1 & Ht1 & Hc1) & Hh1 & Ho1 & Hf1); [fold r; lia..|]. fold r in F1, Hs1.
  destruct (IH m1 V1 (n + 1) Hv1 ltac:(lia) ltac:(lia) Hfs) as (m2 & V2 & H2 & Hv2 & (Hs2 & Ht2 & Hc2) & Hh2 & Ho2 & Hf2); [rewrite Hs1; lia..| |].
  { rewrite Hs1, F1. replace (r + 16 + 16 * Z.of_nat (length files)) with (r + 16 * Z.succ (Z.of_nat (length files))) by lia. lia. }
  exists m2, V2. cbn [add_files]. rewrite H1. cbn [mbind option_bind]. split; [exact H2|]. split; [by replace (n + Z.succ (Z.of_nat (length files))) with (n + 1 + Z.of_nat (length files)) by lia|].
  split; [|split; [|split]].
  - split; [rewrite Hs2, Hs1; lia|]. split; [congruence|]. by rewrite Hc2, Hc1, entries_cons, app_assoc.
  - intros [|k] g Hk; cbn in Hk.
    + injection Hk as <-. rewrite Z.add_0_r. destruct (Ho2 n ltac:(lia)) as [E C]. unfold holds_file. rewrite C, E. exact Hh1.
    + replace (n + Z.of_nat (S k)) with (n + 1 + Z.of_nat k) by lia. by apply Hh2.
  - intros j Hj. destruct (Ho1 j Hj) as [E1 C1], (Ho2 j ltac:(lia)) as [E2 C2]. split; congruence.
  - intros b Hb. by rewrite Hf2, Hf1.
Qed.
