(* ===== verification/MkfsTheorem.v ===== *)
(** * MkfsTheorem: mkfs makes a file system the kernel can read *)

From stdpp Require Import functions base gmap list strings.
From Stdlib Require Import ZArith Lia.
From S2P Require Import Prelude State Bio Memide Cache Log LogSpec Fs FsLayout FsTx FsAlloc FsFile FsIo FsSpec User Mkfs MkfsSpec MkfsImage.

Local Open Scope Z_scope.

(** ** The empty image *)

Lemma lookup_zeroed_list (l : list nat) b : (foldl (fun img i => <[Z.of_nat i := zero_block]> img) (∅ : gmap Z (list Z)) l) !! b =
  if decide (b ∈ Z.of_nat <$> l) then Some zero_block else None.
Proof.
  induction l as [|x l IH] using rev_ind; [done|]. rewrite foldl_app. cbn [foldl]. rewrite fmap_app. destruct (decide (b = Z.of_nat x)) as [->|Hne].
  - rewrite lookup_insert_eq, decide_True; [done|]. apply elem_of_app. right. by left.
  - rewrite lookup_insert_ne, IH by done. destruct (decide (b ∈ Z.of_nat <$> l)) as [Hin|Hin].
    + rewrite decide_True; [done|]. apply elem_of_app. by left.
    + rewrite decide_False; [done|]. intros [?|[?|?%elem_of_nil]%elem_of_cons]%elem_of_app; done.
Qed.

Lemma lookup_zeroed b : zeroed !! b = if decide (0 <= b < 1000) then Some zero_block else None.
Proof.
  unfold zeroed. rewrite lookup_zeroed_list. change (Z.to_nat FSSIZE) with 1000%nat. apply decide_ext. rewrite list_elem_of_fmap. split.
  - intros (i & -> & Hi%elem_of_seq). lia.
  - intros Hb. exists (Z.to_nat b). rewrite elem_of_seq. lia.
Qed.

Definition first_view : Z * Z -> list Z := <[(1, 1) := sb_block]> (<[(1, 58) := used_bits 59]> (fun _ => zero_block)).

Lemma first_volume : volume (wsect 1 sb_block (mkImage zeroed 1 nmeta)) first_view 1.
Proof.
  assert (block_ok (used_bits 59) /\ block_ok sb_block) as [Hu Hs] by (split; (split; [done|]); apply (bool_decide_unpack _); by vm_compute).
  assert (imaged (mkImage zeroed 1 nmeta) (<[(1, 58) := used_bits 59]> (fun _ => zero_block))) as Him.
  { change nmeta with 59. split; cbn [m_blocks m_freeblock]; try lia.
    - intros b Hb H58. rewrite lookup_zeroed, decide_True by done. by rewrite fn_lookup_insert_ne by congruence.
    - intros b. rewrite lookup_zeroed. case_decide; [by split; [|eexists]|split; [by intros [? ?]|done]].
    - intros [e b] Hk. rewrite fn_lookup_insert_ne; [done|]. intros [= <- <-]. cbn in Hk. lia.
    - intros k. destruct (decide (k = (1, 58))) as [->|Hne]; [by rewrite fn_lookup_insert|rewrite fn_lookup_insert_ne by done; apply zero_block_ok].
    - by rewrite fn_lookup_insert.
    - assert (Forall (fun b => bit_set (used_bits 59) (Z.of_nat b) = (Z.of_nat b <? 59)) (seq 0 1000)) as Hall by (apply (bool_decide_unpack _); by vm_compute).
      intros b Hb. unfold FsAlloc.bit. rewrite bblock_58, fn_lookup_insert by done. change BPB with 4096. rewrite Z.mod_small by lia.
      rewrite Forall_forall in Hall. specialize (Hall (Z.to_nat b)). rewrite elem_of_seq, Z2Nat.id in Hall by lia. apply Hall. lia.
    - intros b Hb. by rewrite fn_lookup_insert_ne by (intros [=]; lia). }
  split; [apply imaged_wsect; done || (cbn; lia)|done|lia|lia|lia].
Qed.

Lemma first_front : decode_sb (first_view (1, 1)) = mkfs_sb /\ head_n (first_view (1, 2)) = 0.
Proof. unfold first_view. rewrite fn_lookup_insert, !fn_lookup_insert_ne by done. split; by vm_compute. Qed.

(** ** The root directory *)

Lemma fix_root_spec m V n : volume m V n -> 2 <= n -> let r := i_size (ino V 1) in let z := (r / 512 + 1) * 512 in
  exists m' V', fix_root 1 m = Some m' /\ imaged m' V' /\ m_freeblock m' = m_freeblock m /\ r <= z /\
    ino V' 1 = set_i_size z (ino V 1) /\ file_ok V' (ino V' 1) /\ contents V' (ino V 1) = contents V (ino V 1) /\
    (forall j, 2 <= j < n -> same_inode V V' j /\ good_file V' (ino V j)) /\ same_front V V'.
Proof.
  intros Hv Hn r z. pose proof Hv as [Him _ Hmax Hfile _]. destruct (Hfile 1 ltac:(lia)) as [Hf _ Hs]. fold r in Hs.
  pose proof (Z.div_mod r 512 ltac:(lia)). pose proof (Z.mod_pos_bound r 512 ltac:(lia)).
  unfold fix_root, rinode, rsect. destruct (iblock_eq 1 ltac:(lia)) as [_ HIB]. rewrite (im_blocks _ _ Him) by lia. cbn [mbind option_bind].
  pose proof (ino_din V 1 (im_ok _ _ Him)) as Hdin. rewrite (d_size _ _ Hdin : rd 4 8 _ = _). fold r. change BSIZE with 512. fold z.
  pose proof (din_put_size _ _ z Hdin ltac:(lia)) as Hdin2. set (din := wr 4 8 z _) in *.
  destruct (winode_spec m V 1 din Him ltac:(lia) (d_len _ _ Hdin2) (d_bytes _ _ Hdin2)) as (m2 & -> & B1 & B2 & _).
  destruct (put_kept m V n 1 din 1 Hv ltac:(lia) ltac:(lia)) as (_ & Hg1 & Hc1).
  exists m2, (put_ino V 1 din). assert (ino (put_ino V 1 din) 1 = set_i_size z (ino V 1)) as Hino by (by apply ino_put; [apply (im_ok _ _ Him)|..]).
  split; [done|]. split; [done|]. split; [done|]. split; [lia|]. split; [done|]. split; [rewrite Hino; apply file_ok_size, Hg1|]. split; [done|]. split.
  - intros j Hj. destruct (put_kept m V n 1 din j Hv ltac:(lia) ltac:(lia)) as (_ & Hg & Hc). split; [|done]. unfold same_inode.
    rewrite (ino_put_ne V 1 j din (im_ok _ _ Him) (d_len _ _ Hdin2)) by lia. done.
  - intros b Hb. apply put_ino_ne; lia.
Qed.

(** ** The finished image *)

Definition image_view (m : image) (k : Z * Z) : list Z := if k.1 =? 1 then default zero_block (m_blocks m !! k.2) else zero_block.

Lemma balloc_view m V : imaged m V -> exists m', balloc (m_freeblock m) m = Some m' /\ m_freeblock m' = m_freeblock m /\ forall k, image_view m' k = V k.
Proof.
  intros Him. pose proof (im_range _ _ Him). unfold balloc. change (BSIZE * 8) with 4096. rewrite (proj2 (Z.ltb_lt _ _)) by lia. cbn [negb].
  eexists. split; [done|]. split; [done|]. intros [e b]. unfold image_view. cbn [fst snd m_blocks wsect]. change (sb_bmapstart mkfs_sb) with 58.
  destruct (Z.eqb_spec e 1) as [->|He]; [|symmetry; apply (im_out _ _ Him); by left].
  destruct (decide (b = 58)) as [->|H58]; [rewrite lookup_insert_eq; symmetry; apply (im_bitmap _ _ Him)|]. rewrite lookup_insert_ne by done.
  destruct (decide (0 <= b < 1000)) as [Hb|Hb]; [by rewrite (im_blocks _ _ Him)|]. rewrite (im_out _ _ Him) by (right; done).
  destruct (m_blocks m !! b) as [d|] eqn:Hd; [|done]. destruct Hb. by apply (im_dom _ _ Him).
Qed.

Lemma i16_range z : -32768 <= i16 z < 32768.
Proof. unfold i16. pose proof (Z.mod_pos_bound (z + 32768) 65536). lia. Qed.

Lemma get_dinode_twice o d ip : get_dinode o d (get_dinode o d ip) = get_dinode o d ip.
Proof. destruct ip. unfold get_dinode. by generalize (di_addrs o d) (di_size o d) (di_nlink o d) (di_minor o d) (di_major o d) (di_type o d). Qed.

Lemma good_regular V i : 1 <= i < 200 -> good_file V (ino V i) -> i_type (ino V i) = T_FILE -> regular V (ino V i).
Proof.
  intros Hi [Hf He Hs] Hty. split; [done| | | | | |exact (get_dinode_twice _ _ _)].
  - assert (Forall (fun a => 0 <= a < 2 ^ 32) (i_addrs (ino V i))) as Ha.
    { apply Forall_lookup. intros p a Hp. pose proof (lookup_lt_Some _ _ _ Hp) as Hl. rewrite (f_len _ _ _ _ Hf) in Hl.
      assert (loc V (ino V i) p = a) as Hla by (unfold FsFile.loc; rewrite (proj2 (Nat.ltb_lt _ _)) by done; by rewrite Hp).
      destruct (decide (a = 0)) as [->|Hn]; [lia|]. destruct (f_used _ _ _ _ Hf p ltac:(lia) ltac:(congruence)) as [Hr _].
      change (59 <= loc V (ino V i) p < 1000) in Hr. lia. }
    unfold inode_ok. rewrite (f_len _ _ _ _ Hf). split_and!; try done; try apply i16_range; lia.
  - by rewrite Hty.
  - change (0 <= i < 200). lia.
  - change (MAXFILE * BSIZE) with 71680. lia.
  - apply exact_dense; [done|lia].
Qed.

(** The root directory with its first two entries. *)
Lemma root_spec : exists m m1 m2 V, ialloc T_DIR (wsect 1 sb_block (mkImage zeroed 1 nmeta)) = Some (1, m) /\
  iappend 1 (dirent_of 1 (str ".")) m = Some m1 /\ iappend 1 (dirent_of 1 (str "..")) m1 = Some m2 /\
  volume m2 V 2 /\ m_freeblock m2 = nmeta + nb 32 /\ i_size (ino V 1) = 32 /\ i_type (ino V 1) = T_DIR /\
  contents V (ino V 1) = dirent_of 1 (str ".") ++ dirent_of 1 (str "..") /\ same_front first_view V.
Proof.
  destruct (ialloc_spec _ _ 1 T_DIR first_volume ltac:(lia) ltac:(by left)) as (m & V & H0 & Hv & F & Hino & _ & Hf0). cbn [m_freeblock wsect] in F.
  assert (Forall is_byte (str ".") /\ Forall is_byte (str "..")) as [B1 B2] by (split; apply (bool_decide_unpack _); by vm_compute).
  destruct (dirent_ok 1 (str ".") B1) as [L1 Hb1], (dirent_ok 1 (str "..") B2) as [L2 Hb2].
  destruct (iappend_spec m V 2 1 _ Hv ltac:(lia) Hb1) as (m1 & V1 & H1 & Hv1 & F1 & (S1 & T1 & C1) & _ & Hf1);
    rewrite Hino, ?L1 in *; [cbn; lia|rewrite F; by vm_compute|]. rewrite F in F1.
  destruct (iappend_spec m1 V1 2 1 _ Hv1 ltac:(lia) Hb2) as (m2 & V2 & H2 & Hv2 & F2 & (S2 & T2 & C2) & _ & Hf2);
    rewrite S1, ?L2 in *; [cbn; lia|rewrite F1; by vm_compute|].
  exists m, m1, m2, V2. do 3 (split; [done|]). split; [done|]. split; [by rewrite F2, F1|]. split; [done|]. split; [by rewrite T2, T1|].
  split; [by rewrite C2, C1|]. intros b Hb. by rewrite Hf2, Hf1, Hf0.
Qed.

(** A larger size shows more bytes after those of the file. *)
Lemma contents_resize V ip z : 0 <= i_size ip <= z ->
  contents V (set_i_size z ip) = contents V ip ++ bytes 1 V ip (i_size ip) (z - i_size ip).
Proof.
  intros Hz. change (contents V (set_i_size z ip)) with (bytes 1 V ip 0 z). replace z with (i_size ip + (z - i_size ip)) at 1 by lia.
  by rewrite bytes_app by lia.
Qed.

(** What mkfs has written, before the bitmap. *)
Record made (files : list hostfile) (V : Z * Z -> list Z) : Prop := {
  md_front : decode_sb (V (1, 1)) = mkfs_sb /\ head_n (V (1, 2)) = 0;
  md_files k f : files !! k = Some f -> regular V (ino V (2 + Z.of_nat k)) /\ holds_file V (2 + Z.of_nat k) f;
  md_root : i_type (ino V 1) = T_DIR /\ file_ok V (ino V 1) /\ exists rest,
    contents V (ino V 1) = dirent_of 1 (str ".") ++ dirent_of 1 (str "..") ++ entries 2 files ++ rest
}.

Lemma mkfs_made files : Forall file_fits files -> (length files <= 198)%nat ->
  nmeta + nb (16 * (2 + Z.of_nat (length files))) + file_blocks files <= FSSIZE ->
  exists m V, mkfs files = Some m /\ made files V /\ (forall k, image_view m k = V k) /\
    (forall b, 0 <= b < 1000 -> bit V b = (b <? m_freeblock m)).
Proof.
  intros Hfits Hlen Hroom. change nmeta with 59 in Hroom. change FSSIZE with 1000 in Hroom.
  destruct root_spec as (m0 & m1 & m2 & V2 & H0 & H1 & H2 & Hv2 & F2 & S2 & T2 & C2 & Hf2). change nmeta with 59 in F2.
  replace (16 * (2 + Z.of_nat (length files))) with (32 + 16 * Z.of_nat (length files)) in Hroom by lia.
  destruct (add_files_spec files m2 V2 2 Hv2 ltac:(lia) ltac:(lia) Hfits) as (m3 & V3 & H3 & Hv3 & (S3 & T3 & C3) & Hh3 & _ & Hf3); [rewrite ?S2; lia..|].
  destruct (fix_root_spec m3 V3 _ Hv3 ltac:(lia)) as (m4 & V4 & H4 & Him4 & F4 & Hz & I4 & Hok4 & C4 & Hk4 & Hf4).
  destruct (balloc_view m4 V4 Him4) as (m5 & H5 & F5 & Hview).
  exists m5, V4. split; [|split; [|split; [done|]]].
  - unfold mkfs. rewrite H0. cbn [mbind option_bind]. change (negb (1 =? ROOTINO)) with false. cbn iota. rewrite H1. cbn [mbind option_bind].
    rewrite H2. cbn [mbind option_bind]. rewrite H3. cbn [mbind option_bind]. rewrite H4. cbn [mbind option_bind]. exact H5.
  - assert (forall b, 0 <= b < 32 -> V4 (1, b) = first_view (1, b)) as Hf by (intros b Hb; by rewrite Hf4, Hf3, Hf2). split.
    + rewrite !Hf by lia. exact first_front.
    + intros k f Hk. pose proof (lookup_lt_Some _ _ _ Hk). destruct (Hk4 (2 + Z.of_nat k) ltac:(lia)) as [[E C] Hg]. pose proof (Hh3 k f Hk) as Hh.
      assert (holds_file V4 (2 + Z.of_nat k) f) as Hh4 by (unfold holds_file; rewrite C, E; exact Hh). split; [|done].
      apply good_regular; [lia|by rewrite E|apply Hh4].
    + rewrite I4. cbn [i_type set_i_size]. split; [by rewrite <- T2|]. split; [by rewrite <- I4|]. eexists.
      rewrite (contents_resize V4 (ino V3 1) _ ltac:(split; [rewrite S3, S2; lia|exact Hz])), C4, C3, C2, <- !app_assoc. reflexivity.
  - intros b Hb. rewrite F5. by apply (im_bits _ _ Him4).
Qed.

(** The view of the image agrees with one that was made. *)
Lemma made_image files V V' : made files V -> (forall k, V' k = V k) -> made files V'.
Proof.
  intros [Hfr Hfi (Hty & Hok & rest & Hc)] He.
  assert (agree 1 2 30 V V') as Ha by (intros k _; apply He).
  assert (forall i, ino V' i = ino V i) as Hi by (intros i; unfold ino; by rewrite He).
  split; rewrite ?He; [done| |].
  - intros k f Hk. destruct (Hfi k f Hk) as [Hr Hh]. rewrite Hi.
    destruct (regular_agree (DD := dd) 1 2 30 demo_geometry mkfs_sb mkfs_layout V V' _ Ha Hr) as [Hr' Hc']. split; [done|].
    unfold holds_file. by rewrite Hi, Hc'.
  - rewrite Hi. split; [done|]. split; [by apply (file_agree (DD := dd) 1 2 30 demo_geometry mkfs_sb mkfs_layout V)|]. exists rest. rewrite <- Hc.
    apply list_fmap_ext. intros j p _. unfold FsIo.fbyte, FsFile.loc. by rewrite !He.
Qed.

(** C15: mkfs makes a file system.  When there are at most 198 files, none with a slash in its name or longer than MAXFILE blocks,
    and their blocks fit, mkfs finishes and in its image: the super block is the one it computed and the log is empty; the inodes
    from 2 on are, in order, regular files that satisfy the kernel's invariant of a file, with the bytes that were read from
    the host; the root directory, inode 1, begins with "." and ".." and then has the entry of each file without its underscore;
    and the bitmap marks the blocks that were handed out and no others. *)
Theorem mkfs_image files : Forall file_fits files -> (length files <= 198)%nat ->
  nmeta + nb (16 * (2 + Z.of_nat (length files))) + file_blocks files <= FSSIZE ->
  exists m, mkfs files = Some m /\ made files (image_view m) /\
    forall b, 0 <= b < FSSIZE -> bit (image_view m) b = (b <? m_freeblock m).
Proof.
  intros Hfits Hlen Hroom. destruct (mkfs_made files Hfits Hlen Hroom) as (m & V & Hm & Hmade & He & Hbits).
  exists m. split; [done|]. split; [by apply (made_image files V)|]. intros b Hb. unfold FsAlloc.bit. rewrite He. by apply Hbits.
Qed.

Definition two_files : list hostfile := [(str "README", [str "hello "; str "world"]); (str "_cat", [replicate 600 7])].

Lemma mkfs_image_witness : exists m, mkfs two_files = Some m /\ made two_files (image_view m) /\
    forall b, 0 <= b < FSSIZE -> bit (image_view m) b = (b <? m_freeblock m).
Proof.
  apply (mkfs_image two_files); [|vm_compute; lia|by vm_compute].
  repeat constructor; try done; apply (bool_decide_unpack _); by vm_compute.
Defined.

(** Thirty files: the entries fill one block and the size of the root directory is two, but its second block has not been
    allocated.  The kernel allocates it when it reads the directory, and [log_write] panics outside a transaction. *)
Example root_hole : (fun m => (i_size (ino (image_view m) 1), loc (image_view m) (ino (image_view m) 1) 1)) <$> mkfs (replicate 30 (str "f", [])) = Some (1024, 0).
Proof. by vm_compute. Qed.
